(* ===== verification/_CoqProject ===== *)
-Q . S2P
Prelude.v
Registers.v
LazyFlags.v
AluOps.v
AluMulDiv.v
AluFlags.v
FlagProofs.v
AluProofs.v
ShiftProofs.v
RotateProofs.v
AluSpec.v
MulDivProofs.v
DivProofs.v
BcdProofs.v
GuestMemory.v
GuestMemoryProofs.v
PageAlloc.v
PageSearch.v
PageBlocks.v
PageOverrun.v
PageTheorems.v
PageResize.v
PageSpec.v
PageHandlers.v
Paging.v
PageWalk.v
PagedAccess.v
TlbProofs.v
RealMode.v
PagedMode.v
MemoryCtl.v
Pic.v
PicProofs.v
EventQueue.v
EventQueueProofs.v
EventOrder.v
EventService.v
Timer.v
TimerProofs.v
TimerTheorems.v
TimerLatch.v
TimerPorts.v
DosMcb.v
DosMemory.v
DosChain.v
DosSearch.v
DosAlloc.v
DosResize.v
DosFree.v
Xms.v
XmsProofs.v
XmsMove.v
Dma.v
DmaProofs.v
DmaPorts.v
CpuState.v
CpuProtect.v
CpuControl.v
CpuFrames.v
CpuDemo.v
CpuInvariant.v
CpuTheorems.v
CpuReturn.v
Ems.v
EmsVcpi.v
EmsProofs.v
EmsInvariant.v
EmsMapping.v
EmsServer.v
EmsLife.v
EmsTheorems.v
