(* ===== verification/Prelude.v ===== *)
(** * DOSBox core: a verification library

    A model of the parts of DOSBox that carry its own logic, translated from
    [src/src/], with the theorems that make them correct.  The emulator runs a guest
    program on an emulated processor ([cpu/]); its loads and stores go through the
    paging unit to page handlers and memory ([cpu/paging.cpp],
    [hardware/memory.cpp]); devices post timed events and raise interrupt requests
    ([hardware/pic.cpp]); the DOS kernel ([dos/]) keeps its own structures in guest
    memory.  The library follows that order.

    ** Conventions

    A [w]-bit unsigned integer is the [Z] in [[0, 2^w)]; the narrowing of an
    assignment is written out ([u8], [u16], [u32], [s32], ...).  Accesses outside an
    array, [E_Exit], an assertion that fails and spent fuel are the errors of [exec];
    undefined behaviour (dereferencing a null or freed object, a shift past the width, a
    conversion out of range) is [err OutOfBounds].  The host has 64 bits, and assertions
    are those of a debug build.  Registers and the CPU's cycle counters are the
    unbounded [Z] where the code does not wrap them.  Logging is left out.

    ** Processor ([cpu/registers.h], [cpu/lazyflags.h], [cpu/flags.cpp],
    [cpu/instructions.h])

    [Registers] is the register file.  [LazyFlags] is the lazy flags record with the
    getters [get_CF] ... [get_PF], [FillFlags] and [FillFlagsNoCFOF], one case per
    instruction type as in [flags.cpp].  [AluOps] and [AluMulDiv] have one definition
    per instruction macro of [instructions.h].  [AluFlags] is the architectural
    definition of the flags over integers; [AluProofs], [ShiftProofs] and
    [RotateProofs] connect each macro with it.  [AluSpec] has the simulation: any
    program of ALU instructions shows the flags of a processor that computes them
    eagerly.  [FlagProofs]: writing the flags back stores what the getters report, but
    for two flags where they disagree.
    [MulDivProofs], [DivProofs], [BcdProofs]: products, quotients with the divide
    error and the undefined C++ divisions, packed decimal sums.

    ** Memory ([hardware/memory.cpp], [utils/mem_host.h])

    [GuestMemory] has the routines composed from byte accesses, over the interface
    [ByteMemory]; [GuestMemoryProofs] shows round trips and the bytes a faulting
    access leaves.  [PageAlloc] is the extended-memory page allocator on
    [memory.mhandles]; [PageSearch] its searches, [PageBlocks] the ownership
    invariant, [PageOverrun] the condition [overruns], which is exact for the scattered
    allocation to leave the page table, and [PageTheorems], [PageResize] and [PageSpec]
    the theorems on allocation, release and resizing of any page table.  A walk along a chain of pages has the fuel [walk_fuel], one more than
    the pages there are.  [PageHandlers] is the table of page handlers; [MemoryCtl]
    the A20 gate, port 0x92, the frame buffer and the constructor.

    ** Paging ([cpu/paging.cpp], [cpu/paging.h])

    [Paging] has the machine's memory state, the TLB and page faults, [PageWalk] the
    handlers that fill the TLB, [PagedAccess] the accesses of every width, plain and
    checked, generic in their number of bytes.  [TlbProofs]: a flush leaves no
    translation, after any sequence of operations.  [RealMode]: with paging off and a
    TLB whose entries are those of the page map, an access to RAM, ROM or unmapped pages
    is one to physical memory behind that map (the refinement that justifies
    [ByteMemory]).  [PagedMode]: the walk, its marks and its faults, and two
    defects in the handler of read-only pages.  A recursion of a handler into the
    accesses is bounded by [access_fuel] = 3: an access finds an unlinked page, a
    read-only one, and then a linked one.

    ** Interrupts and events ([hardware/pic.cpp], [hardware/pic.h])

    [Pic] is the two 8259 controllers with their cascade and ports; [PicProofs]: the
    processor's check flag and the cascade request are up exactly when they should be,
    in every reachable state, and delivery picks the right vector.  [EventQueue] is
    the queue of timed events in its array of linked entries, and the tick handlers.
    [EventQueueProofs] has the invariant (the two lists are disjoint, in the array,
    and the pending one is sorted); [EventOrder]: adding is a stable sorted insertion,
    removing a filter; [EventService]: a tick ages every event and calls every
    handler, and [PIC_RunQueue] returns with no due event left and the slice that ends
    with the first pending event.  Times are an
    interface [Double] with the laws of an IEEE order without NaN; [fixed_double] is
    an instance.  The loops over a list have as fuel one more than the entries of the
    array, which is more than any list in it; [PIC_RunQueue] takes its fuel as an
    argument, and the theorem asks for more than the [load] that is due.

    ** Timer ([hardware/timer.cpp], [hardware/timer.h])

    [Timer] is the 8254: the three channels, their ports, control words and read-back
    commands, the latches, the gate and output of channel 2, and the event of channel 0
    on the event queue.  [TimerProofs] has what each port access does to the pending
    event, [TimerTheorems] the invariant (one event at most, exactly one while channel 0
    runs in a periodic mode) and the period from one event to the next, [TimerLatch] the
    steps that leave a latched count alone, [TimerPorts] programming a counter and reading a latched one, and the counts that read wrong at
    the start of a period.  The speaker is the interface [Speaker]; [fmod], [round] and
    the quotient of doubles are [DoubleMath] with the laws [DoubleMathLaws].

    ** DOS memory ([dos/dos_memory.cpp], [class DOS_MCB] of [dos/dos.h])

    [DosMcb] has the fields of a memory control block as bytes of guest memory and
    their laws; [DosMemory] every operation of the allocator, on the chain in guest
    memory.  [DosChain] relates memory to a list of blocks and shows compaction to be
    [merge] on it; [DosSearch] shows the search to be a choice from the list of blocks
    visited; [DosAlloc], [DosResize] and [DosFree] have the theorems on allocation,
    resizing, freeing, the upper memory blocks and start-up, each with the data of the
    allocated blocks kept; and the corrupt chain on which compaction never ends.  A
    loop over a chain takes its fuel as an argument; the number of blocks is enough.

    ** Extended memory ([ints/xms.cpp])

    [Xms] is the driver: the table of handles, allocation and release through the page
    allocator, locks, block moves, the A20 count, the upper memory blocks of the DOS
    allocator, the dispatch on the function number, the constructor and the
    destructor.  [XmsProofs]: every function keeps the invariant that ties the handles
    to the page allocator's blocks and the gate to its count.  [XmsMove]: the life of
    the driver from constructor to destructor, block moves, and the page that a block
    of size zero shares with its neighbour.  The gate that memory sits behind is the
    interface [Gated].

    ** Expanded memory ([ints/ems.cpp], [ints/ems.h])

    [Ems] is the manager: the table of handles on the page allocator, the page frame
    and the mapped segments, saved, whole and partial page maps, names, attributes and
    moves.  [EmsVcpi] is the dispatch of interrupt 67h, VCPI on both sides of the switch
    to protected mode, the monitor of virtual-8086 mode, the tables of the server, the
    control channel of the device, and of the constructor ([EMS_start]) and the
    destructor ([EMS_end]) what they do to the manager's own state.  [EmsProofs]:
    allocation, release and resizing on every branch under the invariant [ems_inv],
    which ties the handles to blocks of the page allocator; it asks that there are fewer
    pages than 3fffch, so that a number of 16 KiB pages fits its field.  What [overruns]
    the page table is a branch of its own.  [EmsInvariant]: every function keeps it.
    [EmsMapping]: mapping on the paging model with paging off - the page frame shows
    the bytes of the mapped page, and restoring a page map shows them again.
    [EmsServer]: the descriptors, gates and stubs of the VCPI server.  [EmsLife]: the
    state that the constructor leaves, and the pages that VCPI hands out.
    [EmsTheorems]: no page is lost or shared from the constructor on, along any calls of
    the interrupt and of VCPI, and the examples.  The
    fuel of a move is one more than its rounds of at most 4096 bytes.

    ** DMA ([hardware/dma.cpp], [hardware/dma.h])

    [Dma] has the two controllers, the registers behind the byte flip-flop, the page
    registers, the callbacks of the devices and the block transfers.  [DmaProofs]: a
    transfer moves what a controller would move word by word, with wrap-around,
    terminal count and autoinit, while its blocks are at most the 64 KB that the
    assertion allows.  [DmaPorts]: the registers read back as they were
    written; and the transfer that a page register sends beyond the guest's memory.
    The fuel of a transfer is one more than its words, each round moving at least one.

    ** Protection ([cpu/cpu.cpp], [cpu/cpu.h])

    [CpuState] has the segments, descriptors, tables, control registers, flags and the
    pushes and pops; [CpuProtect] segment loads, task register, the instructions that
    inspect descriptors, the I/O permission map; [CpuControl] task switches,
    interrupts, exceptions, and the far jumps, calls and returns.  [CpuFrames]: what is
    pushed is what a return pops.  [CpuInvariant] and [CpuTheorems]: the privilege
    level is that of the code segment along any run of these operations, except for
    one return and for turning protection on with a privilege level in CS; loads agree with the instructions that predict them; the permission
    map.  [CpuReturn]: an interrupt to an inner level and the IRET of its handler
    restore the state.  [CpuDemo] is the machine of the witnesses.  An exception may
    raise another while it is delivered: the fuel of [CPU_Interrupt] bounds the chain,
    which the code does not ([exception_never_delivered]); the theorems on a delivery
    hold with any fuel above zero.

    ** Interfaces

    [ByteMemory] and its laws stand between the memory routines, the DOS structures
    and what an access does; [Flat] and, with paging off, the whole machine
    ([physical_memory] in [RealMode], for RAM) are the implementations.  [Devices] stands
    for the page handlers of devices outside [memory.cpp], [run_fault_handler] for the guest code
    that a page fault runs, [run_event] and [run_tick] for the handlers of events and
    ticks, [Double] and [DoubleMath] for floating-point times, [Speaker] for the
    speaker's counter, [PageMapping] for the map of the first megabyte (discharged by
    [machine_mapping] in [EmsMapping]), [PortIO] for the ports, [DmaClients] for the
    callbacks that devices register with a DMA channel, [PagingControl] for the paging registers that
    the processor sets, [Config] for the settings that select a processor type.

    ** Not modelled

    The decode loops and effective addresses; of [cpu.cpp], the choice of a core and
    of cycles, the debugger's breakpoints and the time stamp counter; the
    dynamic cores, which emit host code; the FPU; video, audio, disk, network and
    input devices; BIOS and DOS services, files and drives, and with them the loading of
    programs, which reads files through the drives; the shell, the
    configuration, the GUI, the debugger and the scripting interfaces.  Of paging, the
    banked TLB configuration and the code pages of the dynamic core.  Of
    EMS, the installation of its vectors, callbacks and device.  What is left is mostly
    device emulation against the host, tables, or text; the callbacks only lead from
    guest code to the functions of the other parts.

    This file: fixed-width integers and their bits, fallible computations, and arrays
    indexed by integers. *)
From Stdlib Require Export ZArith Lia Bool.
From stdpp Require Export base tactics list option numbers.
#[local] Open Scope Z_scope.

(** ** Fixed-width integers

    A [w]-bit unsigned C++ integer is the [Z] in [[0, 2^w)]; an assignment that
    narrows wraps with [wrap].  [sgn w x] is the conversion of the [w]-bit
    pattern [x] to the signed type of that width. *)
Definition wrap (w x : Z) : Z := x mod 2 ^ w.
Definition u8 (x : Z) : Z := x mod 256.
Definition u16 (x : Z) : Z := x mod 65536.
Definition u32 (x : Z) : Z := x mod 4294967296.
Definition u64 (x : Z) : Z := x mod 18446744073709551616.
Definition sgn (w x : Z) : Z := if wrap w x <? 2 ^ (w - 1) then wrap w x else wrap w x - 2 ^ w.
Definition s8 (x : Z) : Z := sgn 8 x.
Definition s16 (x : Z) : Z := sgn 16 x.
Definition s32 (x : Z) : Z := sgn 32 x.
Definition s64 (x : Z) : Z := sgn 64 x.

(** C++ truth values: an integer is true when it is not zero, a [bool] is 0 or 1. *)
Definition nz (x : Z) : bool := negb (x =? 0).
Definition b2z (b : bool) : Z := if b then 1 else 0.

(** Left-to-right function application, for the source's runs of assignments
    to one variable. *)
Declare Scope seq_scope.
Delimit Scope seq_scope with seq.
Notation "x |> f" := (f x) (at level 71, left associativity, only parsing) : seq_scope.

(** ** Automation *)
Create HintDb width.

Ltac dmods := Z.div_mod_to_equations.
(** Arithmetic with divisions and remainders by constants. *)
Ltac zlia := dmods; lia.
Ltac bdestruct_ltb :=
  match goal with
  | |- context [?a <? ?b] => destruct (Z.ltb_spec a b)
  | |- context [?a <=? ?b] => destruct (Z.leb_spec a b)
  | |- context [?a =? ?b] => destruct (Z.eqb_spec a b)
  | H : context [?a <? ?b] |- _ => destruct (Z.ltb_spec a b)
  | H : context [?a <=? ?b] |- _ => destruct (Z.leb_spec a b)
  | H : context [?a =? ?b] |- _ => destruct (Z.eqb_spec a b)
  end.
(** Prove an equation between boolean comparisons of integers. *)
Ltac zbool :=
  repeat (bdestruct_ltb; cbn [andb orb negb xorb] in *; try lia; try reflexivity; try discriminate).

Lemma nz_spec x : nz x = true <-> x <> 0.
Proof. unfold nz. rewrite negb_true_iff, Z.eqb_neq. done. Qed.

Lemma nz_b2z b : nz (b2z b) = b.
Proof. by destruct b. Qed.

Lemma nz_0 : nz 0 = false.
Proof. done. Qed.

Lemma wrap_range w x : 0 <= w -> 0 <= wrap w x < 2 ^ w.
Proof. intros. apply Z.mod_pos_bound. lia. Qed.

Lemma wrap_small w x : 0 <= x < 2 ^ w -> wrap w x = x.
Proof. apply Z.mod_small. Qed.

Lemma wrap_wrap w x : wrap w (wrap w x) = wrap w x.
Proof. unfold wrap. destruct (Z.eq_dec (2 ^ w) 0) as [->|]; [by rewrite !Z.mod_0_r|apply Z.mod_mod; lia]. Qed.

(** The three widths the ALU code is instantiated at. *)
Lemma u8_wrap x : u8 x = wrap 8 x. Proof. done. Qed.
Lemma u16_wrap x : u16 x = wrap 16 x. Proof. done. Qed.
Lemma u32_wrap x : u32 x = wrap 32 x. Proof. done. Qed.

Lemma u8_range x : 0 <= u8 x < 256.
Proof. apply Z.mod_pos_bound; lia. Qed.
Lemma u16_range x : 0 <= u16 x < 65536.
Proof. apply Z.mod_pos_bound; lia. Qed.
Lemma u32_range x : 0 <= u32 x < 4294967296.
Proof. apply Z.mod_pos_bound; lia. Qed.
Lemma u8_small x : 0 <= x < 256 -> u8 x = x.
Proof. apply Z.mod_small. Qed.
Lemma u16_small x : 0 <= x < 65536 -> u16 x = x.
Proof. apply Z.mod_small. Qed.
Lemma u32_small x : 0 <= x < 4294967296 -> u32 x = x.
Proof. apply Z.mod_small. Qed.
#[export] Hint Resolve u8_range u16_range u32_range : width.

(** ** Bits *)
Lemma testbit_above w x i : 0 <= w <= i -> 0 <= x < 2 ^ w -> Z.testbit x i = false.
Proof.
  intros Hi Hx. rewrite Z.testbit_eqb by lia.
  rewrite Z.div_small; [done|]. pose proof (Z.pow_le_mono_r 2 w i). lia.
Qed.

Lemma testbit_top w x : 0 < w -> 0 <= x < 2 ^ w -> Z.testbit x (w - 1) = (2 ^ (w - 1) <=? x).
Proof.
  intros Hw Hx. rewrite Z.testbit_eqb by lia.
  assert (2 ^ w = 2 * 2 ^ (w - 1)) as E
      by (rewrite <- Z.pow_succ_r by lia; f_equal; lia).
  destruct (Z.leb_spec (2 ^ (w - 1)) x).
  - replace (x / 2 ^ (w - 1)) with 1; [done|].
    apply Z.div_unique with (x - 2 ^ (w - 1)); lia.
  - rewrite Z.div_small by lia. done.
Qed.

Lemma land_pow2 x n : 0 <= n -> Z.land x (2 ^ n) = if Z.testbit x n then 2 ^ n else 0.
Proof.
  intros Hn. apply Z.bits_inj'. intros i Hi. rewrite Z.land_spec, Z.pow2_bits_eqb by lia.
  destruct (Z.eqb_spec n i) as [->|Hne].
  - destruct (Z.testbit x i); [rewrite Z.pow2_bits_true by lia|rewrite Z.bits_0]; done.
  - rewrite andb_false_r. destruct (Z.testbit x n); [|by rewrite Z.bits_0].
    rewrite Z.pow2_bits_false by lia. done.
Qed.

Lemma nz_land_pow2 x n : 0 <= n -> nz (Z.land x (2 ^ n)) = Z.testbit x n.
Proof.
  intros Hn. rewrite land_pow2 by done.
  destruct (Z.testbit x n); [|done]. unfold nz. pose proof (Z.pow_pos_nonneg 2 n).
  destruct (Z.eqb_spec (2 ^ n) 0); [lia|done].
Qed.

Lemma land_1 x : Z.land x 1 = b2z (Z.testbit x 0).
Proof. change 1 with (2 ^ 0) at 1. rewrite land_pow2 by lia. by destruct (Z.testbit x 0). Qed.

Lemma testbit_mod x i n : 0 <= n -> Z.testbit (x mod 2 ^ n) i = (i <? n) && Z.testbit x i.
Proof.
  intros. destruct (Z.ltb_spec i n).
  - rewrite andb_true_l. by apply Z.mod_pow2_bits_low.
  - apply Z.mod_pow2_bits_high. lia.
Qed.

Lemma bits_bound w r :
  0 <= w -> 0 <= r -> (forall i, w <= i -> Z.testbit r i = false) -> r < 2 ^ w.
Proof.
  intros Hw Hr H. assert (r = r mod 2 ^ w) as ->; [|apply Z.mod_pos_bound; lia].
  apply Z.bits_inj'. intros i Hi. rewrite testbit_mod by done.
  destruct (Z.ltb_spec i w); [done|]. by rewrite H by lia.
Qed.

Lemma bitop_fits (op : Z -> Z -> Z) f w x y :
  (forall a b n, Z.testbit (op a b) n = f (Z.testbit a n) (Z.testbit b n)) -> f false false = false ->
  (forall a b, 0 <= a -> 0 <= b -> 0 <= op a b) ->
  0 <= w -> 0 <= x < 2 ^ w -> 0 <= y < 2 ^ w -> 0 <= op x y < 2 ^ w.
Proof.
  intros Hop Hf Hp Hw Hx Hy. split; [apply Hp; lia|].
  apply bits_bound; [done|apply Hp; lia|]. intros i Hi.
  by rewrite Hop, !(testbit_above w) by lia.
Qed.

Lemma land_fits w x y : 0 <= w -> 0 <= x < 2 ^ w -> 0 <= y < 2 ^ w -> 0 <= Z.land x y < 2 ^ w.
Proof. apply (bitop_fits _ andb); [apply Z.land_spec|done|]. intros. rewrite Z.land_nonneg. lia. Qed.
Lemma lor_fits w x y : 0 <= w -> 0 <= x < 2 ^ w -> 0 <= y < 2 ^ w -> 0 <= Z.lor x y < 2 ^ w.
Proof. apply (bitop_fits _ orb); [apply Z.lor_spec|done|]. intros. rewrite Z.lor_nonneg. lia. Qed.
Lemma lxor_fits w x y : 0 <= w -> 0 <= x < 2 ^ w -> 0 <= y < 2 ^ w -> 0 <= Z.lxor x y < 2 ^ w.
Proof. apply (bitop_fits _ xorb); [apply Z.lxor_spec|done|]. intros. rewrite Z.lxor_nonneg. lia. Qed.

(** The carry into bit [n] of a sum, and the bit of the sum it yields. *)
Lemma testbit_add3 x y c n :
  0 <= n -> 0 <= c <= 1 ->
  Z.testbit (x + y + c) n =
  xorb (xorb (Z.testbit x n) (Z.testbit y n)) (2 ^ n <=? x mod 2 ^ n + y mod 2 ^ n + c).
Proof.
  intros Hn Hc. rewrite !Z.testbit_odd, !Z.shiftr_div_pow2 by lia.
  set (P := 2 ^ n). assert (0 < P) by (subst P; lia).
  pose proof (Z.mod_pos_bound x P). pose proof (Z.mod_pos_bound y P).
  replace ((x + y + c) / P) with (x / P + y / P + b2z (P <=? x mod P + y mod P + c)).
  { rewrite !Z.odd_add. by destruct (P <=? _). }
  pose proof (Z.div_mod x P). pose proof (Z.div_mod y P).
  destruct (Z.leb_spec P (x mod P + y mod P + c)); cbn [b2z].
  - apply Z.div_unique with (x mod P + y mod P + c - P); lia.
  - apply Z.div_unique with (x mod P + y mod P + c); lia.
Qed.

(** The borrow into bit [n] of a difference. *)
Lemma testbit_sub3 x y c n :
  0 <= n -> 0 <= c <= 1 ->
  Z.testbit (x - y - c) n =
  xorb (xorb (Z.testbit x n) (Z.testbit y n)) (x mod 2 ^ n <? y mod 2 ^ n + c).
Proof.
  intros Hn Hc. rewrite !Z.testbit_odd, !Z.shiftr_div_pow2 by lia.
  set (P := 2 ^ n). assert (0 < P) by (subst P; lia).
  pose proof (Z.mod_pos_bound x P). pose proof (Z.mod_pos_bound y P).
  replace ((x - y - c) / P) with (x / P - y / P - b2z (x mod P <? y mod P + c)).
  { rewrite !Z.odd_sub. by destruct (_ <? _). }
  pose proof (Z.div_mod x P). pose proof (Z.div_mod y P).
  destruct (Z.ltb_spec (x mod P) (y mod P + c)); cbn [b2z].
  - apply Z.div_unique with (x mod P - y mod P - c + P); lia.
  - apply Z.div_unique with (x mod P - y mod P - c); lia.
Qed.

(** Quotient and remainder of a number written as [a * m + b]. *)
Lemma div_join a b m : 0 <= b < m -> (a * m + b) / m = a.
Proof. intros. symmetry. apply Z.div_unique with b; lia. Qed.
Lemma mod_join a b m : 0 <= b < m -> (a * m + b) mod m = b.
Proof. intros. symmetry. apply Z.mod_unique with a; lia. Qed.

(** A shifted high part joined with a low part that fits below it. *)
Lemma lor_join a b w : 0 <= w -> 0 <= b < 2 ^ w -> Z.lor (Z.shiftl a w) b = a * 2 ^ w + b.
Proof.
  intros Hw Hb. rewrite <- Z.shiftl_mul_pow2 by done. symmetry. apply Z.add_nocarry_lor.
  apply Z.bits_inj'. intros i Hi. rewrite Z.land_spec, Z.bits_0, Z.shiftl_spec by done.
  destruct (Z.le_gt_cases w i).
  - by rewrite (testbit_above w b), andb_false_r by lia.
  - by rewrite Z.testbit_neg_r by lia.
Qed.

(** ** Fallible and non-structural computations

    [exec A]: a value, or the reason the C++ code has none: an access outside an
    array (undefined behaviour), [E_Exit], an assertion that fails (in a debug build),
    or the fuel of the model spent. *)
Inductive fault := OutOfBounds | Exit | AssertFailed | OutOfFuel.
Inductive exec (A : Type) := ok (a : A) | err (f : fault).
Arguments ok {A} a.
Arguments err {A} f.
Definition exec_bind {A B} (m : exec A) (k : A -> exec B) : exec B :=
  match m with ok a => k a | err f => err f end.
Declare Scope exec_scope.
Delimit Scope exec_scope with exec.
Notation "'let*' x ':=' m 'in' k" := (exec_bind m (fun x => k))
  (at level 10, x pattern, m at level 100, k at level 200) : exec_scope.

Lemma exec_bind_ok {A B} (m : exec A) (k : A -> exec B) b :
  exec_bind m k = ok b -> exists v, m = ok v /\ k v = ok b.
Proof. destruct m as [v|f]; [by exists v|done]. Qed.

(** Invert the successful run of a computation, one bind or test at a time. *)
Ltac exec_step H :=
  match type of H with
  | exec_bind _ _ = ok _ =>
      let v := fresh "v" in let E := fresh "E" in
      apply exec_bind_ok in H as (v & E & H); cbv beta in H;
      repeat match type of H with context [match ?x with pair _ _ => _ end] => is_var x; destruct x end;
      cbv beta iota in H
  | (if ?b then _ else _) = ok _ => let E := fresh "E" in destruct b eqn:E
  | (match ?x with _ => _ end) = ok _ => let E := fresh "E" in destruct x eqn:E
  | ok _ = ok _ => injection H as H
  | err _ = ok _ => discriminate H
  end.
Ltac exec_inv H := cbv zeta in H; repeat (exec_step H; cbv zeta in H).
(** The same for every run among the hypotheses. *)
Ltac exec_all :=
  repeat (match goal with
          | H : ok _ = ok _ |- _ => injection H as; subst
          | H : _ = ok _ |- _ => exec_step H
          end; cbv zeta in *).

(** *** Arrays indexed by integers *)
Definition get {A} (l : list A) (i : Z) : option A := if i <? 0 then None else l !! Z.to_nat i.
Definition in_range {A} (l : list A) (i : Z) : bool := (0 <=? i) && (i <? Z.of_nat (length l)).
Definition read {A} (l : list A) (i : Z) : exec A :=
  match get l i with Some v => ok v | None => err OutOfBounds end.
Definition write {A} (l : list A) (i : Z) (v : A) : exec (list A) :=
  if in_range l i then ok (<[Z.to_nat i := v]> l) else err OutOfBounds.
(** The list after an assignment that is in range. *)
Definition upd {A} (l : list A) (i : Z) (v : A) : list A := <[Z.to_nat i := v]> l.

Section Arrays.
Context {A : Type}.
Implicit Types (l : list A) (i j : Z) (v : A).

Lemma in_range_spec l i : in_range l i = true <-> 0 <= i < Z.of_nat (length l).
Proof using. unfold in_range. rewrite andb_true_iff, Z.leb_le, Z.ltb_lt. done. Qed.
Lemma get_Some_range l i v : get l i = Some v -> 0 <= i < Z.of_nat (length l).
Proof using.
  unfold get. destruct (Z.ltb_spec i 0); [done|]. intros Hl%lookup_lt_Some. lia.
Qed.
Lemma get_range l i : 0 <= i < Z.of_nat (length l) -> exists v, get l i = Some v.
Proof using.
  intros Hi. unfold get. destruct (Z.ltb_spec i 0); [lia|]. apply lookup_lt_is_Some. lia.
Qed.
Lemma get_None_range l i : get l i = None -> 0 <= i -> Z.of_nat (length l) <= i.
Proof using.
  intros H Hi. destruct (Z.le_gt_cases (Z.of_nat (length l)) i) as [|Hlt]; [done|].
  destruct (get_range l i) as [v Hv]; [lia|congruence].
Qed.
Lemma length_upd l i v : length (upd l i v) = length l.
Proof using. apply length_insert. Qed.
Lemma get_upd_eq l i v : 0 <= i < Z.of_nat (length l) -> get (upd l i v) i = Some v.
Proof using.
  intros. unfold get, upd. destruct (Z.ltb_spec i 0); [lia|]. apply list_lookup_insert_eq. lia.
Qed.
Lemma get_upd_ne l i j v : 0 <= i -> i <> j -> get (upd l i v) j = get l j.
Proof using.
  intros. unfold get, upd. destruct (Z.ltb_spec j 0); [done|]. apply list_lookup_insert_ne. lia.
Qed.
Lemma get_upd l i j v :
  0 <= i < Z.of_nat (length l) -> get (upd l i v) j = if i =? j then Some v else get l j.
Proof using.
  intros. destruct (Z.eqb_spec i j) as [->|]; [by apply get_upd_eq|apply get_upd_ne; lia].
Qed.
Lemma read_get l i v : get l i = Some v -> read l i = ok v.
Proof using. unfold read. by intros ->. Qed.
Lemma write_upd l i v : 0 <= i < Z.of_nat (length l) -> write l i v = ok (upd l i v).
Proof using. intros H. unfold write. by rewrite (proj2 (in_range_spec l i) H). Qed.

Lemma read_inv l i v : read l i = ok v -> get l i = Some v.
Proof using. unfold read. by destruct (get l i); [intros [= ->]|]. Qed.
Lemma write_inv l i v l' : write l i v = ok l' -> 0 <= i < Z.of_nat (length l) /\ l' = upd l i v.
Proof using. unfold write. destruct (in_range l i) eqn:E; [|done]. intros [= <-]. by rewrite <- in_range_spec. Qed.

(** The suffix from [i], as a loop over an index sees it. *)
Lemma drop_cons_get l i v : get l i = Some v -> drop (Z.to_nat i) l = v :: drop (Z.to_nat (i + 1)) l.
Proof using.
  intros H. pose proof (get_Some_range _ _ _ H). unfold get in H. destruct (Z.ltb_spec i 0); [done|].
  rewrite (drop_S l v (Z.to_nat i)) by done. do 2 f_equal. lia.
Qed.
Lemma drop_nil_get l i : 0 <= i -> Z.of_nat (length l) <= i -> drop (Z.to_nat i) l = [].
Proof using. intros. apply drop_ge. lia. Qed.
End Arrays.

(** Distinct indices below [n] are no more than [n]. *)
Lemma distinct_bound (c : list Z) n :
  0 <= n -> NoDup c -> (forall q, q ∈ c -> 0 <= q < n) -> Z.of_nat (length c) <= n.
Proof.
  intros Hn Hd Hr. assert (c ⊆+ seqZ 0 n) as Hs%submseteq_length.
  { apply NoDup_submseteq; [done|]. intros q Hq. apply elem_of_seqZ. specialize (Hr q Hq). lia. }
  rewrite length_seqZ in Hs. lia.
Qed.

Lemma elem_of_concat {A} (x : A) ls : x ∈ concat ls <-> exists l, x ∈ l /\ l ∈ ls.
Proof.
  rewrite list_elem_of_In, in_concat. split; intros (l & H1 & H2); exists l; rewrite !list_elem_of_In in *; done.
Qed.
