(* ===== verification/Registers.v ===== *)
(** * The CPU register file ([cpu/registers.h])

    The flag masks, the [GenReg32] union with its byte and word views on a
    little-endian host, [CPU_Regs], and the [CpuTestFlags] helper. *)
From S2P Require Import Prelude.
#[local] Open Scope Z_scope.

(** ** Flag masks *)
Definition FLAG_CF : Z := Z.shiftl 1 0.
Definition FLAG_PF : Z := Z.shiftl 1 2.
Definition FLAG_AF : Z := Z.shiftl 1 4.
Definition FLAG_ZF : Z := Z.shiftl 1 6.
Definition FLAG_SF : Z := Z.shiftl 1 7.
Definition FLAG_OF : Z := Z.shiftl 1 11.
Definition FLAG_TF : Z := Z.shiftl 1 8.
Definition FLAG_IF : Z := Z.shiftl 1 9.
Definition FLAG_DF : Z := Z.shiftl 1 10.
Definition FMASK_TEST : Z :=
  Z.lor FLAG_CF (Z.lor FLAG_PF (Z.lor FLAG_AF (Z.lor FLAG_ZF (Z.lor FLAG_SF FLAG_OF)))).

(** ** GenReg32

    [union GenReg32] overlays a dword, two words and four bytes; index 0 is the
    least significant part. *)
Definition byte_l (x : Z) : Z := x mod 256.
Definition byte_h (x : Z) : Z := (x / 256) mod 256.
Definition word_l (x : Z) : Z := x mod 65536.
Definition set_byte_l (x v : Z) : Z := x / 256 * 256 + v mod 256.
Definition set_byte_h (x v : Z) : Z := x / 65536 * 65536 + (v mod 256) * 256 + x mod 256.
Definition set_word_l (x v : Z) : Z := x / 65536 * 65536 + v mod 65536.

(** ** CPU_Regs *)
Record CPU_Regs := mkRegs {
  reg_eax : Z; reg_ecx : Z; reg_edx : Z; reg_ebx : Z;
  reg_esp : Z; reg_ebp : Z; reg_esi : Z; reg_edi : Z;
  flags : Z }.

Definition set_eax (v : Z) (r : CPU_Regs) : CPU_Regs :=
  mkRegs v (reg_ecx r) (reg_edx r) (reg_ebx r) (reg_esp r) (reg_ebp r) (reg_esi r) (reg_edi r) (flags r).
Definition set_ecx (v : Z) (r : CPU_Regs) : CPU_Regs :=
  mkRegs (reg_eax r) v (reg_edx r) (reg_ebx r) (reg_esp r) (reg_ebp r) (reg_esi r) (reg_edi r) (flags r).
Definition set_edx (v : Z) (r : CPU_Regs) : CPU_Regs :=
  mkRegs (reg_eax r) (reg_ecx r) v (reg_ebx r) (reg_esp r) (reg_ebp r) (reg_esi r) (reg_edi r) (flags r).
Definition set_ebx (v : Z) (r : CPU_Regs) : CPU_Regs :=
  mkRegs (reg_eax r) (reg_ecx r) (reg_edx r) v (reg_esp r) (reg_ebp r) (reg_esi r) (reg_edi r) (flags r).
Definition set_esp (v : Z) (r : CPU_Regs) : CPU_Regs :=
  mkRegs (reg_eax r) (reg_ecx r) (reg_edx r) (reg_ebx r) v (reg_ebp r) (reg_esi r) (reg_edi r) (flags r).
Definition set_ebp (v : Z) (r : CPU_Regs) : CPU_Regs :=
  mkRegs (reg_eax r) (reg_ecx r) (reg_edx r) (reg_ebx r) (reg_esp r) v (reg_esi r) (reg_edi r) (flags r).
Definition set_esi (v : Z) (r : CPU_Regs) : CPU_Regs :=
  mkRegs (reg_eax r) (reg_ecx r) (reg_edx r) (reg_ebx r) (reg_esp r) (reg_ebp r) v (reg_edi r) (flags r).
Definition set_edi (v : Z) (r : CPU_Regs) : CPU_Regs :=
  mkRegs (reg_eax r) (reg_ecx r) (reg_edx r) (reg_ebx r) (reg_esp r) (reg_ebp r) (reg_esi r) v (flags r).
Definition set_flags (v : Z) (r : CPU_Regs) : CPU_Regs :=
  mkRegs (reg_eax r) (reg_ecx r) (reg_edx r) (reg_ebx r) (reg_esp r) (reg_ebp r) (reg_esi r) (reg_edi r) v.

(** The named views ([reg_al], [reg_ah], [reg_ax], ...). *)
Definition reg_al (r : CPU_Regs) : Z := byte_l (reg_eax r).
Definition reg_ah (r : CPU_Regs) : Z := byte_h (reg_eax r).
Definition reg_ax (r : CPU_Regs) : Z := word_l (reg_eax r).
Definition reg_bl (r : CPU_Regs) : Z := byte_l (reg_ebx r).
Definition reg_bh (r : CPU_Regs) : Z := byte_h (reg_ebx r).
Definition reg_bx (r : CPU_Regs) : Z := word_l (reg_ebx r).
Definition reg_cx (r : CPU_Regs) : Z := word_l (reg_ecx r).
Definition reg_dx (r : CPU_Regs) : Z := word_l (reg_edx r).
Definition reg_si (r : CPU_Regs) : Z := word_l (reg_esi r).
Definition set_al (v : Z) (r : CPU_Regs) : CPU_Regs := set_eax (set_byte_l (reg_eax r) v) r.
Definition set_ah (v : Z) (r : CPU_Regs) : CPU_Regs := set_eax (set_byte_h (reg_eax r) v) r.
Definition set_ax (v : Z) (r : CPU_Regs) : CPU_Regs := set_eax (set_word_l (reg_eax r) v) r.
Definition set_bl (v : Z) (r : CPU_Regs) : CPU_Regs := set_ebx (set_byte_l (reg_ebx r) v) r.
Definition set_bh (v : Z) (r : CPU_Regs) : CPU_Regs := set_ebx (set_byte_h (reg_ebx r) v) r.
Definition set_bx (v : Z) (r : CPU_Regs) : CPU_Regs := set_ebx (set_word_l (reg_ebx r) v) r.
Definition set_cx (v : Z) (r : CPU_Regs) : CPU_Regs := set_ecx (set_word_l (reg_ecx r) v) r.
Definition set_dx (v : Z) (r : CPU_Regs) : CPU_Regs := set_edx (set_word_l (reg_edx r) v) r.

(** ** SETFLAGBIT and GETFLAG *)
Definition SETFLAGBIT (mask : Z) (test : bool) (f : Z) : Z :=
  if test then Z.lor f mask else Z.land f (Z.lnot mask).
Definition GETFLAG (mask : Z) (f : Z) : Z := Z.land f mask.

(** ** CpuTestFlags *)
Record CpuTestFlags := mkTestFlags {
  has_carry : bool; has_odd_parity : bool; has_auxiliary : bool;
  is_zero : bool; is_sign_negative : bool; has_overflow : bool;
  clear_mask : Z }.

Definition GetSetMask (t : CpuTestFlags) : Z :=
  Z.lor (if has_carry t then FLAG_CF else 0)
 (Z.lor (if has_odd_parity t then FLAG_PF else 0)
 (Z.lor (if has_auxiliary t then FLAG_AF else 0)
 (Z.lor (if is_zero t then FLAG_ZF else 0)
 (Z.lor (if is_sign_negative t then FLAG_SF else 0)
        (if has_overflow t then FLAG_OF else 0))))).

Definition ApplyTestFlags (t : CpuTestFlags) (r : CPU_Regs) : CPU_Regs :=
  set_flags (Z.lor (Z.land (flags r) (Z.lnot (clear_mask t))) (GetSetMask t)) r.

(** ** Lemmas on the views *)
Lemma byte_l_set x v : byte_l (set_byte_l x v) = u8 v.
Proof. apply mod_join, u8_range. Qed.
Lemma byte_h_set_l x v : byte_h (set_byte_l x v) = byte_h x.
Proof. unfold byte_h, set_byte_l. by rewrite div_join by apply u8_range. Qed.
Lemma set_byte_h_join x v :
  set_byte_h x v = (x / 65536 * 256 + u8 v) * 256 + byte_l x.
Proof. unfold set_byte_h, u8, byte_l. ring. Qed.
Lemma byte_h_set x v : byte_h (set_byte_h x v) = u8 v.
Proof.
  unfold byte_h. rewrite set_byte_h_join, div_join by apply u8_range.
  apply mod_join, u8_range.
Qed.
Lemma byte_l_set_h x v : byte_l (set_byte_h x v) = byte_l x.
Proof. rewrite set_byte_h_join. apply mod_join, u8_range. Qed.
Lemma word_l_set x v : word_l (set_word_l x v) = u16 v.
Proof. apply mod_join, u16_range. Qed.
Lemma word_l_split x : word_l x = byte_h x * 256 + byte_l x.
Proof.
  unfold word_l, byte_h, byte_l. rewrite (Z.add_comm (_ * 256)), Z.mul_comm.
  by rewrite <- Z.rem_mul_r.
Qed.
Lemma byte_l_word x : byte_l (word_l x) = byte_l x.
Proof. rewrite word_l_split. apply mod_join, u8_range. Qed.
Lemma byte_h_word x : byte_h (word_l x) = byte_h x.
Proof.
  rewrite word_l_split. unfold byte_h at 1. rewrite div_join by apply u8_range.
  apply Z.mod_mod. lia.
Qed.
Lemma byte_l_set_word x v : byte_l (set_word_l x v) = u8 v.
Proof. rewrite <- byte_l_word, word_l_set. apply (byte_l_word v). Qed.
Lemma byte_h_set_word x v : byte_h (set_word_l x v) = byte_h v.
Proof. rewrite <- byte_h_word, word_l_set. apply (byte_h_word v). Qed.
Lemma byte_l_u32 x : byte_l (u32 x) = u8 x.
Proof. unfold byte_l, u32, u8. apply Z.mod_mod_divide. by exists 16777216. Qed.
Lemma byte_l_u8 x : byte_l (u8 x) = u8 x.
Proof. apply Z.mod_mod. lia. Qed.
Lemma u32_u32 x : u32 (u32 x) = u32 x.
Proof. apply Z.mod_mod. lia. Qed.
Lemma u16_u16 x : u16 (u16 x) = u16 x.
Proof. apply Z.mod_mod. lia. Qed.
Lemma u8_u8 x : u8 (u8 x) = u8 x.
Proof. apply Z.mod_mod. lia. Qed.
Create Rewrite HintDb regview.
#[export] Hint Rewrite byte_l_u32 byte_l_u8 u32_u32 u16_u16 u8_u8 : regview.
#[export] Hint Rewrite byte_l_set byte_h_set byte_l_set_h byte_h_set_l word_l_set
  byte_l_set_word byte_h_set_word : regview.

(** A flag bit after [SETFLAGBIT]. *)
Lemma SETFLAGBIT_bits k n b f :
  0 <= k -> 0 <= n ->
  Z.testbit (SETFLAGBIT (2 ^ k) b f) n = if n =? k then b else Z.testbit f n.
Proof.
  intros Hk Hn. unfold SETFLAGBIT.
  destruct b; [rewrite Z.lor_spec|rewrite Z.land_spec, Z.lnot_spec by done];
    rewrite Z.pow2_bits_eqb by done; rewrite (Z.eqb_sym k n);
    destruct (n =? k); cbn; by rewrite ?orb_true_r, ?orb_false_r, ?andb_false_r, ?andb_true_r.
Qed.
