(* ===== verification/LazyFlags.v ===== *)
(** * Lazy flags ([cpu/flags.cpp], [cpu/lazyflags.h])

    An ALU instruction stores its operands and result in [lflags] together with
    its type; the six condition flags are computed from them on demand
    ([get_CF] ... [get_PF]) or written back to [reg_flags] all at once
    ([FillFlags], [FillFlagsNoCFOF]). *)
From S2P Require Import Prelude.
From S2P Require Import Registers.
#[local] Open Scope Z_scope.
#[local] Open Scope seq_scope.

(** Types of flag changing instructions. *)
Inductive flag_type :=
  | t_UNKNOWN
  | t_ADDb | t_ADDw | t_ADDd
  | t_ORb | t_ORw | t_ORd
  | t_ADCb | t_ADCw | t_ADCd
  | t_SBBb | t_SBBw | t_SBBd
  | t_ANDb | t_ANDw | t_ANDd
  | t_SUBb | t_SUBw | t_SUBd
  | t_XORb | t_XORw | t_XORd
  | t_CMPb | t_CMPw | t_CMPd
  | t_INCb | t_INCw | t_INCd
  | t_DECb | t_DECw | t_DECd
  | t_TESTb | t_TESTw | t_TESTd
  | t_SHLb | t_SHLw | t_SHLd
  | t_SHRb | t_SHRw | t_SHRd
  | t_SARb | t_SARw | t_SARd
  | t_ROLb | t_ROLw | t_ROLd
  | t_RORb | t_RORw | t_RORd
  | t_RCLb | t_RCLw | t_RCLd
  | t_RCRb | t_RCRw | t_RCRd
  | t_NEGb | t_NEGw | t_NEGd
  | t_DSHLw | t_DSHLd
  | t_DSHRw | t_DSHRd
  | t_MUL | t_DIV
  | t_NOTDONE
  | t_LASTFLAG.

#[export] Instance flag_type_eq_dec : EqDecision flag_type.
Proof. solve_decision. Defined.

(** [struct LazyFlags]: three 32-bit registers seen as byte, word or dword. *)
Record LazyFlags := mkLF {
  var1 : Z; var2 : Z; res : Z; type : flag_type; oldcf : Z }.

Definition lf_var1b (l : LazyFlags) : Z := byte_l (var1 l).
Definition lf_var2b (l : LazyFlags) : Z := byte_l (var2 l).
Definition lf_resb (l : LazyFlags) : Z := byte_l (res l).
Definition lf_var1w (l : LazyFlags) : Z := word_l (var1 l).
Definition lf_var2w (l : LazyFlags) : Z := word_l (var2 l).
Definition lf_resw (l : LazyFlags) : Z := word_l (res l).
Definition lf_var1d (l : LazyFlags) : Z := u32 (var1 l).
Definition lf_var2d (l : LazyFlags) : Z := u32 (var2 l).
Definition lf_resd (l : LazyFlags) : Z := u32 (res l).

(** [lf_var2b_minus_one] asserts a positive [lf_var2b] and returns a [uint8_t]. *)
Definition lf_var2b_minus_one (l : LazyFlags) : Z := u8 (lf_var2b l - 1).

(** The CPU state these routines read and write. *)
Record Cpu := mkCpu { cpu_regs : CPU_Regs; lflags : LazyFlags }.
Definition reg_flags (s : Cpu) : Z := flags (cpu_regs s).
Definition with_regs (f : CPU_Regs -> CPU_Regs) (s : Cpu) : Cpu := mkCpu (f (cpu_regs s)) (lflags s).
Definition with_flags (f : Z -> Z) (s : Cpu) : Cpu :=
  with_regs (fun r => set_flags (f (flags r)) r) s.
Definition set_type (t : flag_type) (s : Cpu) : Cpu :=
  let l := lflags s in mkCpu (cpu_regs s) (mkLF (var1 l) (var2 l) (res l) t (oldcf l)).

(** ** The flag getters *)
Definition get_CF (s : Cpu) : Z :=
  let l := lflags s in
  match type l with
  | t_UNKNOWN | t_INCb | t_INCw | t_INCd | t_DECb | t_DECw | t_DECd | t_MUL =>
      GETFLAG FLAG_CF (reg_flags s)
  | t_ADDb => b2z (lf_resb l <? lf_var1b l)
  | t_ADDw => b2z (lf_resw l <? lf_var1w l)
  | t_ADDd => b2z (lf_resd l <? lf_var1d l)
  | t_ADCb => b2z ((lf_resb l <? lf_var1b l) || (nz (oldcf l) && (lf_resb l =? lf_var1b l)))
  | t_ADCw => b2z ((lf_resw l <? lf_var1w l) || (nz (oldcf l) && (lf_resw l =? lf_var1w l)))
  | t_ADCd => b2z ((lf_resd l <? lf_var1d l) || (nz (oldcf l) && (lf_resd l =? lf_var1d l)))
  | t_SBBb => b2z ((lf_var1b l <? lf_resb l) || (nz (oldcf l) && (lf_var2b l =? 0xff)))
  | t_SBBw => b2z ((lf_var1w l <? lf_resw l) || (nz (oldcf l) && (lf_var2w l =? 0xffff)))
  | t_SBBd => b2z ((lf_var1d l <? lf_resd l) || (nz (oldcf l) && (lf_var2d l =? 0xffffffff)))
  | t_SUBb | t_CMPb => b2z (lf_var1b l <? lf_var2b l)
  | t_SUBw | t_CMPw => b2z (lf_var1w l <? lf_var2w l)
  | t_SUBd | t_CMPd => b2z (lf_var1d l <? lf_var2d l)
  | t_SHLb => if 8 <? lf_var2b l then 0
              else Z.land (Z.shiftr (lf_var1b l) (8 - lf_var2b l)) 1
  | t_SHLw => if 16 <? lf_var2b l then 0
              else Z.land (Z.shiftr (lf_var1w l) (16 - lf_var2b l)) 1
  | t_SHLd | t_DSHLw | t_DSHLd => Z.land (Z.shiftr (lf_var1d l) (32 - lf_var2b l)) 1
  | t_RCRb | t_SHRb => Z.land (Z.shiftr (lf_var1b l) (lf_var2b_minus_one l)) 1
  | t_RCRw | t_SHRw => Z.land (Z.shiftr (lf_var1w l) (lf_var2b_minus_one l)) 1
  | t_RCRd | t_SHRd | t_DSHRw | t_DSHRd =>
      Z.land (Z.shiftr (lf_var1d l) (lf_var2b_minus_one l)) 1
  | t_SARb => Z.land (Z.shiftr (s8 (lf_var1b l)) (lf_var2b_minus_one l)) 1
  | t_SARw => Z.land (Z.shiftr (s16 (lf_var1w l)) (lf_var2b_minus_one l)) 1
  | t_SARd => Z.land (Z.shiftr (s32 (lf_var1d l)) (lf_var2b_minus_one l)) 1
  | t_NEGb => lf_var1b l
  | t_NEGw => lf_var1w l
  | t_NEGd => lf_var1d l
  | t_ORb | t_ORw | t_ORd | t_ANDb | t_ANDw | t_ANDd
  | t_XORb | t_XORw | t_XORd | t_TESTb | t_TESTw | t_TESTd => 0
  | t_DIV => 0
  | _ => 0
  end.

Definition get_AF (s : Cpu) : Z :=
  let l := lflags s in
  match type l with
  | t_UNKNOWN => GETFLAG FLAG_AF (reg_flags s)
  | t_ADDb | t_ADCb | t_SBBb | t_SUBb | t_CMPb =>
      Z.land (Z.lxor (Z.lxor (lf_var1b l) (lf_var2b l)) (lf_resb l)) 0x10
  | t_ADDw | t_ADCw | t_SBBw | t_SUBw | t_CMPw =>
      Z.land (Z.lxor (Z.lxor (lf_var1w l) (lf_var2w l)) (lf_resw l)) 0x10
  | t_ADCd | t_ADDd | t_SBBd | t_SUBd | t_CMPd =>
      Z.land (Z.lxor (Z.lxor (lf_var1d l) (lf_var2d l)) (lf_resd l)) 0x10
  | t_INCb => b2z (Z.land (lf_resb l) 0x0f =? 0)
  | t_INCw => b2z (Z.land (lf_resw l) 0x0f =? 0)
  | t_INCd => b2z (Z.land (lf_resd l) 0x0f =? 0)
  | t_DECb => b2z (Z.land (lf_resb l) 0x0f =? 0x0f)
  | t_DECw => b2z (Z.land (lf_resw l) 0x0f =? 0x0f)
  | t_DECd => b2z (Z.land (lf_resd l) 0x0f =? 0x0f)
  | t_NEGb => Z.land (lf_var1b l) 0x0f
  | t_NEGw => Z.land (lf_var1w l) 0x0f
  | t_NEGd => Z.land (lf_var1d l) 0x0f
  | t_SHLb | t_SHRb | t_SARb => Z.land (lf_var2b l) 0x1f
  | t_SHLw | t_SHRw | t_SARw => Z.land (lf_var2w l) 0x1f
  | t_SHLd | t_SHRd | t_SARd => Z.land (lf_var2d l) 0x1f
  | t_ORb | t_ORw | t_ORd | t_ANDb | t_ANDw | t_ANDd | t_XORb | t_XORw | t_XORd
  | t_TESTb | t_TESTw | t_TESTd | t_DSHLw | t_DSHLd | t_DSHRw | t_DSHRd
  | t_DIV | t_MUL => 0
  | _ => 0
  end.

Definition get_ZF (s : Cpu) : Z :=
  let l := lflags s in
  match type l with
  | t_UNKNOWN => GETFLAG FLAG_ZF (reg_flags s)
  | t_ADDb | t_ORb | t_ADCb | t_SBBb | t_ANDb | t_XORb | t_SUBb | t_CMPb | t_INCb
  | t_DECb | t_TESTb | t_SHLb | t_SHRb | t_SARb | t_NEGb => b2z (lf_resb l =? 0)
  | t_ADDw | t_ORw | t_ADCw | t_SBBw | t_ANDw | t_XORw | t_SUBw | t_CMPw | t_INCw
  | t_DECw | t_TESTw | t_SHLw | t_SHRw | t_SARw | t_DSHLw | t_DSHRw | t_NEGw =>
      b2z (lf_resw l =? 0)
  | t_ADDd | t_ORd | t_ADCd | t_SBBd | t_ANDd | t_XORd | t_SUBd | t_CMPd | t_INCd
  | t_DECd | t_TESTd | t_SHLd | t_SHRd | t_SARd | t_DSHLd | t_DSHRd | t_NEGd =>
      b2z (lf_resd l =? 0)
  | t_DIV | t_MUL => 0
  | _ => 0
  end.

Definition get_SF (s : Cpu) : Z :=
  let l := lflags s in
  match type l with
  | t_UNKNOWN => GETFLAG FLAG_SF (reg_flags s)
  | t_ADDb | t_ORb | t_ADCb | t_SBBb | t_ANDb | t_XORb | t_SUBb | t_CMPb | t_INCb
  | t_DECb | t_TESTb | t_SHLb | t_SHRb | t_SARb | t_NEGb => Z.land (lf_resb l) 0x80
  | t_ADDw | t_ORw | t_ADCw | t_SBBw | t_ANDw | t_XORw | t_SUBw | t_CMPw | t_INCw
  | t_DECw | t_TESTw | t_SHLw | t_SHRw | t_SARw | t_DSHLw | t_DSHRw | t_NEGw =>
      Z.land (lf_resw l) 0x8000
  | t_ADDd | t_ORd | t_ADCd | t_SBBd | t_ANDd | t_XORd | t_SUBd | t_CMPd | t_INCd
  | t_DECd | t_TESTd | t_SHLd | t_SHRd | t_SARd | t_DSHLd | t_DSHRd | t_NEGd =>
      Z.land (lf_resd l) 0x80000000
  | t_DIV | t_MUL => 0
  | _ => 0
  end.

Definition get_OF (s : Cpu) : Z :=
  let l := lflags s in
  match type l with
  | t_UNKNOWN | t_MUL => GETFLAG FLAG_OF (reg_flags s)
  | t_ADDb | t_ADCb =>
      Z.land (Z.land (Z.lxor (Z.lxor (lf_var1b l) (lf_var2b l)) 0x80)
                     (Z.lxor (lf_resb l) (lf_var2b l))) 0x80
  | t_ADDw | t_ADCw =>
      Z.land (Z.land (Z.lxor (Z.lxor (lf_var1w l) (lf_var2w l)) 0x8000)
                     (Z.lxor (lf_resw l) (lf_var2w l))) 0x8000
  | t_ADDd | t_ADCd =>
      Z.land (Z.land (Z.lxor (Z.lxor (lf_var1d l) (lf_var2d l)) 0x80000000)
                     (Z.lxor (lf_resd l) (lf_var2d l))) 0x80000000
  | t_SBBb | t_SUBb | t_CMPb =>
      Z.land (Z.land (Z.lxor (lf_var1b l) (lf_var2b l)) (Z.lxor (lf_var1b l) (lf_resb l))) 0x80
  | t_SBBw | t_SUBw | t_CMPw =>
      Z.land (Z.land (Z.lxor (lf_var1w l) (lf_var2w l)) (Z.lxor (lf_var1w l) (lf_resw l))) 0x8000
  | t_SBBd | t_SUBd | t_CMPd =>
      Z.land (Z.land (Z.lxor (lf_var1d l) (lf_var2d l)) (Z.lxor (lf_var1d l) (lf_resd l))) 0x80000000
  | t_INCb => b2z (lf_resb l =? 0x80)
  | t_INCw => b2z (lf_resw l =? 0x8000)
  | t_INCd => b2z (lf_resd l =? 0x80000000)
  | t_DECb => b2z (lf_resb l =? 0x7f)
  | t_DECw => b2z (lf_resw l =? 0x7fff)
  | t_DECd => b2z (lf_resd l =? 0x7fffffff)
  | t_NEGb => b2z (lf_var1b l =? 0x80)
  | t_NEGw => b2z (lf_var1w l =? 0x8000)
  | t_NEGd => b2z (lf_var1d l =? 0x80000000)
  | t_SHLb => Z.land (Z.lxor (lf_resb l) (lf_var1b l)) 0x80
  | t_SHLw | t_DSHRw | t_DSHLw => Z.land (Z.lxor (lf_resw l) (lf_var1w l)) 0x8000
  | t_SHLd | t_DSHRd | t_DSHLd => Z.land (Z.lxor (lf_resd l) (lf_var1d l)) 0x80000000
  | t_SHRb => if Z.land (lf_var2b l) 0x1f =? 1 then b2z (0x80 <? lf_var1b l) else 0
  | t_SHRw => if Z.land (lf_var2b l) 0x1f =? 1 then b2z (0x8000 <? lf_var1w l) else 0
  | t_SHRd => if Z.land (lf_var2b l) 0x1f =? 1 then b2z (0x80000000 <? lf_var1d l) else 0
  | t_ORb | t_ORw | t_ORd | t_ANDb | t_ANDw | t_ANDd | t_XORb | t_XORw | t_XORd
  | t_TESTb | t_TESTw | t_TESTd | t_SARb | t_SARw | t_SARd => 0
  | t_DIV => 0
  | _ => 0
  end.

(** [parity_lookup]: [FLAG_PF] (4) or 0 for each byte. *)
Definition parity_lookup : list Z :=
  [ 4; 0; 0; 4; 0; 4; 4; 0; 0; 4; 4; 0; 4; 0; 0; 4;
    0; 4; 4; 0; 4; 0; 0; 4; 4; 0; 0; 4; 0; 4; 4; 0;
    0; 4; 4; 0; 4; 0; 0; 4; 4; 0; 0; 4; 0; 4; 4; 0;
    4; 0; 0; 4; 0; 4; 4; 0; 0; 4; 4; 0; 4; 0; 0; 4;
    0; 4; 4; 0; 4; 0; 0; 4; 4; 0; 0; 4; 0; 4; 4; 0;
    4; 0; 0; 4; 0; 4; 4; 0; 0; 4; 4; 0; 4; 0; 0; 4;
    4; 0; 0; 4; 0; 4; 4; 0; 0; 4; 4; 0; 4; 0; 0; 4;
    0; 4; 4; 0; 4; 0; 0; 4; 4; 0; 0; 4; 0; 4; 4; 0;
    0; 4; 4; 0; 4; 0; 0; 4; 4; 0; 0; 4; 0; 4; 4; 0;
    4; 0; 0; 4; 0; 4; 4; 0; 0; 4; 4; 0; 4; 0; 0; 4;
    4; 0; 0; 4; 0; 4; 4; 0; 0; 4; 4; 0; 4; 0; 0; 4;
    0; 4; 4; 0; 4; 0; 0; 4; 4; 0; 0; 4; 0; 4; 4; 0;
    4; 0; 0; 4; 0; 4; 4; 0; 0; 4; 4; 0; 4; 0; 0; 4;
    0; 4; 4; 0; 4; 0; 0; 4; 4; 0; 0; 4; 0; 4; 4; 0;
    0; 4; 4; 0; 4; 0; 0; 4; 4; 0; 0; 4; 0; 4; 4; 0;
    4; 0; 0; 4; 0; 4; 4; 0; 0; 4; 4; 0; 4; 0; 0; 4 ].

Definition parity (b : Z) : Z := nth (Z.to_nat b) parity_lookup 0.

Definition get_PF (s : Cpu) : Z :=
  match type (lflags s) with
  | t_UNKNOWN => GETFLAG FLAG_PF (reg_flags s)
  | _ => parity (lf_resb (lflags s))
  end.

(** ** Writing the flags back *)
Definition clr (m f : Z) : Z := Z.land f (Z.lnot m).
Definition DOFLAG_PF (l : LazyFlags) (f : Z) : Z :=
  Z.lor (clr FLAG_PF f) (parity (lf_resb l)).
Definition DOFLAG_AF (l : LazyFlags) (f : Z) : Z :=
  Z.lor (clr FLAG_AF f) (Z.land (Z.lxor (Z.lxor (lf_var1b l) (lf_var2b l)) (lf_resb l)) 0x10).
Definition DOFLAG_ZFb (l : LazyFlags) : Z -> Z := SETFLAGBIT FLAG_ZF (lf_resb l =? 0).
Definition DOFLAG_ZFw (l : LazyFlags) : Z -> Z := SETFLAGBIT FLAG_ZF (lf_resw l =? 0).
Definition DOFLAG_ZFd (l : LazyFlags) : Z -> Z := SETFLAGBIT FLAG_ZF (lf_resd l =? 0).
Definition DOFLAG_SFb (l : LazyFlags) (f : Z) : Z :=
  Z.lor (clr FLAG_SF f) (Z.shiftr (Z.land (lf_resb l) 0x80) 0).
Definition DOFLAG_SFw (l : LazyFlags) (f : Z) : Z :=
  Z.lor (clr FLAG_SF f) (Z.shiftr (Z.land (lf_resw l) 0x8000) 8).
Definition DOFLAG_SFd (l : LazyFlags) (f : Z) : Z :=
  Z.lor (clr FLAG_SF f) (Z.shiftr (Z.land (lf_resd l) 0x80000000) 24).
Abbreviation SET_FLAG := SETFLAGBIT (only parsing).

(** [FillFlags], in the order of its [switch]: each group gives the new value of
    [reg_flags], or [None] when the type is not one of its cases. *)
Definition FillFlags_arith (l : LazyFlags) (f : Z) : option Z :=
  match type l with
  | t_ADDb =>
      Some (f
        |> SET_FLAG FLAG_CF (lf_resb l <? lf_var1b l)
        |> DOFLAG_AF l
        |> DOFLAG_ZFb l
        |> DOFLAG_SFb l
        |> SET_FLAG FLAG_OF (nz (Z.land (Z.land (Z.lxor (Z.lxor (lf_var1b l) (lf_var2b l)) 0x80)
                                       (Z.lxor (lf_resb l) (lf_var1b l))) 0x80))
        |> DOFLAG_PF l)
  | t_ADDw =>
      Some (f
        |> SET_FLAG FLAG_CF (lf_resw l <? lf_var1w l)
        |> DOFLAG_AF l
        |> DOFLAG_ZFw l
        |> DOFLAG_SFw l
        |> SET_FLAG FLAG_OF (nz (Z.land (Z.land (Z.lxor (Z.lxor (lf_var1w l) (lf_var2w l)) 0x8000)
                                       (Z.lxor (lf_resw l) (lf_var1w l))) 0x8000))
        |> DOFLAG_PF l)
  | t_ADDd =>
      Some (f
        |> SET_FLAG FLAG_CF (lf_resd l <? lf_var1d l)
        |> DOFLAG_AF l
        |> DOFLAG_ZFd l
        |> DOFLAG_SFd l
        |> SET_FLAG FLAG_OF (nz (Z.land (Z.land (Z.lxor (Z.lxor (lf_var1d l) (lf_var2d l)) 0x80000000)
                                       (Z.lxor (lf_resd l) (lf_var1d l))) 0x80000000))
        |> DOFLAG_PF l)
  | t_ADCb =>
      Some (f
        |> SET_FLAG FLAG_CF ((lf_resb l <? lf_var1b l) || (nz (oldcf l) && (lf_resb l =? lf_var1b l)))
        |> DOFLAG_AF l
        |> DOFLAG_ZFb l
        |> DOFLAG_SFb l
        |> SET_FLAG FLAG_OF (nz (Z.land (Z.land (Z.lxor (Z.lxor (lf_var1b l) (lf_var2b l)) 0x80)
                                       (Z.lxor (lf_resb l) (lf_var1b l))) 0x80))
        |> DOFLAG_PF l)
  | t_ADCw =>
      Some (f
        |> SET_FLAG FLAG_CF ((lf_resw l <? lf_var1w l) || (nz (oldcf l) && (lf_resw l =? lf_var1w l)))
        |> DOFLAG_AF l
        |> DOFLAG_ZFw l
        |> DOFLAG_SFw l
        |> SET_FLAG FLAG_OF (nz (Z.land (Z.land (Z.lxor (Z.lxor (lf_var1w l) (lf_var2w l)) 0x8000)
                                       (Z.lxor (lf_resw l) (lf_var1w l))) 0x8000))
        |> DOFLAG_PF l)
  | t_ADCd =>
      Some (f
        |> SET_FLAG FLAG_CF ((lf_resd l <? lf_var1d l) || (nz (oldcf l) && (lf_resd l =? lf_var1d l)))
        |> DOFLAG_AF l
        |> DOFLAG_ZFd l
        |> DOFLAG_SFd l
        |> SET_FLAG FLAG_OF (nz (Z.land (Z.land (Z.lxor (Z.lxor (lf_var1d l) (lf_var2d l)) 0x80000000)
                                       (Z.lxor (lf_resd l) (lf_var1d l))) 0x80000000))
        |> DOFLAG_PF l)
  | t_SBBb =>
      Some (f
        |> SET_FLAG FLAG_CF ((lf_var1b l <? lf_resb l) || (nz (oldcf l) && (lf_var2b l =? 0xff)))
        |> DOFLAG_AF l
        |> DOFLAG_ZFb l
        |> DOFLAG_SFb l
        |> SET_FLAG FLAG_OF (nz (Z.land (Z.land (Z.lxor (lf_var1b l) (lf_var2b l))
                                       (Z.lxor (lf_var1b l) (lf_resb l))) 0x80))
        |> DOFLAG_PF l)
  | t_SBBw =>
      Some (f
        |> SET_FLAG FLAG_CF ((lf_var1w l <? lf_resw l) || (nz (oldcf l) && (lf_var2w l =? 0xffff)))
        |> DOFLAG_AF l
        |> DOFLAG_ZFw l
        |> DOFLAG_SFw l
        |> SET_FLAG FLAG_OF (nz (Z.land (Z.land (Z.lxor (lf_var1w l) (lf_var2w l))
                                       (Z.lxor (lf_var1w l) (lf_resw l))) 0x8000))
        |> DOFLAG_PF l)
  | t_SBBd =>
      Some (f
        |> SET_FLAG FLAG_CF ((lf_var1d l <? lf_resd l) || (nz (oldcf l) && (lf_var2d l =? 0xffffffff)))
        |> DOFLAG_AF l
        |> DOFLAG_ZFd l
        |> DOFLAG_SFd l
        |> SET_FLAG FLAG_OF (nz (Z.land (Z.land (Z.lxor (lf_var1d l) (lf_var2d l))
                                       (Z.lxor (lf_var1d l) (lf_resd l))) 0x80000000))
        |> DOFLAG_PF l)
  | t_SUBb | t_CMPb =>
      Some (f
        |> SET_FLAG FLAG_CF (lf_var1b l <? lf_var2b l)
        |> DOFLAG_AF l
        |> DOFLAG_ZFb l
        |> DOFLAG_SFb l
        |> SET_FLAG FLAG_OF (nz (Z.land (Z.land (Z.lxor (lf_var1b l) (lf_var2b l))
                                       (Z.lxor (lf_var1b l) (lf_resb l))) 0x80))
        |> DOFLAG_PF l)
  | t_SUBw | t_CMPw =>
      Some (f
        |> SET_FLAG FLAG_CF (lf_var1w l <? lf_var2w l)
        |> DOFLAG_AF l
        |> DOFLAG_ZFw l
        |> DOFLAG_SFw l
        |> SET_FLAG FLAG_OF (nz (Z.land (Z.land (Z.lxor (lf_var1w l) (lf_var2w l))
                                       (Z.lxor (lf_var1w l) (lf_resw l))) 0x8000))
        |> DOFLAG_PF l)
  | t_SUBd | t_CMPd =>
      Some (f
        |> SET_FLAG FLAG_CF (lf_var1d l <? lf_var2d l)
        |> DOFLAG_AF l
        |> DOFLAG_ZFd l
        |> DOFLAG_SFd l
        |> SET_FLAG FLAG_OF (nz (Z.land (Z.land (Z.lxor (lf_var1d l) (lf_var2d l))
                                       (Z.lxor (lf_var1d l) (lf_resd l))) 0x80000000))
        |> DOFLAG_PF l)
  | _ => None
  end.

Definition FillFlags_logic_shift (l : LazyFlags) (f : Z) : option Z :=
  match type l with
  | t_ORb | t_TESTb | t_ANDb | t_XORb =>
      Some (f
        |> SET_FLAG FLAG_CF false
        |> SET_FLAG FLAG_AF false
        |> DOFLAG_ZFb l
        |> DOFLAG_SFb l
        |> SET_FLAG FLAG_OF false
        |> DOFLAG_PF l)
  | t_ORw | t_TESTw | t_ANDw | t_XORw =>
      Some (f
        |> SET_FLAG FLAG_CF false
        |> SET_FLAG FLAG_AF false
        |> DOFLAG_ZFw l
        |> DOFLAG_SFw l
        |> SET_FLAG FLAG_OF false
        |> DOFLAG_PF l)
  | t_ORd | t_TESTd | t_ANDd | t_XORd =>
      Some (f
        |> SET_FLAG FLAG_CF false
        |> SET_FLAG FLAG_AF false
        |> DOFLAG_ZFd l
        |> DOFLAG_SFd l
        |> SET_FLAG FLAG_OF false
        |> DOFLAG_PF l)
  | t_SHLb =>
      Some (f
        |> SET_FLAG FLAG_CF (if 8 <? lf_var2b l then false
                            else nz (Z.land (Z.shiftr (lf_var1b l) (8 - lf_var2b l)) 1))
        |> DOFLAG_ZFb l
        |> DOFLAG_SFb l
        |> SET_FLAG FLAG_OF (nz (Z.land (Z.lxor (lf_resb l) (lf_var1b l)) 0x80))
        |> DOFLAG_PF l
        |> SET_FLAG FLAG_AF (nz (Z.land (lf_var2b l) 0x1f)))
  | t_SHLw =>
      Some (f
        |> SET_FLAG FLAG_CF (if 16 <? lf_var2b l then false
                            else nz (Z.land (Z.shiftr (lf_var1w l) (16 - lf_var2b l)) 1))
        |> DOFLAG_ZFw l
        |> DOFLAG_SFw l
        |> SET_FLAG FLAG_OF (nz (Z.land (Z.lxor (lf_resw l) (lf_var1w l)) 0x8000))
        |> DOFLAG_PF l
        |> SET_FLAG FLAG_AF (nz (Z.land (lf_var2w l) 0x1f)))
  | t_SHLd =>
      Some (f
        |> SET_FLAG FLAG_CF (nz (Z.land (Z.shiftr (lf_var1d l) (32 - lf_var2b l)) 1))
        |> DOFLAG_ZFd l
        |> DOFLAG_SFd l
        |> SET_FLAG FLAG_OF (nz (Z.land (Z.lxor (lf_resd l) (lf_var1d l)) 0x80000000))
        |> DOFLAG_PF l
        |> SET_FLAG FLAG_AF (nz (Z.land (lf_var2d l) 0x1f)))
  | t_DSHLw =>
      Some (f
        |> SET_FLAG FLAG_CF (nz (Z.land (Z.shiftr (lf_var1d l) (32 - lf_var2b l)) 1))
        |> DOFLAG_ZFw l
        |> DOFLAG_SFw l
        |> SET_FLAG FLAG_OF (nz (Z.land (Z.lxor (lf_resw l) (lf_var1w l)) 0x8000))
        |> DOFLAG_PF l)
  | t_DSHLd =>
      Some (f
        |> SET_FLAG FLAG_CF (nz (Z.land (Z.shiftr (lf_var1d l) (32 - lf_var2b l)) 1))
        |> DOFLAG_ZFd l
        |> DOFLAG_SFd l
        |> SET_FLAG FLAG_OF (nz (Z.land (Z.lxor (lf_resd l) (lf_var1d l)) 0x80000000))
        |> DOFLAG_PF l)
  | t_SHRb =>
      Some (f
        |> SET_FLAG FLAG_CF (nz (Z.land (Z.shiftr (lf_var1b l) (lf_var2b_minus_one l)) 1))
        |> DOFLAG_ZFb l
        |> DOFLAG_SFb l
        |> SET_FLAG FLAG_OF (if Z.land (lf_var2b l) 0x1f =? 1 then 0x80 <=? lf_var1b l else false)
        |> DOFLAG_PF l
        |> SET_FLAG FLAG_AF (nz (Z.land (lf_var2b l) 0x1f)))
  | t_SHRw =>
      Some (f
        |> SET_FLAG FLAG_CF (nz (Z.land (Z.shiftr (lf_var1w l) (lf_var2b_minus_one l)) 1))
        |> DOFLAG_ZFw l
        |> DOFLAG_SFw l
        |> SET_FLAG FLAG_OF (if Z.land (lf_var2w l) 0x1f =? 1 then 0x8000 <=? lf_var1w l else false)
        |> DOFLAG_PF l
        |> SET_FLAG FLAG_AF (nz (Z.land (lf_var2w l) 0x1f)))
  | t_SHRd =>
      Some (f
        |> SET_FLAG FLAG_CF (nz (Z.land (Z.shiftr (lf_var1d l) (lf_var2b_minus_one l)) 1))
        |> DOFLAG_ZFd l
        |> DOFLAG_SFd l
        |> SET_FLAG FLAG_OF (if Z.land (lf_var2d l) 0x1f =? 1 then 0x80000000 <=? lf_var1d l else false)
        |> DOFLAG_PF l
        |> SET_FLAG FLAG_AF (nz (Z.land (lf_var2d l) 0x1f)))
  | t_DSHRw =>
      Some (f
        |> SET_FLAG FLAG_CF (nz (Z.land (Z.shiftr (lf_var1d l) (lf_var2b_minus_one l)) 1))
        |> DOFLAG_ZFw l
        |> DOFLAG_SFw l
        |> SET_FLAG FLAG_OF (nz (Z.land (Z.lxor (lf_resw l) (lf_var1w l)) 0x8000))
        |> DOFLAG_PF l)
  | t_DSHRd =>
      Some (f
        |> SET_FLAG FLAG_CF (nz (Z.land (Z.shiftr (lf_var1d l) (lf_var2b_minus_one l)) 1))
        |> DOFLAG_ZFd l
        |> DOFLAG_SFd l
        |> SET_FLAG FLAG_OF (nz (Z.land (Z.lxor (lf_resd l) (lf_var1d l)) 0x80000000))
        |> DOFLAG_PF l)
  | _ => None
  end.

Definition FillFlags_sar_unary (l : LazyFlags) (f : Z) : option Z :=
  match type l with
  | t_SARb =>
      Some (f
        |> SET_FLAG FLAG_CF (nz (Z.land (Z.shiftr (s8 (lf_var1b l)) (lf_var2b_minus_one l)) 1))
        |> DOFLAG_ZFb l
        |> DOFLAG_SFb l
        |> SET_FLAG FLAG_OF false
        |> DOFLAG_PF l
        |> SET_FLAG FLAG_AF (nz (Z.land (lf_var2b l) 0x1f)))
  | t_SARw =>
      Some (f
        |> SET_FLAG FLAG_CF (nz (Z.land (Z.shiftr (s16 (lf_var1w l)) (lf_var2b_minus_one l)) 1))
        |> DOFLAG_ZFw l
        |> DOFLAG_SFw l
        |> SET_FLAG FLAG_OF false
        |> DOFLAG_PF l
        |> SET_FLAG FLAG_AF (nz (Z.land (lf_var2w l) 0x1f)))
  | t_SARd =>
      Some (f
        |> SET_FLAG FLAG_CF (nz (Z.land (Z.shiftr (s32 (lf_var1d l)) (lf_var2b_minus_one l)) 1))
        |> DOFLAG_ZFd l
        |> DOFLAG_SFd l
        |> SET_FLAG FLAG_OF false
        |> DOFLAG_PF l
        |> SET_FLAG FLAG_AF (nz (Z.land (lf_var2d l) 0x1f)))
  | t_INCb =>
      Some (f
        |> SET_FLAG FLAG_AF (Z.land (lf_resb l) 0x0f =? 0)
        |> DOFLAG_ZFb l
        |> DOFLAG_SFb l
        |> SET_FLAG FLAG_OF (lf_resb l =? 0x80)
        |> DOFLAG_PF l)
  | t_INCw =>
      Some (f
        |> SET_FLAG FLAG_AF (Z.land (lf_resw l) 0x0f =? 0)
        |> DOFLAG_ZFw l
        |> DOFLAG_SFw l
        |> SET_FLAG FLAG_OF (lf_resw l =? 0x8000)
        |> DOFLAG_PF l)
  | t_INCd =>
      Some (f
        |> SET_FLAG FLAG_AF (Z.land (lf_resd l) 0x0f =? 0)
        |> DOFLAG_ZFd l
        |> DOFLAG_SFd l
        |> SET_FLAG FLAG_OF (lf_resd l =? 0x80000000)
        |> DOFLAG_PF l)
  | t_DECb =>
      Some (f
        |> SET_FLAG FLAG_AF (Z.land (lf_resb l) 0x0f =? 0x0f)
        |> DOFLAG_ZFb l
        |> DOFLAG_SFb l
        |> SET_FLAG FLAG_OF (lf_resb l =? 0x7f)
        |> DOFLAG_PF l)
  | t_DECw =>
      Some (f
        |> SET_FLAG FLAG_AF (Z.land (lf_resw l) 0x0f =? 0x0f)
        |> DOFLAG_ZFw l
        |> DOFLAG_SFw l
        |> SET_FLAG FLAG_OF (lf_resw l =? 0x7fff)
        |> DOFLAG_PF l)
  | t_DECd =>
      Some (f
        |> SET_FLAG FLAG_AF (Z.land (lf_resd l) 0x0f =? 0x0f)
        |> DOFLAG_ZFd l
        |> DOFLAG_SFd l
        |> SET_FLAG FLAG_OF (lf_resd l =? 0x7fffffff)
        |> DOFLAG_PF l)
  | t_NEGb =>
      Some (f
        |> SET_FLAG FLAG_CF (nz (lf_var1b l))
        |> SET_FLAG FLAG_AF (nz (Z.land (lf_resb l) 0x0f))
        |> DOFLAG_ZFb l
        |> DOFLAG_SFb l
        |> SET_FLAG FLAG_OF (lf_var1b l =? 0x80)
        |> DOFLAG_PF l)
  | t_NEGw =>
      Some (f
        |> SET_FLAG FLAG_CF (nz (lf_var1w l))
        |> SET_FLAG FLAG_AF (nz (Z.land (lf_resw l) 0x0f))
        |> DOFLAG_ZFw l
        |> DOFLAG_SFw l
        |> SET_FLAG FLAG_OF (lf_var1w l =? 0x8000)
        |> DOFLAG_PF l)
  | t_NEGd =>
      Some (f
        |> SET_FLAG FLAG_CF (nz (lf_var1d l))
        |> SET_FLAG FLAG_AF (nz (Z.land (lf_resd l) 0x0f))
        |> DOFLAG_ZFd l
        |> DOFLAG_SFd l
        |> SET_FLAG FLAG_OF (lf_var1d l =? 0x80000000)
        |> DOFLAG_PF l)
  | t_DIV | t_MUL => Some f
  | _ => None
  end.

(** The returned value is [reg_flags], or 0 for an unhandled type (which leaves
    the state alone). *)
Definition FillFlags (s : Cpu) : Cpu * Z :=
  let l := lflags s in
  let f := reg_flags s in
  let fill o := match o with
                | Some f' => let s' := set_type t_UNKNOWN (with_flags (fun _ => f') s) in
                             Some (s', reg_flags s')
                | None => None
                end in
  match type l with
  | t_UNKNOWN => (set_type t_UNKNOWN s, f)
  | _ => match fill (FillFlags_arith l f), fill (FillFlags_logic_shift l f),
               fill (FillFlags_sar_unary l f) with
         | Some r, _, _ => r
         | None, Some r, _ => r
         | None, None, Some r => r
         | None, None, None => (s, 0)
         end
  end.

(** [FillFlagsNoCFOF], in two groups of the same [switch]. *)
Definition NoCFOF_arith (l : LazyFlags) (f : Z) : option Z :=
  match type l with
  | t_ADDb => Some (f |> DOFLAG_AF l |> DOFLAG_ZFb l |> DOFLAG_SFb l |> DOFLAG_PF l)
  | t_ADDw => Some (f |> DOFLAG_AF l |> DOFLAG_ZFw l |> DOFLAG_SFw l |> DOFLAG_PF l)
  | t_ADDd => Some (f |> DOFLAG_AF l |> DOFLAG_ZFd l |> DOFLAG_SFd l |> DOFLAG_PF l)
  | t_ADCb => Some (f |> DOFLAG_AF l |> DOFLAG_ZFb l |> DOFLAG_SFb l |> DOFLAG_PF l)
  | t_ADCw => Some (f |> DOFLAG_AF l |> DOFLAG_ZFw l |> DOFLAG_SFw l |> DOFLAG_PF l)
  | t_ADCd => Some (f |> DOFLAG_AF l |> DOFLAG_ZFd l |> DOFLAG_SFd l |> DOFLAG_PF l)
  | t_SBBb => Some (f |> DOFLAG_AF l |> DOFLAG_ZFb l |> DOFLAG_SFb l |> DOFLAG_PF l)
  | t_SBBw => Some (f |> DOFLAG_AF l |> DOFLAG_ZFw l |> DOFLAG_SFw l |> DOFLAG_PF l)
  | t_SBBd => Some (f |> DOFLAG_AF l |> DOFLAG_ZFd l |> DOFLAG_SFd l |> DOFLAG_PF l)
  | t_SUBb | t_CMPb => Some (f |> DOFLAG_AF l |> DOFLAG_ZFb l |> DOFLAG_SFb l |> DOFLAG_PF l)
  | t_SUBw | t_CMPw => Some (f |> DOFLAG_AF l |> DOFLAG_ZFw l |> DOFLAG_SFw l |> DOFLAG_PF l)
  | t_SUBd | t_CMPd => Some (f |> DOFLAG_AF l |> DOFLAG_ZFd l |> DOFLAG_SFd l |> DOFLAG_PF l)
  | t_ORb | t_TESTb | t_ANDb | t_XORb =>
      Some (f |> SET_FLAG FLAG_AF false |> DOFLAG_ZFb l |> DOFLAG_SFb l |> DOFLAG_PF l)
  | t_ORw | t_TESTw | t_ANDw | t_XORw =>
      Some (f |> SET_FLAG FLAG_AF false |> DOFLAG_ZFw l |> DOFLAG_SFw l |> DOFLAG_PF l)
  | t_ORd | t_TESTd | t_ANDd | t_XORd =>
      Some (f |> SET_FLAG FLAG_AF false |> DOFLAG_ZFd l |> DOFLAG_SFd l |> DOFLAG_PF l)
  | _ => None
  end.

Definition NoCFOF_shift_unary (l : LazyFlags) (f : Z) : option Z :=
  match type l with
  | t_DSHLw | t_DSHRw => Some (f |> DOFLAG_ZFw l |> DOFLAG_SFw l |> DOFLAG_PF l)
  | t_DSHLd | t_DSHRd => Some (f |> DOFLAG_ZFd l |> DOFLAG_SFd l |> DOFLAG_PF l)
  | t_SHLb | t_SHRb | t_SARb =>
      Some (f |> DOFLAG_ZFb l |> DOFLAG_SFb l |> DOFLAG_PF l |> SET_FLAG FLAG_AF (nz (Z.land (lf_var2b l) 0x1f)))
  | t_SHLw | t_SHRw | t_SARw =>
      Some (f |> DOFLAG_ZFw l |> DOFLAG_SFw l |> DOFLAG_PF l |> SET_FLAG FLAG_AF (nz (Z.land (lf_var2w l) 0x1f)))
  | t_SHLd | t_SHRd | t_SARd =>
      Some (f |> DOFLAG_ZFd l |> DOFLAG_SFd l |> DOFLAG_PF l |> SET_FLAG FLAG_AF (nz (Z.land (lf_var2d l) 0x1f)))
  | t_INCb =>
      Some (f |> SET_FLAG FLAG_AF (Z.land (lf_resb l) 0x0f =? 0) |> DOFLAG_ZFb l |> DOFLAG_SFb l |> DOFLAG_PF l)
  | t_INCw =>
      Some (f |> SET_FLAG FLAG_AF (Z.land (lf_resw l) 0x0f =? 0) |> DOFLAG_ZFw l |> DOFLAG_SFw l |> DOFLAG_PF l)
  | t_INCd =>
      Some (f |> SET_FLAG FLAG_AF (Z.land (lf_resd l) 0x0f =? 0) |> DOFLAG_ZFd l |> DOFLAG_SFd l |> DOFLAG_PF l)
  | t_DECb =>
      Some (f |> SET_FLAG FLAG_AF (Z.land (lf_resb l) 0x0f =? 0x0f) |> DOFLAG_ZFb l |> DOFLAG_SFb l |> DOFLAG_PF l)
  | t_DECw =>
      Some (f |> SET_FLAG FLAG_AF (Z.land (lf_resw l) 0x0f =? 0x0f) |> DOFLAG_ZFw l |> DOFLAG_SFw l |> DOFLAG_PF l)
  | t_DECd =>
      Some (f |> SET_FLAG FLAG_AF (Z.land (lf_resd l) 0x0f =? 0x0f) |> DOFLAG_ZFd l |> DOFLAG_SFd l |> DOFLAG_PF l)
  | t_NEGb =>
      Some (f |> SET_FLAG FLAG_AF (nz (Z.land (lf_resb l) 0x0f)) |> DOFLAG_ZFb l |> DOFLAG_SFb l |> DOFLAG_PF l)
  | t_NEGw =>
      Some (f |> SET_FLAG FLAG_AF (nz (Z.land (lf_resw l) 0x0f)) |> DOFLAG_ZFw l |> DOFLAG_SFw l |> DOFLAG_PF l)
  | t_NEGd =>
      Some (f |> SET_FLAG FLAG_AF (nz (Z.land (lf_resd l) 0x0f)) |> DOFLAG_ZFd l |> DOFLAG_SFd l |> DOFLAG_PF l)
  | t_DIV | t_MUL => Some f
  | _ => None
  end.

(** An unhandled type only resets the type. *)
Definition FillFlagsNoCFOF (s : Cpu) : Cpu :=
  let l := lflags s in
  let f := reg_flags s in
  let f' := match NoCFOF_arith l f, NoCFOF_shift_unary l f with
            | Some f', _ => f'
            | None, Some f' => f'
            | None, None => f
            end in
  match type l with
  | t_UNKNOWN => s
  | _ => set_type t_UNKNOWN (with_flags (fun _ => f') s)
  end.

(** ** Flags of a division, and dropping the lazy state *)
Definition lower_8_has_odd_parity (value : Z) : bool := nz (parity (Z.land value 0xff)).

(** [is_negative] is false at the unsigned instances of the template. *)
Definition is_negative (is_signed : bool) (value : Z) : bool := is_signed && (value <? 0).

Definition set_cpu_test_flags_for_division (is_signed : bool) (quotient : Z) (s : Cpu) : Cpu :=
  let div_test_flags :=
    mkTestFlags false (lower_8_has_odd_parity quotient) false (quotient =? 0)
      (is_negative is_signed quotient) false
      (Z.lor FLAG_CF (Z.lor FLAG_OF (Z.lor FLAG_PF (Z.lor FLAG_SF FLAG_ZF)))) in
  with_regs (ApplyTestFlags div_test_flags) (set_type t_UNKNOWN s).

Definition DestroyConditionFlags (s : Cpu) : Cpu := set_type t_UNKNOWN s.

(** ** The condition macros [LoadCF] and [TFLG_*] *)
Definition LoadCF (s : Cpu) : Cpu := with_flags (SETFLAGBIT FLAG_CF (nz (get_CF s))) s.

Definition TFLG_O (s : Cpu) : bool := nz (get_OF s).
Definition TFLG_NO (s : Cpu) : bool := negb (nz (get_OF s)).
Definition TFLG_B (s : Cpu) : bool := nz (get_CF s).
Definition TFLG_NB (s : Cpu) : bool := negb (nz (get_CF s)).
Definition TFLG_Z (s : Cpu) : bool := nz (get_ZF s).
Definition TFLG_NZ (s : Cpu) : bool := negb (nz (get_ZF s)).
Definition TFLG_BE (s : Cpu) : bool := nz (get_CF s) || nz (get_ZF s).
Definition TFLG_NBE (s : Cpu) : bool := negb (nz (get_CF s)) && negb (nz (get_ZF s)).
Definition TFLG_S (s : Cpu) : bool := nz (get_SF s).
Definition TFLG_NS (s : Cpu) : bool := negb (nz (get_SF s)).
Definition TFLG_P (s : Cpu) : bool := nz (get_PF s).
Definition TFLG_NP (s : Cpu) : bool := negb (nz (get_PF s)).
Definition TFLG_L (s : Cpu) : bool := negb (Bool.eqb (nz (get_SF s)) (nz (get_OF s))).
Definition TFLG_NL (s : Cpu) : bool := Bool.eqb (nz (get_SF s)) (nz (get_OF s)).
Definition TFLG_LE (s : Cpu) : bool :=
  nz (get_ZF s) || negb (Bool.eqb (nz (get_SF s)) (nz (get_OF s))).
Definition TFLG_NLE (s : Cpu) : bool :=
  negb (nz (get_ZF s)) && Bool.eqb (nz (get_SF s)) (nz (get_OF s)).
