(* ===== verification/AluOps.v ===== *)
(** * ALU instructions ([cpu/instructions.h])

    One definition per instruction macro.  The macro's [load(op1)] is the
    argument [op1], a value already loaded; what the macro hands to [save] is
    the second component of the result, [None] when nothing is saved (compares,
    tests, and rotations that [break] out before saving). *)
From S2P Require Import Prelude.
From S2P Require Import Registers.
From S2P Require Import LazyFlags.
#[local] Open Scope Z_scope.
#[local] Open Scope seq_scope.

(** Views of the lazy operands in the state, and assignments to them. *)
Definition var1b (s : Cpu) : Z := lf_var1b (lflags s).
Definition var2b (s : Cpu) : Z := lf_var2b (lflags s).
Definition resb (s : Cpu) : Z := lf_resb (lflags s).
Definition var1w (s : Cpu) : Z := lf_var1w (lflags s).
Definition var2w (s : Cpu) : Z := lf_var2w (lflags s).
Definition resw (s : Cpu) : Z := lf_resw (lflags s).
Definition var1d (s : Cpu) : Z := lf_var1d (lflags s).
Definition var2d (s : Cpu) : Z := lf_var2d (lflags s).
Definition resd (s : Cpu) : Z := lf_resd (lflags s).
Definition put_var1b (v : Z) (s : Cpu) : Cpu :=
  let l := lflags s in mkCpu (cpu_regs s) (mkLF (set_byte_l (var1 l) v) (var2 l) (res l) (type l) (oldcf l)).
Definition put_var2b (v : Z) (s : Cpu) : Cpu :=
  let l := lflags s in mkCpu (cpu_regs s) (mkLF (var1 l) (set_byte_l (var2 l) v) (res l) (type l) (oldcf l)).
Definition put_resb (v : Z) (s : Cpu) : Cpu :=
  let l := lflags s in mkCpu (cpu_regs s) (mkLF (var1 l) (var2 l) (set_byte_l (res l) v) (type l) (oldcf l)).
Definition put_var1w (v : Z) (s : Cpu) : Cpu :=
  let l := lflags s in mkCpu (cpu_regs s) (mkLF (set_word_l (var1 l) v) (var2 l) (res l) (type l) (oldcf l)).
Definition put_var2w (v : Z) (s : Cpu) : Cpu :=
  let l := lflags s in mkCpu (cpu_regs s) (mkLF (var1 l) (set_word_l (var2 l) v) (res l) (type l) (oldcf l)).
Definition put_resw (v : Z) (s : Cpu) : Cpu :=
  let l := lflags s in mkCpu (cpu_regs s) (mkLF (var1 l) (var2 l) (set_word_l (res l) v) (type l) (oldcf l)).
Definition put_var1d (v : Z) (s : Cpu) : Cpu :=
  let l := lflags s in mkCpu (cpu_regs s) (mkLF (u32 v) (var2 l) (res l) (type l) (oldcf l)).
Definition put_var2d (v : Z) (s : Cpu) : Cpu :=
  let l := lflags s in mkCpu (cpu_regs s) (mkLF (var1 l) (u32 v) (res l) (type l) (oldcf l)).
Definition put_resd (v : Z) (s : Cpu) : Cpu :=
  let l := lflags s in mkCpu (cpu_regs s) (mkLF (var1 l) (var2 l) (u32 v) (type l) (oldcf l)).
Definition put_oldcf (v : Z) (s : Cpu) : Cpu :=
  let l := lflags s in mkCpu (cpu_regs s) (mkLF (var1 l) (var2 l) (res l) (type l) v).
Definition set_flag (mask : Z) (b : bool) (s : Cpu) : Cpu := with_flags (SETFLAGBIT mask b) s.
Definition outcome : Type := Cpu * option Z.

(** ** Binary operations *)
Definition ADDB (op1 op2 : Z) (s : Cpu) : outcome :=
  let s := s |> put_var1b op1 |> put_var2b op2 in
  let s := put_resb (var1b s + var2b s) s in
  (set_type t_ADDb s, Some (resb s)).
Definition ADCB (op1 op2 : Z) (s : Cpu) : outcome :=
  let s := put_oldcf (b2z (nz (get_CF s))) s in
  let s := s |> put_var1b op1 |> put_var2b op2 in
  let s := put_resb (var1b s + var2b s + oldcf (lflags s)) s in
  (set_type t_ADCb s, Some (resb s)).
Definition SBBB (op1 op2 : Z) (s : Cpu) : outcome :=
  let s := put_oldcf (b2z (nz (get_CF s))) s in
  let s := s |> put_var1b op1 |> put_var2b op2 in
  let s := put_resb (var1b s - (var2b s + oldcf (lflags s))) s in
  (set_type t_SBBb s, Some (resb s)).
Definition SUBB (op1 op2 : Z) (s : Cpu) : outcome :=
  let s := s |> put_var1b op1 |> put_var2b op2 in
  let s := put_resb (var1b s - var2b s) s in
  (set_type t_SUBb s, Some (resb s)).
Definition ORB (op1 op2 : Z) (s : Cpu) : outcome :=
  let s := s |> put_var1b op1 |> put_var2b op2 in
  let s := put_resb (Z.lor (var1b s) (var2b s)) s in
  (set_type t_ORb s, Some (resb s)).
Definition XORB (op1 op2 : Z) (s : Cpu) : outcome :=
  let s := s |> put_var1b op1 |> put_var2b op2 in
  let s := put_resb (Z.lxor (var1b s) (var2b s)) s in
  (set_type t_XORb s, Some (resb s)).
Definition ANDB (op1 op2 : Z) (s : Cpu) : outcome :=
  let s := s |> put_var1b op1 |> put_var2b op2 in
  let s := put_resb (Z.land (var1b s) (var2b s)) s in
  (set_type t_ANDb s, Some (resb s)).
Definition CMPB (op1 op2 : Z) (s : Cpu) : outcome :=
  let s := s |> put_var1b op1 |> put_var2b op2 in
  let s := put_resb (var1b s - var2b s) s in
  (set_type t_CMPb s, None).
Definition TESTB (op1 op2 : Z) (s : Cpu) : outcome :=
  let s := s |> put_var1b op1 |> put_var2b op2 in
  let s := put_resb (Z.land (var1b s) (var2b s)) s in
  (set_type t_TESTb s, None).
Definition ADDW (op1 op2 : Z) (s : Cpu) : outcome :=
  let s := s |> put_var1w op1 |> put_var2w op2 in
  let s := put_resw (var1w s + var2w s) s in
  (set_type t_ADDw s, Some (resw s)).
Definition ADCW (op1 op2 : Z) (s : Cpu) : outcome :=
  let s := put_oldcf (b2z (nz (get_CF s))) s in
  let s := s |> put_var1w op1 |> put_var2w op2 in
  let s := put_resw (var1w s + var2w s + oldcf (lflags s)) s in
  (set_type t_ADCw s, Some (resw s)).
Definition SBBW (op1 op2 : Z) (s : Cpu) : outcome :=
  let s := put_oldcf (b2z (nz (get_CF s))) s in
  let s := s |> put_var1w op1 |> put_var2w op2 in
  let s := put_resw (var1w s - (var2w s + oldcf (lflags s))) s in
  (set_type t_SBBw s, Some (resw s)).
Definition SUBW (op1 op2 : Z) (s : Cpu) : outcome :=
  let s := s |> put_var1w op1 |> put_var2w op2 in
  let s := put_resw (var1w s - var2w s) s in
  (set_type t_SUBw s, Some (resw s)).
Definition ORW (op1 op2 : Z) (s : Cpu) : outcome :=
  let s := s |> put_var1w op1 |> put_var2w op2 in
  let s := put_resw (Z.lor (var1w s) (var2w s)) s in
  (set_type t_ORw s, Some (resw s)).
Definition XORW (op1 op2 : Z) (s : Cpu) : outcome :=
  let s := s |> put_var1w op1 |> put_var2w op2 in
  let s := put_resw (Z.lxor (var1w s) (var2w s)) s in
  (set_type t_XORw s, Some (resw s)).
Definition ANDW (op1 op2 : Z) (s : Cpu) : outcome :=
  let s := s |> put_var1w op1 |> put_var2w op2 in
  let s := put_resw (Z.land (var1w s) (var2w s)) s in
  (set_type t_ANDw s, Some (resw s)).
Definition CMPW (op1 op2 : Z) (s : Cpu) : outcome :=
  let s := s |> put_var1w op1 |> put_var2w op2 in
  let s := put_resw (var1w s - var2w s) s in
  (set_type t_CMPw s, None).
Definition TESTW (op1 op2 : Z) (s : Cpu) : outcome :=
  let s := s |> put_var1w op1 |> put_var2w op2 in
  let s := put_resw (Z.land (var1w s) (var2w s)) s in
  (set_type t_TESTw s, None).
Definition ADDD (op1 op2 : Z) (s : Cpu) : outcome :=
  let s := s |> put_var1d op1 |> put_var2d op2 in
  let s := put_resd (var1d s + var2d s) s in
  (set_type t_ADDd s, Some (resd s)).
Definition ADCD (op1 op2 : Z) (s : Cpu) : outcome :=
  let s := put_oldcf (b2z (nz (get_CF s))) s in
  let s := s |> put_var1d op1 |> put_var2d op2 in
  let s := put_resd (var1d s + var2d s + oldcf (lflags s)) s in
  (set_type t_ADCd s, Some (resd s)).
Definition SBBD (op1 op2 : Z) (s : Cpu) : outcome :=
  let s := put_oldcf (b2z (nz (get_CF s))) s in
  let s := s |> put_var1d op1 |> put_var2d op2 in
  let s := put_resd (var1d s - (var2d s + oldcf (lflags s))) s in
  (set_type t_SBBd s, Some (resd s)).
Definition SUBD (op1 op2 : Z) (s : Cpu) : outcome :=
  let s := s |> put_var1d op1 |> put_var2d op2 in
  let s := put_resd (var1d s - var2d s) s in
  (set_type t_SUBd s, Some (resd s)).
Definition ORD (op1 op2 : Z) (s : Cpu) : outcome :=
  let s := s |> put_var1d op1 |> put_var2d op2 in
  let s := put_resd (Z.lor (var1d s) (var2d s)) s in
  (set_type t_ORd s, Some (resd s)).
Definition XORD (op1 op2 : Z) (s : Cpu) : outcome :=
  let s := s |> put_var1d op1 |> put_var2d op2 in
  let s := put_resd (Z.lxor (var1d s) (var2d s)) s in
  (set_type t_XORd s, Some (resd s)).
Definition ANDD (op1 op2 : Z) (s : Cpu) : outcome :=
  let s := s |> put_var1d op1 |> put_var2d op2 in
  let s := put_resd (Z.land (var1d s) (var2d s)) s in
  (set_type t_ANDd s, Some (resd s)).
Definition CMPD (op1 op2 : Z) (s : Cpu) : outcome :=
  let s := s |> put_var1d op1 |> put_var2d op2 in
  let s := put_resd (var1d s - var2d s) s in
  (set_type t_CMPd s, None).
Definition TESTD (op1 op2 : Z) (s : Cpu) : outcome :=
  let s := s |> put_var1d op1 |> put_var2d op2 in
  let s := put_resd (Z.land (var1d s) (var2d s)) s in
  (set_type t_TESTd s, None).

(** ** Increment, decrement, negation *)
Definition INCB (op1 : Z) (s : Cpu) : outcome :=
  let s := s |> LoadCF |> put_var1b op1 in
  let s := put_resb (var1b s + 1) s in
  (set_type t_INCb s, Some (resb s)).
Definition DECB (op1 : Z) (s : Cpu) : outcome :=
  let s := s |> LoadCF |> put_var1b op1 in
  let s := put_resb (var1b s - 1) s in
  (set_type t_DECb s, Some (resb s)).
Definition NEGB (op1 : Z) (s : Cpu) : outcome :=
  let s := s |> set_type t_NEGb |> put_var1b op1 in
  let s := put_resb (0 - var1b s) s in
  (s, Some (resb s)).
Definition INCW (op1 : Z) (s : Cpu) : outcome :=
  let s := s |> LoadCF |> put_var1w op1 in
  let s := put_resw (var1w s + 1) s in
  (set_type t_INCw s, Some (resw s)).
Definition DECW (op1 : Z) (s : Cpu) : outcome :=
  let s := s |> LoadCF |> put_var1w op1 in
  let s := put_resw (var1w s - 1) s in
  (set_type t_DECw s, Some (resw s)).
Definition NEGW (op1 : Z) (s : Cpu) : outcome :=
  let s := s |> set_type t_NEGw |> put_var1w op1 in
  let s := put_resw (0 - var1w s) s in
  (s, Some (resw s)).
Definition INCD (op1 : Z) (s : Cpu) : outcome :=
  let s := s |> LoadCF |> put_var1d op1 in
  let s := put_resd (var1d s + 1) s in
  (set_type t_INCd s, Some (resd s)).
Definition DECD (op1 : Z) (s : Cpu) : outcome :=
  let s := s |> LoadCF |> put_var1d op1 in
  let s := put_resd (var1d s - 1) s in
  (set_type t_DECd s, Some (resd s)).
Definition NEGD (op1 : Z) (s : Cpu) : outcome :=
  let s := s |> set_type t_NEGd |> put_var1d op1 in
  let s := put_resd (0 - var1d s) s in
  (s, Some (resd s)).

(** ** Rotations *)
Definition ROLB (op1 op2 : Z) (s : Cpu) : outcome :=
  let s := s |> FillFlagsNoCFOF |> put_var1b op1 |> put_var2b (Z.land op2 0x07) in
  let s := put_resb (Z.lor (Z.shiftl (var1b s) (var2b s)) (Z.shiftr (var1b s) (8 - var2b s))) s in
  let r := resb s in
  (s |> set_flag FLAG_CF (nz (Z.land r 1))
     |> set_flag FLAG_OF (nz (Z.lxor (Z.land r 1) (Z.shiftr r 7))), Some r).
Definition RORB (op1 op2 : Z) (s : Cpu) : outcome :=
  let s := s |> FillFlagsNoCFOF |> put_var1b op1 |> put_var2b (Z.land op2 0x07) in
  let s := put_resb (Z.lor (Z.shiftr (var1b s) (var2b s)) (Z.shiftl (var1b s) (8 - var2b s))) s in
  let r := resb s in
  (s |> set_flag FLAG_CF (nz (Z.land r 0x80))
     |> set_flag FLAG_OF (nz (Z.land (Z.lxor r (Z.shiftl r 1)) 0x80)), Some r).
Definition ROLW (op1 op2 : Z) (s : Cpu) : outcome :=
  let s := s |> FillFlagsNoCFOF |> put_var1w op1 |> put_var2b (Z.land op2 0xf) in
  let s := put_resw (Z.lor (Z.shiftl (var1w s) (var2b s)) (Z.shiftr (var1w s) (16 - var2b s))) s in
  let r := resw s in
  (s |> set_flag FLAG_CF (nz (Z.land r 1))
     |> set_flag FLAG_OF (nz (Z.lxor (Z.land r 1) (Z.shiftr r 15))), Some r).
Definition RORW (op1 op2 : Z) (s : Cpu) : outcome :=
  let s := s |> FillFlagsNoCFOF |> put_var1w op1 |> put_var2b (Z.land op2 0xf) in
  let s := put_resw (Z.lor (Z.shiftr (var1w s) (var2b s)) (Z.shiftl (var1w s) (16 - var2b s))) s in
  let r := resw s in
  (s |> set_flag FLAG_CF (nz (Z.land r 0x8000))
     |> set_flag FLAG_OF (nz (Z.land (Z.lxor r (Z.shiftl r 1)) 0x8000)), Some r).
Definition ROLD (op1 op2 : Z) (s : Cpu) : outcome :=
  let s := s |> FillFlagsNoCFOF |> put_var1d op1 |> put_var2b (op2) in
  let s := put_resd (Z.lor (Z.shiftl (var1d s) (var2b s)) (Z.shiftr (var1d s) (32 - var2b s))) s in
  let r := resd s in
  (s |> set_flag FLAG_CF (nz (Z.land r 1))
     |> set_flag FLAG_OF (nz (Z.lxor (Z.land r 1) (Z.shiftr r 31))), Some r).
Definition RORD (op1 op2 : Z) (s : Cpu) : outcome :=
  let s := s |> FillFlagsNoCFOF |> put_var1d op1 |> put_var2b (op2) in
  let s := put_resd (Z.lor (Z.shiftr (var1d s) (var2b s)) (Z.shiftl (var1d s) (32 - var2b s))) s in
  let r := resd s in
  (s |> set_flag FLAG_CF (nz (Z.land r 0x80000000))
     |> set_flag FLAG_OF (nz (Z.land (Z.lxor r (Z.shiftl r 1)) 0x80000000)), Some r).
Definition RCLB (op1 op2 : Z) (s : Cpu) : outcome :=
  if op2 mod 9 =? 0 then (s, None) else
  let '(s, ff) := FillFlags s in
  let cf := Z.land ff 1 in
  let s := s |> put_var1b op1 |> put_var2b (op2 mod 9) in
  let s := put_resb (Z.lor (Z.lor (Z.shiftl (var1b s) (var2b s)) (Z.shiftl cf (var2b s - 1)))
                          (Z.shiftr (var1b s) (9 - var2b s))) s in
  let r := resb s in
  let s := set_flag FLAG_CF (nz (Z.land (Z.shiftr (var1b s) (8 - var2b s)) 1)) s in
  (set_flag FLAG_OF (nz (Z.lxor (Z.land (reg_flags s) 1) (Z.shiftr r 7))) s, Some r).
Definition RCRB (op1 op2 : Z) (s : Cpu) : outcome :=
  if op2 mod 9 =? 0 then (s, None) else
  let '(s, ff) := FillFlags s in
  let cf := Z.land ff 1 in
  let s := s |> put_var1b op1 |> put_var2b (op2 mod 9) in
  let s := put_resb (Z.lor (Z.lor (Z.shiftr (var1b s) (var2b s)) (Z.shiftl cf (8 - var2b s)))
                          (Z.shiftl (var1b s) (9 - var2b s))) s in
  let r := resb s in
  (s |> set_flag FLAG_CF (nz (Z.land (Z.shiftr (var1b s) (lf_var2b_minus_one (lflags s))) 1))
     |> set_flag FLAG_OF (nz (Z.land (Z.lxor r (Z.shiftl r 1)) 0x80)), Some r).
Definition RCLW (op1 op2 : Z) (s : Cpu) : outcome :=
  if op2 mod 17 =? 0 then (s, None) else
  let '(s, ff) := FillFlags s in
  let cf := Z.land ff 1 in
  let s := s |> put_var1w op1 |> put_var2b (op2 mod 17) in
  let s := put_resw (Z.lor (Z.lor (Z.shiftl (var1w s) (var2b s)) (Z.shiftl cf (var2b s - 1)))
                          (Z.shiftr (var1w s) (17 - var2b s))) s in
  let r := resw s in
  let s := set_flag FLAG_CF (nz (Z.land (Z.shiftr (var1w s) (16 - var2b s)) 1)) s in
  (set_flag FLAG_OF (nz (Z.lxor (Z.land (reg_flags s) 1) (Z.shiftr r 15))) s, Some r).
Definition RCRW (op1 op2 : Z) (s : Cpu) : outcome :=
  if op2 mod 17 =? 0 then (s, None) else
  let '(s, ff) := FillFlags s in
  let cf := Z.land ff 1 in
  let s := s |> put_var1w op1 |> put_var2b (op2 mod 17) in
  let s := put_resw (Z.lor (Z.lor (Z.shiftr (var1w s) (var2b s)) (Z.shiftl cf (16 - var2b s)))
                          (Z.shiftl (var1w s) (17 - var2b s))) s in
  let r := resw s in
  (s |> set_flag FLAG_CF (nz (Z.land (Z.shiftr (var1w s) (lf_var2b_minus_one (lflags s))) 1))
     |> set_flag FLAG_OF (nz (Z.land (Z.lxor r (Z.shiftl r 1)) 0x8000)), Some r).
Definition RCLD (op1 op2 : Z) (s : Cpu) : outcome :=
  if op2 =? 0 then (s, None) else
  let '(s, ff) := FillFlags s in
  let cf := Z.land ff 1 in
  let s := s |> put_var1d op1 |> put_var2b op2 in
  let s := put_resd
    (if var2b s =? 1 then Z.lor (Z.shiftl (var1d s) 1) cf
     else Z.lor (Z.lor (Z.shiftl (var1d s) (var2b s)) (Z.shiftl cf (lf_var2b_minus_one (lflags s))))
                (Z.shiftr (var1d s) (33 - var2b s))) s in
  let r := resd s in
  let s := set_flag FLAG_CF (nz (Z.land (Z.shiftr (var1d s) (32 - var2b s)) 1)) s in
  (set_flag FLAG_OF (nz (Z.lxor (Z.land (reg_flags s) 1) (Z.shiftr r 31))) s, Some r).
Definition RCRD (op1 op2 : Z) (s : Cpu) : outcome :=
  if op2 =? 0 then (s, None) else
  let '(s, ff) := FillFlags s in
  let cf := Z.land ff 1 in
  let s := s |> put_var1d op1 |> put_var2b op2 in
  let s := put_resd
    (if var2b s =? 1 then Z.lor (Z.shiftr (var1d s) 1) (Z.shiftl cf 31)
     else Z.lor (Z.lor (Z.shiftr (var1d s) (var2b s)) (Z.shiftl cf (32 - var2b s)))
                (Z.shiftl (var1d s) (33 - var2b s))) s in
  let r := resd s in
  (s |> set_flag FLAG_CF (nz (Z.land (Z.shiftr (var1d s) (lf_var2b_minus_one (lflags s))) 1))
     |> set_flag FLAG_OF (nz (Z.land (Z.lxor r (Z.shiftl r 1)) 0x80000000)), Some r).

(** ** Shifts *)
Definition SHLB (op1 op2 : Z) (s : Cpu) : outcome :=
  let s := s |> put_var1b op1 |> put_var2b op2 in
  let s := put_resb (Z.shiftl (var1b s) (var2b s)) s in
  (set_type t_SHLb s, Some (resb s)).
Definition SHRB (op1 op2 : Z) (s : Cpu) : outcome :=
  let s := s |> put_var1b op1 |> put_var2b op2 in
  let s := put_resb (Z.shiftr (var1b s) (var2b s)) s in
  (set_type t_SHRb s, Some (resb s)).
Definition SARB (op1 op2 : Z) (s : Cpu) : outcome :=
  let s := s |> put_var1b op1 |> put_var2b op2 in
  let s := if 8 <? var2b s then put_var2b 8 s else s in
  let s := put_resb
    (if nz (Z.land (var1b s) 0x80)
     then Z.lor (Z.shiftr (var1b s) (var2b s)) (Z.shiftl 0xff (8 - var2b s))
     else Z.shiftr (var1b s) (var2b s)) s in
  (set_type t_SARb s, Some (resb s)).
Definition SHLW (op1 op2 : Z) (s : Cpu) : outcome :=
  let s := s |> put_var1w op1 |> put_var2b op2 in
  let s := put_resw (Z.shiftl (var1w s) (var2b s)) s in
  (set_type t_SHLw s, Some (resw s)).
Definition SHRW (op1 op2 : Z) (s : Cpu) : outcome :=
  let s := s |> put_var1w op1 |> put_var2b op2 in
  let s := put_resw (Z.shiftr (var1w s) (var2b s)) s in
  (set_type t_SHRw s, Some (resw s)).
Definition SARW (op1 op2 : Z) (s : Cpu) : outcome :=
  let s := s |> put_var1w op1 |> put_var2b op2 in
  let s := if 16 <? var2b s then put_var2b 16 s else s in
  let s := put_resw
    (if nz (Z.land (var1w s) 0x8000)
     then Z.lor (Z.shiftr (var1w s) (var2b s)) (Z.shiftl 0xffff (16 - var2b s))
     else Z.shiftr (var1w s) (var2b s)) s in
  (set_type t_SARw s, Some (resw s)).
Definition SHLD (op1 op2 : Z) (s : Cpu) : outcome :=
  let s := s |> put_var1d op1 |> put_var2b op2 in
  let s := put_resd (Z.shiftl (var1d s) (var2b s)) s in
  (set_type t_SHLd s, Some (resd s)).
Definition SHRD (op1 op2 : Z) (s : Cpu) : outcome :=
  let s := s |> put_var1d op1 |> put_var2b op2 in
  let s := put_resd (Z.shiftr (var1d s) (var2b s)) s in
  (set_type t_SHRd s, Some (resd s)).
Definition SARD (op1 op2 : Z) (s : Cpu) : outcome :=
  let s := s |> put_var2b op2 |> put_var1d op1 in
  let s := put_resd
    (if nz (Z.land (var1d s) 0x80000000)
     then Z.lor (Z.shiftr (var1d s) (var2b s)) (Z.shiftl 0xffffffff (32 - var2b s))
     else Z.shiftr (var1d s) (var2b s)) s in
  (set_type t_SARd s, Some (resd s)).

(** ** The shift and rotate group: [GRP2B], [GRP2W], [GRP2D]

    [which] is [(rm>>3)&7]; the register and the memory form differ only in how
    [op1] is loaded and saved. *)
Definition GRP2B (which blah op1 : Z) (s : Cpu) : outcome :=
  let val := Z.land blah 0x1f in
  if val =? 0 then (s, None) else
  match which with
  | 0 => ROLB op1 val s
  | 1 => RORB op1 val s
  | 2 => RCLB op1 val s
  | 3 => RCRB op1 val s
  | 4 | 6 => SHLB op1 val s
  | 5 => SHRB op1 val s
  | 7 => SARB op1 val s
  | _ => (s, None)
  end.
Definition GRP2W (which blah op1 : Z) (s : Cpu) : outcome :=
  let val := Z.land blah 0x1f in
  if val =? 0 then (s, None) else
  match which with
  | 0 => ROLW op1 val s
  | 1 => RORW op1 val s
  | 2 => RCLW op1 val s
  | 3 => RCRW op1 val s
  | 4 | 6 => SHLW op1 val s
  | 5 => SHRW op1 val s
  | 7 => SARW op1 val s
  | _ => (s, None)
  end.
Definition GRP2D (which blah op1 : Z) (s : Cpu) : outcome :=
  let val := Z.land blah 0x1f in
  if val =? 0 then (s, None) else
  match which with
  | 0 => ROLD op1 val s
  | 1 => RORD op1 val s
  | 2 => RCLD op1 val s
  | 3 => RCRD op1 val s
  | 4 | 6 => SHLD op1 val s
  | 5 => SHRD op1 val s
  | 7 => SARD op1 val s
  | _ => (s, None)
  end.

(** ** Double-precision shifts *)
Definition DSHLW (op1 op2 op3 : Z) (s : Cpu) : outcome :=
  let val := Z.land op3 0x1f in
  if val =? 0 then (s, None) else
  let s := s |> put_var2b val |> put_var1d (Z.lor (Z.shiftl op1 16) op2) in
  let tempd := u32 (Z.shiftl (var1d s) (var2b s)) in
  let tempd := if 16 <? var2b s then u32 (Z.lor tempd (Z.shiftl op2 (var2b s - 16))) else tempd in
  let s := put_resw (Z.shiftr tempd 16) s in
  (set_type t_DSHLw s, Some (resw s)).
Definition DSHLD (op1 op2 op3 : Z) (s : Cpu) : outcome :=
  let val := Z.land op3 0x1f in
  if val =? 0 then (s, None) else
  let s := s |> put_var2b val |> put_var1d op1 in
  let s := put_resd (Z.lor (Z.shiftl (var1d s) (var2b s)) (Z.shiftr op2 (32 - var2b s))) s in
  (set_type t_DSHLd s, Some (resd s)).
Definition DSHRW (op1 op2 op3 : Z) (s : Cpu) : outcome :=
  let val := Z.land op3 0x1f in
  if val =? 0 then (s, None) else
  let s := s |> put_var2b val |> put_var1d (Z.lor (Z.shiftl op2 16) op1) in
  let tempd := u32 (Z.shiftr (var1d s) (var2b s)) in
  let tempd := if 16 <? var2b s then u32 (Z.lor tempd (Z.shiftl op2 (32 - var2b s))) else tempd in
  let s := put_resw tempd s in
  (set_type t_DSHRw s, Some (resw s)).
Definition DSHRD (op1 op2 op3 : Z) (s : Cpu) : outcome :=
  let val := Z.land op3 0x1f in
  if val =? 0 then (s, None) else
  let s := s |> put_var2b val |> put_var1d op1 in
  let s := put_resd (Z.lor (Z.shiftr (var1d s) (var2b s)) (Z.shiftl op2 (32 - var2b s))) s in
  (set_type t_DSHRd s, Some (resd s)).

Definition BSWAPW (op1 : Z) : Z := 0.
Definition BSWAPD (op1 : Z) : Z :=
  u32 (Z.lor (Z.lor (Z.lor (Z.shiftr op1 24) (Z.land (Z.shiftr op1 8) 0xFF00))
                    (Z.land (Z.shiftl op1 8) 0xFF0000))
             (Z.land (Z.shiftl op1 24) 0xFF000000)).
