(* ===== verification/AluMulDiv.v ===== *)
(** * Multiplication, division and decimal adjustment ([cpu/instructions.h])

    The rest of the instruction macros: [MUL]/[IMUL]/[DIMUL], [DIV]/[IDIV] and
    [DAA]/[DAS]/[AAA]/[AAS]/[AAM]/[AAD]. *)
From S2P Require Import Prelude.
From S2P Require Import Registers.
From S2P Require Import LazyFlags.
From S2P Require Import AluOps.
#[local] Open Scope Z_scope.
#[local] Open Scope seq_scope.

(** What a macro that can raise a CPU exception does: it completes, it leaves
    through [EXCEPTION(n)], or it evaluates a C++ expression whose behaviour is
    undefined. *)
Inductive result :=
  | Done (s : Cpu)
  | Exception (which : Z)
  | Undefined.

#[local] Abbreviation al s := (reg_al (cpu_regs s)).
#[local] Abbreviation ah s := (reg_ah (cpu_regs s)).
#[local] Abbreviation ax s := (reg_ax (cpu_regs s)).
#[local] Abbreviation dx s := (reg_dx (cpu_regs s)).
#[local] Abbreviation eax s := (reg_eax (cpu_regs s)).
#[local] Abbreviation edx s := (reg_edx (cpu_regs s)).

Definition set_CF_OF (b : bool) (s : Cpu) : Cpu :=
  s |> set_flag FLAG_CF b |> set_flag FLAG_OF b.

(** ** Multiplication *)
Definition MULB (op1 : Z) (s : Cpu) : Cpu :=
  let s := s |> with_regs (set_ax (al s * op1)) |> FillFlagsNoCFOF in
  let s := set_flag FLAG_ZF (al s =? 0) s in
  if nz (Z.land (ax s) 0xff00) then set_CF_OF true s else set_CF_OF false s.

Definition MULW (op1 : Z) (s : Cpu) : Cpu :=
  let res := u32 (u32 (ax s) * u32 op1) in
  let s := s |> with_regs (set_ax res) |> with_regs (set_dx (Z.shiftr res 16)) |> FillFlagsNoCFOF in
  let s := set_flag FLAG_ZF (ax s =? 0) s in
  if nz (dx s) then set_CF_OF true s else set_CF_OF false s.

Definition MULD (op1 : Z) (s : Cpu) : Cpu :=
  let res := u64 (u64 (eax s) * u64 op1) in
  let s := s |> with_regs (set_eax (u32 res)) |> with_regs (set_edx (u32 (Z.shiftr res 32)))
             |> FillFlagsNoCFOF in
  let s := set_flag FLAG_ZF (eax s =? 0) s in
  if nz (edx s) then set_CF_OF true s else set_CF_OF false s.

Definition IMULB (op1 : Z) (s : Cpu) : Cpu :=
  let s := s |> with_regs (set_ax (s8 (al s) * s8 op1)) |> FillFlagsNoCFOF in
  let s := s |> set_flag FLAG_ZF (al s =? 0) |> set_flag FLAG_SF (nz (Z.land (al s) 0x80)) in
  if (Z.land (ax s) 0xff80 =? 0xff80) || (Z.land (ax s) 0xff80 =? 0x0000)
  then set_CF_OF false s else set_CF_OF true s.

Definition IMULW (op1 : Z) (s : Cpu) : Cpu :=
  let res := s16 (ax s) * s16 op1 in
  let s := s |> with_regs (set_ax (s16 res)) |> with_regs (set_dx (s16 (Z.shiftr res 16)))
             |> FillFlagsNoCFOF in
  let s := s |> set_flag FLAG_ZF (ax s =? 0) |> set_flag FLAG_SF (nz (Z.land (ax s) 0x8000)) in
  if (Z.land (u32 res) 0xffff8000 =? 0xffff8000) || (Z.land (u32 res) 0xffff8000 =? 0x0000)
  then set_CF_OF false s else set_CF_OF true s.

Definition IMULD (op1 : Z) (s : Cpu) : Cpu :=
  let temps := s32 (eax s) * s32 op1 in
  let s := s |> with_regs (set_eax (u32 (s32 temps)))
             |> with_regs (set_edx (u32 (s32 (Z.shiftr temps 32)))) |> FillFlagsNoCFOF in
  let s := s |> set_flag FLAG_ZF (eax s =? 0) |> set_flag FLAG_SF (nz (Z.land (eax s) 0x80000000)) in
  if (edx s =? 0xffffffff) && nz (Z.land (eax s) 0x80000000) then set_CF_OF false s
  else if (edx s =? 0) && (eax s <? 0x80000000) then set_CF_OF false s
  else set_CF_OF true s.

(** Two- and three-operand forms; [op2] and [op3] of [DIMULW] are signed words. *)
Definition DIMULW (op2 op3 : Z) (s : Cpu) : outcome :=
  let res := op2 * op3 in
  let s := FillFlagsNoCFOF s in
  (if (-32768 <=? res) && (res <=? 32767) then set_CF_OF false s else set_CF_OF true s,
   Some (Z.land res 0xffff)).

Definition DIMULD (op2 op3 : Z) (s : Cpu) : outcome :=
  let op2_i32 := s32 op2 in
  let op3_i32 := s32 op3 in
  let result_i64 := op2_i32 * op3_i32 in
  let result_i32 := s32 result_i64 in
  let had_overflow := negb (result_i32 =? result_i64) in
  (FillFlagsNoCFOF s |> set_flag FLAG_CF had_overflow |> set_flag FLAG_OF had_overflow,
   Some (u32 result_i32)).

(** ** Division

    C++ integer division truncates ([Z.quot], [Z.rem]); dividing the most
    negative value of the dividend's type by -1 is undefined. *)
Definition DIVB (op1 : Z) (s : Cpu) : result :=
  let val := op1 in
  if val =? 0 then Exception 0 else
  let quo := ax s / val in
  let rem := u8 (ax s mod val) in
  let quo8 := u8 (Z.land quo 0xff) in
  if 0xff <? quo then Exception 0 else
  Done (s |> with_regs (set_ah rem) |> with_regs (set_al quo8)
          |> set_cpu_test_flags_for_division false quo8).

Definition DIVW (op1 : Z) (s : Cpu) : result :=
  let val := op1 in
  if val =? 0 then Exception 0 else
  let num := Z.lor (u32 (Z.shiftl (dx s) 16)) (ax s) in
  let quo := num / val in
  let rem := u16 (num mod val) in
  let quo16 := u16 (Z.land quo 0xffff) in
  if negb (quo =? u32 quo16) then Exception 0 else
  Done (s |> with_regs (set_dx rem) |> with_regs (set_ax quo16)
          |> set_cpu_test_flags_for_division false quo16).

Definition DIVD (op1 : Z) (s : Cpu) : result :=
  let val := op1 in
  if val =? 0 then Exception 0 else
  let num := Z.lor (u64 (Z.shiftl (edx s) 32)) (eax s) in
  let quo := num / val in
  let rem := u32 (num mod val) in
  let quo32 := u32 (Z.land quo 0xffffffff) in
  if negb (quo =? quo32) then Exception 0 else
  Done (s |> with_regs (set_edx rem) |> with_regs (set_eax quo32)
          |> set_cpu_test_flags_for_division false quo32).

(** [val] is a [Bits] (64 bits), so the byte form divides in 64 bits. *)
Definition IDIVB (op1 : Z) (s : Cpu) : result :=
  let val := s8 op1 in
  if val =? 0 then Exception 0 else
  let quo := Z.quot (s16 (ax s)) val in
  let rem := s8 (Z.rem (s16 (ax s)) val) in
  let quo8s := s8 (Z.land quo 0xff) in
  if negb (quo =? s16 quo8s) then Exception 0 else
  Done (s |> with_regs (set_ah rem) |> with_regs (set_al quo8s)
          |> set_cpu_test_flags_for_division true quo8s).

(** [num], [quo] and [rem] are [int]. *)
Definition IDIVW (op1 : Z) (s : Cpu) : result :=
  let val := s16 op1 in
  if val =? 0 then Exception 0 else
  let num := s32 (Z.lor (Z.shiftl (dx s) 16) (ax s)) in
  if (num =? - 2 ^ 31) && (val =? -1) then Undefined else
  let quo := Z.quot num val in
  let rem := Z.rem num val in
  let quo16s := s16 quo in
  if negb (quo =? quo16s) then Exception 0 else
  Done (s |> with_regs (set_ax quo16s) |> with_regs (set_dx (s16 rem))
          |> set_cpu_test_flags_for_division true quo16s).

(** [num] and [quo] are [int64_t]. *)
Definition IDIVD (op1 : Z) (s : Cpu) : result :=
  let val := s32 op1 in
  if val =? 0 then Exception 0 else
  let num := s64 (Z.lor (u64 (Z.shiftl (edx s) 32)) (eax s)) in
  if (num =? - 2 ^ 63) && (val =? -1) then Undefined else
  let quo := Z.quot num val in
  let rem := s32 (Z.rem num val) in
  let quo32s := s32 (Z.land quo 0xffffffff) in
  if negb (quo =? quo32s) then Exception 0 else
  Done (s |> with_regs (set_edx (u32 rem)) |> with_regs (set_eax (u32 quo32s))
          |> set_cpu_test_flags_for_division true quo32s).

(** ** Decimal adjustment *)
(** The carry branch, the same text in both arms of [DAA]. *)
Definition DAA_carry (s : Cpu) : Cpu :=
  if (0x99 <? al s) || nz (get_CF s)
  then s |> with_regs (set_al (al s + 0x60)) |> set_flag FLAG_CF true
  else set_flag FLAG_CF false s.
Definition DAA (s : Cpu) : Cpu :=
  let s := if (9 <? Z.land (al s) 0x0f) || nz (get_AF s)
           then let s := DAA_carry s in
                s |> with_regs (set_al (al s + 0x06)) |> set_flag FLAG_AF true
           else DAA_carry s |> set_flag FLAG_AF false in
  s |> set_flag FLAG_SF (nz (Z.land (al s) 0x80)) |> set_flag FLAG_ZF (al s =? 0)
    |> set_flag FLAG_PF (nz (parity (al s))) |> set_type t_UNKNOWN.

Definition DAS (s : Cpu) : Cpu :=
  let osigned := nz (Z.land (al s) 0x80) in
  let s := if (9 <? Z.land (al s) 0x0f) || nz (get_AF s)
           then let s := if (0x99 <? al s) || nz (get_CF s)
                         then s |> with_regs (set_al (al s - 0x60)) |> set_flag FLAG_CF true
                         else set_flag FLAG_CF (al s <=? 0x05) s in
                s |> with_regs (set_al (al s - 6)) |> set_flag FLAG_AF true
           else let s := if (0x99 <? al s) || nz (get_CF s)
                         then s |> with_regs (set_al (al s - 0x60)) |> set_flag FLAG_CF true
                         else set_flag FLAG_CF false s in
                set_flag FLAG_AF false s in
  s |> set_flag FLAG_OF (osigned && (Z.land (al s) 0x80 =? 0))
    |> set_flag FLAG_SF (nz (Z.land (al s) 0x80)) |> set_flag FLAG_ZF (al s =? 0)
    |> set_flag FLAG_PF (nz (parity (al s))) |> set_type t_UNKNOWN.

Definition AAA (s : Cpu) : Cpu :=
  let s := set_flag FLAG_SF ((0x7a <=? al s) && (al s <=? 0xf9)) s in
  let s :=
    if 9 <? Z.land (al s) 0xf then
      let s := set_flag FLAG_OF (Z.land (al s) 0xf0 =? 0x70) s in
      let s := s |> with_regs (set_ax (ax s + 0x106)) |> set_flag FLAG_CF true in
      s |> set_flag FLAG_ZF (al s =? 0) |> set_flag FLAG_AF true
    else if nz (get_AF s) then
      s |> with_regs (set_ax (ax s + 0x106)) |> set_flag FLAG_OF false |> set_flag FLAG_CF true
        |> set_flag FLAG_ZF false |> set_flag FLAG_AF true
    else
      s |> set_flag FLAG_OF false |> set_flag FLAG_CF false |> set_flag FLAG_ZF (al s =? 0)
        |> set_flag FLAG_AF false in
  s |> set_flag FLAG_PF (nz (parity (al s))) |> with_regs (set_al (Z.land (al s) 0x0f))
    |> set_type t_UNKNOWN.

Definition AAS (s : Cpu) : Cpu :=
  let s :=
    if 9 <? Z.land (al s) 0x0f then
      let s := set_flag FLAG_SF (0x85 <? al s) s in
      s |> with_regs (set_ax (ax s - 0x106)) |> set_flag FLAG_OF false |> set_flag FLAG_CF true
        |> set_flag FLAG_AF true
    else if nz (get_AF s) then
      let s := s |> set_flag FLAG_OF ((0x80 <=? al s) && (al s <=? 0x85))
                 |> set_flag FLAG_SF ((al s <? 0x06) || (0x85 <? al s)) in
      s |> with_regs (set_ax (ax s - 0x106)) |> set_flag FLAG_CF true |> set_flag FLAG_AF true
    else
      s |> set_flag FLAG_SF (0x80 <=? al s) |> set_flag FLAG_OF false |> set_flag FLAG_CF false
        |> set_flag FLAG_AF false in
  s |> set_flag FLAG_ZF (al s =? 0) |> set_flag FLAG_PF (nz (parity (al s)))
    |> with_regs (set_al (Z.land (al s) 0x0f)) |> set_type t_UNKNOWN.

Definition AAM (op1 : Z) (s : Cpu) : result :=
  let dv := op1 in
  if negb (dv =? 0) then
    let a := al s in
    let s := s |> with_regs (set_ah (a / dv)) in
    let s := s |> with_regs (set_al (al s mod dv)) in
    Done (s |> set_flag FLAG_SF (nz (Z.land (al s) 0x80)) |> set_flag FLAG_ZF (al s =? 0)
            |> set_flag FLAG_PF (nz (parity (al s))) |> set_flag FLAG_CF false
            |> set_flag FLAG_OF false |> set_flag FLAG_AF false |> set_type t_UNKNOWN)
  else Exception 0.

Definition AAD (op1 : Z) (s : Cpu) : Cpu :=
  let ax1 := u16 (ah s * op1) in
  let ax2 := u16 (ax1 + al s) in
  let s := s |> with_regs (set_al (u8 ax2)) |> with_regs (set_ah 0) in
  s |> set_flag FLAG_CF false |> set_flag FLAG_OF false |> set_flag FLAG_AF false
    |> set_flag FLAG_SF (0x80 <=? al s) |> set_flag FLAG_ZF (al s =? 0)
    |> set_flag FLAG_PF (nz (parity (al s))) |> set_type t_UNKNOWN.
