(* ===== verification/AluFlags.v ===== *)
(** * The architectural flags of add, subtract and compare

    The specification side: what the x86 manuals say the flags of an addition
    or subtraction are, over integers of any width, and the lemmas that connect
    the bit tricks of [flags.cpp] with it. *)
From S2P Require Import Prelude.
From S2P Require Import Registers.
From S2P Require Import LazyFlags.
#[local] Open Scope Z_scope.

(** The six condition flags. *)
Record cond := mkCond { c_cf : bool; c_pf : bool; c_af : bool; c_zf : bool; c_sf : bool; c_of : bool }.

(** What the getters report in a state. *)
Definition lazy_flags (s : Cpu) : cond :=
  mkCond (nz (get_CF s)) (nz (get_PF s)) (nz (get_AF s)) (nz (get_ZF s)) (nz (get_SF s)) (nz (get_OF s)).

(** What [reg_flags] holds. *)
Definition reg_cond (f : Z) : cond :=
  mkCond (Z.testbit f 0) (Z.testbit f 2) (Z.testbit f 4) (Z.testbit f 6) (Z.testbit f 7) (Z.testbit f 11).

(** Even number of one bits among the low eight. *)
Definition even_parity (r : Z) : bool :=
  negb (fold_right xorb false (map (fun i => Z.testbit r (Z.of_nat i)) (seq 0 8))).

Definition in_signed_range (w v : Z) : bool := (- 2 ^ (w - 1) <=? v) && (v <? 2 ^ (w - 1)).

(** Addition with carry [c] and subtraction with borrow [c], at width [w]. *)
Definition add_result (w x y c : Z) : Z := wrap w (x + y + c).
Definition sub_result (w x y c : Z) : Z := wrap w (x - y - c).
Definition result_flags (w r : Z) (cf af ov : bool) : cond :=
  mkCond cf (even_parity r) af (r =? 0) (Z.testbit r (w - 1)) ov.
Definition add_flags (w x y c : Z) : cond :=
  result_flags w (add_result w x y c) (2 ^ w <=? x + y + c)
    (16 <=? x mod 16 + y mod 16 + c) (negb (in_signed_range w (sgn w x + sgn w y + c))).
Definition sub_flags (w x y c : Z) : cond :=
  result_flags w (sub_result w x y c) (x - y - c <? 0)
    (x mod 16 - y mod 16 - c <? 0) (negb (in_signed_range w (sgn w x - sgn w y - c))).
Definition with_cf (cf : bool) (c : cond) : cond :=
  mkCond cf (c_pf c) (c_af c) (c_zf c) (c_sf c) (c_of c).
Definition logic_flags (w r : Z) : cond := result_flags w r false false false.

(** ** Parity *)
Lemma parity_table_check :
  forallb (fun i => Bool.eqb (nz (parity (Z.of_nat i))) (even_parity (Z.of_nat i))) (seq 0 256) = true.
Proof. vm_compute. reflexivity. Qed.

Lemma parity_even b : 0 <= b < 256 -> nz (parity b) = even_parity b.
Proof.
  intros Hb. pose proof parity_table_check as H. rewrite forallb_forall in H.
  specialize (H (Z.to_nat b)). rewrite Z2Nat.id in H by lia.
  apply eqb_prop, H, in_seq. lia.
Qed.

Lemma even_parity_low r n : 8 <= n -> even_parity (r mod 2 ^ n) = even_parity r.
Proof.
  intros Hn. unfold even_parity. f_equal. f_equal. apply map_ext_in. intros i Hi%in_seq.
  rewrite testbit_mod by lia. destruct (Z.ltb_spec (Z.of_nat i) n); [done|lia].
Qed.

Lemma even_parity_u8 r : nz (parity (u8 r)) = even_parity r.
Proof. rewrite parity_even by apply u8_range. apply (even_parity_low r 8). lia. Qed.

(** ** Signed values from the top bit *)
Section Width.
Context (w : Z) (Hw : 4 < w).

Lemma pow_top : 2 ^ w = 2 * 2 ^ (w - 1).
Proof using Hw. rewrite <- Z.pow_succ_r by lia. f_equal. lia. Qed.

Lemma mod_top x : 0 <= x < 2 ^ w -> x = x mod 2 ^ (w - 1) + 2 ^ (w - 1) * b2z (Z.testbit x (w - 1)).
Proof using Hw.
  intros Hx. rewrite testbit_top by lia. pose proof pow_top.
  destruct (Z.leb_spec (2 ^ (w - 1)) x); cbn [b2z].
  - rewrite <- (Z.mod_unique x (2 ^ (w - 1)) 1 (x - 2 ^ (w - 1))); lia.
  - rewrite Z.mod_small; lia.
Qed.

Lemma sgn_top x : 0 <= x < 2 ^ w -> sgn w x = x mod 2 ^ (w - 1) - 2 ^ (w - 1) * b2z (Z.testbit x (w - 1)).
Proof using Hw.
  intros Hx. unfold sgn. rewrite wrap_small by done. pose proof pow_top. pose proof (mod_top x Hx) as E.
  pose proof (Z.mod_pos_bound x (2 ^ (w - 1))).
  destruct (Z.testbit x (w - 1)); cbn [b2z] in *; destruct (Z.ltb_spec x (2 ^ (w - 1))); lia.
Qed.

Lemma wrap_bit x i : 0 <= i < w -> Z.testbit (wrap w x) i = Z.testbit x i.
Proof using. intros. unfold wrap. apply Z.mod_pow2_bits_low. lia. Qed.

(** *** Carry *)
Lemma adc_carry x y c :
  0 <= x < 2 ^ w -> 0 <= y < 2 ^ w -> 0 <= c <= 1 ->
  (wrap w (x + y + c) <? x) || (nz c && (wrap w (x + y + c) =? x)) = (2 ^ w <=? x + y + c).
Proof using Hw.
  intros Hx Hy Hc. unfold wrap. pose proof pow_top.
  destruct (Z.leb_spec (2 ^ w) (x + y + c)).
  - rewrite <- (Z.mod_unique (x + y + c) (2 ^ w) 1 (x + y + c - 2 ^ w)) by lia.
    unfold nz. destruct (Z.eqb_spec c 0); cbn [negb andb]; zbool.
  - rewrite Z.mod_small by lia. unfold nz. zbool.
Qed.

Lemma add_carry x y :
  0 <= x < 2 ^ w -> 0 <= y < 2 ^ w -> (wrap w (x + y + 0) <? x) = (2 ^ w <=? x + y + 0).
Proof using Hw. intros Hx Hy. rewrite <- (adc_carry x y 0) by lia. cbn. by rewrite orb_false_r. Qed.

Lemma sbb_borrow x y c :
  0 <= x < 2 ^ w -> 0 <= y < 2 ^ w -> 0 <= c <= 1 ->
  (x <? wrap w (x - y - c)) || (nz c && (y =? 2 ^ w - 1)) = (x - y - c <? 0).
Proof using Hw.
  intros Hx Hy Hc. unfold wrap. pose proof pow_top.
  destruct (Z.ltb_spec (x - y - c) 0).
  - rewrite <- (Z.mod_unique (x - y - c) (2 ^ w) (-1) (x - y - c + 2 ^ w)) by lia.
    unfold nz. destruct (Z.eqb_spec c 0); cbn [negb andb]; zbool.
  - rewrite Z.mod_small by lia. unfold nz. zbool.
Qed.

(** *** Auxiliary carry: bit 4 of [x ^ y ^ r] *)
Lemma add_aux x y c :
  0 <= c <= 1 ->
  nz (Z.land (Z.lxor (Z.lxor x y) (wrap w (x + y + c))) 0x10) = (16 <=? x mod 16 + y mod 16 + c).
Proof using Hw.
  intros Hc. change 0x10 with (2 ^ 4). rewrite nz_land_pow2, !Z.lxor_spec, wrap_bit by lia.
  rewrite testbit_add3 by lia. change (2 ^ 4) with 16.
  by destruct (Z.testbit x 4), (Z.testbit y 4), (16 <=? _).
Qed.

Lemma sub_aux x y c :
  0 <= c <= 1 ->
  nz (Z.land (Z.lxor (Z.lxor x y) (wrap w (x - y - c))) 0x10) = (x mod 16 - y mod 16 - c <? 0).
Proof using Hw.
  intros Hc. change 0x10 with (2 ^ 4). rewrite nz_land_pow2, !Z.lxor_spec, wrap_bit by lia.
  rewrite testbit_sub3 by lia. change (2 ^ 4) with 16.
  replace (x mod 16 - y mod 16 - c <? 0) with (x mod 16 <? y mod 16 + c) by zbool.
  by destruct (Z.testbit x 4), (Z.testbit y 4), (_ <? _).
Qed.

(** *** Overflow: the sign-bit formulas *)
Lemma add_overflow x y c :
  0 <= x < 2 ^ w -> 0 <= y < 2 ^ w -> 0 <= c <= 1 ->
  nz (Z.land (Z.land (Z.lxor (Z.lxor x y) (2 ^ (w - 1))) (Z.lxor (wrap w (x + y + c)) y)) (2 ^ (w - 1)))
  = negb (in_signed_range w (sgn w x + sgn w y + c)).
Proof using Hw.
  intros Hx Hy Hc. rewrite nz_land_pow2, Z.land_spec, !Z.lxor_spec, wrap_bit by lia.
  rewrite Z.pow2_bits_true, testbit_add3 by lia. rewrite !sgn_top by done.
  unfold in_signed_range. set (P := 2 ^ (w - 1)). assert (0 < P) by (subst P; lia).
  pose proof (Z.mod_pos_bound x P). pose proof (Z.mod_pos_bound y P).
  destruct (Z.testbit x (w - 1)), (Z.testbit y (w - 1)); cbn [b2z]; zbool.
Qed.

Lemma sub_overflow x y c :
  0 <= x < 2 ^ w -> 0 <= y < 2 ^ w -> 0 <= c <= 1 ->
  nz (Z.land (Z.land (Z.lxor x y) (Z.lxor x (wrap w (x - y - c)))) (2 ^ (w - 1)))
  = negb (in_signed_range w (sgn w x - sgn w y - c)).
Proof using Hw.
  intros Hx Hy Hc. rewrite nz_land_pow2, Z.land_spec, !Z.lxor_spec, wrap_bit by lia.
  rewrite testbit_sub3 by lia. rewrite !sgn_top by done.
  unfold in_signed_range. set (P := 2 ^ (w - 1)). assert (0 < P) by (subst P; lia).
  pose proof (Z.mod_pos_bound x P). pose proof (Z.mod_pos_bound y P).
  destruct (Z.testbit x (w - 1)), (Z.testbit y (w - 1)); cbn [b2z]; zbool.
Qed.

(** *** The special cases written for increment, decrement and negation *)
Lemma low_nibble x : Z.land (wrap w x) 0x0f = x mod 16.
Proof using Hw.
  change 0x0f with (Z.ones 4). rewrite Z.land_ones by lia. unfold wrap.
  apply Z.mod_mod_divide. exists (2 ^ (w - 4)).
  change (2 ^ w = 2 ^ (w - 4) * 2 ^ 4). rewrite <- Z.pow_add_r by lia. f_equal. lia.
Qed.

Lemma inc_aux x : (Z.land (wrap w (x + 1)) 0x0f =? 0) = (16 <=? x mod 16 + 1 mod 16 + 0).
Proof using Hw. rewrite low_nibble. zbool; zlia. Qed.
Lemma dec_aux x : (Z.land (wrap w (x - 1)) 0x0f =? 0x0f) = (x mod 16 - 1 mod 16 - 0 <? 0).
Proof using Hw. rewrite low_nibble. zbool; zlia. Qed.
Lemma neg_aux x : 0 <= x < 2 ^ w -> nz (Z.land x 0x0f) = (0 mod 16 - x mod 16 - 0 <? 0).
Proof using Hw.
  intros Hx. rewrite <- (wrap_small w x), low_nibble, wrap_small by done.
  unfold nz. zbool; zlia.
Qed.

Lemma sgn_1 : sgn w 1 = 1.
Proof using Hw.
  unfold sgn. assert (2 < 2 ^ (w - 1)) by (apply (Z.lt_le_trans _ (2 ^ 2)); [done|apply Z.pow_le_mono_r; lia]).
  pose proof pow_top. rewrite wrap_small by lia. destruct (Z.ltb_spec 1 (2 ^ (w - 1))); lia.
Qed.
Lemma sgn_0 : sgn w 0 = 0.
Proof using Hw.
  pose proof pow_top. unfold sgn. rewrite wrap_small by lia. destruct (Z.ltb_spec 0 (2 ^ (w - 1))); lia.
Qed.

Lemma sgn_range x : 0 <= x < 2 ^ w -> - 2 ^ (w - 1) <= sgn w x < 2 ^ (w - 1).
Proof using Hw.
  intros Hx. pose proof pow_top. unfold sgn. rewrite wrap_small by done.
  destruct (Z.ltb_spec x (2 ^ (w - 1))); lia.
Qed.

Lemma inc_overflow x : 0 <= x < 2 ^ w ->
  (wrap w (x + 1) =? 2 ^ (w - 1)) = negb (in_signed_range w (sgn w x + sgn w 1 + 0)).
Proof using Hw.
  intros Hx. rewrite sgn_1. pose proof pow_top. unfold sgn, in_signed_range.
  rewrite (wrap_small w x) by done. unfold wrap.
  destruct (Z.eqb_spec x (2 ^ w - 1)) as [->|].
  - replace (2 ^ w - 1 + 1) with (1 * 2 ^ w + 0) by ring. rewrite mod_join by lia. zbool.
  - rewrite Z.mod_small by lia. zbool.
Qed.
Lemma dec_overflow x : 0 <= x < 2 ^ w ->
  (wrap w (x - 1) =? 2 ^ (w - 1) - 1) = negb (in_signed_range w (sgn w x - sgn w 1 - 0)).
Proof using Hw.
  intros Hx. rewrite sgn_1. pose proof pow_top. unfold sgn, in_signed_range.
  rewrite (wrap_small w x) by done. unfold wrap.
  destruct (Z.eqb_spec x 0) as [->|].
  - rewrite <- (Z.mod_unique (0 - 1) (2 ^ w) (-1) (2 ^ w - 1)) by lia. zbool.
  - rewrite Z.mod_small by lia. zbool.
Qed.
Lemma neg_overflow x : 0 <= x < 2 ^ w ->
  (x =? 2 ^ (w - 1)) = negb (in_signed_range w (sgn w 0 - sgn w x - 0)).
Proof using Hw.
  intros Hx. rewrite sgn_0. pose proof pow_top. unfold sgn, in_signed_range.
  rewrite (wrap_small w x) by done. zbool.
Qed.

(** The sign and overflow flags of a comparison decide the signed order. *)
Lemma signed_less x y :
  0 <= x < 2 ^ w -> 0 <= y < 2 ^ w ->
  xorb (Z.testbit (wrap w (x - y)) (w - 1)) (negb (in_signed_range w (sgn w x - sgn w y)))
  = (sgn w x <? sgn w y).
Proof using Hw.
  intros Hx Hy. rewrite wrap_bit by lia. rewrite <- (Z.sub_0_r (x - y)).
  rewrite testbit_sub3, !sgn_top by lia.
  unfold in_signed_range. set (P := 2 ^ (w - 1)). assert (0 < P) by (subst P; lia).
  pose proof (Z.mod_pos_bound x P). pose proof (Z.mod_pos_bound y P).
  destruct (Z.testbit x (w - 1)), (Z.testbit y (w - 1)); cbn [b2z]; zbool.
Qed.

Lemma wrap_sub_zero x y : 0 <= x < 2 ^ w -> 0 <= y < 2 ^ w -> (wrap w (x - y) =? 0) = (x =? y).
Proof using Hw.
  intros Hx Hy. unfold wrap. destruct (Z.eqb_spec x y) as [->|Hne].
  - rewrite Z.sub_diag, Z.mod_0_l by lia. done.
  - apply Z.eqb_neq. destruct (Z.le_gt_cases y x).
    + rewrite Z.mod_small; lia.
    + rewrite <- (Z.mod_unique (x - y) (2 ^ w) (-1) (x - y + 2 ^ w)); lia.
Qed.
End Width.

(** ** The getters' formulas, all six at once

    [M] is the literal the source writes for the sign bit. *)
Section Observe.
Context (w M : Z) (Hw : 8 <= w) (HM : M = 2 ^ (w - 1)).

Lemma observe_result r cf af ov :
  mkCond cf (nz (parity (wrap 8 r))) af (wrap w r =? 0) (nz (Z.land (wrap w r) M)) ov
  = result_flags w (wrap w r) cf af ov.
Proof using Hw HM.
  subst M. unfold result_flags. f_equal.
  - change (wrap 8) with u8. rewrite even_parity_u8. symmetry. by apply even_parity_low.
  - by rewrite nz_land_pow2 by lia.
Qed.

Lemma observe_add x y c cf :
  0 <= x < 2 ^ w -> 0 <= y < 2 ^ w -> 0 <= c <= 1 -> cf = (2 ^ w <=? x + y + c) ->
  mkCond cf (nz (parity (wrap 8 (x + y + c))))
    (nz (Z.land (Z.lxor (Z.lxor x y) (wrap w (x + y + c))) 0x10))
    (wrap w (x + y + c) =? 0) (nz (Z.land (wrap w (x + y + c)) M))
    (nz (Z.land (Z.land (Z.lxor (Z.lxor x y) M) (Z.lxor (wrap w (x + y + c)) y)) M))
  = add_flags w x y c.
Proof using Hw HM.
  intros Hx Hy Hc ->. rewrite observe_result. subst M. unfold add_flags.
  by rewrite add_aux, add_overflow by lia.
Qed.

Lemma observe_sub x y c cf :
  0 <= x < 2 ^ w -> 0 <= y < 2 ^ w -> 0 <= c <= 1 -> cf = (x - y - c <? 0) ->
  mkCond cf (nz (parity (wrap 8 (x - y - c))))
    (nz (Z.land (Z.lxor (Z.lxor x y) (wrap w (x - y - c))) 0x10))
    (wrap w (x - y - c) =? 0) (nz (Z.land (wrap w (x - y - c)) M))
    (nz (Z.land (Z.land (Z.lxor x y) (Z.lxor x (wrap w (x - y - c)))) M))
  = sub_flags w x y c.
Proof using Hw HM.
  intros Hx Hy Hc ->. rewrite observe_result. subst M. unfold sub_flags.
  by rewrite sub_aux, sub_overflow by lia.
Qed.

Lemma observe_inc x cf cf' :
  0 <= x < 2 ^ w -> cf' = cf ->
  mkCond cf' (nz (parity (wrap 8 (x + 1)))) (Z.land (wrap w (x + 1)) 0x0f =? 0)
    (wrap w (x + 1) =? 0) (nz (Z.land (wrap w (x + 1)) M)) (wrap w (x + 1) =? M)
  = with_cf cf (add_flags w x 1 0).
Proof using Hw HM.
  intros Hx ->. rewrite observe_result. subst M. unfold add_flags, add_result, with_cf, result_flags.
  cbn [c_pf c_af c_zf c_sf c_of]. rewrite inc_aux, (inc_overflow w) by lia. by rewrite !Z.add_0_r.
Qed.

Lemma observe_dec x cf cf' :
  0 <= x < 2 ^ w -> cf' = cf ->
  mkCond cf' (nz (parity (wrap 8 (x - 1)))) (Z.land (wrap w (x - 1)) 0x0f =? 0x0f)
    (wrap w (x - 1) =? 0) (nz (Z.land (wrap w (x - 1)) M)) (wrap w (x - 1) =? M - 1)
  = with_cf cf (sub_flags w x 1 0).
Proof using Hw HM.
  intros Hx ->. rewrite observe_result. subst M. unfold sub_flags, sub_result, with_cf, result_flags.
  cbn [c_pf c_af c_zf c_sf c_of]. rewrite dec_aux, (dec_overflow w) by lia. by rewrite !Z.sub_0_r.
Qed.

Lemma observe_neg x :
  0 <= x < 2 ^ w ->
  mkCond (nz x) (nz (parity (wrap 8 (0 - x)))) (nz (Z.land x 0x0f))
    (wrap w (0 - x) =? 0) (nz (Z.land (wrap w (0 - x)) M)) (x =? M)
  = sub_flags w 0 x 0.
Proof using Hw HM.
  intros Hx. rewrite observe_result. subst M. unfold sub_flags, sub_result, result_flags.
  rewrite (neg_aux w), (neg_overflow w) by lia. rewrite !Z.sub_0_r.
  f_equal; unfold nz; zbool.
Qed.

Lemma observe_logic r p :
  0 <= r < 2 ^ w -> p = wrap 8 r ->
  mkCond (nz 0) (nz (parity p)) (nz 0) (r =? 0) (nz (Z.land r M)) (nz 0) = logic_flags w r.
Proof using Hw HM.
  intros Hr ->. pose proof (observe_result r false false false) as E.
  rewrite (wrap_small w r) in E by done. exact E.
Qed.
End Observe.
