(* ===== verification/FlagProofs.v ===== *)
(** * Writing the lazy flags back

    [FillFlags] and [FillFlagsNoCFOF] against the getters. *)
From S2P Require Import Prelude.
From S2P Require Import Registers.
From S2P Require Import LazyFlags.
From S2P Require Import AluFlags.
#[local] Open Scope Z_scope.
#[local] Open Scope seq_scope.

(** ** Flag bits after each assignment *)

Lemma set_CF_bits b f n : 0 <= n -> Z.testbit (SETFLAGBIT FLAG_CF b f) n = if n =? 0 then b else Z.testbit f n.
Proof. by apply (SETFLAGBIT_bits 0). Qed.
Lemma set_PF_bits b f n : 0 <= n -> Z.testbit (SETFLAGBIT FLAG_PF b f) n = if n =? 2 then b else Z.testbit f n.
Proof. by apply (SETFLAGBIT_bits 2). Qed.
Lemma set_AF_bits b f n : 0 <= n -> Z.testbit (SETFLAGBIT FLAG_AF b f) n = if n =? 4 then b else Z.testbit f n.
Proof. by apply (SETFLAGBIT_bits 4). Qed.
Lemma set_ZF_bits b f n : 0 <= n -> Z.testbit (SETFLAGBIT FLAG_ZF b f) n = if n =? 6 then b else Z.testbit f n.
Proof. by apply (SETFLAGBIT_bits 6). Qed.
Lemma set_SF_bits b f n : 0 <= n -> Z.testbit (SETFLAGBIT FLAG_SF b f) n = if n =? 7 then b else Z.testbit f n.
Proof. by apply (SETFLAGBIT_bits 7). Qed.
Lemma set_OF_bits b f n : 0 <= n -> Z.testbit (SETFLAGBIT FLAG_OF b f) n = if n =? 11 then b else Z.testbit f n.
Proof. by apply (SETFLAGBIT_bits 11). Qed.

(** [(f & ~FLAG) | v] where [v] has no other bit than [FLAG]'s. *)
Lemma clr_lor_bits k v f n :
  0 <= k -> 0 <= n -> (v = 0 \/ v = 2 ^ k) ->
  Z.testbit (Z.lor (clr (2 ^ k) f) v) n = if n =? k then nz v else Z.testbit f n.
Proof.
  intros Hk Hn Hv. unfold clr. rewrite Z.lor_spec, Z.land_spec, Z.lnot_spec, Z.pow2_bits_eqb by lia.
  rewrite (Z.eqb_sym k n). pose proof (Z.pow_pos_nonneg 2 k).
  destruct Hv as [->| ->]; [rewrite Z.bits_0|rewrite Z.pow2_bits_eqb by lia; rewrite (Z.eqb_sym k n)];
    unfold nz; destruct (n =? k); cbn; rewrite ?andb_false_r, ?andb_true_r, ?orb_false_r; try done.
  destruct (Z.eqb_spec (2 ^ k) 0); [lia|done].
Qed.

Lemma parity_values b : parity b = 0 \/ parity b = 4.
Proof.
  assert (forallb (fun v => (v =? 0) || (v =? 4)) parity_lookup = true) as H by by vm_compute.
  rewrite forallb_forall in H. unfold parity.
  destruct (nth_in_or_default (Z.to_nat b) parity_lookup 0) as [Hin|]; [|by left].
  apply H in Hin. revert Hin. zbool; auto.
Qed.

Lemma PF_bits l f n :
  0 <= n -> Z.testbit (DOFLAG_PF l f) n = if n =? 2 then nz (parity (lf_resb l)) else Z.testbit f n.
Proof. intros. apply (clr_lor_bits 2); [done..|apply parity_values]. Qed.

Lemma AF_bits l f n :
  0 <= n -> Z.testbit (DOFLAG_AF l f) n =
  if n =? 4 then nz (Z.land (Z.lxor (Z.lxor (lf_var1b l) (lf_var2b l)) (lf_resb l)) 0x10) else Z.testbit f n.
Proof.
  intros. apply (clr_lor_bits 4); [done..|]. change 0x10 with (2 ^ 4). rewrite land_pow2 by lia.
  destruct (Z.testbit _ _); auto.
Qed.

(** The sign bit, moved down to bit 7. *)
Lemma SF_bits w r f n :
  8 <= w -> 0 <= n ->
  Z.testbit (Z.lor (clr FLAG_SF f) (Z.shiftr (Z.land r (2 ^ (w - 1))) (w - 8))) n =
  if n =? 7 then nz (Z.land r (2 ^ (w - 1))) else Z.testbit f n.
Proof.
  intros Hw Hn. assert (Z.shiftr (2 ^ (w - 1)) (w - 8) = 2 ^ 7) as E.
  { rewrite Z.shiftr_div_pow2 by lia. rewrite <- Z.pow_sub_r by lia. f_equal. lia. }
  rewrite nz_land_pow2, land_pow2 by lia. change FLAG_SF with (2 ^ 7).
  destruct (Z.testbit r (w - 1)); [rewrite E|rewrite Z.shiftr_0_l];
    rewrite clr_lor_bits by (done || auto); done.
Qed.
Lemma SFb_bits l f n :
  0 <= n -> Z.testbit (DOFLAG_SFb l f) n = if n =? 7 then nz (Z.land (lf_resb l) 0x80) else Z.testbit f n.
Proof. by apply (SF_bits 8). Qed.
Lemma SFw_bits l f n :
  0 <= n -> Z.testbit (DOFLAG_SFw l f) n = if n =? 7 then nz (Z.land (lf_resw l) 0x8000) else Z.testbit f n.
Proof. by apply (SF_bits 16). Qed.
Lemma SFd_bits l f n :
  0 <= n -> Z.testbit (DOFLAG_SFd l f) n = if n =? 7 then nz (Z.land (lf_resd l) 0x80000000) else Z.testbit f n.
Proof. by apply (SF_bits 32). Qed.

(** [holds f g]: the flag word [f] has the bits [g].  One lemma per assignment, so
    that the bits of a whole run of assignments are found in one pass. *)
Definition holds (f : Z) (g : Z -> bool) : Prop := forall n, 0 <= n -> Z.testbit f n = g n.

Lemma holds_start f : holds f (Z.testbit f).
Proof. done. Qed.
Lemma holds_CF b f g : holds f g -> holds (SETFLAGBIT FLAG_CF b f) (fun n => if n =? 0 then b else g n).
Proof. intros H n Hn. by rewrite set_CF_bits, H. Qed.
Lemma holds_SET_AF b f g : holds f g -> holds (SETFLAGBIT FLAG_AF b f) (fun n => if n =? 4 then b else g n).
Proof. intros H n Hn. by rewrite set_AF_bits, H. Qed.
Lemma holds_OF b f g : holds f g -> holds (SETFLAGBIT FLAG_OF b f) (fun n => if n =? 11 then b else g n).
Proof. intros H n Hn. by rewrite set_OF_bits, H. Qed.
Lemma holds_PF l f g :
  holds f g -> holds (DOFLAG_PF l f) (fun n => if n =? 2 then nz (parity (lf_resb l)) else g n).
Proof. intros H n Hn. by rewrite PF_bits, H. Qed.
Lemma holds_AF l f g :
  holds f g -> holds (DOFLAG_AF l f)
    (fun n => if n =? 4 then nz (Z.land (Z.lxor (Z.lxor (lf_var1b l) (lf_var2b l)) (lf_resb l)) 0x10) else g n).
Proof. intros H n Hn. by rewrite AF_bits, H. Qed.
Lemma holds_ZFb l f g : holds f g -> holds (DOFLAG_ZFb l f) (fun n => if n =? 6 then lf_resb l =? 0 else g n).
Proof. intros H n Hn. unfold DOFLAG_ZFb. by rewrite set_ZF_bits, H. Qed.
Lemma holds_ZFw l f g : holds f g -> holds (DOFLAG_ZFw l f) (fun n => if n =? 6 then lf_resw l =? 0 else g n).
Proof. intros H n Hn. unfold DOFLAG_ZFw. by rewrite set_ZF_bits, H. Qed.
Lemma holds_ZFd l f g : holds f g -> holds (DOFLAG_ZFd l f) (fun n => if n =? 6 then lf_resd l =? 0 else g n).
Proof. intros H n Hn. unfold DOFLAG_ZFd. by rewrite set_ZF_bits, H. Qed.
Lemma holds_SFb l f g :
  holds f g -> holds (DOFLAG_SFb l f) (fun n => if n =? 7 then nz (Z.land (lf_resb l) 0x80) else g n).
Proof. intros H n Hn. by rewrite SFb_bits, H. Qed.
Lemma holds_SFw l f g :
  holds f g -> holds (DOFLAG_SFw l f) (fun n => if n =? 7 then nz (Z.land (lf_resw l) 0x8000) else g n).
Proof. intros H n Hn. by rewrite SFw_bits, H. Qed.
Lemma holds_SFd l f g :
  holds f g -> holds (DOFLAG_SFd l f) (fun n => if n =? 7 then nz (Z.land (lf_resd l) 0x80000000) else g n).
Proof. intros H n Hn. by rewrite SFd_bits, H. Qed.

(** Find the bits of a run of assignments that starts from a plain flag word. *)
Ltac holds_chain :=
  lazymatch goal with
  | |- holds (SETFLAGBIT FLAG_CF _ _) _ => apply holds_CF; holds_chain
  | |- holds (SETFLAGBIT FLAG_AF _ _) _ => apply holds_SET_AF; holds_chain
  | |- holds (SETFLAGBIT FLAG_OF _ _) _ => apply holds_OF; holds_chain
  | |- holds (DOFLAG_PF _ _) _ => apply holds_PF; holds_chain
  | |- holds (DOFLAG_AF _ _) _ => apply holds_AF; holds_chain
  | |- holds (DOFLAG_ZFb _ _) _ => apply holds_ZFb; holds_chain
  | |- holds (DOFLAG_ZFw _ _) _ => apply holds_ZFw; holds_chain
  | |- holds (DOFLAG_ZFd _ _) _ => apply holds_ZFd; holds_chain
  | |- holds (DOFLAG_SFb _ _) _ => apply holds_SFb; holds_chain
  | |- holds (DOFLAG_SFw _ _) _ => apply holds_SFw; holds_chain
  | |- holds (DOFLAG_SFd _ _) _ => apply holds_SFd; holds_chain
  | |- holds _ _ => apply holds_start
  end.

(** The condition flags of a word whose bits are known. *)
Lemma holds_cond f g : holds f g -> reg_cond f = mkCond (g 0) (g 2) (g 4) (g 6) (g 7) (g 11).
Proof. intros H. unfold reg_cond. by rewrite !H. Qed.

(** Reading a flag out of [reg_flags]. *)
Lemma nz_GETFLAG k f : 0 <= k -> nz (GETFLAG (2 ^ k) f) = Z.testbit f k.
Proof. apply nz_land_pow2. Qed.

(** ** Which states the instructions produce *)

(** The types an instruction stores in [lflags.type]. *)
Definition instruction_type (t : flag_type) : bool :=
  match t with
  | t_ROLb | t_ROLw | t_ROLd | t_RORb | t_RORw | t_RORd | t_RCLb | t_RCLw | t_RCLd
  | t_RCRb | t_RCRw | t_RCRd | t_MUL | t_DIV | t_NOTDONE | t_LASTFLAG => false
  | _ => true
  end.

(** A negation leaves the negated operand as its result. *)
Definition lf_wf (l : LazyFlags) : Prop :=
  match type l with
  | t_NEGb => lf_resb l = wrap 8 (0 - lf_var1b l)
  | t_NEGw => lf_resw l = wrap 16 (0 - lf_var1w l)
  | t_NEGd => lf_resd l = wrap 32 (0 - lf_var1d l)
  | _ => True
  end.

Definition double_shift (t : flag_type) : bool :=
  match t with t_DSHLw | t_DSHLd | t_DSHRw | t_DSHRd => true | _ => false end.

(** The one operand on which [get_OF] and [FillFlags] read a right shift by one
    differently. *)
Definition shr_edge (l : LazyFlags) : bool :=
  match type l with
  | t_SHRb => (Z.land (lf_var2b l) 0x1f =? 1) && (lf_var1b l =? 0x80)
  | t_SHRw => (Z.land (lf_var2w l) 0x1f =? 1) && (lf_var1w l =? 0x8000)
  | t_SHRd => (Z.land (lf_var2d l) 0x1f =? 1) && (lf_var1d l =? 0x80000000)
  | _ => false
  end.

(** ** Agreement of two views of one operation *)
Lemma byte_bit x i : 0 <= i < 8 -> Z.testbit (byte_l x) i = Z.testbit x i.
Proof. intros. apply Z.mod_pow2_bits_low with (n := 8). lia. Qed.
Lemma word_bit x i : 0 <= i < 16 -> Z.testbit (word_l x) i = Z.testbit x i.
Proof. intros. apply Z.mod_pow2_bits_low with (n := 16). lia. Qed.
Lemma dword_bit x i : 0 <= i < 32 -> Z.testbit (u32 x) i = Z.testbit x i.
Proof. intros. apply Z.mod_pow2_bits_low with (n := 32). lia. Qed.

(** Bit 4 of the exclusive or does not depend on the operand size. *)
Lemma aux_word a b c :
  nz (Z.land (Z.lxor (Z.lxor (byte_l a) (byte_l b)) (byte_l c)) 0x10) =
  nz (Z.land (Z.lxor (Z.lxor (word_l a) (word_l b)) (word_l c)) 0x10).
Proof. change 0x10 with (2 ^ 4). by rewrite !nz_land_pow2, !Z.lxor_spec, !byte_bit, !word_bit by lia. Qed.
Lemma aux_dword a b c :
  nz (Z.land (Z.lxor (Z.lxor (byte_l a) (byte_l b)) (byte_l c)) 0x10) =
  nz (Z.land (Z.lxor (Z.lxor (u32 a) (u32 b)) (u32 c)) 0x10).
Proof. change 0x10 with (2 ^ 4). by rewrite !nz_land_pow2, !Z.lxor_spec, !byte_bit, !dword_bit by lia. Qed.

(** Overflow of an addition, judged against either operand. *)
Lemma overflow_either k x y r :
  0 <= k ->
  nz (Z.land (Z.land (Z.lxor (Z.lxor x y) (2 ^ k)) (Z.lxor r x)) (2 ^ k)) =
  nz (Z.land (Z.land (Z.lxor (Z.lxor x y) (2 ^ k)) (Z.lxor r y)) (2 ^ k)).
Proof.
  intros. rewrite !nz_land_pow2, !Z.land_spec, !Z.lxor_spec, Z.pow2_bits_true by lia.
  by destruct (Z.testbit x k), (Z.testbit y k), (Z.testbit r k).
Qed.

(** The low nibble of a negation is zero exactly when the operand's is. *)
Lemma neg_nibble w x r : 4 < w -> 0 <= x < 2 ^ w -> r = wrap w (0 - x) -> nz (Z.land r 0x0f) = nz (Z.land x 0x0f).
Proof.
  intros Hw Hx ->. rewrite (low_nibble w Hw), (neg_aux w) by lia. unfold nz. zbool; zlia.
Qed.

(** What [FillFlags] leaves in the flag word, as a relation between the six
    flags written and the six flags the getters compute. *)
Definition same_but (l : LazyFlags) (c z : cond) : Prop :=
  c_cf c = c_cf z /\ c_pf c = c_pf z /\ c_zf c = c_zf z /\ c_sf c = c_sf z /\
  (double_shift (type l) = false -> c_af c = c_af z) /\
  (shr_edge l = false -> c_of c = c_of z).

(** The word [FillFlags] computes, before it is stored. *)
Definition filled (l : LazyFlags) (f : Z) : option Z :=
  match FillFlags_arith l f with
  | Some f' => Some f'
  | None => match FillFlags_logic_shift l f with
            | Some f' => Some f'
            | None => FillFlags_sar_unary l f
            end
  end.

Lemma FillFlags_filled s :
  type (lflags s) <> t_UNKNOWN ->
  FillFlags s = match filled (lflags s) (reg_flags s) with
                | Some f' => (set_type t_UNKNOWN (with_flags (fun _ => f') s), f')
                | None => (s, 0)
                end.
Proof.
  intros Ht. unfold FillFlags, filled.
  destruct (FillFlags_arith (lflags s) (reg_flags s)), (FillFlags_logic_shift (lflags s) (reg_flags s)),
    (FillFlags_sar_unary (lflags s) (reg_flags s)), (type (lflags s)); done.
Qed.

(** The low five bits of the shift count, whatever the view. *)
Lemma low5 n x : 5 <= n -> Z.land (x mod 2 ^ n) 0x1f = x mod 32.
Proof.
  intros. change 0x1f with (Z.ones 5). rewrite Z.land_ones by lia.
  apply Z.mod_mod_divide. exists (2 ^ (n - 5)). change (2 ^ n = 2 ^ (n - 5) * 2 ^ 5).
  rewrite <- Z.pow_add_r by lia. f_equal. lia.
Qed.
Lemma count_word l : Z.land (lf_var2w l) 0x1f = Z.land (lf_var2b l) 0x1f.
Proof. transitivity (var2 l mod 32); [apply (low5 16)|symmetry; apply (low5 8)]; lia. Qed.
Lemma count_dword l : Z.land (lf_var2d l) 0x1f = Z.land (lf_var2b l) 0x1f.
Proof. transitivity (var2 l mod 32); [apply (low5 32)|symmetry; apply (low5 8)]; lia. Qed.

(** Away from the edge operand the two readings of a right shift by one agree. *)
Lemma shr_readings c m v :
  (c =? 1) && (v =? m) = false ->
  (if c =? 1 then m <=? v else false) = nz (if c =? 1 then b2z (m <? v) else 0).
Proof. destruct (c =? 1); cbn; [|done]. rewrite nz_b2z. zbool. Qed.

(** Close one flag: the same term, or one of the reformulations above. *)
Ltac same_flag :=
  rewrite ?nz_b2z;
  first [ reflexivity | apply aux_word | apply aux_dword
        | apply (overflow_either 7); lia | apply (overflow_either 15); lia
        | apply (overflow_either 31); lia
        | symmetry; apply (nz_GETFLAG 0); lia
        | case_match; reflexivity
        | apply (neg_nibble 8); [lia|apply u8_range|assumption]
        | apply (neg_nibble 16); [lia|apply u16_range|assumption]
        | apply (neg_nibble 32); [lia|apply u32_range|assumption]
        | rewrite ?count_word, ?count_dword in *; apply shr_readings; assumption ].

Lemma filled_agrees r l f' :
  instruction_type (type l) = true -> lf_wf l -> filled l (flags r) = Some f' ->
  same_but l (reg_cond f') (lazy_flags (mkCpu r l)).
Proof.
  unfold filled, FillFlags_arith, FillFlags_logic_shift, FillFlags_sar_unary, lf_wf, same_but, lazy_flags,
    get_CF, get_PF, get_AF, get_ZF, get_SF, get_OF, shr_edge.
  cbn [lflags]. destruct (type l) eqn:Ht; cbn [instruction_type double_shift]; try discriminate;
  intros _ Hwf Hf; apply (inj Some) in Hf; subst f'; (erewrite holds_cond by holds_chain);
  cbn [Z.eqb Pos.eqb c_cf c_pf c_af c_zf c_sf c_of]; (repeat split); intros; try discriminate; same_flag.
Qed.

Lemma filled_some l f : instruction_type (type l) = true -> type l <> t_UNKNOWN -> is_Some (filled l f).
Proof.
  unfold filled, FillFlags_arith, FillFlags_logic_shift, FillFlags_sar_unary.
  destruct (type l); try discriminate; try done; intros _ _; eexists; reflexivity.
Qed.

(** ** [FillFlagsNoCFOF] writes what [FillFlags] writes, except CF and OF *)
Definition nocfof (l : LazyFlags) (f : Z) : option Z :=
  match NoCFOF_arith l f with
  | Some f' => Some f'
  | None => NoCFOF_shift_unary l f
  end.

Lemma FillFlagsNoCFOF_nocfof s :
  type (lflags s) <> t_UNKNOWN ->
  FillFlagsNoCFOF s =
  set_type t_UNKNOWN (with_flags (fun _ => default (reg_flags s) (nocfof (lflags s) (reg_flags s))) s).
Proof.
  intros Ht. unfold FillFlagsNoCFOF, nocfof.
  destruct (NoCFOF_arith (lflags s) (reg_flags s)), (NoCFOF_shift_unary (lflags s) (reg_flags s)),
    (type (lflags s)); done.
Qed.

Lemma nocfof_filled l f f' :
  instruction_type (type l) = true -> filled l f = Some f' ->
  exists f'', nocfof l f = Some f'' /\
    reg_cond f'' = mkCond (Z.testbit f 0) (Z.testbit f' 2) (Z.testbit f' 4) (Z.testbit f' 6)
                     (Z.testbit f' 7) (Z.testbit f 11).
Proof.
  unfold nocfof, NoCFOF_arith, NoCFOF_shift_unary, filled, FillFlags_arith, FillFlags_logic_shift,
    FillFlags_sar_unary.
  destruct (type l); cbn [instruction_type]; try discriminate; intros _ Hf; apply (inj Some) in Hf; subst f';
  (eexists; split; [reflexivity|]); (erewrite holds_cond by holds_chain);
  (match goal with |- context [Z.testbit ?f' 2] =>
     let H := fresh in eassert (holds f' _) as H by holds_chain; rewrite !H by done end);
  reflexivity.
Qed.

(** ** The flag word, bit by bit *)

(** The bits of the six condition flags; every other bit controls the processor. *)
Definition cond_bit (n : Z) : bool :=
  (n =? 0) || (n =? 2) || (n =? 4) || (n =? 6) || (n =? 7) || (n =? 11).
Definition same_control (f f' : Z) : Prop :=
  forall n, 0 <= n -> cond_bit n = false -> Z.testbit f' n = Z.testbit f n.

Lemma same_control_trans f1 f2 f3 : same_control f1 f2 -> same_control f2 f3 -> same_control f1 f3.
Proof. intros H1 H2 n Hn Hc. by rewrite H2, H1. Qed.

(** Drop the tests of the bits written from a claim about a control bit. *)
Ltac control_bit :=
  match goal with H : cond_bit ?n = false |- _ => revert H; unfold cond_bit; zbool end.

Lemma filled_control l f f' : filled l f = Some f' -> same_control f f'.
Proof.
  unfold filled, FillFlags_arith, FillFlags_logic_shift, FillFlags_sar_unary.
  destruct (type l); try discriminate; intros Hf; apply (inj Some) in Hf; subst f';
  intros n Hn Hc;
  (match goal with |- Z.testbit ?f' n = _ =>
     let H := fresh in eassert (holds f' _) as H by holds_chain; try rewrite (H n Hn); clear H end);
  try done; control_bit.
Qed.

Lemma nocfof_control l f f' : nocfof l f = Some f' -> same_control f f'.
Proof.
  unfold nocfof, NoCFOF_arith, NoCFOF_shift_unary.
  destruct (type l); try discriminate; intros Hf; apply (inj Some) in Hf; subst f';
  intros n Hn Hc;
  (match goal with |- Z.testbit ?f' n = _ =>
     let H := fresh in eassert (holds f' _) as H by holds_chain; try rewrite (H n Hn); clear H end);
  try done; control_bit.
Qed.

(** Whatever the type. *)
Lemma FillFlags_control s : same_control (reg_flags s) (reg_flags (fst (FillFlags s))).
Proof.
  destruct (decide (type (lflags s) = t_UNKNOWN)) as [Hu|Hu].
  - unfold FillFlags. by rewrite Hu.
  - rewrite FillFlags_filled by done. destruct (filled _ _) as [f|] eqn:Hf; [|done]. by eapply filled_control.
Qed.

(** ** The two routines as seen by their callers *)

(** The states the instructions leave behind. *)
Definition lf_ok (s : Cpu) : Prop := instruction_type (type (lflags s)) = true /\ lf_wf (lflags s).
(** [store_flags f s]: the flags are in [reg_flags], which holds [f]. *)
Definition store_flags (f : Z) (s : Cpu) : Cpu := set_type t_UNKNOWN (with_flags (fun _ => f) s).

Lemma lf_ok_unknown s : type (lflags s) = t_UNKNOWN -> lf_ok s.
Proof. intros H. unfold lf_ok, lf_wf. by rewrite H. Qed.

Lemma lazy_unknown s : type (lflags s) = t_UNKNOWN -> lazy_flags s = reg_cond (reg_flags s).
Proof.
  intros H. unfold lazy_flags, reg_cond, get_CF, get_PF, get_AF, get_ZF, get_SF, get_OF. rewrite H. f_equal;
    [apply (nz_GETFLAG 0)|apply (nz_GETFLAG 2)|apply (nz_GETFLAG 4)|apply (nz_GETFLAG 6)|
     apply (nz_GETFLAG 7)|apply (nz_GETFLAG 11)]; done.
Qed.

Lemma store_same s : type (lflags s) = t_UNKNOWN -> store_flags (reg_flags s) s = s.
Proof. destruct s as [[] []]; cbn. by intros ->. Qed.

Lemma same_but_refl l c : same_but l c c.
Proof. by repeat split. Qed.

Lemma FillFlags_spec s :
  lf_ok s -> exists f, FillFlags s = (store_flags f s, f) /\
    same_but (lflags s) (reg_cond f) (lazy_flags s) /\ same_control (reg_flags s) f.
Proof.
  intros [Ht Hwf]. destruct (decide (type (lflags s) = t_UNKNOWN)) as [Hu|Hu].
  - exists (reg_flags s). rewrite store_same, <- lazy_unknown by done.
    split; [|split; [apply same_but_refl|done]].
    unfold FillFlags. rewrite Hu. f_equal. destruct s as [[] []]; cbn in *. by subst.
  - destruct (filled_some (lflags s) (reg_flags s)) as [f Hf]; [done..|].
    exists f. rewrite FillFlags_filled, Hf by done. split; [done|]. split.
    + destruct s as [r l]. by apply (filled_agrees r l).
    + by eapply filled_control.
Qed.

Lemma FillFlagsNoCFOF_spec s :
  lf_ok s -> exists f, FillFlagsNoCFOF s = store_flags f s /\
    c_pf (reg_cond f) = nz (get_PF s) /\ c_zf (reg_cond f) = nz (get_ZF s) /\ c_sf (reg_cond f) = nz (get_SF s) /\
    (double_shift (type (lflags s)) = false -> c_af (reg_cond f) = nz (get_AF s)) /\
    c_cf (reg_cond f) = Z.testbit (reg_flags s) 0 /\ c_of (reg_cond f) = Z.testbit (reg_flags s) 11 /\
    same_control (reg_flags s) f.
Proof.
  intros [Ht Hwf]. destruct (decide (type (lflags s) = t_UNKNOWN)) as [Hu|Hu].
  - exists (reg_flags s). rewrite store_same by done. rewrite <- lazy_unknown by done.
    split; [unfold FillFlagsNoCFOF; by rewrite Hu|]. pose proof (lazy_unknown s Hu) as E.
    repeat split; [by rewrite E|by rewrite E].
  - destruct (filled_some (lflags s) (reg_flags s)) as [f Hf]; [done..|].
    destruct (nocfof_filled _ _ _ Ht Hf) as (f'' & Hn & Hc).
    exists f''. rewrite FillFlagsNoCFOF_nocfof, Hn by done. split; [done|].
    destruct s as [r l]. pose proof (filled_agrees r l f Ht Hwf Hf) as (_ & Hp & Hz & Hs & Ha & _).
    rewrite Hc. repeat split; try done. by eapply nocfof_control.
Qed.

(** ** The theorems *)

(** A CPU with cleared registers, its flags in [reg_flags], for the witnesses. *)
Definition demo_cpu : Cpu := mkCpu (mkRegs 0 0 0 0 0 0 0 0 2) (mkLF 0 0 0 t_UNKNOWN 0).
(** The lazy state a byte addition of [0x90] and [0x81] leaves. *)
Definition demo_add : Cpu := mkCpu (mkRegs 0 0 0 0 0 0 0 0 0x202) (mkLF 0x90 0x81 0x11 t_ADDb 0).

(** C3.  [FillFlags] stores in [reg_flags] exactly the flags the getters report
    (the auxiliary flag of a double shift and the overflow of a right shift of
    the sign bit by one aside), changes no control bit, returns the word it
    stored, and leaves a state whose getters read that word; doing it twice is
    doing it once. *)
Theorem FillFlags_exact s :
  lf_ok s ->
  let '(s', ff) := FillFlags s in
  ff = reg_flags s' /\ lazy_flags s' = reg_cond ff /\ same_but (lflags s) (lazy_flags s') (lazy_flags s) /\
  same_control (reg_flags s) ff /\ FillFlags s' = (s', ff).
Proof.
  intros Hs. destruct (FillFlags_spec s Hs) as (f & E & Hb & Hc). rewrite E.
  assert (lazy_flags (store_flags f s) = reg_cond f) as El by by rewrite lazy_unknown.
  rewrite El. split; [done|]. split; [done|]. by split; [|split].
Qed.

Lemma FillFlags_exact_witness :
  reg_cond (snd (FillFlags demo_add)) = lazy_flags demo_add.
Proof.
  pose proof (FillFlags_exact demo_add (conj eq_refl I)) as H.
  destruct (FillFlags demo_add) as [s' ff] eqn:E. destruct H as (_ & H1 & (H2 & H3 & H4 & H5 & H6 & H7) & _ & _).
  cbn [snd]. rewrite <- H1. specialize (H6 eq_refl). specialize (H7 eq_refl).
  destruct (lazy_flags s'), (lazy_flags demo_add). cbn in *. congruence.
Defined.

(** [FillFlagsNoCFOF] stores the parity, auxiliary, zero and sign flags the
    getters report, keeps the carry and overflow bits of [reg_flags] and every
    control bit, and touches no other register. *)
Theorem FillFlagsNoCFOF_exact s :
  lf_ok s ->
  let s' := FillFlagsNoCFOF s in
  set_flags 0 (cpu_regs s') = set_flags 0 (cpu_regs s) /\ type (lflags s') = t_UNKNOWN /\
  nz (get_PF s') = nz (get_PF s) /\ nz (get_ZF s') = nz (get_ZF s) /\ nz (get_SF s') = nz (get_SF s) /\
  (double_shift (type (lflags s)) = false -> nz (get_AF s') = nz (get_AF s)) /\
  nz (get_CF s') = Z.testbit (reg_flags s) 0 /\ nz (get_OF s') = Z.testbit (reg_flags s) 11 /\
  same_control (reg_flags s) (reg_flags s').
Proof.
  intros Hs. cbv zeta. destruct (FillFlagsNoCFOF_spec s Hs) as (f & -> & Hp & Hz & Hsf & Ha & Hc & Ho & Hk).
  assert (lazy_flags (store_flags f s) = reg_cond f) as El by by rewrite lazy_unknown.
  unfold lazy_flags in El. injection El as E1 E2 E3 E4 E5 E6. cbn [reg_cond c_pf c_zf c_sf c_af c_cf c_of] in *.
  rewrite E1, E2, E3, E4, E5, E6. by repeat split.
Qed.

Lemma FillFlagsNoCFOF_exact_witness :
  nz (get_ZF (FillFlagsNoCFOF demo_add)) = false /\ nz (get_CF (FillFlagsNoCFOF demo_add)) = false.
Proof.
  destruct (FillFlagsNoCFOF_exact demo_add (conj eq_refl I)) as (_ & _ & _ & Hz & _ & _ & Hc & _).
  split; [rewrite Hz; reflexivity|rewrite Hc; reflexivity].
Defined.
