(* ===== verification/AluProofs.v ===== *)
(** * The lazy flags implement the architecture *)
From S2P Require Import Prelude.
From S2P Require Import Registers.
From S2P Require Import LazyFlags.
From S2P Require Import AluOps.
From S2P Require Import AluFlags.
#[local] Open Scope Z_scope.
#[local] Open Scope seq_scope.

(** Operand sizes, and the instruction of each size. *)
Inductive size := Byte | Word | Dword.
Definition width (sz : size) : Z := match sz with Byte => 8 | Word => 16 | Dword => 32 end.
Definition fits (sz : size) (x : Z) : Prop := 0 <= x < 2 ^ width sz.
Definition by_size {A} (b w d : A) (sz : size) : A :=
  match sz with Byte => b | Word => w | Dword => d end.
Definition ADD := by_size ADDB ADDW ADDD.
Definition ADC := by_size ADCB ADCW ADCD.
Definition SUB := by_size SUBB SUBW SUBD.
Definition SBB := by_size SBBB SBBW SBBD.
Definition CMP := by_size CMPB CMPW CMPD.
Definition AND := by_size ANDB ANDW ANDD.
Definition OR := by_size ORB ORW ORD.
Definition XOR := by_size XORB XORW XORD.
Definition TEST := by_size TESTB TESTW TESTD.
Definition INC := by_size INCB INCW INCD.
Definition DEC := by_size DECB DECW DECD.
Definition NEG := by_size NEGB NEGW NEGD.
Definition SHL := by_size SHLB SHLW SHLD.
Definition SHR := by_size SHRB SHRW SHRD.
Definition SAR := by_size SARB SARW SARD.

Create HintDb alu.
#[export] Hint Unfold ADD ADC SUB SBB CMP AND OR XOR TEST INC DEC NEG SHL SHR SAR by_size : alu.
#[export] Hint Unfold ADDB ADDW ADDD ADCB ADCW ADCD SUBB SUBW SUBD SBBB SBBW SBBD CMPB CMPW CMPD
  ANDB ANDW ANDD ORB ORW ORD XORB XORW XORD TESTB TESTW TESTD INCB INCW INCD DECB DECW DECD
  NEGB NEGW NEGD SHLB SHLW SHLD SHRB SHRW SHRD SARB SARW SARD : alu.
#[export] Hint Unfold var1b var2b resb var1w var2w resw var1d var2d resd
  put_var1b put_var2b put_resb put_var1w put_var2w put_resw put_var1d put_var2d put_resd
  put_oldcf set_flag with_flags with_regs set_type reg_flags lf_var1b lf_var2b lf_resb
  lf_var1w lf_var2w lf_resw lf_var1d lf_var2d lf_resd : alu.

Ltac alu_unfold :=
  autounfold with alu; cbn [var1 var2 res type oldcf lflags cpu_regs fst snd flags set_flags].


Ltac observe :=
  unfold lazy_flags, get_CF, get_PF, get_AF, get_ZF, get_SF, get_OF; alu_unfold;
  autorewrite with regview; rewrite ?nz_b2z.
(** Turn every cast into [wrap], and drop those of values in range. *)
Ltac casts :=
  change u8 with (wrap 8); change u16 with (wrap 16); change u32 with (wrap 32);
  repeat match goal with
         | H : fits _ ?x |- context [wrap ?w ?x] => rewrite (wrap_small w x H)
         end.
Ltac by_width tac :=
  match goal with
  | |- context [wrap 32 _] => tac 32
  | |- context [wrap 16 _] => tac 16
  | |- _ => tac 8
  end.

(** An outcome with the given saved value and flags, and the registers kept. *)
Definition agrees (s : Cpu) (r : option Z) (c : cond) (o : outcome) : Prop :=
  snd o = r /\ lazy_flags (fst o) = c /\ cpu_regs (fst o) = cpu_regs s.


(** Reduce a claim about one instruction to the equation of its six flags. *)
Ltac alu_start := unfold agrees; alu_unfold; observe; casts; cbv [fits width] in *.
Ltac alu_case tac := (repeat split); by_width tac; try done; try lia.

(** A result within its width loses its cast; a byte's parity field has none. *)
Ltac alu_logic :=
  match goal with
  | Hf : _ -> _ |- context [logic_flags ?w ?r] =>
      specialize (Hf ltac:(done) ltac:(lia) ltac:(lia));
      rewrite !(wrap_small w r) by exact Hf;
      (repeat split); apply (observe_logic w); try done; rewrite wrap_small by exact Hf; done
  end.

(** A flag loaded into [reg_flags] is the flag read back. *)
Lemma flag_kept c f : nz (GETFLAG FLAG_CF (SETFLAGBIT FLAG_CF c f)) = c.
Proof.
  unfold GETFLAG. change FLAG_CF with (2 ^ 0). rewrite nz_land_pow2, SETFLAGBIT_bits by lia. done.
Qed.

Section Arith.
Context (sz : size) (x y : Z) (Hx : fits sz x) (Hy : fits sz y).
Abbreviation w := (width sz).

Lemma ADD_correct s :
  agrees s (Some (add_result w x y 0)) (add_flags w x y 0) (ADD sz x y s).
Proof using Hx Hy.
  destruct sz; alu_start; rewrite <- (Z.add_0_r (x + y));
    alu_case ltac:(fun w => apply (observe_add w)); apply add_carry; lia.
Qed.

Lemma ADC_correct s c :
  c = b2z (nz (get_CF s)) ->
  agrees s (Some (add_result w x y c)) (add_flags w x y c) (ADC sz x y s).
Proof using Hx Hy.
  intros Hc. assert (0 <= c <= 1) by (subst c; destruct (nz _); cbn; lia).
  destruct sz; unfold ADC, ADCB, ADCW, ADCD, by_size; rewrite <- Hc; clear Hc; alu_start;
    alu_case ltac:(fun w => apply (observe_add w)); apply adc_carry; lia.
Qed.

Lemma SUB_correct s :
  agrees s (Some (sub_result w x y 0)) (sub_flags w x y 0) (SUB sz x y s).
Proof using Hx Hy.
  destruct sz; alu_start; rewrite <- (Z.sub_0_r (x - y));
    alu_case ltac:(fun w => apply (observe_sub w)); zbool.
Qed.

Lemma CMP_correct s :
  agrees s None (sub_flags w x y 0) (CMP sz x y s).
Proof using Hx Hy.
  destruct sz; alu_start; rewrite <- (Z.sub_0_r (x - y));
    alu_case ltac:(fun w => apply (observe_sub w)); zbool.
Qed.

Lemma SBB_correct s c :
  c = b2z (nz (get_CF s)) ->
  agrees s (Some (sub_result w x y c)) (sub_flags w x y c) (SBB sz x y s).
Proof using Hx Hy.
  intros Hc. assert (0 <= c <= 1) by (subst c; destruct (nz _); cbn; lia).
  destruct sz; unfold SBB, SBBB, SBBW, SBBD, by_size; rewrite <- Hc; clear Hc; alu_start;
    rewrite !Z.sub_add_distr;
    alu_case ltac:(fun w => apply (observe_sub w)); apply sbb_borrow; lia.
Qed.

Lemma AND_correct s :
  agrees s (Some (Z.land x y)) (logic_flags w (Z.land x y)) (AND sz x y s).
Proof using Hx Hy.
  pose proof (land_fits w x y) as Hf. unfold w in Hf.
  destruct sz; alu_start; alu_logic.
Qed.

Lemma OR_correct s :
  agrees s (Some (Z.lor x y)) (logic_flags w (Z.lor x y)) (OR sz x y s).
Proof using Hx Hy.
  pose proof (lor_fits w x y) as Hf. unfold w in Hf.
  destruct sz; alu_start; alu_logic.
Qed.

Lemma XOR_correct s :
  agrees s (Some (Z.lxor x y)) (logic_flags w (Z.lxor x y)) (XOR sz x y s).
Proof using Hx Hy.
  pose proof (lxor_fits w x y) as Hf. unfold w in Hf.
  destruct sz; alu_start; alu_logic.
Qed.

Lemma TEST_correct s :
  agrees s None (logic_flags w (Z.land x y)) (TEST sz x y s).
Proof using Hx Hy.
  pose proof (land_fits w x y) as Hf. unfold w in Hf.
  destruct sz; alu_start; alu_logic.
Qed.

End Arith.

Section Unary.
Context (sz : size) (x : Z) (Hx : fits sz x).
Abbreviation w := (width sz).

Lemma INC_correct s :
  agrees (LoadCF s) (Some (add_result w x 1 0)) (with_cf (nz (get_CF s)) (add_flags w x 1 0))
    (INC sz x s).
Proof using Hx.
  unfold add_result. rewrite Z.add_0_r.
  destruct sz; unfold INC, INCB, INCW, INCD, by_size, LoadCF; set (c := nz (get_CF s)); alu_start;
    alu_case ltac:(fun w => apply (observe_inc w)); apply flag_kept.
Qed.

Lemma DEC_correct s :
  agrees (LoadCF s) (Some (sub_result w x 1 0)) (with_cf (nz (get_CF s)) (sub_flags w x 1 0))
    (DEC sz x s).
Proof using Hx.
  unfold sub_result. rewrite Z.sub_0_r.
  destruct sz; unfold DEC, DECB, DECW, DECD, by_size, LoadCF; set (c := nz (get_CF s)); alu_start;
    alu_case ltac:(fun w => apply (observe_dec w)); apply flag_kept.
Qed.

Lemma NEG_correct s :
  agrees s (Some (sub_result w 0 x 0)) (sub_flags w 0 x 0) (NEG sz x s).
Proof using Hx.
  unfold sub_result. rewrite Z.sub_0_r.
  destruct sz; alu_start; alu_case ltac:(fun w => apply (observe_neg w)).
Qed.
End Unary.
