(* ===== verification/ShiftProofs.v ===== *)
(** * Shifts and rotations

    The results of the shift and rotate macros bit by bit, and the carry and
    overflow flags they leave. *)
From S2P Require Import Prelude.
From S2P Require Import Registers.
From S2P Require Import LazyFlags.
From S2P Require Import AluOps.
From S2P Require Import AluFlags.
From S2P Require Import FlagProofs.
From S2P Require Import AluProofs.
#[local] Open Scope Z_scope.
#[local] Open Scope seq_scope.

(** ** Bits *)
Lemma nz_bit0 v : nz (Z.land v 1) = Z.testbit v 0.
Proof. apply (nz_land_pow2 v 0). lia. Qed.

Lemma nz_shr_bit x k : 0 <= k -> nz (Z.land (Z.shiftr x k) 1) = Z.testbit x k.
Proof. intros. rewrite nz_bit0, Z.shiftr_spec by lia. f_equal. Qed.

Lemma sgn_bit w x j :
  0 < w -> 0 <= x < 2 ^ w -> 0 <= j -> Z.testbit (sgn w x) j = Z.testbit x (Z.min j (w - 1)).
Proof.
  intros Hw Hx Hj. unfold sgn. rewrite wrap_small by done.
  destruct (Z.ltb_spec x (2 ^ (w - 1))) as [Hlt|Hge].
  - destruct (Z.le_gt_cases j (w - 1)); [by rewrite Z.min_l|].
    rewrite Z.min_r, !(testbit_above (w - 1)) by lia. done.
  - destruct (Z.le_gt_cases w j).
    + rewrite Z.min_r, testbit_top by lia. destruct (Z.leb_spec (2 ^ (w - 1)) x); [|lia].
      pose proof (Z.pow_le_mono_r 2 w j). rewrite Z.testbit_eqb by lia.
      replace ((x - 2 ^ w) / 2 ^ j) with (-1); [done|].
      apply Z.div_unique with (2 ^ j - 2 ^ w + x); lia.
    + rewrite Z.min_l by lia. rewrite <- (Z.mod_pow2_bits_low (x - 2 ^ w) w) by lia.
      replace (x - 2 ^ w) with (x + (-1) * 2 ^ w) by ring. rewrite Z.mod_add by lia.
      by rewrite Z.mod_small.
Qed.

Lemma ones_bit w i : 0 <= w -> 0 <= i -> Z.testbit (2 ^ w - 1) i = (i <? w).
Proof.
  intros. replace (2 ^ w - 1) with (Z.ones w) by (rewrite Z.ones_equiv; lia).
  destruct (Z.ltb_spec i w); [apply Z.ones_spec_low|apply Z.ones_spec_high]; lia.
Qed.

Lemma wrap_bits w x i : 0 <= w -> Z.testbit (wrap w x) i = (i <? w) && Z.testbit x i.
Proof. apply testbit_mod. Qed.

(** The sign-filling formula of [SARx], for the count [n] capped to [m]. *)
Lemma sar_fill w x n m :
  0 < w -> 0 <= x < 2 ^ w -> 1 <= n -> m = Z.min n w ->
  wrap w (if nz (Z.land x (2 ^ (w - 1)))
          then Z.lor (Z.shiftr x m) (Z.shiftl (2 ^ w - 1) (w - m))
          else Z.shiftr x m) = wrap w (Z.shiftr (sgn w x) n).
Proof.
  intros Hw Hx Hn ->. apply Z.bits_inj'. intros i Hi. rewrite !wrap_bits by lia.
  destruct (Z.ltb_spec i w) as [Hiw|]; [|done]. rewrite !andb_true_l.
  rewrite nz_land_pow2 by lia. rewrite Z.shiftr_spec, sgn_bit by lia.
  destruct (Z.testbit x (w - 1)) eqn:Hs.
  - rewrite Z.lor_spec, Z.shiftr_spec, Z.shiftl_spec by lia.
    destruct (Z.le_gt_cases (w - Z.min n w) i) as [Hge|Hlt].
    + rewrite ones_bit by lia. destruct (Z.ltb_spec (i - (w - Z.min n w)) w); [|lia].
      rewrite orb_true_r, Z.min_r by lia. done.
    + rewrite (Z.testbit_neg_r _ (i - _)), orb_false_r by lia. rewrite !Z.min_l by lia. done.
  - rewrite Z.shiftr_spec by lia.
    destruct (Z.le_gt_cases (w - Z.min n w) i) as [Hge|Hlt].
    + rewrite (testbit_above w) by lia. rewrite Z.min_r by lia. done.
    + by rewrite !Z.min_l by lia.
Qed.

(** ** Shifts *)

(** The observable outcome of a shift: the saved value [r], the registers kept,
    carry [cf] and overflow [ov], and parity, zero and sign of [r].  The
    auxiliary flag is left out: the processor leaves it undefined. *)
Definition shift_agrees (s : Cpu) (w r : Z) (cf ov : bool) (o : outcome) : Prop :=
  snd o = Some r /\ cpu_regs (fst o) = cpu_regs s /\
  nz (get_CF (fst o)) = cf /\ nz (get_OF (fst o)) = ov /\
  nz (get_PF (fst o)) = even_parity r /\ nz (get_ZF (fst o)) = (r =? 0) /\
  nz (get_SF (fst o)) = Z.testbit r (w - 1).

Section Fields.
Context (w M : Z) (Hw : 8 <= w) (HM : M = 2 ^ (w - 1)).

Lemma pf_field r : nz (parity (wrap 8 r)) = even_parity (wrap w r).
Proof using Hw. change (wrap 8) with u8. rewrite even_parity_u8. symmetry. by apply even_parity_low. Qed.

Lemma top_field r : nz (Z.land r M) = Z.testbit r (w - 1).
Proof using Hw HM. subst M. by rewrite nz_land_pow2 by lia. Qed.

Lemma top_xor_field r x : nz (Z.land (Z.lxor r x) M) = xorb (Z.testbit r (w - 1)) (Z.testbit x (w - 1)).
Proof using Hw HM. by rewrite top_field, Z.lxor_spec. Qed.

(** The bit shifted out at the left. *)
Lemma shl_out x n :
  0 <= x < 2 ^ w -> 1 <= n ->
  nz (if w <? n then 0 else Z.land (Z.shiftr x (w - n)) 1) = Z.testbit (Z.shiftl x n) w.
Proof using Hw.
  intros Hx Hn. rewrite Z.shiftl_spec by lia. destruct (Z.ltb_spec w n).
  - by rewrite Z.testbit_neg_r by lia.
  - by rewrite nz_shr_bit by lia.
Qed.
End Fields.

(** The arithmetic shift's carry with its count capped to the width. *)
Lemma sar_out w x n m :
  0 < w -> 0 <= x < 2 ^ w -> 1 <= n -> m = Z.min n w ->
  nz (Z.land (Z.shiftr (sgn w x) (m - 1)) 1) = Z.testbit (sgn w x) (n - 1).
Proof.
  intros Hw Hx Hn ->. rewrite nz_shr_bit, !sgn_bit by lia. f_equal. lia.
Qed.

(** The lazy operands and result at a size. *)
Definition v1 (sz : size) (l : LazyFlags) : Z := by_size (lf_var1b l) (lf_var1w l) (lf_var1d l) sz.
Definition vr (sz : size) (l : LazyFlags) : Z := by_size (lf_resb l) (lf_resw l) (lf_resd l) sz.
Definition t_SHL := by_size t_SHLb t_SHLw t_SHLd.
Definition t_SHR := by_size t_SHRb t_SHRw t_SHRd.
Definition t_SAR := by_size t_SARb t_SARw t_SARd.

(** What a shift leaves in [lflags]: its type, operand, count and result. *)
Definition shifted (ty : size -> flag_type) (sz : size) (x n r : Z) (t : Cpu) : Prop :=
  type (lflags t) = ty sz /\ v1 sz (lflags t) = x /\ lf_var2b (lflags t) = n /\ vr sz (lflags t) = r.

Lemma resb_low sz l : lf_resb l = wrap 8 (vr sz l).
Proof.
  destruct sz; cbn; symmetry; [apply byte_l_u8|apply (byte_l_word (res l))|apply (byte_l_u32 (res l))].
Qed.

Lemma shifted_pzs ty sz x n r t :
  ty = t_SHL \/ ty = t_SHR \/ ty = t_SAR -> shifted ty sz x n r t ->
  nz (get_PF t) = even_parity r /\ nz (get_ZF t) = (r =? 0) /\ nz (get_SF t) = Z.testbit r (width sz - 1) /\
  nz (get_AF t) = nz (Z.land n 0x1f).
Proof.
  intros Hty (Ht & _ & Hn & Hr). subst r n.
  assert (nz (get_PF t) = even_parity (vr sz (lflags t))) as ->.
  { unfold get_PF. rewrite Ht, (resb_low sz). change (wrap 8) with u8. rewrite <- even_parity_u8.
    by destruct Hty as [-> | [-> | ->]], sz. }
  unfold get_ZF, get_SF, get_AF. rewrite Ht.
  destruct Hty as [-> | [-> | ->]], sz; cbn [by_size t_SHL t_SHR t_SAR vr width];
    rewrite nz_b2z, ?count_word, ?count_dword; (repeat split);
    [apply (top_field 8)|apply (top_field 16)|apply (top_field 32)|apply (top_field 8)|apply (top_field 16)
    |apply (top_field 32)|apply (top_field 8)|apply (top_field 16)|apply (top_field 32)]; done.
Qed.

Section Shift.
Context (sz : size) (x n : Z) (Hx : fits sz x) (Hn : 1 <= n <= 31).
Abbreviation w := (width sz).

Lemma wrap8_count : wrap 8 n = n.
Proof using Hn. apply wrap_small. lia. Qed.
Lemma wrap8_count_1 : wrap 8 (n - 1) = n - 1.
Proof using Hn. apply wrap_small. lia. Qed.
Lemma low5_count : Z.land n 0x1f = n.
Proof using Hn. change 0x1f with (Z.ones 5). rewrite Z.land_ones by lia. apply Z.mod_small. lia. Qed.

(** *** The lazy state each instruction leaves *)
Ltac shifted_state :=
  unfold shifted; destruct sz; alu_unfold; cbn [v1 vr by_size t_SHL t_SHR t_SAR]; alu_unfold;
  autorewrite with regview; casts; rewrite ?wrap8_count; done.

Lemma SHL_state s : shifted t_SHL sz x n (wrap w (Z.shiftl x n)) (fst (SHL sz x n s)).
Proof using Hx Hn. shifted_state. Qed.
Lemma SHR_state s : shifted t_SHR sz x n (wrap w (Z.shiftr x n)) (fst (SHR sz x n s)).
Proof using Hx Hn. shifted_state. Qed.

(** *** Outcomes *)
Lemma shift_saved :
  (forall s, snd (SHL sz x n s) = Some (vr sz (lflags (fst (SHL sz x n s)))) /\
             cpu_regs (fst (SHL sz x n s)) = cpu_regs s) /\
  (forall s, snd (SHR sz x n s) = Some (vr sz (lflags (fst (SHR sz x n s)))) /\
             cpu_regs (fst (SHR sz x n s)) = cpu_regs s) /\
  (forall s, snd (SAR sz x n s) = Some (vr sz (lflags (fst (SAR sz x n s)))) /\
             cpu_regs (fst (SAR sz x n s)) = cpu_regs s).
Proof using Hx.
  repeat split; destruct sz; try done; unfold SAR, by_size, SARB, SARW; cbv zeta; by repeat case_match.
Qed.

Lemma SHL_shift s :
  let r := wrap w (Z.shiftl x n) in
  shift_agrees s w r (Z.testbit (Z.shiftl x n) w)
    (xorb (Z.testbit r (w - 1)) (Z.testbit x (w - 1))) (SHL sz x n s).
Proof using Hx Hn.
  cbv zeta. pose proof (SHL_state s) as Hs. destruct shift_saved as (Hv & _ & _).
  destruct (Hv s) as [Hv1 Hv2]. pose proof (shifted_pzs t_SHL _ _ _ _ _ ltac:(auto) Hs) as (Hp & Hz & Hsf & _).
  destruct Hs as (Ht & H1 & H2 & Hr). rewrite Hr in Hv1.
  unfold shift_agrees. rewrite Hv1, Hv2, Hp, Hz, Hsf. clear Hv Hv1 Hv2 Hp Hz Hsf.
  set (t := fst (SHL sz x n s)) in *. clearbody t. unfold get_CF, get_OF. rewrite Ht.
  unfold fits in Hx. rewrite <- (shl_out w ltac:(by destruct sz) x n) by lia.
  destruct sz; cbn [by_size t_SHL v1 vr width] in *; rewrite H1, H2, Hr; (repeat split).
  - by apply (top_xor_field 8).
  - by apply (top_xor_field 16).
  - destruct (Z.ltb_spec 32 n); [lia|done].
  - by apply (top_xor_field 32).
Qed.

Lemma shr_fits : 0 <= Z.shiftr x n < 2 ^ w.
Proof using Hx Hn.
  rewrite Z.shiftr_div_pow2 by lia. cbv [fits] in *. pose proof (Z.pow_pos_nonneg 2 n).
  split; [apply Z.div_pos; lia|]. apply Z.div_lt_upper_bound; nia.
Qed.

(** The overflow flag of [SHR] compares the operand with the sign bit strictly. *)
Lemma SHR_shift s :
  shift_agrees s w (Z.shiftr x n) (Z.testbit x (n - 1))
    ((n =? 1) && (2 ^ (w - 1) <? x)) (SHR sz x n s).
Proof using Hx Hn.
  pose proof (SHR_state s) as Hs. rewrite (wrap_small w _ shr_fits) in Hs. destruct shift_saved as (_ & Hv & _).
  destruct (Hv s) as [Hv1 Hv2]. pose proof (shifted_pzs t_SHR _ _ _ _ _ ltac:(auto) Hs) as (Hp & Hz & Hsf & _).
  destruct Hs as (Ht & H1 & H2 & Hr). rewrite Hr in Hv1.
  unfold shift_agrees. rewrite Hv1, Hv2, Hp, Hz, Hsf. clear Hv Hv1 Hv2 Hp Hz Hsf.
  set (t := fst (SHR sz x n s)) in *. clearbody t. unfold get_CF, get_OF, lf_var2b_minus_one. rewrite Ht.
  destruct sz; cbn [by_size t_SHR v1 vr width] in *; rewrite H1, H2, low5_count; change u8 with (wrap 8);
    rewrite wrap8_count_1, nz_shr_bit by lia; (repeat split); (destruct (n =? 1); [by rewrite nz_b2z|done]).
Qed.

(** The cap of [SARB] and [SARW]. *)
Definition sar_count : Z := by_size (Z.min n 8) (Z.min n 16) n sz.

Lemma capped_byte s : var2b (put_var2b n (put_var1b x s)) = n.
Proof using Hn. unfold var2b, lf_var2b, put_var2b. cbn [lflags var2]. rewrite byte_l_set. apply u8_small. lia. Qed.
Lemma capped_word s : var2b (put_var2b n (put_var1w x s)) = n.
Proof using Hn. unfold var2b, lf_var2b, put_var2b. cbn [lflags var2]. rewrite byte_l_set. apply u8_small. lia. Qed.

Lemma SAR_state s : shifted t_SAR sz x sar_count (wrap w (Z.shiftr (sgn w x) n)) (fst (SAR sz x n s)).
Proof using Hx Hn.
  rewrite <- (sar_fill w x n sar_count) by (cbv [fits sar_count] in *; destruct sz; cbn in *; lia).
  unfold shifted, sar_count; destruct sz; unfold SAR, by_size, SARB, SARW, SARD;
    rewrite ?capped_byte, ?capped_word; [destruct (Z.ltb_spec 8 n)|destruct (Z.ltb_spec 16 n)|];
    alu_unfold; cbn [v1 vr by_size t_SHL t_SHR t_SAR]; alu_unfold; autorewrite with regview; casts;
    rewrite ?wrap8_count, ?(Z.min_l n), ?(Z.min_r n) by lia; done.
Qed.

Lemma SAR_shift s :
  let r := wrap w (Z.shiftr (sgn w x) n) in
  shift_agrees s w r (Z.testbit (sgn w x) (n - 1)) false (SAR sz x n s).
Proof using Hx Hn.
  cbv zeta. pose proof (SAR_state s) as Hs. destruct shift_saved as (_ & _ & Hv).
  destruct (Hv s) as [Hv1 Hv2]. pose proof (shifted_pzs t_SAR _ _ _ _ _ ltac:(auto) Hs) as (Hp & Hz & Hsf & _).
  destruct Hs as (Ht & H1 & H2 & Hr). rewrite Hr in Hv1.
  unfold shift_agrees. rewrite Hv1, Hv2, Hp, Hz, Hsf. clear Hv Hv1 Hv2 Hp Hz Hsf.
  set (t := fst (SAR sz x n s)) in *. clearbody t. unfold get_CF, get_OF, lf_var2b_minus_one. rewrite Ht.
  unfold fits, sar_count in *.
  destruct sz; cbn [by_size t_SAR v1 vr width] in *; rewrite H1, H2; change u8 with (wrap 8);
    rewrite (wrap_small 8 (_ - 1)) by lia; (repeat split);
    [apply (sar_out 8)|apply (sar_out 16)|apply (sar_out 32)]; lia.
Qed.

(** A shift by a count other than zero leaves the auxiliary flag set. *)
Lemma shift_aux s :
  nz (get_AF (fst (SHL sz x n s))) = true /\ nz (get_AF (fst (SHR sz x n s))) = true /\
  nz (get_AF (fst (SAR sz x n s))) = true.
Proof using Hx Hn.
  pose proof (shifted_pzs t_SHL _ _ _ _ _ ltac:(auto) (SHL_state s)) as (_ & _ & _ & ->).
  pose proof (shifted_pzs t_SHR _ _ _ _ _ ltac:(auto) (SHR_state s)) as (_ & _ & _ & ->).
  pose proof (shifted_pzs t_SAR _ _ _ _ _ ltac:(auto) (SAR_state s)) as (_ & _ & _ & ->).
  assert (1 <= sar_count <= 31) as Hc by (unfold sar_count; destruct sz; cbn; lia).
  rewrite low5_count. change 0x1f with (Z.ones 5). rewrite Z.land_ones, Z.mod_small by lia.
  rewrite nz_spec, nz_spec. lia.
Qed.
End Shift.
