(* ===== verification/RotateProofs.v ===== *)
(** * Rotations

    [ROL]/[ROR] permute the bits of the operand cyclically, [RCL]/[RCR] the
    operand's bits together with the carry. *)
From S2P Require Import Prelude.
From S2P Require Import Registers.
From S2P Require Import LazyFlags.
From S2P Require Import AluOps.
From S2P Require Import AluFlags.
From S2P Require Import FlagProofs.
From S2P Require Import AluProofs.
From S2P Require Import ShiftProofs.
#[local] Open Scope Z_scope.
#[local] Open Scope seq_scope.

Definition ROL := by_size ROLB ROLW ROLD.
Definition ROR := by_size RORB RORW RORD.
Definition RCL := by_size RCLB RCLW RCLD.
Definition RCR := by_size RCRB RCRW RCRD.
#[export] Hint Unfold ROL ROR RCL RCR ROLB ROLW ROLD RORB RORW RORD RCLB RCLW RCLD RCRB RCRW RCRD : alu.

(** ** Rotated bit strings *)
Definition rot_left (w x n : Z) : Z := wrap w (Z.lor (Z.shiftl x n) (Z.shiftr x (w - n))).
Definition rot_right (w x n : Z) : Z := wrap w (Z.lor (Z.shiftr x n) (Z.shiftl x (w - n))).
(** Rotations of the [w + 1] bits of [x] with the carry [c] on top; bit [w] of
    [with_carry] is the carry. *)
Definition with_carry (w x : Z) (c : bool) : Z := Z.lor x (Z.shiftl (b2z c) w).
Definition rot_left_carry (w x : Z) (c : bool) (n : Z) : Z :=
  wrap w (Z.lor (Z.lor (Z.shiftl x n) (Z.shiftl (b2z c) (n - 1))) (Z.shiftr x (w + 1 - n))).
Definition rot_right_carry (w x : Z) (c : bool) (n : Z) : Z :=
  wrap w (Z.lor (Z.lor (Z.shiftr x n) (Z.shiftl (b2z c) (w - n))) (Z.shiftl x (w + 1 - n))).

Lemma mod_wrap_neg a m : 0 < m -> - m <= a < 0 -> a mod m = a + m.
Proof. intros. symmetry. apply Z.mod_unique with (-1); lia. Qed.
Lemma mod_wrap_pos a m : 0 < m -> m <= a < 2 * m -> a mod m = a - m.
Proof. intros. symmetry. apply Z.mod_unique with 1; lia. Qed.

Section Bits.
Context (w x : Z) (Hw : 0 < w) (Hx : 0 <= x < 2 ^ w).

Lemma rot_left_bits n i :
  0 <= n < w -> 0 <= i < w -> Z.testbit (rot_left w x n) i = Z.testbit x ((i - n) mod w).
Proof using Hw Hx.
  intros Hn Hi. unfold rot_left. rewrite wrap_bits by lia. destruct (Z.ltb_spec i w); [|lia].
  rewrite andb_true_l, Z.lor_spec, Z.shiftl_spec, Z.shiftr_spec by lia.
  destruct (Z.le_gt_cases n i).
  - rewrite (testbit_above w x (i + _)), orb_false_r by lia. rewrite Z.mod_small by lia. done.
  - rewrite Z.testbit_neg_r, mod_wrap_neg by lia. cbn. f_equal. lia.
Qed.

Lemma rot_right_bits n i :
  0 <= n < w -> 0 <= i < w -> Z.testbit (rot_right w x n) i = Z.testbit x ((i + n) mod w).
Proof using Hw Hx.
  intros Hn Hi. unfold rot_right. rewrite wrap_bits by lia. destruct (Z.ltb_spec i w); [|lia].
  rewrite andb_true_l, Z.lor_spec, Z.shiftl_spec, Z.shiftr_spec by lia.
  destruct (Z.le_gt_cases w (i + n)).
  - rewrite (testbit_above w x (i + _)), mod_wrap_pos by lia. cbn. f_equal. lia.
  - rewrite (Z.testbit_neg_r x (i - _)), orb_false_r, Z.mod_small by lia. done.
Qed.

Lemma b2z_bit c i : Z.testbit (b2z c) i = c && (i =? 0).
Proof using. destruct c; cbn; [|apply Z.bits_0]. by destruct i. Qed.

Lemma with_carry_bits c i :
  0 <= i -> Z.testbit (with_carry w x c) i = if i =? w then c else Z.testbit x i.
Proof using Hw Hx.
  intros Hi. unfold with_carry. rewrite Z.lor_spec, Z.shiftl_spec, b2z_bit by lia.
  destruct (Z.eqb_spec i w) as [->|].
  - rewrite (testbit_above w) by lia. rewrite Z.sub_diag. by rewrite andb_true_r.
  - destruct (Z.eqb_spec (i - w) 0); [lia|]. by rewrite andb_false_r, orb_false_r.
Qed.

Lemma rot_left_carry_bits c n i :
  1 <= n <= w -> 0 <= i < w ->
  Z.testbit (rot_left_carry w x c n) i = Z.testbit (with_carry w x c) ((i - n) mod (w + 1)).
Proof using Hw Hx.
  intros Hn Hi. unfold rot_left_carry. rewrite wrap_bits by lia. destruct (Z.ltb_spec i w); [|lia].
  rewrite andb_true_l, !Z.lor_spec, !Z.shiftl_spec, Z.shiftr_spec, b2z_bit by lia.
  destruct (Z.le_gt_cases n i).
  - rewrite (testbit_above w x (i + _)), orb_false_r by lia. rewrite Z.mod_small, with_carry_bits by lia.
    destruct (Z.eqb_spec (i - (n - 1)) 0), (Z.eqb_spec (i - n) w); try lia.
    by rewrite andb_false_r, orb_false_r.
  - rewrite (Z.testbit_neg_r x (i - _)), mod_wrap_neg, with_carry_bits by lia.
    destruct (Z.eqb_spec (i - (n - 1)) 0), (Z.eqb_spec (i - n + (w + 1)) w); try lia.
    + rewrite (testbit_above w x (i + _)) by lia. rewrite andb_true_r, orb_false_r. done.
    + rewrite andb_false_r. cbn. f_equal. lia.
Qed.

Lemma rot_right_carry_bits c n i :
  1 <= n <= w -> 0 <= i < w ->
  Z.testbit (rot_right_carry w x c n) i = Z.testbit (with_carry w x c) ((i + n) mod (w + 1)).
Proof using Hw Hx.
  intros Hn Hi. unfold rot_right_carry. rewrite wrap_bits by lia. destruct (Z.ltb_spec i w); [|lia].
  rewrite andb_true_l, !Z.lor_spec, !Z.shiftl_spec, Z.shiftr_spec, b2z_bit by lia.
  destruct (Z.le_gt_cases (i + n) w).
  - rewrite (Z.testbit_neg_r x (i - _)), orb_false_r, Z.mod_small, with_carry_bits by lia.
    destruct (Z.eqb_spec (i - (w - n)) 0), (Z.eqb_spec (i + n) w); try lia.
    + rewrite (testbit_above w x (i + _)) by lia. by rewrite andb_true_r.
    + by rewrite andb_false_r, orb_false_r.
  - rewrite (testbit_above w x (i + _)) by lia. rewrite mod_wrap_pos, with_carry_bits by lia.
    destruct (Z.eqb_spec (i - (w - n)) 0), (Z.eqb_spec (i + n - (w + 1)) w); try lia.
    rewrite andb_false_r. cbn. f_equal. lia.
Qed.
End Bits.

(** ** The instructions *)

(** A rotation saves [r], leaves carry [cf] and overflow [ov] and every other bit
    of the flags register as it was. *)
Definition rotate_agrees (s : Cpu) (r : Z) (cf ov : bool) (o : outcome) : Prop :=
  snd o = Some r /\ type (lflags (fst o)) = t_UNKNOWN /\
  set_flags 0 (cpu_regs (fst o)) = set_flags 0 (cpu_regs s) /\
  nz (get_CF (fst o)) = cf /\ nz (get_OF (fst o)) = ov /\
  nz (get_PF (fst o)) = nz (get_PF s) /\ nz (get_ZF (fst o)) = nz (get_ZF s) /\
  nz (get_SF (fst o)) = nz (get_SF s) /\
  (double_shift (type (lflags s)) = false -> nz (get_AF (fst o)) = nz (get_AF s)) /\
  same_control (reg_flags s) (reg_flags (fst o)).

(** What the instruction does after the flags are stored, reduced to its flag word. *)
Definition rotated (s s' : Cpu) (f : Z) (cf ov : bool) : Prop :=
  type (lflags s') = t_UNKNOWN /\
  cpu_regs s' = set_flags (f |> SETFLAGBIT FLAG_CF cf |> SETFLAGBIT FLAG_OF ov) (cpu_regs s).

Lemma rotated_agrees s s' f cf ov r :
  c_pf (reg_cond f) = nz (get_PF s) -> c_zf (reg_cond f) = nz (get_ZF s) -> c_sf (reg_cond f) = nz (get_SF s) ->
  (double_shift (type (lflags s)) = false -> c_af (reg_cond f) = nz (get_AF s)) ->
  same_control (reg_flags s) f -> rotated s s' f cf ov -> rotate_agrees s r cf ov (s', Some r).
Proof.
  intros Hp Hz Hs Ha Hc [Ht Hr]. unfold rotate_agrees. cbn [fst snd].
  pose proof (lazy_unknown s' Ht) as E. unfold reg_flags in E. rewrite Hr in E.
  unfold lazy_flags in E. cbn [flags set_flags] in E.
  erewrite holds_cond in E by holds_chain. cbn [Z.eqb Pos.eqb] in E.
  injection E as -> -> -> -> -> ->. repeat split; try done.
  - by rewrite Hr.
  - intros n Hn Hb. unfold reg_flags. rewrite Hr. cbn [flags set_flags].
    rewrite set_OF_bits, set_CF_bits, (Hc n Hn Hb) by done. revert Hb. unfold cond_bit. zbool.
Qed.

Lemma low_bits n k : 0 <= k -> Z.land n (2 ^ k - 1) = n mod 2 ^ k.
Proof. intros. rewrite <- Z.land_ones by done. f_equal. rewrite Z.ones_equiv. lia. Qed.

Lemma top_shift w r : 0 < w -> 0 <= r < 2 ^ w -> Z.shiftr r (w - 1) = b2z (Z.testbit r (w - 1)).
Proof.
  intros Hw Hr. rewrite Z.shiftr_div_pow2, testbit_top by lia.
  assert (2 ^ w = 2 * 2 ^ (w - 1)) by (rewrite <- Z.pow_succ_r by lia; f_equal; lia).
  destruct (Z.leb_spec (2 ^ (w - 1)) r); cbn.
  - symmetry. apply Z.div_unique with (r - 2 ^ (w - 1)); lia.
  - apply Z.div_small. lia.
Qed.

(** The overflow formulas of the left and right rotations. *)
Lemma rol_overflow w r :
  0 < w -> 0 <= r < 2 ^ w ->
  nz (Z.lxor (Z.land r 1) (Z.shiftr r (w - 1))) = xorb (Z.testbit r 0) (Z.testbit r (w - 1)).
Proof.
  intros. rewrite land_1, top_shift by done. by destruct (Z.testbit r 0), (Z.testbit r (w - 1)).
Qed.
Lemma ror_overflow w M r :
  1 < w -> M = 2 ^ (w - 1) ->
  nz (Z.land (Z.lxor r (Z.shiftl r 1)) M) = xorb (Z.testbit r (w - 1)) (Z.testbit r (w - 2)).
Proof.
  intros ? ->. rewrite nz_land_pow2, Z.lxor_spec, Z.shiftl_spec by lia. do 2 f_equal. lia.
Qed.

Lemma rot_left_range w x n : 0 < w -> 0 <= rot_left w x n < 2 ^ w.
Proof. intros. apply wrap_range. lia. Qed.

Section Rotate.
Context (sz : size) (x n : Z) (Hx : fits sz x) (Hn : 1 <= n <= 31).
Context (s : Cpu) (Hs : lf_ok s).
Abbreviation w := (width sz).

(** The counts as the macros mask them. *)
Lemma count7 : wrap 8 (Z.land n 0x07) = n mod 8.
Proof using. change 0x07 with (2 ^ 3 - 1). rewrite low_bits by lia. apply wrap_small. zlia. Qed.
Lemma count15 : wrap 8 (Z.land n 0xf) = n mod 16.
Proof using. change 0xf with (2 ^ 4 - 1). rewrite low_bits by lia. apply wrap_small. zlia. Qed.
Lemma count31 : wrap 8 n = n mod 32.
Proof using Hn. rewrite Z.mod_small by lia. apply wrap_small. lia. Qed.

Ltac rotate_start sz :=
  destruct (FillFlagsNoCFOF_spec s Hs) as (f & E & Hp & Hz & Hsf & Ha & _ & _ & Hc);
  destruct sz; unfold ROL, ROR, by_size, ROLB, ROLW, ROLD, RORB, RORW, RORD; rewrite E; cbn [width] in *;
  unfold store_flags; alu_unfold; autorewrite with regview; casts; rewrite ?count7, ?count15, ?count31.
Ltac rotate_end := eapply rotated_agrees; try eassumption; split; reflexivity.

Lemma ROL_rotate :
  let r := rot_left w x (n mod w) in
  rotate_agrees s r (Z.testbit r 0) (xorb (Z.testbit r 0) (Z.testbit r (w - 1))) (ROL sz x n s).
Proof using Hx Hn Hs.
  rotate_start sz; fold (rot_left 8 x (n mod 8)) (rot_left 16 x (n mod 16)) (rot_left 32 x (n mod 32));
    rewrite nz_bit0;
    [rewrite (rol_overflow 8)|rewrite (rol_overflow 16)|rewrite (rol_overflow 32)];
    try apply rot_left_range; try lia; rotate_end.
Qed.

Lemma ROR_rotate :
  let r := rot_right w x (n mod w) in
  rotate_agrees s r (Z.testbit r (w - 1)) (xorb (Z.testbit r (w - 1)) (Z.testbit r (w - 2))) (ROR sz x n s).
Proof using Hx Hn Hs.
  rotate_start sz; fold (rot_right 8 x (n mod 8)) (rot_right 16 x (n mod 16)) (rot_right 32 x (n mod 32));
    [rewrite (ror_overflow 8), (top_field 8)|rewrite (ror_overflow 16), (top_field 16)
    |rewrite (ror_overflow 32), (top_field 32)];
    try lia; try done; rotate_end.
Qed.

(** [RCL] and [RCR] save nothing when the count is a whole turn; 1 to 31 is
    never one for a doubleword. *)
Definition carry_count : Z := by_size (n mod 9) (n mod 17) n sz.

Lemma count9 : wrap 8 (n mod 9) = n mod 9.
Proof using. apply wrap_small. zlia. Qed.
Lemma count17 : wrap 8 (n mod 17) = n mod 17.
Proof using. apply wrap_small. zlia. Qed.
Lemma count_id : wrap 8 n = n.
Proof using Hn. apply wrap_small. lia. Qed.
Lemma count_1 m : 1 <= m <= 31 -> wrap 8 (m - 1) = m - 1.
Proof using. intros. apply wrap_small. lia. Qed.

Lemma carry_out b f : Z.land (SETFLAGBIT FLAG_CF b f) 1 = b2z b.
Proof using. rewrite land_1, set_CF_bits by lia. done. Qed.

Ltac carry_start sz Hne :=
  destruct (FillFlags_spec s Hs) as (f & E & (Hcf & Hp & Hz & Hsf & Ha & _) & Hc);
  assert (Z.land f 1 = b2z (nz (get_CF s))) as Hf by (rewrite land_1; f_equal; exact Hcf);
  destruct sz; unfold RCL, RCR, by_size, RCLB, RCLW, RCLD, RCRB, RCRW, RCRD; rewrite E; cbn [width by_size] in *;
  rewrite (proj2 (Z.eqb_neq _ 0) Hne), Hf; clear Hf Hcf E; set (c := nz (get_CF s)) in *; clearbody c;
  unfold store_flags, lf_var2b_minus_one; alu_unfold; autorewrite with regview; casts;
  rewrite ?count9, ?count17, ?count_id, ?carry_out, ?count_1 by (clear -Hne Hn; lia || zlia).

(** The doubleword forms write the count one separately. *)
Lemma rcl_one c :
  0 <= x < 2 ^ 32 ->
  (if n =? 1 then Z.lor (Z.shiftl x 1) (b2z c)
   else Z.lor (Z.lor (Z.shiftl x n) (Z.shiftl (b2z c) (n - 1))) (Z.shiftr x (33 - n)))
  = Z.lor (Z.lor (Z.shiftl x n) (Z.shiftl (b2z c) (n - 1))) (Z.shiftr x (33 - n)).
Proof using Hn.
  intros H. destruct (Z.eqb_spec n 1) as [->|]; [|done].
  rewrite (Z.shiftr_div_pow2 x), (Z.div_small x), Z.lor_0_r by (clear -H; cbn; lia). done.
Qed.
Lemma rcr_one c :
  0 <= x < 2 ^ 32 ->
  wrap 32 (if n =? 1 then Z.lor (Z.shiftr x 1) (Z.shiftl (b2z c) 31)
   else Z.lor (Z.lor (Z.shiftr x n) (Z.shiftl (b2z c) (32 - n))) (Z.shiftl x (33 - n)))
  = rot_right_carry 32 x c n.
Proof using Hn.
  intros H. unfold rot_right_carry. destruct (Z.eqb_spec n 1) as [->|]; [|done].
  apply Z.bits_inj'. intros i Hi. rewrite !wrap_bits, !Z.lor_spec, (Z.shiftl_spec x) by lia.
  destruct (Z.ltb_spec i 32); [|done]. rewrite !andb_true_l.
  rewrite (Z.testbit_neg_r x (i - _)), orb_false_r by lia. done.
Qed.

Lemma rcl_overflow w' r b : 0 < w' -> 0 <= r < 2 ^ w' ->
  nz (Z.lxor (b2z b) (Z.shiftr r (w' - 1))) = xorb b (Z.testbit r (w' - 1)).
Proof using. intros. rewrite top_shift by done. by destruct b, (Z.testbit r (w' - 1)). Qed.

Lemma RCL_rotate :
  let c := nz (get_CF s) in
  let r := rot_left_carry w x c carry_count in
  let cf := Z.testbit x (w - carry_count) in
  carry_count <> 0 ->
  rotate_agrees s r cf (xorb cf (Z.testbit r (w - 1))) (RCL sz x n s).
Proof using Hx Hn Hs.
  unfold carry_count. cbv zeta. intros Hne. carry_start sz Hne; rewrite ?rcl_one by exact Hx.
  - rewrite nz_shr_bit, (rcl_overflow 8) by (apply wrap_range || zlia; lia). rotate_end.
  - rewrite nz_shr_bit, (rcl_overflow 16) by (apply wrap_range || zlia; lia). rotate_end.
  - rewrite nz_shr_bit, (rcl_overflow 32) by (apply wrap_range || zlia; lia). rotate_end.
Qed.

Lemma RCR_rotate :
  let c := nz (get_CF s) in
  let r := rot_right_carry w x c carry_count in
  carry_count <> 0 ->
  rotate_agrees s r (Z.testbit x (carry_count - 1)) (xorb (Z.testbit r (w - 1)) (Z.testbit r (w - 2)))
    (RCR sz x n s).
Proof using Hx Hn Hs.
  unfold carry_count. cbv zeta. intros Hne. carry_start sz Hne; rewrite ?rcr_one by exact Hx.
  - rewrite (ror_overflow 8), nz_shr_bit by (done || zlia). rotate_end.
  - rewrite (ror_overflow 16), nz_shr_bit by (done || zlia). rotate_end.
  - rewrite (ror_overflow 32), nz_shr_bit by (done || zlia). rotate_end.
Qed.

Lemma RC_whole_turn : carry_count = 0 -> RCL sz x n s = (s, None) /\ RCR sz x n s = (s, None).
Proof using Hx Hn.
  unfold carry_count, RCL, RCR, RCLB, RCLW, RCLD, RCRB, RCRW, RCRD.
  destruct sz; cbn [by_size]; intros ->; [done..|lia].
Qed.
End Rotate.
