(* ===== verification/AluSpec.v ===== *)
(** * The lazy-flags machine refines an eager one

    The abstract ALU keeps the six condition flags and computes them at every
    instruction, as the processor does.  The theorem is a simulation: any
    sequence of the modelled instructions, run with lazy flags, saves the same
    values and shows the same flags at every point. *)
From S2P Require Import Prelude.
From S2P Require Import Registers.
From S2P Require Import LazyFlags.
From S2P Require Import AluOps.
From S2P Require Import AluFlags.
From S2P Require Import FlagProofs.
From S2P Require Import AluProofs.
From S2P Require Import ShiftProofs.
From S2P Require Import RotateProofs.
#[local] Open Scope Z_scope.
#[local] Open Scope seq_scope.

Inductive binop := Add | Or | Adc | Sbb | And | Sub | Xor | Cmp | Test.
Inductive unop := Inc | Dec | Neg.
Inductive grp2op := Rol | Ror | Rcl | Rcr | Shl | Shr | Sar.
Inductive instr :=
  | Bin (o : binop) (sz : size) (x y : Z)
  | Un (o : unop) (sz : size) (x : Z)
  | Grp2 (o : grp2op) (sz : size) (x count : Z).

(** Operands are already loaded: they fit their size; the count is a byte. *)
Definition instr_ok (i : instr) : Prop :=
  match i with
  | Bin _ sz x y => fits sz x /\ fits sz y
  | Un _ sz x => fits sz x
  | Grp2 _ sz x count => fits sz x /\ fits Byte count
  end.

(** ** The machine of the code *)
Definition GRP2 (sz : size) := by_size GRP2B GRP2W GRP2D sz.
Definition grp2_which (o : grp2op) : Z :=
  match o with Rol => 0 | Ror => 1 | Rcl => 2 | Rcr => 3 | Shl => 4 | Shr => 5 | Sar => 7 end.
Definition lazy_step (i : instr) (s : Cpu) : outcome :=
  match i with
  | Bin o sz x y =>
      match o with
      | Add => ADD sz x y s | Or => OR sz x y s | Adc => ADC sz x y s | Sbb => SBB sz x y s
      | And => AND sz x y s | Sub => SUB sz x y s | Xor => XOR sz x y s | Cmp => CMP sz x y s
      | Test => TEST sz x y s
      end
  | Un o sz x => match o with Inc => INC sz x s | Dec => DEC sz x s | Neg => NEG sz x s end
  | Grp2 o sz x count => GRP2 sz (grp2_which o) count x s
  end.

(** ** The eager machine *)
Definition shift_flags (w r : Z) (cf ov : bool) : cond := result_flags w r cf true ov.
Definition rotate_flags (c : cond) (cf ov : bool) : cond := mkCond cf (c_pf c) (c_af c) (c_zf c) (c_sf c) ov.

Definition eager_bin (o : binop) (w x y : Z) (c : cond) : cond * option Z :=
  match o with
  | Add => (add_flags w x y 0, Some (add_result w x y 0))
  | Adc => (add_flags w x y (b2z (c_cf c)), Some (add_result w x y (b2z (c_cf c))))
  | Sub => (sub_flags w x y 0, Some (sub_result w x y 0))
  | Sbb => (sub_flags w x y (b2z (c_cf c)), Some (sub_result w x y (b2z (c_cf c))))
  | Cmp => (sub_flags w x y 0, None)
  | And => (logic_flags w (Z.land x y), Some (Z.land x y))
  | Or => (logic_flags w (Z.lor x y), Some (Z.lor x y))
  | Xor => (logic_flags w (Z.lxor x y), Some (Z.lxor x y))
  | Test => (logic_flags w (Z.land x y), None)
  end.
Definition eager_un (o : unop) (w x : Z) (c : cond) : cond * option Z :=
  match o with
  | Inc => (with_cf (c_cf c) (add_flags w x 1 0), Some (add_result w x 1 0))
  | Dec => (with_cf (c_cf c) (sub_flags w x 1 0), Some (sub_result w x 1 0))
  | Neg => (sub_flags w 0 x 0, Some (sub_result w 0 x 0))
  end.
(** A count of zero (modulo 32) changes nothing; neither does a whole turn
    through the carry. *)
Definition eager_grp2 (o : grp2op) (sz : size) (x count : Z) (c : cond) : cond * option Z :=
  let w := width sz in
  let n := count mod 32 in
  let m := by_size (n mod 9) (n mod 17) n sz in
  let top r := Z.testbit r (w - 1) in
  if n =? 0 then (c, None) else
  match o with
  | Rol => let r := rot_left w x (n mod w) in
           (rotate_flags c (Z.testbit r 0) (xorb (Z.testbit r 0) (top r)), Some r)
  | Ror => let r := rot_right w x (n mod w) in
           (rotate_flags c (top r) (xorb (top r) (Z.testbit r (w - 2))), Some r)
  | Rcl => if m =? 0 then (c, None) else
           let r := rot_left_carry w x (c_cf c) m in
           let cf := Z.testbit x (w - m) in
           (rotate_flags c cf (xorb cf (top r)), Some r)
  | Rcr => if m =? 0 then (c, None) else
           let r := rot_right_carry w x (c_cf c) m in
           (rotate_flags c (Z.testbit x (m - 1)) (xorb (top r) (Z.testbit r (w - 2))), Some r)
  | Shl => let r := wrap w (Z.shiftl x n) in
           (shift_flags w r (Z.testbit (Z.shiftl x n) w) (xorb (top r) (top x)), Some r)
  | Shr => (shift_flags w (Z.shiftr x n) (Z.testbit x (n - 1)) ((n =? 1) && (2 ^ (w - 1) <? x)),
            Some (Z.shiftr x n))
  | Sar => let r := wrap w (Z.shiftr (sgn w x) n) in
           (shift_flags w r (Z.testbit (sgn w x) (n - 1)) false, Some r)
  end.
Definition eager_step (i : instr) (c : cond) : cond * option Z :=
  match i with
  | Bin o sz x y => eager_bin o (width sz) x y c
  | Un o sz x => eager_un o (width sz) x c
  | Grp2 o sz x count => eager_grp2 o sz x count c
  end.

(** ** The simulation *)
Definition sim (s : Cpu) (c : cond) : Prop :=
  lazy_flags s = c /\ lf_ok s /\ double_shift (type (lflags s)) = false.

(** The lazy state an instruction leaves is one it may start from. *)
Lemma ok_bin o sz x y s :
  let s' := fst (lazy_step (Bin o sz x y) s) in lf_ok s' /\ double_shift (type (lflags s')) = false.
Proof. by destruct o, sz. Qed.
Lemma ok_un o sz x s :
  let s' := fst (lazy_step (Un o sz x) s) in lf_ok s' /\ double_shift (type (lflags s')) = false.
Proof.
  destruct o, sz; try done; cbv zeta; cbn [lazy_step]; unfold lf_ok, lf_wf; alu_unfold;
    autorewrite with regview; cbn [instruction_type double_shift]; (repeat split);
    rewrite ?(Z.mod_mod (0 - _)) by lia; by casts.
Qed.

Lemma sim_bin o sz x y s c :
  instr_ok (Bin o sz x y) -> sim s c ->
  sim (fst (lazy_step (Bin o sz x y) s)) (fst (eager_bin o (width sz) x y c)) /\
  snd (lazy_step (Bin o sz x y) s) = snd (eager_bin o (width sz) x y c).
Proof.
  intros [Hx Hy] (Hc & _ & _). pose proof (ok_bin o sz x y s) as Hok. unfold sim.
  assert (b2z (c_cf c) = b2z (nz (get_CF s))) as Hcf by by subst c.
  destruct o; cbn [lazy_step eager_bin fst snd] in *.
  all: match goal with
  | |- context [ADD] => pose proof (ADD_correct sz x y Hx Hy s) as (? & ? & _)
  | |- context [OR] => pose proof (OR_correct sz x y Hx Hy s) as (? & ? & _)
  | |- context [ADC] => pose proof (ADC_correct sz x y Hx Hy s _ Hcf) as (? & ? & _)
  | |- context [SBB] => pose proof (SBB_correct sz x y Hx Hy s _ Hcf) as (? & ? & _)
  | |- context [AND] => pose proof (AND_correct sz x y Hx Hy s) as (? & ? & _)
  | |- context [SUB] => pose proof (SUB_correct sz x y Hx Hy s) as (? & ? & _)
  | |- context [XOR] => pose proof (XOR_correct sz x y Hx Hy s) as (? & ? & _)
  | |- context [CMP] => pose proof (CMP_correct sz x y Hx Hy s) as (? & ? & _)
  | |- context [TEST] => pose proof (TEST_correct sz x y Hx Hy s) as (? & ? & _)
  end; tauto.
Qed.

Lemma sim_un o sz x s c :
  instr_ok (Un o sz x) -> sim s c ->
  sim (fst (lazy_step (Un o sz x) s)) (fst (eager_un o (width sz) x c)) /\
  snd (lazy_step (Un o sz x) s) = snd (eager_un o (width sz) x c).
Proof.
  intros Hx (Hc & _ & _). pose proof (ok_un o sz x s) as Hok. unfold sim.
  assert (c_cf c = nz (get_CF s)) as Hcf by by subst c.
  destruct o; cbn [lazy_step eager_un fst snd] in *; rewrite ?Hcf.
  - pose proof (INC_correct sz x Hx s) as (? & ? & _). tauto.
  - pose proof (DEC_correct sz x Hx s) as (? & ? & _). tauto.
  - pose proof (NEG_correct sz x Hx s) as (? & ? & _). tauto.
Qed.

Lemma sim_shift s s' o w r cf ov n :
  shift_agrees s w r cf ov o -> nz (get_AF (fst o)) = true -> lf_ok (fst o) ->
  double_shift (type (lflags (fst o))) = false -> s' = fst o -> n = snd o ->
  sim s' (shift_flags w r cf ov) /\ n = Some r.
Proof.
  intros (Hr & _ & Hcf & Hof & Hpf & Hzf & Hsf) Ha Hok Hd -> ->. unfold sim, lazy_flags.
  by rewrite Hcf, Hof, Hpf, Hzf, Hsf, Ha.
Qed.

Lemma sim_rotate s c o r cf ov :
  sim s c -> rotate_agrees s r cf ov o -> sim (fst o) (rotate_flags c cf ov) /\ snd o = Some r.
Proof.
  intros (Hc & Hok & Hd) (Hr & Ht & _ & Hcf & Hof & Hpf & Hzf & Hsf & Ha & _).
  specialize (Ha Hd). unfold sim. rewrite Ht. split; [|done].
  split; [|split; [by apply lf_ok_unknown|done]].
  unfold lazy_flags. rewrite Hcf, Hof, Hpf, Hzf, Hsf, Ha. by subst c.
Qed.

Lemma ok_shift sz x n s :
  let ok o := lf_ok (fst o) /\ double_shift (type (lflags (fst (o : outcome)))) = false in
  ok (SHL sz x n s) /\ ok (SHR sz x n s) /\ ok (SAR sz x n s).
Proof. by destruct sz. Qed.

(** [GRP2] masks the count and dispatches. *)
Lemma GRP2_dispatch o sz x count s :
  GRP2 sz (grp2_which o) count x s =
  let n := count mod 32 in
  if n =? 0 then (s, None) else
  match o with
  | Rol => ROL sz x n s | Ror => ROR sz x n s | Rcl => RCL sz x n s | Rcr => RCR sz x n s
  | Shl => SHL sz x n s | Shr => SHR sz x n s | Sar => SAR sz x n s
  end.
Proof.
  assert (Z.land count 0x1f = count mod 32) as E by (apply (low_bits count 5); lia).
  destruct sz; cbn [GRP2 by_size]; unfold GRP2B, GRP2W, GRP2D; rewrite E; by destruct o.
Qed.

Lemma sim_grp2 o sz x count s c :
  instr_ok (Grp2 o sz x count) -> sim s c ->
  sim (fst (lazy_step (Grp2 o sz x count) s)) (fst (eager_grp2 o sz x count c)) /\
  snd (lazy_step (Grp2 o sz x count) s) = snd (eager_grp2 o sz x count c).
Proof.
  intros [Hx Hcount] Hs. cbn [lazy_step]. rewrite GRP2_dispatch. unfold eager_grp2. cbv zeta.
  assert (0 <= count mod 32 <= 31) as Hn by zlia. set (n := count mod 32) in *.
  destruct (Z.eqb_spec n 0) as [|Hne]; [done|]. clearbody n. assert (1 <= n <= 31) as Hn' by lia.
  pose proof Hs as (Hc & Hok & Hd). assert (c_cf c = nz (get_CF s)) as Hcf by by subst c.
  pose proof (ok_shift sz x n s) as ((? & ?) & (? & ?) & (? & ?)).
  pose proof (shift_aux sz x n Hx Hn' s) as (? & ? & ?).
  destruct o.
  - apply sim_rotate with s; [done|by apply ROL_rotate].
  - apply sim_rotate with s; [done|by apply ROR_rotate].
  - destruct (Z.eqb_spec (by_size (n mod 9) (n mod 17) n sz) 0) as [E|E].
    + destruct (RC_whole_turn sz x n Hx Hn' s) as [-> _]; done.
    + rewrite Hcf. apply sim_rotate with s; [done|by apply RCL_rotate].
  - destruct (Z.eqb_spec (by_size (n mod 9) (n mod 17) n sz) 0) as [E|E].
    + destruct (RC_whole_turn sz x n Hx Hn' s) as [_ ->]; done.
    + rewrite Hcf. apply sim_rotate with s; [done|by apply RCR_rotate].
  - eapply sim_shift; [by apply SHL_shift|done..].
  - eapply sim_shift; [by apply SHR_shift|done..].
  - eapply sim_shift; [by apply SAR_shift|done..].
Qed.

Lemma sim_step i s c :
  instr_ok i -> sim s c ->
  sim (fst (lazy_step i s)) (fst (eager_step i c)) /\ snd (lazy_step i s) = snd (eager_step i c).
Proof. destruct i; [apply sim_bin|apply sim_un|apply sim_grp2]. Qed.

(** A run: the saved values and the flags after each instruction. *)
Fixpoint lazy_run (p : list instr) (s : Cpu) : list (cond * option Z) :=
  match p with
  | [] => []
  | i :: p => let o := lazy_step i s in (lazy_flags (fst o), snd o) :: lazy_run p (fst o)
  end.
Fixpoint eager_run (p : list instr) (c : cond) : list (cond * option Z) :=
  match p with
  | [] => []
  | i :: p => let o := eager_step i c in o :: eager_run p (fst o)
  end.

(** C1.  Refinement: any program of ALU instructions, started in a state whose
    flags are [c], saves exactly the values of the eager machine and shows its
    six flags after every instruction. *)
Theorem lazy_flags_refine_eager p s c :
  Forall instr_ok p -> sim s c -> lazy_run p s = eager_run p c.
Proof.
  revert s c. induction p as [|i p IH]; intros s c Hp Hs; [done|].
  apply Forall_cons_1 in Hp as [Hi Hp]. destruct (sim_step i s c Hi Hs) as [Hs' Ho].
  cbn. rewrite (IH _ _ Hp Hs'). f_equal. destruct Hs' as [-> _]. rewrite Ho. by destruct (eager_step i c).
Qed.

Definition demo_program : list instr :=
  [Bin Add Byte 0xff 0x01; Bin Adc Word 0x7fff 0x0000; Un Inc Byte 0x7f; Grp2 Rcl Dword 0x80000000 1;
   Bin Cmp Dword 3 5; Grp2 Shl Byte 0x81 0x21; Un Neg Word 0x8000; Grp2 Rcr Byte 0x55 9].

Lemma lazy_flags_refine_eager_witness :
  lazy_run demo_program demo_cpu = eager_run demo_program (lazy_flags demo_cpu).
Proof.
  apply (lazy_flags_refine_eager demo_program demo_cpu (lazy_flags demo_cpu)).
  - repeat constructor; done.
  - repeat split.
Defined.

(** C2.  The condition codes after a compare decide the unsigned and signed
    orders of the operands: the sixteen [TFLG_*] conditions are the comparisons
    their names say. *)
Theorem compare_conditions sz x y s :
  fits sz x -> fits sz y ->
  let t := fst (CMP sz x y s) in
  let sx := sgn (width sz) x in let sy := sgn (width sz) y in
  (TFLG_Z t = (x =? y) /\ TFLG_NZ t = negb (x =? y)) /\
  (TFLG_B t = (x <? y) /\ TFLG_NB t = (y <=? x) /\ TFLG_BE t = (x <=? y) /\ TFLG_NBE t = (y <? x)) /\
  (TFLG_L t = (sx <? sy) /\ TFLG_NL t = (sy <=? sx) /\ TFLG_LE t = (sx <=? sy) /\ TFLG_NLE t = (sy <? sx)) /\
  (TFLG_O t = negb (in_signed_range (width sz) (sx - sy)) /\ TFLG_NO t = in_signed_range (width sz) (sx - sy)).
Proof.
  intros Hx Hy. cbv zeta. pose proof (CMP_correct sz x y Hx Hy s) as (_ & E & _).
  set (t := fst (CMP sz x y s)) in *. clearbody t.
  assert (4 < width sz) as Hw by by destruct sz.
  pose proof (signed_less _ Hw x y Hx Hy) as Hl. pose proof (wrap_sub_zero _ Hw x y Hx Hy) as Hz.
  pose proof (sgn_top _ Hw x Hx) as Tx. pose proof (sgn_top _ Hw y Hy) as Ty.
  assert ((sgn (width sz) x =? sgn (width sz) y) = (x =? y)) as Heq.
  { unfold sgn. rewrite !wrap_small by done. unfold fits in *. zbool. }
  unfold lazy_flags, sub_flags, result_flags, sub_result in E. rewrite !Z.sub_0_r in E.
  injection E as Ecf _ _ Ezf Esf Eof. rewrite Hz in Ezf.
  unfold TFLG_Z, TFLG_NZ, TFLG_B, TFLG_NB, TFLG_BE, TFLG_NBE, TFLG_L, TFLG_NL, TFLG_LE, TFLG_NLE, TFLG_O, TFLG_NO.
  rewrite Ecf, Ezf, Eof, Esf, negb_involutive. set (sf := Z.testbit _ _) in *. clearbody sf.
  set (ov := in_signed_range _ _) in *. clearbody ov. revert Hl Heq.
  destruct sf, ov; cbn [xorb negb Bool.eqb]; intros Hl Heq; (repeat split); revert Hl Heq; clear; zbool.
Qed.

Lemma compare_conditions_witness :
  let t := fst (CMP Byte 0x80 0x01 demo_cpu) in TFLG_B t = false /\ TFLG_L t = true.
Proof.
  destruct (compare_conditions Byte 0x80 0x01 demo_cpu) as (_ & (HB & _) & (HL & _) & _).
  - done.
  - done.
  - split; [exact HB|exact HL].
Defined.

(** Sums and differences of halves. *)
Lemma add_halves P xl yl xh yh :
  0 < P -> 0 <= xl < P -> 0 <= yl < P -> 0 <= xh < P -> 0 <= yh < P ->
  let c := b2z (P <=? xl + yl) in
  (xh + yh + c) mod P * P + (xl + yl) mod P = (xh * P + xl + (yh * P + yl)) mod (P * P) /\
  (P <=? xh + yh + c) = (P * P <=? xh * P + xl + (yh * P + yl)).
Proof.
  intros HP Hxl Hyl Hxh Hyh. cbv zeta.
  assert (xl + yl = (xl + yl) mod P + P * b2z (P <=? xl + yl)) as El.
  { destruct (Z.leb_spec P (xl + yl)); cbn [b2z].
    - rewrite <- (Z.mod_unique (xl + yl) P 1 (xl + yl - P)); lia.
    - rewrite Z.mod_small; lia. }
  pose proof (Z.mod_pos_bound (xl + yl) P HP) as Hl.
  set (c := b2z (P <=? xl + yl)) in *. set (l := (xl + yl) mod P) in *. clearbody c l.
  replace (xh * P + xl + (yh * P + yl)) with ((xh + yh + c) * P + l) by nia.
  rewrite Z.rem_mul_r, mod_join, div_join by lia. split; [ring|].
  destruct (Z.leb_spec P (xh + yh + c)), (Z.leb_spec (P * P) ((xh + yh + c) * P + l)); nia || done.
Qed.
Lemma sub_halves P xl yl xh yh :
  0 < P -> 0 <= xl < P -> 0 <= yl < P -> 0 <= xh < P -> 0 <= yh < P ->
  let c := b2z (xl - yl <? 0) in
  (xh - yh - c) mod P * P + (xl - yl) mod P = (xh * P + xl - (yh * P + yl)) mod (P * P) /\
  (xh - yh - c <? 0) = (xh * P + xl <? yh * P + yl).
Proof.
  intros HP Hxl Hyl Hxh Hyh. cbv zeta.
  assert (xl - yl = (xl - yl) mod P - P * b2z (xl - yl <? 0)) as El.
  { destruct (Z.ltb_spec (xl - yl) 0); cbn [b2z].
    - rewrite <- (Z.mod_unique (xl - yl) P (-1) (xl - yl + P)); lia.
    - rewrite Z.mod_small; lia. }
  pose proof (Z.mod_pos_bound (xl - yl) P HP) as Hl.
  set (c := b2z (xl - yl <? 0)) in *. set (l := (xl - yl) mod P) in *. clearbody c l.
  replace (xh * P + xl - (yh * P + yl)) with ((xh - yh - c) * P + l) by nia.
  rewrite Z.rem_mul_r, mod_join, div_join by lia. split; [ring|].
  destruct (Z.ltb_spec (xh - yh - c) 0), (Z.ltb_spec (xh * P + xl) (yh * P + yl)); nia || done.
Qed.

(** Multi-word arithmetic: adding the low halves with [ADD] and the high
    halves with [ADC] yields the double-width sum and its carry; [SUB] and [SBB]
    yield the double-width difference and its borrow. *)
Theorem wide_add_sub sz xl yl xh yh s :
  fits sz xl -> fits sz yl -> fits sz xh -> fits sz yh ->
  let w := width sz in
  let x := xh * 2 ^ w + xl in let y := yh * 2 ^ w + yl in
  let lo := ADD sz xl yl s in let hi := ADC sz xh yh (fst lo) in
  let lo' := SUB sz xl yl s in let hi' := SBB sz xh yh (fst lo') in
  (exists rl rh, snd lo = Some rl /\ snd hi = Some rh /\
     rh * 2 ^ w + rl = (x + y) mod 2 ^ (w + w) /\ TFLG_B (fst hi) = (2 ^ (w + w) <=? x + y)) /\
  (exists rl rh, snd lo' = Some rl /\ snd hi' = Some rh /\
     rh * 2 ^ w + rl = (x - y) mod 2 ^ (w + w) /\ TFLG_B (fst hi') = (x <? y)).
Proof.
  intros Hxl Hyl Hxh Hyh. cbv zeta. unfold TFLG_B.
  pose proof (ADD_correct sz xl yl Hxl Hyl s) as (Rl & Fl & _).
  pose proof (SUB_correct sz xl yl Hxl Hyl s) as (Rl' & Fl' & _).
  pose proof (f_equal c_cf Fl) as Cl. pose proof (f_equal c_cf Fl') as Cl'.
  cbn [lazy_flags c_cf add_flags sub_flags result_flags] in Cl, Cl'.
  pose proof (ADC_correct sz xh yh Hxh Hyh (fst (ADD sz xl yl s)) _ eq_refl) as (Rh & Fh & _).
  pose proof (SBB_correct sz xh yh Hxh Hyh (fst (SUB sz xl yl s)) _ eq_refl) as (Rh' & Fh' & _).
  apply (f_equal c_cf) in Fh, Fh'. cbn [lazy_flags c_cf add_flags sub_flags result_flags] in Fh, Fh'.
  rewrite Cl in Rh, Fh. rewrite Cl' in Rh', Fh'.
  split; eexists _, _; (split; [eassumption|split; [eassumption|]]);
    clear Rl Fl Rl' Fl' Rh Rh' Cl Cl'; [rewrite Fh|rewrite Fh'];
    unfold add_result, sub_result, wrap, fits in *; rewrite Z.pow_add_r by (destruct sz; done);
    (assert (0 < 2 ^ width sz) as HP by (destruct sz; done)); set (P := 2 ^ width sz) in *; clearbody P;
    rewrite ?Z.add_0_r, ?Z.sub_0_r.
  - apply add_halves; done.
  - apply sub_halves; done.
Qed.

Lemma wide_add_sub_witness :
  let lo := ADD Word 0xffff 0x0001 demo_cpu in
  exists rl rh, snd lo = Some rl /\ snd (ADC Word 0x1234 0x0001 (fst lo)) = Some rh /\ rh * 2 ^ 16 + rl = 0x12360000.
Proof.
  destruct (wide_add_sub Word 0xffff 0x0001 0x1234 0x0001 demo_cpu) as ((rl & rh & H1 & H2 & H3 & _) & _);
    [done..|].
  exists rl, rh. split; [exact H1|]. split; [exact H2|exact H3].
Defined.

(** [ROL] and [ROR] permute the bits of the operand cyclically by the count,
    [RCL] and [RCR] the operand's bits together with the carry, at every width
    and count. *)
Theorem rotations_permute sz x n s :
  fits sz x -> 1 <= n <= 31 -> lf_ok s ->
  let w := width sz in
  let m := carry_count sz n in
  let xc := with_carry w x (nz (get_CF s)) in
  (exists r, snd (ROL sz x n s) = Some r /\ forall i, 0 <= i < w -> Z.testbit r i = Z.testbit x ((i - n mod w) mod w)) /\
  (exists r, snd (ROR sz x n s) = Some r /\ forall i, 0 <= i < w -> Z.testbit r i = Z.testbit x ((i + n mod w) mod w)) /\
  (m <> 0 ->
   (exists r, snd (RCL sz x n s) = Some r /\ TFLG_B (fst (RCL sz x n s)) = Z.testbit xc ((w - m) mod (w + 1)) /\
      forall i, 0 <= i < w -> Z.testbit r i = Z.testbit xc ((i - m) mod (w + 1))) /\
   (exists r, snd (RCR sz x n s) = Some r /\ TFLG_B (fst (RCR sz x n s)) = Z.testbit xc ((w + m) mod (w + 1)) /\
      forall i, 0 <= i < w -> Z.testbit r i = Z.testbit xc ((i + m) mod (w + 1)))).
Proof.
  intros Hx Hn Hs. cbv zeta. assert (0 < width sz) as Hw by by destruct sz.
  assert (0 <= n mod width sz < width sz) as Hm by (apply Z.mod_pos_bound; lia).
  assert (0 <= carry_count sz n <= width sz) as Hc by (unfold carry_count; destruct sz; cbn; zlia).
  split; [|split].
  - eexists. split; [apply (ROL_rotate sz x n Hx Hn s Hs)|]. intros. by apply rot_left_bits.
  - eexists. split; [apply (ROR_rotate sz x n Hx Hn s Hs)|]. intros. by apply rot_right_bits.
  - intros Hne. split.
    + destruct (RCL_rotate sz x n Hx Hn s Hs Hne) as (Hr & _ & _ & Hcf & _).
      eexists. split; [exact Hr|]. split.
      * unfold TFLG_B. rewrite Hcf, Z.mod_small, with_carry_bits by (done || lia).
        destruct (Z.eqb_spec (width sz - carry_count sz n) (width sz)); [lia|done].
      * intros. apply rot_left_carry_bits; (done || lia).
    + destruct (RCR_rotate sz x n Hx Hn s Hs Hne) as (Hr & _ & _ & Hcf & _).
      eexists. split; [exact Hr|]. split.
      * unfold TFLG_B. rewrite Hcf, mod_wrap_pos, with_carry_bits by (done || lia).
        destruct (Z.eqb_spec (width sz + carry_count sz n - (width sz + 1)) (width sz)); [lia|f_equal; lia].
      * intros. apply rot_right_carry_bits; (done || lia).
Qed.

Lemma rotations_permute_witness :
  exists r, snd (ROL Byte 0x81 1 demo_cpu) = Some r /\ Z.testbit r 0 = true /\ Z.testbit r 7 = false.
Proof.
  destruct (rotations_permute Byte 0x81 1 demo_cpu ltac:(done) ltac:(done) ltac:(done)) as ((r & H & Hb) & _ & _).
  exists r. split; [exact H|]. split; [exact (Hb 0 ltac:(done))|exact (Hb 7 ltac:(done))].
Defined.

(** The overflow bit [FillFlags] writes after a right shift by one. *)
Lemma filled_shr_overflow sz x n r t :
  shifted t_SHR sz x n r t ->
  Z.testbit (snd (FillFlags t)) 11 = if Z.land n 0x1f =? 1 then 2 ^ (width sz - 1) <=? x else false.
Proof.
  intros (Ht & Hx & Hn & _). rewrite FillFlags_filled by (rewrite Ht; by destruct sz).
  unfold filled, FillFlags_arith, FillFlags_logic_shift. rewrite Ht.
  destruct sz; cbn [by_size t_SHR v1 width] in *;
    (match goal with |- Z.testbit (snd (_, ?f)) 11 = _ =>
       let H := fresh in eassert (holds f _) as H by holds_chain; cbn [snd]; rewrite (H 11) by done end);
    cbn [Z.eqb Pos.eqb]; by rewrite ?Hx, ?count_word, ?count_dword, Hn.
Qed.

(** The overflow flag of [SHR] by one: the getter and [FillFlags] read it
    differently exactly when the operand is the sign bit alone, where the getter
    reports no overflow although the shifted-out sign says there is one. *)
Theorem shr_overflow_readings sz x s :
  fits sz x ->
  let t := fst (SHR sz x 1 s) in
  TFLG_O t = (2 ^ (width sz - 1) <? x) /\ Z.testbit (snd (FillFlags t)) 11 = Z.testbit x (width sz - 1) /\
  (TFLG_O t <> Z.testbit (snd (FillFlags t)) 11 <-> x = 2 ^ (width sz - 1)).
Proof.
  intros Hx. cbv zeta. destruct (SHR_shift sz x 1 Hx ltac:(lia) s) as (_ & _ & _ & Ho & _).
  assert (Z.testbit (snd (FillFlags (fst (SHR sz x 1 s)))) 11 = (2 ^ (width sz - 1) <=? x)) as Hf
      by apply (filled_shr_overflow sz x 1 _ _ (SHR_state sz x 1 Hx ltac:(lia) s)).
  unfold TFLG_O. rewrite Ho, Hf, testbit_top by (destruct sz; done || exact Hx). cbn [Z.eqb Pos.eqb andb].
  split; [done|]. split; [done|]. destruct (Z.ltb_spec (2 ^ (width sz - 1)) x), (Z.leb_spec (2 ^ (width sz - 1)) x);
    split; intros; try lia; try done; congruence.
Qed.

Lemma shr_overflow_readings_witness :
  let t := fst (SHR Byte 0x80 1 demo_cpu) in TFLG_O t = false /\ Z.testbit (snd (FillFlags t)) 11 = true.
Proof.
  destruct (shr_overflow_readings Byte 0x80 demo_cpu ltac:(done)) as (H1 & H2 & _).
  split; [exact H1|exact H2].
Defined.
