(* ===== verification/MulDivProofs.v ===== *)
(** * Multiplication and division

    Products over the widened accumulator with their carry and overflow flags;
    quotient and remainder, the divide error, and the operands whose C++
    division is undefined. *)
From S2P Require Import Prelude.
From S2P Require Import Registers.
From S2P Require Import LazyFlags.
From S2P Require Import AluOps.
From S2P Require Import AluMulDiv.
From S2P Require Import AluFlags.
From S2P Require Import FlagProofs.
From S2P Require Import AluProofs.
#[local] Open Scope Z_scope.
#[local] Open Scope seq_scope.

Definition MUL := by_size MULB MULW MULD.
Definition IMUL := by_size IMULB IMULW IMULD.
Definition DIV := by_size DIVB DIVW DIVD.
Definition IDIV := by_size IDIVB IDIVW IDIVD.

(** The accumulator, its widened form, and the remainder register. *)
Definition acc (sz : size) (s : Cpu) : Z :=
  let r := cpu_regs s in by_size (reg_al r) (reg_ax r) (reg_eax r) sz.
Definition wide (sz : size) (s : Cpu) : Z :=
  let r := cpu_regs s in
  by_size (reg_ax r) (reg_dx r * 65536 + reg_ax r) (reg_edx r * 4294967296 + reg_eax r) sz.
Definition remainder (sz : size) (s : Cpu) : Z :=
  let r := cpu_regs s in by_size (reg_ah r) (reg_dx r) (reg_edx r) sz.
(** The double-word registers hold 32-bit values. *)
Definition regs_ok (s : Cpu) : Prop := fits Dword (reg_eax (cpu_regs s)) /\ fits Dword (reg_edx (cpu_regs s)).

(** ** Fields of the flag word after a product *)
Lemma land_high a b p : 0 <= a <= b -> 0 <= p < 2 ^ b -> Z.land p (2 ^ b - 2 ^ a) = p / 2 ^ a * 2 ^ a.
Proof.
  intros Hab Hp. rewrite <- Z.shiftr_div_pow2, <- Z.shiftl_mul_pow2 by lia.
  assert (2 ^ b - 2 ^ a = Z.shiftl (2 ^ (b - a) - 1) a) as ->.
  { rewrite Z.shiftl_mul_pow2, Z.mul_sub_distr_r, <- Z.pow_add_r by lia. f_equal; [f_equal|]; lia. }
  apply Z.bits_inj'. intros i Hi. rewrite Z.land_spec, !Z.shiftl_spec by lia.
  destruct (Z.le_gt_cases a i).
  - rewrite Z.shiftr_spec by lia. replace (i - a + a) with i by lia.
    replace (2 ^ (b - a) - 1) with (Z.ones (b - a)) by (rewrite Z.ones_equiv; lia).
    destruct (Z.le_gt_cases b i).
    + by rewrite (testbit_above b) by lia.
    + rewrite Z.ones_spec_low by lia. by rewrite andb_true_r.
  - by rewrite !(Z.testbit_neg_r _ (i - a)), andb_false_r by lia.
Qed.

Lemma mul_bound a b A B : 0 <= a < A -> 0 <= b < B -> 0 <= a * b <= (A - 1) * (B - 1).
Proof. nia. Qed.

(** After a multiplication the flags are in [reg_flags]. *)
Lemma CF_set b s : type (lflags s) = t_UNKNOWN -> nz (get_CF (set_CF_OF b s)) = b /\ nz (get_OF (set_CF_OF b s)) = b.
Proof.
  intros H. unfold get_CF, get_OF, set_CF_OF, set_flag, with_flags, with_regs. cbn [lflags]. rewrite H.
  unfold reg_flags. cbn [cpu_regs flags set_flags].
  rewrite !(nz_GETFLAG 0), !(nz_GETFLAG 11), !set_OF_bits, !set_CF_bits by lia. done.
Qed.

Lemma set_CF_OF_if (b : bool) t : (if b then set_CF_OF true t else set_CF_OF false t) = set_CF_OF b t.
Proof. by destruct b. Qed.

(** Read the registers of a state built by register assignments. *)
Ltac regs_view :=
  unfold acc, wide, remainder, store_flags, set_CF_OF, set_flag, with_flags, with_regs, set_type,
    set_al, set_ah, set_ax, set_dx, reg_al, reg_ah, reg_ax, reg_dx in *;
  cbn [cpu_regs lflags type reg_eax reg_edx set_eax set_edx set_flags by_size width flags] in *;
  autorewrite with regview.

(** The carry test of each width, and the product split over two registers. *)
Lemma high_byte p : 0 <= p < 65536 -> nz (Z.land p 0xff00) = (2 ^ 8 <=? p).
Proof.
  intros. change 0xff00 with (2 ^ 16 - 2 ^ 8). rewrite land_high by lia. change (2 ^ 8) with 256. unfold nz. zbool; zlia.
Qed.
Lemma high_nz w p : 0 <= w -> 0 <= p -> nz (p / 2 ^ w) = (2 ^ w <=? p).
Proof.
  intros. assert (0 < 2 ^ w) by (apply Z.pow_pos_nonneg; lia). unfold nz.
  destruct (Z.leb_spec (2 ^ w) p).
  - assert (0 < p / 2 ^ w) by (apply Z.div_str_pos; lia). zbool.
  - rewrite Z.div_small by lia. done.
Qed.
Lemma split_join w p : 0 <= w -> 0 <= p < 2 ^ w * 2 ^ w -> wrap w (Z.shiftr p w) * 2 ^ w + wrap w p = p.
Proof.
  intros Hw Hp. assert (0 < 2 ^ w) by (apply Z.pow_pos_nonneg; lia).
  rewrite Z.shiftr_div_pow2 by done. rewrite (wrap_small w (p / _)).
  - unfold wrap. rewrite (Z.div_mod p (2 ^ w)) at 3; lia.
  - split; [apply Z.div_pos; lia|apply Z.div_lt_upper_bound; lia].
Qed.
Lemma high_part w p : 0 <= w -> 0 <= p < 2 ^ w * 2 ^ w -> nz (wrap w (Z.shiftr p w)) = (2 ^ w <=? p).
Proof.
  intros Hw Hp. assert (0 < 2 ^ w) by (apply Z.pow_pos_nonneg; lia).
  rewrite Z.shiftr_div_pow2 by done. rewrite (wrap_small w (p / _)), high_nz by
    (first [lia|split; [apply Z.div_pos; lia|apply Z.div_lt_upper_bound; lia]]). done.
Qed.

(** [MUL] leaves the exact unsigned product in the widened accumulator
    ([AX], [DX:AX], [EDX:EAX]) and sets carry and overflow exactly when the upper
    half is used. *)
Lemma MUL_product sz x s :
  fits sz x -> lf_ok s -> regs_ok s ->
  wide sz (MUL sz x s) = acc sz s * x /\
  nz (get_CF (MUL sz x s)) = (2 ^ width sz <=? acc sz s * x) /\
  nz (get_OF (MUL sz x s)) = (2 ^ width sz <=? acc sz s * x).
Proof.
  intros Hx Hs [Ha Hd]. unfold fits in *.
  destruct sz; unfold MUL, by_size, MULB, MULW, MULD; cbv zeta;
  (match goal with |- context [FillFlagsNoCFOF ?t] =>
     destruct (FillFlagsNoCFOF_spec t Hs) as (f & E & _); rewrite E; clear E end);
  rewrite set_CF_OF_if;
  (match goal with |- context [set_CF_OF _ ?t] => rewrite !(proj1 (CF_set _ t eq_refl)), !(proj2 (CF_set _ t eq_refl)) end);
  regs_view.
  - set (a := byte_l (reg_eax (cpu_regs s))). assert (0 <= a < 256) by apply u8_range.
    pose proof (mul_bound a x 256 256). rewrite u16_small, high_byte by lia. done.
  - set (a := word_l (reg_eax (cpu_regs s))). assert (0 <= a < 65536) by apply u16_range.
    pose proof (mul_bound a x 65536 65536).
    rewrite (u32_small a), (u32_small x), u32_small by lia.
    rewrite (split_join 16), (high_part 16) by lia. done.
  - set (a := reg_eax (cpu_regs s)) in *. pose proof (mul_bound a x (2 ^ 32) (2 ^ 32)).
    unfold u64. rewrite (Z.mod_small a), (Z.mod_small x), Z.mod_small by lia.
    rewrite (split_join 32), (high_part 32) by lia. done.
Qed.

(** *** Signed products *)
Lemma wrap_sgn w v : 0 < w -> wrap w (sgn w v) = wrap w v.
Proof.
  intros Hw. unfold sgn. case_match; [apply wrap_wrap|]. unfold wrap.
  replace (v mod 2 ^ w - 2 ^ w) with (v mod 2 ^ w + (-1) * 2 ^ w) by ring.
  rewrite Z.mod_add by lia. apply Z.mod_mod. lia.
Qed.
Lemma sgn_wrap w v : sgn w (wrap w v) = sgn w v.
Proof. unfold sgn. by rewrite wrap_wrap. Qed.
Lemma sgn_in w v : 0 < w -> - 2 ^ (w - 1) <= v < 2 ^ (w - 1) -> sgn w v = v.
Proof.
  intros Hw Hv. unfold sgn, wrap. assert (2 ^ w = 2 * 2 ^ (w - 1)) by (rewrite <- Z.pow_succ_r by lia; f_equal; lia).
  destruct (Z.le_gt_cases 0 v).
  - rewrite Z.mod_small by lia. zbool.
  - rewrite <- (Z.mod_unique v (2 ^ w) (-1) (v + 2 ^ w)) by lia. zbool.
Qed.
Lemma split_wrap w p : 0 <= w -> wrap w (Z.shiftr p w) * 2 ^ w + wrap w p = wrap (w + w) p.
Proof.
  intros Hw. unfold wrap. rewrite Z.shiftr_div_pow2, Z.pow_add_r, Z.rem_mul_r by lia. ring.
Qed.
Lemma smul_bound a b M : 0 < M -> - M <= a < M -> - M <= b < M -> - (M * M) < a * b <= M * M.
Proof. nia. Qed.

(** The overflow tests of the byte and word forms. *)
Lemma high_sign8 p : - 16384 < p <= 16384 ->
  (Z.land (u16 p) 0xff80 =? 0xff80) || (Z.land (u16 p) 0xff80 =? 0) = in_signed_range 8 p.
Proof.
  intros Hp. change 0xff80 with (2 ^ 16 - 2 ^ 7). rewrite land_high by (lia || apply u16_range).
  unfold u16, in_signed_range. cbn. zbool; zlia.
Qed.
Lemma high_sign16 p : - 1073741824 < p <= 1073741824 ->
  (Z.land (u32 p) 0xffff8000 =? 0xffff8000) || (Z.land (u32 p) 0xffff8000 =? 0) = in_signed_range 16 p.
Proof.
  intros Hp. change 0xffff8000 with (2 ^ 32 - 2 ^ 15). rewrite land_high by (lia || apply u32_range).
  unfold u32, in_signed_range. cbn. zbool; zlia.
Qed.
Lemma high_sign32 p E A :
  E = wrap 32 (Z.shiftr p 32) -> A = wrap 32 p -> - 2 ^ 62 < p <= 2 ^ 62 ->
  ((E =? 0xffffffff) && nz (Z.land A 0x80000000)) || ((E =? 0) && (A <? 0x80000000)) = in_signed_range 32 p.
Proof.
  intros -> -> Hp. change 0x80000000 with (2 ^ 31). rewrite nz_land_pow2 by lia.
  rewrite (testbit_top 32) by (lia || by apply wrap_range). unfold wrap, in_signed_range.
  rewrite Z.shiftr_div_pow2 by lia. cbn. zbool; zlia.
Qed.

Lemma set_CF_OF_unless (b : bool) t :
  (if b then set_CF_OF false t else set_CF_OF true t) = set_CF_OF (negb b) t.
Proof. by destruct b. Qed.
Lemma set_CF_OF_unless2 (a b : bool) t :
  (if a then set_CF_OF false t else if b then set_CF_OF false t else set_CF_OF true t)
  = set_CF_OF (negb (a || b)) t.
Proof. by destruct a, b. Qed.

(** [IMUL] leaves the exact signed product in the widened accumulator and
    sets carry and overflow exactly when it does not fit the operand size. *)
Lemma IMUL_product sz x s :
  fits sz x -> lf_ok s -> regs_ok s ->
  let p := sgn (width sz) (acc sz s) * sgn (width sz) x in
  sgn (width sz + width sz) (wide sz (IMUL sz x s)) = p /\
  nz (get_CF (IMUL sz x s)) = negb (in_signed_range (width sz) p) /\
  nz (get_OF (IMUL sz x s)) = negb (in_signed_range (width sz) p).
Proof.
  intros Hx Hs [Ha Hd]. unfold fits in *.
  destruct sz; unfold IMUL, by_size, IMULB, IMULW, IMULD; cbv zeta;
  (match goal with |- context [FillFlagsNoCFOF ?t] =>
     destruct (FillFlagsNoCFOF_spec t Hs) as (f & E & _); rewrite E; clear E end);
  rewrite ?set_CF_OF_unless2, ?set_CF_OF_unless;
  (match goal with |- context [set_CF_OF _ ?t] => rewrite !(proj1 (CF_set _ t eq_refl)), !(proj2 (CF_set _ t eq_refl)) end);
  regs_view.
  - set (a := byte_l (reg_eax (cpu_regs s))). assert (0 <= a < 256) by apply u8_range.
    pose proof (smul_bound _ _ 128 ltac:(lia) (sgn_range 8 ltac:(lia) a ltac:(lia)) (sgn_range 8 ltac:(lia) x ltac:(lia))).
    change s8 with (sgn 8). rewrite high_sign8 by lia. rewrite u16_wrap, sgn_wrap.
    split; [|done]. apply (sgn_in 16); lia.
  - set (a := word_l (reg_eax (cpu_regs s))). assert (0 <= a < 65536) by apply u16_range.
    pose proof (smul_bound _ _ 32768 ltac:(lia) (sgn_range 16 ltac:(lia) a ltac:(lia)) (sgn_range 16 ltac:(lia) x ltac:(lia))).
    change s16 with (sgn 16). rewrite high_sign16 by lia. change u16 with (wrap 16). rewrite !wrap_sgn by lia.
    split; [|done]. rewrite (split_wrap 16), sgn_wrap by lia. apply (sgn_in 32); lia.
  - set (a := reg_eax (cpu_regs s)) in *.
    pose proof (smul_bound _ _ (2 ^ 31) ltac:(lia) (sgn_range 32 ltac:(lia) a ltac:(lia)) (sgn_range 32 ltac:(lia) x ltac:(lia))).
    change s32 with (sgn 32). change u32 with (wrap 32). rewrite !wrap_sgn by lia.
    split.
    + rewrite (split_wrap 32), sgn_wrap by lia. apply (sgn_in 64); lia.
    + erewrite high_sign32 by (reflexivity || lia). done.
Qed.

(** [EAX] is [0x8005], [EDX] is 7. *)
Definition demo_mul : Cpu := mkCpu (mkRegs 0x8005 0 7 0 0 0 0 0 2) (mkLF 0 0 0 t_UNKNOWN 0).

Lemma MUL_product_witness :
  wide Word (MUL Word 0x1000 demo_mul) = 0x8005000 /\ nz (get_CF (MUL Word 0x1000 demo_mul)) = true.
Proof.
  destruct (MUL_product Word 0x1000 demo_mul) as (H1 & H2 & _); [done|done|done|].
  split; [exact H1|exact H2].
Defined.

Lemma IMUL_product_witness :
  sgn 32 (wide Word (IMUL Word 0xffff demo_mul)) = 32763 /\ nz (get_OF (IMUL Word 0xffff demo_mul)) = false.
Proof.
  destruct (IMUL_product Word 0xffff demo_mul) as (H1 & _ & H3); [done|done|done|].
  split; [exact H1|exact H3].
Defined.
