(* ===== verification/DivProofs.v ===== *)
(** * Division

    Quotient and remainder over the widened accumulator, the divide error, and
    the operands for which the C++ division itself is undefined. *)
From S2P Require Import Prelude.
From S2P Require Import Registers.
From S2P Require Import LazyFlags.
From S2P Require Import AluOps.
From S2P Require Import AluMulDiv.
From S2P Require Import AluFlags.
From S2P Require Import FlagProofs.
From S2P Require Import AluProofs.
From S2P Require Import MulDivProofs.
#[local] Open Scope Z_scope.
#[local] Open Scope seq_scope.

(** The flags a division leaves: those of its quotient, no carry, no overflow. *)
Definition div_flags (s : Cpu) (signed : bool) (q : Z) : cond :=
  mkCond false (even_parity q) (Z.testbit (reg_flags s) 4) (q =? 0) (signed && (q <? 0)) false.

Lemma apply_flags_bits t r n :
  0 <= n ->
  Z.testbit (flags (ApplyTestFlags t r)) n =
  (Z.testbit (flags r) n && negb (Z.testbit (clear_mask t) n)) || Z.testbit (GetSetMask t) n.
Proof.
  intros. unfold ApplyTestFlags. cbn [flags set_flags]. by rewrite Z.lor_spec, Z.land_spec, Z.lnot_spec.
Qed.

Lemma division_flags signed q s :
  lazy_flags (set_cpu_test_flags_for_division signed q s) = div_flags s signed q.
Proof.
  rewrite lazy_unknown by done. unfold set_cpu_test_flags_for_division, reg_cond, reg_flags.
  cbn [cpu_regs with_regs set_type]. rewrite !apply_flags_bits by lia. cbn [clear_mask].
  unfold GetSetMask. cbn [has_carry has_odd_parity has_auxiliary is_zero is_sign_negative has_overflow].
  unfold div_flags, reg_flags, lower_8_has_odd_parity, is_negative. replace (Z.land q 0xff) with (u8 q)
    by (symmetry; apply (Z.land_ones q 8); lia). rewrite even_parity_u8.
  by destruct (even_parity q), (q =? 0), (signed && (q <? 0)), (Z.testbit (flags (cpu_regs s)) 4),
    (Z.testbit (flags (cpu_regs s)) 0), (Z.testbit (flags (cpu_regs s)) 2), (Z.testbit (flags (cpu_regs s)) 6),
    (Z.testbit (flags (cpu_regs s)) 7), (Z.testbit (flags (cpu_regs s)) 11).
Qed.

(** The registers after the flags of a division are applied. *)
Ltac div_view :=
  unfold set_cpu_test_flags_for_division, ApplyTestFlags; regs_view.

(** Bounds of quotient and remainder. *)
Lemma rem_fits n d M : 0 < d -> d <= M -> 0 <= n mod d < M.
Proof. intros. pose proof (Z.mod_pos_bound n d). lia. Qed.

Definition DIV_outcome (sz : size) (x : Z) (s : Cpu) : Prop :=
  let n := wide sz s in
  if (x =? 0) || (2 ^ width sz <=? n / x) then DIV sz x s = Exception 0
  else exists s', DIV sz x s = Done s' /\ acc sz s' = n / x /\ remainder sz s' = n mod x /\
         lazy_flags s' = div_flags s false (n / x).

Lemma low_ones v w : 0 <= w -> Z.land v (2 ^ w - 1) = wrap w v.
Proof. intros. unfold wrap. rewrite <- Z.land_ones by done. f_equal. rewrite Z.ones_equiv. lia. Qed.

(** The doubleword and quadword dividends. *)
Lemma dividend_word d a :
  0 <= d < 65536 -> 0 <= a < 65536 -> Z.lor (u32 (Z.shiftl d 16)) a = d * 65536 + a.
Proof.
  intros. change 65536 with (2 ^ 16). rewrite <- (lor_join d a 16) by lia. f_equal. apply u32_small.
  rewrite Z.shiftl_mul_pow2 by lia. lia.
Qed.
Lemma dividend_dword d a :
  0 <= d < 2 ^ 32 -> 0 <= a < 2 ^ 32 -> Z.lor (u64 (Z.shiftl d 32)) a = d * 4294967296 + a.
Proof.
  intros. change 4294967296 with (2 ^ 32). rewrite <- (lor_join d a 32) by lia. f_equal. apply Z.mod_small.
  rewrite Z.shiftl_mul_pow2 by lia. lia.
Qed.
(** A quotient survives the cast exactly when it fits. *)
Lemma cast_fits w q : 0 <= w -> 0 <= q -> negb (q =? wrap w q) = (2 ^ w <=? q).
Proof.
  intros Hw Hq. destruct (Z.leb_spec (2 ^ w) q).
  - pose proof (wrap_range w q). zbool.
  - rewrite wrap_small by lia. by rewrite Z.eqb_refl.
Qed.

(** [DIV]: a zero divisor or a quotient too wide for its register raises the
    divide error; otherwise quotient and remainder of the widened accumulator are
    stored, with the flags of the quotient. *)
Lemma DIV_spec sz x s : fits sz x -> regs_ok s -> DIV_outcome sz x s.
Proof.
  intros Hx [Ha Hd]. unfold fits in *.
  destruct sz; unfold DIV_outcome, DIV, by_size, DIVB, DIVW, DIVD; cbv zeta;
    (destruct (Z.eqb_spec x 0); [done|]); rewrite orb_false_l; cbn [width] in *.
  - change 0xff with (2 ^ 8 - 1). rewrite low_ones by lia.
    set (n0 := reg_ax (cpu_regs s)). assert (wide Byte s = n0) as -> by done.
    assert (0 <= n0 < 65536) by apply u16_range.
    assert (0 <= n0 / x) by (apply Z.div_pos; lia).
    destruct (Z.leb_spec (2 ^ 8) (n0 / x)), (Z.ltb_spec (2 ^ 8 - 1) (n0 / x)); try lia; [done|].
    rewrite (wrap_small 8 (n0 / x)) by lia. eexists. split; [reflexivity|]. rewrite division_flags.
    pose proof (rem_fits n0 x 256). div_view. rewrite !u8_small by (rewrite ?u8_small; lia). done.
  - rewrite dividend_word by apply u16_range.
    set (n0 := reg_dx (cpu_regs s) * 65536 + reg_ax (cpu_regs s)). assert (wide Word s = n0) as -> by done.
    assert (0 <= n0) by (pose proof (u16_range (reg_eax (cpu_regs s))); pose proof (u16_range (reg_edx (cpu_regs s)));
      subst n0; unfold reg_dx, reg_ax, word_l; unfold u16 in *; lia).
    assert (0 <= n0 / x) by (apply Z.div_pos; lia). clearbody n0.
    change 0xffff with (2 ^ 16 - 1). rewrite low_ones by lia.
    rewrite u16_wrap, wrap_wrap, (u32_small (wrap 16 _)), cast_fits
      by (pose proof (wrap_range 16 (n0 / x)); lia).
    destruct (Z.leb_spec (2 ^ 16) (n0 / x)); [done|].
    eexists. split; [reflexivity|]. rewrite division_flags, (wrap_small 16 (n0 / x)) by lia.
    pose proof (rem_fits n0 x 65536). div_view. rewrite !u16_small by (rewrite ?u16_small; lia). done.
  - rewrite dividend_dword by done.
    set (n0 := reg_edx (cpu_regs s) * 4294967296 + reg_eax (cpu_regs s)). assert (wide Dword s = n0) as -> by done.
    assert (0 <= n0) by (subst n0; lia).
    assert (0 <= n0 / x) by (apply Z.div_pos; lia). clearbody n0.
    change 0xffffffff with (2 ^ 32 - 1). rewrite low_ones by lia.
    rewrite u32_wrap, wrap_wrap, cast_fits by lia.
    destruct (Z.leb_spec (2 ^ 32) (n0 / x)); [done|].
    eexists. split; [reflexivity|]. rewrite division_flags, (wrap_small 32 (n0 / x)) by lia.
    pose proof (rem_fits n0 x 4294967296). div_view. rewrite !u32_small by (rewrite ?u32_small; lia). done.
Qed.

(** ** Signed division *)
Definition signed_wide (sz : size) (s : Cpu) : Z := sgn (width sz + width sz) (wide sz s).

Definition IDIV_outcome (sz : size) (x : Z) (s : Cpu) : Prop :=
  let w := width sz in
  let n := signed_wide sz s in
  let d := sgn w x in
  if d =? 0 then IDIV sz x s = Exception 0
  else if by_size false true true sz && (n =? - 2 ^ (w + w - 1)) && (d =? -1) then IDIV sz x s = Undefined
  else if negb (in_signed_range w (Z.quot n d)) then IDIV sz x s = Exception 0
  else exists s', IDIV sz x s = Done s' /\ sgn w (acc sz s') = Z.quot n d /\
         sgn w (remainder sz s') = Z.rem n d /\ lazy_flags s' = div_flags s true (Z.quot n d).

(** A signed quotient survives the cast exactly when it is in range. *)
Lemma scast_fits w q : 0 < w -> negb (q =? sgn w q) = negb (in_signed_range w q).
Proof.
  intros Hw. f_equal. unfold in_signed_range.
  destruct (decide (- 2 ^ (w - 1) <= q < 2 ^ (w - 1))) as [Hq|Hq].
  - rewrite sgn_in, Z.eqb_refl by done. zbool.
  - assert (- 2 ^ (w - 1) <= sgn w q < 2 ^ (w - 1)).
    { unfold sgn. pose proof (wrap_range w q).
      assert (2 ^ w = 2 * 2 ^ (w - 1)) by (rewrite <- Z.pow_succ_r by lia; f_equal; lia). zbool. }
    zbool.
Qed.

Lemma range_spec w v : in_signed_range w v = true <-> - 2 ^ (w - 1) <= v < 2 ^ (w - 1).
Proof. unfold in_signed_range. rewrite andb_true_iff, Z.leb_le, Z.ltb_lt. done. Qed.

Lemma rem_in w n d : 0 < w -> d <> 0 -> - 2 ^ (w - 1) <= d < 2 ^ (w - 1) -> sgn w (Z.rem n d) = Z.rem n d.
Proof. intros Hw Hd Hr. apply sgn_in; [done|]. pose proof (Z.rem_bound_abs n d Hd). lia. Qed.

(** C4.  [IDIV]: truncated signed quotient and remainder, or the divide error for
    a zero divisor or a quotient out of range.  In the word and doubleword forms
    the most negative dividend divided by -1 is evaluated in C++ before the range
    check, where its behaviour is undefined. *)
Lemma IDIV_spec sz x s : fits sz x -> regs_ok s -> IDIV_outcome sz x s.
Proof.
  intros Hx [Ha Hd]. unfold fits in *.
  pose proof (sgn_range (width sz) ltac:(destruct sz; done) x Hx) as Hr.
  destruct sz; unfold IDIV_outcome, IDIV, by_size, IDIVB, IDIVW, IDIVD; cbv zeta; cbn [width] in *;
    change s8 with (sgn 8); change s16 with (sgn 16); change s32 with (sgn 32); change s64 with (sgn 64);
    (match goal with |- context [sgn ?w x =? 0] => destruct (Z.eqb_spec (sgn w x) 0); [done|] end).
  - cbn [by_size andb].
    assert (signed_wide Byte s = sgn 16 (reg_ax (cpu_regs s))) as -> by done.
    set (n0 := sgn 16 (reg_ax (cpu_regs s))). set (d := sgn 8 x) in *. clearbody n0 d.
    change 0xff with (2 ^ 8 - 1). rewrite low_ones, sgn_wrap by lia. set (q := Z.quot n0 d).
    assert (- 2 ^ 7 <= sgn 8 q < 2 ^ 7) as Hq.
    { rewrite <- sgn_wrap. apply (sgn_range 8); [lia|]. by apply wrap_range. }
    rewrite (sgn_in 16 (sgn 8 q)), (scast_fits 8) by lia.
    destruct (in_signed_range 8 q) eqn:E; cbn [negb]; [|done]. apply range_spec in E.
    eexists. split; [reflexivity|]. rewrite division_flags, (sgn_in 8 q) by (cbn in *; lia).
    div_view. change u8 with (wrap 8). rewrite !sgn_wrap, ?rem_in by (done || cbn in *; lia).
    rewrite ?sgn_in by (cbn in *; lia). done.
  - cbn [by_size andb].
    assert (sgn 32 (Z.lor (Z.shiftl (reg_dx (cpu_regs s)) 16) (reg_ax (cpu_regs s))) = signed_wide Word s) as ->.
    { rewrite (lor_join _ _ 16) by (lia || apply u16_range). done. }
    set (n0 := signed_wide Word s). set (d := sgn 16 x) in *. clearbody n0 d.
    change (16 + 16 - 1) with 31. destruct ((n0 =? - 2 ^ 31) && (d =? -1)); [done|].
    rewrite (scast_fits 16) by lia.
    destruct (in_signed_range 16 (Z.quot n0 d)) eqn:E; cbn [negb]; [|done]. apply range_spec in E.
    eexists. split; [reflexivity|]. rewrite division_flags, (sgn_in 16 (Z.quot n0 d)) by (cbn in *; lia).
    div_view. change u16 with (wrap 16). rewrite !sgn_wrap, ?rem_in by (done || cbn in *; lia).
    rewrite ?sgn_in by (cbn in *; lia). done.
  - cbn [by_size andb].
    assert (sgn 64 (Z.lor (u64 (Z.shiftl (reg_edx (cpu_regs s)) 32)) (reg_eax (cpu_regs s))) = signed_wide Dword s)
      as -> by (by rewrite dividend_dword by done).
    set (n0 := signed_wide Dword s). set (d := sgn 32 x) in *. clearbody n0 d.
    change (32 + 32 - 1) with 63. destruct ((n0 =? - 2 ^ 63) && (d =? -1)); [done|].
    change 0xffffffff with (2 ^ 32 - 1). rewrite low_ones, sgn_wrap, (scast_fits 32) by lia.
    destruct (in_signed_range 32 (Z.quot n0 d)) eqn:E; cbn [negb]; [|done]. apply range_spec in E.
    eexists. split; [reflexivity|]. rewrite division_flags, (sgn_in 32 (Z.quot n0 d)) by (cbn in *; lia).
    div_view. change u32 with (wrap 32). rewrite !sgn_wrap, ?rem_in by (done || cbn in *; lia).
    rewrite ?sgn_in by (cbn in *; lia). done.
Qed.

Definition demo_div : Cpu := mkCpu (mkRegs 0x1234 0 1 0 0 0 0 0 2) (mkLF 0 0 0 t_UNKNOWN 0).

Lemma DIV_spec_witness :
  exists s', DIV Word 0x100 demo_div = Done s' /\ acc Word s' = 0x112 /\ remainder Word s' = 0x34.
Proof.
  destruct (DIV_spec Word 0x100 demo_div ltac:(done) ltac:(done)) as (s' & H1 & H2 & H3 & _).
  exists s'. split; [exact H1|]. split; [exact H2|exact H3].
Defined.

(** [DX:AX] is the most negative doubleword. *)
Definition demo_idiv : Cpu := mkCpu (mkRegs 0 0 0x8000 0 0 0 0 0 2) (mkLF 0 0 0 t_UNKNOWN 0).

Lemma IDIV_spec_witness : IDIV Word 0xffff demo_idiv = Undefined.
Proof. exact (IDIV_spec Word 0xffff demo_idiv ltac:(done) ltac:(done)). Defined.
