(* ===== verification/BcdProofs.v ===== *)
(** * Decimal adjustment

    [DAA]/[DAS] correct the binary sum or difference of two packed decimal
    bytes; [AAM] and [AAD] split a byte into digits and join them again. *)
From S2P Require Import Prelude.
From S2P Require Import Registers.
From S2P Require Import LazyFlags.
From S2P Require Import AluOps.
From S2P Require Import AluMulDiv.
From S2P Require Import AluFlags.
From S2P Require Import FlagProofs.
From S2P Require Import AluProofs.
From S2P Require Import MulDivProofs.
#[local] Open Scope Z_scope.
#[local] Open Scope seq_scope.

(** Two decimal digits in a byte. *)
Definition bcd (n : Z) : Z := n / 10 * 16 + n mod 10.

(** What [DAA] and [DAS] make of [al], the carry and the auxiliary flag. *)
Definition daa_al (a : Z) (cf af : bool) : Z * bool :=
  let hi := (0x99 <? a) || cf in
  let a1 := if hi then u8 (a + 0x60) else a in
  (if (9 <? Z.land a 0x0f) || af then u8 (a1 + 6) else a1, hi).
Definition das_al (a : Z) (cf af : bool) : Z * bool :=
  let hi := (0x99 <? a) || cf in
  let a1 := if hi then u8 (a - 0x60) else a in
  let adj := (9 <? Z.land a 0x0f) || af in
  (if adj then u8 (a1 - 6) else a1, if hi then true else adj && (a <=? 5)).

(** The carry once the flags are in [reg_flags]. *)
Lemma CF_stored s : type (lflags s) = t_UNKNOWN -> nz (get_CF s) = Z.testbit (flags (cpu_regs s)) 0.
Proof. intros H. unfold get_CF. rewrite H. by apply (nz_GETFLAG 0). Qed.

(** Reading [al], [ah] and the carry of a state built by assignments. *)
Lemma al_set_flag m b s : reg_al (cpu_regs (set_flag m b s)) = reg_al (cpu_regs s).
Proof. done. Qed.
Lemma al_set_type t s : reg_al (cpu_regs (set_type t s)) = reg_al (cpu_regs s).
Proof. done. Qed.
Lemma al_set_al v s : reg_al (cpu_regs (with_regs (set_al v) s)) = u8 v.
Proof. unfold with_regs, set_al, reg_al. cbn [cpu_regs reg_eax set_eax]. apply byte_l_set. Qed.
Lemma al_set_ah v s : reg_al (cpu_regs (with_regs (set_ah v) s)) = reg_al (cpu_regs s).
Proof. unfold with_regs, set_ah, reg_al. cbn [cpu_regs reg_eax set_eax]. apply byte_l_set_h. Qed.
Lemma ah_set_flag m b s : reg_ah (cpu_regs (set_flag m b s)) = reg_ah (cpu_regs s).
Proof. done. Qed.
Lemma ah_set_type t s : reg_ah (cpu_regs (set_type t s)) = reg_ah (cpu_regs s).
Proof. done. Qed.
Lemma ah_set_al v s : reg_ah (cpu_regs (with_regs (set_al v) s)) = reg_ah (cpu_regs s).
Proof. unfold with_regs, set_al, reg_ah. cbn [cpu_regs reg_eax set_eax]. apply byte_h_set_l. Qed.
Lemma ah_set_ah v s : reg_ah (cpu_regs (with_regs (set_ah v) s)) = u8 v.
Proof. unfold with_regs, set_ah, reg_ah. cbn [cpu_regs reg_eax set_eax]. apply byte_h_set. Qed.

Definition carry (s : Cpu) : bool := Z.testbit (flags (cpu_regs s)) 0.
Lemma carry_CF b s : carry (set_flag FLAG_CF b s) = b.
Proof. apply (set_CF_bits b (reg_flags s) 0). lia. Qed.
Lemma carry_PF b s : carry (set_flag FLAG_PF b s) = carry s.
Proof. apply (set_PF_bits b (reg_flags s) 0). lia. Qed.
Lemma carry_AF b s : carry (set_flag FLAG_AF b s) = carry s.
Proof. apply (set_AF_bits b (reg_flags s) 0). lia. Qed.
Lemma carry_ZF b s : carry (set_flag FLAG_ZF b s) = carry s.
Proof. apply (set_ZF_bits b (reg_flags s) 0). lia. Qed.
Lemma carry_SF b s : carry (set_flag FLAG_SF b s) = carry s.
Proof. apply (set_SF_bits b (reg_flags s) 0). lia. Qed.
Lemma carry_OF b s : carry (set_flag FLAG_OF b s) = carry s.
Proof. apply (set_OF_bits b (reg_flags s) 0). lia. Qed.
Lemma carry_set_type t s : carry (set_type t s) = carry s.
Proof. done. Qed.
Lemma carry_set_al v s : carry (with_regs (set_al v) s) = carry s.
Proof. done. Qed.
Create Rewrite HintDb bcdview.
#[export] Hint Rewrite al_set_flag al_set_type al_set_al al_set_ah ah_set_flag ah_set_type ah_set_al ah_set_ah
  carry_CF carry_PF carry_AF carry_ZF carry_SF carry_OF carry_set_type carry_set_al : bcdview.

(** The observable part of [DAA] and [DAS]. *)
Lemma DAA_view s :
  let d := daa_al (reg_al (cpu_regs s)) (nz (get_CF s)) (nz (get_AF s)) in
  reg_al (cpu_regs (DAA s)) = fst d /\ nz (get_CF (DAA s)) = snd d.
Proof.
  rewrite (CF_stored (DAA s)) by done. change (Z.testbit (flags (cpu_regs (DAA s))) 0) with (carry (DAA s)).
  unfold DAA, DAA_carry, daa_al.
  destruct ((9 <? _) || _), ((0x99 <? _) || _); cbv zeta; autorewrite with bcdview; cbn [fst snd];
    by rewrite ?u8_small by apply u8_range.
Qed.
Lemma DAS_view s :
  let d := das_al (reg_al (cpu_regs s)) (nz (get_CF s)) (nz (get_AF s)) in
  reg_al (cpu_regs (DAS s)) = fst d /\ nz (get_CF (DAS s)) = snd d.
Proof.
  rewrite (CF_stored (DAS s)) by done. change (Z.testbit (flags (cpu_regs (DAS s))) 0) with (carry (DAS s)).
  unfold DAS, das_al.
  destruct ((9 <? _) || _), ((0x99 <? _) || _); cbv zeta; autorewrite with bcdview; cbn [fst snd andb];
    by rewrite ?u8_small by apply u8_range.
Qed.

(** All pairs of packed decimal bytes. *)
Definition below100 (f : Z -> Z -> bool) : bool :=
  forallb (fun a => forallb (fun b => f (Z.of_nat a) (Z.of_nat b)) (seq 0 100)) (seq 0 100).
Lemma below100_spec f a b : below100 f = true -> 0 <= a < 100 -> 0 <= b < 100 -> f a b = true.
Proof.
  intros H Ha Hb. unfold below100 in H. rewrite forallb_forall in H.
  specialize (H (Z.to_nat a) ltac:(apply in_seq; lia)). rewrite forallb_forall in H.
  specialize (H (Z.to_nat b) ltac:(apply in_seq; lia)). by rewrite !Z2Nat.id in H by lia.
Qed.

Definition daa_ok (a b : Z) : bool :=
  let c := add_flags 8 (bcd a) (bcd b) 0 in
  let d := daa_al (add_result 8 (bcd a) (bcd b) 0) (c_cf c) (c_af c) in
  (fst d =? bcd ((a + b) mod 100)) && Bool.eqb (snd d) (100 <=? a + b).
Definition das_ok (a b : Z) : bool :=
  let c := sub_flags 8 (bcd a) (bcd b) 0 in
  let d := das_al (sub_result 8 (bcd a) (bcd b) 0) (c_cf c) (c_af c) in
  (fst d =? bcd ((a - b) mod 100)) && Bool.eqb (snd d) (a <? b).
Lemma daa_all : below100 daa_ok = true.
Proof. vm_compute. reflexivity. Qed.
Lemma das_all : below100 das_ok = true.
Proof. vm_compute. reflexivity. Qed.

Lemma bcd_fits n : 0 <= n < 100 -> fits Byte (bcd n).
Proof. intros. unfold fits, bcd. cbn. zlia. Qed.

(** ** The theorems *)

(** Save an instruction's result in [AL]. *)
Definition into_al (o : outcome) : Cpu :=
  match snd o with Some r => with_regs (set_al r) (fst o) | None => fst o end.

Lemma into_al_view s r c o :
  agrees s (Some r) c o -> 0 <= r < 256 ->
  reg_al (cpu_regs (into_al o)) = r /\ nz (get_CF (into_al o)) = c_cf c /\ nz (get_AF (into_al o)) = c_af c.
Proof.
  intros (Hr & Hc & _) Hb. unfold into_al. rewrite Hr. subst c.
  split; [|done]. unfold with_regs, set_al, reg_al. cbn [cpu_regs reg_eax set_eax].
  rewrite byte_l_set. by apply u8_small.
Qed.

(** Decimal arithmetic: on packed decimal bytes, an addition followed by
    [DAA] leaves the packed decimal sum modulo 100 in [AL] and the decimal carry
    in [CF]; a subtraction followed by [DAS] leaves the difference and the
    decimal borrow. *)
Theorem decimal_add_sub a b s :
  0 <= a < 100 -> 0 <= b < 100 ->
  let sum := DAA (into_al (ADDB (bcd a) (bcd b) s)) in
  let dif := DAS (into_al (SUBB (bcd a) (bcd b) s)) in
  reg_al (cpu_regs sum) = bcd ((a + b) mod 100) /\ nz (get_CF sum) = (100 <=? a + b) /\
  reg_al (cpu_regs dif) = bcd ((a - b) mod 100) /\ nz (get_CF dif) = (a <? b).
Proof.
  intros Ha Hb. cbv zeta. pose proof (bcd_fits a Ha) as Fa. pose proof (bcd_fits b Hb) as Fb.
  pose proof (ADD_correct Byte _ _ Fa Fb s) as Add. pose proof (SUB_correct Byte _ _ Fa Fb s) as Sub.
  apply into_al_view in Add as (Aal & Acf & Aaf); [|by apply (wrap_range 8)].
  apply into_al_view in Sub as (Sal & Scf & Saf); [|by apply (wrap_range 8)].
  cbn [ADD SUB by_size width] in *.
  destruct (DAA_view (into_al (ADDB (bcd a) (bcd b) s))) as [D1 D2].
  destruct (DAS_view (into_al (SUBB (bcd a) (bcd b) s))) as [E1 E2].
  pose proof (below100_spec _ a b daa_all Ha Hb) as Ka. pose proof (below100_spec _ a b das_all Ha Hb) as Ks.
  unfold daa_ok, das_ok in Ka, Ks. apply andb_true_iff in Ka as [K1 K2], Ks as [K3 K4].
  rewrite Aal, Acf, Aaf in D1, D2. rewrite Sal, Scf, Saf in E1, E2.
  apply Z.eqb_eq in K1, K3. apply eqb_prop in K2, K4. by rewrite D1, D2, E1, E2.
Qed.

Lemma decimal_add_sub_witness :
  let s := mkCpu (mkRegs 0 0 0 0 0 0 0 0 2) (mkLF 0 0 0 t_UNKNOWN 0) in
  reg_al (cpu_regs (DAA (into_al (ADDB 0x58 0x67 s)))) = 0x25 /\
  reg_al (cpu_regs (DAS (into_al (SUBB 0x58 0x67 s)))) = 0x91.
Proof.
  cbv zeta.
  destruct (decimal_add_sub 58 67 (mkCpu (mkRegs 0 0 0 0 0 0 0 0 2) (mkLF 0 0 0 t_UNKNOWN 0))
              ltac:(lia) ltac:(lia)) as (H & _ & H' & _).
  split; [exact H|exact H'].
Defined.

(** [AAM n] splits [AL] into quotient and remainder by [n], [AAD n] joins
    them again: the pair is the identity on [AL] and clears [AH].  [AAM 0] raises
    the divide error and leaves the state unchanged. *)
Theorem aam_aad_roundtrip n s :
  0 <= n < 256 ->
  if n =? 0 then AAM n s = Exception 0
  else exists s1, AAM n s = Done s1 /\
         reg_ah (cpu_regs s1) = reg_al (cpu_regs s) / n /\ reg_al (cpu_regs s1) = reg_al (cpu_regs s) mod n /\
         reg_al (cpu_regs (AAD n s1)) = reg_al (cpu_regs s) /\ reg_ah (cpu_regs (AAD n s1)) = 0.
Proof.
  intros Hn. unfold AAM. destruct (Z.eqb_spec n 0) as [|Hne]; [done|]. cbn [negb].
  eexists. split; [reflexivity|]. pose proof (u8_range (reg_eax (cpu_regs s))) as Hr.
  unfold AAD. set (a := reg_al (cpu_regs s)). assert (0 <= a < 256) as Ha by exact Hr.
  assert (a = n * (a / n) + a mod n) as E by (apply Z.div_mod; lia).
  pose proof (Z.mod_pos_bound a n ltac:(lia)) as Hm.
  assert (0 <= a / n) by (apply Z.div_pos; lia). assert (a / n < 256) by (apply Z.div_lt_upper_bound; nia).
  autorewrite with bcdview. change (reg_al (cpu_regs s)) with a. clearbody a.
  rewrite (u8_small (a / n)), (u8_small (a mod n)) by lia.
  repeat split. rewrite (u16_small (a / n * n)) by nia. rewrite (u16_small (_ + _)) by nia.
  rewrite !u8_small by (rewrite ?u8_small; lia). lia.
Qed.

Lemma aam_aad_roundtrip_witness :
  let s := mkCpu (mkRegs 97 0 0 0 0 0 0 0 2) (mkLF 0 0 0 t_UNKNOWN 0) in
  exists s1, AAM 10 s = Done s1 /\ reg_ah (cpu_regs s1) = 9 /\ reg_al (cpu_regs (AAD 10 s1)) = 97.
Proof.
  destruct (aam_aad_roundtrip 10 (mkCpu (mkRegs 97 0 0 0 0 0 0 0 2) (mkLF 0 0 0 t_UNKNOWN 0)) ltac:(lia))
    as (s1 & H1 & H2 & _ & H3 & _).
  exists s1. split; [exact H1|]. split; [exact H2|exact H3].
Defined.
