(* ===== verification/GuestMemory.v ===== *)
(** * Guest memory access ([hardware/memory.cpp], [cpu/paging.h])

    The routines that compose byte accesses: unaligned words, doublewords and
    quadwords, block copies and strings.  What a byte access does (TLB, page
    handlers, breakpoints) is behind the interface [ByteMemory]; a checked access
    may fault instead. *)
From S2P Require Import Prelude.
#[local] Open Scope Z_scope.
#[local] Open Scope seq_scope.

(** ** The interface *)

(** [mem_readb_inline] and [mem_writeb_inline], with [mem_readb_checked] and
    [mem_writeb_checked], which report a page fault.  [PhysPt] is a [uint32_t]. *)
Class ByteMemory (M : Type) := {
  readb : Z -> M -> Z;
  writeb : Z -> Z -> M -> M;
  faults : Z -> M -> bool }.

(** Plain memory: an access sees the last write to its address. *)
Class ByteMemoryLaws (M : Type) `{ByteMemory M} := {
  readb_range : forall a m, 0 <= readb a m < 256;
  readb_writeb_eq : forall a v m, readb a (writeb a v m) = u8 v;
  readb_writeb_ne : forall a b v m, a <> b -> readb b (writeb a v m) = readb b m;
  faults_writeb : forall a b v m, faults b (writeb a v m) = faults b m }.

(** The address of the byte at an offset, and the pointer after [++]. *)
Definition PhysPt (a : Z) : Z := u32 a.

Section Access.
Context {M : Type} `{ByteMemory M}.
Implicit Types (m : M).

(** ** Unaligned accesses *)
Definition mem_unalignedreadw (address : Z) m : Z :=
  Z.lor (readb (PhysPt address) m) (Z.shiftl (readb (PhysPt (address + 1)) m) 8).
Definition mem_unalignedreadd (address : Z) m : Z :=
  Z.lor (Z.lor (Z.lor (readb (PhysPt address) m) (Z.shiftl (readb (PhysPt (address + 1)) m) 8))
               (Z.shiftl (readb (PhysPt (address + 2)) m) 16))
        (Z.shiftl (readb (PhysPt (address + 3)) m) 24).
(** The loop of the quadword read, from byte [i]. *)
Fixpoint readq_loop (n : nat) (i address ret : Z) m : Z :=
  match n with
  | O => ret
  | S n => readq_loop n (i + 1) address (Z.lor ret (Z.shiftl (readb (PhysPt (address + i)) m) (i * 8))) m
  end.
Definition mem_unalignedreadq (address : Z) m : Z := readq_loop 8 0 address 0 m.

Definition mem_unalignedwritew (address val : Z) m : M :=
  let m := writeb (PhysPt address) (u8 val) m in
  let val := Z.shiftr val 8 in
  writeb (PhysPt (address + 1)) (u8 val) m.
Definition mem_unalignedwrited (address val : Z) m : M :=
  let m := writeb (PhysPt address) (u8 val) m in
  let val := Z.shiftr val 8 in
  let m := writeb (PhysPt (address + 1)) (u8 val) m in
  let val := Z.shiftr val 8 in
  let m := writeb (PhysPt (address + 2)) (u8 val) m in
  let val := Z.shiftr val 8 in
  writeb (PhysPt (address + 3)) (u8 val) m.
Fixpoint writeq_loop (n : nat) (i address val : Z) m : M :=
  match n with
  | O => m
  | S n => writeq_loop n (i + 1) address (Z.shiftr val 8) (writeb (PhysPt (address + i)) (u8 val) m)
  end.
Definition mem_unalignedwriteq (address val : Z) m : M := writeq_loop 8 0 address val m.

(** ** Checked accesses: [None] is the early [return true] of a page fault, which
    leaves the bytes already written. *)
Definition mem_readb_checked (address : Z) m : option Z :=
  if faults address m then None else Some (readb address m).
Definition mem_writeb_checked (address val : Z) m : M * bool :=
  if faults address m then (m, true) else (writeb address val m, false).

Definition mem_unalignedreadw_checked (address : Z) m : option Z :=
  match mem_readb_checked (PhysPt (address + 0)) m with
  | None => None
  | Some rval1 =>
      match mem_readb_checked (PhysPt (address + 1)) m with
      | None => None
      | Some rval2 => Some (u16 (Z.lor rval1 (Z.shiftl rval2 8)))
      end
  end.
Definition mem_unalignedreadd_checked (address : Z) m : option Z :=
  match mem_readb_checked (PhysPt (address + 0)) m with
  | None => None
  | Some rval1 =>
      match mem_readb_checked (PhysPt (address + 1)) m with
      | None => None
      | Some rval2 =>
          match mem_readb_checked (PhysPt (address + 2)) m with
          | None => None
          | Some rval3 =>
              match mem_readb_checked (PhysPt (address + 3)) m with
              | None => None
              | Some rval4 =>
                  Some (u32 (Z.lor (Z.lor (Z.lor rval1 (Z.shiftl rval2 8)) (Z.shiftl rval3 16)) (Z.shiftl rval4 24)))
              end
          end
      end
  end.
(** The first loop collects the bytes, the second joins them. *)
Fixpoint readq_checked_bytes (n : nat) (i address : Z) m : option (list Z) :=
  match n with
  | O => Some []
  | S n =>
      match mem_readb_checked (PhysPt (address + i)) m with
      | None => None
      | Some b => match readq_checked_bytes n (i + 1) address m with
                  | None => None
                  | Some bs => Some (b :: bs)
                  end
      end
  end.
Fixpoint join_bytes (rval : list Z) (i val : Z) : Z :=
  match rval with
  | [] => val
  | b :: rval => join_bytes rval (i + 1) (Z.lor val (Z.shiftl b (i * 8)))
  end.
Definition mem_unalignedreadq_checked (address : Z) m : option Z :=
  match readq_checked_bytes 8 0 address m with
  | None => None
  | Some rval => Some (join_bytes rval 0 0)
  end.

Definition mem_unalignedwritew_checked (address val : Z) m : M * bool :=
  let '(m, f) := mem_writeb_checked (PhysPt (address + 0)) (u8 (Z.land val 0xff)) m in
  if f then (m, true) else
  let val := Z.shiftr val 8 in
  let '(m, f) := mem_writeb_checked (PhysPt (address + 1)) (u8 (Z.land val 0xff)) m in
  if f then (m, true) else (m, false).
Definition mem_unalignedwrited_checked (address val : Z) m : M * bool :=
  let '(m, f) := mem_writeb_checked (PhysPt (address + 0)) (u8 (Z.land val 0xff)) m in
  if f then (m, true) else
  let val := Z.shiftr val 8 in
  let '(m, f) := mem_writeb_checked (PhysPt (address + 1)) (u8 (Z.land val 0xff)) m in
  if f then (m, true) else
  let val := Z.shiftr val 8 in
  let '(m, f) := mem_writeb_checked (PhysPt (address + 2)) (u8 (Z.land val 0xff)) m in
  if f then (m, true) else
  let val := Z.shiftr val 8 in
  let '(m, f) := mem_writeb_checked (PhysPt (address + 3)) (u8 (Z.land val 0xff)) m in
  if f then (m, true) else (m, false).
Fixpoint writeq_checked_loop (n : nat) (i address val : Z) m : M * bool :=
  match n with
  | O => (m, false)
  | S n =>
      let '(m, f) := mem_writeb_checked (PhysPt (address + i)) (u8 (Z.land val 0xff)) m in
      if f then (m, true) else writeq_checked_loop n (i + 1) address (Z.shiftr val 8) m
  end.
Definition mem_unalignedwriteq_checked (address val : Z) m : M * bool := writeq_checked_loop 8 0 address val m.

(** ** Blocks and strings *)
Fixpoint mem_memcpy (dest src : Z) (size : nat) m : M :=
  match size with
  | O => m
  | S size => mem_memcpy (PhysPt (dest + 1)) (PhysPt (src + 1)) size (writeb dest (readb src m) m)
  end.
Definition MEM_BlockCopy (dest src : Z) (size : nat) m : M := mem_memcpy dest src size m.

Fixpoint MEM_BlockRead (pt : Z) (size : nat) m : list Z :=
  match size with
  | O => []
  | S size => readb pt m :: MEM_BlockRead (PhysPt (pt + 1)) size m
  end.
(** [data] holds at least the [size] bytes that are written. *)
Fixpoint MEM_BlockWrite (pt : Z) (data : list Z) m : M :=
  match data with
  | [] => m
  | b :: data => MEM_BlockWrite (PhysPt (pt + 1)) data (writeb pt b m)
  end.

(** The characters before the first zero byte within [size]; the host string is
    zero-terminated. *)
Fixpoint MEM_StrCopy (pt : Z) (size : nat) m : list Z :=
  match size with
  | O => []
  | S size =>
      let r := readb pt m in
      if r =? 0 then [] else r :: MEM_StrCopy (PhysPt (pt + 1)) size m
  end.

(** [mem_strlen] gives up after 1024 bytes and returns 0. *)
Fixpoint strlen_loop (n : nat) (x pt : Z) m : Z :=
  match n with
  | O => 0
  | S n => if readb (PhysPt (pt + x)) m =? 0 then x else strlen_loop n (x + 1) pt m
  end.
Definition mem_strlen (pt : Z) m : Z := strlen_loop 1024 0 pt m.

(** The copy loop ends at the terminator; [fuel] bounds the length. *)
Fixpoint mem_strcpy (fuel : nat) (dest src : Z) m : exec M :=
  match fuel with
  | O => err OutOfFuel
  | S fuel =>
      let r := readb src m in
      if r =? 0 then ok (writeb dest 0 m)
      else mem_strcpy fuel (PhysPt (dest + 1)) (PhysPt (src + 1)) (writeb dest r m)
  end.
End Access.

(** ** Flat memory, an implementation *)
Definition Flat : Type := Z -> Z.
#[export] Instance flat_memory : ByteMemory Flat := {
  readb a m := u8 (m a);
  writeb a v m := fun b => if b =? a then v else m b;
  faults _ _ := false }.
#[export] Instance flat_memory_laws : ByteMemoryLaws Flat.
Proof.
  split; cbn; intros.
  - apply u8_range.
  - by rewrite Z.eqb_refl.
  - destruct (Z.eqb_spec b a); [congruence|done].
  - done.
Qed.
