(* ===== verification/GuestMemoryProofs.v ===== *)
(** * Guest memory access is little-endian and local

    Round trips of the unaligned accesses, the partial effect of a checked write
    that faults, and block copies. *)
From S2P Require Import Prelude.
From S2P Require Import GuestMemory.
#[local] Open Scope Z_scope.

Section Proofs.
Context {M : Type} `{ByteMemoryLaws M}.
Implicit Types (m : M).

(** ** Reference accesses: [n] bytes, least significant first *)
Fixpoint le_read (n : nat) (a : Z) m : Z :=
  match n with
  | O => 0
  | S n => readb (PhysPt a) m + 256 * le_read n (a + 1) m
  end.
Fixpoint le_write (n : nat) (a v : Z) m : M :=
  match n with
  | O => m
  | S n => le_write n (a + 1) (v / 256) (writeb (PhysPt a) (u8 v) m)
  end.
Definition touches (n : nat) (a b : Z) : Prop := exists i, 0 <= i < Z.of_nat n /\ b = PhysPt (a + i).

Lemma le_read_range n a m : 0 <= le_read n a m < 256 ^ Z.of_nat n.
Proof using Type*.
  revert a. induction n as [|n IH]; intros a; [done|].
  cbn [le_read]. rewrite Nat2Z.inj_succ, Z.pow_succ_r by lia.
  pose proof (readb_range (PhysPt a) m). specialize (IH (a + 1)). lia.
Qed.

Lemma le_write_ne n a v b m : ~ touches n a b -> readb b (le_write n a v m) = readb b m.
Proof using Type*.
  revert a v m. induction n as [|n IH]; intros a v m Hb; [done|]. cbn [le_write].
  rewrite IH.
  - apply readb_writeb_ne. intros <-. apply Hb. exists 0. rewrite Z.add_0_r. split; [lia|done].
  - intros (i & Hi & ->). apply Hb. exists (i + 1). split; [lia|f_equal; lia].
Qed.

Lemma le_write_faults n a v b m : faults b (le_write n a v m) = faults b m.
Proof using Type*.
  revert a v m. induction n as [|n IH]; intros; [done|]. cbn [le_write]. by rewrite IH, faults_writeb.
Qed.

(** Offsets below [2^32] are distinct addresses. *)
Lemma PhysPt_ne a i : 0 < i < 4294967296 -> PhysPt (a + i) <> PhysPt a.
Proof using.
  intros Hi E. unfold PhysPt, u32 in E. pose proof (Z.div_mod (a + i) 4294967296).
  pose proof (Z.div_mod a 4294967296). rewrite E in *. nia.
Qed.

Lemma le_roundtrip n a v m :
  Z.of_nat n <= 4294967296 -> le_read n a (le_write n a v m) = v mod 256 ^ Z.of_nat n.
Proof using Type*.
  revert a v m. induction n as [|n IH]; intros a v m Hn; [by rewrite Z.mod_1_r|].
  cbn [le_read le_write]. rewrite IH by lia. rewrite le_write_ne, readb_writeb_eq.
  - rewrite Nat2Z.inj_succ, Z.pow_succ_r, Z.rem_mul_r by lia. unfold u8. rewrite Z.mod_mod by lia. lia.
  - intros (i & Hi & E). apply (PhysPt_ne a (i + 1)); [lia|]. rewrite E. f_equal. lia.
Qed.

(** ** The accesses of the source are the reference ones *)
Lemma lor_byte r b i : 0 <= i -> 0 <= r < 2 ^ i -> Z.lor r (Z.shiftl b i) = r + b * 2 ^ i.
Proof using. intros. rewrite Z.lor_comm, lor_join by done. lia. Qed.

Lemma readq_loop_le n i a r m :
  0 <= i -> 0 <= r < 2 ^ (i * 8) -> readq_loop n i a r m = r + 2 ^ (i * 8) * le_read n (a + i) m.
Proof using Type*.
  revert i r. induction n as [|n IH]; intros i r Hi Hr; cbn [readq_loop le_read]; [lia|].
  pose proof (readb_range (PhysPt (a + i)) m).
  assert (2 ^ ((i + 1) * 8) = 256 * 2 ^ (i * 8)) as E
      by (replace ((i + 1) * 8) with (8 + i * 8) by lia; rewrite Z.pow_add_r by lia; done).
  rewrite lor_byte by lia. rewrite IH by nia. rewrite E, Z.add_assoc. ring.
Qed.

Lemma readw_le a m : mem_unalignedreadw a m = le_read 2 a m.
Proof using Type*.
  unfold mem_unalignedreadw. cbn [le_read]. pose proof (readb_range (PhysPt a) m).
  rewrite lor_byte by lia. lia.
Qed.
Lemma readd_le a m : mem_unalignedreadd a m = le_read 4 a m.
Proof using Type*.
  pose proof (readq_loop_le 4 0 a 0 m) as E. rewrite Z.add_0_r in E.
  etransitivity; [|rewrite <- (Z.mul_1_l (le_read 4 a m)), <- (Z.add_0_l (1 * _)); apply E; lia].
  unfold mem_unalignedreadd. cbn [readq_loop]. by rewrite Z.lor_0_l, Z.shiftl_0_r, Z.add_0_r.
Qed.
Lemma readq_le a m : mem_unalignedreadq a m = le_read 8 a m.
Proof using Type*. unfold mem_unalignedreadq. rewrite readq_loop_le by lia. rewrite Z.add_0_r. lia. Qed.

Lemma shr8 v : Z.shiftr v 8 = v / 256.
Proof using. by rewrite Z.shiftr_div_pow2. Qed.

Lemma writeq_loop_le n i a v m : writeq_loop n i a v m = le_write n (a + i) v m.
Proof using.
  revert i v m. induction n as [|n IH]; intros; [done|]. cbn [writeq_loop le_write].
  rewrite IH, shr8. by rewrite Z.add_assoc.
Qed.
Lemma writew_le a v m : mem_unalignedwritew a v m = le_write 2 a v m.
Proof using. unfold mem_unalignedwritew. cbn [le_write]. by rewrite shr8. Qed.
Lemma writed_le a v m : mem_unalignedwrited a v m = le_write 4 a v m.
Proof using.
  unfold mem_unalignedwrited. cbn [le_write]. rewrite !shr8. by rewrite <- !Z.add_assoc.
Qed.
Lemma writeq_le a v m : mem_unalignedwriteq a v m = le_write 8 a v m.
Proof using. unfold mem_unalignedwriteq. by rewrite writeq_loop_le, Z.add_0_r. Qed.

(** ** Checked writes *)
Lemma low_byte v : u8 (Z.land v 0xff) = u8 v.
Proof using. change 0xff with (Z.ones 8). rewrite Z.land_ones by lia. apply Z.mod_mod. lia. Qed.

Lemma checked_loop k n i a v m :
  (k <= n)%nat -> (forall j, 0 <= j < Z.of_nat k -> faults (PhysPt (a + i + j)) m = false) ->
  writeq_checked_loop n i a v m =
  if decide (k = n) then (le_write k (a + i) v m, false)
  else if faults (PhysPt (a + i + Z.of_nat k)) m then (le_write k (a + i) v m, true)
  else writeq_checked_loop n i a v m.
Proof using Type*.
  revert n i v m. induction k as [|k IH]; intros n i v m Hk Hf.
  - rewrite Z.add_0_r. destruct n as [|n]; [done|]. cbn [decide writeq_checked_loop le_write].
    unfold mem_writeb_checked. rewrite decide_False by done. by destruct (faults _ m).
  - destruct n as [|n]; [lia|]. cbn [writeq_checked_loop le_write]. unfold mem_writeb_checked.
    pose proof (Hf 0 ltac:(lia)) as Hf0. rewrite Z.add_0_r in Hf0. rewrite Hf0, low_byte, shr8.
    rewrite (IH n (i + 1) (v / 256)) at 1; [|lia|].
    + rewrite Z.add_assoc. rewrite faults_writeb.
      replace (a + i + 1 + Z.of_nat k) with (a + i + Z.of_nat (S k)) by lia.
      destruct (decide (k = n)), (decide (S k = S n)); try lia; done.
    + intros j Hj. rewrite faults_writeb. rewrite <- (Hf (j + 1)) by lia. f_equal. f_equal. lia.
Qed.

Lemma checked_w a v m : mem_unalignedwritew_checked a v m = writeq_checked_loop 2 0 a v m.
Proof using. done. Qed.
Lemma checked_d a v m : mem_unalignedwrited_checked a v m = writeq_checked_loop 4 0 a v m.
Proof using. done. Qed.

(** ** Blocks *)
Lemma memcpy_spec n d s m :
  0 <= d -> 0 <= s -> d + Z.of_nat n <= 4294967296 -> s + Z.of_nat n <= 4294967296 ->
  d <= s \/ s + Z.of_nat n <= d ->
  (forall i, 0 <= i < Z.of_nat n -> readb (d + i) (mem_memcpy d s n m) = readb (s + i) m) /\
  (forall b, b < d \/ d + Z.of_nat n <= b -> readb b (mem_memcpy d s n m) = readb b m).
Proof using Type*.
  revert d s m. induction n as [|n IH]; intros d s m Hd Hs Hd' Hs' Ho; [split; intros; [lia|done]|].
  cbn [mem_memcpy]. destruct n as [|n'] eqn:En.
  { cbn [mem_memcpy]. pose proof (readb_range s m).
    split; intros i Hi; [replace i with 0 by lia; rewrite !Z.add_0_r, readb_writeb_eq; by apply u8_small
                        |apply readb_writeb_ne; lia]. }
  rewrite <- En in *. unfold PhysPt. rewrite !u32_small by lia.
  destruct (IH (d + 1) (s + 1) (writeb d (readb s m) m)) as [IH1 IH2]; [lia..|]. split.
  - intros i Hi. destruct (Z.eq_dec i 0) as [->|].
    + rewrite !Z.add_0_r, IH2, readb_writeb_eq by lia. apply u8_small, readb_range.
    + replace (d + i) with (d + 1 + (i - 1)) by lia. rewrite IH1 by lia.
      replace (s + 1 + (i - 1)) with (s + i) by lia. apply readb_writeb_ne. lia.
  - intros b Hb. rewrite IH2 by lia. apply readb_writeb_ne. lia.
Qed.
End Proofs.

(** ** The theorems *)

(** Unaligned accesses round-trip: a word, doubleword or quadword read returns
    what was written at the same address, truncated to its width, and a write
    changes no other byte, whatever the alignment and also across the end of the
    32-bit address space. *)
Theorem unaligned_roundtrip {M} `{ByteMemoryLaws M} a v (m : M) :
  mem_unalignedreadw a (mem_unalignedwritew a v m) = v mod 2 ^ 16 /\
  mem_unalignedreadd a (mem_unalignedwrited a v m) = v mod 2 ^ 32 /\
  mem_unalignedreadq a (mem_unalignedwriteq a v m) = v mod 2 ^ 64 /\
  (forall b, ~ touches 2 a b -> readb b (mem_unalignedwritew a v m) = readb b m) /\
  (forall b, ~ touches 4 a b -> readb b (mem_unalignedwrited a v m) = readb b m) /\
  (forall b, ~ touches 8 a b -> readb b (mem_unalignedwriteq a v m) = readb b m).
Proof.
  rewrite readw_le, readd_le, readq_le, writew_le, writed_le, writeq_le, !le_roundtrip by lia.
  repeat split; intros; by apply le_write_ne.
Qed.

Lemma unaligned_roundtrip_witness :
  mem_unalignedreadd 0xffffffff (mem_unalignedwrited 0xffffffff 0x12345678 ((fun _ => 0) : Flat)) = 0x12345678.
Proof.
  destruct (unaligned_roundtrip 0xffffffff 0x12345678 ((fun _ => 0) : Flat)) as (_ & Hr & _). exact Hr.
Defined.

(** A checked write stores its bytes in order and stops at the first address
    that faults: when byte [k] is the first to fault, exactly the bytes below it
    are written and the fault is reported; when none does, the write is the
    unchecked one. *)
Theorem checked_write_prefix {M} `{ByteMemoryLaws M} a v k (m : M) :
  (forall j, 0 <= j < Z.of_nat k -> faults (PhysPt (a + j)) m = false) ->
  let outcome n := if decide (k = n) then (le_write n a v m, false) else (le_write k a v m, true) in
  let stops n := (k <= n)%nat /\ (k = n \/ faults (PhysPt (a + Z.of_nat k)) m = true) in
  (stops 2%nat -> mem_unalignedwritew_checked a v m = outcome 2%nat) /\
  (stops 4%nat -> mem_unalignedwrited_checked a v m = outcome 4%nat) /\
  (stops 8%nat -> mem_unalignedwriteq_checked a v m = outcome 8%nat) /\
  le_write 2 a v m = mem_unalignedwritew a v m /\ le_write 4 a v m = mem_unalignedwrited a v m /\
  le_write 8 a v m = mem_unalignedwriteq a v m.
Proof.
  intros Hf. cbv zeta. rewrite writew_le, writed_le, writeq_le.
  assert (forall n, (k <= n)%nat /\ (k = n \/ faults (PhysPt (a + Z.of_nat k)) m = true) ->
            writeq_checked_loop n 0 a v m = if decide (k = n) then (le_write n a v m, false) else (le_write k a v m, true))
    as Hn.
  { intros n [Hk Hs]. rewrite (checked_loop k) by (rewrite ?Z.add_0_r; done).
    rewrite !Z.add_0_r. destruct (decide (k = n)) as [->|]; [done|]. destruct Hs as [? | ->]; done. }
  repeat split; apply Hn.
Qed.

Lemma checked_write_prefix_witness :
  mem_unalignedwritew_checked 0x1000 0xabcd ((fun _ => 0) : Flat) =
  (mem_unalignedwritew 0x1000 0xabcd ((fun _ => 0) : Flat), false).
Proof.
  destruct (checked_write_prefix 0x1000 0xabcd 2 ((fun _ => 0) : Flat) ltac:(done)) as (Hw & _ & _ & <- & _).
  rewrite Hw; [reflexivity|]. split; [lia|by left].
Defined.

(** A block copy moves every byte when the destination does not start inside
    the source, and changes nothing outside the destination. *)
Theorem block_copy_moves {M} `{ByteMemoryLaws M} dest src n (m : M) :
  0 <= dest -> 0 <= src -> dest + Z.of_nat n <= 4294967296 -> src + Z.of_nat n <= 4294967296 ->
  dest <= src \/ src + Z.of_nat n <= dest ->
  (forall i, 0 <= i < Z.of_nat n -> readb (dest + i) (MEM_BlockCopy dest src n m) = readb (src + i) m) /\
  (forall b, b < dest \/ dest + Z.of_nat n <= b -> readb b (MEM_BlockCopy dest src n m) = readb b m).
Proof. intros. by apply memcpy_spec. Qed.

Lemma block_copy_moves_witness :
  readb 0x2003 (MEM_BlockCopy 0x2000 0x1000 16 ((fun a => a / 2) : Flat)) = u8 (0x1003 / 2).
Proof.
  destruct (block_copy_moves 0x2000 0x1000 16 ((fun a => a / 2) : Flat)) as [Hc _]; [lia..|].
  apply (Hc 3). lia.
Defined.
