(* ===== verification/PageAlloc.v ===== *)
(** * The extended-memory page allocator ([hardware/memory.cpp])

    [memory.mhandles] has one entry per 4 KiB page: 0 for a free page, the number
    of the next page of the same block, or -1 for the last page of a block.  The
    handle of a block is its first page.  Pages below [XMS_START] are never
    handed out. *)
From S2P Require Import Prelude.
From S2P Require Import GuestMemory.
#[local] Open Scope Z_scope.
#[local] Open Scope exec_scope.

Definition XMS_START : Z := 0x110.
Definition DosPageSize : Z := 4096.

(** ** Counting *)
Fixpoint FreeLargest_loop (l : list Z) (size largest : Z) : Z :=
  match l with
  | [] => Z.max size largest
  | h :: l => if h =? 0 then FreeLargest_loop l (size + 1) largest
              else FreeLargest_loop l 0 (Z.max size largest)
  end.
Definition MEM_FreeLargest (mh : list Z) : Z := FreeLargest_loop (drop (Z.to_nat XMS_START) mh) 0 0.

Fixpoint FreeTotal_loop (l : list Z) (free : Z) : Z :=
  match l with
  | [] => free
  | h :: l => FreeTotal_loop l (if h =? 0 then free + 1 else free)
  end.
Definition MEM_FreeTotal (mh : list Z) : Z := FreeTotal_loop (drop (Z.to_nat XMS_START) mh) 0.

Definition MEM_TotalPages (mh : list Z) : Z := u32 (Z.of_nat (length mh)).

(** A chain visits each page once, so one step per page is enough fuel. *)
Definition walk_fuel (mh : list Z) : nat := S (length mh).

Fixpoint AllocatedPages_loop (fuel : nat) (handle pages : Z) (mh : list Z) : exec Z :=
  match fuel with
  | O => err OutOfFuel
  | S fuel => if 0 <? handle
              then let* next := read mh handle in AllocatedPages_loop fuel next (pages + 1) mh
              else ok pages
  end.
Definition MEM_AllocatedPages (handle : Z) (mh : list Z) : exec Z :=
  AllocatedPages_loop (walk_fuel mh) handle 0 mh.

(** ** Best fit

    The loop over [index], [l] being the entries from [index] on. *)
Fixpoint BestMatch_loop (size : Z) (l : list Z) (index first best best_first : Z) : Z :=
  match l with
  | [] => if negb (first =? 0) && (size <=? index - first) && (index - first <? best)
          then first else best_first
  | h :: l =>
      if first =? 0 then
        BestMatch_loop size l (index + 1) (if h =? 0 then index else first) best best_first
      else if negb (h =? 0) then
        let pages := index - first in
        if pages =? size then first
        else if size <? pages then
          if pages <? best then BestMatch_loop size l (index + 1) 0 pages first
          else BestMatch_loop size l (index + 1) 0 best best_first
        else BestMatch_loop size l (index + 1) 0 best best_first
      else BestMatch_loop size l (index + 1) first best best_first
  end.
Definition BestMatch (size : Z) (mh : list Z) : Z :=
  BestMatch_loop size (drop (Z.to_nat XMS_START) mh) XMS_START 0 0xfffffff 0.

Definition MEM_GetNextFreePage (mh : list Z) : Z := BestMatch 1 mh.

(** ** Allocation

    [next] is the C pointer: to the variable [ret] ([None]) or to an entry. *)
Definition store (next : option Z) (v : Z) (ret : Z) (mh : list Z) : exec (Z * list Z) :=
  match next with
  | None => ok (v, mh)
  | Some i => let* mh := write mh i v in ok (ret, mh)
  end.

Fixpoint link_sequence (pages : nat) (index : Z) (next : option Z) (ret : Z) (mh : list Z)
  : exec (Z * list Z) :=
  match pages with
  | O => store next (-1) ret mh
  | S pages =>
      let* (ret, mh) := store next index ret mh in
      link_sequence pages (index + 1) (Some index) ret mh
  end.

(** The inner loop of the scattered allocation; it reads the entry of [index]
    before every step, also past the last page. *)
Fixpoint link_run (pages : nat) (index : Z) (next : option Z) (ret : Z) (mh : list Z)
  : exec (nat * option Z * Z * list Z) :=
  match pages with
  | O => ok (O, next, ret, mh)
  | S pages' =>
      let* h := read mh index in
      if h =? 0 then
        let* (ret, mh) := store next index ret mh in
        link_run pages' (index + 1) (Some index) ret mh
      else ok (pages, next, ret, mh)
  end.
(** Every round links at least one page. *)
Fixpoint link_scattered (fuel : nat) (pages : nat) (next : option Z) (ret : Z) (mh : list Z)
  : exec (Z * list Z) :=
  match pages with
  | O => ok (ret, mh)
  | S _ =>
      match fuel with
      | O => err OutOfFuel
      | S fuel =>
          let index := BestMatch 1 mh in
          if index =? 0 then err Exit else
          let* (pages, next, ret, mh) := link_run pages index next ret mh in
          let* (ret, mh) := store next (-1) ret mh in
          link_scattered fuel pages next ret mh
      end
  end.

Definition MEM_AllocatePages (pages : Z) (sequence : bool) (mh : list Z) : exec (Z * list Z) :=
  if pages =? 0 then ok (0, mh) else
  if sequence then
    let index := BestMatch pages mh in
    if index =? 0 then ok (0, mh) else link_sequence (Z.to_nat pages) index None 0 mh
  else
    if MEM_FreeTotal mh <? pages then ok (0, mh)
    else link_scattered (Z.to_nat pages) (Z.to_nat pages) None 0 mh.

(** ** Release *)
Fixpoint Release_loop (fuel : nat) (handle : Z) (mh : list Z) : exec (list Z) :=
  match fuel with
  | O => err OutOfFuel
  | S fuel => if 0 <? handle
              then let* next := read mh handle in
                   let* mh := write mh handle 0 in Release_loop fuel next mh
              else ok mh
  end.
Definition MEM_ReleasePages (handle : Z) (mh : list Z) : exec (list Z) := Release_loop (walk_fuel mh) handle mh.

(** ** Resizing *)

(** The pages of the block and its last page; [last] is unset before the loop. *)
Fixpoint count_block (fuel : nat) (index last old_pages : Z) (mh : list Z) : exec (Z * Z) :=
  match fuel with
  | O => err OutOfFuel
  | S fuel => if 0 <? index
              then let* next := read mh index in count_block fuel next index (old_pages + 1) mh
              else ok (last, old_pages)
  end.
Fixpoint skip_pages (pages : nat) (index : Z) (mh : list Z) : exec Z :=
  match pages with
  | O => ok index
  | S pages => let* index := read mh index in skip_pages pages index mh
  end.
Fixpoint free_pages (old_pages : nat) (index : Z) (mh : list Z) : exec (list Z) :=
  match old_pages with
  | O => ok mh
  | S old_pages => let* next := read mh index in
                   let* mh := write mh index 0 in free_pages old_pages next mh
  end.
Definition shrink_block (handle pages old_pages : Z) (mh : list Z) : exec (list Z) :=
  let* index := skip_pages (Z.to_nat (pages - 1)) handle mh in
  let* next := read mh index in
  let* mh := write mh index (-1) in
  free_pages (Z.to_nat (old_pages - pages)) next mh.

(** Free pages right behind the block; [l] is the suffix of entries from there. *)
Fixpoint free_behind (l : list Z) (free : Z) : Z :=
  match l with
  | h :: l => if h =? 0 then free_behind l (free + 1) else free
  | [] => free
  end.
Fixpoint extend_block (need : nat) (index : Z) (mh : list Z) : exec (list Z) :=
  match need with
  | O => write mh index (-1)
  | S need => let* mh := write mh index (index + 1) in extend_block need (index + 1) mh
  end.

Section Resize.
Context {M : Type} `{ByteMemory M}.

(** Returns the success flag, the handle, the entries and the guest memory. *)
Definition MEM_ReAllocatePages (handle pages : Z) (sequence : bool) (mh : list Z) (m : M)
  : exec (bool * Z * list Z * M) :=
  if handle <=? 0 then
    if pages =? 0 then ok (true, handle, mh, m) else
    let* (handle, mh) := MEM_AllocatePages pages sequence mh in
    ok (0 <? handle, handle, mh, m)
  else if pages =? 0 then
    let* mh := MEM_ReleasePages handle mh in ok (true, -1, mh, m)
  else
    let* (last, old_pages) := count_block (walk_fuel mh) handle 0 0 mh in
    if old_pages =? pages then ok (true, handle, mh, m) else
    if pages <? old_pages then
      let* mh := shrink_block handle pages old_pages mh in ok (true, handle, mh, m)
    else
      let need := pages - old_pages in
      if sequence then
        let free := free_behind (drop (Z.to_nat (last + 1)) mh) 0 in
        if need <=? free then
          let* mh := extend_block (Z.to_nat need) last mh in ok (true, handle, mh, m)
        else
          let* (newhandle, mh) := MEM_AllocatePages pages true mh in
          if newhandle =? 0 then ok (false, handle, mh, m) else
          let m := MEM_BlockCopy (PhysPt (newhandle * 4096)) (PhysPt (handle * 4096))
                     (Z.to_nat (old_pages * 4096)) m in
          let* mh := MEM_ReleasePages handle mh in
          ok (true, newhandle, mh, m)
      else
        let* (rem, mh) := MEM_AllocatePages need false mh in
        if rem =? 0 then ok (false, handle, mh, m) else
        let* mh := write mh last rem in ok (true, handle, mh, m).
End Resize.

(** ** Walking a block *)
Definition MEM_NextHandle (handle : Z) (mh : list Z) : exec Z := read mh handle.
Fixpoint NextHandleAt_loop (where_ : nat) (handle : Z) (mh : list Z) : exec Z :=
  match where_ with
  | O => ok handle
  | S where_ => let* handle := read mh handle in NextHandleAt_loop where_ handle mh
  end.
Definition MEM_NextHandleAt (handle where_ : Z) (mh : list Z) : exec Z :=
  NextHandleAt_loop (Z.to_nat where_) handle mh.
