(* ===== verification/PageSearch.v ===== *)
(** * Searching for free pages

    [MEM_FreeLargest] is the length of the longest free interval, [BestMatch] the
    start of a shortest maximal run that is long enough. *)
From S2P Require Import Prelude.
From S2P Require Import PageAlloc.
#[local] Open Scope Z_scope.

(** Free pages from [a] on, [n] of them; a run cannot be extended on either side. *)
Definition interval (mh : list Z) (a n : Z) : Prop :=
  XMS_START <= a /\ 0 < n /\ forall i, a <= i < a + n -> get mh i = Some 0.
Definition run (mh : list Z) (a n : Z) : Prop :=
  interval mh a n /\ (a = XMS_START \/ get mh (a - 1) <> Some 0) /\ get mh (a + n) <> Some 0.
Definition npages (mh : list Z) : Z := Z.of_nat (length mh).

(** Arithmetic on page numbers. *)
Ltac plia := unfold npages, XMS_START in *; lia.

Section Search.
Context (mh : list Z).

Lemma interval_last a n : interval mh a n -> get mh (a + n - 1) = Some 0.
Proof using. intros (_ & Hn & Hf). apply Hf. plia. Qed.
Lemma interval_end a n : interval mh a n -> a + n <= npages mh.
Proof using.
  intros Hi. pose proof (interval_last a n Hi) as Hl. apply get_Some_range in Hl. unfold npages. plia.
Qed.

(** Two runs with the same end are the same run. *)
Lemma run_same_end a n b k : run mh a n -> run mh b k -> a + n = b + k -> a = b.
Proof using.
  intros ((Ha & Hn & Fa) & La & _) ((Hb & Hk & Fb) & Lb & _) E.
  destruct (Z.lt_trichotomy a b) as [Hlt|[?|Hlt]]; [|done|].
  - destruct Lb as [->|Lb]; [plia|]. destruct Lb. apply Fa. plia.
  - destruct La as [->|La]; [plia|]. destruct La. apply Fb. plia.
Qed.

(** Every free interval lies inside a run. *)
Lemma run_around a n : interval mh a n -> exists b k, run mh b k /\ b <= a /\ a + n <= b + k.
Proof using.
  remember (Z.to_nat (npages mh - n)) as d eqn:Hd. revert a n Hd.
  induction d as [d IH] using lt_wf_ind. intros a n Hd Hi.
  pose proof (interval_end a n Hi) as He. pose proof Hi as (Ha & Hn & Hf). unfold XMS_START in *.
  destruct (decide (get mh (a + n) = Some 0)) as [Hr|Hr].
  - assert (interval mh a (n + 1)) as Hi'.
    { split; [done|]. split; [plia|]. intros i Hlt. destruct (Z.eq_dec i (a + n)) as [->|]; [done|]. apply Hf. plia. }
    pose proof (interval_end _ _ Hi').
    destruct (IH (Z.to_nat (npages mh - (n + 1)))) with (a := a) (n := n + 1) as (b & k & ? & ? & ?); [plia|done..|].
    exists b, k. split; [done|plia].
  - destruct (decide (a = XMS_START \/ get mh (a - 1) <> Some 0)) as [Hl|Hl].
    + exists a, n. split; [|plia]. split; [done|]. split; [exact Hl|exact Hr].
    + assert (interval mh (a - 1) (n + 1)) as Hi'.
      { unfold XMS_START in *. split; [plia|]. split; [plia|]. intros i Hlt.
        destruct (Z.eq_dec i (a - 1)) as [->|]; [|apply Hf; plia].
        destruct (decide (get mh (a - 1) = Some 0)); [done|]. destruct Hl. by right. }
      pose proof (interval_end _ _ Hi').
      destruct (IH (Z.to_nat (npages mh - (n + 1)))) with (a := a - 1) (n := n + 1) as (b & k & ? & ? & ?);
        [plia|done..|].
      exists b, k. split; [done|plia].
Qed.

(** ** Best fit

    The run at the end of memory is only taken when every other one that fits is
    longer. *)
Definition best_fit (size r : Z) : Prop :=
  (r = 0 /\ forall a n, run mh a n -> n < size) \/
  (r <> 0 /\ exists n, run mh r n /\ size <= n /\ (forall a' n', run mh a' n' -> size <= n' -> n <= n') /\
     (r + n = npages mh -> forall a' n', run mh a' n' -> size <= n' -> a' = r \/ n < n')).

(** The open run at [index] and the best closed one. *)
Definition scanned (size index first best best_first : Z) : Prop :=
  ((first = 0 /\ (index = XMS_START \/ get mh (index - 1) <> Some 0)) \/
   (XMS_START <= first < index /\ (forall i, first <= i < index -> get mh i = Some 0) /\
    (first = XMS_START \/ get mh (first - 1) <> Some 0))) /\
  ((best_first = 0 /\ best = 0xfffffff /\ forall a n, run mh a n -> a + n < index -> n < size) \/
   (best_first <> 0 /\ (run mh best_first best /\ best_first + best < npages mh) /\ size <= best /\
    forall a n, run mh a n -> a + n < index -> size <= n -> best <= n)).

(** A run that ends at a page that is not free is closed there. *)
Lemma closed_before index :
  get mh index = Some 0 \/ (index = XMS_START \/ get mh (index - 1) <> Some 0) ->
  forall (P : Z -> Z -> Prop),
  (forall a n, run mh a n -> a + n < index -> P a n) ->
  forall a n, run mh a n -> a + n < index + 1 -> P a n.
Proof using.
  intros Hi P HP a n Hr Hlt. destruct (Z.eq_dec (a + n) index) as [E|]; [|apply HP; (done || plia)].
  destruct Hr as (Hint & _ & Hend). pose proof (interval_last a n Hint) as Hl. rewrite E in Hend, Hl.
  destruct Hint as (Ha & Hn & _). destruct Hi as [?|[->|?]]; [done|plia|done].
Qed.

Lemma scan_step size index first best best_first h :
  0 < size -> XMS_START <= index -> npages mh < 0xfffffff ->
  get mh index = Some h -> scanned size index first best best_first -> first = 0 \/ h = 0 ->
  scanned size (index + 1) (if first =? 0 then if h =? 0 then index else first else first) best best_first.
Proof using.
  intros Hs Hx Hsz Hg (Hf & Hb) Hh.
  split.
  - destruct (Z.eqb_spec first 0) as [->|Hne].
    + destruct Hf as [[_ Hleft]|[? _]]; [|plia].
      destruct (Z.eqb_spec h 0) as [->|].
      * right. split; [plia|]. split; [|done]. intros i Hi. by replace i with index by plia.
      * left. split; [done|]. right. replace (index + 1 - 1) with index by plia. congruence.
    + destruct Hf as [[? _]|(Hr & Hfree & Hleft)]; [done|]. right. split; [plia|]. split; [|done].
      intros i Hi. destruct (Z.eq_dec i index) as [->|]; [|apply Hfree; plia]. destruct Hh; [done|congruence].
  - assert (get mh index = Some 0 \/ (index = XMS_START \/ get mh (index - 1) <> Some 0)) as Hc.
    { destruct Hh as [-> | ->]; [|by left]. destruct Hf as [[_ ?]|[? _]]; [by right|plia]. }
    pose proof (closed_before index Hc) as HP.
    destruct Hb as [(-> & -> & Hb)|(Hbf & Hrun & Hle & Hb)]; [left|right].
    + split; [done|]. split; [done|]. by apply HP.
    + split; [done|]. split; [done|]. split; [done|]. by apply (HP (fun a n => size <= n -> best <= n)).
Qed.

(** The run closed by a used page. *)
Lemma scan_close size index first best best_first h :
  XMS_START <= index -> get mh index = Some h -> h <> 0 -> first <> 0 ->
  scanned size index first best best_first ->
  run mh first (index - first) /\
  (forall P : Z -> Z -> Prop, (forall a n, run mh a n -> a + n < index -> P a n) -> P first (index - first) ->
     forall a n, run mh a n -> a + n < index + 1 -> P a n).
Proof using.
  intros Hx Hg Hh Hne (Hf & _). destruct Hf as [[? _]|(Hr & Hfree & Hleft)]; [done|].
  assert (run mh first (index - first)) as Hrun.
  { split; [split; [plia|]; split; [plia|]; intros i Hi; apply Hfree; plia|]. split; [done|].
    replace (first + (index - first)) with index by plia. congruence. }
  split; [done|]. intros P HP Hthis a n Ha Hlt.
  destruct (Z.eq_dec (a + n) index) as [E|]; [|apply HP; (done || plia)].
  assert (a = first) as -> by (apply (run_same_end a n first (index - first)); (done || plia)).
  by replace n with (index - first) by plia.
Qed.

(** At the end of memory every run is closed, or it is the open one. *)
Lemma scan_open size index first best best_first :
  0 < size -> XMS_START <= index -> npages mh < 0xfffffff -> get mh index = None ->
  scanned size index first best best_first ->
  (forall a n, run mh a n -> first <> 0 -> a + n < index \/ (a = first /\ n = index - first)) /\
  (first = 0 -> forall a n, run mh a n -> a + n < index).
Proof using.
  intros Hs Hx Hsz Hg Hsc.
  destruct Hsc as (Hf & Hb).
  split.
  - intros a n Hr Hne. destruct Hf as [[? _]|(Hfr & Hfree & Hleft)]; [done|].
    pose proof (interval_end a n (proj1 Hr)) as He. apply get_None_range in Hg; [|plia].
    destruct (Z.lt_ge_cases (a + n) index); [by left|]. right.
    pose proof (Hfree (index - 1) ltac:(plia)) as Hlast%get_Some_range. unfold npages in *.
    assert (a = first); [|plia]. apply (run_same_end a n first (index - first)); [done| |plia].
    split; [split; [plia|]; split; [plia|]; intros i Hi; apply Hfree; plia|]. split; [done|].
    replace (first + (index - first)) with index by plia. destruct (get mh index) eqn:E; [|done].
    apply get_Some_range in E. plia.
  - intros -> a n Hr. destruct Hf as [[_ Hleft]|[? _]]; [|plia].
    pose proof (interval_end a n (proj1 Hr)) as He. apply get_None_range in Hg; [|plia].
    unfold npages in He. destruct (Z.lt_ge_cases (a + n) index); [done|].
    pose proof (interval_last a n (proj1 Hr)) as Hla. pose proof (get_Some_range _ _ _ Hla).
    destruct Hr as ((Ha & Hn & Hfr) & _). destruct Hleft as [->|Hleft]; [plia|].
    destruct Hleft. apply Hfr. plia.
Qed.

Lemma scan_end size index first best best_first :
  0 < size -> XMS_START <= index -> npages mh < 0xfffffff -> get mh index = None ->
  scanned size index first best best_first ->
  best_fit size (if negb (first =? 0) && (size <=? index - first) && (index - first <? best)
                 then first else best_first).
Proof using.
  intros Hs Hx Hsz Hg Hsc. destruct (scan_open size index first best best_first Hs Hx Hsz Hg Hsc) as [Hend Hno].
  destruct Hsc as (Hf & Hb).
  unfold best_fit. destruct (Z.eqb_spec first 0) as [E0|Hne]; cbn [negb andb].
  + destruct Hb as [(-> & -> & Hb)|(Hbf & Hrun & Hle & Hb)]; [left|right]; (split; [done|]).
    * intros a n Hr. by apply (Hb a n Hr), Hno.
    * exists best. split; [apply Hrun|]. split; [done|]. split; [|plia]. intros a' n' Hr Hn. apply (Hb a' n' Hr); [by apply Hno|done].
  + assert (run mh first (index - first)) as Hrun.
    { destruct Hf as [[? _]|(Hfr & Hfree & Hleft)]; [done|].
      split; [split; [plia|]; split; [plia|]; intros i Hi; apply Hfree; plia|]. split; [done|].
      replace (first + (index - first)) with index by plia. by rewrite Hg. }
    pose proof (interval_end _ _ (proj1 Hrun)) as He.
    destruct (Z.leb_spec size (index - first)), (Z.ltb_spec (index - first) best); cbn [andb].
    * right. split; [done|]. exists (index - first). split; [done|]. split; [done|].
      assert (forall a' n', run mh a' n' -> size <= n' -> a' = first /\ n' = index - first \/ index - first < n') as Hall.
      { intros a' n' Hr Hn. destruct (Hend a' n' Hr Hne) as [Hlt|[-> ->]]; [right|by left].
        destruct Hb as [(_ & _ & Hb)|(_ & _ & _ & Hb)]; specialize (Hb a' n' Hr Hlt); [plia|]. specialize (Hb Hn). plia. }
      split; [|intros _]; intros a' n' Hr Hn; destruct (Hall a' n' Hr Hn) as [[-> ->]|?]; plia.
    * destruct Hb as [(-> & -> & Hb)|(Hbf & Hrun' & Hle & Hb)]; [plia|].
      right. split; [done|]. exists best. split; [apply Hrun'|]. split; [done|]. split; [|plia].
      intros a' n' Hr Hn. destruct (Hend a' n' Hr Hne) as [Hlt|[-> ->]]; [by apply (Hb a' n')|plia].
    * destruct Hb as [(-> & -> & Hb)|(Hbf & Hrun' & Hle & Hb)]; [left|right]; (split; [done|]).
      -- intros a n Hr. destruct (Hend a n Hr Hne) as [Hlt|[-> ->]]; [by apply (Hb a n)|plia].
      -- exists best. split; [apply Hrun'|]. split; [done|]. split; [|plia]. intros a' n' Hr Hn.
         destruct (Hend a' n' Hr Hne) as [Hlt|[-> ->]]; [by apply (Hb a' n')|plia].
    * destruct Hb as [(-> & -> & Hb)|(Hbf & Hrun' & Hle & Hb)]; [left|right]; (split; [done|]).
      -- intros a n Hr. destruct (Hend a n Hr Hne) as [Hlt|[-> ->]]; [by apply (Hb a n)|plia].
      -- exists best. split; [apply Hrun'|]. split; [done|]. split; [|plia]. intros a' n' Hr Hn.
         destruct (Hend a' n' Hr Hne) as [Hlt|[-> ->]]; [by apply (Hb a' n')|plia].
Qed.

Lemma BestMatch_loop_spec size l index first best best_first :
  0 < size -> XMS_START <= index -> npages mh < 0xfffffff -> l = drop (Z.to_nat index) mh ->
  scanned size index first best best_first ->
  best_fit size (BestMatch_loop size l index first best best_first).
Proof using.
  intros Hs Hx Hsz. revert index first best best_first Hx.
  induction l as [|h l IH]; intros index first best best_first Hx Hl Hsc; cbn [BestMatch_loop].
  - (* the end of memory *)
    assert (get mh index = None) as Hg.
    { destruct (get mh index) as [v|] eqn:E; [|done]. by rewrite (drop_cons_get _ _ _ E) in Hl. }
    by apply scan_end.
  - assert (get mh index = Some h) as Hg.
    { destruct (get mh index) as [v|] eqn:E; [rewrite (drop_cons_get _ _ _ E) in Hl; congruence|].
      apply get_None_range in E; [|plia]. rewrite drop_nil_get in Hl by (plia).
      done. }
    assert (l = drop (Z.to_nat (index + 1)) mh) as Hl' by (rewrite (drop_cons_get _ _ _ Hg) in Hl; congruence).
    pose proof (scan_step size index first best best_first h Hs Hx Hsz Hg Hsc) as Hstep.
    destruct (Z.eqb_spec first 0) as [->|Hne].
    + apply IH; [plia|done|]. apply Hstep. by left.
    + destruct (Z.eqb_spec h 0) as [->|Hh]; cbn [negb].
      * apply IH; [plia|done|]. apply Hstep. by right.
      * destruct (scan_close size index first best best_first h Hx Hg Hh Hne Hsc) as [Hrun Hcl].
        assert (Hopen : index + 1 = XMS_START \/ get mh (index + 1 - 1) <> Some 0)
          by (right; replace (index + 1 - 1) with index by plia; congruence).
        destruct Hsc as (_ & Hb).
        pose proof (interval_end _ _ (proj1 Hrun)) as He. pose proof (proj1 (proj1 Hrun)) as Hfirst.
        assert (first + (index - first) < npages mh) as Hin by (apply get_Some_range in Hg; plia).
        destruct (Z.eqb_spec (index - first) size) as [E|].
        -- right. split; [done|]. exists size. split; [by rewrite <- E|]. split; [plia|]. split; [plia|]. intros ?. plia.
        -- destruct (Z.ltb_spec size (index - first)); [destruct (Z.ltb_spec (index - first) best)|];
             (apply IH; [plia|done|]; split; [left; done|]).
           ++ right. split; [done|]. split; [done|]. split; [plia|].
              apply (Hcl (fun a n => size <= n -> index - first <= n)); [|plia]. intros a k Hr Hlt Hk.
              destruct Hb as [(_ & _ & Hb)|(_ & _ & _ & Hb)]; specialize (Hb a k Hr Hlt); plia.
           ++ destruct Hb as [(-> & -> & Hb)|(Hbf & Hrun' & Hle & Hb)]; [plia|].
              right. split; [done|]. split; [done|]. split; [done|].
              by apply (Hcl (fun a n => size <= n -> best <= n)).
           ++ destruct Hb as [(-> & -> & Hb)|(Hbf & Hrun' & Hle & Hb)]; [left|right]; (split; [done|]).
              ** split; [done|]. apply (Hcl (fun a n => n < size)); [done|plia].
              ** split; [done|]. split; [done|]. apply (Hcl (fun a n => size <= n -> best <= n)); [done|plia].
Qed.

Lemma BestMatch_spec size :
  0 < size -> npages mh < 0xfffffff -> best_fit size (BestMatch size mh).
Proof using.
  intros Hs Hsz. apply BestMatch_loop_spec; try done. split; [left; auto|]. left. split; [done|]. split; [done|].
  intros a n ((Ha & Hn & _) & _) Hlt. unfold XMS_START in *. plia.
Qed.

(** ** The longest free interval *)
Definition largest_at (index size largest : Z) : Prop :=
  0 <= size /\ XMS_START <= index - size /\ (forall i, index - size <= i < index -> get mh i = Some 0) /\
  (forall a n, interval mh a n -> a + n = index -> n <= size) /\
  (forall a n, interval mh a n -> a + n < index -> n <= Z.max size largest) /\
  (largest = 0 \/ exists a, interval mh a largest).

Lemma FreeLargest_loop_spec l index size largest :
  l = drop (Z.to_nat index) mh -> largest_at index size largest ->
  let r := FreeLargest_loop l size largest in
  (r = 0 \/ exists a, interval mh a r) /\ forall a n, interval mh a n -> n <= r.
Proof using.
  revert index size largest.
  induction l as [|h l IH]; intros index size largest Hl (Hs & Hx & Hf & He & Hb & Hw); cbn [FreeLargest_loop].
  - assert (get mh index = None) as Hg.
    { destruct (get mh index) as [v|] eqn:E; [|done]. by rewrite (drop_cons_get _ _ _ E) in Hl. }
    apply get_None_range in Hg; [|plia]. split.
    + destruct (Z.max_spec size largest) as [[? ->]|[? ->]]; [done|].
      destruct (Z.eq_dec size 0); [by left|]. right. exists (index - size). split; [done|]. split; [plia|].
      intros i Hi. apply Hf. plia.
    + intros a n Hi. pose proof (interval_end a n Hi). unfold npages in *.
      destruct (Z.eq_dec (a + n) index) as [E|]; [specialize (He a n Hi E); lia|]. apply (Hb a n Hi). lia.
  - assert (get mh index = Some h) as Hg.
    { destruct (get mh index) as [v|] eqn:E; [rewrite (drop_cons_get _ _ _ E) in Hl; congruence|].
      apply get_None_range in E; [|plia]. by rewrite drop_nil_get in Hl by plia. }
    assert (l = drop (Z.to_nat (index + 1)) mh) as Hl' by (rewrite (drop_cons_get _ _ _ Hg) in Hl; congruence).
    destruct (Z.eqb_spec h 0) as [->|Hh]; apply (IH (index + 1)); try done;
      (split; [lia|]); (split; [plia|]); (split; [|split; [|split]]).
    + intros i Hi. destruct (Z.eq_dec i index) as [->|]; [done|]. apply Hf. lia.
    + intros a n Hi E. destruct (Z.eq_dec n 1) as [|]; [lia|].
      pose proof Hi as (Ha & Hn & Hfr).
      assert (interval mh a (n - 1)) as Hi' by (split; [done|]; split; [lia|]; intros j Hj; apply Hfr; lia).
      specialize (He a (n - 1) Hi' ltac:(lia)). lia.
    + intros a n Hi E. destruct (Z.eq_dec (a + n) index) as [E'|]; [specialize (He a n Hi E'); lia|].
      specialize (Hb a n Hi ltac:(lia)). lia.
    + done.
    + intros i Hi. lia.
    + intros a n Hi E. pose proof (interval_last a n Hi) as Hla. replace (a + n - 1) with index in Hla by lia. congruence.
    + intros a n Hi E. destruct (Z.eq_dec (a + n) index) as [E'|]; [specialize (He a n Hi E'); lia|].
      specialize (Hb a n Hi ltac:(lia)). lia.
    + destruct (Z.max_spec size largest) as [[? ->]|[? ->]]; [done|].
      destruct (Z.eq_dec size 0); [by left|]. right. exists (index - size). split; [done|]. split; [plia|].
      intros i Hi. apply Hf. plia.
Qed.

Lemma MEM_FreeLargest_spec :
  (MEM_FreeLargest mh = 0 \/ exists a, interval mh a (MEM_FreeLargest mh)) /\
  forall a n, interval mh a n -> n <= MEM_FreeLargest mh.
Proof using.
  apply (FreeLargest_loop_spec _ XMS_START); [done|].
  split; [lia|]. split; [plia|]. split; [intros; plia|].
  split; [intros a n (Ha & Hn & _) E; plia|]. split; [intros a n (Ha & Hn & _) E; plia|by left].
Qed.

(** ** Counting free pages *)
Lemma FreeTotal_loop_count l free :
  FreeTotal_loop l free = free + Z.of_nat (length (filter (fun h => h = 0) l)).
Proof using.
  revert free. induction l as [|h l IH]; intros free; cbn [FreeTotal_loop]; [cbn; lia|].
  rewrite IH. destruct (Z.eqb_spec h 0) as [->|Hh].
  - rewrite filter_cons_True by done. cbn. lia.
  - rewrite filter_cons_False by done. lia.
Qed.

(** A sequential allocation finds a block exactly when the largest free interval
    is long enough. *)
Lemma BestMatch_iff_FreeLargest size :
  0 < size -> npages mh < 0xfffffff -> BestMatch size mh <> 0 <-> size <= MEM_FreeLargest mh.
Proof using.
  intros Hs Hsz. destruct MEM_FreeLargest_spec as [Hw Hmax].
  destruct (BestMatch_spec size Hs Hsz) as [(-> & Hno)|(Hne & n & Hrun & Hle & _)].
  - split; [done|]. intros Hlarge. destruct Hw as [?|(a & Hi)]; [lia|].
    destruct (run_around a _ Hi) as (b & k & Hr & ? & ?). specialize (Hno b k Hr). lia.
  - split; [|done]. intros _. specialize (Hmax _ _ (proj1 Hrun)). lia.
Qed.
End Search.
