(* ===== verification/PageBlocks.v ===== *)
(** * Blocks of pages

    The chains of page entries, the invariant that the blocks handed out are
    disjoint and account for every used page, and the effect of linking and
    releasing on it. *)
From S2P Require Import Prelude.
From S2P Require Import PageAlloc.
From S2P Require Import PageSearch.
#[local] Open Scope Z_scope.
#[local] Open Scope exec_scope.

(** [seg mh p c e]: following the entries from page [p] visits the pages [c] and
    arrives at [e]. *)
Fixpoint seg (mh : list Z) (p : Z) (c : list Z) (e : Z) : Prop :=
  match c with
  | [] => p = e
  | q :: c => p = q /\ 0 < q /\ exists n, get mh q = Some n /\ seg mh n c e
  end.
Definition block (mh : list Z) (c : list Z) : Prop := c <> [] /\ seg mh (hd 0 c) c (-1).

(** The invariant: [cs] are the blocks handed out. *)
Record owned (mh : list Z) (cs : list (list Z)) : Prop := mkOwned {
  owned_block : Forall (block mh) cs;
  owned_disjoint : NoDup (concat cs);
  owned_xms : Forall (fun p => XMS_START <= p) (concat cs);
  owned_rest : forall i, XMS_START <= i -> i ∉ concat cs -> i < npages mh -> get mh i = Some 0 }.

(** ** Segments *)
Lemma seg_ext mh mh' p c e :
  (forall q, q ∈ c -> get mh' q = get mh q) -> seg mh p c e -> seg mh' p c e.
Proof.
  revert p. induction c as [|q c IH]; intros p Hx; [done|]. intros (-> & Hq & n & Hn & Hs).
  split; [done|]. split; [done|]. exists n. split; [by rewrite Hx by constructor|].
  apply IH; [|done]. intros r Hr. apply Hx. by constructor.
Qed.
Lemma seg_app mh p c d e : seg mh p (c ++ d) e <-> exists m, seg mh p c m /\ seg mh m d e.
Proof.
  revert p. induction c as [|q c IH]; intros p; cbn [app seg].
  - split; [intros Hs; by exists p|by intros (m & -> & Hs)].
  - split.
    + intros (-> & Hq & n & Hn & (m & Hs & Hd)%IH). exists m. split; [|done]. split; [done|]. split; [done|]. by exists n.
    + intros (m & (-> & Hq & n & Hn & Hs) & Hd). split; [done|]. split; [done|]. exists n. split; [done|].
      apply IH. by exists m.
Qed.
Lemma seg_range mh p c e q : seg mh p c e -> q ∈ c -> 0 < q < npages mh.
Proof.
  revert p. induction c as [|r c IH]; intros p; [by intros _ ?%elem_of_nil|].
  intros (-> & Hr & n & Hn & Hs) [->|Hq]%elem_of_cons; [|by eapply IH].
  apply get_Some_range in Hn. unfold npages. lia.
Qed.
Lemma seg_head mh p q c e : seg mh p (q :: c) e -> p = q.
Proof. by intros (-> & _). Qed.
Lemma seg_used mh p c e q : e <> 0 -> seg mh p c e -> q ∈ c -> exists v, get mh q = Some v /\ v <> 0.
Proof.
  intros He. revert p. induction c as [|r c IH]; intros p; [by intros _ ?%elem_of_nil|].
  intros (-> & Hr & n & Hn & Hs) [->|Hq]%elem_of_cons; [|by eapply IH].
  exists n. split; [done|]. destruct c as [|s c]; [by cbn in Hs; subst|]. apply seg_head in Hs as E. subst n.
  destruct Hs as (_ & ? & _). lia.
Qed.

(** ** Release *)
Lemma Release_loop_spec fuel p c mh :
  seg mh p c (-1) -> NoDup c -> (length c < fuel)%nat ->
  exists mh', Release_loop fuel p mh = ok mh' /\ length mh' = length mh /\
    forall i, get mh' i = if decide (i ∈ c) then Some 0 else get mh i.
Proof.
  revert fuel p mh. induction c as [|q c IH]; intros fuel p mh Hs Hd Hf; destruct fuel as [|fuel]; cbn [length] in Hf; try lia.
  - cbn in Hs. subst p. exists mh. split; [done|]. split; [done|]. intros i. by rewrite decide_False by apply not_elem_of_nil.
  - destruct Hs as (-> & Hq & n & Hn & Hs). apply list.NoDup_cons in Hd as [Hqc Hd].
    pose proof (get_Some_range _ _ _ Hn) as Hr. cbn [Release_loop]. destruct (Z.ltb_spec 0 q); [|lia].
    rewrite (read_get _ _ _ Hn), (write_upd mh q 0 Hr). cbn [exec_bind].
    destruct (IH fuel n (upd mh q 0)) as (mh' & E & Hlen & Hget); [|done|lia|].
    { eapply seg_ext; [|exact Hs]. intros r Hrc. apply get_upd_ne; [lia|]. intros ->. done. }
    exists mh'. split; [done|]. split; [by rewrite Hlen, length_upd|]. intros i. rewrite Hget, get_upd by lia.
    destruct (Z.eqb_spec q i) as [->|Hne].
    + rewrite (decide_True (P := i ∈ i :: c)) by constructor. by case_decide.
    + destruct (decide (i ∈ c)), (decide (i ∈ q :: c)) as [|Hni]; try done.
      * destruct Hni. by constructor.
      * by match goal with Hin : i ∈ q :: c |- _ => apply elem_of_cons in Hin as [?|?] end.
Qed.

(** ** Linking consecutive pages *)
Definition linked_get (mh : list Z) (next : option Z) (index n i : Z) : option Z :=
  if (index <=? i) && (i <? index + n) then Some (if i =? index + n - 1 then -1 else i + 1)
  else match next with
       | Some p => if i =? p then Some (if n =? 0 then -1 else index) else get mh i
       | None => get mh i
       end.

Lemma link_sequence_spec n index next ret mh :
  0 <= index -> index + Z.of_nat n <= npages mh ->
  (forall p, next = Some p -> 0 <= p < npages mh /\ (p < index \/ index + Z.of_nat n <= p)) ->
  (next = None -> (0 < n)%nat) ->
  exists mh', link_sequence n index next ret mh = ok (match next with None => index | Some _ => ret end, mh') /\
    length mh' = length mh /\ forall i, get mh' i = linked_get mh next index (Z.of_nat n) i.
Proof.
  revert index next ret mh. induction n as [|n IH]; intros index next ret mh Hi Hb Hp Hn.
  - destruct next as [p|]; [|specialize (Hn eq_refl); lia]. destruct (Hp p eq_refl) as [Hr _].
    cbn [link_sequence store]. rewrite write_upd by done. cbn [exec_bind].
    exists (upd mh p (-1)). split; [done|]. split; [apply length_upd|]. intros i. rewrite get_upd by done.
    unfold linked_get. rewrite Z.eqb_sym. destruct (Z.leb_spec index i), (Z.ltb_spec i (index + Z.of_nat 0)); try lia; done.
  - cbn [link_sequence].
    assert (exists ret1 mh1, store next index ret mh = ok (ret1, mh1) /\ length mh1 = length mh /\
              ret1 = match next with None => index | Some _ => ret end /\
              forall i, get mh1 i = match next with Some p => if i =? p then Some index else get mh i | None => get mh i end)
      as (ret1 & mh1 & E & Hlen & Hret & Hget).
    { destruct next as [p|]; cbn [store].
      - destruct (Hp p eq_refl) as [Hr _]. rewrite write_upd by done. cbn [exec_bind].
        eexists _, _. split; [done|]. split; [apply length_upd|]. split; [done|]. intros i.
        rewrite get_upd by done. by rewrite Z.eqb_sym.
      - by eexists _, _. }
    rewrite E. cbn [exec_bind].
    destruct (IH (index + 1) (Some index) ret1 mh1) as (mh' & E' & Hlen' & Hget'); unfold npages in *;
      [lia|lia|intros p [= <-]; lia|done|].
    rewrite E', Hret. exists mh'. split; [done|]. split; [by rewrite Hlen'|]. intros i. rewrite Hget'.
    unfold linked_get. rewrite Hget.
    destruct (Z.leb_spec (index + 1) i), (Z.ltb_spec i (index + 1 + Z.of_nat n)), (Z.leb_spec index i),
      (Z.ltb_spec i (index + Z.of_nat (S n))); cbn [andb]; try lia.
    + destruct (Z.eqb_spec i (index + 1 + Z.of_nat n - 1)), (Z.eqb_spec i (index + Z.of_nat (S n) - 1)); try lia; done.
    + destruct (Z.eqb_spec i index); [lia|]. destruct next as [p|]; [|done].
      destruct (Z.eqb_spec i p), (Z.eqb_spec (Z.of_nat (S n)) 0); try lia; done.
    + destruct (Z.eqb_spec i index); [|lia]. subst i.
      destruct (Z.eqb_spec (Z.of_nat n) 0), (Z.eqb_spec index (index + Z.of_nat (S n) - 1)); try lia; done.
    + destruct (Z.eqb_spec i index); [lia|]. destruct next as [p|]; [|done].
      destruct (Z.eqb_spec i p), (Z.eqb_spec (Z.of_nat (S n)) 0); try lia; done.
Qed.

(** The linked pages form a segment. *)
Lemma linked_seg mh mh' next index n :
  0 < index -> (0 < n)%nat -> index + Z.of_nat n <= npages mh' ->
  (forall i, index <= i < index + Z.of_nat n -> get mh' i = linked_get mh next index (Z.of_nat n) i) ->
  seg mh' index (seqZ index (Z.of_nat n)) (-1).
Proof.
  intros Hi Hn Hb Hget.
  assert (forall k i, index <= i -> i + Z.of_nat k = index + Z.of_nat n -> (0 < k)%nat ->
            seg mh' i (seqZ i (Z.of_nat k)) (-1)) as Hk.
  { induction k as [|k IH]; intros i Hle Hik Hk; [lia|].
    rewrite seqZ_cons by lia. split; [done|]. split; [lia|].
    assert (get mh' i = Some (if i =? index + Z.of_nat n - 1 then -1 else i + 1)) as Hgi.
    { rewrite Hget by lia. unfold linked_get.
      destruct (Z.leb_spec index i), (Z.ltb_spec i (index + Z.of_nat n)); try lia; done. }
    eexists. split; [exact Hgi|]. destruct (Z.eqb_spec i (index + Z.of_nat n - 1)).
    - assert (k = 0)%nat as -> by lia. done.
    - replace (Z.succ i) with (i + 1) by lia. replace (Z.pred (Z.of_nat (S k))) with (Z.of_nat k) by lia.
      apply IH; lia. }
  apply Hk; lia.
Qed.

(** ** The scattered allocation links runs *)

(** Linking a run of [k] free pages and closing it is linking a sequence of its pages,
    when the request ends in the run or there is a page behind it. *)
Lemma link_run_sequence n k index next ret mh :
  0 < index -> (forall p, next = Some p -> 0 <= p < npages mh /\ (p < index \/ get mh p <> Some 0)) ->
  (0 < n)%nat -> (0 < k)%nat -> (forall i, index <= i < index + Z.of_nat k -> get mh i = Some 0) ->
  (n <= k)%nat \/ index + Z.of_nat k < npages mh /\ get mh (index + Z.of_nat k) <> Some 0 ->
  exists ret' mh', let next' := Some (index + Z.of_nat (Nat.min n k) - 1) in
    link_run n index next ret mh = ok ((n - Nat.min n k)%nat, next', ret', mh') /\
    store next' (-1) ret' mh' = link_sequence (Nat.min n k) index next ret mh.
Proof.
  revert k index next ret mh. induction n as [|n IH]; intros k index next ret mh Hi Hp Hn Hk Hf Hend; [lia|].
  destruct k as [|k]; [lia|]. cbn [link_run]. rewrite (read_get mh index 0) by (apply Hf; lia). cbn [exec_bind Z.eqb].
  assert (exists ret1 mh1, store next index ret mh = ok (ret1, mh1) /\ npages mh1 = npages mh /\
            forall i, get mh1 i = match next with Some p => if i =? p then Some index else get mh i | None => get mh i end)
    as (ret1 & mh1 & E & Hlen & Hget).
  { destruct next as [p|]; cbn [store].
    - destruct (Hp p eq_refl) as [Hr _]. rewrite write_upd by done. cbn [exec_bind].
      eexists _, _. split; [done|]. split; [unfold npages; by rewrite length_upd|]. intros i.
      rewrite get_upd by done. by rewrite Z.eqb_sym.
    - by eexists _, _. }
  rewrite E. cbn [exec_bind].
  assert (forall j, index <= j -> get mh1 j = Some 0 <-> get mh j = Some 0) as Hsame.
  { intros j Hj. rewrite Hget. destruct next as [p|]; [|done]. destruct (Z.eqb_spec j p) as [->|]; [|done].
    destruct (Hp p eq_refl) as [_ [?|?]]; [lia|]. split; [intros [= ->]; lia|done]. }
  destruct n as [|n]; [|destruct k as [|k]].
  - exists ret1, mh1. cbn [link_run Nat.min link_sequence Nat.sub]. rewrite E. cbn [exec_bind].
    by replace (index + Z.of_nat 1 - 1) with index by lia.
  - destruct Hend as [?|[Hin Hu]]; [lia|]. destruct (get_range mh1 (index + 1)) as [h Hh]; [unfold npages in *; lia|].
    exists ret1, mh1. cbn [link_run Nat.min link_sequence Nat.sub]. rewrite E, (read_get _ _ _ Hh). cbn [exec_bind].
    replace (index + Z.of_nat 1 - 1) with index by lia.
    destruct (Z.eqb_spec h 0) as [->|]; [|done].
    destruct Hu. replace (index + Z.of_nat 1) with (index + 1) by lia. by apply Hsame; [lia|].
  - destruct (IH (S k) (index + 1) (Some index) ret1 mh1) as (ret' & mh' & Erun & Est); [lia| |lia|lia| | |].
    + intros p [= <-]. pose proof (get_Some_range _ _ _ (Hf index ltac:(lia))).
      unfold npages in *. lia.
    + intros i Hii. apply Hsame; [lia|]. apply Hf. lia.
    + destruct Hend as [?|[Hin Hu]]; [left; lia|right]. rewrite Hlen, Hsame by lia.
      replace (index + 1 + Z.of_nat (S k)) with (index + Z.of_nat (S (S k))) by lia. done.
    + exists ret', mh'. cbv zeta in *. rewrite <- !Nat.succ_min_distr in *.
      replace (index + Z.of_nat (S (S (Nat.min n k))) - 1) with (index + 1 + Z.of_nat (S (Nat.min n k)) - 1) by lia.
      rewrite Erun. split; [done|]. rewrite Est. cbn [link_sequence]. by rewrite E.
Qed.

(** A request that does not end in the last run reads behind the last page. *)
Lemma link_run_overrun k n index next ret mh :
  npages mh = index + Z.of_nat k -> 0 < index -> (k < n)%nat ->
  (forall i, index <= i < npages mh -> get mh i = Some 0) ->
  (forall p, next = Some p -> 0 <= p < npages mh /\ (p < index \/ get mh p <> Some 0)) ->
  link_run n index next ret mh = err OutOfBounds.
Proof.
  revert n index next ret mh. induction k as [|k IH]; intros n index next ret mh Hnp Hi Hk Hf Hp;
    (destruct n as [|n]; [lia|]); cbn [link_run].
  - unfold read. destruct (get mh index) as [v|] eqn:E; [|done]. apply get_Some_range in E. unfold npages in *. lia.
  - rewrite (read_get mh index 0) by (apply Hf; lia). cbn [exec_bind Z.eqb].
    destruct next as [p|]; cbn [store].
    + destruct (Hp p eq_refl) as [Hr Hpi]. assert (p < index) as Hlt.
      { destruct Hpi as [?|Hpi]; [done|]. destruct (Z.lt_ge_cases p index); [done|]. destruct Hpi. apply Hf. lia. }
      rewrite write_upd by (unfold npages in *; lia). cbn [exec_bind].
      assert (npages (upd mh p index) = npages mh) as Hn by (unfold npages; by rewrite length_upd).
      apply (IH n (index + 1)); try lia.
      * intros i Hii. rewrite get_upd_ne by lia. apply Hf. lia.
      * intros p' [= <-]. lia.
    + cbn [exec_bind]. apply (IH n (index + 1)); try lia.
      * intros i Hii. apply Hf. lia.
      * intros p' [= <-]. lia.
Qed.

(** ** Free pages as a list *)
Definition free_list (mh : list Z) : list Z :=
  filter (fun i => get mh i = Some 0) (seqZ XMS_START (npages mh - XMS_START)).

Lemma elem_of_free_list mh i : i ∈ free_list mh <-> XMS_START <= i /\ get mh i = Some 0.
Proof.
  unfold free_list. rewrite list_elem_of_filter, elem_of_seqZ. split; [by intros [? [? _]]|]. intros [Hi Hg].
  apply get_Some_range in Hg as Hr. unfold npages. split; [done|lia].
Qed.
Lemma NoDup_free_list mh : NoDup (free_list mh).
Proof. apply list.NoDup_filter, NoDup_seqZ. Qed.

Lemma free_suffix mh k index :
  0 <= index -> index + Z.of_nat k = npages mh ->
  length (filter (fun h => h = 0) (drop (Z.to_nat index) mh)) =
  length (filter (fun i => get mh i = Some 0) (seqZ index (Z.of_nat k))).
Proof.
  revert index. induction k as [|k IH]; intros index Hi Hk; unfold npages in *.
  - rewrite drop_nil_get by lia. done.
  - destruct (get_range mh index) as [h Hg]; [lia|]. rewrite (drop_cons_get _ _ _ Hg).
    rewrite seqZ_cons by lia. replace (Z.succ index) with (index + 1) by lia.
    replace (Z.pred (Z.of_nat (S k))) with (Z.of_nat k) by lia. specialize (IH (index + 1) ltac:(lia) ltac:(lia)).
    destruct (decide (h = 0)) as [->|Hh].
    + rewrite !filter_cons_True by done. cbn. by rewrite IH.
    + rewrite !filter_cons_False by (done || congruence). done.
Qed.

Lemma MEM_FreeTotal_list mh : XMS_START <= npages mh -> MEM_FreeTotal mh = Z.of_nat (length (free_list mh)).
Proof.
  intros Hx. unfold MEM_FreeTotal. rewrite FreeTotal_loop_count, Z.add_0_l. f_equal. unfold free_list.
  rewrite <- (Z2Nat.id (npages mh - XMS_START)) by lia. unfold XMS_START in *. apply free_suffix; lia.
Qed.

(** Taking the free pages [d] lowers the total by their number. *)
Lemma FreeTotal_take mh mh' d :
  XMS_START <= npages mh -> npages mh' = npages mh -> NoDup d ->
  (forall i, i ∈ d -> i ∈ free_list mh) ->
  (forall i, XMS_START <= i -> get mh' i = Some 0 <-> get mh i = Some 0 /\ i ∉ d) ->
  MEM_FreeTotal mh = MEM_FreeTotal mh' + Z.of_nat (length d).
Proof.
  intros Hx Hn Hd Hin Hiff. rewrite !MEM_FreeTotal_list by lia.
  assert (free_list mh ≡ₚ d ++ free_list mh') as ->%Permutation_length; [|rewrite length_app; lia].
  apply NoDup_Permutation; [apply NoDup_free_list| |].
  - apply list.NoDup_app. split; [done|]. split; [|apply NoDup_free_list].
    intros i Hi [Hxi Hg]%elem_of_free_list. apply (Hiff i Hxi) in Hg. tauto.
  - intros i. rewrite elem_of_app, !elem_of_free_list. split.
    + intros [Hxi Hg]. destruct (decide (i ∈ d)); [by left|right]. split; [done|]. by apply Hiff.
    + intros [Hi|[Hxi Hg]]; [by apply elem_of_free_list, Hin|]. apply Hiff in Hg as [? _]; done.
Qed.

(** ** Changing the blocks *)
Lemma owned_used mh cs i : owned mh cs -> i ∈ concat cs -> exists v, get mh i = Some v /\ v <> 0.
Proof.
  intros [Hb _ _ _] Hi. apply elem_of_concat in Hi as (c & Hic & Hc).
  rewrite list.Forall_forall in Hb. destruct (Hb c Hc) as [_ Hs]. by eapply (seg_used mh _ c (-1) i).
Qed.

(** Replace the blocks [olds] by [news]: a page of a new block was in an old block
    or free, and the old pages that are left become free. *)
Lemma owned_change mh mh' olds news cs :
  owned mh (olds ++ cs) -> npages mh' = npages mh -> Forall (block mh') news -> NoDup (concat news) ->
  (forall q, q ∈ concat news -> XMS_START <= q /\ (q ∈ concat olds \/ get mh q = Some 0)) ->
  (forall i, i ∉ concat olds -> i ∉ concat news -> get mh' i = get mh i) ->
  (forall i, i ∈ concat olds -> i ∉ concat news -> get mh' i = Some 0) ->
  owned mh' (news ++ cs).
Proof.
  intros Hown Hn Hblock Hd Hnew Hsame Hfreed. pose proof Hown as [Hb Hdis Hx Hrest].
  rewrite concat_app in Hdis, Hx. apply list.NoDup_app in Hdis as (Hdo & Hdoc & Hdc).
  apply list.Forall_app in Hx as [_ Hx]. apply list.Forall_app in Hb as [_ Hb].
  assert (forall q, q ∈ concat cs -> q ∉ concat news) as Hcn.
  { intros q Hq Hqn. destruct (Hnew q Hqn) as [_ [Hqo|Hqf]]; [by apply (Hdoc q)|].
    destruct (owned_used mh (olds ++ cs) q Hown) as (v & Hv & Hv0); [|congruence].
    rewrite concat_app, elem_of_app. by right. }
  split.
  - apply list.Forall_app. split; [done|]. rewrite list.Forall_forall in Hb |- *. intros c Hc.
    destruct (Hb c Hc) as [Hne Hs]. split; [done|]. eapply seg_ext; [|exact Hs]. intros q Hq.
    assert (q ∈ concat cs) as Hqc by (apply elem_of_concat; by exists c).
    apply Hsame; [|by apply Hcn]. intros Hqo. by apply (Hdoc q).
  - rewrite concat_app. apply list.NoDup_app. split; [done|]. split; [|done]. intros q Hq Hqc. by apply (Hcn q).
  - rewrite concat_app. apply list.Forall_app. split; [|done]. apply list.Forall_forall. intros q Hq. by apply Hnew.
  - intros i Hi Hni Hlt. rewrite concat_app, elem_of_app in Hni.
    destruct (decide (i ∈ concat olds)) as [Ho|Ho].
    + apply Hfreed; tauto.
    + rewrite Hsame by tauto. apply Hrest; [done| |lia]. rewrite concat_app, elem_of_app. tauto.
Qed.

Lemma owned_perm mh cs cs' : cs ≡ₚ cs' -> owned mh cs -> owned mh cs'.
Proof.
  intros Hp [Hb Hd Hx Hr]. assert (concat cs ≡ₚ concat cs') as Hc by (by apply Permutation_concat || by rewrite Hp).
  split; [by rewrite <- Hp|by rewrite <- Hc|by rewrite <- Hc|]. intros i Hi Hni. apply Hr; [done|]. by rewrite Hc.
Qed.

(** A block handed out: its pages are in range and no more than there are. *)
Lemma owned_pages mh c cs :
  owned mh (c :: cs) -> c <> [] /\ seg mh (hd 0 c) c (-1) /\ NoDup c /\ (length c < walk_fuel mh)%nat.
Proof.
  intros [Hb Hd _ _]. apply Forall_cons_1 in Hb as [[Hne Hs] _]. cbn in Hd. apply list.NoDup_app in Hd as (Hd & _).
  split; [done|]. split; [done|]. split; [done|]. unfold walk_fuel.
  pose proof (distinct_bound c (npages mh)) as Hp. unfold npages in *.
  assert (Z.of_nat (length c) <= Z.of_nat (length mh)); [|lia]. apply Hp; [lia|done|].
  intros q Hq. pose proof (seg_range _ _ _ _ q Hs Hq). unfold npages in *. lia.
Qed.

Lemma Release_owned mh c cs :
  owned mh (c :: cs) ->
  exists mh', MEM_ReleasePages (hd 0 c) mh = ok mh' /\ npages mh' = npages mh /\ owned mh' cs /\
    forall i, get mh' i = if decide (i ∈ c) then Some 0 else get mh i.
Proof.
  intros Hown. destruct (owned_pages mh c cs Hown) as (Hne & Hs & Hd & Hf).
  destruct (Release_loop_spec _ _ c mh Hs Hd Hf) as (mh' & E & Hlen & Hget).
  exists mh'. split; [exact E|]. split; [unfold npages; by rewrite Hlen|]. split; [|done].
  change cs with ([] ++ cs). apply (owned_change mh mh' [c] []); cbn [concat app]; try done.
  - unfold npages. by rewrite Hlen.
  - constructor.
  - by intros q ?%elem_of_nil.
  - intros i Hi _. rewrite Hget. rewrite app_nil_r in Hi. by rewrite decide_False.
  - intros i Hi _. rewrite Hget. rewrite app_nil_r in Hi. by rewrite decide_True.
Qed.

(** ** Lists of blocks, one for each handle, some empty *)
Definition real_blocks (bl : list (list Z)) : list (list Z) := filter (fun c => c <> []) bl.

Lemma real_blocks_open bl i c :
  bl !! i = Some c ->
  exists rest, real_blocks bl ≡ₚ real_blocks [c] ++ rest /\ forall c', real_blocks (<[i:=c']> bl) ≡ₚ real_blocks [c'] ++ rest.
Proof.
  intros Hc. pose proof (lookup_lt_Some _ _ _ Hc) as Hi. exists (real_blocks (take i bl ++ drop (S i) bl)).
  assert (forall x, real_blocks (take i bl ++ x :: drop (S i) bl) ≡ₚ real_blocks [x] ++ real_blocks (take i bl ++ drop (S i) bl)) as Hp.
  { intros x. unfold real_blocks. rewrite <- list.filter_app. apply filter_Permutation. cbn. by rewrite Permutation_middle. }
  split.
  - rewrite <- Hp. by rewrite take_drop_middle.
  - intros c'. rewrite <- Hp. by rewrite insert_take_drop by done.
Qed.
Lemma real_blocks_split bl i c c' :
  bl !! i = Some c ->
  exists rest, real_blocks bl ≡ₚ real_blocks [c] ++ rest /\ real_blocks (<[i:=c']> bl) ≡ₚ real_blocks [c'] ++ rest.
Proof. intros (rest & Hp & Hp')%real_blocks_open. by exists rest. Qed.
Lemma real_blocks_one c : c <> [] -> real_blocks [c] = [c].
Proof. intros Hc. unfold real_blocks. by rewrite filter_cons_True. Qed.
Lemma concat_real_blocks bl : concat (real_blocks bl) = concat bl.
Proof.
  unfold real_blocks. induction bl as [|c bl IH]; [done|]. destruct c as [|q c].
  - rewrite filter_cons_False by tauto. exact IH.
  - rewrite filter_cons_True by done. cbn [concat]. by rewrite IH.
Qed.
