(* ===== verification/PageOverrun.v ===== *)
(** * When the scattered allocation leaves the page table

    The inner loop of [MEM_AllocatePages] reads the entry behind a run before it looks
    whether there is one.  It takes the shortest runs first, so it comes to the run at
    the end of memory after all the runs that are no longer; if the request is not met
    then, it reads behind the last page.  [overruns] is that condition; this file shows
    how it changes while runs are taken. *)
From S2P Require Import Prelude.
From S2P Require Import PageAlloc.
From S2P Require Import PageSearch.
From S2P Require Import PageBlocks.
#[local] Open Scope Z_scope.

(** The free pages at the end of memory, from the [n] pages above [XMS_START]. *)
Fixpoint tail_run (n : nat) (mh : list Z) : Z :=
  match n with
  | O => 0
  | S n => if bool_decide (get mh (XMS_START + Z.of_nat n) = Some 0) then 1 + tail_run n mh else 0
  end.
Definition tail_free (mh : list Z) : Z := tail_run (Z.to_nat (npages mh - XMS_START)) mh.

(** Page [q] lies in more than [k] free pages that follow each other. *)
Definition in_longer (mh : list Z) (k q : Z) : bool :=
  existsb (fun a => (XMS_START <=? a) && forallb (fun i => bool_decide (get mh i = Some 0)) (seqZ a (k + 1))) (seqZ (q - k) (k + 1)).
(** The free pages in runs of at most [k] pages. *)
Definition short_pages (mh : list Z) (k : Z) : list Z := filter (fun q => in_longer mh k q = false) (free_list mh).
(** A request for [n] pages, for which there is room, reads behind the last page. *)
Definition overruns (mh : list Z) (n : Z) : bool :=
  (n <=? MEM_FreeTotal mh) && (0 <? tail_free mh) && (Z.of_nat (length (short_pages mh (tail_free mh))) <? n).

Lemma tail_run_spec n mh : XMS_START + Z.of_nat n = npages mh ->
  forall k, (k <= n)%nat -> (forall i, XMS_START + Z.of_nat k <= i < npages mh -> get mh i = Some 0) ->
  let t := tail_run k mh + Z.of_nat (n - k) in
  0 <= t /\ XMS_START <= npages mh - t /\ (forall i, npages mh - t <= i < npages mh -> get mh i = Some 0) /\
  (npages mh - t = XMS_START \/ get mh (npages mh - t - 1) <> Some 0).
Proof.
  intros Hn. induction k as [|k IH]; intros Hk Hf; cbn [tail_run].
  - cbv zeta. split; [plia|]. split; [plia|]. split; [intros i Hi; apply Hf; plia|]. left. plia.
  - case_bool_decide as Hg.
    + destruct IH as (H1 & H2 & H3 & H4); [lia| |].
      { intros i Hi. destruct (Z.eq_dec i (XMS_START + Z.of_nat k)) as [->|]; [done|]. apply Hf. lia. }
      cbv zeta. replace (1 + tail_run k mh + Z.of_nat (n - S k)) with (tail_run k mh + Z.of_nat (n - k)) by lia. done.
    + cbv zeta. split; [lia|]. split; [plia|]. split; [intros i Hi; apply Hf; plia|]. right.
      by replace (npages mh - (0 + Z.of_nat (n - S k)) - 1) with (XMS_START + Z.of_nat k) by lia.
Qed.
(** The run at the end of memory. *)
Lemma tail_free_spec mh : XMS_START <= npages mh ->
  (tail_free mh = 0 /\ forall a n, interval mh a n -> a + n < npages mh) \/
  (0 < tail_free mh /\ run mh (npages mh - tail_free mh) (tail_free mh)).
Proof.
  intros Hx. unfold tail_free. set (n := Z.to_nat (npages mh - XMS_START)).
  destruct (tail_run_spec n mh ltac:(lia) n) as (H1 & H2 & H3 & H4); [lia|intros i Hi; plia|].
  rewrite Nat.sub_diag, Z.add_0_r in *. destruct (Z.eq_dec (tail_run n mh) 0) as [E|Hne].
  - left. split; [done|]. rewrite E in H4. intros a k Hi. pose proof (interval_end _ _ _ Hi).
    destruct (Z.eq_dec (a + k) (npages mh)) as [E'|]; [|lia]. pose proof (interval_last _ _ _ Hi) as Hl. rewrite E' in Hl.
    destruct Hi as (? & ? & _). destruct H4 as [?|Hu]; [lia|]. rewrite Z.sub_0_r in Hu. done.
  - right. split; [lia|]. split; [split; [done|]; split; [lia|]; intros i Hi; apply H3; lia|]. split; [done|].
    replace (npages mh - tail_run n mh + tail_run n mh) with (npages mh) by lia.
    destruct (get mh (npages mh)) eqn:E; [|done]. apply get_Some_range in E. plia.
Qed.

(** ** Runs and the intervals that meet them *)
Lemma interval_in_run mh a n b m q : run mh a n -> interval mh b m -> a <= q < a + n -> b <= q < b + m ->
  a <= b /\ b + m <= a + n.
Proof.
  intros ((Ha & Hn & Fa) & La & Ra) (Hb & Hm & Fb) Hqa Hqb. split.
  - destruct (Z.le_gt_cases a b); [done|]. destruct La as [->|La]; [lia|]. destruct La. apply Fb. lia.
  - destruct (Z.le_gt_cases (b + m) (a + n)); [done|]. destruct Ra. apply Fb. lia.
Qed.
Lemma run_unique mh a n b m q : run mh a n -> run mh b m -> a <= q < a + n -> b <= q < b + m -> a = b /\ n = m.
Proof.
  intros Ha Hb Hqa Hqb. destruct (interval_in_run _ _ _ _ _ q Ha (proj1 Hb) Hqa Hqb).
  destruct (interval_in_run _ _ _ _ _ q Hb (proj1 Ha) Hqb Hqa). lia.
Qed.
Lemma in_longer_spec mh k q : 0 <= k ->
  in_longer mh k q = true <-> exists a, a <= q <= a + k /\ interval mh a (k + 1).
Proof.
  intros Hk. unfold in_longer. rewrite existsb_exists. split.
  - intros (a & Ha & [Hx%Z.leb_le Hf]%andb_prop). apply list_elem_of_In, elem_of_seqZ in Ha. exists a.
    split; [lia|]. split; [done|]. split; [lia|]. intros i Hi. rewrite forallb_forall in Hf.
    apply (bool_decide_eq_true _), Hf, list_elem_of_In, elem_of_seqZ. lia.
  - intros (a & Ha & Hx & _ & Hf). exists a. split; [apply list_elem_of_In, elem_of_seqZ; lia|].
    apply andb_true_intro. split; [by apply Z.leb_le|]. apply forallb_forall. intros i Hi%list_elem_of_In%elem_of_seqZ.
    apply (bool_decide_eq_true _), Hf. lia.
Qed.
Lemma elem_of_short mh k q : 0 <= k ->
  q ∈ short_pages mh k <-> q ∈ free_list mh /\ forall a, a <= q <= a + k -> ~ interval mh a (k + 1).
Proof.
  intros Hk. unfold short_pages. rewrite list_elem_of_filter, <- not_true_iff_false, in_longer_spec by done.
  split; [intros [Hn Hq]|intros [Hq Hn]]; first [split; [done|]|split; [|done]].
  - intros a Ha Hi. apply Hn. by exists a.
  - intros (a & Ha & Hi). by apply (Hn a Ha).
Qed.
Lemma NoDup_short mh k : NoDup (short_pages mh k).
Proof. apply list.NoDup_filter, NoDup_free_list. Qed.
(** A run of at most [k] pages is short. *)
Lemma run_short mh a n k q : run mh a n -> n <= k -> q ∈ seqZ a n -> q ∈ short_pages mh k.
Proof.
  intros Hr Hk Hq%elem_of_seqZ. pose proof Hr as ((Hx & Hn & Hf) & _). apply elem_of_short; [lia|]. split.
  - apply elem_of_free_list. split; [lia|]. apply Hf. lia.
  - intros b Hb Hi. destruct (interval_in_run _ _ _ _ _ q Hr Hi); lia.
Qed.
Lemma short_at_least mh a n k : run mh a n -> n <= k -> n <= Z.of_nat (length (short_pages mh k)).
Proof.
  intros Hr Hk. pose proof Hr as ((_ & Hn & _) & _).
  assert (seqZ a n ⊆+ short_pages mh k) as Hs.
  { apply NoDup_submseteq; [apply NoDup_seqZ|]. intros q Hq. by eapply run_short. }
  apply submseteq_length in Hs. rewrite length_seqZ in Hs. lia.
Qed.
(** When every other run is longer, the short pages are those of the one. *)
Lemma short_only mh a n : run mh a n -> (forall b m, run mh b m -> 1 <= m -> b = a \/ n < m) ->
  Z.of_nat (length (short_pages mh n)) <= n.
Proof.
  intros Hr Hall. pose proof Hr as ((_ & Hn & _) & _).
  assert (short_pages mh n ⊆+ seqZ a n) as Hs.
  { apply NoDup_submseteq; [apply NoDup_short|]. intros q [Hq Hno]%elem_of_short; [|lia].
    apply elem_of_free_list in Hq as [Hx Hg]. destruct (run_around mh q 1) as (b & m & Hb & ? & ?).
    { split; [done|]. split; [lia|]. intros i Hi. by replace i with q by lia. }
    apply elem_of_seqZ. destruct (Hall b m Hb ltac:(lia)) as [->|Hlt].
    - destruct (interval_in_run mh a n a m a Hr (proj1 Hb)); lia.
    - exfalso. destruct Hb as ((Hbx & _ & Hbf) & _). apply (Hno (Z.max b (q - n))); [lia|].
      split; [lia|]. split; [lia|]. intros i Hi. apply Hbf. lia. }
  apply submseteq_length in Hs. rewrite length_seqZ in Hs. lia.
Qed.

(** ** Taking a run *)
Section Taken.
Context (mh mh' : list Z) (a n : Z).
Context (Hsame : npages mh' = npages mh) (Hrun : run mh a n) (Hlast : a + n < npages mh).
Context (Hfree : forall i, get mh' i = Some 0 <-> get mh i = Some 0 /\ i ∉ seqZ a n).

Lemma taken_interval b m : interval mh' b m -> interval mh b m.
Proof using Hfree. intros (Hb & Hm & Hf). split; [done|]. split; [done|]. intros i Hi. by apply Hfree, Hf. Qed.
Lemma kept_interval b m q : interval mh b m -> b <= q < b + m -> q ∉ seqZ a n -> interval mh' b m.
Proof using Hfree Hrun.
  intros Hi Hq Hn. pose proof Hi as (Hb & Hm & Hf). split; [done|]. split; [done|]. intros i Hii. apply Hfree. split; [by apply Hf|].
  intros Hia%elem_of_seqZ. apply Hn, elem_of_seqZ. destruct (interval_in_run _ _ _ _ _ i Hrun Hi); lia.
Qed.
Lemma tail_taken : XMS_START <= npages mh -> tail_free mh' = tail_free mh.
Proof using Hfree Hlast Hrun Hsame.
  intros Hx. destruct (tail_free_spec mh Hx) as [[-> Hno]|[Hp Ht]]; destruct (tail_free_spec mh' ltac:(lia)) as [[E' Hno']|[Hp' Ht']].
  - done.
  - pose proof (Hno _ _ (taken_interval _ _ (proj1 Ht'))). lia.
  - assert (interval mh' (npages mh - tail_free mh) (tail_free mh)) as Hi; [|specialize (Hno' _ _ Hi); lia].
    apply (kept_interval _ _ (npages mh - 1)); [apply Ht|lia|]. intros Hin%elem_of_seqZ. lia.
  - assert (interval mh' (npages mh - tail_free mh) (tail_free mh)) as Hi.
    { apply (kept_interval _ _ (npages mh - 1)); [apply Ht|lia|]. intros Hin%elem_of_seqZ. lia. }
    rewrite Hsame in *. destruct (interval_in_run _ _ _ _ _ (npages mh - 1) Ht' Hi); [lia..|].
    destruct (interval_in_run _ _ _ _ _ (npages mh - 1) Ht (taken_interval _ _ (proj1 Ht'))); lia.
Qed.
Lemma short_taken k : n <= k -> length (short_pages mh k) = (Z.to_nat n + length (short_pages mh' k))%nat.
Proof using Hfree Hrun.
  intros Hk. pose proof Hrun as ((Hx & Hn & Hf) & _).
  assert (short_pages mh k ≡ₚ seqZ a n ++ short_pages mh' k) as ->%Permutation_length; [|by rewrite length_app, length_seqZ].
  apply NoDup_Permutation; [apply NoDup_short| |].
  - apply list.NoDup_app. split; [apply NoDup_seqZ|]. split; [|apply NoDup_short].
    intros q Hq [Hq' _]%elem_of_short; [|lia]. apply elem_of_free_list in Hq' as [_ Hg]. by apply Hfree in Hg as [_ ?].
  - intros q. rewrite elem_of_app. split.
    + intros Hq. destruct (decide (q ∈ seqZ a n)) as [?|Hni]; [by left|right].
      apply elem_of_short in Hq as [Hq Hno]; [|lia]. apply elem_of_free_list in Hq as [Hqx Hg]. apply elem_of_short; [lia|]. split.
      * apply elem_of_free_list. split; [done|]. by apply Hfree.
      * intros b Hb Hi. apply (Hno b Hb). by apply taken_interval.
    + intros [Hq|Hq]; [by eapply run_short|]. apply elem_of_short in Hq as [Hq Hno]; [|lia].
      apply elem_of_free_list in Hq as [Hqx [Hg Hni]%Hfree]. apply elem_of_short; [lia|]. split; [by apply elem_of_free_list|].
      intros b Hb Hi. apply (Hno b Hb). apply (kept_interval b (k + 1) q); [done|lia|done].
Qed.
End Taken.

(** ** When it cannot happen *)
Lemma overruns_last_used mh n : XMS_START <= npages mh -> get mh (npages mh - 1) <> Some 0 -> overruns mh n = false.
Proof.
  intros Hx Hl. unfold overruns. destruct (tail_free_spec mh Hx) as [[-> _]|[Hp Hr]]; [by rewrite andb_false_r|].
  destruct Hl. replace (npages mh - 1) with (npages mh - tail_free mh + tail_free mh - 1) by lia. apply interval_last, Hr.
Qed.
(** No run is longer than the one at the end of memory, as in a memory of which
    nothing has been released yet. *)
Lemma overruns_tail_longest mh n : XMS_START <= npages mh -> (forall a k, run mh a k -> k <= tail_free mh) -> overruns mh n = false.
Proof.
  intros Hx Hall. unfold overruns. destruct (Z.leb_spec n (MEM_FreeTotal mh)) as [Hn|]; [|done]. cbn [andb].
  destruct (Z.ltb_spec 0 (tail_free mh)); [|done]. cbn [andb]. apply Z.ltb_ge.
  rewrite MEM_FreeTotal_list in Hn by done. etrans; [exact Hn|]. apply inj_le, submseteq_length, NoDup_submseteq; [apply NoDup_free_list|].
  intros q Hq. pose proof Hq as [Hqx Hg]%elem_of_free_list. destruct (run_around mh q 1) as (b & m & Hb & ? & ?).
  { split; [done|]. split; [lia|]. intros i Hi. by replace i with q by lia. }
  apply (run_short mh b m); [done|by eapply Hall|]. apply elem_of_seqZ. lia.
Qed.
