(* ===== verification/PageTheorems.v ===== *)
(** * The allocator's promises

    Allocation, release and resizing preserve the ownership invariant, succeed
    exactly when there is room, and leave every other block alone. *)
From S2P Require Import Prelude.
From S2P Require Import GuestMemory.
From S2P Require Import GuestMemoryProofs.
From S2P Require Import PageAlloc.
From S2P Require Import PageSearch.
From S2P Require Import PageBlocks.
From S2P Require Import PageOverrun.
#[local] Open Scope Z_scope.
#[local] Open Scope exec_scope.

(** ** Sequential allocation *)
Lemma seqZ_hd a n : 0 < n -> hd 0 (seqZ a n) = a.
Proof. intros. by rewrite seqZ_cons by lia. Qed.

Lemma elem_of_seqZ_iff a n q : q ∈ seqZ a n <-> a <= q < a + n.
Proof. apply elem_of_seqZ. Qed.

(** Linking a free interval into a new block. *)
Lemma link_new_block mh cs index n :
  owned mh cs -> interval mh index (Z.of_nat n) ->
  exists mh', link_sequence n index None 0 mh = ok (index, mh') /\ npages mh' = npages mh /\
    owned mh' (seqZ index (Z.of_nat n) :: cs) /\
    forall i, i ∉ seqZ index (Z.of_nat n) -> get mh' i = get mh i.
Proof.
  intros Hown Hint. pose proof (interval_end mh _ _ Hint) as Hend. destruct Hint as (Hx & Hn & Hfree).
  destruct (link_sequence_spec n index None 0 mh) as (mh' & E & Hlen & Hget);
    [unfold XMS_START in *; lia|done|done|lia|].
  assert (npages mh' = npages mh) as Hnp by (unfold npages; by rewrite Hlen).
  exists mh'. split; [done|]. split; [done|].
  assert (forall i, i ∉ seqZ index (Z.of_nat n) -> get mh' i = get mh i) as Hout.
  { intros i Hi. rewrite Hget. unfold linked_get. rewrite elem_of_seqZ in Hi.
    destruct (Z.leb_spec index i), (Z.ltb_spec i (index + Z.of_nat n)); cbn [andb]; try done. lia. }
  split; [|done]. change (seqZ index (Z.of_nat n) :: cs) with ([seqZ index (Z.of_nat n)] ++ cs).
  apply (owned_change mh mh' [] [seqZ index (Z.of_nat n)]); cbn [concat app]; try done; rewrite ?app_nil_r.
  - repeat constructor.
    + rewrite seqZ_cons by lia. done.
    + rewrite seqZ_hd by lia. unfold XMS_START in *. eapply linked_seg; [lia|lia|lia|]. intros i Hi. apply Hget.
  - apply NoDup_seqZ.
  - intros q Hq%elem_of_seqZ. split; [lia|]. right. apply Hfree. lia.
  - intros i _ Hi. by apply Hout.
  - by intros i ?%elem_of_nil.
Qed.

Lemma Allocate_sequence mh cs n :
  owned mh cs -> npages mh < 0xfffffff -> 0 < n ->
  if MEM_FreeLargest mh <? n then MEM_AllocatePages n true mh = ok (0, mh)
  else exists h mh', MEM_AllocatePages n true mh = ok (h, mh') /\ XMS_START <= h /\ npages mh' = npages mh /\
         interval mh h n /\ owned mh' (seqZ h n :: cs) /\ forall i, i ∉ seqZ h n -> get mh' i = get mh i.
Proof.
  intros Hown Hsz Hn. pose proof (BestMatch_iff_FreeLargest mh n Hn Hsz) as Hiff.
  unfold MEM_AllocatePages. destruct (Z.eqb_spec n 0); [lia|].
  destruct (Z.ltb_spec (MEM_FreeLargest mh) n) as [Hlt|Hge].
  - destruct (Z.eqb_spec (BestMatch n mh) 0); [done|]. lia.
  - destruct (BestMatch_spec mh n Hn Hsz) as [(E & _)|(Hne & k & ((Hx & Hk & Hf) & _) & Hle & _)]; [lia|].
    destruct (Z.eqb_spec (BestMatch n mh) 0); [lia|].
    assert (interval mh (BestMatch n mh) n) as Hint by (split; [done|]; split; [done|]; intros i Hi; apply Hf; lia).
    destruct (link_new_block mh cs (BestMatch n mh) (Z.to_nat n)) as (mh' & E & Hnp & Ho & Hout);
      [done|by rewrite Z2Nat.id by lia|]. rewrite Z2Nat.id in Ho, Hout by lia.
    exists (BestMatch n mh), mh'. split; [done|]. split; [done|]. split; [done|]. by split.
Qed.

(** ** Scattered allocation

    The pages [c] linked so far end in the page [next] points to. *)
Definition linking (mh : list Z) (next : option Z) (ret : Z) (c : list Z) : Prop :=
  match next with
  | None => c = []
  | Some p => seg mh ret c (-1) /\ exists c0, c = c0 ++ [p]
  end.

Lemma link_round mh next ret c k index :
  linking mh next ret c -> NoDup c -> (0 < k)%nat -> interval mh index (Z.of_nat k) ->
  exists ret' mh', link_sequence k index next ret mh = ok (ret', mh') /\ npages mh' = npages mh /\
    linking mh' (Some (index + Z.of_nat k - 1)) ret' (c ++ seqZ index (Z.of_nat k)) /\
    (next = None -> ret' = index) /\ (next <> None -> ret' = ret) /\
    (forall i, i ∉ c -> i ∉ seqZ index (Z.of_nat k) -> get mh' i = get mh i).
Proof.
  intros Hl Hd Hk Hint. pose proof (interval_end mh _ _ Hint) as Hend. destruct Hint as (Hx & _ & Hfree).
  assert (forall p, next = Some p -> 0 <= p < npages mh /\ get mh p = Some (-1)) as Hp.
  { intros p ->. destruct Hl as (Hs & c0 & ->). apply seg_app in Hs as (m & _ & (-> & Hm & v & Hv & Hend')).
    cbn in Hend'. subst v. apply get_Some_range in Hv as Hr. split; [unfold npages; lia|done]. }
  destruct (link_sequence_spec k index next ret mh) as (mh' & E & Hlen & Hget);
    [unfold XMS_START in *; lia|done| |lia|].
  { intros p Hpn. destruct (Hp p Hpn) as [Hr Hv]. split; [done|].
    destruct (Z.lt_ge_cases p index); [by left|]. destruct (Z.le_gt_cases (index + Z.of_nat k) p); [by right|].
    rewrite Hfree in Hv by lia. done. }
  exists (match next with None => index | Some _ => ret end), mh'.
  assert (npages mh' = npages mh) as Hnp by (unfold npages; by rewrite Hlen).
  assert (seg mh' index (seqZ index (Z.of_nat k)) (-1)) as Hseg.
  { unfold XMS_START in *. eapply linked_seg; [lia|lia|lia|]. intros i Hi. apply Hget. }
  assert (forall i, i ∉ seqZ index (Z.of_nat k) -> next <> Some i -> get mh' i = get mh i) as Hout.
  { intros i Hi Hni. rewrite Hget. unfold linked_get. rewrite elem_of_seqZ in Hi.
    destruct (Z.leb_spec index i), (Z.ltb_spec i (index + Z.of_nat k)); cbn [andb]; try lia;
      (destruct next as [p|]; [|done]; destruct (Z.eqb_spec i p) as [->|]; done). }
  split; [done|]. split; [done|]. split; [|split; [by intros ->|split; [by destruct next|]]].
  - split.
    + destruct next as [p|]; [|cbn in Hl; subst c; done]. destruct Hl as (Hs & c0 & ->).
      apply seg_app in Hs as (m & Hs0 & (-> & Hm & v & Hv & Hend')). apply list.NoDup_app in Hd as (_ & Hd & _).
      rewrite <- app_assoc. apply seg_app. exists p. split.
      * eapply seg_ext; [|exact Hs0]. intros q Hq. apply Hout.
        -- intros Hqs%elem_of_seqZ. destruct (seg_used mh ret c0 p q ltac:(lia) Hs0 Hq) as (u & Hu & Hu0).
           rewrite Hfree in Hu by lia. congruence.
        -- intros [= ->]. apply (Hd q Hq). constructor.
      * split; [done|]. split; [done|]. exists index. split; [|exact Hseg]. rewrite Hget. unfold linked_get.
        destruct (Hp p eq_refl) as [Hr Hv']. rewrite Z.eqb_refl.
        destruct (Z.leb_spec index p), (Z.ltb_spec p (index + Z.of_nat k)); cbn [andb];
          try (rewrite Hfree in Hv' by lia; done); (destruct (Z.eqb_spec (Z.of_nat k) 0); [lia|done]).
    + exists (c ++ seqZ index (Z.of_nat k - 1)). rewrite <- app_assoc. f_equal.
      replace (Z.of_nat k) with (Z.of_nat k - 1 + 1) at 1 by lia. rewrite seqZ_app by lia.
      f_equal. replace (index + Z.of_nat k - 1) with (index + (Z.of_nat k - 1)) by lia. done.
  - intros i Hi His. apply Hout; [done|]. intros ->. destruct Hl as (_ & c0 & ->). apply Hi.
    rewrite elem_of_app. right. constructor.
Qed.

Lemma linking_used mh next ret c i : linking mh next ret c -> i ∈ c -> exists v, get mh i = Some v /\ v <> 0.
Proof.
  intros Hl Hi. destruct next as [p|]; cbn in Hl; [|subst; by apply elem_of_nil in Hi].
  destruct Hl as [Hs _]. by eapply (seg_used mh ret c (-1)).
Qed.

Lemma free_run_found mh :
  XMS_START <= npages mh -> npages mh < 0xfffffff -> 0 < MEM_FreeTotal mh ->
  BestMatch 1 mh <> 0 /\ exists n, run mh (BestMatch 1 mh) n /\ (forall a' n', run mh a' n' -> n <= n') /\
    (BestMatch 1 mh + n = npages mh -> forall a' n', run mh a' n' -> a' = BestMatch 1 mh \/ n < n').
Proof.
  intros Hx Hsz Hf. rewrite MEM_FreeTotal_list in Hf by done.
  destruct (free_list mh) as [|i fl] eqn:E; [cbn in Hf; lia|].
  assert (i ∈ free_list mh) as [Hi Hg]%elem_of_free_list by (rewrite E; constructor).
  assert (interval mh i 1) as Hint by (split; [done|]; split; [lia|]; intros j Hj; by replace j with i by lia).
  assert (forall a n, run mh a n -> 1 <= n) as Hpos by (intros a n ((_ & ? & _) & _); lia).
  destruct (BestMatch_spec mh 1 ltac:(lia) Hsz) as [(E' & Hno)|(Hne & n & Hr & _ & Hmin & Htie)].
  - destruct (run_around mh i 1 Hint) as (b & k & Hr & ? & ?). specialize (Hno b k Hr). specialize (Hpos b k Hr). lia.
  - split; [done|]. exists n. split; [done|]. split; [intros a' n' Hr'; by eapply Hmin, Hpos|].
    intros El a' n' Hr'. by eapply Htie, Hpos.
Qed.

(** The free pages after a round. *)
Lemma round_free mh mh' next next' ret ret' c d :
  linking mh next ret c -> linking mh' next' ret' (c ++ d) ->
  (forall i, i ∉ c -> i ∉ d -> get mh' i = get mh i) ->
  forall i, get mh' i = Some 0 <-> get mh i = Some 0 /\ i ∉ d.
Proof.
  intros Hl Hl' Hout i. destruct (decide (i ∈ c)) as [Hc|Hc]; [|destruct (decide (i ∈ d)) as [Hd|Hd]].
  - destruct (linking_used _ _ _ _ i Hl Hc) as (v & Hv & ?).
    destruct (linking_used _ _ _ _ i Hl') as (v' & Hv' & ?); [rewrite elem_of_app; by left|].
    split; [congruence|intros [? _]; congruence].
  - destruct (linking_used _ _ _ _ i Hl') as (v' & Hv' & ?); [rewrite elem_of_app; by right|].
    split; [congruence|by intros [_ ?]].
  - rewrite Hout by done. tauto.
Qed.

(** What is needed after a round that takes the first [k] pages of the run at [a]. *)
Lemma round_overruns mh mh' a n k (pages : nat) :
  run mh a (Z.of_nat n) -> (forall a' n', run mh a' n' -> Z.of_nat n <= n') -> XMS_START <= npages mh -> npages mh' = npages mh ->
  k = Nat.min pages n -> (pages <= n)%nat \/ a + Z.of_nat n < npages mh ->
  (forall i, get mh' i = Some 0 <-> get mh i = Some 0 /\ i ∉ seqZ a (Z.of_nat k)) ->
  MEM_FreeTotal mh = MEM_FreeTotal mh' + Z.of_nat k ->
  overruns mh (Z.of_nat pages) = overruns mh' (Z.of_nat (pages - k)).
Proof.
  intros Hr Hmin Hx Hnp -> Hend Hfree Htot. unfold overruns. destruct (Nat.le_gt_cases pages n) as [Hle|Hgt].
  - rewrite (Nat.min_l _ _ Hle), Nat.sub_diag, (proj2 (Z.ltb_ge _ 0)) by lia. rewrite andb_false_r.
    destruct (tail_free_spec mh Hx) as [[-> _]|[Hp Ht]]; [by rewrite andb_false_r|].
    pose proof (short_at_least mh a _ _ Hr (Hmin _ _ Ht)). rewrite (proj2 (Z.ltb_ge _ (Z.of_nat pages))) by lia. by rewrite andb_false_r.
  - rewrite (Nat.min_r pages n) in * by lia. destruct Hend as [?|Hlast]; [lia|].
    rewrite (tail_taken mh mh' a (Z.of_nat n)) by done.
    replace (Z.of_nat (pages - n) <=? MEM_FreeTotal mh') with (Z.of_nat pages <=? MEM_FreeTotal mh)
      by (destruct (Z.leb_spec (Z.of_nat pages) (MEM_FreeTotal mh)), (Z.leb_spec (Z.of_nat (pages - n)) (MEM_FreeTotal mh')); lia).
    destruct (tail_free_spec mh Hx) as [[-> _]|[Hp Ht]]; [by rewrite !andb_false_r|]. f_equal.
    rewrite (short_taken mh mh' a (Z.of_nat n)) by (done || by eapply Hmin).
    destruct (Z.ltb_spec (Z.of_nat (Z.to_nat (Z.of_nat n) + length (short_pages mh' (tail_free mh)))) (Z.of_nat pages)),
      (Z.ltb_spec (Z.of_nat (length (short_pages mh' (tail_free mh)))) (Z.of_nat (pages - n))); lia.
Qed.
(** The last run is taken, it is not enough, and all others are longer. *)
Lemma last_run_overruns mh a k n :
  run mh a k -> a + k = npages mh -> (forall b m, run mh b m -> b = a \/ k < m) -> XMS_START <= npages mh ->
  k < n <= MEM_FreeTotal mh -> overruns mh n = true.
Proof.
  intros Hrun Hend Htie Hx Hn. pose proof Hrun as ((_ & Hk & _) & _). unfold overruns.
  destruct (tail_free_spec mh Hx) as [[_ Hno]|[Hpos Ht]]; [specialize (Hno _ _ (proj1 Hrun)); lia|].
  destruct (run_unique _ _ _ _ _ (npages mh - 1) Ht Hrun) as [Ea Ek]; [lia..|]. rewrite Ek.
  pose proof (short_only mh a k Hrun ltac:(intros b m Hbm _; by apply Htie)).
  by rewrite (proj2 (Z.leb_le _ _)), (proj2 (Z.ltb_lt 0 _)), (proj2 (Z.ltb_lt _ n)) by lia.
Qed.
Lemma overruns_nothing mh : overruns mh 0 = false.
Proof. unfold overruns. rewrite (proj2 (Z.ltb_ge _ 0)) by lia. apply andb_false_r. Qed.

Lemma link_scattered_spec fuel pages next ret mh c :
  linking mh next ret c -> NoDup c -> XMS_START <= npages mh -> npages mh < 0xfffffff ->
  (pages <= fuel)%nat -> Z.of_nat pages <= MEM_FreeTotal mh ->
  if overruns mh (Z.of_nat pages) then link_scattered fuel pages next ret mh = err OutOfBounds else
  exists ret' mh' d next', link_scattered fuel pages next ret mh = ok (ret', mh') /\ npages mh' = npages mh /\
    length d = pages /\ NoDup (c ++ d) /\ (forall i, i ∈ d -> i ∈ free_list mh) /\
    linking mh' next' ret' (c ++ d) /\ (next <> None -> ret' = ret) /\
    (forall i, i ∉ c -> i ∉ d -> get mh' i = get mh i).
Proof.
  revert pages next ret mh c.
  induction fuel as [|fuel IH]; intros pages next ret mh c Hl Hd Hx Hsz Hfuel Hfree; (destruct pages as [|n];
    [rewrite overruns_nothing; exists ret, mh, [], next; rewrite app_nil_r; cbn [link_scattered];
     repeat split; try done; by intros i ?%elem_of_nil|]); [lia|].
  destruct (free_run_found mh Hx Hsz) as (Hb & k0 & Hrun & Hmin & Htie); [lia|].
  cbn [link_scattered]. set (index := BestMatch 1 mh) in *. destruct (Z.eqb_spec index 0); [done|].
  pose proof Hrun as ((Hxi & Hk0 & Hkf) & _ & Hu). pose proof (interval_end _ _ _ (proj1 Hrun)) as Hin.
  rewrite <- (Z2Nat.id k0) in Hrun, Hmin, Htie, Hkf, Hu, Hin by lia. set (k := Z.to_nat k0) in *.
  assert (forall p, next = Some p -> 0 <= p < npages mh /\ (p < index \/ get mh p <> Some 0)) as Hp.
  { intros p ->. destruct Hl as (Hs & c0 & ->).
    destruct (seg_used mh ret (c0 ++ [p]) (-1) p ltac:(done) Hs) as (v & Hv & ?); [rewrite elem_of_app; right; constructor|].
    apply get_Some_range in Hv as Hr. split; [unfold npages; lia|right; congruence]. }
  destruct (decide ((S n <= k)%nat \/ index + Z.of_nat k < npages mh)) as [Hend|Hend].
  2: { rewrite (link_run_overrun k); [|lia|plia|lia|intros i Hi; apply Hkf; lia|done]. cbn [exec_bind].
       by rewrite (last_run_overruns mh index (Z.of_nat k)) by (done || lia || (apply Htie; lia)). }
  destruct (link_run_sequence (S n) k index next ret mh) as (ret' & mh1 & Erun & Est);
    [plia|done|lia|lia|done|destruct Hend; [by left|by right]|].
  rewrite Erun. cbn [exec_bind]. rewrite Est. set (j := Nat.min (S n) k) in *. assert (0 < j <= S n)%nat as Hj by lia.
  assert (interval mh index (Z.of_nat j)) as Hint by (split; [done|]; split; [lia|intros i Hi; apply Hkf; lia]).
  destruct (link_round mh next ret c j index Hl Hd ltac:(lia) Hint) as (ret2 & mh2 & E & Hnp & Hl2 & Hret0 & Hret1 & Hout).
  rewrite E. cbn [exec_bind]. set (d1 := seqZ index (Z.of_nat j)) in *.
  assert (length d1 = j) as Hlen1 by (unfold d1; rewrite length_seqZ; lia).
  assert (forall i, i ∈ d1 -> i ∈ free_list mh) as Hd1.
  { intros i Hi%elem_of_seqZ. apply elem_of_free_list. split; [lia|]. apply Hint. lia. }
  pose proof (round_free mh mh2 _ _ _ _ c d1 Hl Hl2 Hout) as Hff.
  assert (NoDup (c ++ d1)) as Hnd.
  { apply list.NoDup_app. split; [done|]. split; [|apply NoDup_seqZ]. intros i Hic Hid.
    destruct (linking_used _ _ _ _ i Hl Hic) as (v & Hv & ?). apply Hd1, elem_of_free_list in Hid as [_ ?]. congruence. }
  assert (MEM_FreeTotal mh = MEM_FreeTotal mh2 + Z.of_nat j) as Htot.
  { rewrite <- Hlen1. apply FreeTotal_take; [done|done|apply NoDup_seqZ|done|]. intros i _. apply Hff. }
  rewrite (round_overruns mh mh2 index k j (S n)) by done.
  pose proof (IH (S n - j)%nat _ ret2 mh2 (c ++ d1) Hl2 Hnd ltac:(lia) ltac:(lia) ltac:(lia) ltac:(lia)) as H.
  destruct (overruns mh2 _); [done|].
  destruct H as (ret3 & mh3 & d2 & next3 & E3 & Hnp3 & Hlen & Hnd3 & Hd2 & Hl3 & Hret3 & Hout3).
  exists ret3, mh3, (d1 ++ d2), next3. rewrite !app_assoc. split; [done|]. split; [lia|].
  split; [rewrite length_app; lia|]. split; [done|]. split; [|split; [done|split]].
  - intros i [Hi|Hi]%elem_of_app; [by apply Hd1|]. apply Hd2, elem_of_free_list in Hi as [? Hi].
    apply elem_of_free_list. split; [done|]. by apply Hff.
  - intros Hne. rewrite Hret3 by done. by apply Hret1.
  - intros i Hic Hi. rewrite elem_of_app in Hi. rewrite Hout3 by (rewrite ?elem_of_app; tauto). apply Hout; tauto.
Qed.

Lemma Allocate_scattered mh cs n :
  owned mh cs -> XMS_START <= npages mh < 0xfffffff -> 0 < n ->
  if MEM_FreeTotal mh <? n then MEM_AllocatePages n false mh = ok (0, mh)
  else if overruns mh n then MEM_AllocatePages n false mh = err OutOfBounds
  else exists h mh' c, MEM_AllocatePages n false mh = ok (h, mh') /\ npages mh' = npages mh /\
         Z.of_nat (length c) = n /\ h = hd 0 c /\ XMS_START <= h /\ (forall i, i ∈ c -> get mh i = Some 0) /\
         owned mh' (c :: cs) /\ forall i, i ∉ c -> get mh' i = get mh i.
Proof.
  intros Hown [Hx Hsz] Hn. unfold MEM_AllocatePages. destruct (Z.eqb_spec n 0); [lia|].
  destruct (Z.ltb_spec (MEM_FreeTotal mh) n) as [|Hfree]; [done|].
  pose proof (link_scattered_spec (Z.to_nat n) (Z.to_nat n) None 0 mh [] ltac:(done) ltac:(constructor) Hx Hsz ltac:(lia) ltac:(lia)) as Hs.
  rewrite Z2Nat.id in Hs by lia. destruct (overruns mh n); [done|].
  destruct Hs as (h & mh' & c & next' & E & Hnp & Hlen & Hnd & Hc & Hl & _ & Hout). cbn [app] in *.
  assert (exists p, next' = Some p) as (p & ->).
  { destruct next' as [p|]; [by exists p|]. cbn in Hl. subst c. cbn in Hlen. lia. }
  destruct Hl as (Hs & _). destruct c as [|q c]; [cbn in Hlen; lia|]. pose proof (seg_head _ _ _ _ _ Hs) as Hq. subst h.
  exists q, mh', (q :: c). split; [done|]. split; [done|]. split; [lia|]. split; [done|].
  assert (forall i, i ∈ q :: c -> XMS_START <= i /\ get mh i = Some 0) as Hf.
  { intros i Hi. by apply elem_of_free_list, Hc. }
  split; [apply Hf; constructor|]. split; [intros i Hi; by apply Hf|]. split.
  - change ((q :: c) :: cs) with ([q :: c] ++ cs).
    apply (owned_change mh mh' [] [q :: c]); cbn [concat app hd]; rewrite ?app_nil_r; try done.
    + constructor; [|constructor]. by split.
    + intros i Hi. destruct (Hf i Hi) as [? ?]. split; [done|by right].
    + by intros i ?%elem_of_nil.
  - intros i Hi. apply Hout; [apply not_elem_of_nil|done].
Qed.
