(* ===== verification/PageResize.v ===== *)
(** * Resizing a block of pages *)
From S2P Require Import Prelude.
From S2P Require Import GuestMemory.
From S2P Require Import GuestMemoryProofs.
From S2P Require Import PageAlloc.
From S2P Require Import PageSearch.
From S2P Require Import PageBlocks.
From S2P Require Import PageOverrun.
From S2P Require Import PageTheorems.
#[local] Open Scope Z_scope.
#[local] Open Scope exec_scope.

(** ** The loops *)
Lemma count_block_spec fuel p c last old mh :
  seg mh p c (-1) -> (length c < fuel)%nat ->
  count_block fuel p last old mh = ok (List.last c last, old + Z.of_nat (length c)).
Proof.
  revert fuel p last old. induction c as [|q c IH]; intros fuel p last old Hs Hf; destruct fuel as [|fuel];
    cbn [length] in Hf; try lia; cbn [count_block].
  - cbn in Hs. subst p. cbn. do 2 f_equal. lia.
  - destruct Hs as (-> & Hq & n & Hn & Hs). destruct (Z.ltb_spec 0 q); [|lia].
    rewrite (read_get _ _ _ Hn). cbn [exec_bind]. rewrite (IH fuel n q (old + 1)) by (done || lia).
    f_equal. f_equal; [|cbn [length]; lia]. destruct c as [|r c]; [done|]. cbn [List.last].
    clear. revert r. induction c as [|r' c IH]; intros r; [done|]. apply IH.
Qed.

Lemma AllocatedPages_spec fuel p c pages mh :
  seg mh p c (-1) -> (length c < fuel)%nat -> AllocatedPages_loop fuel p pages mh = ok (pages + Z.of_nat (length c)).
Proof.
  revert fuel p pages. induction c as [|q c IH]; intros fuel p pages Hs Hf; destruct fuel as [|fuel];
    cbn [length] in Hf; try lia; cbn [AllocatedPages_loop].
  - cbn in Hs. subst p. cbn. f_equal. lia.
  - destruct Hs as (-> & Hq & n & Hn & Hs). destruct (Z.ltb_spec 0 q); [|lia].
    rewrite (read_get _ _ _ Hn). cbn [exec_bind]. rewrite (IH fuel n (pages + 1)) by (done || lia).
    f_equal. cbn [length]. lia.
Qed.

Lemma skip_pages_spec p c q d e mh : seg mh p (c ++ q :: d) e -> skip_pages (length c) p mh = ok q.
Proof.
  revert p. induction c as [|r c IH]; intros p Hs; cbn [length skip_pages].
  - by apply seg_head in Hs as ->.
  - destruct Hs as (-> & Hr & n & Hn & Hs). rewrite (read_get _ _ _ Hn). cbn [exec_bind]. by apply IH.
Qed.

Lemma free_pages_spec p c e mh :
  seg mh p c e -> NoDup c ->
  exists mh', free_pages (length c) p mh = ok mh' /\ length mh' = length mh /\
    forall i, get mh' i = if decide (i ∈ c) then Some 0 else get mh i.
Proof.
  revert p mh. induction c as [|q c IH]; intros p mh Hs Hd; cbn [length free_pages].
  - exists mh. split; [done|]. split; [done|]. intros i. by rewrite decide_False by apply not_elem_of_nil.
  - destruct Hs as (-> & Hq & n & Hn & Hs). apply list.NoDup_cons in Hd as [Hqc Hd].
    pose proof (get_Some_range _ _ _ Hn) as Hr.
    rewrite (read_get _ _ _ Hn), (write_upd mh q 0 Hr). cbn [exec_bind].
    destruct (IH n (upd mh q 0)) as (mh' & E & Hlen & Hget); [|done|].
    { eapply seg_ext; [|exact Hs]. intros r Hrc. apply get_upd_ne; [lia|]. intros ->. done. }
    exists mh'. split; [done|]. split; [by rewrite Hlen, length_upd|]. intros i. rewrite Hget, get_upd by lia.
    destruct (Z.eqb_spec q i) as [->|Hne].
    + rewrite (decide_True (P := i ∈ i :: c)) by constructor. by case_decide.
    + destruct (decide (i ∈ c)), (decide (i ∈ q :: c)) as [|Hni]; try done.
      * destruct Hni. by constructor.
      * by match goal with Hin : i ∈ q :: c |- _ => apply elem_of_cons in Hin as [?|?] end.
Qed.

Lemma extend_link n index ret mh :
  link_sequence n (index + 1) (Some index) ret mh = let* mh' := extend_block n index mh in ok (ret, mh').
Proof.
  revert index mh. induction n as [|n IH]; intros index mh; cbn [link_sequence extend_block store].
  - by destruct (write mh index (-1)).
  - destruct (write mh index (index + 1)) as [mh'|]; cbn [exec_bind]; [apply IH|done].
Qed.

Lemma free_behind_count l free : free <= free_behind l free.
Proof. revert free. induction l as [|h l IH]; intros free; cbn; [lia|]. destruct (h =? 0); [|lia]. specialize (IH (free + 1)). lia. Qed.
Lemma free_behind_spec mh index free l :
  0 <= index -> l = drop (Z.to_nat index) mh ->
  forall i, index <= i < index + (free_behind l free - free) -> get mh i = Some 0.
Proof.
  revert index free. induction l as [|h l IH]; intros index free Hi Hl i Hr; cbn in Hr; [lia|].
  destruct (Z.eqb_spec h 0) as [->|]; [|lia].
  assert (get mh index = Some 0) as Hg.
  { destruct (get mh index) as [v|] eqn:E; [rewrite (drop_cons_get _ _ _ E) in Hl; congruence|].
    apply get_None_range in E; [|done]. by rewrite drop_nil_get in Hl. }
  destruct (Z.eq_dec i index) as [->|]; [done|]. apply (IH (index + 1) (free + 1)); [lia| |lia].
  rewrite (drop_cons_get _ _ _ Hg) in Hl. congruence.
Qed.

(** ** Outcomes *)
Section Resize.
Context {M : Type} `{ByteMemoryLaws M}.

(** The first pages of the block keep their bytes. *)
Definition same_contents (c c' : list Z) (m m' : M) : Prop :=
  forall k p q, c !! k = Some p -> c' !! k = Some q ->
  forall i, 0 <= i < DosPageSize -> readb (q * DosPageSize + i) m' = readb (p * DosPageSize + i) m.
Definition contiguous (c : list Z) : Prop := c = seqZ (hd 0 c) (Z.of_nat (length c)).

Lemma same_contents_prefix c c' d m : c = c' ++ d \/ c' = c ++ d -> same_contents c c' m m.
Proof using.
  intros Hc k p q Hp Hq i _. assert (p = q) as ->; [|done].
  destruct Hc as [-> | ->].
  - rewrite lookup_app_l in Hp by (eapply lookup_lt_Some; done). congruence.
  - rewrite lookup_app_l in Hq by (eapply lookup_lt_Some; done). congruence.
Qed.

(** *** Shrinking *)
Lemma shrink_owned mh c cs n :
  owned mh (c :: cs) -> 0 < n < Z.of_nat (length c) ->
  exists mh', shrink_block (hd 0 c) n (Z.of_nat (length c)) mh = ok mh' /\ npages mh' = npages mh /\
    owned mh' (take (Z.to_nat n) c :: cs).
Proof using.
  intros Hown Hn. destruct (owned_pages mh c cs Hown) as (Hne & Hs & Hd & _).
  pose proof (owned_xms _ _ Hown) as Hxms. cbn [concat] in Hxms. apply list.Forall_app in Hxms as [Hxms _].
  rewrite list.Forall_forall in Hxms.
  destruct (lookup_lt_is_Some_2 c (Z.to_nat n - 1)%nat) as [x Hx]; [lia|].
  pose proof (take_drop_middle c _ x Hx) as Hsplit. replace (S (Z.to_nat n - 1)) with (Z.to_nat n) in Hsplit by lia.
  set (c1 := take (Z.to_nat n - 1) c) in *. set (c2 := drop (Z.to_nat n) c) in *.
  assert (length c1 = (Z.to_nat n - 1)%nat) as Hl1 by (unfold c1; rewrite length_take; lia).
  assert (length c2 = (length c - Z.to_nat n)%nat) as Hl2 by (unfold c2; by rewrite length_drop).
  assert (take (Z.to_nat n) c = c1 ++ [x]) as Ht.
  { replace (Z.to_nat n) with (S (Z.to_nat n - 1)) by lia. by apply take_S_r. }
  rewrite Ht. unfold shrink_block. rewrite <- Hsplit in Hs at 2.
  replace (Z.to_nat (n - 1)) with (length c1) by lia. rewrite (skip_pages_spec _ _ x c2 (-1) mh Hs). cbn [exec_bind].
  apply seg_app in Hs as (p1 & Hs1 & (-> & Hx0 & nx & Hnx & Hs2)).
  pose proof (get_Some_range _ _ _ Hnx) as Hxr.
  rewrite (read_get _ _ _ Hnx), write_upd by done. cbn [exec_bind].
  rewrite <- Hsplit in Hd. apply list.NoDup_app in Hd as (Hd1 & Hd12 & Hd2). apply list.NoDup_cons in Hd2 as [Hxc2 Hd2].
  replace (Z.to_nat (Z.of_nat (length c) - n)) with (length c2) by lia.
  destruct (free_pages_spec nx c2 (-1) (upd mh x (-1))) as (mh' & E & Hlen & Hget); [|done|].
  { eapply seg_ext; [|exact Hs2]. intros q Hq. apply get_upd_ne; [lia|]. intros ->. done. }
  exists mh'. split; [done|]. assert (npages mh' = npages mh) as Hnp by (unfold npages; by rewrite Hlen, length_upd).
  split; [done|]. change ((c1 ++ [x]) :: cs) with ([c1 ++ [x]] ++ cs).
  assert (forall i, get mh' i = if decide (i ∈ c2) then Some 0 else if x =? i then Some (-1) else get mh i) as Hget'.
  { intros i. rewrite Hget. case_decide; [done|]. by rewrite get_upd. }
  assert (forall i, i ∈ c1 -> i <> x /\ i ∉ c2) as Hc1.
  { intros i Hi. specialize (Hd12 i Hi). rewrite elem_of_cons in Hd12. tauto. }
  apply (owned_change mh mh' [c] [c1 ++ [x]]); cbn [concat app]; rewrite ?app_nil_r; try done.
  - constructor; [|constructor]. split; [by destruct c1|].
    replace (hd 0 (c1 ++ [x])) with (hd 0 c) by (rewrite <- Hsplit; by destruct c1).
    apply seg_app. exists x. split.
    + eapply seg_ext; [|exact Hs1]. intros q Hq. rewrite Hget'. destruct (Hc1 q Hq).
      rewrite decide_False by done. destruct (Z.eqb_spec x q); [congruence|done].
    + split; [done|]. split; [done|]. exists (-1). split; [|done]. rewrite Hget', decide_False, Z.eqb_refl by done. done.
  - apply list.NoDup_app. split; [done|]. split; [|apply NoDup_singleton].
    intros i Hi Hi'%list_elem_of_singleton. by destruct (Hc1 i Hi).
  - intros q Hq. assert (q ∈ c) as Hqc by (rewrite <- Hsplit; rewrite elem_of_app, elem_of_cons; rewrite elem_of_app, list_elem_of_singleton in Hq; tauto).
    split; [by apply Hxms|by left].
  - intros i Hi _. rewrite <- Hsplit, elem_of_app, elem_of_cons in Hi. rewrite Hget', decide_False by tauto.
    destruct (Z.eqb_spec x i) as [->|]; [tauto|done].
  - intros i Hi Hni. rewrite <- Hsplit, elem_of_app, elem_of_cons in Hi. rewrite elem_of_app, list_elem_of_singleton in Hni.
    rewrite Hget', decide_True by tauto. done.
Qed.

(** *** Growing in place *)
Lemma block_last mh c : c <> [] -> seg mh (hd 0 c) c (-1) -> linking mh (Some (List.last c 0)) (hd 0 c) c.
Proof using.
  intros Hne Hs. split; [done|]. destruct (exists_last Hne) as (c0 & p & ->).
  exists c0. by rewrite last_last.
Qed.

(** Adding the free interval behind the last page to the block. *)
Lemma grow_owned mh c cs need :
  owned mh (c :: cs) -> 0 < need -> need <= free_behind (drop (Z.to_nat (List.last c 0 + 1)) mh) 0 ->
  exists mh', extend_block (Z.to_nat need) (List.last c 0) mh = ok mh' /\ npages mh' = npages mh /\
    owned mh' ((c ++ seqZ (List.last c 0 + 1) need) :: cs).
Proof using.
  intros Hown Hneed Hfree. destruct (owned_pages mh c cs Hown) as (Hne & Hs & Hd & _).
  pose proof (block_last mh c Hne Hs) as Hl. set (p := List.last c 0) in *. clearbody p.
  assert (p ∈ c) as Hpc by (destruct Hl as (_ & c0 & ->); rewrite elem_of_app; right; constructor).
  pose proof (owned_xms _ _ Hown) as Hxms. cbn [concat] in Hxms. apply list.Forall_app in Hxms as [Hxms _].
  rewrite list.Forall_forall in Hxms. pose proof (Hxms p Hpc) as Hpx. unfold XMS_START in Hpx.
  assert (interval mh (p + 1) (Z.of_nat (Z.to_nat need))) as Hint.
  { split; [unfold XMS_START; lia|]. split; [lia|]. intros i Hi.
    apply (free_behind_spec mh (p + 1) 0 _ ltac:(lia) eq_refl). lia. }
  destruct (link_round mh (Some p) (hd 0 c) c (Z.to_nat need) (p + 1) Hl Hd ltac:(lia) Hint)
    as (ret' & mh' & E & Hnp & Hl' & _ & Hret & Hout).
  rewrite extend_link in E. destruct (extend_block (Z.to_nat need) p mh) as [mh1|] eqn:Ex; cbn [exec_bind] in E; [|done].
  injection E as <- <-. rewrite Z2Nat.id in * by lia. exists mh1. split; [done|]. split; [done|].
  change ((c ++ seqZ (p + 1) need) :: cs) with ([c ++ seqZ (p + 1) need] ++ cs).
  apply (owned_change mh mh1 [c] [c ++ seqZ (p + 1) need]); cbn [concat app]; rewrite ?app_nil_r; try done.
  - constructor; [|constructor]. destruct Hl' as [Hs' _]. split; [by destruct c|].
    replace (hd 0 (c ++ seqZ (p + 1) need)) with (hd 0 c) by (by destruct c). exact Hs'.
  - apply list.NoDup_app. split; [done|]. split; [|apply NoDup_seqZ]. intros i Hi Hi'%elem_of_seqZ.
    destruct (seg_used mh (hd 0 c) c (-1) i ltac:(done) Hs Hi) as (v & Hv & ?).
    destruct Hint as (_ & _ & Hf). rewrite Hf in Hv by lia. congruence.
  - intros q Hq%elem_of_app. destruct Hq as [Hq|Hq]; [split; [by apply Hxms|by left]|].
    apply elem_of_seqZ in Hq. destruct Hint as (Hx & _ & Hf). split; [lia|right; apply Hf; lia].
  - intros i Hi Hi'. rewrite elem_of_app in Hi'. apply Hout; tauto.
  - intros i Hi Hni. destruct Hni. rewrite elem_of_app. by left.
Qed.

(** *** Joining a second block behind the first *)
Lemma join_owned mh c d cs :
  owned mh (d :: c :: cs) -> exists mh', write mh (List.last c 0) (hd 0 d) = ok mh' /\ npages mh' = npages mh /\
    owned mh' ((c ++ d) :: cs).
Proof using.
  intros Hown. pose proof (owned_perm mh _ (c :: d :: cs) (Permutation_swap _ _ _) Hown) as Hown'.
  destruct (owned_pages mh c (d :: cs) Hown') as (Hne & Hs & Hdc & _).
  destruct (owned_pages mh d (c :: cs) Hown) as (Hned & Hsd & Hdd & _).
  destruct (exists_last Hne) as (c0 & p & ->). rewrite last_last.
  pose proof (owned_disjoint _ _ Hown') as Hdis. cbn [concat] in Hdis. rewrite app_assoc in Hdis.
  apply list.NoDup_app in Hdis as (Hcd & _ & _). pose proof Hcd as Hcd'. apply list.NoDup_app in Hcd' as (_ & Hcd' & _).
  pose proof (owned_xms _ _ Hown') as Hxms. cbn [concat] in Hxms. rewrite app_assoc in Hxms.
  apply list.Forall_app in Hxms as [Hxms _]. rewrite list.Forall_forall in Hxms.
  apply seg_app in Hs as (p1 & Hs0 & (-> & Hp & v & Hv & _)). pose proof (get_Some_range _ _ _ Hv) as Hr.
  exists (upd mh p (hd 0 d)). rewrite write_upd by done. split; [done|].
  assert (npages (upd mh p (hd 0 d)) = npages mh) as Hnp by (unfold npages; by rewrite length_upd).
  split; [done|]. change (((c0 ++ [p]) ++ d) :: cs) with ([(c0 ++ [p]) ++ d] ++ cs).
  assert (forall i, i <> p -> get (upd mh p (hd 0 d)) i = get mh i) as Hne'
      by (intros i Hi; apply get_upd_ne; [lia|congruence]).
  apply list.NoDup_app in Hdc as (_ & Hd0 & _).
  apply (owned_change mh _ [c0 ++ [p]; d] [(c0 ++ [p]) ++ d]); cbn [concat app]; rewrite ?app_nil_r; try done.
  - constructor; [|constructor]. split; [by destruct c0|].
    replace (hd 0 ((c0 ++ [p]) ++ d)) with (hd 0 (c0 ++ [p])) by (by destruct c0).
    rewrite <- app_assoc. apply seg_app. exists p. split.
    + eapply seg_ext; [|exact Hs0]. intros q Hq. apply Hne'. intros ->. apply (Hd0 p Hq). constructor.
    + split; [done|]. split; [done|]. exists (hd 0 d). split; [by apply get_upd_eq|].
      eapply seg_ext; [|exact Hsd]. intros q Hq. apply Hne'. intros ->. apply (Hcd' p); [|done].
      rewrite elem_of_app. right. constructor.
  - intros q Hq. split; [by apply Hxms|by left].
  - intros i Hi _. apply Hne'. intros ->. apply Hi. rewrite !elem_of_app. left. right. constructor.
Qed.

(** *** Moving to a new block *)
Lemma copy_contents c c' n mh m :
  contiguous c -> c' = seqZ (hd 0 c') n -> Z.of_nat (length c) <= n ->
  (forall q, q ∈ c -> 0 < q < npages mh) -> (forall q, q ∈ c' -> 0 < q < npages mh) -> npages mh <= 1048576 ->
  (forall q, q ∈ c -> q ∉ c') -> c <> [] ->
  let m' := MEM_BlockCopy (PhysPt (hd 0 c' * 4096)) (PhysPt (hd 0 c * 4096)) (Z.to_nat (Z.of_nat (length c) * 4096)) m in
  same_contents c c' m m' /\
  (forall a, a < hd 0 c' * DosPageSize \/ (hd 0 c' + n) * DosPageSize <= a -> readb a m' = readb a m).
Proof using Type*.
  intros Hc Hc' Hle Hrc Hrc' Hmax Hdis Hne. cbv zeta.
  assert (0 < length c)%nat as Hlen by (destruct c; [done|cbn; lia]).
  set (h := hd 0 c) in *. set (h' := hd 0 c') in *. set (k := Z.of_nat (length c)) in *.
  assert (forall q, h <= q < h + k -> q ∈ c) as Hin by (intros q Hq; rewrite Hc; by apply elem_of_seqZ).
  assert (forall q, h' <= q < h' + n -> q ∈ c') as Hin' by (intros q Hq; rewrite Hc'; by apply elem_of_seqZ).
  pose proof (Hrc h (Hin h ltac:(lia))). pose proof (Hrc (h + k - 1) (Hin (h + k - 1) ltac:(lia))).
  pose proof (Hrc' h' (Hin' h' ltac:(lia))). pose proof (Hrc' (h' + n - 1) (Hin' (h' + n - 1) ltac:(lia))).
  assert (h' + k <= h \/ h + k <= h') as Hsep.
  { destruct (Z.le_gt_cases h' h) as [Hhh|Hhh].
    - left. destruct (Z.le_gt_cases (h' + k) h); [done|]. exfalso. apply (Hdis h); [apply Hin; lia|apply Hin'; lia].
    - right. destruct (Z.le_gt_cases (h + k) h'); [done|]. exfalso. apply (Hdis h'); [apply Hin; lia|apply Hin'; lia]. }
  unfold PhysPt. rewrite !u32_small by lia.
  destruct (block_copy_moves (h' * 4096) (h * 4096) (Z.to_nat (k * 4096)) m) as [Hcopy Hout]; [lia..|]. split.
  - intros j p q Hp Hq i Hi. unfold DosPageSize in *.
    assert (Z.of_nat j < k) as Hj by (apply lookup_lt_Some in Hp; lia).
    rewrite Hc in Hp. rewrite Hc' in Hq. apply lookup_seqZ in Hp as [-> _]. apply lookup_seqZ in Hq as [-> _].
    replace ((h' + Z.of_nat j) * 4096 + i) with (h' * 4096 + (Z.of_nat j * 4096 + i)) by lia.
    rewrite Hcopy by lia. f_equal. lia.
  - intros a Ha. apply Hout. unfold DosPageSize in *. lia.
Qed.
End Resize.

(** ** The theorems *)
Section Contiguous.

Lemma contiguous_seqZ h n : 0 < n -> contiguous (seqZ h n).
Proof using. intros Hn. unfold contiguous. rewrite seqZ_hd, length_seqZ by done. f_equal. lia. Qed.
Lemma contiguous_take c k : (0 < k)%nat -> contiguous c -> contiguous (take k c).
Proof using.
  intros Hk Hc. unfold contiguous in *. destruct c as [|p c']; [by rewrite take_nil|]. set (c := p :: c') in *.
  replace (hd 0 (take k c)) with (hd 0 c) by (subst c; by destruct k; [lia|]).
  rewrite Hc at 1. rewrite length_take. set (h := hd 0 c). clearbody h. generalize (length c). clear. intros n.
  apply list_eq. intros i. destruct (decide (i < k `min` n)%nat).
  - rewrite lookup_take_lt by lia. by rewrite !lookup_seqZ_lt by lia.
  - destruct (decide (i < k)%nat); [rewrite lookup_take_lt by lia|rewrite lookup_take_ge by lia];
      rewrite !lookup_seqZ_ge by lia; done.
Qed.
Lemma contiguous_last c : c <> [] -> contiguous c -> List.last c 0 = hd 0 c + Z.of_nat (length c) - 1.
Proof using.
  intros Hne Hc. unfold contiguous in Hc. destruct (exists_last Hne) as (c0 & p & E). rewrite E at 1. rewrite last_last.
  assert (c !! length c0 = Some p) as Hp by (rewrite E; by apply list_lookup_middle).
  rewrite Hc in Hp. apply lookup_seqZ in Hp as [-> _]. rewrite E at 3. rewrite length_app. cbn. lia.
Qed.
Lemma contiguous_grow c n :
  c <> [] -> 0 < n -> contiguous c -> contiguous (c ++ seqZ (List.last c 0 + 1) n).
Proof using.
  intros Hne Hn Hc. rewrite contiguous_last by done. unfold contiguous in *.
  replace (hd 0 (c ++ _)) with (hd 0 c) by (by destruct c). rewrite length_app, length_seqZ.
  rewrite Hc at 1. replace (Z.of_nat (length c + Z.to_nat n)) with (Z.of_nat (length c) + n) by lia.
  rewrite seqZ_app by lia. f_equal. f_equal. lia.
Qed.
End Contiguous.

Section Outcome.
Context {M : Type} `{ByteMemoryLaws M}.

Definition resized (mh : list Z) (c : list Z) (cs : list (list Z)) (n : Z) (sequence : bool) (m : M)
  (r : exec (bool * Z * list Z * M)) : Prop :=
  exists success h mh' m', r = ok (success, h, mh', m') /\ npages mh' = npages mh /\
    (forall q i, q ∈ concat cs -> 0 <= i < DosPageSize ->
       readb (q * DosPageSize + i) m' = readb (q * DosPageSize + i) m) /\
    if n =? 0 then success = true /\ h = -1 /\ owned mh' cs /\ m' = m
    else if success then
      exists c', h = hd 0 c' /\ Z.of_nat (length c') = n /\ owned mh' (c' :: cs) /\ same_contents c c' m m' /\
        (sequence = true -> contiguous c')
    else h = hd 0 c /\ mh' = mh /\ m' = m /\ Z.of_nat (length c) < n /\
      if sequence then MEM_FreeLargest mh < n else MEM_FreeTotal mh < n - Z.of_nat (length c).

(** A resize that keeps the guest memory as it is. *)
Lemma resized_in_place mh mh' c c' cs n sequence m r :
  r = ok (true, hd 0 c, mh', m) -> n <> 0 -> c <> [] -> npages mh' = npages mh -> Z.of_nat (length c') = n ->
  owned mh' (c' :: cs) -> (exists d, c = c' ++ d \/ c' = c ++ d) -> (sequence = true -> contiguous c') ->
  resized mh c cs n sequence m r.
Proof using.
  intros -> Hn Hne Hnp Hlen Hown (d & Hd) Hcont. exists true, (hd 0 c), mh', m. split; [done|]. split; [done|].
  split; [done|]. rewrite (proj2 (Z.eqb_neq n 0)) by done. exists c'.
  assert (hd 0 c = hd 0 c') as Hhd.
  { destruct Hd as [-> | ->]; [|by destruct c]. destruct c'; [cbn in Hlen; lia|done]. }
  split; [done|]. split; [done|]. split; [done|]. split; [by apply (same_contents_prefix c c' d)|done].
Qed.

Lemma move_resized mh c cs n m :
  owned mh (c :: cs) -> npages mh <= 1048576 -> contiguous c -> Z.of_nat (length c) < n ->
  resized mh c cs n true m
    (let* (newhandle, mh') := MEM_AllocatePages n true mh in
     if newhandle =? 0 then ok (false, hd 0 c, mh', m) else
     let m := MEM_BlockCopy (PhysPt (newhandle * 4096)) (PhysPt (hd 0 c * 4096))
                (Z.to_nat (Z.of_nat (length c) * 4096)) m in
     let* mh' := MEM_ReleasePages (hd 0 c) mh' in
     ok (true, newhandle, mh', m)).
Proof using Type*.
  intros Hown Hmax Hc Hn. destruct (owned_pages mh c cs Hown) as (Hne & Hs & _ & _).
  pose proof (Allocate_sequence mh (c :: cs) n Hown ltac:(lia) ltac:(lia)) as Ha.
  destruct (Z.ltb_spec (MEM_FreeLargest mh) n).
  - rewrite Ha. cbn [exec_bind Z.eqb]. exists false, (hd 0 c), mh, m. split; [done|]. split; [done|]. split; [done|].
    rewrite (proj2 (Z.eqb_neq n 0)) by lia. by repeat split.
  - destruct Ha as (h & mh1 & E & Hh & Hnp & Hint & Hown1 & Hout). rewrite E. cbn [exec_bind].
    unfold XMS_START in Hh. destruct (Z.eqb_spec h 0); [lia|].
    destruct (Release_owned mh1 c (seqZ h n :: cs)) as (mh2 & E2 & Hnp2 & Hown2 & _).
    { eapply owned_perm; [|exact Hown1]. apply Permutation_swap. }
    rewrite E2. cbn [exec_bind]. pose proof (owned_disjoint _ _ Hown1) as Hdis. cbn [concat] in Hdis.
    apply list.NoDup_app in Hdis as (_ & Hdis & _).
    assert (forall q, q ∈ c -> q ∉ seqZ h n) as Hcd by (intros q Hq Hqn; apply (Hdis q Hqn); rewrite elem_of_app; by left).
    pose proof (copy_contents c (seqZ h n) n mh m Hc) as Hcopy. rewrite seqZ_hd in Hcopy by lia.
    destruct Hcopy as [Hsame Hkeep]; [done|lia| | |done|done|done|].
    { intros q Hq. by eapply seg_range. }
    { intros q Hq%elem_of_seqZ. pose proof (interval_end mh h n Hint). unfold npages in *. lia. }
    eexists true, h, mh2, _. split; [done|]. split; [lia|]. split.
    + intros q i Hq Hi. apply Hkeep. unfold DosPageSize in *.
      assert (q ∉ seqZ h n) as Hqn by (intros Hqn; apply (Hdis q Hqn); rewrite elem_of_app; by right).
      rewrite elem_of_seqZ in Hqn. lia.
    + rewrite (proj2 (Z.eqb_neq n 0)) by lia. exists (seqZ h n). rewrite seqZ_hd, length_seqZ by lia.
      split; [done|]. split; [lia|]. split; [done|]. split; [done|]. intros _. apply contiguous_seqZ. lia.
Qed.

Lemma overruns_positive mh n : n <= 0 -> overruns mh n = false.
Proof using. intros Hn. unfold overruns. rewrite (proj2 (Z.ltb_ge _ n)) by lia. apply andb_false_r. Qed.
Lemma overruns_room mh n : MEM_FreeTotal mh < n -> overruns mh n = false.
Proof using. intros Hn. unfold overruns. by rewrite (proj2 (Z.leb_gt n _)). Qed.

(** Every branch of a resize. *)
Lemma ReAllocate_resized mh c cs n sequence m :
  owned mh (c :: cs) -> XMS_START <= npages mh <= 1048576 -> 0 <= n -> (sequence = true -> contiguous c) ->
  let r := MEM_ReAllocatePages (hd 0 c) n sequence mh m in
  if negb sequence && overruns mh (n - Z.of_nat (length c)) then r = err OutOfBounds else resized mh c cs n sequence m r.
Proof using Type*.
  intros Hown [Hx Hmax] Hn Hcont. cbv zeta. destruct (owned_pages mh c cs Hown) as (Hne & Hs & Hd & Hf).
  assert (0 < hd 0 c) as Hhd by (destruct c; [done|destruct Hs as (_ & ? & _); done]).
  unfold MEM_ReAllocatePages. destruct (Z.leb_spec (hd 0 c) 0); [lia|]. destruct (Z.eqb_spec n 0) as [->|Hn0].
  { rewrite overruns_positive, andb_false_r by lia.
    destruct (Release_owned mh c cs Hown) as (mh' & -> & Hnp & Ho & _). exists true, (-1), mh', m.
    split; [done|]. split; [done|]. by split. }
  rewrite (count_block_spec _ _ c 0 0 mh Hs Hf), Z.add_0_l. cbn [exec_bind].
  assert (0 < length c)%nat as Hlen by (destruct c; [done|cbn; lia]).
  destruct (Z.eqb_spec (Z.of_nat (length c)) n) as [E|Hneq].
  { rewrite overruns_positive, andb_false_r by lia.
    eapply (resized_in_place mh mh c c); try done. exists []. left. by rewrite app_nil_r. }
  destruct (Z.ltb_spec n (Z.of_nat (length c))).
  { rewrite overruns_positive, andb_false_r by lia.
    destruct (shrink_owned mh c cs n Hown ltac:(lia)) as (mh' & -> & Hnp & Ho). cbn [exec_bind].
    eapply (resized_in_place mh mh' c (take (Z.to_nat n) c)); try done.
    - rewrite length_take. lia.
    - exists (drop (Z.to_nat n) c). left. by rewrite take_drop.
    - intros Hseq. apply contiguous_take; [lia|by apply Hcont]. }
  destruct sequence; cbn [negb andb].
  - destruct (Z.leb_spec (n - Z.of_nat (length c)) (free_behind (drop (Z.to_nat (List.last c 0 + 1)) mh) 0)).
    + destruct (grow_owned mh c cs (n - Z.of_nat (length c)) Hown ltac:(lia) ltac:(lia)) as (mh' & -> & Hnp & Ho).
      cbn [exec_bind]. eapply (resized_in_place mh mh' c); try done.
      * rewrite length_app, length_seqZ. lia.
      * eexists. by right.
      * intros _. apply contiguous_grow; [done|lia|by apply Hcont].
    + apply move_resized; (done || by apply Hcont || lia).
  - pose proof (Allocate_scattered mh (c :: cs) (n - Z.of_nat (length c)) Hown ltac:(lia) ltac:(lia)) as Ha.
    destruct (Z.ltb_spec (MEM_FreeTotal mh) (n - Z.of_nat (length c))); [|destruct (overruns mh _); [by rewrite Ha|]].
    + rewrite overruns_room, Ha by done. cbn [exec_bind Z.eqb]. exists false, (hd 0 c), mh, m. split; [done|]. split; [done|]. split; [done|].
      rewrite (proj2 (Z.eqb_neq n 0)) by done. split; [done|]. split; [done|]. split; [done|]. lia.
    + destruct Ha as (h & mh1 & d & E & Hnp & Hld & -> & Hh & _ & Ho & _). rewrite E. cbn [exec_bind].
      unfold XMS_START in Hh. destruct (Z.eqb_spec (hd 0 d) 0); [lia|].
      destruct (join_owned mh1 c d cs Ho) as (mh2 & E2 & Hnp2 & Ho2). rewrite E2. cbn [exec_bind].
      eapply (resized_in_place mh mh2 c); try done; [lia|rewrite length_app; lia|eexists; by right].
Qed.
(** C14.  Resizing a block: [MEM_ReAllocatePages] frees it for zero pages, shrinks or
    extends it in place, or moves it; on success the handle heads a block of
    exactly the requested size whose first pages have the old contents, every
    other block keeps its pages and its bytes, and ownership is preserved.  It
    fails only when there is no room, and then changes nothing.  The one exception, for
    any page table: a resize that is not for a sequence, and whose additional pages
    [overruns], reads behind the page table (the runs of free pages up to the length of
    the run at the end of memory do not have them all).  A block that is resized as a
    sequence is one. *)
Theorem ReAllocate_correct mh c cs n sequence m :
  owned mh (c :: cs) -> XMS_START <= npages mh <= 1048576 -> 0 <= n -> (sequence = true -> contiguous c) ->
  let r := MEM_ReAllocatePages (hd 0 c) n sequence mh m in
  if negb sequence && overruns mh (n - Z.of_nat (length c)) then r = err OutOfBounds else resized mh c cs n sequence m r.
Proof using Type*. apply ReAllocate_resized. Qed.
End Outcome.

(** ** Resizing without the copy: pages are added anywhere, whatever the memory *)
Lemma FreeTotal_nonneg mh : XMS_START <= npages mh -> 0 <= MEM_FreeTotal mh.
Proof. intros Hx. rewrite MEM_FreeTotal_list by done. lia. Qed.
Lemma ReAllocate_scattered {M} `{ByteMemory M} mh c cs n (m : M) :
  owned mh (c :: cs) -> XMS_START <= npages mh <= 1048576 -> 0 < n ->
  if MEM_FreeTotal mh <? n - Z.of_nat (length c)
  then MEM_ReAllocatePages (hd 0 c) n false mh m = ok (false, hd 0 c, mh, m)
  else if overruns mh (n - Z.of_nat (length c)) then MEM_ReAllocatePages (hd 0 c) n false mh m = err OutOfBounds
  else exists mh' c' d, MEM_ReAllocatePages (hd 0 c) n false mh m = ok (true, hd 0 c', mh', m) /\ npages mh' = npages mh /\
         Z.of_nat (length c') = n /\ owned mh' (c' :: cs) /\ (c = c' ++ d \/ c' = c ++ d).
Proof.
  intros Hown Hx Hn. destruct (owned_pages mh c cs Hown) as (Hne & Hs & Hd & Hf).
  pose proof (FreeTotal_nonneg mh ltac:(lia)) as Hft.
  assert (0 < hd 0 c) as Hhd by (destruct c; [done|destruct Hs as (_ & ? & _); done]).
  unfold MEM_ReAllocatePages. destruct (Z.leb_spec (hd 0 c) 0); [lia|]. destruct (Z.eqb_spec n 0); [lia|].
  rewrite (count_block_spec _ _ c 0 0 mh Hs Hf), Z.add_0_l. cbn [exec_bind].
  destruct (Z.eqb_spec (Z.of_nat (length c)) n) as [E|Hneq].
  { destruct (Z.ltb_spec (MEM_FreeTotal mh) (n - Z.of_nat (length c))); [lia|]. rewrite overruns_positive by lia.
    exists mh, c, []. rewrite app_nil_r.
    split; [done|]. split; [done|]. split; [done|]. split; [done|]. by left. }
  destruct (Z.ltb_spec n (Z.of_nat (length c))).
  { destruct (Z.ltb_spec (MEM_FreeTotal mh) (n - Z.of_nat (length c))); [lia|]. rewrite overruns_positive by lia.
    destruct (shrink_owned mh c cs n Hown ltac:(lia)) as (mh' & -> & Hnp & Ho). cbn [exec_bind].
    exists mh', (take (Z.to_nat n) c), (drop (Z.to_nat n) c). rewrite take_drop, length_take.
    split; [destruct c; [done|]; by destruct (Z.to_nat n) eqn:En; [lia|]|]. split; [done|]. split; [lia|]. split; [done|]. by left. }
  pose proof (Allocate_scattered mh (c :: cs) (n - Z.of_nat (length c)) Hown ltac:(lia) ltac:(lia)) as Ha.
  destruct (Z.ltb_spec (MEM_FreeTotal mh) (n - Z.of_nat (length c))).
  { by rewrite Ha. }
  destruct (overruns mh _); [by rewrite Ha|].
  destruct Ha as (h & mh1 & d & E & Hnp & Hld & -> & Hh & _ & Ho & _). rewrite E. cbn [exec_bind].
  unfold XMS_START in Hh. destruct (Z.eqb_spec (hd 0 d) 0); [lia|].
  destruct (join_owned mh1 c d cs Ho) as (mh2 & E2 & Hnp2 & Ho2). rewrite E2. cbn [exec_bind].
  exists mh2, (c ++ d), d. split; [by destruct c|]. split; [lia|]. split; [rewrite length_app; lia|]. split; [done|]. by right.
Qed.
