(* ===== verification/PageSpec.v ===== *)
(** * What the page allocator guarantees

    The theorems on allocation and release, with the exact condition under which the
    scattered allocation leaves the page table. *)
From S2P Require Import Prelude.
From S2P Require Import GuestMemory.
From S2P Require Import PageAlloc.
From S2P Require Import PageSearch.
From S2P Require Import PageBlocks.
From S2P Require Import PageOverrun.
From S2P Require Import PageTheorems.
From S2P Require Import PageResize.
#[local] Open Scope Z_scope.
#[local] Open Scope exec_scope.

(** A memory of [0x114] pages with one used page, for the witnesses. *)
Definition demo_pages : list Z := replicate 0x110 0 ++ [0; 0; -1; 0].

Lemma demo_pages_owned : owned demo_pages [[0x112]].
Proof.
  split.
  - constructor; [|constructor]. split; [done|]. split; [done|]. split; [done|]. by exists (-1).
  - apply NoDup_singleton.
  - by repeat constructor.
  - intros i Hi Hni Hlt. cbn in Hni. rewrite list_elem_of_singleton in Hni.
    unfold npages, demo_pages, XMS_START in *. rewrite length_app, length_replicate in Hlt. cbn in Hlt.
    assert (i = 0x110 \/ i = 0x111 \/ i = 0x113) as [-> | [-> | ->]] by lia; by vm_compute.
Qed.

(** Pages of a block that comes from free pages. *)
Lemma block_takes mh mh' c cs :
  XMS_START <= npages mh -> npages mh' = npages mh -> owned mh' (c :: cs) ->
  (forall i, i ∈ c -> get mh i = Some 0) -> (forall i, i ∉ c -> get mh' i = get mh i) ->
  MEM_FreeTotal mh = MEM_FreeTotal mh' + Z.of_nat (length c).
Proof.
  intros Hx Hnp Hown Hf Hout. destruct (owned_pages mh' c cs Hown) as (_ & Hs & Hd & _).
  pose proof (owned_xms _ _ Hown) as Hxms. cbn [concat] in Hxms. apply list.Forall_app in Hxms as [Hxms _].
  rewrite list.Forall_forall in Hxms.
  apply FreeTotal_take; try done.
  - intros i Hi. apply elem_of_free_list. split; [by apply Hxms|by apply Hf].
  - intros i Hi. destruct (decide (i ∈ c)) as [Hc|Hc]; [|rewrite Hout by done; tauto].
    destruct (seg_used mh' _ c (-1) i ltac:(done) Hs Hc) as (v & Hv & ?). split; [congruence|tauto].
Qed.

(** C15.  Allocation: [MEM_AllocatePages] returns 0 and changes nothing exactly when
    there is no room (no free interval of that length for a sequence, too few free
    pages in all for a scattered block); otherwise it returns the first page of a
    new block of exactly the requested size, made of free pages, a sequential one
    at the start of a shortest maximal free run that fits; all other entries stay,
    and the free total drops by the size.  The one exception, for any page table: a
    scattered allocation that [overruns] - there is room, but the runs of free pages up
    to the length of the run at the end of memory do not have it - reads behind the page
    table.  That cannot be when the last page is in use, or when no run is longer than
    the last one, as in a memory of which nothing has been released
    ([overruns_last_used], [overruns_tail_longest]). *)
Theorem Allocate_correct mh cs n (sequence : bool) :
  owned mh cs -> XMS_START <= npages mh < 0xfffffff -> 0 < n ->
  if (if sequence then MEM_FreeLargest mh else MEM_FreeTotal mh) <? n
  then MEM_AllocatePages n sequence mh = ok (0, mh)
  else if negb sequence && overruns mh n then MEM_AllocatePages n sequence mh = err OutOfBounds
  else exists mh' c, MEM_AllocatePages n sequence mh = ok (hd 0 c, mh') /\ Z.of_nat (length c) = n /\
         owned mh' (c :: cs) /\ npages mh' = npages mh /\
         (forall i, i ∈ c -> get mh i = Some 0) /\ (forall i, i ∉ c -> get mh' i = get mh i) /\
         MEM_FreeTotal mh = MEM_FreeTotal mh' + n /\
         (sequence = true -> c = seqZ (hd 0 c) n /\ best_fit mh n (hd 0 c)).
Proof.
  intros Hown [Hx Hsz] Hn. destruct sequence; cbn [negb andb].
  - pose proof (Allocate_sequence mh cs n Hown Hsz Hn) as Ha. destruct (Z.ltb_spec (MEM_FreeLargest mh) n); [done|].
    destruct Ha as (h & mh' & E & Hh & Hnp & (_ & _ & Hf) & Ho & Hout). exists mh', (seqZ h n).
    rewrite seqZ_hd, length_seqZ by done.
    assert (forall i, i ∈ seqZ h n -> get mh i = Some 0) as Hfree by (intros i Hi%elem_of_seqZ; apply Hf; lia).
    pose proof (block_takes mh mh' _ cs Hx Hnp Ho Hfree Hout) as Htot. rewrite length_seqZ in Htot.
    split; [done|]. split; [lia|]. split; [done|]. split; [done|]. split; [done|]. split; [done|]. split; [lia|].
    intros _. split; [done|]. pose proof (BestMatch_spec mh n Hn Hsz) as Hb.
    unfold MEM_AllocatePages in E. destruct (Z.eqb_spec n 0); [lia|]. unfold XMS_START in Hh.
    destruct (Z.eqb_spec (BestMatch n mh) 0) as [E0|]; [injection E as <- _; lia|].
    destruct (link_sequence_spec (Z.to_nat n) (BestMatch n mh) None 0 mh) as (mh2 & E2 & _).
    + destruct Hb as [(? & _)|(_ & k & Hr & _)]; [done|]. destruct Hr as ((? & _) & _). unfold XMS_START in *. lia.
    + destruct Hb as [(? & _)|(_ & k & Hr & Hle & _)]; [done|]. pose proof (interval_end mh _ _ (proj1 Hr)). lia.
    + done.
    + lia.
    + rewrite E2 in E. injection E as <- <-. exact Hb.
  - pose proof (Allocate_scattered mh cs n Hown (conj Hx Hsz) Hn) as Ha.
    destruct (Z.ltb_spec (MEM_FreeTotal mh) n); [done|]. destruct (overruns mh n); [done|].
    destruct Ha as (h & mh' & c & E & Hnp & Hlen & -> & _ & Hfree & Ho & Hout). exists mh', c.
    pose proof (block_takes mh mh' c cs Hx Hnp Ho Hfree Hout) as Htot.
    split; [done|]. split; [done|]. split; [done|]. split; [done|]. split; [done|]. split; [done|]. split; [lia|]. done.
Qed.

Lemma Allocate_correct_witness :
  (exists mh' c, MEM_AllocatePages 2 true demo_pages = ok (hd 0 c, mh') /\ owned mh' [c; [0x112]] /\ c = seqZ (hd 0 c) 2) /\
  (exists mh' c, MEM_AllocatePages 1 false demo_pages = ok (hd 0 c, mh') /\ owned mh' [c; [0x112]]) /\
  MEM_AllocatePages 2 false demo_pages = err OutOfBounds.
Proof.
  split; [|split].
  - pose proof (Allocate_correct demo_pages [[0x112]] 2 true demo_pages_owned ltac:(done) ltac:(done)) as H.
    cbv iota in H. assert ((MEM_FreeLargest demo_pages <? 2) = false) as E by (vm_compute; reflexivity). rewrite E in H. cbn [negb andb] in H.
    destruct H as (mh' & c & H1 & _ & H2 & _ & _ & _ & _ & H3). exists mh', c.
    split; [exact H1|]. split; [exact H2|]. apply H3. reflexivity.
  - pose proof (Allocate_correct demo_pages [[0x112]] 1 false demo_pages_owned ltac:(done) ltac:(done)) as H.
    cbv iota in H. assert ((MEM_FreeTotal demo_pages <? 1) = false) as E by (vm_compute; reflexivity). rewrite E in H.
    assert (overruns demo_pages 1 = false) as E' by (vm_compute; reflexivity). rewrite E' in H.
    destruct H as (mh' & c & H1 & _ & H2 & _). exists mh', c. split; [exact H1|exact H2].
  - pose proof (Allocate_correct demo_pages [[0x112]] 2 false demo_pages_owned ltac:(done) ltac:(done)) as H.
    cbv iota in H. assert ((MEM_FreeTotal demo_pages <? 2) = false) as E by (vm_compute; reflexivity). rewrite E in H.
    assert (overruns demo_pages 2 = true) as E' by (vm_compute; reflexivity). rewrite E' in H. exact H.
Defined.

(** Release: [MEM_ReleasePages] gives back exactly the pages of the block, the
    number [MEM_AllocatedPages] reports for its handle; the other blocks stay. *)
Theorem Release_correct mh c cs :
  owned mh (c :: cs) -> XMS_START <= npages mh ->
  MEM_AllocatedPages (hd 0 c) mh = ok (Z.of_nat (length c)) /\
  exists mh', MEM_ReleasePages (hd 0 c) mh = ok mh' /\ npages mh' = npages mh /\ owned mh' cs /\
    (forall i, i ∈ c -> get mh' i = Some 0) /\ (forall i, i ∉ c -> get mh' i = get mh i) /\
    MEM_FreeTotal mh' = MEM_FreeTotal mh + Z.of_nat (length c).
Proof.
  intros Hown Hx. destruct (owned_pages mh c cs Hown) as (Hne & Hs & Hd & Hf).
  split; [unfold MEM_AllocatedPages; rewrite (AllocatedPages_spec _ _ c 0 mh Hs Hf); f_equal; lia|].
  destruct (Release_owned mh c cs Hown) as (mh' & E & Hnp & Ho & Hget). exists mh'.
  assert (forall i, i ∈ c -> get mh' i = Some 0) as Hin by (intros i Hi; by rewrite Hget, decide_True).
  assert (forall i, i ∉ c -> get mh' i = get mh i) as Hout by (intros i Hi; by rewrite Hget, decide_False).
  split; [done|]. split; [done|]. split; [done|]. split; [done|]. split; [done|].
  rewrite (block_takes mh' mh c cs); [done|lia|lia|done|done|]. intros i Hi. symmetry. by apply Hout.
Qed.

Lemma Release_correct_witness :
  exists mh', MEM_ReleasePages 0x112 demo_pages = ok mh' /\ MEM_FreeTotal mh' = 4.
Proof.
  destruct (Release_correct demo_pages [0x112] [] demo_pages_owned ltac:(done)) as (_ & mh' & H1 & _ & _ & _ & _ & H2).
  exists mh'. split; [exact H1|]. rewrite H2. vm_compute. reflexivity.
Defined.

Lemma ReAllocate_correct_witness :
  resized demo_pages [0x112] [] 2 true ((fun _ => 0) : Flat)
    (MEM_ReAllocatePages 0x112 2 true demo_pages ((fun _ => 0) : Flat)) /\
  MEM_ReAllocatePages 0x112 3 false demo_pages ((fun _ => 0) : Flat) = err OutOfBounds.
Proof.
  split.
  - exact (ReAllocate_correct demo_pages [0x112] [] 2 true ((fun _ => 0) : Flat) demo_pages_owned
             ltac:(done) ltac:(done) ltac:(done)).
  - pose proof (ReAllocate_correct demo_pages [0x112] [] 3 false ((fun _ => 0) : Flat) demo_pages_owned
             ltac:(done) ltac:(done) ltac:(done)) as H. cbv zeta in H.
    assert (overruns demo_pages (3 - Z.of_nat (length [0x112])) = true) as E by (vm_compute; reflexivity). rewrite E in H. exact H.
Defined.
