(* ===== verification/PageHandlers.v ===== *)
(** * Page handlers ([hardware/memory.cpp], [cpu/paging.h])

    The table that gives every physical page its handler, the flags and host
    pointers of the handlers of [memory.cpp], and the linear frame buffer.  The
    handlers other devices install are behind the interface [Devices]. *)
From S2P Require Import Prelude.
From S2P Require Import PageAlloc.
#[local] Open Scope Z_scope.
#[local] Open Scope exec_scope.

Definition Megabyte : Z := 1024 * 1024.
Definition PagesPerMegabyte : Z := Megabyte / DosPageSize.

Definition PFLAG_READABLE : Z := 0x1.
Definition PFLAG_WRITEABLE : Z := 0x2.
Definition PFLAG_HASROM : Z := 0x4.
Definition PFLAG_NOCODE : Z := 0x10.
Definition PFLAG_INIT : Z := 0x20.

(** The handlers of [paging.cpp] and [memory.cpp], those of other devices, and
    the null pointer [memory.lfb] starts with. *)
Inductive handler :=
  | null_page_handler
  | init_page_handler | init_page_handler_userro
  | ram_page_handler | rom_page_handler | illegal_page_handler
  | device_handler (id : Z).
#[export] Instance handler_eq_dec : EqDecision handler.
Proof. solve_decision. Defined.

(** What the handlers of other devices do: their flags, the host memory behind
    their pages, their accesses of [n] bytes, and the frame buffer of the Voodoo
    card, [VOODOO_PCI_GetLFBPageHandler]. *)
Class Devices (D : Type) := {
  device_flags : Z -> Z;
  device_read_pt : Z -> Z -> Z;
  device_write_pt : Z -> Z -> Z;
  device_read : Z -> nat -> Z -> D -> Z * D;
  device_write : Z -> nat -> Z -> Z -> D -> D;
  voodoo_lfb : Z -> option Z }.

(** A host pointer is an address relative to [MemBase]; [GetHostReadPt] of a
    handler that has none is not called.  [flags] is read behind [deref]. *)
Definition flags {D} `{Devices D} (h : handler) : Z :=
  match h with
  | init_page_handler | init_page_handler_userro | illegal_page_handler => Z.lor PFLAG_INIT PFLAG_NOCODE
  | ram_page_handler => Z.lor PFLAG_READABLE PFLAG_WRITEABLE
  | rom_page_handler => Z.lor PFLAG_READABLE PFLAG_HASROM
  | device_handler id => device_flags id
  | null_page_handler => 0
  end.
Definition GetHostReadPt {D} `{Devices D} (h : handler) (phys_page : Z) : Z :=
  match h with
  | ram_page_handler | rom_page_handler => phys_page * DosPageSize
  | device_handler id => device_read_pt id phys_page
  | init_page_handler | init_page_handler_userro | illegal_page_handler | null_page_handler => 0
  end.
Definition GetHostWritePt {D} `{Devices D} (h : handler) (phys_page : Z) : Z :=
  match h with
  | ram_page_handler | rom_page_handler => GetHostReadPt h phys_page
  | device_handler id => device_write_pt id phys_page
  | init_page_handler | init_page_handler_userro | illegal_page_handler | null_page_handler => 0
  end.
Definition deref (h : handler) : exec handler :=
  if decide (h = null_page_handler) then err OutOfBounds else ok h.
Definition readable {D} `{Devices D} (h : handler) : bool := nz (Z.land (flags h) PFLAG_READABLE).
Definition writeable {D} `{Devices D} (h : handler) : bool := nz (Z.land (flags h) PFLAG_WRITEABLE).

(** [memory.pages.size()] is the length of both tables; the page contents are
    the host memory from [MemBase] on. *)
Record MemoryBlock := mkMemory {
  phandlers : list handler;
  mhandles : list Z;
  lfb_start_page : Z; lfb_end_page : Z; lfb_pages : Z;
  lfb_handler : handler; lfb_mmiohandler : handler;
  a20_enabled : bool;
  a20_controlport : Z }.

Definition with_phandlers (p : list handler) (m : MemoryBlock) : MemoryBlock :=
  mkMemory p (mhandles m) (lfb_start_page m) (lfb_end_page m) (lfb_pages m) (lfb_handler m) (lfb_mmiohandler m)
    (a20_enabled m) (a20_controlport m).
Definition with_a20 (enabled : bool) (m : MemoryBlock) : MemoryBlock :=
  mkMemory (phandlers m) (mhandles m) (lfb_start_page m) (lfb_end_page m) (lfb_pages m) (lfb_handler m)
    (lfb_mmiohandler m) enabled (a20_controlport m).
Definition with_controlport (v : Z) (m : MemoryBlock) : MemoryBlock :=
  mkMemory (phandlers m) (mhandles m) (lfb_start_page m) (lfb_end_page m) (lfb_pages m) (lfb_handler m)
    (lfb_mmiohandler m) (a20_enabled m) v.
Definition with_lfb (page pages : Z) (handler mmiohandler : handler) (m : MemoryBlock) : MemoryBlock :=
  mkMemory (phandlers m) (mhandles m) page (page + pages) pages handler mmiohandler
    (a20_enabled m) (a20_controlport m).

Definition MEM_GetPageHandler {D} `{Devices D} (phys_page : Z) (m : MemoryBlock) : exec handler :=
  if phys_page <? Z.of_nat (length (phandlers m)) then read (phandlers m) phys_page
  else if (lfb_start_page m <=? phys_page) && (phys_page <? lfb_end_page m) then ok (lfb_handler m)
  else
    let PagesIn16Mb := 16 * PagesPerMegabyte in
    let last_page_in_first_16mb := lfb_start_page m + PagesIn16Mb in
    let sixteen_pages_beyond_first_16mb := last_page_in_first_16mb + 16 in
    if (last_page_in_first_16mb <=? phys_page) && (phys_page <? sixteen_pages_beyond_first_16mb)
    then ok (lfb_mmiohandler m)
    else match voodoo_lfb phys_page with
         | Some vph => ok (device_handler vph)
         | None => ok illegal_page_handler
         end.

Fixpoint SetPageHandler_loop (phys_page : Z) (pages : nat) (h : handler) (p : list handler) : exec (list handler) :=
  match pages with
  | O => ok p
  | S pages => let* p := write p phys_page h in SetPageHandler_loop (phys_page + 1) pages h p
  end.
Definition MEM_SetPageHandler (phys_page pages : Z) (h : handler) (m : MemoryBlock) : exec MemoryBlock :=
  let* p := SetPageHandler_loop phys_page (Z.to_nat pages) h (phandlers m) in ok (with_phandlers p m).
Definition MEM_ResetPageHandler (phys_page pages : Z) (m : MemoryBlock) : exec MemoryBlock :=
  let* p := SetPageHandler_loop phys_page (Z.to_nat pages) ram_page_handler (phandlers m) in ok (with_phandlers p m).
Definition MEM_RemoveEMSPageFrame (m : MemoryBlock) : exec MemoryBlock :=
  let* p := SetPageHandler_loop 0xe0 (Z.to_nat (0xf0 - 0xe0)) rom_page_handler (phandlers m) in ok (with_phandlers p m).
Definition MEM_PreparePCJRCartRom (m : MemoryBlock) : exec MemoryBlock :=
  let* p := SetPageHandler_loop 0xd0 (Z.to_nat (0xe0 - 0xd0)) rom_page_handler (phandlers m) in ok (with_phandlers p m).

Lemma SetPageHandler_loop_spec n page h p :
  0 <= page -> page + Z.of_nat n <= Z.of_nat (length p) ->
  exists p', SetPageHandler_loop page n h p = ok p' /\ length p' = length p /\
    forall i, get p' i = if (page <=? i) && (i <? page + Z.of_nat n) then Some h else get p i.
Proof.
  revert page p. induction n as [|n IH]; intros page p Hp Hle; cbn [SetPageHandler_loop].
  - exists p. split; [done|]. split; [done|]. intros i.
    destruct (Z.leb_spec page i), (Z.ltb_spec i (page + Z.of_nat 0)); try done; lia.
  - rewrite write_upd by lia. cbn [exec_bind].
    destruct (IH (page + 1) (upd p page h)) as (p' & E & Hlen & Hget); [lia|rewrite length_upd; lia|].
    exists p'. split; [done|]. split; [by rewrite Hlen, length_upd|]. intros i. rewrite Hget, get_upd by lia.
    destruct (Z.leb_spec (page + 1) i), (Z.ltb_spec i (page + 1 + Z.of_nat n)), (Z.leb_spec page i),
      (Z.ltb_spec i (page + Z.of_nat (S n))); cbn [andb]; try done; try lia;
      destruct (Z.eqb_spec page i); try lia; done.
Qed.
