(* ===== verification/Paging.v ===== *)
(** * Paging ([cpu/paging.cpp], [cpu/paging.h])

    The translation look-aside buffer, the page-table walk with its accessed and
    dirty bits and privilege checks, page faults, and the guest memory accesses
    of every width that go through the TLB and the page handlers. *)
From S2P Require Import Prelude.
From S2P Require Import GuestMemory.
From S2P Require Import PageAlloc.
From S2P Require Import PageHandlers.
#[local] Open Scope Z_scope.
#[local] Open Scope exec_scope.

Definition TLB_SIZE : Z := 1024 * 1024.
Definition LINK_START : Z := (1024 + 64) / 4.
Definition PAGING_LINKS : Z := 128 * 1024 / 4.
Definition PF_QUEUESIZE : nat := 16.
Definition EXCEPTION_PF : Z := 14.

(** ** State *)

(** One index of the five arrays of [paging.tlb].  [read] and [write] are the
    host address of the page less its linear address, [None] when null. *)
Record tlb_entry := mkTlb {
  t_read : option Z; t_write : option Z;
  t_readhandler : handler; t_writehandler : handler;
  t_phys_page : Z }.

Record X86PageEntry := mkEntry {
  e_p : Z; e_wr : Z; e_us : Z; e_pwt : Z; e_pcd : Z; e_a : Z; e_d : Z; e_pat : Z; e_g : Z; e_avl : Z; e_base : Z }.

Record PF_Entry := mkPF { pf_cs : Z; pf_eip : Z; pf_page_addr : Z; pf_mpl : Z }.

(** [tlb] is indexed by linear pages below [TLB_SIZE]; [links] lists
    [links.entries[0 .. links.used)], the last entry first. *)
Record PagingBlock := mkPaging {
  cr3 : Z; cr2 : Z; base_page : Z; base_addr : Z;
  tlb : Z -> tlb_entry;
  links : list Z;
  firstmb : list Z;
  enabled : bool;
  pf_used : Z; pf_entries : list PF_Entry }.

Inductive ArchitectureType :=
  | Intel86 | Intel186 | Intel286 | Intel386Slow | Intel386Fast
  | Intel486OldSlow | Intel486NewSlow | Pentium | PentiumMmx | Mixed.
Inductive decoder := CPU_Core_Simple_Run | CPU_Core_Normal_Run | PageFaultCore_Run | other_core.
#[export] Instance decoder_eq_dec : EqDecision decoder.
Proof. solve_decision. Defined.

(** What the paging code uses of the processor. *)
Record CPUBlock := mkCpu {
  cpl : Z; mpl : Z;
  exception_which : Z; exception_error : Z;
  cs : Z; eip : Z;
  CPU_ArchitectureType : ArchitectureType;
  cpudecoder : decoder;
  CPU_Cycles : Z; CPU_CycleLeft : Z }.

(** [host] is the memory of the process, addresses relative to [MemBase]. *)
Record Machine (D : Type) := mkMachine {
  host : Z -> Z;
  memory : MemoryBlock;
  paging : PagingBlock;
  cpu : CPUBlock;
  devices : D }.
Arguments mkMachine {D}.
Arguments host {D}.
Arguments memory {D}.
Arguments paging {D}.
Arguments cpu {D}.
Arguments devices {D}.

Definition with_tlb (t : Z -> tlb_entry) (l : list Z) (q : PagingBlock) : PagingBlock :=
  mkPaging (cr3 q) (cr2 q) (base_page q) (base_addr q) t l (firstmb q) (enabled q) (pf_used q) (pf_entries q).
Definition with_firstmb (f : list Z) (q : PagingBlock) : PagingBlock :=
  mkPaging (cr3 q) (cr2 q) (base_page q) (base_addr q) (tlb q) (links q) f (enabled q) (pf_used q) (pf_entries q).
Definition with_cr2 (v : Z) (q : PagingBlock) : PagingBlock :=
  mkPaging (cr3 q) v (base_page q) (base_addr q) (tlb q) (links q) (firstmb q) (enabled q) (pf_used q) (pf_entries q).
Definition with_base (c : Z) (page addr : Z) (q : PagingBlock) : PagingBlock :=
  mkPaging c (cr2 q) page addr (tlb q) (links q) (firstmb q) (enabled q) (pf_used q) (pf_entries q).
Definition with_enabled (b : bool) (q : PagingBlock) : PagingBlock :=
  mkPaging (cr3 q) (cr2 q) (base_page q) (base_addr q) (tlb q) (links q) (firstmb q) b (pf_used q) (pf_entries q).
Definition with_pf (used : Z) (entries : list PF_Entry) (q : PagingBlock) : PagingBlock :=
  mkPaging (cr3 q) (cr2 q) (base_page q) (base_addr q) (tlb q) (links q) (firstmb q) (enabled q) used entries.
Definition with_mpl (v : Z) (c : CPUBlock) : CPUBlock :=
  mkCpu (cpl c) v (exception_which c) (exception_error c) (cs c) (eip c) (CPU_ArchitectureType c) (cpudecoder c)
    (CPU_Cycles c) (CPU_CycleLeft c).
Definition with_exception (which error : Z) (c : CPUBlock) : CPUBlock :=
  mkCpu (cpl c) (mpl c) which error (cs c) (eip c) (CPU_ArchitectureType c) (cpudecoder c)
    (CPU_Cycles c) (CPU_CycleLeft c).
Definition with_decoder (v : decoder) (c : CPUBlock) : CPUBlock :=
  mkCpu (cpl c) (mpl c) (exception_which c) (exception_error c) (cs c) (eip c) (CPU_ArchitectureType c) v
    (CPU_Cycles c) (CPU_CycleLeft c).
Definition with_cycles (cycles left : Z) (c : CPUBlock) : CPUBlock :=
  mkCpu (cpl c) (mpl c) (exception_which c) (exception_error c) (cs c) (eip c) (CPU_ArchitectureType c) (cpudecoder c)
    cycles left.

Section SetMachine.
Context {D : Type}.
Definition set_host (h : Z -> Z) (s : Machine D) : Machine D := mkMachine h (memory s) (paging s) (cpu s) (devices s).
Definition set_memory (m : MemoryBlock) (s : Machine D) : Machine D :=
  mkMachine (host s) m (paging s) (cpu s) (devices s).
Definition set_paging (q : PagingBlock) (s : Machine D) : Machine D :=
  mkMachine (host s) (memory s) q (cpu s) (devices s).
Definition set_cpu (c : CPUBlock) (s : Machine D) : Machine D :=
  mkMachine (host s) (memory s) (paging s) c (devices s).
Definition set_devices (v : D) (s : Machine D) : Machine D :=
  mkMachine (host s) (memory s) (paging s) (cpu s) v.
End SetMachine.

(** ** Host memory: little-endian values of [n] bytes *)
Fixpoint host_read (n : nat) (arr : Z) (h : Z -> Z) : Z :=
  match n with
  | O => 0
  | S n => u8 (h arr) + 256 * host_read n (arr + 1) h
  end.
Fixpoint host_write (n : nat) (arr val : Z) (h : Z -> Z) : Z -> Z :=
  match n with
  | O => h
  | S n => host_write n (arr + 1) (val / 256) (fun i => if i =? arr then u8 val else h i)
  end.

(** ** Page table entries *)
Definition entry_set (value : Z) : X86PageEntry :=
  mkEntry (Z.land value 0x1) (Z.land (Z.shiftr value 1) 0x1) (Z.land (Z.shiftr value 2) 0x1)
    (Z.land (Z.shiftr value 3) 0x1) (Z.land (Z.shiftr value 4) 0x1) (Z.land (Z.shiftr value 5) 0x1)
    (Z.land (Z.shiftr value 6) 0x1) (Z.land (Z.shiftr value 7) 0x1) (Z.land (Z.shiftr value 8) 0x1)
    (Z.land (Z.shiftr value 9) 0x7) (Z.land (Z.shiftr value 12) 0xFFFFF).
Definition entry_get (e : X86PageEntry) : Z :=
  let value := 0 in
  let value := Z.lor value (e_p e) in
  let value := Z.lor value (Z.shiftl (e_wr e) 1) in
  let value := Z.lor value (Z.shiftl (e_us e) 2) in
  let value := Z.lor value (Z.shiftl (e_pwt e) 3) in
  let value := Z.lor value (Z.shiftl (e_pcd e) 4) in
  let value := Z.lor value (Z.shiftl (e_a e) 5) in
  let value := Z.lor value (Z.shiftl (e_d e) 6) in
  let value := Z.lor value (Z.shiftl (e_pat e) 7) in
  let value := Z.lor value (Z.shiftl (e_g e) 8) in
  let value := Z.lor value (Z.shiftl (e_avl e) 9) in
  Z.lor value (Z.shiftl (e_base e) 12).
Definition set_accessed (e : X86PageEntry) : X86PageEntry :=
  mkEntry (e_p e) (e_wr e) (e_us e) (e_pwt e) (e_pcd e) 1 (e_d e) (e_pat e) (e_g e) (e_avl e) (e_base e).
Definition set_dirty (e : X86PageEntry) : X86PageEntry :=
  mkEntry (e_p e) (e_wr e) (e_us e) (e_pwt e) (e_pcd e) (e_a e) 1 (e_pat e) (e_g e) (e_avl e) (e_base e).

Section Operations.
Context {D : Type} `{Devices D}.
Implicit Types (s : Machine D).

Definition get_tlb (address : Z) s : tlb_entry := tlb (paging s) (Z.shiftr address 12).
Definition get_tlb_read (address : Z) s : option Z := t_read (get_tlb address s).
Definition get_tlb_write (address : Z) s : option Z := t_write (get_tlb address s).
Definition get_tlb_readhandler (address : Z) s : handler := t_readhandler (get_tlb address s).
Definition get_tlb_writehandler (address : Z) s : handler := t_writehandler (get_tlb address s).
Definition PAGING_GetPhysicalPage (linePage : Z) s : Z := u32 (Z.shiftl (t_phys_page (get_tlb linePage s)) 12).
Definition PAGING_GetPhysicalAddress (linAddr : Z) s : Z :=
  Z.lor (u32 (Z.shiftl (t_phys_page (get_tlb linAddr s)) 12)) (Z.land linAddr 0xfff).

(** Reads and writes of page tables; an address beyond the RAM is outside the
    array the C++ code allocated. *)
Definition ram_size s : Z := Z.of_nat (length (phandlers (memory s))) * DosPageSize.
Definition phys_readd (addr : Z) s : exec Z :=
  if (0 <=? addr) && (addr + 4 <=? ram_size s) then ok (host_read 4 addr (host s)) else err OutOfBounds.
Definition phys_writed (addr val : Z) s : exec (Machine D) :=
  if (0 <=? addr) && (addr + 4 <=? ram_size s) then ok (set_host (host_write 4 addr val (host s)) s)
  else err OutOfBounds.

(** ** The TLB *)
Definition set_tlb (lin_page : Z) (e : tlb_entry) (t : Z -> tlb_entry) : Z -> tlb_entry :=
  fun page => if page =? lin_page then e else t page.
(** The entry reset to the handler that walks the page table. *)
Definition reset_entry (e : tlb_entry) : tlb_entry :=
  mkTlb None None init_page_handler init_page_handler (t_phys_page e).
Definition reset_page (lin_page : Z) (t : Z -> tlb_entry) : Z -> tlb_entry := set_tlb lin_page (reset_entry (t lin_page)) t.

Definition PAGING_InitTLB s : Machine D :=
  set_paging (with_tlb (fun page => reset_entry (tlb (paging s) page)) [] (paging s)) s.

(** The loop over [links.entries], oldest first. *)
Fixpoint ClearTLB_loop (entries : list Z) (t : Z -> tlb_entry) : Z -> tlb_entry :=
  match entries with
  | [] => t
  | page :: entries => ClearTLB_loop entries (reset_page page t)
  end.
Definition PAGING_ClearTLB s : Machine D :=
  set_paging (with_tlb (ClearTLB_loop (rev (links (paging s))) (tlb (paging s))) [] (paging s)) s.

Fixpoint UnlinkPages_loop (pages : nat) (lin_page : Z) (t : Z -> tlb_entry) : Z -> tlb_entry :=
  match pages with
  | O => t
  | S pages => UnlinkPages_loop pages (lin_page + 1) (reset_page lin_page t)
  end.
Definition PAGING_UnlinkPages (lin_page : Z) (pages : nat) s : Machine D :=
  set_paging (with_tlb (UnlinkPages_loop pages lin_page (tlb (paging s))) (links (paging s)) (paging s)) s.

(** Both link operations up to the entry they store. *)
Definition link_entry (lin_page : Z) (e : tlb_entry) s : Machine D :=
  let s := if PAGING_LINKS <=? Z.of_nat (length (links (paging s))) then PAGING_ClearTLB s else s in
  set_paging (with_tlb (set_tlb lin_page e (tlb (paging s))) (lin_page :: links (paging s)) (paging s)) s.
Definition illegal_page (lin_page phys_page : Z) : bool := (TLB_SIZE <=? lin_page) || (TLB_SIZE <=? phys_page).

Definition PAGING_LinkPage (lin_page phys_page : Z) s : exec (Machine D) :=
  let* handler := MEM_GetPageHandler phys_page (memory s) in
  let lin_base := u32 (Z.shiftl lin_page 12) in
  if illegal_page lin_page phys_page then err Exit else
  let* handler := deref handler in
  ok (link_entry lin_page
        (mkTlb (if readable handler then Some (GetHostReadPt handler phys_page - lin_base) else None)
               (if writeable handler then Some (GetHostWritePt handler phys_page - lin_base) else None)
               handler handler phys_page) s).
Definition PAGING_LinkPage_ReadOnly (lin_page phys_page : Z) s : exec (Machine D) :=
  let* handler := MEM_GetPageHandler phys_page (memory s) in
  let lin_base := u32 (Z.shiftl lin_page 12) in
  if illegal_page lin_page phys_page then err Exit else
  let* handler := deref handler in
  ok (link_entry lin_page
        (mkTlb (if readable handler then Some (GetHostReadPt handler phys_page - lin_base) else None)
               None handler init_page_handler_userro phys_page) s).

Definition PAGING_MapPage (lin_page phys_page : Z) s : exec (Machine D) :=
  if lin_page <? LINK_START then
    let* f := write (firstmb (paging s)) lin_page phys_page in
    let q := with_firstmb f (paging s) in
    ok (set_paging (with_tlb (reset_page lin_page (tlb q)) (links q) q) s)
  else PAGING_LinkPage lin_page phys_page s.

(** ** Page faults *)
Definition USERWRITE_PROHIBITED s : bool := Z.land (cpl (cpu s)) (mpl (cpu s)) =? 3.
Definition fault_user_bit s : Z := if Z.land (cpl (cpu s)) (mpl (cpu s)) =? 0 then 0x00 else 0x04.

Section Faults.
(** [CPU_Exception(EXCEPTION_PF, faultcode); DOSBOX_RunMachine();] - the machine
    running the guest's fault handler, with [PageFaultCore] as its decoder. *)
Variable run_fault_handler : Z -> Machine D -> exec (Machine D).

(** The condition codes and the decoder are saved around it. *)
Definition PAGING_PageFault (lin_addr page_addr faultcode : Z) s : exec (Machine D) :=
  let old_cpudecoder := cpudecoder (cpu s) in
  let s := set_cpu (with_decoder PageFaultCore_Run (cpu s)) s in
  let s := set_paging (with_cr2 lin_addr (paging s)) s in
  let* entries := write (pf_entries (paging s)) (pf_used (paging s))
                    (mkPF (cs (cpu s)) (eip (cpu s)) page_addr (mpl (cpu s))) in
  let s := set_paging (with_pf (u8 (pf_used (paging s) + 1)) entries (paging s)) s in
  let s := set_cpu (with_mpl 3 (cpu s)) s in
  let* s := run_fault_handler faultcode s in
  let s := set_paging (with_pf (u8 (pf_used (paging s) - 1)) (pf_entries (paging s)) (paging s)) s in
  ok (set_cpu (with_decoder old_cpudecoder (cpu s)) s).
End Faults.

(** The decoder that runs the fault handler, until it returns to the faulting
    instruction with the page present. *)
Definition PageFaultCore (CPU_Core_Full_Run : Machine D -> exec (Z * Machine D)) s : exec (Z * Machine D) :=
  let s := set_cpu (with_cycles 1 (CPU_CycleLeft (cpu s) + CPU_Cycles (cpu s)) (cpu s)) s in
  let* (ret, s) := CPU_Core_Full_Run s in
  let s := set_cpu (with_cycles (CPU_Cycles (cpu s)) (CPU_CycleLeft (cpu s) + CPU_Cycles (cpu s)) (cpu s)) s in
  if ret <? 0 then err Exit else
  if nz ret then ok (ret, s) else
  if pf_used (paging s) =? 0 then err Exit else
  let* entry := read (pf_entries (paging s)) (pf_used (paging s) - 1) in
  let* v := phys_readd (pf_page_addr entry) s in
  let pentry := entry_set v in
  if nz (e_p pentry) && (pf_cs entry =? cs (cpu s)) && (pf_eip entry =? eip (cpu s))
  then ok (-1, set_cpu (with_mpl (pf_mpl entry) (cpu s)) s)
  else ok (0, s).

Definition InitPageUpdateLink (relink addr : Z) s : exec (Machine D) :=
  if relink =? 0 then ok s else
  let s := match links (paging s) with
           | page :: rest =>
               if page =? Z.shiftr addr 12
               then PAGING_UnlinkPages (Z.shiftr addr 12) 1
                      (set_paging (with_tlb (tlb (paging s)) rest (paging s)) s)
               else s
           | [] => s
           end in
  if 1 <? relink then PAGING_LinkPage_ReadOnly (Z.shiftr addr 12) relink s else ok s.

(** ** The page-table walk *)
Definition table_addr (lin_page : Z) s : Z :=
  u32 (u32 (Z.shiftl (base_page (paging s)) 12) + Z.shiftr lin_page 10 * 4).
Definition entry_addr (table : X86PageEntry) (lin_page : Z) : Z :=
  u32 (Z.shiftl (e_base table) 12 + Z.land lin_page 0x3ff * 4).

Definition InitPageCheckPresence_CheckOnly (lin_addr : Z) (writing : bool) s
  : exec (option (X86PageEntry * X86PageEntry) * Machine D) :=
  let lin_page := Z.shiftr lin_addr 12 in
  let fault :=
    set_cpu (with_exception EXCEPTION_PF (Z.lor (if writing then 0x02 else 0x00) (fault_user_bit s)) (cpu s))
      (set_paging (with_cr2 lin_addr (paging s)) s) in
  let* v := phys_readd (table_addr lin_page s) s in
  let table := entry_set v in
  if e_p table =? 0 then ok (None, fault) else
  let* v := phys_readd (entry_addr table lin_page) s in
  let entry := entry_set v in
  if e_p entry =? 0 then ok (None, fault) else ok (Some (table, entry), s).

Definition InitPage_CheckUseraccess (arch : ArchitectureType) (u1 u2 : Z) : bool :=
  match arch with
  | Intel486OldSlow | Intel486NewSlow | Pentium | PentiumMmx => (u1 =? 0) || (u2 =? 0)
  | _ => (u1 =? 0) && (u2 =? 0)
  end.
(** The architectures whose later accesses to a page are still checked. *)
Definition checks_later (arch : ArchitectureType) : bool :=
  match arch with
  | Intel386Slow | Intel486OldSlow | Intel486NewSlow | Pentium | PentiumMmx => true
  | _ => false
  end.

(** The physical page when paging is off. *)
Definition direct_page (lin_page : Z) s : exec Z :=
  if lin_page <? LINK_START then read (firstmb (paging s)) lin_page else ok lin_page.
End Operations.
