(* ===== verification/PageWalk.v ===== *)
(** * Initialising a TLB entry ([cpu/paging.cpp])

    The two handlers of a page that is not linked, [InitPageHandler], and of a
    page a user may not write, [InitPageUserROHandler]: they walk the page
    table, raise page faults, set the accessed and dirty bits and link the page. *)
From S2P Require Import Prelude.
From S2P Require Import GuestMemory.
From S2P Require Import PageAlloc.
From S2P Require Import PageHandlers.
From S2P Require Import Paging.
#[local] Open Scope Z_scope.
#[local] Open Scope exec_scope.

Section Walk.
Context {D : Type} `{Devices D}.
Variable run_fault_handler : Z -> Machine D -> exec (Machine D).
Implicit Types (s : Machine D).

(** The table and its entry, each faulted in when it is not present. *)
Definition InitPageCheckPresence (lin_addr : Z) (writing : bool) s
  : exec (X86PageEntry * X86PageEntry * Machine D) :=
  let lin_page := Z.shiftr lin_addr 12 in
  let t_addr := table_addr lin_page s in
  let code s := Z.lor (if writing then 0x02 else 0x00) (fault_user_bit s) in
  let* v := phys_readd t_addr s in
  let table := entry_set v in
  let* (table, s) :=
    (if e_p table =? 0 then
       let* s := PAGING_PageFault run_fault_handler lin_addr t_addr (code s) s in
       let* v := phys_readd t_addr s in
       let table := entry_set v in
       if e_p table =? 0 then err Exit else ok (table, s)
     else ok (table, s)) in
  let e_addr := entry_addr table lin_page in
  let* v := phys_readd e_addr s in
  let entry := entry_set v in
  if e_p entry =? 0 then
    let* s := PAGING_PageFault run_fault_handler lin_addr e_addr (code s) s in
    let* v := phys_readd e_addr s in
    let entry := entry_set v in
    if e_p entry =? 0 then err Exit else ok (table, entry, s)
  else ok (table, entry, s).

(** 0: no check; 1, 2: an access or a write may fail later; 3: this one fails. *)
Definition privilege_check (writing : bool) (table entry : X86PageEntry) s : Z :=
  let arch := CPU_ArchitectureType (cpu s) in
  let priv_check := 0 in
  let priv_check :=
    if InitPage_CheckUseraccess arch (e_us entry) (e_us table) then
      if USERWRITE_PROHIBITED s then 3 else if checks_later arch then 1 else priv_check
    else priv_check in
  if (e_wr entry =? 0) || (e_wr table =? 0) then
    let priv_check := if priv_check =? 0 then (if checks_later arch then 2 else priv_check) else priv_check in
    if writing && USERWRITE_PROHIBITED s then 3 else priv_check
  else priv_check.

Definition mark_table (lin_page : Z) (table : X86PageEntry) s : exec (X86PageEntry * Machine D) :=
  if e_a table =? 0 then
    let table := set_accessed table in
    let* s := phys_writed (table_addr lin_page s) (entry_get table) s in ok (table, s)
  else ok (table, s).

(** [dirty]: the page is written, or linked so that a later write is not seen. *)
Definition mark_entry (dirty : bool) (lin_page : Z) (table entry : X86PageEntry) s : exec (X86PageEntry * Machine D) :=
  if (e_a entry =? 0) || (e_d entry =? 0) then
    let entry := set_accessed entry in
    let entry := if dirty then set_dirty entry else entry in
    let* s := phys_writed (entry_addr table lin_page) (entry_get entry) s in ok (entry, s)
  else ok (entry, s).

Definition InitPage (lin_addr : Z) (writing : bool) s : exec (Z * Machine D) :=
  let lin_page := Z.shiftr lin_addr 12 in
  if enabled (paging s) then
    let* (table, entry, s) := InitPageCheckPresence lin_addr writing s in
    let priv_check := privilege_check writing table entry s in
    let* (priv_check, s) :=
      (if priv_check =? 3 then
         let* s := PAGING_PageFault run_fault_handler lin_addr (entry_addr table lin_page)
                     (Z.lor 0x05 (if writing then 0x02 else 0x00)) s in
         ok (0, s)
       else ok (priv_check, s)) in
    let* (table, s) := mark_table lin_page table s in
    let* (entry, s) := mark_entry (writing || (priv_check =? 0)) lin_page table entry s in
    let phys_page := e_base entry in
    if priv_check =? 0 then
      let* s := PAGING_LinkPage lin_page phys_page s in ok (0, s)
    else if priv_check =? 1 then
      let* s := PAGING_LinkPage lin_page phys_page s in ok (1, s)
    else if writing then
      let* handler := MEM_GetPageHandler phys_page (memory s) in
      let* s := PAGING_LinkPage lin_page phys_page s in
      if negb (readable handler) then ok (1, s) else
      if negb (writeable handler) then ok (1, s) else
      if negb (bool_decide (get_tlb_read lin_addr s = get_tlb_write lin_addr s)) then ok (1, s) else
      if 1 <? phys_page then ok (phys_page, s) else ok (1, s)
    else
      let* s := PAGING_LinkPage_ReadOnly lin_page phys_page s in ok (0, s)
  else
    let* phys_page := direct_page lin_page s in
    let* s := PAGING_LinkPage lin_page phys_page s in ok (0, s).

(** [true]: the access may go on; [false]: the processor has an exception to raise. *)
Definition InitPageCheckOnly (lin_addr : Z) (writing : bool) s : exec (bool * Machine D) :=
  let lin_page := Z.shiftr lin_addr 12 in
  if enabled (paging s) then
    let* (r, s) := InitPageCheckPresence_CheckOnly lin_addr writing s in
    match r with
    | None => ok (false, s)
    | Some (table, entry) =>
        if negb (USERWRITE_PROHIBITED s) then ok (true, s) else
        if InitPage_CheckUseraccess (CPU_ArchitectureType (cpu s)) (e_us entry) (e_us table)
           || (((e_wr entry =? 0) || (e_wr table =? 0)) && writing)
        then
          let s := set_paging (with_cr2 lin_addr (paging s)) s in
          ok (false, set_cpu (with_exception EXCEPTION_PF (Z.lor 0x05 (if writing then 0x02 else 0x00)) (cpu s)) s)
        else ok (true, s)
    end
  else
    let* phys_page := direct_page lin_page s in
    let* s := PAGING_LinkPage lin_page phys_page s in ok (true, s).

(** [writing] is what the walk tells the fault handler: the handler of user
    read-only pages passes [true]. *)
Definition InitPageForced (writing : bool) (lin_addr : Z) s : exec (Machine D) :=
  let lin_page := Z.shiftr lin_addr 12 in
  let* (phys_page, s) :=
    (if enabled (paging s) then
       let* (table, entry, s) := InitPageCheckPresence lin_addr writing s in
       let* (table, s) := mark_table lin_page table s in
       let* (entry, s) :=
         (if e_a entry =? 0 then
            let entry := set_accessed entry in
            let* s := phys_writed (entry_addr table lin_page) (entry_get entry) s in ok (entry, s)
          else ok (entry, s)) in
       ok (e_base entry, s)
     else let* phys_page := direct_page lin_page s in ok (phys_page, s)) in
  PAGING_LinkPage lin_page phys_page s.

(** ** The handler of user read-only pages *)
Definition userro_InitPage (lin_addr : Z) s : exec (Machine D) :=
  let lin_page := Z.shiftr lin_addr 12 in
  if enabled (paging s) then
    if negb (USERWRITE_PROHIBITED s) then ok s else
    let* (table, entry, s) := InitPageCheckPresence lin_addr true s in
    let* s := PAGING_PageFault run_fault_handler lin_addr (entry_addr table lin_page) 0x07 s in
    let* (table, s) := mark_table lin_page table s in
    let* (entry, s) := mark_entry true lin_page table entry s in
    PAGING_LinkPage lin_page (e_base entry) s
  else
    let* phys_page := direct_page lin_page s in PAGING_LinkPage lin_page phys_page s.

(** 0: an exception is due; 1: the page is linked; 2: write through the read pointer. *)
Definition userro_InitPageCheckOnly (lin_addr : Z) s : exec (Z * Machine D) :=
  let lin_page := Z.shiftr lin_addr 12 in
  if enabled (paging s) then
    if negb (USERWRITE_PROHIBITED s) then ok (2, s) else
    let* (r, s) := InitPageCheckPresence_CheckOnly lin_addr true s in
    match r with
    | None => ok (0, s)
    | Some (table, entry) =>
        if InitPage_CheckUseraccess (CPU_ArchitectureType (cpu s)) (e_us entry) (e_us table)
           || ((e_wr entry =? 0) || (e_wr table =? 0))
        then
          let s := set_paging (with_cr2 lin_addr (paging s)) s in
          ok (0, set_cpu (with_exception EXCEPTION_PF 0x07 (cpu s)) s)
        else let* s := PAGING_LinkPage lin_page (e_base entry) s in ok (1, s)
    end
  else
    let* phys_page := direct_page lin_page s in
    let* s := PAGING_LinkPage lin_page phys_page s in ok (1, s).

(** ** Entry points *)
Definition PAGING_ForcePageInit (lin_addr : Z) s : exec (bool * Machine D) :=
  match get_tlb_readhandler lin_addr s with
  | init_page_handler => let* s := InitPageForced false lin_addr s in ok (true, s)
  | init_page_handler_userro =>
      let s := PAGING_UnlinkPages (Z.shiftr lin_addr 12) 1 s in
      let* s := InitPageForced true lin_addr s in ok (true, s)
  | _ => ok (false, s)
  end.

(** The physical page of a linear one, [None] when it has none. *)
Definition PAGING_MakePhysPage (page : Z) s : exec (option Z) :=
  if enabled (paging s) then
    let d_index := Z.shiftr page 10 in
    let t_index := Z.land page 0x3ff in
    let* v := phys_readd (u32 (u32 (Z.shiftl (base_page (paging s)) 12) + d_index * 4)) s in
    let table := entry_set v in
    if e_p table =? 0 then ok None else
    let* v := phys_readd (u32 (Z.shiftl (e_base table) 12 + t_index * 4)) s in
    let entry := entry_set v in
    if e_p entry =? 0 then ok None else ok (Some (e_base entry))
  else if page <? LINK_START then let* q := read (firstmb (paging s)) page in ok (Some q) else ok (Some page).

Definition PAGING_SetDirBase (v : Z) s : Machine D :=
  let s := set_paging (with_base v (Z.shiftr v 12) (Z.land v (Z.lnot 4095)) (paging s)) s in
  if enabled (paging s) then PAGING_ClearTLB s else s.

Definition PAGING_Enable (en : bool) s : Machine D :=
  if Bool.eqb (enabled (paging s)) en then s else
  let s := set_paging (with_enabled en (paging s)) s in
  let s :=
    if en then
      let s := if decide (cpudecoder (cpu s) = CPU_Core_Simple_Run)
               then let c := with_decoder CPU_Core_Normal_Run (cpu s) in
                    set_cpu (with_cycles 0 (CPU_CycleLeft c + CPU_Cycles c) c) s
               else s in
      PAGING_SetDirBase (cr3 (paging s)) s
    else s in
  PAGING_ClearTLB s.

Fixpoint identity_pages (n : nat) (i : Z) (f : list Z) : exec (list Z) :=
  match n with
  | O => ok f
  | S n => let* f := write f i i in identity_pages n (i + 1) f
  end.
Definition PAGING s : exec (Machine D) :=
  let s := set_paging (with_enabled false (paging s)) s in
  let s := PAGING_InitTLB s in
  let* f := identity_pages (Z.to_nat LINK_START) 0 (firstmb (paging s)) in
  let s := set_paging (with_firstmb f (paging s)) s in
  ok (set_paging (with_pf 0 (pf_entries (paging s)) (paging s)) s).
End Walk.
