(* ===== verification/PagedAccess.v ===== *)
(** * Guest memory accesses ([cpu/paging.h], [cpu/paging.cpp])

    The four widths of [mem_readX_inline], [mem_writeX_inline] and their checked
    variants differ in the number [n] of bytes only: an access inside its page
    goes through the TLB's host pointer or its handler, one that crosses the page
    end is split into bytes.

    The calls of a handler back into the accesses are bounded by [fuel]: an
    access splits once, and a page is initialised once. *)
From S2P Require Import Prelude.
From S2P Require Import GuestMemory.
From S2P Require Import PageAlloc.
From S2P Require Import PageHandlers.
From S2P Require Import Paging.
From S2P Require Import PageWalk.
#[local] Open Scope Z_scope.
#[local] Open Scope exec_scope.

Definition in_page (n : nat) (address : Z) : bool := Z.land address 0xfff <? 0x1001 - Z.of_nat n.

Section Access.
Context {D : Type} `{Devices D}.
Variable run_fault_handler : Z -> Machine D -> exec (Machine D).
Implicit Types (s : Machine D).

(** The bytes [i], [i + 1], ... of an access, first to last. *)
Section Bytes.
Variable read_byte : Z -> Machine D -> exec (Z * Machine D).
Variable write_byte : Z -> Z -> Machine D -> exec (Machine D).

Fixpoint read_bytes (n : nat) (i address ret : Z) s : exec (Z * Machine D) :=
  match n with
  | O => ok (ret, s)
  | S n => let* (b, s) := read_byte (PhysPt (address + i)) s in
           read_bytes n (i + 1) address (Z.lor ret (Z.shiftl b (i * 8))) s
  end.
Fixpoint write_bytes (n : nat) (i address val : Z) s : exec (Machine D) :=
  match n with
  | O => ok s
  | S n => let* s := write_byte (PhysPt (address + i)) (u8 val) s in
           write_bytes n (i + 1) address (Z.shiftr val 8) s
  end.
End Bytes.

(** [PageHandler::readw], [readd] and [readq] of a handler whose [readb] returns [b]. *)
Definition default_read (n : nat) (b : Z) : Z := join_bytes (replicate n b) 0 0.

(** ** The handler of pages that are not linked

    [InitPageHandler]: link the page, repeat the access, and unlink it when
    later accesses must be checked. *)
Section InitPageHandler.
Variable mem_readx : nat -> Z -> Machine D -> exec (Z * Machine D).
Variable mem_writex : nat -> Z -> Z -> Machine D -> exec (Machine D).
Definition InitPageHandler_read (n : nat) (addr : Z) s : exec (Z * Machine D) :=
  let* (needs_reset, s) := InitPage run_fault_handler addr false s in
  let* (val, s) := mem_readx n addr s in
  let* s := InitPageUpdateLink needs_reset addr s in
  ok (val, s).
Definition InitPageHandler_write (n : nat) (addr val : Z) s : exec (Machine D) :=
  let* (needs_reset, s) := InitPage run_fault_handler addr true s in
  let* s := mem_writex n addr val s in
  InitPageUpdateLink needs_reset addr s.
(** [None] and [true] are the [return true] of a pending exception. *)
Definition InitPageHandler_read_checked (n : nat) (addr : Z) s : exec (option Z * Machine D) :=
  let* (allowed, s) := InitPageCheckOnly addr false s in
  if (allowed : bool) then let* (val, s) := mem_readx n addr s in ok (Some val, s)
  else ok (None, s).
Definition InitPageHandler_write_checked (n : nat) (addr val : Z) s : exec (bool * Machine D) :=
  let* (allowed, s) := InitPageCheckOnly addr true s in
  if (allowed : bool) then let* s := mem_writex n addr val s in ok (false, s)
  else ok (true, s).
End InitPageHandler.

(** ** Reads *)
Fixpoint mem_read (fuel n : nat) (address : Z) s : exec (Z * Machine D) :=
  match fuel with
  | O => err OutOfFuel
  | S fuel =>
      if in_page n address then
        match get_tlb_read address s with
        | Some tlb_addr => ok (host_read n (tlb_addr + address) (host s), s)
        | None =>
            match get_tlb_readhandler address s with
            | init_page_handler => InitPageHandler_read (mem_read fuel) n address s
            | illegal_page_handler => ok (default_read n 0xff, s)
            | device_handler id => let '(val, v) := device_read id n address (devices s) in ok (val, set_devices v s)
            | init_page_handler_userro | ram_page_handler | rom_page_handler => err Exit
            | null_page_handler => err OutOfBounds
            end
        end
      else read_bytes (mem_read fuel 1) n 0 address 0 s
  end.

(** ** Writes *)

(** The host write through the read pointer of a user read-only page. *)
Definition write_through (n : nat) (address val : Z) s : exec (Machine D) :=
  match get_tlb_read address s with
  | Some tlb_addr => ok (set_host (host_write n (tlb_addr + address) val (host s)) s)
  | None => err OutOfBounds
  end.
Definition userro_write1 (n : nat) (address val : Z) s : exec (Machine D) :=
  let* s := userro_InitPage run_fault_handler address s in write_through n address val s.
(** [InitPageUserROHandler] has no [writeq]: the inherited one writes bytes. *)
Definition userro_write (n : nat) (address val : Z) s : exec (Machine D) :=
  if Nat.eqb n 8 then write_bytes (userro_write1 1) 8 0 address val s else userro_write1 n address val s.

Fixpoint mem_write (fuel n : nat) (address val : Z) s : exec (Machine D) :=
  match fuel with
  | O => err OutOfFuel
  | S fuel =>
      if in_page n address then
        match get_tlb_write address s with
        | Some tlb_addr => ok (set_host (host_write n (tlb_addr + address) val (host s)) s)
        | None =>
            match get_tlb_writehandler address s with
            | init_page_handler => InitPageHandler_write (mem_write fuel) n address val s
            | init_page_handler_userro => userro_write n address val s
            | rom_page_handler | illegal_page_handler => ok s
            | device_handler id => ok (set_devices (device_write id n address val (devices s)) s)
            | ram_page_handler => err Exit
            | null_page_handler => err OutOfBounds
            end
        end
      else write_bytes (mem_write fuel 1) n 0 address val s
  end.

(** ** Checked accesses *)
Section CheckedBytes.
Variable read_byte : Z -> Machine D -> exec (option Z * Machine D).
Variable write_byte : Z -> Z -> Machine D -> exec (bool * Machine D).
Fixpoint read_bytes_checked (n : nat) (i address ret : Z) s : exec (option Z * Machine D) :=
  match n with
  | O => ok (Some ret, s)
  | S n => let* (b, s) := read_byte (PhysPt (address + i)) s in
           match b with
           | None => ok (None, s)
           | Some b => read_bytes_checked n (i + 1) address (Z.lor ret (Z.shiftl b (i * 8))) s
           end
  end.
Fixpoint write_bytes_checked (n : nat) (i address val : Z) s : exec (bool * Machine D) :=
  match n with
  | O => ok (false, s)
  | S n => let* (f, s) := write_byte (PhysPt (address + i)) (u8 (Z.land val 0xff)) s in
           if (f : bool) then ok (true, s) else write_bytes_checked n (i + 1) address (Z.shiftr val 8) s
  end.
End CheckedBytes.

Fixpoint mem_read_checked (fuel n : nat) (address : Z) s : exec (option Z * Machine D) :=
  match fuel with
  | O => err OutOfFuel
  | S fuel =>
      if in_page n address then
        match get_tlb_read address s with
        | Some tlb_addr => ok (Some (host_read n (tlb_addr + address) (host s)), s)
        | None =>
            match get_tlb_readhandler address s with
            | init_page_handler => InitPageHandler_read_checked (mem_read fuel) n address s
            | illegal_page_handler => ok (Some (default_read n 0xff), s)
            | device_handler id =>
                let '(val, v) := device_read id n address (devices s) in ok (Some val, set_devices v s)
            | init_page_handler_userro | ram_page_handler | rom_page_handler => err Exit
            | null_page_handler => err OutOfBounds
            end
        end
      else read_bytes_checked (mem_read_checked fuel 1) n 0 address 0 s
  end.

Definition userro_write_checked (n : nat) (address val : Z) s : exec (bool * Machine D) :=
  if Nat.eqb n 8 then let* s := userro_write 8 address val s in ok (false, s) else
  let* (writecode, s) := userro_InitPageCheckOnly address s in
  if nz writecode then
    match (if 1 <? writecode then get_tlb_read address s else get_tlb_write address s) with
    | Some tlb_addr => ok (false, set_host (host_write n (tlb_addr + address) val (host s)) s)
    | None => err OutOfBounds
    end
  else ok (true, s).

Fixpoint mem_write_checked (fuel n : nat) (address val : Z) s : exec (bool * Machine D) :=
  match fuel with
  | O => err OutOfFuel
  | S fuel =>
      if in_page n address then
        match get_tlb_write address s with
        | Some tlb_addr => ok (false, set_host (host_write n (tlb_addr + address) val (host s)) s)
        | None =>
            match get_tlb_writehandler address s with
            | init_page_handler => InitPageHandler_write_checked (mem_write fuel) n address val s
            | init_page_handler_userro => userro_write_checked n address val s
            | rom_page_handler | illegal_page_handler => ok (false, s)
            | device_handler id => ok (false, set_devices (device_write id n address val (devices s)) s)
            | ram_page_handler => err Exit
            | null_page_handler => err OutOfBounds
            end
        end
      else write_bytes_checked (mem_write_checked fuel 1) n 0 address val s
  end.
End Access.

(** An access splits into bytes, initialises a page, and then finds it linked. *)
Definition access_fuel : nat := 3.
