(* ===== verification/TlbProofs.v ===== *)
(** * The TLB forgets everything when it is told to

    Every linked page is recorded in [links], whatever sequence of paging
    operations and guest accesses ran, so that a flush leaves no stale
    translation. *)
From stdpp Require Import relations.
From S2P Require Import Prelude.
From S2P Require Import GuestMemory.
From S2P Require Import PageAlloc.
From S2P Require Import PageHandlers.
From S2P Require Import Paging.
From S2P Require Import PageWalk.
From S2P Require Import PagedAccess.
#[local] Open Scope Z_scope.
#[local] Open Scope exec_scope.

(** An entry with no translation: an access to its page walks the page table. *)
Definition is_reset (e : tlb_entry) : Prop :=
  t_read e = None /\ t_write e = None /\ t_readhandler e = init_page_handler /\ t_writehandler e = init_page_handler.
#[export] Instance is_reset_dec e : Decision (is_reset e).
Proof. unfold is_reset. apply _. Defined.

Create HintDb tlb.
Lemma reset_entry_reset e : is_reset (reset_entry e).
Proof. done. Qed.
#[export] Hint Resolve reset_entry_reset : tlb.

(** The linked pages of [t] are among [l]. *)
Definition tracked_in (l : list Z) (t : Z -> tlb_entry) : Prop := forall page, is_reset (t page) \/ page ∈ l.

Lemma set_tlb_tracked page e l t : tracked_in l t -> tracked_in (page :: l) (set_tlb page e t).
Proof.
  intros Ht q. unfold set_tlb. destruct (Z.eqb_spec q page) as [->|]; [right; apply list_elem_of_here|].
  destruct (Ht q); [by left|right; by apply list_elem_of_further].
Qed.
Lemma reset_page_tracked page l t : tracked_in (page :: l) t -> tracked_in l (reset_page page t).
Proof.
  intros Ht q. unfold reset_page, set_tlb. destruct (Z.eqb_spec q page) as [->|]; [by left|].
  destruct (Ht q) as [|Hq]; [by left|]. apply elem_of_cons in Hq as [->|]; [done|by right].
Qed.
Lemma tracked_weaken l l' t : (forall page, page ∈ l -> page ∈ l') -> tracked_in l t -> tracked_in l' t.
Proof. intros Hl Ht q. destruct (Ht q); [by left|right; by apply Hl]. Qed.
Lemma reset_page_keeps page l t : tracked_in l t -> tracked_in l (reset_page page t).
Proof.
  intros Ht. apply reset_page_tracked. revert Ht. apply tracked_weaken. intros. by apply list_elem_of_further.
Qed.
Lemma Unlink_loop_keeps n page l t : tracked_in l t -> tracked_in l (UnlinkPages_loop n page t).
Proof. revert page t. induction n as [|n IH]; intros; [done|]. cbn. by apply IH, reset_page_keeps. Qed.
Lemma Clear_loop_tracked l l' t : tracked_in (l ++ l') t -> tracked_in l' (ClearTLB_loop l t).
Proof.
  revert t. induction l as [|page l IH]; intros t Ht; [done|]. cbn. apply IH. by apply reset_page_tracked.
Qed.
Lemma Clear_loop_reset l t : tracked_in l t -> forall page, is_reset (ClearTLB_loop l t page).
Proof.
  intros Ht page. pose proof (Clear_loop_tracked l [] t) as Hc. rewrite app_nil_r in Hc.
  destruct (Hc Ht page) as [|Hn]; [done|by apply elem_of_nil in Hn].
Qed.

Section Machine.
Context {D : Type} `{Devices D}.
Implicit Types (s : Machine D).

Definition tracked s : Prop := tracked_in (links (paging s)) (tlb (paging s)).

Lemma tracked_ext s s' :
  tlb (paging s') = tlb (paging s) -> links (paging s') = links (paging s) -> tracked s -> tracked s'.
Proof using. unfold tracked. by intros -> ->. Qed.

Lemma InitTLB_tracked s : tracked (PAGING_InitTLB s).
Proof using. intros q. by left. Qed.
Lemma ClearTLB_reset s : tracked s -> forall page, is_reset (tlb (paging (PAGING_ClearTLB s)) page).
Proof using.
  intros Ht page. cbn. apply Clear_loop_reset. revert Ht. apply tracked_weaken. intros q. by rewrite !list_elem_of_In, <- in_rev.
Qed.

Lemma ClearTLB_tracked s : tracked s -> tracked (PAGING_ClearTLB s).
Proof using. intros Ht q. left. by apply ClearTLB_reset. Qed.
Lemma link_entry_tracked page e s : tracked s -> tracked (link_entry page e s).
Proof using.
  intros Ht. unfold link_entry, tracked. cbn. destruct (_ <=? _); apply set_tlb_tracked; [by apply ClearTLB_tracked|done].
Qed.
Lemma LinkPage_tracked l q s s' : tracked s -> PAGING_LinkPage l q s = ok s' -> tracked s'.
Proof using. intros Ht E. unfold PAGING_LinkPage in E. exec_inv E. subst s'. by apply link_entry_tracked. Qed.
Lemma LinkPage_ReadOnly_tracked l q s s' : tracked s -> PAGING_LinkPage_ReadOnly l q s = ok s' -> tracked s'.
Proof using. intros Ht E. unfold PAGING_LinkPage_ReadOnly in E. exec_inv E. subst s'. by apply link_entry_tracked. Qed.
Lemma MapPage_tracked l q s s' : tracked s -> PAGING_MapPage l q s = ok s' -> tracked s'.
Proof using.
  intros Ht E. unfold PAGING_MapPage in E. exec_inv E; [|by eapply LinkPage_tracked].
  subst s'. unfold tracked. cbn. by apply reset_page_keeps.
Qed.
Lemma UnlinkPages_tracked l n s : tracked s -> tracked (PAGING_UnlinkPages l n s).
Proof using. apply Unlink_loop_keeps. Qed.
Lemma UpdateLink_tracked r addr s s' : tracked s -> InitPageUpdateLink r addr s = ok s' -> tracked s'.
Proof using.
  intros Ht E. unfold InitPageUpdateLink in E. destruct (r =? 0); [by injection E as <-|].
  cbv zeta in E. set (s1 := match links (paging s) with [] => s | _ => _ end) in E.
  assert (tracked s1) as H1.
  { unfold s1. destruct (links (paging s)) as [|page rest] eqn:El; [done|].
    destruct (Z.eqb_spec page (Z.shiftr addr 12)) as [<-|]; [|done].
    unfold tracked. cbn. apply reset_page_tracked. by rewrite <- El. }
  destruct (1 <? r); [by eapply LinkPage_ReadOnly_tracked|by injection E as <-].
Qed.
Lemma SetDirBase_tracked v s : tracked s -> tracked (PAGING_SetDirBase v s).
Proof using. intros Ht. unfold PAGING_SetDirBase. cbn. destruct (enabled _); [by apply ClearTLB_tracked|done]. Qed.
Lemma Enable_tracked b s : tracked s -> tracked (PAGING_Enable b s).
Proof using.
  intros Ht. unfold PAGING_Enable. destruct (Bool.eqb _ _); [done|]. cbv zeta. apply ClearTLB_tracked.
  destruct b; [|done]. apply SetDirBase_tracked. by destruct (decide _).
Qed.

(** ** Operations that run the guest's fault handler *)
Section Handler.
Variable rf : Z -> Machine D -> exec (Machine D).
(** Running the guest is a sequence of the operations below. *)
Hypothesis rf_tracked : forall code s s', rf code s = ok s' -> tracked s -> tracked s'.

Lemma phys_writed_tracked addr v s s' : tracked s -> phys_writed addr v s = ok s' -> tracked s'.
Proof using. intros Ht E. unfold phys_writed in E. exec_inv E. by subst. Qed.
Lemma PageFault_tracked l q c s s' : tracked s -> PAGING_PageFault rf l q c s = ok s' -> tracked s'.
Proof using rf_tracked.
  intros Ht E. unfold PAGING_PageFault in E. exec_inv E. subst s'.
  eapply tracked_ext; [| |eapply rf_tracked; [eassumption|]]; [done..|]. by eapply tracked_ext; [| |exact Ht].
Qed.

(** Carry [tracked] along the runs among the hypotheses. *)
Ltac track :=
  exec_all;
  repeat match goal with
  | Ht : tracked ?s, E : PAGING_PageFault _ _ _ _ ?s = ok _ |- _ => apply (PageFault_tracked _ _ _ _ _ Ht) in E
  | Ht : tracked ?s, E : phys_writed _ _ ?s = ok _ |- _ => apply (phys_writed_tracked _ _ _ _ Ht) in E
  | Ht : tracked ?s, E : PAGING_LinkPage _ _ ?s = ok _ |- _ => apply (LinkPage_tracked _ _ _ _ Ht) in E
  | Ht : tracked ?s, E : PAGING_LinkPage_ReadOnly _ _ ?s = ok _ |- _ => apply (LinkPage_ReadOnly_tracked _ _ _ _ Ht) in E
  | Ht : tracked ?s, E : InitPageUpdateLink _ _ ?s = ok _ |- _ => apply (UpdateLink_tracked _ _ _ _ Ht) in E
  end; try done.

Lemma CheckPresence_tracked l w s t e s' :
  tracked s -> InitPageCheckPresence rf l w s = ok (t, e, s') -> tracked s'.
Proof using rf_tracked. intros Ht E. unfold InitPageCheckPresence in E. track. Qed.
Lemma CheckOnly_tracked l w s r s' :
  tracked s -> InitPageCheckPresence_CheckOnly l w s = ok (r, s') -> tracked s'.
Proof using. intros Ht E. unfold InitPageCheckPresence_CheckOnly in E. track. Qed.
Lemma mark_table_tracked l t s t' s' : tracked s -> mark_table l t s = ok (t', s') -> tracked s'.
Proof using. intros Ht E. unfold mark_table in E. track. Qed.

Lemma mark_entry_tracked b l t e s e' s' : tracked s -> mark_entry b l t e s = ok (e', s') -> tracked s'.
Proof using. intros Ht E. unfold mark_entry in E. track. Qed.

Ltac track_walk :=
  exec_all;
  repeat (match goal with
  | Ht : tracked ?s, E : InitPageCheckPresence _ _ _ ?s = ok _ |- _ => apply (CheckPresence_tracked _ _ _ _ _ _ Ht) in E
  | Ht : tracked ?s, E : InitPageCheckPresence_CheckOnly _ _ ?s = ok _ |- _ => apply (CheckOnly_tracked _ _ _ _ _ Ht) in E
  | Ht : tracked ?s, E : mark_table _ _ ?s = ok _ |- _ => apply (mark_table_tracked _ _ _ _ _ Ht) in E
  | Ht : tracked ?s, E : mark_entry _ _ _ _ ?s = ok _ |- _ => apply (mark_entry_tracked _ _ _ _ _ _ _ Ht) in E
  | _ => progress track
  end); try done.

Lemma InitPage_tracked l w s r s' : tracked s -> InitPage rf l w s = ok (r, s') -> tracked s'.
Proof using rf_tracked. intros Ht E. unfold InitPage in E. track_walk. Qed.
Lemma InitPageCheckOnly_tracked l w s r s' : tracked s -> InitPageCheckOnly l w s = ok (r, s') -> tracked s'.
Proof using. intros Ht E. unfold InitPageCheckOnly in E. track_walk. Qed.
Lemma InitPageForced_tracked w l s s' : tracked s -> InitPageForced rf w l s = ok s' -> tracked s'.
Proof using rf_tracked. intros Ht E. unfold InitPageForced in E. track_walk. Qed.
Lemma userro_InitPage_tracked l s s' : tracked s -> userro_InitPage rf l s = ok s' -> tracked s'.
Proof using rf_tracked. intros Ht E. unfold userro_InitPage in E. track_walk. Qed.
Lemma userro_CheckOnly_tracked l s r s' : tracked s -> userro_InitPageCheckOnly l s = ok (r, s') -> tracked s'.
Proof using. intros Ht E. unfold userro_InitPageCheckOnly in E. track_walk. Qed.
Lemma ForcePageInit_tracked l s r s' : tracked s -> PAGING_ForcePageInit rf l s = ok (r, s') -> tracked s'.
Proof using rf_tracked.
  intros Ht E. unfold PAGING_ForcePageInit in E. exec_all; try done; (eapply InitPageForced_tracked; [|eassumption]);
    [done|by apply UnlinkPages_tracked].
Qed.

(** ** Accesses *)
Lemma read_bytes_tracked rb n i addr r s v s' :
  (forall b t v t', tracked t -> rb b t = ok (v, t') -> tracked t') ->
  tracked s -> read_bytes rb n i addr r s = ok (v, s') -> tracked s'.
Proof using.
  intros Hb. revert i r s. induction n as [|n IH]; intros i r s Ht E; cbn in E; exec_all; [done|].
  eapply IH; [|eassumption]. by eapply Hb.
Qed.
Lemma write_bytes_tracked wb n i addr v s s' :
  (forall b v t t', tracked t -> wb b v t = ok t' -> tracked t') ->
  tracked s -> write_bytes wb n i addr v s = ok s' -> tracked s'.
Proof using.
  intros Hb. revert i v s. induction n as [|n IH]; intros i v s Ht E; cbn in E; exec_all; [done|].
  eapply IH; [|eassumption]. by eapply Hb.
Qed.
Lemma read_bytes_checked_tracked rb n i addr r s v s' :
  (forall b t v t', tracked t -> rb b t = ok (v, t') -> tracked t') ->
  tracked s -> read_bytes_checked rb n i addr r s = ok (v, s') -> tracked s'.
Proof using.
  intros Hb. revert i r s. induction n as [|n IH]; intros i r s Ht E; cbn in E; exec_all; eauto.
Qed.
Lemma write_bytes_checked_tracked wb n i addr v s f s' :
  (forall b v t f t', tracked t -> wb b v t = ok (f, t') -> tracked t') ->
  tracked s -> write_bytes_checked wb n i addr v s = ok (f, s') -> tracked s'.
Proof using.
  intros Hb. revert i v s. induction n as [|n IH]; intros i v s Ht E; cbn in E; exec_all; eauto.
Qed.

Ltac track_access :=
  unfold InitPageHandler_read, InitPageHandler_write, InitPageHandler_read_checked, InitPageHandler_write_checked in *;
  exec_all;
  repeat match goal with
  | Ht : tracked ?s, E : InitPage _ _ _ ?s = ok _ |- _ => apply (InitPage_tracked _ _ _ _ _ Ht) in E
  | Ht : tracked ?s, E : InitPageCheckOnly _ _ ?s = ok _ |- _ => apply (InitPageCheckOnly_tracked _ _ _ _ _ Ht) in E
  | Ht : tracked ?s, E : userro_InitPage _ _ ?s = ok _ |- _ => apply (userro_InitPage_tracked _ _ _ Ht) in E
  | Ht : tracked ?s, E : userro_InitPageCheckOnly _ ?s = ok _ |- _ => apply (userro_CheckOnly_tracked _ _ _ _ Ht) in E
  end; track.

Lemma mem_read_tracked fuel n addr s v s' : tracked s -> mem_read rf fuel n addr s = ok (v, s') -> tracked s'.
Proof using rf_tracked.
  revert n addr s v s'. induction fuel as [|fuel IH]; intros n addr s v s' Ht E; cbn in E; [done|].
  destruct (in_page n addr); [|by eapply read_bytes_tracked; [|exact Ht|exact E]; eauto].
  track_access. eapply UpdateLink_tracked; [|eassumption]. eauto.
Qed.

Lemma userro_write_tracked n addr v s s' : tracked s -> userro_write rf n addr v s = ok s' -> tracked s'.
Proof using rf_tracked.
  assert (forall n addr v s s', tracked s -> userro_write1 rf n addr v s = ok s' -> tracked s') as H1.
  { clear n addr v s s'. intros n addr v s s' Ht E. unfold userro_write1, write_through in E. track_access. }
  intros Ht E. unfold userro_write in E. destruct (Nat.eqb n 8); [|by eapply H1].
  eapply write_bytes_tracked; [|exact Ht|exact E]. eauto.
Qed.

Lemma mem_write_tracked fuel n addr v s s' : tracked s -> mem_write rf fuel n addr v s = ok s' -> tracked s'.
Proof using rf_tracked.
  revert n addr v s s'. induction fuel as [|fuel IH]; intros n addr v s s' Ht E; cbn in E; [done|].
  destruct (in_page n addr); [|by eapply write_bytes_tracked; [|exact Ht|exact E]; eauto].
  destruct (get_tlb_write addr s); [by track_access|].
  destruct (get_tlb_writehandler addr s); try (by track_access); [|by eapply userro_write_tracked].
  track_access. eapply UpdateLink_tracked; [|eassumption]. eauto.
Qed.

Lemma mem_read_checked_tracked fuel n addr s v s' :
  tracked s -> mem_read_checked rf fuel n addr s = ok (v, s') -> tracked s'.
Proof using rf_tracked.
  revert n addr s v s'. induction fuel as [|fuel IH]; intros n addr s v s' Ht E; cbn in E; [done|].
  destruct (in_page n addr); [|by eapply read_bytes_checked_tracked; [|exact Ht|exact E]; eauto].
  track_access. by eapply mem_read_tracked; [|eassumption].
Qed.

Lemma mem_write_checked_tracked fuel n addr v s f s' :
  tracked s -> mem_write_checked rf fuel n addr v s = ok (f, s') -> tracked s'.
Proof using rf_tracked.
  revert n addr v s f s'. induction fuel as [|fuel IH]; intros n addr v s f s' Ht E; cbn in E; [done|].
  destruct (in_page n addr); [|by eapply write_bytes_checked_tracked; [|exact Ht|exact E]; eauto].
  destruct (get_tlb_write addr s); [by track_access|].
  destruct (get_tlb_writehandler addr s); try (by track_access).
  - track_access. by eapply mem_write_tracked; [|eassumption].
  - unfold userro_write_checked in E. track_access. by eapply userro_write_tracked; [|eassumption].
Qed.

(** ** Runs of the machine

    What a run does with the TLB: guest accesses, the operations on [CR0] and
    [CR3], mappings, and anything that leaves the paging state alone. *)
Inductive mmu_step : Machine D -> Machine D -> Prop :=
  | step_read fuel n addr s v s' : mem_read rf fuel n addr s = ok (v, s') -> mmu_step s s'
  | step_write fuel n addr v s s' : mem_write rf fuel n addr v s = ok s' -> mmu_step s s'
  | step_read_checked fuel n addr s v s' : mem_read_checked rf fuel n addr s = ok (v, s') -> mmu_step s s'
  | step_write_checked fuel n addr v s f s' : mem_write_checked rf fuel n addr v s = ok (f, s') -> mmu_step s s'
  | step_force addr s b s' : PAGING_ForcePageInit rf addr s = ok (b, s') -> mmu_step s s'
  | step_map lin phys s s' : PAGING_MapPage lin phys s = ok s' -> mmu_step s s'
  | step_unlink lin n s : mmu_step s (PAGING_UnlinkPages lin n s)
  | step_cr3 v s : mmu_step s (PAGING_SetDirBase v s)
  | step_enable b s : mmu_step s (PAGING_Enable b s)
  | step_flush s : mmu_step s (PAGING_ClearTLB s)
  | step_other s s' : paging s' = paging s -> mmu_step s s'.

Lemma mmu_step_tracked s s' : mmu_step s s' -> tracked s -> tracked s'.
Proof using rf_tracked.
  intros Hs Ht. destruct Hs as [? ? ? ? ? ? E|? ? ? ? ? ? E|? ? ? ? ? ? E|? ? ? ? ? ? ? E|? ? ? ? E|? ? ? ? E| | | | |? ? E].
  - by eapply mem_read_tracked.
  - by eapply mem_write_tracked.
  - by eapply mem_read_checked_tracked.
  - by eapply mem_write_checked_tracked.
  - by eapply ForcePageInit_tracked.
  - by eapply MapPage_tracked.
  - by apply UnlinkPages_tracked.
  - by apply SetDirBase_tracked.
  - by apply Enable_tracked.
  - by apply ClearTLB_tracked.
  - unfold tracked. by rewrite E.
Qed.
End Handler.
End Machine.

(** ** A machine of 32 pages with no devices, for the witnesses *)
#[export] Instance no_devices : Devices unit := {
  device_flags _ := 0; device_read_pt _ _ := 0; device_write_pt _ _ := 0;
  device_read _ _ _ v := (0, v); device_write _ _ _ _ v := v; voodoo_lfb _ := None }.
Definition demo_tlb : tlb_entry := mkTlb None None init_page_handler init_page_handler 0.
Definition demo_machine : Machine unit :=
  mkMachine (fun _ => 0)
    (mkMemory (replicate 32 ram_page_handler) (replicate 32 0) 0 0 0 illegal_page_handler illegal_page_handler false 0)
    (mkPaging 0 0 0 0 (fun _ => demo_tlb) [] (replicate (Z.to_nat LINK_START) 0) false 0
       (replicate PF_QUEUESIZE (mkPF 0 0 0 0)))
    (mkCpu 0 3 0 0 0 0 Pentium CPU_Core_Normal_Run 3000 0) tt.
Definition no_handler (code : Z) (s : Machine unit) : exec (Machine unit) := ok s.

(** ** The theorem *)

(** C13.  From the set-up of paging on, whatever accesses, mappings, page faults and
    mode switches the machine performs, a flush of the TLB, a load of the page
    directory base while paging is on, and turning paging on or off leave no
    translation behind: every page is back with the handler that walks the page
    table. *)
Theorem flush_complete {D} `{Devices D} (rf : Z -> Machine D -> exec (Machine D)) s0 s1 s :
  (forall code s s', rf code s = ok s' -> tracked s -> tracked s') ->
  PAGING s0 = ok s1 -> rtc (mmu_step rf) s1 s ->
  (forall page, is_reset (tlb (paging (PAGING_ClearTLB s)) page)) /\
  (enabled (paging s) = true -> forall v page, is_reset (tlb (paging (PAGING_SetDirBase v s)) page)) /\
  (forall b, enabled (paging s) <> b -> forall page, is_reset (tlb (paging (PAGING_Enable b s)) page)).
Proof.
  intros Hrf E Hsteps.
  assert (tracked s) as Ht.
  { assert (tracked s1) as H1.
    { unfold PAGING in E. exec_all. intros q. by left. }
    clear E. revert H1. induction Hsteps as [|x y z Hxy _ IH]; [done|]. intros Hx. by apply IH, (mmu_step_tracked rf Hrf x). }
  split; [by apply ClearTLB_reset|]. split.
  - intros He v page. unfold PAGING_SetDirBase. cbn [enabled paging set_paging with_base]. rewrite He.
    by apply ClearTLB_reset.
  - intros b Hb page. unfold PAGING_Enable. destruct (Bool.eqb_spec (enabled (paging s)) b); [done|]. cbv zeta.
    apply ClearTLB_reset. destruct b; [|done]. apply SetDirBase_tracked. by destruct (decide _).
Qed.

Lemma flush_complete_witness :
  exists s1 s, PAGING demo_machine = ok s1 /\ mem_write no_handler 3 4 0x1ffe 0xdeadbeef s1 = ok s /\
    links (paging s) = [2; 1] /\ is_reset (tlb (paging (PAGING_ClearTLB s)) 1) /\
    is_reset (tlb (paging (PAGING_Enable true s)) 2).
Proof.
  eexists _, _. split; [vm_compute; reflexivity|]. split; [vm_compute; reflexivity|]. split; [vm_compute; reflexivity|].
  match goal with |- is_reset (tlb (paging (PAGING_ClearTLB ?s)) 1) /\ _ =>
    destruct (flush_complete no_handler demo_machine (match PAGING demo_machine with ok t => t | err _ => demo_machine end) s)
      as (H1 & _ & H2)
  end.
  - intros code t t' E. by injection E as ->.
  - vm_compute. reflexivity.
  - eapply rtc_once, (step_write no_handler 3 4 0x1ffe 0xdeadbeef). vm_compute. reflexivity.
  - split; [apply H1|apply H2; done].
Defined.
