(* ===== verification/RealMode.v ===== *)
(** * With paging off, guest memory is physical memory behind one page map

    The accesses of [cpu/paging.h] find the bytes of the physical page the
    first-megabyte table assigns to an address, when the entries that the TLB holds are
    those of that table and no device handles the page, and split
    or unsplit accesses agree.  This discharges the interface of
    [GuestMemory] for the machine. *)
From S2P Require Import Prelude.
From S2P Require Import GuestMemory.
From S2P Require Import GuestMemoryProofs.
From S2P Require Import PageAlloc.
From S2P Require Import PageHandlers.
From S2P Require Import Paging.
From S2P Require Import PageWalk.
From S2P Require Import PagedAccess.
From S2P Require Import TlbProofs.
#[local] Open Scope Z_scope.
#[local] Open Scope exec_scope.

Section RealMode.
Context {D : Type} `{Devices D}.
Implicit Types (s : Machine D).

(** ** The specification *)

(** The physical page and the handler behind a linear page. *)
Definition direct (page : Z) s : Z :=
  if page <? LINK_START then match get (firstmb (paging s)) page with Some q => q | None => page end else page.
Definition page_handler (page : Z) s : handler :=
  match MEM_GetPageHandler (direct page s) (memory s) with ok h => h | err _ => illegal_page_handler end.
Definition byte_page (address : Z) : Z := Z.shiftr address 12.
Definition byte_offset (address : Z) : Z := Z.land address 0xfff.

(** A byte access on physical memory: reads outside it float high, writes to
    what cannot be written are dropped. *)
#[export] Instance physical_memory : ByteMemory (Machine D) := {
  readb address s :=
    let h := page_handler (byte_page address) s in
    if readable h then u8 (host s (GetHostReadPt h (direct (byte_page address) s) + byte_offset address)) else 0xff;
  writeb address v s :=
    let h := page_handler (byte_page address) s in
    if writeable h
    then set_host (host_write 1 (GetHostWritePt h (direct (byte_page address) s) + byte_offset address) v (host s)) s
    else s;
  faults _ _ := false }.

(** Everything but the TLB. *)
Definition same_but_tlb s s' : Prop :=
  host s' = host s /\ memory s' = memory s /\ cpu s' = cpu s /\ devices s' = devices s /\
  paging s' = with_tlb (tlb (paging s')) (links (paging s')) (paging s).

(** The pages an access of the theorem may touch: host memory, or nothing. *)
Definition plain_read (h : handler) : Prop := readable h = true \/ h = illegal_page_handler.
Definition plain_write (h : handler) : Prop := writeable h = true \/ h = rom_page_handler \/ h = illegal_page_handler.

Lemma plain_read_null h : plain_read h -> h <> null_page_handler.
Proof using. intros Hp ->. by destruct Hp. Qed.
Lemma plain_write_null h : plain_write h -> h <> null_page_handler.
Proof using. intros Hp ->. by destruct Hp as [|[]]. Qed.

(** A TLB entry is reset, or what linking the page stores. *)
Definition linked_entry (page : Z) s (e : tlb_entry) : Prop :=
  let h := page_handler page s in
  e = mkTlb (if readable h then Some (GetHostReadPt h (direct page s) - page * 4096) else None)
            (if writeable h then Some (GetHostWritePt h (direct page s) - page * 4096) else None)
            h h (direct page s).
Definition coherent s : Prop :=
  forall page, 0 <= page < TLB_SIZE -> is_reset (tlb (paging s) page) \/ linked_entry page s (tlb (paging s) page).

Record real_mode s : Prop := {
  rm_disabled : enabled (paging s) = false;
  rm_firstmb : length (firstmb (paging s)) = Z.to_nat LINK_START;
  rm_pages : forall i q, get (firstmb (paging s)) i = Some q -> 0 <= q < TLB_SIZE;
  rm_handlers : forall q, 0 <= q < TLB_SIZE -> exists h, MEM_GetPageHandler q (memory s) = ok h /\
                  h <> init_page_handler /\ h <> init_page_handler_userro;
  rm_coherent : coherent s }.

(** ** [same_but_tlb] is an equivalence the specification respects *)
#[export] Instance same_but_tlb_equiv : Equivalence same_but_tlb.
Proof using.
  split; unfold same_but_tlb.
  - intros s. repeat split. by destruct (paging s).
  - intros s t (-> & -> & -> & -> & E). repeat split. rewrite E. cbn. by destruct (paging s).
  - intros s t u (H1 & H2 & H3 & H4 & E) (K1 & K2 & K3 & K4 & F).
    rewrite K1, K2, K3, K4, F, E. repeat split; [done..|]. cbn. done.
Qed.

Lemma same_firstmb s s' : same_but_tlb s s' -> firstmb (paging s') = firstmb (paging s).
Proof using. intros (_ & _ & _ & _ & ->). done. Qed.
#[export] Instance direct_proper page : Proper (same_but_tlb ==> eq) (direct page).
Proof using. intros s s' E. unfold direct. by rewrite (same_firstmb _ _ E). Qed.
#[export] Instance page_handler_proper page : Proper (same_but_tlb ==> eq) (page_handler page).
Proof using.
  intros s s' E. unfold page_handler. rewrite (direct_proper _ _ _ E). destruct E as (_ & -> & _). done.
Qed.
#[export] Instance readb_proper address : Proper (same_but_tlb ==> eq) (readb address).
Proof using.
  intros s s' E. cbn. rewrite (page_handler_proper _ _ _ E), (direct_proper _ _ _ E). destruct E as (-> & _). done.
Qed.
#[export] Instance writeb_proper address v : Proper (same_but_tlb ==> same_but_tlb) (writeb address v).
Proof using.
  intros s s' E. cbn. rewrite (page_handler_proper _ _ _ E), (direct_proper _ _ _ E). destruct (writeable _); [|done].
  destruct E as (-> & H2 & H3 & H4 & H5). by repeat split.
Qed.
#[export] Instance le_read_proper n address : Proper (same_but_tlb ==> eq) (le_read n address).
Proof using.
  intros s s' E. revert address. induction n as [|n IH]; intros address; [done|]. cbn [le_read]. by rewrite IH, (readb_proper _ _ _ E).
Qed.
#[export] Instance le_write_proper n address v : Proper (same_but_tlb ==> same_but_tlb) (le_write n address v).
Proof using.
  revert address v. induction n as [|n IH]; intros address v s s' E; [done|]. cbn [le_write]. apply IH. by apply writeb_proper.
Qed.

(** ** Linking a page *)
Lemma readable_ram : readable ram_page_handler = true.
Proof using. done. Qed.
Lemma readable_illegal : readable illegal_page_handler = false.
Proof using. done. Qed.
Lemma writeable_ro : writeable rom_page_handler = false /\ writeable illegal_page_handler = false.
Proof using. done. Qed.

Lemma direct_range s page : real_mode s -> 0 <= page < TLB_SIZE -> 0 <= direct page s < TLB_SIZE.
Proof using.
  intros Hr Hp. unfold direct. destruct (Z.ltb_spec page LINK_START); [|done].
  destruct (get _ page) as [q|] eqn:E; [by eapply rm_pages|done].
Qed.
Lemma page_handler_spec s page :
  real_mode s -> 0 <= page < TLB_SIZE ->
  MEM_GetPageHandler (direct page s) (memory s) = ok (page_handler page s) /\
  page_handler page s <> init_page_handler /\ page_handler page s <> init_page_handler_userro.
Proof using.
  intros Hr Hp. destruct (rm_handlers s Hr (direct page s)) as (h & E & Hh); [by apply direct_range|].
  unfold page_handler. by rewrite E.
Qed.
Lemma direct_page_ok s page : real_mode s -> 0 <= page < TLB_SIZE -> direct_page page s = ok (direct page s).
Proof using.
  intros Hr Hp. unfold direct_page, direct. destruct (Z.ltb_spec page LINK_START); [|done].
  unfold read. destruct (get _ page) as [q|] eqn:E; [done|].
  apply get_None_range in E; [|lia]. rewrite (rm_firstmb s Hr) in E. unfold LINK_START in *. lia.
Qed.

Lemma real_mode_same s s' : same_but_tlb s s' -> real_mode s -> coherent s' -> real_mode s'.
Proof using.
  intros E Hr Hc. pose proof (same_firstmb _ _ E) as Ef. destruct E as (_ & Em & _ & _ & Ep). split; [| | | |done].
  - rewrite Ep. apply Hr.
  - rewrite Ef. apply Hr.
  - rewrite Ef. apply Hr.
  - rewrite Em. apply Hr.
Qed.

(** The view of the TLB after an entry is stored: other pages keep their entry or lose it. *)
Lemma link_entry_spec page e s :
  same_but_tlb s (link_entry page e s) /\ tlb (paging (link_entry page e s)) page = e /\
  forall q, q <> page -> tlb (paging (link_entry page e s)) q = tlb (paging s) q \/
                         is_reset (tlb (paging (link_entry page e s)) q).
Proof using.
  unfold link_entry. split; [by destruct (_ <=? _)|]. split; [cbn; unfold set_tlb; by rewrite Z.eqb_refl|].
  intros q Hq. cbn. unfold set_tlb. destruct (Z.eqb_spec q page); [done|].
  destruct (_ <=? _); [|by left]. cbn. generalize (tlb (paging s)) as t.
  induction (rev (links (paging s))) as [|r l IH]; intros t; [by left|]. cbn.
  destruct (IH (reset_page r t)) as [E|]; [|by right]. rewrite E. unfold reset_page, set_tlb.
  destruct (q =? r); [by right|by left].
Qed.

Lemma coherent_same s s' e page :
  same_but_tlb s s' -> coherent s -> tlb (paging s') page = e -> linked_entry page s e ->
  (forall q, q <> page -> tlb (paging s') q = tlb (paging s) q \/ is_reset (tlb (paging s') q)) -> coherent s'.
Proof using.
  intros Es Hc Ee Hl Hq q Hq'. unfold linked_entry in *. rewrite <- (direct_proper q _ _ Es), <- (page_handler_proper q _ _ Es).
  destruct (Z.eq_dec q page) as [->|Hne]; [right; by rewrite Ee|].
  destruct (Hq q Hne) as [->|]; [by apply Hc|by left].
Qed.

Lemma LinkPage_real s page :
  real_mode s -> 0 <= page < TLB_SIZE -> page_handler page s <> null_page_handler ->
  exists s', PAGING_LinkPage page (direct page s) s = ok s' /\ same_but_tlb s s' /\ real_mode s' /\
    linked_entry page s (tlb (paging s') page).
Proof using.
  intros Hr Hp Hnull. unfold PAGING_LinkPage. destruct (page_handler_spec s page Hr Hp) as [-> _]. cbn [exec_bind].
  pose proof (direct_range s page Hr Hp). unfold illegal_page.
  destruct (Z.leb_spec TLB_SIZE page), (Z.leb_spec TLB_SIZE (direct page s)); try lia. cbn [orb].
  unfold deref. rewrite decide_False by done. cbn [exec_bind].
  rewrite Z.shiftl_mul_pow2, u32_small by (unfold TLB_SIZE in *; lia). change (2 ^ 12) with 4096.
  match goal with |- context [link_entry page ?e s] => set (e0 := e); destruct (link_entry_spec page e0 s) as (Es & E1 & E2) end.
  eexists. split; [done|]. split; [done|].
  assert (linked_entry page s e0) as He by done.
  split; [|by rewrite E1]. apply (real_mode_same s); [done..|]. by eapply coherent_same; [|apply Hr|..].
Qed.

(** ** Accesses inside a page *)
Definition width (n : nat) : Prop := n = 1%nat \/ n = 2%nat \/ n = 4%nat \/ n = 8%nat.

Lemma address_split a : a = byte_page a * 4096 + byte_offset a /\ 0 <= byte_offset a < 4096.
Proof using.
  unfold byte_page, byte_offset. rewrite Z.shiftr_div_pow2 by lia. change 0xfff with (Z.ones 12).
  rewrite Z.land_ones by lia. change (2 ^ 12) with 4096. zlia.
Qed.
Lemma address_unique page off a : a = page * 4096 + off -> 0 <= off < 4096 -> byte_page a = page /\ byte_offset a = off.
Proof using. intros. pose proof (address_split a). nia. Qed.
Lemma byte_page_range a : 0 <= a < 4294967296 -> 0 <= byte_page a < TLB_SIZE.
Proof using. intros. pose proof (address_split a). unfold TLB_SIZE. lia. Qed.
Lemma in_page_bound n a : width n -> in_page n a = true -> byte_offset a + Z.of_nat n <= 4096.
Proof using. unfold in_page, byte_offset. intros Hn E%Z.ltb_lt. destruct Hn as [-> | [-> | [-> | ->]]]; lia. Qed.

(** The next byte of the same page. *)
Lemma next_byte a : 0 <= a -> byte_offset a + 1 < 4096 -> a < 4294967296 ->
  byte_page (a + 1) = byte_page a /\ byte_offset (a + 1) = byte_offset a + 1 /\ a + 1 < 4294967296.
Proof using.
  intros. pose proof (address_split a). destruct (address_unique (byte_page a) (byte_offset a + 1) (a + 1)); [lia..|].
  assert (a mod 4096 = byte_offset a) by (symmetry; apply Z.mod_unique with (byte_page a); lia).
  split; [done|]. split; [done|]. zlia.
Qed.

Lemma le_read_host n a s :
  0 <= a < 4294967296 -> byte_offset a + Z.of_nat n <= 4096 -> readable (page_handler (byte_page a) s) = true ->
  le_read n a s =
  host_read n (GetHostReadPt (page_handler (byte_page a) s) (direct (byte_page a) s) + byte_offset a) (host s).
Proof using.
  revert a. induction n as [|n IH]; intros a Ha Hn Hr; [done|]. cbn [le_read host_read].
  unfold PhysPt. rewrite u32_small by done. cbn [readb physical_memory]. rewrite Hr.
  destruct n as [|n]; [done|].
  destruct (next_byte a) as (Ep & Eo & Hlt); [lia..|].
  rewrite IH; rewrite ?Ep, ?Eo; [|lia|lia|done]. rewrite Z.add_assoc. done.
Qed.
Lemma le_read_illegal n a s :
  width n -> 0 <= a < 4294967296 -> byte_offset a + Z.of_nat n <= 4096 ->
  page_handler (byte_page a) s = illegal_page_handler -> le_read n a s = default_read n 0xff.
Proof using.
  intros Hw Ha Hn Hh. transitivity (256 ^ Z.of_nat n - 1); [|destruct Hw as [-> | [-> | [-> | ->]]]; reflexivity].
  clear Hw. revert a Ha Hn Hh. induction n as [|n IH]; intros a Ha Hn Hh; [done|]. cbn [le_read].
  unfold PhysPt. rewrite u32_small by done. cbn [readb physical_memory]. rewrite Hh, readable_illegal.
  rewrite Nat2Z.inj_succ, Z.pow_succ_r by lia. destruct n as [|n]; [done|].
  destruct (next_byte a) as (Ep & Eo & Hlt); [lia..|].
  rewrite IH; rewrite ?Ep, ?Eo; [lia|lia|lia|done].
Qed.

Lemma le_write_host n a v s :
  0 <= a < 4294967296 -> byte_offset a + Z.of_nat n <= 4096 -> writeable (page_handler (byte_page a) s) = true ->
  le_write n a v s =
  set_host (host_write n (GetHostWritePt (page_handler (byte_page a) s) (direct (byte_page a) s) + byte_offset a) v (host s)) s.
Proof using.
  revert a v s. induction n as [|n IH]; intros a v s Ha Hn Hr; [by destruct s|]. cbn [le_write host_write].
  unfold PhysPt. rewrite u32_small by done. cbn [writeb physical_memory]. rewrite Hr.
  set (s1 := set_host _ s).
  assert (page_handler (byte_page a) s1 = page_handler (byte_page a) s) as Eh by done.
  assert (direct (byte_page a) s1 = direct (byte_page a) s) as Ed by done.
  assert (u8 (u8 v) = u8 v) as Ev by (unfold u8; apply Z.mod_mod; lia).
  destruct n as [|n]; [unfold s1; cbn; by rewrite Ev|].
  destruct (next_byte a) as (Ep & Eo & Hlt); [lia..|].
  rewrite IH; rewrite ?Ep, ?Eo, ?Eh, ?Ed; [|lia|lia|done]. rewrite Z.add_assoc. unfold s1. cbn. by rewrite Ev.
Qed.
Lemma le_write_dropped n a v s :
  0 <= a < 4294967296 -> byte_offset a + Z.of_nat n <= 4096 -> writeable (page_handler (byte_page a) s) = false ->
  le_write n a v s = s.
Proof using.
  revert a v. induction n as [|n IH]; intros a v Ha Hn Hr; [done|]. cbn [le_write].
  unfold PhysPt. rewrite u32_small by done. cbn [writeb physical_memory]. rewrite Hr.
  destruct n as [|n]; [done|].
  destruct (next_byte a) as (Ep & Eo & Hlt); [lia..|]. apply IH; rewrite ?Ep, ?Eo; [lia|lia|done].
Qed.

Variable rf : Z -> Machine D -> exec (Machine D).

Lemma linked_read k n a s :
  width n -> 0 <= a < 4294967296 -> in_page n a = true -> plain_read (page_handler (byte_page a) s) ->
  linked_entry (byte_page a) s (tlb (paging s) (byte_page a)) ->
  mem_read rf (S k) n a s = ok (le_read n a s, s).
Proof using.
  intros Hw Ha Hi Hpl Hl. cbn [mem_read]. rewrite Hi. unfold get_tlb_read, get_tlb_readhandler, get_tlb.
  fold (byte_page a). unfold linked_entry in Hl. cbv zeta in Hl. rewrite !Hl. cbn [t_read t_readhandler]. pose proof (in_page_bound n a Hw Hi).
  pose proof (address_split a). destruct Hpl as [Hr|Hr].
  - rewrite Hr, le_read_host by done. do 3 f_equal. lia.
  - rewrite Hr, readable_illegal. by rewrite (le_read_illegal n a s).
Qed.

Lemma linked_write k n a v s :
  width n -> 0 <= a < 4294967296 -> in_page n a = true -> plain_write (page_handler (byte_page a) s) ->
  linked_entry (byte_page a) s (tlb (paging s) (byte_page a)) ->
  mem_write rf (S k) n a v s = ok (le_write n a v s).
Proof using.
  intros Hw Ha Hi Hpl Hl. cbn [mem_write]. rewrite Hi. unfold get_tlb_write, get_tlb_writehandler, get_tlb.
  fold (byte_page a). unfold linked_entry in Hl. cbv zeta in Hl. rewrite !Hl. cbn [t_write t_writehandler]. pose proof (in_page_bound n a Hw Hi).
  pose proof (address_split a). destruct Hpl as [Hr|Hr].
  - rewrite Hr, le_write_host by done. do 3 f_equal. lia.
  - assert (writeable (page_handler (byte_page a) s) = false) as Ew by (destruct Hr as [-> | ->]; apply writeable_ro).
    rewrite Ew, le_write_dropped by done. by destruct Hr as [-> | ->].
Qed.

Lemma reset_views a s : is_reset (tlb (paging s) (byte_page a)) ->
  get_tlb_read a s = None /\ get_tlb_write a s = None /\
  get_tlb_readhandler a s = init_page_handler /\ get_tlb_writehandler a s = init_page_handler.
Proof using. done. Qed.

(** Initialising the page of an address links it. *)
Lemma InitPage_real a w s :
  real_mode s -> 0 <= a < 4294967296 -> page_handler (byte_page a) s <> null_page_handler ->
  exists s', InitPage rf a w s = ok (0, s') /\ same_but_tlb s s' /\ real_mode s' /\
    linked_entry (byte_page a) s' (tlb (paging s') (byte_page a)).
Proof using.
  intros Hr Ha Hnull. pose proof (byte_page_range a Ha) as Hp. unfold InitPage. rewrite (rm_disabled s Hr). fold (byte_page a).
  rewrite direct_page_ok by done. cbn [exec_bind].
  destruct (LinkPage_real s (byte_page a) Hr Hp Hnull) as (s' & -> & Es & Hr' & Hl). cbn [exec_bind].
  exists s'. split; [done|]. split; [done|]. split; [done|].
  unfold linked_entry in *. by rewrite <- (direct_proper _ _ _ Es), <- (page_handler_proper _ _ _ Es).
Qed.

Lemma page_read k n a s :
  real_mode s -> width n -> 0 <= a < 4294967296 -> in_page n a = true -> plain_read (page_handler (byte_page a) s) ->
  exists s', mem_read rf (S (S k)) n a s = ok (le_read n a s, s') /\ same_but_tlb s s' /\ real_mode s'.
Proof using.
  intros Hr Hw Ha Hi Hpl. destruct (rm_coherent s Hr (byte_page a)) as [Hrs|Hl]; [by apply byte_page_range| |].
  - destruct (reset_views a s Hrs) as (E1 & _ & E2 & _).
    change (mem_read rf (S (S k)) n a s) with
      (if in_page n a then
         match get_tlb_read a s with
         | Some t => ok (host_read n (t + a) (host s), s)
         | None => match get_tlb_readhandler a s with
                   | init_page_handler =>
                       let* (needs_reset, s) := InitPage rf a false s in
                       let* (val, s) := mem_read rf (S k) n a s in
                       let* s := InitPageUpdateLink needs_reset a s in ok (val, s)
                   | illegal_page_handler => ok (default_read n 0xff, s)
                   | device_handler id =>
                       let '(val, v) := device_read id n a (devices s) in ok (val, set_devices v s)
                   | null_page_handler => err OutOfBounds
                   | _ => err Exit
                   end
         end
       else read_bytes (mem_read rf (S k) 1) n 0 a 0 s).
    rewrite Hi, E1, E2. destruct (InitPage_real a false s Hr Ha (plain_read_null _ Hpl)) as (s' & -> & Es & Hr' & Hl). cbn [exec_bind].
    rewrite linked_read; [|done..|by rewrite <- (page_handler_proper _ _ _ Es)|done]. cbn [exec_bind].
    exists s'. rewrite <- (le_read_proper n a _ _ Es). done.
  - exists s. rewrite linked_read by done. done.
Qed.

Lemma page_write k n a v s :
  real_mode s -> width n -> 0 <= a < 4294967296 -> in_page n a = true -> plain_write (page_handler (byte_page a) s) ->
  exists s', mem_write rf (S (S k)) n a v s = ok s' /\ same_but_tlb (le_write n a v s) s' /\ real_mode s'.
Proof using.
  intros Hr Hw Ha Hi Hpl.
  assert (forall t, real_mode t -> plain_write (page_handler (byte_page a) t) -> real_mode (le_write n a v t)) as Hkeep.
  { clear. intros t Ht _. revert a v t Ht. induction n as [|n IH]; intros a v t Ht; [done|]. cbn [le_write]. apply IH.
    cbn [writeb physical_memory]. destruct (writeable _); [|done]. by destruct Ht. }
  destruct (rm_coherent s Hr (byte_page a)) as [Hrs|Hl]; [by apply byte_page_range| |].
  - destruct (reset_views a s Hrs) as (_ & E1 & _ & E2).
    change (mem_write rf (S (S k)) n a v s) with
      (if in_page n a then
         match get_tlb_write a s with
         | Some t => ok (set_host (host_write n (t + a) v (host s)) s)
         | None => match get_tlb_writehandler a s with
                   | init_page_handler =>
                       let* (needs_reset, s) := InitPage rf a true s in
                       let* s := mem_write rf (S k) n a v s in
                       InitPageUpdateLink needs_reset a s
                   | init_page_handler_userro => userro_write rf n a v s
                   | rom_page_handler | illegal_page_handler => ok s
                   | device_handler id => ok (set_devices (device_write id n a v (devices s)) s)
                   | ram_page_handler => err Exit
                   | null_page_handler => err OutOfBounds
                   end
         end
       else write_bytes (mem_write rf (S k) 1) n 0 a v s).
    rewrite Hi, E1, E2. destruct (InitPage_real a true s Hr Ha (plain_write_null _ Hpl)) as (s' & -> & Es & Hr' & Hl). cbn [exec_bind].
    assert (plain_write (page_handler (byte_page a) s')) as Hpl' by (by rewrite <- (page_handler_proper _ _ _ Es)).
    rewrite linked_write by done. cbn [exec_bind].
    exists (le_write n a v s'). split; [done|]. split; [by apply le_write_proper|by apply Hkeep].
  - exists (le_write n a v s). rewrite linked_write by done. split; [done|]. split; [done|by apply Hkeep].
Qed.

(** ** Accesses across pages *)
Lemma in_page_1 a : in_page 1 a = true.
Proof using. unfold in_page. apply Z.ltb_lt. pose proof (address_split a). unfold byte_offset in *. lia. Qed.
Lemma PhysPt_range a : 0 <= PhysPt a < 4294967296.
Proof using. apply u32_range. Qed.

Definition readable_bytes n a s : Prop :=
  forall i, 0 <= i < Z.of_nat n -> plain_read (page_handler (byte_page (PhysPt (a + i))) s).
Definition writeable_bytes n a s : Prop :=
  forall i, 0 <= i < Z.of_nat n -> plain_write (page_handler (byte_page (PhysPt (a + i))) s).

Lemma read_bytes_real k n i a r s :
  0 <= i -> 0 <= r < 2 ^ (i * 8) -> real_mode s -> readable_bytes n (a + i) s ->
  exists s', read_bytes (mem_read rf (S (S k)) 1) n i a r s = ok (r + 2 ^ (i * 8) * le_read n (a + i) s, s') /\
    same_but_tlb s s' /\ real_mode s'.
Proof using.
  revert i r s. induction n as [|n IH]; intros i r s Hi Hrr Hr Hpl; cbn [read_bytes le_read].
  - exists s. rewrite Z.mul_0_r, Z.add_0_r. done.
  - destruct (page_read k 1 (PhysPt (a + i)) s) as (s1 & -> & E1 & Hr1);
      [done|by left|apply PhysPt_range|apply in_page_1|rewrite <- (Z.add_0_r (a + i)); apply Hpl; lia|].
    cbn [exec_bind]. set (b := le_read 1 (PhysPt (a + i)) s).
    assert (b = readb (PhysPt (a + i)) s) as Eb.
    { unfold b. cbn [le_read]. rewrite Z.mul_0_r, Z.add_0_r. f_equal. unfold PhysPt. apply u32_small, u32_range. }
    assert (0 <= b < 256) as Hb by (rewrite Eb; cbn; destruct (readable _); [apply u8_range|lia]).
    assert (2 ^ ((i + 1) * 8) = 256 * 2 ^ (i * 8)) as Ep
      by (replace ((i + 1) * 8) with (8 + i * 8) by lia; rewrite Z.pow_add_r by lia; done).
    rewrite lor_byte by lia.
    destruct (IH (i + 1) (r + b * 2 ^ (i * 8)) s1) as (s' & -> & E' & Hr'); [lia|nia|done| |].
    { intros j Hj. rewrite <- (page_handler_proper _ _ _ E1). replace (a + (i + 1) + j) with (a + i + (j + 1)) by lia.
      apply Hpl. lia. }
    exists s'. split; [|split; [by etransitivity|done]]. rewrite <- (le_read_proper _ _ _ _ E1), Ep, <- Eb, Z.add_assoc.
    do 2 f_equal. ring.
Qed.

Lemma write_bytes_real k n i a v s :
  0 <= i -> real_mode s -> writeable_bytes n (a + i) s ->
  exists s', write_bytes (mem_write rf (S (S k)) 1) n i a v s = ok s' /\
    same_but_tlb (le_write n (a + i) v s) s' /\ real_mode s'.
Proof using.
  revert i v s. induction n as [|n IH]; intros i v s Hi Hr Hpl; cbn [write_bytes le_write]; [by exists s|].
  destruct (page_write k 1 (PhysPt (a + i)) (u8 v) s) as (s1 & -> & E1 & Hr1);
    [done|by left|apply PhysPt_range|apply in_page_1|rewrite <- (Z.add_0_r (a + i)); apply Hpl; lia|].
  cbn [exec_bind].
  assert (le_write 1 (PhysPt (a + i)) (u8 v) s = writeb (PhysPt (a + i)) (u8 v) s) as Ew.
  { cbn [le_write]. assert (u8 (u8 v) = u8 v) as -> by (unfold u8; apply Z.mod_mod; lia).
    unfold PhysPt. by rewrite u32_small by apply u32_range. }
  rewrite Ew in E1.
  destruct (IH (i + 1) (Z.shiftr v 8) s1) as (s' & -> & E' & Hr'); [lia|done| |].
  { intros j Hj. rewrite <- (page_handler_proper _ _ _ E1). replace (a + (i + 1) + j) with (a + i + (j + 1)) by lia.
    assert (forall page, page_handler page (writeb (PhysPt (a + i)) (u8 v) s) = page_handler page s) as ->
      by (intros page; cbn [writeb physical_memory]; by destruct (writeable _)).
    apply Hpl. lia. }
  exists s'. split; [done|]. split; [|done]. rewrite shr8, Z.add_assoc in E'.
  etransitivity; [|exact E']. by apply le_write_proper.
Qed.
End RealMode.

(** ** The theorem *)

(** C10.  With paging off, and entries in the TLB that are those of the page map, every
    access of 1, 2, 4 or 8 bytes at any address - in one page or across pages, whether
    the TLB holds the page or not - whose pages are plain (RAM, ROM or unmapped, not the
    page of a device) terminates and behaves as the little-endian sequence of its bytes on physical memory behind
    the first-megabyte page map: reads return those bytes (ones where nothing
    answers), writes store them (ROM and unmapped pages drop theirs), and nothing
    but the TLB changes besides, whose entries are those of the map again. *)
Theorem real_mode_access {D} `{Devices D} rf fuel n a v (s : Machine D) :
  (access_fuel <= fuel)%nat -> real_mode s -> width n -> 0 <= a < 4294967296 ->
  (readable_bytes n a s ->
     exists s', mem_read rf fuel n a s = ok (le_read n a s, s') /\ same_but_tlb s s' /\ real_mode s') /\
  (writeable_bytes n a s ->
     exists s', mem_write rf fuel n a v s = ok s' /\ same_but_tlb (le_write n a v s) s' /\ real_mode s').
Proof.
  intros Hf Hr Hw Ha. destruct fuel as [|[|[|k]]]; try (unfold access_fuel in Hf; lia).
  assert (0 < Z.of_nat n) as Hn by (destruct Hw as [-> | [-> | [-> | ->]]]; lia).
  destruct (in_page n a) eqn:Hi.
  - split; intros Hpl; specialize (Hpl 0 ltac:(lia)); unfold PhysPt in Hpl; rewrite Z.add_0_r, u32_small in Hpl by done;
      [by apply page_read|by apply page_write].
  - split; intros Hpl.
    + assert (mem_read rf (S (S (S k))) n a s = read_bytes (mem_read rf (S (S k)) 1) n 0 a 0 s) as ->
        by (cbn [mem_read]; by rewrite Hi).
      destruct (read_bytes_real rf k n 0 a 0 s) as (s' & E & Hs); [done|done|done|by rewrite Z.add_0_r|].
      exists s'. rewrite E, Z.add_0_r. split; [|done]. do 2 f_equal. lia.
    + assert (mem_write rf (S (S (S k))) n a v s = write_bytes (mem_write rf (S (S k)) 1) n 0 a v s) as ->
        by (cbn [mem_write]; by rewrite Hi).
      destruct (write_bytes_real rf k n 0 a v s) as (s' & E & Hs); [done|done|by rewrite Z.add_0_r|].
      exists s'. rewrite Z.add_0_r in Hs. done.
Qed.

(** ** RAM *)
Definition is_ram {D} `{Devices D} (a : Z) (s : Machine D) : Prop := page_handler (byte_page a) s = ram_page_handler.
Definition physical {D} `{Devices D} (a : Z) (s : Machine D) : Z := direct (byte_page a) s * 4096 + byte_offset a.

Lemma ram_roundtrip {D} `{Devices D} a b v (s : Machine D) :
  is_ram a s -> is_ram b s ->
  readb b (writeb a v s) = if physical b s =? physical a s then u8 v else readb b s.
Proof.
  unfold is_ram, physical. intros Ha Hb. cbn [readb writeb physical_memory]. rewrite Ha.
  change (writeable ram_page_handler) with true. cbv iota.
  match goal with |- context [set_host ?h s] => set (s1 := set_host h s) end.
  change (page_handler (byte_page b) s1) with (page_handler (byte_page b) s).
  change (direct (byte_page b) s1) with (direct (byte_page b) s). rewrite Hb, readable_ram.
  unfold s1. cbn [host set_host host_write GetHostReadPt GetHostWritePt]. change DosPageSize with 4096.
  destruct (_ =? _); [|done]. unfold u8. apply Z.mod_mod. lia.
Qed.

(** A machine whose first megabyte is mapped to itself. *)
Definition real_machine : Machine unit :=
  set_paging (with_firstmb (seqZ 0 272) (paging demo_machine)) demo_machine.
Lemma get_seqZ i q : get (seqZ 0 272) i = Some q -> q = i /\ 0 <= i < 272.
Proof.
  unfold get. destruct (Z.ltb_spec i 0); [done|]. intros E%lookup_seqZ. lia.
Qed.
Lemma demo_handlers q : 0 <= q < TLB_SIZE -> exists h, MEM_GetPageHandler q (memory demo_machine) = ok h /\
  h <> init_page_handler /\ h <> init_page_handler_userro /\ (q < 32 -> h = ram_page_handler).
Proof.
  intros Hq. unfold MEM_GetPageHandler. cbn [memory demo_machine phandlers]. rewrite length_replicate.
  destruct (Z.ltb_spec q (Z.of_nat 32)).
  - exists ram_page_handler. split; [|done]. apply read_get. unfold get. destruct (Z.ltb_spec q 0); [lia|].
    apply lookup_replicate_2. lia.
  - exists illegal_page_handler. split; [|split; [done|split; [done|lia]]].
    cbv zeta. repeat match goal with |- (if ?b then _ else _) = _ => destruct b; [done|] end. done.
Qed.
Lemma real_machine_ok : real_mode real_machine.
Proof.
  split; [done|reflexivity| | |].
  - intros i q E%get_seqZ. unfold TLB_SIZE. lia.
  - intros q Hq. destruct (demo_handlers q Hq) as (h & E & ? & ? & _). by exists h.
  - intros page _. by left.
Qed.
Lemma real_machine_ram page : 0 <= page < 32 -> page_handler page real_machine = ram_page_handler.
Proof.
  intros Hp. unfold page_handler. assert (direct page real_machine = page) as ->.
  { unfold direct. destruct (Z.ltb_spec page LINK_START); [|done].
    destruct (get (firstmb (paging real_machine)) page) as [q|] eqn:E; [|done]. by apply get_seqZ in E as [-> _]. }
  destruct (demo_handlers page) as (h & E & _ & _ & Hram); [unfold TLB_SIZE; lia|].
  change (memory real_machine) with (memory demo_machine). rewrite E. apply Hram. lia.
Qed.

Lemma real_mode_access_witness :
  exists s s', mem_write no_handler 3 4 0x1ffe 0xdeadbeef real_machine = ok s /\
    mem_read no_handler 3 4 0x1ffe s = ok (0xdeadbeef, s').
Proof.
  destruct (real_mode_access no_handler 3 4 0x1ffe 0xdeadbeef real_machine) as [_ Hw];
    [done|apply real_machine_ok|right; right; by left|done|].
  destruct Hw as (s & E & Es & Hr).
  { intros i Hi. left. rewrite real_machine_ram; [done|]. unfold byte_page, PhysPt.
    rewrite u32_small, Z.shiftr_div_pow2 by lia. zlia. }
  destruct (real_mode_access no_handler 3 4 0x1ffe 0 s) as [Hrd _]; [done|done|right; right; by left|done|].
  destruct Hrd as (s' & E' & _).
  { intros i Hi. left. rewrite <- (page_handler_proper _ _ _ Es).
    match goal with |- readable (page_handler ?p _) = _ => change (readable (page_handler p real_machine) = true) end.
    rewrite real_machine_ram; [done|]. unfold byte_page, PhysPt.
    rewrite u32_small, Z.shiftr_div_pow2 by lia. zlia. }
  exists s, s'. split; [exact E|]. rewrite E', <- (le_read_proper _ _ _ _ Es). vm_compute. reflexivity.
Defined.
