(* ===== verification/PagedMode.v ===== *)
(** * With paging on: the page-table walk, its faults and its marks

    What an access to a page that is not in the TLB does: the page fault it
    raises, or the accessed and dirty bits it sets and the bytes it reaches. *)
From S2P Require Import Prelude.
From S2P Require Import GuestMemory.
From S2P Require Import GuestMemoryProofs.
From S2P Require Import PageAlloc.
From S2P Require Import PageHandlers.
From S2P Require Import Paging.
From S2P Require Import PageWalk.
From S2P Require Import PagedAccess.
From S2P Require Import TlbProofs.
From S2P Require Import RealMode.
#[local] Open Scope Z_scope.
#[local] Open Scope exec_scope.

(** ** Host memory *)
Lemma host_read_range n p h : 0 <= host_read n p h < 256 ^ Z.of_nat n.
Proof.
  revert p. induction n as [|n IH]; intros p; [done|]. cbn [host_read].
  rewrite Nat2Z.inj_succ, Z.pow_succ_r by lia. specialize (IH (p + 1)). pose proof (u8_range (h p)). lia.
Qed.
Lemma host_write_out n p v h i : i < p \/ p + Z.of_nat n <= i -> host_write n p v h i = h i.
Proof.
  revert p v h. induction n as [|n IH]; intros p v h Hi; [done|]. cbn [host_write]. rewrite IH by lia.
  destruct (Z.eqb_spec i p); [lia|done].
Qed.
Lemma host_read_ext n p h h' : (forall i, p <= i < p + Z.of_nat n -> u8 (h i) = u8 (h' i)) -> host_read n p h = host_read n p h'.
Proof.
  revert p. induction n as [|n IH]; intros p Hh; [done|]. cbn [host_read]. rewrite Hh by lia. rewrite IH; [done|].
  intros i Hi. apply Hh. lia.
Qed.
Lemma host_read_write n p v h : host_read n p (host_write n p v h) = v mod 256 ^ Z.of_nat n.
Proof.
  revert p v h. induction n as [|n IH]; intros p v h; [by rewrite Z.mod_1_r|]. cbn [host_read host_write].
  rewrite IH, host_write_out, Z.eqb_refl by lia.
  rewrite Nat2Z.inj_succ, Z.pow_succ_r, Z.rem_mul_r by lia. unfold u8. rewrite Z.mod_mod by lia. lia.
Qed.
Lemma host_read_write_out n p q v h :
  p + Z.of_nat n <= q \/ q + Z.of_nat n <= p -> host_read n p (host_write n q v h) = host_read n p h.
Proof. intros Hd. apply host_read_ext. intros i Hi. rewrite host_write_out by lia. done. Qed.

(** ** Page table entries as words *)
Lemma bit_field b k i : 0 <= k -> 0 <= i -> Z.testbit (Z.shiftl (b2z b) k) i = (i =? k) && b.
Proof.
  intros Hk Hi. rewrite Z.shiftl_spec by done. destruct b; cbn [b2z].
  - rewrite andb_true_r. destruct (Z.lt_ge_cases i k).
    + rewrite Z.testbit_neg_r by lia. destruct (Z.eqb_spec i k); [lia|done].
    + change 1 with (2 ^ 0). rewrite Z.pow2_bits_eqb by lia. destruct (Z.eqb_spec 0 (i - k)), (Z.eqb_spec i k); try lia; done.
  - by rewrite Z.bits_0, andb_false_r.
Qed.
Lemma wide_field v k w i :
  0 <= k -> 0 <= w -> 0 <= i ->
  Z.testbit (Z.shiftl (Z.land (Z.shiftr v k) (Z.ones w)) k) i = (k <=? i) && (i <? k + w) && Z.testbit v i.
Proof.
  intros Hk Hw Hi. rewrite Z.shiftl_spec by done. destruct (Z.leb_spec k i); cbn [andb].
  - rewrite Z.land_spec, Z.shiftr_spec, Z.testbit_ones_nonneg by lia. replace (i - k + k) with i by lia.
    destruct (Z.ltb_spec (i - k) w), (Z.ltb_spec i (k + w)); try lia; rewrite ?andb_true_r, ?andb_false_r; done.
  - by rewrite Z.testbit_neg_r by lia.
Qed.
Lemma land_shift_1 v k : 0 <= k -> Z.land (Z.shiftr v k) 1 = b2z (Z.testbit v k).
Proof. intros. rewrite land_1, Z.shiftr_spec by lia. f_equal. Qed.

(** The word of an entry whose accessed and dirty bits are given. *)
Definition with_marks (ba bd : bool) (e : X86PageEntry) : X86PageEntry :=
  mkEntry (e_p e) (e_wr e) (e_us e) (e_pwt e) (e_pcd e) (b2z ba) (b2z bd) (e_pat e) (e_g e) (e_avl e) (e_base e).
Lemma entry_get_bits v ba bd i :
  0 <= v < 4294967296 -> 0 <= i ->
  Z.testbit (entry_get (with_marks ba bd (entry_set v))) i =
  if i =? 5 then ba else if i =? 6 then bd else Z.testbit v i.
Proof.
  intros Hv Hi. unfold entry_get, with_marks, entry_set. cbn [e_p e_wr e_us e_pwt e_pcd e_a e_d e_pat e_g e_avl e_base].
  rewrite !land_shift_1, land_1 by lia. change (Z.land (Z.shiftr v 9) 7) with (Z.land (Z.shiftr v 9) (Z.ones 3)).
  change (Z.land (Z.shiftr v 12) 0xFFFFF) with (Z.land (Z.shiftr v 12) (Z.ones 20)).
  rewrite !Z.lor_spec, !bit_field, !wide_field, Z.bits_0 by lia.
  rewrite <- (Z.shiftl_0_r (b2z (Z.testbit v 0))), bit_field by lia.
  assert (forall j, 32 <= j -> Z.testbit v j = false) as Hf by (intros; apply (testbit_above 32); lia).
  revert Hf. generalize (Z.testbit v) as f. intros f Hf.
  destruct (Z.eqb_spec i 0) as [->|]; [by cbn; rewrite ?orb_false_r|].
  destruct (Z.eqb_spec i 1) as [->|]; [by cbn; rewrite ?orb_false_r|].
  destruct (Z.eqb_spec i 2) as [->|]; [by cbn; rewrite ?orb_false_r|].
  destruct (Z.eqb_spec i 3) as [->|]; [by cbn; rewrite ?orb_false_r|].
  destruct (Z.eqb_spec i 4) as [->|]; [by cbn; rewrite ?orb_false_r|].
  destruct (Z.eqb_spec i 5) as [->|]; [by cbn; rewrite ?orb_false_r|].
  destruct (Z.eqb_spec i 6) as [->|]; [by cbn; rewrite ?orb_false_r|].
  destruct (Z.eqb_spec i 7) as [->|]; [by cbn; rewrite ?orb_false_r|].
  destruct (Z.eqb_spec i 8) as [->|]; [by cbn; rewrite ?orb_false_r|].
  cbn [andb orb]. destruct (Z.leb_spec 9 i), (Z.ltb_spec i (9 + 3)), (Z.leb_spec 12 i), (Z.ltb_spec i (12 + 20));
    try lia; cbn [andb orb]; rewrite ?orb_false_r; [done..|]. symmetry. apply Hf. lia.
Qed.

Lemma marks_word v ba bd :
  0 <= v < 4294967296 ->
  entry_get (with_marks (Z.testbit v 5 || ba) (Z.testbit v 6 || bd) (entry_set v)) =
  Z.lor v (Z.lor (if ba then 0x20 else 0) (if bd then 0x40 else 0)).
Proof.
  intros Hv. apply Z.bits_inj'. intros i Hi. rewrite entry_get_bits by done. rewrite !Z.lor_spec.
  assert (Z.testbit (if ba then 0x20 else 0) i = (i =? 5) && ba) as ->.
  { rewrite <- (bit_field ba 5) by lia. by destruct ba. }
  assert (Z.testbit (if bd then 0x40 else 0) i = (i =? 6) && bd) as ->.
  { rewrite <- (bit_field bd 6) by lia. by destruct bd. }
  destruct (Z.eqb_spec i 5) as [->|]; [by rewrite orb_false_r|].
  destruct (Z.eqb_spec i 6) as [->|]; [done|]. by rewrite orb_false_r.
Qed.
Lemma entry_marks v : entry_set v = with_marks (Z.testbit v 5) (Z.testbit v 6) (entry_set v).
Proof. unfold with_marks, entry_set. cbn. by rewrite !land_shift_1 by lia. Qed.

(** ** The marks of a walk *)

(** [h1] is [h0] with the accessed bit of the table at [t] set, and the accessed and,
    when [dirty], the dirty bit of the entry at [e]. *)
Definition marked (t e : Z) (dirty : bool) (h0 h1 : Z -> Z) : Prop :=
  (forall i, i < t \/ t + 4 <= i -> i < e \/ e + 4 <= i -> h1 i = h0 i) /\
  host_read 4 e h1 = Z.lor (host_read 4 e h0) (Z.lor 0x20 (if dirty then 0x40 else 0)) /\
  (t <> e -> host_read 4 t h1 = Z.lor (host_read 4 t h0) 0x20).

(** Setting bits of a word that has them changes nothing. *)
Lemma lor_same_bit v k : Z.testbit v k = true -> 0 <= k -> Z.lor v (2 ^ k) = v.
Proof.
  intros Hb Hk. apply Z.bits_inj'. intros i Hi. rewrite Z.lor_spec, Z.pow2_bits_eqb by done.
  destruct (Z.eqb_spec k i) as [<-|]; [by rewrite Hb|by rewrite orb_false_r].
Qed.

Section Paged.
Context {D : Type} `{Devices D}.
Implicit Types (s : Machine D).

Lemma phys_readd_ok addr s v :
  phys_readd addr s = ok v -> v = host_read 4 addr (host s) /\ 0 <= v < 4294967296 /\
  forall w, phys_writed addr w s = ok (set_host (host_write 4 addr w (host s)) s).
Proof using.
  unfold phys_readd, phys_writed. destruct (_ && _); [|done]. intros [= <-]. split; [done|].
  split; [apply (host_read_range 4)|done].
Qed.
Lemma phys_writed_ram addr w h s : phys_writed addr w (set_host h s) =
  match phys_writed addr w s with ok _ => ok (set_host (host_write 4 addr w h) s) | err f => err f end.
Proof using. unfold phys_writed. cbn [memory set_host host]. change (ram_size (set_host h s)) with (ram_size s). by destruct (_ && _). Qed.

Lemma table_aligned page s : table_addr page s mod 4 = 0.
Proof using.
  unfold table_addr, u32. rewrite Z.shiftl_mul_pow2 by lia. change (2 ^ 12) with 4096.
  generalize (base_page (paging s)) (Z.shiftr page 10). intros. zlia.
Qed.
Lemma entry_aligned table page : entry_addr table page mod 4 = 0.
Proof using.
  unfold entry_addr, u32. rewrite Z.shiftl_mul_pow2 by lia. change (2 ^ 12) with 4096.
  generalize (e_base table) (Z.land page 0x3ff). intros. zlia.
Qed.

Lemma accessed_word v : 0 <= v < 4294967296 -> entry_get (set_accessed (entry_set v)) = Z.lor v 0x20.
Proof using.
  intros Hv. pose proof (marks_word v true false Hv) as E. cbn [orb] in E. rewrite !orb_false_r, orb_true_r in E.
  change (Z.lor 0x20 0) with 0x20 in E. rewrite <- E. f_equal. rewrite (entry_marks v) at 1. done.
Qed.
Lemma marked_word v (dirty : bool) :
  0 <= v < 4294967296 ->
  entry_get (if dirty then set_dirty (set_accessed (entry_set v)) else set_accessed (entry_set v)) =
  Z.lor v (Z.lor 0x20 (if dirty then 0x40 else 0)).
Proof using.
  intros Hv. destruct dirty; [|by apply accessed_word].
  pose proof (marks_word v true true Hv) as E. rewrite !orb_true_r in E. exact E.
Qed.
Lemma e_a_bit v : (e_a (entry_set v) =? 0) = negb (Z.testbit v 5).
Proof using. cbn [e_a entry_set]. rewrite land_shift_1 by lia. by destruct (Z.testbit v 5). Qed.
Lemma e_d_bit v : (e_d (entry_set v) =? 0) = negb (Z.testbit v 6).
Proof using. cbn [e_d entry_set]. rewrite land_shift_1 by lia. by destruct (Z.testbit v 6). Qed.

(** The walk of an address finds a present table and entry, words [tv] and [ev]. *)
Record walk (a tv ev : Z) s : Prop := {
  walk_table : phys_readd (table_addr (byte_page a) s) s = ok tv;
  walk_table_present : (e_p (entry_set tv) =? 0) = false;
  walk_entry : phys_readd (entry_addr (entry_set tv) (byte_page a)) s = ok ev;
  walk_entry_present : (e_p (entry_set ev) =? 0) = false }.

Lemma marks_spec a tv ev dirty s :
  walk a tv ev s ->
  exists t1 e1 h1,
    (let* (table, s) := mark_table (byte_page a) (entry_set tv) s in
     let* (entry, s) := mark_entry dirty (byte_page a) table (entry_set ev) s in ok (table, entry, s))
    = ok (t1, e1, set_host h1 s) /\ e_base e1 = e_base (entry_set ev) /\
    marked (table_addr (byte_page a) s) (entry_addr (entry_set tv) (byte_page a)) dirty (host s) h1.
Proof using.
  intros [Ht _ He _]. destruct (phys_readd_ok _ _ _ Ht) as (Etv & Rtv & Wt), (phys_readd_ok _ _ _ He) as (Eev & Rev & We).
  pose proof (table_aligned (byte_page a) s) as At. pose proof (entry_aligned (entry_set tv) (byte_page a)) as Ae.
  set (t := table_addr (byte_page a) s) in *. set (e := entry_addr (entry_set tv) (byte_page a)) in *.
  assert (t = e \/ t + 4 <= e \/ e + 4 <= t) as Hdis by (clear -At Ae; zlia).
  (* the table *)
  set (h' := if e_a (entry_set tv) =? 0 then host_write 4 t (Z.lor tv 0x20) (host s) else host s).
  assert (exists t1, mark_table (byte_page a) (entry_set tv) s = ok (t1, set_host h' s) /\ e_base t1 = e_base (entry_set tv))
    as (t1 & -> & Eb).
  { unfold mark_table, h'. fold t. destruct (e_a (entry_set tv) =? 0).
    - rewrite Wt, accessed_word by done. by eexists.
    - eexists. split; [|done]. by destruct s. }
  assert (host_read 4 t h' = Z.lor tv 0x20) as Rt'.
  { unfold h'. rewrite e_a_bit. destruct (Z.testbit tv 5) eqn:B; cbn [negb].
    - rewrite <- Etv. symmetry. by apply (lor_same_bit tv 5).
    - rewrite host_read_write. apply Z.mod_small. by apply (lor_fits 32). }
  assert (forall i, i < t \/ t + 4 <= i -> h' i = host s i) as Ht'
    by (intros i Hi; unfold h'; destruct (_ =? 0); [by apply host_write_out|done]).
  assert (t <> e -> host_read 4 e h' = ev) as Re'.
  { intros Hne. rewrite Eev. apply host_read_ext. intros i Hi. rewrite Ht'; [done|]. lia. }
  cbn [exec_bind]. unfold mark_entry.
  assert (entry_addr t1 (byte_page a) = e) as -> by (unfold e, entry_addr; by rewrite Eb).
  rewrite e_a_bit, e_d_bit, phys_writed_ram, We, marked_word by done.
  destruct (negb (Z.testbit ev 5) || negb (Z.testbit ev 6)) eqn:B; cbn [exec_bind].
  - eexists t1, _, _. split; [done|]. split; [by destruct dirty|]. split; [|split].
    + intros i Hi Hi'. rewrite host_write_out by done. by apply Ht'.
    + rewrite host_read_write, <- Eev. apply Z.mod_small. apply (lor_fits 32); [lia|done|]. by destruct dirty.
    + intros Hne. rewrite host_read_write_out by (change (Z.of_nat 4) with 4; lia). by rewrite <- Etv.
  - apply orb_false_iff in B as [B5 B6]. apply negb_false_iff in B5, B6.
    assert (Z.lor ev 0x20 = ev) as L5 by (by apply (lor_same_bit ev 5)).
    assert (Z.lor ev (Z.lor 0x20 (if dirty then 0x40 else 0)) = ev) as L.
    { rewrite Z.lor_assoc, L5. destruct dirty; [by apply (lor_same_bit ev 6)|apply Z.lor_0_r]. }
    eexists t1, _, _. split; [done|]. split; [done|]. split; [|split].
    + intros i Hi _. by apply Ht'.
    + rewrite <- Eev, L. destruct (Z.eq_dec t e) as [E|Hne]; [|by apply Re'].
      rewrite <- E, Rt', Etv, E, <- Eev, L5. done.
    + intros _. by rewrite Rt', Etv.
Qed.

(** ** Initialising a page *)
Variable rf : Z -> Machine D -> exec (Machine D).

(** The entry that links RAM, for all accesses or for reads only. *)
Definition ram_link (a frame : Z) (full : bool) : tlb_entry :=
  let p := frame * DosPageSize - u32 (Z.shiftl (byte_page a) 12) in
  mkTlb (Some p) (if full then Some p else None) ram_page_handler
        (if full then ram_page_handler else init_page_handler_userro) frame.

Lemma frame_range v : 0 <= e_base (entry_set v) < TLB_SIZE.
Proof using.
  cbn [e_base entry_set]. change 0xFFFFF with (Z.ones 20). rewrite Z.land_ones by lia.
  change TLB_SIZE with (2 ^ 20). apply Z.mod_pos_bound. lia.
Qed.
Lemma LinkPage_ram a frame s :
  0 <= a < 4294967296 -> 0 <= frame < TLB_SIZE -> MEM_GetPageHandler frame (memory s) = ok ram_page_handler ->
  PAGING_LinkPage (byte_page a) frame s = ok (link_entry (byte_page a) (ram_link a frame true) s) /\
  PAGING_LinkPage_ReadOnly (byte_page a) frame s = ok (link_entry (byte_page a) (ram_link a frame false) s).
Proof using.
  intros Ha Hf Hg. unfold PAGING_LinkPage, PAGING_LinkPage_ReadOnly, illegal_page. rewrite Hg. cbn [exec_bind].
  pose proof (byte_page_range a Ha). destruct (Z.leb_spec TLB_SIZE (byte_page a)), (Z.leb_spec TLB_SIZE frame); try lia. done.
Qed.

Lemma CheckPresence_walk a w tv ev s :
  walk a tv ev s -> InitPageCheckPresence rf a w s = ok (entry_set tv, entry_set ev, s).
Proof using.
  intros [Ht Hp He Hq]. unfold InitPageCheckPresence. cbv zeta. fold (byte_page a). rewrite Ht. cbn [exec_bind].
  rewrite Hp. cbn [exec_bind]. rewrite He. cbn [exec_bind]. by rewrite Hq.
Qed.

Definition relink (pc : Z) (writing : bool) (frame : Z) : Z :=
  if pc =? 0 then 0 else if pc =? 1 then 1 else if writing then if 1 <? frame then frame else 1 else 0.

Lemma InitPage_paged a w tv ev s :
  enabled (paging s) = true -> 0 <= a < 4294967296 -> walk a tv ev s ->
  let pc := privilege_check w (entry_set tv) (entry_set ev) s in
  let frame := e_base (entry_set ev) in
  0 <= pc < 3 -> MEM_GetPageHandler frame (memory s) = ok ram_page_handler ->
  exists h1, marked (table_addr (byte_page a) s) (entry_addr (entry_set tv) (byte_page a)) (w || (pc =? 0)) (host s) h1 /\
    InitPage rf a w s = ok (relink pc w frame,
      link_entry (byte_page a) (ram_link a frame ((pc <? 2) || w)) (set_host h1 s)).
Proof using.
  intros Hen Ha Hw pc frame Hpc Hg. destruct (marks_spec a tv ev (w || (pc =? 0)) s Hw) as (t1 & e1 & h1 & E & Eb & Hm).
  exists h1. split; [done|]. unfold InitPage. rewrite Hen, (CheckPresence_walk a w tv ev s Hw). fold (byte_page a).
  cbn [exec_bind]. fold pc. destruct (Z.eqb_spec pc 3); [lia|]. cbn [exec_bind].
  destruct (mark_table _ _ s) as [[t2 s2]|] eqn:E2; [|done]. cbn [exec_bind] in *.
  destruct (mark_entry _ _ t2 _ s2) as [[e2 s3]|] eqn:E3; [|done]. cbn [exec_bind] in E. injection E as -> -> ->.
  cbn [exec_bind]. rewrite Eb. fold frame.
  destruct (LinkPage_ram a frame (set_host h1 s) Ha (frame_range ev) Hg) as [E4 E5]. rewrite E4, E5. cbn [exec_bind].
  unfold relink. destruct (Z.eqb_spec pc 0) as [E0|]; [by rewrite E0|].
  destruct (Z.eqb_spec pc 1) as [E1|]; [by rewrite E1|].
  assert (pc = 2) as -> by lia. cbn [Z.ltb orb]. destruct w; [|done].
  change (memory (set_host h1 s)) with (memory s). rewrite Hg. cbn [exec_bind].
  change (negb (readable ram_page_handler)) with false. change (negb (writeable ram_page_handler)) with false. cbv iota.
  assert (forall e (t : Machine D), get_tlb a (link_entry (byte_page a) e t) = e) as Hl.
  { intros e t. apply link_entry_spec. }
  unfold get_tlb_read, get_tlb_write. rewrite Hl. rewrite bool_decide_true by done. by destruct (1 <? frame).
Qed.

(** What is left linked when accesses must be checked again. *)
Definition later_checked (pc : Z) (e : tlb_entry) : Prop := (pc = 1 -> is_reset e) /\ (pc = 2 -> t_write e = None).

Lemma UpdateLink_paged a pc w frame rest s s' :
  0 <= a < 4294967296 -> 0 <= pc < 3 -> 0 <= frame < TLB_SIZE ->
  links (paging s') = byte_page a :: rest -> same_but_tlb s s' ->
  MEM_GetPageHandler frame (memory s) = ok ram_page_handler ->
  tlb (paging s') (byte_page a) = ram_link a frame ((pc <? 2) || w) ->
  exists s'', InitPageUpdateLink (relink pc w frame) a s' = ok s'' /\ same_but_tlb s s'' /\
    later_checked pc (tlb (paging s'') (byte_page a)).
Proof using.
  intros Ha Hpc Hf Hl Es Hg Ee. pose proof Es as (_ & Em & _ & _ & Ep).
  set (s1 := set_paging (with_tlb (reset_page (byte_page a) (tlb (paging s'))) rest (paging s')) s').
  assert (same_but_tlb s s1) as E1.
  { etransitivity; [exact Es|]. by repeat split. }
  assert (is_reset (tlb (paging s1) (byte_page a))) as H1.
  { unfold s1. cbn [paging set_paging with_tlb tlb]. unfold reset_page, set_tlb. by rewrite Z.eqb_refl. }
  assert (forall r, r <> 0 -> InitPageUpdateLink r a s' =
            if 1 <? r then PAGING_LinkPage_ReadOnly (byte_page a) r s1 else ok s1) as Hu.
  { intros r Hr. unfold InitPageUpdateLink. destruct (Z.eqb_spec r 0); [done|]. rewrite Hl. fold (byte_page a).
    rewrite Z.eqb_refl. done. }
  unfold relink. destruct (Z.eqb_spec pc 0) as [->|]; [exists s'; split; [done|]; split; [done|]; split; intros; lia|].
  destruct (Z.eqb_spec pc 1) as [->|]; [exists s1; rewrite Hu by done; split; [done|]; split; [done|]; split; intros; [done|lia]|].
  assert (pc = 2) as -> by lia. destruct w.
  - destruct (Z.ltb_spec 1 frame).
    + rewrite Hu by lia. destruct (Z.ltb_spec 1 frame); [|lia].
      destruct (LinkPage_ram a frame s1 Ha Hf) as [_ ->]; [by change (memory s1) with (memory s'); rewrite Em|].
      eexists. split; [done|]. destruct (link_entry_spec (byte_page a) (ram_link a frame false) s1) as (E2 & -> & _).
      split; [by etransitivity|]. split; intros; [lia|done].
    + exists s1. rewrite Hu by done. split; [done|]. split; [done|]. split; intros; [lia|apply H1].
  - exists s'. split; [done|]. split; [done|]. rewrite Ee. split; intros; [lia|done].
Qed.

(** ** Accesses *)
Definition frame_address (a ev : Z) : Z := e_base (entry_set ev) * DosPageSize + byte_offset a.


Lemma ram_pointer a frame : 0 <= a < 4294967296 ->
  frame * DosPageSize - u32 (Z.shiftl (byte_page a) 12) + a = frame * DosPageSize + byte_offset a.
Proof using.
  intros Ha. pose proof (byte_page_range a Ha). pose proof (address_split a). unfold TLB_SIZE in *.
  rewrite Z.shiftl_mul_pow2, u32_small by lia. change (2 ^ 12) with 4096. lia.
Qed.

(** The machine after an access, up to the TLB. *)
Definition after_access (a pc : Z) (h : Z -> Z) s s' : Prop :=
  same_but_tlb (set_host h s) s' /\ later_checked pc (tlb (paging s') (byte_page a)).

Lemma read_paged k n a tv ev s :
  enabled (paging s) = true -> 0 <= a < 4294967296 -> in_page n a = true ->
  is_reset (tlb (paging s) (byte_page a)) -> walk a tv ev s ->
  let pc := privilege_check false (entry_set tv) (entry_set ev) s in
  0 <= pc < 3 -> MEM_GetPageHandler (e_base (entry_set ev)) (memory s) = ok ram_page_handler ->
  exists h1 s', marked (table_addr (byte_page a) s) (entry_addr (entry_set tv) (byte_page a)) (pc =? 0) (host s) h1 /\
    mem_read rf (S (S k)) n a s = ok (host_read n (frame_address a ev) h1, s') /\ after_access a pc h1 s s'.
Proof using.
  intros Hen Ha Hi Hrs Hw pc Hpc Hg.
  destruct (InitPage_paged a false tv ev s Hen Ha Hw Hpc Hg) as (h1 & Hm & E). fold pc in Hm, E. cbn [orb] in Hm.
  set (s1 := link_entry _ _ _) in E. destruct (link_entry_spec (byte_page a) (ram_link a (e_base (entry_set ev)) ((pc <? 2) || false))
    (set_host h1 s)) as (Es & Et & _). fold s1 in Es, Et.
  destruct (UpdateLink_paged a pc false (e_base (entry_set ev)) (tail (links (paging s1))) (set_host h1 s) s1)
    as (s2 & E2 & Es2 & Hl); [done|done|apply frame_range|done|done|done|done|].
  exists h1, s2. split; [done|]. split; [|done].
  assert (mem_read rf (S k) n a s1 = ok (host_read n (frame_address a ev) h1, s1)) as E3.
  { cbn [mem_read]. rewrite Hi. unfold get_tlb_read, get_tlb. fold (byte_page a). rewrite Et.
    cbn [t_read ram_link]. rewrite ram_pointer by done. by destruct Es as (-> & _). }
  destruct (reset_views a s Hrs) as (V1 & _ & V2 & _).
  change (mem_read rf (S (S k)) n a s) with
    (if in_page n a then
       match get_tlb_read a s with
       | Some t => ok (host_read n (t + a) (host s), s)
       | None => match get_tlb_readhandler a s with
                 | init_page_handler =>
                     let* (needs_reset, s) := InitPage rf a false s in
                     let* (val, s) := mem_read rf (S k) n a s in
                     let* s := InitPageUpdateLink needs_reset a s in ok (val, s)
                 | illegal_page_handler => ok (default_read n 0xff, s)
                 | device_handler id =>
                     let '(val, v) := device_read id n a (devices s) in ok (val, set_devices v s)
                 | null_page_handler => err OutOfBounds
                 | _ => err Exit
                 end
       end
     else read_bytes (mem_read rf (S k) 1) n 0 a 0 s).
  rewrite Hi, V1, V2, E. cbn [exec_bind]. rewrite E3. cbn [exec_bind]. by rewrite E2.
Qed.

Lemma write_paged k n a v tv ev s :
  enabled (paging s) = true -> 0 <= a < 4294967296 -> in_page n a = true ->
  is_reset (tlb (paging s) (byte_page a)) -> walk a tv ev s ->
  let pc := privilege_check true (entry_set tv) (entry_set ev) s in
  0 <= pc < 3 -> MEM_GetPageHandler (e_base (entry_set ev)) (memory s) = ok ram_page_handler ->
  exists h1 s', marked (table_addr (byte_page a) s) (entry_addr (entry_set tv) (byte_page a)) true (host s) h1 /\
    mem_write rf (S (S k)) n a v s = ok s' /\ after_access a pc (host_write n (frame_address a ev) v h1) s s'.
Proof using.
  intros Hen Ha Hi Hrs Hw pc Hpc Hg.
  destruct (InitPage_paged a true tv ev s Hen Ha Hw Hpc Hg) as (h1 & Hm & E). fold pc in Hm, E. cbn [orb] in Hm.
  set (s1 := link_entry _ _ _) in E. destruct (link_entry_spec (byte_page a) (ram_link a (e_base (entry_set ev)) ((pc <? 2) || true))
    (set_host h1 s)) as (Es & Et & _). fold s1 in Es, Et. rewrite orb_true_r in Et.
  set (h2 := host_write n (frame_address a ev) v h1).
  assert (mem_write rf (S k) n a v s1 = ok (set_host h2 s1)) as E3.
  { cbn [mem_write]. rewrite Hi. unfold get_tlb_write, get_tlb. fold (byte_page a). rewrite Et.
    cbn [t_write ram_link]. rewrite ram_pointer by done. unfold h2, frame_address. by destruct Es as (-> & _). }
  destruct (UpdateLink_paged a pc true (e_base (entry_set ev)) (tail (links (paging s1))) (set_host h2 s) (set_host h2 s1))
    as (s2 & E2 & Es2 & Hl); [done|done|apply frame_range|done| |done|by rewrite orb_true_r|].
  { destruct Es as (_ & K1 & K2 & K3 & K4). by repeat split. }
  exists h1, s2. split; [done|]. split; [|done].
  destruct (reset_views a s Hrs) as (_ & V1 & _ & V2).
  change (mem_write rf (S (S k)) n a v s) with
    (if in_page n a then
       match get_tlb_write a s with
       | Some t => ok (set_host (host_write n (t + a) v (host s)) s)
       | None => match get_tlb_writehandler a s with
                 | init_page_handler =>
                     let* (needs_reset, s) := InitPage rf a true s in
                     let* s := mem_write rf (S k) n a v s in
                     InitPageUpdateLink needs_reset a s
                 | init_page_handler_userro => userro_write rf n a v s
                 | rom_page_handler | illegal_page_handler => ok s
                 | device_handler id => ok (set_devices (device_write id n a v (devices s)) s)
                 | ram_page_handler => err Exit
                 | null_page_handler => err OutOfBounds
                 end
       end
     else write_bytes (mem_write rf (S k) 1) n 0 a v s).
  rewrite Hi, V1, V2, E. cbn [exec_bind]. rewrite E3. cbn [exec_bind]. by rewrite E2.
Qed.

(** ** Faults *)
Lemma privilege_range w t e s : 0 <= privilege_check w t e s <= 3.
Proof using.
  unfold privilege_check. destruct (InitPage_CheckUseraccess _ _ _), (USERWRITE_PROHIBITED s), (checks_later _), (_ || _), w;
    cbn; lia.
Qed.
(** A user's access fails for want of the user bit, or of the write bit when it writes. *)
Lemma privilege_3 w t e s :
  privilege_check w t e s = 3 <->
  USERWRITE_PROHIBITED s = true /\
  InitPage_CheckUseraccess (CPU_ArchitectureType (cpu s)) (e_us e) (e_us t) || (((e_wr e =? 0) || (e_wr t =? 0)) && w) = true.
Proof using.
  unfold privilege_check. destruct (InitPage_CheckUseraccess _ _ _), (USERWRITE_PROHIBITED s), (checks_later _), (_ || _), w;
    cbn; split; (intros E; try lia; try tauto; try (by destruct E)).
Qed.

(** The error code of the page fault an access raises, if it raises one. *)
Definition page_fault (writing : bool) (a : Z) s : exec (option Z) :=
  let w := if writing then 0x02 else 0x00 in
  let* tv := phys_readd (table_addr (byte_page a) s) s in
  if e_p (entry_set tv) =? 0 then ok (Some (Z.lor w (fault_user_bit s))) else
  let* ev := phys_readd (entry_addr (entry_set tv) (byte_page a)) s in
  if e_p (entry_set ev) =? 0 then ok (Some (Z.lor w (fault_user_bit s))) else
  if privilege_check writing (entry_set tv) (entry_set ev) s =? 3 then ok (Some (Z.lor 0x05 w)) else ok None.
Definition raise_fault (code a : Z) s : Machine D :=
  set_cpu (with_exception EXCEPTION_PF code (cpu s)) (set_paging (with_cr2 a (paging s)) s).

Lemma InitPageCheckOnly_spec w a s r :
  enabled (paging s) = true -> page_fault w a s = ok r ->
  InitPageCheckOnly a w s = ok (match r with None => (true, s) | Some code => (false, raise_fault code a s) end).
Proof using.
  intros Hen E. unfold InitPageCheckOnly, InitPageCheckPresence_CheckOnly. unfold page_fault in E. rewrite Hen.
  fold (byte_page a). cbv zeta in *.
  destruct (phys_readd (table_addr _ _) s) as [tv|]; [|done]. cbn [exec_bind] in *.
  destruct (e_p (entry_set tv) =? 0); [by injection E as <-|].
  destruct (phys_readd (entry_addr _ _) s) as [ev|]; [|done]. cbn [exec_bind] in *.
  destruct (e_p (entry_set ev) =? 0); [by injection E as <-|]. cbn [exec_bind].
  pose proof (privilege_3 w (entry_set tv) (entry_set ev) s) as H3.
  destruct (Z.eqb_spec (privilege_check w (entry_set tv) (entry_set ev) s) 3) as [E3|E3].
  - apply H3 in E3 as [E3 E4]. rewrite E3, E4. by injection E as <-.
  - destruct (USERWRITE_PROHIBITED s); cbn [negb]; [|by injection E as <-].
    destruct (_ || _); [|by injection E as <-]. destruct E3. apply H3. done.
Qed.
End Paged.

(** ** The theorems *)

(** C11.  With paging on, an access inside a page the TLB does not hold reads or
    writes the RAM frame its page table entry names, after setting the accessed
    bit of the table and the entry and, for a write or when later writes are not
    checked, the entry's dirty bit; no other byte changes, and a page whose later
    accesses need a check is left without a writable translation. *)
Theorem paged_access {D} `{Devices D} rf fuel n a v tv ev (s : Machine D) :
  (2 <= fuel)%nat -> enabled (paging s) = true -> 0 <= a < 4294967296 -> in_page n a = true ->
  is_reset (tlb (paging s) (byte_page a)) -> walk a tv ev s ->
  MEM_GetPageHandler (e_base (entry_set ev)) (memory s) = ok ram_page_handler ->
  let pc w := privilege_check w (entry_set tv) (entry_set ev) s in
  let mark w := marked (table_addr (byte_page a) s) (entry_addr (entry_set tv) (byte_page a)) (w || (pc w =? 0)) (host s) in
  (pc false <> 3 -> exists h1 s', mark false h1 /\
     mem_read rf fuel n a s = ok (host_read n (frame_address a ev) h1, s') /\ after_access a (pc false) h1 s s') /\
  (pc true <> 3 -> exists h1 s', mark true h1 /\
     mem_write rf fuel n a v s = ok s' /\ after_access a (pc true) (host_write n (frame_address a ev) v h1) s s').
Proof.
  intros Hf Hen Ha Hi Hrs Hw Hg pc mark. destruct fuel as [|[|k]]; [lia..|].
  pose proof (privilege_range false (entry_set tv) (entry_set ev) s).
  pose proof (privilege_range true (entry_set tv) (entry_set ev) s).
  split; intros Hpc; [apply read_paged|apply write_paged]; unfold pc in Hpc; done || lia.
Qed.

(** C12.  A checked access within one page that the TLB does not hold raises a page fault exactly
    when the table or the entry is not present or a user lacks the right, with the
    linear address in CR2 and the error code of the fault, and touches nothing
    else; otherwise it is the unchecked access. *)
Theorem checked_access {D} `{Devices D} rf k n a v (s : Machine D) r :
  enabled (paging s) = true -> in_page n a = true -> is_reset (tlb (paging s) (byte_page a)) ->
  (page_fault false a s = ok r ->
   mem_read_checked rf (S k) n a s =
     match r with
     | Some code => ok (None, raise_fault code a s)
     | None => let* (val, s') := mem_read rf k n a s in ok (Some val, s')
     end) /\
  (page_fault true a s = ok r ->
   mem_write_checked rf (S k) n a v s =
     match r with
     | Some code => ok (true, raise_fault code a s)
     | None => let* s' := mem_write rf k n a v s in ok (false, s')
     end).
Proof.
  intros Hen Hi Hrs. destruct (reset_views a s Hrs) as (V1 & V2 & V3 & V4).
  split; intros E; cbn [mem_read_checked mem_write_checked]; rewrite Hi, ?V1, ?V2, ?V3, ?V4;
    unfold InitPageHandler_read_checked, InitPageHandler_write_checked; rewrite
    (InitPageCheckOnly_spec _ a s r Hen E); by destruct r.
Qed.

(** A page table entry read from memory and written back is the same word, and
    marking it sets exactly its accessed and dirty bits. *)
Theorem entry_roundtrip v :
  0 <= v < 2 ^ 32 ->
  entry_get (entry_set v) = v /\ entry_get (set_accessed (entry_set v)) = Z.lor v 0x20 /\
  entry_get (set_dirty (set_accessed (entry_set v))) = Z.lor v 0x60 /\
  PhysPt (Z.shiftl (e_base (entry_set v)) 12) = v - v mod 4096.
Proof.
  intros Hv. change (2 ^ 32) with 4294967296 in Hv. split; [|split; [by apply accessed_word|split; [by apply (marked_word v true)|]]].
  - pose proof (marks_word v false false Hv) as E. rewrite !orb_false_r, <- entry_marks in E. rewrite E. apply Z.lor_0_r.
  - cbn [e_base entry_set]. change 0xFFFFF with (Z.ones 20).
    rewrite Z.land_ones, Z.shiftl_mul_pow2, Z.shiftr_div_pow2 by lia.
    change (2 ^ 20) with 1048576. change (2 ^ 12) with 4096. unfold PhysPt.
    assert (v / 4096 < 1048576) by (apply Z.div_lt_upper_bound; lia). pose proof (Z.div_pos v 4096).
    pose proof (Z.div_mod v 4096). pose proof (Z.mod_pos_bound v 4096).
    rewrite (Z.mod_small (v / 4096)) by lia. rewrite u32_small; lia.
Qed.

Lemma entry_roundtrip_witness : entry_get (set_accessed (entry_set 0x12345007)) = 0x12345027.
Proof. destruct (entry_roundtrip 0x12345007 ltac:(lia)) as (_ & E & _). exact E. Defined.

(** ** Witnesses: a page directory at page 1, a table at page 2, frame 3 for page 0x400 *)
Definition page_words (directory table : Z) : Z -> Z :=
  host_write 4 0x2000 table (host_write 4 0x1004 directory (fun _ => 0)).
Definition paged_machine (directory table : Z) : Machine unit :=
  let s := set_host (page_words directory table) real_machine in
  set_paging (with_enabled true (with_base 0x1000 1 0x1000 (paging s))) s.

Lemma paged_access_witness :
  exists h1 s', mem_write no_handler 3 4 0x400010 0xcafe (paged_machine 0x2007 0x3007) = ok s' /\
    same_but_tlb (set_host (host_write 4 0x3010 0xcafe h1) (paged_machine 0x2007 0x3007)) s' /\
    host_read 4 0x2000 h1 = 0x3067 /\ host_read 4 0x1004 h1 = 0x2027.
Proof.
  assert (walk 0x400010 0x2007 0x3007 (paged_machine 0x2007 0x3007)) as Hw by (split; vm_compute; reflexivity).
  destruct (paged_access no_handler 3 4 0x400010 0xcafe 0x2007 0x3007 (paged_machine 0x2007 0x3007))
    as [_ Hwr]; [lia|reflexivity|lia|reflexivity|repeat split|exact Hw|vm_compute; reflexivity|].
  destruct Hwr as (h1 & s' & (_ & Me & Mt) & E & [Es _]); [vm_compute; discriminate|].
  exists h1, s'. split; [exact E|]. split; [exact Es|].
  change (byte_page 0x400010) with 0x400 in *.
  assert (entry_addr (entry_set 0x2007) 0x400 = 0x2000) as Ee by (vm_compute; reflexivity).
  assert (table_addr 0x400 (paged_machine 0x2007 0x3007) = 0x1004) as Et by (vm_compute; reflexivity).
  rewrite Ee, Et in *. split; [rewrite Me; vm_compute; reflexivity|rewrite Mt by lia; vm_compute; reflexivity].
Defined.

Lemma checked_access_witness :
  mem_read_checked no_handler 3 2 0x400010 (paged_machine 0x2007 0x3006) =
  ok (None, raise_fault 0x00 0x400010 (paged_machine 0x2007 0x3006)).
Proof.
  destruct (checked_access no_handler 2 2 0x400010 0 (paged_machine 0x2007 0x3006) (Some 0x00)) as [Hr _];
    [reflexivity|reflexivity|repeat split|].
  apply Hr. vm_compute. reflexivity.
Defined.

(** ** Pages a user may read but not write *)
Lemma userro_CheckOnly_fault {D} `{Devices D} a (s : Machine D) code :
  enabled (paging s) = true -> USERWRITE_PROHIBITED s = true -> page_fault true a s = ok (Some code) ->
  userro_InitPageCheckOnly a s = ok (0, raise_fault code a s).
Proof.
  intros Hen Hu E. unfold userro_InitPageCheckOnly, InitPageCheckPresence_CheckOnly. unfold page_fault in E. rewrite Hen, Hu.
  fold (byte_page a). cbv zeta in *. cbn [negb].
  destruct (phys_readd (table_addr _ _) s) as [tv|]; [|done]. cbn [exec_bind] in *.
  destruct (e_p (entry_set tv) =? 0); [by injection E as <-|].
  destruct (phys_readd (entry_addr _ _) s) as [ev|]; [|done]. cbn [exec_bind] in *.
  destruct (e_p (entry_set ev) =? 0); [by injection E as <-|]. cbn [exec_bind].
  pose proof (privilege_3 true (entry_set tv) (entry_set ev) s) as H3. rewrite andb_true_r in H3.
  destruct (Z.eqb_spec (privilege_check true (entry_set tv) (entry_set ev) s) 3) as [E3|E3]; [|done].
  apply H3 in E3 as [_ E4]. rewrite E4. by injection E as <-.
Qed.

(** A user's checked write to a page linked for reading only reports the page
    fault that is due, with one exception: an 8-byte write inside the page never
    reports a fault to its caller, since the handler of these pages has no checked
    quadword write of its own. *)
Theorem readonly_checked_write {D} `{Devices D} rf k n a v code (s : Machine D) :
  enabled (paging s) = true -> USERWRITE_PROHIBITED s = true -> in_page n a = true ->
  get_tlb_write a s = None -> get_tlb_writehandler a s = init_page_handler_userro ->
  page_fault true a s = ok (Some code) ->
  (n <> 8%nat -> mem_write_checked rf (S k) n a v s = ok (true, raise_fault code a s)) /\
  (n = 8%nat -> forall f s', mem_write_checked rf (S k) n a v s = ok (f, s') -> f = false).
Proof.
  intros Hen Hu Hi Hw Hh E. cbn [mem_write_checked]. rewrite Hi, Hw, Hh. unfold userro_write_checked. split.
  - intros Hn. destruct (Nat.eqb_spec n 8); [done|]. by rewrite (userro_CheckOnly_fault a s code).
  - intros -> f s' Er. rewrite Nat.eqb_refl in Er. destruct (userro_write _ _ _ _ s); [|done]. by injection Er.
Qed.

(** A user program, its page linked for reading. *)
Definition user_machine : Machine unit :=
  let s := paged_machine 0x2007 0x3005 in
  let s := set_cpu (mkCpu 3 3 0 0 0 0 Pentium CPU_Core_Normal_Run 3000 0) s in
  link_entry 0x400 (ram_link 0x400000 3 false) s.
Lemma readonly_checked_write_witness :
  mem_write_checked no_handler 3 4 0x400010 0xcafe user_machine = ok (true, raise_fault 0x07 0x400010 user_machine) /\
  exists s', mem_write_checked no_handler 3 8 0x400010 0xcafe user_machine = ok (false, s') /\
    host_read 4 0x3010 (host s') = 0xcafe.
Proof.
  split.
  - refine (proj1 (readonly_checked_write no_handler 2 4 0x400010 0xcafe 0x07 user_machine _ _ _ _ _ _) _);
      [reflexivity|reflexivity|reflexivity|reflexivity|reflexivity|vm_compute; reflexivity|done].
  - eexists. split; vm_compute; reflexivity.
Defined.

Lemma mark_entry_base {D} `{Devices D} b lin t e (s : Machine D) e' s' :
  mark_entry b lin t e s = ok (e', s') -> e_base e' = e_base e.
Proof. unfold mark_entry. intros E. exec_all; by destruct b. Qed.
Lemma LinkPage_frame {D} `{Devices D} lin frame (s s' : Machine D) :
  PAGING_LinkPage lin frame s = ok s' -> t_phys_page (tlb (paging s') lin) = frame.
Proof.
  unfold PAGING_LinkPage. intros E. exec_all.
  match goal with |- context [link_entry ?l ?e ?t] => destruct (link_entry_spec l e t) as (_ & -> & _) end. done.
Qed.

(** When a user writes to a page linked for reading only, the page is linked
    after the fault to the frame its entry named before it: what the guest's fault
    handler puts into the entry, a private copy of the page for instance, is not
    looked at. *)
Theorem stale_frame_after_fault {D} `{Devices D} rf k n a v tv ev (s s' : Machine D) :
  enabled (paging s) = true -> USERWRITE_PROHIBITED s = true -> in_page n a = true -> n <> 8%nat ->
  get_tlb_write a s = None -> get_tlb_writehandler a s = init_page_handler_userro -> walk a tv ev s ->
  mem_write rf (S k) n a v s = ok s' ->
  t_phys_page (tlb (paging s') (byte_page a)) = e_base (entry_set ev).
Proof.
  intros Hen Hu Hi Hn Hw Hh Hwalk E. cbn [mem_write] in E. rewrite Hi, Hw, Hh in E. unfold userro_write in E.
  destruct (Nat.eqb_spec n 8); [done|]. unfold userro_write1, write_through in E.
  apply exec_bind_ok in E as (s1 & E1 & E). unfold userro_InitPage in E1.
  rewrite Hen, Hu, (CheckPresence_walk rf a true tv ev s Hwalk) in E1. cbn [exec_bind negb] in E1. fold (byte_page a) in E1.
  exec_all. cbn [paging set_host].
  match goal with H : PAGING_LinkPage _ _ _ = ok s1 |- _ => rewrite (LinkPage_frame _ _ _ _ H) end.
  match goal with H : mark_entry _ _ _ _ _ = ok _ |- _ => exact (mark_entry_base _ _ _ _ _ _ _ H) end.
Qed.

(** A fault handler that gives the page a private frame. *)
Definition copy_on_write (code : Z) (s : Machine unit) : exec (Machine unit) :=
  ok (set_host (host_write 4 0x2000 0x5067 (host s)) s).
Lemma stale_frame_after_fault_witness :
  exists s', mem_write copy_on_write 3 4 0x400010 0xcafe user_machine = ok s' /\
    t_phys_page (tlb (paging s') 0x400) = 3 /\ host_read 4 0x3010 (host s') = 0xcafe /\ host_read 4 0x5010 (host s') = 0.
Proof.
  eexists. split; [vm_compute; reflexivity|]. split; [|split; vm_compute; reflexivity].
  apply (stale_frame_after_fault copy_on_write 2 4 0x400010 0xcafe 0x2007 0x3005 user_machine);
    [reflexivity|reflexivity|reflexivity|done|reflexivity|reflexivity|split; vm_compute; reflexivity|vm_compute; reflexivity].
Defined.
