(* ===== verification/MemoryCtl.v ===== *)
(** * A20 gate, system control port and set-up ([hardware/memory.cpp])

    The two mappings of the pages above the first megabyte, port 0x92, the linear
    frame buffer, and the constructor of the module. *)
From S2P Require Import Prelude.
From S2P Require Import GuestMemory.
From S2P Require Import PageAlloc.
From S2P Require Import PageSearch.
From S2P Require Import PageBlocks.
From S2P Require Import PageHandlers.
From S2P Require Import Paging.
From S2P Require Import PageWalk.
From S2P Require Import PagedAccess.
From S2P Require Import TlbProofs.
From S2P Require Import RealMode.
#[local] Open Scope Z_scope.
#[local] Open Scope exec_scope.

Section Operations.
Context {D : Type} `{Devices D}.
Implicit Types (s : Machine D).

Definition MEM_SetLFB (page pages : Z) (handler mmiohandler : handler) s : Machine D :=
  PAGING_ClearTLB (set_memory (with_lfb page pages handler mmiohandler (memory s)) s).

(** ** A20 gate *)
Fixpoint a20_loop (n : nat) (page a20_base_page phys_base_page : Z) s : exec (Machine D) :=
  match n with
  | O => ok s
  | S n => let* s := PAGING_MapPage (a20_base_page + page) (phys_base_page + page) s in
           a20_loop n (page + 1) a20_base_page phys_base_page s
  end.
Definition MEM_A20_Enabled s : bool := a20_enabled (memory s).
Definition MEM_A20_Enable (enabled : bool) s : exec (Machine D) :=
  if Bool.eqb (a20_enabled (memory s)) enabled then ok s else
  let a20_base_page := Megabyte / DosPageSize in
  let phys_base_page := if enabled then a20_base_page else 0 in
  let* s := a20_loop 16 0 a20_base_page phys_base_page s in
  ok (set_memory (with_a20 enabled (memory s)) s).
Definition InitA20 s : exec (Machine D) := MEM_A20_Enable false (set_memory (with_a20 true (memory s)) s).

(** ** Port 0x92 *)
Definition write_p92 (value : Z) s : exec (Machine D) :=
  let val := value in
  if nz (Z.land val 1) then err Exit else
  MEM_A20_Enable (0 <? Z.land val 2) (set_memory (with_controlport (u8 (Z.land val (Z.lnot 2))) (memory s)) s).
Definition read_p92 s : Z :=
  u8 (Z.lor (a20_controlport (memory s)) (if a20_enabled (memory s) then 0x02 else 0)).

(** ** Set-up *)
Definition install_rom_page_handlers (first last : Z) (p : list handler) : exec (list handler) :=
  SetPageHandler_loop first (Z.to_nat (last - first)) rom_page_handler p.
(** The pages [resize] adds are zero. *)
Definition resize_pages (num_pages : nat) s : Z -> Z :=
  fun i => if (ram_size s <=? i) && (i <? Z.of_nat num_pages * DosPageSize) then 0 else host s i.
Definition MEMORY (num_megabytes : Z) (is_machine_pcjr : bool) s : exec (Machine D) :=
  let num_pages := Z.to_nat (num_megabytes * PagesPerMegabyte) in
  let s := set_host (resize_pages num_pages s) s in
  let p := replicate num_pages ram_page_handler in
  let* p := install_rom_page_handlers 0xc0 0xc8 p in
  let* p := install_rom_page_handlers 0xf0 0x100 p in
  let* p := (if is_machine_pcjr then install_rom_page_handlers 0xe0 0xf0 p else ok p) in
  let m := memory s in
  InitA20 (set_memory (mkMemory p (replicate num_pages 0) (lfb_start_page m) (lfb_end_page m) (lfb_pages m)
             (lfb_handler m) (lfb_mmiohandler m) (a20_enabled m) (a20_controlport m)) s).

(** ** The gate in the page map *)

(** The sixteen pages at 1 MB are mapped to themselves, or to the first 64 KiB. *)
Definition a20_mapped s : Prop :=
  forall k, 0 <= k < 16 ->
    get (firstmb (paging s)) (0x100 + k) = Some (if a20_enabled (memory s) then 0x100 + k else k).

Lemma MapPage_real s lin phys :
  real_mode s -> 0 <= lin < LINK_START -> 0 <= phys < TLB_SIZE ->
  exists s', PAGING_MapPage lin phys s = ok s' /\ real_mode s' /\
    host s' = host s /\ memory s' = memory s /\ cpu s' = cpu s /\ devices s' = devices s /\
    firstmb (paging s') = upd (firstmb (paging s)) lin phys.
Proof using.
  intros Hr Hl Hq. unfold PAGING_MapPage. destruct (Z.ltb_spec lin LINK_START); [|lia].
  pose proof (rm_firstmb s Hr) as Hlen.
  rewrite write_upd by (rewrite Hlen; unfold LINK_START in *; lia). cbn [exec_bind].
  eexists. split; [done|]. split; [|done]. split; [apply Hr|cbn; by rewrite length_upd| |apply Hr|].
  - intros i q. cbn [firstmb paging set_paging with_tlb with_firstmb].
    rewrite get_upd by (rewrite Hlen; unfold LINK_START in *; lia).
    destruct (lin =? i); [intros [= <-]; done|apply Hr].
  - intros page Hp. cbn [tlb paging set_paging with_tlb with_firstmb]. unfold reset_page, set_tlb.
    destruct (Z.eqb_spec page lin) as [->|Hne]; [by left|]. destruct (rm_coherent s Hr page Hp) as [Hrs|Hle]; [by left|right].
    unfold linked_entry, page_handler, direct in *. cbn [firstmb paging set_paging with_tlb with_firstmb memory] in *.
    rewrite get_upd_ne by lia. done.
Qed.

Lemma a20_loop_spec n page base phys s :
  real_mode s -> 0 <= page -> 0 <= base -> 0 <= phys -> base + page + Z.of_nat n <= LINK_START ->
  phys + page + Z.of_nat n <= TLB_SIZE ->
  exists s', a20_loop n page base phys s = ok s' /\ real_mode s' /\
    host s' = host s /\ memory s' = memory s /\ cpu s' = cpu s /\ devices s' = devices s /\
    forall i, get (firstmb (paging s')) i =
      if (base + page <=? i) && (i <? base + page + Z.of_nat n) then Some (phys + (i - base)) else get (firstmb (paging s)) i.
Proof using.
  revert page s. induction n as [|n IH]; intros page s Hr Hp Hb Hph Hle Hle'; cbn [a20_loop].
  - exists s. split; [done|]. split; [done|]. do 4 (split; [done|]). intros i.
    destruct (Z.leb_spec (base + page) i), (Z.ltb_spec i (base + page + Z.of_nat 0)); try done; lia.
  - destruct (MapPage_real s (base + page) (phys + page)) as (s1 & -> & Hr1 & E1 & E2 & E3 & E4 & Ef); [done|lia|lia|].
    cbn [exec_bind]. destruct (IH (page + 1) s1) as (s' & E & Hr' & K1 & K2 & K3 & K4 & Hget); [done|lia..|].
    exists s'. split; [done|]. split; [done|]. do 4 (split; [congruence|]). intros i. rewrite Hget, Ef.
    rewrite get_upd by (rewrite (rm_firstmb s Hr); unfold LINK_START in *; lia).
    destruct (Z.leb_spec (base + (page + 1)) i), (Z.ltb_spec i (base + (page + 1) + Z.of_nat n)),
      (Z.leb_spec (base + page) i), (Z.ltb_spec i (base + page + Z.of_nat (S n))); cbn [andb]; try done; try lia;
      destruct (Z.eqb_spec (base + page) i); try lia; try done; f_equal; lia.
Qed.

Lemma real_mode_memory s m :
  real_mode s -> phandlers m = phandlers (memory s) -> lfb_start_page m = lfb_start_page (memory s) ->
  lfb_end_page m = lfb_end_page (memory s) -> lfb_handler m = lfb_handler (memory s) ->
  lfb_mmiohandler m = lfb_mmiohandler (memory s) -> real_mode (set_memory m s).
Proof using.
  intros Hr E1 E2 E3 E4 E5.
  assert (forall q, MEM_GetPageHandler q m = MEM_GetPageHandler q (memory s)) as Eg
    by (intros q; unfold MEM_GetPageHandler; by rewrite E1, E2, E3, E4, E5).
  split; [apply Hr|apply Hr|apply Hr| |].
  - intros q Hq. cbn [memory set_memory]. rewrite Eg. by apply Hr.
  - intros page Hp. destruct (rm_coherent s Hr page Hp) as [|Hl]; [by left|right].
    unfold linked_entry, page_handler in *. cbn [memory set_memory paging]. rewrite Eg. exact Hl.
Qed.

Lemma A20_Enable_real b s :
  real_mode s -> (a20_enabled (memory s) = b -> a20_mapped s) ->
  exists s', MEM_A20_Enable b s = ok s' /\ real_mode s' /\ a20_mapped s' /\
    memory s' = with_a20 b (memory s) /\ host s' = host s /\ cpu s' = cpu s /\ devices s' = devices s /\
    forall i, i < 0x100 -> get (firstmb (paging s')) i = get (firstmb (paging s)) i.
Proof using.
  intros Hr Hm. unfold MEM_A20_Enable. destruct (Bool.eqb_spec (a20_enabled (memory s)) b) as [E|E].
  - exists s. split; [done|]. split; [done|]. split; [by apply Hm|]. split; [|done].
    rewrite <- E. by destruct (memory s).
  - destruct (a20_loop_spec 16 0 (Megabyte / DosPageSize) (if b then Megabyte / DosPageSize else 0) s)
      as (s1 & El & Hr1 & K1 & K2 & K3 & K4 & Hget); [done|done|done|by destruct b|done|by destruct b|].
    rewrite El. cbn [exec_bind]. eexists. split; [done|]. split; [by apply real_mode_memory|].
    split; [|split; [by rewrite K2|]]; [|split; [done|]; split; [done|]; split; [done|]].
    + intros k Hk. cbn [memory set_memory a20_enabled with_a20 paging]. rewrite Hget.
      change (Megabyte / DosPageSize) with 0x100.
      destruct (Z.leb_spec (0x100 + 0) (0x100 + k)), (Z.ltb_spec (0x100 + k) (0x100 + 0 + Z.of_nat 16)); try lia.
      cbn [andb]. f_equal. destruct b; lia.
    + intros i Hi. cbn [paging set_memory]. rewrite Hget. change (Megabyte / DosPageSize) with 0x100.
      destruct (Z.leb_spec (0x100 + 0) i); [lia|done].
Qed.

(** What an address above the first megabyte names. *)
Lemma a20_physical x s :
  a20_mapped s -> 0 <= x < 0x10000 ->
  physical (0x100000 + x) s = if a20_enabled (memory s) then 0x100000 + x else x.
Proof using.
  intros Hm Hx. unfold physical. pose proof (address_split x).
  destruct (address_unique (0x100 + byte_page x) (byte_offset x) (0x100000 + x)) as [-> ->]; [lia..|].
  unfold direct. destruct (Z.ltb_spec (0x100 + byte_page x) LINK_START) as [_|]; [|change LINK_START with 272 in *; lia].
  rewrite Hm by lia. destruct (a20_enabled _); lia.
Qed.

(** ** Set-up *)
Lemma identity_pages_spec n i f :
  0 <= i -> i + Z.of_nat n <= Z.of_nat (length f) ->
  exists f', identity_pages n i f = ok f' /\ length f' = length f /\
    forall j, get f' j = if (i <=? j) && (j <? i + Z.of_nat n) then Some j else get f j.
Proof using.
  revert i f. induction n as [|n IH]; intros i f Hi Hle; cbn [identity_pages].
  - exists f. split; [done|]. split; [done|]. intros j.
    destruct (Z.leb_spec i j), (Z.ltb_spec j (i + Z.of_nat 0)); try done; lia.
  - rewrite write_upd by lia. cbn [exec_bind].
    destruct (IH (i + 1) (upd f i i)) as (f' & E & Hlen & Hget); [lia|rewrite length_upd; lia|].
    exists f'. split; [done|]. split; [by rewrite Hlen, length_upd|]. intros j. rewrite Hget, get_upd by lia.
    destruct (Z.leb_spec (i + 1) j), (Z.ltb_spec j (i + 1 + Z.of_nat n)), (Z.leb_spec i j),
      (Z.ltb_spec j (i + Z.of_nat (S n))); cbn [andb]; try done; try lia;
      destruct (Z.eqb_spec i j); try lia; by subst.
Qed.

(** The state [PAGING] leaves: everything reset, the page map the identity. *)
Lemma PAGING_spec s :
  length (firstmb (paging s)) = Z.to_nat LINK_START ->
  exists s', PAGING s = ok s' /\ memory s' = memory s /\ enabled (paging s') = false /\
    (forall page, is_reset (tlb (paging s') page)) /\ length (firstmb (paging s')) = Z.to_nat LINK_START /\
    forall i q, get (firstmb (paging s')) i = Some q -> q = i.
Proof using.
  intros Hlen. unfold PAGING. cbv zeta.
  destruct (identity_pages_spec (Z.to_nat LINK_START) 0 (firstmb (paging s))) as (f & E & Hf & Hget);
    [done|rewrite Hlen; lia|].
  change (firstmb (paging (PAGING_InitTLB (set_paging (with_enabled false (paging s)) s)))) with (firstmb (paging s)).
  rewrite E. cbn [exec_bind]. eexists. split; [done|]. split; [done|]. split; [done|]. split; [done|].
  cbn [firstmb paging set_paging with_pf with_firstmb]. split; [congruence|].
  intros i q Hq. pose proof (get_Some_range _ _ _ Hq). rewrite Hget in Hq.
  destruct (Z.leb_spec 0 i), (Z.ltb_spec i (0 + Z.of_nat (Z.to_nat LINK_START))); try lia. cbn in Hq. congruence.
Qed.

(** The pages that hold ROM. *)
Definition rom_page (is_machine_pcjr : bool) (page : Z) : bool :=
  ((0xc0 <=? page) && (page <? 0xc8)) || ((0xf0 <=? page) && (page <? 0x100))
  || (is_machine_pcjr && (0xe0 <=? page) && (page <? 0xf0)).

Lemma rom_pages_spec (num_pages : nat) (pcjr : bool) :
  0x100 <= Z.of_nat num_pages ->
  exists p, (let* p := install_rom_page_handlers 0xc0 0xc8 (replicate num_pages ram_page_handler) in
             let* p := install_rom_page_handlers 0xf0 0x100 p in
             if pcjr then install_rom_page_handlers 0xe0 0xf0 p else ok p) = ok p /\ length p = num_pages /\
    forall page, 0 <= page < Z.of_nat num_pages ->
      get p page = Some (if rom_page pcjr page then rom_page_handler else ram_page_handler).
Proof using.
  intros Hn. unfold install_rom_page_handlers.
  destruct (SetPageHandler_loop_spec (Z.to_nat (0xc8 - 0xc0)) 0xc0 rom_page_handler (replicate num_pages ram_page_handler))
    as (p1 & -> & L1 & G1); [lia|rewrite length_replicate; lia|]. cbn [exec_bind]. rewrite length_replicate in L1.
  destruct (SetPageHandler_loop_spec (Z.to_nat (0x100 - 0xf0)) 0xf0 rom_page_handler p1)
    as (p2 & -> & L2 & G2); [lia|lia|]. cbn [exec_bind].
  assert (forall page, 0 <= page < Z.of_nat num_pages -> get (replicate num_pages ram_page_handler) page = Some ram_page_handler) as G0.
  { intros page Hp. unfold get. destruct (Z.ltb_spec page 0); [lia|]. apply lookup_replicate_2. lia. }
  destruct pcjr.
  - destruct (SetPageHandler_loop_spec (Z.to_nat (0xf0 - 0xe0)) 0xe0 rom_page_handler p2)
      as (p3 & -> & L3 & G3); [lia|lia|]. exists p3. split; [done|]. split; [congruence|].
    intros page Hp. rewrite G3, G2, G1, G0 by done. unfold rom_page. zbool.
  - exists p2. split; [done|]. split; [congruence|]. intros page Hp. rewrite G2, G1, G0 by done. unfold rom_page. zbool.
Qed.

Lemma all_free n : owned (replicate n 0) [].
Proof using.
  split; [constructor|constructor|constructor|]. intros i Hi _ Hlt. unfold npages in Hlt. rewrite length_replicate in Hlt.
  unfold get. destruct (Z.ltb_spec i 0); [unfold XMS_START in *; lia|]. apply lookup_replicate_2. lia.
Qed.
End Operations.

(** ** The theorems *)

(** Set-up: after the constructors of paging and memory, every page of the
    configured size is RAM but the ROM areas, the A20 gate is off with its pages
    on the first 64 KiB, the first megabyte is mapped to itself, all extended
    memory is free for the page allocator, and guest accesses work on physical
    memory. *)
Theorem memory_setup {D} `{Devices D} n pcjr (s : Machine D) :
  1 <= n -> length (firstmb (paging s)) = Z.to_nat LINK_START ->
  lfb_handler (memory s) ∈ [null_page_handler; illegal_page_handler] ->
  lfb_mmiohandler (memory s) ∈ [null_page_handler; illegal_page_handler] ->
  exists s1 s2, PAGING s = ok s1 /\ MEMORY n pcjr s1 = ok s2 /\ real_mode s2 /\ a20_mapped s2 /\
    MEM_A20_Enabled s2 = false /\ owned (mhandles (memory s2)) [] /\
    length (mhandles (memory s2)) = Z.to_nat (n * 256) /\ length (phandlers (memory s2)) = Z.to_nat (n * 256) /\
    (forall page, 0 <= page < n * 256 ->
       MEM_GetPageHandler page (memory s2) = ok (if rom_page pcjr page then rom_page_handler else ram_page_handler)) /\
    (forall page, page < 0x100 -> direct page s2 = page).
Proof.
  intros Hn Hlen Hl1 Hl2. destruct (PAGING_spec s Hlen) as (s1 & E1 & Em & He & Hrs & Hf & Hid).
  exists s1. unfold MEMORY. change PagesPerMegabyte with 256.
  destruct (rom_pages_spec (Z.to_nat (n * 256)) pcjr) as (p & Ep & Lp & Gp); [lia|].
  destruct (install_rom_page_handlers 0xc0 0xc8 _) as [p1|] in Ep |- *; [|done]. cbn [exec_bind] in *.
  destruct (install_rom_page_handlers 0xf0 0x100 p1) as [p2|]; [|done]. cbn [exec_bind] in *. rewrite Ep. cbn [exec_bind].
  match goal with |- context [InitA20 ?t] => set (s2 := t) end.
  assert (forall page, 0 <= page < n * 256 ->
            MEM_GetPageHandler page (memory s2) = ok (if rom_page pcjr page then rom_page_handler else ram_page_handler)) as Hg.
  { intros page Hp. unfold MEM_GetPageHandler. cbn [memory s2 set_memory phandlers]. rewrite Lp.
    destruct (Z.ltb_spec page (Z.of_nat (Z.to_nat (n * 256)))); [|lia]. apply read_get, Gp. lia. }
  assert (real_mode s2) as Hr2.
  { split; [exact He|exact Hf| | |intros page _; by left].
    - intros i q E. pose proof (Hid i q E) as ->. apply get_Some_range in E.
      change (firstmb (paging s2)) with (firstmb (paging s1)) in E. rewrite Hf in E.
      change LINK_START with 272 in E. unfold TLB_SIZE. lia.
    - intros q Hq. destruct (Z.lt_ge_cases q (n * 256)) as [Hlt|Hge].
      + eexists. split; [apply Hg; lia|]. by destruct (rom_page _ _).
      + unfold MEM_GetPageHandler. cbn [memory s2 set_memory phandlers set_host lfb_handler lfb_mmiohandler lfb_start_page lfb_end_page].
        rewrite Lp. destruct (Z.ltb_spec q (Z.of_nat (Z.to_nat (n * 256)))); [lia|].
        rewrite Em. cbv zeta.
        assert (forall h, h ∈ [null_page_handler; illegal_page_handler] -> h <> init_page_handler /\ h <> init_page_handler_userro)
          as Hh by (intros h Hin; repeat (apply elem_of_cons in Hin as [-> | Hin]; [done|]); by apply elem_of_nil in Hin).
        destruct (_ && _); [eexists; split; [done|by apply Hh]|].
        destruct (_ && _); [eexists; split; [done|by apply Hh]|].
        destruct (voodoo_lfb q); eexists; (split; [done|done]). }
  unfold InitA20.
  destruct (A20_Enable_real false (set_memory (with_a20 true (memory s2)) s2))
    as (s3 & -> & Hr3 & Hm3 & Em3 & _ & _ & _ & Hlow); [by apply real_mode_memory|done|].
  exists s3. split; [done|]. split; [done|]. split; [done|]. split; [done|].
  unfold MEM_A20_Enabled. rewrite Em3. split; [done|]. split; [apply all_free|].
  split; [cbn; by rewrite length_replicate|]. split; [exact Lp|]. split; [exact Hg|].
  intros page Hp. unfold direct. destruct (Z.ltb_spec page LINK_START); [|done]. rewrite Hlow by done.
  change (firstmb (paging (set_memory (with_a20 true (memory s2)) s2))) with (firstmb (paging s1)).
  destruct (get _ page) as [q|] eqn:E; [by apply Hid|done].
Qed.

(** Port 0x92: a write with the reset bit set leaves through [E_Exit]; any other
    write sets the A20 gate to its bit 1, reads back as written, and keeps guest
    memory accessible as physical memory, in which the 64 KiB above the first
    megabyte are then themselves when the gate is on and the first 64 KiB when it
    is off, whatever the TLB held. *)
Theorem port92_roundtrip {D} `{Devices D} v (s : Machine D) :
  real_mode s -> a20_mapped s -> 0 <= v < 256 ->
  if Z.testbit v 0 then write_p92 v s = err Exit
  else exists s', write_p92 v s = ok s' /\ real_mode s' /\ a20_mapped s' /\ MEM_A20_Enabled s' = Z.testbit v 1 /\
         read_p92 s' = v /\ host s' = host s /\ mhandles (memory s') = mhandles (memory s) /\
         (forall x, 0 <= x < 0x10000 -> physical (0x100000 + x) s' = if Z.testbit v 1 then 0x100000 + x else x) /\
         (forall x, 0 <= x < 0x100000 -> physical x s' = physical x s).
Proof.
  intros Hr Hm Hv. unfold write_p92.
  assert (nz (Z.land v 1) = Z.testbit v 0) as -> by (apply (nz_land_pow2 v 0); lia).
  destruct (Z.testbit v 0); [done|].
  assert ((0 <? Z.land v 2) = Z.testbit v 1) as ->
    by (change 2 with (2 ^ 1); rewrite land_pow2 by lia; by destruct (Z.testbit v 1)).
  destruct (A20_Enable_real (Z.testbit v 1) (set_memory (with_controlport (u8 (Z.land v (Z.lnot 2))) (memory s)) s))
    as (s' & E & Hr' & Hm' & Em & Eh & _ & _ & Ef); [by apply real_mode_memory|done|].
  assert (a20_enabled (memory s') = Z.testbit v 1) as He by (by rewrite Em).
  exists s'. split; [done|]. split; [done|]. split; [done|]. split; [done|].
  split; [|split; [done|]; split; [by rewrite Em|]; split].
  2: { intros x Hx. rewrite a20_physical, He by done. done. }
  2: { intros x Hx. unfold physical, direct. pose proof (address_split x).
       destruct (_ <? _); [|done]. by rewrite Ef by lia. }
  unfold read_p92. rewrite He, Em. cbn [a20_controlport with_a20 with_controlport memory set_memory].
  assert (0 <= Z.land v (Z.lnot 2) < 256) as Hl.
  { split; [apply Z.land_nonneg; lia|]. apply (bits_bound 8); [lia|apply Z.land_nonneg; lia|].
    intros i Hi. rewrite Z.land_spec, (testbit_above 8 v) by lia. done. }
  rewrite (u8_small (Z.land _ _)) by done.
  assert (Z.lor (Z.land v (Z.lnot 2)) (if Z.testbit v 1 then 2 else 0) = v) as ->; [|by apply u8_small].
  apply Z.bits_inj'. intros i Hi. rewrite Z.lor_spec, Z.land_spec, Z.lnot_spec by done.
  change 2 with (2 ^ 1). rewrite Z.pow2_bits_eqb by lia.
  destruct (Z.eqb_spec 1 i) as [<-|Hne].
  - cbn [negb]. rewrite andb_false_r. destruct (Z.testbit v 1); [by rewrite Z.pow2_bits_true by lia|by rewrite Z.bits_0].
  - cbn [negb]. rewrite andb_true_r. destruct (Z.testbit v 1); [|by rewrite Z.bits_0, orb_false_r].
    rewrite Z.pow2_bits_eqb by lia. destruct (Z.eqb_spec 1 i); [done|]. by rewrite orb_false_r.
Qed.


Lemma real_machine_a20 : a20_mapped (set_memory (with_a20 true (memory real_machine)) real_machine).
Proof.
  intros k Hk. cbn [memory set_memory a20_enabled with_a20 paging real_machine set_paging with_firstmb firstmb].
  unfold get. destruct (Z.ltb_spec (0x100 + k) 0); [lia|]. rewrite lookup_seqZ_lt by lia. f_equal. lia.
Qed.
Definition a20_machine : Machine unit := set_memory (with_a20 true (memory real_machine)) real_machine.
Lemma a20_machine_ok : real_mode a20_machine.
Proof. apply (real_mode_memory real_machine); [apply real_machine_ok|reflexivity..]. Qed.
Lemma port92_roundtrip_witness :
  exists s', write_p92 0x08 a20_machine = ok s' /\ read_p92 s' = 0x08 /\
    physical 0x100123 a20_machine = 0x100123 /\ physical 0x100123 s' = 0x123.
Proof.
  pose proof (port92_roundtrip 0x08 a20_machine a20_machine_ok real_machine_a20 ltac:(lia)) as Hp.
  change (Z.testbit 0x08 0) with false in Hp. change (Z.testbit 0x08 1) with false in Hp. cbv iota in Hp.
  destruct Hp as (s' & H1 & _ & _ & _ & H2 & _ & _ & H3 & _).
  exists s'. split; [exact H1|]. split; [exact H2|]. split; [exact (a20_physical 0x123 _ real_machine_a20 ltac:(lia))|].
  apply (H3 0x123). lia.
Defined.

Definition raw_machine : Machine unit :=
  set_memory (mkMemory [] [] 0 0 0 null_page_handler null_page_handler false 0) demo_machine.
Lemma memory_setup_witness :
  exists s1 s2, PAGING raw_machine = ok s1 /\ MEMORY 1 false s1 = ok s2 /\
    MEM_GetPageHandler 0xc7 (memory s2) = ok rom_page_handler /\ MEM_FreeTotal (mhandles (memory s2)) = 0 /\
    real_mode s2 /\ direct 0xff s2 = 0xff.
Proof.
  destruct (memory_setup 1 false raw_machine) as (s1 & s2 & H1 & H2 & Hr & _ & _ & Hown & L1 & L2 & Hg & Hd);
    [lia|reflexivity|apply elem_of_cons; by left|apply elem_of_cons; by left|].
  exists s1, s2. split; [exact H1|]. split; [exact H2|]. split; [apply (Hg 0xc7); lia|].
  split; [|split; [exact Hr|apply Hd; lia]].
  unfold MEM_FreeTotal. rewrite drop_ge; [reflexivity|]. rewrite L1. cbv. lia.
Defined.

(** While no linear frame buffer is set and the machine has at most 16 MB, the
    64 KiB at 16 MB have the null pointer for their handler: the first access to
    one of these addresses dereferences it. *)
Theorem unset_lfb_access {D} `{Devices D} rf k a v (s : Machine D) :
  real_mode s -> lfb_start_page (memory s) = 0 -> lfb_end_page (memory s) = 0 ->
  lfb_mmiohandler (memory s) = null_page_handler -> Z.of_nat (length (phandlers (memory s))) <= 4096 ->
  0x1000000 <= a < 0x1010000 ->
  mem_read rf (S k) 1 a s = err OutOfBounds /\ mem_write rf (S k) 1 a v s = err OutOfBounds.
Proof.
  intros Hr Hs He Hh Hlen Ha. pose proof (address_split a).
  assert (0 <= byte_page a < TLB_SIZE) as Hp by (unfold TLB_SIZE; lia).
  assert (direct (byte_page a) s = byte_page a) as Hd
    by (unfold direct; destruct (Z.ltb_spec (byte_page a) LINK_START); [change LINK_START with 272 in *; lia|done]).
  assert (MEM_GetPageHandler (byte_page a) (memory s) = ok null_page_handler) as Hg.
  { unfold MEM_GetPageHandler. rewrite Hs, He, Hh. change (0 + 16 * PagesPerMegabyte) with 4096. zbool. }
  assert (page_handler (byte_page a) s = null_page_handler) as Hph by (unfold page_handler; by rewrite Hd, Hg).
  assert (forall w, InitPage rf a w s = err OutOfBounds) as Hi.
  { intros w. unfold InitPage. rewrite (rm_disabled s Hr). fold (byte_page a). rewrite direct_page_ok by done. cbn [exec_bind].
    unfold PAGING_LinkPage. rewrite Hd, Hg. cbn [exec_bind]. unfold illegal_page.
    destruct (Z.leb_spec TLB_SIZE (byte_page a)); [lia|]. done. }
  cbn [mem_read mem_write]. rewrite in_page_1.
  unfold get_tlb_read, get_tlb_write, get_tlb_readhandler, get_tlb_writehandler, get_tlb. fold (byte_page a).
  destruct (rm_coherent s Hr (byte_page a) Hp) as [(-> & -> & -> & ->)|Hl]; [unfold InitPageHandler_read, InitPageHandler_write; by rewrite !Hi|].
  unfold linked_entry in Hl. cbv zeta in Hl. rewrite !Hl, Hph. done.
Qed.

Definition no_lfb_machine : Machine unit :=
  set_memory (mkMemory (replicate 32 ram_page_handler) (replicate 32 0) 0 0 0 null_page_handler null_page_handler false 0)
    real_machine.
Lemma unset_lfb_access_witness :
  real_mode no_lfb_machine /\ mem_read no_handler 3 1 0x1000010 no_lfb_machine = err OutOfBounds.
Proof.
  assert (real_mode no_lfb_machine) as Hr.
  { split; [reflexivity|reflexivity|apply real_machine_ok| |intros page _; left; repeat split].
    intros q Hq. unfold MEM_GetPageHandler. cbn [memory no_lfb_machine set_memory phandlers]. rewrite length_replicate.
    destruct (Z.ltb_spec q (Z.of_nat 32)).
    - exists ram_page_handler. split; [|done]. apply read_get. unfold get. destruct (Z.ltb_spec q 0); [lia|].
      apply lookup_replicate_2. lia.
    - cbv zeta. repeat match goal with |- context [(if ?b then _ else _) = _] => destruct b; [eexists; split; [reflexivity|done]|] end.
      eexists; split; [reflexivity|done]. }
  split; [exact Hr|].
  apply (unset_lfb_access no_handler 2 0x1000010 0 no_lfb_machine Hr); [reflexivity..|vm_compute; discriminate|lia].
Defined.
