(* ===== verification/Pic.v ===== *)
(** * The interrupt controllers ([hardware/pic.cpp])

    The two 8259 controllers, the cascade between them, their command and data
    ports, and the delivery of interrupts to the processor.  The event queue of
    the same file is in [EventQueue]. *)
From S2P Require Import Prelude.
#[local] Open Scope Z_scope.
#[local] Open Scope exec_scope.
#[local] Open Scope seq_scope.

Record PIC_Controller := mkPic {
  icw_words : Z; icw_index : Z;
  special : bool; auto_eoi : bool; rotate_on_auto_eoi : bool; single : bool; request_issr : bool;
  vector_base : Z;
  irr : Z; imr : Z; imrr : Z; isr : Z; isrr : Z;
  active_irq : Z }.

(** [this == &primary_controller] or not. *)
Inductive pic := primary | secondary.

(** [interrupts] lists the vectors handed to [CPU_HW_Interrupt], the last first;
    [unexpected] counts the "IRQ is not active on the secondary" reports. *)
Record PicState := mkPics {
  primary_controller : PIC_Controller;
  secondary_controller : PIC_Controller;
  PIC_IRQCheck : Z;
  CPU_Cycles : Z; CPU_CycleLeft : Z;
  interrupts : list Z;
  unexpected : Z }.

Definition ctl (w : pic) (s : PicState) : PIC_Controller :=
  match w with primary => primary_controller s | secondary => secondary_controller s end.
Definition set_ctl (w : pic) (c : PIC_Controller) (s : PicState) : PicState :=
  match w with
  | primary => mkPics c (secondary_controller s) (PIC_IRQCheck s) (CPU_Cycles s) (CPU_CycleLeft s) (interrupts s) (unexpected s)
  | secondary => mkPics (primary_controller s) c (PIC_IRQCheck s) (CPU_Cycles s) (CPU_CycleLeft s) (interrupts s) (unexpected s)
  end.
Definition set_check (v : Z) (s : PicState) : PicState :=
  mkPics (primary_controller s) (secondary_controller s) v (CPU_Cycles s) (CPU_CycleLeft s) (interrupts s) (unexpected s).
Definition set_cycles (cycles left : Z) (s : PicState) : PicState :=
  mkPics (primary_controller s) (secondary_controller s) (PIC_IRQCheck s) cycles left (interrupts s) (unexpected s).
Definition CPU_HW_Interrupt (num : Z) (s : PicState) : PicState :=
  mkPics (primary_controller s) (secondary_controller s) (PIC_IRQCheck s) (CPU_Cycles s) (CPU_CycleLeft s)
    (num :: interrupts s) (unexpected s).
Definition report_unexpected (s : PicState) : PicState :=
  mkPics (primary_controller s) (secondary_controller s) (PIC_IRQCheck s) (CPU_Cycles s) (CPU_CycleLeft s)
    (interrupts s) (unexpected s + 1).

Section Setters.
Variable c : PIC_Controller.
Definition with_irr (v : Z) : PIC_Controller :=
  mkPic (icw_words c) (icw_index c) (special c) (auto_eoi c) (rotate_on_auto_eoi c) (single c) (request_issr c)
    (vector_base c) v (imr c) (imrr c) (isr c) (isrr c) (active_irq c).
Definition with_imr (v r : Z) : PIC_Controller :=
  mkPic (icw_words c) (icw_index c) (special c) (auto_eoi c) (rotate_on_auto_eoi c) (single c) (request_issr c)
    (vector_base c) (irr c) v r (isr c) (isrr c) (active_irq c).
Definition with_isr (v r : Z) : PIC_Controller :=
  mkPic (icw_words c) (icw_index c) (special c) (auto_eoi c) (rotate_on_auto_eoi c) (single c) (request_issr c)
    (vector_base c) (irr c) (imr c) (imrr c) v r (active_irq c).
Definition with_active (v : Z) : PIC_Controller :=
  mkPic (icw_words c) (icw_index c) (special c) (auto_eoi c) (rotate_on_auto_eoi c) (single c) (request_issr c)
    (vector_base c) (irr c) (imr c) (imrr c) (isr c) (isrr c) v.
Definition with_icw (words index : Z) (sgl : bool) : PIC_Controller :=
  mkPic words index (special c) (auto_eoi c) (rotate_on_auto_eoi c) sgl (request_issr c)
    (vector_base c) (irr c) (imr c) (imrr c) (isr c) (isrr c) (active_irq c).
Definition with_modes (sp ae rae req : bool) : PIC_Controller :=
  mkPic (icw_words c) (icw_index c) sp ae rae (single c) req
    (vector_base c) (irr c) (imr c) (imrr c) (isr c) (isrr c) (active_irq c).
Definition with_base (v : Z) : PIC_Controller :=
  mkPic (icw_words c) (icw_index c) (special c) (auto_eoi c) (rotate_on_auto_eoi c) (single c) (request_issr c)
    v (irr c) (imr c) (imrr c) (isr c) (isrr c) (active_irq c).
End Setters.
Definition with_special (b : bool) (c : PIC_Controller) : PIC_Controller :=
  with_modes c b (auto_eoi c) (rotate_on_auto_eoi c) (request_issr c).
Definition with_auto_eoi (b : bool) (c : PIC_Controller) : PIC_Controller :=
  with_modes c (special c) b (rotate_on_auto_eoi c) (request_issr c).
Definition with_rotate (b : bool) (c : PIC_Controller) : PIC_Controller :=
  with_modes c (special c) (auto_eoi c) b (request_issr c).
Definition with_request_issr (b : bool) (c : PIC_Controller) : PIC_Controller :=
  with_modes c (special c) (auto_eoi c) (rotate_on_auto_eoi c) b.

(** The first set bit of [x] among [i], [i + 1], ..., [n] of them: the loops over
    [i] and [s <<= 1]. *)
Fixpoint scan (n : nat) (i x : Z) : option Z :=
  match n with
  | O => None
  | S n => if nz (Z.land x (Z.shiftl 1 i)) then Some i else scan n (i + 1) x
  end.

Definition bit8 (val : Z) : Z := u8 (Z.shiftl 1 val).
(** The requests that are neither masked nor in service. *)
Definition possible_irq (c : PIC_Controller) : Z := Z.land (Z.land (irr c) (imrr c)) (isrr c).
Definition a_irq (c : PIC_Controller) : Z := if special c then 8 else active_irq c.

Definition update_active_irq (c : PIC_Controller) : PIC_Controller :=
  if isr c =? 0 then with_active c 8
  else match scan 8 0 (isr c) with
       | Some i => with_active c i
       | None => c
       end.

Definition start_irq_ctl (val : Z) (c : PIC_Controller) : PIC_Controller :=
  let c := with_irr c (Z.land (irr c) (Z.lnot (Z.shiftl 1 val))) in
  if negb (auto_eoi c) then
    let c := with_active c val in
    let v := u8 (Z.lor (isr c) (Z.shiftl 1 val)) in
    with_isr c v (u8 (Z.lnot v))
  else c.

(** ** The operations of a controller, given what it signals to *)
Section Controller.
Variable w : pic.
Variable activate deactivate : PicState -> PicState.

Definition check_for_irq (s : PicState) : PicState :=
  let c := ctl w s in
  let possible := possible_irq c in
  if nz possible then
    match scan (Z.to_nat (a_irq c)) 0 possible with
    | Some _ => activate s
    | None => deactivate s
    end
  else deactivate s.

Definition raise_irq (val : Z) (s : PicState) : PicState :=
  let c := ctl w s in
  let bit := bit8 val in
  if Z.land (irr c) bit =? 0 then
    let c := with_irr c (Z.lor (irr c) bit) in
    let s := set_ctl w c s in
    if nz (Z.land (Z.land bit (imrr c)) (isrr c)) then
      if special c || (val <? active_irq c) then activate s else s
    else s
  else s.

Definition lower_irq (val : Z) (s : PicState) : PicState :=
  let c := ctl w s in
  let bit := bit8 val in
  if nz (Z.land (irr c) bit) then
    let c := with_irr c (Z.land (irr c) (Z.lnot bit)) in
    let s := set_ctl w c s in
    if nz (Z.land (Z.land bit (imrr c)) (isrr c)) then
      if special c || (val <? active_irq c) then check_for_irq s else s
    else s
  else s.

Definition check_after_EOI (s : PicState) : PicState :=
  let s := set_ctl w (update_active_irq (ctl w s)) s in
  if nz (possible_irq (ctl w s)) then check_for_irq s else s.

Definition set_imr (is_machine_pcjr : bool) (val : Z) (s : PicState) : PicState :=
  let val := if is_machine_pcjr then match w with primary => Z.land val (Z.lnot (Z.shiftl 1 6)) | secondary => val end
             else val in
  let c := ctl w s in
  let change := Z.lxor (imr c) val in
  let c := with_imr c val (u8 (Z.lnot val)) in
  let s := set_ctl w c s in
  if nz (Z.land (Z.land (irr c) change) (isrr c)) then check_for_irq s else s.
End Controller.

(** ** The cascade *)
Definition activate_cpu (s : PicState) : PicState :=
  let s := set_check 1 s in set_cycles 0 (CPU_CycleLeft s + CPU_Cycles s) s.
Definition deactivate_cpu (s : PicState) : PicState := set_check 0 s.
Definition activate (w : pic) : PicState -> PicState :=
  match w with primary => activate_cpu | secondary => raise_irq primary activate_cpu 2 end.
Definition deactivate (w : pic) : PicState -> PicState :=
  match w with primary => deactivate_cpu | secondary => lower_irq primary activate_cpu deactivate_cpu 2 end.

Definition pic_raise_irq (w : pic) : Z -> PicState -> PicState := raise_irq w (activate w).
Definition pic_lower_irq (w : pic) : Z -> PicState -> PicState := lower_irq w (activate w) (deactivate w).
Definition pic_check_for_irq (w : pic) : PicState -> PicState := check_for_irq w (activate w) (deactivate w).
Definition pic_check_after_EOI (w : pic) : PicState -> PicState := check_after_EOI w (activate w) (deactivate w).
Definition pic_set_imr (w : pic) : bool -> Z -> PicState -> PicState := set_imr w (activate w) (deactivate w).
Definition start_irq (w : pic) (val : Z) (s : PicState) : PicState := set_ctl w (start_irq_ctl val (ctl w s)) s.

(** ** Ports 0x20, 0x21, 0xa0 and 0xa1 *)
Definition command_pic (port : Z) : pic := if port =? 0x20 then primary else secondary.
Definition data_pic (port : Z) : pic := if port =? 0x21 then primary else secondary.

(** [1 << n] for an [int]: undefined from 32 on. *)
Definition shift_one (n : Z) : exec Z := if (0 <=? n) && (n <? 32) then ok (Z.shiftl 1 n) else err OutOfBounds.
Definition clear_isr (bit : Z) (c : PIC_Controller) : PIC_Controller :=
  let v := u8 (Z.land (isr c) (Z.lnot bit)) in with_isr c v (u8 (Z.lnot v)).

Definition write_command (is_machine_pcjr : bool) (port value : Z) (s : PicState) : exec PicState :=
  let val := value in
  let w := command_pic port in
  if nz (Z.land val 0x10) then
    let s := pic_set_imr w is_machine_pcjr 0 s in
    let c := ctl w s in
    ok (set_ctl w (with_icw c (2 + Z.land val 0x01) 1 (Z.land val 0x02 =? 0x02)) s)
  else if nz (Z.land val 0x08) then
    let s := if nz (Z.land val 0x02) then set_ctl w (with_request_issr (nz (Z.land val 0x01)) (ctl w s)) s else s in
    ok (if nz (Z.land val 0x40) then
          pic_check_for_irq w (set_ctl w (with_special (nz (Z.land val 0x20)) (ctl w s)) s)
        else s)
  else
    if nz (Z.land val 0x20) then
      if nz (Z.land val 0x40) then
        let* bit := shift_one (val - 0x60) in
        ok (pic_check_after_EOI w (set_ctl w (clear_isr bit (ctl w s)) s))
      else
        if negb (active_irq (ctl w s) =? 8) then
          let* bit := shift_one (active_irq (ctl w s)) in
          ok (pic_check_after_EOI w (set_ctl w (clear_isr bit (ctl w s)) s))
        else ok s
    else
      if Z.land val 0x40 =? 0 then ok (set_ctl w (with_rotate (nz (Z.land val 0x80)) (ctl w s)) s) else ok s.

(** [icw_index++ >= icw_words]. *)
Definition next_icw (c : PIC_Controller) : PIC_Controller :=
  with_icw c (icw_words c) (if icw_words c <=? icw_index c then 0 else icw_index c + 1) (single c).
Definition write_data (is_machine_pcjr : bool) (port value : Z) (s : PicState) : PicState :=
  let val := value in
  let w := data_pic port in
  let c := ctl w s in
  if icw_index c =? 0 then pic_set_imr w is_machine_pcjr val s
  else if icw_index c =? 1 then
    let c := with_base c (Z.land val 0xf8) in
    if icw_words c <=? icw_index c then set_ctl w (with_icw c (icw_words c) 0 (single c)) s
    else if single c then set_ctl w (with_icw c (icw_words c) 3 (single c)) s
    else set_ctl w (with_icw c (icw_words c) (icw_index c + 1) (single c)) s
  else if icw_index c =? 2 then set_ctl w (next_icw c) s
  else if icw_index c =? 3 then set_ctl w (next_icw (with_auto_eoi (0 <? Z.land val 0x2) c)) s
  else s.

Definition read_command (port : Z) (s : PicState) : Z :=
  let c := ctl (command_pic port) s in if request_issr c then isr c else irr c.
Definition read_data (port : Z) (s : PicState) : Z := imr (ctl (data_pic port) s).

(** ** Interrupt requests *)
Definition irq_pic (irq : Z) : pic := if 7 <? irq then secondary else primary.
Definition irq_line (irq : Z) : Z := if 7 <? irq then irq - 8 else irq.

Definition PIC_ActivateIRQ (irq : Z) (s : PicState) : PicState :=
  let OldCycles := CPU_Cycles s in
  let s := pic_raise_irq (irq_pic irq) (irq_line irq) s in
  if negb (OldCycles =? CPU_Cycles s) then set_cycles 2 (CPU_CycleLeft s - 2) s else s.
Definition PIC_DeActivateIRQ (irq : Z) (s : PicState) : PicState := pic_lower_irq (irq_pic irq) (irq_line irq) s.
Definition PIC_SetIRQMask (is_machine_pcjr : bool) (irq : Z) (masked : bool) (s : PicState) : PicState :=
  let w := irq_pic irq in
  let bit := bit8 (irq_line irq) in
  let newmask := imr (ctl w s) in
  let newmask := Z.land newmask (Z.lnot bit) in
  let newmask := if masked then Z.lor newmask bit else newmask in
  pic_set_imr w is_machine_pcjr newmask s.

(** ** Delivery *)
Definition secondary_startIRQ (s : PicState) : PicState :=
  let c := secondary_controller s in
  match scan (Z.to_nat (a_irq c)) 0 (possible_irq c) with
  | None => report_unexpected s
  | Some pic1_irq =>
      let s := start_irq secondary pic1_irq s in
      let s := start_irq primary 2 s in
      CPU_HW_Interrupt (vector_base (secondary_controller s) + pic1_irq) s
  end.
Definition primary_startIRQ (i : Z) (s : PicState) : PicState :=
  let s := start_irq primary i s in CPU_HW_Interrupt (vector_base (primary_controller s) + i) s.

(** [IF] is the interrupt flag, [trapping] that the trap decoder runs. *)
Definition PIC_runIRQs (IF trapping : bool) (s : PicState) : PicState :=
  if negb IF then s else
  if PIC_IRQCheck s =? 0 then s else
  if trapping then s else
  let c := primary_controller s in
  let s := match scan (Z.to_nat (a_irq c)) 0 (possible_irq c) with
           | Some i => if i =? 2 then secondary_startIRQ s else primary_startIRQ i s
           | None => s
           end in
  set_check 0 s.

(** ** Set-up *)
Definition reset_controller (base : Z) : PIC_Controller :=
  mkPic 0 0 false false false false false base 0 0xff 0 0 0xff 8.
Definition PIC_8259A (is_machine_ega_or_better is_machine_pcjr : bool) (s : PicState) : PicState :=
  let s := set_ctl primary (reset_controller 0x08) (set_ctl secondary (reset_controller 0x70) (set_check 0 s)) in
  let s := PIC_SetIRQMask is_machine_pcjr 0 false s in
  let s := PIC_SetIRQMask is_machine_pcjr 1 false s in
  let s := PIC_SetIRQMask is_machine_pcjr 2 false s in
  let s := PIC_SetIRQMask is_machine_pcjr 8 false s in
  let s := if is_machine_ega_or_better then PIC_DeActivateIRQ 9 (PIC_SetIRQMask is_machine_pcjr 9 false s) else s in
  if is_machine_pcjr then PIC_SetIRQMask is_machine_pcjr 6 false s else s.
