(* ===== verification/PicProofs.v ===== *)
(** * No interrupt is lost, none is invented

    In the fully nested mode DOS programs run the controllers in, the processor
    is told to look for an interrupt exactly when the primary controller has one
    it may deliver, and the cascade line is up exactly when the secondary has. *)
From stdpp Require Import relations.
From S2P Require Import Prelude.
From S2P Require Import Pic.
#[local] Open Scope Z_scope.

(** ** Scanning *)
Lemma scan_bit i x : 0 <= i -> nz (Z.land x (Z.shiftl 1 i)) = Z.testbit x i.
Proof. intros. rewrite Z.shiftl_1_l. by apply nz_land_pow2. Qed.
Lemma scan_Some n i x j :
  0 <= i -> scan n i x = Some j ->
  i <= j < i + Z.of_nat n /\ Z.testbit x j = true /\ forall k, i <= k < j -> Z.testbit x k = false.
Proof.
  revert i. induction n as [|n IH]; intros i Hi E; [done|]. cbn [scan] in E. rewrite scan_bit in E by done.
  destruct (Z.testbit x i) eqn:B.
  - injection E as <-. split; [lia|]. split; [done|]. intros; lia.
  - apply IH in E as (H1 & H2 & H3); [|lia]. split; [lia|]. split; [done|]. intros k Hk.
    destruct (Z.eq_dec k i) as [->|]; [done|]. apply H3. lia.
Qed.
Lemma scan_None n i x : 0 <= i -> scan n i x = None <-> forall k, i <= k < i + Z.of_nat n -> Z.testbit x k = false.
Proof.
  revert i. induction n as [|n IH]; intros i Hi; cbn [scan]; [split; [intros _ k Hk; lia|done]|].
  rewrite scan_bit by done. destruct (Z.testbit x i) eqn:B.
  - split; [done|]. intros Hk. specialize (Hk i ltac:(lia)). congruence.
  - rewrite IH by lia. split; intros Hk k Hr; [|apply Hk; lia].
    destruct (Z.eq_dec k i) as [->|]; [done|]. apply Hk. lia.
Qed.
Lemma scan_ext n i x y :
  0 <= i -> (forall k, i <= k < i + Z.of_nat n -> Z.testbit x k = Z.testbit y k) -> scan n i x = scan n i y.
Proof.
  revert i. induction n as [|n IH]; intros i Hi Hk; [done|]. cbn [scan]. rewrite !scan_bit, (Hk i) by lia.
  destruct (Z.testbit y i); [done|]. apply IH; [lia|]. intros k Hr. apply Hk. lia.
Qed.

(** ** Registers as sets of lines *)
Definition byte (x : Z) : Prop := 0 <= x < 256.
Lemma byte_high x i : byte x -> 8 <= i -> Z.testbit x i = false.
Proof. intros. apply (testbit_above 8); lia || done. Qed.
Lemma u8_bit x i : 0 <= i < 8 -> Z.testbit (u8 x) i = Z.testbit x i.
Proof. intros. unfold u8. change 256 with (2 ^ 8). rewrite testbit_mod by lia. destruct (Z.ltb_spec i 8); [done|lia]. Qed.
Lemma u8_byte x : byte (u8 x).
Proof. apply u8_range. Qed.
Lemma bit8_pow v : 0 <= v < 8 -> bit8 v = 2 ^ v.
Proof.
  intros. unfold bit8. rewrite Z.shiftl_1_l. apply u8_small. split; [lia|]. change 256 with (2 ^ 8).
  apply Z.pow_lt_mono_r; lia.
Qed.
Lemma pow_bit v i : 0 <= v -> 0 <= i -> Z.testbit (2 ^ v) i = (i =? v).
Proof. intros. rewrite Z.pow2_bits_eqb by lia. apply Z.eqb_sym. Qed.
Lemma land_eq_0 x v : 0 <= v -> (Z.land x (2 ^ v) =? 0) = negb (Z.testbit x v).
Proof. intros. rewrite <- nz_land_pow2 by done. unfold nz. by rewrite negb_involutive. Qed.
Lemma byte_land x y : byte x -> byte (Z.land x y).
Proof.
  intros Hx. split; [apply Z.land_nonneg; left; apply Hx|]. apply (bits_bound 8); [lia|apply Z.land_nonneg; left; apply Hx|].
  intros i Hi. rewrite Z.land_spec, (byte_high x) by done. done.
Qed.
Lemma byte_lor x y : byte x -> byte y -> byte (Z.lor x y).
Proof. apply (lor_fits 8). lia. Qed.

(** The registers agree with each other; [auto_eoi] and the special mask are off. *)
Record wf (c : PIC_Controller) : Prop := mkWf {
  wf_irr : byte (irr c);
  wf_imr : byte (imr c) /\ imrr c = u8 (Z.lnot (imr c));
  wf_isr : byte (isr c) /\ isrr c = u8 (Z.lnot (isr c));
  wf_modes : special c = false /\ auto_eoi c = false;
  wf_active : match scan 8 0 (isr c) with Some i => active_irq c = i | None => active_irq c = 8 end }.

Definition requested (c : PIC_Controller) (i : Z) : bool :=
  Z.testbit (irr c) i && negb (Z.testbit (imr c) i) && negb (Z.testbit (isr c) i).
Lemma possible_bit c i : wf c -> 0 <= i < 8 -> Z.testbit (possible_irq c) i = requested c i.
Proof.
  intros [_ [_ Em] [_ Es] _ _] Hi. unfold possible_irq, requested. rewrite !Z.land_spec, Em, Es, !u8_bit, !Z.lnot_spec by lia.
  done.
Qed.
Lemma active_range c : wf c -> 0 <= active_irq c <= 8.
Proof. intros [_ _ _ _ Ha]. destruct (scan 8 0 (isr c)) eqn:E; [apply scan_Some in E as [? _]; lia|lia]. Qed.
Lemma below_active c i : wf c -> 0 <= i < active_irq c -> Z.testbit (isr c) i = false.
Proof.
  intros [_ _ _ _ Ha] Hi. destruct (scan 8 0 (isr c)) as [j|] eqn:E.
  - apply scan_Some in E as (_ & _ & H3); [|lia]. apply H3. lia.
  - rewrite scan_None in E by lia. apply E. lia.
Qed.

(** The line the controller may deliver: the highest-priority request above what
    is in service. *)
Definition deliverable (c : PIC_Controller) : option Z := scan (Z.to_nat (a_irq c)) 0 (possible_irq c).
Definition eligible (c : PIC_Controller) : bool := match deliverable c with Some _ => true | None => false end.

Lemma deliverable_spec c i :
  wf c -> deliverable c = Some i ->
  0 <= i < active_irq c /\ requested c i = true /\ forall k, 0 <= k < i -> requested c k = false.
Proof.
  intros Hw E. pose proof (active_range c Hw). unfold deliverable, a_irq in E. rewrite (proj1 (wf_modes c Hw)) in E.
  apply scan_Some in E as (H1 & H2 & H3); [|lia]. split; [lia|].
  rewrite possible_bit in H2 by (done || lia). split; [done|]. intros k Hk. rewrite <- possible_bit by (done || lia). by apply H3.
Qed.
Lemma deliverable_None c :
  wf c -> deliverable c = None <-> forall i, 0 <= i < active_irq c -> requested c i = false.
Proof.
  intros Hw. pose proof (active_range c Hw). unfold deliverable, a_irq. rewrite (proj1 (wf_modes c Hw)), scan_None by lia.
  split; intros Hk i Hi; specialize (Hk i ltac:(lia)); [rewrite <- possible_bit|rewrite possible_bit]; (done || lia).
Qed.
Lemma eligible_spec c : wf c -> eligible c = true <-> exists i, 0 <= i < active_irq c /\ requested c i = true.
Proof.
  intros Hw. unfold eligible. destruct (deliverable c) as [i|] eqn:E.
  - split; [|done]. intros _. apply deliverable_spec in E as (H1 & H2 & _); [|done]. by exists i.
  - split; [done|]. intros (i & Hi & Hr). rewrite (deliverable_None c Hw) in E. by rewrite E in Hr by lia.
Qed.
(** Eligibility depends on the requests above the line in service only. *)
Lemma eligible_ext c c' :
  wf c -> wf c' -> active_irq c' = active_irq c -> (forall i, 0 <= i < active_irq c -> requested c' i = requested c i) ->
  eligible c' = eligible c.
Proof.
  intros Hw Hw' Ea Hr. apply Bool.eq_iff_eq_true. rewrite !eligible_spec, Ea by done.
  split; intros (i & Hi & Hri); exists i; (split; [done|]); [by rewrite <- Hr|by rewrite Hr].
Qed.
Lemma eligible_none c : wf c -> possible_irq c = 0 -> eligible c = false.
Proof.
  intros Hw E. destruct (eligible c) eqn:El; [|done]. apply eligible_spec in El as (i & Hi & Hr); [|done].
  pose proof (active_range c Hw). rewrite <- possible_bit, E, Z.bits_0 in Hr by (done || lia). done.
Qed.

(** ** The invariant *)
Record signalled (s : PicState) : Prop := mkSignalled {
  sig_primary : wf (primary_controller s);
  sig_check : PIC_IRQCheck s = b2z (eligible (primary_controller s)) }.
Record pic_inv (s : PicState) : Prop := mkInv {
  inv_primary : signalled s;
  inv_secondary : wf (secondary_controller s);
  inv_cascade : Z.testbit (irr (primary_controller s)) 2 = eligible (secondary_controller s) }.

Lemma possible_eligible c : wf c -> nz (possible_irq c) = false -> eligible c = false.
Proof. intros Hw E. apply eligible_none; [done|]. unfold nz in E. by apply negb_false_iff, Z.eqb_eq in E. Qed.

(** What the signals to the processor change. *)
Lemma check_cpu_spec s :
  wf (primary_controller s) ->
  let s' := pic_check_for_irq primary s in
  signalled s' /\ primary_controller s' = primary_controller s /\ secondary_controller s' = secondary_controller s /\
  interrupts s' = interrupts s /\ unexpected s' = unexpected s.
Proof.
  intros Hw. cbv zeta. unfold pic_check_for_irq, check_for_irq. cbn [ctl activate deactivate].
  destruct (nz (possible_irq (primary_controller s))) eqn:E.
  - fold (deliverable (primary_controller s)).
    destruct (deliverable (primary_controller s)) eqn:Ed; (split; [split; [done|]|done]); cbn; unfold eligible; by rewrite Ed.
  - split; [split; [done|]|done]. cbn. by rewrite possible_eligible.
Qed.

Lemma wf_with_irr c v : wf c -> byte v -> wf (with_irr c v).
Proof. intros [H1 H2 H3 H4 H5] Hv. by split. Qed.
Lemma requested_irr c v i : requested (with_irr c v) i = Z.testbit v i && negb (Z.testbit (imr c) i) && negb (Z.testbit (isr c) i).
Proof. done. Qed.

(** Whether one line's request can be delivered, as the code tests it. *)
Lemma line_test c v :
  wf c -> 0 <= v < 8 ->
  nz (Z.land (Z.land (bit8 v) (imrr c)) (isrr c)) = negb (Z.testbit (imr c) v) && negb (Z.testbit (isr c) v).
Proof.
  intros [_ [_ Em] [_ Es] _ _] Hv. rewrite bit8_pow by done.
  rewrite <- Z.land_assoc, Z.land_comm, nz_land_pow2, Z.land_spec, Em, Es, !u8_bit, !Z.lnot_spec by lia. done.
Qed.

(** Raising and lowering a line of a controller whose signal is up to date. *)
Lemma set_line_eligible c v (b : bool) irr' :
  wf c -> 0 <= v < 8 -> byte irr' ->
  (forall i, 0 <= i < 8 -> Z.testbit irr' i = if i =? v then b else Z.testbit (irr c) i) ->
  negb (Z.testbit (imr c) v) && negb (Z.testbit (isr c) v) && (v <? active_irq c) = false ->
  eligible (with_irr c irr') = eligible c.
Proof.
  intros Hw Hv Hb Hi Hn. apply eligible_ext; [done|by apply wf_with_irr|done|].
  intros i Hr. pose proof (active_range c Hw). rewrite requested_irr, Hi by lia. unfold requested.
  destruct (Z.eqb_spec i v) as [->|]; [|done]. destruct (Z.ltb_spec v (active_irq c)); [|lia].
  rewrite andb_true_r in Hn. rewrite <- !andb_assoc, Hn. by rewrite !andb_false_r.
Qed.

Lemma raise_bits c v i : wf c -> 0 <= v < 8 -> 0 <= i < 8 ->
  Z.testbit (Z.lor (irr c) (bit8 v)) i = if i =? v then true else Z.testbit (irr c) i.
Proof.
  intros Hw Hv Hi. rewrite bit8_pow, Z.lor_spec, pow_bit by lia.
  destruct (i =? v); [by rewrite orb_true_r|by rewrite orb_false_r].
Qed.
Lemma lower_bits c v i : wf c -> 0 <= v < 8 -> 0 <= i < 8 ->
  Z.testbit (Z.land (irr c) (Z.lnot (bit8 v))) i = if i =? v then false else Z.testbit (irr c) i.
Proof.
  intros Hw Hv Hi. rewrite bit8_pow, Z.land_spec, Z.lnot_spec, pow_bit by lia.
  destruct (i =? v); [by rewrite andb_false_r|by rewrite andb_true_r].
Qed.
Lemma raise_byte c v : wf c -> byte (Z.lor (irr c) (bit8 v)).
Proof. intros Hw. apply byte_lor; [apply Hw|apply u8_byte]. Qed.
Lemma lower_byte c v : wf c -> byte (Z.land (irr c) (Z.lnot (bit8 v))).
Proof. intros Hw. apply byte_land, Hw. Qed.
#[export] Hint Resolve raise_byte lower_byte : width.

(** A raised line, seen from the other lines and from the signal. *)
Definition same_but_irr (c c' : PIC_Controller) : Prop := c' = with_irr c (irr c').
Lemma same_irr_refl c : same_but_irr c c.
Proof. by destruct c. Qed.
Definition keeps_rest (w : pic) (s s' : PicState) : Prop :=
  ctl w s' = ctl w s /\ interrupts s' = interrupts s /\ unexpected s' = unexpected s.

Lemma primary_raise v s :
  signalled s -> 0 <= v < 8 ->
  let s' := pic_raise_irq primary v s in
  signalled s' /\ keeps_rest secondary s s' /\ same_but_irr (primary_controller s) (primary_controller s') /\
  forall i, 0 <= i < 8 -> Z.testbit (irr (primary_controller s')) i = if i =? v then true else Z.testbit (irr (primary_controller s)) i.
Proof.
  intros [Hw Hc] Hv. cbv zeta. unfold pic_raise_irq, raise_irq. cbn [ctl activate]. set (c := primary_controller s) in *.
  assert ((Z.land (irr c) (bit8 v) =? 0) = negb (Z.testbit (irr c) v)) as -> by (rewrite bit8_pow by done; apply land_eq_0; lia).
  destruct (Z.testbit (irr c) v) eqn:B; cbn [negb].
  - split; [by split|]. split; [done|]. split; [apply same_irr_refl|]. intros i Hi.
    destruct (Z.eqb_spec i v) as [->|]; done.
  - set (c' := with_irr c (Z.lor (irr c) (bit8 v))).
    assert (wf c') as Hw' by (apply wf_with_irr; auto with width).
    assert (special c' = false) as Hs by apply Hw. rewrite Hs. cbn [orb].
    change (imrr c') with (imrr c). change (isrr c') with (isrr c). change (active_irq c') with (active_irq c).
    rewrite line_test by done.
    destruct (negb (Z.testbit (imr c) v) && negb (Z.testbit (isr c) v) && (v <? active_irq c)) eqn:E.
    + apply andb_true_iff in E as [E1 E2]. rewrite E1, E2. cbn.
      split; [split; [done|]|split; [done|split; [done|by intros i Hi; apply raise_bits]]].
      cbn. assert (eligible c' = true) as ->; [|done]. apply eligible_spec; [done|]. exists v.
      split; [change (active_irq c') with (active_irq c); lia|].
      unfold c'. rewrite requested_irr, raise_bits, Z.eqb_refl by done. exact E1.
    + assert (eligible c' = eligible c) as Ee.
      { apply (set_line_eligible c v true); [done|done|auto with width|by intros i Hi; apply raise_bits|exact E]. }
      assert ((if negb (Z.testbit (imr c) v) && negb (Z.testbit (isr c) v)
               then if v <? active_irq c then activate_cpu (set_ctl primary c' s) else set_ctl primary c' s
               else set_ctl primary c' s) = set_ctl primary c' s) as ->.
      { destruct (_ && negb _); [|done]. destruct (v <? active_irq c); [done|done]. }
      split; [split; [done|by cbn; rewrite Ee]|]. split; [done|]. split; [done|by intros i Hi; apply raise_bits].
Qed.

Lemma primary_lower v s :
  signalled s -> 0 <= v < 8 ->
  let s' := pic_lower_irq primary v s in
  signalled s' /\ keeps_rest secondary s s' /\ same_but_irr (primary_controller s) (primary_controller s') /\
  forall i, 0 <= i < 8 -> Z.testbit (irr (primary_controller s')) i = if i =? v then false else Z.testbit (irr (primary_controller s)) i.
Proof.
  intros [Hw Hc] Hv. cbv zeta. unfold pic_lower_irq, lower_irq. cbn [ctl]. set (c := primary_controller s) in *.
  assert (nz (Z.land (irr c) (bit8 v)) = Z.testbit (irr c) v) as -> by (rewrite bit8_pow by done; apply nz_land_pow2; lia).
  destruct (Z.testbit (irr c) v) eqn:B.
  2: { split; [by split|]. split; [done|]. split; [apply same_irr_refl|]. intros i Hi.
       destruct (Z.eqb_spec i v) as [->|]; done. }
  set (c' := with_irr c (Z.land (irr c) (Z.lnot (bit8 v)))).
  assert (wf c') as Hw' by (apply wf_with_irr; auto with width).
  assert (special c' = false) as Hs by apply Hw. rewrite Hs. cbn [orb].
  change (imrr c') with (imrr c). change (isrr c') with (isrr c). change (active_irq c') with (active_irq c).
  rewrite line_test by done.
  destruct (negb (Z.testbit (imr c) v) && negb (Z.testbit (isr c) v) && (v <? active_irq c)) eqn:E.
  - apply andb_true_iff in E as [E1 E2]. rewrite E1, E2. cbv iota.
    destruct (check_cpu_spec (set_ctl primary c' s)) as (H1 & H2 & H3 & H4 & H5); [done|].
    unfold pic_check_for_irq in *. cbn [activate deactivate] in *.
    split; [done|]. split; [done|]. rewrite H2. split; [done|by intros i Hi; apply lower_bits].
  - assert (eligible c' = eligible c) as Ee.
    { apply (set_line_eligible c v false); [done|done|auto with width|by intros i Hi; apply lower_bits|exact E]. }
    assert (forall t : PicState, (if negb (Z.testbit (imr c) v) && negb (Z.testbit (isr c) v)
             then if v <? active_irq c then t else set_ctl primary c' s
             else set_ctl primary c' s) = set_ctl primary c' s) as ->.
    { intros t. destruct (_ && negb _); [|done]. destruct (v <? active_irq c); [done|done]. }
    split; [split; [done|by cbn; rewrite Ee]|]. split; [done|]. split; [done|by intros i Hi; apply lower_bits].
Qed.

(** ** Rechecking a controller *)

(** Everything but the signal of [w] is up to date. *)
Definition inv_except (w : pic) (s : PicState) : Prop :=
  match w with
  | primary => wf (primary_controller s) /\ wf (secondary_controller s) /\
               Z.testbit (irr (primary_controller s)) 2 = eligible (secondary_controller s)
  | secondary => signalled s /\ wf (secondary_controller s)
  end.
Definition signal (w : pic) (s : PicState) : Prop :=
  match w with
  | primary => PIC_IRQCheck s = b2z (eligible (primary_controller s))
  | secondary => Z.testbit (irr (primary_controller s)) 2 = eligible (secondary_controller s)
  end.
Lemma inv_signal w s : pic_inv s <-> inv_except w s /\ signal w s.
Proof.
  destruct w; cbn [inv_except signal].
  - split; [intros [[H1 H2] H3 H4]; done|intros ((H1 & H2 & H3) & H4); by split].
  - split; [intros [H1 H2 H3]; done|intros ((H1 & H2) & H3); by split].
Qed.
Definition quiet (s s' : PicState) : Prop := interrupts s' = interrupts s /\ unexpected s' = unexpected s.
Lemma quiet_trans s t u : quiet s t -> quiet t u -> quiet s u.
Proof. unfold quiet. intros [-> ->] [-> ->]. done. Qed.

Lemma activate_inv w s : inv_except w s -> eligible (ctl w s) = true -> pic_inv (activate w s) /\ quiet s (activate w s).
Proof.
  destruct w; cbn [inv_except ctl activate].
  - intros (H1 & H2 & H3) He. split; [|done]. split; [split; [done|]|done|done]. cbn. by rewrite He.
  - intros [H1 H2] He. destruct (primary_raise 2 s H1) as (K1 & (K2 & K3 & K4) & _ & K5); [lia|].
    unfold pic_raise_irq in *. cbn [activate ctl] in *. split; [|done]. split; [done|by rewrite K2|].
    by rewrite K5, K2, He by lia.
Qed.
Lemma deactivate_inv w s : inv_except w s -> eligible (ctl w s) = false -> pic_inv (deactivate w s) /\ quiet s (deactivate w s).
Proof.
  destruct w; cbn [inv_except ctl deactivate].
  - intros (H1 & H2 & H3) He. split; [|done]. split; [split; [done|]|done|done]. cbn. by rewrite He.
  - intros [H1 H2] He. destruct (primary_lower 2 s H1) as (K1 & (K2 & K3 & K4) & _ & K5); [lia|].
    unfold pic_lower_irq in *. cbn [activate deactivate ctl] in *. split; [|done]. split; [done|by rewrite K2|].
    by rewrite K5, K2, He by lia.
Qed.
Lemma ctl_wf w s : inv_except w s -> wf (ctl w s).
Proof. destruct w; cbn; [intros (H & _)|intros [_ H]]; done. Qed.
Lemma check_inv w s : inv_except w s -> pic_inv (pic_check_for_irq w s) /\ quiet s (pic_check_for_irq w s).
Proof.
  intros Hi. unfold pic_check_for_irq, check_for_irq. fold (deliverable (ctl w s)).
  destruct (nz (possible_irq (ctl w s))) eqn:E.
  - destruct (deliverable (ctl w s)) eqn:Ed; [apply activate_inv|apply deactivate_inv]; try done; unfold eligible; by rewrite Ed.
  - apply deactivate_inv; [done|]. apply possible_eligible; [by apply ctl_wf|done].
Qed.

(** A change of the registers of [w] that leaves its requests alone, followed by a
    recheck where the code does one. *)
Lemma except_set w c s : pic_inv s -> wf c -> irr c = irr (ctl w s) -> inv_except w (set_ctl w c s).
Proof.
  intros [[H1 H2] H3 H4] Hw Hi. destruct w; cbn in *.
  - rewrite Hi. done.
  - split; [by split|done].
Qed.
Lemma signal_set w c s : signal w s -> irr c = irr (ctl w s) -> eligible c = eligible (ctl w s) -> signal w (set_ctl w c s).
Proof. intros Hs Hi He. destruct w; cbn in *; by rewrite Hs, He. Qed.
Lemma update_inv w c s (test : bool) :
  pic_inv s -> wf c -> irr c = irr (ctl w s) -> (test = false -> eligible c = eligible (ctl w s)) ->
  let s' := if test then pic_check_for_irq w (set_ctl w c s) else set_ctl w c s in
  pic_inv s' /\ quiet s s'.
Proof.
  intros Hs Hw Hi He. pose proof (except_set w c s Hs Hw Hi) as Hx. destruct test; cbv zeta.
  - destruct (check_inv w _ Hx) as [H1 H2]. split; [done|]. by destruct w.
  - split; [|by destruct w]. apply (inv_signal w). split; [done|].
    apply signal_set; [by apply inv_signal|done|by apply He].
Qed.
(** A change that the requests and priorities do not see. *)
Lemma same_registers_inv w c s :
  pic_inv s -> wf c -> irr c = irr (ctl w s) -> imr c = imr (ctl w s) -> isr c = isr (ctl w s) ->
  active_irq c = active_irq (ctl w s) -> pic_inv (set_ctl w c s) /\ quiet s (set_ctl w c s).
Proof.
  intros Hs Hw H1 H2 H3 H4. apply (update_inv w c s false Hs Hw H1). intros _.
  apply eligible_ext; [apply ctl_wf, inv_signal, Hs|done|done|]. intros i _. unfold requested. by rewrite H1, H2, H3.
Qed.

Lemma inv_wf w s : pic_inv s -> wf (ctl w s).
Proof. intros Hs. apply ctl_wf, inv_signal, Hs. Qed.
Lemma lxor_diff a b i : Z.testbit (Z.lxor a b) i = false -> Z.testbit a i = Z.testbit b i.
Proof. rewrite Z.lxor_spec. by destruct (Z.testbit a i), (Z.testbit b i). Qed.
Lemma nz_bit x i : nz x = false -> Z.testbit x i = false.
Proof. unfold nz. intros E%negb_false_iff%Z.eqb_eq. by rewrite E, Z.bits_0. Qed.

Lemma wf_with_imr c v : wf c -> byte v -> wf (with_imr c v (u8 (Z.lnot v))).
Proof. intros [H1 H2 H3 H4 H5] Hv. by split. Qed.

Lemma set_imr_inv w pcjr v s : pic_inv s -> byte v -> pic_inv (pic_set_imr w pcjr v s) /\ quiet s (pic_set_imr w pcjr v s).
Proof.
  intros Hs Hv. pose proof (inv_wf w s Hs) as Hw. unfold pic_set_imr, set_imr.
  set (v' := if pcjr then _ else v).
  assert (byte v') as Hv' by (unfold v'; destruct pcjr, w; try done; by apply byte_land).
  apply (update_inv w (with_imr (ctl w s) v' (u8 (Z.lnot v'))) s); [done|by apply wf_with_imr|done|].
  intros Ht. apply eligible_ext; [done|by apply wf_with_imr|done|]. intros i Hi.
  pose proof (active_range _ Hw). unfold requested. cbn [irr imr isr with_imr].
  pose proof (nz_bit _ i Ht) as Hb. cbn [irr isrr with_imr] in Hb.
  rewrite !Z.land_spec, (proj2 (wf_isr _ Hw)), u8_bit, Z.lnot_spec in Hb by lia.
  destruct (Z.testbit (irr (ctl w s)) i); [|done]. destruct (Z.testbit (isr (ctl w s)) i); [by rewrite !andb_false_r|].
  cbn [negb andb] in Hb. rewrite andb_true_r in Hb. by rewrite (lxor_diff _ _ _ Hb).
Qed.

(** ** End of interrupt *)
Lemma scan_8_nonzero x : byte x -> x <> 0 -> exists i, scan 8 0 x = Some i.
Proof.
  intros Hx Hn. destruct (scan 8 0 x) as [i|] eqn:E; [by exists i|]. rewrite scan_None in E by lia. destruct Hn.
  apply Z.bits_inj'. intros i Hi. rewrite Z.bits_0. destruct (Z.lt_ge_cases i 8); [apply E; lia|by apply byte_high].
Qed.
Lemma wf_active_of c v :
  wf c -> byte v -> wf (update_active_irq (with_isr c v (u8 (Z.lnot v)))).
Proof.
  intros [H1 H2 H3 H4 H5] Hv. unfold update_active_irq. cbn [isr with_isr].
  destruct (Z.eqb_spec v 0) as [->|Hn]; [split; done|].
  destruct (scan_8_nonzero v Hv Hn) as [i E]. rewrite E. split; try done. cbn [isr active_irq with_active with_isr]. by rewrite E.
Qed.
Lemma update_active_keeps c :
  irr (update_active_irq c) = irr c /\ imr (update_active_irq c) = imr c /\ isr (update_active_irq c) = isr c /\
  possible_irq (update_active_irq c) = possible_irq c.
Proof. unfold update_active_irq. destruct (_ =? _); [done|]. by destruct (scan _ _ _). Qed.

Lemma eoi_inv w bit s :
  pic_inv s ->
  pic_inv (pic_check_after_EOI w (set_ctl w (clear_isr bit (ctl w s)) s)) /\
  quiet s (pic_check_after_EOI w (set_ctl w (clear_isr bit (ctl w s)) s)).
Proof.
  intros Hs. pose proof (inv_wf w s Hs) as Hw. unfold pic_check_after_EOI, check_after_EOI. cbv zeta.
  set (c := ctl w s) in *. unfold clear_isr. set (v := u8 (Z.land (isr c) (Z.lnot bit))).
  assert (ctl w (set_ctl w (with_isr c v (u8 (Z.lnot v))) s) = with_isr c v (u8 (Z.lnot v))) as -> by (by destruct w).
  set (c' := update_active_irq (with_isr c v (u8 (Z.lnot v)))).
  assert (set_ctl w c' (set_ctl w (with_isr c v (u8 (Z.lnot v))) s) = set_ctl w c' s) as -> by (by destruct w).
  assert (ctl w (set_ctl w c' s) = c') as -> by (by destruct w).
  assert (wf c') as Hw' by (apply wf_active_of; [done|apply u8_byte]).
  destruct (update_active_keeps (with_isr c v (u8 (Z.lnot v)))) as (E1 & E2 & E3 & _).
  fold c' in E1, E2, E3. cbn [irr imr isr with_isr] in E1, E2, E3.
  apply (update_inv w c' s (nz (possible_irq c'))); [done|done|done|]. fold c. intros Ht.
  rewrite (possible_eligible c' Hw' Ht). symmetry. apply not_true_iff_false. rewrite eligible_spec by done.
  intros (i & Hi & Hr). pose proof (active_range c Hw). pose proof (nz_bit _ i Ht) as Hb.
  rewrite possible_bit in Hb by (done || lia). unfold requested in Hr, Hb. rewrite E1, E2, E3 in Hb.
  apply andb_true_iff in Hr as [Hr Hr3]. rewrite Hr in Hb. cbn [andb] in Hb. apply negb_false_iff in Hb.
  unfold v in Hb. rewrite u8_bit, Z.land_spec in Hb by lia. apply andb_true_iff in Hb as [Hb _]. by rewrite Hb in Hr3.
Qed.

(** ** Request lines *)
Lemma inv_of_primary s s' :
  pic_inv s -> signalled s' -> keeps_rest secondary s s' ->
  Z.testbit (irr (primary_controller s')) 2 = Z.testbit (irr (primary_controller s)) 2 ->
  pic_inv s' /\ quiet s s'.
Proof.
  intros [H1 H2 H3] Hs (K1 & K2 & K3) Hb. cbn [ctl] in K1. split; [|done]. split; [done|by rewrite K1|by rewrite Hb, K1].
Qed.

Lemma set_irr_except w c s : pic_inv s -> wf c -> (w = primary -> Z.testbit (irr c) 2 = Z.testbit (irr (ctl w s)) 2) ->
  inv_except w (set_ctl w c s).
Proof.
  intros [[H1 H2] H3 H4] Hw Hi. destruct w; cbn in *.
  - rewrite Hi; done.
  - split; [by split|done].
Qed.

Lemma secondary_raise v s : pic_inv s -> 0 <= v < 8 -> pic_inv (pic_raise_irq secondary v s) /\ quiet s (pic_raise_irq secondary v s).
Proof.
  intros Hs Hv. pose proof (inv_wf secondary s Hs) as Hw. unfold pic_raise_irq, raise_irq.
  destruct (_ =? 0); [|done]. set (c := ctl secondary s) in *. set (c' := with_irr c (Z.lor (irr c) (bit8 v))).
  assert (wf c') as Hw' by (apply wf_with_irr; auto with width).
  assert (inv_except secondary (set_ctl secondary c' s)) as Hx by (apply set_irr_except; done).
  assert (special c' = false) as -> by apply Hw. cbn [orb].
  change (imrr c') with (imrr c). change (isrr c') with (isrr c). change (active_irq c') with (active_irq c).
  rewrite line_test by done.
  destruct (negb (Z.testbit (imr c) v) && negb (Z.testbit (isr c) v) && (v <? active_irq c)) eqn:E.
  - apply andb_true_iff in E as [E1 E2]. rewrite E1, E2. cbv iota.
    destruct (activate_inv secondary _ Hx) as [K1 K2]; [|done].
    apply eligible_spec; [done|]. exists v. split; [change (active_irq (ctl secondary (set_ctl secondary c' s))) with (active_irq c); lia|].
    change (requested c' v = true). unfold c'. rewrite requested_irr, raise_bits, Z.eqb_refl by done. exact E1.
  - assert (forall t : PicState, (if negb (Z.testbit (imr c) v) && negb (Z.testbit (isr c) v)
             then if v <? active_irq c then t else set_ctl secondary c' s
             else set_ctl secondary c' s) = set_ctl secondary c' s) as ->.
    { intros t. destruct (_ && negb _); [|done]. destruct (v <? active_irq c); [done|done]. }
    split; [|done]. apply (inv_signal secondary). split; [done|].
    change (Z.testbit (irr (primary_controller s)) 2 = eligible c'). unfold c'.
    rewrite (set_line_eligible c v true); [apply Hs|done|done|auto with width|by intros i Hi; apply raise_bits|exact E].
Qed.
Lemma secondary_lower v s : pic_inv s -> 0 <= v < 8 -> pic_inv (pic_lower_irq secondary v s) /\ quiet s (pic_lower_irq secondary v s).
Proof.
  intros Hs Hv. pose proof (inv_wf secondary s Hs) as Hw. unfold pic_lower_irq, lower_irq.
  destruct (nz _); [|done]. set (c := ctl secondary s) in *. set (c' := with_irr c (Z.land (irr c) (Z.lnot (bit8 v)))).
  assert (wf c') as Hw' by (apply wf_with_irr; auto with width).
  assert (inv_except secondary (set_ctl secondary c' s)) as Hx by (apply set_irr_except; done).
  assert (special c' = false) as -> by apply Hw. cbn [orb].
  change (imrr c') with (imrr c). change (isrr c') with (isrr c). change (active_irq c') with (active_irq c).
  rewrite line_test by done.
  destruct (negb (Z.testbit (imr c) v) && negb (Z.testbit (isr c) v) && (v <? active_irq c)) eqn:E.
  - apply andb_true_iff in E as [E1 E2]. rewrite E1, E2. cbv iota. by apply (check_inv secondary).
  - assert (forall t : PicState, (if negb (Z.testbit (imr c) v) && negb (Z.testbit (isr c) v)
             then if v <? active_irq c then t else set_ctl secondary c' s
             else set_ctl secondary c' s) = set_ctl secondary c' s) as ->.
    { intros t. destruct (_ && negb _); [|done]. destruct (v <? active_irq c); [done|done]. }
    split; [|done]. apply (inv_signal secondary). split; [done|].
    change (Z.testbit (irr (primary_controller s)) 2 = eligible c'). unfold c'.
    rewrite (set_line_eligible c v false); [apply Hs|done|done|auto with width|by intros i Hi; apply lower_bits|exact E].
Qed.

(** A device's line: not the cascade. *)
Definition device_irq (irq : Z) : Prop := 0 <= irq < 16 /\ irq <> 2.
Lemma irq_line_range irq : device_irq irq ->
  0 <= irq_line irq < 8 /\ (irq_pic irq = primary -> irq_line irq <> 2).
Proof. unfold device_irq, irq_line, irq_pic. intros [Hi Hn]. destruct (Z.ltb_spec 7 irq); (split; [lia|done || lia]). Qed.

Lemma raise_inv irq s : pic_inv s -> device_irq irq ->
  pic_inv (pic_raise_irq (irq_pic irq) (irq_line irq) s) /\ quiet s (pic_raise_irq (irq_pic irq) (irq_line irq) s).
Proof.
  intros Hs Hi. destruct (irq_line_range irq Hi) as [Hl Hp]. destruct (irq_pic irq); [|by apply secondary_raise].
  destruct (primary_raise (irq_line irq) s (inv_primary s Hs) Hl) as (K1 & K2 & _ & K4).
  apply inv_of_primary; [done..|]. rewrite K4 by lia. specialize (Hp eq_refl). destruct (Z.eqb_spec 2 (irq_line irq)); [lia|done].
Qed.
Lemma lower_inv irq s : pic_inv s -> device_irq irq ->
  pic_inv (PIC_DeActivateIRQ irq s) /\ quiet s (PIC_DeActivateIRQ irq s).
Proof.
  intros Hs Hi. unfold PIC_DeActivateIRQ. destruct (irq_line_range irq Hi) as [Hl Hp].
  destruct (irq_pic irq); [|by apply secondary_lower].
  destruct (primary_lower (irq_line irq) s (inv_primary s Hs) Hl) as (K1 & K2 & _ & K4).
  apply inv_of_primary; [done..|]. rewrite K4 by lia. specialize (Hp eq_refl). destruct (Z.eqb_spec 2 (irq_line irq)); [lia|done].
Qed.
Lemma cycles_inv c l s : pic_inv s -> pic_inv (set_cycles c l s) /\ quiet s (set_cycles c l s).
Proof. intros [[H1 H2] H3 H4]. by split. Qed.
Lemma ActivateIRQ_inv irq s : pic_inv s -> device_irq irq -> pic_inv (PIC_ActivateIRQ irq s) /\ quiet s (PIC_ActivateIRQ irq s).
Proof.
  intros Hs Hi. destruct (raise_inv irq s Hs Hi) as [H1 H2]. unfold PIC_ActivateIRQ. destruct (negb _); [|done].
  destruct (cycles_inv 2 (CPU_CycleLeft (pic_raise_irq (irq_pic irq) (irq_line irq) s) - 2) _ H1) as [K1 K2]. split; [done|].
  by eapply quiet_trans.
Qed.
Lemma SetIRQMask_inv pcjr irq m s : pic_inv s -> 0 <= irq < 16 ->
  pic_inv (PIC_SetIRQMask pcjr irq m s) /\ quiet s (PIC_SetIRQMask pcjr irq m s).
Proof.
  intros Hs Hi. apply set_imr_inv; [done|]. pose proof (wf_imr _ (inv_wf (irq_pic irq) s Hs)) as [Hb _].
  destruct m; [apply byte_lor; [|apply u8_byte]|]; by apply byte_land.
Qed.

(** ** Ports *)
Definition no_special_mask (val : Z) : Prop :=
  nz (Z.land val 0x10) = true \/ nz (Z.land val 0x08) = false \/ nz (Z.land val 0x40) = false \/ nz (Z.land val 0x20) = false.

Lemma command_inv pcjr port val s s' :
  pic_inv s -> no_special_mask val -> write_command pcjr port val s = ok s' -> pic_inv s' /\ quiet s s'.
Proof.
  intros Hs Hm E. unfold write_command in E. cbv zeta in E. set (w := command_pic port) in *. pose proof (inv_wf w s Hs) as Hw.
  destruct (nz (Z.land val 0x10)) eqn:E1.
  { injection E as <-. destruct (set_imr_inv w pcjr 0 s Hs) as [H1 H2]; [done|]. set (s1 := pic_set_imr w pcjr 0 s) in *.
    destruct (same_registers_inv w (with_icw (ctl w s1) (2 + Z.land val 1) 1 (Z.land val 2 =? 2)) s1) as [K1 K2]; try done.
    - pose proof (inv_wf w s1 H1) as [A1 A2 A3 A4 A5]. by split.
    - split; [done|]. by eapply quiet_trans. }
  destruct (nz (Z.land val 0x08)) eqn:E2.
  { injection E as <-.
    assert (pic_inv (if nz (Z.land val 2) then set_ctl w (with_request_issr (nz (Z.land val 1)) (ctl w s)) s else s) /\
            quiet s (if nz (Z.land val 2) then set_ctl w (with_request_issr (nz (Z.land val 1)) (ctl w s)) s else s)) as [H1 H2].
    { destruct (nz (Z.land val 2)); [|done]. apply same_registers_inv; try done. destruct Hw as [A1 A2 A3 A4 A5]. by split. }
    set (s1 := if nz (Z.land val 2) then _ else s) in *. pose proof (inv_wf w s1 H1) as Hw1.
    destruct (nz (Z.land val 0x40)) eqn:E3; [|done].
    destruct Hm as [Hm | [Hm | [Hm | Hm]]]; try congruence. rewrite Hm.
    destruct (update_inv w (with_special false (ctl w s1)) s1 true H1) as [K1 K2]; try done.
    - destruct Hw1 as [A1 A2 A3 [A4 A6] A5]. by split.
    - split; [done|]. by eapply quiet_trans. }
  destruct (nz (Z.land val 0x20)).
  { destruct (nz (Z.land val 0x40)).
    - apply exec_bind_ok in E as (bit & _ & E). injection E as <-. by apply eoi_inv.
    - destruct (negb _); [|by injection E as <-]. apply exec_bind_ok in E as (bit & _ & E). injection E as <-. by apply eoi_inv. }
  destruct (Z.land val 0x40 =? 0); injection E as <-; [|done]. apply same_registers_inv; try done.
  destruct Hw as [A1 A2 A3 [A4 A6] A5]. by split.
Qed.

(** The fourth initialisation word may not switch on automatic end of interrupt. *)
Definition no_auto_eoi (w : pic) (val : Z) (s : PicState) : Prop := icw_index (ctl w s) = 3 -> Z.land val 0x2 = 0.
Lemma data_inv pcjr port val s :
  pic_inv s -> byte val -> no_auto_eoi (data_pic port) val s -> pic_inv (write_data pcjr port val s) /\ quiet s (write_data pcjr port val s).
Proof.
  intros Hs Hv Ha. unfold write_data. set (w := data_pic port) in *. pose proof (inv_wf w s Hs) as Hw.
  destruct Hw as [A1 A2 A3 [A4 A6] A5].
  destruct (_ =? 0); [by apply set_imr_inv|]. destruct (_ =? 1).
  { destruct (_ <=? _); [|destruct (single _)]; (apply same_registers_inv; try done; by split). }
  destruct (_ =? 2); [apply same_registers_inv; try done; by split|].
  destruct (Z.eqb_spec (icw_index (ctl w s)) 3) as [E|]; [|done]. rewrite (Ha E).
  apply same_registers_inv; try done; by split.
Qed.

(** ** Delivery *)
Lemma start_ctl_spec c i :
  wf c -> deliverable c = Some i ->
  let c' := start_irq_ctl i c in
  wf c' /\ eligible c' = false /\ active_irq c' = i /\ vector_base c' = vector_base c /\ Z.testbit (isr c') i = true /\
  Z.testbit (irr c') i = false /\
  forall k, 0 <= k < 8 -> k <> i -> Z.testbit (irr c') k = Z.testbit (irr c) k /\ Z.testbit (isr c') k = Z.testbit (isr c) k.
Proof.
  intros Hw Hd. cbv zeta. destruct (deliverable_spec c i Hw Hd) as (Hi & Hr & Hlow). pose proof (active_range c Hw).
  unfold start_irq_ctl. change (auto_eoi (with_irr c _)) with (auto_eoi c). rewrite (proj2 (wf_modes c Hw)). cbn [negb].
  set (r := Z.land (irr c) (Z.lnot (Z.shiftl 1 i))). change (isr (with_active (with_irr c r) i)) with (isr c).
  set (v := u8 (Z.lor (isr c) (Z.shiftl 1 i))).
  assert (forall k, 0 <= k < 8 -> Z.testbit r k = Z.testbit (irr c) k && negb (k =? i)) as Br.
  { intros k Hk. unfold r. by rewrite Z.shiftl_1_l, Z.land_spec, Z.lnot_spec, pow_bit by lia. }
  assert (forall k, 0 <= k < 8 -> Z.testbit v k = Z.testbit (isr c) k || (k =? i)) as Bv.
  { intros k Hk. unfold v. by rewrite u8_bit, Z.shiftl_1_l, Z.lor_spec, pow_bit by lia. }
  assert (scan 8 0 v = Some i) as Es.
  { destruct (scan 8 0 v) as [j|] eqn:E.
    - apply scan_Some in E as (H1 & H2 & H3); [|lia]. f_equal. destruct (Z.lt_trichotomy j i) as [Hlt|[->|Hgt]]; [|done|].
      + rewrite Bv in H2 by lia. rewrite (below_active c j Hw) in H2 by lia. destruct (Z.eqb_spec j i); [lia|done].
      + specialize (H3 i ltac:(lia)). rewrite Bv, Z.eqb_refl, orb_true_r in H3 by lia. done.
    - rewrite scan_None in E by lia. specialize (E i ltac:(lia)). rewrite Bv, Z.eqb_refl, orb_true_r in E by lia. done. }
  set (c' := with_isr _ _ _).
  assert (wf c') as Hw'.
  { destruct Hw as [A1 A2 A3 A4 A5]. split; [by apply byte_land|done|split; [apply u8_byte|done]|done|]. cbn [isr active_irq with_isr with_active c'].
    by rewrite Es. }
  split; [done|]. split; [|split; [done|split; [done|]]].
  - apply not_true_iff_false. rewrite eligible_spec by done. intros (k & Hk & Hrk). change (active_irq c') with i in Hk.
    pose proof (Hlow k Hk) as Hl. unfold requested in Hrk, Hl. cbn [irr imr isr c' with_isr with_active with_irr] in Hrk.
    rewrite Br, Bv in Hrk by lia. destruct (Z.eqb_spec k i); [lia|]. rewrite andb_true_r, orb_false_r in Hrk. congruence.
  - cbn [irr isr c' with_isr with_active with_irr]. rewrite Br, Bv, Z.eqb_refl by lia. split; [apply orb_true_r|].
    split; [apply andb_false_r|]. intros k Hk Hne. rewrite Br, Bv by lia. destruct (Z.eqb_spec k i); [done|].
    by rewrite andb_true_r, orb_false_r.
Qed.

Lemma run_idle IF trapping s :
  IF = false \/ PIC_IRQCheck s = 0 \/ trapping = true -> PIC_runIRQs IF trapping s = s.
Proof.
  unfold PIC_runIRQs. intros [-> | [-> | ->]]; [done|by destruct IF|]. destruct IF; [|done]. by destruct (_ =? 0).
Qed.

(** What [PIC_runIRQs] does with the line the primary may deliver. *)
Lemma run_delivers s i :
  pic_inv s -> deliverable (primary_controller s) = Some i ->
  let s' := PIC_runIRQs true false s in
  pic_inv s' /\ unexpected s' = unexpected s /\
  if i =? 2
  then exists j, deliverable (secondary_controller s) = Some j /\
         interrupts s' = vector_base (secondary_controller s) + j :: interrupts s /\
         primary_controller s' = start_irq_ctl 2 (primary_controller s) /\
         secondary_controller s' = start_irq_ctl j (secondary_controller s)
  else interrupts s' = vector_base (primary_controller s) + i :: interrupts s /\
       primary_controller s' = start_irq_ctl i (primary_controller s) /\
       secondary_controller s' = secondary_controller s.
Proof.
  intros [[Hw Hc] Hw2 Hcas] Hd. cbv zeta. unfold PIC_runIRQs. cbn [negb].
  assert (PIC_IRQCheck s = 1) as -> by (rewrite Hc; unfold eligible; by rewrite Hd).
  change (1 =? 0) with false. cbv iota. fold (deliverable (primary_controller s)). rewrite Hd.
  destruct (start_ctl_spec _ i Hw Hd) as (W1 & E1 & _ & V1 & _ & R1 & K1).
  destruct (deliverable_spec _ i Hw Hd) as (Hi & Hr & _). pose proof (active_range _ Hw).
  destruct (Z.eqb_spec i 2) as [->|Hne].
  - unfold secondary_startIRQ. fold (deliverable (secondary_controller s)).
    assert (eligible (secondary_controller s) = true) as He.
    { rewrite <- Hcas. unfold requested in Hr. by apply andb_true_iff in Hr as [[Hr _]%andb_true_iff _]. }
    unfold eligible in He. destruct (deliverable (secondary_controller s)) as [j|] eqn:Ej; [|done].
    destruct (start_ctl_spec _ j Hw2 Ej) as (W2 & E2 & _ & V2 & _).
    split; [|split; [done|exists j; split; [done|]; split; [cbn; by rewrite V2|done]]].
    split; [split; [exact W1|]|exact W2|].
    + change (0 = b2z (eligible (start_irq_ctl 2 (primary_controller s)))). by rewrite E1.
    + change (Z.testbit (irr (start_irq_ctl 2 (primary_controller s))) 2 = eligible (start_irq_ctl j (secondary_controller s))).
      by rewrite R1, E2.
  - unfold primary_startIRQ. split; [|split; [done|split; [cbn; by rewrite V1|done]]].
    split; [split; [exact W1|]|exact Hw2|].
    + change (0 = b2z (eligible (start_irq_ctl i (primary_controller s)))). by rewrite E1.
    + change (Z.testbit (irr (start_irq_ctl i (primary_controller s))) 2 = eligible (secondary_controller s)).
      rewrite <- Hcas. by apply K1.
Qed.

Lemma run_inv IF trapping s : pic_inv s -> pic_inv (PIC_runIRQs IF trapping s) /\ unexpected (PIC_runIRQs IF trapping s) = unexpected s.
Proof.
  intros Hs. destruct IF; [|rewrite run_idle by auto; done]. destruct trapping; [rewrite run_idle by auto; done|].
  destruct (deliverable (primary_controller s)) as [i|] eqn:E.
  - destruct (run_delivers s i Hs E) as (H1 & H2 & _). done.
  - rewrite run_idle; [done|]. right. left. rewrite (sig_check s (inv_primary s Hs)). unfold eligible. by rewrite E.
Qed.

(** ** Runs *)
Inductive pic_step : PicState -> PicState -> Prop :=
  | step_activate irq s : device_irq irq -> pic_step s (PIC_ActivateIRQ irq s)
  | step_deactivate irq s : device_irq irq -> pic_step s (PIC_DeActivateIRQ irq s)
  | step_mask pcjr irq masked s : 0 <= irq < 16 -> pic_step s (PIC_SetIRQMask pcjr irq masked s)
  | step_command pcjr port val s s' :
      no_special_mask val -> write_command pcjr port val s = ok s' -> pic_step s s'
  | step_data pcjr port val s :
      byte val -> no_auto_eoi (data_pic port) val s -> pic_step s (write_data pcjr port val s)
  | step_cycles cycles left s : pic_step s (set_cycles cycles left s)
  | step_run IF trapping s : pic_step s (PIC_runIRQs IF trapping s).

Lemma pic_step_inv s s' : pic_step s s' -> pic_inv s -> pic_inv s' /\ unexpected s' = unexpected s.
Proof.
  intros Hst Hs. destruct Hst as [irq s Hi|irq s Hi|pcjr irq m s Hi|pcjr port val s s' Hm E|pcjr port val s Hv Ha|c l s|IF tr s].
  - by destruct (ActivateIRQ_inv irq s Hs Hi) as [? [_ ?]].
  - by destruct (lower_inv irq s Hs Hi) as [? [_ ?]].
  - by destruct (SetIRQMask_inv pcjr irq m s Hs Hi) as [? [_ ?]].
  - by destruct (command_inv pcjr port val s s' Hs Hm E) as [? [_ ?]].
  - by destruct (data_inv pcjr port val s Hs Hv Ha) as [? [_ ?]].
  - by destruct (cycles_inv c l s Hs) as [? [_ ?]].
  - by apply run_inv.
Qed.

Lemma reset_wf base : wf (reset_controller base).
Proof. split; try done. Qed.
Lemma setup_inv ega pcjr s : pic_inv (PIC_8259A ega pcjr s) /\ unexpected (PIC_8259A ega pcjr s) = unexpected s.
Proof.
  unfold PIC_8259A. set (s0 := set_ctl primary _ _).
  assert (pic_inv s0) as H0 by (split; [split; [apply reset_wf|done]|apply reset_wf|done]).
  assert (unexpected s0 = unexpected s) as U0 by done. cbv zeta.
  destruct (SetIRQMask_inv pcjr 0 false s0 H0) as [H1 [_ U1]]; [lia|]. set (s1 := PIC_SetIRQMask pcjr 0 false s0) in *.
  destruct (SetIRQMask_inv pcjr 1 false s1 H1) as [H2 [_ U2]]; [lia|]. set (s2 := PIC_SetIRQMask pcjr 1 false s1) in *.
  destruct (SetIRQMask_inv pcjr 2 false s2 H2) as [H3 [_ U3]]; [lia|]. set (s3 := PIC_SetIRQMask pcjr 2 false s2) in *.
  destruct (SetIRQMask_inv pcjr 8 false s3 H3) as [H4 [_ U4]]; [lia|]. set (s4 := PIC_SetIRQMask pcjr 8 false s3) in *.
  assert (exists s5, s5 = (if ega then PIC_DeActivateIRQ 9 (PIC_SetIRQMask pcjr 9 false s4) else s4) /\ pic_inv s5 /\ unexpected s5 = unexpected s)
    as (s5 & <- & H5 & U5).
  { eexists. split; [done|]. destruct ega; [|split; [done|congruence]].
    destruct (SetIRQMask_inv pcjr 9 false s4 H4) as [K1 [_ K2]]; [lia|].
    destruct (lower_inv 9 _ K1) as [K3 [_ K4]]; [done|]. split; [done|congruence]. }
  destruct pcjr; [|done]. destruct (SetIRQMask_inv true 6 false s5 H5) as [K1 [_ K2]]; [lia|]. split; [done|congruence].
Qed.

(** ** The theorems *)
Definition powered_on : PicState :=
  mkPics (reset_controller 0) (reset_controller 0) 0 3000 0 [] 0.

(** C16.  From set-up on, whatever requests, masks, port writes and deliveries follow,
    as long as the special mask and automatic end of interrupt stay off and no
    device uses line 2: the processor's check flag is up exactly when the primary
    controller has an unmasked request above what is in service, the cascade
    request exactly when the secondary has, and the delivery of a cascaded
    interrupt never finds the secondary without one. *)
Theorem signals_exact ega pcjr s0 s :
  rtc pic_step (PIC_8259A ega pcjr s0) s ->
  let can_deliver c := exists i, 0 <= i < active_irq c /\ requested c i = true in
  (PIC_IRQCheck s = 1 <-> can_deliver (primary_controller s)) /\
  (Z.testbit (irr (primary_controller s)) 2 = true <-> can_deliver (secondary_controller s)) /\
  unexpected s = unexpected s0.
Proof.
  intros Hst can. destruct (setup_inv ega pcjr s0) as [H0 U0].
  assert (pic_inv s /\ unexpected s = unexpected s0) as [Hs Hu].
  { rewrite <- U0. clear U0. revert H0. induction Hst as [t|t u v Htu _ IH]; [done|]. intros Ht.
    destruct (pic_step_inv t u Htu Ht) as [Hu Eu]. rewrite <- Eu. by apply IH. }
  split; [|split; [|done]].
  - pose proof (eligible_spec _ (inv_wf primary s Hs)) as He. cbn [ctl] in He. unfold can. rewrite <- He.
    rewrite (sig_check s (inv_primary s Hs)). by destruct (eligible _).
  - rewrite (inv_cascade s Hs). apply (eligible_spec _ (inv_wf secondary s Hs)).
Qed.

Lemma signals_exact_witness :
  exists s, s = PIC_ActivateIRQ 12 (PIC_SetIRQMask false 12 false (PIC_8259A true false powered_on)) /\
    PIC_IRQCheck s = 1 /\ Z.testbit (irr (primary_controller s)) 2 = true.
Proof.
  eexists. split; [reflexivity|]. edestruct (signals_exact true false powered_on) as (H1 & H2 & _).
  { eapply rtc_l; [apply (step_mask false 12 false); lia|]. eapply rtc_once, (step_activate 12). split; lia. }
  split; [apply H1; exists 2; vm_compute; done|apply H2; exists 4; vm_compute; done].
Defined.

(** C19.  With interrupts enabled, [PIC_runIRQs] hands the processor the vector of the
    highest-priority request it may deliver, through the cascade for line 2, marks
    it in service and clears its request; nothing is delivered when the flag is
    down, when interrupts are off, or again before something changes. *)
Theorem runIRQs_delivers s :
  pic_inv s ->
  let s' := PIC_runIRQs true false s in
  let highest c i := 0 <= i < active_irq c /\ requested c i = true /\ forall k, 0 <= k < i -> requested c k = false in
  pic_inv s' /\ PIC_runIRQs true false s' = s' /\ PIC_runIRQs false false s = s /\
  ((PIC_IRQCheck s = 0 /\ s' = s) \/
   (exists i, highest (primary_controller s) i /\ i <> 2 /\
      interrupts s' = vector_base (primary_controller s) + i :: interrupts s /\
      Z.testbit (isr (primary_controller s')) i = true /\ Z.testbit (irr (primary_controller s')) i = false) \/
   (exists j, highest (primary_controller s) 2 /\ highest (secondary_controller s) j /\
      interrupts s' = vector_base (secondary_controller s) + j :: interrupts s /\
      Z.testbit (isr (primary_controller s')) 2 = true /\ Z.testbit (isr (secondary_controller s')) j = true /\
      Z.testbit (irr (secondary_controller s')) j = false)).
Proof.
  intros Hs s' highest. destruct (run_inv true false s Hs) as [Hs' _]. fold s' in Hs'. split; [done|].
  pose proof (inv_wf primary s Hs) as Hw. pose proof (inv_wf secondary s Hs) as Hw2. cbn [ctl] in Hw, Hw2.
  destruct (deliverable (primary_controller s)) as [i|] eqn:E.
  - split.
    { apply run_idle. right. left. unfold s', PIC_runIRQs. cbn [negb].
      rewrite (sig_check s (inv_primary s Hs)). unfold eligible. by rewrite E. }
    split; [done|]. right. destruct (run_delivers s i Hs E) as (_ & _ & H3). fold s' in H3.
    destruct (deliverable_spec _ i Hw E) as (D1 & D2 & D3).
    destruct (start_ctl_spec _ i Hw E) as (_ & _ & _ & _ & I1 & R1 & _).
    destruct (Z.eqb_spec i 2) as [->|Hne].
    + right. destruct H3 as (j & Ej & H4 & H5 & H6). destruct (deliverable_spec _ j Hw2 Ej) as (F1 & F2 & F3).
      destruct (start_ctl_spec _ j Hw2 Ej) as (_ & _ & _ & _ & I2 & R2 & _).
      exists j. by rewrite H4, H5, H6.
    + left. destruct H3 as (H4 & H5 & H6). exists i. by rewrite H4, H5.
  - assert (PIC_IRQCheck s = 0) as E0 by (rewrite (sig_check s (inv_primary s Hs)); unfold eligible; by rewrite E).
    assert (s' = s) as -> by (apply run_idle; auto). split; [by apply run_idle; auto|]. split; [done|by left].
Qed.

Lemma runIRQs_delivers_witness :
  exists s', s' = PIC_runIRQs true false (PIC_ActivateIRQ 12 (PIC_SetIRQMask false 12 false (PIC_8259A true false powered_on))) /\
    pic_inv s' /\ interrupts s' = [0x74].
Proof.
  eexists. split; [reflexivity|].
  edestruct runIRQs_delivers as (H1 & _ & _ & _); [|split; [exact H1|vm_compute; reflexivity]].
  apply ActivateIRQ_inv; [|split; lia]. apply SetIRQMask_inv; [|lia]. apply setup_inv.
Defined.

Lemma clear_isr_bits c k i : 0 <= k -> 0 <= i < 8 ->
  Z.testbit (isr (clear_isr (Z.shiftl 1 k) c)) i = Z.testbit (isr c) i && negb (i =? k).
Proof. intros. cbn [isr clear_isr with_isr]. rewrite u8_bit, Z.shiftl_1_l, Z.land_spec, Z.lnot_spec, pow_bit by lia. done. Qed.
Lemma check_keeps_isr w v s : isr (ctl v (pic_check_for_irq w s)) = isr (ctl v s).
Proof.
  assert (forall b t, isr (ctl v (raise_irq primary activate_cpu b t)) = isr (ctl v t)) as Hr.
  { intros b t. unfold raise_irq. destruct (_ =? 0); [|done]. destruct (nz _); [|by destruct v].
    destruct (_ || _); by destruct v. }
  assert (forall t, isr (ctl v (activate w t)) = isr (ctl v t)) as Ha by (intros t; destruct w, v; try done; apply (Hr 2 t)).
  assert (forall t, isr (ctl v (deactivate w t)) = isr (ctl v t)) as Hd.
  { intros t. destruct w; [by destruct v|]. cbn [deactivate]. unfold lower_irq. destruct (nz _); [|done].
    destruct (nz _); [|by destruct v]. destruct (_ || _); [|by destruct v]. unfold check_for_irq.
    destruct (nz _); [destruct (scan _ _ _)|]; by destruct v. }
  unfold pic_check_for_irq, check_for_irq. destruct (nz _); [destruct (scan _ _ _)|]; rewrite ?Ha, ?Hd; done.
Qed.
Lemma eoi_isr w bit s :
  isr (ctl w (pic_check_after_EOI w (set_ctl w (clear_isr bit (ctl w s)) s))) = isr (clear_isr bit (ctl w s)).
Proof.
  unfold pic_check_after_EOI, check_after_EOI. cbv zeta.
  match goal with |- isr (ctl w (if nz ?x then check_for_irq w (activate w) (deactivate w) ?t else _)) = _ =>
    assert (isr (ctl w (if nz x then pic_check_for_irq w t else t)) = isr (ctl w t)) as E
      by (destruct (nz x); [apply check_keeps_isr|done]); unfold pic_check_for_irq in E; rewrite E
  end.
  destruct w; cbn [ctl set_ctl primary_controller secondary_controller]; apply update_active_keeps.
Qed.

(** End of interrupt: the non-specific command takes the line in service out of
    service, and does nothing when there is none; the specific command takes out
    the line it names; the rotating specific command shifts by more than the width
    of an [int]. *)
Theorem eoi_commands pcjr port k s :
  pic_inv s -> 0 <= k < 8 ->
  let w := command_pic port in
  (if active_irq (ctl w s) =? 8 then write_command pcjr port 0x20 s = ok s
   else exists s', write_command pcjr port 0x20 s = ok s' /\ pic_inv s' /\
          forall i, 0 <= i < 8 -> Z.testbit (isr (ctl w s')) i = Z.testbit (isr (ctl w s)) i && negb (i =? active_irq (ctl w s))) /\
  (exists s', write_command pcjr port (0x60 + k) s = ok s' /\ pic_inv s' /\
     forall i, 0 <= i < 8 -> Z.testbit (isr (ctl w s')) i = Z.testbit (isr (ctl w s)) i && negb (i =? k)) /\
  write_command pcjr port (0xe0 + k) s = err OutOfBounds.
Proof.
  intros Hs Hk w. pose proof (active_range _ (inv_wf w s Hs)) as Ha.
  assert (forall v, v = 0x60 \/ v = 0xe0 -> write_command pcjr port (v + k) s =
            exec_bind (shift_one (v + k - 0x60)) (fun bit => ok (pic_check_after_EOI w (set_ctl w (clear_isr bit (ctl w s)) s)))) as Hv.
  { intros v Hv. unfold write_command. fold w.
    assert (k ∈ seqZ 0 8) as Hin by (apply elem_of_seqZ; lia). change (seqZ 0 8) with [0;1;2;3;4;5;6;7] in Hin.
    destruct Hv as [-> | ->]; repeat (apply elem_of_cons in Hin as [-> | Hin]; [reflexivity|]); by apply elem_of_nil in Hin. }
  split; [|split].
  - destruct (Z.eqb_spec (active_irq (ctl w s)) 8) as [E|Hne]; unfold write_command; fold w;
      change (nz (Z.land 0x20 0x10)) with false; change (nz (Z.land 0x20 0x08)) with false;
      change (nz (Z.land 0x20 0x20)) with true; change (nz (Z.land 0x20 0x40)) with false; cbv iota zeta.
    + by rewrite E.
    + destruct (Z.eqb_spec (active_irq (ctl w s)) 8); [done|]. cbn [negb]. unfold shift_one.
      destruct (Z.leb_spec 0 (active_irq (ctl w s))), (Z.ltb_spec (active_irq (ctl w s)) 32); try lia. cbn [andb exec_bind].
      eexists. split; [done|]. split; [by apply eoi_inv|]. intros i Hi. rewrite eoi_isr. apply clear_isr_bits; lia.
  - rewrite Hv by auto. replace (0x60 + k - 0x60) with k by lia. unfold shift_one.
    destruct (Z.leb_spec 0 k), (Z.ltb_spec k 32); try lia. cbn [andb exec_bind].
    eexists. split; [done|]. split; [by apply eoi_inv|]. intros i Hi. rewrite eoi_isr. apply clear_isr_bits; lia.
  - rewrite Hv by auto. unfold shift_one. destruct (Z.ltb_spec (0xe0 + k - 0x60) 32); [lia|]. by rewrite andb_false_r.
Qed.

Lemma eoi_commands_witness :
  exists s', write_command false 0x20 0x61 (PIC_8259A true false powered_on) = ok s' /\ pic_inv s'.
Proof.
  destruct (eoi_commands false 0x20 1 (PIC_8259A true false powered_on)) as (_ & (s' & H1 & H2 & _) & _);
    [apply setup_inv|lia|]. exists s'. split; [exact H1|exact H2].
Defined.
