(* ===== verification/EventQueue.v ===== *)
(** * The event queue and the tick handlers ([hardware/pic.cpp], [hardware/pic.h])

    Timed events in an array of 512 entries threaded by two linked lists, the
    pending events by time and the free entries, and the loop that serves the
    events that are due. *)
From S2P Require Import Prelude.
From S2P Require Import Pic.
#[local] Open Scope Z_scope.
#[local] Open Scope exec_scope.

(** ** Times

    What the queue uses of [double]: comparison, arithmetic, the conversions from
    and to integers.  [in_int32] tells whether the conversion to [int32_t] is
    defined.  The laws are those of IEEE numbers that are not NaN. *)
Class Double (T : Type) := {
  dle : T -> T -> bool;
  dadd : T -> T -> T; dsub : T -> T -> T; dmul : T -> T -> T; ddiv : T -> T -> T;
  of_int : Z -> T; to_int : T -> Z; in_int32 : T -> bool }.
(** [a > b]. *)
Definition dgt {T} `{Double T} (a b : T) : bool := negb (dle a b).
Class DoubleLaws (T : Type) `{Double T} := {
  dle_trans : forall a b c, dle a b = true -> dle b c = true -> dle a c = true;
  dle_total : forall a b, dle a b = true \/ dle b a = true;
  dsub_mono : forall a b c, dle a b = true -> dle (dsub a c) (dsub b c) = true;
  dmul_mono : forall a b n, 0 <= n -> dle a b = true -> dle (dmul a (of_int n)) (dmul b (of_int n)) = true }.

(** [static_cast<int32_t>]: undefined outside the range (debug builds assert it). *)
Definition to_int32 {T} `{Double T} (x : T) : exec Z := if in_int32 x then ok (to_int x) else err OutOfBounds.

Definition PIC_QUEUESIZE : nat := 512.

(** A [PIC_EventHandler] is the number of its function; [next] is the number of
    an entry, [None] for the null pointer. *)
Record PICEntry (T : Type) := mkEntry { index : T; value : Z; pic_event : Z; next : option Z }.
Arguments mkEntry {T}.
Arguments index {T}.
Arguments value {T}.
Arguments pic_event {T}.
Arguments next {T}.

(** A [TickerBlock] has its address, [block]; blocks are never allocated twice. *)
Record TickerBlock := mkTicker { block : Z; handler : Z }.

(** The statics of the file and the clock of [cpu.cpp]; [tickers] is the list
    from [firstticker]. *)
Record Queue (T : Type) := mkQueue {
  entries : list (PICEntry T);
  free_entry : option Z;
  next_entry : option Z;
  InEventService : bool;
  srv_lag : T;
  PIC_Ticks : Z;
  CPU_CycleMax : Z;
  atomic_pic_index : T;
  tickers : list TickerBlock;
  new_block : Z;
  pics : PicState }.
Arguments mkQueue {T}.
Arguments entries {T}.
Arguments free_entry {T}.
Arguments next_entry {T}.
Arguments InEventService {T}.
Arguments srv_lag {T}.
Arguments PIC_Ticks {T}.
Arguments CPU_CycleMax {T}.
Arguments atomic_pic_index {T}.
Arguments tickers {T}.
Arguments new_block {T}.
Arguments pics {T}.

Section Setters.
Context {T : Type}.
Implicit Types (q : Queue T).
Definition set_lists (es : list (PICEntry T)) (fr nx : option Z) q : Queue T :=
  mkQueue es fr nx (InEventService q) (srv_lag q) (PIC_Ticks q) (CPU_CycleMax q) (atomic_pic_index q) (tickers q) (new_block q) (pics q).
Definition set_service (b : bool) q : Queue T :=
  mkQueue (entries q) (free_entry q) (next_entry q) b (srv_lag q) (PIC_Ticks q) (CPU_CycleMax q) (atomic_pic_index q) (tickers q) (new_block q) (pics q).
Definition set_lag (v : T) q : Queue T :=
  mkQueue (entries q) (free_entry q) (next_entry q) (InEventService q) v (PIC_Ticks q) (CPU_CycleMax q) (atomic_pic_index q) (tickers q) (new_block q) (pics q).
Definition set_ticks (v : Z) q : Queue T :=
  mkQueue (entries q) (free_entry q) (next_entry q) (InEventService q) (srv_lag q) v (CPU_CycleMax q) (atomic_pic_index q) (tickers q) (new_block q) (pics q).
Definition set_atomic (v : T) q : Queue T :=
  mkQueue (entries q) (free_entry q) (next_entry q) (InEventService q) (srv_lag q) (PIC_Ticks q) (CPU_CycleMax q) v (tickers q) (new_block q) (pics q).
Definition set_tickers (v : list TickerBlock) (n : Z) q : Queue T :=
  mkQueue (entries q) (free_entry q) (next_entry q) (InEventService q) (srv_lag q) (PIC_Ticks q) (CPU_CycleMax q) (atomic_pic_index q) v n (pics q).
Definition set_pics (v : PicState) q : Queue T :=
  mkQueue (entries q) (free_entry q) (next_entry q) (InEventService q) (srv_lag q) (PIC_Ticks q) (CPU_CycleMax q) (atomic_pic_index q) (tickers q) (new_block q) v.
Definition cpu_cycles (cycles left : Z) q : Queue T := set_pics (set_cycles cycles left (pics q)) q.
Definition with_next (n : option Z) (e : PICEntry T) : PICEntry T := mkEntry (index e) (value e) (pic_event e) n.
Definition with_index (v : T) (e : PICEntry T) : PICEntry T := mkEntry v (value e) (pic_event e) (next e).

(** [entry->next = n]. *)
Definition set_next (i : Z) (n : option Z) (es : list (PICEntry T)) : exec (list (PICEntry T)) :=
  let* e := read es i in write es i (with_next n e).
End Setters.

Section Operations.
Context {T : Type} `{Double T}.
Implicit Types (q : Queue T).

(** ** The clock *)
Definition PIC_TickIndexND q : Z := CPU_CycleMax q - CPU_CycleLeft (pics q) - CPU_Cycles (pics q).
Definition PIC_TickIndex q : T := ddiv (of_int (PIC_TickIndexND q)) (of_int (CPU_CycleMax q)).
Definition PIC_MakeCycles (amount : T) q : exec Z := to_int32 (dmul (of_int (CPU_CycleMax q)) amount).
Definition PIC_FullIndex q : T := dadd (of_int (PIC_Ticks q)) (PIC_TickIndex q).
Definition PIC_UpdateAtomicIndex q : Queue T := set_atomic (PIC_FullIndex q) q.

(** ** Adding *)

(** The loop from [find_entry]; a list visits each entry once. *)
Fixpoint AddEntry_loop (fuel : nat) (find_entry entry : Z) (es : list (PICEntry T)) : exec (list (PICEntry T)) :=
  match fuel with
  | O => err OutOfFuel
  | S fuel =>
      let* f := read es find_entry in
      let* e := read es entry in
      match next f with
      | Some n =>
          let* g := read es n in
          if dgt (index g) (index e) then
            let* es := set_next entry (next f) es in set_next find_entry (Some entry) es
          else AddEntry_loop fuel n entry es
      | None => let* es := set_next entry (next f) es in set_next find_entry (Some entry) es
      end
  end.
Definition queue_fuel q : nat := S (length (entries q)).
Definition AddEntry (entry : Z) q : exec (Queue T) :=
  let* q :=
    match next_entry q with
    | None => let* es := set_next entry None (entries q) in ok (set_lists es (free_entry q) (Some entry) q)
    | Some find_entry =>
        let* f := read (entries q) find_entry in
        let* e := read (entries q) entry in
        if dgt (index f) (index e) then
          let* es := set_next entry (Some find_entry) (entries q) in ok (set_lists es (free_entry q) (Some entry) q)
        else
          let* es := AddEntry_loop (queue_fuel q) find_entry entry (entries q) in
          ok (set_lists es (free_entry q) (next_entry q) q)
    end in
  match next_entry q with
  | None => err OutOfBounds
  | Some first =>
      let* f := read (entries q) first in
      let* cycles := PIC_MakeCycles (dsub (index f) (PIC_TickIndex q)) q in
      ok (if cycles <? CPU_Cycles (pics q)
          then cpu_cycles 0 (CPU_CycleLeft (pics q) + CPU_Cycles (pics q)) q else q)
  end.

(** A full queue drops the event. *)
Definition PIC_AddEvent (handler : Z) (delay : T) (val : Z) q : exec (Queue T) :=
  match free_entry q with
  | None => ok q
  | Some entry =>
      let* e := read (entries q) entry in
      let index := if InEventService q then dadd delay (srv_lag q) else dadd delay (PIC_TickIndex q) in
      let* es := write (entries q) entry (mkEntry index val handler (next e)) in
      AddEntry entry (set_lists es (next e) (next_entry q) q)
  end.

(** ** Removing

    The loop of both removals over the entries; [matches] is their test. *)
Fixpoint Remove_loop (fuel : nat) (matches : PICEntry T -> bool) (prev_entry entry : option Z)
    (es : list (PICEntry T)) (fr nx : option Z) : exec (list (PICEntry T) * option Z * option Z) :=
  match entry with
  | None => ok (es, fr, nx)
  | Some i =>
      match fuel with
      | O => err OutOfFuel
      | S fuel =>
          let* e := read es i in
          if matches e then
            match prev_entry with
            | Some pr =>
                let* es := set_next pr (next e) es in
                let* es := set_next i fr es in
                let* p := read es pr in
                Remove_loop fuel matches prev_entry (next p) es (Some i) nx
            | None =>
                let nx := next e in
                let* es := set_next i fr es in
                Remove_loop fuel matches prev_entry nx es (Some i) nx
            end
          else Remove_loop fuel matches (Some i) (next e) es fr nx
      end
  end.
Definition remove_matching (matches : PICEntry T -> bool) q : exec (Queue T) :=
  let* (es, fr, nx) := Remove_loop (queue_fuel q) matches None (next_entry q) (entries q) (free_entry q) (next_entry q) in
  ok (set_lists es fr nx q).
Definition PIC_RemoveSpecificEvents (handler val : Z) : Queue T -> exec (Queue T) :=
  remove_matching (fun entry => (pic_event entry =? handler) && (value entry =? val)).
Definition PIC_RemoveEvents (handler : Z) : Queue T -> exec (Queue T) :=
  remove_matching (fun entry => pic_event entry =? handler).

(** ** Serving *)
Section Serving.
(** Calling an event handler; it may use the queue. *)
Variable run_event : Z -> Z -> Queue T -> exec (Queue T).

Definition due (index_nd_f : T) q (e : PICEntry T) : bool := dle (dmul (index e) (of_int (CPU_CycleMax q))) index_nd_f.

Fixpoint RunQueue_loop (fuel : nat) (index_nd_f : T) q : exec (Queue T) :=
  match fuel with
  | O => err OutOfFuel
  | S fuel =>
      match next_entry q with
      | None => ok q
      | Some i =>
          let* e := read (entries q) i in
          if due index_nd_f q e then
            let q := set_lists (entries q) (free_entry q) (next e) q in
            let q := set_lag (index e) q in
            let* q := run_event (pic_event e) (value e) q in
            let* es := set_next i (free_entry q) (entries q) in
            RunQueue_loop fuel index_nd_f (set_lists es (Some i) (next_entry q) q)
          else ok q
      end
  end.

Definition PIC_RunQueue (fuel : nat) (IF trapping : bool) q : exec (bool * Queue T) :=
  let q := PIC_UpdateAtomicIndex q in
  let q := cpu_cycles 0 (CPU_CycleLeft (pics q) + CPU_Cycles (pics q)) q in
  if CPU_CycleLeft (pics q) <=? 0 then ok (false, q) else
  let index_nd_f := of_int (PIC_TickIndexND q) in
  let q := set_service true q in
  let* q := RunQueue_loop fuel index_nd_f q in
  let q := set_service false q in
  let* q :=
    match next_entry q with
    | Some i =>
        let* e := read (entries q) i in
        let* cycles := to_int32 (dsub (dmul (index e) (of_int (CPU_CycleMax q))) index_nd_f) in
        let cycles := if cycles =? 0 then 1 else cycles in
        ok (if cycles <? CPU_CycleLeft (pics q) then cpu_cycles cycles (CPU_CycleLeft (pics q)) q
            else cpu_cycles (CPU_CycleLeft (pics q)) (CPU_CycleLeft (pics q)) q)
    | None => ok (cpu_cycles (CPU_CycleLeft (pics q)) (CPU_CycleLeft (pics q)) q)
    end in
  let q := cpu_cycles (CPU_Cycles (pics q)) (CPU_CycleLeft (pics q) - CPU_Cycles (pics q)) q in
  ok (true, set_pics (PIC_runIRQs IF trapping (pics q)) q).
End Serving.

(** ** Ticks *)
Fixpoint del_ticker (h : Z) (l : list TickerBlock) : list TickerBlock :=
  match l with
  | [] => []
  | t :: l => if handler t =? h then l else t :: del_ticker h l
  end.
Definition TIMER_DelTickHandler (h : Z) q : Queue T := set_tickers (del_ticker h (tickers q)) (new_block q) q.
Definition TIMER_AddTickHandler (h : Z) q : Queue T :=
  set_tickers (mkTicker (new_block q) h :: tickers q) (new_block q + 1) q.

Fixpoint lower_loop (fuel : nat) (entry : option Z) (es : list (PICEntry T)) : exec (list (PICEntry T)) :=
  match entry with
  | None => ok es
  | Some i =>
      match fuel with
      | O => err OutOfFuel
      | S fuel =>
          let* e := read es i in
          let* es := write es i (with_index (dsub (index e) (of_int 1)) e) in
          lower_loop fuel (next e) es
      end
  end.
(** The block at an address and the address after it. *)
Fixpoint ticker_at (b : Z) (l : list TickerBlock) : option (TickerBlock * option Z) :=
  match l with
  | [] => None
  | t :: l => if block t =? b then Some (t, block <$> head l) else ticker_at b l
  end.
(** [nextticker] is read before the handler is called; a block that was deleted
    when the loop comes to it is an access to freed memory. *)
Fixpoint run_tickers (run_tick : Z -> Queue T -> exec (Queue T)) (fuel : nat) (ticker : option Z) q : exec (Queue T) :=
  match ticker with
  | None => ok q
  | Some b =>
      match fuel with
      | O => err OutOfFuel
      | S fuel =>
          match ticker_at b (tickers q) with
          | None => err OutOfBounds
          | Some (t, nextticker) => let* q := run_tick (handler t) q in run_tickers run_tick fuel nextticker q
          end
      end
  end.
Definition TIMER_AddTick (run_tick : Z -> Queue T -> exec (Queue T)) q : exec (Queue T) :=
  let q := cpu_cycles 0 (CPU_CycleMax q) q in
  let q := set_ticks (u32 (PIC_Ticks q + 1)) q in
  let* es := lower_loop (queue_fuel q) (next_entry q) (entries q) in
  let q := set_lists es (free_entry q) (next_entry q) q in
  run_tickers run_tick (S (length (tickers q))) (block <$> head (tickers q)) q.

(** ** Set-up: the free list threads the entries in order. *)
Fixpoint link_free (n : nat) (i : Z) (es : list (PICEntry T)) : exec (list (PICEntry T)) :=
  match n with
  | O => set_next i None es
  | S n => let* es := set_next i (Some (i + 1)) es in link_free n (i + 1) es
  end.
Definition init_queue q : exec (Queue T) :=
  let* es := link_free (PIC_QUEUESIZE - 1) 0 (entries q) in ok (set_lists es (Some 0) None q).
End Operations.
