(* ===== verification/EventQueueProofs.v ===== *)
(** * The event queue keeps its events in order

    The linked lists of the queue as lists of entries, the invariant that ties
    the pending and the free entries to the array, and the operations of the
    queue as operations on the list of pending events. *)
From Stdlib Require Import Sorted.
From S2P Require Import Prelude.
From S2P Require Import Pic.
From S2P Require Import EventQueue.
#[local] Open Scope Z_scope.
#[local] Open Scope exec_scope.

(** ** Chains *)
Section Chains.
Context {T : Type}.
Implicit Types (es : list (PICEntry T)) (l : list Z).

(** From [head], following [next] visits the entries [l]. *)
Fixpoint thread es (head : option Z) l : Prop :=
  match l with
  | [] => head = None
  | i :: l => head = Some i /\ exists e, get es i = Some e /\ thread es (next e) l
  end.

(** An event: its time, its value and its handler. *)
Definition event : Type := T * Z * Z.
Definition ev (e : PICEntry T) : event := (index e, value e, pic_event e).
Definition contents es l : list event := omap (fun i => ev <$> get es i) l.
(** The same events, linked in another way. *)
Definition same_events es es' : Prop := forall j, ev <$> get es' j = ev <$> get es j.

Lemma thread_range es h l : thread es h l -> forall i, i ∈ l -> 0 <= i < Z.of_nat (length es).
Proof using.
  revert h. induction l as [|j l IH]; intros h Hc i Hi; [by apply elem_of_nil in Hi|].
  destruct Hc as (-> & e & He & Hc). apply elem_of_cons in Hi as [-> | Hi]; [|eauto].
  by apply get_Some_range in He.
Qed.
Lemma thread_agree es es' h l : (forall i, i ∈ l -> get es' i = get es i) -> thread es h l -> thread es' h l.
Proof using.
  revert h. induction l as [|i l IH]; intros h Hg Hc; [done|]. destruct Hc as (-> & e & He & Hc).
  split; [done|]. exists e. split; [by rewrite Hg by left|]. apply IH; [|done]. intros. apply Hg. by right.
Qed.
Lemma thread_det es h l l' : thread es h l -> thread es h l' -> l = l'.
Proof using.
  revert h l'. induction l as [|i l IH]; intros h [|j l'] H1 H2; cbn [thread] in *; [done| | |].
  - destruct H2 as [E _]. congruence.
  - destruct H1 as [E _]. congruence.
  - destruct H1 as (-> & e & He & H1), H2 as (E & e' & He' & H2). simplify_eq. f_equal. eauto.
Qed.
Lemma thread_upd es h l i e : 0 <= i -> i ∉ l -> thread es h l -> thread (upd es i e) h l.
Proof using. intros Hr Hi. apply thread_agree. intros j Hj. apply get_upd_ne; [done|]. by intros ->. Qed.
Lemma contents_agree es es' l : (forall i, i ∈ l -> ev <$> get es' i = ev <$> get es i) -> contents es' l = contents es l.
Proof using.
  induction l as [|i l IH]; intros Hg; [done|]. unfold contents. cbn. rewrite Hg by left.
  fold (contents es' l) (contents es l). rewrite IH; [done|]. intros. apply Hg. by right.
Qed.
Lemma contents_cons es i l e : get es i = Some e -> contents es (i :: l) = ev e :: contents es l.
Proof using. intros He. unfold contents. cbn. by rewrite He. Qed.
Lemma thread_cons es i l e : get es i = Some e -> thread es (Some i) (i :: l) <-> thread es (next e) l.
Proof using. intros He. cbn. split; [intros (_ & e' & ? & ?); by simplify_eq|eauto]. Qed.
Lemma contents_length es h l : thread es h l -> length (contents es l) = length l.
Proof using.
  revert h. induction l as [|i l IH]; intros h Hc; [done|]. destruct Hc as (_ & e & He & Hc).
  rewrite (contents_cons _ _ _ _ He). cbn. f_equal. eauto.
Qed.

Lemma set_next_ok es i e n : get es i = Some e -> set_next i n es = ok (upd es i (with_next n e)).
Proof using.
  intros He. unfold set_next. rewrite (read_get _ _ _ He). cbn. apply write_upd. by apply get_Some_range in He.
Qed.
Lemma same_events_upd es i e e' : get es i = Some e -> ev e' = ev e -> same_events es (upd es i e').
Proof using.
  intros He Hv j. pose proof (get_Some_range _ _ _ He). rewrite get_upd by done.
  destruct (Z.eqb_spec i j) as [<-|]; [by rewrite He; cbn; rewrite Hv|done].
Qed.
Lemma same_events_trans es es' es'' : same_events es es' -> same_events es' es'' -> same_events es es''.
Proof using. intros H1 H2 j. by rewrite H2, H1. Qed.
Lemma same_events_contents es es' l : same_events es es' -> contents es' l = contents es l.
Proof using. intros Hs. apply contents_agree. intros. apply Hs. Qed.
End Chains.

(** ** Linking and unlinking *)
Section Linking.
Context {T : Type}.
Implicit Types (es : list (PICEntry T)) (l : list Z).

Lemma link_after es f l entry ef e :
  thread es (Some f) (f :: l) -> NoDup (f :: l) -> entry ∉ f :: l -> get es entry = Some e -> get es f = Some ef ->
  exists es', (let* es := set_next entry (next ef) es in set_next f (Some entry) es) = ok es' /\
    thread es' (Some f) (f :: entry :: l) /\ same_events es es' /\ length es' = length es /\
    (forall j, j <> entry -> j <> f -> get es' j = get es j).
Proof using.
  intros Hc Hd Hn He Hf. apply not_elem_of_cons in Hn as [Hne Hn]. apply list.NoDup_cons in Hd as [Hfl Hd].
  pose proof (get_Some_range _ _ _ He) as Hre. pose proof (get_Some_range _ _ _ Hf) as Hrf.
  rewrite thread_cons in Hc by exact Hf.
  rewrite (set_next_ok _ _ _ _ He). cbn [exec_bind]. set (es1 := upd es entry (with_next (next ef) e)).
  assert (get es1 f = Some ef) as Hf1 by (unfold es1; rewrite get_upd_ne; [done|lia|done]).
  rewrite (set_next_ok _ _ _ _ Hf1). eexists. split; [done|].
  set (es2 := upd es1 f (with_next (Some entry) ef)).
  assert (length es1 = length es) as L1 by apply length_upd.
  assert (get es2 f = Some (with_next (Some entry) ef)) as G1 by (apply get_upd_eq; lia).
  assert (get es2 entry = Some (with_next (next ef) e)) as G2.
  { unfold es2, es1. rewrite get_upd_ne by lia. apply get_upd_eq. lia. }
  split; [|split; [|split; [by unfold es2, es1; rewrite !length_upd|]]].
  - rewrite (thread_cons _ _ _ _ G1). cbn [with_next next]. rewrite (thread_cons _ _ _ _ G2). cbn [with_next next].
    unfold es2, es1. do 2 (apply thread_upd; [lia|done|]). done.
  - apply (same_events_trans _ es1); eapply same_events_upd; eauto.
  - intros j H1 H2. unfold es2, es1. rewrite !get_upd_ne; [done|lia..].
Qed.

(** [prev_entry->next = entry->next]. *)
Lemma unlink_after es h pre p i l ep e :
  thread es h (pre ++ p :: i :: l) -> NoDup (pre ++ p :: i :: l) -> get es p = Some ep -> get es i = Some e ->
  thread (upd es p (with_next (next e) ep)) h (pre ++ p :: l).
Proof using.
  revert h. induction pre as [|j pre IH]; intros h Hc Hd Hp Hi; pose proof (get_Some_range _ _ _ Hp); cbn [app] in *.
  - destruct Hc as (-> & ? & ? & _ & e' & He' & Hc). simplify_eq.
    apply list.NoDup_cons in Hd as [Hpl Hd]. rewrite not_elem_of_cons in Hpl. destruct Hpl as [_ Hpl].
    eapply thread_cons; [by apply get_upd_eq|]. by apply thread_upd; [lia|..].
  - destruct Hc as (-> & ej & Hj & Hc). apply list.NoDup_cons in Hd as [Hjl Hd].
    eapply thread_cons; [rewrite get_upd_ne; [exact Hj|lia|]|by apply IH].
    intros ->. apply Hjl. rewrite elem_of_app, elem_of_cons. auto.
Qed.
(** The entry that follows. *)
Lemma thread_next es h pre i l e : thread es h (pre ++ i :: l) -> get es i = Some e -> thread es (next e) l.
Proof using.
  revert h. induction pre as [|j pre IH]; intros h Hc Hi; destruct Hc as (-> & ej & Hj & Hc); [|eauto].
  by simplify_eq.
Qed.
Lemma thread_head es h l : thread es h l -> h = head l.
Proof using. destruct l; [done|]. by intros [-> _]. Qed.
Lemma thread_get es h l i : thread es h l -> i ∈ l -> exists e, get es i = Some e.
Proof using. intros Hc Hi. apply get_range. by eapply thread_range. Qed.
End Linking.

(** ** The invariant *)
Section Invariant.
Context {T : Type} `{Double T}.
Implicit Types (q : Queue T) (l : list Z).

Definition time (x : event (T:=T)) : T := x.1.1.
Definition before (x y : event (T:=T)) : Prop := dle (time x) (time y) = true.

(** [act] are the pending entries in the order of the list, [fr] the free ones,
    [det] those of events being served. *)
Record queue_ok q (act fr det : list Z) : Prop := {
  ok_act : thread (entries q) (next_entry q) act;
  ok_free : thread (entries q) (free_entry q) fr;
  ok_nodup : NoDup (act ++ fr ++ det);
  ok_det : forall i, i ∈ det -> 0 <= i < Z.of_nat (length (entries q));
  ok_sorted : StronglySorted before (contents (entries q) act) }.
Definition pending q act : list event := contents (entries q) act.

Lemma ok_fuel q act fr det : queue_ok q act fr det -> (length act < queue_fuel q)%nat.
Proof using.
  intros [Ha _ Hd _ _]. unfold queue_fuel. apply list.NoDup_app in Hd as [Hd _].
  pose proof (distinct_bound act (Z.of_nat (length (entries q))) ltac:(lia) Hd (thread_range _ _ _ Ha)). lia.
Qed.
(** The invariant is about the lists only. *)
Lemma queue_ok_lists q q' act fr det :
  entries q' = entries q -> next_entry q' = next_entry q -> free_entry q' = free_entry q ->
  queue_ok q act fr det -> queue_ok q' act fr det.
Proof using. intros E1 E2 E3 [H1 H2 H3 H4 H5]. split; rewrite ?E1, ?E2, ?E3; done. Qed.

(** All but the lists and the split of the cycles between [CPU_Cycles] and
    [CPU_CycleLeft]. *)
Definition same_clock q q' : Prop :=
  InEventService q' = InEventService q /\ srv_lag q' = srv_lag q /\ PIC_Ticks q' = PIC_Ticks q /\
  CPU_CycleMax q' = CPU_CycleMax q /\ tickers q' = tickers q /\ PIC_TickIndexND q' = PIC_TickIndexND q.
End Invariant.
Arguments event T : clear implicits.

(** ** Adding *)
Section Adding.
Context {T : Type} `{Double T} `{!DoubleLaws T}.
Implicit Types (q : Queue T) (x y : event T).

(** After every event that is not later. *)
Fixpoint insert_event x (l : list (event T)) : list (event T) :=
  match l with
  | [] => [x]
  | y :: l => if dgt (time y) (time x) then x :: y :: l else y :: insert_event x l
  end.

Lemma insert_perm x (l : list (event T)) : insert_event x l ≡ₚ x :: l.
Proof using.
  induction l as [|y l IH]; [done|]. cbn. destruct (dgt _ _); [done|]. rewrite IH. apply Permutation_swap.
Qed.
Lemma not_gt_before x y : dgt (time y) (time x) = false -> before y x.
Proof using. unfold dgt, before. by destruct (dle _ _). Qed.
Lemma gt_before x y : dgt (time y) (time x) = true -> before x y.
Proof using Type*. unfold dgt, before. destruct (dle_total (time x) (time y)) as [-> | ->]; done. Qed.
Lemma before_trans x y z : before x y -> before y z -> before x z.
Proof using Type*. apply dle_trans. Qed.
Lemma insert_sorted x (l : list (event T)) : StronglySorted before l -> StronglySorted before (insert_event x l).
Proof using Type*.
  induction 1 as [|y l Hs IH Hy]; [repeat constructor|]. cbn. destruct (dgt (time y) (time x)) eqn:G.
  - pose proof (gt_before _ _ G) as Hb. repeat constructor; [done..|].
    eapply list.Forall_impl; [exact Hy|]. intros z. by apply before_trans.
  - constructor; [done|]. rewrite insert_perm. constructor; [by apply not_gt_before|done].
Qed.

Lemma insert_later x y (l : list (event T)) :
  dgt (time y) (time x) = false -> insert_event x (y :: l) = y :: insert_event x l.
Proof using. cbn. by intros ->. Qed.

Lemma AddEntry_loop_spec fuel es f (l : list Z) entry ef e :
  thread es (Some f) (f :: l) -> NoDup (f :: l) -> entry ∉ f :: l -> (length l < fuel)%nat ->
  get es entry = Some e -> get es f = Some ef -> dgt (index ef) (index e) = false ->
  exists es' l', AddEntry_loop fuel f entry es = ok es' /\ thread es' (Some f) (f :: l') /\
    contents es (f :: l') = insert_event (ev e) (contents es (f :: l)) /\ same_events es es' /\
    length es' = length es /\ (forall j, j ∉ entry :: f :: l -> get es' j = get es j) /\ l' ≡ₚ entry :: l.
Proof using.
  revert f l ef. induction fuel as [|fuel IH]; intros f l ef Hc Hd Hn Hl He Hf Hgt; [lia|].
  pose proof (proj1 (thread_cons _ _ _ _ Hf) Hc) as Hcl.
  cbn [AddEntry_loop]. rewrite (read_get _ _ _ Hf), (read_get _ _ _ He). cbn [exec_bind].
  rewrite !(contents_cons _ _ _ _ Hf). cbn [insert_event]. change (dgt (time (ev ef)) (time (ev e))) with (dgt (index ef) (index e)).
  rewrite Hgt.
  assert (forall es', same_events es es' -> length es' = length es -> thread es' (Some f) (f :: entry :: l) ->
    (let* es := set_next entry (next ef) es in set_next f (Some entry) es) = ok es' ->
    (forall j, j <> entry -> j <> f -> get es' j = get es j) ->
    insert_event (ev e) (contents es l) = ev e :: contents es l ->
    exists es' l', (let* es := set_next entry (next ef) es in set_next f (Some entry) es) = ok es' /\ thread es' (Some f) (f :: l') /\
    contents es (f :: l') = ev ef :: insert_event (ev e) (contents es l) /\ same_events es es' /\
    length es' = length es /\ (forall j, j ∉ entry :: f :: l -> get es' j = get es j) /\ l' ≡ₚ entry :: l) as Hhere.
  { intros es' H1 H2 H3 H4 H5 ->. exists es', (entry :: l). rewrite (contents_cons _ _ _ _ Hf), (contents_cons _ _ _ _ He).
    split; [done|]. split; [done|]. split; [done|]. split; [done|]. split; [done|]. split; [|done].
    intros j Hj. rewrite !not_elem_of_cons in Hj. apply H5; tauto. }
  destruct (link_after es f l entry ef e Hc Hd Hn He Hf) as (es' & E1 & E2 & E3 & E4 & E5).
  destruct l as [|n l].
  - cbn [thread] in Hcl. rewrite Hcl in *. apply (Hhere es'); done.
  - destruct Hcl as (En & eg & Hg & Hcl). rewrite En in *. rewrite (read_get _ _ _ Hg). cbn [exec_bind].
    rewrite (contents_cons _ _ _ _ Hg) in *. cbn [insert_event] in Hhere |- *.
    change (dgt (time (ev eg)) (time (ev e))) with (dgt (index eg) (index e)) in *.
    destruct (dgt (index eg) (index e)) eqn:G; [by apply (Hhere es')|]. clear Hhere.
    apply list.NoDup_cons in Hd as [Hfl Hd]. rewrite not_elem_of_cons in Hn. destruct Hn as [Hnf Hn].
    destruct (IH n l eg) as (es2 & l2 & L1 & L2 & L3 & L4 & L5 & L6 & L7); try done.
    { by apply (thread_cons _ _ _ _ Hg). } { cbn in Hl. lia. }
    exists es2, (n :: l2). split; [done|]. rewrite !(contents_cons _ _ _ _ Hg), insert_later in L3 by done.
    split; [|split; [by rewrite (contents_cons _ _ _ _ Hf), (contents_cons _ _ _ _ Hg), L3|split; [done|split; [done|split]]]].
    + apply (thread_cons _ _ _ ef); [|by rewrite En].
      rewrite L6; [done|]. rewrite not_elem_of_cons. split; [congruence|done].
    + intros j Hj. apply L6. rewrite !not_elem_of_cons in *. tauto.
    + rewrite L7. apply Permutation_swap.
Qed.

(** What [AddEntry] does last: end the processor's slice if it would run past the
    first event. *)
Definition wake (first : T) q : exec (Queue T) :=
  let* cycles := PIC_MakeCycles (dsub first (PIC_TickIndex q)) q in
  ok (if cycles <? CPU_Cycles (pics q) then cpu_cycles 0 (CPU_CycleLeft (pics q) + CPU_Cycles (pics q)) q else q).

(** The invariant after [entry] was linked among the pending entries. *)
Lemma relinked_ok q act fr det entry e es act' first :
  queue_ok q act fr (entry :: det) -> get (entries q) entry = Some e ->
  thread es (Some first) act' -> same_events (entries q) es -> length es = length (entries q) ->
  (forall j, j ∉ entry :: act -> get es j = get (entries q) j) -> act' ≡ₚ entry :: act ->
  contents (entries q) act' = insert_event (ev e) (contents (entries q) act) ->
  let q' := set_lists es (free_entry q) (Some first) q in
  queue_ok q' act' fr det /\ pending q' act' = insert_event (ev e) (pending q act).
Proof using Type*.
  intros [Ha Hfr Hd Hr Hs] He Hc Hse Hlen Hg Hp Hi q'.
  apply list.NoDup_app in Hd as (Hda & Hdis & Hdf). pose proof Hdf as Hdf'.
  apply list.NoDup_app in Hdf' as (_ & Hfe & _).
  assert (contents es act' = insert_event (ev e) (contents (entries q) act)) as Hcon.
  { by rewrite (same_events_contents _ _ _ Hse). }
  split; [|done]. split; cbn.
  - done.
  - eapply thread_agree, Hfr. intros j Hj. apply Hg. rewrite not_elem_of_cons. split.
    + intros ->. by apply (Hfe _ Hj); left.
    + intros Hja. by apply (Hdis _ Hja), elem_of_app; left.
  - assert (act' ++ fr ++ det ≡ₚ act ++ fr ++ entry :: det) as ->.
    { by rewrite Hp, <- (Permutation_middle fr), <- (Permutation_middle act). }
    by apply list.NoDup_app.
  - intros i Hi'. rewrite Hlen. apply Hr. by right.
  - rewrite Hcon. by apply insert_sorted.
Qed.
Lemma fresh_entry q act fr det entry : queue_ok q act fr (entry :: det) -> (entry ∉ act) /\ (entry ∉ fr).
Proof using.
  intros [_ _ Hd _ _]. apply list.NoDup_app in Hd as (_ & Hdis & Hdf). apply list.NoDup_app in Hdf as (_ & Hfe & _).
  split; intros Hi; [by apply (Hdis _ Hi), elem_of_app; right; left|by apply (Hfe _ Hi); left].
Qed.

(** Linking in front. *)
Lemma link_first q act fr det entry e :
  queue_ok q act fr (entry :: det) -> get (entries q) entry = Some e ->
  insert_event (ev e) (pending q act) = ev e :: pending q act ->
  let es := upd (entries q) entry (with_next (next_entry q) e) in
  let q' := set_lists es (free_entry q) (Some entry) q in
  queue_ok q' (entry :: act) fr det /\ pending q' (entry :: act) = insert_event (ev e) (pending q act).
Proof using Type*.
  intros Hok He Hi es. pose proof (get_Some_range _ _ _ He). destruct (fresh_entry _ _ _ _ _ Hok) as [Hn _].
  eapply relinked_ok; [exact Hok|exact He| | |by unfold es; rewrite length_upd| |done|].
  - eapply thread_cons; [by apply get_upd_eq|]. apply thread_upd; [lia|done|]. apply Hok.
  - by eapply same_events_upd.
  - intros j Hj. rewrite not_elem_of_cons in Hj. destruct Hj as [Hj _]. apply get_upd_ne; [lia|congruence].
  - unfold pending in Hi. by rewrite (contents_cons _ _ _ _ He).
Qed.

Lemma AddEntry_spec q act fr det entry e :
  queue_ok q act fr (entry :: det) -> get (entries q) entry = Some e ->
  exists es first act', let q' := set_lists es (free_entry q) (Some first) q in
    queue_ok q' act' fr det /\ pending q' act' = insert_event (ev e) (pending q act) /\
    exists f, get es first = Some f /\ AddEntry entry q = wake (index f) q'.
Proof using Type*.
  intros Hok He. pose proof (ok_fuel _ _ _ _ Hok) as Hfuel. destruct (fresh_entry _ _ _ _ _ Hok) as [Hea _].
  pose proof (get_Some_range _ _ _ He) as Hre.
  assert (forall nx, get (upd (entries q) entry (with_next nx e)) entry = Some (with_next nx e)) as Ge.
  { intros. by apply get_upd_eq. }
  pose proof (link_first q act fr det entry e Hok He) as Hfirst. cbv zeta in Hfirst.
  pose proof (ok_act _ _ _ _ Hok) as Ha. unfold AddEntry. destruct act as [|f act].
  - cbn [thread] in Ha. rewrite Ha in *. rewrite (set_next_ok _ _ _ _ He). cbn [exec_bind].
    eexists _, entry, [entry]. cbn [set_lists next_entry entries]. rewrite (read_get _ _ _ (Ge None)).
    apply and_assoc. split; [by apply Hfirst|by eexists].
  - pose proof Ha as (En & ef & Hf & _). rewrite En in *.
    rewrite (read_get _ _ _ Hf), (read_get _ _ _ He). cbn [exec_bind].
    unfold pending in Hfirst at 1 2. rewrite (contents_cons _ _ _ _ Hf) in Hfirst. cbn [insert_event] in Hfirst.
    change (dgt (time (ev ef)) (time (ev e))) with (dgt (index ef) (index e)) in Hfirst.
    destruct (dgt (index ef) (index e)) eqn:G.
    + rewrite (set_next_ok _ _ _ _ He). cbn [exec_bind].
      eexists _, entry, (entry :: f :: act). cbn [set_lists next_entry entries]. rewrite (read_get _ _ _ (Ge _)).
      apply and_assoc. split; [by apply Hfirst|by eexists].
    + clear Hfirst. pose proof Hok as [_ _ Hd _ _]. apply list.NoDup_app in Hd as [Hd _].
      destruct (AddEntry_loop_spec (queue_fuel q) (entries q) f act entry ef e) as
        (es & act' & E1 & E2 & E3 & E4 & E5 & E6 & E7); try done. { cbn in Hfuel. lia. }
      rewrite E1. cbn [exec_bind set_lists next_entry entries].
      destruct (get_range es f) as [f' Hf']. { rewrite E5. by apply get_Some_range in Hf. }
      exists es, f, (f :: act'). rewrite (read_get _ _ _ Hf').
      apply and_assoc. split; [|by exists f'].
      eapply relinked_ok; try done. rewrite E7. apply Permutation_swap.
Qed.
End Adding.
