(* ===== verification/EventOrder.v ===== *)
(** * Adding and removing events

    What [PIC_AddEvent] and the two removals do to the list of pending events and to
    the processor's time slice; the queue at start-up; and times as integers, for
    concrete runs. *)
From Stdlib Require Import Sorted.
From S2P Require Import Prelude.
From S2P Require Import Pic.
From S2P Require Import EventQueue.
From S2P Require Import EventQueueProofs.
#[local] Open Scope Z_scope.
#[local] Open Scope exec_scope.

(** ** A concrete arithmetic: times in 2{^-16} of a tick, as integers *)
#[export] Instance fixed_double : Double Z := {
  dle := Z.leb; dadd := Z.add; dsub := Z.sub;
  dmul := fun a b => a * b / 65536; ddiv := fun a b => a * 65536 / b;
  of_int := fun n => n * 65536; to_int := fun x => Z.quot x 65536;
  in_int32 := fun x => (-2147483649 <? Z.quot x 65536) && (Z.quot x 65536 <? 2147483648) }.
#[export] Instance fixed_double_laws : DoubleLaws Z.
Proof.
  split; cbn.
  - intros a b c. rewrite !Z.leb_le. lia.
  - intros a b. rewrite !Z.leb_le. lia.
  - intros a b c. rewrite !Z.leb_le. lia.
  - intros a b n Hn. rewrite !Z.leb_le. intros. apply Z.div_le_mono; [lia|]. nia.
Qed.

Lemma fixed_scale (a n : Z) : dmul a (of_int n) = a * n.
Proof. cbn. by rewrite Z.mul_assoc, Z.div_mul. Qed.
Lemma fixed_scale_l (a n : Z) : dmul (of_int n) a = a * n.
Proof. rewrite <- fixed_scale. unfold dmul, fixed_double. by rewrite Z.mul_comm. Qed.
Lemma fixed_fits (x : Z) : -70368744177664 <= x <= 70368744177664 -> in_int32 x = true.
Proof.
  intros Hx. cbn. rewrite andb_true_iff, !Z.ltb_lt. pose proof (Z.quot_rem' x 65536).
  pose proof (Z.rem_bound_abs x 65536 ltac:(done)). lia.
Qed.

(** The controllers at start-up, in the middle of a tick of 3000 cycles. *)
Definition start_pics : PicState :=
  PIC_8259A true false (mkPics (reset_controller 0) (reset_controller 0) 0 1000 1000 [] 0).

Lemma link_free_spec {T} n i (es : list (PICEntry T)) :
  0 <= i -> i + Z.of_nat n < Z.of_nat (length es) ->
  exists es', link_free n i es = ok es' /\ length es' = length es /\ (forall j, j < i -> get es' j = get es j) /\
    thread es' (Some i) (seqZ i (Z.of_nat n + 1)).
Proof.
  revert i es. induction n as [|n IH]; intros i es Hi Hn; destruct (get_range es i) as [e He]; [lia| |lia|]; cbn [link_free].
  - rewrite (set_next_ok _ _ _ _ He). eexists. split; [done|]. split; [apply length_upd|].
    split; [intros; destruct (Z.le_gt_cases 0 j); [apply get_upd_ne; lia|by unfold get; destruct (Z.ltb_spec j 0); [|lia]]|].
    rewrite seqZ_cons by lia. replace (Z.pred _) with 0 by lia. cbn [seqZ]. change (seqZ (Z.succ i) 0) with (@nil Z).
    eapply thread_cons; [apply get_upd_eq; lia|done].
  - rewrite (set_next_ok _ _ _ _ He). cbn [exec_bind]. set (es1 := upd _ _ _).
    assert (length es1 = length es) as L1 by apply length_upd.
    destruct (IH (i + 1) es1) as (es' & E & L & G & C); [lia..|]. exists es'. split; [done|]. split; [lia|]. split.
    + intros j Hj. rewrite G by lia. destruct (Z.le_gt_cases 0 j); [apply get_upd_ne; lia|by unfold get; destruct (Z.ltb_spec j 0); [|lia]].
    + rewrite seqZ_cons by lia. replace (Z.pred (Z.of_nat (S n) + 1)) with (Z.of_nat n + 1) by lia.
      apply (thread_cons _ _ _ (with_next (Some (i + 1)) e)); [|by rewrite <- Z.add_1_r].
      rewrite G by lia. apply get_upd_eq. lia.
Qed.
Lemma init_queue_ok {T} `{Double T} (q : Queue T) :
  length (entries q) = PIC_QUEUESIZE ->
  exists es, init_queue q = ok (set_lists es (Some 0) None q) /\ queue_ok (set_lists es (Some 0) None q) [] (seqZ 0 512) [].
Proof.
  intros Hl. unfold init_queue. destruct (link_free_spec (PIC_QUEUESIZE - 1) 0 (entries q)) as (es & E & L & _ & C).
  - lia.
  - rewrite Hl. done.
  - rewrite E. eexists. split; [done|]. split; cbn; [done|exact C| | |constructor].
    + rewrite app_nil_r. apply NoDup_seqZ.
    + intros i Hi. by apply elem_of_nil in Hi.
Qed.

(** ** Adding *)
Section Adding.
Context {T : Type} `{Double T} `{!DoubleLaws T}.
Implicit Types (q : Queue T).

Definition arrival (delay : T) q : T := dadd delay (if InEventService q then srv_lag q else PIC_TickIndex q).

(** What is left of the slice when it may not go past [c] more cycles. *)
Definition slice_until (c : Z) q : Z := if c <? CPU_Cycles (pics q) then 0 else CPU_Cycles (pics q).
Lemma slice_until_bound c q : slice_until c q = 0 \/ slice_until c q <= c.
Proof using. unfold slice_until. destruct (Z.ltb_spec c (CPU_Cycles (pics q))); auto. Qed.
Lemma slice_until_none c q : CPU_Cycles (pics q) = 0 -> slice_until c q = 0.
Proof using. unfold slice_until. intros ->. by destruct (_ <? _). Qed.

Lemma wake_spec first q :
  in_int32 (dmul (of_int (CPU_CycleMax q)) (dsub first (PIC_TickIndex q))) = true ->
  exists q', wake first q = ok q' /\ entries q' = entries q /\ next_entry q' = next_entry q /\
    free_entry q' = free_entry q /\ same_clock q q' /\
    CPU_Cycles (pics q') = slice_until (to_int (dmul (of_int (CPU_CycleMax q)) (dsub first (PIC_TickIndex q)))) q.
Proof using.
  intros Hi. unfold wake, PIC_MakeCycles, to_int32. rewrite Hi. cbn [exec_bind]. eexists. split; [done|].
  set (c := to_int _). clearbody c. unfold same_clock, PIC_TickIndexND, slice_until.
  destruct (Z.ltb_spec c (CPU_Cycles (pics q))); cbn; repeat split; lia.
Qed.

(** The invariant once the first free entry was taken and filled. *)
Lemma take_free q act fr det entry e e' :
  queue_ok q act (entry :: fr) det -> get (entries q) entry = Some e ->
  let q' := set_lists (upd (entries q) entry e') (next e) (next_entry q) q in
  queue_ok q' act fr (entry :: det) /\ pending q' act = pending q act.
Proof using.
  intros [Ha Hf Hd Hr Hs] He q'. pose proof (get_Some_range _ _ _ He) as Hre. destruct Hf as (_ & e1 & He1 & Hf). simplify_eq.
  assert (NoDup (act ++ fr ++ entry :: det)) as Hd' by (by rewrite <- (Permutation_middle fr)).
  assert ((entry ∉ act) /\ (entry ∉ fr)) as [Hea Hef].
  { apply list.NoDup_app in Hd' as (_ & H1 & H2). apply list.NoDup_app in H2 as (_ & H2 & _).
    split; intros Hi; [by apply (H1 _ Hi), elem_of_app; right; left|by apply (H2 _ Hi); left]. }
  assert (pending q' act = pending q act) as Hp.
  { apply contents_agree. intros i Hi. cbn. rewrite get_upd_ne; [done|lia|by intros ->]. }
  split; [|done]. split.
  - apply thread_upd; [lia|done..].
  - apply thread_upd; [lia|done..].
  - done.
  - intros i Hi. cbn. rewrite length_upd. apply elem_of_cons in Hi as [-> |]; auto.
  - unfold pending in Hp. by rewrite Hp.
Qed.

(** Adding with a free entry: the lists, then the slice. *)
Lemma add_event_wake q act entry fr det handler delay val first :
  queue_ok q act (entry :: fr) det ->
  let evs := insert_event (arrival delay q, val, handler) (pending q act) in
  head evs = Some first ->
  exists q2 act', PIC_AddEvent handler delay val q = wake (time first) q2 /\ queue_ok q2 act' fr det /\
    pending q2 act' = evs /\ same_clock q q2 /\ pics q2 = pics q.
Proof using Type*.
  intros Hok evs Hfirst. unfold PIC_AddEvent. pose proof (ok_free _ _ _ _ Hok) as Hfr.
  destruct Hfr as (-> & e & He & _). rewrite (read_get _ _ _ He). cbn [exec_bind].
  rewrite (write_upd _ _ _ (get_Some_range _ _ _ He)). cbn [exec_bind].
  set (e' := mkEntry _ _ _ _). assert (ev e' = (arrival delay q, val, handler)) as Hev by (unfold arrival; by destruct (InEventService q)).
  destruct (take_free _ _ _ _ _ _ e' Hok He) as [Hok1 Hpend]. set (q1 := set_lists _ _ _ q) in *.
  destruct (AddEntry_spec q1 act fr det entry e' Hok1) as (es & f & act' & Hok2 & Hp2 & x & Hx & Hadd).
  { apply get_upd_eq. by apply get_Some_range in He. }
  cbv zeta in *. rewrite Hpend, Hev in Hp2. fold evs in Hp2. set (q2 := set_lists es _ _ q1) in *.
  assert (index x = time first) as Hxf.
  { rewrite <- Hp2 in Hfirst. pose proof (ok_act _ _ _ _ Hok2) as Hc. destruct act' as [|a act']; [done|].
    destruct Hc as (E & x' & Hx' & _). cbn in E, Hx'. injection E as <-. unfold pending in Hfirst.
    rewrite (contents_cons (entries q2) _ _ _ Hx') in Hfirst. cbn in Hfirst. by simplify_eq. }
  exists q2, act'. rewrite Hadd, Hxf. done.
Qed.
Lemma add_event_free q act entry fr det handler delay val first :
  queue_ok q act (entry :: fr) det ->
  let evs := insert_event (arrival delay q, val, handler) (pending q act) in
  let slice := dmul (of_int (CPU_CycleMax q)) (dsub (time first) (PIC_TickIndex q)) in
  head evs = Some first -> in_int32 slice = true ->
  exists q' act', PIC_AddEvent handler delay val q = ok q' /\ queue_ok q' act' fr det /\
    pending q' act' = evs /\ same_clock q q' /\ CPU_Cycles (pics q') = slice_until (to_int slice) q.
Proof using Type*.
  intros Hok evs slice Hfirst Hslice.
  destruct (add_event_wake q act entry fr det handler delay val first Hok Hfirst) as (q2 & act' & E & Hok2 & Hp2 & C & P).
  pose proof C as (C1 & C2 & C3 & C4 & C5 & C6).
  assert (dmul (of_int (CPU_CycleMax q2)) (dsub (time first) (PIC_TickIndex q2)) = slice) as Hs2
    by (unfold slice, PIC_TickIndex; by rewrite C4, C6).
  destruct (wake_spec (time first) q2) as (q3 & E3 & L1 & L2 & L3 & (K1 & K2 & K3 & K4 & K5 & K6) & L5); [by rewrite Hs2|].
  rewrite Hs2 in L5. exists q3, act'. split; [by rewrite E|]. split; [by eapply queue_ok_lists|].
  split; [unfold pending; by rewrite L1|]. split; [unfold same_clock; repeat split; congruence|].
  rewrite L5. unfold slice_until. by rewrite P.
Qed.

(** C18.  [PIC_AddEvent] in a queue with a free entry puts the event after all the
    pending events that are not later, keeps the others in their order and the
    lists consistent, and leaves the processor's slice not past the first event;
    the clock does not move.  In a full queue it does nothing. *)
Theorem add_event_insert q act fr det handler delay val :
  queue_ok q act fr det ->
  let new := (arrival delay q, val, handler) in
  let evs := insert_event new (pending q act) in
  match fr with
  | [] => PIC_AddEvent handler delay val q = ok q
  | _ :: fr' =>
      forall first, head evs = Some first ->
      let slice := dmul (of_int (CPU_CycleMax q)) (dsub (time first) (PIC_TickIndex q)) in
      in_int32 slice = true ->
      exists q' act', PIC_AddEvent handler delay val q = ok q' /\ queue_ok q' act' fr' det /\
        pending q' act' = evs /\ same_clock q q' /\
        (CPU_Cycles (pics q') = 0 \/ CPU_Cycles (pics q') <= to_int slice)
  end.
Proof using Type*.
  intros Hok new evs. destruct fr as [|entry fr].
  - unfold PIC_AddEvent. by rewrite (thread_head _ _ _ (ok_free _ _ _ _ Hok)).
  - intros first Hfirst slice Hfit.
    destruct (add_event_free q act entry fr det handler delay val first Hok Hfirst Hfit) as (q' & act' & E & H1 & H2 & H3 & H4).
    exists q', act'. rewrite H4. do 4 (split; [done|]). apply slice_until_bound.
Qed.
End Adding.

Definition empty_queue : Queue Z :=
  mkQueue (repeat (mkEntry 0 0 0 None) PIC_QUEUESIZE) None None false 0 0 3000 0 [] 1 start_pics.
(** Two events of a third of a tick after start-up; the second to be added comes
    first. *)
Example add_event_insert_witness :
  exists q0 q1 q2 act, init_queue empty_queue = ok q0 /\ PIC_AddEvent 1 65536 7 q0 = ok q1 /\
    PIC_AddEvent 2 32768 8 q1 = ok q2 /\ queue_ok q2 act (seqZ 2 510) [] /\
    pending q2 act = [(54613, 8, 2); (87381, 7, 1)].
Proof.
  destruct (init_queue_ok empty_queue eq_refl) as (es & E0 & H0). set (q0 := set_lists _ _ _ _) in *.
  assert (arrival 65536 q0 = 87381) as Ha0 by reflexivity.
  pose proof (add_event_insert q0 [] (0 :: seqZ 1 511) [] 1 65536 7 H0) as A1. cbv zeta in A1. rewrite Ha0 in A1.
  destruct (A1 (87381, 7, 1)) as (q1 & act1 & E1 & H1 & P1 & C1 & _); [reflexivity|reflexivity|].
  pose proof (add_event_insert q1 act1 (1 :: seqZ 2 510) [] 2 32768 8 H1) as A2. cbv zeta in A2.
  assert (arrival 32768 q1 = 54613) as Ha.
  { destruct C1 as (S1 & _ & _ & S4 & _ & S6). unfold arrival, PIC_TickIndex. by rewrite S1, S4, S6. }
  assert (pending q1 act1 = [(87381, 7, 1)]) as P1' by exact P1.
  rewrite P1', Ha in A2. destruct (A2 (54613, 8, 2)) as (q2 & act2 & E2 & H2 & P2 & _); [done| |].
  { destruct C1 as (_ & _ & _ & S4 & _ & S6). unfold PIC_TickIndex. by rewrite S4, S6. }
  exists q0, q1, q2, act2. exact (conj E0 (conj E1 (conj E2 (conj H2 P2)))).
Defined.

(** ** Removing *)
Section Removing.
Context {T : Type} `{Double T} `{!DoubleLaws T}.
Implicit Types (q : Queue T) (es : list (PICEntry T)).

Lemma StronglySorted_filter {A} (R : A -> A -> Prop) (P : A -> Prop) `{!forall x, Decision (P x)} l :
  StronglySorted R l -> StronglySorted R (filter P l).
Proof using.
  induction 1 as [|x l Hs IH Hx]; [constructor|]. cbn. unfold filter. cbn. fold (filter P l).
  destruct (decide (P x)); [|done]. constructor; [done|]. apply list.Forall_forall. intros y Hy.
  apply list_elem_of_filter in Hy as [_ Hy]. by apply (proj1 (list.Forall_forall _ _) Hx).
Qed.

Section Loop.
Variable m : event T -> bool.
Abbreviation kept x := (m x = false).

(** Moving [i] from behind [pre] to the free list. *)
Lemma unlink_ok es nx fr pre i l frl e :
  thread es nx (pre ++ i :: l) -> thread es fr frl -> NoDup ((pre ++ i :: l) ++ frl) -> get es i = Some e ->
  exists es1, match list.last pre with
    | Some pr => exists ep, get es pr = Some ep /\ set_next pr (next e) es = ok es1
    | None => es1 = es
    end /\
    set_next i fr es1 = ok (upd es1 i (with_next fr e)) /\
    let es2 := upd es1 i (with_next fr e) in
    let nx2 := match list.last pre with Some _ => nx | None => next e end in
    thread es2 nx2 (pre ++ l) /\ thread es2 (Some i) (i :: frl) /\ same_events es es2 /\ length es2 = length es /\
    match list.last pre with Some pr => exists p, get es2 pr = Some p /\ next p = next e | None => True end.
Proof using.
  intros Hc Hf Hd He. pose proof (get_Some_range _ _ _ He) as Hr.
  apply list.NoDup_app in Hd as (Hd & Hdf & _). pose proof Hd as Hd'.
  rewrite <- (Permutation_middle pre) in Hd'. apply list.NoDup_cons in Hd' as [Hi _].
  assert (i ∉ frl) as Hif by (apply Hdf; rewrite elem_of_app, elem_of_cons; auto).
  destruct pre as [|pr pre _] using rev_ind.
  - cbn [list.last app] in *. exists es. split; [done|]. split; [by apply set_next_ok|]. cbv zeta.
    pose proof (proj2 Hc) as (e' & He' & Hc'). simplify_eq.
    split; [apply thread_upd; [lia|done..]|]. split; [|split; [by eapply same_events_upd|by rewrite length_upd]].
    eapply thread_cons; [by apply get_upd_eq|]. apply thread_upd; [lia|done..].
  - rewrite last_snoc, <- app_assoc in *. cbn [app] in *.
    destruct (thread_get _ _ _ pr Hc) as [ep Hp]; [rewrite elem_of_app, elem_of_cons; auto|].
    pose proof (get_Some_range _ _ _ Hp) as Hrp.
    assert (pr <> i) as Hne. { intros ->. apply Hi. rewrite elem_of_app, elem_of_cons. auto. }
    assert (pr ∉ frl) as Hpf by (apply Hdf; rewrite elem_of_app, elem_of_cons; auto).
    set (es1 := upd es pr (with_next (next e) ep)). assert (get es1 i = Some e) as He1.
    { unfold es1. rewrite get_upd_ne; [done|lia|done]. }
    exists es1. split; [exists ep; split; [done|by apply set_next_ok]|]. split; [by apply set_next_ok|]. cbv zeta.
    assert (0 <= i < Z.of_nat (length es1)) as Hr1 by (unfold es1; by rewrite length_upd).
    split; [apply thread_upd; [lia|done|by apply (unlink_after _ _ _ _ i)]|]. split; [|split; [|split]].
    + eapply thread_cons; [by apply get_upd_eq|]. do 2 (apply thread_upd; [lia|done|]). done.
    + eapply same_events_trans; eapply same_events_upd; eauto.
    + unfold es1. by rewrite !length_upd.
    + exists (with_next (next e) ep). split; [|done]. rewrite get_upd_ne by (lia || done). by apply get_upd_eq.
Qed.

Lemma Remove_loop_spec (matches : PICEntry T -> bool) fuel pre l es fr nx frl :
  (forall e, matches e = m (ev e)) -> (length l <= fuel)%nat ->
  thread es nx (pre ++ l) -> thread es fr frl -> NoDup ((pre ++ l) ++ frl) ->
  exists es' fr' nx' l' frl', Remove_loop fuel matches (list.last pre) (head l) es fr nx = ok (es', fr', nx') /\
    thread es' nx' (pre ++ l') /\ thread es' fr' frl' /\ same_events es es' /\ length es' = length es /\
    contents es l' = filter (fun x => kept x) (contents es l) /\ l' ++ frl' ≡ₚ l ++ frl.
Proof using.
  intros Hm. revert pre l es fr nx frl. induction fuel as [|fuel IH]; intros pre l es fr nx frl Hl Hc Hf Hd.
  all: destruct l as [|i l]; [by exists es, fr, nx, [], frl|].
  { cbn in Hl. lia. }
  destruct (thread_get _ _ _ i Hc) as [e He]; [rewrite elem_of_app, elem_of_cons; auto|].
  cbn [Remove_loop head]. rewrite (read_get _ _ _ He). cbn [exec_bind]. rewrite Hm, (contents_cons _ _ _ _ He).
  pose proof (thread_next _ _ _ _ _ _ Hc He) as Hcl. pose proof (thread_head _ _ _ Hcl) as Hn.
  assert (filter (fun x => kept x) (ev e :: contents es l) =
    if m (ev e) then filter (fun x => kept x) (contents es l) else ev e :: filter (fun x => kept x) (contents es l)) as ->.
  { unfold filter. cbn. fold (filter (fun x => kept x) (contents es l)). destruct (m (ev e)), (decide _); congruence. }
  destruct (m (ev e)).
  - destruct (unlink_ok es nx fr pre i l frl e Hc Hf Hd He) as (es1 & H1 & H2 & H3 & H4 & H5 & H6 & H7). cbv zeta in *.
    set (es2 := upd es1 i _) in *.
    destruct (IH pre l es2 (Some i) (match list.last pre with Some _ => nx | None => next e end) (i :: frl)) as
      (es' & fr' & nx' & l' & frl' & E & C1 & C2 & S & L & F & P); [cbn in Hl; lia|done|done| |].
    { rewrite <- (Permutation_middle pre) in Hd. by rewrite <- (Permutation_middle (pre ++ l)). }
    exists es', fr', nx', l', frl'. split; [|split; [done|split; [done|]]].
    + rewrite <- E. destruct (list.last pre) as [pr|].
      * destruct H1 as (ep & _ & ->), H7 as (p & Hp & Hpn). cbn [exec_bind]. rewrite H2. cbn [exec_bind].
        rewrite (read_get _ _ _ Hp). cbn [exec_bind]. by rewrite Hpn, Hn.
      * subst es1. rewrite H2. cbn [exec_bind]. by rewrite Hn.
    + split; [by eapply same_events_trans|]. split; [lia|]. split; [|rewrite P; symmetry; apply Permutation_middle].
      by rewrite <- (same_events_contents _ _ l' H5), F, (same_events_contents _ _ l H5).
  - rewrite Hn. destruct (IH (pre ++ [i]) l es fr nx frl) as (es' & fr' & nx' & l' & frl' & E & C1 & C2 & S & L & F & P).
    1: cbn in Hl; lia. 1, 3: by rewrite <- (app_assoc pre). 1: done.
    rewrite last_snoc in E. exists es', fr', nx', (i :: l'), frl'.
    rewrite <- (app_assoc pre) in C1. do 5 (split; [done|]). split; [by rewrite (contents_cons _ _ _ _ He), F|].
    cbn. by rewrite P.
Qed.
End Loop.

Lemma remove_matching_spec q act fr det (matches : PICEntry T -> bool) (m : event T -> bool) :
  (forall e, matches e = m (ev e)) -> queue_ok q act fr det ->
  exists q' act' fr', remove_matching matches q = ok q' /\ queue_ok q' act' fr' det /\
    pending q' act' = filter (fun x => m x = false) (pending q act) /\
    (length act' + length fr' = length act + length fr)%nat /\ same_clock q q' /\ pics q' = pics q.
Proof using.
  intros Hm Hok. pose proof (ok_fuel _ _ _ _ Hok) as Hfuel. destruct Hok as [Ha Hf Hd Hr Hs].
  assert (NoDup (act ++ fr)) as Hd' by (rewrite app_assoc in Hd; by apply list.NoDup_app in Hd as [? _]).
  destruct (Remove_loop_spec m matches (queue_fuel q) [] act (entries q) (free_entry q) (next_entry q) fr) as
    (es & fr' & nx & act' & frl & E & C1 & C2 & S & L & F & P); [done|lia|done..|].
  unfold remove_matching. cbn [list.last] in E. rewrite <- (thread_head _ _ _ Ha) in E. rewrite E. cbn [exec_bind].
  assert (pending (set_lists es fr' nx q) act' = filter (fun x => m x = false) (pending q act)) as Hp.
  { unfold pending. cbn. by rewrite (same_events_contents _ _ _ S), F. }
  eexists _, act', frl. split; [done|]. split; [|split; [done|split; [|done]]].
  - split; [done..| | |].
    + rewrite app_assoc in *. by rewrite P.
    + cbn. by rewrite L.
    + unfold pending in Hp. rewrite Hp. by apply StronglySorted_filter.
  - rewrite <- !length_app. by apply Permutation_length.
Qed.

(** [PIC_RemoveEvents] removes exactly the events of the handler, whatever
    their values, and [PIC_RemoveSpecificEvents] those with the value, the others
    keeping their order; the entries go back to the free list and no entry is
    lost.  Neither touches the clock or the processor's slice. *)
Theorem remove_events_filter q act fr det handler val :
  queue_ok q act fr det ->
  let removes op keep := exists q' act' fr', op q = ok q' /\ queue_ok q' act' fr' det /\
    pending q' act' = filter (fun x => keep x = true) (pending q act) /\
    (length act' + length fr' = length act + length fr)%nat /\ same_clock q q' /\ pics q' = pics q in
  removes (PIC_RemoveEvents handler) (fun '(_, _, h) => negb (h =? handler)) /\
  removes (PIC_RemoveSpecificEvents handler val) (fun '(_, v, h) => negb ((h =? handler) && (v =? val))).
Proof using.
  intros Hok removes.
  assert (forall (m : event T -> bool) (matches : PICEntry T -> bool) op keep, (forall x, keep x = negb (m x)) ->
    (forall e, matches e = m (ev e)) -> op = remove_matching matches -> removes op keep) as Hgen.
  { intros m matches op keep Hk Hm ->. destruct (remove_matching_spec q act fr det matches m Hm Hok) as (q' & act' & fr' & H1 & H2 & H3 & H4).
    exists q', act', fr'. split; [done|]. split; [done|]. split; [|done]. rewrite H3.
    apply list_filter_iff. intros x. rewrite Hk. by destruct (m x). }
  split.
  - by apply (Hgen (fun x => x.2 =? handler) (fun e => pic_event e =? handler)); [intros [[? ?] ?]|..].
  - by apply (Hgen (fun x => (x.2 =? handler) && (x.1.2 =? val)) (fun e => (pic_event e =? handler) && (value e =? val)));
      [intros [[? ?] ?]|..].
Qed.
End Removing.

(** Three events, of which the removals take two and one. *)
Definition two_handlers : Queue Z :=
  mkQueue [mkEntry 10 1 5 (Some 2); mkEntry 0 0 0 None; mkEntry 20 2 6 (Some 3); mkEntry 30 3 5 None]
    (Some 1) (Some 0) false 0 0 3000 0 [] 1 start_pics.
Lemma two_handlers_ok : queue_ok two_handlers [0; 2; 3] [1] [].
Proof.
  split.
  - repeat (split; [done|eexists; split; [reflexivity|]]); done.
  - repeat (split; [done|eexists; split; [reflexivity|]]); done.
  - refine (bool_decide_unpack _ _). by vm_compute.
  - intros i Hi. by apply elem_of_nil in Hi.
  - repeat constructor.
Qed.
Example remove_events_filter_witness :
  exists q act fr, PIC_RemoveEvents 5 two_handlers = ok q /\ queue_ok q act fr [] /\ pending q act = [(20, 2, 6)].
Proof.
  destruct (remove_events_filter two_handlers [0; 2; 3] [1] [] 5 3 two_handlers_ok) as [(q & act & fr & E & H & P & _) _].
  exists q, act, fr. exact (conj E (conj H P)).
Defined.
