(* ===== verification/EventService.v ===== *)
(** * Ticks, and serving the events that are due

    [TIMER_AddTick] and its tick handlers; [PIC_RunQueue] and the contract its
    event handlers are run under. *)
From Stdlib Require Import Sorted.
From S2P Require Import Prelude.
From S2P Require Import Pic.
From S2P Require Import EventQueue.
From S2P Require Import EventQueueProofs.
From S2P Require Import EventOrder.
#[local] Open Scope Z_scope.
#[local] Open Scope exec_scope.

(** ** The tick *)
Section Ticks.
Context {T : Type} `{Double T} `{!DoubleLaws T}.
Implicit Types (q : Queue T) (es : list (PICEntry T)) (l : list TickerBlock).

Definition older (x : event T) : event T := let '(t, v, h) := x in (dsub t (of_int 1), v, h).
Definition age (e : PICEntry T) : PICEntry T := with_index (dsub (index e) (of_int 1)) e.

Lemma lower_loop_spec fuel h (c : list Z) es :
  thread es h c -> NoDup c -> (length c <= fuel)%nat ->
  exists es', lower_loop fuel h es = ok es' /\ length es' = length es /\
    forall j, get es' j = if decide (j ∈ c) then age <$> get es j else get es j.
Proof using.
  revert fuel h es. induction c as [|i c IH]; intros fuel h es Hc Hd Hf.
  - cbn in Hc. subst h. exists es. destruct fuel; (split; [done|]); split; [done| |done|]; intros j;
      (destruct (decide (j ∈ [])) as [Hj|]; [by apply elem_of_nil in Hj|done]).
  - destruct Hc as (-> & e & He & Hc). apply list.NoDup_cons in Hd as [Hi Hd].
    destruct fuel as [|fuel]; [cbn in Hf; lia|]. pose proof (get_Some_range _ _ _ He).
    cbn [lower_loop]. rewrite (read_get _ _ _ He). cbn [exec_bind]. rewrite write_upd by done. cbn [exec_bind].
    change (with_index _ e) with (age e).
    destruct (IH fuel (next e) (upd es i (age e))) as (es' & E & L & G); [by apply thread_upd; [lia|..]|done|cbn in Hf; lia|].
    exists es'. split; [done|]. split; [by rewrite L, length_upd|]. intros j. rewrite G, get_upd by done.
    destruct (Z.eqb_spec i j) as [<-|].
    + rewrite decide_False by done. rewrite decide_True by left. by rewrite He.
    + destruct (decide (j ∈ c)); [by rewrite decide_True by (by right)|].
      rewrite decide_False; [done|]. rewrite elem_of_cons. intros [-> |]; done.
Qed.
Lemma chain_same_next es es' h (c : list Z) :
  (forall i, i ∈ c -> next <$> get es' i = next <$> get es i) -> thread es h c -> thread es' h c.
Proof using.
  revert h. induction c as [|i c IH]; intros h Hn Hc; [done|]. destruct Hc as (-> & e & He & Hc).
  pose proof (Hn i ltac:(left)) as Hi. rewrite He in Hi. destruct (get es' i) as [e'|] eqn:He'; [|done].
  cbn in Hi. injection Hi as Hi. split; [done|]. exists e'. split; [done|]. rewrite Hi. apply IH; [|done].
  intros j Hj. apply Hn. by right.
Qed.
Lemma older_sorted (evs : list (event T)) : StronglySorted before evs -> StronglySorted before (older <$> evs).
Proof using Type*.
  induction 1 as [|x evs Hs IH Hx]; [constructor|]. cbn. constructor; [done|]. apply list.Forall_fmap.
  eapply list.Forall_impl; [exact Hx|]. intros [[? ?] ?] Hb. destruct x as [[? ?] ?]. apply dsub_mono, Hb.
Qed.

(** *** The tick handlers *)
Definition tickers_ok q : Prop := NoDup (block <$> tickers q) /\ Forall (fun t => block t < new_block q) (tickers q).
Fixpoint each_handler (run_tick : Z -> Queue T -> exec (Queue T)) (hs : list Z) q : exec (Queue T) :=
  match hs with [] => ok q | h :: hs => let* q := run_tick h q in each_handler run_tick hs q end.
(** A handler that keeps the blocks after its own, unregistering at most itself. *)
Definition keeps_later (run_tick : Z -> Queue T -> exec (Queue T)) : Prop :=
  forall pre t l q q', tickers_ok q -> tickers q = pre ++ t :: l -> run_tick (handler t) q = ok q' ->
    tickers_ok q' /\ exists pre', tickers q' = pre' ++ l.

Lemma ticker_at_app pre t l : NoDup (block <$> pre ++ t :: l) -> ticker_at (block t) (pre ++ t :: l) = Some (t, block <$> head l).
Proof using.
  induction pre as [|u pre IH]; cbn; [by rewrite Z.eqb_refl|]. intros [Hu Hd]%list.NoDup_cons.
  destruct (Z.eqb_spec (block u) (block t)) as [E|]; [|by apply IH].
  destruct Hu. rewrite E, fmap_app. cbn. rewrite elem_of_app, elem_of_cons. auto.
Qed.
Lemma run_tickers_each run_tick fuel pre l q :
  keeps_later run_tick -> tickers_ok q -> tickers q = pre ++ l -> (length l <= fuel)%nat ->
  run_tickers run_tick fuel (block <$> head l) q = each_handler run_tick (handler <$> l) q.
Proof using.
  intros Hk. revert fuel pre q. induction l as [|t l IH]; intros fuel pre q Hok Hq Hf; [by destruct fuel|].
  destruct fuel as [|fuel]; [cbn in Hf; lia|]. cbn. rewrite Hq, ticker_at_app by (rewrite <- Hq; apply Hok).
  destruct (run_tick (handler t) q) as [q'|] eqn:E; [|done]. cbn [exec_bind].
  destruct (Hk pre t l q q' Hok Hq E) as [Hok' [pre' Hq']]. apply (IH fuel pre'); [done..|]. cbn in Hf. lia.
Qed.
Lemma del_ticker_kept pre t l : exists pre', del_ticker (handler t) (pre ++ t :: l) = pre' ++ l /\ pre' `sublist_of` pre ++ [t].
Proof using.
  induction pre as [|u pre (pre' & E & S)]; cbn; [rewrite Z.eqb_refl; exists []; split; [done|apply sublist_nil_l]|].
  destruct (handler u =? handler t).
  - exists (pre ++ [t]). split; [by rewrite <- app_assoc|by apply sublist_cons].
  - exists (u :: pre'). split; [cbn; by rewrite E|by apply sublist_skip].
Qed.
Lemma add_ticker_ok h q : tickers_ok q -> tickers_ok (TIMER_AddTickHandler h q).
Proof using.
  intros [Hd Hn]. split; cbn.
  - constructor; [|done]. intros (t & E & Ht)%list_elem_of_fmap.
    pose proof (proj1 (list.Forall_forall _ _) Hn t Ht) as Hlt. cbn beta in Hlt. lia.
  - constructor; [cbn; lia|]. eapply list.Forall_impl; [exact Hn|]. cbn. lia.
Qed.
Lemma del_ticker_ok pre t l q :
  tickers_ok q -> tickers q = pre ++ t :: l ->
  tickers_ok (TIMER_DelTickHandler (handler t) q) /\
  exists pre', tickers (TIMER_DelTickHandler (handler t) q) = pre' ++ l.
Proof using.
  intros [Hd Hn] Hq. destruct (del_ticker_kept pre t l) as (pre' & E & S).
  assert (pre' ++ l `sublist_of` tickers q) as Hs.
  { rewrite Hq. change (t :: l) with ([t] ++ l). rewrite (app_assoc pre). by apply sublist_app. }
  unfold TIMER_DelTickHandler. cbn. rewrite Hq, E. split; [|eauto]. split; cbn.
  - eapply sublist_NoDup; [exact Hd|by apply fmap_sublist].
  - apply list.Forall_forall. intros u Hu. apply (proj1 (list.Forall_forall _ _) Hn).
    by eapply elem_of_submseteq, sublist_submseteq.
Qed.

(** C20.  [TIMER_AddTick] gives the processor a whole tick, makes every pending
    event one tick older without changing their order, and calls every registered
    tick handler once, in order, also when handlers unregister themselves or
    register others. *)
Theorem tick_runs_handlers q act fr det run_tick :
  queue_ok q act fr det -> tickers_ok q -> keeps_later run_tick ->
  exists q1, queue_ok q1 act fr det /\ pending q1 act = older <$> pending q act /\
    CPU_CycleLeft (pics q1) = CPU_CycleMax q /\ CPU_Cycles (pics q1) = 0 /\ PIC_Ticks q1 = u32 (PIC_Ticks q + 1) /\
    TIMER_AddTick run_tick q = each_handler run_tick (handler <$> tickers q) q1.
Proof using Type*.
  intros Hok Ht Hk. pose proof (ok_fuel _ _ _ _ Hok) as Hfuel. destruct Hok as [Ha Hf Hd Hr Hs].
  unfold TIMER_AddTick. cbn [entries next_entry set_ticks cpu_cycles set_pics free_entry queue_fuel].
  change (queue_fuel _) with (queue_fuel q).
  destruct (lower_loop_spec (queue_fuel q) (next_entry q) act (entries q) Ha) as (es & E & L & G);
    [by apply list.NoDup_app in Hd as [? _]|lia|].
  rewrite E. cbn [exec_bind]. set (q1 := set_lists es _ _ _).
  assert (forall h c, thread (entries q) h c -> thread es h c) as Hch.
  { intros h c. apply chain_same_next. intros i _. rewrite G. destruct (decide _); [|done]. by destruct (get (entries q) i). }
  assert (pending q1 act = older <$> pending q act) as Hp.
  { unfold pending, contents. cbn. clear -G. assert (forall i, i ∈ act -> get es i = age <$> get (entries q) i) as Hg.
    { intros i Hi. by rewrite G, decide_True by done. } clear G. induction act as [|i act IH]; [done|]. cbn.
    rewrite Hg by left. rewrite IH by (intros; apply Hg; by right). by destruct (get (entries q) i). }
  exists q1. split; [|split; [done|]].
  - split; [by apply Hch..|done|cbn; by rewrite L|]. unfold pending in Hp. rewrite Hp. by apply older_sorted.
  - do 3 (split; [done|]). by apply (run_tickers_each run_tick _ []); [..|cbn; lia].
Qed.
End Ticks.

(** Handler 3 unregisters itself and handler 4 registers handler 9. *)
Definition demo_tick (h : Z) (q : Queue Z) : exec (Queue Z) :=
  ok (if h =? 3 then TIMER_DelTickHandler 3 q else if h =? 4 then TIMER_AddTickHandler 9 q else q).
Lemma demo_tick_keeps : keeps_later demo_tick.
Proof.
  intros pre t l q q' Hok Hq E. unfold demo_tick in E. injection E as <-.
  destruct (Z.eqb_spec (handler t) 3) as [E|]; [rewrite <- E; by apply del_ticker_ok with pre|].
  destruct (Z.eqb_spec (handler t) 4).
  - split; [by apply add_ticker_ok|]. cbn. rewrite Hq. exists (mkTicker (new_block q) 9 :: pre ++ [t]). cbn. by rewrite <- app_assoc.
  - split; [done|]. exists (pre ++ [t]). by rewrite <- app_assoc.
Qed.
Definition ticking : Queue Z :=
  set_tickers [mkTicker 3 5; mkTicker 2 3; mkTicker 1 4] 4 two_handlers.
Example tick_runs_handlers_witness :
  exists q1, queue_ok q1 [0; 2; 3] [1] [] /\ pending q1 [0; 2; 3] = [(-65526, 1, 5); (-65516, 2, 6); (-65506, 3, 5)] /\
    TIMER_AddTick demo_tick ticking = each_handler demo_tick [5; 3; 4] q1.
Proof.
  destruct (tick_runs_handlers ticking [0; 2; 3] [1] [] demo_tick) as (q1 & Hok & Hp & _ & _ & _ & E).
  - by eapply queue_ok_lists, two_handlers_ok.
  - split; [refine (bool_decide_unpack _ _); by vm_compute|]. repeat constructor.
  - exact demo_tick_keeps.
  - exists q1. exact (conj Hok (conj Hp E)).
Defined.

(** ** Serving *)

(** Delivering an interrupt does not use the processor's slice. *)
Lemma runIRQs_cycles IF trapping s :
  (CPU_Cycles (PIC_runIRQs IF trapping s) = CPU_Cycles s) /\ (CPU_CycleLeft (PIC_runIRQs IF trapping s) = CPU_CycleLeft s).
Proof.
  unfold PIC_runIRQs. destruct IF; [|done]. destruct (_ =? 0); [done|]. destruct trapping; [done|]. cbn [negb].
  destruct (scan _ _ _) as [i|]; [|done]. destruct (i =? 2); [|done]. unfold secondary_startIRQ.
  by destruct (scan _ _ _).
Qed.

Section Serving.
Context {T : Type} `{Double T} `{!DoubleLaws T}.
Implicit Types (q : Queue T) (x : event T).
(** The cycles of a tick and those done in it. *)
Context (max nd : Z) (Hmax : 0 <= max).
Context (run_event : Z -> Z -> Queue T -> exec (Queue T)).
(** [weight x]: the services that event [x] may still cause, its own included, before
    what it has scheduled is no longer due. *)
Context (weight : event T -> nat) (near : event T -> Prop).

Definition due_event x : bool := dle (dmul (time x) (of_int max)) (of_int nd).
Definition load (evs : list (event T)) : nat := sum_list_with (fun x => if due_event x then weight x else 0%nat) evs.
(** The time of a pending event converts to cycles. *)
Definition slice x : T := dsub (dmul (time x) (of_int max)) (of_int nd).

(** The slice up to the first pending event, of the cycles left of the tick. *)
Definition next_slice (total : Z) (first : option (event T)) : Z :=
  match first with
  | Some x => let c := to_int (slice x) in Z.min total (if c =? 0 then 1 else c)
  | None => total
  end.

Definition serving q : Prop :=
  CPU_CycleMax q = max /\ PIC_TickIndexND q = nd /\ InEventService q = true /\ CPU_Cycles (pics q) = 0.
(** The contract of an event handler, run while its entry is in no list: it leaves the
    clock alone (and the slice, which is empty), may add and remove events, and what it
    adds that is already due is less work than the event served. *)
Definition event_handlers_ok : Prop := forall q act fr det x,
  queue_ok q act fr det -> serving q -> Forall near (pending q act) -> near x -> due_event x = true -> srv_lag q = time x ->
  exists q' act' fr', run_event x.2 x.1.2 q = ok q' /\ queue_ok q' act' fr' det /\ serving q' /\
    Forall near (pending q' act') /\ (length act' + length fr' = length act + length fr)%nat /\
    (load (pending q' act') < weight x + load (pending q act))%nat.

Lemma load_cons x evs : load (x :: evs) = ((if due_event x then weight x else 0) + load evs)%nat.
Proof using. done. Qed.
Lemma load_perm evs evs' : evs ≡ₚ evs' -> load evs = load evs'.
Proof using. induction 1; rewrite ?load_cons; lia. Qed.
Lemma due_before x y : before x y -> due_event y = true -> due_event x = true.
Proof using Hmax DoubleLaws0. intros Hb Hy. eapply dle_trans, Hy. by apply dmul_mono. Qed.
Lemma recycle_ok q act fr det i e :
  queue_ok q act fr (i :: det) -> get (entries q) i = Some e ->
  let q' := set_lists (upd (entries q) i (with_next (free_entry q) e)) (Some i) (next_entry q) q in
  queue_ok q' act (i :: fr) det /\ pending q' act = pending q act.
Proof using.
  intros Hok He q'. pose proof (get_Some_range _ _ _ He). destruct (fresh_entry _ _ _ _ _ Hok) as [Hia Hif].
  destruct Hok as [Ha Hf Hd Hr Hs].
  assert (pending q' act = pending q act) as Hp.
  { apply contents_agree. intros j Hj. cbn. rewrite get_upd_ne; [done|lia|by intros ->]. }
  split; [|done]. split.
  - apply thread_upd; [lia|done..].
  - eapply thread_cons; [by apply get_upd_eq|]. apply thread_upd; [lia|done..].
  - cbn [app]. by rewrite Permutation_middle.
  - intros j Hj. cbn. rewrite length_upd. apply Hr. by right.
  - unfold pending in Hp. by rewrite Hp.
Qed.
Lemma pop_ok q i act fr det e :
  queue_ok q (i :: act) fr det -> get (entries q) i = Some e ->
  let q' := set_lag (index e) (set_lists (entries q) (free_entry q) (next e) q) in
  queue_ok q' act fr (i :: det) /\ pending q (i :: act) = ev e :: pending q' act.
Proof using.
  intros [Ha Hf Hd Hr Hs] He q'. pose proof (contents_cons _ _ act _ He) as Hp. split; [|exact Hp].
  destruct Ha as (_ & e' & He' & Ha). assert (e' = e) as -> by congruence. rewrite Hp in Hs. apply StronglySorted_inv in Hs as [Hs _].
  split; try done.
  - rewrite <- (Permutation_middle fr), <- (Permutation_middle act). done.
  - intros j [-> | Hj]%elem_of_cons; [by apply get_Some_range in He|auto].
Qed.

Lemma RunQueue_loop_spec fuel q act fr det :
  event_handlers_ok -> queue_ok q act fr det -> serving q -> Forall near (pending q act) -> (load (pending q act) < fuel)%nat ->
  exists q' act' fr', RunQueue_loop run_event fuel (of_int nd) q = ok q' /\ queue_ok q' act' fr' det /\ serving q' /\
    Forall near (pending q' act') /\ Forall (fun x => due_event x = false) (pending q' act') /\
    (length act' + length fr' = length act + length fr)%nat.
Proof using Hmax DoubleLaws0.
  intros Hh. revert q act fr. induction fuel as [|fuel IH]; intros q act fr Hok Hsv Hnear Hload; [lia|].
  cbn [RunQueue_loop]. destruct act as [|i act].
  - rewrite (thread_head _ _ _ (ok_act _ _ _ _ Hok)). cbn. exists q, [], fr. repeat (split; [done || constructor|]). done.
  - rewrite (thread_head _ _ _ (ok_act _ _ _ _ Hok)). cbn [head].
    destruct (ok_act _ _ _ _ Hok) as (_ & e & He & _). rewrite (read_get _ _ _ He). cbn [exec_bind].
    assert (due (of_int nd) q e = due_event (ev e)) as ->. { unfold due, due_event. by rewrite (proj1 Hsv). }
    destruct (pop_ok _ _ _ _ _ _ Hok He) as [Hok1 Hp]. cbv zeta in *. set (q1 := set_lag _ _) in *.
    rewrite Hp in Hnear, Hload. apply list.Forall_cons in Hnear as [Hne Hnear].
    destruct (due_event (ev e)) eqn:D.
    + destruct (Hh q1 act fr (i :: det) (ev e) Hok1 Hsv Hnear Hne D eq_refl) as
        (q2 & act2 & fr2 & E & Hok2 & Hsv2 & Hnear2 & Hlen & Hload2).
      cbn [ev fst snd] in E. rewrite E. cbn [exec_bind].
      destruct (get_range (entries q2) i) as [e2 He2]; [apply (ok_det _ _ _ _ Hok2); left|].
      rewrite (set_next_ok _ _ _ _ He2). cbn [exec_bind].
      destruct (recycle_ok _ _ _ _ _ _ Hok2 He2) as [Hok3 Hp3]. cbv zeta in *. set (q3 := set_lists (upd _ _ _) _ _ _) in *.
      rewrite load_cons, D in Hload.
      destruct (IH q3 act2 (i :: fr2)) as (q4 & act4 & fr4 & E4 & H4 & Hs4 & Hn4 & Hd4 & Hl4);
        [done|exact Hsv2|by rewrite Hp3|rewrite Hp3; lia|].
      exists q4, act4, fr4. repeat (split; [done|]). cbn in Hl4 |- *. lia.
    + exists q, (i :: act), fr. rewrite Hp. repeat (split; [done|]). split; [by constructor|].
      split; [|done]. constructor; [done|]. pose proof (ok_sorted _ _ _ _ Hok) as Hs. unfold pending in Hp. rewrite Hp in Hs.
      apply StronglySorted_inv in Hs as [_ Hs]. eapply list.Forall_impl; [exact Hs|]. intros y Hy.
      destruct (due_event y) eqn:Dy; [|done]. rewrite (due_before _ _ Hy Dy) in D. done.
Qed.

(** C17.  When the tick is not over, [PIC_RunQueue] returns, with fuel for the work
    that is due, under the contract of its handlers; then no pending event is due and
    no entry is lost.  The processor's next slice is exactly the cycles to the first
    pending event (one when they round to none), or all the cycles left of the tick
    when these are fewer or nothing is pending; the cycles beyond the slice stay left
    of the tick.  When the tick is over it returns [false] and serves nothing. *)
Theorem run_queue_serves q act fr det fuel IF trapping :
  queue_ok q act fr det -> CPU_CycleMax q = max -> PIC_TickIndexND q = nd -> Forall near (pending q act) ->
  event_handlers_ok -> (forall x, near x -> due_event x = false -> in_int32 (slice x) = true) ->
  (load (pending q act) < fuel)%nat ->
  let total := CPU_CycleLeft (pics q) + CPU_Cycles (pics q) in
  if total <=? 0
  then PIC_RunQueue run_event fuel IF trapping q = ok (false, cpu_cycles 0 total (PIC_UpdateAtomicIndex q))
  else exists q' act' fr', PIC_RunQueue run_event fuel IF trapping q = ok (true, q') /\ queue_ok q' act' fr' det /\
    Forall (fun x => due_event x = false) (pending q' act') /\ InEventService q' = false /\
    (length act' + length fr' = length act + length fr)%nat /\
    CPU_Cycles (pics q') = next_slice total (head (pending q' act')) /\
    CPU_CycleLeft (pics q') = total - CPU_Cycles (pics q').
Proof using Hmax DoubleLaws0.
  intros Hok Emax End Hnear Hh Hfit Hload total. unfold PIC_RunQueue. cbn [cpu_cycles set_pics pics PIC_UpdateAtomicIndex set_atomic set_cycles CPU_CycleLeft CPU_Cycles].
  fold total. destruct (Z.leb_spec total 0); [done|].
  set (q1 := set_service true _). assert (serving q1) as Hsv.
  { split; [exact Emax|]. split; [|done]. unfold PIC_TickIndexND in *. cbn. lia. }
  match goal with |- context [RunQueue_loop run_event fuel ?i q1] => replace i with (of_int (T:=T) nd) end.
  2: { f_equal. unfold PIC_TickIndexND in *. cbn. lia. }
  destruct (RunQueue_loop_spec fuel q1 act fr det Hh) as (q2 & act' & fr' & E & Hok2 & Hsv2 & Hnear2 & Hdue & Hlen); try done.
  { by eapply queue_ok_lists, Hok. }
  assert (CPU_CycleLeft (pics q2) = total) as Et.
  { destruct Hsv2 as (S1 & S2 & _ & S4). unfold PIC_TickIndexND in *. unfold total. lia. }
  rewrite E. cbn [exec_bind]. cbn [set_service next_entry entries pics].
  rewrite (thread_head _ _ _ (ok_act _ _ _ _ Hok2)). destruct act' as [|i act']; cbn [head].
  - cbn [exec_bind]. eexists _, [], fr'. split; [done|]. split; [by eapply queue_ok_lists, Hok2|]. split; [done|].
    split; [done|]. split; [done|]. cbn. rewrite (proj1 (runIRQs_cycles _ _ _)), (proj2 (runIRQs_cycles _ _ _)). cbn. lia.
  - destruct (ok_act _ _ _ _ Hok2) as (_ & e & He & _). rewrite (read_get _ _ _ He). cbn [exec_bind].
    pose proof (contents_cons _ _ act' _ He) as Hp. fold (pending q2 (i :: act')) in Hp.
    assert (dsub (dmul (index e) (of_int (CPU_CycleMax q2))) (of_int nd) = slice (ev e)) as Esl by (unfold slice; by rewrite (proj1 Hsv2)).
    cbn [CPU_CycleMax set_service]. rewrite Esl. unfold to_int32. rewrite Hp in Hnear2, Hdue.
    apply list.Forall_cons in Hnear2 as [Hn1 _].
    pose proof (proj1 (list.Forall_cons _ _ _) Hdue) as [Hd1 _]. rewrite Hfit by done. cbn [exec_bind]. set (c := to_int _).
    eexists _, (i :: act'), fr'. split; [done|]. split; [destruct (_ <? _); by eapply queue_ok_lists, Hok2|].
    match goal with |- Forall _ (pending ?q' _) /\ _ => assert (pending q' (i :: act') = ev e :: contents (entries q2) act') as Ep end.
    { unfold pending. rewrite <- Hp. by destruct (_ <? _). }
    rewrite Ep. split; [done|]. split; [by destruct (_ <? _)|]. split; [done|]. cbn [head]. fold c.
    unfold next_slice. cbv zeta. fold c.
    destruct (Z.ltb_spec (if c =? 0 then 1 else c) (CPU_CycleLeft (pics q2))); cbn;
      rewrite (proj1 (runIRQs_cycles _ _ _)), (proj2 (runIRQs_cycles _ _ _)); cbn; lia.
Qed.
End Serving.

(** A timer whose handler schedules it again an eighth of a tick after the time it was
    due, the others doing nothing. *)
Definition periodic (h v : Z) (q : Queue Z) : exec (Queue Z) := if h =? 1 then PIC_AddEvent 1 8192 v q else ok q.
Definition periods (x : event Z) : nat := S (Z.to_nat ((21845 - time x) / 8192)).
Definition close (x : event Z) : Prop := -655360 <= time x <= 655360.
Definition overdue : Queue Z :=
  mkQueue [mkEntry 10 1 1 (Some 2); mkEntry 0 0 0 None; mkEntry 20000 2 6 (Some 3); mkEntry 30000 3 5 None]
    (Some 1) (Some 0) false 0 0 3000 0 [] 1 start_pics.

Lemma due_21845 x : due_event 3000 1000 x = (time x <=? 21845).
Proof. unfold due_event. rewrite fixed_scale. cbn. destruct (Z.leb_spec (time x * 3000) 65536000), (Z.leb_spec (time x) 21845); lia || done. Qed.
Lemma periodic_ok : event_handlers_ok 3000 1000 periodic periods close.
Proof.
  intros q act fr det x Hok Hsv Hnear Hx Hdue Hlag. rewrite due_21845 in Hdue. apply Z.leb_le in Hdue.
  unfold periodic. destruct (x.2 =? 1); [|exists q, act, fr; repeat (split; [done|]); unfold periods; lia].
  destruct fr as [|entry fr].
  { exists q, act, []. split; [unfold PIC_AddEvent; by rewrite (thread_head _ _ _ (ok_free _ _ _ _ Hok))|].
    repeat (split; [done|]). unfold periods. lia. }
  assert (arrival 8192 q = 8192 + time x) as Harr by (unfold arrival; by rewrite (proj1 (proj2 (proj2 Hsv))), Hlag).
  set (new := (arrival 8192 q, x.1.2, 1)). assert (close new) as Hnew.
  { unfold close in *. change (time new) with (arrival 8192 q). rewrite Harr. lia. }
  assert (Forall close (insert_event new (pending q act))) as Hclose by (rewrite insert_perm; by constructor).
  destruct (insert_event new (pending q act)) as [|first evs] eqn:Eevs.
  { pose proof (insert_perm new (pending q act)) as P. rewrite Eevs in P. by apply Permutation_nil_l in P. }
  pose proof Hsv as (Hm & Hn & Hs & Hz). destruct (add_event_free q act entry fr det 1 8192 x.1.2 first Hok) as
    (q' & act' & E & Hok' & Hp & Hclk & Hcyc); [by fold new; rewrite Eevs|..].
  { apply list.Forall_cons in Hclose as [Hf _]. unfold PIC_TickIndex. rewrite Hm, Hn, fixed_scale_l. apply fixed_fits.
    unfold close in Hf. change (dsub (time first) _) with (time first - 21845). lia. }
  fold new in Hp. rewrite Eevs in Hp. exists q', act', fr. split; [done|]. split; [done|].
  destruct Hclk as (S1 & _ & _ & S4 & _ & S6).
  split; [by repeat split; [congruence..|rewrite Hcyc; apply slice_until_none]|].
  rewrite Hp. split; [done|]. split.
  { pose proof (contents_length _ _ _ (ok_act _ _ _ _ Hok')) as L'. pose proof (contents_length _ _ _ (ok_act _ _ _ _ Hok)) as L.
    fold (pending q' act') in L'. fold (pending q act) in L. rewrite Hp, <- Eevs, insert_perm in L'. cbn in L' |- *. lia. }
  rewrite <- Eevs, (load_perm _ _ _ _ _ (insert_perm new _)), load_cons, due_21845.
  change (time new) with (arrival 8192 q). rewrite Harr.
  unfold periods at 1 3. change (time new) with (arrival 8192 q). rewrite Harr. destruct (Z.leb_spec (8192 + time x) 21845); [|lia].
  replace (21845 - time x) with (21845 - (8192 + time x) + 1 * 8192) by lia. rewrite Z.div_add by done.
  assert (0 <= (21845 - (8192 + time x)) / 8192) by (apply Z.div_pos; lia). lia.
Qed.
Example run_queue_serves_witness :
  exists q act fr, PIC_RunQueue periodic 6 true false overdue = ok (true, q) /\ queue_ok q act fr [] /\
    Forall (fun x => due_event 3000 1000 x = false) (pending q act) /\
    CPU_Cycles (pics q) = next_slice 3000 1000 2000 (head (pending q act)).
Proof.
  destruct (run_queue_serves 3000 1000 ltac:(done) periodic periods close overdue [0; 2; 3] [1] [] 6 true false) as
    (q & act & fr & E & Hok & Hd & _ & _ & Hc & _).
  - split; try by vm_compute.
    + repeat (split; [done|eexists; split; [reflexivity|]]); done.
    + repeat (split; [done|eexists; split; [reflexivity|]]); done.
    + refine (bool_decide_unpack _ _). by vm_compute.
    + intros i Hi. by apply elem_of_nil in Hi.
    + repeat constructor.
  - reflexivity.
  - reflexivity.
  - repeat constructor; cbn; lia.
  - exact periodic_ok.
  - intros x Hx _. unfold slice. rewrite fixed_scale. apply fixed_fits. unfold close in Hx.
    change (of_int 1000) with 65536000. cbn. lia.
  - vm_compute. lia.
  - exists q, act, fr. exact (conj E (conj Hok (conj Hd Hc))).
Defined.
