(* ===== verification/Timer.v ===== *)
(** * The programmable interval timer ([hardware/timer.cpp], [hardware/timer.h])

    The three counters of the 8254: their control words, latches and ports, the event
    of channel 0 on the event queue, and the gate of channel 2.  The speaker on
    channel 2 is the interface [Speaker]; the port numbers are those the constructor
    installs the handlers at. *)
From S2P Require Import Prelude.
From S2P Require Import Pic.
From S2P Require Import EventQueue.
#[local] Open Scope Z_scope.
#[local] Open Scope exec_scope.

(** ** Arithmetic of the language

    [fmod] and [round] of [<cmath>]; [round] gives an integral value. *)
Class DoubleMath (T : Type) `{Double T} := { fmod : T -> T -> T; round : T -> T }.
(** [iround]: undefined outside of [int] (debug builds assert it). *)
Definition iround {T} `{DoubleMath T} (x : T) : exec Z := to_int32 (round x).
(** [std::max]. *)
Definition dmax {T} `{Double T} (a b : T) : T := if dgt b a then b else a.

Definition UINT16_MAX : Z := 0xffff.
Definition PIT_TICK_RATE : Z := 1193182.
Definition PIT_TICK_RATE_KHZ {T} `{Double T} : T := ddiv (of_int PIT_TICK_RATE) (of_int 1000).
Definition period_of_1k_pit_ticks {T} `{Double T} : T := ddiv (of_int 1000) (of_int PIT_TICK_RATE).
Definition max_bcd_count : Z := 9999.
Definition max_dec_count : Z := 0x10000.

Inductive AccessMode := Latch | Low | High | Both.
Definition access_bits (a : AccessMode) : Z := match a with Latch => 0 | Low => 1 | High => 2 | Both => 3 end.
Inductive PitMode :=
  | InterruptOnTerminalCount | OneShot | RateGenerator | SquareWave
  | SoftwareStrobe | HardwareStrobe | RateGeneratorAlias | SquareWaveAlias | Inactive.
#[export] Instance AccessMode_eq_dec : EqDecision AccessMode.
Proof. solve_decision. Defined.
#[export] Instance PitMode_eq_dec : EqDecision PitMode.
Proof. solve_decision. Defined.
Definition mode_bits (p : PitMode) : Z :=
  match p with
  | InterruptOnTerminalCount => 0 | OneShot => 1 | RateGenerator => 2 | SquareWave => 3
  | SoftwareStrobe => 4 | HardwareStrobe => 5 | RateGeneratorAlias => 6 | SquareWaveAlias => 7 | Inactive => 8
  end.
(** The casts of the bits of a control word. *)
Definition access_of (v : Z) : AccessMode :=
  match Z.land v 3 with 0 => Latch | 1 => Low | 2 => High | _ => Both end.
Definition pit_mode_of (v : Z) : PitMode :=
  match Z.land v 7 with
  | 0 => InterruptOnTerminalCount | 1 => OneShot | 2 => RateGenerator | 3 => SquareWave
  | 4 => SoftwareStrobe | 5 => HardwareStrobe | 6 => RateGeneratorAlias | _ => SquareWaveAlias
  end.
Definition is_rate_generator (p : PitMode) : bool := bool_decide (p = RateGenerator \/ p = RateGeneratorAlias).

(** ** Binary-coded decimals *)
Definition decimal_to_bcd (val : Z) : Z :=
  val mod 10 + (val / 10) mod 10 * 16 + (val / 100) mod 10 * (16 * 16) + (val / 1000) mod 10 * (16 * 16 * 16).
Definition bcd_to_decimal (val : Z) : Z :=
  let ones := Z.land val 0x000f in
  let tens := Z.land val 0x00f0 / 16 in
  let hundreds := Z.land val 0x0f00 / (16 * 16) in
  let thousands := Z.land val 0xf000 / (16 * 16 * 16) in
  thousands * 1000 + hundreds * 100 + tens * 10 + ones.

(** ** Channels *)
Record PIT_Block (T : Type) := mkPIT {
  count : Z; delay : T; start : T;
  read_latch : Z; write_latch : Z;
  mode : PitMode; read_mode : AccessMode; write_mode : AccessMode;
  bcd : bool; go_read_latch : bool; mode_changed : bool;
  counterstatus_set : bool; counting : bool; update_count : bool }.
Arguments mkPIT {T}.
Arguments count {T}.
Arguments delay {T}.
Arguments start {T}.
Arguments read_latch {T}.
Arguments write_latch {T}.
Arguments mode {T}.
Arguments read_mode {T}.
Arguments write_mode {T}.
Arguments bcd {T}.
Arguments go_read_latch {T}.
Arguments mode_changed {T}.
Arguments counterstatus_set {T}.
Arguments counting {T}.
Arguments update_count {T}.

Section Fields.
Context {T : Type}.
Implicit Types (c : PIT_Block T).
Definition with_count (v : Z) c : PIT_Block T :=
  mkPIT v (delay c) (start c) (read_latch c) (write_latch c) (mode c) (read_mode c) (write_mode c) (bcd c) (go_read_latch c) (mode_changed c) (counterstatus_set c) (counting c) (update_count c).
Definition with_delay (v : T) c : PIT_Block T :=
  mkPIT (count c) v (start c) (read_latch c) (write_latch c) (mode c) (read_mode c) (write_mode c) (bcd c) (go_read_latch c) (mode_changed c) (counterstatus_set c) (counting c) (update_count c).
Definition with_start (v : T) c : PIT_Block T :=
  mkPIT (count c) (delay c) v (read_latch c) (write_latch c) (mode c) (read_mode c) (write_mode c) (bcd c) (go_read_latch c) (mode_changed c) (counterstatus_set c) (counting c) (update_count c).
Definition with_read_latch (v : Z) c : PIT_Block T :=
  mkPIT (count c) (delay c) (start c) v (write_latch c) (mode c) (read_mode c) (write_mode c) (bcd c) (go_read_latch c) (mode_changed c) (counterstatus_set c) (counting c) (update_count c).
Definition with_write_latch (v : Z) c : PIT_Block T :=
  mkPIT (count c) (delay c) (start c) (read_latch c) v (mode c) (read_mode c) (write_mode c) (bcd c) (go_read_latch c) (mode_changed c) (counterstatus_set c) (counting c) (update_count c).
Definition with_modes (p : PitMode) (r w : AccessMode) c : PIT_Block T :=
  mkPIT (count c) (delay c) (start c) (read_latch c) (write_latch c) p r w (bcd c) (go_read_latch c) (mode_changed c) (counterstatus_set c) (counting c) (update_count c).
Definition with_read_mode (v : AccessMode) c : PIT_Block T := with_modes (mode c) v (write_mode c) c.
Definition with_write_mode (v : AccessMode) c : PIT_Block T := with_modes (mode c) (read_mode c) v c.
Definition with_bcd (v : bool) c : PIT_Block T :=
  mkPIT (count c) (delay c) (start c) (read_latch c) (write_latch c) (mode c) (read_mode c) (write_mode c) v (go_read_latch c) (mode_changed c) (counterstatus_set c) (counting c) (update_count c).
Definition with_go_read_latch (v : bool) c : PIT_Block T :=
  mkPIT (count c) (delay c) (start c) (read_latch c) (write_latch c) (mode c) (read_mode c) (write_mode c) (bcd c) v (mode_changed c) (counterstatus_set c) (counting c) (update_count c).
Definition with_mode_changed (v : bool) c : PIT_Block T :=
  mkPIT (count c) (delay c) (start c) (read_latch c) (write_latch c) (mode c) (read_mode c) (write_mode c) (bcd c) (go_read_latch c) v (counterstatus_set c) (counting c) (update_count c).
Definition with_counterstatus_set (v : bool) c : PIT_Block T :=
  mkPIT (count c) (delay c) (start c) (read_latch c) (write_latch c) (mode c) (read_mode c) (write_mode c) (bcd c) (go_read_latch c) (mode_changed c) v (counting c) (update_count c).
Definition with_counting (v : bool) c : PIT_Block T :=
  mkPIT (count c) (delay c) (start c) (read_latch c) (write_latch c) (mode c) (read_mode c) (write_mode c) (bcd c) (go_read_latch c) (mode_changed c) (counterstatus_set c) v (update_count c).
Definition with_update_count (v : bool) c : PIT_Block T :=
  mkPIT (count c) (delay c) (start c) (read_latch c) (write_latch c) (mode c) (read_mode c) (write_mode c) (bcd c) (go_read_latch c) (mode_changed c) (counterstatus_set c) (counting c) v.
End Fields.
(** The initial values of the members. *)
Definition default_block {T} `{Double T} : PIT_Block T :=
  mkPIT 0 (of_int 0) (of_int 0) 0 0 Inactive Latch Latch false false false false false false.

Section Counters.
Context {T : Type} `{DoubleMath T}.
Implicit Types (c : PIT_Block T) (now : T).

Definition get_max_count c : Z := if bcd c then max_bcd_count else max_dec_count.
Definition freq_divider c : Z := if count c =? 0 then get_max_count c + 1 else count c.
Definition update_channel_delay c : PIT_Block T :=
  with_delay (ddiv (dmul (of_int 1000) (of_int (freq_divider c))) (of_int PIT_TICK_RATE)) c.

(** The output line; [now] is [PIC_FullIndex()]. *)
Definition counter_output now c : bool :=
  let index := dsub now (start c) in
  match mode c with
  | InterruptOnTerminalCount => if mode_changed c then false else dgt index (delay c)
  | RateGenerator | RateGeneratorAlias =>
      if mode_changed c then true else dgt (fmod index (delay c)) (of_int 0)
  | SquareWave | SquareWaveAlias =>
      if mode_changed c then true else dgt (delay c) (dmul (fmod index (delay c)) (of_int 2))
  | SoftwareStrobe => true
  | _ => true
  end.

(** [save_read_latch]. *)
Definition save_read_latch (latch_time : T) c : exec (PIT_Block T) :=
  let* v := iround latch_time in ok (with_read_latch (u16 (Z.rem v UINT16_MAX)) c).

(** Filling the read latch; [gated] holds for channel 2 with its gate off. *)
Definition counter_latch (gated : bool) now c : exec (PIT_Block T) :=
  let c := with_go_read_latch false c in
  if gated && negb (bool_decide (mode c = OneShot)) then ok c else
  let elapsed_ms := dsub now (start c) in
  if mode_changed c then
    let elapsed_ticks := dmul elapsed_ms PIT_TICK_RATE_KHZ in
    let remaining_ticks := dmax (of_int 0) (dsub (of_int (read_latch c)) elapsed_ticks) in
    save_read_latch remaining_ticks c
  else
  let n : T := of_int (count c) in
  match mode c with
  | SoftwareStrobe | InterruptOnTerminalCount =>
      if dgt elapsed_ms (delay c) then
        let elapsed_ms := dsub elapsed_ms (delay c) in
        if bcd c then
          let elapsed_ms := fmod elapsed_ms (dmul period_of_1k_pit_ticks (of_int 10000)) in
          save_read_latch (dsub (of_int max_bcd_count) (dmul elapsed_ms PIT_TICK_RATE_KHZ)) c
        else
          let elapsed_ms := fmod elapsed_ms (dmul period_of_1k_pit_ticks (of_int max_dec_count)) in
          save_read_latch (dsub (of_int 0xffff) (dmul elapsed_ms PIT_TICK_RATE_KHZ)) c
      else save_read_latch (dsub n (dmul elapsed_ms PIT_TICK_RATE_KHZ)) c
  | OneShot =>
      if counting c then
        if dgt elapsed_ms (delay c) then save_read_latch (of_int 0xffff) c
        else save_read_latch (dsub n (dmul elapsed_ms PIT_TICK_RATE_KHZ)) c
      else ok c
  | RateGenerator | RateGeneratorAlias =>
      let elapsed_ms := fmod elapsed_ms (delay c) in
      save_read_latch (dsub n (dmul (ddiv elapsed_ms (delay c)) n)) c
  | SquareWave | SquareWaveAlias =>
      let elapsed_ms := fmod elapsed_ms (delay c) in
      let elapsed_ms := dmul elapsed_ms (of_int 2) in
      let elapsed_ms := if dgt elapsed_ms (delay c) then dsub elapsed_ms (delay c) else elapsed_ms in
      let* c := save_read_latch (dsub n (dmul (ddiv elapsed_ms (delay c)) n)) c in
      save_read_latch (of_int (Z.land (read_latch c) 0xfffe)) c
  | _ => save_read_latch (of_int 0xffff) c
  end.

(** The byte that [status_latch] latches. *)
Definition timer_status now c : Z :=
  let st := 0 in
  let st := if bcd c then Z.lor st 0x1 else st in
  let st := Z.lor st (u8 (Z.shiftl (Z.land (mode_bits (mode c)) 7) 1)) in
  let st := match read_mode c with Latch | Both => Z.lor st 0x30 | Low => Z.lor st 0x10 | High => Z.lor st 0x20 end in
  let st := if counter_output now c then Z.lor st 0x80 else st in
  if mode_changed c then Z.lor st 0x40 else st.

(** The byte that a write adds to the latch, and the flip of the access mode. *)
Definition latch_byte (val : Z) c : PIT_Block T :=
  match write_mode c with
  | Latch => with_write_mode Both (with_write_latch (u16 (Z.lor (write_latch c) (Z.shiftl (Z.land val 0xff) 8))) c)
  | Both => with_write_mode Latch (with_write_latch (Z.land val 0xff) c)
  | Low => with_write_latch (Z.land val 0xff) c
  | High => with_write_latch (u16 (Z.shiftl (Z.land val 0xff) 8)) c
  end.
(** [write_latch] up to the test of the access mode. *)
Definition accept_byte (val : Z) c : PIT_Block T :=
  let c := if bcd c then with_write_latch (decimal_to_bcd (write_latch c)) c else c in
  let c := latch_byte val c in
  if bcd c then with_write_latch (bcd_to_decimal (write_latch c)) c else c.
(** A new count from the latch. *)
Definition load_count c : PIT_Block T :=
  with_count (if write_latch c =? 0 then get_max_count c else write_latch c) c.

(** The byte that a read takes from the latch. *)
Definition take_byte c : Z * PIT_Block T :=
  match read_mode c with
  | Latch => (Z.land (Z.shiftr (read_latch c) 8) 0xff, with_go_read_latch true (with_read_mode Both c))
  | Low => (Z.land (read_latch c) 0xff, with_go_read_latch true c)
  | High => (Z.land (Z.shiftr (read_latch c) 8) 0xff, with_go_read_latch true c)
  | Both => (Z.land (read_latch c) 0xff, with_read_mode Latch c)
  end.
(** [read_latch] after the latch is filled. *)
Definition deliver_byte c : Z * PIT_Block T :=
  let c := if bcd c then with_read_latch (decimal_to_bcd (read_latch c)) c else c in
  let (ret, c) := take_byte c in
  (ret, if bcd c then with_read_latch (bcd_to_decimal (read_latch c)) c else c).
End Counters.

(** ** The timer *)
Class Speaker (T D : Type) := {
  PCSPEAKER_SetCounter : Z -> PitMode -> Queue T -> D -> D;
  PCSPEAKER_SetPITControl : PitMode -> Queue T -> D -> D }.
(** The statics of the file, with the event queue and the speaker. *)
Record Timer (T D : Type) := mkTimer {
  pit : list (PIT_Block T);
  gate2 : bool;
  latched_timerstatus : Z; latched_timerstatus_locked : bool;
  queue : Queue T; speaker : D }.
Arguments mkTimer {T D}.
Arguments pit {T D}.
Arguments gate2 {T D}.
Arguments latched_timerstatus {T D}.
Arguments latched_timerstatus_locked {T D}.
Arguments queue {T D}.
Arguments speaker {T D}.

(** The statics before the constructor runs. *)
Definition static_timer {T D} `{Double T} (q : Queue T) (d : D) : Timer T D :=
  mkTimer [default_block; default_block; default_block] false 0 false q d.

(** The number of the handler [PIT0_Event]. *)
Definition PIT0_handler : Z := 0.

Section Timers.
Context {T D : Type} `{DoubleMath T} `{Speaker T D}.
Implicit Types (t : Timer T D) (c : PIT_Block T).

Definition set_pit (l : list (PIT_Block T)) t : Timer T D :=
  mkTimer l (gate2 t) (latched_timerstatus t) (latched_timerstatus_locked t) (queue t) (speaker t).
Definition set_gate2 (b : bool) t : Timer T D :=
  mkTimer (pit t) b (latched_timerstatus t) (latched_timerstatus_locked t) (queue t) (speaker t).
Definition set_status (v : Z) (locked : bool) t : Timer T D :=
  mkTimer (pit t) (gate2 t) v locked (queue t) (speaker t).
Definition set_queue (q : Queue T) t : Timer T D :=
  mkTimer (pit t) (gate2 t) (latched_timerstatus t) (latched_timerstatus_locked t) q (speaker t).
Definition set_speaker (d : D) t : Timer T D :=
  mkTimer (pit t) (gate2 t) (latched_timerstatus t) (latched_timerstatus_locked t) (queue t) d.

Definition FullIndex t : T := PIC_FullIndex (queue t).
(** [pit.at(n)], which throws out of range, and assignments through it. *)
Definition put_channel (n : Z) c t : exec (Timer T D) := let* l := write (pit t) n c in ok (set_pit l t).
Definition on_pics (f : PicState -> PicState) t : Timer T D := set_queue (set_pics (f (pics (queue t))) (queue t)) t.
Definition add_event t (delay : T) : exec (Timer T D) :=
  let* q := PIC_AddEvent PIT0_handler delay 0 (queue t) in ok (set_queue q t).
Definition remove_events t : exec (Timer T D) :=
  let* q := PIC_RemoveEvents PIT0_handler (queue t) in ok (set_queue q t).
Definition set_counter (n : Z) (p : PitMode) t : Timer T D := set_speaker (PCSPEAKER_SetCounter n p (queue t) (speaker t)) t.

Definition PIT0_Event t : exec (Timer T D) :=
  let t := on_pics (PIC_ActivateIRQ 0) t in
  let* c := read (pit t) 0 in
  if bool_decide (mode c = InterruptOnTerminalCount) then ok t else
  let c := with_start (dadd (start c) (delay c)) c in
  let c := if update_count c then with_update_count false (update_channel_delay c) else c in
  let* t := put_channel 0 c t in
  add_event t (delay c).

Definition gated (n : Z) t : bool := (n =? 2) && negb (gate2 t).
Definition latch_counter (n : Z) t : exec (Timer T D) :=
  let* c := read (pit t) n in
  let* c := counter_latch (gated n t) (FullIndex t) c in
  put_channel n c t.

Definition status_latch (n : Z) t : exec (Timer T D) :=
  if latched_timerstatus_locked t then ok t else
  let* c := read (pit t) n in
  let t := set_status (timer_status (FullIndex t) c) true t in
  put_channel n (with_counterstatus_set true c) t.

(** A write to port 0x40, 0x41 or 0x42. *)
Definition write_latch_port (port value : Z) t : exec (Timer T D) :=
  let val := u8 value in
  let channel_num := u8 (port - 0x40) in
  let* c := read (pit t) channel_num in
  let c := accept_byte val c in
  if bool_decide (write_mode c = Latch) then put_channel channel_num c t else
  let c := load_count c in
  if negb (mode_changed c) && is_rate_generator (mode c) && (channel_num =? 0) then
    put_channel channel_num (with_update_count true c) t
  else
  let c := update_channel_delay (with_start (FullIndex t) c) in
  let* t := put_channel channel_num (with_mode_changed false c) t in
  if channel_num =? 0 then
    if mode_changed c || bool_decide (mode c = InterruptOnTerminalCount) then
      let* t := if bool_decide (mode c = InterruptOnTerminalCount) then remove_events t else ok t in
      add_event t (delay c)
    else ok t
  else if channel_num =? 2 then ok (set_counter (count c) (mode c) t)
  else ok t.

Definition read_latch_port (port : Z) t : exec (Z * Timer T D) :=
  let channel_num := u8 (port - 0x40) in
  let* c := read (pit t) channel_num in
  if counterstatus_set c then
    let ret := latched_timerstatus t in
    let* t := put_channel channel_num (with_counterstatus_set false c) (set_status ret false t) in
    ok (ret, t)
  else
    let* t := if go_read_latch c then latch_counter channel_num t else ok t in
    let* c := read (pit t) channel_num in
    let (ret, c) := deliver_byte c in
    let* t := put_channel channel_num c t in
    ok (ret, t).

(** ** Control words *)
Definition reprogram (val : Z) (full : T) c : PIT_Block T :=
  let c := with_bcd (Z.testbit val 0) c in
  let c := if bcd c then with_count (Z.min (count c) max_bcd_count) c else c in
  let c := with_counterstatus_set false c in
  let c := with_start full c in
  let c := with_counting false (with_update_count false (with_go_read_latch true c)) in
  let a := access_of (Z.shiftr val 4) in
  with_modes (pit_mode_of (Z.shiftr val 1)) a a c.
Definition latch_single_channel (channel_num val : Z) t : exec (Timer T D) :=
  if bool_decide (access_of (Z.shiftr val 4) = Latch) then latch_counter channel_num t else
  let* c0 := read (pit t) 0 in
  let old_output := counter_output (FullIndex t) c0 in
  let* t := latch_counter channel_num t in
  let* c := read (pit t) channel_num in
  let t := if counterstatus_set c then set_status (latched_timerstatus t) false t else t in
  let c := reprogram val (FullIndex t) c in
  let* t := put_channel channel_num (with_mode_changed true c) t in
  if channel_num =? 0 then
    let* t := remove_events t in
    if negb (bool_decide (mode c = InterruptOnTerminalCount)) && negb old_output
    then ok (on_pics (PIC_ActivateIRQ 0) t) else ok (on_pics (PIC_DeActivateIRQ 0) t)
  else if channel_num =? 2 then
    let t := set_counter 0 SquareWave t in
    ok (set_speaker (PCSPEAKER_SetPITControl (mode c) (queue t) (speaker t)) t)
  else ok t.

Definition latch_all_channels (val : Z) t : exec (Timer T D) :=
  let* t :=
    if Z.land val 0x20 =? 0 then
      let* t := if Z.testbit val 1 then latch_counter 0 t else ok t in
      let* t := if Z.testbit val 2 then latch_counter 1 t else ok t in
      if Z.testbit val 3 then latch_counter 2 t else ok t
    else ok t in
  if Z.land val 0x10 =? 0 then
    if Z.testbit val 1 then status_latch 0 t
    else if Z.testbit val 2 then status_latch 1 t
    else if Z.testbit val 3 then status_latch 2 t
    else ok t
  else ok t.

Definition write_p43 (value : Z) t : exec (Timer T D) :=
  let val := u8 value in
  let channel_num := Z.land (Z.shiftr val 6) 3 in
  if channel_num <? 3 then latch_single_channel channel_num val t else latch_all_channels val t.

(** ** The gate and the output of channel 2 *)
Definition TIMER_SetGate2 (b : bool) t : exec (Timer T D) :=
  if Bool.eqb (gate2 t) b then ok t else
  let* c := read (pit t) 2 in
  let* t :=
    match mode c with
    | InterruptOnTerminalCount =>
        if b then put_channel 2 (with_start (FullIndex t) c) t
        else
          let* t := latch_counter 2 t in
          let* c := read (pit t) 2 in
          put_channel 2 (with_count (read_latch c) c) t
    | OneShot =>
        if b then put_channel 2 (with_start (FullIndex t) (with_counting true c)) t else ok t
    | RateGenerator | RateGeneratorAlias | SquareWave | SquareWaveAlias =>
        if b then put_channel 2 (with_start (FullIndex t) c) t else latch_counter 2 t
    | SoftwareStrobe | HardwareStrobe | Inactive => ok t
    end in
  ok (set_gate2 b t).
Definition TIMER_GetOutput2 t : exec bool := let* c := read (pit t) 2 in ok (counter_output (FullIndex t) c).

(** ** Ports and start-up *)
Definition timer_write (port value : Z) t : exec (Timer T D) :=
  if (port =? 0x40) || (port =? 0x42) then write_latch_port port value t
  else if port =? 0x43 then write_p43 value t
  else ok t.

Definition init_channel_0 c : PIT_Block T :=
  let c := with_bcd false c in
  let c := with_count (get_max_count c) c in
  let c := with_write_latch 0 (with_read_latch 0 c) in
  let c := with_modes SquareWave Both Both c in
  update_channel_delay (with_update_count false (with_counterstatus_set false (with_go_read_latch true c))).
Definition init_channel_1 c : PIT_Block T :=
  let c := with_count 18 (with_bcd false c) in
  let c := with_modes RateGenerator Low Both c in
  update_channel_delay (with_counterstatus_set false (with_go_read_latch true c)).
Definition init_channel_2 c : PIT_Block T :=
  let c := with_read_latch 1320 (with_count 1320 (with_bcd false c)) in
  let c := with_modes SquareWave Both Both c in
  update_channel_delay (with_counting false (with_counterstatus_set false (with_go_read_latch true c))).
Definition TIMER t : exec (Timer T D) :=
  let* c0 := read (pit t) 0 in let* t := put_channel 0 (init_channel_0 c0) t in
  let* c1 := read (pit t) 1 in let* t := put_channel 1 (init_channel_1 c1) t in
  let* c2 := read (pit t) 2 in let* t := put_channel 2 (init_channel_2 c2) t in
  let t := set_gate2 false (set_status (latched_timerstatus t) false t) in
  let* c0 := read (pit t) 0 in
  add_event t (delay c0).
Definition TIMER_destructor t : exec (Timer T D) := remove_events t.

(** The round of the loop of [PIC_RunQueue] that serves the entry [i] of channel 0. *)
Definition serve (i : Z) (e : PICEntry T) t : exec (Timer T D) :=
  let q := queue t in
  let t := set_queue (set_lag (index e) (set_lists (entries q) (free_entry q) (next e) q)) t in
  let* t := PIT0_Event t in
  let q := queue t in
  let* es := set_next i (free_entry q) (entries q) in
  ok (set_queue (set_lists es (Some i) (next_entry q) q) t).
End Timers.
