(* ===== verification/TimerProofs.v ===== *)
(** * The timer and its event

    The invariant that ties channel 0 of the timer to its event in the queue, along
    any run of port accesses, served events and other users of the queue; and the
    times of its interrupts. *)
From S2P Require Import Prelude.
From S2P Require Import Pic.
From S2P Require Import EventQueue.
From S2P Require Import EventQueueProofs.
From S2P Require Import EventOrder.
From S2P Require Import EventService.
From S2P Require Import Timer.
#[local] Open Scope Z_scope.
#[local] Open Scope exec_scope.

(** ** Latches *)
Lemma land_bounds a m : 0 <= m -> 0 <= Z.land a m <= m.
Proof.
  intros Hm. split; [apply Z.land_nonneg; by right|].
  assert (Z.ldiff (Z.land a m) m = 0) as E.
  { apply Z.bits_inj'. intros n _. rewrite Z.ldiff_spec, Z.land_spec, Z.bits_0. by destruct (Z.testbit a n), (Z.testbit m n). }
  apply Z.sub_nocarry_ldiff in E. pose proof (proj2 (Z.ldiff_nonneg m (Z.land a m)) ltac:(tauto)). lia.
Qed.
Lemma bcd_to_decimal_range v : 0 <= bcd_to_decimal v < 65536.
Proof.
  unfold bcd_to_decimal. cbv zeta. pose proof (land_bounds v 0xf). pose proof (land_bounds v 0xf0).
  pose proof (land_bounds v 0xf00). pose proof (land_bounds v 0xf000). zlia.
Qed.
Lemma decimal_to_bcd_range v : 0 <= decimal_to_bcd v < 65536.
Proof. unfold decimal_to_bcd. zlia. Qed.

Ltac keep := split; [done|]; split; [done|]; split; [done|].

Section Blocks.
Context {T : Type} `{DoubleMath T}.
Implicit Types (c : PIT_Block T).
(** The ranges of the fields; a programmed channel has one of the eight modes. *)
Definition block_ok c : Prop :=
  0 <= count c <= 65536 /\ 0 <= read_latch c < 65536 /\ 0 <= write_latch c < 65536 /\ mode c <> Inactive.
(** What an operation on one channel keeps when it neither programs it nor touches its status. *)
Definition kept c c' : Prop :=
  mode c' = mode c /\ mode_changed c' = mode_changed c /\ counterstatus_set c' = counterstatus_set c /\ (block_ok c -> block_ok c').

Lemma kept_refl c : kept c c.
Proof using. by keep. Qed.
Lemma kept_trans c1 c2 c3 : kept c1 c2 -> kept c2 c3 -> kept c1 c3.
Proof using. intros (A1 & A2 & A3 & A4) (B1 & B2 & B3 & B4). split; [congruence|]. split; [congruence|]. split; [congruence|auto]. Qed.
Lemma save_read_latch_kept x c c' : save_read_latch x c = ok c' -> kept c c'.
Proof using.
  unfold save_read_latch. intros E. exec_inv E. subst c'. keep.
  intros (A1 & A2 & A3 & A4). pose proof (u16_range (Z.rem v UINT16_MAX)). done.
Qed.
Lemma counter_latch_kept g now c c' : counter_latch g now c = ok c' -> kept c c'.
Proof using.
  unfold counter_latch. set (c1 := with_go_read_latch false c). intros E.
  enough (kept c1 c') as (A1 & A2 & A3 & A4) by done.
  clearbody c1. cbv zeta in E.
  repeat match type of E with
  | (if ?b then _ else _) = _ => destruct b
  | match ?p with InterruptOnTerminalCount => _ | _ => _ end = _ => destruct p
  end; try (by apply save_read_latch_kept in E); try (injection E as <-; apply kept_refl).
  all: apply exec_bind_ok in E as (c2 & E1 & E2); apply save_read_latch_kept in E1, E2; by eapply kept_trans.
Qed.
(** Latching is done until the next read of both bytes. *)
Lemma save_read_latch_field {A} (f : PIT_Block T -> A) x c c' :
  (forall v c, f (with_read_latch v c) = f c) -> save_read_latch x c = ok c' -> f c' = f c.
Proof using. unfold save_read_latch. intros Hf E. exec_inv E. subst c'. apply Hf. Qed.
Lemma counter_latch_latches g now c c' : counter_latch g now c = ok c' -> go_read_latch c' = false.
Proof using.
  unfold counter_latch. set (c1 := with_go_read_latch false c). intros E.
  enough (go_read_latch c' = go_read_latch c1) as -> by done. clearbody c1. cbv zeta in E.
  repeat match type of E with
  | (if ?b then _ else _) = _ => destruct b
  | match ?p with InterruptOnTerminalCount => _ | _ => _ end = _ => destruct p
  end; try (by apply (save_read_latch_field go_read_latch) in E); try (by injection E as <-).
  all: apply exec_bind_ok in E as (c2 & E1 & E2); apply (save_read_latch_field go_read_latch) in E1, E2; congruence || done.
Qed.
Lemma take_byte_kept c : kept c (take_byte c).2.
Proof using. unfold take_byte. by destruct (read_mode c). Qed.
Lemma deliver_byte_kept c : kept c (deliver_byte c).2.
Proof using.
  unfold deliver_byte. set (c1 := if bcd c then _ else c). assert (kept c c1) as Hk.
  { subst c1. destruct (bcd c); [|apply kept_refl]. pose proof (decimal_to_bcd_range (read_latch c)).
    keep; unfold block_ok in *; cbn; tauto || lia. }
  pose proof (take_byte_kept c1) as Hk2. destruct (take_byte c1) as [r c2]. cbn [snd] in *.
  eapply kept_trans; [by eapply kept_trans|]. destruct (bcd c2); [|apply kept_refl].
  pose proof (bcd_to_decimal_range (read_latch c2)). keep; unfold block_ok in *; cbn; tauto || lia.
Qed.
Lemma accept_byte_kept v c : kept c (accept_byte v c).
Proof using.
  assert (forall x c, 0 <= x < 65536 -> kept c (with_write_latch x c)) as Hw
    by (intros x c1 Hx; keep; unfold block_ok in *; cbn; tauto || lia).
  assert (forall c, kept c (latch_byte v c)) as Hl.
  { intros c1. unfold latch_byte. pose proof (land_bounds v 0xff).
    pose proof (u16_range (Z.lor (write_latch c1) (Z.shiftl (Z.land v 0xff) 8))). pose proof (u16_range (Z.shiftl (Z.land v 0xff) 8)).
    destruct (write_mode c1); keep; intros (A1 & A2 & A3 & A4); (split; [done|split; [done|split; [|done]]]); cbn [write_latch with_write_mode with_write_latch with_modes]; lia. }
  unfold accept_byte. cbv zeta. set (c1 := if bcd c then _ else c).
  assert (kept c c1) as H1 by (subst c1; destruct (bcd c); [apply Hw, decimal_to_bcd_range|apply kept_refl]).
  eapply kept_trans; [exact H1|]. eapply kept_trans; [apply Hl|].
  destruct (bcd (latch_byte v c1)); [apply Hw, bcd_to_decimal_range|apply kept_refl].
Qed.
Lemma load_count_kept c : block_ok c -> kept c (load_count c).
Proof using.
  intros (A1 & A2 & A3 & A4). keep. intros _. split; [|done]. unfold load_count, get_max_count, max_bcd_count, max_dec_count; cbn.
  destruct (Z.eqb_spec (write_latch c) 0), (bcd c); lia.
Qed.
End Blocks.

(** ** Events of the timer in the queue *)
Section Pending.
Context {T : Type} `{Double T} `{!DoubleLaws T}.
Implicit Types (q : Queue T) (evs : list (event T)).
Definition irq0 evs : nat := length (filter (fun x => x.2 = PIT0_handler) evs).

Lemma irq0_insert x evs : irq0 (insert_event x evs) = ((if decide (x.2 = PIT0_handler) then 1 else 0) + irq0 evs)%nat.
Proof using.
  unfold irq0. rewrite insert_perm. cbn [filter list_filter]. by destruct (decide _).
Qed.
Lemma irq0_removed evs : irq0 (filter (fun x => (x.2 =? PIT0_handler) = false) evs) = 0%nat.
Proof using.
  unfold irq0. rewrite list_filter_filter. apply length_zero_iff_nil. induction evs as [|x evs IH]; [done|].
  rewrite filter_cons_False; [done|]. intros [E1 E2]. rewrite E1 in E2. done.
Qed.
Lemma irq0_cons x evs : irq0 (x :: evs) = ((if decide (x.2 = PIT0_handler) then 1 else 0) + irq0 evs)%nat.
Proof using. unfold irq0. cbn. by destruct (decide _). Qed.

(** A successful addition: into a free entry, or dropped. *)
Lemma add_event_ok q q' act fr det h d v :
  queue_ok q act fr det -> PIC_AddEvent h d v q = ok q' ->
  (fr = [] /\ q' = q) \/
  (exists act' fr', queue_ok q' act' fr' det /\ pending q' act' = insert_event (arrival d q, v, h) (pending q act)).
Proof using DoubleLaws0.
  intros Hok E. destruct fr as [|entry fr].
  { left. split; [done|]. unfold PIC_AddEvent in E. rewrite (thread_head _ _ _ (ok_free _ _ _ _ Hok)) in E. by injection E. }
  right. set (x := (arrival d q, v, h)).
  destruct (head (insert_event x (pending q act))) as [first|] eqn:Hh.
  2: { assert (insert_event x (pending q act) = []) as E0 by (by destruct (insert_event x (pending q act)) eqn:D; cbn in Hh).
       pose proof (insert_perm x (pending q act)) as P. rewrite E0 in P. by apply Permutation_nil_cons in P. }
  destruct (add_event_wake q act entry fr det h d v first Hok Hh) as (q2 & act' & E2 & Hok2 & Hp & C & Hpc).
  rewrite E2 in E. unfold wake in E. exec_inv E. exists act', fr. subst q'.
  assert (queue_ok q2 act' fr det -> forall a b, queue_ok (cpu_cycles a b q2) act' fr det) as Hc by (intros; by apply (queue_ok_lists q2)).
  destruct (_ <? _); split; auto.
Qed.
Lemma add_irq0 q q' act fr det d v :
  queue_ok q act fr det -> PIC_AddEvent PIT0_handler d v q = ok q' ->
  exists act' fr', queue_ok q' act' fr' det /\
    (irq0 (pending q' act') = S (irq0 (pending q act)) \/
     free_entry q = None /\ irq0 (pending q' act') = irq0 (pending q act)).
Proof using DoubleLaws0.
  intros Hok E. destruct (add_event_ok _ _ _ _ _ _ _ _ Hok E) as [[-> ->] | (act' & fr' & Hok' & Hp)].
  - exists act, []. split; [done|]. right. by rewrite (thread_head _ _ _ (ok_free _ _ _ _ Hok)).
  - exists act', fr'. split; [done|]. left. by rewrite Hp, irq0_insert.
Qed.
Lemma remove_irq0 q act fr det :
  queue_ok q act fr det ->
  exists q' act' fr', PIC_RemoveEvents PIT0_handler q = ok q' /\ queue_ok q' act' fr' det /\
    pending q' act' = filter (fun x => (x.2 =? PIT0_handler) = false) (pending q act) /\ irq0 (pending q' act') = 0%nat /\
    (length act' + length fr' = length act + length fr)%nat /\ same_clock q q' /\ pics q' = pics q.
Proof using DoubleLaws0.
  intros Hok. destruct (remove_matching_spec q act fr det (fun e => pic_event e =? PIT0_handler)
    (fun x => x.2 =? PIT0_handler) ltac:(done) Hok) as (q' & act' & fr' & E & Hok' & Hp & L & C & P).
  exists q', act', fr'. repeat (split; [done|]). split; [by rewrite Hp, irq0_removed|]. done.
Qed.
End Pending.

(** ** The invariant *)
Section Invariant.
Context {T D : Type} `{DoubleMath T} `{!DoubleLaws T} `{Speaker T D}.
Implicit Types (t : Timer T D) (c : PIT_Block T) (room : bool).

Definition status_count (l : list (PIT_Block T)) : nat := sum_list_with (fun c => Nat.b2n (counterstatus_set c)) l.
(** [n] events of channel 0 are pending: none while a control word waits for its
    count; otherwise at most one, and one in the periodic modes if the queue always
    had [room]. *)
Definition rate_ok room (n : nat) c : Prop :=
  (n <= 1)%nat /\ (mode_changed c = true -> n = 0%nat) /\
  (room = true -> mode_changed c = false -> mode c <> InterruptOnTerminalCount -> n = 1%nat).
(** [R] relates the pending events of the timer and channel 0. *)
Record timer_ok (R : nat -> PIT_Block T -> Prop) t act fr det : Prop := {
  t_queue : queue_ok (queue t) act fr det;
  t_length : length (pit t) = 3%nat;
  t_blocks : Forall block_ok (pit t);
  t_status : status_count (pit t) = Nat.b2n (latched_timerstatus_locked t);
  t_rate : forall c, get (pit t) 0 = Some c -> R (irq0 (pending (queue t) act)) c }.
Definition timer_inv room t : Prop := exists act fr det, timer_ok (rate_ok room) t act fr det.

Lemma put_channel_inv n c' t t' : put_channel n c' t = ok t' ->
  t' = set_pit (upd (pit t) n c') t /\ exists c, get (pit t) n = Some c.
Proof using.
  unfold put_channel, write. intros E. exec_inv E. destruct (in_range _ _) eqn:R; [|done]. injection E0 as <-.
  split; [done|]. by apply get_range, in_range_spec.
Qed.
Lemma status_count_upd l n c c' : get l n = Some c ->
  (status_count (upd l n c') + Nat.b2n (counterstatus_set c) = status_count l + Nat.b2n (counterstatus_set c'))%nat.
Proof using.
  unfold get, upd, status_count. destruct (Z.ltb_spec n 0); [done|]. generalize (Z.to_nat n). clear.
  induction l as [|c0 l IH]; intros [|n] E; cbn in E; [done..| |].
  - injection E as ->. cbn. lia.
  - specialize (IH n E). cbn. rewrite <- !Nat.add_assoc. f_equal. exact IH.
Qed.

(** Assigning a channel. *)
Lemma put_ok (R R' : nat -> PIT_Block T -> Prop) t act fr det n c c' v locked :
  timer_ok R t act fr det -> get (pit t) n = Some c -> block_ok c' ->
  (Nat.b2n (counterstatus_set c') + Nat.b2n (latched_timerstatus_locked t) = Nat.b2n (counterstatus_set c) + Nat.b2n locked)%nat ->
  (forall k c0, R k c0 -> n <> 0 \/ c0 = c -> R' k (if n =? 0 then c' else c0)) ->
  timer_ok R' (set_status v locked (set_pit (upd (pit t) n c') t)) act fr det.
Proof using.
  intros [Hq Hl Hb Hs Hr] Hn Hc Hlock HR. pose proof (get_Some_range _ _ _ Hn) as Hrg. split; try done.
  - cbn. by rewrite length_upd.
  - by apply list.Forall_insert.
  - pose proof (status_count_upd _ _ _ c' Hn). change (status_count (upd (pit t) n c') = Nat.b2n locked). lia.
  - intros c0. cbn [pit set_pit set_status]. rewrite get_upd by done. destruct (Z.eqb_spec n 0) as [->|Hne]; intros E.
    + injection E as <-. specialize (HR _ _ (Hr _ Hn)). cbn in HR. auto.
    + specialize (HR _ _ (Hr _ E)). auto.
Qed.
Lemma set_status_same t : set_status (latched_timerstatus t) (latched_timerstatus_locked t) t = t.
Proof using. by destruct t. Qed.
(** Assigning a channel without a new mode or status. *)
Lemma put_kept room t t' n c c' :
  timer_inv room t -> read (pit t) n = ok c -> kept c c' -> put_channel n c' t = ok t' -> timer_inv room t'.
Proof using.
  intros (act & fr & det & Hok) Hn%read_inv (K1 & K2 & K3 & K4) [-> _]%put_channel_inv. exists act, fr, det.
  rewrite <- (set_status_same (set_pit _ t)). apply (put_ok (rate_ok room)) with c; try done.
  - apply K4. eapply list.Forall_lookup_1; [exact (t_blocks _ _ _ _ _ Hok)|]. unfold get in Hn. by destruct (n <? 0).
  - cbn. by rewrite K3.
  - intros k c0 Hr [Hne | ->]; destruct (Z.eqb_spec n 0); try done. unfold rate_ok in *. by rewrite K1, K2.
Qed.
Lemma block_get R t act fr det n c : timer_ok R t act fr det -> get (pit t) n = Some c -> block_ok c.
Proof using. intros Hok Hn. eapply list.Forall_lookup_1; [exact (t_blocks _ _ _ _ _ Hok)|]. unfold get in Hn. by destruct (n <? 0). Qed.

(** The parts of the state that the invariant does not look at. *)
Lemma inv_same R t t' act fr det :
  timer_ok R t act fr det -> pit t' = pit t -> latched_timerstatus_locked t' = latched_timerstatus_locked t ->
  entries (queue t') = entries (queue t) -> next_entry (queue t') = next_entry (queue t) ->
  free_entry (queue t') = free_entry (queue t) -> timer_ok R t' act fr det.
Proof using.
  intros [Hq Hl Hb Hs Hr] E1 E2 E3 E4 E5. split; rewrite ?E1, ?E2; try done.
  - by eapply queue_ok_lists.
  - intros c Hc. unfold pending. rewrite E3. auto.
Qed.
Lemma latch_counter_ok room n t t' : timer_inv room t -> latch_counter n t = ok t' -> timer_inv room t'.
Proof using.
  intros Hi E. unfold latch_counter in E. exec_inv E. eapply put_kept; [done|exact E0| |exact E].
  by eapply counter_latch_kept.
Qed.
Lemma status_latch_ok room n t t' : timer_inv room t -> status_latch n t = ok t' -> timer_inv room t'.
Proof using.
  intros Hi E. unfold status_latch in E. exec_inv E; [by subst|]. rename E0 into L, E1 into Hn. apply read_inv in Hn.
  apply put_channel_inv in E as [-> _]. destruct Hi as (act & fr & det & Hok). exists act, fr, det.
  apply (put_ok (rate_ok room) (rate_ok room) t act fr det n v); try done.
  - by apply (block_get _ _ _ _ _ _ _ Hok Hn).
  - cbn. rewrite L. assert (counterstatus_set v = false) as ->; [|done].
    destruct (counterstatus_set v) eqn:Ev; [|done]. pose proof (status_count_upd (pit t) n v (with_counterstatus_set false v) Hn) as Hc.
    rewrite (t_status _ _ _ _ _ Hok), L, Ev in Hc. cbn in Hc. lia.
  - intros k c0 Hr [Hne | ->]; by destruct (Z.eqb_spec n 0).
Qed.

(** Changes of the queue. *)
Lemma set_queue_ok (R R' : nat -> PIT_Block T -> Prop) t q act fr det act' fr' det' :
  timer_ok R t act fr det -> queue_ok q act' fr' det' ->
  (forall c, get (pit t) 0 = Some c -> R (irq0 (pending (queue t) act)) c -> R' (irq0 (pending q act')) c) ->
  timer_ok R' (set_queue q t) act' fr' det'.
Proof using. intros [Hq Hl Hb Hs Hr] Hok HR. split; cbn; auto. Qed.
Lemma add_ok (R R' : nat -> PIT_Block T -> Prop) t t' d act fr det :
  timer_ok R t act fr det -> add_event t d = ok t' ->
  (forall k c, R k c -> R' (S k) c /\ (free_entry (queue t) = None -> R' k c)) ->
  exists act' fr', timer_ok R' t' act' fr' det.
Proof using DoubleLaws0.
  intros Hok E HR. unfold add_event in E. exec_inv E. subst t'.
  destruct (add_irq0 _ _ _ _ _ _ _ (t_queue _ _ _ _ _ Hok) E0) as (act' & fr' & Hok' & Hk). exists act', fr'.
  eapply set_queue_ok; [exact Hok|exact Hok'|]. intros c _ Hr. destruct (HR _ _ Hr) as [HR1 HR2].
  destruct Hk as [-> | [Hf ->]]; auto.
Qed.
Lemma remove_ok (R R' : nat -> PIT_Block T -> Prop) t t' act fr det :
  timer_ok R t act fr det -> remove_events t = ok t' -> (forall k c, R k c -> R' 0%nat c) ->
  exists act' fr', timer_ok R' t' act' fr' det.
Proof using DoubleLaws0.
  intros Hok E HR. unfold remove_events in E.
  destruct (remove_irq0 _ _ _ _ (t_queue _ _ _ _ _ Hok)) as (q & act' & fr' & Eq & Hok' & _ & Hk & _).
  rewrite Eq in E. cbn in E. injection E as <-. exists act', fr'.
  eapply set_queue_ok; [exact Hok|exact Hok'|]. intros c _ Hr. rewrite Hk. eauto.
Qed.

(** *** Reading and writing a channel *)
Definition has_room room t : Prop := room = true -> free_entry (queue t) <> None.

Lemma read_latch_port_ok room port t v t' : timer_inv room t -> read_latch_port port t = ok (v, t') -> timer_inv room t'.
Proof using.
  intros Hi E. unfold read_latch_port in E. exec_inv E.
  - subst. rename E2 into E2'. apply put_channel_inv in E2' as [-> _]. apply read_inv in E0. destruct Hi as (act & fr & det & Hok).
    exists act, fr, det. apply (put_ok (rate_ok room) (rate_ok room) t act fr det _ v0); try done.
    + by apply (block_get _ _ _ _ _ _ _ Hok E0).
    + cbn. rewrite E1. pose proof (status_count_upd _ _ _ (with_counterstatus_set false v0) E0) as Hc.
      rewrite (t_status _ _ _ _ _ Hok), E1 in Hc. cbn in Hc. destruct (latched_timerstatus_locked t); cbn in *; lia.
    + intros k c0 Hr [Hne | ->]; by destruct (Z.eqb_spec (u8 (port - 64)) 0).
  - assert (timer_inv room v1) as Hi1.
    { destruct (go_read_latch v0); [by eapply latch_counter_ok|by injection E2 as <-]. }
    subst. eapply put_kept; [exact Hi1|exact E3| |exact E5]. pose proof (deliver_byte_kept v2) as K. by rewrite E4 in K.
Qed.

Lemma write_latch_port_ok room port value t t' :
  timer_inv room t -> has_room room t -> write_latch_port port value t = ok t' -> timer_inv room t'.
Proof using DoubleLaws0.
  intros Hi Hroom E. unfold write_latch_port in E. set (n := u8 (port - 64)) in *. apply exec_bind_ok in E as (c & Hc & E).
  cbv zeta in E. pose proof (accept_byte_kept (u8 value) c) as K. set (c1 := accept_byte (u8 value) c) in *.
  destruct (bool_decide (write_mode c1 = Latch)); [by eapply put_kept|].
  pose proof Hi as (act & fr & det & Hok). pose proof (block_get _ _ _ _ _ _ _ Hok (read_inv _ _ _ Hc)) as Hbc.
  pose proof (load_count_kept c1 (proj2 (proj2 (proj2 K)) Hbc)) as K2. pose proof (kept_trans _ _ _ K K2) as K3.
  set (c2 := load_count c1) in *. clearbody c1 c2.
  destruct (negb (mode_changed c2) && is_rate_generator (mode c2) && (n =? 0)).
  { eapply put_kept; [done|exact Hc| |exact E]. eapply kept_trans; [exact K3|]. by keep. }
  set (c3 := update_channel_delay (with_start (FullIndex t) c2)) in *.
  assert (kept c c3) as (M & P & S & B) by (eapply kept_trans; [exact K3|]; by keep). clearbody c3.
  apply exec_bind_ok in E as (t1 & Hput & E). apply put_channel_inv in Hput as [-> _].
  set (mid := fun k c0 => if n =? 0 then (k <= 1)%nat /\ (mode_changed c3 = true -> k = 0%nat) /\
       (room = true -> mode_changed c3 = false -> mode c3 <> InterruptOnTerminalCount -> k = 1%nat) /\
       mode_changed c0 = false /\ mode c0 = mode c3 else rate_ok room k c0).
  assert (timer_ok mid (set_pit (upd (pit t) n (with_mode_changed false c3)) t) act fr det) as Hmid.
  { rewrite <- (set_status_same (set_pit _ t)). apply (put_ok (rate_ok room) mid t act fr det n c); try done.
    - by apply read_inv.
    - by apply B.
    - cbn. by rewrite S.
    - intros k c0 Hr Hc0. unfold mid. destruct (Z.eqb_spec n 0); [|done]. destruct Hc0 as [?| ->]; [done|].
      unfold rate_ok in Hr. rewrite M, P. by repeat split; try apply Hr. }
  unfold mid in Hmid. destruct (n =? 0).
  2: { assert (timer_inv room (set_pit (upd (pit t) n (with_mode_changed false c3)) t)) as Hi' by (by exists act, fr, det).
       destruct (n =? 2); injection E as <-; [|done]. destruct Hi' as (a & f & d & Hi'). exists a, f, d. by eapply inv_same. }
  clear mid. destruct (mode_changed c3 || bool_decide (mode c3 = InterruptOnTerminalCount)) eqn:Hb.
  2: { injection E as <-. exists act, fr, det. destruct Hmid as [A1 A2 A3 A4 A5]. split; try done. intros c0 Hc0.
       destruct (A5 _ Hc0) as (Q1 & Q2 & Q3 & Q4 & Q5). unfold rate_ok. apply orb_false_iff in Hb as [Hb1 Hb2].
       rewrite Q4, Q5. split; [done|]. split; [done|]. auto. }
  apply exec_bind_ok in E as (t2 & E2 & E).
  destruct (bool_decide_reflect (mode c3 = InterruptOnTerminalCount)) as [Hm | Hm].
  - destruct (remove_ok _ (fun k c0 => k = 0%nat /\ mode_changed c0 = false /\ mode c0 = InterruptOnTerminalCount) _ _ _ _ _ Hmid E2)
      as (act2 & fr2 & Hok2). { intros k c0 (_ & _ & _ & Q4 & Q5). split; [done|]. split; congruence. }
    destruct (add_ok _ (rate_ok room) _ _ _ _ _ _ Hok2 E) as (act3 & fr3 & Hok3); [|by exists act3, fr3, det].
    intros k c0 (-> & Q4 & Q5). unfold rate_ok. rewrite Q4, Q5. repeat split; auto with lia; done.
  - injection E2 as <-. rewrite orb_false_r in Hb.
    destruct (add_ok _ (rate_ok room) _ _ _ _ _ _ Hmid E) as (act3 & fr3 & Hok3); [|by exists act3, fr3, det].
    intros k c0 (Q1 & Q2 & Q3 & Q4 & Q5). rewrite (Q2 Hb). unfold rate_ok. rewrite Q4, Q5. split; [auto with lia|].
    intros Hfree. split; [lia|]. split; [done|]. intros Hr. by destruct (Hroom Hr).
Qed.

(** *** Control words *)
Lemma access_kept v full c :
  block_ok c -> block_ok (with_mode_changed true (reprogram v full c)) /\
  counterstatus_set (with_mode_changed true (reprogram v full c)) = false.
Proof using.
  intros (A1 & A2 & A3 & A4). unfold block_ok, reprogram, max_bcd_count.
  assert (pit_mode_of (Z.shiftr v 1) <> Inactive) as Hm.
  { unfold pit_mode_of. repeat match goal with |- context [match ?x with Z0 => _ | _ => _ end] => destruct x | |- context [match ?x with xH => _ | _ => _ end] => destruct x end; done. }
  destruct (bcd (with_bcd (Z.testbit v 0) c)); cbn; repeat split; lia || done.
Qed.
Lemma latch_single_channel_ok room n val t t' : timer_inv room t -> latch_single_channel n val t = ok t' -> timer_inv room t'.
Proof using DoubleLaws0.
  intros Hi E. unfold latch_single_channel in E. destruct (bool_decide _); [by eapply latch_counter_ok|].
  apply exec_bind_ok in E as (c0 & _ & E). cbv zeta in E. apply exec_bind_ok in E as (t1 & E1 & E).
  apply (latch_counter_ok _ _ _ _ Hi) in E1. clear Hi. apply exec_bind_ok in E as (c & Hc%read_inv & E).
  set (t2 := if counterstatus_set c then _ else t1) in *. apply exec_bind_ok in E as (t3 & Hput & E).
  destruct E1 as (act & fr & det & Hok). destruct (access_kept val (FullIndex t2) c (block_get _ _ _ _ _ _ _ Hok Hc)) as [Hb Hs].
  apply put_channel_inv in Hput as [-> _]. set (c' := with_mode_changed true _) in *.
  set (mid := fun k c0 => if n =? 0 then mode_changed c0 = true else rate_ok room k c0).
  assert (timer_ok mid (set_pit (upd (pit t2) n c') t2) act fr det) as Hmid.
  { set (lk := if counterstatus_set c then false else latched_timerstatus_locked t1).
    assert (set_pit (upd (pit t2) n c') t2 = set_status (latched_timerstatus t1) lk (set_pit (upd (pit t1) n c') t1)) as ->.
    { subst t2 lk. destruct (counterstatus_set c); [done|]. by rewrite <- (set_status_same (set_pit _ t1)). }
    apply (put_ok (rate_ok room) mid t1 act fr det n c); try done.
    - rewrite Hs. subst lk. pose proof (status_count_upd _ _ _ c' Hc) as Hu. rewrite (t_status _ _ _ _ _ Hok), Hs in Hu.
      destruct (counterstatus_set c), (latched_timerstatus_locked t1); cbn in *; lia.
    - intros k c1 Hr _. unfold mid. by destruct (n =? 0). }
  clearbody t2. unfold mid in Hmid. clear mid. destruct (n =? 0).
  - apply exec_bind_ok in E as (t4 & E4 & E).
    destruct (remove_ok _ (rate_ok room) _ _ _ _ _ Hmid E4) as (act4 & fr4 & Hok4).
    { intros k c1 Hm. unfold rate_ok. rewrite Hm. repeat split; lia || done. }
    destruct (_ && _); injection E as <-; exists act4, fr4, det; by eapply inv_same.
  - destruct (n =? 2); injection E as <-; exists act, fr, det; [|done]. by eapply inv_same.
Qed.
Ltac inv_steps Hi E :=
  repeat match type of E with
  | exec_bind _ _ = ok _ => let u := fresh "u" in let E1 := fresh "E" in apply exec_bind_ok in E as (u & E1 & E);
      match type of E1 with
      | (if ?b then latch_counter _ _ else ok _) = ok _ =>
          destruct b; [apply (latch_counter_ok _ _ _ _ Hi) in E1; clear Hi; rename E1 into Hi|injection E1 as <-]
      end
  end.
Lemma latch_all_channels_ok room val t t' : timer_inv room t -> latch_all_channels val t = ok t' -> timer_inv room t'.
Proof using.
  intros Hi E. unfold latch_all_channels in E. apply exec_bind_ok in E as (t1 & E1 & E).
  assert (timer_inv room t1) as Hi1.
  { destruct (_ =? 0); [|by injection E1 as <-]. inv_steps Hi E1; (destruct (Z.testbit val 3); [by eapply latch_counter_ok|by injection E1 as <-]). }
  repeat match type of E with (if ?b then _ else _) = _ => destruct b end; try (by eapply status_latch_ok); by injection E as <-.
Qed.
Lemma timer_write_ok room port value t t' :
  timer_inv room t -> has_room room t -> timer_write port value t = ok t' -> timer_inv room t'.
Proof using DoubleLaws0.
  intros Hi Hr E. unfold timer_write in E. destruct (_ || _); [by eapply write_latch_port_ok|].
  destruct (port =? 67); [|by injection E as <-]. unfold write_p43 in E. cbv zeta in E.
  destruct (_ <? 3); [by eapply latch_single_channel_ok|by eapply latch_all_channels_ok].
Qed.

(** *** The gate *)
Lemma set_gate_ok room b t t' : timer_inv room t -> TIMER_SetGate2 b t = ok t' -> timer_inv room t'.
Proof using.
  intros Hi E. unfold TIMER_SetGate2 in E. destruct (Bool.eqb _ _); [by injection E as <-|].
  apply exec_bind_ok in E as (c & Hc & E). apply exec_bind_ok in E as (t1 & E1 & E). injection E as <-.
  enough (timer_inv room t1) as (act & fr & det & Hok) by (exists act, fr, det; by eapply inv_same).
  destruct (mode c), b; try (by injection E1 as <-); try (by eapply latch_counter_ok);
    try (by eapply put_kept; [exact Hi|exact Hc| |exact E1]; keep).
  apply exec_bind_ok in E1 as (t2 & E2 & E1). apply (latch_counter_ok _ _ _ _ Hi) in E2.
  apply exec_bind_ok in E1 as (c2 & Hc2 & E1). eapply put_kept; [exact E2|exact Hc2| |exact E1].
  keep. intros (A1 & A2 & A3 & A4). split; [cbn; lia|done].
Qed.

(** *** Serving the event of channel 0 *)
Lemma event_ok (R : nat -> PIT_Block T -> Prop) room t t' act fr det :
  timer_ok R t act fr det -> has_room room t -> PIT0_Event t = ok t' ->
  (forall k c, R k c -> k = 0%nat /\ mode_changed c = false) -> exists act' fr', timer_ok (rate_ok room) t' act' fr' det.
Proof using DoubleLaws0.
  intros Hok0 Hroom E HR. unfold PIT0_Event in E. cbv zeta in E. set (t1 := on_pics _ t) in *.
  assert (timer_ok R t1 act fr det) as Hok by (by eapply inv_same). assert (free_entry (queue t1) = free_entry (queue t)) as Hf by done.
  clearbody t1. clear Hok0. apply exec_bind_ok in E as (c & Hc%read_inv & E).
  pose proof (t_rate _ _ _ _ _ Hok _ Hc) as Hrc. destruct (HR _ _ Hrc) as [Hk Hm].
  destruct (bool_decide_reflect (mode c = InterruptOnTerminalCount)) as [Hmode | Hmode].
  - injection E as <-. exists act, fr. destruct Hok as [A1 A2 A3 A4 A5]. split; try done. intros c1 Hc1. simplify_eq.
    rewrite Hk. unfold rate_ok. repeat split; auto with lia; done.
  - apply exec_bind_ok in E as (t2 & Hput & E). apply put_channel_inv in Hput as [-> _]. set (c' := if update_count _ then _ else _) in *.
    assert (kept c c') as (K1 & K2 & K3 & K4) by (subst c'; destruct (update_count _); by keep).
    clearbody c'.
    assert (timer_ok (fun k c1 => k = 0%nat /\ mode_changed c1 = false) (set_pit (upd (pit t1) 0 c') t1) act fr det) as Hmid.
    { rewrite <- (set_status_same (set_pit _ t1)). eapply (put_ok R); [exact Hok|exact Hc| | |].
      - apply K4. by eapply block_get.
      - cbn. by rewrite K3.
      - intros k c0 Hr [?| ->]; [done|]. destruct (HR _ _ Hr). cbn. by rewrite K2. }
    destruct (add_ok _ (rate_ok room) _ _ _ _ _ _ Hmid E) as (act3 & fr3 & Hok3); [|by exists act3, fr3].
    intros k c0 [-> Q4]. unfold rate_ok. rewrite Q4. split; [repeat split; auto with lia; done|].
    intros Hfree. split; [lia|]. split; [done|]. intros Hr. destruct (Hroom Hr). cbn in Hfree. congruence.
Qed.
Lemma serve_ok room i e t t' :
  timer_inv room t -> has_room room t -> next_entry (queue t) = Some i -> get (entries (queue t)) i = Some e ->
  pic_event e = PIT0_handler -> serve i e t = ok t' -> timer_inv room t'.
Proof using DoubleLaws0.
  intros (act & fr & det & Hok) Hroom Hi He Hp E. unfold serve in E. cbv zeta in E.
  pose proof (t_queue _ _ _ _ _ Hok) as Hq. destruct act as [|j act].
  { pose proof (thread_head _ _ _ (ok_act _ _ _ _ Hq)) as Hh. by rewrite Hi in Hh. }
  pose proof (thread_head _ _ _ (ok_act _ _ _ _ Hq)) as Hh. rewrite Hi in Hh. cbn in Hh. injection Hh as <-.
  destruct (pop_ok _ _ _ _ _ _ Hq He) as [Hq1 Hp1]. cbv zeta in *. set (q1 := set_lag _ _) in *.
  assert (timer_ok (fun k c => k = 0%nat /\ mode_changed c = false) (set_queue q1 t) act fr (i :: det)) as Hok1.
  { eapply set_queue_ok; [exact Hok|exact Hq1|]. intros c _ (R1 & R2 & _). rewrite Hp1, irq0_cons in R1, R2.
    rewrite decide_True in R1, R2 by done. split; [lia|]. destruct (mode_changed c); [|done]. specialize (R2 eq_refl). lia. }
  apply exec_bind_ok in E as (t2 & E2 & E). apply exec_bind_ok in E as (es & Ees & E). injection E as <-.
  destruct (event_ok _ room _ _ _ _ _ Hok1 Hroom E2) as (act2 & fr2 & Hok2); [by intros|].
  pose proof (t_queue _ _ _ _ _ Hok2) as Hq2.
  destruct (get_range (entries (queue t2)) i) as [e2 He2]; [apply (ok_det _ _ _ _ Hq2); left|].
  rewrite (set_next_ok _ _ _ _ He2) in Ees. injection Ees as <-.
  destruct (recycle_ok _ _ _ _ _ _ Hq2 He2) as [Hq3 Hp3]. exists act2, (i :: fr2), det.
  eapply set_queue_ok; [exact Hok2|exact Hq3|]. intros c _ Hr. by rewrite Hp3.
Qed.

(** *** Start-up and runs *)
Lemma TIMER_ok room q d act fr det t :
  queue_ok q act fr det -> irq0 (pending q act) = 0%nat -> (room = true -> free_entry q <> None) ->
  TIMER (static_timer q d) = ok t -> timer_inv room t.
Proof using DoubleLaws0.
  intros Hq Hn Hroom E. set (c0 := init_channel_0 (T := T) default_block). set (c1 := init_channel_1 (T := T) default_block).
  set (c2 := init_channel_2 (T := T) default_block). set (t0 := mkTimer [c0; c1; c2] false 0 false q d : Timer T D).
  change (add_event t0 (delay c0) = ok t) in E.
  assert (timer_ok (fun k c => k = 0%nat /\ mode_changed c = false) t0 act fr det) as Hok.
  { split; cbn; try done. repeat constructor; done. intros c Hc. change (Some c0 = Some c) in Hc. injection Hc as <-. done. }
  destruct (add_ok _ (rate_ok room) _ _ _ _ _ _ Hok E) as (act' & fr' & Hok'); [|by exists act', fr', det].
  intros k c [-> Q4]. unfold rate_ok. rewrite Q4. split; [repeat split; auto with lia; done|].
  intros Hfree. split; [lia|]. split; [done|]. intros Hr. by destruct (Hroom Hr).
Qed.

(** A step of the machine: an access to a port, the gate, the service of the timer's
    event, or other code, which may use the queue but leaves the events of the timer
    alone.  With [room], the queue is not full when the timer may add its event. *)
Inductive timer_step room : Timer T D -> Timer T D -> Prop :=
  | step_write port v t t' : has_room room t -> timer_write port v t = ok t' -> timer_step room t t'
  | step_read port v t t' : read_latch_port port t = ok (v, t') -> timer_step room t t'
  | step_gate b t t' : TIMER_SetGate2 b t = ok t' -> timer_step room t t'
  | step_serve i e t t' :
      has_room room t -> next_entry (queue t) = Some i -> get (entries (queue t)) i = Some e ->
      pic_event e = PIT0_handler -> serve i e t = ok t' -> timer_step room t t'
  | step_other q t :
      (forall act fr det, queue_ok (queue t) act fr det ->
        exists act' fr' det', queue_ok q act' fr' det' /\ irq0 (pending q act') = irq0 (pending (queue t) act)) ->
      timer_step room t (set_queue q t).
Lemma step_ok room t t' : timer_step room t t' -> timer_inv room t -> timer_inv room t'.
Proof using DoubleLaws0.
  destruct 1; intros Hi; eauto using timer_write_ok, read_latch_port_ok, set_gate_ok, serve_ok.
  destruct Hi as (act & fr & det & Hok). destruct (H2 _ _ _ (t_queue _ _ _ _ _ Hok)) as (act' & fr' & det' & Hq & Hp).
  exists act', fr', det'. eapply set_queue_ok; [exact Hok|exact Hq|]. intros c _. by rewrite Hp.
Qed.
End Invariant.
