(* ===== verification/TimerTheorems.v ===== *)
(** * What the timer guarantees

    One pending event for a running channel 0 and its period, counters programmed and
    read back through the ports, the status byte, and the counts that the latch
    cannot hold. *)
From stdpp Require Import relations.
From S2P Require Import Prelude.
From S2P Require Import Pic.
From S2P Require Import EventQueue.
From S2P Require Import EventQueueProofs.
From S2P Require Import EventOrder.
From S2P Require Import EventService.
From S2P Require Import Timer.
From S2P Require Import TimerProofs.
#[local] Open Scope Z_scope.
#[local] Open Scope exec_scope.

(** ** A concrete timer: fixed-point times, and a speaker that records its calls *)
#[export] Instance fixed_math : DoubleMath Z := {
  fmod := Z.rem;
  round x := if 0 <=? x then (x + 32768) / 65536 * 65536 else - ((- x + 32768) / 65536 * 65536) }.
#[export] Instance recorder : Speaker Z (list (Z * PitMode)) := {
  PCSPEAKER_SetCounter n p _ l := (n, p) :: l;
  PCSPEAKER_SetPITControl p _ l := (-1, p) :: l }.
Definition get_ok {A} (d : A) (x : exec A) : A := match x with ok a => a | err _ => d end.
Definition demo_queue : Queue Z := get_ok empty_queue (init_queue empty_queue).
Definition demo_timer : Timer Z (list (Z * PitMode)) :=
  get_ok (static_timer demo_queue []) (TIMER (static_timer demo_queue [])).
Definition run_ports (l : list (Z * Z)) (t : Timer Z (list (Z * PitMode))) : exec (Timer Z (list (Z * PitMode))) :=
  foldl (fun x '(port, value) => let* t := x in timer_write port value t) (ok t) l.

(** ** Requests and the clock *)
Definition slice_sum s : Z := CPU_CycleLeft s + CPU_Cycles s.
(** The slice is left alone or ended. *)
Definition keeps_slice (s s' : PicState) : Prop :=
  slice_sum s' = slice_sum s /\ (CPU_Cycles s' = CPU_Cycles s \/ CPU_Cycles s' = 0).
Lemma raise_irq_slice w f val s : (forall s, keeps_slice s (f s)) -> keeps_slice s (raise_irq w f val s).
Proof.
  intros Hf. unfold raise_irq. assert (keeps_slice s s) as Hs by (split; auto). destruct (_ =? 0); [|done]. cbv zeta.
  set (c := with_irr _ _). assert (keeps_slice s (set_ctl w c s)) as Hc by (split; [|left]; by destruct w).
  assert (forall b : bool, keeps_slice s (if b then f (set_ctl w c s) else set_ctl w c s)) as Hb.
  { intros []; [|done]. destruct (Hf (set_ctl w c s)), Hc. split; [congruence|]. intuition congruence. }
  destruct (nz _); [apply Hb|done].
Qed.
Lemma activate_clock irq s : slice_sum (PIC_ActivateIRQ irq s) = slice_sum s.
Proof.
  assert (forall s, keeps_slice s (activate_cpu s)) as Ha by (intros; unfold keeps_slice, slice_sum, activate_cpu; cbn; lia).
  assert (keeps_slice s (pic_raise_irq (irq_pic irq) (irq_line irq) s)) as [Hr Hz].
  { apply raise_irq_slice. destruct (irq_pic irq); [done|]. intros s1. by apply raise_irq_slice. }
  unfold PIC_ActivateIRQ. cbv zeta. rewrite <- Hr. revert Hz. generalize (pic_raise_irq (irq_pic irq) (irq_line irq) s).
  intros s1 Hz. destruct (Z.eqb_spec (CPU_Cycles s) (CPU_Cycles s1)); [done|]. unfold slice_sum. cbn. lia.
Qed.
Lemma wake_pics {T} `{Double T} (x : T) q q' : wake x q = ok q' ->
  exists a b, pics q' = set_cycles a b (pics q) /\ same_clock q q'.
Proof.
  unfold wake. intros E. exec_inv E. subst. unfold same_clock, PIC_TickIndexND.
  destruct (_ <? _); [eexists _, _; split; [done|]; cbn; repeat split; lia|].
  exists (CPU_Cycles (pics q)), (CPU_CycleLeft (pics q)). split; [by destruct (pics q)|done].
Qed.

(** ** The event of channel 0 *)
Section Events.
Context {T D : Type} `{DoubleMath T} `{!DoubleLaws T} `{Speaker T D}.
Implicit Types (t : Timer T D) (c : PIT_Block T) (room : bool).

(** C27.  From the constructor through any accesses to the ports, changes of the gate,
    served events and other users of the queue: the queue holds at most one event of
    the timer, none between a control word for channel 0 and its count, and exactly
    one while the channel runs in a periodic mode, if the queue never was full when
    the timer added its event.  At most one status byte is latched, the lock tells
    whether one is, and counts and latches keep to their ranges. *)
Theorem timer_event_pending room q d act fr det t0 t :
  queue_ok q act fr det -> irq0 (pending q act) = 0%nat -> (room = true -> free_entry q <> None) ->
  TIMER (static_timer q d) = ok t0 -> rtc (timer_step room) t0 t ->
  exists act' fr' det' c, queue_ok (queue t) act' fr' det' /\ get (pit t) 0 = Some c /\
    let n := irq0 (pending (queue t) act') in
    (n <= 1)%nat /\ (mode_changed c = true -> n = 0%nat) /\
    (room = true -> mode_changed c = false -> mode c <> InterruptOnTerminalCount -> n = 1%nat) /\
    status_count (pit t) = Nat.b2n (latched_timerstatus_locked t) /\ Forall block_ok (pit t).
Proof using DoubleLaws0.
  intros Hq Hn Hroom E Hrun. apply (TIMER_ok room _ _ _ _ _ _ Hq Hn Hroom) in E.
  assert (timer_inv room t) as (act' & fr' & det' & [Q1 Q2 Q3 Q4 Q5]) by (induction Hrun; eauto using step_ok).
  destruct (get_range (pit t) 0) as [c Hc]; [lia|]. destruct (Q5 c Hc) as (R1 & R2 & R3).
  exists act', fr', det', c. done.
Qed.
End Events.

(** ** The period *)
Section Period.
Context {T D : Type} `{DoubleMath T} `{!DoubleLaws T} `{Speaker T D}.
Implicit Types (t : Timer T D) (c : PIT_Block T).

(** The channel after its event: the start moves by the old period, and a count that
    was written meanwhile takes effect. *)
Definition next_period c : PIT_Block T :=
  let c := with_start (dadd (start c) (delay c)) c in
  if update_count c then with_update_count false (update_channel_delay c) else c.

Lemma add_event_slice t d act entry fr det first :
  queue_ok (queue t) act (entry :: fr) det ->
  let evs := insert_event (arrival d (queue t), 0, PIT0_handler) (pending (queue t) act) in
  head evs = Some first ->
  in_int32 (dmul (of_int (CPU_CycleMax (queue t))) (dsub (time first) (PIC_TickIndex (queue t)))) = true ->
  exists q act' a b, add_event t d = ok (set_queue q t) /\ queue_ok q act' fr det /\ pending q act' = evs /\
    pics q = set_cycles a b (pics (queue t)) /\ same_clock (queue t) q.
Proof using DoubleLaws0.
  intros Hok evs Hf Hin. destruct (add_event_wake (queue t) act entry fr det PIT0_handler d 0 first Hok Hf) as (q2 & act' & E2 & Hok2 & Hp2 & C2 & P2).
  pose proof C2 as (C21 & C22 & C23 & C24 & C25 & C26).
  destruct (wake_spec (time first) q2) as (q3 & E3 & L1 & L2 & L3 & _).
  { unfold PIC_TickIndex in *. by rewrite C24, C26. }
  destruct (wake_pics _ _ _ E3) as (a & b & P3 & D1 & D2 & D3 & D4 & D5 & D6).
  exists q3, act', a, b. unfold add_event. rewrite E2, E3. split; [done|]. split; [by eapply queue_ok_lists|].
  split; [unfold pending; by rewrite L1|]. split; [by rewrite P3, P2|]. unfold same_clock. repeat split; congruence.
Qed.

(** C29.  Serving the event of a periodic channel 0 requests IRQ 0 and posts the next
    event exactly one period after the time of the event served, however late it is
    served; the start of the channel moves with it, a count written meanwhile in
    mode 2 takes effect with this period, and the queue keeps its other events. *)
Theorem timer_period t i e act fr entry det c rest first :
  queue_ok (queue t) (i :: act) (entry :: fr) det -> get (entries (queue t)) i = Some e -> pic_event e = PIT0_handler ->
  pending (queue t) (i :: act) = ev e :: rest -> InEventService (queue t) = true ->
  get (pit t) 0 = Some c -> mode c <> InterruptOnTerminalCount ->
  let evs := insert_event (dadd (delay (next_period c)) (index e), 0, PIT0_handler) rest in
  head evs = Some first ->
  in_int32 (dmul (of_int (CPU_CycleMax (queue t))) (dsub (time first) (PIC_TickIndex (queue t)))) = true ->
  exists t' act', serve i e t = ok t' /\ queue_ok (queue t') act' (i :: fr) det /\ pending (queue t') act' = evs /\
    pit t' = upd (pit t) 0 (next_period c) /\ start (next_period c) = dadd (start c) (delay c) /\
    (forall w, ctl w (pics (queue t')) = ctl w (PIC_ActivateIRQ 0 (pics (queue t)))) /\
    PIC_TickIndexND (queue t') = PIC_TickIndexND (queue t).
Proof using DoubleLaws0.
  intros Hq He Hp Hrest Hsv Hc Hm evs Hf Hin. unfold serve, PIT0_Event. cbv zeta.
  destruct (pop_ok _ _ _ _ _ _ Hq He) as [Hq1 Hp1]. cbv zeta in *. set (q1 := set_lag _ _) in *.
  assert (rest = pending q1 act) as -> by congruence. set (t1 := on_pics _ (set_queue q1 t)).
  assert (read (pit t1) 0 = ok c) as -> by by apply read_get. cbn [exec_bind].
  rewrite bool_decide_false by done.
  change (if update_count (with_start (dadd (start c) (delay c)) c) then _ else _) with (next_period c).
  unfold put_channel. change (pit t1) with (pit t). rewrite write_upd by (by eapply get_Some_range). cbn [exec_bind].
  set (t2 := set_pit _ t1).
  assert (PIC_TickIndexND (queue t2) = PIC_TickIndexND (queue t)) as Hnd.
  { unfold PIC_TickIndexND. pose proof (activate_clock 0 (pics (queue t))) as Hcl. unfold slice_sum in Hcl. cbn in *. lia. }
  assert (queue_ok (queue t2) act (entry :: fr) (i :: det)) as Hq2 by (by apply (queue_ok_lists q1)).
  assert (arrival (delay (next_period c)) (queue t2) = dadd (delay (next_period c)) (index e)) as Ha.
  { unfold arrival. change (InEventService (queue t2)) with (InEventService (queue t)). by rewrite Hsv. }
  destruct (add_event_slice t2 (delay (next_period c)) act entry fr (i :: det) first Hq2) as (q3 & act' & a & b & E3 & Hq3 & Hp3 & P3 & C3).
  { by rewrite Ha. } { unfold PIC_TickIndex. by rewrite Hnd. }
  rewrite E3. cbn [exec_bind]. rewrite Ha in Hp3.
  destruct (get_range (entries q3) i) as [e2 He2]; [apply (ok_det _ _ _ _ Hq3); left|].
  change (queue (set_queue q3 t2)) with q3. rewrite (set_next_ok _ _ _ _ He2). cbn [exec_bind].
  destruct (recycle_ok _ _ _ _ _ _ Hq3 He2) as [Hq4 Hp4]. eexists _, act'. split; [done|]. split; [exact Hq4|].
  split; [exact (eq_trans Hp4 Hp3)|]. split; [done|]. split; [unfold next_period; cbn; by destruct (update_count c)|].
  split; [intros w; cbn; rewrite P3; by destruct w|].
  destruct C3 as (_ & _ & _ & D4 & _ & D6). rewrite <- Hnd, <- D6. done.
Qed.
End Period.

(** Channel 0 in mode 2 with the count 1000; its event is served once. *)
Definition rate_1000 : Timer Z (list (Z * PitMode)) :=
  get_ok demo_timer (run_ports [(0x43, 0x34); (0x40, 0xe8); (0x40, 3)] demo_timer).
Definition first_event : PICEntry Z := default (mkEntry 0 0 0 None) (get (entries (queue rate_1000)) 0).
Definition served_1000 : Timer Z (list (Z * PitMode)) := get_ok rate_1000 (serve 0 first_event rate_1000).
Example timer_event_pending_witness :
  exists act' fr' det' c, queue_ok (queue served_1000) act' fr' det' /\ get (pit served_1000) 0 = Some c /\
    let n := irq0 (pending (queue served_1000) act') in
    (n <= 1)%nat /\ (mode_changed c = true -> n = 0%nat) /\
    (true = true -> mode_changed c = false -> mode c <> InterruptOnTerminalCount -> n = 1%nat) /\
    status_count (pit served_1000) = Nat.b2n (latched_timerstatus_locked served_1000) /\ Forall block_ok (pit served_1000).
Proof.
  destruct (init_queue_ok empty_queue eq_refl) as (es & E0 & H0).
  assert (demo_queue = set_lists es (Some 0) None empty_queue) as Hd by (unfold demo_queue; by rewrite E0).
  rewrite <- Hd in H0.
  apply (timer_event_pending true demo_queue [] [] (0 :: seqZ 1 511) [] demo_timer served_1000 H0);
    [vm_compute; reflexivity|intros _; vm_compute; discriminate|vm_compute; reflexivity|].
  eapply rtc_l. { eapply (step_write true 0x43 0x34); [intros _; vm_compute; discriminate|vm_compute; reflexivity]. }
  eapply rtc_l. { eapply (step_write true 0x40 0xe8); [intros _; vm_compute; discriminate|vm_compute; reflexivity]. }
  eapply rtc_l. { eapply (step_write true 0x40 3); [intros _; vm_compute; discriminate|vm_compute; reflexivity]. }
  eapply rtc_l; [|apply rtc_refl]. eapply (step_serve true 0 first_event); [intros _; vm_compute; discriminate|vm_compute; reflexivity..].
Defined.
(** Channel 0 with the count 1000, and 500 written meanwhile; its event is that of
    time 20000, and the tick is at 21845 already. *)
Definition late_timer : Timer Z (list (Z * PitMode)) :=
  mkTimer [with_update_count true (with_count 500 (update_channel_delay (with_count 1000 (with_modes RateGenerator Both Both default_block)))); default_block; default_block]
    false 0 false
    (mkQueue [mkEntry 20000 0 PIT0_handler (Some 2); mkEntry 0 0 0 None; mkEntry 45000 5 9 None]
      (Some 1) (Some 0) true 0 0 3000 0 [] 1 start_pics) [].
Lemma late_timer_ok : queue_ok (queue late_timer) [0; 2] [1] [].
Proof.
  split.
  - repeat (split; [done|eexists; split; [reflexivity|]]); done.
  - repeat (split; [done|eexists; split; [reflexivity|]]); done.
  - refine (bool_decide_unpack _ _). by vm_compute.
  - intros i Hi. by apply elem_of_nil in Hi.
  - repeat constructor.
Qed.
Example timer_period_witness :
  exists t' act', serve 0 (mkEntry 20000 0 PIT0_handler (Some 2)) late_timer = ok t' /\ queue_ok (queue t') act' [0] [] /\
    pending (queue t') act' = [(45000, 5, 9); (47462, 0, PIT0_handler)] /\ (start <$> get (pit t') 0) = Some 54925.
Proof.
  destruct (timer_period late_timer 0 (mkEntry 20000 0 PIT0_handler (Some 2)) [2] [] 1 []
    (with_update_count true (with_count 500 (update_channel_delay (with_count 1000 (with_modes RateGenerator Both Both default_block)))))
    [(45000, 5, 9)] (45000, 5, 9)) as (t' & act' & E & Hq & Hp & Ht & _);
    [exact late_timer_ok|done..|].
  exists t', act'. split; [exact E|]. split; [exact Hq|]. split; [exact Hp|]. by rewrite Ht.
Defined.
