(* ===== verification/TimerLatch.v ===== *)
(** * What leaves a latched count alone

    Of the timer's operations, those that keep the read latch of a channel and the state
    of its reading: writes of counts, accesses and commands to other channels, the
    timer's own interrupt, the gate, and everything outside of the timer. *)
From stdpp Require Import relations.
From S2P Require Import Prelude.
From S2P Require Import Pic.
From S2P Require Import EventQueue.
From S2P Require Import Timer.
From S2P Require Import EventOrder.
From S2P Require Import TimerProofs.
#[local] Open Scope Z_scope.
#[local] Open Scope exec_scope.

Section Holding.
Context {T D : Type} `{DoubleMath T} `{Speaker T D}.
Implicit Types (t : Timer T D) (c : PIT_Block T).

(** What a read of a latched count looks at. *)
Definition latch_fields c := (read_latch c, read_mode c, bcd c, go_read_latch c, counterstatus_set c).
Definition holds (n : Z) f t : Prop := exists c, get (pit t) n = Some c /\ latch_fields c = f.

Lemma holds_pit n f t t' : pit t' = pit t -> holds n f t -> holds n f t'.
Proof using. unfold holds. by intros ->. Qed.
Lemma holds_put n f k c' t t' :
  put_channel k c' t = ok t' -> (k = n -> latch_fields c' = f) -> holds n f t -> holds n f t'.
Proof using.
  intros [-> [ck Hk]]%put_channel_inv Hf (c & Hc & E). pose proof (get_Some_range _ _ _ Hk) as Hr.
  unfold holds. cbn [pit set_pit]. rewrite get_upd by done. destruct (Z.eqb_spec k n) as [Hkn|Hkn]; eauto.
Qed.
Lemma holds_put_other n f k c' t t' : k <> n -> put_channel k c' t = ok t' -> holds n f t -> holds n f t'.
Proof using. intros Hk E. eapply holds_put; [exact E|]. by intros ->. Qed.
Lemma holds_read n f t c : holds n f t -> read (pit t) n = ok c -> latch_fields c = f.
Proof using. intros (c' & Hc' & E) Hc%read_inv. by simplify_eq. Qed.
(** Other channels. *)
Lemma holds_latch_other n f k t t' : k <> n -> latch_counter k t = ok t' -> holds n f t -> holds n f t'.
Proof using. intros Hk E. unfold latch_counter in E. exec_inv E. by eapply holds_put_other. Qed.
Lemma holds_status_other n f k t t' : k <> n -> status_latch k t = ok t' -> holds n f t -> holds n f t'.
Proof using.
  intros Hk E Hh. unfold status_latch in E. exec_inv E; [by subst|]. eapply holds_put_other; [exact Hk|exact E|].
  by eapply holds_pit, Hh.
Qed.
Lemma add_event_pit d t t' : add_event t d = ok t' -> pit t' = pit t.
Proof using. unfold add_event. intros E. exec_inv E. by subst. Qed.
Lemma remove_events_pit t t' : remove_events t = ok t' -> pit t' = pit t.
Proof using. unfold remove_events. intros E. exec_inv E. by subst. Qed.

(** A byte of a count, accepted or loaded. *)
Lemma accept_byte_latch v c : latch_fields (accept_byte v c) = latch_fields c.
Proof using.
  assert (forall v c, latch_fields (with_write_latch v c) = latch_fields c) as Hw by done.
  assert (forall v c, latch_fields (latch_byte v c) = latch_fields c) as Hl by (intros v1 c1; unfold latch_byte; by destruct (write_mode c1)).
  unfold accept_byte. cbv zeta. destruct (bcd (latch_byte v _)); rewrite ?Hw, Hl; by destruct (bcd c).
Qed.
Lemma write_port_holds n f port v t t' : write_latch_port port v t = ok t' -> holds n f t -> holds n f t'.
Proof using.
  intros E Hh. unfold write_latch_port in E. set (k := u8 (port - 64)) in *. apply exec_bind_ok in E as (c & Hc & E). cbv zeta in E.
  pose proof (accept_byte_latch (u8 v) c) as K. set (c1 := accept_byte (u8 v) c) in *.
  assert (k = n -> latch_fields c1 = f) as Hk by (intros Hkn; rewrite K; subst n; by eapply holds_read).
  clearbody c1 k. destruct (bool_decide _); [by eapply holds_put|].
  assert (forall c2, latch_fields c2 = latch_fields c1 -> k = n -> latch_fields c2 = f) as Hc2 by (intros c2 -> Hkn; auto).
  destruct (_ && _ && _); [eapply holds_put; [exact E|by apply Hc2|done]|].
  apply exec_bind_ok in E as (t1 & Hput & E). eapply holds_put in Hput; [|by apply Hc2|exact Hh].
  destruct (k =? 0); [|destruct (k =? 2); by injection E as <-]. destruct (_ || _); [|by injection E as <-].
  apply exec_bind_ok in E as (t2 & E2 & E). apply add_event_pit in E. eapply holds_pit; [exact E|].
  destruct (bool_decide _); [apply remove_events_pit in E2; by eapply holds_pit|by injection E2 as <-].
Qed.
(** A control word for another channel, and the read-back command without it. *)
Lemma single_channel_holds n f k v t t' : k <> n -> latch_single_channel k v t = ok t' -> holds n f t -> holds n f t'.
Proof using.
  intros Hk E Hh. unfold latch_single_channel in E. destruct (bool_decide _); [by eapply holds_latch_other|].
  apply exec_bind_ok in E as (c0 & _ & E). cbv zeta in E. apply exec_bind_ok in E as (t1 & E1 & E).
  eapply holds_latch_other in E1; [|done|exact Hh]. clear Hh. apply exec_bind_ok in E as (c & _ & E).
  set (t2 := if counterstatus_set c then _ else t1) in *. assert (holds n f t2) as H2 by (subst t2; by destruct (counterstatus_set c)).
  clearbody t2. apply exec_bind_ok in E as (t3 & Hput & E). eapply holds_put_other in Hput; [|exact Hk|exact H2]. clear H2.
  destruct (k =? 0); [|destruct (k =? 2); by injection E as <-].
  apply exec_bind_ok in E as (t4 & E4 & E). apply remove_events_pit in E4.
  destruct (_ && _); injection E as <-; by eapply holds_pit, Hput.
Qed.
Lemma all_channels_holds n f v t t' :
  0 <= n <= 2 -> Z.testbit v (n + 1) = false -> latch_all_channels v t = ok t' -> holds n f t -> holds n f t'.
Proof using.
  intros Hn Hb E Hh. unfold latch_all_channels in E. apply exec_bind_ok in E as (t1 & E1 & E).
  assert (forall k t t', Z.testbit v (k + 1) = true -> latch_counter k t = ok t' -> holds n f t -> holds n f t') as Hl.
  { intros k u u' Hk. apply holds_latch_other. intros ->. congruence. }
  assert (forall k t t', Z.testbit v (k + 1) = true -> status_latch k t = ok t' -> holds n f t -> holds n f t') as Hst.
  { intros k u u' Hk. apply holds_status_other. intros ->. congruence. }
  assert (holds n f t1) as Hh1.
  { destruct (_ =? 0); [|by injection E1 as <-]. apply exec_bind_ok in E1 as (u1 & F1 & E1). apply exec_bind_ok in E1 as (u2 & F2 & E1).
    assert (holds n f u1) as G1 by (destruct (Z.testbit v 1) eqn:B; [by eapply (Hl 0)|by injection F1 as <-]).
    assert (holds n f u2) as G2 by (destruct (Z.testbit v 2) eqn:B; [by eapply (Hl 1)|by injection F2 as <-]).
    destruct (Z.testbit v 3) eqn:B; [by eapply (Hl 2)|by injection E1 as <-]. }
  clear E1. destruct (_ =? 0); [|by injection E as <-]. destruct (Z.testbit v 1) eqn:B1; [by eapply (Hst 0)|].
  destruct (Z.testbit v 2) eqn:B2; [by eapply (Hst 1)|]. destruct (Z.testbit v 3) eqn:B3; [by eapply (Hst 2)|by injection E as <-].
Qed.

(** The interrupt of channel 0, and the round of the loop that serves it. *)
Lemma event_holds n f t t' : PIT0_Event t = ok t' -> holds n f t -> holds n f t'.
Proof using.
  intros E Hh. unfold PIT0_Event in E. cbv zeta in E. set (t1 := on_pics (PIC_ActivateIRQ 0) t) in *.
  assert (holds n f t1) as Hh1 by (by eapply holds_pit, Hh). clearbody t1. apply exec_bind_ok in E as (c & Hc & E).
  destruct (bool_decide _); [by injection E as <-|]. set (c' := if update_count _ then _ else _) in *.
  assert (latch_fields c' = latch_fields c) as Hf by (subst c'; by destruct (update_count _)). clearbody c'.
  apply exec_bind_ok in E as (t2 & Hput & E). apply add_event_pit in E. eapply holds_pit; [exact E|].
  eapply holds_put; [exact Hput| |done]. intros <-. rewrite Hf. exact (holds_read _ _ _ _ Hh1 Hc).
Qed.
Lemma serve_holds n f i e t t' : serve i e t = ok t' -> holds n f t -> holds n f t'.
Proof using.
  intros E Hh. unfold serve in E. cbv zeta in E. apply exec_bind_ok in E as (t1 & E1 & E). apply exec_bind_ok in E as (es & _ & E).
  injection E as <-. apply (holds_pit n f t1); [done|].
  eapply event_holds; [exact E1|]. by apply (holds_pit n f t).
Qed.
(** Reads of another channel. *)
Lemma read_other_holds n f port v t t' : u8 (port - 0x40) <> n -> read_latch_port port t = ok (v, t') -> holds n f t -> holds n f t'.
Proof using.
  intros Hn E Hh. unfold read_latch_port in E. cbv zeta in E. apply exec_bind_ok in E as (c & _ & E). destruct (counterstatus_set c).
  - apply exec_bind_ok in E as (t1 & E1 & E). injection E as _ <-. eapply holds_put_other; [exact Hn|exact E1|]. by eapply holds_pit, Hh.
  - apply exec_bind_ok in E as (t1 & E1 & E). apply exec_bind_ok in E as (c1 & _ & E).
    destruct (deliver_byte c1) as [r c2]. apply exec_bind_ok in E as (t2 & E2 & E). injection E as _ <-.
    eapply holds_put_other; [exact Hn|exact E2|]. destruct (go_read_latch c); [by eapply holds_latch_other|by injection E1 as <-].
Qed.
(** The gate is that of channel 2; switching it on only restarts the channel. *)
Lemma gate_holds n f b t t' : n <> 2 \/ b = true -> TIMER_SetGate2 b t = ok t' -> holds n f t -> holds n f t'.
Proof using.
  intros Hn E Hh. unfold TIMER_SetGate2 in E. destruct (Bool.eqb _ _); [by injection E as <-|].
  apply exec_bind_ok in E as (c & Hc & E). apply exec_bind_ok in E as (t1 & E1 & E). injection E as <-.
  enough (holds n f t1) by (by eapply holds_pit).
  assert (forall c', latch_fields c' = latch_fields c -> 2 = n -> latch_fields c' = f) as Hf.
  { intros c' -> <-. by eapply holds_read. }
  assert (b = false -> 2 <> n) as Hb by (intros ->; destruct Hn; [lia|done]).
  destruct (mode c), b; try (by injection E1 as <-);
    try (eapply holds_put; [exact E1|by apply Hf|done]); try (by eapply holds_latch_other; [apply Hb|exact E1|]).
  apply exec_bind_ok in E1 as (t2 & E2 & E1). apply exec_bind_ok in E1 as (c2 & _ & E1).
  eapply holds_put; [exact E1|by intros <-; destruct (Hb eq_refl)|]. by eapply holds_latch_other; [apply Hb|exact E2|].
Qed.

(** ** Steps that do not disturb a latched count of channel [n] *)
Inductive undisturbed (n : Z) : Timer T D -> Timer T D -> Prop :=
  | und_write port v t t' : port <> 0x43 -> timer_write port v t = ok t' -> undisturbed n t t'
  | und_command v t t' :
      Z.land (Z.shiftr (u8 v) 6) 3 <> n -> (Z.land (Z.shiftr (u8 v) 6) 3 = 3 -> Z.testbit (u8 v) (n + 1) = false) ->
      timer_write 0x43 v t = ok t' -> undisturbed n t t'
  | und_read port v t t' : u8 (port - 0x40) <> n -> read_latch_port port t = ok (v, t') -> undisturbed n t t'
  | und_gate b t t' : n <> 2 \/ b = true -> TIMER_SetGate2 b t = ok t' -> undisturbed n t t'
  | und_serve i e t t' : serve i e t = ok t' -> undisturbed n t t'
  | und_other q d t : undisturbed n t (set_speaker d (set_queue q t)).
Lemma undisturbed_holds n f t t' : 0 <= n <= 2 -> undisturbed n t t' -> holds n f t -> holds n f t'.
Proof using.
  intros Hn. destruct 1 as [port v t t' Hp E|v t t' Hk Hb E| | |i e t t' E|]; eauto using read_other_holds, gate_holds, serve_holds.
  - unfold timer_write in E. destruct (_ || _); [by eapply write_port_holds|]. rewrite (proj2 (Z.eqb_neq _ _) Hp) in E. by injection E as <-.
  - change (write_p43 v t = ok t') in E. unfold write_p43 in E. cbv zeta in E.
    destruct (Z.ltb_spec (Z.land (Z.shiftr (u8 v) 6) 3) 3); [by eapply single_channel_holds|].
    eapply all_channels_holds; [done|apply Hb|done]. pose proof (land_bounds (Z.shiftr (u8 v) 6) 3). lia.
Qed.
Lemma undisturbed_run n f t t' : 0 <= n <= 2 -> rtc (undisturbed n) t t' -> holds n f t -> holds n f t'.
Proof using. intros Hn. induction 1; eauto using undisturbed_holds. Qed.
End Holding.
