(* ===== verification/TimerPorts.v ===== *)
(** * Programming and reading the timer through its ports

    A control word and two bytes set a count; a latched count reads back in two bytes,
    whatever the timer does in between that leaves the latch alone; and the counts that
    the read latch cannot hold. *)
From stdpp Require Import relations.
From S2P Require Import Prelude.
From S2P Require Import Pic.
From S2P Require Import EventQueue.
From S2P Require Import EventQueueProofs.
From S2P Require Import EventOrder.
From S2P Require Import Timer.
From S2P Require Import TimerProofs.
From S2P Require Import TimerTheorems.
From S2P Require Import TimerLatch.
#[local] Open Scope Z_scope.
#[local] Open Scope exec_scope.

(** ** Bytes and decimals *)
Lemma forallb_seqZ (P : Z -> bool) n : forallb P (seqZ 0 n) = true -> forall x, 0 <= x < n -> P x = true.
Proof. intros Hall x Hx. rewrite forallb_forall in Hall. apply Hall, list_elem_of_In, elem_of_seqZ. lia. Qed.
Lemma two_bytes (P : Z -> Z -> bool) : forallb (fun x => forallb (P x) (seqZ 0 256)) (seqZ 0 256) = true ->
  forall x y, 0 <= x < 256 -> 0 <= y < 256 -> P x y = true.
Proof. intros Hall x y Hx Hy. by apply (forallb_seqZ _ _ (forallb_seqZ _ _ Hall x Hx)). Qed.

Lemma implb_elim a b : implb a b = true -> a = true -> b = true.
Proof. by destruct a, b. Qed.
Definition valid_digits (lo : Z) : bool := (lo mod 16 <? 10) && (lo / 16 <? 10).
Lemma join_bytes lo hi : 0 <= lo < 256 -> 0 <= hi < 256 ->
  u16 (Z.lor (Z.land lo 255) (Z.shiftl (Z.land hi 255) 8)) = lo + 256 * hi.
Proof.
  intros Hl Hh. apply Z.eqb_eq. revert lo hi Hl Hh.
  apply (two_bytes (fun lo hi => u16 (Z.lor (Z.land lo 255) (Z.shiftl (Z.land hi 255) 8)) =? lo + 256 * hi)). vm_compute. reflexivity.
Qed.
Definition digits_join (lo hi : Z) : bool :=
  implb (valid_digits lo)
    (bcd_to_decimal (u16 (Z.lor (decimal_to_bcd (bcd_to_decimal (Z.land lo 255))) (Z.shiftl (Z.land hi 255) 8))) =?
     bcd_to_decimal (lo + 256 * hi)).
Lemma digits_join_all : forallb (fun lo => forallb (digits_join lo) (seqZ 0 256)) (seqZ 0 256) = true.
Proof. vm_compute. reflexivity. Qed.
Lemma join_digits lo hi : 0 <= lo < 256 -> 0 <= hi < 256 -> valid_digits lo = true ->
  bcd_to_decimal (u16 (Z.lor (decimal_to_bcd (bcd_to_decimal (Z.land lo 255))) (Z.shiftl (Z.land hi 255) 8))) =
  bcd_to_decimal (lo + 256 * hi).
Proof.
  intros Hl Hh Hv. apply Z.eqb_eq. exact (implb_elim _ _ (two_bytes _ digits_join_all lo hi Hl Hh) Hv).
Qed.
Lemma decimal_mod v : decimal_to_bcd (v mod 10000) = decimal_to_bcd v.
Proof. unfold decimal_to_bcd. zlia. Qed.
(** Encoding loses what is above four digits, and nothing else. *)
Lemma bcd_roundtrip v : bcd_to_decimal (decimal_to_bcd v) = v mod 10000.
Proof.
  rewrite <- decimal_mod. apply Z.eqb_eq. pose proof (Z.mod_pos_bound v 10000 ltac:(done)) as Hr. revert Hr. generalize (v mod 10000).
  apply (forallb_seqZ (fun v => bcd_to_decimal (decimal_to_bcd v) =? v)). vm_compute. reflexivity.
Qed.
Lemma split_bytes v : 0 <= v < 65536 -> Z.land v 0xff + 256 * Z.land (Z.shiftr v 8) 0xff = v.
Proof.
  intros Hv. rewrite Z.shiftr_div_pow2 by done. change 255 with (Z.ones 8). rewrite !Z.land_ones by done. zlia.
Qed.

(** ** Control words *)
Definition control_word (n : Z) (a : AccessMode) (m : PitMode) (b : bool) : Z :=
  64 * n + 16 * access_bits a + 2 * mode_bits m + (if b then 1 else 0).
Lemma control_fields n a m b : 0 <= n <= 3 -> m <> Inactive ->
  let v := control_word n a m b in
  u8 v = v /\ Z.land (Z.shiftr v 6) 3 = n /\ access_of (Z.shiftr v 4) = a /\ pit_mode_of (Z.shiftr v 1) = m /\ Z.testbit v 0 = b.
Proof.
  intros Hn Hm. assert (n = 0 \/ n = 1 \/ n = 2 \/ n = 3) as Hc by lia.
  destruct Hc as [-> | [-> | [-> | ->]]]; destruct a, m, b; done.
Qed.

(** ** Programming a count *)
Section Programming.
Context {T D : Type} `{DoubleMath T} `{!DoubleLaws T} `{Speaker T D}.
Implicit Types (t : Timer T D) (c : PIT_Block T).

(** What a control word for low and high byte leaves, and the first byte. *)
Definition expects_low (m : PitMode) (b : bool) c : Prop :=
  write_mode c = Both /\ mode c = m /\ bcd c = b /\ mode_changed c = true.
Definition expects_high (m : PitMode) (b : bool) (lo : Z) c : Prop :=
  write_mode c = Latch /\ mode c = m /\ bcd c = b /\ mode_changed c = true /\
  write_latch c = (if b then bcd_to_decimal (Z.land lo 255) else Z.land lo 255).
Definition written (b : bool) (lo hi : Z) : Z := if b then bcd_to_decimal (lo + 256 * hi) else lo + 256 * hi.
Definition loaded (b : bool) (lo hi : Z) : Z :=
  if written b lo hi =? 0 then (if b then 9999 else 65536) else written b lo hi.

Lemma put_channel_ok n c c' t : get (pit t) n = Some c -> put_channel n c' t = ok (set_pit (upd (pit t) n c') t).
Proof using. intros Hc. unfold put_channel. by rewrite write_upd by (by eapply get_Some_range). Qed.
Lemma get_put n c c' t : get (pit t) n = Some c -> get (pit (set_pit (upd (pit t) n c') t)) n = Some c'.
Proof using. intros Hc. apply get_upd_eq. by eapply get_Some_range. Qed.

Lemma control_word_sets n a m b t t' : 0 <= n <= 2 -> m <> Inactive -> a <> Latch ->
  timer_write 0x43 (control_word n a m b) t = ok t' ->
  exists c c1 now, get (pit t') n = Some c /\ c = with_mode_changed true (reprogram (control_word n a m b) now c1) /\
    write_mode c = a /\ read_mode c = a /\ mode c = m /\ bcd c = b /\ mode_changed c = true /\ counterstatus_set c = false.
Proof using.
  intros Hn Hm Ha E. destruct (control_fields n a m b ltac:(lia) Hm) as (F1 & F2 & F3 & F4 & F5). cbv zeta in *.
  set (v := control_word n a m b) in *. clearbody v.
  unfold timer_write, write_p43 in E. cbn [orb Z.eqb Pos.eqb] in E. cbv zeta in E. rewrite F1, F2 in E.
  assert ((n <? 3) = true) as Hlt by lia. rewrite Hlt in E. unfold latch_single_channel in E. rewrite F3 in E. rewrite bool_decide_false in E by done.
  apply exec_bind_ok in E as (c0 & _ & E). cbv zeta in E. apply exec_bind_ok in E as (t1 & _ & E).
  apply exec_bind_ok in E as (c & Hc%read_inv & E). set (t2 := if counterstatus_set c then _ else t1) in *.
  assert (pit t2 = pit t1) as Ht by (subst t2; by destruct (counterstatus_set c)). set (now := FullIndex t2) in *.
  apply exec_bind_ok in E as (t3 & E3 & E). apply put_channel_inv in E3 as [-> [cx Hcx]].
  set (c3 := with_mode_changed true _) in *.
  assert (pit t' = upd (pit t2) n c3) as Hp.
  { destruct (n =? 0); [|destruct (n =? 2); by injection E as <-].
    unfold remove_events in E. exec_inv E; subst t'; exec_inv E0; by subst v0. }
  exists c3, c, now. rewrite Hp. split; [apply get_upd_eq; by eapply get_Some_range|]. split; [done|].
  subst c3. unfold reprogram. rewrite F3, F4, F5. cbv zeta. destruct (bcd (with_bcd b c)) eqn:B; cbn in *; subst; done.
Qed.

Lemma timer_low_byte n lo t c m b : get (pit t) n = Some c -> 0 <= n <= 2 -> expects_low m b c ->
  exists c', write_latch_port (0x40 + n) lo t = ok (set_pit (upd (pit t) n c') t) /\ expects_high m b (u8 lo) c' /\
    (count c', delay c', start c', read_latch c') = (count c, delay c, start c, read_latch c).
Proof using.
  intros Hc Hn (W & M & B & P). unfold write_latch_port.
  assert (u8 (64 + n - 64) = n) as -> by (rewrite Z.add_simpl_l; unfold u8, wrap; apply Z.mod_small; cbn; lia).
  rewrite (read_get _ _ _ Hc). cbn [exec_bind]. cbv zeta. set (c' := accept_byte (u8 lo) c).
  assert (expects_high m b (u8 lo) c' /\ (count c', delay c', start c', read_latch c') = (count c, delay c, start c, read_latch c)) as [He Hf].
  { subst c'. unfold accept_byte, latch_byte, expects_high. cbv zeta. destruct c. cbn in *. subst. destruct b; cbn; done. }
  rewrite bool_decide_true by apply He. exists c'. split; [by eapply put_channel_ok|done].
Qed.
(** The second byte, up to the effects outside of the channel. *)
Lemma timer_high_byte lo hi c m b : expects_high m b lo c -> 0 <= lo < 256 -> 0 <= hi < 256 -> (b = true -> valid_digits lo = true) ->
  let c' := load_count (accept_byte hi c) in
  count c' = loaded b lo hi /\ write_mode (accept_byte hi c) = Both /\ mode c' = m /\ bcd c' = b /\ mode_changed c' = true.
Proof using.
  intros (W & M & B & P & L) Hlo Hhi Hv. cbv zeta. unfold accept_byte, latch_byte. cbv zeta.
  destruct b; rewrite B.
  - replace (write_mode (with_write_latch _ c)) with Latch by done. cbn [bcd with_write_mode with_write_latch with_modes].
    rewrite B. unfold load_count, get_max_count, loaded, written. cbn. rewrite L, join_digits, B by auto.
    repeat split; done.
  - rewrite W. cbn [bcd with_write_mode with_write_latch with_modes]. rewrite B.
    unfold load_count, get_max_count, loaded, written. cbn. rewrite L, join_bytes, B by auto. repeat split; done.
Qed.

(** The channel counts down from [total] since [now]. *)
Definition counts_from (m : PitMode) (b : bool) (total : Z) (now : T) c : Prop :=
  count c = total /\ mode c = m /\ bcd c = b /\ mode_changed c = false /\ start c = now /\
  delay c = ddiv (dmul (of_int 1000) (of_int total)) (of_int PIT_TICK_RATE).
Definition other_events (m : PitMode) (evs : list (event T)) : list (event T) :=
  if decide (m = InterruptOnTerminalCount) then filter (fun x => (x.2 =? PIT0_handler) = false) evs else evs.

Lemma loaded_pos b lo hi : 0 <= lo -> 0 <= hi -> 0 < loaded b lo hi.
Proof using.
  intros Hl Hh. unfold loaded. pose proof (bcd_to_decimal_range (lo + 256 * hi)).
  destruct (Z.eqb_spec (written b lo hi) 0) as [|Hne]; [by destruct b|]. unfold written in *. destruct b; lia.
Qed.
(** A removal leaves a free entry where there was one. *)
Lemma remove_keeps_free t act entry fr det :
  queue_ok (queue t) act (entry :: fr) det ->
  exists q act' entry' fr', remove_events t = ok (set_queue q t) /\ queue_ok q act' (entry' :: fr') det /\
    pending q act' = filter (fun x => (x.2 =? PIT0_handler) = false) (pending (queue t) act) /\ same_clock (queue t) q.
Proof using DoubleLaws0.
  intros Hq. destruct (remove_irq0 _ _ _ _ Hq) as (q & act' & fr' & E & Hq' & Hp & _ & Hlen & Hc & _).
  destruct fr' as [|entry' fr'].
  - pose proof (contents_length _ _ _ (ok_act _ _ _ _ Hq)) as L1. pose proof (contents_length _ _ _ (ok_act _ _ _ _ Hq')) as L2.
    assert (length (pending q act') <= length (pending (queue t) act))%nat as L3 by (rewrite Hp; apply length_filter).
    unfold pending in L3. cbn in Hlen. lia.
  - exists q, act', entry', fr'. unfold remove_events. by rewrite E.
Qed.
Lemma post_event t m d act entry fr det first :
  queue_ok (queue t) act (entry :: fr) det ->
  let evs := insert_event (arrival d (queue t), 0, PIT0_handler) (other_events m (pending (queue t) act)) in
  head evs = Some first ->
  in_int32 (dmul (of_int (CPU_CycleMax (queue t))) (dsub (time first) (PIC_TickIndex (queue t)))) = true ->
  exists q act' fr', (let* t := if bool_decide (m = InterruptOnTerminalCount) then remove_events t else ok t in add_event t d) = ok (set_queue q t) /\
    queue_ok q act' fr' det /\ pending q act' = evs.
Proof using DoubleLaws0.
  intros Hq evs Hf Hin. unfold evs, other_events in *. clear evs. destruct (decide (m = InterruptOnTerminalCount)) as [Hm | Hm].
  - rewrite bool_decide_true by done. destruct (remove_keeps_free t _ _ _ _ Hq) as (q & act' & entry' & fr' & E & Hq' & Hp & C).
    rewrite E. cbn [exec_bind]. destruct C as (C1 & C2 & C3 & C4 & C5 & C6).
    assert (arrival d q = arrival d (queue t) /\ PIC_TickIndex q = PIC_TickIndex (queue t)) as [Ha Ht]
      by (unfold arrival, PIC_TickIndex; by rewrite C1, C2, C4, C6).
    destruct (add_event_slice (set_queue q t) d act' entry' fr' det first Hq') as (q2 & act2 & _ & _ & E2 & Hq2 & Hp2 & _).
    { cbn [queue set_queue]. by rewrite Ha, Hp. } { cbn [queue set_queue]. by rewrite Ht, C4. }
    exists q2, act2, fr'. rewrite E2. split; [done|]. split; [done|]. rewrite Hp2. cbn [queue set_queue]. by rewrite Ha, Hp.
  - rewrite bool_decide_false by done. cbn [exec_bind].
    destruct (add_event_slice t d act entry fr det first Hq Hf Hin) as (q2 & act2 & _ & _ & E2 & Hq2 & Hp2 & _).
    by exists q2, act2, fr.
Qed.
Lemma high_byte_port n hi lo t c m b :
  get (pit t) n = Some c -> 0 <= n <= 2 -> expects_high m b lo c -> 0 <= lo < 256 -> 0 <= hi < 256 -> (b = true -> valid_digits lo = true) ->
  exists c', counts_from m b (loaded b lo hi) (FullIndex t) c' /\
    let t' := set_pit (upd (pit t) n c') t in
    write_latch_port (0x40 + n) hi t =
      if n =? 0 then let* t' := if bool_decide (m = InterruptOnTerminalCount) then remove_events t' else ok t' in add_event t' (delay c')
      else if n =? 2 then ok (set_counter (loaded b lo hi) m t') else ok t'.
Proof using.
  intros Hc Hn He Hlo Hhi Hv. unfold write_latch_port.
  assert (u8 (64 + n - 64) = n) as -> by (rewrite Z.add_simpl_l; unfold u8, wrap; apply Z.mod_small; cbn; lia).
  assert (u8 hi = hi) as -> by (unfold u8, wrap; by apply Z.mod_small).
  rewrite (read_get _ _ _ Hc). cbn [exec_bind]. cbv zeta.
  destruct (timer_high_byte lo hi c m b He Hlo Hhi Hv) as (Q1 & Q2 & Q3 & Q4 & Q5). cbv zeta in *. set (c2 := load_count _) in *. clearbody c2.
  rewrite bool_decide_false by congruence. rewrite Q5. cbn [negb andb].
  set (c3 := update_channel_delay (with_start (FullIndex t) c2)). exists (with_mode_changed false c3). split.
  - unfold counts_from. cbn. repeat split; try done. unfold freq_divider. cbn. rewrite Q1.
    pose proof (loaded_pos b lo hi ltac:(lia) ltac:(lia)). by destruct (Z.eqb_spec (loaded b lo hi) 0); [lia|].
  - rewrite (put_channel_ok _ _ _ _ Hc). cbn [exec_bind].
    change (mode_changed c3) with (mode_changed c2). change (mode c3) with (mode c2). change (count c3) with (count c2).
    rewrite Q1, Q3, Q5. done.
Qed.

(** C28.  A control word for channel 0 or 2 with low and high byte, and then the two
    bytes, whatever happens to the rest of the machine in between: the first byte
    leaves the count alone; the second makes the channel count from the written value,
    in binary or in decimal digits, from that moment, with the period of the value; a
    value of zero is 65536, or 9999 in decimal.  Channel 2 hands count and mode to the
    speaker; channel 0 posts its event one period later, in place of the one pending
    in mode 0. *)
Theorem program_counter t t1 n m b lo hi :
  n = 0 \/ n = 2 -> m <> Inactive -> 0 <= lo < 256 -> 0 <= hi < 256 -> (b = true -> valid_digits lo = true) ->
  timer_write 0x43 (control_word n Both m b) t = ok t1 ->
  exists c1, get (pit t1) n = Some c1 /\ forall u1, get (pit u1) n = Some c1 ->
  exists c2, count c2 = count c1 /\ timer_write (0x40 + n) lo u1 = ok (set_pit (upd (pit u1) n c2) u1) /\
  forall u2, get (pit u2) n = Some c2 ->
  exists c, counts_from m b (loaded b lo hi) (FullIndex u2) c /\
    let u3 := set_pit (upd (pit u2) n c) u2 in
    (n = 2 -> timer_write 0x42 hi u2 = ok (set_counter (loaded b lo hi) m u3)) /\
    (n = 0 -> forall act entry fr det first, queue_ok (queue u2) act (entry :: fr) det ->
      let evs := insert_event (arrival (delay c) (queue u2), 0, PIT0_handler) (other_events m (pending (queue u2) act)) in
      head evs = Some first ->
      in_int32 (dmul (of_int (CPU_CycleMax (queue u2))) (dsub (time first) (PIC_TickIndex (queue u2)))) = true ->
      exists q act' fr', timer_write 0x40 hi u2 = ok (set_queue q u3) /\ queue_ok q act' fr' det /\ pending q act' = evs).
Proof using DoubleLaws0.
  intros Hn Hm Hlo Hhi Hv E. assert (0 <= n <= 2) as Hr by lia.
  destruct (control_word_sets n Both m b t t1 Hr Hm ltac:(done) E) as (c1 & _ & _ & Hc1 & _ & W & _ & M & B & P & _).
  assert (forall v u, timer_write (0x40 + n) v u = write_latch_port (0x40 + n) v u) as Hport by (by destruct Hn as [-> | ->]).
  exists c1. split; [done|]. intros u1 Hu1. destruct (timer_low_byte n lo u1 c1 m b Hu1 Hr) as (c2 & E2 & He & Hf); [done|].
  assert (u8 lo = lo) as Hlo8 by (unfold u8, wrap; by apply Z.mod_small). rewrite Hlo8 in He.
  exists c2. split; [congruence|]. split; [by rewrite Hport|]. intros u2 Hu2.
  destruct (high_byte_port n hi lo u2 c2 m b Hu2 Hr He Hlo Hhi Hv) as (c & Hcnt & E3). exists c. split; [done|]. cbv zeta in *. split.
  - intros ->. exact (eq_trans (Hport hi u2) E3).
  - intros -> act entry fr det first Hq Hfirst Hin. cbn [Z.eqb] in E3.
    destruct (post_event (set_pit (upd (pit u2) 0 c) u2) m (delay c) act entry fr det first Hq Hfirst Hin) as (q & act' & fr' & E4 & Hq4 & Hp4).
    exists q, act', fr'. split; [exact (eq_trans (Hport hi u2) (eq_trans E3 E4))|done].
Qed.
End Programming.
(** Four decimal zeros on channel 0 in mode 2: 9999 ticks, 8.38 ms. *)
Example program_counter_witness :
  exists t1 c1 c2 c q act' fr', timer_write 0x43 0x35 late_timer = ok t1 /\ get (pit t1) 0 = Some c1 /\
    timer_write 0x40 0 t1 = ok (set_pit (upd (pit t1) 0 c2) t1) /\
    let u2 := set_pit (upd (pit late_timer) 0 c2) late_timer in
    timer_write 0x40 0 u2 = ok (set_queue q (set_pit (upd (pit u2) 0 c) u2)) /\ count c = 9999 /\
    queue_ok q act' fr' [] /\ pending q act' = [(20000, 0, 0); (45000, 5, 9); (549199, 0, 0)].
Proof.
  set (t1 := get_ok late_timer (timer_write 0x43 0x35 late_timer)).
  destruct (program_counter late_timer t1 0 RateGenerator true 0 0) as (c1 & Hc1 & H1); [by left|done|done|done|done|vm_compute; reflexivity|].
  destruct (H1 t1 Hc1) as (c2 & Hn2 & E2 & H2).
  destruct (H2 (set_pit (upd (pit late_timer) 0 c2) late_timer) eq_refl) as (c & Hc & _ & H3).
  destruct (H3 eq_refl [0; 2] 1 [] [] (20000, 0, 0) late_timer_ok) as (q & act' & fr' & E3 & Hq & Hp); [|done|].
  { destruct Hc as (_ & _ & _ & _ & _ & ->). by vm_compute. }
  exists t1, c1, c2, c, q, act', fr'. split; [vm_compute; reflexivity|]. split; [exact Hc1|]. split; [exact E2|]. split; [exact E3|].
  split; [exact (proj1 Hc)|]. split; [exact Hq|]. rewrite Hp. destruct Hc as (_ & _ & _ & _ & _ & ->). by vm_compute.
Defined.

(** ** Reading a latched count *)
Section Reading.
Context {T D : Type} `{DoubleMath T} `{Speaker T D}.
Implicit Types (t : Timer T D) (c : PIT_Block T).

(** What the two bytes of a read show. *)
Definition shown c : Z := if bcd c then decimal_to_bcd (read_latch c) else read_latch c.

Lemma shown_byte c : 0 <= shown c < 65536 \/ bcd c = false.
Proof using. unfold shown. destruct (bcd c); [left; apply decimal_to_bcd_range|by right]. Qed.
Lemma read_port_latched n t c : 0 <= n <= 2 -> get (pit t) n = Some c -> counterstatus_set c = false -> go_read_latch c = false ->
  read_latch_port (0x40 + n) t = ok ((deliver_byte c).1, set_pit (upd (pit t) n (deliver_byte c).2) t).
Proof using.
  intros Hn Hc Hs Hg. unfold read_latch_port.
  assert (u8 (64 + n - 64) = n) as -> by (rewrite Z.add_simpl_l; unfold u8, wrap; apply Z.mod_small; cbn; lia).
  rewrite (read_get _ _ _ Hc). cbn [exec_bind]. cbv zeta. rewrite Hs, Hg. cbn [exec_bind].
  rewrite (read_get _ _ _ Hc). cbn [exec_bind]. destruct (deliver_byte c) as [ret c']. cbn [fst snd].
  unfold put_channel. by rewrite write_upd by (by eapply get_Some_range).
Qed.
Lemma deliver_low c : read_mode c = Both ->
  (deliver_byte c).1 = Z.land (shown c) 0xff /\
  let c' := (deliver_byte c).2 in
  shown c' = shown c /\ read_mode c' = Latch /\ bcd c' = bcd c /\ go_read_latch c' = go_read_latch c /\ counterstatus_set c' = counterstatus_set c.
Proof using.
  intros Hm. unfold deliver_byte, take_byte, shown. destruct c. cbn in *. subst. destruct bcd; cbn; [|done].
  rewrite bcd_roundtrip, decimal_mod. done.
Qed.
Lemma deliver_high c : read_mode c = Latch ->
  (deliver_byte c).1 = Z.land (Z.shiftr (shown c) 8) 0xff /\
  let c' := (deliver_byte c).2 in
  read_mode c' = Both /\ go_read_latch c' = true /\ counterstatus_set c' = counterstatus_set c.
Proof using. intros Hm. unfold deliver_byte, take_byte, shown. destruct c. cbn in *. subst. by destruct bcd. Qed.

Lemma shown_fields c c' : latch_fields c' = latch_fields c -> shown c' = shown c.
Proof using. unfold latch_fields, shown. intros [= -> _ -> _ _]. done. Qed.
(** A latched channel, read after steps that do not disturb it. *)
Lemma read_after n t u c :
  0 <= n <= 2 -> get (pit t) n = Some c -> counterstatus_set c = false -> go_read_latch c = false -> rtc (undisturbed n) t u ->
  exists c', read_latch_port (0x40 + n) u = ok ((deliver_byte c').1, set_pit (upd (pit u) n (deliver_byte c').2) u) /\
    latch_fields c' = latch_fields c /\ get (pit (set_pit (upd (pit u) n (deliver_byte c').2) u)) n = Some (deliver_byte c').2.
Proof using.
  intros Hn Hc Hs Hg Hu. destruct (undisturbed_run n (latch_fields c) t u Hn Hu) as (c' & Hc' & Hf); [by exists c|].
  unfold latch_fields in Hf. injection Hf as F1 F2 F3 F4 F5. exists c'. split; [apply read_port_latched; congruence|].
  split; [by unfold latch_fields; congruence|by eapply get_put].
Qed.

(** C30.  After a latch command for a channel that delivers low and high byte, two
    reads of its port give the two bytes of the count latched then, however much time
    passes between the command and the reads and whatever happens meanwhile that is not
    an access to the latch of this channel: counts written to any channel, the timer's
    interrupt served, other channels read or commanded, the gate switched on (or, for
    channel 0 or 1, switched at all), other code using the queue and the speaker.  A
    decimal channel shows four decimal digits.  Then the channel latches again at the
    next read.  (A second latch command or switching the gate of channel 2 off latches
    anew before the reads.) *)
Theorem latched_count_read t t1 u1 n c1 :
  0 <= n <= 2 -> timer_write 0x43 (64 * n) t = ok t1 -> get (pit t1) n = Some c1 ->
  counterstatus_set c1 = false -> read_mode c1 = Both -> 0 <= read_latch c1 < 65536 -> rtc (undisturbed n) t1 u1 ->
  (exists c, counter_latch (gated n t) (FullIndex t) c = ok c1 /\ get (pit t) n = Some c) /\
  exists lo u1', read_latch_port (0x40 + n) u1 = ok (lo, u1') /\
  forall u2, rtc (undisturbed n) u1' u2 ->
  exists hi u2' c3, read_latch_port (0x40 + n) u2 = ok (hi, u2') /\
    lo + 256 * hi = (if bcd c1 then decimal_to_bcd (read_latch c1) else read_latch c1) /\
    get (pit u2') n = Some c3 /\ read_mode c3 = Both /\ go_read_latch c3 = true.
Proof using.
  intros Hn E Hc1 Hs Hm Hr Hu1.
  assert (exists c, counter_latch (gated n t) (FullIndex t) c = ok c1 /\ get (pit t) n = Some c /\ go_read_latch c1 = false) as (c & El & Hc & Hg).
  { assert (timer_write 0x43 (64 * n) t = latch_counter n t) as Ew by (assert (n = 0 \/ n = 1 \/ n = 2) as [-> | [-> | ->]] by lia; done).
    rewrite Ew in E. unfold latch_counter in E. apply exec_bind_ok in E as (c & Hc%read_inv & E). apply exec_bind_ok in E as (c' & El & E).
    apply put_channel_inv in E as [-> _]. cbn [pit set_pit] in Hc1. rewrite get_upd_eq in Hc1 by (by eapply get_Some_range).
    injection Hc1 as ->. exists c. split; [done|]. split; [done|]. by eapply counter_latch_latches. }
  split; [by exists c|]. destruct (read_after n t1 u1 c1 Hn Hc1 Hs Hg Hu1) as (d1 & R1 & F1 & G1).
  pose proof (shown_fields _ _ F1) as S1. unfold latch_fields in F1. injection F1 as _ F2 F3 F4 F5.
  destruct (deliver_low d1 ltac:(congruence)) as (L1 & L2 & L3 & L4 & L5 & L6). cbv zeta in *.
  eexists _, _. split; [exact R1|]. intros u2 Hu2. set (c2 := (deliver_byte d1).2) in *.
  destruct (read_after n _ u2 c2 Hn G1 ltac:(congruence) ltac:(congruence) Hu2) as (d2 & R2 & F6 & G2).
  pose proof (shown_fields _ _ F6) as S2. unfold latch_fields in F6. injection F6 as _ F7 _ _ _.
  destruct (deliver_high d2 ltac:(congruence)) as (M1 & M2 & M3 & _). cbv zeta in *.
  eexists _, _, _. split; [exact R2|]. split; [|done].
  rewrite L1, M1, S2, L2, S1. apply split_bytes. pose proof (shown_byte c1) as [|Hb]; [done|]. unfold shown. by rewrite Hb.
Qed.
End Reading.
(** Between the latch command and the reads of channel 0, channel 2 is given a control
    word, channel 0 the low byte of a count and the gate is switched on. *)
Definition disturbed_elsewhere : Timer Z (list (Z * PitMode)) :=
  let t1 := get_ok demo_timer (timer_write 0x43 0 demo_timer) in
  let t2 := get_ok t1 (timer_write 0x43 0xb6 t1) in
  let t3 := get_ok t2 (timer_write 0x40 0x12 t2) in
  get_ok t3 (TIMER_SetGate2 true t3).
Example latched_count_read_witness :
  exists lo hi u1' u2' (c1 : PIT_Block Z), read_latch_port 0x40 disturbed_elsewhere = ok (lo, u1') /\ read_latch_port 0x40 u1' = ok (hi, u2') /\
    lo + 256 * hi = read_latch c1 /\ read_latch c1 = 64740.
Proof.
  set (t1 := get_ok demo_timer (timer_write 0x43 0 demo_timer)).
  set (c1 := default default_block (get (pit t1) 0)).
  destruct (latched_count_read demo_timer t1 disturbed_elsewhere 0 c1) as (_ & lo & u1' & E1 & H1);
    [done|vm_compute; reflexivity|vm_compute; reflexivity|vm_compute; reflexivity|vm_compute; reflexivity|vm_compute; split; congruence| |].
  - eapply rtc_l; [apply (und_command 0 0xb6); [vm_compute; lia|vm_compute; lia|vm_compute; reflexivity]|].
    eapply rtc_l; [apply (und_write 0 0x40 0x12); [done|vm_compute; reflexivity]|].
    eapply rtc_l; [apply (und_gate 0 true); [by right|vm_compute; reflexivity]|]. 
    match goal with |- rtc _ ?a ?b => assert (a = b) as <- by (vm_compute; reflexivity) end. apply rtc_refl.
  - destruct (H1 u1' (rtc_refl _ _)) as (hi & u2' & c3 & E2 & Hv & _). exists lo, hi, u1', u2', c1.
    split; [exact E1|]. split; [exact E2|]. split; [exact Hv|by vm_compute].
Defined.

(** ** Counts that the latch does not hold

    Laws of finite IEEE numbers around zero; the conversion of an integer rounds to it. *)
Class DoubleMathLaws (T : Type) `{DoubleMath T} := {
  dsub_diag : forall a, dsub a a = of_int 0;
  fmod_zero : forall d, dgt d (of_int 0) = true -> fmod (of_int 0) d = of_int 0;
  ddiv_zero : forall d, dgt d (of_int 0) = true -> ddiv (of_int 0) d = of_int 0;
  dmul_zero : forall a, dgt a (of_int 0) = true -> dmul (of_int 0) a = of_int 0;
  dsub_zero : forall n, 0 < n -> dsub (of_int n) (of_int 0) = of_int n;
  of_int_pos : forall n, 0 < n -> dgt (of_int n) (of_int 0) = true;
  zero_not_pos : forall d, dgt d (of_int 0) = true -> dgt (of_int 0) d = false;
  iround_int : forall n, 0 <= n < 2147483648 -> iround (of_int n) = ok n;
  tick_rate_pos : dgt PIT_TICK_RATE_KHZ (of_int 0) = true }.
#[export] Instance fixed_math_laws : DoubleMathLaws Z.
Proof.
  split; unfold dgt; cbn.
  - intros a. lia.
  - done.
  - intros d. rewrite negb_true_iff, Z.leb_gt. intros Hd. by apply Z.div_0_l; lia.
  - done.
  - intros n. lia.
  - intros n Hn. rewrite negb_true_iff, Z.leb_gt. lia.
  - intros d. rewrite negb_true_iff, negb_false_iff, Z.leb_gt, Z.leb_le. lia.
  - intros n Hn. unfold iround, to_int32. cbn. destruct (Z.leb_spec 0 (n * 65536)); [|lia].
    replace ((n * 65536 + 32768) / 65536 * 65536) with (n * 65536) by zlia. rewrite Z.quot_mul by done.
    rewrite (proj2 (andb_true_iff _ _)); [done|]. rewrite !Z.ltb_lt. lia.
  - done.
Qed.

Section Wrapping.
Context {T : Type} `{DoubleMathLaws T}.
Implicit Types (c : PIT_Block T).

Lemma save_int n c : 0 <= n <= 65536 -> save_read_latch (of_int n) c = ok (with_read_latch (n mod 65535) c).
Proof using H1.
  intros Hn. unfold save_read_latch. rewrite iround_int by lia. cbn [exec_bind].
  unfold UINT16_MAX. rewrite Z.rem_mod_nonneg by lia. do 2 f_equal. unfold u16, wrap. apply Z.mod_small.
  pose proof (Z.mod_pos_bound n 65535). lia.
Qed.

(** C31.  What a counter latched at the start of a period shows, by mode.  In modes 0, 2
    and 4 it is the count modulo 65535: the count for what a programmer writes as 1 to
    65534, but 0 for 65535 and 1 for the full count 65536, where a 16-bit counter shows
    65535 and 0.  The square wave modes clear bit 0 of that, so that the full count
    shows 0.  The one-shot shows the count modulo 65535 while it is counting and is not
    latched anew while it is idle; the hardware strobe shows 0. *)
Theorem count_at_start g now c :
  0 < count c <= 65536 -> mode_changed c = false -> start c = now -> dgt (delay c) (of_int 0) = true ->
  g = false \/ mode c = OneShot ->
  let latched v := ok (with_read_latch v (with_go_read_latch false c)) in
  counter_latch g now c =
    match mode c with
    | RateGenerator | RateGeneratorAlias | InterruptOnTerminalCount | SoftwareStrobe => latched (count c mod 65535)
    | SquareWave | SquareWaveAlias => latched (Z.land (count c mod 65535) 0xfffe)
    | OneShot => if counting c then latched (count c mod 65535) else ok (with_go_read_latch false c)
    | HardwareStrobe | Inactive => latched 0
    end.
Proof using H1.
  intros Hc Hm <- Hd Hg. cbv zeta. unfold counter_latch. cbv zeta. cbn [mode with_go_read_latch start mode_changed count delay bcd counting].
  assert (g && negb (bool_decide (mode c = OneShot)) = false) as -> by (destruct Hg as [-> | ->]; [done|by destruct g]).
  rewrite Hm, dsub_diag, (zero_not_pos _ Hd), (fmod_zero _ Hd), (dmul_zero _ tick_rate_pos),
    (dmul_zero _ (of_int_pos 2 ltac:(done))), (zero_not_pos _ Hd), (ddiv_zero _ Hd), (dmul_zero _ (of_int_pos (count c) ltac:(lia))), dsub_zero by lia.
  rewrite !save_int by lia. cbn [exec_bind].
  destruct (mode c); try done. all: cbn [read_latch with_read_latch].
  all: pose proof (land_bounds (count c mod 65535) 65534); pose proof (Z.mod_pos_bound (count c) 65535 ltac:(done)).
  all: rewrite save_int by lia; rewrite Z.mod_small by lia; done.
Qed.
End Wrapping.
(** Channel 0 as the constructor leaves it, but in mode 2: the full count shows 1. *)
Example count_at_start_witness :
  counter_latch false 0 (with_modes RateGenerator Both Both (init_channel_0 (T := Z) default_block)) =
    ok (with_read_latch 1 (with_go_read_latch false (with_modes RateGenerator Both Both (init_channel_0 default_block)))).
Proof.
  exact (count_at_start false 0 (with_modes RateGenerator Both Both (init_channel_0 default_block)) ltac:(done) eq_refl eq_refl eq_refl (or_introl eq_refl)).
Defined.
