(* ===== verification/DosMcb.v ===== *)
(** * Memory control blocks ([class DOS_MCB], [dos/dos.h])

    The header of a block of DOS memory, a paragraph of guest memory: its fields
    are read and written through the byte accesses of [GuestMemory], and behave as
    the fields of a record for each segment. *)
From S2P Require Import Prelude.
From S2P Require Import GuestMemory.
From S2P Require Import GuestMemoryProofs.
#[local] Open Scope Z_scope.

(** ** The accessors; the packed structure [sMCB] gives the offsets *)
Section Accessors.
Context {M : Type} `{ByteMemory M}.
Implicit Types (m : M) (seg : Z).

(** [PhysicalMake(seg, 0)]. *)
Definition pt seg : Z := u32 (Z.shiftl seg 4).
Definition GetType seg m : Z := readb (PhysPt (pt seg + 0)) m.
Definition SetType seg (mcb_type : Z) m : M := writeb (PhysPt (pt seg + 0)) (u8 mcb_type) m.
Definition GetPSPSeg seg m : Z := mem_unalignedreadw (PhysPt (pt seg + 1)) m.
Definition SetPSPSeg seg (psp : Z) m : M := mem_unalignedwritew (PhysPt (pt seg + 1)) (u16 psp) m.
Definition GetSize seg m : Z := mem_unalignedreadw (PhysPt (pt seg + 3)) m.
Definition SetSize seg (size_paras : Z) m : M := mem_unalignedwritew (PhysPt (pt seg + 3)) (u16 size_paras) m.
Definition GetFileName seg m : list Z := MEM_BlockRead (PhysPt (pt seg + 8)) 8 m.
(** [name] has at least 8 bytes. *)
Definition SetFileName seg (name : list Z) m : M := MEM_BlockWrite (PhysPt (pt seg + 8)) (take 8 name) m.
End Accessors.

(** ** The fields as a record *)
Record MCB := mkMCB { mcb_type : Z; mcb_psp : Z; mcb_size : Z }.
#[export] Instance MCB_eq_dec : EqDecision MCB.
Proof. solve_decision. Defined.

Section Laws.
Context {M : Type} `{ByteMemoryLaws M}.
Implicit Types (m : M) (seg s : Z).

Definition mcb s m : MCB := mkMCB (GetType s m) (GetPSPSeg s m) (GetSize s m).
Definition is_segment s : Prop := 0 <= s < 65536.

Lemma pt_segment s : is_segment s -> pt s = 16 * s.
Proof using. unfold is_segment, pt. intros. rewrite Z.shiftl_mul_pow2 by done. rewrite u32_small; lia. Qed.
Lemma le_read_outside n k a b v m :
  0 <= a -> a + Z.of_nat n <= 4294967296 -> 0 <= b -> b + Z.of_nat k <= 4294967296 ->
  a + Z.of_nat n <= b \/ b + Z.of_nat k <= a -> le_read n a (le_write k b v m) = le_read n a m.
Proof using Type*.
  revert a. induction n as [|n IH]; intros a Ha Ha' Hb Hb' Ho; [done|]. cbn [le_read]. rewrite IH by lia.
  f_equal. apply le_write_ne. intros (i & Hi & E). unfold PhysPt in E. rewrite !u32_small in E by lia. lia.
Qed.

(** A field of [n] bytes at an offset. *)
Definition field n o s m : Z := le_read n (16 * s + o) m.
Definition put_field n o s v m : M := le_write n (16 * s + o) v m.
Lemma field_put n o k p s s' v m :
  is_segment s -> is_segment s' -> 0 <= o -> o + Z.of_nat n <= 16 -> 0 <= p -> p + Z.of_nat k <= 16 ->
  o + Z.of_nat n <= p \/ p + Z.of_nat k <= o \/ s <> s' ->
  field n o s (put_field k p s' v m) = field n o s m.
Proof using Type*. unfold is_segment. intros. apply le_read_outside; lia. Qed.
Lemma field_put_same n o s v m :
  is_segment s -> 0 <= o -> o + Z.of_nat n <= 16 -> field n o s (put_field n o s v m) = v mod 256 ^ Z.of_nat n.
Proof using Type*. intros. apply le_roundtrip. lia. Qed.

Lemma PhysPt_field s o : is_segment s -> 0 <= o < 16 -> PhysPt (pt s + o) = 16 * s + o.
Proof using. unfold is_segment. intros. unfold PhysPt. rewrite pt_segment by done. apply u32_small. lia. Qed.
Lemma GetType_field s m : is_segment s -> GetType s m = field 1 0 s m.
Proof using.
  intros. unfold GetType, field. rewrite PhysPt_field by (done || lia). cbn [le_read]. unfold PhysPt.
  rewrite u32_small by (unfold is_segment in *; lia). lia.
Qed.
Lemma SetType_field s v m : is_segment s -> SetType s v m = put_field 1 0 s v m.
Proof using.
  intros. unfold SetType, put_field. rewrite PhysPt_field by (done || lia). cbn [le_write]. unfold PhysPt.
  rewrite u32_small by (unfold is_segment in *; lia). done.
Qed.
Lemma get_word_field s o m : is_segment s -> 0 <= o < 15 -> mem_unalignedreadw (PhysPt (pt s + o)) m = field 2 o s m.
Proof using Type*. intros. rewrite PhysPt_field by (done || lia). apply readw_le. Qed.
Lemma put_word_field s o v m :
  is_segment s -> 0 <= o < 15 -> mem_unalignedwritew (PhysPt (pt s + o)) (u16 v) m = put_field 2 o s (u16 v) m.
Proof using Type*. intros. rewrite PhysPt_field by (done || lia). apply writew_le. Qed.

Lemma mcb_fields s m : is_segment s -> mcb s m = mkMCB (field 1 0 s m) (field 2 1 s m) (field 2 3 s m).
Proof using Type*. intros. unfold mcb, GetPSPSeg, GetSize. rewrite GetType_field, !get_word_field by (done || lia). done. Qed.
Lemma mcb_range s m : is_segment s ->
  0 <= mcb_type (mcb s m) < 256 /\ is_segment (mcb_psp (mcb s m)) /\ is_segment (mcb_size (mcb s m)).
Proof using Type*.
  intros. rewrite mcb_fields by done. cbn [mcb_type mcb_psp mcb_size]. unfold field, is_segment.
  pose proof (le_read_range 1 (16 * s + 0) m). pose proof (le_read_range 2 (16 * s + 1) m).
  pose proof (le_read_range 2 (16 * s + 3) m). cbn in *. lia.
Qed.

(** Each setter changes its own field of its own block. *)
Lemma mcb_SetType s s' v m : is_segment s -> is_segment s' ->
  mcb s (SetType s' v m) = if s' =? s then mkMCB (u8 v) (mcb_psp (mcb s m)) (mcb_size (mcb s m)) else mcb s m.
Proof using Type*.
  intros Hs Hs'. rewrite !mcb_fields, SetType_field by done. destruct (Z.eqb_spec s' s) as [->|].
  - rewrite field_put_same by (done || lia). by rewrite !field_put by (done || lia).
  - by rewrite !field_put by (done || lia).
Qed.
Lemma mcb_SetPSPSeg s s' v m : is_segment s -> is_segment s' ->
  mcb s (SetPSPSeg s' v m) = if s' =? s then mkMCB (mcb_type (mcb s m)) (u16 v) (mcb_size (mcb s m)) else mcb s m.
Proof using Type*.
  intros Hs Hs'. unfold SetPSPSeg. rewrite !mcb_fields, put_word_field by (done || lia). destruct (Z.eqb_spec s' s) as [->|].
  - rewrite (field_put_same 2) by (done || lia). rewrite !field_put by (done || lia). cbn. f_equal. by apply Z.mod_mod.
  - by rewrite !field_put by (done || lia).
Qed.
Lemma mcb_SetSize s s' v m : is_segment s -> is_segment s' ->
  mcb s (SetSize s' v m) = if s' =? s then mkMCB (mcb_type (mcb s m)) (mcb_psp (mcb s m)) (u16 v) else mcb s m.
Proof using Type*.
  intros Hs Hs'. unfold SetSize. rewrite !mcb_fields, put_word_field by (done || lia). destruct (Z.eqb_spec s' s) as [->|].
  - rewrite (field_put_same 2) by (done || lia). rewrite !field_put by (done || lia). cbn. f_equal. by apply Z.mod_mod.
  - by rewrite !field_put by (done || lia).
Qed.

(** The name is behind the fields. *)
Lemma readb_BlockWrite data a b m :
  0 <= a -> a + Z.of_nat (length data) < 4294967296 -> b < a \/ a + Z.of_nat (length data) <= b ->
  readb b (MEM_BlockWrite a data m) = readb b m.
Proof using Type*.
  revert a m. induction data as [|x data IH]; intros a m Ha Hl Hb; [done|]. cbn [MEM_BlockWrite length] in *.
  unfold PhysPt. rewrite u32_small by lia. rewrite IH by lia. apply readb_writeb_ne. lia.
Qed.
Lemma mcb_SetFileName s s' name m : is_segment s -> is_segment s' -> mcb s (SetFileName s' name m) = mcb s m.
Proof using Type*.
  intros Hs Hs'. rewrite !mcb_fields by done. unfold SetFileName. rewrite PhysPt_field by (done || lia).
  assert (Z.of_nat (length (take 8 name)) <= 8) as Hl by (rewrite length_take; lia).
  assert (forall n o, 0 <= o -> o + Z.of_nat n <= 8 -> field n o s (MEM_BlockWrite (16 * s' + 8) (take 8 name) m) = field n o s m) as Hf.
  { intros n o Ho Hn. unfold field. assert (16 * s + o + Z.of_nat n <= 16 * s + 8) as Hx by lia.
    assert (16 * s <= 16 * s + o) as Hy by lia. revert Hx Hy. clear Ho Hn. generalize (16 * s + o) as a.
    induction n as [|n IH]; intros a Hx Hy; [done|]. cbn [le_read]. rewrite IH by lia. f_equal.
    unfold PhysPt. unfold is_segment in *. rewrite u32_small by lia. apply readb_BlockWrite; [lia..|].
    destruct (Z.eq_dec s s') as [->|]; lia. }
  by rewrite !Hf by lia.
Qed.

(** Each setter changes only bytes of its own paragraph. *)
Definition frame (P : Z -> Prop) m m' : Prop := forall a, 0 <= a -> ~ P (a / 16) -> readb a m' = readb a m.
Lemma frame_refl P m : frame P m m.
Proof using. done. Qed.
Lemma frame_trans P m m' m'' : frame P m m' -> frame P m' m'' -> frame P m m''.
Proof using. intros H1 H2 a Ha Hp. by rewrite H2, H1. Qed.
Lemma frame_sym P m m' : frame P m m' -> frame P m' m.
Proof using. intros Hf a Ha Hp. symmetry. by apply Hf. Qed.
Lemma frame_mono (P Q : Z -> Prop) m m' : (forall s, P s -> Q s) -> frame P m m' -> frame Q m m'.
Proof using. intros Hpq Hf a Ha Hq. apply Hf; auto. Qed.

Lemma frame_put n o s v m : is_segment s -> 0 <= o -> o + Z.of_nat n <= 16 -> frame (eq s) m (put_field n o s v m).
Proof using Type*.
  intros Hs Ho Hn a Ha Hp. apply le_write_ne. intros (i & Hi & E). apply Hp. subst a. unfold PhysPt, is_segment in *.
  rewrite u32_small by lia. apply (Z.div_unique_pos _ 16 s (o + i)); lia.
Qed.
Lemma frame_SetType s v m : is_segment s -> frame (eq s) m (SetType s v m).
Proof using Type*. intros. rewrite SetType_field by done. apply frame_put; lia || done. Qed.
Lemma frame_SetPSPSeg s v m : is_segment s -> frame (eq s) m (SetPSPSeg s v m).
Proof using Type*. intros. unfold SetPSPSeg. rewrite put_word_field by (done || lia). apply frame_put; lia || done. Qed.
Lemma frame_SetSize s v m : is_segment s -> frame (eq s) m (SetSize s v m).
Proof using Type*. intros. unfold SetSize. rewrite put_word_field by (done || lia). apply frame_put; lia || done. Qed.
Lemma frame_SetFileName s name m : is_segment s -> frame (eq s) m (SetFileName s name m).
Proof using Type*.
  intros Hs a Ha Hp. unfold SetFileName. rewrite PhysPt_field by (done || lia). unfold is_segment in Hs.
  assert (Z.of_nat (length (take 8 name)) <= 8) as Hl by (rewrite length_take; lia).
  apply readb_BlockWrite; [lia..|]. destruct (Z.lt_ge_cases a (16 * s + 8)); [lia|]. right.
  destruct (Z.lt_ge_cases a (16 * s + 16)); [|lia]. destruct Hp. apply (Z.div_unique_pos _ 16 s (a - 16 * s)); lia.
Qed.

(** The same after other changes. *)
Lemma frame_then (P : Z -> Prop) s m m1 m2 : P s -> frame (eq s) m1 m2 -> frame P m m1 -> frame P m m2.
Proof using. intros Hp Hf H1. eapply frame_trans; [exact H1|]. eapply frame_mono, Hf. by intros x <-. Qed.
Lemma frame_SetType_then (P : Z -> Prop) s v m m1 : P s -> is_segment s -> frame P m m1 -> frame P m (SetType s v m1).
Proof using Type*. intros Hp Hs. apply frame_then with s; [done|by apply frame_SetType]. Qed.
Lemma frame_SetPSPSeg_then (P : Z -> Prop) s v m m1 : P s -> is_segment s -> frame P m m1 -> frame P m (SetPSPSeg s v m1).
Proof using Type*. intros Hp Hs. apply frame_then with s; [done|by apply frame_SetPSPSeg]. Qed.
Lemma frame_SetSize_then (P : Z -> Prop) s v m m1 : P s -> is_segment s -> frame P m m1 -> frame P m (SetSize s v m1).
Proof using Type*. intros Hp Hs. apply frame_then with s; [done|by apply frame_SetSize]. Qed.
Lemma frame_SetFileName_then (P : Z -> Prop) s v m m1 : P s -> is_segment s -> frame P m m1 -> frame P m (SetFileName s v m1).
Proof using Type*. intros Hp Hs. apply frame_then with s; [done|by apply frame_SetFileName]. Qed.

(** A run of setters: the block it is about, and the others. *)
Lemma le_read_frame P n a m m' :
  0 <= a -> a + Z.of_nat n <= 4294967296 -> (forall i, 0 <= i < Z.of_nat n -> ~ P ((a + i) / 16)) ->
  frame P m m' -> le_read n a m' = le_read n a m.
Proof using Type*.
  intros Ha Hn Hp Hf. revert a Ha Hn Hp. induction n as [|n IH]; intros a Ha Hn Hp; [done|]. cbn [le_read].
  rewrite IH; [|lia|lia|intros i Hi; replace (a + 1 + i) with (a + (i + 1)) by lia; apply Hp; lia].
  f_equal. unfold PhysPt. rewrite u32_small by lia. apply Hf; [lia|]. specialize (Hp 0). rewrite Z.add_0_r in Hp. apply Hp. lia.
Qed.
Lemma mcb_frame P s m m' : is_segment s -> ~ P s -> frame P m m' -> mcb s m' = mcb s m.
Proof using Type*.
  intros Hs Hp Hf. rewrite !mcb_fields by done. unfold field, is_segment in *.
  assert (forall o n, 0 <= o -> o + Z.of_nat n <= 16 -> le_read n (16 * s + o) m' = le_read n (16 * s + o) m) as E.
  { intros o n Ho Hn. eapply le_read_frame; [lia|lia| |exact Hf]. intros i Hi.
    replace ((16 * s + o + i) / 16) with s; [done|]. apply (Z.div_unique_pos _ 16 s (o + i)); lia. }
  by rewrite !E by lia.
Qed.
End Laws.
(** The frame of a run of setters; the segments are left to prove. *)
Ltac frame_run :=
  repeat lazymatch goal with
    | |- frame _ _ (SetType _ _ _) => apply frame_SetType_then
    | |- frame _ _ (SetPSPSeg _ _ _) => apply frame_SetPSPSeg_then
    | |- frame _ _ (SetSize _ _ _) => apply frame_SetSize_then
    | |- frame _ _ (SetFileName _ _ _) => apply frame_SetFileName_then
    end;
  lazymatch goal with |- frame _ ?m ?m => apply frame_refl | _ => try assumption end.
