(* ===== verification/DosMemory.v ===== *)
(** * DOS memory allocation ([dos/dos_memory.cpp])

    The chain of memory control blocks in guest memory: compaction, allocation by
    the three strategies, resizing, freeing, the upper memory blocks, and the
    chain that is set up. *)
From S2P Require Import Prelude.
From S2P Require Import GuestMemory.
From S2P Require Import DosMcb.
#[local] Open Scope Z_scope.
#[local] Open Scope exec_scope.
#[local] Open Scope seq_scope.

Inductive McbFaultStrategy := Deny | Repair | Report | Allow.

Definition middle_mcb_type : Z := 0x4d.
Definition ending_mcb_type : Z := 0x5a.
Definition umb_start_seg : Z := 0x9fff.
Definition max_allowed_faults : Z := 100.
Definition MCB_FREE : Z := 0x0000.
Definition MCB_DOS : Z := 0x0008.
Definition DOS_MEM_START : Z := 0x16f.
Definition DOSERR_MCB_DESTROYED : Z := 7.
Definition DOSERR_INSUFFICIENT_MEMORY : Z := 8.
Definition DOSERR_MB_ADDRESS_INVALID : Z := 9.

(** The statics of the file and what it reads of [dos] and [dos_infoblock]: the PSP
    of the current process and the state of the upper memory blocks, which are kept
    in guest memory below the chain, and the last error. *)
Record Dos (M : Type) := mkDos {
  mem : M;
  firstMCB : Z;
  psp : Z;
  StartOfUMBChain : Z;
  UMBChainState : Z;
  allocation_strategy : Z;
  mcb_fault_strategy : McbFaultStrategy;
  errorcode : Z }.
Arguments mkDos {M}.
Arguments mem {M}.
Arguments firstMCB {M}.
Arguments psp {M}.
Arguments StartOfUMBChain {M}.
Arguments UMBChainState {M}.
Arguments allocation_strategy {M}.
Arguments mcb_fault_strategy {M}.
Arguments errorcode {M}.

Section Operations.
Context {M : Type} `{ByteMemory M}.
Implicit Types (d : Dos M) (m : M).

Definition with_mem m d : Dos M :=
  mkDos m (firstMCB d) (psp d) (StartOfUMBChain d) (UMBChainState d) (allocation_strategy d) (mcb_fault_strategy d) (errorcode d).
Definition with_umb (start state : Z) d : Dos M :=
  mkDos (mem d) (firstMCB d) (psp d) start state (allocation_strategy d) (mcb_fault_strategy d) (errorcode d).
Definition with_first (seg : Z) d : Dos M :=
  mkDos (mem d) seg (psp d) (StartOfUMBChain d) (UMBChainState d) (allocation_strategy d) (mcb_fault_strategy d) (errorcode d).
Definition with_strategies (alloc : Z) (fault : McbFaultStrategy) d : Dos M :=
  mkDos (mem d) (firstMCB d) (psp d) (StartOfUMBChain d) (UMBChainState d) alloc fault (errorcode d).
Definition DOS_SetError (code : Z) d : Dos M :=
  mkDos (mem d) (firstMCB d) (psp d) (StartOfUMBChain d) (UMBChainState d) (allocation_strategy d) (mcb_fault_strategy d) code.

(** The preference is one of the four words. *)
Definition DOS_SetMcbFaultStrategy (pref : McbFaultStrategy) d : Dos M := with_strategies (allocation_strategy d) pref d.

Definition mcb_type_is_valid (t : Z) : bool := (t =? middle_mcb_type) || (t =? ending_mcb_type).
(** Whether the block needed triaging. *)
Definition triage_block (seg repair_type : Z) d : exec (bool * Dos M) :=
  if mcb_type_is_valid (GetType seg (mem d)) then ok (false, d) else
  match mcb_fault_strategy d with
  | Deny => err Exit
  | Repair => ok (true, with_mem (SetType seg repair_type (mem d)) d)
  | Report | Allow => ok (true, d)
  end.

(** ** Compaction *)
Fixpoint Compress_loop (fuel : nat) (mcb_segment faults : Z) d : exec (Dos M) :=
  match fuel with
  | O => err OutOfFuel
  | S fuel =>
      let m := mem d in
      if negb (GetType mcb_segment m =? ending_mcb_type) && (faults <? max_allowed_faults) then
        let mcb_next := u16 (mcb_segment + GetSize mcb_segment m + 1) in
        if (GetPSPSeg mcb_segment m =? MCB_FREE) && (GetPSPSeg mcb_next m =? MCB_FREE) then
          let* (fault, d) := triage_block mcb_next (GetType mcb_segment m) d in
          let m := mem d in
          let m := SetSize mcb_segment (GetSize mcb_segment m + GetSize mcb_next m + 1) m in
          let m := SetType mcb_segment (GetType mcb_next m) m in
          Compress_loop fuel mcb_segment (faults + b2z fault) (with_mem m d)
        else Compress_loop fuel (u16 (mcb_segment + GetSize mcb_segment m + 1)) faults d
      else ok d
  end.
Definition DOS_CompressMemory (fuel : nat) d : exec (Dos M) := Compress_loop fuel (firstMCB d) 0 d.

(** ** Freeing *)

(** The loop over one chain. *)
Fixpoint FreeProcess_loop (fuel : nat) (pspseg mcb_segment faults : Z) d : exec (Dos M) :=
  match fuel with
  | O => err OutOfFuel
  | S fuel =>
      if faults <? max_allowed_faults then
        let d := if GetPSPSeg mcb_segment (mem d) =? pspseg then with_mem (SetPSPSeg mcb_segment MCB_FREE (mem d)) d else d in
        if GetType mcb_segment (mem d) =? ending_mcb_type then ok d
        else
          let* (fault, d) := triage_block mcb_segment middle_mcb_type d in
          FreeProcess_loop fuel pspseg (u16 (mcb_segment + GetSize mcb_segment (mem d) + 1)) (faults + b2z fault) d
      else ok d
  end.
Definition DOS_FreeProcessMemory (fuel : nat) (pspseg : Z) d : exec (Dos M) :=
  let* d := FreeProcess_loop fuel pspseg (firstMCB d) 0 d in
  let umb_start := StartOfUMBChain d in
  let* d := if umb_start =? umb_start_seg then FreeProcess_loop fuel pspseg umb_start 0 d else ok d in
  DOS_CompressMemory fuel d.

Definition DOS_FreeMemory (segment : Z) d : bool * Dos M :=
  if segment <? DOS_MEM_START + 1 then (false, DOS_SetError DOSERR_MB_ADDRESS_INVALID d) else
  let mcb := u16 (segment - 1) in
  if negb (GetType mcb (mem d) =? middle_mcb_type) && negb (GetType mcb (mem d) =? ending_mcb_type)
  then (false, DOS_SetError DOSERR_MB_ADDRESS_INVALID d)
  else (true, with_mem (SetPSPSeg mcb MCB_FREE (mem d)) d).

(** ** Allocation *)
Definition DOS_GetMemAllocStrategy d : Z := allocation_strategy d.
Definition DOS_SetMemAllocStrategy (strat : Z) d : bool * Dos M :=
  if Z.land strat 0x3f <? 3 then (true, with_strategies strat (mcb_fault_strategy d) d) else (false, d).

(** The start of the block [seg], of [size] paragraphs, becomes a block of [blocks],
    the rest a free block: first and best fit. *)
Definition take_start (seg size blocks : Z) (psp_name : list Z) d : Dos M :=
  let mcb_next := u16 (seg + blocks + 1) in
  let m := mem d in
  let m := SetPSPSeg mcb_next MCB_FREE m in
  let m := SetType mcb_next (GetType seg m) m in
  let m := SetSize mcb_next (size - blocks - 1) m in
  let m := SetSize seg blocks m in
  let m := SetType seg middle_mcb_type m in
  let m := SetPSPSeg seg (psp d) m in
  with_mem (SetFileName seg psp_name m) d.
(** The end of the block: last fit. *)
Definition take_end (seg size blocks : Z) (psp_name : list Z) d : Dos M :=
  let segment := u16 (seg + 1 + size - blocks) in
  let mcb_next := u16 (segment - 1) in
  let m := mem d in
  let m := SetSize mcb_next blocks m in
  let m := SetType mcb_next (GetType seg m) m in
  let m := SetPSPSeg mcb_next (psp d) m in
  let m := SetFileName mcb_next psp_name m in
  let m := SetSize seg (size - blocks - 1) m in
  let m := SetPSPSeg seg MCB_FREE m in
  with_mem (SetType seg middle_mcb_type m) d.

(** The loop over the chains.  The result is the return value, [*segment] where it is
    written, and [*blocks]. *)
Section Search.
Context (psp_name : list Z) (umb_start blocks : Z).
Fixpoint Allocate_loop (fuel : nat) (mcb_segment mem_strat bigsize found_seg found_seg_size : Z) d
    : exec (bool * option Z * Z * Dos M) :=
  match fuel with
  | O => err OutOfFuel
  | S fuel =>
      let m := mem d in
      let onward bigsize found_seg found_seg_size :=
        if GetType mcb_segment m =? ending_mcb_type then
          if nz (Z.land mem_strat 0x80) && (umb_start =? umb_start_seg) then
            Allocate_loop fuel (firstMCB d) (Z.land mem_strat (Z.lnot 0xc0)) bigsize found_seg found_seg_size d
          else if nz found_seg then
            if Z.land mem_strat 0x3f =? 1 then
              ok (true, Some (u16 (found_seg + 1)), blocks, take_start found_seg found_seg_size blocks psp_name d)
            else if found_seg_size =? blocks then
              let m := SetPSPSeg found_seg (psp d) m in
              ok (true, Some (u16 (found_seg + 1)), blocks, with_mem (SetFileName found_seg psp_name m) d)
            else
              ok (true, Some (u16 (found_seg + 1 + found_seg_size - blocks)), blocks,
                  take_end found_seg found_seg_size blocks psp_name d)
          else ok (false, None, bigsize, DOS_SetError DOSERR_INSUFFICIENT_MEMORY d)
        else Allocate_loop fuel (u16 (mcb_segment + GetSize mcb_segment m + 1)) mem_strat bigsize found_seg found_seg_size d in
      if GetPSPSeg mcb_segment m =? MCB_FREE then
        let block_size := GetSize mcb_segment m in
        if block_size <? blocks then
          onward (if bigsize <? block_size then block_size else bigsize) found_seg found_seg_size
        else if (block_size =? blocks) && (Z.land mem_strat 0x3f <? 2) then
          ok (true, Some (u16 (mcb_segment + 1)), blocks, with_mem (SetPSPSeg mcb_segment (psp d) m) d)
        else if Z.land mem_strat 0x3f =? 0 then
          ok (true, Some (u16 (mcb_segment + 1)), blocks, take_start mcb_segment block_size blocks psp_name d)
        else if Z.land mem_strat 0x3f =? 1 then
          if (found_seg_size =? 0) || (block_size <? found_seg_size)
          then onward bigsize mcb_segment block_size
          else onward bigsize found_seg found_seg_size
        else onward bigsize mcb_segment block_size
      else onward bigsize found_seg found_seg_size
  end.
End Search.

Definition DOS_AllocateMemory (fuel : nat) (blocks : Z) d : exec (bool * option Z * Z * Dos M) :=
  let* d := DOS_CompressMemory fuel d in
  let mem_strat := allocation_strategy d in
  let umb_start := StartOfUMBChain d in
  let mcb_segment :=
    if umb_start =? umb_start_seg then if nz (Z.land mem_strat 0xc0) then umb_start else firstMCB d else firstMCB d in
  let psp_name := GetFileName (u16 (psp d - 1)) (mem d) in
  Allocate_loop psp_name umb_start blocks fuel mcb_segment mem_strat 0 0 0 d.

(** ** Resizing: the return value, [*blocks] and the state. *)
Definition DOS_ResizeMemory (fuel : nat) (segment blocks : Z) d : exec (bool * Z * Dos M) :=
  let mcb := u16 (segment - 1) in
  if negb (GetType mcb (mem d) =? middle_mcb_type) && negb (GetType mcb (mem d) =? ending_mcb_type)
  then ok (false, blocks, DOS_SetError DOSERR_MCB_DESTROYED d) else
  let* d := DOS_CompressMemory fuel d in
  let m := mem d in
  let total := GetSize mcb m in
  let mcb_next := u16 (segment + total) in
  if blocks <=? total then
    if blocks =? total then ok (true, blocks, with_mem (SetPSPSeg mcb (psp d) m) d) else
    let mcb_new_next := u16 (segment + blocks) in
    let m := SetSize mcb blocks m in
    let m := SetType mcb_new_next (GetType mcb m) m in
    let m := if GetType mcb m =? ending_mcb_type then SetType mcb middle_mcb_type m else m in
    let m := SetSize mcb_new_next (total - blocks - 1) m in
    let m := SetPSPSeg mcb_new_next MCB_FREE m in
    let m := SetPSPSeg mcb (psp d) m in
    let* d := DOS_CompressMemory fuel (with_mem m d) in
    ok (true, blocks, d)
  else
    let total :=
      if negb (GetType mcb m =? ending_mcb_type) then
        if GetPSPSeg mcb_next m =? MCB_FREE then u16 (total + GetSize mcb_next m + 1) else total
      else total in
    if blocks <? total then
      let m := if negb (GetType mcb m =? ending_mcb_type) then SetType mcb (GetType mcb_next m) m else m in
      let m := SetSize mcb blocks m in
      let mcb_next := u16 (segment + blocks) in
      let m := SetSize mcb_next (total - blocks - 1) m in
      let m := SetType mcb_next (GetType mcb m) m in
      let m := SetPSPSeg mcb_next MCB_FREE m in
      let m := SetType mcb middle_mcb_type m in
      let m := SetPSPSeg mcb (psp d) m in
      let* d := DOS_CompressMemory fuel (with_mem m d) in
      ok (true, blocks, d)
    else
      let m := if (GetPSPSeg mcb_next m =? MCB_FREE) && negb (GetType mcb m =? ending_mcb_type)
               then SetType mcb (GetType mcb_next m) m else m in
      let m := SetSize mcb total m in
      let m := SetPSPSeg mcb (psp d) m in
      if blocks =? total then ok (true, blocks, with_mem (SetPSPSeg mcb (psp d) m) d)
      else ok (false, total, DOS_SetError DOSERR_INSUFFICIENT_MEMORY (with_mem m d)).

(** ** Upper memory blocks *)

(** The last block of the chain. *)
Fixpoint last_block (fuel : nat) (mcb_segment : Z) m : exec Z :=
  match fuel with
  | O => err OutOfFuel
  | S fuel =>
      if GetType mcb_segment m =? ending_mcb_type then ok mcb_segment
      else last_block fuel (u16 (mcb_segment + GetSize mcb_segment m + 1)) m
  end.
(** "SC      ". *)
Definition system_code : list Z := [83; 67; 32; 32; 32; 32; 32; 32].
Definition DOS_BuildUMBChain (fuel : nat) (is_machine_pcjr_or_tandy umb_active ems_active : bool) d : exec (Dos M) :=
  if umb_active && negb is_machine_pcjr_or_tandy then
    let first_umb_seg := 0xd000 in
    let first_umb_size := if ems_active then 0x1000 else 0x2000 in
    let d := with_umb umb_start_seg 0 d in
    let m := mem d in
    let m := SetPSPSeg first_umb_seg 0 m in
    let m := SetSize first_umb_seg (first_umb_size - 1) m in
    let m := SetType first_umb_seg ending_mcb_type m in
    let* mcb := last_block fuel (firstMCB d) m in
    let cover_mcb := u16 (mcb + GetSize mcb m + 1) in
    let m := SetType cover_mcb middle_mcb_type m in
    let m := SetPSPSeg cover_mcb 0x0008 m in
    let m := SetSize cover_mcb (first_umb_seg - cover_mcb - 1) m in
    let m := SetFileName cover_mcb system_code m in
    ok (with_mem m d)
  else ok (with_umb 0xffff 0 d).

(** [mcb_segment] and [prev_mcb_segment] when the scan stops. *)
Fixpoint scan_to_umb (fuel : nat) (umb_start mcb_segment prev_mcb_segment : Z) m : exec (Z * Z) :=
  match fuel with
  | O => err OutOfFuel
  | S fuel =>
      if negb (mcb_segment =? umb_start) && negb (GetType mcb_segment m =? ending_mcb_type)
      then scan_to_umb fuel umb_start (u16 (mcb_segment + GetSize mcb_segment m + 1)) mcb_segment m
      else ok (mcb_segment, prev_mcb_segment)
  end.
Definition DOS_LinkUMBsToMemChain (fuel : nat) (linkstate : Z) d : exec (bool * Dos M) :=
  let umb_start := StartOfUMBChain d in
  if negb (umb_start =? umb_start_seg) then ok (false, d) else
  if Z.land linkstate 1 =? Z.land (UMBChainState d) 1 then ok (true, d) else
  let m := mem d in
  let* (mcb_segment, prev_mcb) := scan_to_umb fuel umb_start (firstMCB d) (firstMCB d) m in
  if linkstate =? 0 then
    let m := if (GetType prev_mcb m =? middle_mcb_type) && (mcb_segment =? umb_start)
             then SetType prev_mcb ending_mcb_type m else m in
    ok (true, with_umb umb_start 0 (with_mem m d))
  else if linkstate =? 1 then
    if GetType mcb_segment m =? ending_mcb_type
    then ok (true, with_umb umb_start 1 (with_mem (SetType mcb_segment middle_mcb_type m) d))
    else ok (true, d)
  else ok (false, d).
End Operations.

(** ** The chain at start-up *)
Inductive machine := Tandy | PCjr | Other.
Definition PcjrStandardMemorySizeKb : Z := 128.
Definition PcjrVideoMemorySizeKb : Z := 32.
Definition kilobytes_to_segment (address_kb : Z) : Z := u16 (address_kb * 1024 / 16).

Section Setup.
Context {M : Type} `{ByteMemory M}.
Implicit Types (d : Dos M) (m : M).

(** [mem_writeb(PhysicalMake(seg, off), val)] and [mem_writed(vec << 2, pt)]. *)
Definition real_writeb (seg off val : Z) m : M := writeb (PhysPt (pt seg + off)) val m.
Definition RealMake (seg off : Z) : Z := Z.lor (Z.shiftl seg 16) off.
Definition RealSetVec (vec address : Z) m : M := mem_unalignedwrited (PhysPt (Z.shiftl vec 2)) address m.
Definition put_mcb (seg owner size type : Z) m : M := SetType seg type (SetSize seg size (SetPSPSeg seg owner m)).
(** The last block, where the type comes before the size. *)
Definition put_free_block (seg size : Z) m : M := SetSize seg size (SetType seg ending_mcb_type (SetPSPSeg seg MCB_FREE m)).

(** [expanded]: the setting [pcjr_memory_config]. *)
Definition DOS_SetupMemory (hw : machine) (expanded : bool) d : Dos M :=
  let ihseg := 0x70 in
  let ihofs := 0xF4 in
  let m := mem d in
  let m := real_writeb ihseg ihofs 0xCF m in
  let m := RealSetVec 0x01 (RealMake ihseg ihofs) m in
  let m := RealSetVec 0x02 (RealMake ihseg ihofs) m in
  let m := RealSetVec 0x03 (RealMake ihseg ihofs) m in
  let m := RealSetVec 0x04 (RealMake ihseg ihofs) m in
  let m := RealSetVec 0x0f (RealMake ihseg ihofs) m in
  let m := put_mcb DOS_MEM_START MCB_DOS 1 middle_mcb_type m in
  let mcb_sizes := 2 in
  let m := put_mcb (DOS_MEM_START + mcb_sizes) MCB_FREE 4 middle_mcb_type m in
  let mcb_sizes := mcb_sizes + 5 in
  let m := put_mcb (DOS_MEM_START + mcb_sizes) 0x40 16 middle_mcb_type m in
  let mcb_sizes := mcb_sizes + 17 in
  let m :=
    match hw with
    | Tandy => put_free_block (DOS_MEM_START + mcb_sizes) (0x9BFF - DOS_MEM_START - mcb_sizes) m
    | PCjr =>
        let pcjr_start := DOS_MEM_START + mcb_sizes in
        let mcb_entry_size := 1 in
        let video_memory_start := kilobytes_to_segment (PcjrStandardMemorySizeKb - PcjrVideoMemorySizeKb) in
        if expanded then
          let application_segment := video_memory_start + kilobytes_to_segment (PcjrVideoMemorySizeKb + 16) in
          let reserved_size := application_segment - pcjr_start - mcb_entry_size in
          let application_size := umb_start_seg - application_segment - mcb_entry_size in
          let m := put_mcb pcjr_start MCB_DOS reserved_size middle_mcb_type m in
          put_mcb application_segment MCB_FREE application_size ending_mcb_type m
        else put_mcb pcjr_start MCB_FREE (video_memory_start - pcjr_start - mcb_entry_size) ending_mcb_type m
    | Other => put_free_block (DOS_MEM_START + mcb_sizes) (0x9FFE - DOS_MEM_START - mcb_sizes) m
    end in
  with_first DOS_MEM_START (with_mem m d).
End Setup.
