(* ===== verification/DosChain.v ===== *)
(** * The chain of memory control blocks as a list of blocks

    What it means for guest memory to hold a chain, what the setters do to it, and
    compaction as an operation on the list. *)
From S2P Require Import Prelude.
From S2P Require Import GuestMemory.
From S2P Require Import DosMcb.
From S2P Require Import DosMemory.
#[local] Open Scope Z_scope.
#[local] Open Scope exec_scope.

(** ** Blocks *)
Record block := mkBlock { owner : Z; size : Z }.
#[export] Instance block_eq_dec : EqDecision block.
Proof. solve_decision. Defined.
Definition is_free (b : block) : bool := owner b =? 0.

Fixpoint headers (s : Z) (bs : list block) : list Z :=
  match bs with [] => [] | b :: bs => s :: headers (s + size b + 1) bs end.
(** Where the blocks end. *)
Fixpoint chain_end (s : Z) (bs : list block) : Z :=
  match bs with [] => s | b :: bs => chain_end (s + size b + 1) bs end.
Definition block_type (rest : list block) : Z := match rest with [] => ending_mcb_type | _ => middle_mcb_type end.

Lemma headers_app s bs cs : headers s (bs ++ cs) = headers s bs ++ headers (chain_end s bs) cs.
Proof. revert s. induction bs as [|b bs IH]; intros s; cbn; [done|]. by rewrite IH. Qed.
Lemma chain_end_app s bs cs : chain_end s (bs ++ cs) = chain_end (chain_end s bs) cs.
Proof. revert s. induction bs as [|b bs IH]; intros s; cbn; [done|]. apply IH. Qed.

Section Chains.
Context {M : Type} `{ByteMemoryLaws M}.
Implicit Types (m : M) (s : Z) (b : block) (bs : list block).

(** From segment [s], memory holds the blocks [bs], the last of type 'Z', the others
    'M', ending inside the address space. *)
Fixpoint chain m s bs : Prop :=
  match bs with
  | [] => False
  | b :: rest =>
      is_segment s /\ mcb s m = mkMCB (block_type rest) (owner b) (size b) /\
      match rest with [] => s + size b + 1 <= 65536 | _ => chain m (s + size b + 1) rest end
  end.

Lemma chain_head m s b bs : chain m s (b :: bs) ->
  is_segment s /\ GetType s m = block_type bs /\ GetPSPSeg s m = owner b /\ GetSize s m = size b.
Proof using. intros (Hs & Hm & _). unfold mcb in Hm. injection Hm as <- <- <-. done. Qed.
Lemma chain_size m s b bs : chain m s (b :: bs) -> is_segment (owner b) /\ is_segment (size b).
Proof using Type*. intros (Hs & Hm & _). pose proof (mcb_range s m Hs) as (_ & H1 & H2). by rewrite Hm in *. Qed.
Lemma chain_tail m s b c bs : chain m s (b :: c :: bs) -> chain m (s + size b + 1) (c :: bs).
Proof using. by intros (_ & _ & Hc). Qed.
(** The segment after a block does not wrap. *)
Lemma chain_next m s b c bs : chain m s (b :: c :: bs) -> u16 (s + size b + 1) = s + size b + 1.
Proof using. intros Hc%chain_tail. destruct Hc as (Hs & _). unfold is_segment in Hs. apply u16_small. lia. Qed.
Lemma chain_bound m s bs : chain m s bs -> s < chain_end s bs <= 65536.
Proof using Type*.
  revert s. induction bs as [|b bs IH]; intros s Hc; [done|]. pose proof (chain_size _ _ _ _ Hc) as [_ Hb].
  unfold is_segment in Hb. destruct bs as [|c bs].
  - destruct Hc as (_ & _ & Hc). cbn. lia.
  - apply chain_tail, IH in Hc. cbn in *. lia.
Qed.
Lemma headers_bound m s bs x : chain m s bs -> x ∈ headers s bs -> s <= x < chain_end s bs.
Proof using Type*.
  revert s. induction bs as [|b bs IH]; intros s Hc Hx; [done|]. pose proof (chain_bound _ _ _ Hc) as Hb.
  cbn [headers] in Hx. apply elem_of_cons in Hx as [-> | Hx]; [lia|]. destruct bs as [|c bs]; [by apply elem_of_nil in Hx|].
  pose proof (chain_size _ _ _ _ Hc) as [_ Hz]. unfold is_segment in Hz. apply chain_tail in Hc.
  specialize (IH _ Hc Hx). cbn [chain_end] in *. lia.
Qed.
Lemma chain_frame P m m' s bs :
  (forall x, x ∈ headers s bs -> ~ P x) -> frame P m m' -> chain m s bs -> chain m' s bs.
Proof using Type*.
  intros Hp Hf. revert s Hp. induction bs as [|b bs IH]; intros s Hp Hc; [done|]. destruct Hc as (Hs & Hm & Hc).
  split; [done|]. split; [rewrite (mcb_frame _ _ _ _ Hs (Hp s ltac:(left)) Hf); done|].
  destruct bs as [|c bs]; [done|]. apply IH; [|done]. intros x Hx. apply Hp. by right.
Qed.
(** A change of the first header. *)
Lemma chain_cons m s b bs :
  is_segment s -> mcb s m = mkMCB (block_type bs) (owner b) (size b) ->
  match bs with [] => s + size b + 1 <= 65536 | _ => chain m (s + size b + 1) bs end -> chain m s (b :: bs).
Proof using. done. Qed.
(** The blocks behind the first are out of reach of a change at its header. *)
Lemma chain_rest_frame m m' s b bs :
  chain m s (b :: bs) -> frame (eq s) m m' ->
  match bs with [] => s + size b + 1 <= 65536 | _ => chain m' (s + size b + 1) bs end.
Proof using Type*.
  intros Hc Hf. destruct bs as [|c bs]; [by destruct Hc as (_ & _ & Hc)|].
  pose proof (chain_size _ _ _ _ Hc) as [_ Hb]. unfold is_segment in Hb. apply chain_tail in Hc.
  eapply chain_frame; [|exact Hf|exact Hc]. intros x Hx <-. pose proof (headers_bound _ _ _ _ Hc Hx). lia.
Qed.
End Chains.

(** ** Compaction *)
Fixpoint merge (bs : list block) : list block :=
  match bs with
  | [] => []
  | b :: rest =>
      match merge rest with
      | c :: r => if is_free b && is_free c then mkBlock 0 (size b + size c + 1) :: r else b :: c :: r
      | [] => [b]
      end
  end.
(** No two free blocks in a row. *)
Fixpoint compact (bs : list block) : bool :=
  match bs with
  | b :: (c :: _) as rest => negb (is_free b && is_free c) && compact rest
  | _ => true
  end.
Lemma merge_cons b bs : exists c r, merge (b :: bs) = c :: r /\ is_free c = is_free b /\ (is_free b = false -> c = b).
Proof.
  cbn. destruct (merge bs) as [|c r]; [by exists b, []|]. destruct (is_free b) eqn:Eb, (is_free c) eqn:Ec; cbn; eauto 6.
  eexists _, r. split; [done|]. split; done.
Qed.
Lemma merge_nil bs : merge bs = [] -> bs = [].
Proof. destruct bs as [|b bs]; [done|]. destruct (merge_cons b bs) as (c & r & -> & _). done. Qed.
Lemma merge_two b c bs : is_free b = true -> is_free c = true -> merge (b :: c :: bs) = merge (mkBlock 0 (size b + size c + 1) :: bs).
Proof.
  intros Hb Hc. cbn [merge]. destruct (merge bs) as [|x r]; rewrite ?Hb, ?Hc; [done|]. cbn [andb].
  change (is_free (mkBlock 0 _)) with true. destruct (is_free x) eqn:Hx; cbn -[is_free]; rewrite ?Hb, ?Hc; cbn -[is_free]; [|done].
  change (is_free (mkBlock 0 _)) with true. cbn. do 2 f_equal. lia.
Qed.
Lemma merge_skip b c bs : is_free b && is_free c = false -> merge (b :: c :: bs) = b :: merge (c :: bs).
Proof.
  intros Hbc. destruct (merge_cons c bs) as (x & r & E & Hx & _). cbn [merge] in *. rewrite E. by rewrite Hx, Hbc.
Qed.
Lemma merge_compact bs : compact (merge bs) = true.
Proof.
  induction bs as [|b bs IH]; [done|]. cbn. destruct (merge bs) as [|c r] eqn:E; [done|].
  destruct (is_free b && is_free c) eqn:F; [|cbn [compact]; rewrite F; done].
  destruct r as [|d r]; [done|]. cbn [compact] in *. apply andb_prop in F as [_ F]. rewrite F in IH.
  destruct (is_free d); [done|]. by rewrite andb_false_r.
Qed.
Lemma merge_end s bs : chain_end s (merge bs) = chain_end s bs.
Proof.
  revert s. induction bs as [|b bs IH]; intros s; [done|]. cbn. destruct (merge bs) as [|c r] eqn:E.
  - by apply merge_nil in E as ->.
  - rewrite <- IH. destruct (is_free b && is_free c); cbn; [f_equal; lia|done].
Qed.
Lemma merge_length bs : (length (merge bs) <= length bs)%nat.
Proof.
  induction bs as [|b bs IH]; [done|]. cbn. destruct (merge bs) as [|c r]; [cbn; lia|]. cbn in *.
  destruct (is_free b && is_free c); cbn; lia.
Qed.
(** Allocated blocks stay, where they are. *)
Fixpoint placed (s : Z) (bs : list block) : list (Z * block) :=
  match bs with [] => [] | b :: bs => (s, b) :: placed (s + size b + 1) bs end.
Definition allocated (s : Z) (bs : list block) : list (Z * block) := filter (fun x => is_free x.2 = false) (placed s bs).
Lemma allocated_cons s b bs :
  allocated s (b :: bs) = if is_free b then allocated (s + size b + 1) bs else (s, b) :: allocated (s + size b + 1) bs.
Proof. unfold allocated, filter. cbn. destruct (is_free b); by destruct (decide _). Qed.
Lemma merge_allocated s bs : allocated s (merge bs) = allocated s bs.
Proof.
  revert s. induction bs as [|b bs IH]; intros s; [done|]. rewrite allocated_cons, <- IH. cbn [merge].
  destruct (merge bs) as [|c r]; [by rewrite allocated_cons|].
  destruct (is_free b) eqn:Eb, (is_free c) eqn:Ec; cbn [andb]; rewrite !allocated_cons, ?Eb, ?Ec; try done.
  cbn [size]. by replace (s + (size b + size c + 1) + 1) with (s + size b + 1 + size c + 1) by lia.
Qed.

Section Compaction.
Context {M : Type} `{ByteMemoryLaws M}.
Implicit Types (m : M) (d : Dos M) (s : Z) (b c : block) (bs : list block).

Lemma with_mem_id d : with_mem (mem d) d = d.
Proof using. by destruct d. Qed.
Lemma with_mem_twice m m' d : with_mem m (with_mem m' d) = with_mem m d.
Proof using. done. Qed.
Lemma valid_type bs : mcb_type_is_valid (block_type bs) = true.
Proof using. by destruct bs. Qed.
Lemma is_free_owner b : (owner b =? MCB_FREE) = is_free b.
Proof using. done. Qed.

(** The first two blocks joined. *)
Lemma join_step m s b c bs :
  chain m s (b :: c :: bs) ->
  let n := s + size b + 1 in
  let m1 := SetSize s (GetSize s m + GetSize n m + 1) m in
  let m' := SetType s (GetType n m1) m1 in
  chain m' s (mkBlock (owner b) (size b + size c + 1) :: bs) /\ frame (eq s) m m'.
Proof using Type*.
  intros Hc n m1 m'. pose proof (chain_head _ _ _ _ Hc) as (Hs & _ & Ho & Hz).
  pose proof (chain_tail _ _ _ _ _ Hc) as Hc2. pose proof (chain_head _ _ _ _ Hc2) as (Hs2 & Ht2 & _ & Hz2).
  pose proof (chain_bound _ _ _ Hc2) as Hb. assert (frame (eq s) m m') as Hf.
  { eapply frame_trans; [by apply frame_SetSize|by apply frame_SetType]. }
  split; [|done]. pose proof (chain_size _ _ _ _ Hc) as [Hob Hzb]. pose proof (chain_size _ _ _ _ Hc2) as [_ Hzc].
  assert (s + (size b + size c + 1) + 1 <= 65536) as Hfit.
  { fold n in Hb. destruct bs as [|e bs]; [destruct Hc2 as (_ & _ & Hx); unfold n in *; lia|].
    apply chain_tail, chain_bound in Hc2. unfold n in *. lia. }
  unfold is_segment in *. apply chain_cons; [done| |].
  - assert (GetType n m1 = GetType n m) as E.
    { change (mcb_type (mcb n m1) = mcb_type (mcb n m)). f_equal. apply (mcb_frame (eq s)); [done|unfold n; lia|by apply frame_SetSize]. }
    unfold m'. rewrite E. unfold m1. rewrite mcb_SetType, Z.eqb_refl, mcb_SetSize, Z.eqb_refl by done. cbn. unfold n. rewrite Ht2, Hz, Hz2, Ho.
    f_equal; [by destruct bs|]. rewrite u16_small; lia.
  - cbn [size]. replace (s + (size b + size c + 1) + 1) with (n + size c + 1) by (unfold n; lia).
    destruct bs as [|e bs]; [unfold n in *; lia|]. eapply chain_frame; [|exact Hf|by apply chain_tail].
    intros x Hx <-. pose proof (headers_bound _ _ _ _ (chain_tail _ _ _ _ _ Hc2) Hx). unfold n in *. lia.
Qed.

Lemma Compress_loop_spec fuel s f b bs d :
  chain (mem d) s (b :: bs) -> (length bs < fuel)%nat -> f < max_allowed_faults ->
  exists m', Compress_loop fuel s f d = ok (with_mem m' d) /\ chain m' s (merge (b :: bs)) /\
    frame (fun x => x ∈ headers s (b :: bs)) (mem d) m'.
Proof using Type*.
  revert fuel s b d. induction bs as [|c bs IH]; intros fuel s b d Hc Hfuel Hf;
    (destruct fuel as [|fuel]; [lia|]); cbn [Compress_loop];
    pose proof (chain_head _ _ _ _ Hc) as (Hs & -> & Ho & Hz); cbn [block_type].
  { exists (mem d). rewrite with_mem_id. split; [done|]. split; [done|]. apply frame_refl. }
  change (negb (middle_mcb_type =? ending_mcb_type)) with true. rewrite (proj2 (Z.ltb_lt _ _) Hf). cbn [andb].
  rewrite Ho, Hz, (chain_next _ _ _ _ _ Hc). pose proof (chain_tail _ _ _ _ _ Hc) as Hc2.
  pose proof (chain_head _ _ _ _ Hc2) as (Hs2 & Ht2 & Ho2 & _). rewrite Ho2, !is_free_owner.
  cbn [length] in Hfuel. destruct (is_free b && is_free c) eqn:F.
  - apply andb_prop in F as [Fb Fc]. unfold triage_block. rewrite Ht2, valid_type. cbn [exec_bind b2z].
    rewrite Z.add_0_r, Hz. destruct (join_step _ _ _ _ _ Hc) as [Hj Hjf]. cbv zeta in Hj, Hjf. rewrite Hz in Hj, Hjf.
    set (m1 := SetType s _ _) in *. destruct (IH fuel s _ (with_mem m1 d) Hj) as (m' & E & Hc' & Hf'); [lia|done|].
    exists m'. rewrite E. split; [done|]. rewrite merge_two by done.
    assert (owner b = 0) as Eo by (unfold is_free in Fb; lia). rewrite Eo in Hc'. split; [exact Hc'|].
    eapply frame_trans; [eapply frame_mono, Hjf; intros x <-; left|]. eapply frame_mono, Hf'.
    intros x Hx. cbn [headers size] in *. apply elem_of_cons in Hx as [-> | Hx]; [left|].
    right. right. by replace (s + size b + 1 + size c + 1) with (s + (size b + size c + 1) + 1) by lia.
  - destruct (IH fuel (s + size b + 1) c d Hc2) as (m' & E & Hc' & Hf'); [lia|done|].
    exists m'. split; [done|]. rewrite merge_skip by done. split; [|eapply frame_mono, Hf'; intros x Hx; by right].
    destruct (merge_cons c bs) as (x & r & Em & _). rewrite Em in *. apply chain_cons; [done| |done].
    assert (~ s ∈ headers (s + size b + 1) (c :: bs)) as Hn.
    { intros Hx. pose proof (headers_bound _ _ _ _ Hc2 Hx). pose proof (chain_size _ _ _ _ Hc) as [_ Hb].
      unfold is_segment in Hb. lia. }
    rewrite (mcb_frame _ _ _ _ Hs Hn Hf'). apply Hc.
Qed.
End Compaction.
