(* ===== verification/DosSearch.v ===== *)
(** * Which block an allocation takes

    The search of [DOS_AllocateMemory] over one or two chains is the choice of a
    block from the list of blocks it visits: the first that fits, the smallest, or
    the last. *)
From S2P Require Import Prelude.
From S2P Require Import GuestMemory.
From S2P Require Import DosMcb.
From S2P Require Import DosMemory.
From S2P Require Import DosChain.
#[local] Open Scope Z_scope.
#[local] Open Scope exec_scope.
#[local] Open Scope seq_scope.

(** ** The choice *)
Definition fits (blocks : Z) (x : Z * block) : bool := is_free x.2 && (blocks <=? size x.2).
Definition candidates (blocks : Z) (l : list (Z * block)) : list (Z * block) := filter (fun x => fits blocks x = true) l.
(** The first of the smallest. *)
Fixpoint smallest (l : list (Z * block)) : option (Z * block) :=
  match l with
  | [] => None
  | x :: l => match smallest l with
              | Some y => if size x.2 <=? size y.2 then Some x else Some y
              | None => Some x
              end
  end.
Definition choose (fit blocks : Z) (l : list (Z * block)) : option (Z * block) :=
  if fit =? 0 then head (candidates blocks l)
  else if fit =? 1 then smallest (candidates blocks l)
  else list.last (candidates blocks l).
(** The largest free block below the size. *)
Definition largest_below (blocks : Z) (l : list (Z * block)) : Z :=
  foldr Z.max 0 (map (fun x => size x.2) (filter (fun x => is_free x.2 && (size x.2 <? blocks) = true) l)).

Lemma candidates_cons blocks x l :
  candidates blocks (x :: l) = if fits blocks x then x :: candidates blocks l else candidates blocks l.
Proof. unfold candidates, filter. cbn. destruct (fits blocks x); by destruct (decide _). Qed.
Lemma candidates_app blocks l l' : candidates blocks (l ++ l') = candidates blocks l ++ candidates blocks l'.
Proof. apply list.filter_app. Qed.
Lemma candidates_fit blocks x l : x ∈ candidates blocks l -> is_free x.2 = true /\ blocks <= size x.2 /\ x ∈ l.
Proof. intros [[F S]%andb_prop Hx]%list_elem_of_filter. apply Z.leb_le in S. done. Qed.
Lemma smallest_None l : smallest l = None -> l = [].
Proof. destruct l as [|x l]; [done|]. cbn. destruct (smallest l); [by destruct (_ <=? _)|done]. Qed.
Lemma smallest_elem l x : smallest l = Some x -> x ∈ l /\ forall y, y ∈ l -> size x.2 <= size y.2.
Proof.
  revert x. induction l as [|z l IH]; intros x; [done|]. cbn. destruct (smallest l) as [w|] eqn:E.
  - destruct (IH w eq_refl) as [Hw Hmin]. destruct (Z.leb_spec (size z.2) (size w.2)); intros [= <-].
    + split; [left|]. intros y [-> | Hy]%elem_of_cons; [lia|]. specialize (Hmin y Hy). lia.
    + split; [by right|]. intros y [-> | Hy]%elem_of_cons; [lia|auto].
  - apply smallest_None in E as ->. intros [= <-]. split; [left|]. intros y [-> | []%elem_of_nil]%elem_of_cons. lia.
Qed.
Lemma smallest_app l l' :
  smallest (l ++ l') = match smallest l, smallest l' with
    | Some x, Some y => if size x.2 <=? size y.2 then Some x else Some y
    | Some x, None => Some x
    | None, r => r
    end.
Proof.
  induction l as [|z l IH]; [done|]. cbn. rewrite IH.
  destruct (smallest l) as [x|], (smallest l') as [y|]; try done;
    repeat match goal with |- context [?a <=? ?b] => destruct (Z.leb_spec a b) end; done || (exfalso; lia).
Qed.
Lemma choose_elem fit blocks l x : choose fit blocks l = Some x -> is_free x.2 = true /\ blocks <= size x.2 /\ x ∈ l.
Proof.
  unfold choose. destruct (fit =? 0); [|destruct (fit =? 1)]; intros E; apply candidates_fit.
  - destruct (candidates blocks l); cbn in E; [done|]. injection E as ->. left.
  - by apply smallest_elem in E as [E _].
  - by apply list.last_Some_elem_of in E.
Qed.
Lemma choose_None fit blocks l : choose fit blocks l = None -> candidates blocks l = [].
Proof.
  unfold choose. destruct (fit =? 0); [|destruct (fit =? 1)]; intros E.
  - by destruct (candidates blocks l).
  - by apply smallest_None.
  - by apply list.last_None.
Qed.

(** ** The loop *)
Section Loop.
Context {M : Type} `{ByteMemoryLaws M}.
Implicit Types (m : M) (d : Dos M).
Context (name : list Z) (umb_start blocks : Z) (Hblocks : 0 <= blocks).

(** What is done with the choice; [big] is returned when there is none. *)
Definition finish (fit : Z) (c : option (Z * block)) (big : Z) d : exec (bool * option Z * Z * Dos M) :=
  match c with
  | Some (x, b) =>
      if size b =? blocks then
        let m := SetPSPSeg x (psp d) (mem d) in
        ok (true, Some (u16 (x + 1)), blocks, with_mem (if fit <? 2 then m else SetFileName x name m) d)
      else if fit <? 2 then ok (true, Some (u16 (x + 1)), blocks, take_start x (size b) blocks name d)
      else ok (true, Some (u16 (x + 1 + size b - blocks)), blocks, take_end x (size b) blocks name d)
  | None => ok (false, None, big, DOS_SetError DOSERR_INSUFFICIENT_MEMORY d)
  end.

(** The choice among the blocks visited, as the loop keeps it. *)
Definition encodes (c : option (Z * block)) (found_seg found_seg_size : Z) : Prop :=
  match c with
  | Some (x, b) => found_seg = x /\ found_seg_size = size b /\ 0 < x
  | None => found_seg = 0 /\ found_seg_size = 0
  end.
(** The loop would have returned at this block. *)
Definition stops (fit : Z) (x : Z * block) : bool := fits blocks x && ((fit =? 0) || (fit =? 1) && (size x.2 =? blocks)).
Definition visited_ok (fit : Z) (v : list (Z * block)) (big fs fz : Z) : Prop :=
  Forall (fun x => stops fit x = false) v /\ encodes (choose fit blocks v) fs fz /\ big = largest_below blocks v.

Lemma largest_snoc v x :
  largest_below blocks (v ++ [x]) =
  if is_free x.2 && (size x.2 <? blocks) then Z.max (size x.2) (largest_below blocks v) else largest_below blocks v.
Proof using Hblocks.
  set (P := fun x : Z * block => is_free x.2 && (size x.2 <? blocks) = true).
  assert (filter P [x] = if is_free x.2 && (size x.2 <? blocks) then [x] else []) as E.
  { unfold filter, P. cbn. destruct (is_free x.2 && _); by destruct (decide _). }
  unfold largest_below. fold P. rewrite list.filter_app, map_app, foldr_app, E.
  set (l := map _ (filter P v)). clearbody l.
  assert (forall k, 0 <= k -> foldr Z.max k l = Z.max k (foldr Z.max 0 l)) as Hk.
  { intros k Hk. induction l as [|y l IH]; cbn; [lia|]. rewrite IH. lia. }
  assert (0 <= foldr Z.max 0 l) by (clear; induction l; cbn; lia).
  destruct (is_free x.2 && (size x.2 <? blocks)); [|done]. cbn. rewrite Hk; lia.
Qed.
(** One more block: the registers of the loop after it. *)
Definition next_big b (big : Z) : Z := if is_free b && (size b <? blocks) then Z.max (size b) big else big.
Definition next_found (fit s : Z) b (fs fz : Z) : Z * Z :=
  if fits blocks (s, b) then if (fit =? 1) && negb ((fz =? 0) || (size b <? fz)) then (fs, fz) else (s, size b) else (fs, fz).
Lemma visit_ok fit v big fs fz x b :
  0 <= fit -> 0 < x -> visited_ok fit v big fs fz -> stops fit (x, b) = false ->
  let '(fs', fz') := next_found fit x b fs fz in visited_ok fit (v ++ [(x, b)]) (next_big b big) fs' fz'.
Proof using Hblocks.
  intros Hfit Hx (Hst & He & Hb) Hs. assert (forall fs' fz',
    fs' = (if fits blocks (x, b) then if (fit =? 1) && negb ((fz =? 0) || (size b <? fz)) then fs else x else fs) ->
    fz' = (if fits blocks (x, b) then if (fit =? 1) && negb ((fz =? 0) || (size b <? fz)) then fz else size b else fz) ->
    visited_ok fit (v ++ [(x, b)]) (next_big b big) fs' fz') as Hgoal.
  2: { unfold next_found. destruct (fits blocks (x, b)); [destruct (_ && _)|]; by apply Hgoal. }
  intros fs' fz' -> ->. split; [|split].
  - apply list.Forall_app. split; [done|]. by constructor.
  - unfold choose in *. rewrite candidates_app, (candidates_cons blocks (x, b) []).
    destruct (fits blocks (x, b)) eqn:F; [|by rewrite app_nil_r].
    unfold stops in Hs. rewrite F in Hs. cbn [andb] in Hs. apply orb_false_iff in Hs as [Hs0 Hs1].
    change (candidates blocks []) with (@nil (Z * block)).
    rewrite Hs0 in *. destruct (Z.eqb_spec fit 1) as [->|]; cbn [andb]; [|by rewrite list.last_snoc].
    rewrite smallest_app. cbn [smallest].
    destruct (smallest (candidates blocks v)) as [[y c]|] eqn:E.
    + destruct He as (-> & -> & Hy). cbn [snd]. apply smallest_elem in E as [E _]. apply candidates_fit in E as (Hf & Hge & Hin).
      cbn [snd] in *. pose proof (proj1 (list.Forall_forall _ _) Hst _ Hin) as Hne. unfold stops, fits in Hne. cbn [snd] in Hne.
      rewrite Hf, (proj2 (Z.leb_le _ _) Hge) in Hne. cbn in Hne. apply Z.eqb_neq in Hne.
      destruct (Z.eqb_spec (size c) 0); [lia|]. cbn [orb].
      destruct (Z.leb_spec (size c) (size b)), (Z.ltb_spec (size b) (size c)); try lia; done.
    + destruct He as (-> & ->). done.
  - rewrite largest_snoc. unfold next_big. by rewrite Hb.
Qed.
(** A block the loop stops at is the choice, whatever follows. *)
Lemma stop_chosen fit v x w : Forall (fun y => stops fit y = false) v -> stops fit x = true -> choose fit blocks (v ++ x :: w) = Some x.
Proof using.
  intros Hv Hs. unfold stops in Hs. apply andb_prop in Hs as [Hf Hs]. unfold choose.
  rewrite candidates_app, candidates_cons, Hf. destruct (Z.eqb_spec fit 0) as [->|].
  - assert (candidates blocks v = []) as ->; [|done]. apply list.elem_of_nil_inv. intros y Hy.
    apply list_elem_of_filter in Hy as [Hfy Hy]. pose proof (proj1 (list.Forall_forall _ _) Hv _ Hy) as Hn.
    unfold stops in Hn. by rewrite Hfy in Hn.
  - cbn [orb] in Hs. apply andb_prop in Hs as [Hs He]. rewrite Hs. apply Z.eqb_eq in He. rewrite smallest_app.
    assert (smallest (x :: candidates blocks w) = Some x) as E.
    { cbn. destruct (smallest (candidates blocks w)) as [y|] eqn:Ey; [|done]. apply smallest_elem in Ey as [Ey _].
      apply candidates_fit in Ey as (_ & Hy & _). by rewrite He, (proj2 (Z.leb_le _ _) Hy). }
    rewrite E. destruct (smallest (candidates blocks v)) as [y|] eqn:Ey; [|done].
    apply smallest_elem in Ey as [Ey _]. apply candidates_fit in Ey as (Hfy & Hy & Hin).
    pose proof (proj1 (list.Forall_forall _ _) Hv _ Hin) as Hn. unfold stops, fits in Hn. rewrite Hfy, Hs in Hn.
    rewrite (proj2 (Z.leb_le _ _) Hy) in Hn. cbn in Hn. apply orb_false_iff in Hn as [_ Hn]. apply Z.eqb_neq in Hn.
    destruct (Z.leb_spec (size y.2) (size x.2)); [lia|done].
Qed.
Lemma finish_end fit v big fs fz d :
  0 <= fit -> visited_ok fit v big fs fz ->
  (if nz fs then
     if fit =? 1 then ok (true, Some (u16 (fs + 1)), blocks, take_start fs fz blocks name d)
     else if fz =? blocks then
       ok (true, Some (u16 (fs + 1)), blocks, with_mem (SetFileName fs name (SetPSPSeg fs (psp d) (mem d))) d)
     else ok (true, Some (u16 (fs + 1 + fz - blocks)), blocks, take_end fs fz blocks name d)
   else ok (false, None, big, DOS_SetError DOSERR_INSUFFICIENT_MEMORY d)) = finish fit (choose fit blocks v) big d.
Proof using.
  intros Hfit (Hst & He & _). destruct (choose fit blocks v) as [[x b]|] eqn:Ec; [|by destruct He as [-> _]].
  destruct He as (-> & -> & Hx). unfold nz. rewrite (proj2 (Z.eqb_neq x 0)) by lia. cbn [negb finish].
  apply choose_elem in Ec as (Hf & Hge & Hin). cbn [snd] in *.
  pose proof (proj1 (list.Forall_forall _ _) Hst _ Hin) as Hn. unfold stops, fits in Hn. cbn [snd] in Hn.
  rewrite Hf, (proj2 (Z.leb_le _ _) Hge) in Hn. cbn [andb] in Hn. apply orb_false_iff in Hn as [Hn0 Hn1].
  apply Z.eqb_neq in Hn0. destruct (Z.eqb_spec fit 1) as [->|].
  - cbn in Hn1. rewrite Hn1. done.
  - rewrite (proj2 (Z.ltb_ge fit 2)) by lia. done.
Qed.

(** One turn of the loop. *)
Lemma Allocate_step n s ms big fs fz b bs d :
  chain (mem d) s (b :: bs) -> 0 <= ms ->
  let fit := Z.land ms 0x3f in
  let big' := next_big b big in let '(fs', fz') := next_found fit s b fs fz in
  Allocate_loop name umb_start blocks (S n) s ms big fs fz d =
  if stops fit (s, b) then finish fit (Some (s, b)) 0 d
  else match bs with
    | [] =>
        if nz (Z.land ms 0x80) && (umb_start =? umb_start_seg)
        then Allocate_loop name umb_start blocks n (firstMCB d) (Z.land ms (Z.lnot 0xc0)) big' fs' fz' d
        else if nz fs' then
          if fit =? 1 then ok (true, Some (u16 (fs' + 1)), blocks, take_start fs' fz' blocks name d)
          else if fz' =? blocks then
            ok (true, Some (u16 (fs' + 1)), blocks, with_mem (SetFileName fs' name (SetPSPSeg fs' (psp d) (mem d))) d)
          else ok (true, Some (u16 (fs' + 1 + fz' - blocks)), blocks, take_end fs' fz' blocks name d)
        else ok (false, None, big', DOS_SetError DOSERR_INSUFFICIENT_MEMORY d)
    | _ => Allocate_loop name umb_start blocks n (s + size b + 1) ms big' fs' fz' d
    end.
Proof using H0.
  intros Hc Hms fit. pose proof (chain_head _ _ _ _ Hc) as (_ & Ht & Ho & Hz).
  assert (forall A (x y : A), (if block_type bs =? ending_mcb_type then x else y) = match bs with [] => x | _ => y end) as Hend
    by (by destruct bs).
  assert (match bs with [] => True | _ => u16 (s + size b + 1) = s + size b + 1 end) as Hn
    by (destruct bs; [done|by eapply chain_next]).
  cbv zeta. destruct (next_found fit s b fs fz) as [fs' fz'] eqn:En. unfold next_found, next_big, stops, fits in *. cbn [fst snd] in *.
  cbn [Allocate_loop]. rewrite Ht, Ho, Hz, is_free_owner, !Hend. fold fit.
  assert ((blocks <=? size b) = negb (size b <? blocks)) as E by apply Z.leb_antisym. rewrite E in *.
  destruct (is_free b); cbn [andb negb] in *.
  2: { injection En as <- <-. destruct bs; [done|]. by rewrite Hn. }
  destruct (Z.ltb_spec (size b) blocks) as [Hlt|Hge]; cbn [andb negb] in *.
  { injection En as <- <-. replace (if big <? size b then size b else big) with (Z.max (size b) big)
      by (destruct (Z.ltb_spec big (size b)); lia). destruct bs; [done|]. by rewrite Hn. }
  cbn [finish]. destruct (Z.eqb_spec fit 0) as [E0|N0].
  { rewrite E0. cbn [orb Z.ltb Z.compare Z.eqb]. by destruct (size b =? blocks). }
  destruct (Z.eqb_spec fit 1) as [E1|N1]; cbn [andb orb negb] in *.
  - rewrite E1. cbn [Z.ltb Z.compare Pos.compare Pos.compare_cont Z.eqb Pos.eqb]. rewrite andb_true_r.
    destruct (size b =? blocks); [done|]. destruct ((fz =? 0) || (size b <? fz)); injection En as <- <-;
      (destruct bs; [done|by rewrite Hn]).
  - assert (0 <= fit) as Hf0 by (apply Z.land_nonneg; by left).
    rewrite (proj2 (Z.ltb_ge fit 2)) by lia. rewrite andb_false_r. injection En as <- <-.
    destruct bs; [done|by rewrite Hn].
Qed.

(** One chain; [k] is the fuel that is left. *)
Lemma Allocate_loop_spec k s ms v big fs fz b bs d w big0 :
  chain (mem d) s (b :: bs) -> 0 < s -> 0 <= ms -> visited_ok (Z.land ms 0x3f) v big fs fz ->
  let fit := Z.land ms 0x3f in let l := placed s (b :: bs) in
  let run := Allocate_loop name umb_start blocks (length (b :: bs) + k) s ms big fs fz d in
  if existsb (stops fit) l then run = finish fit (choose fit blocks (v ++ l ++ w)) big0 d
  else exists big' fs' fz', visited_ok fit (v ++ l) big' fs' fz' /\
    run = if nz (Z.land ms 0x80) && (umb_start =? umb_start_seg)
          then Allocate_loop name umb_start blocks k (firstMCB d) (Z.land ms (Z.lnot 0xc0)) big' fs' fz' d
          else finish fit (choose fit blocks (v ++ l)) big' d.
Proof using Type*.
  intros Hc Hs Hms Hv fit l run. subst l run.
  assert (0 <= fit) as Hfit by (apply Z.land_nonneg; by left).
  revert s v big fs fz b Hc Hs Hv. induction bs as [|c bs IH]; intros s v big fs fz b Hc Hs Hv;
    cbn [length Nat.add placed existsb];
    pose proof (chain_size _ _ _ _ Hc) as [_ Hb]; unfold is_segment in Hb.
  - pose proof (Allocate_step k s ms big fs fz b [] d Hc Hms) as Hstep. cbv zeta in Hstep. fold fit in Hstep.
    pose proof (visit_ok _ _ _ _ _ s b Hfit Hs Hv) as Hvis.
    destruct (next_found fit s b fs fz) as [fs' fz'] eqn:En. rewrite Hstep.
    destruct (stops fit (s, b)) eqn:St; cbn [orb app]; [by rewrite stop_chosen by (done || apply Hv)|].
    exists (next_big b big), fs', fz'.
    split; [by apply Hvis|]. destruct (nz _ && _); [done|]. by apply finish_end; [|apply Hvis].
  - pose proof (Allocate_step (S (length bs) + k) s ms big fs fz b (c :: bs) d Hc Hms) as Hstep.
    cbv zeta in Hstep. fold fit in Hstep. cbn [Nat.add] in Hstep.
    pose proof (visit_ok _ _ _ _ _ s b Hfit Hs Hv) as Hvis.
    destruct (next_found fit s b fs fz) as [fs' fz'] eqn:En. rewrite Hstep.
    destruct (stops fit (s, b)) eqn:St; cbn [orb app]; [by rewrite stop_chosen by (done || apply Hv)|].
    specialize (IH (s + size b + 1) _ _ _ _ c (chain_tail _ _ _ _ _ Hc) ltac:(lia) (Hvis eq_refl)).
    rewrite <- !(app_assoc v) in IH. exact IH.
Qed.

(** The blocks the search visits: [L] is the chain from [firstMCB], [U] that of the
    upper memory. *)
Definition visited (umbs : bool) (strat first : Z) (L U : list block) : list (Z * block) :=
  if umbs && nz (Z.land strat 0xc0)
  then placed umb_start_seg U ++ (if nz (Z.land strat 0x80) then placed first L else [])
  else placed first L.
Lemma search_spec fuel strat L U d :
  let umbs := umb_start =? umb_start_seg in
  chain (mem d) (firstMCB d) L -> 0 < firstMCB d -> 0 <= strat ->
  (umbs = true -> chain (mem d) umb_start_seg U) -> (length L + length U <= fuel)%nat ->
  let v := visited umbs strat (firstMCB d) L U in
  let start := if umbs && nz (Z.land strat 0xc0) then umb_start_seg else firstMCB d in
  Allocate_loop name umb_start blocks fuel start strat 0 0 0 d =
  finish (Z.land strat 0x3f) (choose (Z.land strat 0x3f) blocks v) (largest_below blocks v) d.
Proof using Type*.
  intros umbs HL Hfirst Hst HU Hfuel v start. subst v start. set (fit := Z.land strat 0x3f).
  assert (visited_ok fit [] 0 0 0) as Hv0.
  { split; [constructor|]. split; [|done]. unfold choose. by destruct (fit =? 0), (fit =? 1). }
  assert (forall ms v big fs fz fuel, 0 <= ms -> Z.land ms 0x3f = fit -> nz (Z.land ms 0x80) && umbs = false ->
    visited_ok fit v big fs fz -> (length L <= fuel)%nat ->
    Allocate_loop name umb_start blocks fuel (firstMCB d) ms big fs fz d =
    finish fit (choose fit blocks (v ++ placed (firstMCB d) L)) (largest_below blocks (v ++ placed (firstMCB d) L)) d) as Hlow.
  { intros ms v big fs fz fuel' Hms Efit Hend Hv Hf. destruct L as [|b L]; [done|].
    replace fuel' with (length (b :: L) + (fuel' - length (b :: L)))%nat by lia.
    rewrite <- Efit in Hv. pose proof (Allocate_loop_spec (fuel' - length (b :: L)) _ ms v big fs fz b L d []
      (largest_below blocks (v ++ placed (firstMCB d) (b :: L))) HL Hfirst Hms Hv) as Hspec. cbv zeta in Hspec. rewrite Efit in Hspec.
    rewrite app_nil_r in Hspec. destruct (existsb _ _); [done|].
    destruct Hspec as (big' & fs' & fz' & (_ & _ & ->) & ->). fold umbs. by rewrite Hend. }
  unfold visited. fold umbs. destruct (umbs && nz (Z.land strat 0xc0)) eqn:Eu.
  2: { apply (Hlow strat []); try done; [|lia]. destruct umbs; [|by rewrite andb_false_r]. cbn in Eu.
       assert (Z.land strat 0x80 = Z.land (Z.land strat 0xc0) 0x80) as -> by by rewrite <- Z.land_assoc.
       destruct (nz_spec (Z.land strat 0xc0)) as [_ Hnz]. destruct (Z.eq_dec (Z.land strat 0xc0) 0) as [->|]; [done|].
       by rewrite Hnz in Eu. }
  apply andb_prop in Eu as [Eu _]. specialize (HU Eu). destruct U as [|b U]; [done|].
  replace fuel with (length (b :: U) + (fuel - length (b :: U)))%nat by (cbn in *; lia).
  pose proof (Allocate_loop_spec (fuel - length (b :: U)) _ strat [] 0 0 0 b U d (if nz (Z.land strat 0x80) then placed (firstMCB d) L else [])
    (largest_below blocks (placed umb_start_seg (b :: U) ++ (if nz (Z.land strat 0x80) then placed (firstMCB d) L else []))) HU ltac:(done) Hst Hv0) as Hspec.
  cbv zeta in Hspec. fold fit in Hspec. cbn [app] in Hspec. destruct (existsb _ _); [exact Hspec|].
  destruct Hspec as (big' & fs' & fz' & Hv' & ->). fold umbs. rewrite Eu, andb_true_r.
  destruct (nz (Z.land strat 0x80)); [|by rewrite app_nil_r; destruct Hv' as (_ & _ & ->)].
  apply Hlow; try done; [apply Z.land_nonneg; by left| | |cbn in *; lia].
  - by rewrite <- Z.land_assoc.
  - by rewrite <- Z.land_assoc, Z.land_0_r.
Qed.

End Loop.
