(* ===== verification/DosAlloc.v ===== *)
(** * DOS allocation is correct

    What [DOS_AllocateMemory] does to the chain, for every strategy, with and without
    the upper memory blocks, and that it never touches an allocated block. *)
From S2P Require Import Prelude.
From S2P Require Import GuestMemory.
From S2P Require Import DosMcb.
From S2P Require Import DosMemory.
From S2P Require Import DosChain.
From S2P Require Import DosSearch.
#[local] Open Scope Z_scope.
#[local] Open Scope exec_scope.
#[local] Open Scope seq_scope.

(** ** Replacing a block *)
Fixpoint replace_at (x : Z) (nb : list block) (s : Z) (bs : list block) : list block :=
  match bs with
  | [] => []
  | b :: bs => (if s =? x then nb else [b]) ++ replace_at x nb (s + size b + 1) bs
  end.

Section Splicing.
Context {M : Type} `{ByteMemoryLaws M}.
Implicit Types (m : M) (d : Dos M) (s x : Z) (b c : block) (bs nb : list block).

Definition inside x b y : Prop := x <= y <= x + size b.
Lemma placed_find x b s bs : (x, b) ∈ placed s bs -> exists pre post, bs = pre ++ b :: post /\ x = chain_end s pre.
Proof using.
  revert s. induction bs as [|c bs IH]; intros s Hx; [by apply elem_of_nil in Hx|]. cbn in Hx.
  apply elem_of_cons in Hx as [[= <- <-] | Hx]; [by exists [], bs|].
  destruct (IH _ Hx) as (pre & post & -> & ->). by exists (c :: pre), post.
Qed.
Lemma placed_split s pre b post : (chain_end s pre, b) ∈ placed s (pre ++ b :: post).
Proof using. revert s. induction pre as [|c pre IH]; intros s; cbn; [left|]. right. apply IH. Qed.
Lemma chain_at m s pre b post : chain m s (pre ++ b :: post) -> chain m (chain_end s pre) (b :: post).
Proof using.
  revert s. induction pre as [|c pre IH]; intros s Hc; [done|]. cbn. apply IH.
  destruct pre; by apply chain_tail in Hc.
Qed.
Lemma chain_prefix_bound m s pre b post x : chain m s (pre ++ b :: post) -> x ∈ headers s pre -> s <= x < chain_end s pre.
Proof using Type*.
  revert s. induction pre as [|c pre IH]; intros s Hc Hx; [by apply elem_of_nil in Hx|]. cbn in *.
  pose proof (chain_size _ _ _ _ Hc) as [_ Hz]. unfold is_segment in Hz.
  assert (chain m (s + size c + 1) (pre ++ b :: post)) as Hc2 by (destruct pre; by apply chain_tail in Hc).
  assert (s + size c + 1 <= chain_end (s + size c + 1) pre) as Hle.
  { clear IH Hx Hc. generalize dependent (s + size c + 1). clear s Hz. induction pre as [|e pre IH]; intros s Hc; cbn; [lia|].
    pose proof (chain_size _ _ _ _ Hc) as [_ Hz]. unfold is_segment in Hz.
    assert (chain m (s + size e + 1) (pre ++ b :: post)) as Hc2 by (destruct pre; by apply chain_tail in Hc).
    specialize (IH _ Hc2). lia. }
  apply elem_of_cons in Hx as [-> | Hx]; [lia|]. specialize (IH _ Hc2 Hx). lia.
Qed.
Lemma replace_at_split m s pre b post nb :
  chain m s (pre ++ b :: post) -> replace_at (chain_end s pre) nb s (pre ++ b :: post) = pre ++ nb ++ post.
Proof using Type*.
  assert (forall s bs x, x < s -> chain m s bs -> replace_at x nb s bs = bs) as Hbelow.
  { clear -H0. intros s bs x. revert s. induction bs as [|c bs IH]; intros s Hx Hc; [done|]. cbn.
    destruct (Z.eqb_spec s x); [lia|]. cbn. f_equal. destruct bs as [|e bs]; [done|].
    pose proof (chain_size _ _ _ _ Hc) as [_ Hz]. unfold is_segment in Hz. apply IH; [lia|by apply chain_tail in Hc]. }
  revert s. induction pre as [|c pre IH]; intros s Hc; cbn.
  - rewrite Z.eqb_refl. f_equal. destruct post as [|e post]; [done|]. apply Hbelow; [|by apply chain_tail in Hc].
    pose proof (chain_size _ _ _ _ Hc) as [_ Hz]. unfold is_segment in Hz. lia.
  - destruct (Z.eqb_spec s (chain_end (s + size c + 1) pre)) as [E|].
    + exfalso. pose proof (chain_size _ _ _ _ Hc) as [_ Hz]. unfold is_segment in Hz.
      pose proof (chain_bound _ _ _ Hc). assert (chain m (s + size c + 1) (pre ++ b :: post)) as Hc2 by (destruct pre; by apply chain_tail in Hc).
      destruct pre as [|e pre]; [cbn in E; lia|].
      pose proof (chain_prefix_bound _ _ _ _ _ (s + size c + 1) Hc2 ltac:(left)). lia.
    + cbn. f_equal. apply IH. destruct pre; by apply chain_tail in Hc.
Qed.
(** A chain that does not have the block. *)
Lemma replace_at_other x nb s bs : x ∉ headers s bs -> replace_at x nb s bs = bs.
Proof using.
  revert s. induction bs as [|b bs IH]; intros s Hx; [done|]. cbn in *. apply not_elem_of_cons in Hx as [Hne Hx].
  destruct (Z.eqb_spec s x); [congruence|]. cbn. by rewrite IH.
Qed.

(** The chain after a change from a block on. *)
Lemma chain_splice_tail P m m' s pre tl tl' :
  chain m s (pre ++ tl) -> tl <> [] -> frame P m m' -> (forall y, P y -> chain_end s pre <= y) ->
  chain m' (chain_end s pre) tl' -> chain m' s (pre ++ tl').
Proof using Type*.
  intros Hc Htl Hf Hp Hc'. destruct tl as [|b post]; [done|]. assert (tl' <> []) as Hne by by destruct tl'.
  revert s Hc Hp Hc'. induction pre as [|c pre IH]; intros s Hc Hp Hc'; [done|].
  cbn in *. assert (chain m (s + size c + 1) (pre ++ b :: post)) as Hc2 by (destruct pre; by apply chain_tail in Hc).
  assert (~ P s) as Hns.
  { intros Hs%Hp. pose proof (chain_prefix_bound m s (c :: pre) b post s Hc ltac:(left)) as Hb. cbn in Hb. lia. }
  pose proof (proj1 Hc) as Hs. pose proof (proj1 (proj2 Hc)) as Hm. apply chain_cons; [done| |].
  - rewrite (mcb_frame _ _ _ _ Hs Hns Hf), Hm. f_equal. destruct pre; [by destruct tl'|done].
  - specialize (IH _ Hc2 Hp Hc'). destruct (pre ++ tl') eqn:E; [|done]. by apply app_eq_nil in E as [_ ->].
Qed.
(** The chain after a change inside one block. *)
Lemma chain_splice P m m' s pre b post nb :
  chain m s (pre ++ b :: post) -> frame P m m' -> (forall y, P y -> inside (chain_end s pre) b y) ->
  chain m' (chain_end s pre) (nb ++ post) -> chain m' s (pre ++ nb ++ post).
Proof using Type*.
  intros Hc Hf Hp. eapply chain_splice_tail; [exact Hc|done|exact Hf|]. intros y Hy. by apply Hp in Hy as [? _].
Qed.
(** What follows the block. *)
Lemma chain_post P m m' x b post :
  chain m x (b :: post) -> frame P m m' -> (forall y, P y -> inside x b y) ->
  match post with [] => x + size b + 1 <= 65536 | _ => chain m' (x + size b + 1) post end.
Proof using Type*.
  intros Hc Hf Hp. destruct post as [|c post]; [by destruct Hc as (_ & _ & Hc)|].
  apply chain_tail in Hc. eapply chain_frame; [|exact Hf|exact Hc]. intros y Hy Hpy%Hp. unfold inside in Hpy.
  pose proof (headers_bound _ _ _ _ Hc Hy). lia.
Qed.
Lemma retag_chain P m m' s pre b post o :
  chain m s (pre ++ b :: post) -> frame P m m' -> (forall y, P y -> inside (chain_end s pre) b y) ->
  let x := chain_end s pre in mcb x m' = mkMCB (block_type post) o (size b) ->
  chain m' s (pre ++ mkBlock o (size b) :: post).
Proof using Type*.
  intros Hc Hf Hp x Hm. pose proof (chain_at _ _ _ _ _ Hc) as Hx. eapply (chain_splice P m m' s pre b post [_]); try done.
  apply chain_cons; [apply Hx|done|]. cbn. by eapply chain_post.
Qed.
Lemma split_chain P m m' s pre b post b1 b2 :
  chain m s (pre ++ b :: post) -> frame P m m' -> (forall y, P y -> inside (chain_end s pre) b y) ->
  let x := chain_end s pre in let y := x + size b1 + 1 in
  0 <= size b1 -> 0 <= size b2 -> size b = size b1 + size b2 + 1 ->
  mcb x m' = mkMCB middle_mcb_type (owner b1) (size b1) ->
  mcb y m' = mkMCB (block_type post) (owner b2) (size b2) ->
  chain m' s (pre ++ b1 :: b2 :: post).
Proof using Type*.
  intros Hc Hf Hp x y H1 H2 Hz Hm1 Hm2. pose proof (chain_at _ _ _ _ _ Hc) as Hx.
  pose proof (chain_bound _ _ _ Hx) as Hb. pose proof (chain_post _ _ _ _ _ _ Hx Hf Hp) as Hpost.
  pose proof (proj1 Hx) as Hs. unfold is_segment in Hs.
  assert (chain_end s pre + size b + 1 <= 65536) as Hend.
  { destruct post as [|e post]; [done|]. destruct (proj1 Hpost) as [_ ?]. lia. }
  eapply (chain_splice P m m' s pre b post [b1; b2]); try done. cbn [app]. apply chain_cons; [done|done|].
  apply chain_cons; [unfold is_segment; fold x; fold y in Hend |- *; unfold y, x; lia|done|].
  fold x y. replace (y + size b2 + 1) with (chain_end s pre + size b + 1) by (unfold y, x; lia). done.
Qed.
End Splicing.

(** ** The three ways to take a block *)

(** Evaluate the fields of the blocks [x] and [y] after a run of setters. *)
Ltac mcb_eval :=
  repeat first
    [ rewrite mcb_SetFileName by assumption | rewrite mcb_SetType by assumption
    | rewrite mcb_SetPSPSeg by assumption | rewrite mcb_SetSize by assumption
    | rewrite Z.eqb_refl
    | match goal with |- context [?a =? ?b] => rewrite (proj2 (Z.eqb_neq a b)) by (assumption || (apply not_eq_sym; assumption)) end ];
  cbn [mcb_type mcb_psp mcb_size].

Section Taking.
Context {M : Type} `{ByteMemoryLaws M}.
Implicit Types (m : M) (d : Dos M) (s x y : Z) (b : block) (bs : list block).

Lemma GetType_mcb s m : GetType s m = mcb_type (mcb s m). Proof using. done. Qed.
Lemma GetSize_mcb s m : GetSize s m = mcb_size (mcb s m). Proof using. done. Qed.
Lemma GetPSPSeg_mcb s m : GetPSPSeg s m = mcb_psp (mcb s m). Proof using. done. Qed.
Lemma u8_block_type bs : u8 (block_type bs) = block_type bs. Proof using. by destruct bs. Qed.
Lemma u8_middle : u8 middle_mcb_type = middle_mcb_type. Proof using. done. Qed.

(** The segments inside the block at [x]. *)
Lemma block_segments m s pre b post :
  chain m s (pre ++ b :: post) ->
  let x := chain_end s pre in
  mcb x m = mkMCB (block_type post) (owner b) (size b) /\ is_segment (size b) /\ is_segment (owner b) /\
  0 <= x /\ x + size b + 1 <= 65536 /\ (forall y, inside x b y -> is_segment y).
Proof using Type*.
  intros Hc x. pose proof (chain_at _ _ _ _ _ Hc) as Hx. pose proof (chain_size _ _ _ _ Hx) as [Ho Hz].
  pose proof (chain_bound _ _ _ Hx) as Hb. pose proof Hx as (Hs & Hm & Hr).
  assert (x + size b + 1 <= 65536) as He.
  { destruct post as [|c post]; [done|]. pose proof (proj1 Hr). unfold is_segment in *. fold x in Hr. unfold x. lia. }
  unfold is_segment in *. unfold inside. split; [done|]. do 3 (split; [done || lia|]). split; [done|]. intros. lia.
Qed.

Lemma take_exact m s pre b post o :
  chain m s (pre ++ b :: post) -> is_segment o ->
  let x := chain_end s pre in let m' := SetPSPSeg x o m in
  chain m' s (pre ++ mkBlock o (size b) :: post) /\ frame (inside x b) m m'.
Proof using Type*.
  intros Hc Ho x m'. destruct (block_segments _ _ _ _ _ Hc) as (Hm & Hz & Hob & H0x & Hend & Hseg). fold x in Hm, H0x, Hend, Hseg.
  assert (inside x b x) as Hin by (unfold inside, is_segment in *; lia). pose proof (Hseg _ Hin) as Hx.
  assert (frame (eq x) m m') as Hf by by apply frame_SetPSPSeg. split.
  - eapply retag_chain; [done|exact Hf|intros y <-; exact Hin|]. fold x. unfold m'. mcb_eval. rewrite Hm. cbn.
    by rewrite u16_small.
  - eapply frame_mono, Hf. by intros y <-.
Qed.
Lemma take_start_spec d s pre b post blocks name :
  chain (mem d) s (pre ++ b :: post) -> 0 <= blocks < size b -> is_segment (psp d) ->
  let x := chain_end s pre in let m' := mem (take_start x (size b) blocks name d) in
  chain m' s (pre ++ mkBlock (psp d) blocks :: mkBlock 0 (size b - blocks - 1) :: post) /\ frame (inside x b) (mem d) m'.
Proof using Type*.
  intros Hc Hbl Hp x m'. destruct (block_segments _ _ _ _ _ Hc) as (Hm & Hz & Hob & H0x & Hend & Hseg). fold x in Hm, H0x, Hend, Hseg.
  set (y := x + blocks + 1). unfold is_segment in Hz, Hp.
  assert (is_segment x) as Hx by (apply Hseg; unfold inside; lia). assert (is_segment y) as Hy by (apply Hseg; unfold inside, y; lia).
  assert (x <> y) as Hne by (unfold y; lia).
  assert (u16 (x + blocks + 1) = y) as Ey by (apply u16_small; unfold y; lia).
  unfold take_start in m'. cbn [mem with_mem] in m'.
  assert (frame (inside x b) (mem d) m') as Hf.
  { unfold m'. rewrite Ey. frame_run; unfold inside, y; lia. }
  split; [|exact Hf]. eapply split_chain; [exact Hc|exact Hf|done|..]; fold x; cbn [size owner]; fold y; [lia..| |].
  - unfold m'. rewrite Ey. mcb_eval. by rewrite (u16_small blocks), (u16_small (psp d)) by lia.
  - unfold m'. rewrite Ey, GetType_mcb. mcb_eval. rewrite Hm. cbn [mcb_type]. rewrite u8_block_type. by rewrite (u16_small (size b - blocks - 1)) by lia.
Qed.
Lemma take_end_spec d s pre b post blocks name :
  chain (mem d) s (pre ++ b :: post) -> 0 <= blocks < size b -> is_segment (psp d) -> owner b = 0 ->
  let x := chain_end s pre in let m' := mem (take_end x (size b) blocks name d) in
  chain m' s (pre ++ mkBlock 0 (size b - blocks - 1) :: mkBlock (psp d) blocks :: post) /\ frame (inside x b) (mem d) m'.
Proof using Type*.
  intros Hc Hbl Hp Hfree x m'. destruct (block_segments _ _ _ _ _ Hc) as (Hm & Hz & Hob & H0x & Hend & Hseg). fold x in Hm, H0x, Hend, Hseg.
  set (y := x + size b - blocks). unfold is_segment in Hz, Hp.
  assert (is_segment x) as Hx by (apply Hseg; unfold inside; lia). assert (is_segment y) as Hy by (apply Hseg; unfold inside, y; lia).
  assert (x <> y) as Hne by (unfold y; lia).
  unfold take_end in m'. cbn [mem with_mem] in m'. assert (u16 (u16 (x + 1 + size b - blocks) - 1) = y) as Ey.
  { unfold is_segment in *. unfold y in *. destruct (Z.eq_dec (x + 1 + size b - blocks) 65536) as [E|].
       - rewrite E. change (u16 (u16 65536 - 1)) with 65535. lia.
       - rewrite (u16_small (x + 1 + size b - blocks)) by lia. rewrite u16_small; lia. }
  assert (frame (inside x b) (mem d) m') as Hf.
  { unfold m'. rewrite Ey. frame_run; unfold inside, y; lia. }
  split; [|exact Hf]. eapply split_chain; [exact Hc|exact Hf|done|..]; fold x; cbn [size owner];
    replace (x + (size b - blocks - 1) + 1) with y by (unfold y; lia); [lia..| |].
  - unfold m'. rewrite Ey. mcb_eval. by rewrite (u16_small (size b - blocks - 1)) by lia.
  - unfold m'. rewrite Ey, GetType_mcb. mcb_eval. rewrite Hm. cbn [mcb_type]. rewrite u8_block_type, (u16_small (psp d)) by lia.
    by rewrite (u16_small blocks) by lia.
Qed.
End Taking.

(** ** The operation *)
Section Allocation.
Context {M : Type} `{ByteMemoryLaws M}.
Implicit Types (m : M) (d : Dos M) (s x y : Z) (b c : block) (bs : list block).

(** What a chosen block becomes, and where the allocated part is. *)
Definition new_blocks (fit blocks o : Z) b : list block :=
  if size b =? blocks then [mkBlock o blocks]
  else if fit <? 2 then [mkBlock o blocks; mkBlock 0 (size b - blocks - 1)]
  else [mkBlock 0 (size b - blocks - 1); mkBlock o blocks].
Definition new_segment (fit blocks x : Z) b : Z :=
  if (size b =? blocks) || (fit <? 2) then x + 1 else x + 1 + size b - blocks.

Lemma finish_spec name fit blocks x b big d s pre post :
  0 <= blocks <= size b -> is_free b = true -> is_segment (psp d) -> chain (mem d) s (pre ++ b :: post) -> x = chain_end s pre ->
  exists d', finish name blocks fit (Some (x, b)) big d = ok (true, Some (u16 (new_segment fit blocks x b)), blocks, d') /\
    d' = with_mem (mem d') d /\ chain (mem d') s (pre ++ new_blocks fit blocks (psp d) b ++ post) /\
    frame (inside x b) (mem d) (mem d').
Proof using Type*.
  intros Hbl Hf Hp Hc ->. unfold finish, new_blocks, new_segment. destruct (Z.eqb_spec (size b) blocks) as [E|N]; cbn [orb].
  - destruct (take_exact _ _ _ _ _ (psp d) Hc Hp) as [Hc' Hf']. cbv zeta in *. set (m1 := SetPSPSeg _ _ _) in *.
    rewrite E in Hc'. eexists. split; [done|]. split; [done|]. cbn [mem with_mem].
    destruct (fit <? 2); [done|]. destruct (block_segments _ _ _ _ _ Hc') as (Hm & _ & _ & _ & _ & Hseg). cbn [size] in *.
    assert (inside (chain_end s pre) (mkBlock (psp d) blocks) (chain_end s pre)) as Hin by (unfold inside; cbn; lia).
    specialize (Hseg _ Hin). split.
    + apply (retag_chain (eq (chain_end s pre)) m1 _ s pre (mkBlock (psp d) blocks) post (psp d)); [done|by apply frame_SetFileName|by intros y <-|].
      mcb_eval. by rewrite Hm.
    + apply frame_SetFileName_then; [unfold inside; lia|done|done].
  - destruct (fit <? 2).
    + destruct (take_start_spec d s pre b post blocks name Hc ltac:(lia) Hp) as [H1 H2]. eexists. split; [done|]. split; [done|]. by split.
    + destruct (take_end_spec d s pre b post blocks name Hc ltac:(lia) Hp) as [H1 H2].
      { unfold is_free in Hf. lia. }
      eexists. split; [done|]. split; [done|]. by split.
Qed.

(** Allocated blocks are apart from headers and from free blocks. *)
Lemma placed_apart m s bs x b y :
  chain m s bs -> (x, b) ∈ placed s bs -> y ∈ headers s bs -> ~ (x < y <= x + size b).
Proof using Type*.
  intros Hc Hx Hy. destruct (placed_find _ _ _ _ Hx) as (pre & post & -> & ->).
  rewrite headers_app in Hy. apply elem_of_app in Hy as [Hy | Hy].
  - pose proof (chain_prefix_bound _ _ _ _ _ _ Hc Hy). lia.
  - apply chain_at in Hc. cbn in Hy. apply elem_of_cons in Hy as [-> | Hy]; [lia|].
    destruct post as [|c post]; [by apply elem_of_nil in Hy|]. apply chain_tail in Hc.
    pose proof (headers_bound _ _ _ _ Hc Hy). lia.
Qed.
Lemma placed_header x b s bs : (x, b) ∈ placed s bs -> x ∈ headers s bs.
Proof using.
  revert s. induction bs as [|c bs IH]; intros s Hx; [by apply elem_of_nil in Hx|]. cbn in *.
  apply elem_of_cons in Hx as [[= -> ->] | Hx]; [left|right; eauto].
Qed.
Lemma placed_det m s bs x b c : chain m s bs -> (x, b) ∈ placed s bs -> (x, c) ∈ placed s bs -> b = c.
Proof using.
  intros Hc Hb Hx. assert (forall e, (x, e) ∈ placed s bs -> mcb_psp (mcb x m) = owner e /\ mcb_size (mcb x m) = size e) as Hm.
  { intros e He. destruct (placed_find _ _ _ _ He) as (pre & post & -> & ->). apply chain_at in Hc.
    by destruct Hc as (_ & -> & _). }
  destruct (Hm _ Hb), (Hm _ Hx), b, c. cbn in *. congruence.
Qed.
Lemma placed_disjoint m s bs x b y c :
  chain m s bs -> (x, b) ∈ placed s bs -> (y, c) ∈ placed s bs -> x <> y -> forall z, inside x b z -> ~ (y < z <= y + size c).
Proof using Type*.
  intros Hc Hx Hy Hne z Hz Hyz. unfold inside in Hz. pose proof (placed_apart _ _ _ _ _ _ Hc Hx (placed_header _ _ _ _ Hy)).
  pose proof (placed_apart _ _ _ _ _ _ Hc Hy (placed_header _ _ _ _ Hx)). lia.
Qed.
Lemma placed_range m s bs x b : chain m s bs -> (x, b) ∈ placed s bs -> s <= x /\ x + size b + 1 <= chain_end s bs.
Proof using Type*.
  intros Hc Hx. pose proof (headers_bound _ _ _ _ Hc (placed_header _ _ _ _ Hx)) as Hb. split; [lia|].
  destruct (placed_find _ _ _ _ Hx) as (pre & post & -> & ->). rewrite chain_end_app. apply chain_at in Hc. cbn.
  destruct post as [|c post]; [cbn; lia|]. apply chain_tail, chain_bound in Hc. lia.
Qed.

(** The data of an allocated block. *)
Definition data_kept m m' x b : Prop := forall a, 16 * (x + 1) <= a < 16 * (x + size b + 1) -> readb a m' = readb a m.
Lemma frame_data P m m' x b : 0 <= x -> (forall z, P z -> ~ (x < z <= x + size b)) -> frame P m m' -> data_kept m m' x b.
Proof using.
  intros Hx Hp Hf a Ha. apply Hf; [lia|]. intros Hpa. apply (Hp _ Hpa). split.
  - apply Z.lt_le_trans with (x + 1); [lia|]. apply Z.div_le_lower_bound; lia.
  - apply Z.lt_succ_r. apply Z.div_lt_upper_bound; lia.
Qed.
Lemma data_kept_trans m m' m'' x b : data_kept m m' x b -> data_kept m' m'' x b -> data_kept m m'' x b.
Proof using. intros H1 H2 a Ha. by rewrite H2, H1. Qed.
(** A change inside a free block keeps every allocated block of its chain. *)
Lemma free_change_data m m' s bs x b :
  chain m s bs -> 0 <= s -> (x, b) ∈ placed s bs -> is_free b = true -> frame (inside x b) m m' ->
  forall y c, (y, c) ∈ allocated s bs -> data_kept m m' y c.
Proof using Type*.
  intros Hc Hs Hx Hf Hfr y c Hy. apply list_elem_of_filter in Hy as [Hnf Hy]. cbn in Hnf.
  eapply frame_data, Hfr; [pose proof (placed_range _ _ _ _ _ Hc Hy); lia|].
  eapply placed_disjoint; [exact Hc|done|done|]. intros ->. rewrite (placed_det _ _ _ _ _ _ Hc Hx Hy) in Hf. congruence.
Qed.
Lemma compress_data m m' s bs :
  chain m s bs -> 0 <= s -> frame (fun x => x ∈ headers s bs) m m' -> forall y c, (y, c) ∈ allocated s bs -> data_kept m m' y c.
Proof using Type*.
  intros Hc Hs Hfr y c Hy. apply list_elem_of_filter in Hy as [_ Hy].
  eapply frame_data, Hfr; [pose proof (placed_range _ _ _ _ _ Hc Hy); lia|]. intros z. by eapply placed_apart.
Qed.
End Allocation.

Section Arena.
Context {M : Type} `{ByteMemoryLaws M}.
Implicit Types (d : Dos M) (L U : list block).

(** Memory holds the chain [L] from [firstMCB] and, when they are present and not
    linked to it, the upper memory blocks [U] above it. *)
Record arena d L U : Prop := {
  arena_low : chain (mem d) (firstMCB d) L;
  arena_first : 0 < firstMCB d;
  arena_psp : is_segment (psp d);
  arena_umb : StartOfUMBChain d = umb_start_seg ->
    chain (mem d) umb_start_seg U /\ chain_end (firstMCB d) L <= umb_start_seg }.
Definition keeps_allocated d d' L U : Prop :=
  (forall x b, (x, b) ∈ allocated (firstMCB d) L -> data_kept (mem d) (mem d') x b) /\
  (StartOfUMBChain d = umb_start_seg -> forall x b, (x, b) ∈ allocated umb_start_seg U -> data_kept (mem d) (mem d') x b).

Lemma compress_arena fuel d L U :
  arena d L U -> (length L <= fuel)%nat ->
  exists m', DOS_CompressMemory fuel d = ok (with_mem m' d) /\ arena (with_mem m' d) (merge L) U /\
    keeps_allocated d (with_mem m' d) L U.
Proof using Type*.
  intros [HL Hf Hp HU] Hfuel. destruct L as [|b L]; [done|].
  destruct (Compress_loop_spec fuel (firstMCB d) 0 b L d HL) as (m' & E & Hc & Hfr); [cbn in Hfuel; lia|done|].
  exists m'. split; [exact E|]. split.
  - split; [exact Hc|done|done|]. intros Eu. destruct (HU Eu) as [HUc Hend]. rewrite merge_end. split; [|done].
    eapply chain_frame; [|exact Hfr|exact HUc]. intros x Hx Hx'.
    pose proof (headers_bound _ _ _ _ HUc Hx). pose proof (headers_bound _ _ _ _ HL Hx'). cbn in *. lia.
  - split.
    + intros x c Hx. eapply compress_data; [exact HL|lia|exact Hfr|done].
    + intros Eu x c Hx. destruct (HU Eu) as [HUc Hend]. apply list_elem_of_filter in Hx as [_ Hx].
      pose proof (placed_range _ _ _ _ _ HUc Hx). unfold umb_start_seg in *.
      eapply frame_data; [lia| |exact Hfr]. intros z Hz. pose proof (headers_bound _ _ _ _ HL Hz). cbn in *. lia.
Qed.

(** A free block of one of the two chains is taken. *)
Lemma take_arena name fit blocks x b big d L U :
  arena d L U -> 0 <= blocks <= size b -> is_free b = true ->
  (x, b) ∈ placed (firstMCB d) L \/ StartOfUMBChain d = umb_start_seg /\ (x, b) ∈ placed umb_start_seg U ->
  exists d', finish name blocks fit (Some (x, b)) big d = ok (true, Some (u16 (new_segment fit blocks x b)), blocks, d') /\
    let nb := new_blocks fit blocks (psp d) b in
    arena d' (replace_at x nb (firstMCB d) L) (replace_at x nb umb_start_seg U) /\ keeps_allocated d d' L U.
Proof using Type*.
  intros [HL Hf Hp HU] Hbl Hfree Hx.
  assert (forall s bs, chain (mem d) s bs -> (x, b) ∈ placed s bs ->
    exists d', finish name blocks fit (Some (x, b)) big d = ok (true, Some (u16 (new_segment fit blocks x b)), blocks, d') /\
      d' = with_mem (mem d') d /\ chain (mem d') s (replace_at x (new_blocks fit blocks (psp d) b) s bs) /\
      chain_end s (replace_at x (new_blocks fit blocks (psp d) b) s bs) = chain_end s bs /\
      frame (inside x b) (mem d) (mem d')) as Htake.
  { intros s bs Hc Hin. destruct (placed_find _ _ _ _ Hin) as (pre & post & -> & Ex).
    destruct (finish_spec name fit blocks x b big d s pre post) as (d' & E1 & E2 & E3 & E4); try done.
    exists d'. subst x. rewrite (replace_at_split _ _ _ _ _ _ Hc). do 3 (split; [done|]). split; [|done].
    rewrite !chain_end_app. cbn. unfold new_blocks. destruct (Z.eqb_spec (size b) blocks) as [E|]; [cbn; by rewrite E|].
    destruct (fit <? 2); cbn; f_equal; lia. }
  destruct Hx as [Hx | [Eu Hx]].
  - destruct (Htake _ _ HL Hx) as (d' & E1 & E2 & E3 & Ee & E4). exists d'. split; [done|]. cbv zeta.
    pose proof (placed_range _ _ _ _ _ HL Hx) as Hr.
    rewrite E2. cbn [mem with_mem firstMCB psp StartOfUMBChain]. split; [split|split]; cbn [mem with_mem firstMCB psp StartOfUMBChain]; try done.
    + intros Eu. destruct (HU Eu) as [HUc Hend]. rewrite Ee. split; [|done]. rewrite replace_at_other.
      * eapply chain_frame; [|exact E4|exact HUc]. intros y Hy Hin. pose proof (headers_bound _ _ _ _ HUc Hy). unfold inside in Hin. lia.
      * intros Hin. pose proof (headers_bound _ _ _ _ HUc Hin). lia.
    + intros y c Hy. eapply free_change_data; [exact HL|lia|exact Hx|done|exact E4|done].
    + intros Eu y c Hy. destruct (HU Eu) as [HUc Hend]. apply list_elem_of_filter in Hy as [_ Hy].
      pose proof (placed_range _ _ _ _ _ HUc Hy). unfold umb_start_seg in *. eapply frame_data; [lia| |exact E4].
      intros z Hz. unfold inside in Hz. lia.
  - destruct (HU Eu) as [HUc Hend]. destruct (Htake _ _ HUc Hx) as (d' & E1 & E2 & E3 & Ee & E4). exists d'. split; [done|]. cbv zeta.
    pose proof (placed_range _ _ _ _ _ HUc Hx) as Hr.
    rewrite E2. cbn [mem with_mem firstMCB psp StartOfUMBChain]. split; [split|split]; cbn [mem with_mem firstMCB psp StartOfUMBChain]; try done.
    + rewrite replace_at_other.
      * eapply chain_frame; [|exact E4|exact HL]. intros y Hy Hin. pose proof (headers_bound _ _ _ _ HL Hy). unfold inside in Hin. lia.
      * intros Hin. pose proof (headers_bound _ _ _ _ HL Hin). lia.
    + intros _. split; [done|]. rewrite replace_at_other; [done|]. intros Hin. pose proof (headers_bound _ _ _ _ HL Hin). lia.
    + intros y c Hy. apply list_elem_of_filter in Hy as [_ Hy]. pose proof (placed_range _ _ _ _ _ HL Hy).
      eapply frame_data; [lia| |exact E4]. intros z Hz. unfold inside in Hz. lia.
    + intros _ y c Hy. unfold umb_start_seg in *. eapply free_change_data; [exact HUc|lia|exact Hx|done|exact E4|done].
Qed.

(** C21.  [DOS_AllocateMemory] on a well-formed arena, for every strategy, with or
    without upper memory blocks.  It joins neighbouring free blocks of the low chain
    and visits the chains the strategy asks for.  First fit takes the first free
    block that is large enough, best fit the first of the smallest, last fit the
    last; the block is split, the new block at its start or, for last fit, at its
    end, and owned by the current process.  When none fits, it returns the size of
    the largest free block and the error.  The arena stays well-formed, and no byte of
    an allocated block changes. *)
Theorem allocate_correct fuel blocks d L U :
  arena d L U -> (length L + length U <= fuel)%nat -> 0 <= blocks -> 0 <= allocation_strategy d ->
  let fit := Z.land (allocation_strategy d) 0x3f in
  let v := visited (StartOfUMBChain d =? umb_start_seg) (allocation_strategy d) (firstMCB d) (merge L) U in
  exists d', keeps_allocated d d' L U /\
    match choose fit blocks v with
    | Some (x, b) =>
        let nb := new_blocks fit blocks (psp d) b in
        DOS_AllocateMemory fuel blocks d = ok (true, Some (u16 (new_segment fit blocks x b)), blocks, d') /\
        arena d' (replace_at x nb (firstMCB d) (merge L)) (replace_at x nb umb_start_seg U)
    | None =>
        DOS_AllocateMemory fuel blocks d = ok (false, None, largest_below blocks v, d') /\
        arena d' (merge L) U /\ errorcode d' = DOSERR_INSUFFICIENT_MEMORY
    end.
Proof using Type*.
  intros Ha Hfuel Hbl Hst fit v. destruct (compress_arena fuel d L U Ha ltac:(lia)) as (m1 & E & Ha1 & Hk1).
  unfold DOS_AllocateMemory. rewrite E. cbn [exec_bind]. set (d1 := with_mem m1 d) in *.
  set (name := GetFileName _ _). pose proof (arena_low _ _ _ Ha1) as HL1. pose proof (arena_first _ _ _ Ha1) as Hf1.
  pose proof (merge_length L) as Hml.
  assert ((if StartOfUMBChain d1 =? umb_start_seg then if nz (Z.land (allocation_strategy d1) 192) then StartOfUMBChain d1 else firstMCB d1
    else firstMCB d1) = if (StartOfUMBChain d1 =? umb_start_seg) && nz (Z.land (allocation_strategy d1) 0xc0) then umb_start_seg else firstMCB d1) as ->.
  { destruct (Z.eqb_spec (StartOfUMBChain d1) umb_start_seg) as [->|]; [by destruct (nz _)|done]. }
  rewrite (search_spec name (StartOfUMBChain d1) blocks Hbl fuel (allocation_strategy d1) (merge L) U d1 HL1 Hf1 Hst).
  2: { intros Eu%Z.eqb_eq. by apply (arena_umb _ _ _ Ha1). } 2: lia.
  change (Z.land (allocation_strategy d1) 0x3f) with fit.
  change (visited _ _ _ _ _) with v. destruct (choose fit blocks v) as [[x b]|] eqn:Ec.
  - apply choose_elem in Ec as (Hfree & Hge & Hin). cbn [snd] in *.
    destruct (take_arena name fit blocks x b (largest_below blocks v) d1 (merge L) U Ha1 ltac:(lia) Hfree) as (d' & Ed & Ha' & Hk').
    { unfold v, visited in Hin. change (firstMCB d) with (firstMCB d1) in Hin.
      destruct (Z.eqb_spec (StartOfUMBChain d) umb_start_seg) as [Eu|]; [|by left]. cbn [andb] in Hin.
      destruct (nz (Z.land (allocation_strategy d) 0xc0)); [|by left]. apply elem_of_app in Hin as [Hin | Hin]; [by right|].
      destruct (nz (Z.land (allocation_strategy d) 0x80)); [by left|by apply elem_of_nil in Hin]. }
    exists d'. split; [|by split]. destruct Hk1 as [K1 K2], Hk' as [K3 K4]. split.
    + intros y c Hy. eapply data_kept_trans; [by apply K1|]. apply K3. by rewrite merge_allocated.
    + intros Eu y c Hy. eapply data_kept_trans; [by apply K2|]. by apply K4.
  - cbn [finish]. eexists. split; [|split; [done|split; [|done]]]; [exact Hk1|].
    destruct Ha1 as [A1 A2 A3 A4]. by split.
Qed.
End Arena.
