(* ===== verification/DosResize.v ===== *)
(** * Resizing DOS memory

    [DOS_ResizeMemory] on every branch, and the data that survives it. *)
From S2P Require Import Prelude.
From S2P Require Import GuestMemory.
From S2P Require Import DosMcb.
From S2P Require Import DosMemory.
From S2P Require Import DosChain.
From S2P Require Import DosSearch.
From S2P Require Import DosAlloc.
#[local] Open Scope Z_scope.
#[local] Open Scope exec_scope.
#[local] Open Scope seq_scope.

Section Resizing.
Context {M : Type} `{ByteMemoryLaws M}.
Implicit Types (m : M) (d : Dos M) (s x y : Z) (b c : block) (bs pre post L U : list block).

(** The room for a block: with a free block behind it, both. *)
Definition room b post : Z * list block :=
  match post with
  | c :: rest => if is_free c then (size b + size c + 1, rest) else (size b, post)
  | [] => (size b, [])
  end.

(** Block [b], alone or with a free block behind it, has [avail] paragraphs before
    [rest]. *)
Definition spans b post (avail : Z) rest : Prop :=
  avail = size b /\ rest = post \/ exists c, post = c :: rest /\ is_free c = true /\ avail = size b + size c + 1.
Lemma room_spans b post avail rest : room b post = (avail, rest) -> spans b post avail rest.
Proof using.
  destruct post as [|c post]; cbn; [intros [= <- <-]; by left|].
  destruct (is_free c) eqn:F; intros [= <- <-]; [right; by exists c|by left].
Qed.

(** The memory in which a block and the free one behind it are one block. *)
Lemma join_at m s pre b c post :
  chain m s (pre ++ b :: c :: post) ->
  exists mj, chain mj s (pre ++ mkBlock (owner b) (size b + size c + 1) :: post) /\ frame (eq (chain_end s pre)) m mj.
Proof using Type*.
  intros Hc. destruct (join_step _ _ _ _ _ (chain_at _ _ _ _ _ Hc)) as [Hj Hf]. cbv zeta in *.
  eexists. split; [|exact Hf]. eapply chain_splice_tail; [exact Hc|done|exact Hf|intros y <-; lia|exact Hj].
Qed.
Lemma room_chain m s pre b post avail rest :
  chain m s (pre ++ b :: post) -> spans b post avail rest ->
  exists mj, chain mj s (pre ++ mkBlock (owner b) avail :: rest) /\ frame (eq (chain_end s pre)) m mj.
Proof using Type*.
  intros Hc [[-> ->] | (c & -> & _ & ->)]; [exists m; split; [by destruct b|apply frame_refl]|by apply join_at].
Qed.

(** The run of setters of each branch. *)
Lemma resize_in_place m s pre b post o avail rest m' :
  chain m s (pre ++ b :: post) -> spans b post avail rest -> is_segment o ->
  let x := chain_end s pre in frame (eq x) m m' -> mcb x m' = mkMCB (block_type rest) o avail ->
  chain m' s (pre ++ mkBlock o avail :: rest).
Proof using Type*.
  intros Hc Hr Ho x Hf Hm. destruct (room_chain _ _ _ _ _ _ _ Hc Hr) as (mj & Hj & Hfj).
  apply (retag_chain (eq x) mj m' s pre (mkBlock (owner b) avail) rest o Hj); [|intros y <-|exact Hm].
  - eapply frame_trans; [by apply frame_sym|done].
  - unfold inside, x. destruct (block_segments _ _ _ _ _ Hj) as (_ & Hz & _). unfold is_segment in Hz. cbn in *. lia.
Qed.
Lemma resize_split m s pre b post o blocks avail rest m' :
  chain m s (pre ++ b :: post) -> spans b post avail rest -> is_segment o -> 0 <= blocks < avail ->
  let x := chain_end s pre in let y := x + blocks + 1 in
  frame (fun z => z = x \/ z = y) m m' -> mcb x m' = mkMCB middle_mcb_type o blocks ->
  mcb y m' = mkMCB (block_type rest) 0 (avail - blocks - 1) ->
  chain m' s (pre ++ mkBlock o blocks :: mkBlock 0 (avail - blocks - 1) :: rest).
Proof using Type*.
  intros Hc Hr Ho Hbl x y Hf Hmx Hmy. destruct (room_chain _ _ _ _ _ _ _ Hc Hr) as (mj & Hj & Hfj).
  apply (split_chain (fun z => z = x \/ z = y) mj m' s pre (mkBlock (owner b) avail) rest _ _ Hj); try done; cbn [size]; try lia.
  - eapply frame_trans; [|exact Hf]. apply frame_sym. eapply frame_mono, Hfj. intros z <-. by left.
  - intros z [-> | ->]; unfold inside, y, x; cbn; lia.
Qed.

(** The result of resizing block [b], between [pre] and [post], to [blocks]. *)
Definition resized (o blocks : Z) pre b post : bool * Z * list block :=
  let '(avail, rest) := room b post in
  if blocks =? size b then (true, blocks, pre ++ mkBlock o blocks :: post)
  else if blocks <? size b then (true, blocks, merge (pre ++ mkBlock o blocks :: mkBlock 0 (size b - blocks - 1) :: post))
  else if blocks <? avail then (true, blocks, merge (pre ++ mkBlock o blocks :: mkBlock 0 (avail - blocks - 1) :: rest))
  else (blocks =? avail, avail, pre ++ mkBlock o avail :: rest).

(** *** The allocated blocks around *)
Lemma placed_app s bs cs : placed s (bs ++ cs) = placed s bs ++ placed (chain_end s bs) cs.
Proof using. revert s. induction bs as [|b bs IH]; intros s; cbn; [done|]. by rewrite IH. Qed.
Lemma allocated_app s bs cs : allocated s (bs ++ cs) = allocated s bs ++ allocated (chain_end s bs) cs.
Proof using. unfold allocated. by rewrite placed_app, list.filter_app. Qed.
Definition around s pre x avail rest y (c : block) : Prop := (y, c) ∈ allocated s pre \/ (y, c) ∈ allocated (x + avail + 1) rest.
Lemma others_around s pre b post avail rest y c :
  spans b post avail rest -> (y, c) ∈ allocated s (pre ++ b :: post) -> y <> chain_end s pre ->
  around s pre (chain_end s pre) avail rest y c.
Proof using.
  intros Hr Hy Hne. rewrite allocated_app in Hy. apply elem_of_app in Hy as [Hy | Hy]; [by left|right].
  set (x := chain_end s pre) in *. assert ((y, c) ∈ allocated (x + size b + 1) post) as Hp.
  { rewrite allocated_cons in Hy. destruct (is_free b); [done|]. apply elem_of_cons in Hy as [[= -> _] | Hy]; done. }
  destruct Hr as [[-> ->] | (e & -> & Fe & ->)]; [done|]. rewrite allocated_cons, Fe in Hp.
  by replace (x + (size b + size e + 1) + 1) with (x + size b + 1 + size e + 1) by lia.
Qed.
Lemma around_allocated s pre x avail rest y c nb :
  x = chain_end s pre -> chain_end x nb = x + avail + 1 -> around s pre x avail rest y c -> (y, c) ∈ allocated s (pre ++ nb ++ rest).
Proof using.
  intros -> He [Hy | Hy]; rewrite !allocated_app, !elem_of_app; [by left|right; right]. by rewrite He.
Qed.
(** A change within the room keeps the blocks around. *)
Lemma around_data P mj m m' s pre b avail rest y c :
  chain mj s (pre ++ mkBlock (owner b) avail :: rest) -> 0 <= s -> frame P m m' ->
  let x := chain_end s pre in (forall z, P z -> inside x (mkBlock (owner b) avail) z) -> y <> x ->
  around s pre x avail rest y c -> data_kept m m' y c.
Proof using Type*.
  intros Hc Hs Hf x Hp Hne Hy.
  assert ((y, c) ∈ allocated s (pre ++ [mkBlock (owner b) avail] ++ rest)) as Hin by (eapply around_allocated; [reflexivity|cbn; done|exact Hy]).
  apply list_elem_of_filter in Hin as [_ Hin]. eapply frame_data; [pose proof (placed_range _ _ _ _ _ Hc Hin); lia| |exact Hf].
  intros z Hz. eapply placed_disjoint; [exact Hc|apply placed_split|exact Hin|by apply not_eq_sym|by apply Hp].
Qed.
Lemma data_kept_le m m' x b o n : n <= size b -> data_kept m m' x b -> data_kept m m' x (mkBlock o n).
Proof using. intros Hn Hk a Ha. apply Hk. cbn in Ha. lia. Qed.
End Resizing.

Section Resize.
Context {M : Type} `{ByteMemoryLaws M}.
Implicit Types (m : M) (d : Dos M) (s x y : Z) (b c : block) (bs pre post L U : list block).

(** What a change within the room of block [b] leaves. *)
Record resize_step d U pre b post m' L' (n : Z) : Prop := {
  step_arena : arena (with_mem m' d) L' U;
  step_others : forall y c, (y, c) ∈ allocated (firstMCB d) (pre ++ b :: post) -> y <> chain_end (firstMCB d) pre ->
    data_kept (mem d) m' y c /\ (y, c) ∈ allocated (firstMCB d) L';
  step_self : data_kept (mem d) m' (chain_end (firstMCB d) pre) (mkBlock (owner b) n);
  step_umb : StartOfUMBChain d = umb_start_seg -> forall y c, (y, c) ∈ allocated umb_start_seg U -> data_kept (mem d) m' y c }.

Lemma arena_step (P : Z -> Prop) d U pre b post avail rest m' nb n :
  arena d (pre ++ b :: post) U -> spans b post avail rest ->
  let x := chain_end (firstMCB d) pre in
  chain m' (firstMCB d) (pre ++ nb ++ rest) -> chain_end x nb = x + avail + 1 -> frame P (mem d) m' ->
  (forall z, P z -> inside x (mkBlock (owner b) avail) z /\ ~ (x < z <= x + n)) ->
  resize_step d U pre b post m' (pre ++ nb ++ rest) n.
Proof using Type*.
  intros [HL Hf Hp HU] Hr x Hc' Hend Hfr HP. destruct (room_chain _ _ _ _ _ _ _ HL Hr) as (mj & Hj & Hfj). fold x in Hfj.
  assert (chain_end (firstMCB d) (pre ++ nb ++ rest) = chain_end (firstMCB d) (pre ++ b :: post)) as He.
  { rewrite !chain_end_app. fold x. rewrite Hend. destruct Hr as [[-> ->] | (e & -> & _ & ->)]; [done|]. cbn. f_equal. lia. }
  assert (chain_end (firstMCB d) (pre ++ mkBlock (owner b) avail :: rest) = chain_end (firstMCB d) (pre ++ nb ++ rest)) as Hej.
  { rewrite !chain_end_app. fold x. by rewrite Hend. }
  pose proof (placed_range _ _ _ _ _ Hj (placed_split _ _ _ _)) as [Hx0 Hx1]. fold x in Hx0, Hx1. cbn [size] in Hx1. rewrite Hej, He in Hx1.
  assert (forall z, P z -> firstMCB d <= z < chain_end (firstMCB d) (pre ++ b :: post)) as Hlow.
  { intros z Hz. destruct (HP z Hz) as [Hi _]. unfold inside in Hi. cbn in Hi. lia. }
  split.
  - split; cbn [mem with_mem firstMCB psp StartOfUMBChain]; [done..|]. intros Eu. destruct (HU Eu) as [HUc Hle]. rewrite He.
    split; [|done]. eapply chain_frame; [|exact Hfr|exact HUc]. intros y Hy Hpy%Hlow. pose proof (headers_bound _ _ _ _ HUc Hy). lia.
  - intros y c Hy Hne. pose proof (others_around _ _ _ _ _ _ _ _ Hr Hy Hne) as Ha. split; [|by eapply around_allocated].
    eapply around_data; [exact Hj|lia|exact Hfr| |exact Hne|exact Ha]. intros z Hz. by apply HP.
  - eapply frame_data; [lia| |exact Hfr]. intros z Hz. by apply HP.
  - intros Eu y c Hy. destruct (HU Eu) as [HUc Hle]. apply list_elem_of_filter in Hy as [_ Hy].
    pose proof (placed_range _ _ _ _ _ HUc Hy). unfold umb_start_seg in *. eapply frame_data; [lia| |exact Hfr].
    intros z Hz%Hlow. lia.
Qed.

(** *** The runs of setters of [DOS_ResizeMemory] *)

(** What is behind the block: the conditions the code tests. *)
Lemma next_cases m s pre b post :
  chain m s (pre ++ b :: post) -> let x := chain_end s pre in let n := u16 (x + 1 + size b) in
  match post with
  | [] => GetType x m = ending_mcb_type
  | c :: rest => GetType x m = middle_mcb_type /\ GetPSPSeg n m = owner c /\ GetSize n m = size c /\ GetType n m = block_type rest /\
      is_segment n /\ n = x + size b + 1
  end.
Proof using Type*.
  intros Hc x n. apply chain_at in Hc. pose proof (chain_head _ _ _ _ Hc) as (_ & Ht & _). destruct post as [|c rest]; [done|].
  split; [done|]. pose proof (chain_next _ _ _ _ _ Hc) as Hn. fold x in Hn.
  assert (n = x + size b + 1) as En by (unfold n; replace (x + 1 + size b) with (x + size b + 1) by lia; done).
  apply chain_tail in Hc. fold x in Hc. rewrite <- En in Hc. pose proof (chain_head _ _ _ _ Hc) as (Hs & H1 & H2 & H3). done.
Qed.

(** Shrinking. *)
Lemma shrink_step d U pre b post blocks :
  arena d (pre ++ b :: post) U -> 0 <= blocks < size b ->
  let x := chain_end (firstMCB d) pre in let y := u16 (x + 1 + blocks) in
  let m := SetSize x blocks (mem d) in
  let m := SetType y (GetType x m) m in
  let m := if GetType x m =? ending_mcb_type then SetType x middle_mcb_type m else m in
  let m := SetSize y (size b - blocks - 1) m in
  let m := SetPSPSeg y MCB_FREE m in
  let m' := SetPSPSeg x (psp d) m in
  resize_step d U pre b post m' (pre ++ mkBlock (psp d) blocks :: mkBlock 0 (size b - blocks - 1) :: post) blocks.
Proof using Type*.
  intros Ha Hbl x y m1 m2 m3 m4 m5 m'. pose proof (arena_psp _ _ _ Ha) as Hp. pose proof (arena_low _ _ _ Ha) as Hc.
  destruct (block_segments _ _ _ _ _ Hc) as (Hm & Hz & _ & H0x & Hend & Hseg). fold x in Hm, H0x, Hend, Hseg. unfold is_segment in Hz, Hp.
  assert (y = x + blocks + 1) as Ey by (unfold y; rewrite u16_small; lia). clearbody y.
  assert (is_segment x) as Hx by (apply Hseg; unfold inside; lia). assert (is_segment y) as Hy by (apply Hseg; unfold inside; lia).
  assert (x <> y) as Hne by lia.
  assert (GetType x m1 = block_type post) as T1 by (unfold m1; rewrite GetType_mcb; mcb_eval; by rewrite Hm).
  assert (GetType x m2 = block_type post) as T2 by (unfold m2; rewrite GetType_mcb; mcb_eval; exact T1).
  assert (frame (fun z => z = x \/ z = y) (mem d) m') as Hf.
  { unfold m', m5, m4, m3. destruct (GetType x m2 =? ending_mcb_type); unfold m2, m1; frame_run; auto. }
  assert (mcb x m' = mkMCB middle_mcb_type (psp d) blocks) as Mx.
  { unfold m', m5, m4, m3. rewrite T2. destruct post; cbn; unfold m2, m1; mcb_eval; rewrite ?Hm; cbn [mcb_type block_type];
      by rewrite (u16_small blocks), (u16_small (psp d)) by lia. }
  assert (mcb y m' = mkMCB (block_type post) 0 (size b - blocks - 1)) as My.
  { unfold m', m5, m4, m3. rewrite T2. assert (mcb_type (mcb y m2) = block_type post) as Hty by (unfold m2; mcb_eval; rewrite T1; apply u8_block_type).
    destruct post; cbn; mcb_eval; rewrite Hty; by rewrite (u16_small (size b - blocks - 1)) by lia. }
  assert (spans b post (size b) post) as Hsp by by left.
  apply (arena_step (fun z => z = x \/ z = y) d U pre b post (size b) post m' [_; _]); [done|done| |cbn; fold x; lia|done|].
  - subst y. eapply resize_split; [exact Hc|exact Hsp|done|lia|exact Hf|exact Mx|exact My].
  - fold x. intros z [-> | ->]; unfold inside; cbn; lia.
Qed.

(** Growing over part of the free block behind. *)
Lemma grow_step d U pre b c rest blocks :
  arena d (pre ++ b :: c :: rest) U -> is_free c = true -> let avail := size b + size c + 1 in size b < blocks < avail -> 0 <= size b ->
  let x := chain_end (firstMCB d) pre in let n := u16 (x + 1 + size b) in let y := u16 (x + 1 + blocks) in
  let m := SetType x (GetType n (mem d)) (mem d) in
  let m := SetSize x blocks m in
  let m := SetSize y (avail - blocks - 1) m in
  let m := SetType y (GetType x m) m in
  let m := SetPSPSeg y MCB_FREE m in
  let m := SetType x middle_mcb_type m in
  let m' := SetPSPSeg x (psp d) m in
  resize_step d U pre b (c :: rest) m' (pre ++ mkBlock (psp d) blocks :: mkBlock 0 (avail - blocks - 1) :: rest) (size b).
Proof using Type*.
  intros Ha Fc avail Hbl Hb0 x n y m1 m2 m3 m4 m5 m6 m'. pose proof (arena_psp _ _ _ Ha) as Hp. pose proof (arena_low _ _ _ Ha) as Hc.
  pose proof (next_cases _ _ _ _ _ Hc) as (_ & _ & _ & Hnt & Hns & _). fold x n in Hnt, Hns.
  assert (spans b (c :: rest) avail rest) as Hsp by (right; by exists c).
  destruct (room_chain _ _ _ _ _ _ _ Hc Hsp) as (mj & Hj & Hfj).
  destruct (block_segments _ _ _ _ _ Hj) as (_ & Hz & _ & H0x & Hend & Hseg). fold x in H0x, Hend, Hseg. cbn [size] in *. unfold is_segment in Hz, Hp.
  assert (y = x + blocks + 1) as Ey by (unfold y; rewrite u16_small; lia). clearbody y.
  assert (is_segment x) as Hx by (apply Hseg; unfold inside; cbn; lia). assert (is_segment y) as Hy by (apply Hseg; unfold inside; cbn; lia).
  assert (x <> y) as Hne by lia.
  assert (GetType x m3 = block_type rest) as T3 by (unfold m3, m2, m1; rewrite GetType_mcb; mcb_eval; rewrite Hnt; apply u8_block_type).
  assert (frame (fun z => z = x \/ z = y) (mem d) m') as Hf.
  { unfold m', m6, m5, m4, m3, m2, m1; frame_run; auto. }
  assert (mcb x m' = mkMCB middle_mcb_type (psp d) blocks) as Mx.
  { unfold m', m6, m5, m4. mcb_eval. unfold m3, m2. mcb_eval. by rewrite (u16_small blocks), (u16_small (psp d)) by lia. }
  assert (mcb y m' = mkMCB (block_type rest) 0 (avail - blocks - 1)) as My.
  { unfold m', m6, m5, m4. rewrite T3. mcb_eval. unfold m3. mcb_eval. by rewrite u8_block_type, (u16_small (avail - blocks - 1)) by lia. }
  apply (arena_step (fun z => z = x \/ z = y) d U pre b (c :: rest) avail rest m' [_; _]); [done|done| |cbn; fold x; lia|done|].
  - subst y. eapply resize_split; [exact Hc|exact Hsp|done|lia|exact Hf|exact Mx|exact My].
  - fold x. intros z [-> | ->]; unfold inside; cbn; lia.
Qed.

(** Keeping the block, with all the room that is asked for and there is: the runs of
    the unchanged size, of the exact fit and of the failure. *)
Lemma fill_step d U pre b post avail rest m' :
  arena d (pre ++ b :: post) U -> spans b post avail rest -> let x := chain_end (firstMCB d) pre in
  frame (eq x) (mem d) m' -> mcb x m' = mkMCB (block_type rest) (psp d) avail ->
  resize_step d U pre b post m' (pre ++ mkBlock (psp d) avail :: rest) avail.
Proof using Type*.
  intros Ha Hsp x Hf Hm. pose proof (arena_low _ _ _ Ha) as Hc. pose proof (arena_psp _ _ _ Ha) as Hp.
  destruct (room_chain _ _ _ _ _ _ _ Hc Hsp) as (mj & Hj & Hfj).
  destruct (block_segments _ _ _ _ _ Hj) as (_ & Hz & _). cbn [size] in Hz. unfold is_segment in Hz.
  apply (arena_step (eq x) d U pre b post avail rest m' [_]); [done|done| |cbn; fold x; lia|done|].
  - eapply resize_in_place; [exact Hc|exact Hsp|exact Hp|exact Hf|exact Hm].
  - fold x. intros z <-. unfold inside. cbn. lia.
Qed.

(** The last run of the code, for an exact fit or a failure. *)
Lemma fill_run d U pre b post avail rest blocks mt :
  arena d (pre ++ b :: post) U -> spans b post avail rest -> let x := chain_end (firstMCB d) pre in
  frame (eq x) (mem d) mt -> mcb x (SetPSPSeg x (psp d) (SetSize x avail mt)) = mkMCB (block_type rest) (psp d) avail ->
  exists m', resize_step d U pre b post m' (pre ++ mkBlock (psp d) avail :: rest) (size b) /\
    (let m := SetPSPSeg x (psp d) (SetSize x avail mt) in
     if blocks =? avail then ok (true, blocks, with_mem (SetPSPSeg x (psp d) m) d)
     else ok (false, avail, DOS_SetError DOSERR_INSUFFICIENT_MEMORY (with_mem m d))) =
    ok (blocks =? avail, avail, if blocks =? avail then with_mem m' d else DOS_SetError DOSERR_INSUFFICIENT_MEMORY (with_mem m' d)).
Proof using Type*.
  intros Ha Hsp x Hfr Hmx. pose proof (arena_low _ _ _ Ha) as Hc.
  assert (is_segment x) as Hxs by (destruct (block_segments _ _ _ _ _ Hc) as (_ & Hz & _ & _ & _ & Hseg); apply Hseg; unfold inside, is_segment in *; lia).
  assert (size b <= avail) as Hsb.
  { destruct Hsp as [[-> _] | (c & -> & _ & ->)]; [lia|]. apply chain_at, chain_tail, chain_size in Hc as [_ Hzc].
    unfold is_segment in Hzc. lia. }
  assert (forall m', frame (eq x) (mem d) m' -> mcb x m' = mkMCB (block_type rest) (psp d) avail ->
    resize_step d U pre b post m' (pre ++ mkBlock (psp d) avail :: rest) (size b)) as Hstep.
  { intros m' Hf' Hm'. destruct (fill_step d U pre b post avail rest m' Ha Hsp Hf' Hm') as [S1 S2 S3 S4]. split; try done.
    by apply (data_kept_le _ _ _ (mkBlock (owner b) avail)). }
  destruct (Z.eqb_spec blocks avail) as [->|]; (eexists; split; [|done]); apply Hstep.
  - by frame_run.
  - mcb_eval. rewrite mcb_SetPSPSeg, Z.eqb_refl, mcb_SetSize, Z.eqb_refl in Hmx by done. exact Hmx.
  - by frame_run.
  - exact Hmx.
Qed.

(** After a run, [DOS_ResizeMemory] compacts where it has made a free block. *)
Lemma after_step fuel d U pre b post m' L' n k :
  resize_step d U pre b post m' L' n -> (length L' <= fuel)%nat -> n <= k ->
  (chain_end (firstMCB d) pre, mkBlock (psp d) k) ∈ allocated (firstMCB d) L' ->
  exists m'', DOS_CompressMemory fuel (with_mem m' d) = ok (with_mem m'' d) /\ resize_step d U pre b post m'' (merge L') n.
Proof using Type*.
  intros [Ha Ho Hs Hu] Hf Hnk Hin. destruct (compress_arena fuel _ _ _ Ha Hf) as (m'' & E & Ha' & K1 & K2).
  cbn [mem with_mem firstMCB StartOfUMBChain] in *. exists m''. rewrite with_mem_twice in *. split; [done|]. split.
  - done.
  - intros y c Hy Hne. destruct (Ho y c Hy Hne) as [Hk Hin']. split; [|by rewrite merge_allocated].
    eapply data_kept_trans; [exact Hk|by apply K1].
  - eapply data_kept_trans; [exact Hs|]. apply (data_kept_le _ _ _ (mkBlock (psp d) k)); [done|by apply K1].
  - intros Eu y c Hy. eapply data_kept_trans; [by apply Hu|by apply K2].
Qed.

Lemma resized_allocated s pre o n tl : o <> 0 -> (chain_end s pre, mkBlock o n) ∈ allocated s (pre ++ mkBlock o n :: tl).
Proof using. intros Ho. apply list_elem_of_filter. split; [by apply Z.eqb_neq|apply placed_split]. Qed.

(** The operation, from the state after the first compaction. *)
Lemma resize_compacted fuel d0 d U pre b post blocks :
  arena d (pre ++ b :: post) U -> let x := chain_end (firstMCB d) pre in
  x < 65535 -> psp d <> 0 -> 0 <= blocks -> (length (pre ++ b :: post) < fuel)%nat ->
  mcb_type_is_valid (GetType x (mem d0)) = true -> DOS_CompressMemory fuel d0 = ok d ->
  let '(success, size', L') := resized (psp d) blocks pre b post in
  exists m', resize_step d U pre b post m' L' (Z.min blocks (size b)) /\
    DOS_ResizeMemory fuel (x + 1) blocks d0 =
    ok (success, size', if success then with_mem m' d else DOS_SetError DOSERR_INSUFFICIENT_MEMORY (with_mem m' d)).
Proof using Type*.
  intros Ha x Hx Hpsp Hbl Hfuel Hval Hcomp. pose proof (arena_low _ _ _ Ha) as Hc. pose proof (arena_psp _ _ _ Ha) as Hp.
  destruct (block_segments _ _ _ _ _ Hc) as (Hm & Hz & _ & H0x & Hend & Hseg). fold x in Hm, H0x, Hend, Hseg. unfold is_segment in Hz, Hp.
  assert (is_segment x) as Hxs by (apply Hseg; unfold inside; lia).
  unfold DOS_ResizeMemory. replace (u16 (x + 1 - 1)) with x by (rewrite u16_small; lia).
  unfold mcb_type_is_valid in Hval. rewrite <- negb_orb, Hval. cbn [negb]. rewrite Hcomp. cbn [exec_bind].
  assert (GetSize x (mem d) = size b) as Hsz by (rewrite GetSize_mcb; by rewrite Hm).
  pose proof (next_cases _ _ _ _ _ Hc) as Hnext. fold x in Hnext. cbv zeta in Hnext.
  rewrite Hsz. unfold resized. destruct (room b post) as [avail rest] eqn:Hr. pose proof (room_spans _ _ _ _ Hr) as Hsp.
  rewrite length_app in Hfuel. cbn [length] in Hfuel.
  destruct (Z.eqb_spec blocks (size b)) as [->|Hne].
  { rewrite Z.leb_refl, Z.min_id. eexists. split; [|done]. apply (fill_step d U pre b post (size b) post); [done|by left|by apply frame_SetPSPSeg|].
    mcb_eval. fold x. rewrite Hm. cbn. by rewrite u16_small. }
  destruct (Z.ltb_spec blocks (size b)) as [Hlt|Hge].
  { rewrite (proj2 (Z.leb_le _ _)) by lia. rewrite Z.min_l by lia.
    pose proof (shrink_step d U pre b post blocks Ha ltac:(lia)) as Hs. fold x in Hs. cbv zeta in Hs.
    destruct (after_step fuel _ _ _ _ _ _ _ _ blocks Hs) as (m'' & E & Hs'); [rewrite length_app; cbn; lia|lia|by apply resized_allocated|].
    exists m''. split; [done|]. rewrite E. done. }
  rewrite (proj2 (Z.leb_gt _ _)) by lia. rewrite Z.min_r by lia.
  set (n := u16 (x + 1 + size b)) in *.
  pose proof (fun mt => fill_run d U pre b post avail rest blocks mt Ha Hsp) as Hfill. fold x in Hfill. cbv zeta in Hfill.
  destruct post as [|c post]; cbn [room] in Hr.
  - injection Hr as <- <-. rewrite Hnext. cbn [negb Z.eqb]. rewrite Z.eqb_refl. cbn [negb].
    rewrite (proj2 (Z.ltb_ge blocks (size b))) by lia. rewrite andb_false_r. apply Hfill; [apply frame_refl|].
    mcb_eval. rewrite Hm. cbn. by rewrite (u16_small (size b)), (u16_small (psp d)) by lia.
  - destruct Hnext as (Tx & Pn & Sn & Tn & Hns & Hn). rewrite Tx. change (negb (middle_mcb_type =? ending_mcb_type)) with true.
    rewrite andb_true_r. cbn [negb]. rewrite Pn, is_free_owner. pose proof (chain_at _ _ _ _ _ Hc) as Hx'.
    pose proof (chain_size _ _ _ _ (chain_tail _ _ _ _ _ Hx')) as [_ Hzc]. unfold is_segment in Hzc.
    destruct (is_free c) eqn:Fc; injection Hr as <- <-.
    2: { rewrite (proj2 (Z.ltb_ge blocks (size b))) by lia. apply Hfill; [apply frame_refl|].
         mcb_eval. rewrite Hm. cbn. by rewrite (u16_small (size b)), (u16_small (psp d)) by lia. }
    destruct (room_chain _ _ _ _ _ _ _ Hc Hsp) as (mj & Hj & _).
    destruct (block_segments _ _ _ _ _ Hj) as (_ & Hzj & _). cbn [size] in Hzj. unfold is_segment in Hzj.
    rewrite Sn, (u16_small (size b + size c + 1)) by lia.
    destruct (Z.ltb_spec blocks (size b + size c + 1)) as [Hlt|Hle].
    + pose proof (grow_step d U pre b c post blocks Ha Fc ltac:(lia) ltac:(lia)) as Hs. fold x n in Hs. cbv zeta in Hs.
      destruct (after_step fuel _ _ _ _ _ _ _ _ blocks Hs) as (m'' & E & Hs'); [rewrite length_app; cbn in *; lia|lia|by apply resized_allocated|].
      exists m''. split; [done|]. unfold n. rewrite E. done.
    + apply Hfill; [by apply frame_SetType|]. mcb_eval. rewrite Tn, u8_block_type.
      by rewrite (u16_small (size b + size c + 1)), (u16_small (psp d)) by lia.
Qed.

(** C22.  [DOS_ResizeMemory] of an allocated block, on a well-formed arena, after
    joining neighbouring free blocks: the same size only makes the current process
    the owner; a smaller one splits the rest off as a free block; a larger one takes
    from the free block behind, all of it on an exact fit; when that is not enough the
    block takes all there is and the call fails with its size.  The arena stays
    well-formed; the block keeps its data up to the smaller size, and every other
    allocated block keeps all of it. *)
Theorem resize_correct fuel d L U x b blocks :
  arena d L U -> (x, b) ∈ allocated (firstMCB d) L -> x < 65535 -> psp d <> 0 -> 0 <= blocks -> (length L < fuel)%nat ->
  exists pre post, merge L = pre ++ b :: post /\ x = chain_end (firstMCB d) pre /\
    let '(success, size', L') := resized (psp d) blocks pre b post in
    exists d', DOS_ResizeMemory fuel (x + 1) blocks d = ok (success, size', d') /\ arena d' L' U /\
      (success = false -> errorcode d' = DOSERR_INSUFFICIENT_MEMORY) /\
      data_kept (mem d) (mem d') x (mkBlock (owner b) (Z.min blocks (size b))) /\
      (forall y c, (y, c) ∈ allocated (firstMCB d) L -> y <> x -> data_kept (mem d) (mem d') y c) /\
      (StartOfUMBChain d = umb_start_seg -> forall y c, (y, c) ∈ allocated umb_start_seg U -> data_kept (mem d) (mem d') y c).
Proof using Type*.
  intros Ha Hx Hxs Hpsp Hbl Hfuel. destruct (compress_arena fuel d L U Ha ltac:(lia)) as (m1 & E & Ha1 & K1 & K2).
  pose proof Hx as Hxm. rewrite <- merge_allocated in Hxm. pose proof Hxm as Hxp. apply list_elem_of_filter in Hxp as [Hnf Hxp]. cbn in Hnf.
  destruct (placed_find _ _ _ _ Hxp) as (pre & post & Em & Ex). exists pre, post. split; [done|]. split; [done|].
  assert (mcb_type_is_valid (GetType x (mem d)) = true) as Hval.
  { pose proof Hx as Hx0. apply list_elem_of_filter in Hx0 as [_ Hx0]. destruct (placed_find _ _ _ _ Hx0) as (pre0 & post0 & E0 & ->).
    pose proof (arena_low _ _ _ Ha) as Hc0. rewrite E0 in Hc0. apply chain_at, chain_head in Hc0 as (_ & -> & _). by destruct post0. }
  rewrite Em in Ha1. pose proof (merge_length L) as Hml. rewrite Em in Hml.
  pose proof (resize_compacted fuel d (with_mem m1 d) U pre b post blocks Ha1) as Hr. cbv zeta in Hr. cbn [firstMCB psp with_mem] in Hr.
  rewrite <- Ex in Hr. specialize (Hr Hxs Hpsp Hbl ltac:(lia) Hval E).
  destruct (resized (psp d) blocks pre b post) as [[success size'] L']. destruct Hr as (m' & [S1 S2 S3 S4] & ->).
  cbn [mem with_mem firstMCB StartOfUMBChain] in *. eexists. split; [done|]. rewrite <- Ex in *. split; [|split; [|split; [|split]]].
  - destruct success; [done|]. destruct S1 as [A1 A2 A3 A4]. by split.
  - by destruct success.
  - destruct success; (eapply data_kept_trans; [|exact S3]); (apply (data_kept_le _ _ _ b); [lia|by apply K1]).
  - intros y c Hy Hne. assert ((y, c) ∈ allocated (firstMCB d) (pre ++ b :: post)) as Hy' by (rewrite <- Em; by rewrite merge_allocated).
    destruct (S2 y c Hy' Hne) as [Hk _]. destruct success; (eapply data_kept_trans; [by apply K1|exact Hk]).
  - intros Eu y c Hy. specialize (S4 Eu y c Hy). destruct success; (eapply data_kept_trans; [by apply K2|exact S4]).
Qed.
End Resize.
