(* ===== verification/DosFree.v ===== *)
(** * Freeing DOS memory, the upper memory blocks, and the chain at start-up

    [DOS_FreeProcessMemory], [DOS_LinkUMBsToMemChain], [DOS_SetupMemory], and what
    compaction does with a corrupt chain; with the concrete arena the witnesses of
    the allocator's theorems use. *)
From S2P Require Import Prelude.
From S2P Require Import GuestMemory.
From S2P Require Import GuestMemoryProofs.
From S2P Require Import DosMcb.
From S2P Require Import DosMemory.
From S2P Require Import DosChain.
From S2P Require Import DosSearch.
From S2P Require Import DosAlloc.
From S2P Require Import DosResize.
#[local] Open Scope Z_scope.
#[local] Open Scope exec_scope.
#[local] Open Scope seq_scope.

(** ** Freeing *)
Definition release (o : Z) (bs : list block) : list block := map (fun b => if owner b =? o then mkBlock 0 (size b) else b) bs.
Lemma release_end o s bs : chain_end s (release o bs) = chain_end s bs.
Proof. revert s. induction bs as [|b bs IH]; intros s; [done|]. cbn. rewrite IH. by destruct (owner b =? o). Qed.
Lemma release_length o bs : length (release o bs) = length bs.
Proof. apply length_map. Qed.
Lemma release_allocated o s bs x b : (x, b) ∈ allocated s bs -> owner b <> o -> (x, b) ∈ allocated s (release o bs).
Proof.
  revert s. induction bs as [|c bs IH]; intros s Hx Hne; [done|]. cbn [release map]. fold (release o bs).
  rewrite allocated_cons in Hx |- *. destruct (Z.eqb_spec (owner c) o) as [E|].
  - change (is_free (mkBlock 0 (size c))) with true. cbn [size]. apply IH; [|done].
    destruct (is_free c); [done|]. apply elem_of_cons in Hx as [[= _ ->] | Hx]; [done|exact Hx].
  - destruct (is_free c); [by apply IH|]. apply elem_of_cons in Hx as [[= -> ->] | Hx]; [left|right; by apply IH].
Qed.

Section Freeing.
Context {M : Type} `{ByteMemoryLaws M}.
Implicit Types (m : M) (d : Dos M) (s : Z) (b : block) (bs L U : list block).

Lemma FreeProcess_loop_spec fuel o s f b bs d :
  chain (mem d) s (b :: bs) -> (length bs < fuel)%nat -> f < max_allowed_faults ->
  exists m', FreeProcess_loop fuel o s f d = ok (with_mem m' d) /\ chain m' s (release o (b :: bs)) /\
    frame (fun x => x ∈ headers s (b :: bs)) (mem d) m'.
Proof using Type*.
  revert fuel s b d. induction bs as [|c bs IH]; intros fuel s b d Hc Hfuel Hf; (destruct fuel as [|fuel]; [lia|]);
    cbn [FreeProcess_loop]; rewrite (proj2 (Z.ltb_lt _ _) Hf); pose proof (chain_head _ _ _ _ Hc) as (Hs & Ht & Ho & Hz);
    pose proof (chain_size _ _ _ _ Hc) as [Hob Hzb]; unfold is_segment in Hob, Hzb.
  all: set (d1 := if GetPSPSeg s (mem d) =? o then with_mem (SetPSPSeg s MCB_FREE (mem d)) d else d).
  all: assert (d1 = with_mem (mem d1) d) as Ed by (unfold d1; destruct (_ =? o); [done|by rewrite with_mem_id]).
  all: assert (frame (eq s) (mem d) (mem d1)) as Hfr by (unfold d1; destruct (_ =? o); [by apply frame_SetPSPSeg|apply frame_refl]).
  all: assert (forall tl, mcb s (mem d) = mkMCB (block_type tl) (owner b) (size b) ->
    mcb s (mem d1) = mkMCB (block_type tl) (if owner b =? o then 0 else owner b) (size b)) as Hm1
    by (intros tl Hm; unfold d1; rewrite Ho; destruct (owner b =? o); [cbn; mcb_eval; by rewrite Hm|done]).
  - pose proof (Hm1 [] (proj1 (proj2 Hc))) as Hm. assert (GetType s (mem d1) = ending_mcb_type) as -> by (rewrite GetType_mcb; by rewrite Hm).
    rewrite Z.eqb_refl. exists (mem d1). rewrite <- Ed. split; [done|]. split.
    + cbn [release map]. destruct (owner b =? o); (apply chain_cons; [done|exact Hm|]; cbn; apply Hc).
    + eapply frame_mono, Hfr. intros x <-. left.
  - pose proof (Hm1 (c :: bs) (proj1 (proj2 Hc))) as Hm. assert (GetType s (mem d1) = middle_mcb_type) as Ht1 by (rewrite GetType_mcb; by rewrite Hm).
    rewrite Ht1. change (middle_mcb_type =? ending_mcb_type) with false. cbn iota. unfold triage_block. rewrite Ht1.
    change (mcb_type_is_valid middle_mcb_type) with true. cbn iota. cbn [exec_bind b2z].
    assert (GetSize s (mem d1) = size b) as -> by (rewrite GetSize_mcb; by rewrite Hm).
    rewrite (chain_next _ _ _ _ _ Hc), Z.add_0_r.
    pose proof (chain_rest_frame _ _ _ _ _ Hc Hfr) as Hc1. cbn iota in Hc1.
    destruct (IH fuel (s + size b + 1) c d1 Hc1) as (m' & E & Hc' & Hf'); [cbn in Hfuel; lia|done|].
    exists m'. rewrite E. split; [by rewrite Ed|]. split.
    + assert (~ s ∈ headers (s + size b + 1) (c :: bs)) as Hn.
      { intros Hx. pose proof (headers_bound _ _ _ _ Hc1 Hx). lia. }
      cbn [release map] in *. destruct (owner b =? o);
        (apply chain_cons; [done|rewrite (mcb_frame _ _ _ _ Hs Hn Hf'); exact Hm|exact Hc']).
    + eapply frame_trans; [eapply frame_mono, Hfr; intros x <-; left|]. eapply frame_mono, Hf'. intros x Hx. by right.
Qed.

(** [DOS_FreeProcessMemory] on a well-formed arena frees every block of the
    process in both chains, low and upper, joins neighbouring free blocks of the low
    chain, and leaves the arena well-formed and the data of all other allocated
    blocks as it was. *)
Theorem free_process_correct fuel o d L U :
  arena d L U -> (length L + length U <= fuel)%nat ->
  exists d', DOS_FreeProcessMemory fuel o d = ok d' /\ arena d' (merge (release o L)) (release o U) /\
    (forall x b, owner b <> o -> (x, b) ∈ allocated (firstMCB d) L -> data_kept (mem d) (mem d') x b) /\
    (StartOfUMBChain d = umb_start_seg -> forall x b, owner b <> o -> (x, b) ∈ allocated umb_start_seg U ->
      data_kept (mem d) (mem d') x b).
Proof using Type*.
  intros [HL Hf Hp HU] Hfuel. unfold DOS_FreeProcessMemory. destruct L as [|b L]; [done|].
  destruct (FreeProcess_loop_spec fuel o (firstMCB d) 0 b L d HL) as (m1 & E1 & Hc1 & Hf1); [cbn in Hfuel; lia|done|].
  rewrite E1. cbn [exec_bind with_mem StartOfUMBChain].
  assert (exists m2, (if StartOfUMBChain d =? umb_start_seg
      then FreeProcess_loop fuel o (StartOfUMBChain d) 0 (with_mem m1 d) else ok (with_mem m1 d)) = ok (with_mem m2 d) /\
    arena (with_mem m2 d) (release o (b :: L)) (release o U) /\
    (forall x c, (x, c) ∈ allocated (firstMCB d) (b :: L) -> data_kept (mem d) m2 x c) /\
    (StartOfUMBChain d = umb_start_seg -> forall x c, (x, c) ∈ allocated umb_start_seg U -> data_kept (mem d) m2 x c)) as
    (m2 & -> & Ha2 & K1 & K2).
  { pose proof (compress_data _ _ _ _ HL ltac:(lia) Hf1) as Kl.
    destruct (Z.eqb_spec (StartOfUMBChain d) umb_start_seg) as [Eu|Eu].
    2: { exists m1. split; [done|]. split; [|split; [exact Kl|done]]. split; [exact Hc1|done|done|]. intros; done. }
    destruct (HU Eu) as [HUc Hend]. assert (chain m1 umb_start_seg U) as HU1.
    { eapply chain_frame; [|exact Hf1|exact HUc]. intros x Hx Hx'. pose proof (headers_bound _ _ _ _ HUc Hx).
      pose proof (headers_bound _ _ _ _ HL Hx'). lia. }
    rewrite Eu. destruct U as [|c U]; [done|].
    destruct (FreeProcess_loop_spec fuel o umb_start_seg 0 c U (with_mem m1 d) HU1) as (m2 & E2 & Hc2 & Hf2); [cbn in Hfuel; lia|done|].
    cbn [mem with_mem] in Hf2. exists m2. rewrite E2. split; [done|]. split; [|split].
    - split; cbn [mem with_mem firstMCB psp StartOfUMBChain]; [|done|done|intros _; rewrite release_end; by split].
      eapply chain_frame; [|exact Hf2|exact Hc1]. intros x Hx Hx'. pose proof (headers_bound _ _ _ _ Hc1 Hx) as Hb.
      rewrite release_end in Hb. pose proof (headers_bound _ _ _ _ HU1 Hx'). lia.
    - intros x e Hx. eapply data_kept_trans; [by apply Kl|]. apply list_elem_of_filter in Hx as [_ Hx].
      pose proof (placed_range _ _ _ _ _ HL Hx). eapply frame_data; [lia| |exact Hf2]. intros z Hz.
      pose proof (headers_bound _ _ _ _ HU1 Hz). lia.
    - intros _ x e Hx. eapply data_kept_trans; [|by eapply compress_data; [exact HU1|done|exact Hf2|]].
      apply list_elem_of_filter in Hx as [_ Hx]. pose proof (placed_range _ _ _ _ _ HUc Hx). unfold umb_start_seg in *.
      eapply frame_data; [lia| |exact Hf1]. intros z Hz. pose proof (headers_bound _ _ _ _ HL Hz). lia. }
  cbn [exec_bind]. destruct (compress_arena fuel _ _ _ Ha2) as (m3 & E3 & Ha3 & K3 & K4); [rewrite release_length; cbn in *; lia|].
  rewrite E3. eexists. split; [done|]. split; [exact Ha3|]. cbn [mem with_mem firstMCB StartOfUMBChain] in *. split.
  - intros x c Hne Hx. eapply data_kept_trans; [by apply K1|]. apply K3. by apply release_allocated.
  - intros Eu x c Hne Hx. eapply data_kept_trans; [by apply K2|]. apply K4; [done|]. by apply release_allocated.
Qed.
End Freeing.

(** ** The chain at start-up *)
Section Setup.
Context {M : Type} `{ByteMemoryLaws M}.
Implicit Types (m : M) (d : Dos M) (s : Z) (b : block) (bs pre post L U : list block).

Lemma mcb_put s s' o n t m : is_segment s -> is_segment s' ->
  mcb s (put_mcb s' o n t m) = if s' =? s then mkMCB (u8 t) (u16 o) (u16 n) else mcb s m.
Proof using Type*.
  intros Hs Hs'. unfold put_mcb. rewrite mcb_SetType, mcb_SetSize, mcb_SetPSPSeg by done. by destruct (s' =? s).
Qed.
Lemma mcb_put_free s s' n m : is_segment s -> is_segment s' ->
  mcb s (put_free_block s' n m) = if s' =? s then mkMCB ending_mcb_type 0 (u16 n) else mcb s m.
Proof using Type*.
  intros Hs Hs'. unfold put_free_block. rewrite mcb_SetSize, mcb_SetType, mcb_SetPSPSeg by done. by destruct (s' =? s).
Qed.

(** The blocks: the device dummy, a small free block, its lock, and the memory for
    programs. *)
Definition boot_blocks (hw : machine) (expanded : bool) : list block :=
  [mkBlock 8 1; mkBlock 0 4; mkBlock 0x40 16] ++
  match hw with
  | Tandy => [mkBlock 0 0x9a78]
  | PCjr => if expanded then [mkBlock 8 0x2278; mkBlock 0 0x7bfe] else [mkBlock 0 0x1678]
  | Other => [mkBlock 0 0x9e77]
  end.
(** The segment behind the memory that DOS manages. *)
Definition memory_end (hw : machine) (expanded : bool) : Z :=
  match hw with Tandy => 0x9c00 | PCjr => if expanded then 0x9fff else 0x1800 | Other => 0x9fff end.

Lemma setup_chain hw expanded d :
  chain (mem (DOS_SetupMemory hw expanded d)) DOS_MEM_START (boot_blocks hw expanded).
Proof using Type*.
  unfold DOS_SetupMemory. cbn [mem with_mem with_first]. set (m0 := RealSetVec 15 _ _). clearbody m0.
  destruct hw; [|destruct expanded|]; cbn;
    repeat (split; [unfold is_segment, DOS_MEM_START; lia|split; [|try (unfold DOS_MEM_START; lia)]]);
    repeat first [rewrite mcb_put_free by (split; vm_compute; first [reflexivity|discriminate])
                 |rewrite mcb_put by (split; vm_compute; first [reflexivity|discriminate])]; reflexivity.
Qed.

(** After [DOS_SetupMemory], whatever was in memory, the chain is well-formed on
    every machine: the system's blocks and then free memory up to 0x9fff, the segment
    of the upper memory chain; up to 0x9c00 (624K) on the Tandy; and up to the video
    memory at 96K on a PCjr without expanded memory. *)
Theorem setup_arena hw expanded d :
  is_segment (psp d) -> StartOfUMBChain d <> umb_start_seg ->
  let d' := DOS_SetupMemory hw expanded d in
  arena d' (boot_blocks hw expanded) [] /\ chain_end (firstMCB d') (boot_blocks hw expanded) = memory_end hw expanded.
Proof using Type*.
  intros Hp Hu d'. split; [|by destruct hw; [|destruct expanded|]].
  split; [apply setup_chain|done|done|done].
Qed.

(** ** Upper memory blocks *)
Lemma last_block_spec fuel m s pre b :
  chain m s (pre ++ [b]) -> (length pre < fuel)%nat -> last_block fuel s m = ok (chain_end s pre).
Proof using Type*.
  revert fuel s. induction pre as [|c pre IH]; intros fuel s Hc Hf; (destruct fuel as [|fuel]; [lia|]); cbn [last_block app] in *;
    pose proof (chain_head _ _ _ _ Hc) as (_ & Ht & _ & Hz); rewrite Ht.
  - by rewrite Z.eqb_refl.
  - destruct (pre ++ [b]) as [|e tl] eqn:E; [by apply app_eq_nil in E as [_ ?]|]. cbn [block_type].
    change (middle_mcb_type =? ending_mcb_type) with false. cbn iota. rewrite Hz, (chain_next _ _ _ _ _ Hc).
    apply IH; [|cbn in Hf; lia]. by apply chain_tail in Hc.
Qed.
(** The scan stops at the upper memory or at the end of the chain. *)
Lemma scan_to_umb_spec fuel umb m s p pre b post :
  chain m s (pre ++ b :: post) -> umb ∉ headers s pre -> chain_end s pre = umb \/ post = [] -> (length pre < fuel)%nat ->
  scan_to_umb fuel umb s p m = ok (chain_end s pre, default p (list.last (headers s pre))).
Proof using Type*.
  revert fuel s p. induction pre as [|c pre IH]; intros fuel s p Hc Hn He Hf; (destruct fuel as [|fuel]; [lia|]); cbn [scan_to_umb app] in *;
    pose proof (chain_head _ _ _ _ Hc) as (_ & Ht & _ & Hz); rewrite Ht.
  - cbn in *. destruct He as [-> | ->]; [by rewrite Z.eqb_refl|]. by rewrite andb_false_r.
  - cbn [headers] in Hn. apply not_elem_of_cons in Hn as [Hne Hn].
    destruct (pre ++ b :: post) as [|e tl] eqn:E; [by apply app_eq_nil in E as [_ ?]|]. cbn [block_type].
    destruct (Z.eqb_spec s umb) as [->|]; [done|]. change (middle_mcb_type =? ending_mcb_type) with false. cbn [negb andb].
    rewrite Hz, (chain_next _ _ _ _ _ Hc). rewrite (IH fuel _ s); [|by apply chain_tail in Hc|done|done|cbn in Hf; lia].
    cbn [headers]. destruct pre as [|c2 pre]; [done|]. cbn [headers chain_end].
    change (list.last (s :: ?h :: ?hs)) with (list.last (h :: hs)).
    destruct (list.last (_ :: _)) eqn:El; [done|by apply list.last_None in El].
Qed.

Definition umb_blocks (ems_active : bool) : list block := [mkBlock 8 0x3000; mkBlock 0 (if ems_active then 0xfff else 0x1fff)].

(** Giving the last block of the low chain the type 'M' joins the chains, giving it the
    type 'Z' separates them. *)
Lemma retype_last m m' s pre b L tl t :
  chain m s (pre ++ b :: tl) -> let x := chain_end s pre in m' = SetType x t m -> u8 t = block_type L ->
  match L with [] => x + size b + 1 <= 65536 | _ => chain m (x + size b + 1) L end -> chain m' s (pre ++ b :: L).
Proof using Type*.
  intros Hc x Em Ht HL. destruct (block_segments _ _ _ _ _ Hc) as (Hm & Hz & _ & H0x & Hend & Hseg). fold x in Hm, H0x, Hend, Hseg.
  unfold is_segment in Hz. assert (is_segment x) as Hx by (apply Hseg; unfold inside; lia).
  assert (frame (eq x) m m') as Hf by (rewrite Em; by apply frame_SetType).
  eapply chain_splice_tail; [exact Hc|done|exact Hf|intros y <-; lia|]. fold x. apply chain_cons; [done|rewrite Em; mcb_eval; by rewrite Hm, Ht|].
  destruct L as [|c L]; [done|]. eapply chain_frame; [|exact Hf|exact HL]. intros y Hy <-.
  pose proof (headers_bound _ _ _ _ HL Hy). lia.
Qed.
Lemma chain_split_at m s pre b c U : chain m s (pre ++ b :: c :: U) -> chain m (chain_end s (pre ++ [b])) (c :: U).
Proof using. intros Hc%chain_at%chain_tail. by rewrite chain_end_app. Qed.

Lemma build_umb fuel d L ems :
  arena d L [] -> chain_end (firstMCB d) L = umb_start_seg -> (length L <= fuel)%nat ->
  exists m', DOS_BuildUMBChain fuel false true ems d = ok (with_mem m' (with_umb umb_start_seg 0 d)) /\
    chain m' (firstMCB d) L /\ chain m' umb_start_seg (umb_blocks ems).
Proof using Type*.
  intros [HL Hf Hp _] Hend Hfuel. unfold DOS_BuildUMBChain. cbn [andb negb with_umb mem firstMCB].
  set (m1 := SetType 0xd000 _ _). assert (is_segment 0xd000) as S1 by (unfold is_segment; lia).
  assert (frame (eq 0xd000) (mem d) m1) as Hf1 by (unfold m1; by frame_run).
  assert (mcb 0xd000 m1 = mkMCB ending_mcb_type 0 (if ems then 0xfff else 0x1fff)) as Hm1 by (unfold m1; mcb_eval; by destruct ems).
  clearbody m1.
  assert (chain m1 (firstMCB d) L) as HL1.
  { eapply chain_frame; [|exact Hf1|exact HL]. intros x Hx <-. pose proof (headers_bound _ _ _ _ HL Hx). rewrite Hend in *.
    unfold umb_start_seg in *. lia. }
  destruct L as [|b0 L0 _] using rev_ind; [done|]. rewrite length_app in Hfuel. cbn in Hfuel.
  rewrite (last_block_spec fuel m1 (firstMCB d) L0 b0 HL1) by lia. cbn [exec_bind].
  pose proof (chain_head _ _ _ _ (chain_at _ _ _ _ _ HL1)) as (_ & _ & _ & ->).
  assert (u16 (chain_end (firstMCB d) L0 + size b0 + 1) = umb_start_seg) as ->.
  { rewrite chain_end_app in Hend. cbn in Hend. rewrite Hend. done. }
  eexists. split; [done|]. cbn [mem with_mem with_umb]. set (m2 := SetFileName _ _ _).
  assert (is_segment umb_start_seg) as S2 by (unfold is_segment, umb_start_seg; lia).
  assert (umb_start_seg <> 0xd000) as Hne by done.
  assert (frame (eq umb_start_seg) m1 m2) as Hf2 by (unfold m2; by frame_run). split.
  - eapply chain_frame; [|exact Hf2|exact HL1]. intros x Hx <-. pose proof (headers_bound _ _ _ _ HL1 Hx). lia.
  - unfold umb_blocks. apply chain_cons; [done| |apply chain_cons; [done| |by destruct ems]].
    + unfold m2. mcb_eval. done.
    + change (umb_start_seg + size _ + 1) with 0xd000. unfold m2. mcb_eval. exact Hm1.
Qed.

(** C23.  The upper memory blocks: [DOS_BuildUMBChain] makes a chain of a system block
    over the space up to 0xd000 and a free block behind it, without changing the low
    chain, where that ends at 0x9fff; [DOS_LinkUMBsToMemChain] makes the two one
    chain, and separates them again into what they were. *)
Theorem umb_roundtrip fuel d L ems :
  arena d L [] -> chain_end (firstMCB d) L = umb_start_seg -> (length L < fuel)%nat ->
  exists d1, DOS_BuildUMBChain fuel false true ems d = ok d1 /\ arena d1 L (umb_blocks ems) /\
  exists d2, DOS_LinkUMBsToMemChain fuel 1 d1 = ok (true, d2) /\
    chain (mem d2) (firstMCB d2) (L ++ umb_blocks ems) /\ UMBChainState d2 = 1 /\
  exists d3, DOS_LinkUMBsToMemChain fuel 0 d2 = ok (true, d3) /\ arena d3 L (umb_blocks ems) /\ UMBChainState d3 = 0.
Proof using Type*.
  intros Ha Hend Hfuel. pose proof Ha as [HL Hf Hp _].
  destruct (build_umb fuel d L ems Ha Hend ltac:(lia)) as (m1 & E1 & HL1 & HU1). eexists. split; [exact E1|].
  split; [split; cbn; [done|done|done|intros _; by rewrite Hend]|]. clear HL Ha.
  destruct L as [|b0 L0 _] using rev_ind; [done|]. rewrite length_app in Hfuel. cbn [length] in Hfuel.
  assert (umb_start_seg ∉ headers (firstMCB d) L0) as Hnu.
  { intros Hx. pose proof (chain_prefix_bound _ _ _ _ _ _ HL1 Hx). pose proof (chain_bound _ _ _ (chain_at _ _ _ _ _ HL1)) as Hb.
    rewrite chain_end_app in Hend. rewrite Hend in Hb. lia. }
  set (x := chain_end (firstMCB d) L0). assert (x + size b0 + 1 = umb_start_seg) as Ex by (rewrite chain_end_app in Hend; exact Hend).
  unfold DOS_LinkUMBsToMemChain at 1. cbn [with_mem with_umb StartOfUMBChain UMBChainState mem firstMCB].
  rewrite Z.eqb_refl. cbn [negb]. change (Z.land 1 1 =? Z.land 0 1) with false. cbn iota.
  rewrite (scan_to_umb_spec fuel umb_start_seg m1 _ _ L0 b0 []) by (done || lia || by right). cbn [exec_bind]. fold x.
  change (1 =? 0) with false. change (1 =? 1) with true. cbn iota.
  pose proof (chain_head _ _ _ _ (chain_at _ _ _ _ _ HL1)) as (Hx & Hxt & _). fold x in Hx, Hxt. rewrite Hxt. cbn [block_type]. rewrite Z.eqb_refl.
  eexists. split; [done|]. cbn [with_mem with_umb StartOfUMBChain UMBChainState mem firstMCB].
  set (m2 := SetType x middle_mcb_type m1).
  assert (chain m2 (firstMCB d) (L0 ++ b0 :: umb_blocks ems)) as HL2.
  { eapply retype_last; [exact HL1|reflexivity|done|]. cbn [umb_blocks]. fold x. rewrite Ex. exact HU1. }
  split; [by rewrite <- app_assoc|]. split; [done|].
  unfold DOS_LinkUMBsToMemChain. cbn [with_mem with_umb StartOfUMBChain UMBChainState mem firstMCB].
  rewrite Z.eqb_refl. cbn [negb]. change (Z.land 0 1 =? Z.land 1 1) with false. cbn iota.
  pose proof HL2 as HL2'. change (umb_blocks ems) with ([mkBlock 8 0x3000] ++ [mkBlock 0 (if ems then 0xfff else 0x1fff)]) in HL2'.
  change (b0 :: ([mkBlock 8 0x3000] ++ [mkBlock 0 (if ems then 0xfff else 0x1fff)])) with ([b0] ++ (mkBlock 8 0x3000 :: [mkBlock 0 (if ems then 0xfff else 0x1fff)])) in HL2'.
  rewrite app_assoc in HL2'. rewrite (scan_to_umb_spec fuel umb_start_seg m2 _ _ (L0 ++ [b0]) _ _ HL2').
  2: { rewrite headers_app, elem_of_app. cbn. fold x. intros [Hin | [Hin | []%elem_of_nil]%elem_of_cons]; [done|].
       pose proof (block_segments _ _ _ _ _ HL1) as (_ & Hz & _). unfold is_segment in Hz. lia. }
  2: by left. 2: { rewrite length_app. cbn. lia. }
  cbn [exec_bind]. rewrite headers_app. cbn [headers]. rewrite list.last_snoc. change (default _ (Some ?v)) with v. fold x. change (0 =? 0) with true. cbn iota.
  pose proof (chain_head _ _ _ _ (chain_at _ _ _ _ _ HL2)) as (_ & Hx2 & _). fold x in Hx2. rewrite Hx2. cbn [umb_blocks block_type].
  assert (chain_end (firstMCB d) (L0 ++ [b0]) = umb_start_seg) as -> by exact Hend.
  rewrite !Z.eqb_refl. cbn [andb]. eexists. split; [done|]. split; [|done].
  set (m3 := SetType x ending_mcb_type m2). split; cbn [with_mem with_umb mem firstMCB psp StartOfUMBChain]; [|done|done|].
  - eapply retype_last; [exact HL2|reflexivity|done|]. fold x. rewrite Ex. done.
  - intros _. split; [|by rewrite Hend]. eapply (chain_frame (eq x)); [|by apply frame_SetType|].
    + intros y Hy <-. pose proof (headers_bound _ _ _ _ HU1 Hy) as Hb. rewrite <- Ex in Hb.
      pose proof (block_segments _ _ _ _ _ HL1) as (_ & Hz & _). unfold is_segment in Hz. lia.
    + rewrite <- Hend. unfold umb_blocks in HL2 |- *. by apply chain_split_at with (b := b0) in HL2.
Qed.
End Setup.

(** ** A corrupt chain *)
Lemma Compress_loop_stuck {M} `{ByteMemoryLaws M} fuel s f (d : Dos M) :
  is_segment s -> mcb_type (mcb s (mem d)) <> ending_mcb_type -> mcb_psp (mcb s (mem d)) <> 0 -> mcb_size (mcb s (mem d)) = 0xffff ->
  f < max_allowed_faults -> Compress_loop fuel s f d = err OutOfFuel.
Proof.
  intros Hs Ht Ho Hz Hf. induction fuel as [|fuel IH]; [done|]. cbn [Compress_loop].
  rewrite GetType_mcb, (GetPSPSeg_mcb s), GetSize_mcb, Hz, (proj2 (Z.eqb_neq _ _) Ht), (proj2 (Z.ltb_lt _ _) Hf). cbn [negb andb].
  change (mcb_psp (mcb s (mem d)) =? MCB_FREE) with (mcb_psp (mcb s (mem d)) =? 0). rewrite (proj2 (Z.eqb_neq _ _) Ho). cbn [andb].
  replace (u16 (s + 0xffff + 1)) with s; [exact IH|]. unfold u16, is_segment in *.
  replace (s + 0xffff + 1) with (s + 1 * 65536) by lia. rewrite Z.mod_add by done. symmetry. apply Z.mod_small. lia.
Qed.
(** C24.  The limit on faults does not bound [DOS_CompressMemory]: a first block that is
    in use, not the last, and of size 0xffff leads back to itself, without a fault
    being counted, so the loop never ends, under any fault strategy. *)
Theorem compress_hangs {M} `{ByteMemoryLaws M} (d : Dos M) o t :
  is_segment (firstMCB d) -> mcb (firstMCB d) (mem d) = mkMCB t o 0xffff -> t <> ending_mcb_type -> o <> 0 ->
  forall fuel, DOS_CompressMemory fuel d = err OutOfFuel.
Proof. intros Hs Hm Ht Ho fuel. by apply Compress_loop_stuck; rewrite ?Hm. Qed.

(** ** Concrete arenas *)
Definition blank : Dos Flat := mkDos (fun _ => 0) 0 0x200 0xffff 0 0 Repair 0.
(** After start-up on a PC. *)
Definition booted : Dos Flat := DOS_SetupMemory Other false blank.
Lemma booted_arena : arena booted (boot_blocks Other false) [].
Proof. split; [apply setup_chain|done|by split|done]. Qed.

Example setup_arena_witness : arena (DOS_SetupMemory Tandy false blank) (boot_blocks Tandy false) [].
Proof. destruct (setup_arena Tandy false blank) as [Ha _]; [by split|done|]. exact Ha. Defined.
(** The first block that fits 256 paragraphs is the memory for programs. *)
Example allocate_correct_witness :
  exists d', DOS_AllocateMemory 10 0x100 booted = ok (true, Some 0x188, 0x100, d') /\
    arena d' [mkBlock 8 1; mkBlock 0 4; mkBlock 0x40 16; mkBlock 0x200 0x100; mkBlock 0 0x9d76] [].
Proof.
  destruct (allocate_correct 10 0x100 booted (boot_blocks Other false) [] booted_arena) as (d' & _ & Hr);
    [cbn; lia|lia|by vm_compute|].
  exists d'. exact Hr.
Defined.
(** The lock grows from 16 to 20 paragraphs, into the memory behind it. *)
Example resize_correct_witness :
  exists d', DOS_ResizeMemory 10 0x177 20 booted = ok (true, 20, d') /\
    arena d' [mkBlock 8 1; mkBlock 0 4; mkBlock 0x200 20; mkBlock 0 0x9e73] [].
Proof.
  destruct (resize_correct 10 booted (boot_blocks Other false) [] 0x176 (mkBlock 0x40 16) 20 booted_arena) as
    (pre & post & Em & Ex & Hr).
  - apply list_elem_of_filter. split; [done|]. right. right. left.
  - lia.
  - done.
  - lia.
  - cbn. lia.
  - assert (pre = [mkBlock 8 1; mkBlock 0 4] /\ post = [mkBlock 0 0x9e77]) as [-> ->].
    { change (merge (boot_blocks Other false)) with ([mkBlock 8 1; mkBlock 0 4; mkBlock 0x40 16; mkBlock 0 0x9e77]) in Em.
      destruct pre as [|p [|q [|r [|t pre]]]]; try done; injection Em; intros; subst; try done; by destruct pre. }
    destruct Hr as (d' & Er & Ha & _). exists d'. exact (conj Er Ha).
Defined.
Example free_process_correct_witness :
  exists d', DOS_FreeProcessMemory 10 0x40 booted = ok d' /\ arena d' [mkBlock 8 1; mkBlock 0 0x9e8d] [].
Proof.
  destruct (free_process_correct 10 0x40 booted (boot_blocks Other false) [] booted_arena) as (d' & E & Ha & _); [cbn; lia|].
  exists d'. exact (conj E Ha).
Defined.
Example umb_roundtrip_witness :
  exists d1, DOS_BuildUMBChain 10 false true false booted = ok d1 /\ arena d1 (boot_blocks Other false) (umb_blocks false).
Proof.
  destruct (umb_roundtrip 10 booted (boot_blocks Other false) false booted_arena) as (d1 & E & Ha & _); [done|cbn; lia|].
  exists d1. exact (conj E Ha).
Defined.
Example compress_hangs_witness :
  exists d : Dos Flat, forall fuel, DOS_CompressMemory fuel d = err OutOfFuel.
Proof.
  exists (mkDos (put_mcb 0x16f 8 0xffff middle_mcb_type (fun _ => 0)) 0x16f 0x200 0xffff 0 0 Repair 0).
  apply (compress_hangs _ 8 middle_mcb_type); [by split|by vm_compute|done|done].
Defined.
