(* ===== verification/Xms.v ===== *)
(** * The extended memory driver ([ints/xms.cpp])

    The handles of extended memory blocks, allocation and release through the page
    allocator, block moves, the A20 gate with its count, upper memory blocks, the
    dispatch on the function number, and the constructor and destructor. *)
From S2P Require Import Prelude.
From S2P Require Import Registers.
From S2P Require Import GuestMemory.
From S2P Require Import PageAlloc.
From S2P Require Import DosMemory.
#[local] Open Scope Z_scope.
#[local] Open Scope exec_scope.

Definition XmsVersion : Z := 0x0300.
Definition XmsDriverVersion : Z := 0x0301.
Definition NumXmsHandles : Z := 128.
Definition MemPageSize : Z := 4096.
Definition KilobytesPerPage : Z := MemPageSize / 1024.

Inductive Result :=
  | OK | NotImplemented | A20LineError
  | HMA_NOT_EXIST | HmaInUse | HmaNotBigEnough | HmaNotAllocated | A20StillEnabled
  | XmsOutOfSpace | XmsOutOfHandles | XmsInvalidHandle
  | XmsInvalidSrcHandle | XmsInvalidSrcOffset | XmsInvalidDestHandle | XmsInvalidDestOffset
  | XmsInvalidLength | XmsParityError | XmsBlockNotLocked | XmsBlockLocked | XmsLockCountOverflow
  | UmbOnlySmallerBlock | UmbNoBlocksAvailable.
#[export] Instance Result_eq_dec : EqDecision Result.
Proof. solve_decision. Defined.
Definition result_code (r : Result) : Z :=
  match r with
  | OK => 0x00 | NotImplemented => 0x80 | A20LineError => 0x82
  | HMA_NOT_EXIST => 0x90 | HmaInUse => 0x91 | HmaNotBigEnough => 0x92 | HmaNotAllocated => 0x93
  | A20StillEnabled => 0x94 | XmsOutOfSpace => 0xa0 | XmsOutOfHandles => 0xa1 | XmsInvalidHandle => 0xa2
  | XmsInvalidSrcHandle => 0xa3 | XmsInvalidSrcOffset => 0xa4
  | XmsInvalidDestHandle => 0xa5 | XmsInvalidDestOffset => 0xa6
  | XmsInvalidLength => 0xa7 | XmsParityError => 0xa9 | XmsBlockNotLocked => 0xaa | XmsBlockLocked => 0xab
  | XmsLockCountOverflow => 0xac | UmbOnlySmallerBlock => 0xb0 | UmbNoBlocksAvailable => 0xb1
  end.

Record XMS_Block := mkXmsBlock { size_kb : Z; mem_handle : Z; lock_count : Z; is_free : bool }.
#[export] Instance XMS_Block_eq_dec : EqDecision XMS_Block.
Proof. solve_decision. Defined.
(** [XMS_Block()]. *)
Definition free_block : XMS_Block := mkXmsBlock 0 (-1) 0 true.

Definition A20MaxTimesEnabled : Z := 0xffffffff.

(** ** State

    The statics of the file, with the state of the parts the driver calls: DOS and
    the guest memory in it, the page entries, the value that port 0x92 reads, the
    count behind [BIOS_ZeroExtendedSize], and the number of times
    [xms_multiplex] is in the list of handlers. *)
Record Xms (M : Type) := mkXms {
  dos : Dos M;
  mhandles : list Z;
  port92 : Z;
  other_memsystems : Z;
  multiplex : nat;
  enable_global : bool; num_times_enabled : Z;
  hma_available : bool; dos_has_control : bool; app_has_control : bool; min_alloc_size : Z;
  umb_available : bool;
  xms_available : bool; callback : Z; handles : list XMS_Block }.
Arguments mkXms {M}.
Arguments dos {M}.
Arguments mhandles {M}.
Arguments port92 {M}.
Arguments other_memsystems {M}.
Arguments multiplex {M}.
Arguments enable_global {M}.
Arguments num_times_enabled {M}.
Arguments hma_available {M}.
Arguments dos_has_control {M}.
Arguments app_has_control {M}.
Arguments min_alloc_size {M}.
Arguments umb_available {M}.
Arguments xms_available {M}.
Arguments callback {M}.
Arguments handles {M}.

Section Setters.
Context {M : Type}.
Implicit Types (s : Xms M).
Definition with_dos (d : Dos M) s : Xms M :=
  mkXms d (mhandles s) (port92 s) (other_memsystems s) (multiplex s) (enable_global s) (num_times_enabled s)
    (hma_available s) (dos_has_control s) (app_has_control s) (min_alloc_size s) (umb_available s) (xms_available s)
    (callback s) (handles s).
Definition with_pages (mh : list Z) s : Xms M :=
  mkXms (dos s) mh (port92 s) (other_memsystems s) (multiplex s) (enable_global s) (num_times_enabled s)
    (hma_available s) (dos_has_control s) (app_has_control s) (min_alloc_size s) (umb_available s) (xms_available s)
    (callback s) (handles s).
Definition with_port92 (v : Z) s : Xms M :=
  mkXms (dos s) (mhandles s) v (other_memsystems s) (multiplex s) (enable_global s) (num_times_enabled s)
    (hma_available s) (dos_has_control s) (app_has_control s) (min_alloc_size s) (umb_available s) (xms_available s)
    (callback s) (handles s).
Definition with_system (others : Z) (plex : nat) s : Xms M :=
  mkXms (dos s) (mhandles s) (port92 s) others plex (enable_global s) (num_times_enabled s)
    (hma_available s) (dos_has_control s) (app_has_control s) (min_alloc_size s) (umb_available s) (xms_available s)
    (callback s) (handles s).
Definition with_count (global : bool) (n : Z) s : Xms M :=
  mkXms (dos s) (mhandles s) (port92 s) (other_memsystems s) (multiplex s) global n
    (hma_available s) (dos_has_control s) (app_has_control s) (min_alloc_size s) (umb_available s) (xms_available s)
    (callback s) (handles s).
Definition with_app_control (b : bool) s : Xms M :=
  mkXms (dos s) (mhandles s) (port92 s) (other_memsystems s) (multiplex s) (enable_global s) (num_times_enabled s)
    (hma_available s) (dos_has_control s) b (min_alloc_size s) (umb_available s) (xms_available s)
    (callback s) (handles s).
Definition with_umb_available (b : bool) s : Xms M :=
  mkXms (dos s) (mhandles s) (port92 s) (other_memsystems s) (multiplex s) (enable_global s) (num_times_enabled s)
    (hma_available s) (dos_has_control s) (app_has_control s) (min_alloc_size s) b (xms_available s)
    (callback s) (handles s).
Definition with_xms (available : bool) (cb : Z) (h : list XMS_Block) s : Xms M :=
  mkXms (dos s) (mhandles s) (port92 s) (other_memsystems s) (multiplex s) (enable_global s) (num_times_enabled s)
    (hma_available s) (dos_has_control s) (app_has_control s) (min_alloc_size s) (umb_available s) available cb h.
Definition with_handles (h : list XMS_Block) s : Xms M := with_xms (xms_available s) (callback s) h s.
End Setters.

(** ** Memory behind the A20 gate

    With the gate off, the 64 KiB above the first megabyte are the first 64 KiB
    ([MemoryCtl.a20_physical]).  The page allocator and DOS never address them. *)
Definition gated_address (gate : bool) (a : Z) : Z :=
  if negb gate && (0x100000 <=? a) && (a <? 0x110000) then a - 0x100000 else a.
Record Gated (M : Type) := mkGated { ram : M; gate : bool }.
Arguments mkGated {M}.
Arguments ram {M}.
Arguments gate {M}.
#[export] Instance gated_memory {M} `{ByteMemory M} : ByteMemory (Gated M) := {
  readb a g := readb (gated_address (gate g) a) (ram g);
  writeb a v g := mkGated (writeb (gated_address (gate g) a) v (ram g)) (gate g);
  faults a g := faults (gated_address (gate g) a) (ram g) }.

(** ** Helper routines *)
Definition get_num_pages (size_kb : Z) : Z := size_kb / 4 + (if nz (Z.land size_kb 3) then 1 else 0).
(** The conversions of real-mode pointers, [memory.h]. *)
Definition RealSegment (p : Z) : Z := u16 (Z.shiftr p 16).
Definition RealOffset (p : Z) : Z := u16 (Z.land p 0xffff).
Definition RealToPhysical (p : Z) : Z := u32 (u32 (Z.shiftl (RealSegment p) 4) + RealOffset p).
Definition clamp_to_uint16 (v : Z) : Z := Z.min v 0xffff.

Section Driver.
Context {M : Type} `{ByteMemory M}.
Implicit Types (s : Xms M) (r : CPU_Regs).

Definition get_mem_free_total_kb s : Z := u32 (MEM_FreeTotal (mhandles s) * KilobytesPerPage).
Definition get_mem_free_largest_kb s : Z := u32 (MEM_FreeLargest (mhandles s) * KilobytesPerPage).
Definition get_mem_highest_address s : Z := u32 (MEM_TotalPages (mhandles s) * MemPageSize - 1).

(** ** Gate A20 *)

(** A write of port 0x92 with the reset bit leaves through [E_Exit]; any other reads
    back as written ([MemoryCtl.port92_roundtrip]). *)
Definition IO_Write_port92 (val : Z) s : exec (Xms M) :=
  if nz (Z.land val 1) then err Exit else ok (with_port92 val s).
Definition a20_enable (enable : bool) s : exec (Xms M) :=
  let val := port92 s in
  let val := if enable then Z.lor val 2 else Z.land val (Z.lnot 2) in
  IO_Write_port92 val s.
Definition a20_is_enabled s : bool := nz (Z.land (port92 s) 2).

Definition a20_local_enable s : exec (Result * Xms M) :=
  if num_times_enabled s =? A20MaxTimesEnabled then ok (A20LineError, s) else
  let was := num_times_enabled s in
  let s := with_count (enable_global s) (u32 (was + 1)) s in
  let* s := (if was =? 0 then a20_enable true s else ok s) in
  ok (OK, s).
Definition a20_local_disable s : exec (Result * Xms M) :=
  if num_times_enabled s =? 0 then ok (A20LineError, s) else
  let s := with_count (enable_global s) (u32 (num_times_enabled s - 1)) s in
  if negb (num_times_enabled s =? 0) then ok (A20StillEnabled, s) else
  let* s := a20_enable false s in
  ok (OK, s).

(** ** Blocks *)
Definition xms_is_handle_valid (handle : Z) s : bool :=
  nz handle && (handle <? NumXmsHandles) &&
  match get (handles s) handle with Some b => negb (is_free b) | None => false end.

(** The result, the largest block and the total. *)
Definition xms_query_free_memory s : Result * Z * Z :=
  let total_kb := get_mem_free_total_kb s in
  let largest_kb := get_mem_free_largest_kb s in
  (if nz total_kb then OK else XmsOutOfSpace, largest_kb, total_kb).

(** The first free entry; [l] are the entries from [index] on. *)
Fixpoint free_handle (l : list XMS_Block) (index : Z) : option Z :=
  match l with
  | [] => None
  | b :: l => if is_free b then Some index else free_handle l (index + 1)
  end.
(** The result and [handle], which stays 0 on failure. *)
Definition xms_allocate_memory (size_kb : Z) s : exec (Result * Z * Xms M) :=
  match free_handle (drop 1 (handles s)) 1 with
  | None => ok (XmsOutOfHandles, 0, s)
  | Some index =>
      let assign mem_handle s :=
        let* h := write (handles s) index (mkXmsBlock size_kb mem_handle 0 false) in
        ok (OK, index, with_handles h s) in
      if nz size_kb then
        let* (mem_handle, mh) := MEM_AllocatePages (get_num_pages size_kb) true (mhandles s) in
        let s := with_pages mh s in
        if mem_handle =? 0 then ok (XmsOutOfSpace, 0, s) else assign mem_handle s
      else assign (MEM_GetNextFreePage (mhandles s)) s
  end.
Definition xms_free_memory (handle : Z) s : exec (Result * Xms M) :=
  if negb (xms_is_handle_valid handle s) then ok (XmsInvalidHandle, s) else
  let* b := read (handles s) handle in
  if negb (lock_count b =? 0) then ok (XmsBlockLocked, s) else
  let* mh := MEM_ReleasePages (mem_handle b) (mhandles s) in
  let* h := write (handles s) handle free_block in
  ok (OK, with_handles h (with_pages mh s)).

(** One end of a move: its physical address, or the error.  [invalid] are the two
    errors of that end. *)
Definition move_end (handle offset length : Z) (invalid : Result * Result) s : exec (Result + Z) :=
  if nz handle then
    if negb (xms_is_handle_valid handle s) then ok (inl (fst invalid)) else
    let* b := read (handles s) handle in
    if u32 (size_kb b * 1024) <=? offset then ok (inl (snd invalid)) else
    if u32 (size_kb b * 1024) - offset <? length then ok (inl XmsInvalidLength) else
    ok (inr (u32 (u32 (u32 (mem_handle b) * MemPageSize) + offset)))
  else
    let p := RealToPhysical offset in
    if 0x10FFF0 <? u32 (p + length) then ok (inl XmsInvalidLength) else ok (inr p).
(** The copy, with the gate on. *)
Definition move_bytes (destpt srcpt length : Z) s : exec (Xms M) :=
  if nz length then
    let a20_was_enabled := a20_is_enabled s in
    let s := with_count (enable_global s) (u32 (num_times_enabled s + 1)) s in
    let* s := a20_enable true s in
    let g := mem_memcpy destpt srcpt (Z.to_nat length) (mkGated (mem (dos s)) (a20_is_enabled s)) in
    let s := with_dos (with_mem (ram g) (dos s)) s in
    let s := with_count (enable_global s) (u32 (num_times_enabled s - 1)) s in
    if negb a20_was_enabled then a20_enable false s else ok s
  else ok s.
Definition xms_move_memory (bpt : Z) s : exec (Result * Xms M) :=
  let g := mkGated (mem (dos s)) (a20_is_enabled s) in
  let length := mem_unalignedreadd (PhysPt (bpt + 0)) g in
  if nz (length mod 2) then ok (XmsParityError, s) else
  let src_handle := mem_unalignedreadw (PhysPt (bpt + 4)) g in
  let src_offset := mem_unalignedreadd (PhysPt (bpt + 6)) g in
  let dest_handle := mem_unalignedreadw (PhysPt (bpt + 10)) g in
  let dest_offset := mem_unalignedreadd (PhysPt (bpt + 12)) g in
  let* src := move_end src_handle src_offset length (XmsInvalidSrcHandle, XmsInvalidSrcOffset) s in
  match src with
  | inl e => ok (e, s)
  | inr srcpt =>
      let* dest := move_end dest_handle dest_offset length (XmsInvalidDestHandle, XmsInvalidDestOffset) s in
      match dest with
      | inl e => ok (e, s)
      | inr destpt => let* s := move_bytes destpt srcpt length s in ok (OK, s)
      end
  end.

(** The result and the address; the caller starts it at 0. *)
Definition xms_lock_memory (handle : Z) s : exec (Result * Z * Xms M) :=
  if negb (xms_is_handle_valid handle s) then ok (XmsInvalidHandle, 0, s) else
  let* b := read (handles s) handle in
  if 255 <=? lock_count b then ok (XmsLockCountOverflow, 0, s) else
  let* h := write (handles s) handle (mkXmsBlock (size_kb b) (mem_handle b) (lock_count b + 1) (is_free b)) in
  ok (OK, u32 (mem_handle b * MemPageSize), with_handles h s).
Definition xms_unlock_memory (handle : Z) s : exec (Result * Xms M) :=
  if negb (xms_is_handle_valid handle s) then ok (XmsInvalidHandle, s) else
  let* b := read (handles s) handle in
  if nz (lock_count b) then
    let* h := write (handles s) handle (mkXmsBlock (size_kb b) (mem_handle b) (lock_count b - 1) (is_free b)) in
    ok (OK, with_handles h s)
  else ok (XmsBlockNotLocked, s).
(** The lock count, the number of free handles and the size, or the error. *)
Definition xms_get_handle_information (handle : Z) s : exec (option (Z * Z * Z)) :=
  if negb (xms_is_handle_valid handle s) then ok None else
  let* b := read (handles s) handle in
  let num_free := Z.of_nat (length (filter (fun c => is_free c = true) (drop 1 (handles s)))) in
  ok (Some (lock_count b, u8 num_free, size_kb b)).
Definition xms_resize_memory (handle new_size_kb : Z) s : exec (Result * Xms M) :=
  if negb (xms_is_handle_valid handle s) then ok (XmsInvalidHandle, s) else
  let* b := read (handles s) handle in
  if 0 <? lock_count b then ok (XmsBlockLocked, s) else
  let* (success, new_handle, mh, m) :=
    MEM_ReAllocatePages (mem_handle b) (get_num_pages new_size_kb) true (mhandles s) (mem (dos s)) in
  let s := with_dos (with_mem m (dos s)) (with_pages mh s) in
  let size := if success : bool then new_size_kb else size_kb b in
  let* h := write (handles s) handle (mkXmsBlock size new_handle (lock_count b) (is_free b)) in
  ok (if success : bool then OK else XmsOutOfSpace, with_handles h s).

(** Interrupt 2Fh: [None] when the call is not for the driver; else the registers and
    the new ES, where it is set. *)
Definition xms_multiplex r s : option (CPU_Regs * option Z) :=
  if reg_ax r =? 0x4300 then Some (set_al 0x80 r, None)
  else if reg_ax r =? 0x4310 then Some (set_bx (RealOffset (callback s)) r, Some (RealSegment (callback s)))
  else None.

(** ** The handler

    One definition per group of function numbers, then the switch on AH. *)
Definition set_return_value (result : Result) r : CPU_Regs :=
  set_ax (if decide (result = OK) then 1 else 0) (set_bl (result_code result) r).
Definition set_return_value_bl_only_fail (result : Result) r : CPU_Regs :=
  set_ax (if decide (result = OK) then 1 else 0)
    (if decide (result = OK) then r else set_bl (result_code result) r).

Definition get_version r s : CPU_Regs :=
  set_dx (if hma_available s then 1 else 0) (set_bx XmsDriverVersion (set_ax XmsVersion r)).
Definition request_hma r s : CPU_Regs * Xms M :=
  if negb (hma_available s) then (set_return_value HMA_NOT_EXIST r, s) else
  if app_has_control s || dos_has_control s then (set_return_value HmaInUse r, s)
  else if reg_dx r <? min_alloc_size s then (set_return_value HmaNotBigEnough r, s)
  else (set_ax 1 r, with_app_control true s).
Definition release_hma r s : CPU_Regs * Xms M :=
  if negb (hma_available s) then (set_return_value HMA_NOT_EXIST r, s) else
  if app_has_control s then (set_ax 1 r, with_app_control false s)
  else (set_return_value HmaNotAllocated r, s).
Definition global_enable_a20 r s : exec (CPU_Regs * Xms M) :=
  if negb (enable_global s) then
    let* (result, s) := a20_local_enable s in
    let s := if decide (result = OK) then with_count true (num_times_enabled s) s else s in
    ok (set_return_value result r, s)
  else ok (set_return_value OK r, s).
Definition global_disable_a20 r s : exec (CPU_Regs * Xms M) :=
  if enable_global s then
    let* (result, s) := a20_local_disable s in
    let s := if decide (result = OK) then with_count false (num_times_enabled s) s else s in
    ok (set_return_value result r, s)
  else ok (set_return_value OK r, s).
Definition query_a20 r s : CPU_Regs := set_bl 0 (set_ax (if a20_is_enabled s then 1 else 0) r).

Definition query_free r s : CPU_Regs :=
  let '(result, largest_kb, total_kb) := xms_query_free_memory s in
  let r := set_edx total_kb r in
  let r := set_eax largest_kb r in
  let r := set_bl (result_code result) r in
  let r := set_eax (clamp_to_uint16 (reg_eax r)) r in
  set_edx (clamp_to_uint16 (reg_edx r)) r.
Definition query_any_free r s : CPU_Regs :=
  let '(result, largest_kb, total_kb) := xms_query_free_memory s in
  let r := set_edx total_kb r in
  let r := set_eax largest_kb r in
  let r := set_bl (result_code result) r in
  set_ecx (get_mem_highest_address s) r.
Definition allocate_block (size : Z) r s : exec (CPU_Regs * Xms M) :=
  let* (result, handle, s) := xms_allocate_memory size s in
  ok (set_dx handle (set_return_value result r), s).
Definition lock_block r s : exec (CPU_Regs * Xms M) :=
  let* (result, address, s) := xms_lock_memory (reg_dx r) s in
  let r := set_return_value result r in
  ok (if decide (result = OK) then set_dx (RealSegment address) (set_bx (RealOffset address) r) else r, s).
Definition handle_information r s : exec (CPU_Regs * Xms M) :=
  let* info := xms_get_handle_information (reg_dx r) s in
  let r := match info with
           | Some (locks, free, size) => set_return_value_bl_only_fail OK (set_edx size (set_bl free (set_bh locks r)))
           | None => set_return_value_bl_only_fail XmsInvalidHandle r
           end in
  ok (set_edx (Z.land (reg_edx r) 0xffff) r, s).
Definition extended_handle_information r s : exec (CPU_Regs * Xms M) :=
  let* info := xms_get_handle_information (reg_dx r) s in
  ok (match info with
      | Some (locks, free_handles, size) =>
          set_cx free_handles (set_return_value_bl_only_fail OK (set_edx size (set_bh locks r)))
      | None => set_return_value_bl_only_fail XmsInvalidHandle r
      end, s).

(** Upper memory blocks; [fuel] bounds the walks along the chain of DOS memory. *)
Definition request_umb (fuel : nat) r s : exec (CPU_Regs * Xms M) :=
  if negb (umb_available s) then ok (set_return_value NotImplemented r, s) else
  let umb_start := StartOfUMBChain (dos s) in
  if umb_start =? 0xffff then ok (set_dx 0 (set_return_value UmbNoBlocksAvailable r), s) else
  let umb_flag := u8 (UMBChainState (dos s)) in
  let* (_, d) := (if Z.land umb_flag 1 =? 0 then DOS_LinkUMBsToMemChain fuel 1 (dos s) else ok (true, dos s)) in
  let old_memstrat := u8 (Z.land (DOS_GetMemAllocStrategy d) 0xff) in
  let '(_, d) := DOS_SetMemAllocStrategy 0x40 d in
  let* (success, seg, size, d) := DOS_AllocateMemory fuel (reg_dx r) d in
  let r := if success : bool then set_bx (default 0 seg) (set_ax 1 r)
           else set_dx size (set_return_value (if size =? 0 then UmbNoBlocksAvailable else UmbOnlySmallerBlock) r) in
  let current_umb_flag := u8 (UMBChainState d) in
  let* (_, d) := (if negb (Z.land current_umb_flag 1 =? Z.land umb_flag 1) then DOS_LinkUMBsToMemChain fuel umb_flag d
                  else ok (true, d)) in
  let '(_, d) := DOS_SetMemAllocStrategy old_memstrat d in
  ok (r, with_dos d s).
Definition release_umb r s : CPU_Regs * Xms M :=
  if negb (umb_available s) then (set_return_value NotImplemented r, s) else
  if negb (StartOfUMBChain (dos s) =? 0xffff) then
    let '(success, d) := DOS_FreeMemory (reg_dx r) (dos s) in
    let s := with_dos d s in
    if success : bool then (set_ax 1 r, s) else (set_return_value UmbNoBlocksAvailable r, s)
  else (set_return_value UmbNoBlocksAvailable r, s).

(** A call that only sets the result. *)
Definition returns (call : exec (Result * Xms M)) r : exec (CPU_Regs * Xms M) :=
  let* (result, s) := call in ok (set_return_value result r, s).

(** [ds_base] is [SegPhys(ds)]. *)
Definition XMS_Handler (fuel : nat) (ds_base : Z) r s : exec (CPU_Regs * Xms M) :=
  let ah := reg_ah r in
  if ah =? 0x00 then ok (get_version r s, s)
  else if ah =? 0x01 then ok (request_hma r s)
  else if ah =? 0x02 then ok (release_hma r s)
  else if ah =? 0x03 then global_enable_a20 r s
  else if ah =? 0x04 then global_disable_a20 r s
  else if ah =? 0x05 then returns (a20_local_enable s) r
  else if ah =? 0x06 then returns (a20_local_disable s) r
  else if ah =? 0x07 then ok (query_a20 r s, s)
  else if ah =? 0x08 then ok (query_free r s, s)
  else if ah =? 0x09 then allocate_block (reg_dx r) r s
  else if ah =? 0x0a then returns (xms_free_memory (reg_dx r) s) r
  else if ah =? 0x0b then
    let* (result, s) := xms_move_memory (u32 (ds_base + reg_si r)) s in
    ok (set_return_value_bl_only_fail result r, s)
  else if ah =? 0x0c then lock_block r s
  else if ah =? 0x0d then returns (xms_unlock_memory (reg_dx r) s) r
  else if ah =? 0x0e then handle_information r s
  else if ah =? 0x0f then returns (xms_resize_memory (reg_dx r) (reg_bx r) s) r
  else if ah =? 0x10 then request_umb fuel r s
  else if ah =? 0x11 then ok (release_umb r s)
  else if ah =? 0x12 then ok (set_return_value NotImplemented r, s)
  else if ah =? 0x88 then ok (query_any_free r s, s)
  else if ah =? 0x89 then allocate_block (reg_edx r) r s
  else if ah =? 0x8e then extended_handle_information r s
  else if ah =? 0x8f then returns (xms_resize_memory (reg_dx r) (reg_ebx r) s) r
  else ok (set_return_value NotImplemented r, s).

(** ** Constructor and destructor *)

(** [BIOS_ZeroExtendedSize] ([ints/bios.cpp]) and the list of multiplex handlers
    ([dos/dos_misc.cpp]), as far as this driver is in it. *)
Definition BIOS_ZeroExtendedSize (in_ : bool) s : Xms M :=
  let n := other_memsystems s + (if in_ then 1 else -1) in
  with_system (if n <? 0 then 0 else n) (multiplex s) s.
Definition DOS_AddMultiplexHandler s : Xms M := with_system (other_memsystems s) (S (multiplex s)) s.
Definition DOS_DeleteMultiplexHandler s : Xms M := with_system (other_memsystems s) (pred (multiplex s)) s.

(** [xms], [umb] and [ems_available] are the settings, [cpu_286] says that the processor
    is at least a 286, [callback_seg] is the segment of the entry point, allocated
    once. *)
Definition XMS (fuel : nat) (xms umb ems_available cpu_286 pcjr_or_tandy : bool) (callback_seg : Z) s : exec (Xms M) :=
  let s := with_count false 0 (with_umb_available false s) in
  if negb xms then ok s else
  if negb cpu_286 then ok s else
  let s := with_xms true (callback s) (handles s) s in
  let s := BIOS_ZeroExtendedSize true s in
  let s := DOS_AddMultiplexHandler s in
  let s := with_xms true (RealMake callback_seg 0x10) (handles s) s in
  let blocks := replicate (Z.to_nat NumXmsHandles) free_block in
  let* blocks := write blocks 0 (mkXmsBlock 0 (-1) 0 false) in
  let s := with_handles blocks s in
  let s := with_umb_available umb s in
  let* d := DOS_BuildUMBChain fuel pcjr_or_tandy umb ems_available (dos s) in
  ok (with_dos d s).

(** The loop of the destructor, from [index]. *)
Fixpoint free_all (n : nat) (index : Z) s : exec (Xms M) :=
  match n with
  | O => ok s
  | S n =>
      let* b := read (handles s) index in
      let* h := write (handles s) index (mkXmsBlock (size_kb b) (mem_handle b) 0 (is_free b)) in
      let s := with_handles h s in
      let* (_, s) := (if negb (is_free b) then xms_free_memory index s else ok (OK, s)) in
      free_all n (index + 1) s
  end.
Definition XMS_destroy s : exec (Xms M) :=
  let d := with_umb 0xffff (UMBChainState (dos s)) (dos s) in
  let d := if umb_available s then with_umb (StartOfUMBChain d) 0 d else d in
  let s := with_dos d (if umb_available s then with_umb_available false s else s) in
  if negb (xms_available s) then ok s else
  let s := BIOS_ZeroExtendedSize false s in
  let s := DOS_DeleteMultiplexHandler s in
  let* s := free_all (Z.to_nat (NumXmsHandles - 1)) 1 s in
  ok (with_xms false (callback s) (handles s) s).
End Driver.
