(* ===== verification/XmsProofs.v ===== *)
(** * The XMS driver keeps its blocks

    The invariant that ties the handles to the page allocator's blocks and the A20
    gate to its count, and that every function of the driver keeps it. *)
From S2P Require Import Prelude.
From S2P Require Import Registers.
From S2P Require Import GuestMemory.
From S2P Require Import GuestMemoryProofs.
From S2P Require Import PageAlloc.
From S2P Require Import PageSearch.
From S2P Require Import PageBlocks.
From S2P Require Import PageTheorems.
From S2P Require Import PageResize.
From S2P Require Import DosMemory.
From S2P Require Import Xms.
#[local] Open Scope Z_scope.
#[local] Open Scope exec_scope.

(** ** The blocks of the handles *)
(** The pages [c] that a handle owns.  A block of size 0 owns none, and its page number
    is not a page. *)
Definition held (b : XMS_Block) (c : list Z) : Prop :=
  0 <= size_kb b < 2 ^ 32 /\ 0 <= lock_count b < 256 /\
  if is_free b then c = [] /\ b = free_block
  else if size_kb b =? 0 then c = [] /\ mem_handle b <= 0
  else c <> [] /\ mem_handle b = hd 0 c /\ Z.of_nat (length c) = get_num_pages (size_kb b) /\ contiguous c.

Lemma get_num_pages_spec k : 0 <= k -> 4 * get_num_pages k - 3 <= k <= 4 * get_num_pages k.
Proof.
  intros Hk. unfold get_num_pages. change (Z.land k 3) with (Z.land k (Z.ones 2)). rewrite Z.land_ones by lia. change (2 ^ 2) with 4.
  unfold nz. destruct (Z.eqb_spec (k mod 4) 0); cbn [negb]; zlia.
Qed.
Lemma get_num_pages_pos k : 0 < k -> 0 < get_num_pages k.
Proof. intros Hk. pose proof (get_num_pages_spec k ltac:(lia)). lia. Qed.

Section Invariant.
Context {M : Type} `{ByteMemoryLaws M}.
Implicit Types (s : Xms M) (r : CPU_Regs) (bl others : list (list Z)).

(** [others] are the blocks of other clients of the page allocator. *)
Record xms_inv bl others s : Prop := {
  inv_handles : length (handles s) = 128%nat;
  inv_held : Forall2 held (handles s) bl;
  inv_zero : bl !! 0%nat = Some [];
  inv_owned : owned (mhandles s) (real_blocks bl ++ others);
  inv_pages : XMS_START <= npages (mhandles s) <= 1048576;
  inv_port : 0 <= port92 s < 256 /\ Z.testbit (port92 s) 0 = false;
  inv_count : 0 <= num_times_enabled s < 2 ^ 32;
  inv_gate : a20_is_enabled s = negb (num_times_enabled s =? 0) }.

(** What a function must show: it returns, and the invariant holds again. *)
Definition keeps {A} bl others s (m : exec (A * Xms M)) : Prop :=
  exists a s' bl', m = ok (a, s') /\ xms_inv bl' others s' /\
    (xms_available s' = xms_available s /\ callback s' = callback s).

Lemma keeps_same {A} bl others s (a : A) : xms_inv bl others s -> keeps bl others s (ok (a, s)).
Proof using. intros Hi. by exists a, s, bl. Qed.
(** Changes outside the handles, the pages and the gate. *)
Lemma inv_other bl others s s' :
  xms_inv bl others s -> handles s' = handles s -> mhandles s' = mhandles s -> port92 s' = port92 s ->
  num_times_enabled s' = num_times_enabled s -> xms_inv bl others s'.
Proof using.
  intros Hi E1 E2 E3 E4. split; unfold a20_is_enabled; rewrite ?E1, ?E2, ?E3, ?E4; apply Hi.
Qed.

(** ** Handles *)
Lemma valid_handle h s : xms_is_handle_valid h s = true ->
  0 < h < 128 /\ exists b, get (handles s) h = Some b /\ is_free b = false.
Proof using.
  unfold xms_is_handle_valid. intros [[Hn Hlt]%andb_prop Hb]%andb_prop. apply Z.ltb_lt in Hlt. unfold NumXmsHandles in Hlt.
  destruct (get (handles s) h) as [b|] eqn:E; [|done]. pose proof (get_Some_range _ _ _ E).
  apply nz_spec in Hn. split; [lia|]. exists b. split; [done|]. by destruct (is_free b).
Qed.
Lemma held_at bl others s h b : xms_inv bl others s -> get (handles s) h = Some b ->
  exists c, bl !! Z.to_nat h = Some c /\ held b c.
Proof using.
  intros Hi Hb. unfold get in Hb. destruct (h <? 0); [done|].
  destruct (Forall2_lookup_l _ _ _ _ _ (inv_held _ _ _ Hi) Hb) as (c & Hc & Hh). by exists c.
Qed.
(** The invariant after entry [h] and the pages have changed. *)
Lemma inv_update bl others s h b' c c' rest mh' :
  xms_inv bl others s -> 0 < h < 128 -> bl !! Z.to_nat h = Some c -> held b' c' ->
  npages mh' = npages (mhandles s) ->
  real_blocks bl ≡ₚ real_blocks [c] ++ rest -> real_blocks (<[Z.to_nat h := c']> bl) ≡ₚ real_blocks [c'] ++ rest ->
  owned mh' (real_blocks [c'] ++ rest ++ others) ->
  xms_inv (<[Z.to_nat h := c']> bl) others (with_handles (upd (handles s) h b') (with_pages mh' s)).
Proof using.
  intros Hi Hh Hc Hb' Hnp Hp Hp' Hown. split; cbn; try apply Hi.
  - by rewrite length_upd, (inv_handles _ _ _ Hi).
  - apply Forall2_insert; [apply Hi|done].
  - rewrite list_lookup_insert_ne by lia. apply Hi.
  - eapply owned_perm; [|exact Hown]. by rewrite Hp', app_assoc.
  - rewrite Hnp. apply Hi.
Qed.
Lemma inv_split bl others s h c c' :
  xms_inv bl others s -> bl !! Z.to_nat h = Some c ->
  exists rest, real_blocks bl ≡ₚ real_blocks [c] ++ rest /\ real_blocks (<[Z.to_nat h := c']> bl) ≡ₚ real_blocks [c'] ++ rest /\
    owned (mhandles s) (real_blocks [c] ++ rest ++ others).
Proof using.
  intros Hi Hc. destruct (real_blocks_split bl _ c c' Hc) as (rest & Hp & Hp'). exists rest.
  split; [done|]. split; [done|]. eapply owned_perm; [|apply (inv_owned _ _ _ Hi)]. by rewrite Hp, app_assoc.
Qed.
Lemma write_handle bl others s h b : xms_inv bl others s -> 0 <= h < 128 -> write (handles s) h b = ok (upd (handles s) h b).
Proof using. intros Hi Hh. apply write_upd. rewrite (inv_handles _ _ _ Hi). lia. Qed.
Lemma with_pages_same s : with_pages (mhandles s) s = s.
Proof using. by destruct s. Qed.
(** A change of the entry that keeps its pages. *)
Lemma inv_relabel bl others s h b' c :
  xms_inv bl others s -> 0 <= h < 128 -> bl !! Z.to_nat h = Some c -> held b' c ->
  xms_inv bl others (with_handles (upd (handles s) h b') s).
Proof using.
  intros Hi Hh Hc Hb'. split; cbn; try apply Hi.
  - by rewrite length_upd, (inv_handles _ _ _ Hi).
  - rewrite <- (list_insert_id bl _ _ Hc). apply Forall2_insert; [apply Hi|done].
Qed.

(** ** The gate *)
Lemma bit1 p : nz (Z.land p 2) = Z.testbit p 1.
Proof using. apply (nz_land_pow2 p 1). lia. Qed.
Lemma a20_enable_spec b s :
  0 <= port92 s < 256 -> Z.testbit (port92 s) 0 = false ->
  exists p, a20_enable b s = ok (with_port92 p s) /\ 0 <= p < 256 /\ Z.testbit p 0 = false /\ Z.testbit p 1 = b.
Proof using.
  intros Hp Hb0. unfold a20_enable, IO_Write_port92. cbv zeta. set (p := if b then _ else _).
  assert (Z.testbit p 0 = false /\ Z.testbit p 1 = b /\ 0 <= p < 256) as (Hb0' & H1 & Hr).
  { subst p. destruct b.
    - rewrite !Z.lor_spec, Hb0, orb_true_r. split; [done|]. split; [done|]. apply (lor_fits 8); lia.
    - rewrite !Z.land_spec, Hb0. split; [done|]. split; [by rewrite andb_false_r|]. split; [apply Z.land_nonneg; lia|].
      apply (bits_bound 8); [lia|apply Z.land_nonneg; lia|]. intros i Hi.
      by rewrite Z.land_spec, (testbit_above 8) by lia. }
  exists p. assert (nz (Z.land p 1) = false) as -> by (rewrite <- Hb0'; apply (nz_land_pow2 p 0); lia). done.
Qed.
Lemma inv_with_gate bl others s p g n :
  xms_inv bl others s -> 0 <= p < 256 -> Z.testbit p 0 = false -> 0 <= n < 2 ^ 32 ->
  Z.testbit p 1 = negb (n =? 0) -> xms_inv bl others (with_port92 p (with_count g n s)).
Proof using.
  intros Hi Hp Hb0 Hn H1. split; cbn; try apply Hi; try done. unfold a20_is_enabled. cbn. by rewrite bit1.
Qed.
Lemma inv_with_count bl others s g n :
  xms_inv bl others s -> 0 <= n < 2 ^ 32 -> (n = 0 <-> num_times_enabled s = 0) -> xms_inv bl others (with_count g n s).
Proof using.
  intros Hi Hn Hiff. split; cbn; try apply Hi; try done. unfold a20_is_enabled. cbn. fold (a20_is_enabled s).
  rewrite (inv_gate _ _ _ Hi). f_equal. zbool.
Qed.

Lemma local_enable_keeps bl others s : xms_inv bl others s -> keeps bl others s (a20_local_enable s).
Proof using.
  intros Hi. unfold a20_local_enable, A20MaxTimesEnabled. pose proof (inv_count _ _ _ Hi) as Hn. pose proof (inv_port _ _ _ Hi) as [Hp Hb0].
  destruct (Z.eqb_spec (num_times_enabled s) 0xffffffff); [by apply keeps_same|].
  assert (u32 (num_times_enabled s + 1) = num_times_enabled s + 1) as E by (apply u32_small; lia).
  destruct (Z.eqb_spec (num_times_enabled s) 0) as [Ez|].
  - destruct (a20_enable_spec true (with_count (enable_global s) (u32 (num_times_enabled s + 1)) s)) as (p & -> & Hr & P0 & P1); [done..|].
    cbn [exec_bind]. eexists OK, _, bl. split; [done|]. split; [|done]. apply inv_with_gate; try done; rewrite E; [lia|].
    rewrite P1, Ez. done.
  - cbn [exec_bind]. eexists OK, _, bl. split; [done|]. split; [|done]. apply inv_with_count; [done|rewrite E; lia..].
Qed.
Lemma local_disable_keeps bl others s : xms_inv bl others s -> keeps bl others s (a20_local_disable s).
Proof using.
  intros Hi. unfold a20_local_disable. pose proof (inv_count _ _ _ Hi) as Hn. pose proof (inv_port _ _ _ Hi) as [Hp Hb0].
  destruct (Z.eqb_spec (num_times_enabled s) 0); [by apply keeps_same|]. cbn [num_times_enabled with_count].
  assert (u32 (num_times_enabled s - 1) = num_times_enabled s - 1) as E by (apply u32_small; lia).
  destruct (Z.eqb_spec (u32 (num_times_enabled s - 1)) 0) as [Ez|Hz]; cbn [negb].
  - destruct (a20_enable_spec false (with_count (enable_global s) (u32 (num_times_enabled s - 1)) s)) as (p & -> & Hr & P0 & P1); [done..|].
    cbn [exec_bind]. eexists OK, _, bl. split; [done|]. split; [|done]. apply inv_with_gate; try done; rewrite E; [lia|].
    rewrite P1. rewrite E in Ez. by rewrite Ez.
  - eexists A20StillEnabled, _, bl. split; [done|]. split; [|done]. apply inv_with_count; [done|rewrite E; lia|rewrite E in *; lia].
Qed.

(** ** Blocks *)
Lemma free_handle_spec l i : match free_handle l i with
  | Some k => i <= k < i + Z.of_nat (length l) /\ exists b, l !! Z.to_nat (k - i) = Some b /\ is_free b = true
  | None => Forall (fun b => is_free b = false) l end.
Proof using.
  revert i. induction l as [|b l IH]; intros i; cbn [free_handle]; [constructor|]. destruct (is_free b) eqn:Eb.
  - split; [cbn [length]; lia|]. exists b. by rewrite Z.sub_diag.
  - specialize (IH (i + 1)). destruct (free_handle l (i + 1)) as [k|]; [|by constructor].
    destruct IH as (Hk & c & Hc & Hf). cbn [length]. split; [lia|]. exists c. split; [|done].
    replace (Z.to_nat (k - i)) with (S (Z.to_nat (k - (i + 1)))) by lia. done.
Qed.
(** The handle that an allocation takes. *)
Lemma free_handle_held bl others s k :
  xms_inv bl others s -> free_handle (drop 1 (handles s)) 1 = Some k ->
  0 < k < 128 /\ bl !! Z.to_nat k = Some [].
Proof using.
  intros Hi E. pose proof (free_handle_spec (drop 1 (handles s)) 1) as Hk. rewrite E in Hk.
  destruct Hk as (Hk & b & Hb & Hf). rewrite length_drop, (inv_handles _ _ _ Hi) in Hk. split; [lia|].
  rewrite lookup_drop in Hb. replace (1 + Z.to_nat (k - 1))%nat with (Z.to_nat k) in Hb by lia.
  destruct (Forall2_lookup_l _ _ _ _ _ (inv_held _ _ _ Hi) Hb) as (c & Hc & _ & _ & Hh). rewrite Hf in Hh.
  by destruct Hh as [-> _].
Qed.

(** Allocation of a block that is not empty: no handle, no room, or a fresh block of
    consecutive pages. *)
Lemma allocate_spec bl others s size :
  xms_inv bl others s -> 0 < size < 2 ^ 32 ->
  match free_handle (drop 1 (handles s)) 1 with
  | None => xms_allocate_memory size s = ok (XmsOutOfHandles, 0, s)
  | Some k =>
      if MEM_FreeLargest (mhandles s) <? get_num_pages size then
        xms_allocate_memory size s = ok (XmsOutOfSpace, 0, s)
      else exists h mh', let c := seqZ h (get_num_pages size) in
        let s' := with_handles (upd (handles s) k (mkXmsBlock size h 0 false)) (with_pages mh' s) in
        xms_allocate_memory size s = ok (OK, k, s') /\ interval (mhandles s) h (get_num_pages size) /\
        (forall i, i ∉ c -> get mh' i = get (mhandles s) i) /\
        xms_inv (<[Z.to_nat k := c]> bl) others s'
  end.
Proof using.
  intros Hi Hz. unfold xms_allocate_memory. destruct (free_handle _ 1) as [k|] eqn:Ek; [|done].
  destruct (free_handle_held bl others s k Hi Ek) as [Hk Hc].
  assert (nz size = true) as -> by (apply nz_spec; lia). pose proof (get_num_pages_pos size ltac:(lia)) as Hn.
  pose proof (inv_pages _ _ _ Hi) as Hpg. pose proof (Allocate_sequence _ _ (get_num_pages size) (inv_owned _ _ _ Hi) ltac:(lia) Hn) as Ha.
  destruct (MEM_FreeLargest (mhandles s) <? get_num_pages size).
  { rewrite Ha. cbn [exec_bind Z.eqb]. by rewrite with_pages_same. }
  destruct Ha as (h & mh' & -> & Hh & Hnp & Hint & Hown & Hout). cbn [exec_bind].
  unfold XMS_START in Hh. destruct (Z.eqb_spec h 0); [lia|]. cbn [handles with_pages].
  rewrite (write_handle bl others) by (done || lia). cbn [exec_bind]. exists h, mh'. split; [done|]. split; [done|].
  split; [done|]. destruct (inv_split bl others s k [] (seqZ h (get_num_pages size)) Hi Hc) as (rest & Hp & Hp' & Ho).
  assert (seqZ h (get_num_pages size) <> []) as Hne.
  { intros E. apply (f_equal length) in E. rewrite length_seqZ in E. cbn in E. lia. }
  apply (inv_update bl others s k _ [] _ rest mh'); try done; try lia.
  - split; [cbn; lia|]. split; [cbn; lia|]. cbn. destruct (Z.eqb_spec size 0); [lia|].
    split; [done|]. rewrite seqZ_hd, length_seqZ by done. split; [done|]. split; [lia|by apply contiguous_seqZ].
  - rewrite real_blocks_one by done. eapply owned_perm; [|exact Hown]. cbn. f_equiv.
    rewrite Hp. cbn. by rewrite <- app_assoc.
Qed.
Lemma free_block_held : held free_block [].
Proof using. by split; [|split]. Qed.

Lemma release_none h mh : h <= 0 -> MEM_ReleasePages h mh = ok mh.
Proof using. intros Hh. unfold MEM_ReleasePages, walk_fuel. cbn. by destruct (Z.ltb_spec 0 h); [lia|]. Qed.
(** Freeing: the error, or the entry is empty again and exactly its pages are free. *)
Lemma free_spec bl others s h :
  xms_inv bl others s ->
  if negb (xms_is_handle_valid h s) then xms_free_memory h s = ok (XmsInvalidHandle, s) else
  exists b c, get (handles s) h = Some b /\ bl !! Z.to_nat h = Some c /\ 0 < h < 128 /\
  if negb (lock_count b =? 0) then xms_free_memory h s = ok (XmsBlockLocked, s) else
  exists mh', let s' := with_handles (upd (handles s) h free_block) (with_pages mh' s) in
    xms_free_memory h s = ok (OK, s') /\ xms_inv (<[Z.to_nat h := []]> bl) others s' /\
    forall i, get mh' i = if decide (i ∈ c) then Some 0 else get (mhandles s) i.
Proof using.
  intros Hi. unfold xms_free_memory. destruct (xms_is_handle_valid h s) eqn:Hv; cbn [negb]; [|done].
  apply valid_handle in Hv as (Hh & b & Hb & Hf). rewrite (read_get _ _ _ Hb). cbn [exec_bind].
  destruct (held_at bl others s h b Hi Hb) as (c & Hc & Hheld). exists b, c. do 3 (split; [done|]).
  destruct (Z.eqb_spec (lock_count b) 0); cbn [negb]; [|done].
  destruct (inv_split bl others s h c [] Hi Hc) as (rest & Hp & Hp' & Ho).
  destruct Hheld as (_ & _ & Hheld). rewrite Hf in Hheld.
  assert (exists mh', MEM_ReleasePages (mem_handle b) (mhandles s) = ok mh' /\ npages mh' = npages (mhandles s) /\
            owned mh' (rest ++ others) /\ forall i, get mh' i = if decide (i ∈ c) then Some 0 else get (mhandles s) i)
    as (mh' & -> & Hnp & Hown & Hget).
  { destruct (size_kb b =? 0).
    - destruct Hheld as [-> Hle]. exists (mhandles s). rewrite release_none by done. do 3 (split; [done|]).
      intros i. by rewrite decide_False by apply not_elem_of_nil.
    - destruct Hheld as (Hne & -> & _). rewrite real_blocks_one in Ho by done. by apply Release_owned. }
  cbn [exec_bind]. rewrite (write_handle bl others) by (done || lia). cbn [exec_bind]. exists mh'.
  split; [done|]. split; [|done]. apply (inv_update bl others s h _ c [] rest mh'); try done; first [lia|apply free_block_held].
Qed.
Lemma free_keeps bl others s h : xms_inv bl others s -> keeps bl others s (xms_free_memory h s).
Proof using.
  intros Hi. pose proof (free_spec bl others s h Hi) as Hs. destruct (negb (xms_is_handle_valid h s)).
  { rewrite Hs. by apply keeps_same. }
  destruct Hs as (b & c & _ & _ & _ & Hs). destruct (negb (lock_count b =? 0)).
  { rewrite Hs. by apply keeps_same. }
  destruct Hs as (mh' & -> & Hi' & _). by eexists _, _, _.
Qed.

Lemma held_locks b c n : held b c -> is_free b = false -> 0 <= n < 256 -> held (mkXmsBlock (size_kb b) (mem_handle b) n (is_free b)) c.
Proof using. intros (Hz & _ & Hh) Hf Hn. split; [done|]. split; [done|]. cbn. by rewrite Hf in *. Qed.
Lemma lock_keeps bl others s h : xms_inv bl others s ->
  exists res a s' bl', xms_lock_memory h s = ok (res, a, s') /\ xms_inv bl' others s' /\
    xms_available s' = xms_available s /\ callback s' = callback s.
Proof using.
  intros Hi. unfold xms_lock_memory. destruct (xms_is_handle_valid h s) eqn:Hv; cbn [negb]; [|by eexists _, _, s, bl].
  apply valid_handle in Hv as (Hh & b & Hb & Hf). rewrite (read_get _ _ _ Hb). cbn [exec_bind].
  destruct (Z.leb_spec 255 (lock_count b)); [by eexists _, _, s, bl|].
  rewrite (write_handle bl others) by (done || lia). cbn [exec_bind]. eexists _, _, _, bl. split; [done|]. split; [|done].
  destruct (held_at bl others s h b Hi Hb) as (c & Hc & Hheld). apply inv_relabel with c; try done; [lia|].
  apply held_locks; try done. destruct Hheld as (_ & ? & _). lia.
Qed.
Lemma unlock_keeps bl others s h : xms_inv bl others s -> keeps bl others s (xms_unlock_memory h s).
Proof using.
  intros Hi. unfold xms_unlock_memory. destruct (xms_is_handle_valid h s) eqn:Hv; cbn [negb]; [|by apply keeps_same].
  apply valid_handle in Hv as (Hh & b & Hb & Hf). rewrite (read_get _ _ _ Hb). cbn [exec_bind].
  destruct (nz (lock_count b)) eqn:Hn; [|by apply keeps_same]. apply nz_spec in Hn.
  rewrite (write_handle bl others) by (done || lia). cbn [exec_bind]. eexists _, _, bl. split; [done|]. split; [|done].
  destruct (held_at bl others s h b Hi Hb) as (c & Hc & Hheld). apply inv_relabel with c; try done; [lia|].
  apply held_locks; try done. destruct Hheld as (_ & ? & _). lia.
Qed.
Lemma information_total bl others s h : xms_inv bl others s -> exists info, xms_get_handle_information h s = ok info.
Proof using.
  intros Hi. unfold xms_get_handle_information. destruct (xms_is_handle_valid h s) eqn:Hv; cbn [negb]; [|by eexists].
  apply valid_handle in Hv as (Hh & b & Hb & Hf). rewrite (read_get _ _ _ Hb). by eexists.
Qed.

(** The page number that goes with the pages of a block. *)
Definition heads (h : Z) (c : list Z) : Prop := if decide (c = []) then h <= 0 else h = hd 0 c /\ contiguous c.
Lemma heads_cons h c : c <> [] -> h = hd 0 c -> contiguous c -> heads h c.
Proof using. intros. unfold heads. by rewrite decide_False. Qed.

(** What [MEM_ReAllocatePages] does for the driver. *)
Definition reallocated others (c : list Z) (h n : Z) (mh : list Z) (m : M) (r : exec (bool * Z * list Z * M)) : Prop :=
  exists success h' mh' m', r = ok (success, h', mh', m') /\ npages mh' = npages mh /\
    (forall q i, q ∈ concat others -> 0 <= i < DosPageSize -> readb (q * DosPageSize + i) m' = readb (q * DosPageSize + i) m) /\
    if success : bool then
      exists c', heads h' c' /\ Z.of_nat (length c') = n /\ owned mh' (real_blocks [c'] ++ others) /\ same_contents c c' m m'
    else heads h' c /\ mh' = mh /\ m' = m /\ MEM_FreeLargest mh < n.
Lemma reallocate_spec others (c : list Z) (h n : Z) (mh : list Z) (m : M) :
  heads h c -> owned mh (real_blocks [c] ++ others) -> XMS_START <= npages mh <= 1048576 -> 0 <= n ->
  reallocated others c h n mh m (MEM_ReAllocatePages h n true mh m).
Proof using Type*.
  intros Hc Hown Hpg Hn. unfold heads in Hc. destruct (decide (c = [])) as [->|Hne].
  - cbn [real_blocks filter app] in Hown. change (owned mh others) in Hown.
    assert (forall c', same_contents [] c' m m) as Hsame by (intros c' k p q Hk; done).
    unfold MEM_ReAllocatePages. destruct (Z.leb_spec h 0); [|lia].
    destruct (Z.eqb_spec n 0) as [->|Hn0].
    { exists true, h, mh, m. do 3 (split; [done|]). by exists []. }
    pose proof (Allocate_sequence mh others n Hown ltac:(lia) ltac:(lia)) as Ha.
    destruct (Z.ltb_spec (MEM_FreeLargest mh) n).
    { rewrite Ha. exists false, 0, mh, m. by do 3 (split; [done|]). }
    destruct Ha as (k & mh' & -> & Hk & Hnp & _ & Ho & _). cbn [exec_bind]. unfold XMS_START in Hk.
    destruct (Z.ltb_spec 0 k); [|lia]. exists true, k, mh', m. do 3 (split; [done|]). exists (seqZ k n).
    assert (seqZ k n <> []) as Hs by (intros E; apply (f_equal length) in E; rewrite length_seqZ in E; cbn in E; lia).
    split; [apply heads_cons; [done|by rewrite seqZ_hd by lia|apply contiguous_seqZ; lia]|].
    split; [rewrite length_seqZ; lia|]. rewrite real_blocks_one by done. split; [exact Ho|apply Hsame].
  - destruct Hc as [-> Hcont]. rewrite real_blocks_one in Hown by done.
    destruct (ReAllocate_resized mh c others n true m Hown Hpg Hn (fun _ => Hcont))
      as (success & h' & mh' & m' & -> & Hnp & Hout & Hr).
    exists success, h', mh', m'. split; [done|]. split; [done|]. split; [done|].
    destruct (Z.eqb_spec n 0) as [->|Hn0].
    { destruct Hr as (-> & -> & Ho & ->). exists []. split; [done|]. split; [done|]. split; [exact Ho|]. by intros k p q _ Hk. }
    destruct success.
    + destruct Hr as (c' & -> & Hl & Ho & Hs & Hct). exists c'. assert (c' <> []) as Hne' by (intros ->; cbn in Hl; lia).
      split; [by apply heads_cons; auto|]. split; [done|]. by rewrite real_blocks_one.
    + destruct Hr as (-> & -> & -> & _ & Hlt). split; [by apply heads_cons|done].
Qed.

Lemma held_heads b c : held b c -> is_free b = false -> heads (mem_handle b) c /\ Z.of_nat (length c) = get_num_pages (size_kb b).
Proof using.
  intros (Hz & _ & Hh) Hf. rewrite Hf in Hh. unfold heads. destruct (Z.eqb_spec (size_kb b) 0) as [E|].
  - destruct Hh as [-> Hle]. by rewrite E.
  - destruct Hh as (Hne & -> & Hl & Hc). by rewrite decide_False.
Qed.
Lemma heads_held size h c n : heads h c -> Z.of_nat (length c) = get_num_pages size -> 0 <= size < 2 ^ 32 -> 0 <= n < 256 ->
  held (mkXmsBlock size h n false) c.
Proof using.
  intros Hh Hl Hz Hn. split; [done|]. split; [done|]. cbn. unfold heads in Hh. destruct (Z.eqb_spec size 0) as [->|Hne].
  - change (get_num_pages 0) with 0 in Hl. destruct c; [by rewrite decide_True in Hh|cbn [length] in Hl; lia].
  - pose proof (get_num_pages_pos size ltac:(lia)). assert (c <> []) as Hc by (intros ->; cbn in Hl; lia).
    rewrite decide_False in Hh by done. by destruct Hh.
Qed.

(** Resizing: the error, or the block has the new size, its first pages have the old
    contents, and no other block is touched. *)
Lemma resize_spec bl others s h size :
  xms_inv bl others s -> 0 <= size < 2 ^ 32 ->
  if negb (xms_is_handle_valid h s) then xms_resize_memory h size s = ok (XmsInvalidHandle, s) else
  exists b c, get (handles s) h = Some b /\ bl !! Z.to_nat h = Some c /\ 0 < h < 128 /\
  if 0 <? lock_count b then xms_resize_memory h size s = ok (XmsBlockLocked, s) else
  exists s' c', let bl' := <[Z.to_nat h := c']> bl in
    (forall j q i, j <> Z.to_nat h -> (exists d, bl !! j = Some d /\ q ∈ d) -> 0 <= i < DosPageSize ->
       readb (q * DosPageSize + i) (mem (dos s')) = readb (q * DosPageSize + i) (mem (dos s))) /\
    xms_inv bl' others s' /\ xms_available s' = xms_available s /\ callback s' = callback s /\
    ((xms_resize_memory h size s = ok (OK, s') /\ same_contents c c' (mem (dos s)) (mem (dos s')) /\
      exists b', get (handles s') h = Some b' /\ size_kb b' = size /\ Z.of_nat (length c') = get_num_pages size) \/
     (xms_resize_memory h size s = ok (XmsOutOfSpace, s') /\ c' = c /\ mem (dos s') = mem (dos s) /\
      mhandles s' = mhandles s /\ MEM_FreeLargest (mhandles s) < get_num_pages size)).
Proof using Type*.
  intros Hi Hz. unfold xms_resize_memory. destruct (xms_is_handle_valid h s) eqn:Hv; cbn [negb]; [|done].
  apply valid_handle in Hv as (Hh & b & Hb & Hf). rewrite (read_get _ _ _ Hb). cbn [exec_bind].
  destruct (held_at bl others s h b Hi Hb) as (c & Hc & Hheld). exists b, c. do 3 (split; [done|]).
  destruct (0 <? lock_count b); [done|]. destruct (held_heads b c Hheld Hf) as [Hhd Hlen].
  pose proof (proj1 (proj2 Hheld)) as Hlk.
  destruct (inv_split bl others s h c c Hi Hc) as (rest & Hp & Hp' & Ho).
  pose proof (get_num_pages_spec size ltac:(lia)) as Hnp.
  destruct (reallocate_spec (rest ++ others) c (mem_handle b) (get_num_pages size) (mhandles s) (mem (dos s)))
    as (success & h' & mh' & m' & -> & Enp & Hout & Hr); [done|done|apply Hi|lia|]. cbn [exec_bind handles with_dos with_pages].
  rewrite (write_handle bl others) by (done || lia). cbn [exec_bind]. rewrite Hf.
  assert (forall j q i, j <> Z.to_nat h -> (exists d, bl !! j = Some d /\ q ∈ d) -> 0 <= i < DosPageSize ->
            readb (q * DosPageSize + i) m' = readb (q * DosPageSize + i) (mem (dos s))) as Hother.
  { intros j q i Hj (d & Hd & Hq) Hir. apply Hout; [|done]. rewrite concat_app, elem_of_app. left.
    destruct (real_blocks_split bl (Z.to_nat h) c [] Hc) as (rest' & Hp1 & Hp2).
    assert (rest ≡ₚ rest') as Hrr by (apply (Permutation_app_inv_l (real_blocks [c])); by rewrite <- Hp, <- Hp1).
    rewrite Hrr. cbn in Hp2. apply elem_of_concat. exists d. split; [done|].
    match goal with |- d ∈ ?l => change (d ∈ real_blocks [] ++ l) end. rewrite <- Hp2.
    apply list_elem_of_filter. split; [by intros ->; apply elem_of_nil in Hq|].
    apply list_elem_of_lookup. exists j. by rewrite list_lookup_insert_ne by congruence. }
  destruct success.
  - destruct Hr as (c' & Hhd' & Hlen' & Hown' & Hsame). match goal with |- context [ok (_, with_handles ?x ?y)] => exists (with_handles x y), c' end. split; [exact Hother|].
    destruct (real_blocks_split bl (Z.to_nat h) c c' Hc) as (rest' & Hp1 & Hp2).
    assert (rest ≡ₚ rest') as Hrr by (apply (Permutation_app_inv_l (real_blocks [c])); by rewrite <- Hp, <- Hp1).
    split; [|split; [done|split; [done|left]]].
    + assert (xms_inv bl others (with_dos (with_mem m' (dos s)) s)) as Hi2 by (by eapply inv_other).
      apply (inv_update bl others _ h (mkXmsBlock size h' (lock_count b) false) c c' rest' mh' Hi2); try done; [by apply heads_held|].
      eapply owned_perm; [|exact Hown']. by rewrite Hrr.
    + split; [done|]. split; [done|]. eexists. split; [apply get_upd_eq; rewrite (inv_handles _ _ _ Hi); lia|]. done.
  - destruct Hr as (Hhd' & -> & -> & Hlt). match goal with |- context [ok (_, with_handles ?x ?y)] => exists (with_handles x y), c end. split; [exact Hother|].
    split; [|split; [done|split; [done|right; done]]].
    rewrite list_insert_id by done. apply (inv_relabel bl others (with_dos _ (with_pages _ s)) h _ c); [|lia|done|].
    + rewrite with_pages_same. by eapply inv_other.
    + by apply heads_held; [| |apply Hheld|].
Qed.
Lemma resize_keeps bl others s h size : xms_inv bl others s -> 0 <= size < 2 ^ 32 -> keeps bl others s (xms_resize_memory h size s).
Proof using Type*.
  intros Hi Hz. pose proof (resize_spec bl others s h size Hi Hz) as Hs. destruct (negb (xms_is_handle_valid h s)).
  { rewrite Hs. by apply keeps_same. }
  destruct Hs as (b & c & _ & _ & _ & Hs). destruct (0 <? lock_count b); [rewrite Hs; by apply keeps_same|].
  destruct Hs as (s' & c' & _ & Hi' & E1 & E2 & [[-> _]|[-> _]]); by eexists _, s', _.
Qed.

(** ** Moves *)
Lemma block_bounds bl others s h b c :
  xms_inv bl others s -> get (handles s) h = Some b -> bl !! Z.to_nat h = Some c -> is_free b = false -> size_kb b <> 0 ->
  mem_handle b = hd 0 c /\ contiguous c /\ XMS_START <= hd 0 c /\ hd 0 c + Z.of_nat (length c) <= npages (mhandles s) /\
  size_kb b * 1024 <= Z.of_nat (length c) * 4096.
Proof using.
  intros Hi Hb Hc Hf Hz. destruct (held_at bl others s h b Hi Hb) as (c' & Hc' & Hh). rewrite Hc in Hc'. injection Hc' as <-.
  destruct Hh as (Hr & _ & Hh). rewrite Hf in Hh. rewrite (proj2 (Z.eqb_neq _ _) Hz) in Hh.
  destruct Hh as (Hne & Hm & Hl & Hct). split; [done|]. split; [done|].
  destruct (inv_split bl others s h c c Hi Hc) as (rest & _ & _ & Ho). rewrite real_blocks_one in Ho by done.
  destruct (owned_pages _ _ _ Ho) as (_ & Hs & _). pose proof (owned_xms _ _ Ho) as Hx. cbn [concat app] in Hx.
  apply list.Forall_app in Hx as [Hx _]. rewrite list.Forall_forall in Hx.
  assert (hd 0 c ∈ c) as Hin by (destruct c; [done|left]). split; [by apply Hx|].
  pose proof (get_num_pages_spec (size_kb b) ltac:(lia)). split; [|lia].
  assert (0 < length c)%nat by (destruct c; [done|cbn; lia]).
  assert (hd 0 c + Z.of_nat (length c) - 1 ∈ c) as Hla by (pose proof Hct as E; unfold contiguous in E; rewrite E at 3; apply elem_of_seqZ; lia).
  pose proof (seg_range _ _ _ _ _ Hs Hla). lia.
Qed.

(** Whether an end of a move is accepted, and where it is. *)
Definition end_error (h offset length : Z) (invalid : Result * Result) s : option Result :=
  if nz h then
    if negb (xms_is_handle_valid h s) then Some (fst invalid) else
    let size := size_kb (default free_block (get (handles s) h)) * 1024 in
    if size <=? offset then Some (snd invalid) else if size - offset <? length then Some XmsInvalidLength else None
  else if 0x10FFF0 <? u32 (RealToPhysical offset + length) then Some XmsInvalidLength else None.
Definition end_address (h offset : Z) s : Z :=
  if nz h then mem_handle (default free_block (get (handles s) h)) * 4096 + offset else RealToPhysical offset.
Lemma move_end_spec bl others s h offset length invalid :
  xms_inv bl others s -> 0 <= offset < 2 ^ 32 ->
  move_end h offset length invalid s =
  ok (match end_error h offset length invalid s with Some e => inl e | None => inr (end_address h offset s) end).
Proof using.
  intros Hi Ho. unfold move_end, end_error, end_address. destruct (nz h); [|by destruct (_ <? _)].
  destruct (xms_is_handle_valid h s) eqn:Hv; cbn [negb]; [|done].
  apply valid_handle in Hv as (Hh & b & Hb & Hf). rewrite (read_get _ _ _ Hb), Hb. cbn [exec_bind from_option id].
  destruct (held_at bl others s h b Hi Hb) as (c & Hc & Hheld). pose proof (proj1 Hheld) as Hz.
  pose proof (inv_pages _ _ _ Hi) as [_ Hp].
  destruct (Z.eq_dec (size_kb b) 0) as [E|Hne].
  { rewrite E. change (u32 (0 * 1024)) with 0. change (0 * 1024) with 0. destruct (Z.leb_spec 0 offset); [done|lia]. }
  destruct (block_bounds bl others s h b c Hi Hb Hc Hf Hne) as (-> & _ & Hx & Hend & Hle). unfold XMS_START in Hx.
  rewrite (u32_small (size_kb b * 1024)) by lia.
  destruct (Z.leb_spec (size_kb b * 1024) offset); [done|]. destruct (_ <? length); [done|]. do 2 f_equal.
  unfold MemPageSize. rewrite (u32_small (hd 0 c)), (u32_small (hd 0 c * 4096)), u32_small by lia. done.
Qed.

(** With the gate on, the memory behind it is the memory. *)
Lemma memcpy_gated d src n (m : M) : mem_memcpy d src n (mkGated m true) = mkGated (mem_memcpy d src n m) true.
Proof using. revert d src m. induction n as [|n IH]; intros d src m; [done|]. cbn [mem_memcpy]. apply (IH _ _ (writeb d (readb src m) m)). Qed.
Lemma move_bytes_spec bl others s d src n :
  xms_inv bl others s ->
  exists s', move_bytes d src n s = ok s' /\ xms_inv bl others s' /\
    dos s' = with_mem (mem_memcpy d src (Z.to_nat n) (mem (dos s))) (dos s) /\
    handles s' = handles s /\ mhandles s' = mhandles s /\ num_times_enabled s' = num_times_enabled s /\
    a20_is_enabled s' = a20_is_enabled s /\ xms_available s' = xms_available s /\ callback s' = callback s.
Proof using.
  intros Hi. pose proof (inv_port _ _ _ Hi) as [Hp Hb0]. pose proof (inv_count _ _ _ Hi) as Hn.
  unfold move_bytes. destruct (nz n) eqn:En.
  2: { assert (n = 0) as -> by (destruct (Z.eq_dec n 0); [done|apply nz_spec in n0; congruence]).
       exists s. split; [done|]. split; [done|]. cbn. by destruct (dos s). }
  cbv zeta. destruct (a20_enable_spec true (with_count (enable_global s) (u32 (num_times_enabled s + 1)) s))
    as (p & -> & Hr & P0 & P1); [done..|]. cbn [exec_bind].
  assert (a20_is_enabled (with_port92 p (with_count (enable_global s) (u32 (num_times_enabled s + 1)) s)) = true) as ->
    by (unfold a20_is_enabled; cbn; by rewrite bit1).
  rewrite memcpy_gated. cbn [ram dos with_port92 with_count num_times_enabled with_dos enable_global].
  assert (u32 (u32 (num_times_enabled s + 1) - 1) = num_times_enabled s) as Eu.
  { unfold u32. rewrite Zminus_mod_idemp_l. replace (num_times_enabled s + 1 - 1) with (num_times_enabled s) by lia. by apply u32_small. }
  rewrite Eu. pose proof (inv_gate _ _ _ Hi) as Hg.
  match goal with |- context [a20_enable false ?t] => set (s1 := t) end.
  assert (forall q, 0 <= q < 256 -> Z.testbit q 0 = false -> Z.testbit q 1 = a20_is_enabled s ->
            xms_inv bl others (with_port92 q s1) /\ a20_is_enabled (with_port92 q s1) = a20_is_enabled s) as Hq.
  { intros q Hq Hq0 Hq1. assert (a20_is_enabled (with_port92 q s1) = a20_is_enabled s) as E by (unfold a20_is_enabled at 1; cbn; by rewrite bit1).
    split; [|done]. split; cbn; try apply Hi; try done. by rewrite E. }
  destruct (a20_is_enabled s) eqn:Ea; cbn [negb].
  - exists s1. split; [done|]. destruct (Hq p Hr P0 P1) as [Hi' Ha']. split; [by apply (inv_other _ _ _ s1) in Hi'|].
    do 4 (split; [done|]). split; [exact Ha'|done].
  - destruct (a20_enable_spec false s1) as (q & -> & Hqr & Q0 & Q1); [done..|].
    eexists. split; [done|]. destruct (Hq q Hqr Q0 Q1) as [Hi' Ha']. split; [done|]. do 4 (split; [done|]). by split.
Qed.

Lemma field_ranges a (g : Gated M) : 0 <= mem_unalignedreadd a g < 2 ^ 32.
Proof using Type*.
  unfold mem_unalignedreadd. cbn.
  assert (forall x k, 0 <= k <= 24 -> 0 <= Z.shiftl (readb x (ram g)) k < 2 ^ 32) as Hs.
  { intros x k Hk. pose proof (readb_range x (ram g)). rewrite Z.shiftl_mul_pow2 by lia.
    pose proof (Z.pow_le_mono_r 2 k 24 ltac:(lia) ltac:(lia)). pose proof (Z.pow_pos_nonneg 2 k ltac:(lia) ltac:(lia)). nia. }
  assert (forall x, 0 <= readb x (ram g) < 2 ^ 32) as Hr by (intros x; pose proof (readb_range x (ram g)); lia).
  repeat apply (lor_fits 32); try lia; try (by apply Hs); apply Hr.
Qed.
Lemma move_keeps bl others s bpt : xms_inv bl others s -> keeps bl others s (xms_move_memory bpt s).
Proof using Type*.
  intros Hi. unfold xms_move_memory. cbv zeta. set (g := mkGated _ _). destruct (nz _); [by apply keeps_same|].
  rewrite (move_end_spec bl others) by (done || apply field_ranges). cbn [exec_bind].
  destruct (end_error _ _ _ _ s); [by apply keeps_same|].
  rewrite (move_end_spec bl others) by (done || apply field_ranges). cbn [exec_bind].
  destruct (end_error _ _ _ _ s); [by apply keeps_same|].
  destruct (move_bytes_spec bl others s (end_address (mem_unalignedreadw (PhysPt (bpt + 10)) g) (mem_unalignedreadd (PhysPt (bpt + 12)) g) s)
    (end_address (mem_unalignedreadw (PhysPt (bpt + 4)) g) (mem_unalignedreadd (PhysPt (bpt + 6)) g) s)
    (mem_unalignedreadd (PhysPt (bpt + 0)) g) Hi) as (s' & -> & Hi' & Hrest). cbn [exec_bind].
  exists OK, s', bl. split; [done|]. split; [done|apply Hrest].
Qed.

(** ** The handler *)
Lemma keeps_bind {A B} bl others s (call : exec (A * Xms M)) (k : A * Xms M -> exec (B * Xms M)) :
  keeps bl others s call -> (forall a s', exists b, k (a, s') = ok (b, s')) -> keeps bl others s (exec_bind call k).
Proof using.
  intros (a & s' & bl' & -> & Hi' & E) Hk. destruct (Hk a s') as (b & Eb). cbn [exec_bind]. rewrite Eb. by exists b, s', bl'.
Qed.
Lemma returns_keeps bl others s call r : keeps bl others s call -> keeps bl others s (returns call r).
Proof using. intros Hc. apply keeps_bind; [done|]. intros a s'. by eexists. Qed.
Lemma global_enable_keeps bl others s r : xms_inv bl others s -> keeps bl others s (global_enable_a20 r s).
Proof using.
  intros Hi. unfold global_enable_a20. destruct (enable_global s); cbn [negb]; [by apply keeps_same|].
  destruct (local_enable_keeps bl others s Hi) as (a & s' & bl' & -> & Hi' & E). cbn [exec_bind].
  eexists _, _, bl'. split; [done|]. destruct (decide (a = OK)); [|done]. split; [|done]. by eapply inv_other.
Qed.
Lemma global_disable_keeps bl others s r : xms_inv bl others s -> keeps bl others s (global_disable_a20 r s).
Proof using.
  intros Hi. unfold global_disable_a20. destruct (enable_global s); [|by apply keeps_same].
  destruct (local_disable_keeps bl others s Hi) as (a & s' & bl' & -> & Hi' & E). cbn [exec_bind].
  eexists _, _, bl'. split; [done|]. destruct (decide (a = OK)); [|done]. split; [|done]. by eapply inv_other.
Qed.
Lemma allocate_keeps bl others s size r : xms_inv bl others s -> 0 < size < 2 ^ 32 -> keeps bl others s (allocate_block size r s).
Proof using.
  intros Hi Hz. pose proof (allocate_spec bl others s size Hi Hz) as Ha. unfold allocate_block.
  destruct (free_handle _ 1) as [k|]; [|by rewrite Ha; apply keeps_same].
  destruct (_ <? _); [by rewrite Ha; apply keeps_same|].
  destruct Ha as (h & mh' & -> & _ & _ & Hi'). cbn [exec_bind]. eexists _, _, _. split; [done|]. by split.
Qed.
Lemma umb_keeps bl others s r : xms_inv bl others s -> keeps bl others s (ok (release_umb r s)).
Proof using.
  intros Hi. unfold release_umb. destruct (negb (umb_available s)); [by apply keeps_same|].
  destruct (negb _); [|by apply keeps_same]. destruct (DOS_FreeMemory (reg_dx r) (dos s)) as [[] d];
    (eexists _, _, bl; split; [done|]; split; [by eapply inv_other|done]).
Qed.
Lemma hma_keeps bl others s r : xms_inv bl others s ->
  keeps bl others s (ok (request_hma r s)) /\ keeps bl others s (ok (release_hma r s)).
Proof using.
  intros Hi. unfold request_hma, release_hma.
  split; repeat (match goal with |- context [if ?b then _ else _] => destruct b end; try by apply keeps_same);
    (eexists _, _, bl; split; [done|]; split; [by eapply inv_other|done]).
Qed.
Lemma info_keeps bl others s h (k : option (Z * Z * Z) -> CPU_Regs) : xms_inv bl others s ->
  keeps bl others s (let* info := xms_get_handle_information h s in ok (k info, s)).
Proof using. intros Hi. destruct (information_total bl others s h Hi) as [info ->]. by apply keeps_same. Qed.

Lemma handler_inv fuel ds_base bl others r s :
  xms_inv bl others s -> 0 <= reg_edx r < 2 ^ 32 -> 0 <= reg_ebx r < 2 ^ 32 ->
  (reg_ah r = 0x09 -> reg_dx r <> 0) -> (reg_ah r = 0x89 -> reg_edx r <> 0) -> reg_ah r <> 0x10 ->
  keeps bl others s (XMS_Handler fuel ds_base r s).
Proof using Type*.
  intros Hi Hdx Hbx H9 H89 H10. unfold XMS_Handler. cbv zeta.
  pose proof (u16_range (reg_edx r) : 0 <= reg_dx r < 65536). pose proof (u16_range (reg_ebx r) : 0 <= reg_bx r < 65536).
  destruct (Z.eqb_spec (reg_ah r) 0x10) as [?|_]; [done|].
  repeat match goal with |- context [if reg_ah r =? ?k then _ else _] => destruct (Z.eqb_spec (reg_ah r) k) end;
    try by apply keeps_same.
  - by apply hma_keeps.
  - by apply hma_keeps.
  - by apply global_enable_keeps.
  - by apply global_disable_keeps.
  - by apply returns_keeps, local_enable_keeps.
  - by apply returns_keeps, local_disable_keeps.
  - apply allocate_keeps; [done|]. specialize (H9 ltac:(done)). lia.
  - by apply returns_keeps, free_keeps.
  - apply keeps_bind; [by apply move_keeps|]. intros a s'. by eexists.
  - destruct (lock_keeps bl others s (reg_dx r) Hi) as (res & a & s' & bl' & E & Hi' & E'). unfold lock_block. rewrite E.
    cbn [exec_bind]. by eexists _, s', bl'.
  - by apply returns_keeps, unlock_keeps.
  - unfold handle_information. by apply info_keeps.
  - apply returns_keeps, resize_keeps; [done|lia].
  - by apply umb_keeps.
  - apply allocate_keeps; [done|]. specialize (H89 ltac:(done)). lia.
  - by apply info_keeps.
  - by apply returns_keeps, resize_keeps.
Qed.
End Invariant.
