(* ===== verification/XmsMove.v ===== *)
(** * What the XMS driver guarantees

    From the constructor through any calls to the destructor; block moves; and the
    block of size zero that shares its page with another block. *)
From S2P Require Import Prelude.
From S2P Require Import Registers.
From S2P Require Import GuestMemory.
From S2P Require Import GuestMemoryProofs.
From S2P Require Import PageAlloc.
From S2P Require Import PageSearch.
From S2P Require Import PageBlocks.
From S2P Require Import PageTheorems.
From S2P Require Import PageResize.
From S2P Require Import PageSpec.
From S2P Require Import DosMemory.
From S2P Require Import Xms.
From S2P Require Import XmsProofs.
#[local] Open Scope Z_scope.
#[local] Open Scope exec_scope.

Section Guarantees.
Context {M : Type} `{ByteMemoryLaws M}.
Implicit Types (s : Xms M) (r : CPU_Regs) (bl others : list (list Z)).

(** ** The life of the driver *)

(** Calls, each with its registers and the base of DS. *)
Fixpoint XMS_calls (fuel : nat) (calls : list (CPU_Regs * Z)) s : exec (Xms M) :=
  match calls with
  | [] => ok s
  | (r, ds_base) :: calls => let* (_, s) := XMS_Handler fuel ds_base r s in XMS_calls fuel calls s
  end.
(** No block of size zero is asked for, and no upper memory block. *)
Definition plain_call (r : CPU_Regs) : Prop :=
  0 <= reg_edx r < 2 ^ 32 /\ 0 <= reg_ebx r < 2 ^ 32 /\
  (reg_ah r = 0x09 -> reg_dx r <> 0) /\ (reg_ah r = 0x89 -> reg_edx r <> 0) /\ reg_ah r <> 0x10.
Lemma calls_keep fuel calls bl others s :
  xms_inv bl others s -> Forall (fun c => plain_call c.1) calls ->
  exists s' bl', XMS_calls fuel calls s = ok s' /\ xms_inv bl' others s' /\ xms_available s' = xms_available s.
Proof using Type*.
  revert bl s. induction calls as [|[r b] calls IH]; intros bl s Hi Hc; [by exists s, bl|].
  apply list.Forall_cons in Hc as [(Hdx & Hbx & H9 & H89 & H10) Hc]. cbn [XMS_calls].
  destruct (handler_inv fuel b bl others r s) as (a & s' & bl' & -> & Hi' & E & _); [done..|]. cbn [exec_bind].
  destruct (IH bl' s' Hi' Hc) as (s2 & bl2 & E2 & Hi2 & Ea). exists s2, bl2. split; [done|]. split; [done|]. congruence.
Qed.

Definition fresh_handles : list XMS_Block := mkXmsBlock 0 (-1) 0 false :: replicate 127 free_block.
Lemma fresh_held : Forall2 held fresh_handles (replicate 128 []).
Proof using.
  unfold fresh_handles. change (replicate 128 []) with (@nil Z :: replicate 127 []). constructor; [by repeat split|].
  apply (Forall2_replicate held 127), free_block_held.
Qed.
Lemma driver_setup fuel umb ems pcjr seg others s d :
  owned (mhandles s) others -> XMS_START <= npages (mhandles s) <= 1048576 ->
  0 <= port92 s < 256 -> Z.testbit (port92 s) 0 = false -> a20_is_enabled s = false ->
  DOS_BuildUMBChain fuel pcjr umb ems (dos s) = ok d ->
  exists s', XMS fuel true umb ems true pcjr seg s = ok s' /\ xms_inv (replicate 128 []) others s' /\
    xms_available s' = true /\ dos s' = d.
Proof using.
  intros Ho Hpg Hp Hb Ha Hd. unfold XMS. cbn [negb]. cbv zeta.
  change (write (replicate (Z.to_nat NumXmsHandles) free_block) 0 (mkXmsBlock 0 (-1) 0 false)) with (ok fresh_handles).
  cbn [exec_bind]. match goal with |- context [DOS_BuildUMBChain _ _ _ _ ?x] => change x with (dos s) end. rewrite Hd.
  cbn [exec_bind]. eexists. split; [done|]. split; [|done].
  split; cbn [handles mhandles port92 num_times_enabled with_dos with_umb_available with_handles with_xms with_count
                DOS_AddMultiplexHandler BIOS_ZeroExtendedSize with_system]; try done.
  apply fresh_held.
Qed.
Lemma free_all_spec n i bl others s :
  xms_inv bl others s -> 1 <= i -> i + Z.of_nat n = 128 ->
  (forall j, 1 <= j < i -> bl !! Z.to_nat j = Some []) ->
  exists s' bl', free_all n i s = ok s' /\ xms_inv bl' others s' /\ xms_available s' = xms_available s /\
    forall j, 1 <= j < 128 -> bl' !! Z.to_nat j = Some [].
Proof using.
  revert i bl s. induction n as [|n IH]; intros i bl s Hi Hge Hn Hdone; cbn [free_all].
  { exists s, bl. do 3 (split; [done|]). intros j Hj. apply Hdone. lia. }
  destruct (get_range (handles s) i) as [b Hb]; [rewrite (inv_handles _ _ _ Hi); lia|].
  destruct (held_at bl others s i b Hi Hb) as (c & Hc & Hheld). rewrite (read_get _ _ _ Hb). cbn [exec_bind].
  rewrite (write_handle bl others) by (done || lia). cbn [exec_bind]. set (b0 := mkXmsBlock _ _ 0 _).
  assert (held b0 c) as Hb0.
  { subst b0. destruct (is_free b) eqn:Ef; [|by rewrite <- Ef; apply held_locks; try done; rewrite Ef].
    destruct Hheld as (_ & _ & Hh). rewrite Ef in Hh. destruct Hh as [-> ->]. apply free_block_held. }
  set (s0 := with_handles _ s).
  assert (xms_inv bl others s0) as Hi0 by (apply inv_relabel with c; try done; lia).
  assert (get (handles s0) i = Some b0) as Hg0 by (apply get_upd_eq; rewrite (inv_handles _ _ _ Hi); lia).
  assert (forall bl' s', bl' !! Z.to_nat i = Some [] -> (forall j, j <> i -> 0 <= j -> bl' !! Z.to_nat j = bl !! Z.to_nat j) ->
            xms_inv bl' others s' -> xms_available s' = xms_available s ->
            exists s2 bl2, free_all n (i + 1) s' = ok s2 /\ xms_inv bl2 others s2 /\ xms_available s2 = xms_available s /\
              forall j, 1 <= j < 128 -> bl2 !! Z.to_nat j = Some []) as Hgo.
  { intros bl' s' Hz Hoth Hi' Ea. destruct (IH (i + 1) bl' s') as (s2 & bl2 & E & Hi2 & Ea2 & Hall); [done|lia|lia| |].
    - intros j Hj. destruct (Z.eq_dec j i) as [->|]; [done|]. rewrite Hoth by lia. apply Hdone. lia.
    - exists s2, bl2. do 2 (split; [done|]). split; [congruence|done]. }
  destruct (is_free b) eqn:Ef; cbn [negb exec_bind].
  - destruct Hheld as (_ & _ & Hh). rewrite Ef in Hh. destruct Hh as [-> _]. by apply (Hgo bl s0).
  - pose proof (free_spec bl others s0 i Hi0) as Hfree.
    assert (xms_is_handle_valid i s0 = true) as Hv.
    { unfold xms_is_handle_valid. rewrite Hg0. unfold NumXmsHandles. subst b0. cbn.
      destruct (Z.ltb_spec i 128); [|lia]. assert (nz i = true) as -> by (apply nz_spec; lia). done. }
    rewrite Hv in Hfree. cbn [negb] in Hfree. destruct Hfree as (b1 & c1 & Hb1 & Hc1 & _ & Hfree).
    rewrite Hg0 in Hb1. injection Hb1 as <-. change (lock_count b0) with 0 in Hfree. cbn [Z.eqb negb] in Hfree.
    destruct Hfree as (mh' & -> & Hi' & _). cbn [exec_bind]. eapply (Hgo _ _ _ _ Hi'); done.
    Unshelve.
    + apply list_lookup_insert_eq. by eapply lookup_lt_Some.
    + intros j Hj Hj0. apply list_lookup_insert_ne. lia.
Qed.
Lemma destroy_spec bl others s :
  xms_inv bl others s -> xms_available s = true ->
  exists s', XMS_destroy s = ok s' /\ owned (mhandles s') others /\ xms_available s' = false.
Proof using.
  intros Hi Ha. unfold XMS_destroy. cbv zeta. set (s0 := with_dos _ _).
  assert (xms_available s0 = true) as Ha0 by (subst s0; by destruct (umb_available s)). rewrite Ha0. cbn [negb].
  set (s1 := DOS_DeleteMultiplexHandler _).
  assert (xms_inv bl others s1) as Hi1 by (eapply inv_other; [exact Hi|..]; subst s1 s0; by destruct (umb_available s)).
  destruct (free_all_spec (Z.to_nat (NumXmsHandles - 1)) 1 bl others s1 Hi1) as (s' & bl' & -> & Hi' & _ & Hall);
    [done|done|lia|]. cbn [exec_bind]. eexists. split; [done|]. split; [|done]. cbn.
  pose proof (inv_owned _ _ _ Hi') as Ho. replace (real_blocks bl') with (@nil (list Z)) in Ho; [done|].
  symmetry. unfold real_blocks. assert (Forall (fun c => c = []) bl') as Hf.
  { apply list.Forall_forall. intros c Hc. apply list_elem_of_lookup in Hc as [j Hj].
    pose proof (lookup_lt_Some _ _ _ Hj) as Hlt. rewrite <- (Forall2_length (inv_held _ _ _ Hi')), (inv_handles _ _ _ Hi') in Hlt.
    destruct j as [|j]; [rewrite (inv_zero _ _ _ Hi') in Hj; congruence|].
    specialize (Hall (Z.of_nat (S j)) ltac:(lia)). rewrite Nat2Z.id in Hall. congruence. }
  clear -Hf. induction Hf as [|c l -> Hf IH]; [done|]. rewrite filter_cons_False by tauto. exact IH.
Qed.

(** ** Moves *)

(** The parameter block of a move. *)
Record move_params := mkMove { mv_length : Z; mv_src_handle : Z; mv_src : Z; mv_dest_handle : Z; mv_dest : Z }.
Definition read_params (bpt : Z) s : move_params :=
  let g := mkGated (mem (dos s)) (a20_is_enabled s) in
  mkMove (mem_unalignedreadd (PhysPt (bpt + 0)) g)
    (mem_unalignedreadw (PhysPt (bpt + 4)) g) (mem_unalignedreadd (PhysPt (bpt + 6)) g)
    (mem_unalignedreadw (PhysPt (bpt + 10)) g) (mem_unalignedreadd (PhysPt (bpt + 12)) g).
(** The error of a move, in the order of the checks. *)
Definition move_error (p : move_params) s : option Result :=
  if nz (mv_length p mod 2) then Some XmsParityError else
  match end_error (mv_src_handle p) (mv_src p) (mv_length p) (XmsInvalidSrcHandle, XmsInvalidSrcOffset) s with
  | Some e => Some e
  | None => end_error (mv_dest_handle p) (mv_dest p) (mv_length p) (XmsInvalidDestHandle, XmsInvalidDestOffset) s
  end.

Lemma RealToPhysical_range p : 0 <= RealToPhysical p <= 0x10FFEF.
Proof using.
  unfold RealToPhysical, RealOffset. pose proof (u16_range (Z.shiftr p 16)) as Hs. fold (RealSegment p) in Hs.
  pose proof (u16_range (Z.land p 0xffff)). rewrite Z.shiftl_mul_pow2 by lia. rewrite (u32_small (_ * _)) by lia.
  rewrite u32_small; lia.
Qed.

(** Where the bytes of an accepted end are. *)
Definition in_end (bl : list (list Z)) (h a n : Z) s : Prop :=
  0 <= a /\ a + n <= 2 ^ 32 /\
  if nz h then exists c, bl !! Z.to_nat h = Some c /\ c <> [] /\ contiguous c /\ XMS_START <= hd 0 c /\
                 hd 0 c * 4096 <= a /\ a + n <= (hd 0 c + Z.of_nat (length c)) * 4096
  else a + n <= 0x10FFF0.
Lemma end_placed bl others s h offset n invalid :
  xms_inv bl others s -> 0 <= offset -> 0 <= n -> (nz h = false -> n <= 0xFFEF0010) ->
  end_error h offset n invalid s = None -> in_end bl h (end_address h offset s) n s.
Proof using.
  intros Hi Ho Hn Hw. unfold end_error, end_address, in_end. destruct (nz h).
  - destruct (xms_is_handle_valid h s) eqn:Hv; cbn [negb]; [|done]. apply valid_handle in Hv as (Hh & b & Hb & Hf).
    rewrite Hb. cbn [from_option id]. destruct (Z.leb_spec (size_kb b * 1024) offset); [done|].
    destruct (Z.ltb_spec (size_kb b * 1024 - offset) n); [done|]. intros _.
    destruct (held_at bl others s h b Hi Hb) as (c & Hc & Hheld).
    destruct (block_bounds bl others s h b c Hi Hb Hc Hf ltac:(lia)) as (-> & Hct & Hx & Hend & Hle).
    pose proof (inv_pages _ _ _ Hi). unfold XMS_START in *. split; [lia|]. split; [lia|]. exists c. split; [done|].
    split; [intros ->; cbn in Hle; lia|]. split; [done|]. lia.
  - specialize (Hw eq_refl). pose proof (RealToPhysical_range offset). rewrite u32_small by lia.
    destruct (Z.ltb_spec 0x10FFF0 (RealToPhysical offset + n)); [done|]. intros _. lia.
Qed.

Lemma concat_disjoint (ls : list (list Z)) j k c d q :
  NoDup (concat ls) -> ls !! j = Some c -> ls !! k = Some d -> j <> k -> q ∈ c -> q ∉ d.
Proof using.
  revert j k. induction ls as [|l ls IH]; intros j k Hn Hj Hk Hne Hq Hd; [done|].
  cbn [concat] in Hn. apply list.NoDup_app in Hn as (_ & Hdis & Hn).
  assert (forall x i e, ls !! i = Some e -> x ∈ e -> x ∈ concat ls) as Hin
    by (intros x i e He Hx; apply elem_of_concat; exists e; split; [done|by eapply list_elem_of_lookup_2]).
  destruct j as [|j], k as [|k]; cbn in Hj, Hk; [done|..].
  - injection Hj as ->. by eapply Hdis, Hin.
  - injection Hk as ->. by eapply Hdis, Hin.
  - by apply (IH j k); auto.
Qed.
Lemma blocks_disjoint bl others s j k c d q :
  xms_inv bl others s -> bl !! j = Some c -> bl !! k = Some d -> j <> k -> q ∈ c -> q ∉ d.
Proof using.
  intros Hi. apply concat_disjoint. pose proof (owned_disjoint _ _ (inv_owned _ _ _ Hi)) as Hn.
  rewrite concat_app, concat_real_blocks in Hn. by apply list.NoDup_app in Hn as [Hn _].
Qed.
Lemma memcpy_outside n d a b (m : M) :
  0 <= d -> d + Z.of_nat n <= 2 ^ 32 -> b < d \/ d + Z.of_nat n <= b -> readb b (mem_memcpy d a n m) = readb b m.
Proof using Type*.
  revert d a m. induction n as [|n IH]; intros d a m Hd Hn Hb; [done|]. cbn [mem_memcpy].
  destruct n as [|n']; [cbn [mem_memcpy]; apply readb_writeb_ne; lia|].
  unfold PhysPt. rewrite (u32_small (d + 1)) by lia. rewrite IH by lia. apply readb_writeb_ne. lia.
Qed.
(** The bytes of a block that is not the destination are outside of it. *)
Lemma end_isolated bl others s h d n j c q i :
  xms_inv bl others s -> in_end bl h d n s -> bl !! j = Some c -> nz h = false \/ j <> Z.to_nat h -> q ∈ c ->
  0 <= i < DosPageSize -> q * DosPageSize + i < d \/ d + n <= q * DosPageSize + i.
Proof using.
  intros Hi (Hd & _ & He) Hc Hj Hq Hir. unfold DosPageSize in *.
  pose proof (owned_xms _ _ (inv_owned _ _ _ Hi)) as Hx. rewrite concat_app, concat_real_blocks in Hx.
  apply list.Forall_app in Hx as [Hx _]. rewrite list.Forall_forall in Hx. unfold XMS_START in *.
  assert (0x110 <= q) as Hqx by (apply Hx, elem_of_concat; exists c; split; [done|by eapply list_elem_of_lookup_2]).
  destruct (nz h) eqn:Eh; [|lia]. destruct He as (e & Hel & Hne & Hct & _ & Hlo & Hhi).
  destruct Hj as [?|Hj]; [done|].
  destruct (Z.lt_ge_cases q (hd 0 e)); [lia|]. destruct (Z.lt_ge_cases q (hd 0 e + Z.of_nat (length e))); [|lia].
  exfalso. apply (blocks_disjoint bl others s j (Z.to_nat h) c e q Hi Hc Hel Hj Hq).
  unfold contiguous in Hct. rewrite Hct. apply elem_of_seqZ. lia.
Qed.
End Guarantees.

(** ** The theorems *)

(** C32.  The driver accounts for its pages through its life.  The constructor, on a page
    table that other clients own blocks of, leaves no block to any handle; after
    any sequence of calls (with any registers, but no request for a block of size
    zero or for an upper memory block) the handles own pairwise disjoint blocks of
    consecutive pages of exactly their sizes, disjoint from those of the other
    clients, and the A20 gate is on exactly when its count is not zero; every call
    returns; and the destructor gives back all pages but those of the others. *)
Theorem driver_lifecycle {M} `{ByteMemoryLaws M} fuel umb ems pcjr seg others calls (s : Xms M) d :
  owned (Xms.mhandles s) others -> XMS_START <= npages (Xms.mhandles s) <= 1048576 ->
  0 <= port92 s < 256 -> Z.testbit (port92 s) 0 = false -> a20_is_enabled s = false ->
  DOS_BuildUMBChain fuel pcjr umb ems (dos s) = ok d -> Forall (fun c => plain_call c.1) calls ->
  exists s1 s2 s3 bl, XMS fuel true umb ems true pcjr seg s = ok s1 /\ xms_inv (replicate 128 []) others s1 /\
    XMS_calls fuel calls s1 = ok s2 /\ xms_inv bl others s2 /\
    XMS_destroy s2 = ok s3 /\ owned (Xms.mhandles s3) others.
Proof.
  intros Ho Hpg Hp Hb Ha Hd Hc. destruct (driver_setup fuel umb ems pcjr seg others s d) as (s1 & E1 & Hi1 & Ea1 & _); [done..|].
  destruct (calls_keep fuel calls _ others s1 Hi1 Hc) as (s2 & bl & E2 & Hi2 & Ea2).
  destruct (destroy_spec bl others s2 Hi2 ltac:(congruence)) as (s3 & E3 & Ho3 & _). by exists s1, s2, s3, bl.
Qed.

(** C33.  A move returns the first error of its parameters in the order of the checks,
    and changes nothing then.  Otherwise both ends lie inside their block, or inside
    the memory that real mode can address; exactly the destination is written,
    so that no block of any other handle changes; it then holds the bytes of
    the source, unless it starts inside of it; and the gate is as before.  (The
    check of two conventional ends is sound up to lengths of 4 GB less the
    addressable megabyte, where its sum wraps.) *)
Theorem move_correct {M} `{ByteMemoryLaws M} bl others (s : Xms M) bpt :
  xms_inv bl others s -> let p := read_params bpt s in
  nz (mv_src_handle p) || nz (mv_dest_handle p) = true \/ mv_length p <= 0xFFEF0010 ->
  match move_error p s with
  | Some e => xms_move_memory bpt s = ok (e, s)
  | None =>
      let a := end_address (mv_src_handle p) (mv_src p) s in
      let d := end_address (mv_dest_handle p) (mv_dest p) s in
      let n := mv_length p in
      in_end bl (mv_src_handle p) a n s /\ in_end bl (mv_dest_handle p) d n s /\
      exists s', xms_move_memory bpt s = ok (OK, s') /\ xms_inv bl others s' /\
        handles s' = handles s /\ a20_is_enabled s' = a20_is_enabled s /\
        (forall x, x < d \/ d + n <= x -> readb x (mem (dos s')) = readb x (mem (dos s))) /\
        (forall j c q i, bl !! j = Some c -> nz (mv_dest_handle p) = false \/ j <> Z.to_nat (mv_dest_handle p) -> q ∈ c ->
           0 <= i < DosPageSize -> readb (q * DosPageSize + i) (mem (dos s')) = readb (q * DosPageSize + i) (mem (dos s))) /\
        (d <= a \/ a + n <= d -> forall i, 0 <= i < n -> readb (d + i) (mem (dos s')) = readb (a + i) (mem (dos s)))
  end.
Proof.
  intros Hi p Hw. unfold xms_move_memory. cbv zeta.
  change (mem_unalignedreadd (PhysPt (bpt + 0)) _) with (mv_length p). change (mem_unalignedreadw (PhysPt (bpt + 4)) _) with (mv_src_handle p).
  change (mem_unalignedreadd (PhysPt (bpt + 6)) _) with (mv_src p). change (mem_unalignedreadw (PhysPt (bpt + 10)) _) with (mv_dest_handle p).
  change (mem_unalignedreadd (PhysPt (bpt + 12)) _) with (mv_dest p).
  assert (0 <= mv_length p < 2 ^ 32 /\ 0 <= mv_src p < 2 ^ 32 /\ 0 <= mv_dest p < 2 ^ 32) as (Hn & Hs & Hd)
    by (split; [|split]; apply field_ranges).
  clearbody p. unfold move_error. destruct (nz (mv_length p mod 2)); [done|].
  rewrite (move_end_spec bl others) by done. cbn [exec_bind].
  destruct (end_error (mv_src_handle p) _ _ _ s) eqn:Es; [done|].
  rewrite (move_end_spec bl others) by done. cbn [exec_bind].
  destruct (end_error (mv_dest_handle p) _ _ _ s) eqn:Ed; [done|].
  assert (mv_length p <= 0xFFEF0010) as Hlen.
  { destruct Hw as [Hw|]; [|done].
    assert (forall h off i1, 0 <= off -> nz h = true -> end_error h off (mv_length p) i1 s = None -> mv_length p <= 0xFFEF0010) as Hb.
    { intros h off i1 Ho Hh He. destruct (end_placed bl others s h off (mv_length p) i1 Hi Ho ltac:(lia) ltac:(congruence) He) as (_ & Hle & Hb).
      rewrite Hh in Hb. destruct Hb as (c & _ & _ & _ & Hx & Hlo & Hhi). unfold XMS_START in Hx. lia. }
    apply orb_true_iff in Hw as [Hw|Hw]; [eapply Hb; [apply Hs|done|exact Es]|eapply Hb; [apply Hd|done|exact Ed]]. }
  pose proof (end_placed bl others s _ _ _ _ Hi (proj1 Hs) (proj1 Hn) ltac:(done) Es) as Pa.
  pose proof (end_placed bl others s _ _ _ _ Hi (proj1 Hd) (proj1 Hn) ltac:(done) Ed) as Pd.
  split; [done|]. split; [done|].
  destruct (move_bytes_spec bl others s (end_address (mv_dest_handle p) (mv_dest p) s) (end_address (mv_src_handle p) (mv_src p) s) (mv_length p) Hi)
    as (s' & -> & Hi' & Em & Eh & _ & _ & Eg & _). cbn [exec_bind]. exists s'. do 4 (split; [done|]). rewrite Em. cbn [mem with_mem].
  pose proof Pd as (Hd0 & Hd1 & _). pose proof Pa as (Ha0 & Ha1 & _).
  assert (forall x, x < end_address (mv_dest_handle p) (mv_dest p) s \/ end_address (mv_dest_handle p) (mv_dest p) s + mv_length p <= x ->
            readb x (mem_memcpy (end_address (mv_dest_handle p) (mv_dest p) s) (end_address (mv_src_handle p) (mv_src p) s)
              (Z.to_nat (mv_length p)) (mem (dos s))) = readb x (mem (dos s))) as Hout
    by (intros x Hx; apply memcpy_outside; rewrite ?Z2Nat.id; lia).
  split; [done|]. split; [intros j c q i Hc Hj Hq Hir; by apply Hout, (end_isolated bl others s (mv_dest_handle p) _ _ j c q i)|].
  intros Ho i Hir. apply memcpy_spec; rewrite ?Z2Nat.id; lia.
Qed.

Lemma release_single h mh : 0 < h -> get mh h = Some (-1) -> MEM_ReleasePages h mh = ok (upd mh h 0).
Proof.
  intros Hh Hg. pose proof (get_Some_range _ _ _ Hg) as Hr. unfold MEM_ReleasePages, walk_fuel. cbn [Release_loop].
  destruct (Z.ltb_spec 0 h); [|lia]. rewrite (read_get mh h (-1)) by done. cbn [exec_bind]. rewrite write_upd by lia. cbn [exec_bind].
  by destruct (length mh) as [|n'] eqn:E0; [lia|].
Qed.

(** A block of size zero shares its page with another block: allocating nothing
    records the next free page without taking it, so the block allocated next gets
    that page, and freeing the empty block frees it; the other handle stays valid
    and keeps its page number, while the page is free for the next allocation. *)
Theorem zero_size_alias {M} `{ByteMemoryLaws M} bl others (s : Xms M) k1 k2 size :
  xms_inv bl others s -> 0 < size <= 4 ->
  let h := MEM_GetNextFreePage (Xms.mhandles s) in h <> 0 ->
  free_handle (drop 1 (handles s)) 1 = Some k1 ->
  free_handle (drop 1 (upd (handles s) k1 (mkXmsBlock 0 h 0 false))) 1 = Some k2 ->
  exists s1 s2 s3, xms_allocate_memory 0 s = ok (OK, k1, s1) /\ xms_allocate_memory size s1 = ok (OK, k2, s2) /\
    xms_free_memory k1 s2 = ok (OK, s3) /\ xms_is_handle_valid k2 s3 = true /\
    get (handles s3) k2 = Some (mkXmsBlock size h 0 false) /\ get (Xms.mhandles s3) h = Some 0.
Proof.
  intros Hi Hsize h Hh Hk1 Hk2. destruct (free_handle_held bl others s k1 Hi Hk1) as [Hr1 _].
  pose proof (inv_handles _ _ _ Hi) as Hlen. pose proof (inv_pages _ _ _ Hi) as Hpg.
  set (b1 := mkXmsBlock 0 h 0 false) in *. set (h1 := upd (handles s) k1 b1) in *.
  assert (length h1 = 128%nat) as Hl1 by (unfold h1; by rewrite length_upd).
  pose proof (free_handle_spec (drop 1 h1) 1) as Hs2. rewrite Hk2 in Hs2. destruct Hs2 as (Hr2 & b & Hb & Hf).
  rewrite length_drop, Hl1 in Hr2. rewrite lookup_drop in Hb. replace (1 + Z.to_nat (k2 - 1))%nat with (Z.to_nat k2) in Hb by lia.
  assert (k1 <> k2) as Hne.
  { intros <-. assert (h1 !! Z.to_nat k1 = Some b1) as E by (apply list_lookup_insert_eq; lia). rewrite E in Hb. by injection Hb as <-. }
  assert (get_num_pages size = 1) as En by (assert (size = 1 \/ size = 2 \/ size = 3 \/ size = 4) as [-> | [-> | [-> | ->]]] by lia; done).
  destruct (BestMatch_spec (Xms.mhandles s) 1 ltac:(lia) ltac:(lia)) as [[? _]|(_ & n & ((Hx & Hn & Hfree) & _) & _)]; [done|].
  fold h in Hx, Hfree. change (BestMatch 1 (Xms.mhandles s)) with h in Hx, Hfree.
  pose proof (get_Some_range _ _ _ (Hfree h ltac:(lia))) as Hhr.
  eexists (with_handles h1 s), _, _. split.
  { unfold xms_allocate_memory. rewrite Hk1. cbn [nz Z.eqb negb]. fold h. rewrite write_upd by (rewrite Hlen; lia). done. }
  split.
  { unfold xms_allocate_memory. cbn [handles with_handles with_xms Xms.mhandles]. rewrite Hk2.
    assert (nz size = true) as -> by (apply nz_spec; lia). rewrite En. unfold MEM_AllocatePages. cbn [Z.eqb].
    change (BestMatch 1 (Xms.mhandles s)) with h. destruct (Z.eqb_spec h 0); [done|]. change (Z.to_nat 1) with 1%nat.
    cbn [link_sequence store exec_bind]. rewrite write_upd by lia. cbn [exec_bind]. destruct (Z.eqb_spec h 0); [done|].
    cbn [handles with_pages with_handles with_xms]. rewrite write_upd by (rewrite Hl1; lia). done. }
  set (h2 := upd h1 k2 _). set (mh := upd _ h (-1)). assert (length h2 = 128%nat) as Hl2 by (unfold h2; by rewrite length_upd).
  assert (get h2 k1 = Some b1) as G1 by (unfold h2, h1; rewrite get_upd_ne, get_upd_eq by (rewrite ?Hlen; lia); done).
  unfold XMS_START in Hx.
  assert (MEM_ReleasePages h mh = ok (upd mh h 0)) as Er
    by (apply release_single; [lia|apply get_upd_eq; lia]).
  split.
  { unfold xms_free_memory, xms_is_handle_valid. cbn [handles with_pages with_handles with_xms]. rewrite G1. cbn [is_free negb b1].
    assert (nz k1 = true) as -> by (apply nz_spec; lia). unfold NumXmsHandles. destruct (Z.ltb_spec k1 128); [|lia]. cbn [andb negb].
    rewrite (read_get _ _ _ G1). cbn [exec_bind b1 lock_count mem_handle Z.eqb negb Xms.mhandles with_pages with_handles with_xms].
    rewrite Er. cbn [exec_bind]. rewrite write_upd by (rewrite Hl2; lia). done. }
  cbn [handles with_pages with_handles with_xms Xms.mhandles].
  assert (get (upd h2 k1 free_block) k2 = Some (mkXmsBlock size h 0 false)) as G2
    by (rewrite get_upd_ne by lia; apply get_upd_eq; rewrite Hl1; lia).
  split; [|split; [exact G2|]].
  - unfold xms_is_handle_valid. change (get (handles _) k2) with (get (upd h2 k1 free_block) k2). rewrite G2. unfold NumXmsHandles.
    assert (nz k2 = true) as -> by (apply nz_spec; lia). by destruct (Z.ltb_spec k2 128); [|lia].
  - apply get_upd_eq. unfold mh. rewrite length_upd. lia.
Qed.

(** ** Concrete inputs *)

(** A machine of [0x114] pages, one of them used by another client; in its memory, at 0,
    the parameters of a move of four bytes from [0100:0020] to [0100:0040]. *)
Definition demo_parameters : Flat := fun a =>
  match a with 0 => 4 | 6 => 0x20 | 9 => 1 | 12 => 0x40 | 15 => 1 | 0x1020 => 7 | 0x1023 => 9 | _ => 0 end.
Definition demo_machine : Xms Flat :=
  mkXms (mkDos demo_parameters 0 0x200 0xffff 0 0 Repair 0) demo_pages 0 0 0 false 0 false false false 0 false false 0 [].
Definition demo_ready : Xms Flat :=
  match XMS 0 true false false true false 0xf000 demo_machine with ok s => s | _ => demo_machine end.
Definition demo_chain : Dos Flat :=
  match DOS_BuildUMBChain 0 false false false (dos demo_machine) with ok d => d | _ => dos demo_machine end.
Lemma demo_ready_inv : xms_inv (replicate 128 []) [[0x112]] demo_ready.
Proof.
  destruct (driver_setup 0 false false false 0xf000 [[0x112]] demo_machine demo_chain demo_pages_owned) as (s & E & Hi & _);
    [done..|]. unfold demo_ready. by rewrite E.
Qed.
(** Two calls: 9 kB are allocated for handle 1, and freed. *)
Definition demo_calls : list (CPU_Regs * Z) :=
  [(mkRegs 0x0900 0 9 0 0 0 0 0 0, 0); (mkRegs 0x0a00 0 1 0 0 0 0 0 0, 0)].
Lemma driver_lifecycle_witness :
  exists s1 s2 s3 bl, XMS 0 true false false true false 0xf000 demo_machine = ok s1 /\ xms_inv (replicate 128 []) [[0x112]] s1 /\
    XMS_calls 0 demo_calls s1 = ok s2 /\ xms_inv bl [[0x112]] s2 /\ XMS_destroy s2 = ok s3 /\ owned (Xms.mhandles s3) [[0x112]].
Proof.
  apply (driver_lifecycle 0 false false false 0xf000 [[0x112]] demo_calls demo_machine demo_chain); [exact demo_pages_owned|done..|].
  repeat constructor; cbn; try done; vm_compute; congruence.
Defined.
Lemma move_correct_witness :
  exists s', xms_move_memory 0 demo_ready = ok (OK, s') /\
    readb 0x1040 (mem (dos s')) = 7 /\ readb 0x1043 (mem (dos s')) = 9 /\ readb 0x1044 (mem (dos s')) = 0.
Proof.
  pose proof (move_correct (replicate 128 []) [[0x112]] demo_ready 0 demo_ready_inv) as H. cbv zeta in H.
  specialize (H ltac:(right; vm_compute; congruence)).
  change (move_error (read_params 0 demo_ready) demo_ready) with (@None Result) in H. cbv iota beta zeta in H.
  change (end_address _ (mv_src _) _) with 0x1020 in H. change (end_address _ (mv_dest _) _) with 0x1040 in H.
  change (mv_length _) with 4 in H.
  destruct H as (_ & _ & s' & E & _ & _ & _ & Ho & _ & Hc). exists s'. split; [exact E|].
  specialize (Hc ltac:(lia)). split; [exact (Hc 0 ltac:(lia))|]. split; [exact (Hc 3 ltac:(lia))|]. exact (Ho 0x1044 ltac:(lia)).
Defined.
Lemma zero_size_alias_witness :
  exists s1 s2 s3, xms_allocate_memory 0 demo_ready = ok (OK, 1, s1) /\ xms_allocate_memory 4 s1 = ok (OK, 2, s2) /\
    xms_free_memory 1 s2 = ok (OK, s3) /\ xms_is_handle_valid 2 s3 = true /\
    get (handles s3) 2 = Some (mkXmsBlock 4 0x113 0 false) /\ get (Xms.mhandles s3) 0x113 = Some 0.
Proof.
  pose proof (zero_size_alias (replicate 128 []) [[0x112]] demo_ready 1 2 4 demo_ready_inv ltac:(lia)) as H. cbv zeta in H.
  change (MEM_GetNextFreePage _) with 0x113 in H. exact (H ltac:(done) eq_refl eq_refl).
Defined.
