(* ===== verification/Dma.v ===== *)
(** * DMA controllers ([hardware/dma.cpp], [hardware/dma.h])

    Two 8237 controllers of four channels, their registers behind a byte flip-flop,
    the page registers, and the block transfers between the buffer of a device and
    physical memory.  A channel is named by its number; a callback of a device may do
    anything to the state, so the code looks its channel up again after one. *)
From S2P Require Import Prelude.
From stdpp Require Import strings.
From S2P Require Import PageAlloc.
From S2P Require Import PageHandlers.
From S2P Require Import Paging.
#[local] Open Scope Z_scope.
#[local] Open Scope exec_scope.

Inductive DmaDirection := Read | Write.
Inductive DmaEvent := ReachedTerminalCount_event | IsMasked | IsUnmasked.

(** Callbacks are the numbers of the functions registered. *)
Record DmaChannel := mkChannel {
  page_base : Z; curr_addr : Z;
  base_addr : Z; base_count : Z; curr_count : Z;
  chan_num : Z; page_num : Z; is_16bit : Z;
  is_incremented : bool; is_autoiniting : bool; is_masked : bool;
  has_reached_terminal_count : bool; has_raised_request : bool;
  callback : option nat; evict_callback : option nat; reservation_owner_name : string }.
Record DmaController := mkController { flipflop : bool; dma_channels : list DmaChannel; index : Z }.
Record Dma (D : Type) := mkDma {
  primary : option DmaController; secondary : option DmaController;
  ems_board_mapping : list Z; dma_wrapping : Z;
  machine : Machine D }.
Arguments mkDma {D}.
Arguments primary {D}.
Arguments secondary {D}.
Arguments ems_board_mapping {D}.
Arguments dma_wrapping {D}.
Arguments machine {D}.

(** The devices behind the controllers: what their callbacks do, and the shutdown of the
    sound device that shares the ports of the second controller. *)
Class DmaClients (D : Type) := {
  run_callback : nat -> Z -> DmaEvent -> Dma D -> Dma D;
  run_evict : nat -> Dma D -> Dma D;
  TANDYSOUND_Destroy : Dma D -> Dma D;
  is_machine_ega_or_better : bool }.

(** The macro [EMM_PAGEFRAME4K] of [dma.cpp]; [Ems] has that of [ems.cpp]. *)
Definition DMA_PAGEFRAME4K : Z := (0xE000 * 16) / DosPageSize.
Definition SecondaryMin : Z := 4.
Definition SecondaryMax : Z := 7.
Definition is_primary (channel_num : Z) : bool := channel_num <? SecondaryMin.
Definition is_secondary (channel_num : Z) : bool := (SecondaryMin <=? channel_num) && (channel_num <=? SecondaryMax).
Definition to_secondary_num (channel_num : Z) : Z := channel_num - SecondaryMin.

(** ** A channel *)
Definition new_channel (num : Z) (is_dma_16bit : bool) : DmaChannel :=
  mkChannel 0 0 0 0 0 num 0 (b2z is_dma_16bit) true false true false false None None "".
Definition set_base (addr count : Z) (c : DmaChannel) : DmaChannel :=
  mkChannel (page_base c) (curr_addr c) addr count (curr_count c) (chan_num c) (page_num c) (is_16bit c)
    (is_incremented c) (is_autoiniting c) (is_masked c) (has_reached_terminal_count c) (has_raised_request c)
    (callback c) (evict_callback c) (reservation_owner_name c).
Definition set_curr (addr count : Z) (c : DmaChannel) : DmaChannel :=
  mkChannel (page_base c) addr (base_addr c) (base_count c) count (chan_num c) (page_num c) (is_16bit c)
    (is_incremented c) (is_autoiniting c) (is_masked c) (has_reached_terminal_count c) (has_raised_request c)
    (callback c) (evict_callback c) (reservation_owner_name c).
Definition set_mode (incremented autoiniting : bool) (c : DmaChannel) : DmaChannel :=
  mkChannel (page_base c) (curr_addr c) (base_addr c) (base_count c) (curr_count c) (chan_num c) (page_num c) (is_16bit c)
    incremented autoiniting (is_masked c) (has_reached_terminal_count c) (has_raised_request c)
    (callback c) (evict_callback c) (reservation_owner_name c).
Definition set_state (masked terminal_count request : bool) (c : DmaChannel) : DmaChannel :=
  mkChannel (page_base c) (curr_addr c) (base_addr c) (base_count c) (curr_count c) (chan_num c) (page_num c) (is_16bit c)
    (is_incremented c) (is_autoiniting c) masked terminal_count request
    (callback c) (evict_callback c) (reservation_owner_name c).
Definition set_masked (b : bool) (c : DmaChannel) : DmaChannel := set_state b (has_reached_terminal_count c) (has_raised_request c) c.
Definition set_terminal_count (b : bool) (c : DmaChannel) : DmaChannel := set_state (is_masked c) b (has_raised_request c) c.
Definition set_request (b : bool) (c : DmaChannel) : DmaChannel := set_state (is_masked c) (has_reached_terminal_count c) b c.
Definition set_callbacks (cb evict : option nat) (owner : string) (c : DmaChannel) : DmaChannel :=
  mkChannel (page_base c) (curr_addr c) (base_addr c) (base_count c) (curr_count c) (chan_num c) (page_num c) (is_16bit c)
    (is_incremented c) (is_autoiniting c) (is_masked c) (has_reached_terminal_count c) (has_raised_request c)
    cb evict owner.
Definition put_page (val : Z) (c : DmaChannel) : DmaChannel :=
  let num := u8 val in
  mkChannel (Z.shiftl (Z.shiftr num (is_16bit c)) (16 + is_16bit c)) (curr_addr c) (base_addr c) (base_count c) (curr_count c)
    (chan_num c) num (is_16bit c)
    (is_incremented c) (is_autoiniting c) (is_masked c) (has_reached_terminal_count c) (has_raised_request c)
    (callback c) (evict_callback c) (reservation_owner_name c).
Definition reset_channel (c : DmaChannel) : DmaChannel :=
  mkChannel 0 0 0 0 0 (chan_num c) 0 (is_16bit c) true false true false false None None "".
Definition HasReservation (c : DmaChannel) : bool :=
  match evict_callback c with Some _ => negb (String.eqb (reservation_owner_name c) "") | None => false end.

Section Operations.
Context {D : Type} `{DmaClients D}.
Implicit Types (s : Dma D) (c : DmaChannel) (m : Machine D).

Definition with_primary (k : option DmaController) s : Dma D := mkDma k (secondary s) (ems_board_mapping s) (dma_wrapping s) (machine s).
Definition with_secondary (k : option DmaController) s : Dma D := mkDma (primary s) k (ems_board_mapping s) (dma_wrapping s) (machine s).
Definition with_ems (l : list Z) s : Dma D := mkDma (primary s) (secondary s) l (dma_wrapping s) (machine s).
Definition with_machine (m : Machine D) s : Dma D := mkDma (primary s) (secondary s) (ems_board_mapping s) (dma_wrapping s) m.

(** *** Controllers and channels *)
Definition GetChannel (chan : Z) (k : DmaController) : option DmaChannel := if chan <? 4 then get (dma_channels k) chan else None.
Definition controller_of (second : bool) s : option DmaController := if second then secondary s else primary s.
Definition put_controller (second : bool) (k : DmaController) s : Dma D :=
  if second then with_secondary (Some k) s else with_primary (Some k) s.
(** The channel a pointer refers to; its controller may be gone. *)
Definition the_channel (num : Z) s : exec DmaChannel :=
  match controller_of (is_secondary num) s with
  | Some k => read (dma_channels k) (if is_secondary num then to_secondary_num num else num)
  | None => err OutOfBounds
  end.
Definition update (num : Z) (f : DmaChannel -> DmaChannel) s : exec (Dma D) :=
  match controller_of (is_secondary num) s with
  | Some k =>
      let i := if is_secondary num then to_secondary_num num else num in
      let* c := read (dma_channels k) i in
      let* l := write (dma_channels k) i (f c) in
      ok (put_controller (is_secondary num) (mkController (flipflop k) l (index k)) s)
  | None => err OutOfBounds
  end.

Definition new_controller (controller_index : Z) : DmaController :=
  mkController false (map (fun i => new_channel (i + controller_index * 4) (controller_index =? 1)) [0; 1; 2; 3]) controller_index.
Definition activate_primary s : Dma D := with_primary (Some (new_controller 0)) s.
Definition activate_secondary s : Dma D := with_secondary (Some (new_controller 1)) (TANDYSOUND_Destroy s).
(** The number of the channel, when there is one. *)
Definition DMA_GetChannel (channel_num : Z) s : option Z * Dma D :=
  if is_primary channel_num then (Some channel_num, match primary s with Some _ => s | None => activate_primary s end)
  else if is_secondary channel_num then (Some channel_num, match secondary s with Some _ => s | None => activate_secondary s end)
  else (None, s).

(** The ports a controller answers. *)
Definition controller_ports (controller_index : Z) : list Z :=
  if controller_index =? 0 then seqZ 0 16 ++ seqZ 0x81 3 ++ [0x87]
  else if is_machine_ega_or_better then map (fun i => 0xc0 + i * 2) (seqZ 0 16) ++ seqZ 0x89 3 ++ [0x8f]
  else [].

(** *** The EMS page frame *)
Fixpoint update_mapping (n : nat) (i : Z) s : exec (Dma D) :=
  match n with
  | O => ok s
  | S n =>
      let* page := read (firstmb (paging (machine s))) (DMA_PAGEFRAME4K + i) in
      let* l := write (ems_board_mapping s) (DMA_PAGEFRAME4K + i) page in
      update_mapping n (i + 1) (with_ems l s)
  end.
Definition UpdateEMSMapping s : exec (Dma D) := update_mapping 16 0 s.

(** *** Block transfers *)
Definition phys_readb (addr : Z) m : Z := u8 (host m (u32 addr)).
Definition phys_writeb (addr val : Z) m : Machine D := set_host (host_write 1 (u32 addr) val (host m)) m.
Definition dma_page (page : Z) s : exec Z :=
  if page <? DMA_PAGEFRAME4K then read (firstmb (paging (machine s))) page
  else if page <? DMA_PAGEFRAME4K + 0x10 then read (ems_board_mapping s) page
  else if page <? LINK_START then read (firstmb (paging (machine s))) page
  else ok page.
Fixpoint write_chunk (start : Z) (n : nat) (data : list Z) m : exec (Machine D) :=
  match n, data with
  | O, _ => ok m
  | S n, b :: data => write_chunk (start + 1) n data (phys_writeb start b m)
  | S _, [] => err OutOfBounds
  end.
(** The bytes read into the buffer, and the memory after the bytes of the buffer are
    written. *)
Definition transfer_chunk (direction : DmaDirection) (start n : Z) (data : list Z) s : exec (list Z * Dma D) :=
  match direction with
  | Read => ok (map (fun a => phys_readb a (machine s)) (seqZ start n), s)
  | Write => let* m := write_chunk start (Z.to_nat n) data (machine s) in ok ([], with_machine m s)
  end.
(** [fuel] bounds the chunks; each but one of length zero moves a byte. *)
Fixpoint dma_io_loop (fuel : nat) (direction : DmaDirection) (highpart mem_address : Z) (data : list Z) (remaining : Z) s
  : exec (list Z * Dma D) :=
  match fuel with
  | O => err OutOfFuel
  | S fuel =>
      let* page := dma_page (highpart + Z.shiftr mem_address 12) s in
      let pos_in_page := Z.land mem_address (DosPageSize - 1) in
      let bytes_to_page_end := DosPageSize - pos_in_page in
      let chunk_start := page * DosPageSize + pos_in_page in
      let chunk_bytes := Z.min remaining bytes_to_page_end in
      let* (l, s) := transfer_chunk direction chunk_start chunk_bytes data s in
      let remaining := remaining - chunk_bytes in
      if nz remaining then
        let* (l', s) := dma_io_loop fuel direction highpart (u32 (mem_address + chunk_bytes)) (drop (Z.to_nat chunk_bytes) data) remaining s in
        ok (l ++ l', s)
      else ok (l, s)
  end.
Definition perform_dma_io (direction : DmaDirection) (spage mem_address : Z) (data : list Z) (num_words is_dma16 : Z) s
  : exec (list Z * Dma D) :=
  let remaining := Z.shiftl num_words is_dma16 in
  if 65536 <? remaining then err AssertFailed else
  dma_io_loop (S (Z.to_nat remaining)) direction (Z.shiftr spage 12) (u32 (Z.shiftl mem_address is_dma16)) data remaining s.

(** *** Callbacks and the mask *)
Definition DoCallback (num : Z) (event : DmaEvent) s : exec (Dma D) :=
  let* c := the_channel num s in
  ok (match callback c with Some f => run_callback f num event s | None => s end).
Definition SetMask (num : Z) (mask : bool) s : exec (Dma D) :=
  let* s := update num (set_masked mask) s in
  DoCallback num (if mask then IsMasked else IsUnmasked) s.
Definition RaiseRequest (num : Z) s : exec (Dma D) := update num (set_request true) s.
Definition ClearRequest (num : Z) s : exec (Dma D) := update num (set_request false) s.
Definition RegisterCallback (num : Z) (cb : option nat) s : exec (Dma D) :=
  let* s := update num (fun c => set_callbacks cb (evict_callback c) (reservation_owner_name c) c) s in
  let* c := the_channel num s in
  let* s := SetMask num (is_masked c) s in
  let* c := the_channel num s in
  match callback c with Some _ => RaiseRequest num s | None => ClearRequest num s end.
Definition ReachedTerminalCount (num : Z) s : exec (Dma D) :=
  let* s := update num (set_terminal_count true) s in
  DoCallback num ReachedTerminalCount_event s.
Definition SetPage (num val : Z) s : exec (Dma D) := update num (put_page val) s.

(** *** [ReadOrWrite]: the words done and, of a read, the bytes.  [fuel] bounds the
    passes over the block of an autoinitialising channel; each moves a word. *)
Fixpoint again (fuel : nat) (num : Z) (direction : DmaDirection) (want done : Z) (buffer : list Z) s
  : exec (Z * list Z * Dma D) :=
  match fuel with
  | O => err OutOfFuel
  | S fuel =>
      let* c := the_channel num s in
      let left := curr_count c + 1 in
      if want <? left then
        let* (l, s) := perform_dma_io direction (page_base c) (curr_addr c) buffer want (is_16bit c) s in
        let* s := update num (fun c => set_curr (u32 (curr_addr c + want)) (u16 (curr_count c - want)) c) s in
        ok (done + want, l, s)
      else
        let* (l, s) := perform_dma_io direction (page_base c) (curr_addr c) buffer left (is_16bit c) s in
        let buffer := drop (Z.to_nat (Z.shiftl left (is_16bit c))) buffer in
        let want := want - left in
        let done := done + left in
        let* s := ReachedTerminalCount num s in
        let* c := the_channel num s in
        if is_autoiniting c then
          let* s := update num (fun c => set_curr (base_addr c) (base_count c) c) s in
          if nz want then
            let* (done, l', s) := again fuel num direction want done buffer s in
            ok (done, l ++ l', s)
          else
            let* s := UpdateEMSMapping s in
            ok (done, l, s)
        else
          let* s := update num (fun c => set_masked true (set_curr (u32 (curr_addr c + left)) 0xffff c)) s in
          let* s := UpdateEMSMapping s in
          let* s := DoCallback num IsMasked s in
          ok (done, l, s)
  end.
Definition ReadOrWrite (num : Z) (direction : DmaDirection) (words : Z) (buffer : list Z) s : exec (Z * list Z * Dma D) :=
  let* s := update num (fun c => set_curr (Z.land (curr_addr c) (dma_wrapping s)) (curr_count c) c) s in
  again (S (Z.to_nat words)) num direction words 0 buffer s.

(** *** Registers, by controller *)
Definition channel_of (second : bool) (chan : Z) : Z := if second then chan + SecondaryMin else chan.
Definition the_flipflop (second : bool) s : exec bool :=
  match controller_of second s with Some k => ok (flipflop k) | None => err OutOfBounds end.
Definition set_flipflop (second : bool) (b : bool) s : exec (Dma D) :=
  match controller_of second s with
  | Some k => ok (put_controller second (mkController b (dma_channels k) (index k)) s)
  | None => err OutOfBounds
  end.
(** The low or the high byte of a register; the first one after [flipflop] was cleared
    is the low one. *)
Definition merge_byte (low : bool) (old val : Z) : Z :=
  if low then Z.lor (Z.land old 0xff00) val else Z.lor (Z.land old 0x00ff) (Z.shiftl val 8).
Definition write_address (low : bool) (val : Z) c : DmaChannel :=
  set_base (u16 (merge_byte low (base_addr c) val)) (base_count c) (set_curr (merge_byte low (curr_addr c) val) (curr_count c) c).
Definition write_count (low : bool) (val : Z) c : DmaChannel :=
  set_base (base_addr c) (u16 (merge_byte low (base_count c) val)) (set_curr (curr_addr c) (u16 (merge_byte low (curr_count c) val)) c).
Definition write_register (second : bool) (reg : Z) (f : bool -> DmaChannel -> DmaChannel) s : exec (Dma D) :=
  let* s := UpdateEMSMapping s in
  let* flip := the_flipflop second s in
  let* s := set_flipflop second (negb flip) s in
  update (channel_of second (Z.shiftr reg 1)) (f (negb flip)) s.
(** The masks of channels [ct .. 3], from the low bits of [val]. *)
Fixpoint set_masks (n : nat) (second : bool) (ct : Z) (mask : Z -> bool) s : exec (Dma D) :=
  match n with
  | O => ok s
  | S n => let* s := SetMask (channel_of second ct) (mask ct) s in set_masks n second (ct + 1) mask s
  end.
Fixpoint reset_masks (n : nat) (second : bool) (ct : Z) s : exec (Dma D) :=
  match n with
  | O => ok s
  | S n =>
      let* s := SetMask (channel_of second ct) true s in
      let* s := update (channel_of second ct) (set_terminal_count false) s in
      reset_masks n second (ct + 1) s
  end.
Definition is_one_of_regs (l : list Z) (reg : Z) : bool := existsb (Z.eqb reg) l.
Definition WriteControllerReg (second : bool) (reg value : Z) s : exec (Dma D) :=
  let val := u16 value in
  if is_one_of_regs [0x0; 0x2; 0x4; 0x6] reg then write_register second reg (fun low => write_address low val) s
  else if is_one_of_regs [0x1; 0x3; 0x5; 0x7] reg then write_register second reg (fun low => write_count low val) s
  else if reg =? 0xa then
    let* s := if Z.land val 0x4 =? 0 then UpdateEMSMapping s else ok s in
    SetMask (channel_of second (Z.land val 3)) (0 <? Z.land val 0x4) s
  else if reg =? 0xb then
    let* s := UpdateEMSMapping s in
    update (channel_of second (Z.land val 3)) (set_mode (0 <? Z.land val 0x20) (0 <? Z.land val 0x10)) s
  else if reg =? 0xc then set_flipflop second false s
  else if reg =? 0xd then
    let* s := reset_masks 4 second 0 s in
    set_flipflop second false s
  else if reg =? 0xe then
    let* s := UpdateEMSMapping s in
    set_masks 4 second 0 (fun _ => false) s
  else if reg =? 0xf then
    let* s := UpdateEMSMapping s in
    set_masks 4 second 0 (fun ct => Z.testbit val ct) s
  else ok s.

Definition pick_byte (low : bool) (v : Z) : Z := if low then Z.land v 0xff else Z.land (Z.shiftr v 8) 0xff.
Definition read_register (second : bool) (reg : Z) (f : DmaChannel -> Z) s : exec (Z * Dma D) :=
  let* c := the_channel (channel_of second (Z.shiftr reg 1)) s in
  let* flip := the_flipflop second s in
  let* s := set_flipflop second (negb flip) s in
  ok (pick_byte (negb flip) (f c), s).
(** The status of channels [ct .. 3], whose terminal counts are forgotten. *)
Fixpoint read_status (n : nat) (second : bool) (ct ret : Z) s : exec (Z * Dma D) :=
  match n with
  | O => ok (ret, s)
  | S n =>
      let* c := the_channel (channel_of second ct) s in
      let ret := if has_reached_terminal_count c then Z.lor ret (Z.shiftl 1 ct) else ret in
      let ret := if has_raised_request c then Z.lor ret (Z.shiftl 1 (4 + ct)) else ret in
      let* s := update (channel_of second ct) (set_terminal_count false) s in
      read_status n second (ct + 1) ret s
  end.
Definition ReadControllerReg (second : bool) (reg : Z) s : exec (Z * Dma D) :=
  if is_one_of_regs [0x0; 0x2; 0x4; 0x6] reg then read_register second reg curr_addr s
  else if is_one_of_regs [0x1; 0x3; 0x5; 0x7] reg then read_register second reg curr_count s
  else if reg =? 0x8 then read_status 4 second 0 0 s
  else ok (0xffff, s).

(** *** Ports *)
Definition channel_of_port (port : Z) : Z :=
  match port with
  | 0x81 => 2 | 0x82 => 3 | 0x83 => 1 | 0x87 => 0
  | 0x89 => 6 | 0x8a => 7 | 0x8b => 5 | 0x8f => 4
  | _ => 255
  end.
Definition GetChannelFromPort (port : Z) s : option Z * Dma D := DMA_GetChannel (channel_of_port port) s.
Definition DMA_Write_Port (port value : Z) s : exec (Dma D) :=
  let val := u16 value in
  if port <? 0x10 then WriteControllerReg false port val s
  else if (0xc0 <=? port) && (port <=? 0xdf) then WriteControllerReg true (Z.shiftr (port - 0xc0) 1) val s
  else
    let* s := UpdateEMSMapping s in
    let '(channel, s) := GetChannelFromPort port s in
    match channel with Some num => SetPage num val s | None => ok s end.
Definition DMA_Read_Port (port : Z) s : exec (Z * Dma D) :=
  if port <? 0x10 then ReadControllerReg false port s
  else if (0xc0 <=? port) && (port <=? 0xdf) then ReadControllerReg true (Z.shiftr (port - 0xc0) 1) s
  else
    let '(channel, s) := GetChannelFromPort port s in
    match channel with
    | Some num => let* c := the_channel num s in ok (page_num c, s)
    | None => ok (0, s)
    end.

(** *** Reservations and set-up *)
Definition EvictReserver (num : Z) s : exec (Dma D) :=
  let* c := the_channel num s in
  let s := match evict_callback c with Some f => run_evict f s | None => s end in
  update num (fun c => set_callbacks (callback c) None "" c) s.
Definition ReserveFor (num : Z) (owner_name : string) (evict_cb : nat) s : exec (Dma D) :=
  let* c := the_channel num s in
  let* s := if HasReservation c then EvictReserver num s else ok s in
  let* s := update num reset_channel s in
  update num (fun c => set_callbacks (callback c) (Some evict_cb) owner_name c) s.
Definition DMA_ResetChannel (channel_num : Z) s : exec (Dma D) :=
  if is_primary channel_num && bool_decide (is_Some (primary s)) then update channel_num reset_channel s
  else if is_secondary channel_num && bool_decide (is_Some (secondary s)) then update channel_num reset_channel s
  else ok s.
(** The pointer to the controller is cleared before its channels are destroyed: the
    callbacks of their reservations find it gone. *)
Fixpoint destroy_channels (l : list DmaChannel) s : Dma D :=
  match l with
  | [] => s
  | c :: l =>
      destroy_channels l
        (if HasReservation c then match evict_callback c with Some f => run_evict f s | None => s end else s)
  end.
Definition destroy_controller (second : bool) s : Dma D :=
  match controller_of second s with
  | None => s
  | Some k => destroy_channels (dma_channels k) (if second then with_secondary None s else with_primary None s)
  end.
Definition DMA_ShutdownSecondaryController s : Dma D := destroy_controller true s.
Definition DMA_SetWrapping (wrap : Z) s : Dma D := mkDma (primary s) (secondary s) (ems_board_mapping s) (u32 wrap) (machine s).
Definition DMA_Destroy s : Dma D := destroy_controller true (destroy_controller false s).
Definition DMA_Init s : Dma D := with_ems (seqZ 0 LINK_START) (DMA_SetWrapping 0xffff s).
End Operations.
