(* ===== verification/DmaProofs.v ===== *)
(** * The DMA controllers are correct

    A block transfer moves the bytes a controller would move word by word; the
    registers behind the flip-flop read back as they were written; and where a page
    register may point. *)
From S2P Require Import Prelude.
From stdpp Require Import strings.
From S2P Require Import PageAlloc.
From S2P Require Import PageHandlers.
From S2P Require Import Paging.
From S2P Require Import Dma.
#[local] Open Scope Z_scope.
#[local] Open Scope exec_scope.

Section Transfers.
Context {D : Type} `{DmaClients D}.
Implicit Types (s : Dma D) (c : DmaChannel) (m : Machine D).

(** ** Channels *)
Definition slot (num : Z) : Z := if is_secondary num then to_secondary_num num else num.
Lemma the_channel_ok num s c : the_channel num s = ok c <->
  exists k, controller_of (is_secondary num) s = Some k /\ get (dma_channels k) (slot num) = Some c.
Proof using.
  unfold the_channel, slot. destruct (controller_of _ s) as [k|]; [|split; [done|by intros (k & [=] & _)]].
  unfold read. destruct (get _ _) as [c'|] eqn:E; split.
  - intros [= ->]. by exists k.
  - intros (k' & [= <-] & E'). congruence.
  - done.
  - intros (k' & [= <-] & E'). congruence.
Qed.
(** What a change of one channel leaves alone. *)
Definition beside s s' : Prop := machine s' = machine s /\ ems_board_mapping s' = ems_board_mapping s /\ dma_wrapping s' = dma_wrapping s.
Lemma beside_refl s : beside s s.
Proof using. done. Qed.
Lemma beside_trans s1 s2 s3 : beside s1 s2 -> beside s2 s3 -> beside s1 s3.
Proof using. unfold beside. intros (-> & -> & ->). done. Qed.
Lemma update_spec num f s c : the_channel num s = ok c ->
  exists s', update num f s = ok s' /\ the_channel num s' = ok (f c) /\ beside s s' /\
    (forall n, slot n <> slot num \/ is_secondary n <> is_secondary num -> 0 <= slot n -> the_channel n s' = the_channel n s).
Proof using.
  intros (k & Ek & Eg)%the_channel_ok. unfold update. rewrite Ek. fold (slot num). rewrite (read_get _ _ _ Eg). cbn [exec_bind].
  pose proof (get_Some_range _ _ _ Eg) as Hr. rewrite write_upd by done. cbn [exec_bind]. eexists. split; [reflexivity|].
  assert (forall b, controller_of b (put_controller (is_secondary num) (mkController (flipflop k) (upd (dma_channels k) (slot num) (f c)) (index k)) s) =
    if Bool.eqb b (is_secondary num) then Some (mkController (flipflop k) (upd (dma_channels k) (slot num) (f c)) (index k)) else controller_of b s) as Hc.
  { intros b. unfold put_controller, controller_of, with_primary, with_secondary. by destruct b, (is_secondary num). }
  split; [|split].
  - apply the_channel_ok. eexists. rewrite Hc, Bool.eqb_reflx. split; [reflexivity|]. cbn [dma_channels]. by apply get_upd_eq.
  - unfold put_controller. by destruct (is_secondary num).
  - intros n Hn Hs. unfold the_channel. rewrite Hc. destruct (Bool.eqb (is_secondary n) (is_secondary num)) eqn:Eb; [|done].
    apply eqb_prop in Eb. rewrite Eb, Ek. cbn [dma_channels]. fold (slot n). unfold read.
    replace (if is_secondary num then to_secondary_num n else n) with (slot n) by (unfold slot; by rewrite Eb).
    rewrite get_upd_ne; [done|lia|]. destruct Hn as [Hn|Hn]; [congruence|by rewrite Eb in Hn].
Qed.

(** ** Addresses *)
Definition mapped s : Prop :=
  length (firstmb (paging (machine s))) = Z.to_nat LINK_START /\ length (ems_board_mapping s) = Z.to_nat LINK_START.
(** The byte of physical memory behind an address of the controller. *)
Definition dma_address (highpart a : Z) s : Z :=
  match dma_page (highpart + Z.shiftr a 12) s with ok page => page * DosPageSize + Z.land a (DosPageSize - 1) | err _ => 0 end.
Lemma read_in l i : length l = Z.to_nat LINK_START -> 0 <= i < LINK_START -> exists v : Z, read l i = ok v.
Proof using.
  intros Hl Hi. destruct (get_range l i) as [v Hv]; [change LINK_START with 272 in *; lia|]. exists v. by apply read_get.
Qed.
Lemma dma_page_ok page s : mapped s -> 0 <= page -> exists p, dma_page page s = ok p.
Proof using.
  intros [H1 H2] Hp. unfold dma_page. change DMA_PAGEFRAME4K with 224. change LINK_START with 272 in *.
  destruct (Z.ltb_spec page 224); [apply read_in; [done|change LINK_START with 272; lia]|].
  destruct (Z.ltb_spec page (224 + 16)); [apply read_in; [done|change LINK_START with 272; lia]|].
  destruct (Z.ltb_spec page 272); [apply read_in; [done|change LINK_START with 272; lia]|]. by eexists.
Qed.
Lemma dma_page_same page s s' :
  firstmb (paging (machine s')) = firstmb (paging (machine s)) -> ems_board_mapping s' = ems_board_mapping s -> dma_page page s' = dma_page page s.
Proof using. unfold dma_page. by intros -> ->. Qed.
Lemma land_page a : Z.land a (DosPageSize - 1) = a mod 4096.
Proof using. change (DosPageSize - 1) with (Z.ones 12). by rewrite Z.land_ones by lia. Qed.
(** Within a page the bytes are adjacent. *)
Lemma dma_address_in_page hp a i s p : dma_page (hp + Z.shiftr a 12) s = ok p -> 0 <= i < 4096 - a mod 4096 ->
  dma_address hp (a + i) s = p * DosPageSize + Z.land a (DosPageSize - 1) + i.
Proof using.
  intros Hp Hi. unfold dma_address. rewrite !land_page, !Z.shiftr_div_pow2 in * by lia. change (2 ^ 12) with 4096 in *.
  replace ((a + i) / 4096) with (a / 4096) by zlia. rewrite Hp. zlia.
Qed.

(** ** Moving bytes *)
Definition write_all (l : list (Z * Z)) m : Machine D := fold_left (fun m e => phys_writeb (fst e) (snd e) m) l m.
Lemma write_all_app l l' m : write_all (l ++ l') m = write_all l' (write_all l m).
Proof using. apply fold_left_app. Qed.
Lemma write_all_paging l m : paging (write_all l m) = paging m.
Proof using. revert m. induction l as [|e l IH]; intros m; [done|]. cbn [write_all fold_left]. fold (write_all l (phys_writeb (fst e) (snd e) m)). by rewrite IH. Qed.
Lemma seqZ_S a n : 0 <= n -> seqZ a (n + 1) = a :: seqZ (a + 1) n.
Proof using. intros Hn. rewrite seqZ_cons by lia. f_equal. f_equal; lia. Qed.
Lemma seqZ_one a : seqZ a 1 = [a].
Proof using. change 1 with (0 + 1). by rewrite seqZ_S, seqZ_nil by lia. Qed.
Lemma write_chunk_all start n data m : (n <= length data)%nat ->
  write_chunk start n data m = ok (write_all (zip (seqZ start (Z.of_nat n)) data) m).
Proof using.
  revert start data m. induction n as [|n IH]; intros start data m Hn; [done|]. destruct data as [|b data]; [cbn in Hn; lia|].
  rewrite Nat2Z.inj_succ, <- Z.add_1_r, seqZ_S by lia. cbn [write_chunk zip_with write_all fold_left fst snd]. apply IH. cbn in Hn. lia.
Qed.
(** What a transfer of these addresses does: the bytes read, or the memory written. *)
Definition moved (direction : DmaDirection) (addresses : list Z) (buffer : list Z) m : list Z * Machine D :=
  match direction with
  | Read => (map (fun a => phys_readb a m) addresses, m)
  | Write => ([], write_all (zip addresses buffer) m)
  end.
Definition enough (direction : DmaDirection) (n : Z) (buffer : list Z) : Prop := direction = Write -> n <= Z.of_nat (length buffer).
Lemma moved_paging d l b m : paging (snd (moved d l b m)) = paging m.
Proof using. destruct d; [done|]. apply write_all_paging. Qed.
Lemma zip_enough (l b : list Z) : zip l b = zip l (take (length l) b).
Proof using. revert b. induction l as [|x l IH]; intros [|y b]; [done..|]. cbn. by rewrite <- IH. Qed.
Lemma moved_app d l l' b m : enough d (Z.of_nat (length l)) b ->
  moved d (l ++ l') b m =
  (fst (moved d l b m) ++ fst (moved d l' (drop (length l) b) (snd (moved d l b m))),
   snd (moved d l' (drop (length l) b) (snd (moved d l b m)))).
Proof using.
  intros He. destruct d; cbn [moved fst snd]; [by rewrite map_app|]. specialize (He eq_refl). f_equal.
  rewrite (zip_enough l b), <- write_all_app. f_equal. rewrite <- zip_with_app by (rewrite length_take; lia). by rewrite take_drop.
Qed.
Lemma map_run (f : Z -> Z) a b n : (forall i, 0 <= i < n -> f (a + i) = b + i) -> map f (seqZ a n) = seqZ b n.
Proof using.
  intros Hf. destruct (Z.le_gt_cases n 0) as [Hn|Hn]; [by rewrite !seqZ_nil|]. apply list_eq. intros i.
  change (map f (seqZ a n)) with (f <$> seqZ a n). rewrite list_lookup_fmap. destruct (Z.lt_ge_cases (Z.of_nat i) n) as [Hi|Hi].
  - rewrite !lookup_seqZ_lt by lia. cbn. f_equal. rewrite Hf by lia. lia.
  - rewrite !lookup_seqZ_ge by lia. done.
Qed.
Lemma transfer_chunk_moved d start n data s : 0 <= n -> enough d n data ->
  transfer_chunk d start n data s = ok (fst (moved d (seqZ start n) data (machine s)), with_machine (snd (moved d (seqZ start n) data (machine s))) s).
Proof using.
  intros Hn He. destruct d; cbn [transfer_chunk moved fst snd]; [by destruct s|]. specialize (He eq_refl).
  rewrite write_chunk_all by lia. rewrite Z2Nat.id by lia. done.
Qed.
Definition addresses (hp a n : Z) s : list Z := map (fun x => dma_address hp x s) (seqZ a n).
Lemma addresses_length hp a n s : 0 <= n -> Z.of_nat (length (addresses hp a n s)) = n.
Proof using. intros Hn. unfold addresses. rewrite length_map, length_seqZ. lia. Qed.
Lemma addresses_app hp a n k s : 0 <= n -> 0 <= k -> addresses hp a (n + k) s = addresses hp a n s ++ addresses hp (a + n) k s.
Proof using. intros Hn Hk. unfold addresses. rewrite seqZ_app by done. apply map_app. Qed.
Lemma addresses_same hp a n s s' :
  firstmb (paging (machine s')) = firstmb (paging (machine s)) -> ems_board_mapping s' = ems_board_mapping s -> addresses hp a n s' = addresses hp a n s.
Proof using. intros E1 E2. apply map_ext. intros x. unfold dma_address. by rewrite (dma_page_same _ s s'). Qed.
Lemma addresses_in_page hp a n s p : dma_page (hp + Z.shiftr a 12) s = ok p -> n <= 4096 - a mod 4096 ->
  addresses hp a n s = seqZ (p * DosPageSize + Z.land a (DosPageSize - 1)) n.
Proof using. intros Hp Hn. apply map_run. intros i Hi. apply dma_address_in_page; [done|lia]. Qed.
Definition after d l b s : list Z * Dma D := (fst (moved d l b (machine s)), with_machine (snd (moved d l b (machine s))) s).
Lemma dma_io_loop_spec fuel d hp a data n s :
  mapped s -> 0 <= hp -> 0 <= a -> 0 <= n -> a + n <= 4294967296 -> (Z.to_nat n < fuel)%nat -> enough d n data ->
  dma_io_loop fuel d hp a data n s = ok (after d (addresses hp a n s) data s).
Proof using.
  revert a data n s. induction fuel as [|fuel IH]; intros a data n s Hm Hhp Ha Hn Hb Hf He; [lia|]. cbn [dma_io_loop].
  destruct (dma_page_ok (hp + Z.shiftr a 12) s Hm) as [p Hp]; [rewrite Z.shiftr_div_pow2 by lia; zlia|]. rewrite Hp. cbn [exec_bind].
  set (chunk := Z.min n _). pose proof (Z.mod_pos_bound a 4096) as Hpos.
  assert (chunk = Z.min n (4096 - a mod 4096)) as Ec by (unfold chunk; by rewrite land_page). clearbody chunk.
  rewrite transfer_chunk_moved by (try lia; intros Hd; specialize (He Hd); lia). cbn [exec_bind].
  rewrite <- (addresses_in_page hp a chunk s p) by (done || lia). unfold nz. destruct (Z.eqb_spec (n - chunk) 0) as [E0|E0]; cbn [negb].
  - replace n with chunk by lia. done.
  - rewrite u32_small by lia. rewrite IH; [cbn [exec_bind]| |done|lia|lia|lia|lia|].
    + f_equal. rewrite (addresses_same hp (a + chunk) (n - chunk) s) by (cbn; by rewrite ?moved_paging).
      pose proof (addresses_app hp a chunk (n - chunk) s ltac:(lia) ltac:(lia)) as Ea. replace (chunk + (n - chunk)) with n in Ea by lia.
      unfold after. rewrite Ea. rewrite moved_app by (rewrite addresses_length by lia; intros Hd; specialize (He Hd); lia). cbn [fst snd machine with_machine].
      replace (Z.to_nat chunk) with (length (addresses hp a chunk s)) by (pose proof (addresses_length hp a chunk s); lia). done.
    + destruct Hm as [M1 M2]. split; [|done]. cbn. by rewrite moved_paging.
    + intros Hd. specialize (He Hd). rewrite length_drop. lia.
Qed.
Lemma perform_spec d sp a data n w s :
  mapped s -> 0 <= sp -> 0 <= a -> 0 <= n -> 0 <= w -> (a + n) * 2 ^ w <= 4294967296 -> a * 2 ^ w < 4294967296 -> n * 2 ^ w <= 65536 ->
  enough d (n * 2 ^ w) data ->
  perform_dma_io d sp a data n w s = ok (after d (addresses (Z.shiftr sp 12) (a * 2 ^ w) (n * 2 ^ w) s) data s).
Proof using.
  intros Hm Hsp Ha Hn Hw Hb Hb' Hk He. unfold perform_dma_io. rewrite !Z.shiftl_mul_pow2 by done. rewrite u32_small by lia.
  destruct (Z.ltb_spec 65536 (n * 2 ^ w)); [lia|].
  apply dma_io_loop_spec; try done; try lia. rewrite Z.shiftr_div_pow2 by lia. zlia.
Qed.

(** ** A controller, word by word *)

(** One word: the address it is at, then the counters. *)
Definition stops c : bool := (curr_count c =? 0) && negb (is_autoiniting c).
Definition next_word c : DmaChannel :=
  if curr_count c =? 0 then
    let c := set_terminal_count true c in
    if is_autoiniting c then set_curr (base_addr c) (base_count c) c else set_masked true (set_curr (curr_addr c + 1) 0xffff c)
  else set_curr (curr_addr c + 1) (curr_count c - 1) c.
Fixpoint words (n : nat) c : list Z * DmaChannel :=
  match n with
  | O => ([], c)
  | S n =>
      if stops c then ([curr_addr c], next_word c)
      else let '(l, c') := words n (next_word c) in (curr_addr c :: l, c')
  end.
(** The bytes of these words, as addresses of the controller. *)
Definition word_bytes (w : Z) (l : list Z) : list Z := flat_map (fun a => seqZ (a * 2 ^ w) (2 ^ w)) l.

Lemma words_block k n c : Z.of_nat k <= curr_count c ->
  words (k + n) c = (seqZ (curr_addr c) (Z.of_nat k) ++ fst (words n (set_curr (curr_addr c + Z.of_nat k) (curr_count c - Z.of_nat k) c)),
                     snd (words n (set_curr (curr_addr c + Z.of_nat k) (curr_count c - Z.of_nat k) c))).
Proof using.
  revert c. induction k as [|k IH]; intros c Hk.
  - cbn [Nat.add Z.of_nat seqZ]. rewrite Z.add_0_r, Z.sub_0_r. replace (set_curr (curr_addr c) (curr_count c) c) with c by (by destruct c).
    rewrite seqZ_nil by lia. by destruct (words n c).
  - cbn [Nat.add words]. unfold stops, next_word. destruct (Z.eqb_spec (curr_count c) 0) as [E|E]; [lia|]. cbn [andb].
    rewrite IH by (cbn; lia). cbn [curr_addr curr_count set_curr].
    rewrite Nat2Z.inj_succ, <- Z.add_1_r, (seqZ_S (curr_addr c)) by lia.
    replace (curr_addr c + (Z.of_nat k + 1)) with (curr_addr c + 1 + Z.of_nat k) by lia.
    replace (curr_count c - (Z.of_nat k + 1)) with (curr_count c - 1 - Z.of_nat k) by lia. done.
Qed.
Lemma words_few n c : Z.of_nat n <= curr_count c ->
  words n c = (seqZ (curr_addr c) (Z.of_nat n), set_curr (curr_addr c + Z.of_nat n) (curr_count c - Z.of_nat n) c).
Proof using. intros Hn. pose proof (words_block n 0 c Hn) as E. rewrite Nat.add_0_r in E. rewrite E. cbn. by rewrite app_nil_r. Qed.
Lemma words_many n c : 0 <= curr_count c -> curr_count c < Z.of_nat n ->
  let left := curr_count c + 1 in
  let c1 := set_terminal_count true c in
  words n c =
    if is_autoiniting c then
      let r := words (Z.to_nat (Z.of_nat n - left)) (set_curr (base_addr c) (base_count c) c1) in
      (seqZ (curr_addr c) left ++ fst r, snd r)
    else (seqZ (curr_addr c) left, set_masked true (set_curr (curr_addr c + left) 0xffff c1)).
Proof using.
  intros Hc Hn. cbv zeta. replace n with (Z.to_nat (curr_count c) + S (Z.to_nat (Z.of_nat n - (curr_count c + 1))))%nat at 1 by lia.
  rewrite words_block by lia. rewrite !Z2Nat.id by lia. cbn [words]. unfold stops, next_word. cbn [curr_count curr_addr is_autoiniting set_curr].
  rewrite Z.sub_diag. cbn [Z.eqb andb is_autoiniting set_terminal_count set_state set_curr].
  rewrite (seqZ_app (curr_addr c)) by lia. rewrite (seqZ_one (curr_addr c + curr_count c)) by lia.
  destruct (is_autoiniting c); cbn [negb fst snd].
  - match goal with |- context [words ?k ?x] => destruct (words k x) as [l c'] eqn:E end. cbn [fst snd]. rewrite <- app_assoc. cbn [app].
    match goal with |- context [words ?k ?x] => replace (words k x) with (l, c') by (rewrite <- E; reflexivity) end. done.
  - f_equal. f_equal. unfold set_curr. cbn. f_equal. lia.
Qed.

(** ** [ReadOrWrite] *)

(** The registers of a channel are in range, and its width is one of the two.  (The
    address is above 16 bits only where wrapping is switched off.) *)
Record in_range c : Prop := {
  ir_page : 0 <= page_base c; ir_addr : 0 <= curr_addr c <= 0x7fff0000; ir_count : 0 <= curr_count c < 65536;
  ir_base : 0 <= base_addr c < 65536; ir_base_count : 0 <= base_count c < 65536; ir_width : is_16bit c = 0 \/ is_16bit c = 1 }.
(** The next block of a request for [n] words is not above 64 KB; nor are those after
    a reload. *)
Definition block_fits (n : Z) c : Prop := Z.min n (curr_count c + 1) * 2 ^ is_16bit c <= 65536.
Definition blocks_fit (n : Z) c : Prop :=
  block_fits n c /\
  (is_autoiniting c = true -> block_fits (n - (curr_count c + 1)) (set_curr (base_addr c) (base_count c) c)).
(** The callbacks of the devices, as far as the transfer is concerned. *)
Definition quiet (num : Z) : Prop := forall f ev s,
  the_channel num (run_callback f num ev s) = the_channel num s /\
  machine (run_callback f num ev s) = machine s /\ ems_board_mapping (run_callback f num ev s) = ems_board_mapping s.
Definition alike (num : Z) s s' : Prop :=
  the_channel num s' = the_channel num s /\ machine s' = machine s /\
  length (ems_board_mapping s') = length (ems_board_mapping s).
Lemma alike_mapped num s s' : alike num s s' -> mapped s -> mapped s'.
Proof using. intros (_ & E1 & E2) [M1 M2]. split; [by rewrite E1|by rewrite E2]. Qed.
Lemma DoCallback_quiet num ev s c : quiet num -> the_channel num s = ok c ->
  exists s', DoCallback num ev s = ok s' /\ alike num s s' /\ ems_board_mapping s' = ems_board_mapping s.
Proof using.
  intros Hq Hc. unfold DoCallback. rewrite Hc. cbn [exec_bind]. destruct (callback c) as [f|]; eexists; (split; [reflexivity|]); [|done].
  destruct (Hq f ev s) as (E1 & E2 & E3). split; [|done]. split; [done|]. split; [done|by rewrite E3].
Qed.
Lemma update_mapping_spec n i num s : mapped s -> 0 <= i -> i + Z.of_nat n <= 16 ->
  exists s', update_mapping n i s = ok s' /\ alike num s s'.
Proof using.
  revert i s. induction n as [|n IH]; intros i s Hm Hi Hn; [by exists s|]. cbn [update_mapping]. destruct Hm as [M1 M2].
  assert (DMA_PAGEFRAME4K = 224) as E0 by done.
  destruct (read_in (firstmb (paging (machine s))) (DMA_PAGEFRAME4K + i) M1) as [p Hp]; [change LINK_START with 272; lia|].
  rewrite Hp. cbn [exec_bind]. rewrite write_upd by (rewrite M2; change LINK_START with 272; lia). cbn [exec_bind].
  set (s1 := with_ems _ s). assert (alike num s s1) as A1 by (split; [done|split; [done|apply length_upd]]).
  destruct (IH (i + 1) s1) as (s' & E & A); [by apply (alike_mapped num s)|lia|lia|]. exists s'. split; [done|].
  destruct A1 as (A1 & A2 & A3), A as (B1 & B2 & B3). split; [congruence|]. split; congruence.
Qed.
Lemma UpdateEMSMapping_spec num s : mapped s -> exists s', UpdateEMSMapping s = ok s' /\ alike num s s'.
Proof using. intros Hm. apply update_mapping_spec; [done|lia|lia]. Qed.
(** The transfer of some words of a channel, by the reference. *)
Definition word_addresses c (l : list Z) s : list Z := map (fun a => dma_address (Z.shiftr (page_base c) 12) a s) (word_bytes (is_16bit c) l).
Lemma word_bytes_run w a n : 0 <= w -> 0 <= n -> word_bytes w (seqZ a n) = seqZ (a * 2 ^ w) (n * 2 ^ w).
Proof using.
  intros Hw Hn. revert a. pattern n. apply natlike_ind; [| |exact Hn].
  - intros a. rewrite !seqZ_nil by lia. done.
  - intros k Hk IH a. rewrite <- Z.add_1_r, seqZ_S by done. unfold word_bytes in *. cbn [flat_map]. rewrite IH.
    replace ((k + 1) * 2 ^ w) with (2 ^ w + k * 2 ^ w) by lia. rewrite seqZ_app by (pose proof (Z.pow_pos_nonneg 2 w); nia).
    by replace ((a + 1) * 2 ^ w) with (a * 2 ^ w + 2 ^ w) by ring.
Qed.
Lemma word_addresses_run c a n s : 0 <= is_16bit c -> 0 <= n ->
  word_addresses c (seqZ a n) s = addresses (Z.shiftr (page_base c) 12) (a * 2 ^ is_16bit c) (n * 2 ^ is_16bit c) s.
Proof using. intros Hw Hn. unfold word_addresses. by rewrite word_bytes_run. Qed.
Lemma word_addresses_app c l l' s : word_addresses c (l ++ l') s = word_addresses c l s ++ word_addresses c l' s.
Proof using. unfold word_addresses, word_bytes. by rewrite flat_map_app, map_app. Qed.
Lemma word_addresses_same c c' l s s' :
  page_base c' = page_base c -> is_16bit c' = is_16bit c ->
  firstmb (paging (machine s')) = firstmb (paging (machine s)) -> ems_board_mapping s' = ems_board_mapping s ->
  word_addresses c' l s' = word_addresses c l s.
Proof using.
  intros E3 E4 E1 E2. unfold word_addresses. rewrite E3, E4. apply map_ext. intros a. unfold dma_address. by rewrite (dma_page_same _ s s').
Qed.
Lemma block_spec d num c buffer n s :
  mapped s -> in_range c -> 0 <= n <= 65536 -> n * 2 ^ is_16bit c <= 65536 -> enough d (n * 2 ^ is_16bit c) buffer ->
  perform_dma_io d (page_base c) (curr_addr c) buffer n (is_16bit c) s = ok (after d (word_addresses c (seqZ (curr_addr c) n) s) buffer s) /\
  (the_channel num s = ok c -> the_channel num (snd (after d (word_addresses c (seqZ (curr_addr c) n) s) buffer s)) = ok c).
Proof using.
  intros Hm [] Hn Hk He. assert (0 <= is_16bit c) by (destruct ir_width0; lia).
  assert (2 ^ is_16bit c <= 2) by (by destruct ir_width0 as [-> | ->]). assert (0 < 2 ^ is_16bit c) by (by apply Z.pow_pos_nonneg).
  rewrite word_addresses_run by lia. split; [apply perform_spec; try done; try lia; nia|done].
Qed.
Lemma blocks_fit_later n c :
  0 <= base_count c -> 0 <= is_16bit c -> is_autoiniting c = true -> blocks_fit n c ->
  blocks_fit (n - (curr_count c + 1)) (set_curr (base_addr c) (base_count c) c).
Proof using.
  intros Hb Hw Ha [_ H2]. specialize (H2 Ha). split; [done|]. intros _. unfold block_fits in *.
  cbn [curr_count is_16bit base_count base_addr set_curr] in *. assert (0 < 2 ^ is_16bit c) by (by apply Z.pow_pos_nonneg). nia.
Qed.
Lemma oversized_block num d n buffer s c :
  the_channel num s = ok c -> 0 <= is_16bit c -> ~ block_fits n c -> again (S (Z.to_nat n)) num d n 0 buffer s = err AssertFailed.
Proof using.
  intros Hc Hw Hn. cbn [again]. rewrite Hc. cbn [exec_bind]. cbv zeta. unfold block_fits in Hn. unfold perform_dma_io.
  rewrite !Z.shiftl_mul_pow2 by done.
  destruct (Z.ltb_spec n (curr_count c + 1)); rewrite ?Z.min_l, ?Z.min_r in Hn by lia; rewrite (proj2 (Z.ltb_lt _ _)) by lia; done.
Qed.
Lemma again_spec num d fuel want sofar buffer s c :
  quiet num -> the_channel num s = ok c -> in_range c -> mapped s -> 0 <= want -> (Z.to_nat want < fuel)%nat -> blocks_fit want c ->
  enough d (want * 2 ^ is_16bit c) buffer ->
  let r := words (Z.to_nat want) c in
  let l := word_addresses c (fst r) s in
  exists s', again fuel num d want sofar buffer s = ok (sofar + Z.of_nat (length (fst r)), fst (moved d l buffer (machine s)), s') /\
    the_channel num s' = ok (snd r) /\ machine s' = snd (moved d l buffer (machine s)).
Proof using.
  intros Hq. revert want sofar buffer s c. induction fuel as [|fuel IH]; intros want sofar buffer s c Hc Hr Hm Hw Hf Hfit He; [lia|].
  cbn [again]. rewrite Hc. cbn [exec_bind]. cbv zeta. destruct Hr as [Hpb Ha Hn Hb Hbc Hw16]. pose proof Hfit as [Hfit1 _]. unfold block_fits in Hfit1.
  assert (0 < 2 ^ is_16bit c <= 2) as Hp by (by destruct Hw16 as [-> | ->]).
  destruct (Z.ltb_spec want (curr_count c + 1)) as [Hlt|Hge].
  - rewrite Z.min_l in Hfit1 by lia. destruct (block_spec d num c buffer want s Hm) as [-> Hk]; [by split|lia|done|done|]. cbn [exec_bind after]. specialize (Hk Hc).
    destruct (update_spec num (fun c => set_curr (u32 (curr_addr c + want)) (u16 (curr_count c - want)) c) _ _ Hk) as (s' & E & Hc' & (Hm' & _) & _).
    cbn [after snd] in E. rewrite E. cbn [exec_bind].
    rewrite words_few by lia. cbn [fst snd]. rewrite Z2Nat.id, length_seqZ, Z2Nat.id by lia. exists s'. split; [done|].
    rewrite u32_small, u16_small in Hc' by lia. split; [done|]. by rewrite Hm'.
  - rewrite Z.min_r in Hfit1 by lia. destruct (block_spec d num c buffer (curr_count c + 1) s Hm) as [-> Hk]; [by split|lia|done|intros Hd; specialize (He Hd); nia|].
    specialize (Hk Hc). cbn [exec_bind after].
    set (l1 := word_addresses c (seqZ (curr_addr c) (curr_count c + 1)) s) in *. set (s1 := with_machine _ s) in *. cbn [after snd] in Hk. fold s1 in Hk.
    assert (mapped s1) as Hm1 by (destruct Hm as [M1 M2]; split; [cbn; by rewrite moved_paging|done]).
    unfold ReachedTerminalCount. destruct (update_spec num (set_terminal_count true) s1 c Hk) as (s2 & -> & Hc2 & (B1 & B2 & _) & _). cbn [exec_bind].
    destruct (DoCallback_quiet num ReachedTerminalCount_event s2 _ Hq Hc2) as (s3 & -> & A3 & Ee3). cbn [exec_bind].
    assert (the_channel num s3 = ok (set_terminal_count true c)) as Hc3 by (destruct A3 as (E & _); congruence). rewrite Hc3. cbn [exec_bind].
    assert (machine s3 = snd (moved d l1 buffer (machine s))) as Em3 by (destruct A3 as (_ & E & _); rewrite E, B1; done).
    assert (ems_board_mapping s3 = ems_board_mapping s) as Ee by (rewrite Ee3, B2; done).
    assert (mapped s3) as Hm3 by (destruct Hm as [M1 M2]; split; [rewrite Em3, moved_paging; done|by rewrite Ee]).
    rewrite (words_many (Z.to_nat want) c) by lia. change (is_autoiniting (set_terminal_count true c)) with (is_autoiniting c).
    assert (Z.of_nat (length (seqZ (curr_addr c) (curr_count c + 1))) = curr_count c + 1) as El by (rewrite length_seqZ; lia).
    assert (length l1 = Z.to_nat ((curr_count c + 1) * 2 ^ is_16bit c)) as El1.
    { pose proof (addresses_length (Z.shiftr (page_base c) 12) (curr_addr c * 2 ^ is_16bit c) ((curr_count c + 1) * 2 ^ is_16bit c) s ltac:(nia)) as E.
      subst l1. rewrite word_addresses_run by lia. lia. }
    destruct (is_autoiniting c) eqn:Eai.
    + destruct (update_spec num (fun c => set_curr (base_addr c) (base_count c) c) s3 _ Hc3) as (s4 & -> & Hc4 & (B4 & B5 & _) & _). cbn [exec_bind].
      assert (mapped s4) as Hm4 by (destruct Hm3 as [M1 M2]; split; [by rewrite B4|by rewrite B5]).
      set (c4 := set_curr _ _ _) in Hc4.
      rewrite Z2Nat.id by lia. cbv zeta. cbn [fst snd].
      match goal with |- context [words ?k ?x] => change (words k x) with (words k c4) end.
      unfold nz. destruct (Z.eqb_spec (want - (curr_count c + 1)) 0) as [E0|E0]; cbn [negb].
      * destruct (UpdateEMSMapping_spec num s4 Hm4) as (s5 & -> & A5). cbn [exec_bind]. rewrite E0. cbn [Z.to_nat words fst snd].
        rewrite !app_nil_r, El. exists s5. split; [done|]. destruct A5 as (E5 & E6 & _). split; [by rewrite E5, Hc4|by rewrite E6, B4, Em3].
      * assert (page_base c4 = page_base c /\ is_16bit c4 = is_16bit c) as [Ep Ew] by done.
        destruct (IH (want - (curr_count c + 1)) (sofar + (curr_count c + 1)) (drop (Z.to_nat (Z.shiftl (curr_count c + 1) (is_16bit c))) buffer) s4 c4 Hc4)
          as (s' & -> & Hc' & Hms); [split; cbn; done || lia|done|lia|lia|apply blocks_fit_later; done || lia|
            intros Hd; specialize (He Hd); rewrite Ew, length_drop, Z.shiftl_mul_pow2 by lia; nia|].
        cbn [exec_bind]. exists s'. set (r := words _ c4) in *. rewrite length_app, Nat2Z.inj_add, El, <- Z.add_assoc.
        rewrite Z.shiftl_mul_pow2 in * by lia. rewrite <- El1 in *.
        assert (word_addresses c4 (fst r) s4 = word_addresses c (fst r) s) as Ew4.
        { apply word_addresses_same; [done..| |by rewrite B5]. by rewrite B4, Em3, moved_paging. }
        rewrite Ew4, B4, Em3 in *. fold l1. rewrite word_addresses_app. fold l1.
        rewrite moved_app by (intros Hd; specialize (He Hd); nia). cbn [fst snd]. done.
    + destruct (update_spec num (fun c0 => set_masked true (set_curr (u32 (curr_addr c0 + (curr_count c + 1))) 0xffff c0)) s3 _ Hc3)
        as (s4 & -> & Hc4 & (B4 & B5 & _) & _). cbn [exec_bind].
      assert (mapped s4) as Hm4 by (destruct Hm3 as [M1 M2]; split; [by rewrite B4|by rewrite B5]).
      destruct (UpdateEMSMapping_spec num s4 Hm4) as (s5 & -> & (E5 & E6 & _)). cbn [exec_bind].
      assert (the_channel num s5 = ok (set_masked true (set_curr (curr_addr c + (curr_count c + 1)) 0xffff (set_terminal_count true c)))) as Hc5.
      { rewrite E5, Hc4. cbn [curr_addr set_terminal_count set_state]. by rewrite u32_small by lia. }
      destruct (DoCallback_quiet num IsMasked s5 _ Hq Hc5) as (s6 & -> & (E7 & E8 & _) & _). cbn [exec_bind].
      cbn [fst snd]. rewrite El. exists s6. fold l1. split; [done|]. split; [by rewrite E7, Hc5|]. by rewrite E8, E6, B4, Em3.
Qed.
Lemma words_length n c : 0 <= curr_count c -> 0 <= base_count c ->
  Z.of_nat (length (fst (words n c))) = if is_autoiniting c then Z.of_nat n else Z.min (Z.of_nat n) (curr_count c + 1).
Proof using.
  revert c. induction n as [|n IH]; intros c Hc Hb; [cbn; destruct (is_autoiniting c); lia|]. cbn [words]. unfold stops.
  destruct (Z.eqb_spec (curr_count c) 0) as [E|E]; destruct (is_autoiniting c) eqn:Ea; cbn [andb negb].
  - specialize (IH (next_word c)). unfold next_word in IH |- *. rewrite E in IH |- *. cbn [Z.eqb] in IH |- *. cbv zeta in IH |- *.
    change (is_autoiniting (set_terminal_count true c)) with (is_autoiniting c) in *. rewrite Ea in IH |- *.
    destruct (words n _) as [l c']. cbn [fst length] in *. cbn in IH. rewrite Ea in IH. rewrite Nat2Z.inj_succ, IH by lia. lia.
  - cbn. lia.
  - specialize (IH (next_word c)). unfold next_word in *. rewrite (proj2 (Z.eqb_neq _ _) E) in *. destruct (words n _) as [l c']. cbn [fst length] in *.
    cbn in IH. rewrite Ea in IH. rewrite Nat2Z.inj_succ, IH by lia. lia.
  - specialize (IH (next_word c)). unfold next_word in *. rewrite (proj2 (Z.eqb_neq _ _) E) in *. destruct (words n _) as [l c']. cbn [fst length] in *.
    cbn in IH. rewrite Ea in IH. rewrite Nat2Z.inj_succ, IH by lia. lia.
Qed.
End Transfers.

Section Calls.
Context {D : Type} `{DmaClients D}.
Implicit Types (s : Dma D) (c : DmaChannel).

(** The channel as a call starts: its address is wrapped. *)
Definition started c s : DmaChannel := set_curr (Z.land (curr_addr c) (dma_wrapping s)) (curr_count c) c.
Lemma transfer_words num d n buffer s c :
  quiet num -> the_channel num s = ok c -> in_range (started c s) -> mapped s ->
  0 <= n -> blocks_fit n (started c s) -> enough d (n * 2 ^ is_16bit c) buffer ->
  let r := words (Z.to_nat n) (started c s) in
  let l := word_addresses c (fst r) s in
  exists s', ReadOrWrite num d n buffer s = ok (Z.of_nat (length (fst r)), fst (moved d l buffer (machine s)), s') /\
    the_channel num s' = ok (snd r) /\ machine s' = snd (moved d l buffer (machine s)) /\
    Z.of_nat (length (fst r)) = if is_autoiniting c then n else Z.min n (curr_count c + 1).
Proof using.
  intros Hq Hc Hr Hm Hn Hfit He r l. unfold ReadOrWrite.
  destruct (update_spec num (fun c => set_curr (Z.land (curr_addr c) (dma_wrapping s)) (curr_count c) c) s c Hc) as (s1 & -> & Hc1 & (B1 & B2 & _) & _).
  cbn [exec_bind]. fold (started c s) in Hc1.
  assert (mapped s1) as Hm1 by (destruct Hm as [M1 M2]; split; [by rewrite B1|by rewrite B2]).
  destruct (again_spec num d (S (Z.to_nat n)) n 0 buffer s1 (started c s) Hq Hc1 Hr Hm1 Hn ltac:(lia) Hfit He) as (s' & E & Hc' & Hm').
  assert (word_addresses (started c s) (fst (words (Z.to_nat n) (started c s))) s1 = l) as El.
  { apply word_addresses_same; [done..|by rewrite B1|by rewrite B2]. }
  rewrite El, B1 in *. exists s'. split; [exact E|]. split; [exact Hc'|]. split; [exact Hm'|].
  subst r. rewrite words_length by apply Hr. by rewrite Z2Nat.id.
Qed.
End Calls.

(** C25.  While no block of it is above 64 KB, a transfer is the transfer of its words
    one by one, when the devices' callbacks leave the channel, memory and the mapping
    alone: the bytes of each word go between the buffer and the physical page that the
    first-megabyte or the EMS mapping gives its address, the address goes up and the
    count down, and the word at count zero sets the terminal count and either reloads
    both or masks the channel and ends.  It always ends; the result is the number of
    words moved: all that were asked for from an autoinitialising channel, else at most
    count plus one.  A first block above 64 KB (which a 16-bit channel can have) fails
    the assertion.  (The address is wrapped, to 64 Ki words unless wrapping is switched
    off, only at the start of a call.) *)
Theorem transfer_word_by_word {D} `{DmaClients D} num d n buffer (s : Dma D) c :
  let start := started c s in
  quiet num -> the_channel num s = ok c -> in_range start -> mapped s -> 0 <= n ->
  let r := words (Z.to_nat n) start in
  let l := word_addresses c (fst r) s in
  (blocks_fit n start -> enough d (n * 2 ^ is_16bit c) buffer ->
   exists s', ReadOrWrite num d n buffer s = ok (Z.of_nat (length (fst r)), fst (moved d l buffer (machine s)), s') /\
     the_channel num s' = ok (snd r) /\ machine s' = snd (moved d l buffer (machine s)) /\
     Z.of_nat (length (fst r)) = if is_autoiniting c then n else Z.min n (curr_count c + 1)) /\
  (~ block_fits n start -> ReadOrWrite num d n buffer s = err AssertFailed).
Proof.
  intros start Hq Hc Hr Hm Hn r l. split; [intros Hfit He; by apply transfer_words|]. intros Hfit. unfold ReadOrWrite.
  destruct (update_spec num (fun c => set_curr (Z.land (curr_addr c) (dma_wrapping s)) (curr_count c) c) s c Hc) as (s1 & -> & Hc1 & _).
  cbn [exec_bind]. apply oversized_block with start; [done| |done]. by destruct (ir_width _ Hr) as [-> | ->].
Qed.
#[export] Instance no_clients : DmaClients unit := {
  run_callback _ _ _ s := s; run_evict _ s := s; TANDYSOUND_Destroy s := s; is_machine_ega_or_better := true }.
Definition demo_memory : Machine unit :=
  mkMachine (fun a => u8 a)
    (mkMemory (replicate 512 ram_page_handler) (replicate 512 0) 0 0 0 illegal_page_handler illegal_page_handler false 0)
    (mkPaging 0 0 0 0 (fun _ => mkTlb None None init_page_handler init_page_handler 0) [] (seqZ 0 LINK_START) false 0 [])
    (mkCpu 0 0 0 0 0 0 Mixed other_core 0 0) tt.
(** Channel 1 at fffe of page 2, three words to go, autoinitialising from 10 with two. *)
Definition demo_channel (autoinit : bool) : DmaChannel :=
  mkChannel 0x20000 0xfffe 0x10 1 2 1 2 0 true autoinit false false true None None "".
Definition demo_dma (autoinit : bool) : Dma unit :=
  mkDma (Some (mkController false [new_channel 0 false; demo_channel autoinit; new_channel 2 false; new_channel 3 false] 0)) None
    (seqZ 0 LINK_START) 0xffff demo_memory.
Lemma demo_dma_ready autoinit : mapped (demo_dma autoinit) /\ in_range (demo_channel autoinit) /\ the_channel 1 (demo_dma autoinit) = ok (demo_channel autoinit).
Proof. split; [by split|]. split; [|done]. split; cbn; lia. Qed.
Lemma transfer_word_by_word_witness :
  exists s', ReadOrWrite 1 Read 4 [] (demo_dma true) = ok (4, [0xfe; 0xff; 0x00; 0x10], s') /\
    the_channel 1 s' = ok (set_terminal_count true (set_curr 0x11 0 (demo_channel true))).
Proof.
  destruct (demo_dma_ready true) as (Hm & Hr & Hc).
  destruct (transfer_word_by_word 1 Read 4 [] (demo_dma true) (demo_channel true)) as [(s' & E & Hc' & _) _];
    [by intros f ev s|exact Hc|split; vm_compute; auto; done|exact Hm|lia|split; [|intros _]; vm_compute; done|done|].
  exists s'. split; [rewrite E; by vm_compute|rewrite Hc'; by vm_compute].
Defined.
