(* ===== verification/DmaPorts.v ===== *)
(** * Programming the DMA controllers through their ports

    The registers behind the byte flip-flop read back as they were written, each
    channel apart from the others; and what a page register beyond the guest's memory
    does. *)
From S2P Require Import Prelude.
From stdpp Require Import strings.
From S2P Require Import PageAlloc.
From S2P Require Import PageHandlers.
From S2P Require Import Paging.
From S2P Require Import Dma.
From S2P Require Import DmaProofs.
#[local] Open Scope Z_scope.
#[local] Open Scope exec_scope.

(** ** Sequences of port accesses *)
Section Ports.
Context {D : Type} `{DmaClients D}.
Implicit Types (s : Dma D) (c : DmaChannel).

Fixpoint write_ports (l : list (Z * Z)) s : exec (Dma D) :=
  match l with
  | [] => ok s
  | (port, value) :: l => let* s := DMA_Write_Port port value s in write_ports l s
  end.
Fixpoint read_ports (l : list Z) s : exec (list Z * Dma D) :=
  match l with
  | [] => ok ([], s)
  | port :: l =>
      let* (v, s) := DMA_Read_Port port s in
      let* (vs, s) := read_ports l s in
      ok (v :: vs, s)
  end.
(** The port of a register of a controller. *)
Definition reg_port (second : bool) (reg : Z) : Z := if second then 0xc0 + reg * 2 else reg.
Lemma write_reg_port second reg v s : 0 <= reg < 16 -> DMA_Write_Port (reg_port second reg) v s = WriteControllerReg second reg (u16 v) s.
Proof using.
  intros Hr. unfold DMA_Write_Port, reg_port. destruct second.
  - destruct (Z.ltb_spec (0xc0 + reg * 2) 0x10); [lia|]. rewrite (proj2 (Z.leb_le _ _)), (proj2 (Z.leb_le _ _)) by lia. cbn [andb].
    f_equal. rewrite Z.shiftr_div_pow2 by lia. change (2 ^ 1) with 2. replace (0xc0 + reg * 2 - 0xc0) with (reg * 2) by lia. by rewrite Z.div_mul.
  - by rewrite (proj2 (Z.ltb_lt _ _)) by lia.
Qed.
Lemma read_reg_port second reg s : 0 <= reg < 16 -> DMA_Read_Port (reg_port second reg) s = ReadControllerReg second reg s.
Proof using.
  intros Hr. unfold DMA_Read_Port, reg_port. destruct second.
  - destruct (Z.ltb_spec (0xc0 + reg * 2) 0x10); [lia|]. rewrite (proj2 (Z.leb_le _ _)), (proj2 (Z.leb_le _ _)) by lia. cbn [andb].
    f_equal. rewrite Z.shiftr_div_pow2 by lia. change (2 ^ 1) with 2. replace (0xc0 + reg * 2 - 0xc0) with (reg * 2) by lia. by rewrite Z.div_mul.
  - by rewrite (proj2 (Z.ltb_lt _ _)) by lia.
Qed.

(** ** The flip-flop *)
Definition channels_same s s' : Prop := forall n, the_channel n s' = the_channel n s.
Lemma set_flipflop_spec second b b' s : the_flipflop second s = ok b' ->
  exists s', set_flipflop second b s = ok s' /\ the_flipflop second s' = ok b /\ channels_same s s' /\ beside s s'.
Proof using.
  unfold the_flipflop, set_flipflop. destruct (controller_of second s) as [k|] eqn:Ek; [|done]. intros _. eexists. split; [reflexivity|].
  split; [by destruct second|]. split; [|by destruct second]. intros n. unfold the_channel.
  destruct second; cbn [controller_of] in Ek; destruct (is_secondary n); cbn; by rewrite ?Ek.
Qed.
Lemma update_flipflop num f s s' second : update num f s = ok s' -> the_flipflop second s' = the_flipflop second s.
Proof using.
  unfold update, the_flipflop. destruct (controller_of (is_secondary num) s) as [k|] eqn:Ek; [|done].
  destruct (read _ _); [|done]. cbn [exec_bind]. destruct (write _ _ _); [|done]. cbn [exec_bind]. intros [= <-].
  destruct (is_secondary num), second; cbn in Ek |- *; by rewrite ?Ek.
Qed.
Lemma mapping_controllers n i s s' : update_mapping n i s = ok s' ->
  primary s' = primary s /\ secondary s' = secondary s /\ machine s' = machine s /\ dma_wrapping s' = dma_wrapping s.
Proof using.
  revert i s. induction n as [|n IH]; intros i s; [by intros [= <-]|]. cbn [update_mapping].
  destruct (read _ _); [|done]. cbn [exec_bind]. destruct (write _ _ _); [|done]. cbn [exec_bind]. intros E. by apply IH in E.
Qed.
Lemma mapping_spec s : mapped s -> exists s', UpdateEMSMapping s = ok s' /\ channels_same s s' /\ mapped s' /\ machine s' = machine s /\
  forall second, the_flipflop second s' = the_flipflop second s.
Proof using.
  intros Hm. destruct (UpdateEMSMapping_spec 0 s Hm) as (s' & E & A). exists s'. split; [done|].
  destruct (mapping_controllers _ _ _ _ E) as (E1 & E2 & E3 & _).
  assert (forall b, controller_of b s' = controller_of b s) as Ec by (intros b; destruct b; cbn; done).
  split; [intros n; unfold the_channel; by rewrite Ec|]. split; [by apply (alike_mapped 0 s)|]. split; [done|].
  intros b. unfold the_flipflop. by rewrite Ec.
Qed.

(** ** Registers *)
Definition valid (num : Z) : Prop := 0 <= num <= 7.
Lemma channel_of_slot num : valid num -> channel_of (is_secondary num) (slot num) = num.
Proof using. unfold valid, channel_of, slot, is_secondary, to_secondary_num. change SecondaryMin with 4. change SecondaryMax with 7. intros Hn. zbool. Qed.
Lemma slot_range num : valid num -> 0 <= slot num < 4.
Proof using. unfold valid, slot, is_secondary, to_secondary_num. change SecondaryMin with 4. change SecondaryMax with 7. intros Hn. zbool. Qed.
Lemma slot_inj n num : valid n -> valid num -> n <> num -> slot n <> slot num \/ is_secondary n <> is_secondary num.
Proof using.
  intros Hn Hm Hne. destruct (decide (is_secondary n = is_secondary num)) as [E|]; [|by right]. left. intros Es. apply Hne.
  rewrite <- (channel_of_slot n), <- (channel_of_slot num) by done. congruence.
Qed.
(** The register file of channel [num], the flip-flop of its controller at [b]. *)
Definition others_same (num : Z) s s' : Prop := forall n, valid n -> n <> num -> the_channel n s' = the_channel n s.
Record at_flip (num : Z) (b : bool) c s : Prop := {
  af_valid : valid num; af_channel : the_channel num s = ok c; af_flip : the_flipflop (is_secondary num) s = ok b; af_mapped : mapped s }.
Lemma register_update num b b' c f s : at_flip num b c s ->
  exists s', (let* s := set_flipflop (is_secondary num) b' s in update num f s) = ok s' /\ at_flip num b' (f c) s' /\
    others_same num s s' /\ machine s' = machine s.
Proof using.
  intros [Hv Hc Hb Hm]. destruct (set_flipflop_spec (is_secondary num) b' b s Hb) as (s1 & -> & Hb1 & Hs1 & (B1 & B2 & _)). cbn [exec_bind].
  destruct (update_spec num f s1 c) as (s' & E & Hc' & (B3 & B4 & _) & Ho); [by rewrite Hs1|]. exists s'. split; [done|]. split; [split; [done|done|..]|split].
  - by rewrite (update_flipflop _ _ _ _ _ E).
  - destruct Hm as [M1 M2]. split; [by rewrite B3, B1|by rewrite B4, B2].
  - intros n Hn Hne. rewrite Ho, Hs1; [done|by apply slot_inj|by apply slot_range].
  - by rewrite B3, B1.
Qed.
Lemma write_register_spec num b c reg f s : at_flip num b c s -> Z.shiftr reg 1 = slot num ->
  exists s', write_register (is_secondary num) reg f s = ok s' /\ at_flip num (negb b) (f (negb b) c) s' /\ others_same num s s' /\ machine s' = machine s.
Proof using.
  intros Ha Er. unfold write_register. destruct (mapping_spec s (af_mapped _ _ _ _ Ha)) as (s1 & -> & Hs & Hm & Em & Hf). cbn [exec_bind].
  destruct Ha as [Hv Hc Hb _]. rewrite Hf, Hb. cbn [exec_bind]. rewrite Er, channel_of_slot by done.
  destruct (register_update num b (negb b) c (f (negb b)) s1) as (s' & E & Ha' & Ho & Hm'); [split; [done|by rewrite Hs|by rewrite Hf|done]|].
  exists s'. split; [exact E|]. split; [done|]. split; [|by rewrite Hm']. intros n Hn Hne. by rewrite Ho, Hs.
Qed.
Lemma read_register_spec num b c reg f s : at_flip num b c s -> Z.shiftr reg 1 = slot num ->
  exists s', read_register (is_secondary num) reg f s = ok (pick_byte (negb b) (f c), s') /\ at_flip num (negb b) c s' /\ channels_same s s' /\ machine s' = machine s.
Proof using.
  intros [Hv Hc Hb Hm] Er. unfold read_register. rewrite Er, channel_of_slot, Hc, Hb by done. cbn [exec_bind].
  destruct (set_flipflop_spec (is_secondary num) (negb b) b s Hb) as (s1 & -> & Hb1 & Hs1 & (B1 & B2 & _)). cbn [exec_bind].
  exists s1. split; [done|]. split; [split; [done|by rewrite Hs1|done|]|by split]. destruct Hm as [M1 M2]. split; [by rewrite B1|by rewrite B2].
Qed.
Lemma slot_regs num : valid num ->
  is_one_of_regs [0x0; 0x2; 0x4; 0x6] (2 * slot num) = true /\ is_one_of_regs [0x0; 0x2; 0x4; 0x6] (2 * slot num + 1) = false /\
  is_one_of_regs [0x1; 0x3; 0x5; 0x7] (2 * slot num + 1) = true /\
  Z.shiftr (2 * slot num) 1 = slot num /\ Z.shiftr (2 * slot num + 1) 1 = slot num.
Proof using.
  intros Hv%slot_range. assert (slot num = 0 \/ slot num = 1 \/ slot num = 2 \/ slot num = 3) as Hs by lia.
  by destruct Hs as [-> |[-> |[-> | ->]]].
Qed.
Definition address_port (num : Z) : Z := reg_port (is_secondary num) (2 * slot num).
Definition count_port (num : Z) : Z := reg_port (is_secondary num) (2 * slot num + 1).
Definition flip_port (num : Z) : Z := reg_port (is_secondary num) 0xc.
Lemma write_address_port num b c v s : at_flip num b c s -> 0 <= v < 256 ->
  exists s', DMA_Write_Port (address_port num) v s = ok s' /\ at_flip num (negb b) (write_address (negb b) v c) s' /\
    others_same num s s' /\ machine s' = machine s.
Proof using.
  intros Ha Hv. pose proof (slot_range _ (af_valid _ _ _ _ Ha)) as Hs. destruct (slot_regs _ (af_valid _ _ _ _ Ha)) as (E1 & _ & _ & E2 & _).
  unfold address_port. rewrite write_reg_port by lia. unfold WriteControllerReg. rewrite E1, !(u16_small v) by lia.
  by apply (write_register_spec num b c _ (fun low => write_address low v)).
Qed.
Lemma write_count_port num b c v s : at_flip num b c s -> 0 <= v < 256 ->
  exists s', DMA_Write_Port (count_port num) v s = ok s' /\ at_flip num (negb b) (write_count (negb b) v c) s' /\
    others_same num s s' /\ machine s' = machine s.
Proof using.
  intros Ha Hv. pose proof (slot_range _ (af_valid _ _ _ _ Ha)) as Hs. destruct (slot_regs _ (af_valid _ _ _ _ Ha)) as (_ & E1 & E2 & _ & E3).
  unfold count_port. rewrite write_reg_port by lia. unfold WriteControllerReg. rewrite E1, E2, !(u16_small v) by lia.
  by apply (write_register_spec num b c _ (fun low => write_count low v)).
Qed.
Lemma read_address_port num b c s : at_flip num b c s ->
  exists s', DMA_Read_Port (address_port num) s = ok (pick_byte (negb b) (curr_addr c), s') /\ at_flip num (negb b) c s' /\ channels_same s s' /\ machine s' = machine s.
Proof using.
  intros Ha. pose proof (slot_range _ (af_valid _ _ _ _ Ha)) as Hs. destruct (slot_regs _ (af_valid _ _ _ _ Ha)) as (E1 & _ & _ & E2 & _).
  unfold address_port. rewrite read_reg_port by lia. unfold ReadControllerReg. rewrite E1. by apply (read_register_spec num b c).
Qed.
Lemma read_count_port num b c s : at_flip num b c s ->
  exists s', DMA_Read_Port (count_port num) s = ok (pick_byte (negb b) (curr_count c), s') /\ at_flip num (negb b) c s' /\ channels_same s s' /\ machine s' = machine s.
Proof using.
  intros Ha. pose proof (slot_range _ (af_valid _ _ _ _ Ha)) as Hs. destruct (slot_regs _ (af_valid _ _ _ _ Ha)) as (_ & E1 & E2 & _ & E3).
  unfold count_port. rewrite read_reg_port by lia. unfold ReadControllerReg. rewrite E1, E2. by apply (read_register_spec num b c).
Qed.
Lemma write_flip_port num b c v s : at_flip num b c s ->
  exists s', DMA_Write_Port (flip_port num) v s = ok s' /\ at_flip num false c s' /\ others_same num s s' /\ machine s' = machine s.
Proof using.
  intros [Hv Hc Hb Hm]. unfold flip_port. rewrite write_reg_port by lia. change (WriteControllerReg (is_secondary num) 0xc (u16 v) s) with (set_flipflop (is_secondary num) false s).
  destruct (set_flipflop_spec (is_secondary num) false b s Hb) as (s1 & E & Hb1 & Hs1 & (B1 & B2 & _)). exists s1. split; [done|].
  split; [split; [done|by rewrite Hs1|done|]|split; [|done]].
  - destruct Hm as [M1 M2]. split; [by rewrite B1|by rewrite B2].
  - intros n _ _. apply Hs1.
Qed.
Lemma merge_bytes old v : 0 <= v < 65536 -> merge_byte false (merge_byte true old (v mod 256)) (v / 256) = v.
Proof using.
  intros Hv. unfold merge_byte. change 0x00ff with (Z.ones 8). change 0xff00 with (Z.shiftl (Z.ones 8) 8).
  assert (Z.land (Z.lor (Z.land old (Z.shiftl (Z.ones 8) 8)) (v mod 256)) (Z.ones 8) = v mod 256) as ->.
  { rewrite Z.land_lor_distr_l, <- Z.land_assoc. change (Z.land (Z.shiftl (Z.ones 8) 8) (Z.ones 8)) with 0. rewrite Z.land_0_r, Z.lor_0_l.
    rewrite Z.land_ones by lia. apply Z.mod_mod. lia. }
  rewrite Z.lor_comm, lor_join by (try lia; zlia). change (2 ^ 8) with 256. zlia.
Qed.
Lemma pick_bytes v : 0 <= v < 65536 -> pick_byte true v = v mod 256 /\ pick_byte false v = v / 256.
Proof using.
  intros Hv. unfold pick_byte. change 0xff with (Z.ones 8). rewrite !Z.land_ones, Z.shiftr_div_pow2 by lia. change (2 ^ 8) with 256.
  split; [done|]. apply Z.mod_small. zlia.
Qed.
Lemma address_twice c l h :
  write_address false h (write_address true l c) =
  set_base (u16 (merge_byte false (u16 (merge_byte true (base_addr c) l)) h)) (base_count c)
    (set_curr (merge_byte false (merge_byte true (curr_addr c) l) h) (curr_count c) c).
Proof using. by destruct c. Qed.
Lemma count_twice c l h :
  write_count false h (write_count true l c) =
  set_base (base_addr c) (u16 (merge_byte false (u16 (merge_byte true (base_count c) l)) h))
    (set_curr (curr_addr c) (u16 (merge_byte false (u16 (merge_byte true (curr_count c) l)) h)) c).
Proof using. by destruct c. Qed.
Lemma registers_twice c a n a' n' b m b' m' :
  set_base a n (set_curr a' n' (set_base b m (set_curr b' m' c))) = set_base a n (set_curr a' n' c).
Proof using. by destruct c. Qed.
Lemma written_twice c addr count : 0 <= addr < 65536 -> 0 <= count < 65536 ->
  write_count false (count / 256) (write_count true (count mod 256) (write_address false (addr / 256) (write_address true (addr mod 256) c))) =
  set_base addr count (set_curr addr count c).
Proof using.
  intros Ha Hc. assert (forall old v, 0 <= v < 65536 -> u16 (merge_byte false (u16 (merge_byte true old (v mod 256))) (v / 256)) = v) as Hm.
  { intros old v Hv. assert (merge_byte false (u16 (merge_byte true old (v mod 256))) (v / 256) = merge_byte false (merge_byte true old (v mod 256)) (v / 256)) as ->.
    { unfold merge_byte at 1 3. f_equal. change 0x00ff with (Z.ones 8). rewrite !Z.land_ones by lia. unfold u16. change (2 ^ 8) with 256. zlia. }
    rewrite merge_bytes by done. by apply u16_small. }
  rewrite address_twice, count_twice. cbn [base_addr base_count curr_addr curr_count set_base set_curr].
  rewrite !Hm, merge_bytes by done. apply registers_twice.
Qed.
End Ports.

(** C26.  The registers of a channel: after the flip-flop is cleared, the four byte
    writes to its address and count ports set its base and current address and
    count, which the four reads return, low byte first; the flip-flop is clear
    again.  The seven other channels and memory are left alone. *)
Theorem registers_roundtrip {D} `{DmaClients D} num c b any addr count (s : Dma D) :
  at_flip num b c s -> 0 <= addr < 65536 -> 0 <= count < 65536 ->
  exists s' s'',
    write_ports [(flip_port num, any); (address_port num, addr mod 256); (address_port num, addr / 256);
                 (count_port num, count mod 256); (count_port num, count / 256)] s = ok s' /\
    at_flip num false (set_base addr count (set_curr addr count c)) s' /\ others_same num s s' /\ machine s' = machine s /\
    read_ports [address_port num; address_port num; count_port num; count_port num] s' =
      ok ([addr mod 256; addr / 256; count mod 256; count / 256], s'') /\
    at_flip num false (set_base addr count (set_curr addr count c)) s'' /\ others_same num s s'' /\ machine s'' = machine s.
Proof.
  intros Ha Hr1 Hr2. assert (forall v, 0 <= v < 65536 -> 0 <= v mod 256 < 256 /\ 0 <= v / 256 < 256) as Hb by (intros v Hv; zlia).
  destruct (Hb addr Hr1) as [A1 A2], (Hb count Hr2) as [C1 C2]. cbn [write_ports].
  destruct (write_flip_port num b c any s Ha) as (s0 & -> & H0 & O0 & M0). cbn [exec_bind].
  destruct (write_address_port num _ _ (addr mod 256) s0 H0 A1) as (s1 & -> & H1 & O1 & M1). cbn [exec_bind].
  destruct (write_address_port num _ _ (addr / 256) s1 H1 A2) as (s2 & -> & H2 & O2 & M2). cbn [exec_bind].
  destruct (write_count_port num _ _ (count mod 256) s2 H2 C1) as (s3 & -> & H3 & O3 & M3). cbn [exec_bind].
  destruct (write_count_port num _ _ (count / 256) s3 H3 C2) as (s4 & -> & H4 & O4 & M4). cbn [exec_bind negb] in *.
  rewrite written_twice in H4 by done. set (c' := set_base addr count _) in *.
  assert (others_same num s s4) as Ho by (intros n Hn Hne; rewrite O4, O3, O2, O1, O0; done).
  assert (machine s4 = machine s) as Hm by congruence.
  destruct (pick_bytes addr Hr1) as [P1 P2], (pick_bytes count Hr2) as [P3 P4].
  assert (curr_addr c' = addr /\ curr_count c' = count) as [Q1 Q2] by done.
  destruct (read_address_port num _ _ s4 H4) as (s5 & E5 & H5 & O5 & M5). destruct (read_address_port num _ _ s5 H5) as (s6 & E6 & H6 & O6 & M6).
  destruct (read_count_port num _ _ s6 H6) as (s7 & E7 & H7 & O7 & M7). destruct (read_count_port num _ _ s7 H7) as (s8 & E8 & H8 & O8 & M8).
  cbn [negb] in *. exists s4, s8. split; [done|]. split; [done|]. split; [done|]. split; [done|]. split; [|split; [done|split]].
  - cbn [read_ports]. rewrite E5. cbn [exec_bind]. rewrite E6. cbn [exec_bind]. rewrite E7. cbn [exec_bind]. rewrite E8. cbn [exec_bind].
    by rewrite Q1, Q2, P1, P2, P3, P4.
  - intros n Hn Hne. by rewrite O8, O7, O6, O5, Ho.
  - congruence.
Qed.
Lemma registers_roundtrip_witness :
  exists s' s'', write_ports [(0xc, 0); (2, 0x34); (2, 0x12); (3, 0xff); (3, 0x07)] (demo_dma false) = ok s' /\
    read_ports [2; 2; 3; 3] s' = ok ([0x34; 0x12; 0xff; 0x07], s'') /\
    the_channel 1 s' = ok (set_base 0x1234 0x7ff (set_curr 0x1234 0x7ff (demo_channel false))).
Proof.
  destruct (demo_dma_ready false) as (Hm & _ & Hc).
  destruct (registers_roundtrip 1 (demo_channel false) false 0 0x1234 0x7ff (demo_dma false)) as (s' & s'' & E1 & [_ E2 _ _] & _ & _ & E3 & _);
    [split; [unfold valid; lia|exact Hc|done|exact Hm]|lia|lia|].
  exists s', s''. split; [exact E1|]. split; [exact E3|exact E2].
Defined.

(** A page register is not compared with the memory the guest has: a write transfer
    of one byte on an eight-bit channel whose page lies beyond it stores outside of
    guest memory. *)
Theorem write_outside_memory {D} `{DmaClients D} num b (s : Dma D) c :
  let start := set_curr (Z.land (curr_addr c) 0xffff) (curr_count c) c in
  quiet num -> the_channel num s = ok c -> in_range start -> mapped s -> dma_wrapping s = 0xffff -> is_16bit c = 0 ->
  LINK_START * DosPageSize <= page_base c < 0x1000000 -> page_base c mod 4096 = 0 -> ram_size (machine s) <= page_base c -> 0 <= b < 256 ->
  exists s' a, ReadOrWrite num Write 1 [b] s = ok (1, [], s') /\ ram_size (machine s') <= a /\ host (machine s') a = b.
Proof.
  intros start Hq Hc Hr Hm Hwr Hw Hp Hpm Hs Hb.
  assert (started c s = start) as Est by (unfold started; by rewrite Hwr).
  destruct (transfer_words num Write 1 [b] s c Hq Hc) as (s' & E & _ & Em & _);
    [by rewrite Est|done|lia| |intros _; rewrite Hw; cbn; lia|].
  { pose proof (ir_count _ Hr) as Hcc. pose proof (ir_base_count _ Hr) as Hbc. rewrite Est.
    split; [|intros _]; unfold block_fits; cbn in *; rewrite Hw; change (2 ^ 0) with 1; lia. }
  rewrite Est in E, Em.
  assert (fst (words (Z.to_nat 1) start) = [Z.land (curr_addr c) 0xffff]) as Ew by (change (Z.to_nat 1) with 1%nat; cbn [words]; by destruct (stops start)).
  rewrite Ew in E, Em. assert (0 <= Z.land (curr_addr c) 0xffff < 65536) as Ha by (apply u16_range || (change 0xffff with (Z.ones 16); rewrite Z.land_ones by lia; by apply Z.mod_pos_bound)). 
  set (a := Z.land (curr_addr c) 0xffff) in *. assert (word_addresses c [a] s = [page_base c + a]) as El.
  { unfold word_addresses, word_bytes. rewrite Hw. change (2 ^ 0) with 1. cbn [flat_map]. rewrite seqZ_one, Z.mul_1_r. cbn [app map]. f_equal.
    unfold dma_address, dma_page. rewrite !Z.shiftr_div_pow2, land_page by lia. change (2 ^ 12) with 4096.
    change DMA_PAGEFRAME4K with 224. change LINK_START with 272 in *. change DosPageSize with 4096 in *.
    destruct (Z.ltb_spec (page_base c / 4096 + a / 4096) 224); [zlia|]. destruct (Z.ltb_spec (page_base c / 4096 + a / 4096) (224 + 16)); [zlia|].
    destruct (Z.ltb_spec (page_base c / 4096 + a / 4096) 272); [zlia|]. zlia. }
  rewrite El in E, Em. exists s', (page_base c + a). split; [exact E|]. rewrite Em. cbn [moved snd zip_with write_all fold_left fst].
  split; [change (ram_size (machine s) <= page_base c + a); lia|]. cbn [phys_writeb set_host host host_write].
  unfold host_write. cbn [fst snd]. rewrite (u32_small (page_base c + a)) by (change LINK_START with 272 in Hp; change DosPageSize with 4096 in Hp; lia). rewrite Z.eqb_refl. by apply u8_small.
Qed.
Definition demo_far : DmaChannel := put_page 0x30 (new_channel 1 false).
Definition demo_far_dma : Dma unit :=
  mkDma (Some (mkController false [new_channel 0 false; demo_far; new_channel 2 false; new_channel 3 false] 0)) None
    (seqZ 0 LINK_START) 0xffff demo_memory.
Lemma write_outside_memory_witness :
  exists s' a, ReadOrWrite 1 Write 1 [0x5a] demo_far_dma = ok (1, [], s') /\ 0x200000 <= a /\ host (machine s') a = 0x5a.
Proof.
  destruct (write_outside_memory 1 0x5a demo_far_dma demo_far) as (s' & a & E & Ha & Hh);
    [by intros f ev s|done|split; vm_compute; auto; done|by split|done|done|by (split; vm_compute)|done|by vm_compute|lia|].
  assert (ram_size (machine s') = 0x200000) as Er by (vm_compute in E; injection E as <-; done).
  exists s', a. split; [exact E|]. split; [by rewrite <- Er|exact Hh].
Defined.
