(* ===== verification/CpuState.v ===== *)
(** * The processor state ([cpu/cpu.h], [cpu/registers.h], [cpu/cpu.cpp])

    Segment registers, descriptors and their tables, the task register, the
    control and debug registers, the stack and the flags.  Guest memory, with the
    paging registers, is behind the interfaces [ByteMemory] and [PagingControl]; an
    access that faults has run the guest's fault handler when it returns. *)
From S2P Require Import Prelude.
From S2P Require Import Registers.
From S2P Require Import LazyFlags.
From S2P Require Import GuestMemory.
From S2P Require Import Paging.
#[local] Open Scope Z_scope.
#[local] Open Scope exec_scope.

(** ** Constants *)
Definition FLAG_IOPL : Z := Z.lor (Z.shiftl 1 12) (Z.shiftl 1 13).
Definition FLAG_NT : Z := Z.shiftl 1 14.
Definition FLAG_VM : Z := Z.shiftl 1 17.
Definition FLAG_AC : Z := Z.shiftl 1 18.
Definition FLAG_ID : Z := Z.shiftl 1 21.
Definition FMASK_NORMAL : Z := Z.lor FMASK_TEST (Z.lor FLAG_DF (Z.lor FLAG_TF FLAG_IF)).
Definition FMASK_ALL : Z := Z.lor FMASK_NORMAL (Z.lor FLAG_IOPL FLAG_NT).

Definition EXCEPTION_DB : Z := 1.
Definition EXCEPTION_UD : Z := 6.
Definition EXCEPTION_TS : Z := 10.
Definition EXCEPTION_NP : Z := 11.
Definition EXCEPTION_SS : Z := 12.
Definition EXCEPTION_GP : Z := 13.

Definition CPU_INT_SOFTWARE : Z := 0x1.
Definition CPU_INT_EXCEPTION : Z := 0x2.
Definition CPU_INT_HAS_ERROR : Z := 0x4.
Definition CPU_INT_NOIOPLCHECK : Z := 0x8.

Definition CR0_PROTECTION : Z := 0x00000001.
Definition CR0_FPUPRESENT : Z := 0x00000010.
Definition CR0_PAGING : Z := 0x80000000.

(** ** Segment registers *)
Inductive SegNames := es | cs | ss | ds | fs | gs.
#[export] Instance SegNames_eq_dec : EqDecision SegNames.
Proof. solve_decision. Defined.
Record Segment := mkSegment { val : Z; phys : Z }.
(** The two arrays of [struct Segments], by register. *)
Record Segments := mkSegs { s_es : Segment; s_cs : Segment; s_ss : Segment; s_ds : Segment; s_fs : Segment; s_gs : Segment }.
Definition seg_get (x : SegNames) (g : Segments) : Segment :=
  match x with es => s_es g | cs => s_cs g | ss => s_ss g | ds => s_ds g | fs => s_fs g | gs => s_gs g end.
Definition seg_put (x : SegNames) (v : Segment) (g : Segments) : Segments :=
  match x with
  | es => mkSegs v (s_cs g) (s_ss g) (s_ds g) (s_fs g) (s_gs g)
  | cs => mkSegs (s_es g) v (s_ss g) (s_ds g) (s_fs g) (s_gs g)
  | ss => mkSegs (s_es g) (s_cs g) v (s_ds g) (s_fs g) (s_gs g)
  | ds => mkSegs (s_es g) (s_cs g) (s_ss g) v (s_fs g) (s_gs g)
  | fs => mkSegs (s_es g) (s_cs g) (s_ss g) (s_ds g) v (s_gs g)
  | gs => mkSegs (s_es g) (s_cs g) (s_ss g) (s_ds g) (s_fs g) v
  end.

(** ** Descriptors: the two doublewords of [saved.fill], with the bit fields of
    [S_Descriptor] and [G_Descriptor]. *)
Record Descriptor := mkDesc { fill0 : Z; fill1 : Z }.
Definition no_descriptor : Descriptor := mkDesc 0 0.
Definition field (lo width x : Z) : Z := Z.land (Z.shiftr x lo) (Z.ones width).
Definition seg_p (d : Descriptor) : Z := field 15 1 (fill1 d).
Definition seg_g (d : Descriptor) : Z := field 23 1 (fill1 d).
Definition paramcount (d : Descriptor) : Z := field 0 5 (fill1 d).
Definition GetBase (d : Descriptor) : Z :=
  Z.lor (Z.lor (Z.shiftl (field 24 8 (fill1 d)) 24) (Z.shiftl (field 0 8 (fill1 d)) 16)) (field 16 16 (fill0 d)).
Definition GetLimit (d : Descriptor) : Z :=
  let limit := Z.lor (Z.shiftl (field 16 4 (fill1 d)) 16) (field 0 16 (fill0 d)) in
  if nz (seg_g d) then Z.lor (Z.shiftl limit 12) 0xFFF else limit.
Definition GetOffset (d : Descriptor) : Z := Z.lor (Z.shiftl (field 16 16 (fill1 d)) 16) (field 0 16 (fill0 d)).
Definition GetSelector (d : Descriptor) : Z := field 16 16 (fill0 d).
Definition Type_ (d : Descriptor) : Z := field 8 5 (fill1 d).
Definition DPL (d : Descriptor) : Z := field 13 2 (fill1 d).
Definition Big (d : Descriptor) : Z := field 22 1 (fill1 d).
(** The operations of [TSS_Descriptor]. *)
Definition IsBusy (d : Descriptor) : Z := Z.land (Type_ d) 2.
Definition Is386 (d : Descriptor) : Z := Z.land (Type_ d) 8.
Definition SetBusy (busy : bool) (d : Descriptor) : Descriptor :=
  mkDesc (fill0 d) (if busy then Z.lor (fill1 d) (Z.shiftl 2 8) else Z.land (fill1 d) (Z.lnot (Z.shiftl 2 8))).

(** Classes of descriptor types, by the constants of the source ([DESC_CODE_N_NC_A],
    ...) in the order of its [case] lists. *)
Definition DESC_INVALID : Z := 0x00.
Definition DESC_286_TSS_A : Z := 0x01.
Definition DESC_LDT : Z := 0x02.
Definition DESC_286_TSS_B : Z := 0x03.
Definition DESC_286_CALL_GATE : Z := 0x04.
Definition DESC_TASK_GATE : Z := 0x05.
Definition DESC_286_INT_GATE : Z := 0x06.
Definition DESC_286_TRAP_GATE : Z := 0x07.
Definition DESC_386_TSS_A : Z := 0x09.
Definition DESC_386_TSS_B : Z := 0x0b.
Definition DESC_386_CALL_GATE : Z := 0x0c.
Definition DESC_386_INT_GATE : Z := 0x0e.
Definition DESC_386_TRAP_GATE : Z := 0x0f.
Definition DESC_DATA_EU_RW_NA : Z := 0x12.
Definition is_one_of (l : list Z) (t : Z) : bool := existsb (Z.eqb t) l.
Definition DESC_DATA : list Z := [0x10; 0x11; 0x12; 0x13; 0x14; 0x15; 0x16; 0x17].
Definition DESC_DATA_RW : list Z := [0x12; 0x13; 0x16; 0x17].
Definition DESC_CODE_NC : list Z := [0x18; 0x19; 0x1a; 0x1b].
Definition DESC_CODE_C : list Z := [0x1c; 0x1d; 0x1e; 0x1f].
Definition DESC_CODE_R_NC : list Z := [0x1a; 0x1b].
Definition DESC_CODE_R_C : list Z := [0x1e; 0x1f].
Definition INT_GATES : list Z := [DESC_286_INT_GATE; DESC_386_INT_GATE; DESC_286_TRAP_GATE; DESC_386_TRAP_GATE].
Definition TSS_TYPES : list Z := [DESC_286_TSS_A; DESC_286_TSS_B; DESC_386_TSS_A; DESC_386_TSS_B].

(** ** The state *)
Record GDTDescriptorTable := mkGDT { table_base : Z; table_limit : Z; ldt_base : Z; ldt_limit : Z; ldt_value : Z }.
Record DescriptorTable := mkIDT { idt_base : Z; idt_limit : Z }.
Record StackSize := mkStack { mask : Z; notmask : Z; big : bool }.
Record Hlt := mkHlt { hlt_cs : Z; hlt_eip : Z }.
Record Exception := mkException { which : Z; error : Z }.
Record TaskStateSegment := mkTSS { desc : Descriptor; selector : Z; base : Z; limit : Z; is386 : Z; valid : bool }.
(** The current core; while halted, [hlt_decode] with the core to go back to. *)
Inductive Decoder := core_decoder (id : nat) | hlt_decode (old : Decoder).

Record CPU (M : Type) := mkCPU {
  core : LazyFlags.Cpu; reg_eip : Z; Segs : Segments;
  cpl : Z; mpl : Z; cr0 : Z; pmode : bool;
  gdt : GDTDescriptorTable; idt : DescriptorTable;
  stack : StackSize; code_big : bool; hlt : Hlt;
  exception : Exception; direction : Z; drx : list Z; trx : list Z;
  cpu_tss : TaskStateSegment; last_interrupt : Z;
  cpudecoder : Decoder; CPU_Cycles : Z; CPU_IODelayRemoved : Z;
  mem : M }.
Arguments mkCPU {M}.
Arguments core {M}.
Arguments reg_eip {M}.
Arguments Segs {M}.
Arguments cpl {M}.
Arguments mpl {M}.
Arguments cr0 {M}.
Arguments pmode {M}.
Arguments gdt {M}.
Arguments idt {M}.
Arguments stack {M}.
Arguments code_big {M}.
Arguments hlt {M}.
Arguments exception {M}.
Arguments direction {M}.
Arguments drx {M}.
Arguments trx {M}.
Arguments cpu_tss {M}.
Arguments last_interrupt {M}.
Arguments cpudecoder {M}.
Arguments CPU_Cycles {M}.
Arguments CPU_IODelayRemoved {M}.
Arguments mem {M}.

Section Setters.
Context {M : Type}.
Implicit Types (s : CPU M).
Definition with_core (v : LazyFlags.Cpu) s : CPU M :=
  mkCPU v (reg_eip s) (Segs s) (cpl s) (mpl s) (cr0 s) (pmode s) (gdt s) (idt s) (stack s) (code_big s) (hlt s)
    (exception s) (direction s) (drx s) (trx s) (cpu_tss s) (last_interrupt s) (cpudecoder s) (CPU_Cycles s)
    (CPU_IODelayRemoved s) (mem s).
Definition with_reg_eip (v : Z) s : CPU M :=
  mkCPU (core s) v (Segs s) (cpl s) (mpl s) (cr0 s) (pmode s) (gdt s) (idt s) (stack s) (code_big s) (hlt s)
    (exception s) (direction s) (drx s) (trx s) (cpu_tss s) (last_interrupt s) (cpudecoder s) (CPU_Cycles s)
    (CPU_IODelayRemoved s) (mem s).
Definition with_Segs (v : Segments) s : CPU M :=
  mkCPU (core s) (reg_eip s) v (cpl s) (mpl s) (cr0 s) (pmode s) (gdt s) (idt s) (stack s) (code_big s) (hlt s)
    (exception s) (direction s) (drx s) (trx s) (cpu_tss s) (last_interrupt s) (cpudecoder s) (CPU_Cycles s)
    (CPU_IODelayRemoved s) (mem s).
Definition with_cpl (v : Z) s : CPU M :=
  mkCPU (core s) (reg_eip s) (Segs s) v (mpl s) (cr0 s) (pmode s) (gdt s) (idt s) (stack s) (code_big s) (hlt s)
    (exception s) (direction s) (drx s) (trx s) (cpu_tss s) (last_interrupt s) (cpudecoder s) (CPU_Cycles s)
    (CPU_IODelayRemoved s) (mem s).
Definition with_mpl (v : Z) s : CPU M :=
  mkCPU (core s) (reg_eip s) (Segs s) (cpl s) v (cr0 s) (pmode s) (gdt s) (idt s) (stack s) (code_big s) (hlt s)
    (exception s) (direction s) (drx s) (trx s) (cpu_tss s) (last_interrupt s) (cpudecoder s) (CPU_Cycles s)
    (CPU_IODelayRemoved s) (mem s).
Definition with_cr0 (v : Z) s : CPU M :=
  mkCPU (core s) (reg_eip s) (Segs s) (cpl s) (mpl s) v (pmode s) (gdt s) (idt s) (stack s) (code_big s) (hlt s)
    (exception s) (direction s) (drx s) (trx s) (cpu_tss s) (last_interrupt s) (cpudecoder s) (CPU_Cycles s)
    (CPU_IODelayRemoved s) (mem s).
Definition with_pmode (v : bool) s : CPU M :=
  mkCPU (core s) (reg_eip s) (Segs s) (cpl s) (mpl s) (cr0 s) v (gdt s) (idt s) (stack s) (code_big s) (hlt s)
    (exception s) (direction s) (drx s) (trx s) (cpu_tss s) (last_interrupt s) (cpudecoder s) (CPU_Cycles s)
    (CPU_IODelayRemoved s) (mem s).
Definition with_gdt (v : GDTDescriptorTable) s : CPU M :=
  mkCPU (core s) (reg_eip s) (Segs s) (cpl s) (mpl s) (cr0 s) (pmode s) v (idt s) (stack s) (code_big s) (hlt s)
    (exception s) (direction s) (drx s) (trx s) (cpu_tss s) (last_interrupt s) (cpudecoder s) (CPU_Cycles s)
    (CPU_IODelayRemoved s) (mem s).
Definition with_idt (v : DescriptorTable) s : CPU M :=
  mkCPU (core s) (reg_eip s) (Segs s) (cpl s) (mpl s) (cr0 s) (pmode s) (gdt s) v (stack s) (code_big s) (hlt s)
    (exception s) (direction s) (drx s) (trx s) (cpu_tss s) (last_interrupt s) (cpudecoder s) (CPU_Cycles s)
    (CPU_IODelayRemoved s) (mem s).
Definition with_stack (v : StackSize) s : CPU M :=
  mkCPU (core s) (reg_eip s) (Segs s) (cpl s) (mpl s) (cr0 s) (pmode s) (gdt s) (idt s) v (code_big s) (hlt s)
    (exception s) (direction s) (drx s) (trx s) (cpu_tss s) (last_interrupt s) (cpudecoder s) (CPU_Cycles s)
    (CPU_IODelayRemoved s) (mem s).
Definition with_code_big (v : bool) s : CPU M :=
  mkCPU (core s) (reg_eip s) (Segs s) (cpl s) (mpl s) (cr0 s) (pmode s) (gdt s) (idt s) (stack s) v (hlt s)
    (exception s) (direction s) (drx s) (trx s) (cpu_tss s) (last_interrupt s) (cpudecoder s) (CPU_Cycles s)
    (CPU_IODelayRemoved s) (mem s).
Definition with_hlt (v : Hlt) s : CPU M :=
  mkCPU (core s) (reg_eip s) (Segs s) (cpl s) (mpl s) (cr0 s) (pmode s) (gdt s) (idt s) (stack s) (code_big s) v
    (exception s) (direction s) (drx s) (trx s) (cpu_tss s) (last_interrupt s) (cpudecoder s) (CPU_Cycles s)
    (CPU_IODelayRemoved s) (mem s).
Definition with_exception (v : Exception) s : CPU M :=
  mkCPU (core s) (reg_eip s) (Segs s) (cpl s) (mpl s) (cr0 s) (pmode s) (gdt s) (idt s) (stack s) (code_big s)
    (hlt s) v (direction s) (drx s) (trx s) (cpu_tss s) (last_interrupt s) (cpudecoder s) (CPU_Cycles s)
    (CPU_IODelayRemoved s) (mem s).
Definition with_direction (v : Z) s : CPU M :=
  mkCPU (core s) (reg_eip s) (Segs s) (cpl s) (mpl s) (cr0 s) (pmode s) (gdt s) (idt s) (stack s) (code_big s)
    (hlt s) (exception s) v (drx s) (trx s) (cpu_tss s) (last_interrupt s) (cpudecoder s) (CPU_Cycles s)
    (CPU_IODelayRemoved s) (mem s).
Definition with_drx (v : list Z) s : CPU M :=
  mkCPU (core s) (reg_eip s) (Segs s) (cpl s) (mpl s) (cr0 s) (pmode s) (gdt s) (idt s) (stack s) (code_big s)
    (hlt s) (exception s) (direction s) v (trx s) (cpu_tss s) (last_interrupt s) (cpudecoder s) (CPU_Cycles s)
    (CPU_IODelayRemoved s) (mem s).
Definition with_trx (v : list Z) s : CPU M :=
  mkCPU (core s) (reg_eip s) (Segs s) (cpl s) (mpl s) (cr0 s) (pmode s) (gdt s) (idt s) (stack s) (code_big s)
    (hlt s) (exception s) (direction s) (drx s) v (cpu_tss s) (last_interrupt s) (cpudecoder s) (CPU_Cycles s)
    (CPU_IODelayRemoved s) (mem s).
Definition with_cpu_tss (v : TaskStateSegment) s : CPU M :=
  mkCPU (core s) (reg_eip s) (Segs s) (cpl s) (mpl s) (cr0 s) (pmode s) (gdt s) (idt s) (stack s) (code_big s)
    (hlt s) (exception s) (direction s) (drx s) (trx s) v (last_interrupt s) (cpudecoder s) (CPU_Cycles s)
    (CPU_IODelayRemoved s) (mem s).
Definition with_last_interrupt (v : Z) s : CPU M :=
  mkCPU (core s) (reg_eip s) (Segs s) (cpl s) (mpl s) (cr0 s) (pmode s) (gdt s) (idt s) (stack s) (code_big s)
    (hlt s) (exception s) (direction s) (drx s) (trx s) (cpu_tss s) v (cpudecoder s) (CPU_Cycles s)
    (CPU_IODelayRemoved s) (mem s).
Definition with_cpudecoder (v : Decoder) s : CPU M :=
  mkCPU (core s) (reg_eip s) (Segs s) (cpl s) (mpl s) (cr0 s) (pmode s) (gdt s) (idt s) (stack s) (code_big s)
    (hlt s) (exception s) (direction s) (drx s) (trx s) (cpu_tss s) (last_interrupt s) v (CPU_Cycles s)
    (CPU_IODelayRemoved s) (mem s).
Definition with_CPU_Cycles (v : Z) s : CPU M :=
  mkCPU (core s) (reg_eip s) (Segs s) (cpl s) (mpl s) (cr0 s) (pmode s) (gdt s) (idt s) (stack s) (code_big s)
    (hlt s) (exception s) (direction s) (drx s) (trx s) (cpu_tss s) (last_interrupt s) (cpudecoder s) v
    (CPU_IODelayRemoved s) (mem s).
Definition with_CPU_IODelayRemoved (v : Z) s : CPU M :=
  mkCPU (core s) (reg_eip s) (Segs s) (cpl s) (mpl s) (cr0 s) (pmode s) (gdt s) (idt s) (stack s) (code_big s)
    (hlt s) (exception s) (direction s) (drx s) (trx s) (cpu_tss s) (last_interrupt s) (cpudecoder s)
    (CPU_Cycles s) v (mem s).
Definition with_mem (v : M) s : CPU M :=
  mkCPU (core s) (reg_eip s) (Segs s) (cpl s) (mpl s) (cr0 s) (pmode s) (gdt s) (idt s) (stack s) (code_big s)
    (hlt s) (exception s) (direction s) (drx s) (trx s) (cpu_tss s) (last_interrupt s) (cpudecoder s)
    (CPU_Cycles s) (CPU_IODelayRemoved s) v.
End Setters.

(** ** The interfaces *)

(** The paging registers and the mapping they select are part of the memory. *)
Class PagingControl (M : Type) := {
  PAGING_SetDirBase : Z -> M -> M;
  PAGING_GetDirBase : M -> Z;
  PAGING_Enable : bool -> M -> M;
  set_cr2 : Z -> M -> M;
  get_cr2 : M -> Z }.
(** The build option of the debugger, which turns the checks on, and the processor type
    of the configuration. *)
Class Config := { C_DEBUGGER : bool; CPU_ArchitectureType : ArchitectureType }.
Definition arch_rank (a : ArchitectureType) : Z :=
  match a with
  | Intel86 => 0 | Intel186 => 1 | Intel286 => 2 | Intel386Slow => 3 | Intel386Fast => 4
  | Intel486OldSlow => 5 | Intel486NewSlow => 6 | Pentium => 7 | PentiumMmx => 8 | Mixed => 9
  end.
(** As [ConfigureCpuType] sets it. *)
Definition cpu_extflags_toggle `{Config} : Z :=
  if arch_rank Intel486NewSlow <=? arch_rank CPU_ArchitectureType then Z.lor FLAG_ID FLAG_AC
  else if arch_rank Intel486OldSlow <=? arch_rank CPU_ArchitectureType then FLAG_AC else 0.

(** [CPU_CHECK_COND]: the condition is an error only with the debugger compiled in. *)
Definition CPU_CHECK_COND `{Config} (cond : bool) : exec unit := if C_DEBUGGER && cond then err Exit else ok tt.

Section Registers.
Context {M : Type} `{ByteMemory M} `{Config}.
Implicit Types (s : CPU M) (d : Descriptor).

Definition esp s : Z := reg_esp (cpu_regs (core s)).
Definition set_regs (f : CPU_Regs -> CPU_Regs) s : CPU M := with_core (with_regs f (core s)) s.
Definition put_esp (v : Z) s : CPU M := set_regs (set_esp (u32 v)) s.
Definition put_sp (v : Z) s : CPU M := set_regs (fun r => set_esp (set_word_l (reg_esp r) v) r) s.
Definition eflags s : Z := reg_flags (core s).
Definition put_eflags (v : Z) s : CPU M := with_core (with_flags (fun _ => v) (core s)) s.
Definition flag (f : Z) s : bool := nz (GETFLAG f (eflags s)).
Definition set_flag (f : Z) (b : bool) s : CPU M := put_eflags (SETFLAGBIT f b (eflags s)) s.
Definition GETFLAG_IOPL s : Z := Z.shiftr (Z.land (eflags s) FLAG_IOPL) 12.
Definition fill_flags s : CPU M := with_core (fst (FillFlags (core s))) s.
Definition destroy_condition_flags s : CPU M := with_core (DestroyConditionFlags (core s)) s.

Definition SegValue (x : SegNames) s : Z := val (seg_get x (Segs s)).
Definition SegPhys (x : SegNames) s : Z := phys (seg_get x (Segs s)).
Definition put_seg (x : SegNames) (v p : Z) s : CPU M := with_Segs (seg_put x (mkSegment v p) (Segs s)) s.
Definition SegSet16 (x : SegNames) (v : Z) s : CPU M := put_seg x (u16 v) (Z.shiftl (u16 v) 4) s.

Definition set_mpl (v : Z) s : CPU M := with_mpl v s.
Definition mem_readw (a : Z) s : Z := mem_unalignedreadw (PhysPt a) (mem s).
Definition mem_readd (a : Z) s : Z := mem_unalignedreadd (PhysPt a) (mem s).
Definition mem_writew (a v : Z) s : CPU M := with_mem (mem_unalignedwritew (PhysPt a) (u16 v) (mem s)) s.
Definition mem_writed (a v : Z) s : CPU M := with_mem (mem_unalignedwrited (PhysPt a) (u32 v) (mem s)) s.

(** ** Descriptor tables *)
Definition Load (address : Z) s : Descriptor * CPU M :=
  let s := set_mpl 0 s in
  let data0 := mem_readd address s in
  let data1 := mem_readd (address + 4) s in
  (mkDesc data0 data1, set_mpl 3 s).
Definition Save (address : Z) d s : CPU M :=
  let s := set_mpl 0 s in
  let s := mem_writed address (fill0 d) s in
  let s := mem_writed (address + 4) (fill1 d) s in
  set_mpl 3 s.

(** [None] when the table has no such entry; the caller's descriptor is then as it
    was. *)
Definition load_below (limit address : Z) (base : Z) s : option Descriptor * CPU M :=
  if limit <=? address then (None, s)
  else let '(d, s) := Load (u32 (base + address)) s in (Some d, s).
Definition idt_GetDescriptor (selector : Z) s : option Descriptor * CPU M :=
  load_below (idt_limit (idt s)) (Z.land selector (Z.lnot 7)) (idt_base (idt s)) s.
Definition gdt_GetDescriptor (selector : Z) s : option Descriptor * CPU M :=
  let address := Z.land selector (Z.lnot 7) in
  if nz (Z.land selector 4) then load_below (ldt_limit (gdt s)) address (ldt_base (gdt s)) s
  else load_below (table_limit (gdt s)) address (table_base (gdt s)) s.
Definition gdt_SetDescriptor (selector : Z) d s : CPU M :=
  let address := Z.land selector (Z.lnot 7) in
  if nz (Z.land selector 4) then
    if ldt_limit (gdt s) <=? address then s else Save (u32 (ldt_base (gdt s) + address)) d s
  else
    if table_limit (gdt s) <=? address then s else Save (u32 (table_base (gdt s) + address)) d s.

Definition CPU_LGDT (limit base : Z) s : CPU M :=
  let g := gdt s in with_gdt (mkGDT (u32 base) limit (ldt_base g) (ldt_limit g) (ldt_value g)) s.
Definition CPU_LIDT (limit base : Z) s : CPU M := with_idt (mkIDT (u32 base) limit) s.
Definition CPU_SGDT_base s : Z := table_base (gdt s).
Definition CPU_SGDT_limit s : Z := table_limit (gdt s).
Definition CPU_SIDT_base s : Z := idt_base (idt s).
Definition CPU_SIDT_limit s : Z := idt_limit (idt s).

(** ** Exceptions: [true], with the exception to raise *)
Definition CPU_PrepareException (wh er : Z) s : bool * CPU M := (true, with_exception (mkException wh er) s).

(** The table part of [LLDT]: [true] when loaded. *)
Definition gdt_LLDT (value : Z) s : bool * CPU M :=
  let fail wh s := let '(b, s) := CPU_PrepareException wh value s in (negb b, s) in
  let set b l v s := (true, with_gdt (mkGDT (table_base (gdt s)) (table_limit (gdt s)) b l v) s) in
  if Z.land value 0xfffc =? 0 then set 0 0 0 s else
  let '(o, s) := gdt_GetDescriptor value s in
  match o with
  | None => fail EXCEPTION_GP s
  | Some d =>
      if negb (Type_ d =? DESC_LDT) then fail EXCEPTION_GP s else
      if seg_p d =? 0 then fail EXCEPTION_NP s else
      set (GetBase d) (GetLimit d) value s
  end.
Definition CPU_SLDT s : Z := ldt_value (gdt s).
Definition CPU_LLDT (selector : Z) s : bool * CPU M := let '(b, s) := gdt_LLDT selector s in (negb b, s).

(** ** The stack *)
Definition stack_ptr (p : Z) s : Z := Z.land p (mask (stack s)).
(** The stack pointer moved by [n] within its mask. *)
Definition stack_add (p n : Z) s : Z :=
  Z.lor (Z.land p (notmask (stack s))) (Z.land (u32 (p + n)) (mask (stack s))).
Definition CPU_Push16 (value : Z) s : CPU M :=
  let new_esp := stack_add (esp s) (-2) s in
  let s := mem_writew (SegPhys ss s + stack_ptr new_esp s) value s in
  put_esp new_esp s.
Definition CPU_Push32 (value : Z) s : CPU M :=
  let new_esp := stack_add (esp s) (-4) s in
  let s := mem_writed (SegPhys ss s + stack_ptr new_esp s) value s in
  put_esp new_esp s.
Definition CPU_Pop16 s : Z * CPU M :=
  let v := mem_readw (SegPhys ss s + stack_ptr (esp s) s) s in
  (v, put_esp (stack_add (esp s) 2 s) s).
Definition CPU_Pop32 s : Z * CPU M :=
  let v := mem_readd (SegPhys ss s + stack_ptr (esp s) s) s in
  (v, put_esp (stack_add (esp s) 4 s) s).
(** Of the width of an operand. *)
Definition CPU_Push (use32 : bool) (value : Z) s : CPU M := if use32 then CPU_Push32 value s else CPU_Push16 value s.
Definition CPU_Pop (use32 : bool) s : Z * CPU M := if use32 then CPU_Pop32 s else CPU_Pop16 s.

(** The stack switch of every transfer to another level. *)
Definition set_stack_size (is_big : bool) s : CPU M :=
  with_stack (if is_big then mkStack 0xffffffff 0 true else mkStack 0xffff 0xffff0000 false) s.
Definition load_stack_pointer (d : Descriptor) (n_esp : Z) s : CPU M :=
  if nz (Big d) then put_esp n_esp (set_stack_size true s)
  else put_sp (Z.land n_esp 0xffff) (set_stack_size false s).

(** ** The flags

    The direction is computed in 32 unsigned bits and stored in a signed integer of the
    width of the host (64 bits here):
    [CPU_SetFlags] sets it to 1 or to 4294967295. *)
Definition CPU_SetFlags (word mask : Z) s : CPU M :=
  let mask := Z.lor mask cpu_extflags_toggle in
  let s := put_eflags (Z.lor (Z.lor (Z.land (eflags s) (Z.lnot mask)) (Z.land word mask)) 2) s in
  with_direction (u32 (1 - Z.shiftr (Z.land (eflags s) FLAG_DF) 9)) s.
(** The instructions CLD and STD. *)
Definition CLD s : CPU M := with_direction 1 (set_flag FLAG_DF false s).
Definition STD s : CPU M := with_direction (-1) (set_flag FLAG_DF true s).
Definition CPU_SetFlagsd (word : Z) s : CPU M :=
  CPU_SetFlags word (if nz (cpl s) then FMASK_NORMAL else FMASK_ALL) s.
Definition CPU_SetFlagsw (word : Z) s : CPU M :=
  CPU_SetFlags word (Z.land (if nz (cpl s) then FMASK_NORMAL else FMASK_ALL) 0xffff) s.

Definition interrupt_flag_denied s : bool :=
  pmode s && ((negb (flag FLAG_VM s) && (GETFLAG_IOPL s <? cpl s)) || (flag FLAG_VM s && (GETFLAG_IOPL s <? 3))).
Definition CPU_CLI s : bool * CPU M :=
  if interrupt_flag_denied s then CPU_PrepareException EXCEPTION_GP 0 s else (false, set_flag FLAG_IF false s).
Definition CPU_STI s : bool * CPU M :=
  if interrupt_flag_denied s then CPU_PrepareException EXCEPTION_GP 0 s else (false, set_flag FLAG_IF true s).
Definition popf_mask s : Z :=
  let mask := FMASK_ALL in
  let mask := if pmode s && (0 <? cpl s) then Z.land mask (Z.lnot FLAG_IOPL) else mask in
  if pmode s && negb (flag FLAG_VM s) && (GETFLAG_IOPL s <? cpl s) then Z.land mask (Z.lnot FLAG_IF) else mask.
Definition CPU_POPF (use32 : bool) s : bool * CPU M :=
  if pmode s && flag FLAG_VM s && negb (GETFLAG FLAG_IOPL (eflags s) =? FLAG_IOPL) then CPU_PrepareException EXCEPTION_GP 0 s else
  let mask := popf_mask s in
  let '(w, s) := CPU_Pop use32 s in
  let s := CPU_SetFlags w (if use32 then mask else Z.land mask 0xffff) s in
  (false, destroy_condition_flags s).
Definition CPU_PUSHF (use32 : bool) s : bool * CPU M :=
  if pmode s && flag FLAG_VM s && negb (GETFLAG FLAG_IOPL (eflags s) =? FLAG_IOPL) then CPU_PrepareException EXCEPTION_GP 0 s else
  let s := fill_flags s in
  (false, if use32 then CPU_Push32 (Z.land (eflags s) 0xfcffff) s else CPU_Push16 (eflags s) s).
End Registers.
