(* ===== verification/CpuProtect.v ===== *)
(** * Protection ([cpu/cpu.cpp])

    Segment loads, the task register, the control, debug and test registers, the
    instructions that inspect descriptors, the I/O permission check, and the
    operations on the stack frame and the halted state. *)
From S2P Require Import Prelude.
From S2P Require Import Registers.
From S2P Require Import LazyFlags.
From S2P Require Import GuestMemory.
From S2P Require Import Paging.
From S2P Require Import CpuState.
#[local] Open Scope Z_scope.
#[local] Open Scope exec_scope.

Section Protection.
Context {M : Type} `{ByteMemory M} `{PagingControl M} `{Config}.
Implicit Types (s : CPU M) (d : Descriptor).

(** ** Segment loads *)
Definition load_stack_segment (value : Z) s : bool * CPU M :=
  if Z.land value 0xfffc =? 0 then CPU_PrepareException EXCEPTION_GP 0 s else
  let '(o, s) := gdt_GetDescriptor value s in
  match o with
  | None => CPU_PrepareException EXCEPTION_GP (Z.land value 0xfffc) s
  | Some d =>
      if negb (Z.land value 3 =? cpl s) || negb (DPL d =? cpl s) then CPU_PrepareException EXCEPTION_GP (Z.land value 0xfffc) s else
      if negb (is_one_of DESC_DATA_RW (Type_ d)) then CPU_PrepareException EXCEPTION_GP (Z.land value 0xfffc) s else
      if seg_p d =? 0 then CPU_PrepareException EXCEPTION_SS (Z.land value 0xfffc) s else
      let s := put_seg ss value (GetBase d) s in
      (false, set_stack_size (nz (Big d)) s)
  end.
Definition load_data_segment (seg : SegNames) (value : Z) s : bool * CPU M :=
  if Z.land value 0xfffc =? 0 then (false, put_seg seg value 0 s) else
  let '(o, s) := gdt_GetDescriptor value s in
  match o with
  | None => CPU_PrepareException EXCEPTION_GP (Z.land value 0xfffc) s
  | Some d =>
      let t := Type_ d in
      if is_one_of DESC_DATA t || is_one_of DESC_CODE_R_NC t then
        if (DPL d <? Z.land value 3) || (DPL d <? cpl s) then CPU_PrepareException EXCEPTION_GP (Z.land value 0xfffc) s else
        if seg_p d =? 0 then CPU_PrepareException EXCEPTION_NP (Z.land value 0xfffc) s else
        (false, put_seg seg value (GetBase d) s)
      else if is_one_of DESC_CODE_R_C t then
        if seg_p d =? 0 then CPU_PrepareException EXCEPTION_NP (Z.land value 0xfffc) s else
        (false, put_seg seg value (GetBase d) s)
      else CPU_PrepareException EXCEPTION_GP (Z.land value 0xfffc) s
  end.
Definition CPU_SetSegGeneral (seg : SegNames) (value : Z) s : bool * CPU M :=
  let value := u16 value in
  if negb (pmode s) || flag FLAG_VM s then
    let s := put_seg seg value (Z.shiftl value 4) s in
    (false, if decide (seg = ss) then set_stack_size false s else s)
  else if decide (seg = ss) then load_stack_segment value s
  else load_data_segment seg value s.
Definition CPU_PopSeg (seg : SegNames) (use32 : bool) s : bool * CPU M :=
  let v := mem_readw (SegPhys ss s + stack_ptr (esp s) s) s in
  let addsp := if use32 then 0x04 else 0x02 in
  let new_esp := stack_add (esp s) addsp s in
  let '(b, s) := CPU_SetSegGeneral seg v s in
  if b then (true, s) else (false, put_esp new_esp s).

(** [cpu_check_segments], one register. *)
Definition check_segment (x : SegNames) s : CPU M :=
  let '(o, s) := gdt_GetDescriptor (SegValue x s) s in
  let needs_invalidation :=
    match o with
    | None => true
    | Some d => if is_one_of DESC_DATA (Type_ d) || is_one_of DESC_CODE_NC (Type_ d) then DPL d <? cpl s else false
    end in
  if needs_invalidation then snd (CPU_SetSegGeneral x 0 s) else s.
Definition cpu_check_segments s : CPU M := check_segment gs (check_segment fs (check_segment ds (check_segment es s))).

(** ** Task state segments *)
Definition no_tss : TaskStateSegment := mkTSS no_descriptor 0 0 0 0 false.
Definition with_desc d (t : TaskStateSegment) : TaskStateSegment :=
  mkTSS d (selector t) (base t) (limit t) (is386 t) (valid t).
Definition Get_back (t : TaskStateSegment) s : Z * CPU M := (mem_readw (base t) s, set_mpl 3 s).
Definition SaveSelector (t : TaskStateSegment) s : CPU M := gdt_SetDescriptor (selector t) (desc t) s.
(** SS and ESP of a level. *)
Definition Get_SSx_ESPx (level : Z) (t : TaskStateSegment) s : Z * Z * CPU M :=
  if nz (is386 t) then
    let where_ := u32 (base t + 4 + level * 8) in (mem_readw (where_ + 4) s, mem_readd where_ s, set_mpl 3 s)
  else
    let where_ := u32 (base t + 2 + level * 4) in (mem_readw (where_ + 2) s, mem_readw where_ s, set_mpl 3 s).
Definition SetSelector (new_sel : Z) (t : TaskStateSegment) s : bool * TaskStateSegment * CPU M :=
  let invalid d := mkTSS d (selector t) (base t) (limit t) (is386 t) false in
  if Z.land new_sel 0xfffc =? 0 then (true, mkTSS (desc t) 0 0 0 1 false, s) else
  if nz (Z.land new_sel 4) then (false, invalid (desc t), s) else
  let '(o, s) := gdt_GetDescriptor new_sel s in
  match o with
  | None => (false, invalid (desc t), s)
  | Some d =>
      if negb (is_one_of TSS_TYPES (Type_ d)) then (false, invalid d, s) else
      if seg_p d =? 0 then (false, invalid d, s) else
      (true, mkTSS d new_sel (GetBase d) (GetLimit d) (Is386 d) true, s)
  end.
Definition CPU_STR s : Z := selector (cpu_tss s).
Definition CPU_LTR (sel : Z) s : exec (bool * CPU M) :=
  if Z.land sel 0xfffc =? 0 then
    let '(_, t, s) := SetSelector sel (cpu_tss s) s in ok (false, with_cpu_tss t s)
  else
  let '(o, s) := if nz (Z.land sel 4) then (None, s) else gdt_GetDescriptor sel s in
  match o with
  | None => ok (CPU_PrepareException EXCEPTION_GP sel s)
  | Some d =>
      if (Type_ d =? DESC_286_TSS_A) || (Type_ d =? DESC_386_TSS_A) then
        if seg_p d =? 0 then ok (CPU_PrepareException EXCEPTION_NP sel s) else
        let '(loaded, t, s) := SetSelector sel (cpu_tss s) s in
        let s := with_cpu_tss t s in
        if negb loaded then err Exit else
        let s := with_cpu_tss (with_desc (SetBusy true (desc t)) t) s in
        ok (false, SaveSelector (cpu_tss s) s)
      else ok (CPU_PrepareException EXCEPTION_GP sel s)
  end.

(** ** I/O permission *)
Definition CPU_IO_Exception (port size : Z) s : bool * CPU M :=
  if pmode s && ((GETFLAG_IOPL s <? cpl s) || flag FLAG_VM s) then
    let s := set_mpl 0 s in
    let doexception s := CPU_PrepareException EXCEPTION_GP 0 (set_mpl 3 s) in
    let t := cpu_tss s in
    if is386 t =? 0 then doexception s else
    let bwhere := u32 (base t + 0x66) in
    let ofs := mem_readw bwhere s in
    if limit t <? ofs then doexception s else
    let bwhere := u32 (base t + ofs + port / 8) in
    let map := mem_readw bwhere s in
    let mask := Z.shiftl (Z.shiftr 0xffff (16 - size)) (Z.land port 7) in
    if nz (Z.land map mask) then doexception s else
    (false, set_mpl 3 s)
  else (false, s).

(** ** Control, debug and test registers *)

(** The selection of the core and of the cycles is left out. *)
Definition CPU_SET_CRX (cr value : Z) s : CPU M :=
  if cr =? 0 then
    let value := Z.lor value CR0_FPUPRESENT in
    let changed := Z.lxor (cr0 s) value in
    if negb (nz changed) then s else
    let s := with_cr0 value s in
    if nz (Z.land value CR0_PROTECTION) then
      let s := with_pmode true s in
      with_mem (PAGING_Enable (0 <? Z.land value CR0_PAGING) (mem s)) s
    else
      let s := with_pmode false s in
      with_mem (PAGING_Enable false (mem s)) s
  else if cr =? 2 then with_mem (set_cr2 (u32 value) (mem s)) s
  else if cr =? 3 then with_mem (PAGING_SetDirBase value (mem s)) s
  else s.
Definition privileged s : bool := pmode s && (0 <? cpl s).
Definition CPU_WRITE_CRX (cr value : Z) s : bool * CPU M :=
  if privileged s then CPU_PrepareException EXCEPTION_GP 0 s else
  if (cr =? 1) || (4 <? cr) then CPU_PrepareException EXCEPTION_UD 0 s else
  if (arch_rank CPU_ArchitectureType <? arch_rank Intel486OldSlow) && (cr =? 4) then CPU_PrepareException EXCEPTION_UD 0 s else
  (false, CPU_SET_CRX cr value s).
Definition CPU_GET_CRX (cr : Z) s : Z :=
  if cr =? 0 then
    if arch_rank Pentium <=? arch_rank CPU_ArchitectureType then cr0 s
    else if arch_rank Intel486OldSlow <=? arch_rank CPU_ArchitectureType then Z.land (cr0 s) 0xe005003f
    else Z.lor (cr0 s) 0x7ffffff0
  else if cr =? 2 then get_cr2 (mem s)
  else if cr =? 3 then Z.land (PAGING_GetDirBase (mem s)) 0xfffff000
  else 0.
(** Reads return the value, or the exception prepared. *)
Definition CPU_READ_CRX (cr : Z) s : option Z * CPU M :=
  if privileged s then (None, snd (CPU_PrepareException EXCEPTION_GP 0 s)) else
  if (cr =? 1) || (4 <? cr) then (None, snd (CPU_PrepareException EXCEPTION_UD 0 s)) else
  (Some (u32 (CPU_GET_CRX cr s)), s).
Definition put_drx (i v : Z) s : CPU M := with_drx (<[Z.to_nat i := u32 v]> (drx s)) s.
Definition CPU_WRITE_DRX (dr value : Z) s : bool * CPU M :=
  if privileged s then CPU_PrepareException EXCEPTION_GP 0 s else
  (false,
   if is_one_of [0; 1; 2; 3] dr then put_drx dr value s
   else if is_one_of [4; 6] dr then put_drx 6 (Z.land (Z.lor value 0xffff0ff0) 0xffffefff) s
   else if is_one_of [5; 7] dr then
     if arch_rank CPU_ArchitectureType <? arch_rank Pentium then put_drx 7 (Z.land (Z.lor value 0x400) 0xffff2fff) s
     else put_drx 7 (Z.lor value 0x400) s
   else s).
Definition CPU_READ_DRX (dr : Z) s : exec (option Z * CPU M) :=
  if privileged s then ok (None, snd (CPU_PrepareException EXCEPTION_GP 0 s)) else
  let get i := let* v := read (drx s) i in ok (Some v, s) in
  if is_one_of [0; 1; 2; 3; 6; 7] dr then get dr
  else if dr =? 4 then get 6
  else if dr =? 5 then get 7
  else ok (Some 0, s).
Definition CPU_WRITE_TRX (tr value : Z) s : bool * CPU M :=
  if privileged s then CPU_PrepareException EXCEPTION_GP 0 s else
  if is_one_of [6; 7] tr then (false, with_trx (<[Z.to_nat tr := u32 value]> (trx s)) s)
  else CPU_PrepareException EXCEPTION_UD 0 s.
Definition CPU_READ_TRX (tr : Z) s : exec (option Z * CPU M) :=
  if privileged s then ok (None, snd (CPU_PrepareException EXCEPTION_GP 0 s)) else
  if is_one_of [6; 7] tr then let* v := read (trx s) tr in ok (Some v, s)
  else ok (None, snd (CPU_PrepareException EXCEPTION_UD 0 s)).
Definition CPU_SMSW s : Z := cr0 s.
Definition CPU_LMSW (word : Z) s : bool * CPU M :=
  if privileged s then CPU_PrepareException EXCEPTION_GP 0 s else
  let word := Z.land word 0xf in
  let word := if nz (Z.land (cr0 s) 1) then Z.lor word 1 else word in
  let word := Z.lor word (Z.land (cr0 s) 0xfffffff0) in
  (false, CPU_SET_CRX 0 word s).

(** ** Inspection of descriptors; the result in ZF *)
Definition CPU_ARPL (dest_sel src_sel : Z) s : Z * CPU M :=
  let s := fill_flags s in
  if Z.land dest_sel 3 <? Z.land src_sel 3 then
    (Z.land dest_sel 0xfffc + Z.land src_sel 3, set_flag FLAG_ZF true s)
  else (dest_sel, set_flag FLAG_ZF false s).
Definition beyond_privilege (rpl : Z) d s : bool := (DPL d <? cpl s) || (DPL d <? rpl).
(** [LAR] and [LSL]: the types that are subject to the privilege check, and the value. *)
Definition load_attribute (checked : list Z) (attribute : Descriptor -> Z) (sel old : Z) s : Z * CPU M :=
  let s := fill_flags s in
  let failed s := (old, set_flag FLAG_ZF false s) in
  if nz (Z.land sel 0xfffc) then
    let rpl := Z.land sel 3 in
    let '(o, s) := gdt_GetDescriptor sel s in
    match o with
    | None => failed s
    | Some d =>
        let found s := (attribute d, set_flag FLAG_ZF true s) in
        if is_one_of checked (Type_ d) then if beyond_privilege rpl d s then failed s else found s
        else if is_one_of DESC_CODE_C (Type_ d) then found s
        else failed s
    end
  else failed s.
Definition LAR_types : list Z :=
  [DESC_LDT; DESC_TASK_GATE; DESC_286_TSS_A; DESC_286_TSS_B; DESC_286_CALL_GATE; DESC_386_TSS_A; DESC_386_TSS_B; DESC_386_CALL_GATE]
  ++ DESC_DATA ++ DESC_CODE_NC.
Definition LSL_types : list Z :=
  [DESC_LDT; DESC_286_TSS_A; DESC_286_TSS_B; DESC_386_TSS_A; DESC_386_TSS_B] ++ DESC_DATA ++ DESC_CODE_NC.
Definition CPU_LAR (sel ar : Z) s : Z * CPU M := load_attribute LAR_types (fun d => Z.land (fill1 d) 0x00ffff00) sel ar s.
Definition CPU_LSL (sel lim : Z) s : Z * CPU M := load_attribute LSL_types GetLimit sel lim s.
Definition CPU_VERR (sel : Z) s : CPU M :=
  let s := fill_flags s in
  if sel =? 0 then set_flag FLAG_ZF false s else
  let rpl := Z.land sel 3 in
  let '(o, s) := gdt_GetDescriptor sel s in
  match o with
  | None => set_flag FLAG_ZF false s
  | Some d =>
      let t := Type_ d in
      if is_one_of DESC_CODE_R_C t then set_flag FLAG_ZF true s
      else if is_one_of DESC_DATA t || is_one_of DESC_CODE_R_NC t then set_flag FLAG_ZF (negb (beyond_privilege rpl d s)) s
      else set_flag FLAG_ZF false s
  end.
Definition CPU_VERW (sel : Z) s : CPU M :=
  let s := fill_flags s in
  if sel =? 0 then set_flag FLAG_ZF false s else
  let rpl := Z.land sel 3 in
  let '(o, s) := gdt_GetDescriptor sel s in
  match o with
  | None => set_flag FLAG_ZF false s
  | Some d =>
      if is_one_of DESC_DATA_RW (Type_ d) then set_flag FLAG_ZF (negb (beyond_privilege rpl d s)) s
      else set_flag FLAG_ZF false s
  end.

(** ** CPUID, HLT and ENTER *)
Definition id_regs (a b c x : Z) s : CPU M := set_regs (fun r => set_eax a (set_ebx b (set_ecx c (set_edx x r)))) s.
Definition CPU_CPUID s : bool * CPU M :=
  if arch_rank CPU_ArchitectureType <? arch_rank Intel486NewSlow then (false, s) else
  let eax := reg_eax (cpu_regs (core s)) in
  if eax =? 0 then (true, id_regs 1 0x756e6547 0x6c65746e 0x49656e69 s)
  else if eax =? 1 then
    match CPU_ArchitectureType with
    | Intel486NewSlow | Mixed => (true, id_regs 0x402 0 0 0x1 s)
    | Pentium => (true, id_regs 0x517 0 0 0x11 s)
    | PentiumMmx => (true, id_regs 0x543 0 0 0x00800011 s)
    | _ => (false, s)
    end
  else (true, id_regs 0 0 0 0 s).

(** The decoder while halted. *)
Definition hlt_decoder s : CPU M :=
  if negb (reg_eip s =? hlt_eip (hlt s)) || negb (SegValue cs s =? hlt_cs (hlt s)) then
    match cpudecoder s with hlt_decode old => with_cpudecoder old s | core_decoder _ => s end
  else with_CPU_Cycles 0 (with_CPU_IODelayRemoved (CPU_IODelayRemoved s + CPU_Cycles s) s).
Definition CPU_HLT (oldeip : Z) s : CPU M :=
  let s := with_reg_eip (u32 oldeip) s in
  let s := with_CPU_IODelayRemoved (CPU_IODelayRemoved s + CPU_Cycles s) s in
  let s := with_CPU_Cycles 0 s in
  let s := with_hlt (mkHlt (SegValue cs s) (reg_eip s)) s in
  with_cpudecoder (hlt_decode (cpudecoder s)) s.

(** The frame pointers copied by ENTER; the indices are not masked. *)
Fixpoint enter_loop (n : nat) (width sp_index bp_index : Z) s : Z * CPU M :=
  match n with
  | O => (sp_index, s)
  | S n =>
      let sp_index := u64 (sp_index - width) in
      let bp_index := u64 (bp_index - width) in
      let s := if width =? 2 then mem_writew (SegPhys ss s + sp_index) (mem_readw (SegPhys ss s + bp_index) s) s
               else mem_writed (SegPhys ss s + sp_index) (mem_readd (SegPhys ss s + bp_index) s) s in
      enter_loop n width sp_index bp_index s
  end.
Definition ebp s : Z := reg_ebp (cpu_regs (core s)).
Definition CPU_ENTER (use32 : bool) (bytes level : Z) s : CPU M :=
  let level := Z.land level 0x1f in
  let sp_index := stack_ptr (esp s) s in
  let bp_index := stack_ptr (ebp s) s in
  let '(sp_index, s) :=
    if negb use32 then
      let sp_index := u64 (sp_index - 2) in
      let s := mem_writew (SegPhys ss s + sp_index) (word_l (ebp s)) s in
      let s := set_regs (fun r => set_ebp (set_word_l (reg_ebp r) (u16 (reg_esp r - 2))) r) s in
      if nz level then
        let '(sp_index, s) := enter_loop (Z.to_nat (level - 1)) 2 sp_index bp_index s in
        let sp_index := u64 (sp_index - 2) in
        (sp_index, mem_writew (SegPhys ss s + sp_index) (word_l (ebp s)) s)
      else (sp_index, s)
    else
      let sp_index := u64 (sp_index - 4) in
      let s := mem_writed (SegPhys ss s + sp_index) (ebp s) s in
      let s := set_regs (fun r => set_ebp (u32 (reg_esp r - 4)) r) s in
      if nz level then
        let '(sp_index, s) := enter_loop (Z.to_nat (level - 1)) 4 sp_index bp_index s in
        let sp_index := u64 (sp_index - 4) in
        (sp_index, mem_writed (SegPhys ss s + sp_index) (ebp s) s)
      else (sp_index, s) in
  let sp_index := u64 (sp_index - bytes) in
  put_esp (Z.lor (Z.land (esp s) (notmask (stack s))) (Z.land sp_index (mask (stack s)))) s.
End Protection.
