(* ===== verification/CpuControl.v ===== *)
(** * Control transfers ([cpu/cpu.cpp])

    Task switches, interrupts and exceptions, and the far forms of JMP, CALL, RET and
    IRET, in real, virtual-8086 and protected mode.  [fuel] bounds the exceptions
    raised while an exception is delivered; the code has no such bound. *)
From S2P Require Import Prelude.
From S2P Require Import Registers.
From S2P Require Import LazyFlags.
From S2P Require Import GuestMemory.
From S2P Require Import CpuState.
From S2P Require Import CpuProtect.
#[local] Open Scope Z_scope.
#[local] Open Scope exec_scope.

(** The registers in a [TSS_32]. *)
Record Context := mkContext {
  c_cr3 : Z; c_eip : Z; c_eflags : Z;
  c_eax : Z; c_ecx : Z; c_edx : Z; c_ebx : Z; c_esp : Z; c_ebp : Z; c_edi : Z; c_esi : Z;
  c_es : Z; c_cs : Z; c_ss : Z; c_ds : Z; c_fs : Z; c_gs : Z; c_ldt : Z }.
Inductive TSwitchType := TSwitch_JMP | TSwitch_CALL_INT | TSwitch_IRET.
#[export] Instance TSwitchType_eq_dec : EqDecision TSwitchType.
Proof. solve_decision. Defined.

(** What [GetDescriptor] leaves in a fresh [Descriptor]. *)
Definition absent (o : option Descriptor) : bool := match o with None => true | Some _ => false end.
Definition loaded (o : option Descriptor) : Descriptor := default no_descriptor o.

Section Control.
Context {M : Type} `{ByteMemory M} `{PagingControl M} `{Config}.
Implicit Types (s : CPU M) (d gate : Descriptor).

(** ** Task switches *)
Definition read_context (b : Z) s : Context :=
  mkContext (mem_readd (b + 28) s) (mem_readd (b + 32) s) (mem_readd (b + 36) s)
    (mem_readd (b + 40) s) (mem_readd (b + 44) s) (mem_readd (b + 48) s) (mem_readd (b + 52) s)
    (mem_readd (b + 56) s) (mem_readd (b + 60) s) (mem_readd (b + 68) s) (mem_readd (b + 64) s)
    (mem_readw (b + 72) s) (mem_readw (b + 76) s) (mem_readw (b + 80) s)
    (mem_readw (b + 84) s) (mem_readw (b + 88) s) (mem_readw (b + 92) s) (mem_readw (b + 96) s).
(** The stores into the current TSS, in order. *)
Fixpoint write_fields (l : list (Z * Z)) (b : Z) s : CPU M :=
  match l with
  | [] => s
  | (offset, v) :: l => write_fields l b (mem_writed (b + offset) v s)
  end.
Definition saved_fields (old_flags old_eip : Z) s : list (Z * Z) :=
  let r := cpu_regs (core s) in
  [(36, old_flags); (32, old_eip);
   (40, reg_eax r); (44, reg_ecx r); (48, reg_edx r); (52, reg_ebx r);
   (56, reg_esp r); (60, reg_ebp r); (64, reg_esi r); (68, reg_edi r);
   (72, SegValue es s); (76, SegValue cs s); (80, SegValue ss s);
   (84, SegValue ds s); (88, SegValue fs s); (92, SegValue gs s)].
Definition save_context (old_flags old_eip : Z) s : CPU M :=
  write_fields (saved_fields old_flags old_eip s) (base (cpu_tss s)) s.

(** The registers of a task other than the current one. *)
Definition load_context (c : Context) s : CPU M :=
  let s := with_mem (PAGING_SetDirBase (c_cr3 c) (mem s)) s in
  let s := with_reg_eip (c_eip c) s in
  let s := CPU_SetFlags (c_eflags c) (Z.lor FMASK_ALL FLAG_VM) s in
  set_regs (fun r => mkRegs (c_eax c) (c_ecx c) (c_edx c) (c_ebx c) (c_esp c) (c_ebp c) (c_esi c) (c_edi c) (flags r)) s.
Definition load_task_cs (new_cs : Z) s : exec (CPU M) :=
  let s := with_cpl (Z.land new_cs 3) s in
  let '(o, s) := gdt_GetDescriptor new_cs s in
  match o with
  | None => err Exit
  | Some d =>
      if seg_p d =? 0 then err Exit else
      let doconforming :=
        let s := with_code_big (0 <? Big d) s in
        ok (put_seg cs (u16 new_cs) (GetBase d) s) in
      if is_one_of DESC_CODE_NC (Type_ d) then if negb (cpl s =? DPL d) then err Exit else doconforming
      else if is_one_of DESC_CODE_C (Type_ d) then if cpl s <? DPL d then err Exit else doconforming
      else err Exit
  end.
Definition load_task_selectors (c : Context) s : exec (CPU M) :=
  let* s :=
    if flag FLAG_VM s then ok (with_cpl 3 (with_code_big false (SegSet16 cs (c_cs c) s)))
    else
      let s := if nz (c_ldt c) then snd (CPU_LLDT (c_ldt c) s) else s in
      load_task_cs (c_cs c) s in
  let s := snd (CPU_SetSegGeneral es (c_es c) s) in
  let s := snd (CPU_SetSegGeneral ss (c_ss c) s) in
  let s := snd (CPU_SetSegGeneral ds (c_ds c) s) in
  let s := snd (CPU_SetSegGeneral fs (c_fs c) s) in
  ok (snd (CPU_SetSegGeneral gs (c_gs c) s)).

Definition cpu_switch_task (new_tss_selector : Z) (tstype : TSwitchType) (old_eip : Z) s : exec (CPU M) :=
  let s := fill_flags s in
  let '(found, new_tss, s) := SetSelector new_tss_selector no_tss s in
  if negb found then err Exit else
  let busy := nz (IsBusy (desc new_tss)) in
  if (if decide (tstype = TSwitch_IRET) then negb busy else busy) then err Exit else
  if is386 new_tss =? 0 then err Exit else
  let c := read_context (base new_tss) s in
  let s :=
    if decide (tstype = TSwitch_CALL_INT) then s
    else
      let t := with_desc (SetBusy false (desc (cpu_tss s))) (cpu_tss s) in
      SaveSelector t (with_cpu_tss t s) in
  let old_flags := if decide (tstype = TSwitch_IRET) then Z.land (eflags s) (Z.lnot FLAG_NT) else eflags s in
  if is386 (cpu_tss s) =? 0 then err Exit else
  let s := save_context old_flags old_eip s in
  let '(c, s) :=
    if decide (tstype = TSwitch_CALL_INT) then
      (mkContext (c_cr3 c) (c_eip c) (Z.lor (c_eflags c) FLAG_NT)
         (c_eax c) (c_ecx c) (c_edx c) (c_ebx c) (c_esp c) (c_ebp c) (c_edi c) (c_esi c)
         (c_es c) (c_cs c) (c_ss c) (c_ds c) (c_fs c) (c_gs c) (c_ldt c),
       mem_writed (base new_tss) (selector (cpu_tss s)) s)
    else (c, s) in
  let s :=
    if decide (tstype = TSwitch_IRET) then s
    else SaveSelector (with_desc (SetBusy true (desc new_tss)) new_tss) s in
  let '(c, s) :=
    if new_tss_selector =? selector (cpu_tss s) then
      (mkContext (c_cr3 c) (c_eip c) (c_eflags c)
         (c_eax c) (c_ecx c) (c_edx c) (c_ebx c) (c_esp c) (c_ebp c) (c_edi c) (c_esi c)
         (SegValue es s) (SegValue cs s) (SegValue ss s) (SegValue ds s) (SegValue fs s) (SegValue gs s) (c_ldt c),
       with_reg_eip (u32 old_eip) s)
    else (c, load_context c s) in
  let* s := load_task_selectors c s in
  let '(_, t, s) := SetSelector new_tss_selector (cpu_tss s) s in
  ok (with_cpu_tss t s).

(** ** Interrupts *)
Definition has (bit type : Z) : bool := nz (Z.land type bit).

Definition real_interrupt (num oldeip : Z) s : CPU M :=
  let s := CPU_Push16 (Z.land (eflags s) 0xffff) s in
  let s := CPU_Push16 (SegValue cs s) s in
  let s := CPU_Push16 oldeip s in
  let s := set_flag FLAG_IF false s in
  let s := set_flag FLAG_TF false s in
  let b := idt_base (idt s) in
  let s := with_reg_eip (mem_readw (b + Z.shiftl num 2) s) s in
  let v := mem_readw (b + Z.shiftl num 2 + 2) s in
  with_code_big false (put_seg cs v (Z.shiftl v 4) s).

Definition gate_32bit gate : bool := nz (Z.land (Type_ gate) 0x8).
Definition push_v86_segment (x : SegNames) s : CPU M := SegSet16 x 0 (CPU_Push32 (SegValue x s) s).
(** The stack of the inner level, with the old stack pointer on it. *)
Definition enter_inner_level gate (cs_dpl : Z) s : exec (CPU M) :=
  let o_ss := SegValue ss s in
  let o_esp := esp s in
  let '(n_ss, n_esp, s) := Get_SSx_ESPx cs_dpl (cpu_tss s) s in
  let* _ := CPU_CHECK_COND (Z.land n_ss 0xfffc =? 0) in
  let '(o, s) := gdt_GetDescriptor n_ss s in
  let* _ := CPU_CHECK_COND (absent o) in
  let d := loaded o in
  let* _ := CPU_CHECK_COND (negb (Z.land n_ss 3 =? cs_dpl) || negb (DPL d =? cs_dpl)) in
  if negb (is_one_of DESC_DATA_RW (Type_ d)) then err Exit else
  let* _ := CPU_CHECK_COND (seg_p d =? 0) in
  let s := put_seg ss n_ss (GetBase d) s in
  let s := load_stack_pointer d n_esp s in
  let s := with_cpl cs_dpl s in
  if gate_32bit gate then
    let s := if flag FLAG_VM s
             then push_v86_segment es (push_v86_segment ds (push_v86_segment fs (push_v86_segment gs s)))
             else s in
    ok (CPU_Push32 o_esp (CPU_Push32 o_ss s))
  else if flag FLAG_VM s then err Exit
  else ok (CPU_Push16 o_esp (CPU_Push16 o_ss s)).
(** From the label [do_interrupt] to the end of the case. *)
Definition push_interrupt_frame gate (type oldeip : Z) s : CPU M :=
  let wide := gate_32bit gate in
  let s := CPU_Push wide (if wide then eflags s else Z.land (eflags s) 0xffff) s in
  let s := CPU_Push wide (SegValue cs s) s in
  let s := CPU_Push wide oldeip s in
  if has CPU_INT_HAS_ERROR type then CPU_Push wide (error (exception s)) s else s.
Definition enter_gate gate cs_desc (type oldeip : Z) s : CPU M :=
  let s := push_interrupt_frame gate type oldeip s in
  let s := put_seg cs (u16 (Z.lor (Z.land (GetSelector gate) 0xfffc) (cpl s))) (GetBase cs_desc) s in
  let s := with_code_big (0 <? Big cs_desc) s in
  let s := with_reg_eip (GetOffset gate) s in
  let s := if nz (Z.land (Type_ gate) 1) then s else set_flag FLAG_IF false s in
  let s := set_flag FLAG_TF false s in
  let s := set_flag FLAG_NT false s in
  set_flag FLAG_VM false s.
Definition interrupt_gate gate (type oldeip : Z) s : exec (CPU M) :=
  let* _ := CPU_CHECK_COND (seg_p gate =? 0) in
  let gate_sel := GetSelector gate in
  let* _ := CPU_CHECK_COND (Z.land gate_sel 0xfffc =? 0) in
  let '(o, s) := gdt_GetDescriptor gate_sel s in
  let* _ := CPU_CHECK_COND (absent o) in
  let cs_desc := loaded o in
  let cs_dpl := DPL cs_desc in
  let* _ := CPU_CHECK_COND (cpl s <? cs_dpl) in
  let same_level :=
    let* _ := CPU_CHECK_COND (seg_p cs_desc =? 0) in
    if flag FLAG_VM s && (cs_dpl <? cpl s) then err Exit
    else ok (enter_gate gate cs_desc type oldeip s) in
  if is_one_of DESC_CODE_NC (Type_ cs_desc) then
    if cs_dpl <? cpl s then
      let* _ := CPU_CHECK_COND (seg_p cs_desc =? 0) in
      let* _ := CPU_CHECK_COND (flag FLAG_VM s && negb (cs_dpl =? 0)) in
      let* s := enter_inner_level gate cs_dpl s in
      ok (enter_gate gate cs_desc type oldeip s)
    else if negb (cs_dpl =? cpl s) then err Exit
    else same_level
  else if is_one_of DESC_CODE_C (Type_ cs_desc) then same_level
  else err Exit.
Definition interrupt_task gate (type oldeip : Z) s : exec (CPU M) :=
  let* _ := CPU_CHECK_COND (seg_p gate =? 0) in
  let* s := cpu_switch_task (GetSelector gate) TSwitch_CALL_INT oldeip s in
  ok (if has CPU_INT_HAS_ERROR type then
        if nz (is386 (cpu_tss s)) then CPU_Push32 (error (exception s)) s else CPU_Push16 (error (exception s)) s
      else s).

(** [CPU_DebugException] and [CPU_Exception] with the interrupt they raise.  With the
    debugger compiled in, no breakpoint is set at interrupt 3. *)
Definition debug_triggers (triggers : Z) s : CPU M :=
  let d6 := nth 6 (drx s) 0 in with_drx (<[6%nat := Z.lor (Z.land d6 0xFFFF1FF0) triggers]> (drx s)) s.
Definition exception_type (which : Z) : Z := Z.lor CPU_INT_EXCEPTION (if 8 <=? which then CPU_INT_HAS_ERROR else 0).
Definition with_error (er : Z) s : CPU M := with_exception (mkException (which (exception s)) er) s.
Fixpoint CPU_Interrupt (fuel : nat) (num type oldeip : Z) s : exec (CPU M) :=
  match fuel with
  | O => err OutOfFuel
  | S fuel =>
      let CPU_Exception wh er s := CPU_Interrupt fuel wh (exception_type wh) (reg_eip s) (with_error er s) in
      if (num =? EXCEPTION_DB) && negb (has CPU_INT_EXCEPTION type) then
        CPU_Interrupt fuel EXCEPTION_DB CPU_INT_EXCEPTION oldeip (debug_triggers 0 s)
      else
      let s := with_last_interrupt (u8 num) s in
      let s := fill_flags s in
      if negb (pmode s) then ok (real_interrupt num oldeip s) else
      let software := has CPU_INT_SOFTWARE type in
      if flag FLAG_VM s && software && negb (has CPU_INT_NOIOPLCHECK type)
         && negb (Z.land (eflags s) FLAG_IOPL =? FLAG_IOPL)
      then CPU_Exception EXCEPTION_GP 0 s else
      let '(o, s) := idt_GetDescriptor (Z.shiftl num 3) s in
      match o with
      | None => CPU_Exception EXCEPTION_GP (num * 8 + 2 + (if software then 0 else 1)) s
      | Some gate =>
          if software && (DPL gate <? cpl s) then CPU_Exception EXCEPTION_GP (num * 8 + 2) s else
          if is_one_of INT_GATES (Type_ gate) then interrupt_gate gate type oldeip s
          else if Type_ gate =? DESC_TASK_GATE then interrupt_task gate type oldeip s
          else err Exit
      end
  end.
Definition CPU_Exception (fuel : nat) (wh er : Z) s : exec (CPU M) :=
  CPU_Interrupt fuel wh (exception_type wh) (reg_eip s) (with_error er s).
Definition CPU_DebugException (fuel : nat) (triggers oldeip : Z) s : exec (CPU M) :=
  CPU_Interrupt fuel EXCEPTION_DB CPU_INT_EXCEPTION oldeip (debug_triggers triggers s).

(** ** IRET *)

(** The three words of the frame below SS:ESP, and the stack pointer above them. *)
Definition read_stack (wide : bool) (p : Z) s : Z :=
  if wide then mem_readd (SegPhys ss s + stack_ptr p s) s else mem_readw (SegPhys ss s + stack_ptr p s) s.
Definition iret_frame (wide : bool) s : Z * Z * Z * Z :=
  let n := if wide then 4 else 2 in
  let new_eip := read_stack wide (esp s) s in
  let tempesp := stack_add (esp s) n s in
  let new_cs := read_stack wide tempesp s in
  let tempesp := stack_add tempesp n s in
  let new_flags := read_stack wide tempesp s in
  (new_eip, u16 new_cs, new_flags, stack_add tempesp n s).
Definition iret_real (use32 : bool) s : CPU M :=
  let '(v, s) := CPU_Pop use32 s in
  let s := with_reg_eip v s in
  let '(v, s) := CPU_Pop use32 s in
  let s := SegSet16 cs v s in
  let '(v, s) := CPU_Pop use32 s in
  let s := CPU_SetFlags v (if use32 then FMASK_ALL else Z.land FMASK_ALL 0xffff) s in
  destroy_condition_flags (with_code_big false s).
Definition iret_v86 (use32 : bool) s : CPU M :=
  let '(new_eip, new_cs, new_flags, tempesp) := iret_frame use32 s in
  let s := put_esp tempesp s in
  let s := with_reg_eip new_eip s in
  let s := SegSet16 cs new_cs s in
  let s := CPU_SetFlags new_flags (Z.lor FMASK_NORMAL FLAG_NT) s in
  destroy_condition_flags (with_code_big false s).
Definition iret_task (oldeip : Z) s : exec (CPU M) :=
  if flag FLAG_VM s then err Exit else
  let* _ := CPU_CHECK_COND (negb (valid (cpu_tss s))) in
  let '(back_link, s) := Get_back (cpu_tss s) s in
  cpu_switch_task back_link TSwitch_IRET oldeip s.
(** From protected mode at level 0 back to virtual-8086 mode. *)
Definition iret_to_v86 (n_eip n_cs_sel n_flags tempesp : Z) s : CPU M :=
  let s := put_esp tempesp s in
  let s := with_reg_eip (Z.land n_eip 0xffff) s in
  let '(n_esp, s) := CPU_Pop32 s in
  let '(n_ss, s) := CPU_Pop32 s in
  let '(n_es, s) := CPU_Pop32 s in
  let '(n_ds, s) := CPU_Pop32 s in
  let '(n_fs, s) := CPU_Pop32 s in
  let '(n_gs, s) := CPU_Pop32 s in
  let s := CPU_SetFlags n_flags (Z.lor FMASK_ALL FLAG_VM) s in
  let s := destroy_condition_flags s in
  let s := with_cpl 3 s in
  let s := snd (CPU_SetSegGeneral ss (u16 n_ss) s) in
  let s := snd (CPU_SetSegGeneral es (u16 n_es) s) in
  let s := snd (CPU_SetSegGeneral ds (u16 n_ds) s) in
  let s := snd (CPU_SetSegGeneral fs (u16 n_fs) s) in
  let s := snd (CPU_SetSegGeneral gs (u16 n_gs) s) in
  let s := put_esp n_esp s in
  let s := with_code_big false s in
  SegSet16 cs n_cs_sel s.
Definition iret_flags_mask s : Z :=
  let mask := if nz (cpl s) then Z.lor FMASK_NORMAL FLAG_NT else FMASK_ALL in
  if GETFLAG_IOPL s <? cpl s then Z.land mask (Z.lnot FLAG_IF) else mask.
Definition load_cs (sel : Z) d s : CPU M := put_seg cs (u16 sel) (GetBase d) (with_code_big (0 <? Big d) s).
Definition iret_same_level (n_eip n_cs_sel n_flags tempesp : Z) n_cs_desc s : CPU M :=
  let s := put_esp tempesp s in
  let s := load_cs n_cs_sel n_cs_desc s in
  let s := with_reg_eip n_eip s in
  let s := CPU_SetFlags n_flags (iret_flags_mask s) s in
  destroy_condition_flags s.
Definition iret_outer_level (use32 : bool) (n_eip n_cs_sel n_flags tempesp : Z) n_cs_desc s : exec (CPU M) :=
  let n_cs_rpl := Z.land n_cs_sel 3 in
  let n_esp := read_stack use32 tempesp s in
  let tempesp := stack_add tempesp (if use32 then 4 else 2) s in
  let n_ss := u16 (read_stack use32 tempesp s) in
  let* _ := CPU_CHECK_COND (Z.land n_ss 0xfffc =? 0) in
  let* _ := CPU_CHECK_COND (negb (Z.land n_ss 3 =? n_cs_rpl)) in
  let '(o, s) := gdt_GetDescriptor n_ss s in
  let* _ := CPU_CHECK_COND (absent o) in
  let d := loaded o in
  let* _ := CPU_CHECK_COND (negb (DPL d =? n_cs_rpl)) in
  if negb (is_one_of DESC_DATA_RW (Type_ d)) then err Exit else
  let* _ := CPU_CHECK_COND (seg_p d =? 0) in
  let s := load_cs n_cs_sel n_cs_desc s in
  let s := CPU_SetFlags n_flags (iret_flags_mask s) s in
  let s := destroy_condition_flags s in
  let s := with_cpl n_cs_rpl s in
  let s := with_reg_eip n_eip s in
  let s := put_seg ss n_ss (GetBase d) s in
  let s := load_stack_pointer d n_esp s in
  ok (cpu_check_segments s).
(** From the checks of the new CS on. *)
Definition iret_protected (use32 : bool) (n_eip n_cs_sel n_flags tempesp : Z) s : exec (CPU M) :=
  let* _ := CPU_CHECK_COND (Z.land n_cs_sel 0xfffc =? 0) in
  let n_cs_rpl := Z.land n_cs_sel 3 in
  let '(o, s) := gdt_GetDescriptor n_cs_sel s in
  let* _ := CPU_CHECK_COND (absent o) in
  let d := loaded o in
  let* _ := CPU_CHECK_COND (n_cs_rpl <? cpl s) in
  let* _ :=
    if is_one_of DESC_CODE_NC (Type_ d) then CPU_CHECK_COND (negb (n_cs_rpl =? DPL d))
    else if is_one_of DESC_CODE_C (Type_ d) then CPU_CHECK_COND (n_cs_rpl <? DPL d)
    else err Exit in
  let* _ := CPU_CHECK_COND (seg_p d =? 0) in
  if n_cs_rpl =? cpl s then ok (iret_same_level n_eip n_cs_sel n_flags tempesp d s)
  else iret_outer_level use32 n_eip n_cs_sel n_flags tempesp d s.
Definition CPU_IRET (fuel : nat) (use32 : bool) (oldeip : Z) s : exec (CPU M) :=
  if negb (pmode s) then ok (iret_real use32 s) else
  if flag FLAG_VM s then
    if negb (Z.land (eflags s) FLAG_IOPL =? FLAG_IOPL) then CPU_Exception fuel EXCEPTION_GP 0 s
    else ok (iret_v86 use32 s)
  else if flag FLAG_NT s then iret_task oldeip s else
  let '(n_eip, n_cs_sel, n_flags, tempesp) := iret_frame use32 s in
  if use32 then
    if nz (Z.land n_flags FLAG_VM) && (cpl s =? 0) then ok (iret_to_v86 n_eip n_cs_sel n_flags tempesp s)
    else if nz (Z.land n_flags FLAG_VM) then err Exit
    else iret_protected use32 n_eip n_cs_sel n_flags tempesp s
  else
    let n_flags := Z.lor n_flags (Z.land (eflags s) 0xffff0000) in
    if nz (Z.land n_flags FLAG_VM) then err Exit
    else iret_protected use32 n_eip n_cs_sel n_flags tempesp s.

(** ** Far jumps *)
Definition real_or_v86 s : bool := negb (pmode s) || flag FLAG_VM s.
Definition CPU_JMP (fuel : nat) (use32 : bool) (sel offset oldeip : Z) s : exec (CPU M) :=
  if real_or_v86 s then
    let s := with_reg_eip (if use32 then u32 offset else Z.land offset 0xffff) s in
    ok (with_code_big false (SegSet16 cs sel s))
  else
  let* _ := CPU_CHECK_COND (Z.land sel 0xfffc =? 0) in
  let rpl := Z.land sel 3 in
  let '(o, s) := gdt_GetDescriptor sel s in
  let* _ := CPU_CHECK_COND (absent o) in
  let d := loaded o in
  let CODE_jmp :=
    if seg_p d =? 0 then CPU_Exception fuel EXCEPTION_NP (Z.land sel 0xfffc) s
    else ok (with_reg_eip (u32 offset) (load_cs (Z.lor (Z.land sel 0xfffc) (cpl s)) d s)) in
  if is_one_of DESC_CODE_NC (Type_ d) then
    let* _ := CPU_CHECK_COND (cpl s <? rpl) in
    let* _ := CPU_CHECK_COND (negb (cpl s =? DPL d)) in
    CODE_jmp
  else if is_one_of DESC_CODE_C (Type_ d) then
    let* _ := CPU_CHECK_COND (cpl s <? DPL d) in
    CODE_jmp
  else if Type_ d =? DESC_386_TSS_A then
    let* _ := CPU_CHECK_COND (DPL d <? cpl s) in
    let* _ := CPU_CHECK_COND (DPL d <? rpl) in
    cpu_switch_task sel TSwitch_JMP oldeip s
  else err Exit.

(** ** Far calls *)
Definition push_return (use32 : bool) (oldcs oldeip : Z) s : CPU M := CPU_Push use32 oldeip (CPU_Push use32 oldcs s).
(** The parameters, the last one first, from [o_stack + i * width] down to it. *)
Fixpoint push_parameters (n : nat) (wide : bool) (o_stack : Z) s : CPU M :=
  match n with
  | O => s
  | S i =>
      let at_ := o_stack + Z.of_nat i * (if wide then 4 else 2) in
      push_parameters i wide o_stack (CPU_Push wide (if wide then mem_readd at_ s else mem_readw at_ s) s)
  end.
Definition gate_eip (use32 : bool) (n_eip : Z) : Z := if use32 then n_eip else Z.land n_eip 0xffff.
Definition call_inner_level (use32 : bool) gate n_cs_desc (oldeip : Z) s : exec (CPU M) :=
  let wide := Type_ gate =? DESC_386_CALL_GATE in
  let dpl := DPL n_cs_desc in
  let '(n_ss_sel, n_esp, s) := Get_SSx_ESPx dpl (cpu_tss s) s in
  let* _ := CPU_CHECK_COND (Z.land n_ss_sel 0xfffc =? 0) in
  let '(o, s) := gdt_GetDescriptor n_ss_sel s in
  let* _ := CPU_CHECK_COND (absent o) in
  let d := loaded o in
  let* _ := CPU_CHECK_COND (negb (Z.land n_ss_sel 3 =? dpl) || negb (DPL d =? dpl)) in
  if negb (is_one_of DESC_DATA_RW (Type_ d)) then err Exit else
  let* _ := CPU_CHECK_COND (seg_p d =? 0) in
  let o_esp := esp s in
  let o_ss := SegValue ss s in
  let o_stack := u32 (SegPhys ss s + stack_ptr (esp s) s) in
  let s := put_seg ss n_ss_sel (GetBase d) s in
  let s := load_stack_pointer d n_esp s in
  let s := with_cpl dpl s in
  let oldcs := SegValue cs s in
  let s := load_cs (Z.lor (Z.land (GetSelector gate) 0xfffc) (cpl s)) n_cs_desc s in
  let s := with_reg_eip (gate_eip use32 (GetOffset gate)) s in
  let s := CPU_Push wide o_esp (CPU_Push wide o_ss s) in
  let s := push_parameters (Z.to_nat (paramcount gate)) wide o_stack s in
  ok (push_return wide oldcs oldeip s).
Definition call_same_level (use32 : bool) gate n_cs_desc (oldeip : Z) s : CPU M :=
  let wide := Type_ gate =? DESC_386_CALL_GATE in
  let s := push_return wide (SegValue cs s) oldeip s in
  let s := load_cs (Z.lor (Z.land (GetSelector gate) 0xfffc) (cpl s)) n_cs_desc s in
  with_reg_eip (gate_eip use32 (GetOffset gate)) s.
Definition call_gate (use32 : bool) gate (rpl oldeip : Z) s : exec (CPU M) :=
  let* _ := CPU_CHECK_COND (DPL gate <? cpl s) in
  let* _ := CPU_CHECK_COND (DPL gate <? rpl) in
  let* _ := CPU_CHECK_COND (seg_p gate =? 0) in
  let n_cs_sel := GetSelector gate in
  let* _ := CPU_CHECK_COND (Z.land n_cs_sel 0xfffc =? 0) in
  let '(o, s) := gdt_GetDescriptor n_cs_sel s in
  let* _ := CPU_CHECK_COND (absent o) in
  let d := loaded o in
  let* _ := CPU_CHECK_COND (cpl s <? DPL d) in
  let* _ := CPU_CHECK_COND (seg_p d =? 0) in
  if is_one_of DESC_CODE_NC (Type_ d) then
    if DPL d <? cpl s then call_inner_level use32 gate d oldeip s
    else if cpl s <? DPL d then err Exit
    else ok (call_same_level use32 gate d oldeip s)
  else if is_one_of DESC_CODE_C (Type_ d) then ok (call_same_level use32 gate d oldeip s)
  else err Exit.
Definition CPU_CALL (fuel : nat) (use32 : bool) (sel offset oldeip : Z) s : exec (CPU M) :=
  if real_or_v86 s then
    let s := push_return use32 (SegValue cs s) oldeip s in
    let s := with_reg_eip (if use32 then u32 offset else Z.land offset 0xffff) s in
    ok (SegSet16 cs sel (with_code_big false s))
  else
  let* _ := CPU_CHECK_COND (Z.land sel 0xfffc =? 0) in
  let rpl := Z.land sel 3 in
  let '(o, s) := gdt_GetDescriptor sel s in
  let* _ := CPU_CHECK_COND (absent o) in
  let call := loaded o in
  let t := Type_ call in
  let call_code :=
    if seg_p call =? 0 then CPU_Exception fuel EXCEPTION_NP (Z.land sel 0xfffc) s else
    let s := push_return use32 (SegValue cs s) oldeip s in
    let s := with_reg_eip (if use32 then u32 offset else Z.land offset 0xffff) s in
    ok (load_cs (Z.lor (Z.land sel 0xfffc) (cpl s)) call s) in
  if is_one_of DESC_CODE_NC t then
    let* _ := CPU_CHECK_COND (cpl s <? rpl) in
    let* _ := CPU_CHECK_COND (negb (DPL call =? cpl s)) in
    call_code
  else if is_one_of DESC_CODE_C t then
    let* _ := CPU_CHECK_COND (cpl s <? DPL call) in
    call_code
  else if is_one_of [DESC_386_CALL_GATE; DESC_286_CALL_GATE] t then call_gate use32 call rpl oldeip s
  else if t =? DESC_386_TSS_A then
    let* _ := CPU_CHECK_COND (DPL call <? cpl s) in
    let* _ := CPU_CHECK_COND (DPL call <? rpl) in
    let* _ := CPU_CHECK_COND (seg_p call =? 0) in
    cpu_switch_task sel TSwitch_CALL_INT oldeip s
  else if is_one_of [DESC_DATA_EU_RW_NA; DESC_INVALID] t then CPU_Exception fuel EXCEPTION_GP (Z.land sel 0xfffc) s
  else err Exit.

(** ** Far returns *)
Definition add_esp (n : Z) s : CPU M := put_esp (esp s + n) s.
Definition ret_same_level (fuel : nat) (use32 : bool) (bytes sel : Z) d s : exec (CPU M) :=
  let* _ :=
    if is_one_of DESC_CODE_NC (Type_ d) then CPU_CHECK_COND (negb (cpl s =? DPL d))
    else if is_one_of DESC_CODE_C (Type_ d) then CPU_CHECK_COND (cpl s <? DPL d)
    else err Exit in
  if seg_p d =? 0 then CPU_Exception fuel EXCEPTION_NP (Z.land sel 0xfffc) s else
  let '(offset, s) := CPU_Pop use32 s in
  let '(sel, s) := CPU_Pop use32 s in
  let s := load_cs (u16 sel) d s in
  let s := with_reg_eip offset s in
  ok (if big (stack s) then add_esp bytes s else put_sp (esp s + bytes) s).
Definition ret_outer_level (use32 : bool) (bytes rpl : Z) d s : exec (CPU M) :=
  let* _ :=
    if is_one_of DESC_CODE_NC (Type_ d) then CPU_CHECK_COND (negb (DPL d =? rpl))
    else if is_one_of DESC_CODE_C (Type_ d) then CPU_CHECK_COND (rpl <? DPL d)
    else err Exit in
  let* _ := CPU_CHECK_COND (seg_p d =? 0) in
  let '(offset, s) := CPU_Pop use32 s in
  let '(sel, s) := CPU_Pop use32 s in
  let sel := u16 sel in
  let s := add_esp bytes s in
  let '(n_esp, s) := CPU_Pop use32 s in
  let '(n_ss, s) := CPU_Pop use32 s in
  let n_ss := u16 n_ss in
  let* _ := CPU_CHECK_COND (Z.land n_ss 0xfffc =? 0) in
  let '(o, s) := gdt_GetDescriptor n_ss s in
  let* _ := CPU_CHECK_COND (absent o) in
  let n_ss_desc := loaded o in
  let* _ := CPU_CHECK_COND (negb (Z.land n_ss 3 =? rpl) || negb (DPL n_ss_desc =? rpl)) in
  if negb (is_one_of DESC_DATA_RW (Type_ n_ss_desc)) then err Exit else
  let* _ := CPU_CHECK_COND (seg_p n_ss_desc =? 0) in
  let s := with_cpl rpl s in
  let s := load_cs (Z.lor (Z.land sel 0xfffc) (cpl s)) d s in
  let s := with_reg_eip offset s in
  let s := put_seg ss n_ss (GetBase n_ss_desc) s in
  let s := if nz (Big n_ss_desc) then put_esp (n_esp + bytes) (set_stack_size true s)
           else put_sp (Z.land n_esp 0xffff + bytes) (set_stack_size false s) in
  ok (cpu_check_segments s).
Definition CPU_RET (fuel : nat) (use32 : bool) (bytes : Z) s : exec (CPU M) :=
  if real_or_v86 s then
    let '(new_ip, s) := CPU_Pop use32 s in
    let '(new_cs, s) := CPU_Pop use32 s in
    let s := add_esp bytes s in
    ok (with_code_big false (with_reg_eip new_ip (SegSet16 cs (u16 new_cs) s)))
  else
  let sel := if use32 then u16 (mem_readd (SegPhys ss s + stack_ptr (esp s) s + 4) s)
             else mem_readw (SegPhys ss s + stack_ptr (esp s) s + 2) s in
  let rpl := Z.land sel 3 in
  if rpl <? cpl s then CPU_Exception fuel EXCEPTION_GP (Z.land sel 0xfffc) s else
  let* _ := CPU_CHECK_COND (Z.land sel 0xfffc =? 0) in
  let '(o, s) := gdt_GetDescriptor sel s in
  let* _ := CPU_CHECK_COND (absent o) in
  let d := loaded o in
  if cpl s =? rpl then ret_same_level fuel use32 bytes sel d s
  else ret_outer_level use32 bytes rpl d s.
End Control.
