(* ===== verification/CpuFrames.v ===== *)
(** * Stack frames in guest memory

    What the pushes of a transfer store is what a later return reads, and nothing
    outside of the frame changes, with stacks of both sizes and pushes of both
    widths, also where the stack pointer wraps. *)
From S2P Require Import Prelude.
From S2P Require Import Registers.
From S2P Require Import LazyFlags.
From S2P Require Import GuestMemory.
From S2P Require Import GuestMemoryProofs.
From S2P Require Import CpuState.
From S2P Require Import CpuProtect.
From S2P Require Import CpuControl.
#[local] Open Scope Z_scope.

(** The projections and the setters of the state, and what is defined by them. *)
Ltac cpu_cbn :=
  cbn [core reg_eip Segs cpl mpl cr0 pmode gdt idt stack code_big hlt exception direction drx trx cpu_tss last_interrupt
       cpudecoder CPU_Cycles CPU_IODelayRemoved mem
       with_core with_reg_eip with_Segs with_cpl with_mpl with_cr0 with_pmode with_gdt with_idt with_stack with_code_big
       with_hlt with_exception with_direction with_drx with_trx with_cpu_tss with_last_interrupt with_cpudecoder
       with_CPU_Cycles with_CPU_IODelayRemoved with_mem
       set_mpl set_regs put_esp put_sp put_eflags put_seg mem_writew mem_writed SegSet16
       esp eflags SegValue SegPhys seg_get seg_put val phys s_es s_cs s_ss s_ds s_fs s_gs
       cpu_regs lflags with_regs with_flags LazyFlags.reg_flags flags reg_eax reg_ecx reg_edx reg_ebx reg_esp reg_ebp reg_esi reg_edi
       set_esp set_flags mask notmask big fst snd] in *.

(** [n] bytes from [a] share no address with [k] bytes from [b], modulo [2^32]. *)
Definition apart (n a k b : Z) : Prop := k <= u32 (a - b) /\ u32 (a - b) + n <= 4294967296.

Section Memory.
Context {M : Type} `{ByteMemoryLaws M}.
Implicit Types (s : CPU M) (m : M).

Lemma apart_touches n a k b i :
  apart (Z.of_nat n) a (Z.of_nat k) b -> 0 <= i < Z.of_nat n -> ~ touches k b (PhysPt (a + i)).
Proof using.
  intros [H1 H2] Hi (j & Hj & E). unfold PhysPt in E. unfold u32 in *.
  pose proof (Z.mod_pos_bound (a - b) 4294967296).
  assert ((a - b + (i - j)) mod 4294967296 = 0) as E0.
  { replace (a - b + (i - j)) with ((a + i) - (b + j)) by lia. rewrite Zminus_mod, E, Z.sub_diag. done. }
  rewrite <- Z.add_mod_idemp_l in E0 by lia. apply Z.mod_divide in E0 as [q E0]; [|lia]. nia.
Qed.
Lemma le_read_apart n a k b v m : apart (Z.of_nat n) a (Z.of_nat k) b -> le_read n a (le_write k b v m) = le_read n a m.
Proof using Type*.
  intros Ha. assert (forall i, 0 <= i < Z.of_nat n -> readb (PhysPt (a + i)) (le_write k b v m) = readb (PhysPt (a + i)) m) as E
    by (intros i Hi; by apply le_write_ne, (apart_touches n)).
  clear Ha. revert a E. induction n as [|n IH]; intros a E; [done|]. cbn [le_read].
  rewrite <- (Z.add_0_r a) at 1. rewrite (E 0), Z.add_0_r by lia. f_equal. f_equal. apply IH. intros i Hi.
  replace (a + 1 + i) with (a + (i + 1)) by lia. apply E. lia.
Qed.
Lemma le_read_PhysPt n a m : le_read n (PhysPt a) m = le_read n a m.
Proof using.
  assert (forall i, le_read n (PhysPt a + i) m = le_read n (a + i) m) as E.
  { induction n as [|n IH]; intros i; [done|]. cbn [le_read]. rewrite <- !Z.add_assoc, IH. f_equal. f_equal.
    unfold PhysPt, u32. apply Z.add_mod_idemp_l. lia. }
  specialize (E 0). by rewrite !Z.add_0_r in E.
Qed.
Lemma le_write_PhysPt n a v m : le_write n (PhysPt a) v m = le_write n a v m.
Proof using.
  assert (forall i v m, le_write n (PhysPt a + i) v m = le_write n (a + i) v m) as E.
  { induction n as [|n IH]; intros i v' m'; [done|]. cbn [le_write]. rewrite <- !Z.add_assoc, IH. f_equal. f_equal.
    unfold PhysPt, u32. apply Z.add_mod_idemp_l. lia. }
  specialize (E 0 v m). by rewrite !Z.add_0_r in E.
Qed.

(** An access of a width. *)
Definition size_of (wide : bool) : nat := if wide then 4 else 2.
Definition trunc (wide : bool) (v : Z) : Z := if wide then u32 v else u16 v.
Definition mem_read (wide : bool) (a : Z) s : Z := if wide then mem_readd a s else mem_readw a s.
Definition mem_write (wide : bool) (a v : Z) s : CPU M := if wide then mem_writed a v s else mem_writew a v s.
Lemma mem_read_le wide a s : mem_read wide a s = le_read (size_of wide) a (mem s).
Proof using Type*. destruct wide; cbn [mem_read size_of]; [unfold mem_readd|unfold mem_readw]; by rewrite ?readd_le, ?readw_le, le_read_PhysPt. Qed.
Lemma mem_write_le wide a v s : mem_write wide a v s = with_mem (le_write (size_of wide) a (trunc wide v) (mem s)) s.
Proof using.
  destruct wide; cbn [mem_write size_of trunc]; [unfold mem_writed|unfold mem_writew]; by rewrite ?writed_le, ?writew_le, le_write_PhysPt.
Qed.
Lemma trunc_range wide v : 0 <= trunc wide v < 256 ^ Z.of_nat (size_of wide).
Proof using. destruct wide; [apply u32_range|apply u16_range]. Qed.
Lemma mem_read_range wide a s : 0 <= mem_read wide a s < 256 ^ Z.of_nat (size_of wide).
Proof using Type*. rewrite mem_read_le. apply le_read_range. Qed.
Lemma readw_range a s : 0 <= mem_readw a s < 65536.
Proof using Type*. apply (mem_read_range false). Qed.
Lemma readd_range a s : 0 <= mem_readd a s < 4294967296.
Proof using Type*. apply (mem_read_range true). Qed.
Lemma mem_read_write wide a v s : mem_read wide a (mem_write wide a v s) = trunc wide v.
Proof using Type*.
  rewrite mem_read_le, mem_write_le. cpu_cbn. rewrite le_roundtrip by (destruct wide; cbn; lia).
  apply Z.mod_small, trunc_range.
Qed.
Lemma mem_read_apart w1 w2 a b v s :
  apart (Z.of_nat (size_of w1)) a (Z.of_nat (size_of w2)) b -> mem_read w1 a (mem_write w2 b v s) = mem_read w1 a s.
Proof using Type*. intros Ha. rewrite !mem_read_le, mem_write_le. cpu_cbn. by apply le_read_apart. Qed.

(** ** Stack pointers *)
Record good_stack s : Prop := {
  gs_size : (mask (stack s) = 0xffffffff /\ notmask (stack s) = 0) \/ (mask (stack s) = 0xffff /\ notmask (stack s) = 0xffff0000);
  gs_esp : 0 <= esp s < 4294967296 }.
Definition wrap_at s : Z := mask (stack s) + 1.
Lemma wrap_at_cases s : good_stack s -> wrap_at s = 4294967296 \/ wrap_at s = 65536.
Proof using. unfold wrap_at. intros [[[-> _]|[-> _]] _]; [left|right]; done. Qed.
Lemma stack_ptr_mod p s : good_stack s -> stack_ptr p s = p mod wrap_at s.
Proof using.
  intros [[[E _]|[E _]] _]; unfold stack_ptr, wrap_at; rewrite E;
    [change 0xffffffff with (Z.ones 32)|change 0xffff with (Z.ones 16)]; by rewrite Z.land_ones by lia.
Qed.
Lemma land_notmask16 p : 0 <= p < 4294967296 -> Z.land p 0xffff0000 = p - p mod 65536.
Proof using.
  intros Hp. change 0xffff0000 with (Z.shiftl (Z.ones 16) 16).
  replace (p - p mod 65536) with (Z.shiftl (Z.land (Z.shiftr p 16) (Z.ones 16)) 16).
  - apply Z.bits_inj'. intros i Hi. rewrite Z.land_spec, !Z.shiftl_spec by lia.
    destruct (Z.ltb_spec i 16).
    + rewrite !(Z.testbit_neg_r _ (i - 16)) by lia. by rewrite andb_false_r.
    + rewrite Z.land_spec, Z.shiftr_spec by lia. f_equal. f_equal. lia.
  - rewrite Z.land_ones, Z.shiftl_mul_pow2, Z.shiftr_div_pow2 by lia. change (2 ^ 16) with 65536.
    rewrite Z.mod_small by zlia. zlia.
Qed.
Lemma stack_add_mod p n s : good_stack s -> 0 <= p < 4294967296 ->
  stack_add p n s = p - p mod wrap_at s + (p + n) mod wrap_at s.
Proof using.
  intros Hs Hp. destruct (gs_size s Hs) as [[E1 E2]|[E1 E2]]; unfold stack_add, wrap_at; rewrite E1, E2.
  - change (0xffffffff + 1) with 4294967296. rewrite Z.land_0_r, Z.lor_0_l.
    change (Z.land (u32 (p + n)) 0xffffffff) with (Z.land (u32 (p + n)) (Z.ones 32)). rewrite Z.land_ones by lia.
    change (2 ^ 32) with 4294967296. unfold u32. rewrite Z.mod_mod, (Z.mod_small p) by lia. lia.
  - rewrite land_notmask16 by done. change (Z.land (u32 (p + n)) 65535) with (Z.land (u32 (p + n)) (Z.ones 16)).
    rewrite Z.land_ones by lia. change (2 ^ 16) with 65536. unfold u32.
    rewrite Z.mod_mod_divide by (by exists 65536). change (65535 + 1) with 65536.
    replace (p - p mod 65536) with (Z.shiftl (p / 65536) 16) by (rewrite Z.shiftl_mul_pow2 by lia; zlia).
    pose proof (Z.mod_pos_bound (p + n) 65536). rewrite lor_join by lia. by rewrite Z.shiftl_mul_pow2 by lia.
Qed.
Lemma stack_add_range p n s : good_stack s -> 0 <= p < 4294967296 -> 0 <= stack_add p n s < 4294967296.
Proof using.
  intros Hs Hp. rewrite stack_add_mod by done. destruct (wrap_at_cases s Hs) as [-> | ->]; zlia.
Qed.
Lemma stack_ptr_add p n k s : good_stack s -> 0 <= p < 4294967296 -> stack_ptr (stack_add p n s + k) s = stack_ptr (p + n + k) s.
Proof using.
  intros Hs Hp. rewrite !stack_ptr_mod, stack_add_mod by done. set (W := wrap_at s).
  assert (0 < W) by (destruct (wrap_at_cases s Hs); subst W; lia).
  replace (p - p mod W + (p + n) mod W + k) with (p / W * W + ((p + n) mod W + k)) by (pose proof (Z.div_mod p W); lia).
  rewrite Z.add_comm, Z.mod_add by lia. rewrite Z.add_mod_idemp_l by lia. f_equal.
Qed.
Lemma stack_add_add p n k s : good_stack s -> 0 <= p < 4294967296 -> stack_add (stack_add p n s) k s = stack_add p (n + k) s.
Proof using.
  intros Hs Hp. rewrite (stack_add_mod (stack_add p n s)) by (try apply stack_add_range; done).
  pose proof (stack_ptr_add p n 0 s Hs Hp) as E0. pose proof (stack_ptr_add p n k s Hs Hp) as Ek.
  rewrite !stack_ptr_mod in E0, Ek by done. rewrite !Z.add_0_r in E0. rewrite E0, Ek, !stack_add_mod by done.
  rewrite Z.add_assoc. lia.
Qed.
Lemma stack_add_0 p s : good_stack s -> 0 <= p < 4294967296 -> stack_add p 0 s = p.
Proof using. intros Hs Hp. rewrite stack_add_mod, Z.add_0_r by done. lia. Qed.

(** ** Pushes and pops *)
Definition bytes_of (wide : bool) : Z := Z.of_nat (size_of wide).
Lemma bytes_of_cases wide : bytes_of wide = 4 \/ bytes_of wide = 2.
Proof using. destruct wide; [by left|by right]. Qed.
Lemma read_stack_mem wide p s : read_stack wide p s = mem_read wide (SegPhys ss s + stack_ptr p s) s.
Proof using. by destruct wide. Qed.
Lemma push_spec wide v s :
  good_stack s ->
  CPU_Push wide v s =
  put_esp (stack_add (esp s) (- bytes_of wide) s)
    (mem_write wide (SegPhys ss s + stack_ptr (esp s - bytes_of wide) s) v s).
Proof using.
  intros Hs. pose proof (gs_esp s Hs) as He.
  assert (forall n, stack_ptr (stack_add (esp s) n s) s = stack_ptr (esp s + n) s) as E
    by (intros n; rewrite <- (Z.add_0_r (stack_add _ _ _)), stack_ptr_add by done; by rewrite Z.add_0_r).
  destruct wide; cbn [CPU_Push mem_write]; [unfold CPU_Push32|unfold CPU_Push16]; by rewrite E.
Qed.
Lemma put_esp_same s p : good_stack s -> 0 <= p < 4294967296 -> esp (put_esp p s) = p.
Proof using. intros _ Hp. cpu_cbn. by apply u32_small. Qed.
Lemma esp_push wide v s : good_stack s -> esp (CPU_Push wide v s) = stack_add (esp s) (- bytes_of wide) s.
Proof using.
  intros Hs. rewrite push_spec by done. destruct wide; cpu_cbn; apply u32_small, stack_add_range; done || apply Hs.
Qed.
Lemma good_stack_push wide v s : good_stack s -> good_stack (CPU_Push wide v s).
Proof using.
  intros Hs. split; [|rewrite esp_push by done; apply stack_add_range; [done|apply Hs]].
  rewrite push_spec by done. destruct wide; apply Hs.
Qed.
Lemma pop_spec wide s : good_stack s ->
  CPU_Pop wide s = (read_stack wide (esp s) s, put_esp (stack_add (esp s) (bytes_of wide) s) s).
Proof using. by destruct wide. Qed.

(** The values at the top of the stack, the first one on top. *)
Definition frame (wide : bool) (l : list Z) s : Prop :=
  forall i v, l !! i = Some v -> read_stack wide (esp s + bytes_of wide * Z.of_nat i) s = v.
Lemma frame_nil wide s : frame wide [] s.
Proof using. intros i v Hv. by rewrite lookup_nil in Hv. Qed.
Lemma slots_apart s wide b p d : good_stack s -> bytes_of wide <= d <= wrap_at s - bytes_of wide ->
  apart (bytes_of wide) (b + (p + d) mod wrap_at s) (bytes_of wide) (b + p mod wrap_at s).
Proof using.
  intros Hs Hd. unfold apart. replace (b + (p + d) mod wrap_at s - (b + p mod wrap_at s)) with ((p + d) mod wrap_at s - p mod wrap_at s) by lia.
  unfold u32. destruct (bytes_of_cases wide) as [E|E]; rewrite E in *; destruct (wrap_at_cases s Hs) as [W|W]; rewrite W in *; zlia.
Qed.
Lemma frame_push wide v l s :
  good_stack s -> frame wide l s -> Z.of_nat (length l) <= 1000 -> frame wide (trunc wide v :: l) (CPU_Push wide v s).
Proof using Type*.
  intros Hs Hf Hl i x Hx. pose proof (gs_esp s Hs) as He.
  assert (0 < bytes_of wide <= 4) as Hn by (destruct (bytes_of_cases wide); lia).
  rewrite read_stack_mem, esp_push by done.
  assert (forall q, stack_ptr q (CPU_Push wide v s) = stack_ptr q s) as Ep by (intros q; rewrite push_spec by done; by destruct wide).
  assert (SegPhys ss (CPU_Push wide v s) = SegPhys ss s) as Es by (rewrite push_spec by done; by destruct wide).
  rewrite Ep, Es, stack_ptr_add, push_spec by done. set (b := SegPhys ss s).
  assert (forall a q, mem_read wide a (put_esp q (mem_write wide (b + stack_ptr (esp s - bytes_of wide) s) v s)) =
            mem_read wide a (mem_write wide (b + stack_ptr (esp s - bytes_of wide) s) v s)) as Em by (by destruct wide).
  rewrite Em. destruct i as [|i].
  - injection Hx as <-. rewrite Z.mul_0_r, Z.add_0_r. replace (esp s + - bytes_of wide) with (esp s - bytes_of wide) by lia.
    apply mem_read_write.
  - cbn in Hx. pose proof (lookup_lt_Some _ _ _ Hx) as Hi. rewrite !stack_ptr_mod by done.
    replace (esp s + - bytes_of wide + bytes_of wide * Z.of_nat (S i)) with (esp s - bytes_of wide + bytes_of wide * Z.of_nat (S i)) by lia.
    rewrite mem_read_apart.
    + rewrite <- (Hf i x Hx), read_stack_mem, stack_ptr_mod by done. f_equal. f_equal. f_equal. lia.
    + apply slots_apart; [done|]. destruct (bytes_of_cases wide) as [-> | ->], (wrap_at_cases s Hs) as [-> | ->]; lia.
Qed.
Lemma frame_pop wide v l s : good_stack s -> frame wide (v :: l) s ->
  exists s', CPU_Pop wide s = (v, s') /\ s' = put_esp (stack_add (esp s) (bytes_of wide) s) s /\ frame wide l s' /\ good_stack s'.
Proof using Type*.
  intros Hs Hf. rewrite pop_spec by done. eexists. split; [|split; [reflexivity|split]].
  - f_equal. rewrite <- (Hf 0%nat v eq_refl). by rewrite Z.mul_0_r, Z.add_0_r.
  - intros i x Hx. rewrite <- (Hf (S i) x Hx), put_esp_same by (try apply stack_add_range; done || apply Hs).
    rewrite !read_stack_mem. change (stack_ptr ?q (put_esp _ s)) with (stack_ptr q s).
    rewrite stack_ptr_add by (done || apply Hs). 
    replace (esp s + bytes_of wide + bytes_of wide * Z.of_nat i) with (esp s + bytes_of wide * Z.of_nat (S i)) by lia. by destruct wide.
  - split; [apply Hs|]. rewrite put_esp_same by (try apply stack_add_range; done || apply Hs). apply stack_add_range; [done|apply Hs].
Qed.
(** A frame does not depend on the rest of the state. *)
Lemma frame_same wide l s s' :
  mem s' = mem s -> esp s' = esp s -> stack s' = stack s -> SegPhys ss s' = SegPhys ss s -> frame wide l s -> frame wide l s'.
Proof using.
  intros E1 E2 E3 E4 Hf i v Hv. rewrite <- (Hf i v Hv), E2. unfold read_stack, stack_ptr, mem_readd, mem_readw. by rewrite E1, E3, E4.
Qed.

(** The bytes a push of [n] values below [p] may change. *)
Definition in_frame (wide : bool) (b p w : Z) (n : nat) (a : Z) : Prop :=
  exists k j, 1 <= k <= Z.of_nat n /\ 0 <= j < bytes_of wide /\ a = PhysPt (b + (p - bytes_of wide * k) mod w + j).
Lemma push_outside wide v s a : good_stack s -> ~ in_frame wide (SegPhys ss s) (esp s) (wrap_at s) 1 a ->
  readb a (mem (CPU_Push wide v s)) = readb a (mem s).
Proof using Type*.
  intros Hs Ha. rewrite push_spec by done. rewrite mem_write_le. cpu_cbn. apply le_write_ne. intros (j & Hj & ->).
  apply Ha. exists 1, j. split; [lia|]. split; [done|]. f_equal. rewrite stack_ptr_mod by done. repeat f_equal. lia.
Qed.
Lemma in_frame_push wide v s n a :
  good_stack s -> in_frame wide (SegPhys ss s) (esp (CPU_Push wide v s)) (wrap_at s) n a ->
  in_frame wide (SegPhys ss s) (esp s) (wrap_at s) (S n) a.
Proof using.
  intros Hs (k & j & Hk & Hj & ->). exists (k + 1), j. split; [lia|]. split; [done|]. f_equal. f_equal. f_equal.
  pose proof (stack_ptr_add (esp s) (- bytes_of wide) (- bytes_of wide * k) s Hs (gs_esp s Hs)) as E.
  rewrite !stack_ptr_mod in E by done. rewrite esp_push by done.
  replace (stack_add (esp s) (- bytes_of wide) s - bytes_of wide * k) with (stack_add (esp s) (- bytes_of wide) s + - bytes_of wide * k) by lia.
  rewrite E. f_equal. lia.
Qed.
End Memory.
