(* ===== verification/CpuDemo.v ===== *)
(** * A small protected-mode machine

    The interfaces [ByteMemory] and [PagingControl] implemented by a flat memory with
    paging registers that it ignores, the configuration of a release build, and a
    machine with a program at level 3 and a kernel at level 0, at which the theorems
    on protection are instantiated. *)
From S2P Require Import Prelude.
From S2P Require Import Registers.
From S2P Require Import LazyFlags.
From S2P Require Import GuestMemory.
From S2P Require Import Paging.
From S2P Require Import CpuState.
From S2P Require Import CpuProtect.
#[local] Open Scope Z_scope.

Record Plain := mkPlain { ram : Flat; dir_base : Z; paging_on : bool; fault_address : Z }.
Definition set_ram (f : Flat) (m : Plain) : Plain := mkPlain f (dir_base m) (paging_on m) (fault_address m).
#[export] Instance plain_memory : ByteMemory Plain := {
  readb a m := readb a (ram m);
  writeb a v m := set_ram (writeb a v (ram m)) m;
  faults _ _ := false }.
#[export] Instance plain_memory_laws : ByteMemoryLaws Plain.
Proof.
  split.
  - intros a m. apply (readb_range (M := Flat)).
  - intros a v m. apply (readb_writeb_eq (M := Flat)).
  - intros a b v m Hab. by apply (readb_writeb_ne (M := Flat)).
  - done.
Qed.
#[export] Instance plain_paging : PagingControl Plain := {
  PAGING_SetDirBase v m := mkPlain (ram m) v (paging_on m) (fault_address m);
  PAGING_GetDirBase := dir_base;
  PAGING_Enable b m := mkPlain (ram m) (dir_base m) b (fault_address m);
  set_cr2 v m := mkPlain (ram m) (dir_base m) (paging_on m) v;
  get_cr2 := fault_address }.
#[export] Instance release_build : Config := { C_DEBUGGER := false; CPU_ArchitectureType := Mixed }.

(** Memory with the given doublewords, zero elsewhere. *)
Definition image (l : list (Z * Z)) : Flat := fun a =>
  match find (fun e => (fst e <=? a) && (a <? fst e + 4)) l with
  | Some e => u8 (Z.shiftr (snd e) (8 * (a - fst e)))
  | None => 0
  end.

(** The tables: code and data of level 0 and of level 3 at 08, 10, 18 and 20, the task
    state segment at 28 and a conforming segment at 30; at 21h a 32-bit interrupt gate
    that level 3 may call. *)
Definition demo_image : list (Z * Z) :=
  [(0x1008, 0x0000ffff); (0x100c, 0x00cf9a00); (0x1010, 0x0000ffff); (0x1014, 0x00cf9200);
   (0x1018, 0x0000ffff); (0x101c, 0x00cffa00); (0x1020, 0x0000ffff); (0x1024, 0x00cff200);
   (0x1028, 0x30000087); (0x102c, 0x00008b00); (0x1030, 0x0000ffff); (0x1034, 0x00cf9e00);
   (0x2108, 0x00081222); (0x210c, 0x0001ee00);
   (0x3004, 0x00008000); (0x3008, 0x00000010); (0x3064, 0x00680000); (0x3068, 0xfffffffd)].
Definition demo_tss : TaskStateSegment := mkTSS (mkDesc 0x30000087 0x00008b00) 0x28 0x3000 0x87 8 true.
Definition demo_regs : CPU_Regs := mkRegs 1 2 3 4 0x9000 6 7 8 0x202.
Definition demo_segs (code data : Z) : Segments :=
  mkSegs (mkSegment data 0) (mkSegment code 0) (mkSegment data 0) (mkSegment data 0) (mkSegment 0 0) (mkSegment 0 0).
Definition demo_at (level : Z) (idt_end : Z) : CPU Plain :=
  mkCPU (LazyFlags.mkCpu demo_regs (mkLF 0 0 0 t_UNKNOWN 0)) 0x4000 (demo_segs (0x08 + 0x13 * (level / 3)) (0x10 + 0x13 * (level / 3)))
    level 3 0x11 true (mkGDT 0x1000 0x37 0 0 0) (mkIDT 0x2000 idt_end) (mkStack 0xffffffff 0 true) true (mkHlt 0 0)
    (mkException 0 0) 1 (replicate 8 0) (replicate 8 0) demo_tss 0 (core_decoder 0) 3000 0
    (mkPlain (image demo_image) 0 false 0).
(** The program, and the kernel. *)
Definition demo_user : CPU Plain := demo_at 3 0x1ff.
Definition demo_kernel : CPU Plain := demo_at 0 0x1ff.
(** With a stack of 16 bits at 20000, its pointer two bytes before the end; beyond the
    end the selector of the program, at its start another one. *)
Definition demo_wrap : CPU Plain :=
  with_mem (mkPlain (image (demo_image ++ [(0x20000, 0x08); (0x30000, 0x1b)])) 0 false 0)
    (put_esp 0xfffe (set_stack_size false (put_seg ss 0x23 0x20000 demo_user))).
