(* ===== verification/CpuInvariant.v ===== *)
(** * The privilege level is that of the code segment

    An invariant of the processor state, kept by every transfer of control, segment
    load, stack and flag instruction and register load; and the one return that can
    break it. *)
From S2P Require Import Prelude.
From S2P Require Import Registers.
From S2P Require Import LazyFlags.
From S2P Require Import FlagProofs.
From S2P Require Import GuestMemory.
From S2P Require Import GuestMemoryProofs.
From S2P Require Import Paging.
From S2P Require Import CpuState.
From S2P Require Import CpuProtect.
From S2P Require Import CpuControl.
From S2P Require Import CpuFrames.
#[local] Open Scope Z_scope.
#[local] Open Scope exec_scope.

(** ** Flags *)
Section Flags.
Context {M : Type}.
Implicit Types (s : CPU M).
Lemma flag_bit k s : 0 <= k -> flag (2 ^ k) s = Z.testbit (eflags s) k.
Proof. apply nz_GETFLAG. Qed.
Lemma set_flag_bits k n b s : 0 <= k -> 0 <= n -> Z.testbit (eflags (set_flag (2 ^ k) b s)) n = if n =? k then b else Z.testbit (eflags s) n.
Proof. apply SETFLAGBIT_bits. Qed.
Lemma SetFlags_bits `{Config} w m s n :
  0 <= n -> Z.testbit (eflags (CPU_SetFlags w m s)) n =
    if n =? 1 then true else if Z.testbit (Z.lor m cpu_extflags_toggle) n then Z.testbit w n else Z.testbit (eflags s) n.
Proof.
  intros Hn. unfold CPU_SetFlags. cpu_cbn. rewrite !Z.lor_spec, !Z.land_spec, Z.lnot_spec, Z.lor_spec by done.
  change 2 with (2 ^ 1) at 1. rewrite Z.pow2_bits_eqb by lia. rewrite (Z.eqb_sym 1 n). destruct (n =? 1); [by rewrite orb_true_r|].
  rewrite orb_false_r.
  by destruct (Z.testbit m n), (Z.testbit cpu_extflags_toggle n), (Z.testbit w n), (Z.testbit (eflags s) n).
Qed.
Lemma extflags_bits `{Config} n : 0 <= n -> n <> 18 -> n <> 21 -> Z.testbit cpu_extflags_toggle n = false.
Proof.
  intros Hn H1 H2. unfold cpu_extflags_toggle, FLAG_ID, FLAG_AC. change (Z.shiftl 1 21) with (2 ^ 21). change (Z.shiftl 1 18) with (2 ^ 18).
  repeat case_match; rewrite ?Z.lor_spec, ?Z.pow2_bits_eqb, ?Z.bits_0 by lia; repeat bdestruct_ltb; try lia; done.
Qed.
Lemma fill_flags_bits s n : 0 <= n -> cond_bit n = false -> Z.testbit (eflags (fill_flags s)) n = Z.testbit (eflags s) n.
Proof. apply FillFlags_control. Qed.
End Flags.

(** ** The invariant *)
Section Invariant.
Context {M : Type} `{ByteMemoryLaws M} `{PagingControl M} `{Config}.
Implicit Types (s : CPU M).

Definition vm s : bool := Z.testbit (eflags s) 17.
Definition df s : bool := Z.testbit (eflags s) 10.
Record control_ok s : Prop := {
  co_cpl : 0 <= cpl s <= 3;
  co_cr0 : pmode s = Z.testbit (cr0 s) 0;
  co_stack : stack s = mkStack 0xffffffff 0 true \/ stack s = mkStack 0xffff 0xffff0000 false;
  co_direction : if df s then direction s = -1 \/ direction s = 4294967295 else direction s = 1 }.
Record coherent s : Prop := {
  coh_ok : control_ok s;
  coh_v86 : vm s = true -> pmode s = true /\ cpl s = 3;
  coh_cs : pmode s = true -> vm s = false -> Z.land (SegValue cs s) 3 = cpl s;
  coh_real : pmode s = false -> cpl s = 0 }.

(** What the invariant speaks of, but the stack. *)
Definition control s := (cpl s, pmode s, cr0 s, direction s, SegValue cs s, vm s, df s).
(** A fallible operation that ends in a state with [P], when it ends. *)
Definition returns {A} (P : A -> Prop) (m : exec A) : Prop := match m with ok a => P a | err _ => True end.
Lemma returns_bind {A B} (P : B -> Prop) (m : exec A) (k : A -> exec B) : returns (fun a => returns P (k a)) m -> returns P (exec_bind m k).
Proof using. by destruct m. Qed.
Lemma returns_check {B} (P : B -> Prop) c (k : unit -> exec B) : returns P (k tt) -> returns P (exec_bind (CPU_CHECK_COND c) k).
Proof using. intros Hk. unfold CPU_CHECK_COND. by destruct (_ && _). Qed.
Lemma returns_imp {A} (P Q : A -> Prop) m : (forall a, P a -> Q a) -> returns P m -> returns Q m.
Proof using. destruct m; cbn; auto. Qed.

(** *** Operations that leave it alone

    [same s0 s]: what the invariant speaks of is as in [s0], and the stack size is one
    of the two. *)
Definition stack_ok s : Prop := stack s = mkStack 0xffffffff 0 true \/ stack s = mkStack 0xffff 0xffff0000 false.
Definition same s0 s : Prop := control s = control s0 /\ (stack_ok s0 -> stack_ok s).
Lemma coherent_of_same s0 s : same s0 s -> coherent s0 -> coherent s.
Proof using.
  intros [[= E1 E2 E3 E4 E5 E6 E7] Es] [[C1 C2 C3 C4] V Cs R].
  split; [split|..]; rewrite ?E1, ?E2, ?E3, ?E4, ?E5, ?E6, ?E7; try done. by apply Es.
Qed.
Lemma same_refl s : same s s.
Proof using. by split. Qed.
Lemma same_trans s0 s1 s2 : same s0 s1 -> same s1 s2 -> same s0 s2.
Proof using. intros [E1 F1] [E2 F2]. split; [congruence|auto]. Qed.
Lemma same_cpl s0 s : same s0 s -> cpl s = cpl s0.
Proof using. by intros [[= E _] _]. Qed.
Lemma same_pmode s0 s : same s0 s -> pmode s = pmode s0.
Proof using. by intros [[= _ E] _]. Qed.
Lemma same_cs s0 s : same s0 s -> SegValue cs s = SegValue cs s0.
Proof using. by intros [[= _ _ _ _ E] _]. Qed.
Lemma same_vm s0 s : same s0 s -> vm s = vm s0.
Proof using. by intros [[= _ _ _ _ _ E] _]. Qed.
Lemma same_equal s0 s s' : same s0 s -> control s' = control s -> stack s' = stack s -> same s0 s'.
Proof using. intros Hs E1 E2. eapply same_trans; [done|]. split; [done|]. unfold stack_ok. by rewrite E2. Qed.

Lemma fill_flags_same s0 s : same s0 s -> same s0 (fill_flags s).
Proof using. intros Hs. eapply same_equal; [done| |done]. unfold control, vm, df. by rewrite !fill_flags_bits. Qed.
Lemma push_same s0 wide v s : same s0 s -> same s0 (CPU_Push wide v s).
Proof using. intros Hs. eapply same_equal; [done|by destruct wide..]. Qed.
Lemma pop_same s0 wide s : same s0 s -> same s0 (snd (CPU_Pop wide s)).
Proof using. intros Hs. eapply same_equal; [done|by destruct wide..]. Qed.
Lemma load_below_same s0 l a b s : same s0 s -> same s0 (snd (load_below l a b s)).
Proof using. intros Hs. unfold load_below. destruct (_ <=? _); [done|]. by eapply same_equal. Qed.
Lemma gdt_same s0 sel s : same s0 s -> same s0 (snd (gdt_GetDescriptor sel s)).
Proof using. intros Hs. unfold gdt_GetDescriptor. case_match; by apply load_below_same. Qed.
Lemma idt_same s0 sel s : same s0 s -> same s0 (snd (idt_GetDescriptor sel s)).
Proof using. apply load_below_same. Qed.
Lemma gdt_set_same s0 sel d s : same s0 s -> same s0 (gdt_SetDescriptor sel d s).
Proof using. intros Hs. unfold gdt_SetDescriptor. by repeat case_match; try (eapply same_equal; [exact Hs|..]). Qed.
Lemma seg_same s0 x v p s : x <> cs -> same s0 s -> same s0 (put_seg x v p s).
Proof using. intros Hx Hs. eapply same_equal; [done|by destruct x..]. Qed.
Lemma stack_size_same s0 b s : same s0 s -> same s0 (set_stack_size b s).
Proof using. intros [E1 E2]. split; [done|]. intros _. destruct b; [by left|by right]. Qed.
Lemma set_flag_same s0 k b s : 0 <= k -> k <> 10 -> k <> 17 -> same s0 s -> same s0 (set_flag (2 ^ k) b s).
Proof using.
  intros Hk Hk1 Hk2 Hs. eapply same_equal; [done| |done]. unfold control, vm, df. rewrite !set_flag_bits by lia.
  by destruct (Z.eqb_spec 17 k), (Z.eqb_spec 10 k); try lia.
Qed.
(** Changes of the fields that the invariant does not mention. *)
Lemma fields_same s0 s s' :
  same s0 s -> (cpl s', pmode s', cr0 s', direction s', SegValue cs s', eflags s', stack s') =
  (cpl s, pmode s, cr0 s, direction s, SegValue cs s, eflags s, stack s) -> same s0 s'.
Proof using. intros Hs [= E1 E2 E3 E4 E5 E6 E7]. eapply same_equal; [done| |done]. unfold control, vm, df. by rewrite E1, E2, E3, E4, E5, E6. Qed.

Lemma fields_refl s s' :
  (cpl s', pmode s', cr0 s', direction s', SegValue cs s', eflags s', stack s') =
  (cpl s, pmode s, cr0 s, direction s, SegValue cs s, eflags s, stack s) -> same s s'.
Proof using. apply fields_same, same_refl. Qed.
(** Close [same s0 (f s)] where the last change is none of the fields. *)
Ltac same_fields := eapply fields_same; [|reflexivity].
Lemma prepare_same s0 w e s : same s0 s -> same s0 (snd (CPU_PrepareException w e s)).
Proof using. intros Hs. by same_fields. Qed.
Lemma load_data_same s0 x v s : x <> cs -> same s0 s -> same s0 (snd (load_data_segment x v s)).
Proof using.
  intros Hx Hs. unfold load_data_segment. pose proof (gdt_same s0 v s Hs) as Hg.
  destruct (gdt_GetDescriptor v s) as [o s1]. cbn [snd] in Hg.
  repeat case_match; cbn [snd]; first [by apply seg_same|by apply prepare_same].
Qed.
Lemma load_stack_same s0 v s : same s0 s -> same s0 (snd (load_stack_segment v s)).
Proof using.
  intros Hs. unfold load_stack_segment. pose proof (gdt_same s0 v s Hs) as Hg.
  destruct (gdt_GetDescriptor v s) as [o s1]. cbn [snd] in Hg.
  repeat case_match; cbn [snd]; first [by apply stack_size_same, seg_same|by apply prepare_same].
Qed.
Lemma setseg_same s0 x v s : x <> cs -> same s0 s -> same s0 (snd (CPU_SetSegGeneral x v s)).
Proof using.
  intros Hx Hs. unfold CPU_SetSegGeneral. destruct (_ || _); cbn [snd].
  - destruct (decide _); [apply stack_size_same|]; by apply seg_same.
  - destruct (decide _) as [->|]; [by apply load_stack_same|by apply load_data_same].
Qed.
Lemma popseg_same s0 x w s : x <> cs -> same s0 s -> same s0 (snd (CPU_PopSeg x w s)).
Proof using.
  intros Hx Hs. unfold CPU_PopSeg. pose proof (setseg_same s0 x (mem_readw (SegPhys ss s + stack_ptr (esp s) s) s) s Hx Hs) as Hg.
  destruct (CPU_SetSegGeneral _ _ _) as [b s1]. destruct b; cbn [snd] in *; [done|]. by same_fields.
Qed.
Lemma check_segment_same s0 x s : x <> cs -> same s0 s -> same s0 (check_segment x s).
Proof using.
  intros Hx Hs. unfold check_segment. pose proof (gdt_same s0 (SegValue x s) s Hs) as Hg.
  destruct (gdt_GetDescriptor _ _) as [o s1]. cbn [snd] in Hg. destruct (match o with Some _ => _ | None => _ end); [by apply setseg_same|done].
Qed.
Lemma check_segments_same s0 s : same s0 s -> same s0 (cpu_check_segments s).
Proof using. intros Hs. unfold cpu_check_segments. by repeat (apply check_segment_same; [done|]). Qed.
Lemma LLDT_same s0 v s : same s0 s -> same s0 (snd (CPU_LLDT v s)).
Proof using.
  intros Hs. unfold CPU_LLDT, gdt_LLDT, CPU_PrepareException. pose proof (gdt_same s0 v s Hs) as Hg. destruct (gdt_GetDescriptor v s) as [o s1]. cbn [snd] in Hg.
  repeat case_match; simplify_eq; cbn [snd]; by same_fields.
Qed.
Lemma SetSelector_same s0 v t s : same s0 s -> same s0 (snd (SetSelector v t s)).
Proof using.
  intros Hs. unfold SetSelector. pose proof (gdt_same s0 v s Hs) as Hg. destruct (gdt_GetDescriptor v s) as [o s1]. cbn [snd] in Hg.
  by repeat case_match.
Qed.
Lemma write_fields_same s0 l b s : same s0 s -> same s0 (write_fields l b s).
Proof using. revert s. induction l as [|[o v] l IH]; intros s Hs; [done|]. apply IH. by same_fields. Qed.
Lemma load_stack_pointer_same s0 d p s : same s0 s -> same s0 (load_stack_pointer d p s).
Proof using.
  intros Hs. unfold load_stack_pointer. destruct (nz _);
    (eapply fields_same; [apply stack_size_same, Hs|reflexivity]).
Qed.
Lemma push_parameters_same s0 n w a s : same s0 s -> same s0 (push_parameters n w a s).
Proof using. revert s. induction n as [|n IH]; intros s Hs; [done|]. by apply IH, push_same. Qed.

(** ** Control transfers *)
Lemma flag_VM s : flag FLAG_VM s = vm s.
Proof using. by apply (flag_bit 17). Qed.
Lemma field_range lo w x : 0 <= w -> 0 <= field lo w x < 2 ^ w.
Proof using. intros Hw. unfold field. rewrite Z.land_ones by done. apply Z.mod_pos_bound. lia. Qed.
Lemma DPL_range d : 0 <= DPL d <= 3.
Proof using. pose proof (field_range 13 2 (fill1 d) ltac:(lia)). unfold DPL. lia. Qed.
Lemma land3 x : 0 <= Z.land x 3 <= 3.
Proof using. change (Z.land x 3) with (Z.land x (Z.ones 2)). rewrite Z.land_ones by lia. zlia. Qed.
Lemma land3_u16 x : Z.land (u16 x) 3 = Z.land x 3.
Proof using. change 3 with (Z.ones 2). rewrite !Z.land_ones by lia. unfold u16. zlia. Qed.
Lemma land3_selector x c : 0 <= c <= 3 -> Z.land (u16 (Z.lor (Z.land x 0xfffc) c)) 3 = c.
Proof using.
  intros Hc. rewrite land3_u16, Z.land_lor_distr_l, <- Z.land_assoc. change (Z.land 0xfffc 3) with 0. rewrite Z.land_0_r, Z.lor_0_l.
  change 3 with (Z.ones 2). rewrite Z.land_ones by lia. apply Z.mod_small. lia.
Qed.

(** [ok_with s0 s]: as [same], but for the level, the code segment and VM. *)
Definition base_control s := (pmode s, cr0 s, direction s, df s).
Definition rebased s0 s : Prop := base_control s = base_control s0 /\ (stack_ok s0 -> stack_ok s).
Lemma same_rebased s0 s1 s : rebased s0 s1 -> same s1 s -> rebased s0 s.
Proof using. intros [E1 F1] [[= E2 E3 E4 E5 E6 E7 E8] F2]. split; [|auto]. rewrite <- E1. unfold base_control. congruence. Qed.
Lemma rebased_fields s0 s s' :
  rebased s0 s -> (pmode s', cr0 s', direction s', eflags s', stack s') = (pmode s, cr0 s, direction s, eflags s, stack s) -> rebased s0 s'.
Proof using.
  intros [E1 F1] [= E2 E3 E4 E5 E6]. split; [rewrite <- E1; unfold base_control, df; congruence|]. unfold stack_ok. by rewrite E6.
Qed.
Lemma rebased_refl s : rebased s s.
Proof using. by split. Qed.
Lemma rebased_trans s0 s1 s2 : rebased s0 s1 -> rebased s1 s2 -> rebased s0 s2.
Proof using. intros [E1 F1] [E2 F2]. split; [congruence|auto]. Qed.
Lemma rebased_ok s0 s : rebased s0 s -> control_ok s0 -> 0 <= cpl s <= 3 -> control_ok s.
Proof using.
  intros [[= E1 E2 E3 E4] F] [C1 C2 C3 C4] Hc. split; rewrite ?E1, ?E2, ?E3, ?E4; try done. by apply F.
Qed.
Lemma same_ok s0 s : same s0 s -> control_ok s0 -> control_ok s.
Proof using.
  intros Hs Hc. apply (rebased_ok s0); [by eapply same_rebased, Hs; apply rebased_refl|done|].
  destruct Hs as [[= -> _] _]. apply Hc.
Qed.

Lemma SetFlags_vm w m s : vm (CPU_SetFlags w m s) = if Z.testbit m 17 then Z.testbit w 17 else vm s.
Proof using. unfold vm. rewrite SetFlags_bits, Z.lor_spec, extflags_bits, orb_false_r by lia. done. Qed.
Lemma SetFlags_direction w m s : direction (CPU_SetFlags w m s) = if df (CPU_SetFlags w m s) then 4294967295 else 1.
Proof using.
  change (u32 (1 - Z.shiftr (Z.land (eflags (CPU_SetFlags w m s)) (2 ^ 10)) 9) = if df (CPU_SetFlags w m s) then 4294967295 else 1).
  rewrite land_pow2 by lia. unfold df. by destruct (Z.testbit _ 10).
Qed.
Lemma SetFlags_ok w m s : control_ok s -> control_ok (CPU_SetFlags w m s).
Proof using.
  intros [C1 C2 C3 C4]. split; [done..|]. pose proof (SetFlags_direction w m s) as E.
  destruct (df (CPU_SetFlags w m s)); [by right|done].
Qed.
(** Flag loads that do not reach VM. *)
Lemma SetFlags_coherent w m s : Z.testbit m 17 = false -> coherent s -> coherent (CPU_SetFlags w m s).
Proof using.
  intros Hm [C V Cs R]. pose proof (SetFlags_vm w m s) as E. rewrite Hm in E.
  split; [by apply SetFlags_ok|rewrite E..|]; done.
Qed.
(** CLD and STD. *)
Lemma set_DF_coherent (b : bool) n s :
  (if b then n = -1 \/ n = 4294967295 else n = 1) -> coherent s -> coherent (with_direction n (set_flag FLAG_DF b s)).
Proof using.
  intros Hn [[C1 C2 C3 C4] V Cs R]. set (s' := with_direction n (set_flag FLAG_DF b s)).
  assert (forall k, 0 <= k -> Z.testbit (eflags s') k = if k =? 10 then b else Z.testbit (eflags s) k) as E.
  { intros k Hk. change (eflags s') with (eflags (set_flag (2 ^ 10) b s)). by apply set_flag_bits. }
  assert (vm s' = vm s) as Ev by (by apply (E 17)). assert (df s' = b) as Ed by (by apply (E 10)).
  split; [split|..]; fold s'; rewrite ?Ev, ?Ed; done.
Qed.
Lemma destroy_same s0 s : same s0 s -> same s0 (destroy_condition_flags s).
Proof using. intros Hs. by same_fields. Qed.
Lemma SetFlags_end w m s :
  Z.testbit m 17 = false -> coherent s -> coherent (destroy_condition_flags (with_code_big false (CPU_SetFlags w m s))).
Proof using.
  intros Hm Hc. apply (coherent_of_same (CPU_SetFlags w m s)); [|by apply SetFlags_coherent]. apply destroy_same. by apply fields_refl.
Qed.
Lemma iret_flags_mask_vm s : Z.testbit (iret_flags_mask s) 17 = false.
Proof using. unfold iret_flags_mask. by destruct (nz _), (_ <? _). Qed.
Lemma popf_mask_vm s : Z.testbit (popf_mask s) 17 = false.
Proof using. unfold popf_mask. by destruct (pmode s && (0 <? cpl s)), (_ && _ && _). Qed.

(** Outside of protected mode the code segment is free. *)
Lemma coherent_real s0 s :
  coherent s0 -> pmode s0 = false -> rebased s0 s -> cpl s = cpl s0 -> vm s = false -> coherent s.
Proof using.
  intros [C V Cs R] Hp Hr Hc Hv. pose proof Hr as [[= E1 E2 E3 E4] _]. split.
  - apply (rebased_ok s0); [done..|]. rewrite Hc. apply C.
  - congruence.
  - congruence.
  - intros _. rewrite Hc. by apply R.
Qed.
Lemma coherent_v86 s0 s : control_ok s0 -> pmode s0 = true -> rebased s0 s -> cpl s = 3 -> vm s = true -> coherent s.
Proof using.
  intros C Hp Hr Hc Hv. pose proof Hr as [[= E1 E2 E3 E4] _]. split; [apply (rebased_ok s0); [done..|lia]|split; congruence|congruence..].
Qed.
Lemma coherent_protected s0 s :
  control_ok s0 -> pmode s0 = true -> rebased s0 s -> vm s = false -> Z.land (SegValue cs s) 3 = cpl s -> coherent s.
Proof using.
  intros C Hp Hr Hv Hc. pose proof Hr as [[= E1 E2 E3 E4] _].
  split; [apply (rebased_ok s0); [done..|rewrite <- Hc; apply land3]|congruence|done|congruence].
Qed.
Lemma real_vm s : coherent s -> pmode s = false -> vm s = false.
Proof using. intros Hc Hp. destruct (vm s) eqn:Hv; [|done]. pose proof (coh_v86 s Hc Hv). destruct_and!. congruence. Qed.
Lemma set_flag_rebased s0 k b s : 0 <= k -> k <> 10 -> rebased s0 s -> rebased s0 (set_flag (2 ^ k) b s).
Proof using.
  intros Hk Hk1 [E F]. split; [|done]. rewrite <- E. unfold base_control, df. rewrite set_flag_bits by lia.
  by destruct (Z.eqb_spec 10 k); [lia|].
Qed.
(** *** Interrupts *)
Lemma same_from s0 s s' : rebased s0 s -> (forall s1, same s1 s -> same s1 s') -> rebased s0 s'.
Proof using. intros Hs Hf. eapply same_rebased; [exact Hs|apply Hf, same_refl]. Qed.
Lemma with_cpl_rebased s0 c s : rebased s0 s -> rebased s0 (with_cpl c s).
Proof using. intros Hs. eapply rebased_fields; [exact Hs|done]. Qed.
Lemma put_seg_rebased s0 x v p s : rebased s0 s -> rebased s0 (put_seg x v p s).
Proof using. intros Hs. eapply rebased_fields; [exact Hs|done]. Qed.
Lemma load_cs_rebased s0 v d s : rebased s0 s -> rebased s0 (load_cs v d s).
Proof using. intros Hs. eapply rebased_fields; [exact Hs|done]. Qed.
Lemma enter_gate_coherent g d type o s : control_ok s -> pmode s = true -> coherent (enter_gate g d type o s).
Proof using.
  intros C Hp. unfold enter_gate. set (s1 := push_interrupt_frame g type o s).
  assert (same s s1) as Hs.
  { unfold s1, push_interrupt_frame. destruct (has _ _); repeat apply push_same; apply same_refl. }
  set (s2 := with_reg_eip _ _). assert (rebased s s2) as Hr2.
  { eapply rebased_fields; [eapply same_rebased; [apply rebased_refl|exact Hs]|reflexivity]. }
  set (s3 := if nz _ then _ else _).
  assert (rebased s (set_flag FLAG_VM false (set_flag FLAG_NT false (set_flag FLAG_TF false s3)))) as Hr5.
  { apply (set_flag_rebased s 17), (set_flag_rebased s 14), (set_flag_rebased s 8); try lia.
    unfold s3. destruct (nz _); [done|]. by apply (set_flag_rebased s 9). }
  apply (coherent_protected s); [done..| |].
  - unfold vm. change FLAG_VM with (2 ^ 17). by rewrite set_flag_bits.
  - transitivity (cpl s1); [|unfold s3; by destruct (nz _)].
    rewrite <- (land3_selector (GetSelector g) (cpl s1)) by (rewrite (same_cpl s s1 Hs); apply C). unfold s3. by destruct (nz _).
Qed.
Lemma get_ss_same s0 c t s : same s0 s -> same s0 (snd (Get_SSx_ESPx c t s)).
Proof using. intros Hs. unfold Get_SSx_ESPx. destruct (nz _); by same_fields. Qed.
Lemma push_v86_rebased s0 x s : rebased s0 s -> rebased s0 (push_v86_segment x s).
Proof using. intros Hs. eapply rebased_fields; [exact Hs|done]. Qed.
Lemma push_rebased s0 wide v s : rebased s0 s -> rebased s0 (CPU_Push wide v s).
Proof using. intros Hs. eapply same_from; [exact Hs|intros; by apply push_same]. Qed.
Lemma push_cpl wide v s : cpl (CPU_Push wide v s) = cpl s.
Proof using. by destruct wide. Qed.
Lemma enter_inner_level_ok g c s : returns (fun s' => rebased s s' /\ cpl s' = c) (enter_inner_level g c s).
Proof using.
  unfold enter_inner_level. pose proof (fun s0 => get_ss_same s0 c (cpu_tss s) s) as Hg1.
  destruct (Get_SSx_ESPx _ _ _) as [[v e] s1]. cbn [snd] in Hg1. apply returns_check.
  pose proof (fun s0 => gdt_same s0 v s1) as Hg2. destruct (gdt_GetDescriptor v s1) as [o s2]. cbn [snd] in Hg2.
  apply returns_check. cbv zeta. apply returns_check. destruct (negb (is_one_of _ _)); [done|]. apply returns_check.
  set (s3 := with_cpl c _). assert (rebased s s3 /\ cpl s3 = c) as [Hr3 Hc3].
  { split; [|done]. apply with_cpl_rebased. eapply same_from; [|intros; by apply load_stack_pointer_same].
    apply put_seg_rebased. eapply same_from; [eapply same_from; [apply rebased_refl|exact Hg1]|exact Hg2]. }
  clearbody s3. destruct (gate_32bit g), (flag FLAG_VM s3); cbn [returns]; [| |done|]; (split; [|done]).
  - apply (push_rebased _ true), (push_rebased _ true). by repeat apply push_v86_rebased.
  - by apply (push_rebased _ true), (push_rebased _ true).
  - by apply (push_rebased _ false), (push_rebased _ false).
Qed.
Lemma rebased_pmode s0 s : rebased s0 s -> pmode s = pmode s0.
Proof using. by intros [[= E _ _ _] _]. Qed.
Lemma interrupt_gate_coherent g type o s :
  control_ok s -> pmode s = true -> returns coherent (interrupt_gate g type o s).
Proof using.
  intros C Hp. unfold interrupt_gate. apply returns_check. cbv zeta. apply returns_check.
  pose proof (fun s0 => gdt_same s0 (GetSelector g) s) as Hg. destruct (gdt_GetDescriptor _ s) as [od s1]. cbn [snd] in Hg.
  assert (rebased s s1) as Hr1 by (eapply same_from; [apply rebased_refl|exact Hg]).
  assert (control_ok s1) as C1 by (eapply same_ok; [apply Hg, same_refl|done]).
  assert (pmode s1 = true) as Hp1 by (rewrite (rebased_pmode s s1); done).
  apply returns_check, returns_check. set (d := loaded od).
  assert (returns coherent (let* _ := CPU_CHECK_COND (seg_p d =? 0) in
            if flag FLAG_VM s1 && (DPL d <? cpl s1) then err Exit else ok (enter_gate g d type o s1))) as Hsame.
  { apply returns_check. destruct (_ && _); [done|]. by apply enter_gate_coherent. }
  destruct (is_one_of DESC_CODE_NC _).
  - destruct (DPL d <? cpl s1).
    + apply returns_check, returns_check, returns_bind. eapply returns_imp; [|apply enter_inner_level_ok].
      intros s2 [Hr2 Hc2]. cbn [returns]. apply enter_gate_coherent.
      * apply (rebased_ok s1); [done..|]. rewrite Hc2. apply DPL_range.
      * by rewrite (rebased_pmode s1).
    + by destruct (negb _).
  - by destruct (is_one_of DESC_CODE_C _).
Qed.
Lemma real_cs_coherent s0 s v p e : coherent s0 -> pmode s0 = false -> same s0 s ->
  coherent (with_code_big false (put_seg cs v p (with_reg_eip e s))).
Proof using.
  intros Hc Hp Hs. apply (coherent_real s0); [done..| | |].
  - eapply rebased_fields; [eapply same_rebased; [apply rebased_refl|exact Hs]|done].
  - by rewrite <- (same_cpl s0 s).
  - transitivity (vm s); [done|]. rewrite (same_vm s0) by done. by apply real_vm.
Qed.
Lemma set_IF_same s0 b s : same s0 s -> same s0 (set_flag FLAG_IF b s).
Proof using. apply (set_flag_same s0 9); lia. Qed.
Lemma set_TF_same s0 b s : same s0 s -> same s0 (set_flag FLAG_TF b s).
Proof using. apply (set_flag_same s0 8); lia. Qed.
Lemma set_ZF_same s0 b s : same s0 s -> same s0 (set_flag FLAG_ZF b s).
Proof using. apply (set_flag_same s0 6); lia. Qed.
Lemma real_interrupt_coherent n o s : coherent s -> pmode s = false -> coherent (real_interrupt n o s).
Proof using.
  intros Hc Hp. unfold real_interrupt. apply (real_cs_coherent s); [done..|].
  apply set_TF_same, set_IF_same, (push_same _ false), (push_same _ false), (push_same _ false), same_refl.
Qed.

(** *** Task switches *)
Lemma load_task_cs_ok v s :
  returns (fun s' => rebased s s' /\ vm s' = vm s /\ Z.land (SegValue cs s') 3 = cpl s') (load_task_cs v s).
Proof using.
  unfold load_task_cs. pose proof (fun s0 => gdt_same s0 v (with_cpl (Z.land v 3) s)) as Hg.
  destruct (gdt_GetDescriptor _ _) as [[d|] s1]; [|done]. cbn [snd] in Hg.
  assert (rebased s s1) as Hr by (eapply same_from; [apply with_cpl_rebased, rebased_refl|exact Hg]).
  pose proof (same_cpl _ _ (Hg _ (same_refl _))) as Ec. pose proof (same_vm _ _ (Hg _ (same_refl _))) as Ev.
  assert (forall b, rebased s (put_seg cs (u16 v) (GetBase d) (with_code_big b s1)) /\
            vm (put_seg cs (u16 v) (GetBase d) (with_code_big b s1)) = vm s /\
            Z.land (SegValue cs (put_seg cs (u16 v) (GetBase d) (with_code_big b s1))) 3 =
            cpl (put_seg cs (u16 v) (GetBase d) (with_code_big b s1))) as Hl.
  { intros b. split; [|split].
    - by eapply rebased_fields.
    - exact Ev.
    - transitivity (Z.land (u16 v) 3); [done|]. rewrite land3_u16. symmetry. exact Ec. }
  repeat case_match; cbn [returns]; try done; apply Hl.
Qed.
Lemma load_task_selectors_coherent c s : control_ok s -> pmode s = true -> returns coherent (load_task_selectors c s).
Proof using.
  intros C Hp. unfold load_task_selectors. apply returns_bind.
  apply (returns_imp coherent).
  - intros s1 Hc. cbn [returns]. eapply coherent_of_same; [|exact Hc]. repeat (apply setseg_same; [done|]). apply same_refl.
  - rewrite flag_VM. destruct (vm s) eqn:Hv; cbn [returns].
    + apply (coherent_v86 s); [done..| |done|done]. eapply rebased_fields; [apply rebased_refl|done].
    + set (s1 := if nz _ then _ else _). assert (same s s1) as Hs.
      { unfold s1. destruct (nz _); [|apply same_refl]. apply LLDT_same, same_refl. }
      eapply returns_imp; [|apply load_task_cs_ok]. intros s2 (Hr & Hv2 & Hcs).
      apply (coherent_protected s); [done..| | |done].
      * eapply rebased_trans; [eapply same_rebased; [apply rebased_refl|exact Hs]|done].
      * rewrite Hv2. by rewrite (same_vm s s1).
Qed.
Lemma load_context_ok c s : control_ok s -> control_ok (load_context c s) /\ pmode (load_context c s) = pmode s.
Proof using.
  intros C. split; [|done]. unfold load_context. set (s1 := with_reg_eip _ _).
  pose proof (SetFlags_ok (c_eflags c) (Z.lor FMASK_ALL FLAG_VM) s1) as Hf. destruct Hf as [C1 C2 C3 C4]; [by destruct C|].
  set (s2 := CPU_SetFlags _ _ _) in *. clearbody s2. by split.
Qed.
Lemma save_selector_same s0 t s : same s0 s -> same s0 (SaveSelector t s).
Proof using. apply gdt_set_same. Qed.
Lemma switch_task_coherent v ty o s : control_ok s -> pmode s = true -> returns coherent (cpu_switch_task v ty o s).
Proof using.
  intros C Hp. unfold cpu_switch_task. pose proof (SetSelector_same s v no_tss (fill_flags s) (fill_flags_same s s (same_refl s))) as Hs1.
  destruct (SetSelector v no_tss (fill_flags s)) as [[found t] s1]. cbn [snd] in Hs1. cbv zeta.
  destruct (negb found); [done|]. destruct (if decide (ty = TSwitch_IRET) then _ else _); [done|]. destruct (is386 t =? 0); [done|].
  set (s2 := if decide (ty = TSwitch_CALL_INT) then s1 else _). assert (same s s2) as Hs2.
  { unfold s2. destruct (decide _); [done|]. apply save_selector_same. by same_fields. }
  destruct (is386 (cpu_tss s2) =? 0); [done|]. set (s3 := save_context _ _ s2).
  assert (same s s3) as Hs3 by (by apply write_fields_same). clearbody s3. clear s2 Hs2.
  set (p := if decide (ty = TSwitch_CALL_INT) then _ else _). assert (same s (snd p)) as Hs4.
  { unfold p. destruct (decide _); cbn [snd]; [by same_fields|done]. }
  destruct p as [c s4]. cbn [snd] in Hs4. set (s5 := if decide (ty = TSwitch_IRET) then s4 else _).
  assert (same s s5) as Hs5 by (unfold s5; destruct (decide _); [done|by apply save_selector_same]). clearbody s5. clear s4 Hs4.
  set (q := if v =? selector (cpu_tss s5) then _ else _). assert (control_ok (snd q) /\ pmode (snd q) = true) as [C6 Hp6].
  { assert (control_ok s5 /\ pmode s5 = true) as [C5 Hp5] by (split; [by eapply same_ok|by rewrite (same_pmode s)]).
    unfold q. destruct (_ =? _); cbn [snd].
    - split; [|done]. eapply same_ok; [|exact C5]. by apply fields_refl.
    - destruct (load_context_ok c s5 C5) as [? ->]. done. }
  destruct q as [c' s6]. cbn [snd] in C6, Hp6. apply returns_bind. eapply returns_imp; [|by apply load_task_selectors_coherent].
  intros s7 Hc7. pose proof (SetSelector_same s7 v (cpu_tss s7) s7 (same_refl s7)) as Hs8.
  destruct (SetSelector _ _ _) as [[b t'] s8]. cbn [snd returns] in *. eapply coherent_of_same; [|exact Hc7]. by same_fields.
Qed.

(** *** Interrupts and exceptions, with any number of nested exceptions *)
Lemma Interrupt_coherent fuel n ty o s : coherent s -> returns coherent (CPU_Interrupt fuel n ty o s).
Proof using.
  revert n ty o s. induction fuel as [|fuel IH]; intros n ty o s Hc; [done|]. cbn [CPU_Interrupt].
  destruct ((n =? EXCEPTION_DB) && _).
  { apply IH. eapply coherent_of_same; [|exact Hc]. unfold debug_triggers. by apply fields_refl. }
  set (s1 := fill_flags _). assert (same s s1) as Hs1 by (apply fill_flags_same; by apply fields_refl). clearbody s1.
  assert (forall s2 w e, same s s2 -> returns coherent (CPU_Interrupt fuel w (exception_type w) (reg_eip s2) (with_error e s2))) as Hex.
  { intros s2 w e Hs2. apply IH. eapply coherent_of_same; [|exact Hc]. unfold with_error. by same_fields. }
  destruct (pmode s1) eqn:Hp; cbn [negb].
  - destruct (flag FLAG_VM s1 && _ && _ && _); [by apply Hex|].
    pose proof (idt_same s (Z.shiftl n 3) s1 Hs1) as Hs2. destruct (idt_GetDescriptor _ _) as [[g|] s2]; cbn [snd] in Hs2; [|by apply Hex].
    assert (control_ok s2 /\ pmode s2 = true) as [C2 Hp2].
    { split; [eapply same_ok; [exact Hs2|apply Hc]|]. rewrite (same_pmode s s2), <- (same_pmode s s1); done. }
    destruct (_ && _); [by apply Hex|]. destruct (is_one_of INT_GATES _); [by apply interrupt_gate_coherent|].
    destruct (_ =? _); [|done]. unfold interrupt_task. apply returns_check, returns_bind.
    eapply returns_imp; [|by apply switch_task_coherent]. intros s3 Hc3. cbn [returns]. eapply coherent_of_same; [|exact Hc3].
    destruct (has _ _); [|apply same_refl]. destruct (nz _); [apply (push_same _ true)|apply (push_same _ false)]; apply same_refl.
  - apply real_interrupt_coherent; [|done]. by eapply coherent_of_same.
Qed.
Lemma Exception_coherent fuel w e s : coherent s -> returns coherent (CPU_Exception fuel w e s).
Proof using.
  intros Hc. apply Interrupt_coherent. eapply coherent_of_same; [|exact Hc]. unfold with_error. by apply fields_refl.
Qed.

(** *** IRET *)
Lemma iret_real_coherent w s : coherent s -> pmode s = false -> coherent (iret_real w s).
Proof using.
  intros Hc Hp. unfold iret_real. pose proof (pop_same s w s (same_refl s)) as Hs1. destruct (CPU_Pop w s) as [v1 s1]. cbn [snd] in Hs1.
  pose proof (pop_same s w (with_reg_eip v1 s1)) as Hs2. destruct (CPU_Pop w (with_reg_eip v1 s1)) as [v2 s2]. cbn [snd] in Hs2.
  pose proof (fun s0 => pop_same s0 w (SegSet16 cs v2 s2)) as Hs3. destruct (CPU_Pop w (SegSet16 cs v2 s2)) as [v3 s3]. cbn [snd] in Hs3.
  assert (same s s2) as Hr2 by (apply Hs2; by same_fields).
  assert (coherent (SegSet16 cs v2 s2)) as Hc2.
  { assert (coherent (with_code_big false (put_seg cs (u16 v2) (Z.shiftl (u16 v2) 4) (with_reg_eip (reg_eip s2) s2)))) as H9
      by (by apply (real_cs_coherent s)). eapply coherent_of_same; [|exact H9]. by apply fields_refl. }
  apply SetFlags_end; [by destruct w|]. eapply coherent_of_same; [apply Hs3, same_refl|done].
Qed.
Lemma v86_cs_coherent s0 s v : coherent s0 -> vm s0 = true -> same s0 s -> coherent (SegSet16 cs v s).
Proof using.
  intros Hc Hv Hs. destruct (coh_v86 s0 Hc Hv) as [Hp Hcp]. apply (coherent_v86 s0); [apply Hc|done| | |].
  - apply put_seg_rebased. eapply same_rebased; [apply rebased_refl|done].
  - by rewrite <- Hcp, <- (same_cpl s0 s).
  - rewrite <- Hv, <- (same_vm s0 s); done.
Qed.
Lemma iret_v86_coherent w s : coherent s -> vm s = true -> coherent (iret_v86 w s).
Proof using.
  intros Hc Hv. unfold iret_v86. destruct (iret_frame w s) as [[[e c] f] p].
  apply SetFlags_end; [done|]. apply (v86_cs_coherent s); [done..|]. by apply fields_refl.
Qed.
Lemma iret_to_v86_coherent e c f p s : coherent s -> pmode s = true -> Z.testbit f 17 = true -> coherent (iret_to_v86 e c f p s).
Proof using.
  intros Hc Hp Hf. unfold iret_to_v86. set (s1 := with_reg_eip _ _). assert (same s s1) as Hs1 by (by apply fields_refl). clearbody s1.
  do 6 (let Hn := fresh "Hs" in let v := fresh "v" in let x := fresh "s" in
    match goal with |- context [CPU_Pop32 ?y] => pose proof (fun s0 => pop_same s0 true y) as Hn; cbn [CPU_Pop] in Hn;
      destruct (CPU_Pop32 y) as [v x]; cbn [snd] in Hn end).
  match goal with |- context [CPU_SetFlags _ _ ?y] => assert (same s y) as Hs7 by auto 10; generalize dependent y; intros s7 _ Hs7 end.
  set (s8 := CPU_SetFlags _ _ _).
  assert (control_ok s8 /\ pmode s8 = true /\ vm s8 = true) as (C8 & Hp8 & Hv8).
  { split; [apply SetFlags_ok; by apply (same_ok s s7 Hs7), Hc|]. split; [by rewrite <- Hp, <- (same_pmode s s7)|].
    unfold s8. rewrite SetFlags_vm. exact Hf. }
  set (s9 := with_cpl 3 _). assert (coherent s9 /\ vm s9 = true) as [Hc9 Hv9].
  { split; [|done]. by apply (coherent_v86 s8); [..|eapply rebased_fields; [apply rebased_refl|done]| |]. }
  apply (v86_cs_coherent s9); [done..|]. eapply (fields_same s9 (snd (CPU_SetSegGeneral gs _ _))); [|reflexivity].
  repeat (apply setseg_same; [done|]). apply same_refl.
Qed.
Lemma iret_same_level_coherent e c f p d s :
  coherent s -> pmode s = true -> vm s = false -> Z.land c 3 = cpl s -> coherent (iret_same_level e c f p d s).
Proof using.
  intros Hc Hp Hv Hr. unfold iret_same_level. set (s1 := with_reg_eip _ _).
  apply (coherent_of_same (CPU_SetFlags f (iret_flags_mask s1) s1)); [apply destroy_same, same_refl|].
  apply SetFlags_coherent; [apply iret_flags_mask_vm|]. apply (coherent_protected s); [apply Hc|done| |done|].
  - eapply rebased_fields; [apply rebased_refl|done].
  - transitivity (Z.land (u16 c) 3); [done|]. by rewrite land3_u16.
Qed.
(** A return to a level and its stack: the code segment first, the stack then. *)
Lemma outer_return_coherent s c l n e d :
  control_ok s -> pmode s = true -> vm s = false -> Z.land (SegValue cs s) 3 = l -> c = l ->
  coherent (cpu_check_segments (load_stack_pointer d e (put_seg ss n (GetBase d) (with_cpl c s)))).
Proof using.
  intros C Hp Hv Hcs ->. apply (coherent_of_same (with_cpl l s)).
  - apply check_segments_same, load_stack_pointer_same, seg_same, same_refl. done.
  - apply (coherent_protected s); [done..| |done|done]. apply with_cpl_rebased, rebased_refl.
Qed.
Lemma iret_outer_level_coherent w e c f p d s :
  coherent s -> pmode s = true -> vm s = false -> returns coherent (iret_outer_level w e c f p d s).
Proof using.
  intros Hc Hp Hv. unfold iret_outer_level. apply returns_check. cbv zeta. apply returns_check.
  match goal with |- context [gdt_GetDescriptor ?x s] => pose proof (gdt_same s x s (same_refl s)) as Hs1; set (n := x) in *; clearbody n end.
  destruct (gdt_GetDescriptor n s) as [o s1]. cbn [snd] in Hs1. apply returns_check, returns_check.
  destruct (negb (is_one_of _ _)); [done|]. apply returns_check. cbn [returns].
  set (s2 := CPU_SetFlags _ _ _).
  assert (control_ok s2 /\ pmode s2 = true /\ vm s2 = false /\ SegValue cs s2 = u16 c) as (C2 & Hp2 & Hv2 & Hcs2).
  { unfold s2. split; [|split; [|split; [|done]]].
    - apply SetFlags_ok, (rebased_ok s); [apply load_cs_rebased; eapply same_rebased; [apply rebased_refl|done]|apply Hc|].
      change (0 <= cpl s1 <= 3). rewrite (same_cpl s s1) by done. apply Hc.
    - rewrite <- Hp, <- (same_pmode s s1); done.
    - rewrite SetFlags_vm, iret_flags_mask_vm. rewrite <- Hv, <- (same_vm s s1); done. }
  clearbody s2. apply (outer_return_coherent (with_reg_eip e (destroy_condition_flags s2)) _ (Z.land c 3)); try done.
  - by destruct C2.
  - transitivity (Z.land (SegValue cs s2) 3); [done|]. by rewrite Hcs2, land3_u16.
Qed.
Lemma iret_protected_coherent w e c f p s :
  coherent s -> pmode s = true -> vm s = false -> returns coherent (iret_protected w e c f p s).
Proof using.
  intros Hc Hp Hv. unfold iret_protected. apply returns_check. cbv zeta.
  pose proof (gdt_same s c s (same_refl s)) as Hs1. destruct (gdt_GetDescriptor c s) as [o s1]. cbn [snd] in Hs1.
  assert (coherent s1 /\ pmode s1 = true /\ vm s1 = false) as (Hc1 & Hp1 & Hv1).
  { split; [by eapply coherent_of_same|]. by rewrite (same_pmode s), (same_vm s). }
  apply returns_check, returns_check, returns_bind.
  destruct (if is_one_of DESC_CODE_NC _ then _ else _) as [[]|]; cbn [returns]; [|done]. apply returns_check.
  destruct (Z.eqb_spec (Z.land c 3) (cpl s1)) as [Er|Er]; [by apply iret_same_level_coherent|by apply iret_outer_level_coherent].
Qed.
Lemma nz_VM f : nz (Z.land f FLAG_VM) = Z.testbit f 17.
Proof using. by apply (nz_land_pow2 f 17). Qed.
Lemma IRET_coherent fuel w o s : coherent s -> returns coherent (CPU_IRET fuel w o s).
Proof using.
  intros Hc. unfold CPU_IRET. destruct (pmode s) eqn:Hp; cbn [negb]; [|by apply iret_real_coherent].
  rewrite flag_VM. destruct (vm s) eqn:Hv.
  - destruct (negb _); [by apply Exception_coherent|by apply iret_v86_coherent].
  - destruct (flag FLAG_NT s).
    + unfold iret_task. destruct (flag FLAG_VM s); [done|]. apply returns_check. unfold Get_back.
      assert (same s (set_mpl 3 s)) as Hs by (by apply fields_refl).
      apply switch_task_coherent; [eapply same_ok; [exact Hs|apply Hc]|done].
    + destruct (iret_frame w s) as [[[e c] f] p]. destruct w; cbv zeta; rewrite !nz_VM.
      * destruct (Z.testbit f 17) eqn:Hf; [|by apply iret_protected_coherent].
        destruct (cpl s =? 0); cbn [andb]; [by apply iret_to_v86_coherent|done].
      * destruct (Z.testbit _ 17); [done|by apply iret_protected_coherent].
Qed.

(** *** JMP, CALL and RET *)
Lemma load_cs_coherent s0 x d s : coherent s0 -> pmode s0 = true -> vm s0 = false -> same s0 s ->
  coherent (load_cs (Z.lor (Z.land x 0xfffc) (cpl s)) d s).
Proof using.
  intros Hc Hp Hv Hs. apply (coherent_protected s0); [apply Hc|done| | |].
  - apply load_cs_rebased. eapply same_rebased; [apply rebased_refl|done].
  - rewrite <- Hv, <- (same_vm s0 s); done.
  - pose proof (same_cpl s0 s Hs) as E. pose proof (co_cpl s0 (coh_ok s0 Hc)). exact (land3_selector x (cpl s) ltac:(lia)).
Qed.
(** In real and virtual-8086 mode the code segment is free. *)
Lemma SegSet16_coherent s0 v s : coherent s0 -> real_or_v86 s0 = true -> same s0 s -> coherent (SegSet16 cs v s).
Proof using.
  intros Hc Hr Hs. unfold real_or_v86 in Hr. rewrite flag_VM in Hr. destruct (vm s0) eqn:Hv; [by apply (v86_cs_coherent s0)|].
  rewrite orb_false_r in Hr. apply negb_true_iff in Hr.
  apply (coherent_of_same (with_code_big false (put_seg cs (u16 v) (Z.shiftl (u16 v) 4) (with_reg_eip (reg_eip s) s)))); [by apply fields_refl|].
  by apply (real_cs_coherent s0).
Qed.
Lemma not_real s : real_or_v86 s = false -> pmode s = true /\ vm s = false.
Proof using. unfold real_or_v86. rewrite flag_VM. by destruct (pmode s), (vm s). Qed.
Lemma eip_coherent v s : coherent s -> coherent (with_reg_eip v s).
Proof using. intros Hc. eapply coherent_of_same; [|exact Hc]. by apply fields_refl. Qed.
Lemma code_big_coherent v s : coherent s -> coherent (with_code_big v s).
Proof using. intros Hc. eapply coherent_of_same; [|exact Hc]. by apply fields_refl. Qed.
Lemma JMP_coherent fuel w sel off o s : coherent s -> returns coherent (CPU_JMP fuel w sel off o s).
Proof using.
  intros Hc. unfold CPU_JMP. destruct (real_or_v86 s) eqn:Hr.
  - apply code_big_coherent, (SegSet16_coherent s); [done..|]. by apply fields_refl.
  - apply not_real in Hr as [Hp Hv]. apply returns_check. cbv zeta. pose proof (gdt_same s sel s (same_refl s)) as Hs1.
    destruct (gdt_GetDescriptor sel s) as [od s1]. cbn [snd] in Hs1. apply returns_check. set (d := loaded od).
    set (k := if seg_p d =? 0 then _ else _). assert (returns coherent k) as Hk.
    { unfold k. destruct (_ =? _); [by apply Exception_coherent, (coherent_of_same s)|]. by apply eip_coherent, (load_cs_coherent s). }
    clearbody k. destruct (is_one_of DESC_CODE_NC _); [by apply returns_check, returns_check|].
    destruct (is_one_of DESC_CODE_C _); [by apply returns_check|]. destruct (_ =? _); [|done]. apply returns_check, returns_check.
    apply switch_task_coherent; [by apply (same_ok s), Hc|by rewrite (same_pmode s)].
Qed.
Lemma push_return_same s0 w c o s : same s0 s -> same s0 (push_return w c o s).
Proof using. intros Hs. by apply push_same, push_same. Qed.
Lemma call_same_level_coherent w g d o s : coherent s -> pmode s = true -> vm s = false -> coherent (call_same_level w g d o s).
Proof using.
  intros Hc Hp Hv. unfold call_same_level. apply eip_coherent, (load_cs_coherent s); [done..|]. apply push_return_same, same_refl.
Qed.
Lemma call_inner_level_coherent w g d o s :
  coherent s -> pmode s = true -> vm s = false -> returns coherent (call_inner_level w g d o s).
Proof using.
  intros Hc Hp Hv. unfold call_inner_level. cbv zeta. pose proof (get_ss_same s (DPL d) (cpu_tss s) s (same_refl s)) as Hs1.
  destruct (Get_SSx_ESPx _ _ _) as [[v e] s1]. cbn [snd] in Hs1. apply returns_check.
  pose proof (gdt_same s v s1 Hs1) as Hs2. destruct (gdt_GetDescriptor v s1) as [od s2]. cbn [snd] in Hs2.
  apply returns_check, returns_check. destruct (negb (is_one_of _ _)); [done|]. apply returns_check. cbn [returns].
  set (s3 := with_cpl (DPL d) _).
  assert (rebased s s3 /\ vm s3 = false /\ cpl s3 = DPL d) as (Hr3 & Hv3 & Hc3).
  { assert (same s (load_stack_pointer (loaded od) e (put_seg ss v (GetBase (loaded od)) s2))) as Hs3
      by (by apply load_stack_pointer_same, seg_same).
    split; [apply with_cpl_rebased; eapply same_rebased; [apply rebased_refl|exact Hs3]|]. split; [|done].
    rewrite <- Hv, <- (same_vm _ _ Hs3). done. }
  set (s4 := load_cs _ d s3). assert (coherent s4) as Hc4.
  { apply (coherent_protected s); [apply Hc|done|by apply load_cs_rebased|done|].
    refine (land3_selector (GetSelector g) (cpl s3) _). rewrite Hc3. apply DPL_range. }
  eapply coherent_of_same; [|exact Hc4]. apply push_return_same, push_parameters_same, push_same, push_same. by apply fields_refl.
Qed.
Lemma call_gate_coherent w g r o s : coherent s -> pmode s = true -> vm s = false -> returns coherent (call_gate w g r o s).
Proof using.
  intros Hc Hp Hv. unfold call_gate. do 4 apply returns_check. pose proof (gdt_same s (GetSelector g) s (same_refl s)) as Hs1.
  destruct (gdt_GetDescriptor _ s) as [od s1]. cbn [snd] in Hs1.
  assert (coherent s1 /\ pmode s1 = true /\ vm s1 = false) as (Hc1 & Hp1 & Hv1).
  { split; [by eapply coherent_of_same|]. by rewrite (same_pmode s), (same_vm s). }
  do 3 apply returns_check. destruct (is_one_of DESC_CODE_NC _).
  - destruct (_ <? _); [by apply call_inner_level_coherent|]. destruct (_ <? _); [done|by apply call_same_level_coherent].
  - destruct (is_one_of DESC_CODE_C _); [by apply call_same_level_coherent|done].
Qed.
Lemma CALL_coherent fuel w sel off o s : coherent s -> returns coherent (CPU_CALL fuel w sel off o s).
Proof using.
  intros Hc. unfold CPU_CALL. destruct (real_or_v86 s) eqn:Hr.
  - apply (SegSet16_coherent s); [done..|]. eapply fields_same; [apply (push_return_same s w (SegValue cs s) o s), same_refl|done].
  - apply not_real in Hr as [Hp Hv]. apply returns_check. cbv zeta. pose proof (gdt_same s sel s (same_refl s)) as Hs1.
    destruct (gdt_GetDescriptor sel s) as [od s1]. cbn [snd] in Hs1. apply returns_check. set (d := loaded od).
    assert (coherent s1 /\ pmode s1 = true /\ vm s1 = false) as (Hc1 & Hp1 & Hv1).
    { split; [by eapply coherent_of_same|]. by rewrite (same_pmode s), (same_vm s). }
    set (k := if seg_p d =? 0 then _ else _). assert (returns coherent k) as Hk.
    { unfold k. destruct (_ =? _); [by apply Exception_coherent|]. apply (load_cs_coherent s1); [done..|].
      eapply fields_same; [apply (push_return_same s1 w (SegValue cs s1) o s1), same_refl|done]. }
    clearbody k. destruct (is_one_of DESC_CODE_NC _); [by apply returns_check, returns_check|].
    destruct (is_one_of DESC_CODE_C _); [by apply returns_check|].
    destruct (is_one_of [_; _] _); [by apply call_gate_coherent|]. destruct (_ =? _).
    + do 3 apply returns_check. apply switch_task_coherent; [by apply (same_ok s), Hc|done].
    + destruct (is_one_of _ _); [by apply Exception_coherent|done].
Qed.

(** A far return reads its selector at SS:ESP and an offset, but pops it from the
    stack pointer moved by it; the two are the same word unless SP wraps. *)
Definition frame_fits (w : bool) s : Prop :=
  stack_ptr (stack_add (esp s) (bytes_of w) s) s = stack_ptr (esp s) s + bytes_of w.
Lemma gdt_mpl sel s : exists v, snd (gdt_GetDescriptor sel s) = with_mpl v s.
Proof using.
  unfold gdt_GetDescriptor, load_below, Load.
  assert (s = with_mpl (mpl s) s) as E by (by destruct s). repeat case_match; cbn [snd]; simplify_eq; first [by exists 3|by exists (mpl s)].
Qed.
Lemma pop_selector w s : good_stack s -> frame_fits w s ->
  fst (CPU_Pop w (snd (CPU_Pop w s))) = mem_read w (SegPhys ss s + stack_ptr (esp s) s + bytes_of w) s.
Proof using.
  intros Hs Hf. pose proof (gs_esp s Hs) as He.
  assert (good_stack (put_esp (stack_add (esp s) (bytes_of w) s) s)) as Hs1.
  { split; [apply Hs|]. rewrite put_esp_same; [by apply stack_add_range|done|by apply stack_add_range]. }
  rewrite (pop_spec w s) by done. cbn [snd]. rewrite pop_spec by done. cbn [fst]. rewrite read_stack_mem.
  rewrite put_esp_same by (try apply stack_add_range; done). change (stack_ptr ?p (put_esp _ s)) with (stack_ptr p s).
  rewrite Hf, Z.add_assoc. by destruct w.
Qed.
Lemma ret_same_level_coherent fuel w n sel d s :
  coherent s -> pmode s = true -> vm s = false ->
  Z.land (u16 (fst (CPU_Pop w (snd (CPU_Pop w s))))) 3 = cpl s -> returns coherent (ret_same_level fuel w n sel d s).
Proof using.
  intros Hc Hp Hv Hr. unfold ret_same_level. apply returns_bind.
  destruct (if is_one_of DESC_CODE_NC _ then _ else _) as [[]|]; cbn [returns]; [|done].
  destruct (_ =? _); [by apply Exception_coherent|].
  pose proof (pop_same s w s (same_refl s)) as Hs1. destruct (CPU_Pop w s) as [v1 s1]. cbn [snd] in *.
  pose proof (pop_same s w s1 Hs1) as Hs2. destruct (CPU_Pop w s1) as [v2 s2]. cbn [snd fst returns] in *.
  set (s3 := with_reg_eip v1 _). assert (coherent s3) as Hc3.
  { apply (coherent_protected s); [apply Hc|done| | |].
    - apply (rebased_fields s (load_cs (u16 v2) d s2)); [|done]. apply load_cs_rebased. eapply same_rebased; [apply rebased_refl|exact Hs2].
    - rewrite <- Hv, <- (same_vm s s2); done.
    - transitivity (Z.land (u16 (u16 v2)) 3); [done|]. rewrite land3_u16, Hr, <- (same_cpl s s2); done. }
  destruct (big (stack s3)); (eapply coherent_of_same; [|exact Hc3]; by apply fields_refl).
Qed.
Lemma ret_outer_level_coherent w n r d s :
  coherent s -> pmode s = true -> vm s = false -> 0 <= r <= 3 -> returns coherent (ret_outer_level w n r d s).
Proof using.
  intros Hc Hp Hv Hr. unfold ret_outer_level. apply returns_bind.
  destruct (if is_one_of DESC_CODE_NC _ then _ else _) as [[]|]; cbn [returns]; [|done]. apply returns_check.
  pose proof (pop_same s w s (same_refl s)) as Hs1. destruct (CPU_Pop w s) as [v1 s1]. cbn [snd] in Hs1.
  pose proof (pop_same s w s1 Hs1) as Hs2. destruct (CPU_Pop w s1) as [v2 s2]. cbn [snd] in Hs2. cbv zeta.
  assert (same s (add_esp n s2)) as Hs3 by (by eapply fields_same).
  pose proof (pop_same s w _ Hs3) as Hs4. destruct (CPU_Pop w (add_esp n s2)) as [v3 s3]. cbn [snd] in Hs4.
  pose proof (pop_same s w s3 Hs4) as Hs5. destruct (CPU_Pop w s3) as [v4 s4]. cbn [snd] in Hs5. apply returns_check.
  pose proof (gdt_same s (u16 v4) s4 Hs5) as Hs6. destruct (gdt_GetDescriptor _ s4) as [od s5]. cbn [snd] in Hs6.
  do 2 apply returns_check. destruct (negb (is_one_of _ _)); [done|]. apply returns_check. cbn [returns].
  set (s6 := put_seg ss _ _ _). assert (coherent s6) as Hc6.
  { apply (coherent_protected s); [apply Hc|done| | |].
    - apply (rebased_fields s (with_cpl r s5)); [|done]. apply with_cpl_rebased. eapply same_rebased; [apply rebased_refl|exact Hs6].
    - rewrite <- Hv, <- (same_vm s s5); done.
    - exact (land3_selector (u16 v2) r Hr). }
  eapply coherent_of_same; [|exact Hc6]. apply check_segments_same.
  destruct (nz _); [apply (fields_same s6 (set_stack_size true s6))|apply (fields_same s6 (set_stack_size false s6))]; done || apply stack_size_same, same_refl.
Qed.
Lemma RET_coherent fuel w n s :
  coherent s -> real_or_v86 s = true \/ good_stack s /\ frame_fits w s -> returns coherent (CPU_RET fuel w n s).
Proof using Type*.
  intros Hc Hf. unfold CPU_RET. destruct (real_or_v86 s) eqn:Hr.
  - pose proof (pop_same s w s (same_refl s)) as Hs1. destruct (CPU_Pop w s) as [v1 s1]. cbn [snd] in Hs1.
    pose proof (pop_same s w s1 Hs1) as Hs2. destruct (CPU_Pop w s1) as [v2 s2]. cbn [snd] in Hs2.
    apply code_big_coherent, eip_coherent, (SegSet16_coherent s); [done..|]. by eapply fields_same.
  - destruct Hf as [|[Hg Hf]]; [done|]. apply not_real in Hr as [Hp Hv]. cbv zeta.
    set (sel := if w then _ else _). assert (sel = u16 (fst (CPU_Pop w (snd (CPU_Pop w s))))) as Esel.
    { rewrite pop_selector by done. unfold sel. destruct w; [done|]. cbn [mem_read]. change (bytes_of false) with 2.
      symmetry. apply u16_small, readw_range. }
    destruct (Z.ltb_spec (Z.land sel 3) (cpl s)); [by apply Exception_coherent|]. apply returns_check.
    pose proof (gdt_same s sel s (same_refl s)) as Hs1. destruct (gdt_GetDescriptor sel s) as [od s1] eqn:Eg. cbn [snd] in Hs1.
    assert (coherent s1 /\ pmode s1 = true /\ vm s1 = false) as (Hc1 & Hp1 & Hv1).
    { split; [by eapply coherent_of_same|]. by rewrite (same_pmode s), (same_vm s). }
    apply returns_check. destruct (Z.eqb_spec (cpl s1) (Z.land sel 3)) as [Er|Er].
    + apply ret_same_level_coherent; [done..|]. rewrite Er, Esel. do 2 f_equal.
      destruct (gdt_mpl sel s) as [v E]. rewrite Eg in E. cbn [snd] in E. subst s1. by destruct w.
    + apply ret_outer_level_coherent; [done..|]. rewrite Esel. apply land3.
Qed.
(** ** The other operations *)
Lemma SET_CRX_coherent cr v s :
  coherent s -> (cr = 0 -> pmode s = true -> cpl s = 0) ->
  (cr = 0 -> pmode s = false -> Z.testbit v 0 = true -> Z.land (SegValue cs s) 3 = 0) -> coherent (CPU_SET_CRX cr v s).
Proof using.
  intros Hc Hpriv Hon. unfold CPU_SET_CRX. assert (forall m, coherent (with_mem m s)) as Hm
    by (intros m; eapply coherent_of_same; [|exact Hc]; by apply fields_refl).
  destruct (Z.eqb_spec cr 0) as [E|]; [|by repeat case_match].
  destruct (negb _); [done|]. set (w := Z.lor v CR0_FPUPRESENT).
  assert (Z.testbit w 0 = Z.testbit v 0) as Ew by (unfold w; by rewrite Z.lor_spec, orb_false_r).
  change CR0_PROTECTION with (2 ^ 0). rewrite nz_land_pow2 by lia. destruct Hc as [[C1 C2 C3 C4] V Cs R].
  assert (cpl s = 0) as Hcpl by (destruct (pmode s); auto).
  assert (vm s = false) as Hv by (destruct (vm s); [destruct V; [done|lia]|done]).
  destruct (Z.testbit w 0) eqn:Hb.
  - split; [split|..]; try done.
    + change (vm s = true -> true = true /\ cpl s = 3). intros Hv'. by rewrite Hv in Hv'.
    + intros _ _. change (Z.land (SegValue cs s) 3 = cpl s). destruct (pmode s) eqn:Hp; [by apply Cs|]. rewrite Hcpl. by apply Hon.
  - split; [split|..]; try done. change (vm s = true -> false = true /\ cpl s = 3). intros Hv'. by rewrite Hv in Hv'.
Qed.
Lemma privileged_cpl s : coherent s -> privileged s = false -> pmode s = true -> cpl s = 0.
Proof using. intros [[C _ _ _] _ _ _] Hpr Hp. unfold privileged in Hpr. rewrite Hp in Hpr. cbn in Hpr. zbool. Qed.
Lemma prepare_coherent w e s : coherent s -> coherent (snd (CPU_PrepareException w e s)).
Proof using. intros Hc. eapply coherent_of_same; [apply prepare_same, same_refl|done]. Qed.
Lemma POPF_coherent w s : coherent s -> coherent (snd (CPU_POPF w s)).
Proof using.
  intros Hc. unfold CPU_POPF. destruct (_ && _ && _); [by apply prepare_coherent|].
  pose proof (pop_same s w s (same_refl s)) as Hs. destruct (CPU_Pop w s) as [v s1]. cbn [snd] in *.
  eapply coherent_of_same; [apply destroy_same, same_refl|]. apply SetFlags_coherent; [|by eapply coherent_of_same].
  destruct w; [apply popf_mask_vm|]. rewrite Z.land_spec, popf_mask_vm. done.
Qed.
Lemma PUSHF_coherent w s : coherent s -> coherent (snd (CPU_PUSHF w s)).
Proof using.
  intros Hc. unfold CPU_PUSHF. destruct (_ && _ && _); [by apply prepare_coherent|]. cbn [snd]. eapply coherent_of_same; [|exact Hc].
  destruct w; [apply (push_same _ true)|apply (push_same _ false)]; apply fill_flags_same, same_refl.
Qed.
Lemma LTR_coherent v s : coherent s -> returns (fun r => coherent (snd r)) (CPU_LTR v s).
Proof using.
  intros Hc. unfold CPU_LTR. destruct (_ =? _).
  - pose proof (SetSelector_same s v (cpu_tss s) s (same_refl s)) as Hs. destruct (SetSelector _ _ _) as [[b t] s1].
    cbn [snd returns] in *. eapply coherent_of_same; [|exact Hc]. by eapply fields_same.
  - pose proof (gdt_same s v s (same_refl s)) as Hs1.
    destruct (if nz _ then _ else _) as [o s1] eqn:E.
    assert (same s s1) as Hs2 by (destruct (nz _); [simplify_eq; apply same_refl|by rewrite E in Hs1]). clear Hs1 E.
    assert (coherent s1) as Hc1 by (by eapply coherent_of_same). destruct o as [d|]; [|by apply prepare_coherent].
    destruct (_ || _); [|by apply prepare_coherent]. destruct (_ =? _); [by apply prepare_coherent|].
    pose proof (SetSelector_same s1 v (cpu_tss s1) s1 (same_refl s1)) as Hs3. destruct (SetSelector _ _ _) as [[b t] s2].
    cbn [snd] in Hs3. destruct (negb b); [done|]. cbn [returns snd]. eapply coherent_of_same; [|exact Hc1].
    apply save_selector_same. by eapply fields_same.
Qed.
Lemma load_attribute_coherent c a v o s : coherent s -> coherent (snd (load_attribute c a v o s)).
Proof using.
  intros Hc. unfold load_attribute. pose proof (fill_flags_same s s (same_refl s)) as Hs. pose proof (gdt_same s v (fill_flags s) Hs) as Hg.
  destruct (gdt_GetDescriptor _ _) as [[d|] s1]; cbn [snd] in Hg; repeat case_match; cbn [snd];
    (eapply coherent_of_same; [by apply set_ZF_same|exact Hc]).
Qed.
Lemma VER_coherent v s : coherent s -> coherent (CPU_VERR v s) /\ coherent (CPU_VERW v s).
Proof using.
  intros Hc. unfold CPU_VERR, CPU_VERW. pose proof (fill_flags_same s s (same_refl s)) as Hs. pose proof (gdt_same s v (fill_flags s) Hs) as Hg.
  destruct (gdt_GetDescriptor _ _) as [[d|] s1]; cbn [snd] in Hg; split; repeat case_match;
    (eapply coherent_of_same; [by apply set_ZF_same|exact Hc]).
Qed.
Lemma ENTER_same s0 w n l s : same s0 s -> same s0 (CPU_ENTER w n l s).
Proof using.
  intros Hs. unfold CPU_ENTER. cbv zeta.
  assert (forall k z a b x, same s0 x -> same s0 (snd (enter_loop k z a b x))) as Hl.
  { induction k as [|k IH]; intros z a b x Hx; [done|]. cbn [enter_loop]. apply IH. destruct (_ =? _); by eapply fields_same. }
  destruct (negb w), (nz (Z.land l 31)); repeat match goal with |- context [enter_loop ?k ?z ?a ?b ?x] =>
      let Hx := fresh in assert (same s0 x) as Hx by (by eapply fields_same); pose proof (Hl k z a b x Hx); destruct (enter_loop k z a b x) end;
    cbn [snd] in *; by eapply fields_same.
Qed.
End Invariant.
