(* ===== verification/CpuTheorems.v ===== *)
(** * What protection guarantees

    The privilege level along runs of the operations; descriptor checks that agree with each other;
    the I/O permission map; exceptions that are never delivered; and the return whose
    selector is not the one it checked. *)
From stdpp Require Import relations.
From S2P Require Import Prelude.
From S2P Require Import Registers.
From S2P Require Import LazyFlags.
From S2P Require Import FlagProofs.
From S2P Require Import GuestMemory.
From S2P Require Import GuestMemoryProofs.
From S2P Require Import Paging.
From S2P Require Import CpuState.
From S2P Require Import CpuProtect.
From S2P Require Import CpuControl.
From S2P Require Import CpuFrames.
From S2P Require Import CpuDemo.
From S2P Require Import CpuInvariant.
#[local] Open Scope Z_scope.
#[local] Open Scope exec_scope.

Section Steps.
Context {M : Type} `{ByteMemoryLaws M} `{PagingControl M} `{Config}.
Implicit Types (s : CPU M).

(** The operations of the component that return, and the other instructions, which
    change registers, memory and the other flags.  Protection is turned on only with
    a code segment of level 0 in CS; a far return in protected mode does not pop
    across the end of its stack segment. *)
Definition may_enable (cr v : Z) s : Prop := cr = 0 -> pmode s = false -> Z.testbit v 0 = true -> Z.land (SegValue cs s) 3 = 0.
Inductive cpu_step s : CPU M -> Prop :=
  | step_interrupt fuel n ty o s' : CPU_Interrupt fuel n ty o s = ok s' -> cpu_step s s'
  | step_exception fuel w e s' : CPU_Exception fuel w e s = ok s' -> cpu_step s s'
  | step_iret fuel w o s' : CPU_IRET fuel w o s = ok s' -> cpu_step s s'
  | step_jmp fuel w sel off o s' : CPU_JMP fuel w sel off o s = ok s' -> cpu_step s s'
  | step_call fuel w sel off o s' : CPU_CALL fuel w sel off o s = ok s' -> cpu_step s s'
  | step_ret fuel w n s' :
      real_or_v86 s = true \/ good_stack s /\ frame_fits w s -> CPU_RET fuel w n s = ok s' -> cpu_step s s'
  | step_set_segment x v : x <> cs -> cpu_step s (snd (CPU_SetSegGeneral x v s))
  | step_pop_segment x w : x <> cs -> cpu_step s (snd (CPU_PopSeg x w s))
  | step_popf w : cpu_step s (snd (CPU_POPF w s))
  | step_pushf w : cpu_step s (snd (CPU_PUSHF w s))
  | step_cli : cpu_step s (snd (CPU_CLI s))
  | step_sti : cpu_step s (snd (CPU_STI s))
  | step_cld : cpu_step s (CLD s)
  | step_std : cpu_step s (STD s)
  | step_lldt v : cpu_step s (snd (CPU_LLDT v s))
  | step_ltr v r : CPU_LTR v s = ok r -> cpu_step s (snd r)
  | step_lgdt l b : cpu_step s (CPU_LGDT l b s)
  | step_lidt l b : cpu_step s (CPU_LIDT l b s)
  | step_crx cr v : may_enable cr v s -> cpu_step s (snd (CPU_WRITE_CRX cr v s))
  | step_lmsw v : may_enable 0 v s -> cpu_step s (snd (CPU_LMSW v s))
  | step_lar v o : cpu_step s (snd (CPU_LAR v o s))
  | step_lsl v o : cpu_step s (snd (CPU_LSL v o s))
  | step_verr v : cpu_step s (CPU_VERR v s)
  | step_verw v : cpu_step s (CPU_VERW v s)
  | step_enter w n l : cpu_step s (CPU_ENTER w n l s)
  | step_other s' : control s' = control s -> stack s' = stack s -> cpu_step s s'.

Lemma step_coherent s s' : coherent s -> cpu_step s s' -> coherent s'.
Proof using Type*.
  intros Hc Hs.
  assert (forall m s', returns coherent m -> m = ok s' -> coherent s') as Hr by (intros m s1 Hm ->; done).
  destruct Hs as [f n ty o s' E|f w e s' E|f w o s' E|f w sl off o s' E|f w sl off o s' E|f w n s' Hf E|x v Hx|x w Hx|w|w| | | | |v|v r E|l b|l b|cr v Hm|v Hm
                 |v o|v o|v|v|w n l|s' E1 E2].
  - eapply Hr, E. by apply Interrupt_coherent.
  - eapply Hr, E. by apply Exception_coherent.
  - eapply Hr, E. by apply IRET_coherent.
  - eapply Hr, E. by apply JMP_coherent.
  - eapply Hr, E. by apply CALL_coherent.
  - eapply Hr, E. by apply RET_coherent.
  - eapply coherent_of_same, Hc. apply setseg_same, same_refl. done.
  - eapply coherent_of_same, Hc. apply popseg_same, same_refl. done.
  - by apply POPF_coherent.
  - by apply PUSHF_coherent.
  - unfold CPU_CLI. destruct (interrupt_flag_denied s); [by apply prepare_coherent|]. eapply coherent_of_same, Hc. apply set_IF_same, same_refl.
  - unfold CPU_STI. destruct (interrupt_flag_denied s); [by apply prepare_coherent|]. eapply coherent_of_same, Hc. apply set_IF_same, same_refl.
  - by apply set_DF_coherent.
  - apply set_DF_coherent; [by left|done].
  - eapply coherent_of_same, Hc. apply LLDT_same, same_refl.
  - pose proof (LTR_coherent v s Hc) as Hl. by rewrite E in Hl.
  - eapply coherent_of_same, Hc. by apply fields_refl.
  - eapply coherent_of_same, Hc. by apply fields_refl.
  - unfold CPU_WRITE_CRX. destruct (privileged s) eqn:Hp; [by apply prepare_coherent|]. repeat case_match; try by apply prepare_coherent.
    cbn [snd]. apply SET_CRX_coherent; [done|intros _; by apply privileged_cpl|exact Hm].
  - unfold CPU_LMSW. destruct (privileged s) eqn:Hp; [by apply prepare_coherent|]. cbn [snd].
    apply SET_CRX_coherent; [done|intros _; by apply privileged_cpl|]. intros _ Hpm Hb. apply Hm; [done..|].
    pose proof (co_cr0 s (coh_ok s Hc)) as E0. rewrite Hpm in E0. rewrite land_1, <- E0 in Hb. cbn [b2z nz Z.eqb negb] in Hb.
    by rewrite Z.lor_spec, !Z.land_spec, !andb_true_r, !andb_false_r, orb_false_r in Hb.
  - by apply load_attribute_coherent.
  - by apply load_attribute_coherent.
  - by apply VER_coherent.
  - by apply VER_coherent.
  - eapply coherent_of_same, Hc. apply ENTER_same, same_refl.
  - eapply coherent_of_same, Hc. by apply (same_equal s s s' (same_refl s)).
Qed.
End Steps.

(** ** The theorems *)

(** C6.  Along any run of the operations of [cpu_step] the privilege level is that of
    the code segment: in protected mode CS.RPL equals CPL, and in virtual-8086 mode CPL
    is 3 and the processor is in protected mode; outside of protected mode CPL is 0;
    protected mode is on exactly when CR0.PE is; the stack mask is that of one of the
    two sizes; and the string direction is 1 when DF is clear, and when it is set -1
    (as STD stores it) or 4294967295 (as [CPU_SetFlags] does).  Exceptions nest to any
    depth.  Two operations are excluded where they would break it: the far return in
    protected mode that pops across the end of its stack segment ([far_return_wrap]),
    and turning protection on while the low two bits of CS are not 0. *)
Theorem privilege_coherent {M} `{ByteMemoryLaws M} `{PagingControl M} `{Config} (s s' : CPU M) :
  coherent s -> rtc cpu_step s s' -> coherent s'.
Proof. intros Hc Hr. induction Hr as [|s1 s2 s3 Hs _ IH]; [done|]. apply IH. by eapply step_coherent. Qed.
Lemma demo_coherent : coherent demo_user.
Proof. split; [split|..]; vm_compute; auto; done. Qed.
Lemma privilege_coherent_witness :
  match CPU_Interrupt 1 0x21 CPU_INT_SOFTWARE 0x4002 demo_user with ok s' => coherent s' | err _ => False end.
Proof.
  destruct (CPU_Interrupt 1 0x21 CPU_INT_SOFTWARE 0x4002 demo_user) as [s'|e] eqn:E; [|vm_compute in E; discriminate E].
  apply (privilege_coherent demo_user s' demo_coherent). apply rtc_once. by eapply step_interrupt.
Defined.

(** The types of a list that a test found. *)
Ltac type_cases Ht :=
  unfold is_one_of, DESC_DATA, DESC_DATA_RW, DESC_CODE_NC, DESC_CODE_C, DESC_CODE_R_NC, DESC_CODE_R_C in Ht; cbn [existsb] in Ht;
  rewrite ?orb_true_iff, ?Z.eqb_eq in Ht; repeat (destruct Ht as [Ht|Ht]); try discriminate; subst.

Section Checks.
Context {M : Type} `{ByteMemoryLaws M} `{PagingControl M} `{Config}.
Implicit Types (s : CPU M).

(** A descriptor read does not depend on what the instructions change besides memory
    and the tables. *)
Lemma gdt_read v s s' : gdt s' = gdt s -> mem s' = mem s -> fst (gdt_GetDescriptor v s') = fst (gdt_GetDescriptor v s).
Proof using.
  intros E1 E2. unfold gdt_GetDescriptor, load_below, Load. rewrite E1.
  repeat case_match; simplify_eq; try done; cbn [fst]; unfold mem_readd; cpu_cbn; by rewrite E2.
Qed.
Lemma gdt_split v s : exists m, gdt_GetDescriptor v s = (fst (gdt_GetDescriptor v s), with_mpl m s).
Proof using. destruct (gdt_mpl v s) as [m E]. exists m. destruct (gdt_GetDescriptor v s). cbn in *. by subst. Qed.
Lemma flag_ZF b s : flag FLAG_ZF (set_flag FLAG_ZF b s) = b.
Proof using. change FLAG_ZF with (2 ^ 6). rewrite flag_bit, set_flag_bits by lia. done. Qed.
Lemma is_one_of_app l l' t : is_one_of (l ++ l') t = is_one_of l t || is_one_of l' t.
Proof using. apply existsb_app. Qed.

(** What each instruction finds, of the descriptor. *)
Definition readable_at (l r : Z) (d : Descriptor) : bool :=
  is_one_of DESC_CODE_R_C (Type_ d)
  || ((is_one_of DESC_DATA (Type_ d) || is_one_of DESC_CODE_R_NC (Type_ d)) && (l <=? DPL d) && (r <=? DPL d)).
Definition writeable_at (l r : Z) (d : Descriptor) : bool :=
  is_one_of DESC_DATA_RW (Type_ d) && (l <=? DPL d) && (r <=? DPL d).
Lemma beyond_negb r d s : negb (beyond_privilege r d s) = (cpl s <=? DPL d) && (r <=? DPL d).
Proof using. unfold beyond_privilege. by rewrite negb_orb, <- !Z.leb_antisym. Qed.
Lemma types_disjoint t : is_one_of DESC_CODE_R_C t = true ->
  is_one_of DESC_DATA t = false /\ is_one_of DESC_CODE_R_NC t = false /\ is_one_of DESC_DATA_RW t = false.
Proof using.
  unfold is_one_of, DESC_CODE_R_C, DESC_DATA, DESC_CODE_R_NC, DESC_DATA_RW. cbn [existsb]. intros Ht. repeat split; zbool.
Qed.
Lemma VERR_finds v s : v <> 0 ->
  flag FLAG_ZF (CPU_VERR v s) =
  match fst (gdt_GetDescriptor v s) with Some d => readable_at (cpl s) (Z.land v 3) d | None => false end.
Proof using.
  intros Hv. unfold CPU_VERR. destruct (Z.eqb_spec v 0); [done|]. cbv zeta.
  destruct (gdt_split v (fill_flags s)) as [m E]. rewrite E, (gdt_read v s (fill_flags s)) by done.
  destruct (fst (gdt_GetDescriptor v s)) as [d|]; [|apply flag_ZF]. unfold readable_at.
  destruct (is_one_of DESC_CODE_R_C _) eqn:E1; [apply flag_ZF|]. rewrite <- andb_assoc, orb_false_l.
  destruct (_ || _); [|apply flag_ZF]. rewrite flag_ZF, beyond_negb. done.
Qed.
Lemma VERW_finds v s : v <> 0 ->
  flag FLAG_ZF (CPU_VERW v s) =
  match fst (gdt_GetDescriptor v s) with Some d => writeable_at (cpl s) (Z.land v 3) d | None => false end.
Proof using.
  intros Hv. unfold CPU_VERW. destruct (Z.eqb_spec v 0); [done|]. cbv zeta.
  destruct (gdt_split v (fill_flags s)) as [m E]. rewrite E, (gdt_read v s (fill_flags s)) by done.
  destruct (fst (gdt_GetDescriptor v s)) as [d|]; [|apply flag_ZF]. unfold writeable_at. rewrite <- andb_assoc.
  destruct (is_one_of DESC_DATA_RW _); [|apply flag_ZF]. by rewrite flag_ZF, beyond_negb.
Qed.
Lemma load_attribute_finds c a v o s d :
  Z.land v 0xfffc <> 0 -> fst (gdt_GetDescriptor v s) = Some d ->
  (is_one_of c (Type_ d) = true /\ cpl s <= DPL d /\ Z.land v 3 <= DPL d) \/ (is_one_of c (Type_ d) = false /\ is_one_of DESC_CODE_C (Type_ d) = true) ->
  fst (load_attribute c a v o s) = a d /\ flag FLAG_ZF (snd (load_attribute c a v o s)) = true.
Proof using.
  intros Hv Hd Hc. unfold load_attribute. cbv zeta. assert (nz (Z.land v 65532) = true) as -> by (by apply nz_spec).
  destruct (gdt_split v (fill_flags s)) as [m E]. rewrite E, (gdt_read v s (fill_flags s)) by done. rewrite Hd.
  destruct Hc as [(-> & H3 & H4)|(-> & ->)]; [|split; [done|apply flag_ZF]].
  assert (beyond_privilege (Z.land v 3) d (with_mpl m (fill_flags s)) = false) as ->; [|split; [done|apply flag_ZF]].
  unfold beyond_privilege. change (cpl (with_mpl m (fill_flags s))) with (cpl s). zbool.
Qed.
(** No general-protection fault. *)
Definition no_GP (r : bool * CPU M) : bool := negb (fst r && (which (exception (snd r)) =? EXCEPTION_GP)).
Lemma load_data_finds x v s : Z.land v 0xfffc <> 0 ->
  no_GP (load_data_segment x v s) =
  match fst (gdt_GetDescriptor v s) with Some d => readable_at (cpl s) (Z.land v 3) d | None => false end.
Proof using.
  intros Hv. unfold load_data_segment. destruct (Z.eqb_spec (Z.land v 0xfffc) 0); [done|].
  destruct (gdt_split v s) as [m E]. rewrite E. cbn [fst]. destruct (fst (gdt_GetDescriptor v s)) as [d|]; [|done]. cbv zeta.
  unfold readable_at. change (cpl (with_mpl m s)) with (cpl s). destruct (is_one_of DESC_CODE_R_C (Type_ d)) eqn:E1.
  - destruct (types_disjoint _ E1) as (-> & -> & _). cbn [orb]. by destruct (seg_p d =? 0).
  - destruct (_ || _); [|done]. cbn [orb andb]. rewrite andb_comm.
    rewrite (Z.ltb_antisym (Z.land v 3)), (Z.ltb_antisym (cpl s)).
    destruct (Z.land v 3 <=? DPL d), (cpl s <=? DPL d); cbn [negb orb andb]; try done; by destruct (seg_p d =? 0).
Qed.
Lemma load_stack_finds v s : Z.land v 0xfffc <> 0 ->
  no_GP (load_stack_segment v s) =
  match fst (gdt_GetDescriptor v s) with
  | Some d => (Z.land v 3 =? cpl s) && (DPL d =? cpl s) && is_one_of DESC_DATA_RW (Type_ d)
  | None => false
  end.
Proof using.
  intros Hv. unfold load_stack_segment. destruct (Z.eqb_spec (Z.land v 0xfffc) 0); [done|].
  destruct (gdt_split v s) as [m E]. rewrite E. cbn [fst]. destruct (fst (gdt_GetDescriptor v s)) as [d|]; [|done].
  change (cpl (with_mpl m s)) with (cpl s).
  destruct (Z.land v 3 =? cpl s), (DPL d =? cpl s), (is_one_of DESC_DATA_RW (Type_ d)); cbn [negb orb andb]; try done; by destruct (seg_p d =? 0).
Qed.
Lemma accepted_types l r c d :
  readable_at l r d || writeable_at l r d = true -> c = LSL_types \/ c = LAR_types ->
  (is_one_of c (Type_ d) = true /\ l <= DPL d /\ r <= DPL d) \/ (is_one_of c (Type_ d) = false /\ is_one_of DESC_CODE_C (Type_ d) = true).
Proof using.
  unfold readable_at, writeable_at. intros Hok Hc.
  assert (forall t, is_one_of DESC_CODE_R_C t = true -> is_one_of c t = false /\ is_one_of DESC_CODE_C t = true) as Hrc.
  { intros t Ht. type_cases Ht; by destruct Hc as [-> | ->]. }
  assert (forall t, is_one_of DESC_DATA t || is_one_of DESC_CODE_R_NC t || is_one_of DESC_DATA_RW t = true -> is_one_of c t = true) as Hnc.
  { intros t Ht. type_cases Ht; by destruct Hc as [-> | ->]. }
  destruct (is_one_of DESC_CODE_R_C (Type_ d)) eqn:E1; [right; by apply Hrc|]. left. specialize (Hnc (Type_ d)).
  destruct (is_one_of DESC_DATA (Type_ d)), (is_one_of DESC_CODE_R_NC (Type_ d)), (is_one_of DESC_DATA_RW (Type_ d)); cbn [orb andb] in *;
    try (by rewrite ?orb_false_r in Hok); (split; [by apply Hnc|]); zbool.
Qed.
End Checks.

(** C7.  The checks of descriptors agree, for every selector that is not null.  VERR
    accepts exactly the selectors that can be loaded into DS, ES, FS or GS without a
    general-protection fault; the load of SS exactly those that VERW accepts and
    whose RPL and DPL are CPL; and of what VERR or VERW accepts, LSL returns the
    limit and LAR the access rights. *)
Theorem descriptor_checks_agree {M} `{ByteMemoryLaws M} `{PagingControl M} `{Config} (s : CPU M) x v o :
  pmode s = true -> flag FLAG_VM s = false -> x <> cs -> x <> ss -> 0 <= v < 65536 -> Z.land v 0xfffc <> 0 ->
  flag FLAG_ZF (CPU_VERR v s) = no_GP (CPU_SetSegGeneral x v s) /\
  no_GP (CPU_SetSegGeneral ss v s) =
    flag FLAG_ZF (CPU_VERW v s) && (Z.land v 3 =? cpl s) &&
      (match fst (gdt_GetDescriptor v s) with Some d => DPL d =? cpl s | None => false end) /\
  (flag FLAG_ZF (CPU_VERR v s) || flag FLAG_ZF (CPU_VERW v s) = true ->
   exists d, fst (gdt_GetDescriptor v s) = Some d /\
     fst (CPU_LSL v o s) = GetLimit d /\ flag FLAG_ZF (snd (CPU_LSL v o s)) = true /\
     fst (CPU_LAR v o s) = Z.land (fill1 d) 0x00ffff00 /\ flag FLAG_ZF (snd (CPU_LAR v o s)) = true).
Proof.
  intros Hp Hv Hx1 Hx2 Hr Hn. assert (v <> 0) as Hv0 by (by intros ->). rewrite VERR_finds, VERW_finds by done.
  unfold CPU_SetSegGeneral. rewrite Hp, Hv, (u16_small v) by lia. cbn [negb orb].
  rewrite (decide_False (P := x = ss)), (decide_True (P := ss = ss)) by done. rewrite load_data_finds, load_stack_finds by done.
  destruct (fst (gdt_GetDescriptor v s)) as [d|] eqn:Ed; [|done]. split; [done|]. split.
  - unfold writeable_at. destruct (is_one_of DESC_DATA_RW _); cbn [andb]; zbool.
  - intros Hok. exists d. split; [done|].
    assert (forall c a, c = LSL_types \/ c = LAR_types ->
      fst (load_attribute c a v o s) = a d /\ flag FLAG_ZF (snd (load_attribute c a v o s)) = true) as Hl.
    { intros c a Hc. apply load_attribute_finds; [done..|]. revert Hok Hc. apply accepted_types. }
    destruct (Hl LSL_types GetLimit) as [H3 H4]; [by left|].
    destruct (Hl LAR_types (fun d => Z.land (fill1 d) 0x00ffff00)) as [H5 H6]; [by right|]. done.
Qed.
Lemma descriptor_checks_agree_witness :
  no_GP (CPU_SetSegGeneral ds 0x1b demo_user) = true /\ fst (CPU_LSL 0x1b 0 demo_user) = 0xffffffff.
Proof.
  destruct (descriptor_checks_agree demo_user ds 0x1b 0) as (E1 & _ & E2); [done..|]. split; [by rewrite <- E1|].
  destruct E2 as (d & Hd & Hl & _); [done|]. rewrite Hl. vm_compute in Hd. injection Hd as <-. reflexivity.
Defined.

(** ** I/O permission *)
Section Ports.
Context {M : Type} `{ByteMemoryLaws M} `{PagingControl M} `{Config}.
Implicit Types (s : CPU M).

(** The bit of a port in the permission map of the current task. *)
Definition map_bit (port : Z) s : bool :=
  let t := cpu_tss s in
  Z.testbit (readb (PhysPt (base t + mem_readw (base t + 0x66) s + port / 8)) (mem s)) (port mod 8).
Lemma port_mask size : size = 1 \/ size = 2 \/ size = 4 -> Z.shiftr 0xffff (16 - size) = Z.ones size.
Proof using. by intros [-> |[-> | ->]]. Qed.
Lemma readw_bit a s k : 0 <= k < 16 -> Z.testbit (mem_readw a s) k = Z.testbit (readb (PhysPt (a + k / 8)) (mem s)) (k mod 8).
Proof using Type*.
  intros Hk. change (mem_readw a s) with (mem_read false a s). rewrite mem_read_le. cbn [size_of le_read]. pose proof (readb_range (PhysPt a) (mem s)) as Hb.
  replace (readb (PhysPt a) (mem s) + _) with (readb (PhysPt (a + 1)) (mem s) * 2 ^ 8 + readb (PhysPt a) (mem s)) by lia.
  rewrite <- lor_join, Z.lor_spec, Z.shiftl_spec by lia. destruct (Z.ltb_spec k 8).
  - rewrite Z.div_small, Z.mod_small, Z.add_0_r by lia. by rewrite (Z.testbit_neg_r _ (k - 8)) by lia.
  - rewrite (testbit_above 8 (readb (PhysPt a) (mem s))), orb_false_r by lia.
    replace (k / 8) with 1 by (apply Z.div_unique with (k - 8); lia).
    by replace (k mod 8) with (k - 8) by (apply Z.mod_unique with 1; lia).
Qed.
Lemma land_ones_shift m n k : 0 <= n -> 0 <= k ->
  nz (Z.land m (Z.shiftl (Z.ones n) k)) = false <-> forall i, 0 <= i < n -> Z.testbit m (k + i) = false.
Proof using.
  intros Hn Hk. unfold nz. rewrite negb_false_iff, Z.eqb_eq. split.
  - intros E i Hi. apply (f_equal (fun z => Z.testbit z (k + i))) in E.
    rewrite Z.land_spec, Z.shiftl_spec, Z.bits_0, Z.ones_spec_low, andb_true_r in E by lia. exact E.
  - intros Hb. apply Z.bits_inj'. intros i Hi. rewrite Z.land_spec, Z.shiftl_spec, Z.bits_0 by lia.
    destruct (Z.ltb_spec i k); [by rewrite (Z.testbit_neg_r _ (i - k)), andb_false_r by lia|].
    destruct (Z.ltb_spec (i - k) n); [|by rewrite Z.ones_spec_high, andb_false_r by lia].
    specialize (Hb (i - k) ltac:(lia)). replace (k + (i - k)) with i in Hb by lia. by rewrite Hb.
Qed.
End Ports.

(** C8.  An access to ports is allowed exactly when the processor is in real mode, or
    the level is at most IOPL outside of virtual-8086 mode, or the task has a 386
    state segment whose permission map starts within its limit and has a zero bit for
    every port of the access; otherwise a general-protection fault with error 0 is
    prepared.  Nothing else changes.  (The end of the map is not checked.) *)
Theorem io_permission {M} `{ByteMemoryLaws M} `{PagingControl M} `{Config} (s : CPU M) port size :
  0 <= port -> size = 1 \/ size = 2 \/ size = 4 ->
  let t := cpu_tss s in
  let allowed :=
    pmode s = false \/ (cpl s <= GETFLAG_IOPL s /\ flag FLAG_VM s = false) \/
    (is386 t <> 0 /\ mem_readw (base t + 0x66) s <= limit t /\ forall i, 0 <= i < size -> map_bit (port + i) s = false) in
  exists m, (allowed /\ CPU_IO_Exception port size s = (false, with_mpl m s)) \/
            (~ allowed /\ CPU_IO_Exception port size s = (true, with_exception (mkException EXCEPTION_GP 0) (with_mpl m s))).
Proof.
  intros Hport Hsize. cbv zeta. unfold CPU_IO_Exception. rewrite port_mask by done.
  destruct (pmode s && _) eqn:Hg.
  2: { exists (mpl s). left. split; [|by destruct s]. apply andb_false_iff in Hg as [Hg|Hg]; [by left|right; left].
       apply orb_false_iff in Hg as [Hg Hvm]. apply Z.ltb_ge in Hg. done. }
  apply andb_true_iff in Hg as [Hp Hg]. exists 3. set (t := cpu_tss s). cbv zeta.
  assert (~ (cpl s <= GETFLAG_IOPL s /\ flag FLAG_VM s = false)) as Hn.
  { intros [H3 H4]. rewrite H4, orb_false_r in Hg. apply Z.ltb_lt in Hg. lia. }
  change (cpu_tss (set_mpl 0 s)) with t. destruct (Z.eqb_spec (is386 t) 0) as [E|E].
  { right. split; [|done]. rewrite Hp. intros [|[|[]]]; done. }
  assert (mem_readw (u32 (base t + 102)) (set_mpl 0 s) = mem_readw (base t + 102) s) as ->
    by (unfold mem_readw, PhysPt; by rewrite u32_u32).
  set (ofs := mem_readw (base t + 102) s) in *. destruct (Z.ltb_spec (limit t) ofs) as [El|El].
  { right. split; [|done]. rewrite Hp. intros [|[|(_ & ? & _)]]; [done..|lia]. }
  change (Z.land port 7) with (Z.land port (Z.ones 3)). rewrite Z.land_ones by lia. change (2 ^ 3) with 8.
  assert (forall i, 0 <= i < size ->
    Z.testbit (mem_readw (u32 (base t + ofs + port / 8)) (set_mpl 0 s)) (port mod 8 + i) = map_bit (port + i) s) as Hbit.
  { intros i Hi. rewrite readw_bit by zlia. unfold map_bit, PhysPt. fold t ofs. unfold u32. rewrite Z.add_mod_idemp_l by lia.
    change (mem (set_mpl 0 s)) with (mem s). f_equal; [f_equal; f_equal; zlia|zlia]. }
  pose proof (land_ones_shift (mem_readw (u32 (base t + ofs + port / 8)) (set_mpl 0 s)) size (port mod 8) ltac:(lia) ltac:(zlia)) as Hm.
  destruct (nz _) eqn:En.
  - right. split; [|done]. rewrite Hp. intros [|[|(_ & _ & Hb)]]; [done..|].
    assert (true = false) by (apply Hm; intros i Hi; rewrite Hbit by done; by apply Hb). done.
  - left. split; [|done]. right. right. split; [done|]. split; [done|]. intros i Hi. rewrite <- Hbit by done. by apply Hm.
Qed.
Lemma io_permission_witness : exists m, CPU_IO_Exception 1 1 demo_user = (false, with_mpl m demo_user).
Proof.
  destruct (io_permission demo_user 1 1) as (m & [[_ E]|[Hn _]]); [lia|by left|by exists m|].
  exfalso. apply Hn. right. right. split; [done|]. split; [by vm_compute|]. intros i Hi. replace i with 0 by lia. by vm_compute.
Defined.

(** ** Exceptions without a handler *)
Section Exceptions.
Context {M : Type} `{ByteMemoryLaws M} `{PagingControl M} `{Config}.
Implicit Types (s : CPU M).
Lemma beyond_table l n : 0 <= n -> l <= 8 * n -> (l <=? Z.land (Z.shiftl n 3) (Z.lnot 7)) = true.
Proof using.
  intros Hn Hl. apply Z.leb_le. change 7 with (Z.ones 3). rewrite <- Z.ldiff_land, Z.ldiff_ones_r, Z.shiftr_shiftl_l by lia.
  rewrite Z.shiftl_0_r, Z.shiftl_mul_pow2 by lia. lia.
Qed.
Lemma no_handler fuel n ty o s :
  pmode s = true -> idt_limit (idt s) <= 8 * EXCEPTION_GP -> 0 <= n -> idt_limit (idt s) <= 8 * n ->
  CPU_Interrupt fuel n ty o s = err OutOfFuel.
Proof using.
  revert n ty o s. induction fuel as [|fuel IH]; intros n ty o s Hp Hl Hn Hb; [done|]. cbn [CPU_Interrupt].
  destruct ((n =? EXCEPTION_DB) && _) eqn:Edb; [apply andb_true_iff in Edb as [Edb _]; apply Z.eqb_eq in Edb; subst n; by apply IH|].
  change (pmode (fill_flags (with_last_interrupt (u8 n) s))) with (pmode s). rewrite Hp. cbn [negb].
  destruct (flag FLAG_VM _ && _ && _ && _); [by apply IH|].
  unfold idt_GetDescriptor, load_below. change (idt (fill_flags (with_last_interrupt (u8 n) s))) with (idt s).
  rewrite beyond_table by done. by apply IH.
Qed.
End Exceptions.

(** C9.  With an interrupt table too short for the general-protection fault, an
    interrupt beyond it is never delivered: the fault of the fault is the same fault,
    so that no number of nested exceptions is enough, where the processor shuts down
    after the third. *)
Theorem exception_never_delivered {M} `{ByteMemoryLaws M} `{PagingControl M} `{Config} (s : CPU M) n ty o :
  pmode s = true -> idt_limit (idt s) <= 8 * EXCEPTION_GP -> 0 <= n -> idt_limit (idt s) <= 8 * n ->
  forall fuel, CPU_Interrupt fuel n ty o s = err OutOfFuel.
Proof. intros Hp Hl Hn Hb fuel. by apply no_handler. Qed.
Lemma exception_never_delivered_witness : CPU_Interrupt 1000 0x21 0 0x4002 (demo_at 3 0x67) = err OutOfFuel.
Proof. apply exception_never_delivered; by vm_compute. Defined.

(** A 16-bit far return in protected mode checks the selector at SS:ESP+2, and then
    loads the one it pops.  At SP 0xfffe these are different words: the selector
    that becomes CS, with any privilege bits, was not checked, and the segment base
    is that of the one which was. *)
Theorem far_return_wrap {M} `{ByteMemoryLaws M} `{PagingControl M} `{Config} (s : CPU M) fuel n d :
  pmode s = true -> flag FLAG_VM s = false -> stack s = mkStack 0xffff 0xffff0000 false ->
  0 <= esp s < 4294967296 -> esp s mod 65536 = 0xfffe ->
  let checked := mem_readw (SegPhys ss s + 0x10000) s in
  Z.land checked 0xfffc <> 0 -> Z.land checked 3 = cpl s -> fst (gdt_GetDescriptor checked s) = Some d ->
  is_one_of DESC_CODE_NC (Type_ d) = true -> DPL d = cpl s -> seg_p d <> 0 ->
  exists s', CPU_RET fuel false n s = ok s' /\ SegValue cs s' = mem_readw (SegPhys ss s) s /\
    SegPhys cs s' = GetBase d /\ cpl s' = cpl s.
Proof.
  intros Hp Hvm Hst He Hsp checked Hn Hrpl Hd Hty Hdpl Hpr.
  assert (good_stack s) as Hs by (split; [right; by rewrite Hst|done]).
  assert (stack_ptr (esp s) s = 65534) as Esp by (rewrite stack_ptr_mod by done; unfold wrap_at; by rewrite Hst).
  unfold CPU_RET, real_or_v86. rewrite Hp, Hvm. cbn [negb orb]. rewrite Esp.
  replace (SegPhys ss s + 65534 + 2) with (SegPhys ss s + 0x10000) by lia. fold checked. cbv zeta. rewrite Hrpl.
  destruct (Z.ltb_spec (cpl s) (cpl s)); [lia|]. destruct (gdt_split checked s) as [m E]. rewrite E, Hd.
  unfold CPU_CHECK_COND. destruct (Z.eqb_spec (Z.land checked 0xfffc) 0); [done|]. change (loaded (Some d)) with d. change (absent (Some d)) with false.
  rewrite !andb_false_r. cbn [exec_bind].
  change (cpl (with_mpl m s)) with (cpl s). rewrite Z.eqb_refl. unfold ret_same_level. rewrite Hty, Hdpl.
  change (cpl (with_mpl m s)) with (cpl s). rewrite Z.eqb_refl. unfold CPU_CHECK_COND. rewrite andb_false_r. cbn [exec_bind].
  destruct (Z.eqb_spec (seg_p d) 0); [done|]. set (s1 := with_mpl m s).
  assert (good_stack s1) as Hs1 by (split; apply Hs). rewrite (pop_spec false s1) by done. set (s2 := put_esp _ s1).
  assert (good_stack s2) as Hs2 by (split; [apply Hs|]; unfold s2; rewrite put_esp_same by (try apply stack_add_range; done); by apply stack_add_range).
  rewrite (pop_spec false s2) by done. set (s3 := put_esp _ s2).
  assert (read_stack false (esp s2) s2 = mem_readw (SegPhys ss s) s) as ->.
  { unfold s2. rewrite put_esp_same by (try apply stack_add_range; done). cbn [read_stack].
    change (stack_ptr ?p (put_esp _ s1)) with (stack_ptr p s). change (stack_add ?p ?k s1) with (stack_add p k s).
    pose proof (stack_ptr_add (esp s1) (bytes_of false) 0 s Hs He) as Ep. rewrite !Z.add_0_r in Ep. rewrite Ep, stack_ptr_mod by done.
    unfold wrap_at. rewrite Hst. change (esp s1) with (esp s). change (mask _ + 1) with 65536. change (bytes_of false) with 2.
    replace ((esp s + 2) mod 65536) with 0 by zlia. by rewrite Z.add_0_r. }
  rewrite (u16_small (mem_readw _ _)) by apply readw_range.
  assert (big (stack (with_reg_eip (read_stack false (esp s1) s1) (load_cs (mem_readw (SegPhys ss s) s) d s3))) = false) as ->
    by (change (big (stack s) = false); by rewrite Hst).
  eexists. split; [done|]. split; [|done]. cbn. by apply u16_small, readw_range.
Qed.
Lemma far_return_wrap_witness : exists s', CPU_RET 1 false 0 demo_wrap = ok s' /\ SegValue cs s' = 0x08 /\ cpl s' = 3.
Proof.
  destruct (far_return_wrap demo_wrap 1 0 (mkDesc 0x0000ffff 0x00cffa00)) as (s' & E & Hv & _ & Hl);
    [try reflexivity; try (by vm_compute)..|].
  exists s'. split; [exact E|]. split; [rewrite Hv; by vm_compute|exact Hl].
Defined.
