(* ===== verification/CpuReturn.v ===== *)
(** * Interrupts return to where they came from

    An interrupt through a 32-bit gate to an inner level, and the IRET of its handler. *)
From S2P Require Import Prelude.
From S2P Require Import Registers.
From S2P Require Import LazyFlags.
From S2P Require Import FlagProofs.
From S2P Require Import GuestMemory.
From S2P Require Import GuestMemoryProofs.
From S2P Require Import CpuState.
From S2P Require Import CpuProtect.
From S2P Require Import CpuControl.
From S2P Require Import CpuFrames.
From S2P Require Import CpuDemo.
From S2P Require Import CpuInvariant.
From S2P Require Import CpuTheorems.
#[local] Open Scope Z_scope.
#[local] Open Scope exec_scope.

Section Return.
Context {M : Type} `{ByteMemoryLaws M} `{PagingControl M} `{Config}.
Implicit Types (s : CPU M) (d gate : Descriptor).

(** ** Descriptor tables and the stack *)
Definition in_table s (a : Z) : Prop :=
  (exists i, 0 <= i < table_limit (gdt s) + 8 /\ a = PhysPt (table_base (gdt s) + i)) \/
  (exists i, 0 <= i < ldt_limit (gdt s) + 8 /\ a = PhysPt (ldt_base (gdt s) + i)).
Definition view s (v : Z) : option Descriptor := fst (gdt_GetDescriptor v s).
Lemma selector_index v : 0 <= v -> 0 <= Z.land v (Z.lnot 7).
Proof using. intros Hv. apply Z.land_nonneg. by left. Qed.
Lemma le_read_same n a m m' : (forall i, 0 <= i < Z.of_nat n -> readb (PhysPt (a + i)) m' = readb (PhysPt (a + i)) m) -> le_read n a m' = le_read n a m.
Proof using.
  revert a. induction n as [|n IH]; intros a E; [done|]. cbn [le_read].
  pose proof (E 0 ltac:(lia)) as E0. rewrite Z.add_0_r in E0. rewrite E0. f_equal. f_equal. apply IH. intros i Hi.
  replace (a + 1 + i) with (a + (i + 1)) by lia. apply E. lia.
Qed.
Lemma readd_same a s s' : (forall i, 0 <= i < 4 -> readb (PhysPt (a + i)) (mem s') = readb (PhysPt (a + i)) (mem s)) -> mem_readd a s' = mem_readd a s.
Proof using Type*.
  intros E. change (mem_read true a s' = mem_read true a s). rewrite !mem_read_le. by apply le_read_same.
Qed.
Lemma load_below_view l v b s s' :
  0 <= v -> (forall i, 0 <= i < l + 8 -> readb (PhysPt (b + i)) (mem s') = readb (PhysPt (b + i)) (mem s)) ->
  fst (load_below l v b s') = fst (load_below l v b s).
Proof using Type*.
  intros Hv E. unfold load_below. destruct (Z.leb_spec l v); [done|]. unfold Load. cbn [fst].
  assert (forall k, 0 <= k <= 4 -> mem_readd (u32 (b + v) + k) (set_mpl 0 s') = mem_readd (u32 (b + v) + k) (set_mpl 0 s)) as Er.
  { intros k Hk. apply readd_same. intros i Hi. change (mem (set_mpl 0 s')) with (mem s'). change (mem (set_mpl 0 s)) with (mem s).
    assert (PhysPt (u32 (b + v) + k + i) = PhysPt (b + (v + k + i))) as ->; [|apply E; lia].
    unfold PhysPt, u32. rewrite <- Z.add_assoc, Z.add_mod_idemp_l by lia. f_equal. lia. }
  pose proof (Er 0 ltac:(lia)) as E0. rewrite !Z.add_0_r in E0. by rewrite E0, Er by lia.
Qed.
Lemma view_same s s' v :
  0 <= v -> gdt s' = gdt s -> (forall a, in_table s a -> readb a (mem s') = readb a (mem s)) -> view s' v = view s v.
Proof using Type*.
  intros Hv Eg Em. unfold view, gdt_GetDescriptor. rewrite Eg. pose proof (selector_index v Hv).
  destruct (nz _); apply load_below_view; try done; intros i Hi; apply Em; [right|left]; by exists i.
Qed.
Lemma gdt_view v s : exists m, gdt_GetDescriptor v s = (view s v, with_mpl m s).
Proof using. apply gdt_split. Qed.

(** ** The stack frame *)
Lemma read_stack_add wide p n s : good_stack s -> 0 <= p < 4294967296 -> read_stack wide (stack_add p n s) s = read_stack wide (p + n) s.
Proof using.
  intros Hs Hp. rewrite !read_stack_mem. pose proof (stack_ptr_add p n 0 s Hs Hp) as E. rewrite !Z.add_0_r in E. by rewrite E.
Qed.
Lemma iret_frame_frame wide e c f l s :
  good_stack s -> frame wide (e :: c :: f :: l) s ->
  iret_frame wide s = (e, u16 c, f, stack_add (esp s) (3 * bytes_of wide) s).
Proof using.
  intros Hs Hf. pose proof (gs_esp s Hs) as He. unfold iret_frame.
  replace (if wide then 4 else 2) with (bytes_of wide) by (by destruct wide).
  rewrite (stack_add_add (esp s) (bytes_of wide) (bytes_of wide)) by done. rewrite !read_stack_add, stack_add_add by done.
  pose proof (Hf 0%nat e eq_refl) as E0. pose proof (Hf 1%nat c eq_refl) as E1. pose proof (Hf 2%nat f eq_refl) as E2.
  rewrite Z.mul_0_r, Z.add_0_r in E0. rewrite Z.mul_1_r in E1. rewrite E0, E1.
  replace (bytes_of wide + bytes_of wide) with (bytes_of wide * Z.of_nat 2) by lia. rewrite E2. repeat f_equal. lia.
Qed.
Lemma frame_item wide l s i v p : frame wide l s -> l !! i = Some v -> good_stack s ->
  stack_ptr p s = stack_ptr (esp s + bytes_of wide * Z.of_nat i) s -> read_stack wide p s = v.
Proof using. intros Hf Hv Hs Ep. rewrite <- (Hf i v Hv), !read_stack_mem. by rewrite Ep. Qed.
(** ** The two sides *)

(** A gate for interrupt [num] that leads to an inner level: the gate, its code
    segment, and the stack segment of that level in the task state segment. *)
Definition inner_ss (l : Z) s : Z := fst (fst (Get_SSx_ESPx l (cpu_tss s) s)).
Definition inner_esp (l : Z) s : Z := snd (fst (Get_SSx_ESPx l (cpu_tss s) s)).
Record inner_gate s (num ty : Z) gate d nd : Prop := {
  ig_plain : has CPU_INT_HAS_ERROR ty = false /\ (num = EXCEPTION_DB -> has CPU_INT_EXCEPTION ty = true);
  ig_gate : fst (idt_GetDescriptor (Z.shiftl num 3) s) = Some gate;
  ig_type : Type_ gate = DESC_386_INT_GATE \/ Type_ gate = DESC_386_TRAP_GATE;
  ig_allowed : has CPU_INT_SOFTWARE ty = true -> cpl s <= DPL gate;
  ig_present : seg_p gate <> 0 /\ Z.land (GetSelector gate) 0xfffc <> 0;
  ig_code : view s (GetSelector gate) = Some d /\ is_one_of DESC_CODE_NC (Type_ d) = true /\ DPL d < cpl s /\ seg_p d <> 0;
  ig_stack : Z.land (inner_ss (DPL d) s) 0xfffc <> 0 /\ view s (inner_ss (DPL d) s) = Some nd /\
    Z.land (inner_ss (DPL d) s) 3 = DPL d /\ DPL nd = DPL d /\ is_one_of DESC_DATA_RW (Type_ nd) = true /\ seg_p nd <> 0 }.
(** The interrupted program: its segment registers hold what their descriptors say. *)
Record resumable s cd sd : Prop := {
  re_cs : view s (SegValue cs s) = Some cd /\ is_one_of DESC_CODE_NC (Type_ cd) = true /\ DPL cd = cpl s /\ seg_p cd <> 0 /\
    GetBase cd = SegPhys cs s /\ (0 <? Big cd) = code_big s /\ Z.land (SegValue cs s) 0xfffc <> 0 /\ 0 <= SegValue cs s < 65536;
  re_ss : view s (SegValue ss s) = Some sd /\ is_one_of DESC_DATA_RW (Type_ sd) = true /\ DPL sd = cpl s /\ seg_p sd <> 0 /\
    GetBase sd = SegPhys ss s /\ nz (Big sd) = big (stack s) /\ Z.land (SegValue ss s) 0xfffc <> 0 /\ 0 <= SegValue ss s < 65536 /\
    Z.land (SegValue ss s) 3 = cpl s;
  re_data : forall x, x <> cs -> x <> ss -> 0 <= SegValue x s /\
    exists d, view s (SegValue x s) = Some d /\ (is_one_of DESC_DATA (Type_ d) || is_one_of DESC_CODE_NC (Type_ d) = true -> cpl s <= DPL d) }.
(** In the handler, entered from [s] with the flags [fl]. *)
Record in_handler s (fl o l : Z) s1 : Prop := {
  ih_rest : (gdt s1, pmode s1, cpl s1) = (gdt s, true, l);
  ih_good : good_stack s1;
  ih_frame : frame true [o; SegValue cs s; u32 fl; esp s; SegValue ss s] s1;
  ih_flags : forall n, 0 <= n -> n <> 8 -> n <> 9 -> n <> 14 -> n <> 17 -> Z.testbit (eflags s1) n = Z.testbit fl n;
  ih_segs : forall x, x <> cs -> x <> ss -> seg_get x (Segs s1) = seg_get x (Segs s);
  ih_regs : set_esp 0 (set_flags 0 (cpu_regs (core s1))) = set_esp 0 (set_flags 0 (cpu_regs (core s))) }.

Lemma good_stack_same s s' : stack s' = stack s -> esp s' = esp s -> good_stack s -> good_stack s'.
Proof using. intros E1 E2 [Hs He]. split; [by rewrite E1|by rewrite E2]. Qed.
Lemma load_stack_pointer_good d e s : 0 <= esp s < 4294967296 -> good_stack (load_stack_pointer d e s).
Proof using.
  intros He. unfold load_stack_pointer. destruct (nz _); (split; [by (left + right)|]); cpu_cbn.
  - apply u32_range.
  - unfold esp in He. unfold set_word_l. pose proof (Z.mod_pos_bound (Z.land e 65535) 65536).
    change (reg_esp (cpu_regs (core (set_stack_size false s)))) with (reg_esp (cpu_regs (core s))).
    generalize dependent (Z.land e 65535 mod 65536). intros w Hw. zlia.
Qed.
(** What neither a push nor a change of the flags touches. *)
Definition rest s := (gdt s, pmode s, cpl s, Segs s, set_esp 0 (set_flags 0 (cpu_regs (core s)))).
Lemma rest_fields s s' : rest s' = rest s ->
  (gdt s', pmode s', cpl s') = (gdt s, pmode s, cpl s) /\ Segs s' = Segs s /\
  set_esp 0 (set_flags 0 (cpu_regs (core s'))) = set_esp 0 (set_flags 0 (cpu_regs (core s))).
Proof using. unfold rest. intros [= E1 E2 E3 E4 E5 E6 E7 E8 E9 E10 E11]. split; [congruence|]. split; [done|]. unfold set_esp, set_flags. cbn. congruence. Qed.
Lemma rest_push wide v s : rest (CPU_Push wide v s) = rest s.
Proof using. by destruct wide. Qed.
Lemma eflags_push wide v s : eflags (CPU_Push wide v s) = eflags s.
Proof using. by destruct wide. Qed.
Lemma rest_set_flag f b s : rest (set_flag f b s) = rest s.
Proof using. done. Qed.
Lemma set_flag_fields f b s :
  mem (set_flag f b s) = mem s /\ esp (set_flag f b s) = esp s /\ stack (set_flag f b s) = stack s /\ Segs (set_flag f b s) = Segs s.
Proof using. done. Qed.
Lemma handler_flag s fl o l s1 k :
  0 <= k -> k = 8 \/ k = 9 \/ k = 14 \/ k = 17 -> in_handler s fl o l s1 -> in_handler s fl o l (set_flag (2 ^ k) false s1).
Proof using.
  intros Hk Hk' [Hr Hg Hf Hb Hx Hc]. split; [exact Hr|by apply (good_stack_same s1)|by apply (frame_same _ _ s1)| |exact Hx|exact Hc].
  intros n Hn H8 H9 H14 H17. rewrite set_flag_bits by done. rewrite (proj2 (Z.eqb_neq n k)) by lia. auto.
Qed.
Lemma handler_push s wide v a fl s1 :
  good_stack s1 -> frame wide a s1 -> Z.of_nat (length a) <= 1000 -> rest s1 = rest s -> eflags s1 = fl ->
  good_stack (CPU_Push wide v s1) /\ frame wide (trunc wide v :: a) (CPU_Push wide v s1) /\ rest (CPU_Push wide v s1) = rest s /\
  eflags (CPU_Push wide v s1) = fl.
Proof using Type*.
  intros Hg Hf Hl Hr Hb. rewrite rest_push, eflags_push. split_and!; try done; [by apply good_stack_push|by apply frame_push].
Qed.
Lemma enter_gate_handler gate d ty o s s3 l fl :
  Type_ gate = DESC_386_INT_GATE \/ Type_ gate = DESC_386_TRAP_GATE -> has CPU_INT_HAS_ERROR ty = false -> 0 <= o < 4294967296 ->
  0 <= SegValue cs s < 65536 -> good_stack s3 -> frame true [esp s; SegValue ss s] s3 ->
  (gdt s3, pmode s3, cpl s3) = (gdt s, true, l) -> eflags s3 = fl -> SegValue cs s3 = SegValue cs s ->
  (forall x, x <> cs -> x <> ss -> seg_get x (Segs s3) = seg_get x (Segs s)) ->
  set_esp 0 (set_flags 0 (cpu_regs (core s3))) = set_esp 0 (set_flags 0 (cpu_regs (core s))) ->
  in_handler s fl o l (enter_gate gate d ty o s3).
Proof using Type*.
  intros Ht Hty Ho Hcs Hg Hf Hp Hfl Hcv Hx Hr. unfold enter_gate, push_interrupt_frame. rewrite Hty.
  assert (gate_32bit gate = true) as -> by (unfold gate_32bit; by destruct Ht as [-> | ->]). rewrite Hfl.
  destruct (handler_push s3 true fl [esp s; SegValue ss s] fl s3) as (G4 & F4 & R4 & B4); [done|done|cbn; lia|done|done|].
  set (s4 := CPU_Push true fl s3) in *. assert (SegValue cs s4 = SegValue cs s) as ->.
  { rewrite <- Hcv. unfold SegValue. by rewrite (proj1 (proj2 (rest_fields _ _ R4))). }
  destruct (handler_push s3 true (SegValue cs s) [u32 fl; esp s; SegValue ss s] fl s4) as (G5 & F5 & R5 & B5);
    [done|done|cbn; lia|done|done|]. set (s5 := CPU_Push true (SegValue cs s) s4) in *.
  destruct (handler_push s3 true o [trunc true (SegValue cs s); u32 fl; esp s; SegValue ss s] fl s5) as (G6 & F6 & R6 & B6);
    [done|done|cbn; lia|done|done|]. set (s6 := CPU_Push true o s5) in *.
  clearbody s6. clear F4 F5 B4 B5 G4 G5 R4 R5. apply rest_fields in R6 as (R1 & R2 & R3).
  assert (in_handler s fl o l s6) as Hh.
  { split; [congruence|done| |by rewrite B6| |].
    - cbn [trunc] in F6. rewrite (u32_small o), (u32_small (SegValue cs s)) in F6 by lia. done.
    - intros x Hc Hs. rewrite R2. auto.
    - by rewrite R3. }
  set (s7 := with_reg_eip _ _).
  assert (in_handler s fl o l s7) as H7.
  { destruct Hh as [A1 A2 A3 A4 A5 A6]. split; [exact A1|by apply (good_stack_same s6)|by apply (frame_same _ _ s6)|exact A4| |exact A6].
    intros x Hc Hs. rewrite <- A5 by done. by destruct x. }
  clearbody s7. apply (handler_flag _ _ _ _ _ 17), (handler_flag _ _ _ _ _ 14), (handler_flag _ _ _ _ _ 8); [lia..|].
  destruct (nz _); [done|]. apply (handler_flag _ _ _ _ _ 9); [lia..|done].
Qed.

(** Where the frame goes, and what it may overwrite. *)
Definition inner_frame s d nd (a : Z) : Prop :=
  let s' := load_stack_pointer nd (inner_esp (DPL d) s) s in in_frame true (GetBase nd) (esp s') (wrap_at s') 5 a.
Definition pushes (vs : list Z) s : CPU M := fold_left (fun s v => CPU_Push true v s) vs s.
Lemma in_frame_S b p w n a : in_frame true b p w n a -> in_frame true b p w (S n) a.
Proof using. intros (k & j & Hk & Hj & ->). exists k, j. split; [lia|]. by split. Qed.
Lemma in_frame_1 b p w n a : in_frame true b p w 1 a -> in_frame true b p w (S n) a.
Proof using. induction n; auto using in_frame_S. Qed.
Lemma pushes_outside vs s a :
  good_stack s -> ~ in_frame true (SegPhys ss s) (esp s) (wrap_at s) (length vs) a -> readb a (mem (pushes vs s)) = readb a (mem s).
Proof using Type*.
  revert s. induction vs as [|v vs IH]; intros s Hs Ha; [done|]. cbn [pushes fold_left]. fold (pushes vs (CPU_Push true v s)).
  rewrite IH; [|by apply good_stack_push|].
  - apply push_outside; [done|]. intros Hf. by apply Ha, in_frame_1.
  - intros Hf. apply Ha, (in_frame_push true v); [done|exact Hf].
Qed.
Lemma SegValue_push x wide v s : SegValue x (CPU_Push wide v s) = SegValue x s.
Proof using. by destruct wide. Qed.
Lemma push_frame_pushes gate ty o s :
  has CPU_INT_HAS_ERROR ty = false -> gate_32bit gate = true -> push_interrupt_frame gate ty o s = pushes [eflags s; SegValue cs s; o] s.
Proof using. intros Hty Hg. unfold push_interrupt_frame. by rewrite Hty, Hg, SegValue_push. Qed.
Lemma set_flags_fields s :
  let s' := set_flag FLAG_VM false (set_flag FLAG_NT false (set_flag FLAG_TF false s)) in
  mem s' = mem s /\ reg_eip s' = reg_eip s /\ Segs s' = Segs s /\ code_big s' = code_big s.
Proof using. intros s'. split_and!; reflexivity. Qed.
Lemma enter_gate_fields gate d ty o s s' :
  has CPU_INT_HAS_ERROR ty = false -> gate_32bit gate = true -> s' = enter_gate gate d ty o s ->
  mem s' = mem (pushes [eflags s; SegValue cs s; o] s) /\ reg_eip s' = GetOffset gate /\
  SegValue cs s' = u16 (Z.lor (Z.land (GetSelector gate) 0xfffc) (cpl s)) /\
  SegPhys cs s' = GetBase d /\ code_big s' = (0 <? Big d) /\ SegValue ss s' = SegValue ss s.
Proof using.
  intros Hty Hg E. unfold enter_gate in E. rewrite push_frame_pushes in E by done.
  assert (cpl (pushes [eflags s; SegValue cs s; o] s) = cpl s) as <- by (unfold pushes; cbn [fold_left]; by rewrite !push_cpl).
  assert (SegValue ss (pushes [eflags s; SegValue cs s; o] s) = SegValue ss s) as <- by (unfold pushes; cbn [fold_left]; by rewrite !SegValue_push).
  revert E. generalize (pushes [eflags s; SegValue cs s; o] s). intros s4 ->.
  set (s5 := if nz _ then _ else _). destruct (set_flags_fields s5) as (-> & -> & E & ->). unfold SegValue, SegPhys. rewrite E. clear E.
  subst s5. destruct (nz _); (split_and!; reflexivity).
Qed.

(** The stack of the inner level, before anything is pushed. *)
Definition on_inner_stack s d nd : CPU M :=
  with_cpl (DPL d) (load_stack_pointer nd (inner_esp (DPL d) s) (put_seg ss (inner_ss (DPL d) s) (GetBase nd) s)).
Lemma on_inner_stack_fields s d nd :
  0 <= esp s < 4294967296 ->
  let s' := on_inner_stack s d nd in
  good_stack s' /\ (gdt s', pmode s', cpl s') = (gdt s, pmode s, DPL d) /\ eflags s' = eflags s /\ SegValue cs s' = SegValue cs s /\
  (forall x, x <> ss -> seg_get x (Segs s') = seg_get x (Segs s)) /\ SegValue ss s' = inner_ss (DPL d) s /\
  set_esp 0 (set_flags 0 (cpu_regs (core s'))) = set_esp 0 (set_flags 0 (cpu_regs (core s))) /\
  mem s' = mem s /\ (forall a, in_frame true (SegPhys ss s') (esp s') (wrap_at s') 5 a -> inner_frame s d nd a).
Proof using Type*.
  intros He. pose proof (load_stack_pointer_good nd (inner_esp (DPL d) s) (put_seg ss (inner_ss (DPL d) s) (GetBase nd) s) He) as Hg.
  unfold on_inner_stack, inner_frame. unfold load_stack_pointer in *. destruct (nz (Big nd));
  (split_and!; [by (eapply good_stack_same; [..|exact Hg])|reflexivity|reflexivity|reflexivity|intros x Hx; by destruct x|reflexivity|reflexivity|reflexivity|auto]).
Qed.
Lemma set_mpl_inner s m l : inner_ss l (with_mpl m s) = inner_ss l s /\ inner_esp l (with_mpl m s) = inner_esp l s.
Proof using. unfold inner_ss, inner_esp, Get_SSx_ESPx. cpu_cbn. by destruct (nz _). Qed.

(** ** Into the handler *)
Lemma check_ok c : c = false -> CPU_CHECK_COND c = ok tt.
Proof using. intros ->. unfold CPU_CHECK_COND. by rewrite andb_false_r. Qed.
Lemma Get_SSx_inner l s : Get_SSx_ESPx l (cpu_tss s) s = (inner_ss l s, inner_esp l s, set_mpl 3 s).
Proof using. unfold inner_ss, inner_esp, Get_SSx_ESPx. by destruct (nz _). Qed.
Lemma view_mem s s' v : gdt s' = gdt s -> mem s' = mem s -> view s' v = view s v.
Proof using. intros E1 E2. by apply gdt_read. Qed.
Lemma inner_gate_same s s' num ty gate d nd :
  (gdt s', idt s', mem s', cpl s', cpu_tss s') = (gdt s, idt s, mem s, cpl s, cpu_tss s) -> inner_gate s num ty gate d nd ->
  inner_gate s' num ty gate d nd.
Proof using Type*.
  intros [= E1 E2 E3 E4 E5] []. assert (forall v, view s' v = view s v) as Ev by (intros v; by apply view_mem).
  assert (forall l, inner_ss l s' = inner_ss l s) as Es
    by (intros l; unfold inner_ss, Get_SSx_ESPx, mem_readw; rewrite E5; destruct (nz _); cbn; by rewrite E3).
  split; rewrite ?E4, ?Ev, ?Es, ?Ev; try done. rewrite <- ig_gate0. unfold idt_GetDescriptor. rewrite E2.
  unfold load_below. destruct (_ <=? _); [done|]. unfold Load, mem_readd. cbn. by rewrite E3.
Qed.
Lemma is_one_of_disjoint l l' t : forallb (fun x => negb (is_one_of l' x)) l = true -> is_one_of l t = true -> is_one_of l' t = false.
Proof using.
  intros Hl Ht. apply existsb_exists in Ht as (x & Hx & ->%Z.eqb_eq). rewrite forallb_forall in Hl. apply negb_true_iff, Hl, Hx.
Qed.
Lemma gate_inner s num ty gate d nd o : inner_gate s num ty gate d nd -> vm s = false ->
  exists m, interrupt_gate gate ty o s = ok (enter_gate gate d ty o (pushes [SegValue ss s; esp s] (on_inner_stack (with_mpl m s) d nd))).
Proof using Type*.
  intros [] Hvm. destruct ig_present0 as [Hp Hsel], ig_code0 as (Hv & Ht & Hd & Hcp), ig_stack0 as (Hn & Hnv & Hnr & Hnd & Hnt & Hnp).
  unfold interrupt_gate. rewrite !check_ok by (by apply Z.eqb_neq). cbn [exec_bind].
  destruct (gdt_view (GetSelector gate) s) as [m ->]. rewrite Hv. change (loaded (Some d)) with d. cbn [absent]. rewrite check_ok by done. cbn [exec_bind].
  rewrite check_ok by (apply Z.ltb_ge; change (cpl (with_mpl m s)) with (cpl s); lia). cbn [exec_bind]. rewrite Ht.
  change (cpl (with_mpl m s)) with (cpl s). rewrite (proj2 (Z.ltb_lt _ _) Hd). rewrite check_ok by (by apply Z.eqb_neq). cbn [exec_bind].
  rewrite flag_VM. change (vm (with_mpl m s)) with (vm s). rewrite Hvm. rewrite check_ok by done. cbn [exec_bind].
  unfold enter_inner_level. rewrite Get_SSx_inner. destruct (set_mpl_inner s m (DPL d)) as [-> ->].
  rewrite check_ok by (by apply Z.eqb_neq). cbn [exec_bind].
  destruct (gdt_view (inner_ss (DPL d) s) (set_mpl 3 (with_mpl m s))) as [k ->].
  rewrite (view_mem s) by done. rewrite Hnv. change (loaded (Some nd)) with nd. cbn [absent]. rewrite check_ok by done. cbn [exec_bind].
  rewrite check_ok by (by rewrite Hnr, Hnd, Z.eqb_refl). cbn [exec_bind]. rewrite Hnt. cbn [negb].
  rewrite check_ok by (by apply Z.eqb_neq). cbn [exec_bind].
  assert (gate_32bit gate = true) as -> by (unfold gate_32bit; by destruct ig_type0 as [-> | ->]). rewrite flag_VM.
  set (s3 := with_cpl _ _). assert (vm s3 = false) as ->.
  { rewrite <- Hvm. subst s3. unfold load_stack_pointer. by destruct (nz _). }
  exists k. subst s3. unfold on_inner_stack. destruct (set_mpl_inner s k (DPL d)) as [-> ->]. reflexivity.
Qed.

Lemma idt_view v s : exists m, idt_GetDescriptor v s = (fst (idt_GetDescriptor v s), with_mpl m s).
Proof using. unfold idt_GetDescriptor, load_below. destruct (_ <=? _); [|by eexists]. exists (mpl s). by destruct s. Qed.
(** What the delivery uses of the state it starts in. *)
Definition source s := (gdt s, idt s, mem s, cpl s, cpu_tss s, pmode s, Segs s, set_flags 0 (cpu_regs (core s))).
Lemma source_start n s : let s' := fill_flags (with_last_interrupt n s) in source s' = source s /\ eflags s' = eflags (fill_flags s).
Proof using.
  cbv zeta. split; [|reflexivity]. unfold source. f_equal. unfold fill_flags. cbn [core with_core with_last_interrupt].
  generalize (core s). intros c. destruct (decide (type (lflags c) = t_UNKNOWN)) as [Hu|Hu].
  - unfold FillFlags. by rewrite Hu.
  - rewrite FillFlags_filled by done. by destruct (filled _ _).
Qed.
Lemma source_mpl m s : source (with_mpl m s) = source s.
Proof using. done. Qed.
Lemma source_fields s s' : source s' = source s ->
  (gdt s', idt s', mem s', cpl s', cpu_tss s') = (gdt s, idt s, mem s, cpl s, cpu_tss s) /\ pmode s' = pmode s /\ Segs s' = Segs s /\
  esp s' = esp s /\ set_esp 0 (set_flags 0 (cpu_regs (core s'))) = set_esp 0 (set_flags 0 (cpu_regs (core s))).
Proof using.
  unfold source. intros E. assert (set_flags 0 (cpu_regs (core s')) = set_flags 0 (cpu_regs (core s))) as Er by congruence.
  split_and!; [congruence..| |by rewrite Er]. change (reg_esp (set_flags 0 (cpu_regs (core s'))) = reg_esp (set_flags 0 (cpu_regs (core s)))). by rewrite Er.
Qed.
Lemma pushes_app l l' s : pushes l' (pushes l s) = pushes (l ++ l') s.
Proof using. symmetry. apply fold_left_app. Qed.
Lemma interrupt_inner fuel num ty o s gate d nd :
  pmode s = true -> vm s = false -> inner_gate s num ty gate d nd ->
  exists s0, source s0 = source s /\ eflags s0 = eflags (fill_flags s) /\
    CPU_Interrupt (S fuel) num ty o s = ok (enter_gate gate d ty o (pushes [SegValue ss s0; esp s0] (on_inner_stack s0 d nd))).
Proof using Type*.
  intros Hp Hvm Hg. destruct (ig_plain _ _ _ _ _ _ Hg) as [He Hx]. cbn [CPU_Interrupt].
  assert ((num =? EXCEPTION_DB) && negb (has CPU_INT_EXCEPTION ty) = false) as ->.
  { destruct (Z.eqb_spec num EXCEPTION_DB) as [E|]; [|done]. by rewrite (Hx E). }
  destruct (source_start (u8 num) s) as [Es Ef]. set (s0 := fill_flags _) in *.
  assert (vm s0 = false) as Hvm0 by (rewrite <- Hvm; unfold vm; rewrite Ef; by apply fill_flags_bits). clearbody s0.
  destruct (source_fields _ _ Es) as (E1 & -> & _). rewrite Hp. cbn [negb]. rewrite flag_VM, Hvm0. cbn [andb].
  assert (inner_gate s0 num ty gate d nd) as Hg0 by (by apply (inner_gate_same s)).
  destruct (idt_view (Z.shiftl num 3) s0) as [m ->]. rewrite (ig_gate _ _ _ _ _ _ Hg0).
  change (cpl (with_mpl m s0)) with (cpl s0).
  assert (has CPU_INT_SOFTWARE ty && (DPL gate <? cpl s0) = false) as ->.
  { destruct (has CPU_INT_SOFTWARE ty) eqn:Ht; [cbn [andb]|reflexivity]. apply Z.ltb_ge. by apply (ig_allowed _ _ _ _ _ _ Hg0). }
  assert (is_one_of INT_GATES (Type_ gate) = true) as -> by (by destruct (ig_type _ _ _ _ _ _ Hg0) as [-> | ->]).
  destruct (gate_inner (with_mpl m s0) num ty gate d nd o) as [k E]; [by apply (inner_gate_same s0)|done|].
  exists (with_mpl k s0). split; [by rewrite source_mpl|]. split; [exact Ef|exact E].
Qed.
Lemma interrupt_enters fuel num ty o s gate d nd :
  pmode s = true -> vm s = false -> 0 <= o < 4294967296 -> 0 <= esp s < 4294967296 -> 0 <= SegValue cs s < 65536 -> 0 <= SegValue ss s < 65536 ->
  inner_gate s num ty gate d nd ->
  exists s1, CPU_Interrupt (S fuel) num ty o s = ok s1 /\ in_handler s (eflags (fill_flags s)) o (DPL d) s1 /\
    (reg_eip s1 = GetOffset gate /\ SegValue cs s1 = u16 (Z.lor (Z.land (GetSelector gate) 0xfffc) (DPL d)) /\
     SegPhys cs s1 = GetBase d /\ code_big s1 = (0 <? Big d) /\ SegValue ss s1 = inner_ss (DPL d) s) /\
    forall a, ~ inner_frame s d nd a -> readb a (mem s1) = readb a (mem s).
Proof using Type*.
  intros Hp Hvm Ho He Hcs Hss Hg. destruct (interrupt_inner fuel num ty o s gate d nd Hp Hvm Hg) as (s0 & Es & Ef & E). eexists. split; [exact E|]. clear E.
  destruct (ig_plain _ _ _ _ _ _ Hg) as [Hty _].
  apply source_fields in Es as (Ec & Ep & Eg & Ee & Er). assert (forall x, SegValue x s0 = SegValue x s) as Ev by (intros x; unfold SegValue; by rewrite Eg).
  assert (inner_ss (DPL d) s0 = inner_ss (DPL d) s /\ inner_esp (DPL d) s0 = inner_esp (DPL d) s) as [Ei Ej].
  { injection Ec as _ _ E2 _ E3. unfold inner_ss, inner_esp, Get_SSx_ESPx, mem_readw, mem_readd. rewrite E2, E3. by destruct (nz _). }
  assert (forall a, inner_frame s0 d nd a -> inner_frame s d nd a) as Hfr.
  { intros a. unfold inner_frame. rewrite Ej. unfold load_stack_pointer. destruct (nz (Big nd)); [done|]. cpu_cbn.
    change (esp s0 = esp s) in Ee. unfold esp in Ee. cbn. unfold esp in *. rewrite Ee. done. }
  rewrite Ee, Ev. destruct (on_inner_stack_fields s0 d nd ltac:(by rewrite Ee)) as (G & R & F & C & X & S & V & Mm & I).
  set (t := on_inner_stack s0 d nd) in *. clearbody t.
  destruct (handler_push t true (SegValue ss s) [] (eflags t) t) as (G1 & F1 & R1 & B1); [done|apply frame_nil|cbn; lia|done|done|].
  destruct (handler_push t true (esp s) [trunc true (SegValue ss s)] (eflags t) (CPU_Push true (SegValue ss s) t)) as (G2 & F2 & R2 & B2);
    [done|done|cbn; lia|done|done|].
  change (pushes _ t) with (CPU_Push true (esp s) (CPU_Push true (SegValue ss s) t)).
  assert (gate_32bit gate = true) as H32 by (unfold gate_32bit; by destruct (ig_type _ _ _ _ _ _ Hg) as [-> | ->]).
  assert (mem (CPU_Push true (esp s) (CPU_Push true (SegValue ss s) t)) = mem (pushes [SegValue ss s; esp s] t)) as Hm2 by done.
  assert (forall l, pushes l (CPU_Push true (esp s) (CPU_Push true (SegValue ss s) t)) = pushes ([SegValue ss s; esp s] ++ l) t) as Hp2 by done.
  set (t2 := CPU_Push true (esp s) _) in *. clearbody t2. cbn [trunc] in F2. rewrite !u32_small in F2 by lia.
  pose proof (rest_fields _ _ R2) as (E1 & E2 & E3).
  assert (forall x, SegValue x t2 = SegValue x t) as Ew by (intros x; unfold SegValue; by rewrite E2).
  injection Ec as Ec1 Ec2 Ec3 Ec4 Ec5.
  split; [|split].
  - apply enter_gate_handler; try done.
    + by destruct (ig_type _ _ _ _ _ _ Hg); [left|right].
    + rewrite E1, R. congruence.
    + congruence.
    + by rewrite Ew, C, Ev.
    + intros x _ Hx. by rewrite E2, X, Eg by done.
    + by rewrite E3, V, Er.
  - destruct (enter_gate_fields gate d ty o t2 _ Hty H32 eq_refl) as (_ & -> & -> & -> & -> & ->). injection E1 as _ _ ->. injection R as _ _ ->.
    split_and!; try done. by rewrite Ew, S.
  - intros a Ha. destruct (enter_gate_fields gate d ty o t2 _ Hty H32 eq_refl) as (-> & _).
    rewrite Hp2, pushes_outside; [by rewrite Mm, Ec3|done|]. intros Hf. apply Ha, Hfr, I, Hf.
Qed.

(** ** Back to the program *)

(** The handler at its IRET, entered in [s1]: it has restored what it uses, and left
    its frame and the descriptor tables alone. *)
Record at_return s1 s2 : Prop := {
  ar_rest : rest s2 = rest s1;
  ar_stack : stack s2 = stack s1 /\ esp s2 = esp s1;
  ar_frame : forall i, 0 <= i < 5 -> read_stack true (esp s1 + 4 * i) s2 = read_stack true (esp s1 + 4 * i) s1;
  ar_tables : forall a, in_table s1 a -> readb a (mem s2) = readb a (mem s1);
  ar_flags : vm s2 = false /\ flag FLAG_NT s2 = false /\
    forall n, 0 <= n -> Z.testbit (Z.lor (iret_flags_mask s1) cpu_extflags_toggle) n = false -> Z.testbit (eflags s2) n = Z.testbit (eflags s1) n }.
(** The program goes on at [o] as it was in [s].  With a 16-bit stack, the upper half of
    ESP is that of the handler. *)
Record resumed s (o : Z) s3 : Prop := {
  rs_control : (reg_eip s3, cpl s3, pmode s3, gdt s3, code_big s3, stack s3) = (o, cpl s, true, gdt s, code_big s, stack s);
  rs_segs : Segs s3 = Segs s;
  rs_stack : stack_ptr (esp s3) s = stack_ptr (esp s) s /\ (big (stack s) = true -> esp s3 = esp s);
  rs_regs : set_esp 0 (set_flags 0 (cpu_regs (core s3))) = set_esp 0 (set_flags 0 (cpu_regs (core s)));
  rs_flags : forall n, 0 <= n < 32 -> Z.testbit (eflags s3) n = (n =? 1) || Z.testbit (eflags (fill_flags s)) n }.

Lemma check_segment_noop x s d : view s (SegValue x s) = Some d ->
  (is_one_of DESC_DATA (Type_ d) || is_one_of DESC_CODE_NC (Type_ d) = true -> cpl s <= DPL d) -> exists m, check_segment x s = with_mpl m s.
Proof using Type*.
  intros Hv Hd. unfold check_segment. destruct (gdt_view (SegValue x s) s) as [m ->]. exists m. rewrite Hv.
  destruct (_ || _); [|done]. rewrite (proj2 (Z.ltb_ge (DPL d) (cpl (with_mpl m s)))); [done|]. by apply Hd.
Qed.
Lemma check_segments_noop s :
  (forall x, x <> cs -> x <> ss -> exists d, view s (SegValue x s) = Some d /\
     (is_one_of DESC_DATA (Type_ d) || is_one_of DESC_CODE_NC (Type_ d) = true -> cpl s <= DPL d)) ->
  exists m, cpu_check_segments s = with_mpl m s.
Proof using Type*.
  intros Hd. unfold cpu_check_segments.
  assert (forall x m, x <> cs -> x <> ss -> exists k, check_segment x (with_mpl m s) = with_mpl k s) as Hc.
  { intros x m Hx Hy. destruct (Hd x Hx Hy) as (d & Hv & Hl).
    destruct (check_segment_noop x (with_mpl m s) d) as [k ->]; [|done|by exists k]. by rewrite (view_mem s). }
  destruct (Hd es) as (d & Hv & Hl); [done..|]. destruct (check_segment_noop es s d Hv Hl) as [m1 ->].
  destruct (Hc ds m1) as [m2 ->]; [done..|]. destruct (Hc fs m2) as [m3 ->]; [done..|]. apply Hc; done.
Qed.
Lemma IOPL_bits s s' : (forall n, n = 12 \/ n = 13 -> Z.testbit (eflags s') n = Z.testbit (eflags s) n) -> GETFLAG_IOPL s' = GETFLAG_IOPL s.
Proof using.
  intros Hn. unfold GETFLAG_IOPL. f_equal. apply Z.bits_inj'. intros n Hp. rewrite !Z.land_spec. unfold FLAG_IOPL.
  change (Z.shiftl 1 12) with (2 ^ 12). change (Z.shiftl 1 13) with (2 ^ 13). rewrite Z.lor_spec, !Z.pow2_bits_eqb by lia.
  destruct (Z.eqb_spec 12 n) as [<-|]; [by rewrite Hn by auto|]. destruct (Z.eqb_spec 13 n) as [<-|]; [by rewrite Hn by auto|]. by rewrite !andb_false_r.
Qed.
Definition full_mask (l : Z) : Z := if nz l then Z.lor FMASK_NORMAL FLAG_NT else FMASK_ALL.
Lemma allowed_mask s : cpl s <= GETFLAG_IOPL s -> iret_flags_mask s = full_mask (cpl s).
Proof using. intros Hl. unfold iret_flags_mask. by rewrite (proj2 (Z.ltb_ge _ _) Hl). Qed.
Lemma full_mask_bits l : (forall n, n = 8 \/ n = 9 \/ n = 14 -> Z.testbit (full_mask l) n = true) /\
  (l <> 0 -> forall n, n = 12 \/ n = 13 -> Z.testbit (full_mask l) n = false) /\ Z.testbit (full_mask l) 17 = false.
Proof using.
  unfold full_mask. destruct (nz l) eqn:El; (split; [intros n [->|[-> | ->]]; reflexivity|]); (split; [|reflexivity]).
  - intros _ n [-> | ->]; reflexivity.
  - intros Hl. apply Z.eqb_neq in Hl. unfold nz in El. by rewrite Hl in El.
Qed.
Lemma IOPL_nonneg s : 0 <= GETFLAG_IOPL s.
Proof using. apply Z.shiftr_nonneg, Z.land_nonneg. by right. Qed.
Lemma return_mask s o l s1 s2 :
  in_handler s (eflags (fill_flags s)) o l s1 -> at_return s1 s2 -> l <= GETFLAG_IOPL s -> 0 <= l ->
  iret_flags_mask s1 = full_mask l /\ iret_flags_mask s2 = full_mask l.
Proof using Type*.
  intros Hh [Hr _ _ _ (_ & _ & Hf)] Hl Hl0. pose proof (ih_rest _ _ _ _ _ Hh) as Eh. injection Eh as _ _ Hc1.
  apply rest_fields in Hr as (Er & _). injection Er as _ _ Hc2. rewrite Hc1 in Hc2.
  assert (GETFLAG_IOPL s1 = GETFLAG_IOPL s) as E1.
  { apply IOPL_bits. intros n Hn. rewrite (ih_flags _ _ _ _ _ Hh) by lia. apply fill_flags_bits; [lia|]. destruct Hn as [-> | ->]; reflexivity. }
  assert (iret_flags_mask s1 = full_mask l) as Em1 by (rewrite <- Hc1; apply allowed_mask; lia). split; [done|].
  rewrite <- Hc2. apply allowed_mask. rewrite Hc2. destruct (Z.eq_dec l 0) as [->|Hn]; [apply IOPL_nonneg|].
  rewrite (IOPL_bits s1 s2), E1; [done|]. intros n Hn'. apply Hf; [lia|]. rewrite Em1, Z.lor_spec, (proj1 (proj2 (full_mask_bits l))) by done.
  apply extflags_bits; lia.
Qed.
Lemma return_flags s o l s1 s2 s' :
  in_handler s (eflags (fill_flags s)) o l s1 -> at_return s1 s2 -> l <= GETFLAG_IOPL s -> 0 <= l -> vm s = false ->
  eflags s' = eflags s2 -> forall n, 0 <= n < 32 ->
  Z.testbit (eflags (CPU_SetFlags (u32 (eflags (fill_flags s))) (full_mask l) s')) n = (n =? 1) || Z.testbit (eflags (fill_flags s)) n.
Proof using Type*.
  intros Hh Hr Hl Hl0 Hvm Ef n Hn. rewrite SetFlags_bits by lia. destruct (Z.eqb_spec n 1) as [|N1]; [done|]. cbn [orb].
  rewrite dword_bit by done. destruct (Z.testbit (Z.lor _ _) n) eqn:Em; [done|]. rewrite Ef.
  destruct (return_mask s o l s1 s2 Hh Hr Hl Hl0) as [E1 E2]. destruct Hr as [_ _ _ _ (Hv & _ & Hf)].
  destruct (Z.eq_dec n 17) as [->|N17].
  { unfold vm in Hv. rewrite Hv. rewrite fill_flags_bits by done. by rewrite <- Hvm. }
  rewrite Hf; [|lia|by rewrite E1]. rewrite Z.lor_spec in Em. apply orb_false_iff in Em as [Em _].
  destruct (full_mask_bits l) as (Hb & _).
  apply (ih_flags _ _ _ _ _ Hh); [lia| | | |exact N17]; intros ->; by rewrite Hb in Em by auto.
Qed.
Definition outer_state (o c : Z) cd (w m : Z) (l v : Z) sd (e : Z) s : CPU M :=
  load_stack_pointer sd e (put_seg ss v (GetBase sd) (with_reg_eip o (with_cpl l
    (destroy_condition_flags (CPU_SetFlags w m (load_cs c cd s)))))).
Lemma outer_fields o c cd w m l v sd e s s' : s' = outer_state o c cd w m l v sd e s ->
  (reg_eip s', cpl s', pmode s', gdt s', code_big s', mem s') = (o, l, pmode s, gdt s, 0 <? Big cd, mem s) /\
  stack s' = (if nz (Big sd) then mkStack 0xffffffff 0 true else mkStack 0xffff 0xffff0000 false) /\
  Segs s' = seg_put ss (mkSegment v (GetBase sd)) (seg_put cs (mkSegment (u16 c) (GetBase cd)) (Segs s)) /\
  esp s' = (if nz (Big sd) then u32 e else set_word_l (esp s) (Z.land e 0xffff)) /\
  set_esp 0 (set_flags 0 (cpu_regs (core s'))) = set_esp 0 (set_flags 0 (cpu_regs (core s))) /\
  exists s'', eflags s'' = eflags s /\ eflags s' = eflags (CPU_SetFlags w m s'').
Proof using.
  intros ->. unfold outer_state, load_stack_pointer.
  destruct (nz (Big sd)); (split; [reflexivity|]); (split; [reflexivity|]); (split; [reflexivity|]); (split; [reflexivity|]); (split; [reflexivity|]);
    exists (load_cs c cd s); (split; [reflexivity|]); reflexivity.
Qed.
Lemma seg_put_same g c x : seg_get cs g = c -> seg_get ss g = x -> forall g',
  (forall y, y <> cs -> y <> ss -> seg_get y g' = seg_get y g) -> seg_put ss x (seg_put cs c g') = g.
Proof using.
  intros <- <- g' E. pose proof (E es) as E1. pose proof (E ds) as E2. pose proof (E fs) as E3. pose proof (E gs) as E4.
  destruct g, g'. cbn in *. rewrite E1, E2, E3, E4 by done. done.
Qed.

Lemma outer_level o c w sd s1 : forall e v l cd,
  good_stack s1 -> 0 <= e < 4294967296 -> 0 <= v < 65536 ->
  (exists x f, frame true [x; c; f; e; v] s1) -> Z.land v 0xfffc <> 0 -> Z.land v 3 = l -> Z.land c 3 = l -> view s1 v = Some sd ->
  is_one_of DESC_DATA_RW (Type_ sd) = true -> DPL sd = l -> seg_p sd <> 0 ->
  exists m, iret_outer_level true o c w (stack_add (esp s1) 12 s1) cd s1 =
    ok (cpu_check_segments (outer_state o c cd w (iret_flags_mask s1) l v sd e (with_mpl m s1))).
Proof using Type*.
  intros e v l cd Hg He Hv (x & f & Hf) Hvn Hvl Hcl Hsd Ht Hd Hp. pose proof (gs_esp _ Hg) as Hep. unfold iret_outer_level.
  rewrite stack_add_add, !read_stack_add by done. pose proof (Hf 3%nat e eq_refl) as E3. pose proof (Hf 4%nat v eq_refl) as E4.
  change (bytes_of true * Z.of_nat 3) with 12 in E3. change (bytes_of true * Z.of_nat 4) with 16 in E4.
  change (12 + 4) with 16. rewrite E3, E4, u16_small by done. rewrite check_ok by (by apply Z.eqb_neq). cbn [exec_bind].
  rewrite Hcl. rewrite check_ok by (by rewrite Hvl, Z.eqb_refl). cbn [exec_bind].
  destruct (gdt_view v s1) as [m ->]. rewrite Hsd. cbn [absent]. rewrite check_ok by done. cbn [exec_bind].
  change (loaded (Some sd)) with sd. rewrite check_ok by (by rewrite Hd, Z.eqb_refl). cbn [exec_bind]. rewrite Ht. cbn [negb].
  rewrite check_ok by (by apply Z.eqb_neq). cbn [exec_bind]. exists m. reflexivity.
Qed.
Lemma iret_outer fuel o o' c fl e v l cd sd s1 :
  pmode s1 = true -> vm s1 = false -> flag FLAG_NT s1 = false -> Z.testbit fl 17 = false ->
  good_stack s1 -> frame true [o; c; u32 fl; e; v] s1 -> 0 <= c < 65536 -> 0 <= e < 4294967296 -> 0 <= v < 65536 ->
  Z.land c 0xfffc <> 0 -> Z.land c 3 = l -> cpl s1 < l -> view s1 c = Some cd -> is_one_of DESC_CODE_NC (Type_ cd) = true -> DPL cd = l ->
  seg_p cd <> 0 -> Z.land v 0xfffc <> 0 -> Z.land v 3 = l -> view s1 v = Some sd ->
  is_one_of DESC_DATA_RW (Type_ sd) = true -> DPL sd = l -> seg_p sd <> 0 ->
  exists m, CPU_IRET fuel true o' s1 =
    ok (cpu_check_segments (outer_state o c cd (u32 fl) (iret_flags_mask s1) l v sd e (with_mpl m s1))).
Proof using Type*.
  intros Hp Hvm Hnt Hfl Hg Hf Hc He Hv Hcn Hcl Hl Hcd Hct Hcdl Hcp Hvn Hvl Hsd Ht Hd Hsp. unfold CPU_IRET. rewrite Hp. cbn [negb].
  rewrite flag_VM, Hvm, Hnt. rewrite (iret_frame_frame true o c (u32 fl) [e; v]) by done. rewrite u16_small by done.
  rewrite nz_VM, dword_bit, Hfl by lia. cbn [andb]. change (3 * bytes_of true) with 12.
  unfold iret_protected. rewrite check_ok by (by apply Z.eqb_neq). cbn [exec_bind].
  destruct (gdt_view c s1) as [k ->]. rewrite Hcd. cbn [absent]. rewrite check_ok by done. cbn [exec_bind].
  change (loaded (Some cd)) with cd. change (cpl (with_mpl k s1)) with (cpl s1). rewrite Hcl.
  rewrite check_ok by (apply Z.ltb_ge; lia). cbn [exec_bind]. rewrite Hct. rewrite check_ok by (by rewrite Hcdl, Z.eqb_refl). cbn [exec_bind].
  rewrite check_ok by (by apply Z.eqb_neq). cbn [exec_bind]. rewrite (proj2 (Z.eqb_neq l (cpl s1))) by lia.
  destruct (outer_level o c (u32 fl) sd (with_mpl k s1) e v l cd) as [m E]; try done; [by apply (good_stack_same s1)|by exists o, (u32 fl)|by rewrite (view_mem s1)|].
  exists m. exact E.
Qed.

Lemma enter_gate_cleared gate d ty o s : vm (enter_gate gate d ty o s) = false /\ flag FLAG_NT (enter_gate gate d ty o s) = false.
Proof using.
  change FLAG_NT with (2 ^ 14). rewrite flag_bit by lia. unfold vm, enter_gate. generalize (push_interrupt_frame gate ty o s). intros s4.
  set (s5 := if nz _ then _ else _). clearbody s5. change FLAG_VM with (2 ^ 17). change FLAG_NT with (2 ^ 14). by rewrite !set_flag_bits by lia.
Qed.
Lemma outer_resumes s cd sd c e s2 o w m s3 :
  coherent s -> good_stack s -> resumable s cd sd -> gdt s2 = gdt s -> pmode s2 = true ->
  (forall x, x <> cs -> x <> ss -> seg_get x (Segs s2) = seg_get x (Segs s)) ->
  set_esp 0 (set_flags 0 (cpu_regs (core s2))) = set_esp 0 (set_flags 0 (cpu_regs (core s))) ->
  (forall a, in_table s a -> readb a (mem s2) = readb a (mem s)) ->
  (forall s', eflags s' = eflags s2 -> forall n, 0 <= n < 32 ->
     Z.testbit (eflags (CPU_SetFlags w m s')) n = (n =? 1) || Z.testbit (eflags (fill_flags s)) n) ->
  c = SegValue cs s -> e = esp s ->
  s3 = outer_state o c cd w m (cpl s) (SegValue ss s) sd e s2 ->
  exists k, cpu_check_segments s3 = with_mpl k s3 /\ resumed s o s3 /\ mem s3 = mem s2.
Proof using Type*.
  intros Hc Hg [Rc Rs Rd] Eg Ep Ex Er Ht Hf -> -> E3.
  destruct Rc as (_ & _ & _ & _ & Cb & Cg & _ & Cr), Rs as (_ & _ & _ & _ & Sb & Sg & _ & Sr & _).
  destruct (outer_fields _ _ _ _ _ _ _ _ _ _ _ E3) as (F & Fs & Fg & Fe & Fr & s'' & Ef1 & Ef2). clear E3.
  injection F as F1 F2 F3 F4 F5 F6. rewrite Sg in Fs, Fe. pose proof (gs_esp _ Hg) as He.
  assert (Segs s3 = Segs s) as Hsegs.
  { rewrite Fg, u16_small by done. apply seg_put_same; [|rewrite Sb|done]; [rewrite Cb|]; unfold SegValue, SegPhys; by destruct (seg_get _ _). }
  assert (stack s3 = stack s) as Hst by (rewrite Fs; by destruct (co_stack _ (coh_ok _ Hc)) as [-> | ->]).
  destruct (check_segments_noop s3) as [k Ek].
  { intros x Hx1 Hx2. destruct (Rd x Hx1 Hx2) as (Hv & d & Hd & Hl). exists d. unfold SegValue. rewrite Hsegs, F2.
    split; [|done]. rewrite <- Hd. apply view_same; [done|congruence|]. intros a Ha. rewrite F6. auto. }
  exists k. split; [done|]. split; [|done]. split; [congruence|done| |congruence|].
  - rewrite Fe. destruct (big (stack s)) eqn:Eb.
    + rewrite u32_small by done. done.
    + split; [|done]. rewrite !stack_ptr_mod by done. unfold wrap_at. destruct (co_stack _ (coh_ok _ Hc)) as [E|E]; [by rewrite E in Eb|].
      rewrite E. change (mask _ + 1) with 65536. change 0xffff with (Z.ones 16). rewrite Z.land_ones by lia. unfold set_word_l.
      change (2 ^ 16) with 65536. pose proof (Z.mod_pos_bound (esp s) 65536). rewrite Z.mod_mod by lia.
      rewrite Z.add_comm, Z.mod_add, Z.mod_mod by lia. done.
  - intros n Hn. rewrite Ef2. by apply Hf.
Qed.
Lemma frame_kept s1 s2 l : at_return s1 s2 -> (length l <= 5)%nat -> frame true l s1 -> frame true l s2.
Proof using.
  intros [Hr [_ He] Hi _ _] Hl Hf i v Hv. rewrite <- (Hf i v Hv), He. pose proof (lookup_lt_Some _ _ _ Hv).
  change (bytes_of true) with 4. apply Hi. lia.
Qed.

Lemma return_to fuel o o' s gate d nd cd sd num ty s1 s2 :
  coherent s -> pmode s = true -> vm s = false -> good_stack s -> inner_gate s num ty gate d nd -> resumable s cd sd ->
  DPL d <= GETFLAG_IOPL s -> (forall a, in_table s a -> readb a (mem s1) = readb a (mem s)) ->
  in_handler s (eflags (fill_flags s)) o (DPL d) s1 -> at_return s1 s2 ->
  exists s3, CPU_IRET fuel true o' s2 = ok s3 /\ resumed s o s3 /\ mem s3 = mem s2.
Proof using Type*.
  intros Hc Hp Hvm Hg Hi Hr Hl Ht1 Hh Ha. pose proof (DPL_range d) as Hd. destruct (return_mask _ _ _ _ _ Hh Ha Hl ltac:(lia)) as [_ Em].
  pose proof (ih_rest _ _ _ _ _ Hh) as Eh. injection Eh as Eh1 Eh2 Eh3. pose proof (rest_fields _ _ (ar_rest _ _ Ha)) as (Er1 & Er2 & Er3).
  injection Er1 as Er4 Er5 Er6. destruct (ar_stack _ _ Ha) as [Ea1 Ea2]. destruct (ar_flags _ _ Ha) as (Hvm2 & Hnt2 & _).
  assert (forall a, in_table s a -> readb a (mem s2) = readb a (mem s)) as Ht2.
  { intros a Hta. rewrite (ar_tables _ _ Ha); [by apply Ht1|]. unfold in_table. by rewrite Eh1. }
  assert (forall v, 0 <= v -> view s2 v = view s v) as Hv by (intros v Hv; apply view_same; [done|congruence|done]).
  destruct (re_cs _ _ _ Hr) as (C1 & C2 & C3 & C4 & C5 & C6 & C7 & C8). destruct (re_ss _ _ _ Hr) as (S1 & S2 & S3 & S4 & S5 & S6 & S7 & S8 & S9).
  destruct (iret_outer fuel o o' (SegValue cs s) (eflags (fill_flags s)) (esp s) (SegValue ss s) (cpl s) cd sd s2) as [m E];
    [congruence|done|done|by rewrite fill_flags_bits| | |done|apply Hg|done|done|by apply (coh_cs _ Hc)|rewrite Er6, Eh3; apply (ig_code _ _ _ _ _ _ Hi)|
     by rewrite Hv by lia|done|done|done|done|done|by rewrite Hv by lia|done|done|done|].
  - apply (good_stack_same s1); [done|done|apply Hh].
  - apply (frame_kept s1); [done|cbn; lia|apply Hh].
  - rewrite E. set (s3 := outer_state _ _ _ _ _ _ _ _ _ _). destruct (outer_resumes s cd sd (SegValue cs s) (esp s) (with_mpl m s2) o (u32 (eflags (fill_flags s))) (iret_flags_mask s2) s3 Hc Hg Hr) as
      (k & Ek & Hs & Hm); [..|reflexivity|].
    + change (gdt s2 = gdt s). congruence.
    + change (pmode s2 = true). congruence.
    + intros x H3 H4. change (seg_get x (Segs s2) = seg_get x (Segs s)). rewrite Er2. by apply Hh.
    + change (set_esp 0 (set_flags 0 (cpu_regs (core s2))) = set_esp 0 (set_flags 0 (cpu_regs (core s)))). rewrite Er3. apply Hh.
    + exact Ht2.
    + intros s' Es n Hn. rewrite Em. apply (return_flags s o (DPL d) s1 s2); try done. lia.
    + done.
    + done.
    + rewrite Ek. eexists. split; [reflexivity|]. split; [|exact Hm]. destruct Hs. by split.
Qed.
End Return.

(** ** Interrupts and IRET *)

(** C5.  [CPU_Interrupt] through a present 32-bit interrupt or trap gate to an inner
    level, and the [CPU_IRET] of its handler: the handler starts at the gate's target on
    the stack of its level, and only the five words of its frame change in memory.
    Whatever it does, if at its IRET it has restored the registers and the stack and left
    its frame and the descriptor tables alone, the program goes on where it was, with its
    segments, level, stack, registers and flags (bit 1 reads one; with a 16-bit stack the
    upper half of ESP is the handler's). *)
Theorem interrupt_returns {M} `{ByteMemoryLaws M} `{PagingControl M} `{Config} (s : CPU M) fuel num ty o o' gate d nd cd sd :
  coherent s -> pmode s = true -> vm s = false -> 0 <= o < 4294967296 -> 0 <= esp s < 4294967296 ->
  inner_gate s num ty gate d nd -> resumable s cd sd -> DPL d <= GETFLAG_IOPL s ->
  (forall a, in_table s a -> ~ inner_frame s d nd a) ->
  exists s1, CPU_Interrupt (S fuel) num ty o s = ok s1 /\
    (reg_eip s1 = GetOffset gate /\ cpl s1 = DPL d /\ SegValue cs s1 = u16 (Z.lor (Z.land (GetSelector gate) 0xfffc) (DPL d)) /\
     SegPhys cs s1 = GetBase d /\ code_big s1 = (0 <? Big d) /\ SegValue ss s1 = inner_ss (DPL d) s) /\
    (forall a, ~ inner_frame s d nd a -> readb a (mem s1) = readb a (mem s)) /\
    at_return s1 s1 /\
    forall s2, at_return s1 s2 -> exists s3, CPU_IRET fuel true o' s2 = ok s3 /\ resumed s o s3 /\ mem s3 = mem s2.
Proof.
  intros Hc Hp Hvm Ho He Hi Hr Hl Hf. pose proof (DPL_range d) as Hd.
  assert (good_stack s) as Hg by (split; [by destruct (co_stack _ (coh_ok _ Hc)) as [-> | ->]; [left|right]|done]).
  destruct (re_cs _ _ _ Hr) as (_ & _ & _ & _ & _ & _ & _ & C8). destruct (re_ss _ _ _ Hr) as (_ & _ & _ & _ & _ & _ & _ & S8 & _).
  destruct (interrupt_enters fuel num ty o s gate d nd Hp Hvm Ho He C8 S8 Hi) as (s1 & E & Hh & (T1 & T2 & T3 & T4 & T5) & Hm).
  assert (vm s1 = false /\ flag FLAG_NT s1 = false) as [Hv1 Hn1].
  { destruct (interrupt_inner fuel num ty o s gate d nd Hp Hvm Hi) as (s0 & _ & _ & E0). rewrite E in E0. injection E0 as ->. apply enter_gate_cleared. }
  exists s1. split; [done|]. pose proof (ih_rest _ _ _ _ _ Hh) as Eh. injection Eh as Eh1 Eh2 Eh3. split; [done|]. split; [done|]. split; [by split|].
  intros s2 Ha. apply (return_to fuel o o' s gate d nd cd sd num ty s1); try done. intros a Hta. apply Hm. auto.
Qed.
Definition demo_gate : Descriptor := mkDesc 0x00081222 0x0001ee00.
Definition demo_code (level : Z) : Descriptor := mkDesc 0x0000ffff (0x00cf9a00 + 0x2000 * level).
Definition demo_data (level : Z) : Descriptor := mkDesc 0x0000ffff (0x00cf9200 + 0x2000 * level).
Lemma demo_inner_gate : inner_gate demo_user 0x21 CPU_INT_SOFTWARE demo_gate (demo_code 0) (demo_data 0).
Proof. split; vm_compute; auto 10; repeat split; done. Qed.
Lemma demo_resumable : resumable demo_user (demo_code 3) (demo_data 3).
Proof.
  split; [vm_compute; repeat split; done..|]. intros x Hc Hs.
  destruct x; try done; (split; [by vm_compute|eexists; split; [by vm_compute|by vm_compute]]).
Qed.
Lemma interrupt_returns_witness :
  exists s1 s3, CPU_Interrupt 1 0x21 CPU_INT_SOFTWARE 0x4002 demo_user = ok s1 /\ cpl s1 = 0 /\ reg_eip s1 = 0x11222 /\
    CPU_IRET 0 true 0x11223 s1 = ok s3 /\ reg_eip s3 = 0x4002 /\ cpl s3 = 3 /\ SegValue cs s3 = 0x1b /\ esp s3 = 0x9000.
Proof.
  destruct (interrupt_returns demo_user 0 0x21 CPU_INT_SOFTWARE 0x4002 0x11223 demo_gate (demo_code 0) (demo_data 0) (demo_code 3) (demo_data 3))
    as (s1 & E1 & (R1 & R2 & _) & _ & Ha & Hr); [apply demo_coherent|done|done|done|done|apply demo_inner_gate|apply demo_resumable|done| |].
  { intros a Ht (k & j & Hk & Hj & ->). change (bytes_of true) with 4 in *.
    change (in_table demo_user (PhysPt (0 + (0x8000 - 4 * k) mod 4294967296 + j))) in Ht.
    unfold PhysPt, u32 in Ht. rewrite (Z.mod_small (0x8000 - 4 * k)), Z.mod_small in Ht by lia.
    unfold in_table in Ht. change (gdt demo_user) with (mkGDT 0x1000 0x37 0 0 0) in Ht. cbn [table_base table_limit ldt_base ldt_limit] in Ht.
    destruct Ht as [(i & Hi & E)|(i & Hi & E)]; unfold PhysPt, u32 in E; rewrite Z.mod_small in E by lia; lia. }
  destruct (Hr s1 Ha) as (s3 & E3 & [R3 R4 R5 _ _] & _). exists s1, s3. injection R3 as R6 R7 _ _ _ _.
  split; [exact E1|]. split; [exact R2|]. split; [rewrite R1; by vm_compute|]. split; [exact E3|]. split; [exact R6|]. split; [exact R7|].
  split; [unfold SegValue; by rewrite R4|by apply R5].
Defined.
