(* ===== verification/Ems.v ===== *)
(** * The expanded memory manager ([ints/ems.cpp], [ints/ems.h])

    Handles of 16 KiB pages allocated from the page allocator, the page frame and the
    segments they are mapped to, saved page maps, handle names, moves between
    conventional and expanded memory, and the dispatch of interrupt 67h.  The
    interface of VCPI is in [EmsVcpi]. *)
From S2P Require Import Prelude.
From S2P Require Import Registers.
From S2P Require Import LazyFlags.
From S2P Require Import GuestMemory.
From S2P Require Import PageAlloc.
From S2P Require Import CpuState.
#[local] Open Scope Z_scope.
#[local] Open Scope exec_scope.

Definition EMM_PAGEFRAME : Z := 0xE000.
Definition EMM_PAGEFRAME4K : Z := EMM_PAGEFRAME * 16 / 4096.
Definition EMM_MAX_HANDLES : Z := 200.
Definition EMM_MAX_PHYS : Z := 4.
Definition EMM_VERSION : Z := 0x40.
Definition EMM_SYSTEM_HANDLE : Z := 0.
Definition NULL_HANDLE : Z := 0xffff.
Definition NULL_PAGE : Z := 0xffff.
Definition EMM_VOLATILE : Z := 0.
Definition EMM_NONVOLATILE : Z := 1.
Definition EMM_NO_ERROR : Z := 0x00.
Definition EMM_INVALID_HANDLE : Z := 0x83.
Definition EMM_FUNC_NOSUP : Z := 0x84.
Definition EMM_OUT_OF_HANDLES : Z := 0x85.
Definition EMM_OUT_OF_LOG : Z := 0x88.
Definition EMM_ZERO_PAGES : Z := 0x89.
Definition EMM_LOG_OUT_RANGE : Z := 0x8a.
Definition EMM_ILL_PHYS : Z := 0x8b.
Definition EMM_PAGE_MAP_SAVED : Z := 0x8d.
Definition EMM_NO_SAVED_PAGE_MAP : Z := 0x8e.
Definition EMM_INVALID_SUB : Z := 0x8f.
Definition EMM_ATTR_UNDEF : Z := 0x90.
Definition EMM_FEAT_NOSUP : Z := 0x91.
Definition EMM_NOT_FOUND : Z := 0xa0.
Definition MaxPages : Z := 0x7fff.
Definition EmsPageSize : Z := 16 * 1024.
Definition MEM_PAGE_SIZE : Z := 4096.

(** ** The tables *)
Record EMM_Mapping := mkMapping { map_handle : Z; map_page : Z }.
#[export] Instance EMM_Mapping_eq_dec : EqDecision EMM_Mapping.
Proof. solve_decision. Defined.
Definition unmapped : EMM_Mapping := mkMapping NULL_HANDLE NULL_PAGE.
Record EMM_Handle := mkHandle {
  pages : Z; hmem : Z; name : list Z; saved_page_map : bool; page_map : list EMM_Mapping }.
Definition with_pages (n m : Z) (h : EMM_Handle) : EMM_Handle := mkHandle n m (name h) (saved_page_map h) (page_map h).
Definition with_name (v : list Z) (h : EMM_Handle) : EMM_Handle := mkHandle (pages h) (hmem h) v (saved_page_map h) (page_map h).
Definition with_saved (b : bool) (l : list EMM_Mapping) (h : EMM_Handle) : EMM_Handle := mkHandle (pages h) (hmem h) (name h) b l.
Definition no_name : list Z := replicate 8 0.
(** The zero-initialised statics. *)
Definition static_handle : EMM_Handle := mkHandle 0 0 no_name false (replicate 4 (mkMapping 0 0)).

Record Vcpi := mkVcpi {
  enabled : bool; ems_handle : Z; pm_interface : Z; private_area : Z; pic1_remapping : Z; pic2_remapping : Z }.

(** The page map of the first megabyte behind which guest memory lies:
    [PAGING_MapPage] and [PAGING_ClearTLB]. *)
Class PageMapping (M : Type) := { map_linear : Z -> Z -> M -> exec M; clear_tlb : M -> M }.

(** The processor with guest memory, the page entries, and the statics of the file. *)
Record Ems (M : Type) := mkEms {
  machine : CPU M;
  mhandles : list Z;
  ems_type : Z;
  emm_handles : list EMM_Handle;
  emm_mappings : list EMM_Mapping;
  emm_segmentmappings : list EMM_Mapping;
  vcpi : Vcpi }.
Arguments mkEms {M}.
Arguments machine {M}.
Arguments mhandles {M}.
Arguments ems_type {M}.
Arguments emm_handles {M}.
Arguments emm_mappings {M}.
Arguments emm_segmentmappings {M}.
Arguments vcpi {M}.

Section Setters.
Context {M : Type}.
Implicit Types (s : Ems M).
Definition on_machine (f : CPU M -> CPU M) s : Ems M :=
  mkEms (f (machine s)) (mhandles s) (ems_type s) (emm_handles s) (emm_mappings s) (emm_segmentmappings s) (vcpi s).
Definition set_mhandles (v : list Z) s : Ems M :=
  mkEms (machine s) v (ems_type s) (emm_handles s) (emm_mappings s) (emm_segmentmappings s) (vcpi s).
Definition set_handles (v : list EMM_Handle) s : Ems M :=
  mkEms (machine s) (mhandles s) (ems_type s) v (emm_mappings s) (emm_segmentmappings s) (vcpi s).
Definition set_mappings (v : list EMM_Mapping) s : Ems M :=
  mkEms (machine s) (mhandles s) (ems_type s) (emm_handles s) v (emm_segmentmappings s) (vcpi s).
Definition set_segmentmappings (v : list EMM_Mapping) s : Ems M :=
  mkEms (machine s) (mhandles s) (ems_type s) (emm_handles s) (emm_mappings s) v (vcpi s).
Definition set_vcpi (v : Vcpi) s : Ems M :=
  mkEms (machine s) (mhandles s) (ems_type s) (emm_handles s) (emm_mappings s) (emm_segmentmappings s) v.
End Setters.

Section Manager.
Context {M : Type} `{ByteMemory M} `{PageMapping M}.
Implicit Types (s : Ems M).

Definition regs s : CPU_Regs := cpu_regs (core (machine s)).
Definition put_regs (f : CPU_Regs -> CPU_Regs) s : Ems M := on_machine (set_regs f) s.
Definition guest s : M := mem (machine s).
Definition set_guest (m : M) s : Ems M := on_machine (with_mem m) s.
Definition seg_phys (x : SegNames) s : Z := SegPhys x (machine s).
Definition rdb (a : Z) s : Z := readb (PhysPt a) (guest s).
Definition rdw (a : Z) s : Z := mem_unalignedreadw (PhysPt a) (guest s).
Definition rdd (a : Z) s : Z := mem_unalignedreadd (PhysPt a) (guest s).
Definition wrb (a v : Z) s : Ems M := set_guest (writeb (PhysPt a) (u8 v) (guest s)) s.
Definition wrw (a v : Z) s : Ems M := set_guest (mem_unalignedwritew (PhysPt a) (u16 v) (guest s)) s.
Definition wrd (a v : Z) s : Ems M := set_guest (mem_unalignedwrited (PhysPt a) (u32 v) (guest s)) s.

(** ** Pages *)
Definition get_total_pages s : Z := Z.min MaxPages (MEM_TotalPages (mhandles s) / EMM_MAX_PHYS).
Definition get_free_pages s : Z := Z.min MaxPages (MEM_FreeTotal (mhandles s) / EMM_MAX_PHYS).
Definition ValidHandle (handle : Z) s : bool :=
  (handle <? EMM_MAX_HANDLES) &&
  match get (emm_handles s) handle with Some h => negb (pages h =? NULL_HANDLE) | None => false end.
Definition put_handle (handle : Z) (h : EMM_Handle) s : exec (Ems M) :=
  let* l := write (emm_handles s) handle h in ok (set_handles l s).
(** The first free handle from [handle]; [None] past the last. *)
Fixpoint first_free_handle (l : list EMM_Handle) (handle : Z) : option Z :=
  match l with
  | [] => None
  | h :: l => if pages h =? NULL_HANDLE then Some handle else first_free_handle l (handle + 1)
  end.

(** The error code, with the handle when there is none. *)
Definition EMM_AllocateMemory (n : Z) (can_allocate_zpages : bool) s : exec (Z * option Z * Ems M) :=
  if (n =? 0) && negb can_allocate_zpages then ok (EMM_ZERO_PAGES, None, s) else
  if get_free_pages s <? n then ok (EMM_OUT_OF_LOG, None, s) else
  match first_free_handle (drop 1 (emm_handles s)) 1 with
  | None => ok (EMM_OUT_OF_HANDLES, None, s)
  | Some handle =>
      let* (m, s) := (if n =? 0 then ok (0, s) else
        let* (m, mh) := MEM_AllocatePages (n * 4) false (mhandles s) in
        if m =? 0 then err Exit else ok (m, set_mhandles mh s)) in
      let* h := read (emm_handles s) handle in
      let* s := put_handle handle (with_pages n m h) s in
      ok (EMM_NO_ERROR, Some handle, s)
  end.

Definition EMM_AllocateSystemHandle (n : Z) s : exec (Z * Ems M) :=
  if get_free_pages s <? n then ok (EMM_OUT_OF_LOG, s) else
  let handle := EMM_SYSTEM_HANDLE in
  let* h := read (emm_handles s) handle in
  let* s := (if negb (pages h =? NULL_HANDLE)
             then let* mh := MEM_ReleasePages (hmem h) (mhandles s) in ok (set_mhandles mh s) else ok s) in
  let* (m, mh) := MEM_AllocatePages (n * 4) false (mhandles s) in
  if m =? 0 then err Exit else
  let* s := put_handle handle (with_pages n m h) (set_mhandles mh s) in
  ok (EMM_NO_ERROR, s).

Definition EMM_ReallocatePages (handle n : Z) s : exec (Z * Ems M) :=
  if negb (ValidHandle handle s) then ok (EMM_INVALID_HANDLE, s) else
  let* h := read (emm_handles s) handle in
  if negb (pages h =? 0) then
    let* (success, m, mh, g) := MEM_ReAllocatePages (hmem h) (n * 4) false (mhandles s) (guest s) in
    let s := set_guest g (set_mhandles mh s) in
    let* s := put_handle handle (with_pages (pages h) m h) s in
    if negb success then ok (EMM_OUT_OF_LOG, s) else
    let* s := put_handle handle (with_pages n m h) s in ok (EMM_NO_ERROR, s)
  else
    let* (m, mh) := MEM_AllocatePages (n * 4) false (mhandles s) in
    if m =? 0 then err Exit else
    let* s := put_handle handle (with_pages n m h) (set_mhandles mh s) in ok (EMM_NO_ERROR, s).

Definition EMM_ReleaseMemory (handle : Z) s : exec (Z * Ems M) :=
  if negb (ValidHandle handle s) then ok (EMM_INVALID_HANDLE, s) else
  let* h := read (emm_handles s) handle in
  let* s := (if negb (pages h =? 0)
             then let* mh := MEM_ReleasePages (hmem h) (mhandles s) in ok (set_mhandles mh s) else ok s) in
  let n := if handle =? 0 then 0 else NULL_HANDLE in
  let* s := put_handle handle (mkHandle n 0 no_name false (page_map h)) s in
  ok (EMM_NO_ERROR, s).

(** ** Mapping *)
Definition map_lin (lin phys : Z) s : exec (Ems M) := let* m := map_linear lin phys (guest s) in ok (set_guest m s).
Definition ClearTLB s : Ems M := set_guest (clear_tlb (guest s)) s.
(** The four pages from [lin] to themselves, or to a block from [memh]. *)
Fixpoint map_identity (n : nat) (lin : Z) s : exec (Ems M) :=
  match n with
  | O => ok s
  | S n => let* s := map_lin lin lin s in map_identity n (lin + 1) s
  end.
Fixpoint map_block (n : nat) (lin memh : Z) s : exec (Ems M) :=
  match n with
  | O => ok s
  | S n =>
      let* s := map_lin lin memh s in
      let* memh := MEM_NextHandle memh (mhandles s) in
      map_block n (lin + 1) memh s
  end.
Definition put_mapping (phys_page : Z) (v : EMM_Mapping) s : exec (Ems M) :=
  let* l := write (emm_mappings s) phys_page v in ok (set_mappings l s).
Definition put_segmentmapping (i : Z) (v : EMM_Mapping) s : exec (Ems M) :=
  let* l := write (emm_segmentmappings s) i v in ok (set_segmentmappings l s).

Definition EMM_MapPage (phys_page handle log_page : Z) s : exec (Z * Ems M) :=
  if EMM_MAX_PHYS <=? phys_page then ok (EMM_ILL_PHYS, s) else
  if log_page =? NULL_PAGE then
    let* s := put_mapping phys_page unmapped s in
    let* s := map_identity 4 (EMM_PAGEFRAME4K + phys_page * 4) s in
    ok (EMM_NO_ERROR, ClearTLB s)
  else
  if negb (ValidHandle handle s) then ok (EMM_INVALID_HANDLE, s) else
  let* h := read (emm_handles s) handle in
  if log_page <? pages h then
    let* s := put_mapping phys_page (mkMapping handle log_page) s in
    let* memh := MEM_NextHandleAt (hmem h) (log_page * 4) (mhandles s) in
    let* s := map_block 4 (EMM_PAGEFRAME4K + phys_page * 4) memh s in
    ok (EMM_NO_ERROR, ClearTLB s)
  else ok (EMM_LOG_OUT_RANGE, s).

Definition mixed_type s : bool := (ems_type s =? 1) || (ems_type s =? 3).
Definition valid_segment (segment : Z) s : bool :=
  if mixed_type s then segment <? 0xf000 + 0x1000
  else ((0xa000 <=? segment) && (segment <? 0xb000)) ||
       ((EMM_PAGEFRAME <=? segment) && (segment <? EMM_PAGEFRAME + 0x1000)).
(** The division of a signed integer; [segment] is below [2^31]. *)
Definition segment_phys_page (segment : Z) : Z := Z.quot (segment - EMM_PAGEFRAME) (0x1000 / EMM_MAX_PHYS).
(** The entry of the table that a segment has. *)
Definition put_segment (segment : Z) (v : EMM_Mapping) s : exec (Ems M) :=
  let tphysPage := segment_phys_page segment in
  if (0 <=? tphysPage) && (tphysPage <? EMM_MAX_PHYS) then put_mapping tphysPage v s
  else put_segmentmapping (Z.shiftr segment 10) v s.

Definition EMM_MapSegment (segment handle log_page : Z) s : exec (Z * Ems M) :=
  if negb (valid_segment segment s) then ok (EMM_ILL_PHYS, s) else
  if log_page =? NULL_PAGE then
    let* s := put_segment segment unmapped s in
    let* s := map_identity 4 (segment * 16 / 4096) s in
    ok (EMM_NO_ERROR, ClearTLB s)
  else
  if negb (ValidHandle handle s) then ok (EMM_INVALID_HANDLE, s) else
  let* h := read (emm_handles s) handle in
  if log_page <? pages h then
    let* s := put_segment segment (mkMapping handle log_page) s in
    let* memh := MEM_NextHandleAt (hmem h) (log_page * 4) (mhandles s) in
    let* s := map_block 4 (segment * 16 / 4096) memh s in
    ok (EMM_NO_ERROR, ClearTLB s)
  else ok (EMM_LOG_OUT_RANGE, s).

(** ** Saved page maps *)
Definition map_handle_valid (handle : Z) s : bool := ValidHandle handle s || (handle =? 0).
Definition EMM_SavePageMap (handle : Z) s : exec (Z * Ems M) :=
  if negb (map_handle_valid handle s) then ok (EMM_INVALID_HANDLE, s) else
  let* h := read (emm_handles s) handle in
  if saved_page_map h then ok (EMM_PAGE_MAP_SAVED, s) else
  let* s := put_handle handle (with_saved true (emm_mappings s) h) s in
  ok (EMM_NO_ERROR, s).

(** The loops of the restoration; the results of the mappings are not looked at. *)
Fixpoint restore_segments (n : nat) (i : Z) s : exec (Ems M) :=
  match n with
  | O => ok s
  | S n =>
      let* s := (if (EMM_PAGEFRAME / 0x400 <=? i) && (i <? EMM_PAGEFRAME / 0x400 + EMM_MAX_PHYS) then ok s else
        let* e := read (emm_segmentmappings s) i in
        let* (_, s) := EMM_MapSegment (Z.shiftl i 10) (map_handle e) (map_page e) s in ok s) in
      restore_segments n (i + 1) s
  end.
Fixpoint restore_frame (n : nat) (i : Z) s : exec (Ems M) :=
  match n with
  | O => ok s
  | S n =>
      let* e := read (emm_mappings s) i in
      let* (_, s) := EMM_MapPage i (map_handle e) (map_page e) s in
      restore_frame n (i + 1) s
  end.
Definition EMM_RestoreMappingTable s : exec (Z * Ems M) :=
  let* s := restore_segments 0x40 0 s in
  let* s := restore_frame 4 0 s in
  ok (EMM_NO_ERROR, s).
Definition EMM_RestorePageMap (handle : Z) s : exec (Z * Ems M) :=
  if negb (map_handle_valid handle s) then ok (EMM_INVALID_HANDLE, s) else
  let* h := read (emm_handles s) handle in
  if negb (saved_page_map h) then ok (EMM_NO_SAVED_PAGE_MAP, s) else
  let* s := put_handle handle (with_saved false (page_map h) h) s in
  EMM_RestoreMappingTable (set_mappings (page_map h) s).

(** ** Reports *)
(** The loops over the handles, from [i]. *)
Fixpoint pages_for_all (l : list EMM_Handle) (i table handles : Z) s : Z * Ems M :=
  match l with
  | [] => (handles, s)
  | h :: l =>
      if negb (pages h =? NULL_HANDLE) then
        pages_for_all l (i + 1) (u32 (table + 4)) (handles + 1) (wrw (table + 2) (pages h) (wrw table i s))
      else pages_for_all l (i + 1) table handles s
  end.
Definition EMM_GetPagesForAllHandles (table : Z) s : Z * Ems M := pages_for_all (emm_handles s) 0 table 0 s.
Definition handle_count s : Z := Z.of_nat (length (filter (fun h => pages h <> NULL_HANDLE) (emm_handles s))).

(** ** Partial page maps *)
Fixpoint save_partial (count : nat) (list_ data : Z) s : exec (Z * Ems M) :=
  match count with
  | O => ok (EMM_NO_ERROR, s)
  | S count =>
      let segment := rdw list_ s in
      let list_ := u32 (list_ + 2) in
      let entry page e s :=
        let s := wrb data page s in
        let s := wrb (data + 1) (map_handle e) s in
        let s := wrw (data + 2) (map_page e) s in
        save_partial count list_ (u32 (data + 4)) s in
      if (EMM_PAGEFRAME <=? segment) && (segment <? EMM_PAGEFRAME + 0x1000) then
        let page := Z.shiftr (segment - EMM_PAGEFRAME) 10 in
        let* e := read (emm_mappings s) page in entry page e s
      else if mixed_type s || ((EMM_PAGEFRAME - 0x1000 <=? segment) && (segment <? EMM_PAGEFRAME)) ||
              ((0xa000 <=? segment) && (segment <? 0xb000)) then
        let page := Z.shiftr segment 10 in
        let* e := read (emm_segmentmappings s) page in entry page e s
      else ok (EMM_ILL_PHYS, s)
  end.
Fixpoint restore_partial (count : nat) (data : Z) s : exec (Z * Ems M) :=
  match count with
  | O => EMM_RestoreMappingTable s
  | S count =>
      let page := rdb data s in
      let e := mkMapping (rdb (data + 1) s) (rdw (data + 2) s) in
      if page <? EMM_MAX_PHYS then
        let* s := put_mapping page e s in restore_partial count (u32 (data + 4)) s
      else if page <? 0x40 then
        let* s := put_segmentmapping page e s in restore_partial count (u32 (data + 4)) s
      else ok (EMM_ILL_PHYS, s)
  end.
Definition EMM_PartialPageMapping s : exec (Z * Ems M) :=
  let al := reg_al (regs s) in
  if al =? 0x00 then
    let list_ := u32 (seg_phys ds s + reg_si (regs s)) in
    let data := u32 (seg_phys es s + word_l (reg_edi (regs s))) in
    let count := rdw list_ s in
    let s := wrw data count s in
    save_partial (Z.to_nat count) (u32 (list_ + 2)) (u32 (data + 2)) s
  else if al =? 0x01 then
    let data := u32 (seg_phys ds s + reg_si (regs s)) in
    restore_partial (Z.to_nat (rdw data s)) (u32 (data + 2)) s
  else if al =? 0x02 then ok (EMM_NO_ERROR, put_regs (set_al (u8 (2 + reg_bx (regs s) * 4))) s)
  else ok (EMM_FUNC_NOSUP, s).

(** ** Names and attributes *)
Fixpoint write_names (l : list EMM_Handle) (handle data : Z) s : Ems M :=
  match l with
  | [] => s
  | h :: l =>
      if negb (pages h =? NULL_HANDLE) then
        let s := put_regs (fun r => set_al (u8 (reg_al r + 1)) r) s in
        let s := wrw data handle s in
        let s := set_guest (MEM_BlockWrite (u32 (data + 2)) (name h) (guest s)) s in
        write_names l (handle + 1) (u32 (data + 10)) s
      else write_names l (handle + 1) data s
  end.
(** [!strncmp(a, b, n)]; a string ends at its terminator or its end. *)
Fixpoint strn_equal (n : nat) (a b : list Z) : bool :=
  match n with
  | O => true
  | S n =>
      let x := hd 0 a in let y := hd 0 b in
      if negb (x =? y) then false else if x =? 0 then true else strn_equal n (tail a) (tail b)
  end.
Fixpoint find_name (l : list EMM_Handle) (handle : Z) (nm : list Z) : option Z :=
  match l with
  | [] => None
  | h :: l => if negb (pages h =? NULL_HANDLE) && strn_equal 8 nm (name h) then Some handle
              else find_name l (handle + 1) nm
  end.
Definition HandleNameSearch s : Z * Ems M :=
  let al := reg_al (regs s) in
  if al =? 0x00 then
    let s := put_regs (set_al 0) s in
    (EMM_NO_ERROR, write_names (emm_handles s) 0 (u32 (seg_phys es s + word_l (reg_edi (regs s)))) s)
  else if al =? 0x01 then
    match find_name (emm_handles s) 0 (MEM_StrCopy (u32 (seg_phys ds s + reg_si (regs s))) 8 (guest s)) with
    | Some handle => (EMM_NO_ERROR, put_regs (set_dx handle) s)
    | None => (EMM_NOT_FOUND, s)
    end
  else if al =? 0x02 then (EMM_NO_ERROR, put_regs (set_bx EMM_MAX_HANDLES) s)
  else (EMM_INVALID_SUB, s).
Definition GetSetHandleName s : exec (Z * Ems M) :=
  let handle := reg_dx (regs s) in
  let al := reg_al (regs s) in
  if (al =? 0x00) || (al =? 0x01) then
    if negb (ValidHandle handle s) then ok (EMM_INVALID_HANDLE, s) else
    let* h := read (emm_handles s) handle in
    if al =? 0x00 then
      ok (EMM_NO_ERROR, set_guest (MEM_BlockWrite (u32 (seg_phys es s + word_l (reg_edi (regs s)))) (name h) (guest s)) s)
    else
      let* s := put_handle handle (with_name (MEM_BlockRead (u32 (seg_phys ds s + reg_si (regs s))) 8 (guest s)) h) s in
      ok (EMM_NO_ERROR, s)
  else ok (EMM_INVALID_SUB, s).
Definition GetSetHandleAttributes s : Z * Ems M :=
  let al := reg_al (regs s) in
  if al =? 0x00 then
    if negb (ValidHandle (reg_dx (regs s)) s) then (EMM_INVALID_HANDLE, s)
    else (EMM_NO_ERROR, put_regs (set_al EMM_VOLATILE) s)
  else if al =? 0x01 then
    if negb (ValidHandle (reg_dx (regs s)) s) then (EMM_INVALID_HANDLE, s) else
    if reg_bl (regs s) =? EMM_VOLATILE then (EMM_NO_ERROR, s)
    else if reg_bl (regs s) =? EMM_NONVOLATILE then (EMM_FEAT_NOSUP, s) else (EMM_ATTR_UNDEF, s)
  else if al =? 0x02 then (EMM_NO_ERROR, put_regs (set_al EMM_VOLATILE) s)
  else (EMM_INVALID_SUB, s).

(** ** Moves *)
Record MoveRegion := mkRegion {
  bytes : Z; src_type : Z; src_handle : Z; src_offset : Z; src_page_seg : Z;
  dest_type : Z; dest_handle : Z; dest_offset : Z; dest_page_seg : Z }.
Definition LoadMoveRegion (data : Z) s : MoveRegion :=
  mkRegion (rdd data s) (rdb (data + 0x4) s) (rdw (data + 0x5) s) (rdw (data + 0x7) s) (rdw (data + 0x9) s)
    (rdb (data + 0xb) s) (rdw (data + 0xc) s) (rdw (data + 0xe) s) (rdw (data + 0x10) s).

(** One end of a move: an address in guest memory, or a page of a handle with the
    offset in it and what remains of it. *)
Inductive place := conventional (address : Z) | expanded (page off remain : Z).
Fixpoint next_handles (n : nat) (h : Z) s : exec Z :=
  match n with O => ok h | S n => let* h := MEM_NextHandle h (mhandles s) in next_handles n h s end.
(** The sum of the bound check is a [uint32_t]. *)
Definition move_place (type handle offset page_seg n : Z) s : exec (Z + place) :=
  if type =? 0 then ok (inr (conventional (page_seg * 16 + offset))) else
  if negb (ValidHandle handle s) then ok (inl EMM_INVALID_HANDLE) else
  let* h := read (emm_handles s) handle in
  if pages h * EmsPageSize <? u32 (page_seg * EmsPageSize + offset + n) then ok (inl EMM_LOG_OUT_RANGE) else
  let* p := next_handles (Z.to_nat (page_seg * 4 + offset / MEM_PAGE_SIZE)) (hmem h) s in
  let off := Z.land offset (MEM_PAGE_SIZE - 1) in
  ok (inr (expanded p off (MEM_PAGE_SIZE - off))).

Definition read_region (p : place) (n : Z) s : exec (list Z) :=
  match p with
  | conventional a => ok (MEM_BlockRead (PhysPt a) (Z.to_nat n) (guest s))
  | expanded h off remain =>
      let start := PhysPt (h * MEM_PAGE_SIZE + off) in
      if n <=? remain then ok (MEM_BlockRead start (Z.to_nat n) (guest s)) else
      let first := MEM_BlockRead start (Z.to_nat remain) (guest s) in
      let* h := MEM_NextHandle h (mhandles s) in
      ok (first ++ MEM_BlockRead (PhysPt (h * MEM_PAGE_SIZE)) (Z.to_nat (n - remain)) (guest s))
  end.
(** [buf] has the [n] bytes to write. *)
Definition write_region (p : place) (n : Z) (buf : list Z) s : exec (Ems M) :=
  match p with
  | conventional a => ok (set_guest (MEM_BlockWrite (PhysPt a) buf (guest s)) s)
  | expanded h off remain =>
      let start := PhysPt (h * MEM_PAGE_SIZE + off) in
      if n <=? remain then ok (set_guest (MEM_BlockWrite start buf (guest s)) s) else
      let s := set_guest (MEM_BlockWrite start (take (Z.to_nat remain) buf) (guest s)) s in
      let* h := MEM_NextHandle h (mhandles s) in
      ok (set_guest (MEM_BlockWrite (PhysPt (h * MEM_PAGE_SIZE)) (drop (Z.to_nat remain) buf) (guest s)) s)
  end.
Definition advance (p : place) (n : Z) s : exec place :=
  match p with
  | conventional a => ok (conventional (u32 (a + n)))
  | expanded h off remain => let* h := MEM_NextHandle h (mhandles s) in ok (expanded h off remain)
  end.
(** The loop; each round moves 4096 bytes or what is left. *)
Fixpoint move_loop (fuel : nat) (exchange : bool) (n : Z) (src dest : place) s : exec (Ems M) :=
  match fuel with
  | O => err OutOfFuel
  | S fuel =>
      if n <=? 0 then ok s else
      let toread := Z.min n MEM_PAGE_SIZE in
      let* buf_src := read_region src toread s in
      let* s := (if exchange then
                   let* buf_dest := read_region dest toread s in write_region src toread buf_dest s
                 else ok s) in
      let* s := write_region dest toread buf_src s in
      let* src := advance src toread s in
      let* dest := advance dest toread s in
      move_loop fuel exchange (n - toread) src dest s
  end.
Definition MemoryRegion s : exec (Z * Ems M) :=
  let al := reg_al (regs s) in
  if 1 <? al then ok (EMM_FUNC_NOSUP, s) else
  let region := LoadMoveRegion (u32 (seg_phys ds s + reg_si (regs s))) s in
  let* src := move_place (src_type region) (src_handle region) (src_offset region) (src_page_seg region) (bytes region) s in
  match src with
  | inl e => ok (e, s)
  | inr src =>
      let* dest := move_place (dest_type region) (dest_handle region) (dest_offset region) (dest_page_seg region) (bytes region) s in
      match dest with
      | inl e => ok (e, s)
      | inr dest =>
          let* s := move_loop (S (Z.to_nat (bytes region / MEM_PAGE_SIZE + 1))) (al =? 1) (bytes region) src dest s in
          ok (EMM_NO_ERROR, s)
      end
  end.
End Manager.
