(* ===== verification/EmsVcpi.v ===== *)
(** * Interrupt 67h and the VCPI server ([ints/ems.cpp])

    The dispatch on the function number; the virtual control program interface, with
    the switches between virtual-8086 and protected mode; the monitor that virtual-8086
    mode interrupts to; the tables of the server, and the start and end of the
    manager. *)
From S2P Require Import Prelude.
From S2P Require Import Registers.
From S2P Require Import LazyFlags.
From S2P Require Import GuestMemory.
From S2P Require Import PageAlloc.
From S2P Require Import CpuState.
From S2P Require Import CpuProtect.
From S2P Require Import CpuControl.
From S2P Require Import Ems.
#[local] Open Scope Z_scope.
#[local] Open Scope exec_scope.

Definition EMM_MINOR_VERSION : Z := 0x00.
Definition GEMMIS_VERSION : Z := 0x0001.
Definition CB_SIZE : Z := 32.
Definition CB_SEG : Z := 0xF000.
Definition CB_SOFFSET : Z := 0x1000.
Definition CALLBACK_GetBase : Z := Z.shiftl CB_SEG 4 + CB_SOFFSET.

(** The input and output ports, which belong to the devices behind guest memory. *)
Class PortIO (M : Type) := {
  IO_ReadB : Z -> M -> Z * M;
  IO_ReadW : Z -> M -> Z * M;
  IO_WriteB : Z -> Z -> M -> M;
  IO_WriteW : Z -> Z -> M -> M }.

Section Handler.
Context {M : Type} `{ByteMemory M} `{PageMapping M} `{PagingControl M} `{Config} `{PortIO M}.
Implicit Types (s : Ems M) (c : CPU M).

Definition reg_di (r : CPU_Regs) : Z := word_l (reg_edi r).
Definition reg_sp (r : CPU_Regs) : Z := word_l (reg_esp r).
(** An address from a segment register and an offset: a [PhysPt]. *)
Definition seg_address (x : SegNames) (off : Z) s : Z := u32 (seg_phys x s + off).

(** ** Page maps in guest memory: the bytes of [emm_mappings] *)
Definition mapping_bytes (e : EMM_Mapping) : list Z :=
  [u8 (map_handle e); u8 (Z.shiftr (map_handle e) 8); u8 (map_page e); u8 (Z.shiftr (map_page e) 8)].
Fixpoint bytes_mappings (n : nat) (b : list Z) : list EMM_Mapping :=
  match n, b with
  | S n, h0 :: h1 :: p0 :: p1 :: b => mkMapping (Z.lor h0 (Z.shiftl h1 8)) (Z.lor p0 (Z.shiftl p1 8)) :: bytes_mappings n b
  | _, _ => []
  end.
Definition sizeof_emm_mappings : Z := 4 * EMM_MAX_PHYS.
Definition write_page_map s : Ems M :=
  set_guest (MEM_BlockWrite (seg_address es (reg_di (regs s)) s) (concat (map mapping_bytes (emm_mappings s))) (guest s)) s.
Definition read_page_map s : Ems M :=
  set_mappings (bytes_mappings 4 (MEM_BlockRead (seg_address ds (reg_si (regs s)) s) (Z.to_nat sizeof_emm_mappings) (guest s))) s.

(** ** The loops of functions 50h and 58h *)
Definition put_ah (r : Z) s : Ems M := put_regs (set_ah r) s.
Fixpoint map_pages (n : nat) (data : Z) s : exec (Ems M) :=
  match n with
  | O => ok s
  | S n =>
      let logPage := rdw data s in
      let physPage := rdw (data + 2) s in
      let* (r, s) := EMM_MapPage physPage (reg_dx (regs s)) logPage s in
      let s := put_ah r s in
      if negb (r =? EMM_NO_ERROR) then ok s else map_pages n (u32 (data + 4)) s
  end.
Fixpoint map_segments (n : nat) (data : Z) s : exec (Ems M) :=
  match n with
  | O => ok s
  | S n =>
      let logPage := rdw data s in
      let* (r, s) := EMM_MapSegment (rdw (data + 2) s) (reg_dx (regs s)) logPage s in
      let s := put_ah r s in
      if negb (r =? EMM_NO_ERROR) then ok s else map_segments n (u32 (data + 4)) s
  end.
Fixpoint physical_array (n : nat) (i data : Z) s : Ems M :=
  match n with
  | O => s
  | S n => physical_array n (i + 1) (u32 (data + 4))
             (wrw (data + 2) i (wrw data (EMM_PAGEFRAME + 0x1000 / EMM_MAX_PHYS * i) s))
  end.

(** ** VCPI *)
Definition cpu_put (f : CPU M -> CPU M) s : Ems M := on_machine f s.
Definition real_wrb (seg off v : Z) s : Ems M := wrb (u32 (Z.shiftl seg 4 + u16 off)) v s.
Definition real_wrw (seg off v : Z) s : Ems M := wrw (u32 (Z.shiftl seg 4 + u16 off)) v s.
Definition real_wrd (seg off v : Z) s : Ems M := wrd (u32 (Z.shiftl seg 4 + u16 off)) v s.
Definition seg_value (x : SegNames) s : Z := SegValue x (machine s).
(** The page table: [n] entries from [ct], with the page [base] higher. *)
Fixpoint page_table (n : nat) (ct base : Z) s : Ems M :=
  match n with
  | O => s
  | S n =>
      let at_ := reg_di (regs s) + ct * 4 in
      let s := real_wrb (seg_value es s) at_ 0x67 s in
      let s := real_wrw (seg_value es s) (at_ + 1) (base + ct * 0x10) s in
      let s := real_wrb (seg_value es s) (at_ + 3) 0 s in
      page_table n (ct + 1) base s
  end.
Fixpoint frame_entries (n : nat) (ct : Z) s : exec (Ems M) :=
  match n with
  | O => ok s
  | S n =>
      let* e := read (emm_mappings s) ct in
      let* s := (if negb (map_handle e =? NULL_HANDLE) then
        let* h := read (emm_handles s) (map_handle e) in
        let* memh := MEM_NextHandleAt (hmem h) (map_page e * 4) (mhandles s) in
        let memh := u16 memh in
        let entry_addr := u16 (reg_di (regs s) + Z.shiftr EMM_PAGEFRAME 6 + ct * 0x10) in
        let put i s := real_wrw (seg_value es s) (entry_addr + 4 * i + 1) ((memh + i) * 0x10) s in
        ok (put 3 (put 2 (put 1 (put 0 s))))
        else ok s) in
      frame_entries n (ct + 1) s
  end.
Definition vcpi_interface s : exec (Ems M) :=
  let s := page_table 0xff 0 0 s in
  let s := page_table 1 0xff (0x1100 - 0xff * 0x10) s in
  let* s := frame_entries 4 0 s in
  let s := put_regs (fun r => set_edi (set_word_l (reg_edi r) (reg_di r + 0x400)) r) s in
  let cbseg_low := u32 (Z.shiftl (Z.land CALLBACK_GetBase 0xffff) 16) in
  let cbseg_high := Z.shiftr (Z.land CALLBACK_GetBase 0x1f0000) 16 in
  let put off v s := real_wrd (seg_value ds s) (reg_si (regs s) + off) v s in
  let s := put 0x00 (Z.lor 0x0000ffff cbseg_low) s in
  let s := put 0x04 (Z.lor 0x00009a00 cbseg_high) s in
  let s := put 0x08 0x0000ffff s in
  let s := put 0x0c 0x00009200 s in
  let s := put 0x10 0x0000ffff s in
  let s := put 0x14 0x00009200 s in
  ok (put_ah EMM_NO_ERROR (put_regs (set_ebx (Z.land (pm_interface (vcpi s)) 0xffff)) s)).

(** Functions 3 to 5, of both interfaces. *)
Definition vcpi_free_pages s : Ems M := put_ah EMM_NO_ERROR (put_regs (set_edx (MEM_FreeTotal (mhandles s))) s).
Definition vcpi_allocate s : exec (Ems M) :=
  let* (m, mh) := MEM_AllocatePages 1 false (mhandles s) in
  let s := set_mhandles mh s in
  if negb (m =? 0) then ok (put_ah EMM_NO_ERROR (put_regs (set_edx (u32 (Z.shiftl m 12))) s))
  else ok (put_ah EMM_OUT_OF_LOG s).
Definition vcpi_free s : exec (Ems M) :=
  let* mh := MEM_ReleasePages (Z.shiftr (reg_edx (regs s)) 12) (mhandles s) in
  ok (put_ah EMM_NO_ERROR (set_mhandles mh s)).

Definition frame_page (mem_seg : Z) : Z :=
  if mem_seg <? EMM_PAGEFRAME + 0x400 then 0 else if mem_seg <? EMM_PAGEFRAME + 0x800 then 1
  else if mem_seg <? EMM_PAGEFRAME + 0xc00 then 2 else 3.
Definition vcpi_physical_address s : exec (Ems M) :=
  let page := reg_cx (regs s) in
  let mem_seg := Z.shiftl page 8 in
  if (EMM_PAGEFRAME <=? mem_seg) && (mem_seg <? EMM_PAGEFRAME + 0x1000) then
    let* e := read (emm_mappings s) (frame_page mem_seg) in
    if map_handle e =? NULL_HANDLE then ok (put_ah EMM_ILL_PHYS s) else
    let* h := read (emm_handles s) (map_handle e) in
    let* memh := MEM_NextHandleAt (hmem h) (map_page e * 4) (mhandles s) in
    ok (put_ah EMM_NO_ERROR (put_regs (set_edx (u32 (Z.shiftl (memh + Z.land page 3) 12))) s))
  else ok (put_ah EMM_NO_ERROR (put_regs (set_edx (Z.shiftl page 12)) s)).
Definition with_remapping (p1 p2 : Z) (v : Vcpi) : Vcpi :=
  mkVcpi (enabled v) (ems_handle v) (pm_interface v) (private_area v) p1 p2.

Definition clear_eflags (f : Z) c : CPU M := put_eflags (Z.land (eflags c) (Z.lnot f)) c.
Definition or_eflags (f : Z) c : CPU M := put_eflags (Z.lor (eflags c) f) c.
Definition readb_at (a : Z) c : Z := readb (PhysPt a) (mem c).
Definition writeb_at (a v : Z) c : CPU M := with_mem (writeb (PhysPt a) (u8 v) (mem c)) c.
(** The descriptor of the task made available again. *)
Definition clear_busy (tbaddr : Z) c : CPU M := writeb_at tbaddr (Z.land (readb_at tbaddr c) 0xfd) c.
Definition to_protected (fuel : nat) c : exec (CPU M) :=
  let c := with_cpl 0 (clear_eflags FLAG_IF c) in
  let esi := reg_esi (cpu_regs (core c)) in
  let new_cr3 := mem_readd esi c in
  let new_gdt_addr := mem_readd (esi + 4) c in
  let new_idt_addr := mem_readd (esi + 8) c in
  let new_ldt := mem_readw (esi + 0x0c) c in
  let new_tr := mem_readw (esi + 0x0e) c in
  let new_eip := mem_readd (esi + 0x10) c in
  let new_cs := mem_readw (esi + 0x14) c in
  let new_gdt_limit := mem_readw new_gdt_addr c in
  let new_gdt_base := mem_readd (new_gdt_addr + 2) c in
  let new_idt_limit := mem_readw new_idt_addr c in
  let new_idt_base := mem_readd (new_idt_addr + 2) c in
  let new_cr0 := Z.lor (CPU_GET_CRX 0 c) 1 in
  let new_cr0 := if negb (new_cr3 =? 0) then Z.lor new_cr0 0x80000000 else new_cr0 in
  let c := CPU_SET_CRX 3 new_cr3 (CPU_SET_CRX 0 new_cr0 c) in
  let c := clear_busy (u32 (new_gdt_base + Z.land new_tr 0xfff8 + 5)) c in
  let c := CPU_LIDT new_idt_limit new_idt_base (CPU_LGDT new_gdt_limit new_gdt_base c) in
  let c := snd (CPU_LLDT new_ldt c) in
  let* (_, c) := CPU_LTR new_tr c in
  let c := snd (CPU_SetSegGeneral ds 0 c) in
  let c := snd (CPU_SetSegGeneral es 0 c) in
  let c := snd (CPU_SetSegGeneral fs 0 c) in
  let c := snd (CPU_SetSegGeneral gs 0 c) in
  let c := or_eflags 0x3000 (clear_eflags (Z.lor FLAG_VM FLAG_NT) c) in
  CPU_JMP fuel true new_cs new_eip 0 c.

Definition in_v86 s : bool := pmode (machine s) && flag FLAG_VM (machine s).
Definition vcpi_functions (fuel : nat) s : exec (Ems M) :=
  let al := reg_al (regs s) in
  if al =? 0x00 then
    if ((reg_cx (regs s) =? 0) && (reg_di (regs s) =? 0x0012)) || in_v86 s
    then ok (put_regs (set_bx 0x100) (put_ah EMM_NO_ERROR s))
    else ok (put_ah EMM_FUNC_NOSUP s)
  else if al =? 0x01 then vcpi_interface s
  else if al =? 0x02 then
    ok (put_ah EMM_NO_ERROR (put_regs (set_edx (Z.land (u32 (MEM_TotalPages (mhandles s) * DosPageSize - 1)) 0xfffff000)) s))
  else if al =? 0x03 then ok (vcpi_free_pages s)
  else if al =? 0x04 then vcpi_allocate s
  else if al =? 0x05 then vcpi_free s
  else if al =? 0x06 then vcpi_physical_address s
  else if al =? 0x0a then
    ok (put_ah EMM_NO_ERROR (put_regs (set_cx (pic2_remapping (vcpi s))) (put_regs (set_bx (pic1_remapping (vcpi s))) s)))
  else if al =? 0x0b then
    let s := cpu_put (clear_eflags FLAG_IF) s in
    ok (put_ah EMM_NO_ERROR (set_vcpi (with_remapping (Z.land (reg_bx (regs s)) 0xff) (Z.land (reg_cx (regs s)) 0xff) (vcpi s)) s))
  else if al =? 0x0c then
    let* c := to_protected fuel (machine s) in ok (on_machine (fun _ => c) s)
  else ok (put_ah EMM_FUNC_NOSUP s).

(** ** Interrupt 67h *)
Definition page_map_functions s : exec (Ems M) :=
  let al := reg_al (regs s) in
  let restore s := let* (r, s) := EMM_RestoreMappingTable (read_page_map s) in ok (put_ah r s) in
  if al =? 0x00 then ok (put_ah EMM_NO_ERROR (write_page_map s))
  else if al =? 0x01 then restore s
  else if al =? 0x02 then restore (write_page_map s)
  else if al =? 0x03 then ok (put_ah EMM_NO_ERROR (put_regs (set_al sizeof_emm_mappings) s))
  else ok (put_ah EMM_INVALID_SUB s).
Definition map_multiple s : exec (Ems M) :=
  let al := reg_al (regs s) in
  let s := put_ah EMM_NO_ERROR s in
  let data := seg_address ds (reg_si (regs s)) s in
  let n := Z.to_nat (reg_cx (regs s)) in
  if al =? 0x00 then map_pages n data s
  else if al =? 0x01 then map_segments n data s
  else ok (put_ah EMM_INVALID_SUB s).
Definition report_pages s : Ems M :=
  put_regs (set_bx (get_free_pages s)) (put_regs (set_dx (get_total_pages s)) s).
Fixpoint write_words (l : list Z) (data : Z) s : Ems M :=
  match l with [] => s | v :: l => write_words l (u32 (data + 2)) (wrw data v s) end.
Definition hardware_information s : Ems M :=
  let al := reg_al (regs s) in
  let s := put_ah EMM_NO_ERROR s in
  if al =? 0x00 then
    write_words [0x0400; 0x0000; sizeof_emm_mappings; 0x0000; 0x0000] (seg_address es (reg_di (regs s)) s) s
  else if al =? 0x01 then report_pages s
  else put_ah EMM_INVALID_SUB s.
(** The error code in AH, the state from the function. *)
Definition answer (r : exec (Z * Ems M)) : exec (Ems M) := let* (r, s) := r in ok (put_ah r s).
Definition allocate (zero_pages : bool) s : exec (Ems M) :=
  let* (r, handle, s) := EMM_AllocateMemory (reg_bx (regs s)) zero_pages s in
  let s := match handle with Some h => put_regs (set_dx h) s | None => s end in
  ok (put_ah r s).
Definition INT67_Handler (fuel : nat) s : exec (Ems M) :=
  let ah := reg_ah (regs s) in
  let al := reg_al (regs s) in
  let bx := reg_bx (regs s) in
  let dx := reg_dx (regs s) in
  if ah =? 0x40 then ok (put_ah EMM_NO_ERROR s)
  else if ah =? 0x41 then ok (put_ah EMM_NO_ERROR (put_regs (set_bx EMM_PAGEFRAME) s))
  else if ah =? 0x42 then ok (put_ah EMM_NO_ERROR (report_pages s))
  else if ah =? 0x43 then allocate false s
  else if ah =? 0x44 then answer (EMM_MapPage al dx bx s)
  else if ah =? 0x45 then answer (EMM_ReleaseMemory dx s)
  else if ah =? 0x46 then ok (put_regs (set_al EMM_VERSION) (put_ah EMM_NO_ERROR s))
  else if ah =? 0x47 then answer (EMM_SavePageMap dx s)
  else if ah =? 0x48 then answer (EMM_RestorePageMap dx s)
  else if ah =? 0x4b then ok (put_ah EMM_NO_ERROR (put_regs (set_bx (handle_count s)) s))
  else if ah =? 0x4c then
    if negb (ValidHandle dx s) then ok (put_ah EMM_INVALID_HANDLE s) else
    let* h := read (emm_handles s) dx in
    ok (put_ah EMM_NO_ERROR (put_regs (set_bx (pages h)) s))
  else if ah =? 0x4d then
    let '(n, s) := EMM_GetPagesForAllHandles (seg_address es (reg_di (regs s)) s) s in
    ok (put_ah EMM_NO_ERROR (put_regs (set_bx n) s))
  else if ah =? 0x4e then page_map_functions s
  else if ah =? 0x4f then answer (EMM_PartialPageMapping s)
  else if ah =? 0x50 then map_multiple s
  else if ah =? 0x51 then answer (EMM_ReallocatePages dx bx s)
  else if ah =? 0x52 then answer (ok (GetSetHandleAttributes s))
  else if ah =? 0x53 then answer (GetSetHandleName s)
  else if ah =? 0x54 then answer (ok (HandleNameSearch s))
  else if ah =? 0x57 then answer (MemoryRegion s)
  else if ah =? 0x58 then
    let s := if al =? 0x00 then physical_array 4 0 (seg_address es (reg_di (regs s)) s) s else s in
    ok (put_ah EMM_NO_ERROR (put_regs (set_cx EMM_MAX_PHYS) s))
  else if ah =? 0x59 then ok (hardware_information s)
  else if ah =? 0x5A then
    if al <=? 0x01 then allocate true s else ok (put_ah EMM_INVALID_SUB s)
  else if ah =? 0xDE then
    if negb (enabled (vcpi s)) then ok (put_ah EMM_FUNC_NOSUP s) else vcpi_functions fuel s
  else ok (put_ah EMM_FUNC_NOSUP s).

(** ** Calls from protected mode *)
Definition stack_address (off : Z) c : Z := u32 (SegPhys ss c + Z.land (u32 (esp c + off)) (mask (stack c))).
Definition to_v86 (fuel : nat) (area : Z) c : exec (CPU M) :=
  let c := clear_eflags FLAG_IF c in
  let c := mem_writed (stack_address 0 c + 0x10) 0x23002 c in
  let c := CPU_SET_CRX 0 (Z.land (CPU_GET_CRX 0 c) 0x7ffffff7) c in
  let c := CPU_SET_CRX 3 0 c in
  let c := clear_busy (u32 (area + 0x10 + 5)) c in
  let c := CPU_LIDT 0x7ff (u32 (area + 0x2000)) (CPU_LGDT 0xff (u32 area) c) in
  let c := snd (CPU_LLDT 0x08 c) in
  let* (_, c) := CPU_LTR 0x10 c in
  let c := put_esp (esp c + 8) (clear_eflags FLAG_NT c) in
  CPU_IRET fuel true 0 c.
Definition VCPI_PM_Handler (fuel : nat) s : exec (Ems M) :=
  let ax := reg_ax (regs s) in
  if ax =? 0xDE03 then ok (vcpi_free_pages s)
  else if ax =? 0xDE04 then vcpi_allocate s
  else if ax =? 0xDE05 then vcpi_free s
  else if ax =? 0xDE0C then
    let* c := to_v86 fuel (private_area (vcpi s)) (machine s) in ok (on_machine (fun _ => c) s)
  else ok s.

(** ** The monitor of virtual-8086 mode *)
Definition numbered_reg (i : Z) (r : CPU_Regs) : Z :=
  match i with 0 => reg_eax r | 1 => reg_ecx r | 2 => reg_edx r | 3 => reg_ebx r
             | 4 => reg_esp r | 5 => reg_ebp r | 6 => reg_esi r | _ => reg_edi r end.
Definition set_numbered_reg (i v : Z) (r : CPU_Regs) : CPU_Regs :=
  match i with 0 => set_eax v r | 1 => set_ecx v r | 2 => set_edx v r | 3 => set_ebx v r
             | 4 => set_esp v r | 5 => set_ebp v r | 6 => set_esi v r | _ => set_edi v r end.
Definition stack_readw (off : Z) c : Z := mem_readw (stack_address off c) c.
Definition stack_writew (off v : Z) c : CPU M := mem_writew (stack_address off c) v c.
Definition stack_writed (off v : Z) c : CPU M := mem_writed (stack_address off c) v c.
Definition v86_io_read (wide : bool) (port : Z) c : CPU M :=
  if wide then let '(v, m) := IO_ReadW port (mem c) in set_regs (set_ax (Z.land v 0xffff)) (with_mem m c)
  else let '(v, m) := IO_ReadB port (mem c) in set_regs (set_al (Z.land v 0xff)) (with_mem m c).
Definition v86_io_write (wide : bool) (port : Z) c : CPU M :=
  if wide then with_mem (IO_WriteW port (reg_ax (cpu_regs (core c))) (mem c)) c
  else with_mem (IO_WriteB port (reg_al (cpu_regs (core c))) (mem c)) c.
(** MOV between a control register and a register. *)
Definition v86_control_register (code rm_val : Z) c : exec (CPU M) :=
  let which := Z.land (Z.shiftr rm_val 3) 7 in
  let i := Z.land rm_val 7 in
  if (code =? 0x20) || (code =? 0x22) then
    if (rm_val <? 0xc0) || (0xe8 <=? rm_val) then err Exit else
    if code =? 0x20 then ok (set_regs (set_numbered_reg i (CPU_GET_CRX which c)) c)
    else
      let crx := numbered_reg i (cpu_regs (core c)) in
      ok (CPU_SET_CRX which (if which =? 0 then Z.lor crx 1 else crx) c)
  else err Exit.
(** The instruction that faulted, carried out; with its length. *)
Definition v86_instruction (at_ : Z) c : exec (Z * CPU M) :=
  let opcode := readb_at at_ c in
  let imm := readb_at (at_ + 1) c in
  let dx := reg_dx (cpu_regs (core c)) in
  if opcode =? 0x0f then
    let* c := v86_control_register imm (readb_at (at_ + 2) c) c in ok (3, c)
  else if (opcode =? 0xe4) || (opcode =? 0xe5) then ok (2, v86_io_read (opcode =? 0xe5) imm c)
  else if (opcode =? 0xe6) || (opcode =? 0xe7) then ok (2, v86_io_write (opcode =? 0xe7) imm c)
  else if (opcode =? 0xec) || (opcode =? 0xed) then ok (1, v86_io_read (opcode =? 0xed) dx c)
  else if (opcode =? 0xee) || (opcode =? 0xef) then ok (1, v86_io_write (opcode =? 0xef) dx c)
  else if opcode =? 0xf0 then ok (1, c)
  else if opcode =? 0xf4 then
    let c := or_eflags FLAG_IF c in ok (1, CPU_HLT (reg_eip c) c)
  else err Exit.
Definition v86_fault c : exec (CPU M) :=
  let c := put_esp (esp c + 6) c in
  let v86_cs := stack_readw 4 c in
  let v86_ip := stack_readw 0 c in
  let* (len, c) := v86_instruction (Z.shiftl v86_cs 4 + v86_ip) c in
  ok (stack_writew 0 (v86_ip + len) c).
(** The interrupt turned over to its handler in virtual-8086 mode. *)
Definition v86_interrupt (int_num : Z) c : CPU M :=
  let vint_vector_seg := mem_readw (SegValue ds c + int_num + 2) c in
  let vint_vector_ofs := mem_readw int_num c in
  let c := put_esp (esp c + (if negb (reg_sp (cpu_regs (core c)) =? 0x1fda) then 2 + 3 * 4 else 2)) c in
  let return_ip := stack_readw 0 c in
  let return_cs := stack_readw 4 c in
  let return_eflags := mem_readd (stack_address 8 c) c in
  let c := stack_writed 0 vint_vector_ofs c in
  let c := stack_writed 4 vint_vector_seg c in
  let c := stack_writed 8 (Z.land return_eflags (Z.lnot (Z.lor FLAG_IF FLAG_TF))) c in
  let v86_ss := stack_readw 0x10 c in
  let v86_sp := u16 (stack_readw 0x0c c - 6) in
  let c := stack_writew 0x0c v86_sp c in
  let base := Z.shiftl v86_ss 4 + v86_sp in
  mem_writew (base + 4) (Z.land return_eflags 0xffff)
    (mem_writew (base + 2) return_cs (mem_writew base return_ip c)).
(** [int_num] is four times the number, in a [Bitu]. *)
Definition V86_Monitor s : exec (Ems M) :=
  let c := machine s in
  let int_num := u64 (stack_readw 0 c - 0x2803) in
  if (int_num =? 0x0d * 4) && negb (reg_sp (cpu_regs (core c)) =? 0x1fda) then
    let* c := v86_fault c in ok (on_machine (fun _ => c) s)
  else ok (on_machine (v86_interrupt int_num) s).

(** ** Tables of the server *)
Definition descriptor_low (address low : Z) : Z := Z.lor (u32 (Z.shiftl (Z.land address 0xffff) 16)) low.
Definition descriptor_high (address attributes : Z) : Z :=
  Z.lor (Z.lor (Z.shiftr (Z.land address 0xff0000) 16) (Z.land address 0xff000000)) attributes.
Fixpoint write_dwords (l : list Z) (at_ : Z) s : Ems M :=
  match l with [] => s | v :: l => write_dwords l (at_ + 4) (wrd at_ v s) end.
Fixpoint idt_setup (n : nat) (int_ct area : Z) s : Ems M :=
  match n with
  | O => s
  | S n =>
      let s := wrb (area + 0x2800 + int_ct * 4) 0xe8 s in
      let s := wrw (area + 0x2800 + int_ct * 4 + 1) (0x05fd - int_ct * 4) s in
      let s := wrb (area + 0x2800 + int_ct * 4 + 3) 0xcf s in
      let s := wrd (area + 0x2000 + int_ct * 8) (Z.lor 0x000c0000 (0x2800 + int_ct * 4)) s in
      let s := wrd (area + 0x2000 + int_ct * 8 + 4) 0x0000ee00 s in
      idt_setup n (int_ct + 1) area s
  end.
(** The loop that clears the task state segment: every round writes the same byte. *)
Fixpoint clear_tss (n : nat) (area : Z) s : Ems M :=
  match n with O => s | S n => clear_tss n area (wrb (area + 0x3000) 0 s) end.
Definition SetupVCPI s : exec (Ems M) :=
  let* h := read (emm_handles s) 0 in
  let area := Z.shiftl (hmem h) 12 in
  let s := set_vcpi (mkVcpi true 0 (pm_interface (vcpi s)) area 0x08 0x70) s in
  let ldt_address := u32 (area + 0x1000) in
  let tss_address := u32 (area + 0x3000) in
  let s := write_dwords [0; 0; descriptor_low ldt_address 0xff; descriptor_high ldt_address 0x8200;
                         descriptor_low tss_address (0x0068 + 0x200); descriptor_high tss_address 0x8900] area s in
  let s := write_dwords [0; 0; descriptor_low area 0xffff; descriptor_high area 0x9a00;
                         descriptor_low area 0xffff; descriptor_high area 0x9200] (area + 0x1000) s in
  let s := idt_setup 0x100 0 area s in
  let s := clear_tss (0x68 + 0x200) area s in
  let s := wrd (area + 0x3004) 0x00002000 s in
  let s := wrd (area + 0x3008) 0x00000014 s in
  ok (wrd (area + 0x3066) 0x0068 s).

(** ** Interrupt 4Bh *)
Definition CALLBACK_SCF (val : bool) s : Ems M :=
  let at_ := u32 (Z.shiftl (seg_value ss s) 4 + u16 (reg_sp (regs s) + 4)) in
  let tempf := rdw at_ s in
  wrw at_ (if val then Z.lor tempf FLAG_CF else Z.land tempf (Z.lnot FLAG_CF)) s.
Definition INT4B_Handler s : Ems M :=
  if reg_ah (regs s) =? 0x81 then put_regs (set_ax 0x1) (CALLBACK_SCF true s) else s.

(** ** Start and end

    The parts of the constructor and of the destructor that touch the manager's own
    state; [type] is what [GetEMSType] makes of the setting, and the numbers of the
    callbacks that are installed are arguments.  A handle's saved page map is left as
    it is. *)
Definition fresh_handle (h : EMM_Handle) : EMM_Handle := mkHandle NULL_HANDLE 0 no_name (saved_page_map h) (page_map h).
Definition clear_tables s : Ems M :=
  set_segmentmappings (replicate 64 unmapped) (set_mappings (replicate 4 unmapped)
    (set_handles (map fresh_handle (emm_handles s)) s)).
Definition set_type (t : Z) s : Ems M :=
  mkEms (machine s) (mhandles s) t (emm_handles s) (emm_mappings s) (emm_segmentmappings s) (vcpi s).
Definition monitor_code (area callback : Z) s : Ems M :=
  let s := wrb (area + 0x2e00) 0xFE s in
  let s := wrb (area + 0x2e01) 0x38 s in
  let s := wrw (area + 0x2e02) callback s in
  let s := wrb (area + 0x2e04) 0x66 s in
  wrb (area + 0x2e05) 0xCF s.
Definition with_interface (v : Z) (w : Vcpi) : Vcpi :=
  mkVcpi (enabled w) (ems_handle w) v (private_area w) (pic1_remapping w) (pic2_remapping w).
Definition with_enabled (b : bool) (w : Vcpi) : Vcpi :=
  mkVcpi b (ems_handle w) (pm_interface w) (private_area w) (pic1_remapping w) (pic2_remapping w).
Definition EMS_start (type : Z) (pcjr : bool) (call_vcpi call_v86mon : Z) s : exec (Ems M) :=
  let s := set_type type (set_vcpi (with_enabled false (vcpi s)) s) in
  if type <=? 0 then ok s else
  if pcjr then ok (set_type 0 s) else
  let s := clear_tables s in
  let* (_, s) := EMM_AllocateSystemHandle 24 s in
  if type =? 2 then ok s else
  let s := set_vcpi (with_interface (call_vcpi * CB_SIZE) (vcpi s)) s in
  let* s := SetupVCPI s in
  ok (monitor_code (private_area (vcpi s)) call_v86mon s).
Definition EMS_end s : exec (Ems M) :=
  if ems_type s <=? 0 then ok s else
  let* h := read (emm_handles s) EMM_SYSTEM_HANDLE in
  let* s := (if negb (pages h =? NULL_HANDLE)
             then let* mh := MEM_ReleasePages (hmem h) (mhandles s) in ok (set_mhandles mh s) else ok s) in
  if negb (enabled (vcpi s)) then ok s else
  if in_v86 s then
    ok (cpu_put (fun c => with_cpl 0 (CPU_LIDT 0x3ff 0
          (clear_eflags (Z.lor FLAG_IOPL FLAG_VM) (CPU_SET_CRX 3 0 (CPU_SET_CRX 0 0 c))))) s)
  else ok s.

(** ** The device: [device_EMM::ReadFromControlChannel]

    [GEMMIS_seg] is the segment that DOS gave for the table.  The result is the value of
    [retcode], [None] where the call fails. *)
Fixpoint gemmis_frames (n : nat) (frct addr : Z) s : Ems M :=
  match n with
  | O => s
  | S n =>
      let at_ := addr + frct * 6 in
      let s := wrb (at_ + 0x0a) 0x00 s in
      let s := wrb (at_ + 0x0b) 0xff s in
      let s := wrw (at_ + 0x0c) 0xffff s in
      let s := wrb (at_ + 0x0e) 0xff s in
      gemmis_frames n (frct + 1) addr (wrb (at_ + 0x0f) 0xaa s)
  end.
Fixpoint gemmis_page_frame (n : nat) (frct addr : Z) s : Ems M :=
  match n with
  | O => s
  | S n =>
      let at_ := addr + (frct + EMM_PAGEFRAME4K / 4) * 6 in
      let s := wrb (at_ + 0x0a) 0x03 s in
      let s := wrb (at_ + 0x0b) 0xff s in
      let s := wrw (at_ + 0x0c) 0x7fff s in
      let s := wrb (at_ + 0x0e) (Z.land frct 0xff) s in
      gemmis_page_frame n (frct + 1) addr (wrb (at_ + 0x0f) 0x00 s)
  end.
Definition gemmis_import (GEMMIS_seg bufptr : Z) s : exec (Ems M) :=
  let addr := Z.shiftl GEMMIS_seg 4 in
  let s := wrw addr 0x0004 s in
  let s := wrw (addr + 0x02) 0x019d s in
  let s := wrw (addr + 0x04) GEMMIS_VERSION s in
  let s := wrd (addr + 0x06) 0 s in
  let s := gemmis_frames (Z.to_nat (EMM_PAGEFRAME4K / 4)) 0 addr s in
  let s := gemmis_page_frame 4 0 addr s in
  let s := wrb (addr + 0x18a) 0x74 s in
  let s := wrb (addr + 0x18b) 0x00 s in
  let s := wrb (addr + 0x18c) 0x01 s in
  let s := wrw (addr + 0x18d) 0x0000 s in
  let s := wrd (addr + 0x18f) 0 s in
  let s := wrd (addr + 0x193) 0 s in
  let* h := read (emm_handles s) EMM_SYSTEM_HANDLE in
  let s := if negb (pages h =? NULL_HANDLE)
           then wrd (addr + 0x199) (Z.shiftl (hmem h) 12) (wrw (addr + 0x197) ((pages h + 3) / 4) s)
           else wrd (addr + 0x199) 0x00110000 (wrw (addr + 0x197) 0x0001 s) in
  ok (wrw (bufptr + 0x04) GEMMIS_VERSION (wrd bufptr (Z.shiftl GEMMIS_seg 4) s)).
Definition ReadFromControlChannel (is_emm386 : bool) (GEMMIS_seg bufptr size : Z) s : exec (option Z * Ems M) :=
  let subfct := rdb bufptr s in
  if subfct =? 0x00 then
    if negb (size =? 6) then ok (None, s) else
    ok (Some 6, wrd (bufptr + 0x02) 0 (wrw bufptr 0x0023 s))
  else if subfct =? 0x01 then
    if negb is_emm386 then ok (None, s) else
    if negb (size =? 6) then ok (None, s) else
    let* s := gemmis_import GEMMIS_seg bufptr s in ok (Some 6, s)
  else if subfct =? 0x02 then
    if negb is_emm386 then ok (None, s) else
    if negb (size =? 2) then ok (None, s) else
    ok (Some 2, wrb (bufptr + 0x01) EMM_MINOR_VERSION (wrb bufptr (Z.shiftr EMM_VERSION 4) s))
  else if subfct =? 0x03 then
    if negb is_emm386 then ok (None, s) else
    if EMM_MINOR_VERSION <? 0x2d then ok (None, s) else
    if negb (size =? 4) then ok (None, s) else
    let s := wrw bufptr (Z.min 0xffff (u32 (MEM_TotalPages (mhandles s) * 4))) s in
    ok (Some 2, wrw (bufptr + 0x02) 0x80 s)
  else ok (None, s).
End Handler.
