(* ===== verification/EmsProofs.v ===== *)
(** * The expanded memory manager keeps its pages

    The invariant that ties the handles to the blocks of the page allocator, what
    allocation, resizing and release do on every branch, and that no function of
    interrupt 67h outside VCPI breaks the invariant. *)
From S2P Require Import Prelude.
From S2P Require Import Registers.
From S2P Require Import GuestMemory.
From S2P Require Import PageAlloc.
From S2P Require Import PageSearch.
From S2P Require Import PageBlocks.
From S2P Require Import PageOverrun.
From S2P Require Import PageTheorems.
From S2P Require Import PageResize.
From S2P Require Import CpuState.
From S2P Require Import Ems.
#[local] Open Scope Z_scope.
#[local] Open Scope exec_scope.

(** The pages [c] of a handle: four for each of its pages. *)
Definition no_pages (h : EMM_Handle) : bool := (pages h =? 0) || (pages h =? NULL_HANDLE).
Definition ems_held (h : EMM_Handle) (c : list Z) : Prop :=
  0 <= pages h /\
  if no_pages h then c = [] else c <> [] /\ hmem h = hd 0 c /\ Z.of_nat (length c) = 4 * pages h.

(** The sizes of the arrays. *)
Definition handle_typed (h : EMM_Handle) : Prop := length (name h) = 8%nat /\ length (page_map h) = 4%nat.

Section Invariant.
Context {M : Type} `{ByteMemory M} `{PageMapping M}.
Implicit Types (s : Ems M) (bl others : list (list Z)) (h : EMM_Handle).

Record ems_typed s : Prop := {
  typed_count : length (emm_handles s) = 200%nat;
  typed_handles : Forall handle_typed (emm_handles s);
  typed_frame : length (emm_mappings s) = 4%nat;
  typed_segments : length (emm_segmentmappings s) = 64%nat }.
(** [others] are the blocks of other clients; memory is below 1 GB, so that a number of
    pages fits its field. *)
Record ems_inv bl others s : Prop := {
  ems_types : ems_typed s;
  ems_blocks : Forall2 ems_held (emm_handles s) bl;
  ems_owned : owned (mhandles s) (real_blocks bl ++ others);
  ems_range : XMS_START <= npages (mhandles s) < 0x3fffc }.
Lemma ems_count bl others s : ems_inv bl others s -> length (emm_handles s) = 200%nat.
Proof using. intros Hi. apply typed_count, Hi. Qed.
Lemma typed_at s i h : ems_typed s -> get (emm_handles s) i = Some h -> handle_typed h.
Proof using.
  intros Ht Hh. unfold get in Hh. destruct (i <? 0); [done|]. pose proof (typed_handles _ Ht) as Hf.
  rewrite Forall_lookup in Hf. by eapply Hf.
Qed.
Lemma typed_put s i h : ems_typed s -> handle_typed h -> ems_typed (set_handles (<[i := h]> (emm_handles s)) s).
Proof using.
  intros [T1 T2 T3 T4] Hh. split; cbn; try done; [by rewrite length_insert|by apply Forall_insert].
Qed.

Lemma ems_valid handle s : 0 <= handle -> ValidHandle handle s = true ->
  0 <= handle < 200 /\ exists h, get (emm_handles s) handle = Some h /\ pages h <> NULL_HANDLE.
Proof using.
  unfold ValidHandle, EMM_MAX_HANDLES. intros Hpos [Hl Hg]%andb_prop. apply Z.ltb_lt in Hl. split; [lia|].
  destruct (get (emm_handles s) handle) as [h|]; [|done]. exists h. split; [done|].
  destruct (Z.eqb_spec (pages h) NULL_HANDLE); [done|lia].
Qed.
Lemma ems_at bl others s handle h : ems_inv bl others s -> get (emm_handles s) handle = Some h ->
  exists c, bl !! Z.to_nat handle = Some c /\ ems_held h c.
Proof using.
  intros Hi Hb. unfold get in Hb. destruct (handle <? 0); [done|].
  destruct (Forall2_lookup_l _ _ _ _ _ (ems_blocks _ _ _ Hi) Hb) as (c & Hc & Hh). by exists c.
Qed.
Lemma ems_split bl others s i c :
  ems_inv bl others s -> bl !! i = Some c ->
  exists rest, owned (mhandles s) (real_blocks [c] ++ rest ++ others) /\
    forall c', real_blocks (<[i := c']> bl) ≡ₚ real_blocks [c'] ++ rest.
Proof using.
  intros Hi Hc. destruct (real_blocks_open bl _ c Hc) as (rest & Hp & Hp'). exists rest. split; [|done].
  eapply owned_perm; [|apply (ems_owned _ _ _ Hi)]. by rewrite Hp, app_assoc.
Qed.
(** The invariant after an entry and the pages have changed. *)
Lemma ems_update bl others s i h' c' rest mh' :
  ems_inv bl others s -> handle_typed h' -> ems_held h' c' -> npages mh' = npages (mhandles s) ->
  real_blocks (<[i := c']> bl) ≡ₚ real_blocks [c'] ++ rest -> owned mh' (real_blocks [c'] ++ rest ++ others) ->
  ems_inv (<[i := c']> bl) others (set_handles (<[i := h']> (emm_handles s)) (set_mhandles mh' s)).
Proof using.
  intros Hi Ht Hh Hnp Hp Hown. split; cbn; rewrite ?Hnp; try apply Hi.
  - by apply (typed_put (set_mhandles mh' s) i h'); [split; apply Hi|].
  - apply Forall2_insert; [apply Hi|done].
  - eapply owned_perm; [|exact Hown]. by rewrite Hp, app_assoc.
Qed.
Lemma put_handle_ok handle h s : 0 <= handle < 200 -> length (emm_handles s) = 200%nat ->
  put_handle handle h s = ok (set_handles (<[Z.to_nat handle := h]> (emm_handles s)) s).
Proof using. intros Hh Hl. unfold put_handle. by rewrite write_upd by (rewrite Hl; lia). Qed.

(** Two assignments to the fields of an entry, the second one after other steps. *)
Lemma put_twice {A} handle h1 h2 s (k : exec (Ems M) -> exec A) : 0 <= handle < 200 -> length (emm_handles s) = 200%nat ->
  (let* s := put_handle handle h1 s in k (put_handle handle h2 s)) = k (put_handle handle h2 s).
Proof using.
  intros Hh Hl. rewrite !put_handle_ok by done. cbn [exec_bind]. rewrite put_handle_ok by (done || (cbn; by rewrite length_insert)).
  cbn [emm_handles set_handles]. by rewrite list_insert_insert_eq.
Qed.
Lemma with_same h : with_pages (pages h) (hmem h) h = h.
Proof using. by destruct h. Qed.

(** ** Free pages and handles *)
Lemma free_pages_room n s : 0 <= n -> (get_free_pages s <? n) = false -> 4 * n <= MEM_FreeTotal (mhandles s) /\ n <= MaxPages.
Proof using. unfold get_free_pages, MaxPages, EMM_MAX_PHYS. intros Hn Hf. apply Z.ltb_ge in Hf. zlia. Qed.
Lemma ems_free_handle_spec l i : 0 <= i -> match first_free_handle l i with
  | Some k => i <= k < i + Z.of_nat (length l) /\ exists h, l !! Z.to_nat (k - i) = Some h /\ pages h = NULL_HANDLE
  | None => Forall (fun h => pages h <> NULL_HANDLE) l end.
Proof using.
  revert i. induction l as [|h l IH]; intros i Hi; cbn [first_free_handle length]; [constructor|].
  destruct (Z.eqb_spec (pages h) NULL_HANDLE).
  - split; [lia|]. exists h. by rewrite Z.sub_diag.
  - specialize (IH (i + 1) ltac:(lia)). destruct (first_free_handle l (i + 1)) as [k|]; [|by constructor].
    destruct IH as (Hk & h' & Hh' & Hp). split; [lia|]. exists h'. split; [|done].
    by replace (Z.to_nat (k - i)) with (S (Z.to_nat (k - (i + 1)))) by lia.
Qed.
Lemma free_handle_at bl others s k :
  ems_inv bl others s -> first_free_handle (drop 1 (emm_handles s)) 1 = Some k ->
  0 < k < 200 /\ bl !! Z.to_nat k = Some [] /\ exists h, get (emm_handles s) k = Some h.
Proof using.
  intros Hi E. pose proof (ems_free_handle_spec (drop 1 (emm_handles s)) 1 ltac:(lia)) as Hk. rewrite E in Hk.
  destruct Hk as (Hk & h & Hh & Hp). rewrite length_drop, (ems_count _ _ _ Hi) in Hk. split; [lia|].
  rewrite lookup_drop in Hh. replace (1 + Z.to_nat (k - 1))%nat with (Z.to_nat k) in Hh by lia.
  destruct (Forall2_lookup_l _ _ _ _ _ (ems_blocks _ _ _ Hi) Hh) as (c & Hc & _ & Hc'). unfold no_pages in Hc'.
  rewrite Hp, orb_true_r in Hc'. subst c. split; [done|]. exists h. unfold get. by destruct (Z.ltb_spec k 0); [lia|].
Qed.

(** The pages of a handle: those it had before come first. *)
Definition extends (c c' : list Z) : Prop := exists d, c = c' ++ d \/ c' = c ++ d.

(** ** Allocation *)
Lemma allocate_block bl others s n :
  ems_inv bl others s -> 0 < n -> 4 * n <= MEM_FreeTotal (mhandles s) ->
  forall rest, owned (mhandles s) (rest ++ others) ->
  if overruns (mhandles s) (4 * n) then MEM_AllocatePages (n * 4) false (mhandles s) = err OutOfBounds else
  exists mh' c, MEM_AllocatePages (n * 4) false (mhandles s) = ok (hd 0 c, mh') /\ npages mh' = npages (mhandles s) /\
    Z.of_nat (length c) = 4 * n /\ hd 0 c <> 0 /\ c <> [] /\ owned mh' (real_blocks [c] ++ rest ++ others) /\
    (forall i, i ∈ c -> get (mhandles s) i = Some 0) /\ (forall i, i ∉ c -> get mh' i = get (mhandles s) i).
Proof using.
  intros Hi Hn Hf rest Hown. pose proof (ems_range _ _ _ Hi) as Hr.
  pose proof (Allocate_scattered _ _ (n * 4) Hown ltac:(lia) ltac:(lia)) as Ha.
  destruct (Z.ltb_spec (MEM_FreeTotal (mhandles s)) (n * 4)); [lia|]. rewrite (Z.mul_comm 4 n) in *. destruct (overruns _ _); [done|].
  destruct Ha as (h & mh' & c & E & Hnp & Hl & -> & Hx & Hfr & Ho & Hout). exists mh', c.
  assert (c <> []) as Hne by (intros ->; cbn in Hl; lia). unfold XMS_START in Hx.
  rewrite real_blocks_one by done. split; [done|]. split; [done|]. split; [lia|]. split; [lia|]. done.
Qed.

(** A handle that gets the block [c']: its entry and the pages change. *)
Lemma take_block bl others s i h' c' rest mh' :
  ems_inv bl others s -> 0 <= i < 200 ->
  (forall c', real_blocks (<[Z.to_nat i := c']> bl) ≡ₚ real_blocks [c'] ++ rest) ->
  handle_typed h' -> ems_held h' c' -> npages mh' = npages (mhandles s) -> owned mh' (real_blocks [c'] ++ rest ++ others) ->
  exists s', put_handle i h' (set_mhandles mh' s) = ok s' /\ (mhandles s' = mh' /\ get (emm_handles s') i = Some h') /\
    ems_inv (<[Z.to_nat i := c']> bl) others s'.
Proof using.
  intros Hi Hk Hp Ht Hh Hnp Ho. eexists. split; [apply put_handle_ok; [done|exact (ems_count _ _ _ Hi)]|]. split.
  { split; [done|]. apply (get_upd_eq (emm_handles s)). rewrite (ems_count _ _ _ Hi). lia. }
  by apply (ems_update bl others s _ h' c' rest mh').
Qed.
Lemma same_pages s : set_mhandles (mhandles s) s = s.
Proof using. by destruct s. Qed.

Lemma held_block n c m nm b pm : 0 < n < NULL_HANDLE -> c <> [] -> m = hd 0 c -> Z.of_nat (length c) = 4 * n ->
  ems_held (mkHandle n m nm b pm) c.
Proof using.
  intros Hn Hne -> Hl. unfold NULL_HANDLE in Hn. split; [cbn; lia|]. unfold no_pages, NULL_HANDLE. cbn.
  rewrite (proj2 (Z.eqb_neq n 0)), (proj2 (Z.eqb_neq n 65535)) by lia. done.
Qed.
Lemma held_none h n m : n = 0 \/ n = NULL_HANDLE -> ems_held (with_pages n m h) [].
Proof using. intros [-> | ->]; by split. Qed.

Lemma allocate_cases bl others s n z :
  ems_inv bl others s -> 0 <= n ->
  if (n =? 0) && negb z then EMM_AllocateMemory n z s = ok (EMM_ZERO_PAGES, None, s) else
  if get_free_pages s <? n then EMM_AllocateMemory n z s = ok (EMM_OUT_OF_LOG, None, s) else
  match first_free_handle (drop 1 (emm_handles s)) 1 with
  | None => EMM_AllocateMemory n z s = ok (EMM_OUT_OF_HANDLES, None, s)
  | Some k => if overruns (mhandles s) (4 * n) then EMM_AllocateMemory n z s = err OutOfBounds else exists s' c, EMM_AllocateMemory n z s = ok (EMM_NO_ERROR, Some k, s') /\
      0 < k < 200 /\ bl !! Z.to_nat k = Some [] /\
      ems_inv (<[Z.to_nat k := c]> bl) others s' /\ Z.of_nat (length c) = 4 * n /\
      (exists h, get (emm_handles s') k = Some h /\ pages h = n) /\
      (forall i, i ∈ c -> get (mhandles s) i = Some 0) /\ (forall i, i ∉ c -> get (mhandles s') i = get (mhandles s) i)
  end.
Proof using.
  intros Hi Hn. unfold EMM_AllocateMemory. destruct ((n =? 0) && negb z); [done|].
  destruct (get_free_pages s <? n) eqn:Ef; [done|]. apply free_pages_room in Ef as [Hroom Hmax]; [|done].
  destruct (first_free_handle _ 1) as [k|] eqn:Ek; [|done].
  destruct (free_handle_at bl others s k Hi Ek) as (Hk & Hc & h & Hh). pose proof (typed_at _ _ _ (ems_types _ _ _ Hi) Hh) as Hty.
  destruct (ems_split bl others s _ _ Hi Hc) as (rest & Ho & Hp).
  destruct (Z.eqb_spec n 0) as [->|Hn0]; cbn [exec_bind].
  - rewrite (overruns_nothing _ : overruns _ (4 * 0) = false), (read_get _ _ _ Hh). cbn [exec_bind].
    destruct (take_block bl others s k (with_pages 0 0 h) [] rest (mhandles s)) as (s' & E & [Hm Hent] & Hi'); try done; try lia.
    rewrite same_pages in E. rewrite E. cbn [exec_bind].
    exists s', []. rewrite Hm. split; [done|]. split; [done|]. split; [done|]. split; [done|]. split; [done|]. split; [by eexists|].
    by split; [intros i ?%elem_of_nil|].
  - pose proof (allocate_block bl others s n Hi ltac:(lia) Hroom rest Ho) as Hb.
    destruct (overruns _ (4 * n)); [by rewrite Hb|]. destruct Hb as (mh' & c & E & Hnp & Hl & Hz & Hne & Hown & Hfr & Hout).
    rewrite E. cbn [exec_bind]. rewrite (proj2 (Z.eqb_neq (hd 0 c) 0)) by done. cbn [exec_bind].
    change (emm_handles (set_mhandles mh' s)) with (emm_handles s). rewrite (read_get _ _ _ Hh). cbn [exec_bind].
    destruct (take_block bl others s k (with_pages n (hd 0 c) h) c rest mh') as (s' & E' & [Hm Hent] & Hi'); try done; try lia;
      [apply held_block; [unfold MaxPages, NULL_HANDLE in *; lia|done..]|]. rewrite E'. cbn [exec_bind]. exists s', c. rewrite Hm. do 5 (split; [done|]). split; [by eexists|done].
Qed.

(** ** Release *)
Lemma release_cases bl others s handle :
  ems_inv bl others s -> 0 <= handle ->
  if negb (ValidHandle handle s) then EMM_ReleaseMemory handle s = ok (EMM_INVALID_HANDLE, s) else
  exists s' c, EMM_ReleaseMemory handle s = ok (EMM_NO_ERROR, s') /\ bl !! Z.to_nat handle = Some c /\
    ems_inv (<[Z.to_nat handle := []]> bl) others s' /\
    (exists h, get (emm_handles s') handle = Some h /\ pages h = if handle =? 0 then 0 else NULL_HANDLE) /\
    forall i, get (mhandles s') i = if decide (i ∈ c) then Some 0 else get (mhandles s) i.
Proof using.
  intros Hi Hpos. unfold EMM_ReleaseMemory. destruct (ValidHandle handle s) eqn:Hv; cbn [negb]; [|done].
  apply ems_valid in Hv as (Hk & h & Hh & Hn); [|done]. destruct (ems_at _ _ _ _ _ Hi Hh) as (c & Hc & Hp0 & Hheld).
  pose proof (typed_at _ _ _ (ems_types _ _ _ Hi) Hh) as Hty.
  destruct (ems_split bl others s _ _ Hi Hc) as (rest & Ho & Hp). rewrite (read_get _ _ _ Hh). cbn [exec_bind].
  remember (if handle =? 0 then 0 else NULL_HANDLE) as n eqn:En. assert (n = 0 \/ n = NULL_HANDLE) as Hnn by (subst n; destruct (handle =? 0); auto).
  unfold no_pages in Hheld. rewrite (proj2 (Z.eqb_neq _ _) Hn), orb_false_r in Hheld.
  assert (exists mh', (if negb (pages h =? 0) then let* mh := MEM_ReleasePages (hmem h) (mhandles s) in ok (set_mhandles mh s) else ok s)
            = ok (set_mhandles mh' s) /\ npages mh' = npages (mhandles s) /\ owned mh' (rest ++ others) /\
            forall i, get mh' i = if decide (i ∈ c) then Some 0 else get (mhandles s) i) as (mh' & -> & Hnp & Hown & Hget).
  { destruct (pages h =? 0); cbn [negb].
    - subst c. exists (mhandles s). rewrite same_pages. do 3 (split; [done|]). intros i. by rewrite decide_False by apply not_elem_of_nil.
    - destruct Hheld as (Hne & -> & _). rewrite real_blocks_one in Ho by done.
      destruct (Release_owned _ _ _ Ho) as (mh' & -> & Hr). by exists mh'. }
  cbn [exec_bind].
  destruct (take_block bl others s handle (mkHandle n 0 no_name false (page_map h)) [] rest mh') as (s' & E & [Hm Hent] & Hi'); try done.
  { split; [done|apply Hty]. }
  { by apply (held_none (mkHandle 0 0 no_name false (page_map h)) n 0). }
  rewrite E. cbn [exec_bind]. exists s', c. rewrite Hm. do 3 (split; [done|]). split; [by eexists|done].
Qed.

(** ** Resizing *)
Lemma owned_length mh c cs : owned mh (c :: cs) -> Z.of_nat (length c) <= npages mh.
Proof using. intros (_ & _ & _ & Hf)%owned_pages. unfold walk_fuel, npages in *. lia. Qed.
Lemma resize_block bl others s c n rest :
  ems_inv bl others s -> c <> [] -> 0 <= n -> owned (mhandles s) (real_blocks [c] ++ rest ++ others) ->
  let r := MEM_ReAllocatePages (hd 0 c) (n * 4) false (mhandles s) (guest s) in
  if MEM_FreeTotal (mhandles s) <? 4 * n - Z.of_nat (length c) then r = ok (false, hd 0 c, mhandles s, guest s)
  else if overruns (mhandles s) (4 * n - Z.of_nat (length c)) then r = err OutOfBounds
  else exists mh' c' m, r = ok (true, m, mh', guest s) /\ npages mh' = npages (mhandles s) /\ Z.of_nat (length c') = 4 * n /\
         owned mh' (real_blocks [c'] ++ rest ++ others) /\ extends c c' /\ (0 < n -> c' <> [] /\ m = hd 0 c').
Proof using.
  intros Hi Hne Hn Ho. rewrite real_blocks_one in Ho by done. pose proof (ems_range _ _ _ Hi) as Hr. cbv zeta.
  pose proof (FreeTotal_nonneg (mhandles s) ltac:(lia)) as Hft. destruct (Z.eq_dec n 0) as [->|Hn0].
  - destruct (Z.ltb_spec (MEM_FreeTotal (mhandles s)) (4 * 0 - Z.of_nat (length c))); [lia|]. rewrite overruns_positive by lia.
    destruct (owned_pages _ _ _ Ho) as (_ & Hs & _). unfold MEM_ReAllocatePages.
    assert (0 < hd 0 c) as Hhd by (destruct c; [done|destruct Hs as (_ & ? & _); done]).
    destruct (Z.leb_spec (hd 0 c) 0); [lia|]. destruct (Release_owned _ _ _ Ho) as (mh' & E & Hnp & Ho' & _).
    cbn [Z.mul Z.eqb]. rewrite E. cbn [exec_bind]. exists mh', [], (-1). do 4 (split; [done|]). split; [|lia].
    exists c. by left.
  - pose proof (ReAllocate_scattered _ _ _ (n * 4) (guest s) Ho ltac:(lia) ltac:(lia)) as Hs.
    rewrite (Z.mul_comm 4 n). destruct (MEM_FreeTotal (mhandles s) <? n * 4 - Z.of_nat (length c)); [done|].
    destruct (overruns _ _); [done|].
    destruct Hs as (mh' & c' & d & -> & Hnp & Hl & Ho' & Hd). exists mh', c', (hd 0 c').
    assert (c' <> []) as Hne' by (intros ->; cbn in Hl; lia). rewrite real_blocks_one by done.
    split; [done|]. split; [done|]. split; [lia|]. split; [done|]. split; [by exists d|done].
Qed.

Definition resize_outcome bl others s (handle n : Z) : Prop :=
  exists h c, get (emm_handles s) handle = Some h /\ bl !! Z.to_nat handle = Some c /\
  if (pages h =? 0) && ((n =? 0) || (MEM_FreeTotal (mhandles s) <? 4 * n)) then EMM_ReallocatePages handle n s = err Exit
  else if MEM_FreeTotal (mhandles s) <? 4 * (n - pages h) then EMM_ReallocatePages handle n s = ok (EMM_OUT_OF_LOG, s)
  else if overruns (mhandles s) (4 * (n - pages h)) then EMM_ReallocatePages handle n s = err OutOfBounds
  else exists s' c', EMM_ReallocatePages handle n s = ok (EMM_NO_ERROR, s') /\
         ems_inv (<[Z.to_nat handle := c']> bl) others s' /\ Z.of_nat (length c') = 4 * n /\ extends c c'.
Lemma reallocate_cases bl others s handle n :
  ems_inv bl others s -> 0 <= handle -> 0 <= n ->
  if negb (ValidHandle handle s) then EMM_ReallocatePages handle n s = ok (EMM_INVALID_HANDLE, s)
  else resize_outcome bl others s handle n.
Proof using.
  intros Hi Hpos Hn. unfold resize_outcome, EMM_ReallocatePages. destruct (ValidHandle handle s) eqn:Hv; cbn [negb]; [|done].
  apply ems_valid in Hv as (Hk & h & Hh & Hnn); [|done]. destruct (ems_at _ _ _ _ _ Hi Hh) as (c & Hc & Hp0 & Hheld).
  pose proof (typed_at _ _ _ (ems_types _ _ _ Hi) Hh) as Hty.
  destruct (ems_split bl others s _ _ Hi Hc) as (rest & Ho & Hp). rewrite (read_get _ _ _ Hh). cbn [exec_bind].
  exists h, c. split; [done|]. split; [done|]. pose proof (ems_range _ _ _ Hi) as Hr.
  unfold no_pages in Hheld. rewrite (proj2 (Z.eqb_neq _ _) Hnn), orb_false_r in Hheld.
  assert (forall mh' c', npages mh' = npages (mhandles s) -> owned mh' (real_blocks [c'] ++ rest ++ others) -> c' <> [] ->
            Z.of_nat (length c') = 4 * n -> n < NULL_HANDLE) as Hbound.
  { intros mh' c' Hnp Ho' Hne Hl. rewrite real_blocks_one in Ho' by done. apply owned_length in Ho'. unfold NULL_HANDLE. lia. }
  destruct (Z.eqb_spec (pages h) 0) as [Ez|Hnz]; cbn [negb andb].
  - subst c. destruct (Z.eqb_spec n 0) as [->|Hn0]; [done|]. cbn [orb].
    destruct (Z.ltb_spec (MEM_FreeTotal (mhandles s)) (4 * n)) as [Hlt|Hge].
    { pose proof (Allocate_scattered _ _ (n * 4) Ho ltac:(lia) ltac:(lia)) as Ha.
      destruct (Z.ltb_spec (MEM_FreeTotal (mhandles s)) (n * 4)); [by rewrite Ha|lia]. }
    rewrite Ez, Z.sub_0_r. destruct (Z.ltb_spec (MEM_FreeTotal (mhandles s)) (4 * n)); [lia|].
    pose proof (allocate_block bl others s n Hi ltac:(lia) Hge rest Ho) as Hb.
    destruct (overruns _ (4 * n)); [by rewrite Hb|]. destruct Hb as (mh' & c & E & Hnp & Hl & Hz & Hne & Hown & _).
    rewrite E. cbn [exec_bind]. rewrite (proj2 (Z.eqb_neq (hd 0 c) 0)) by done.
    destruct (take_block bl others s handle (with_pages n (hd 0 c) h) c rest mh') as (s' & E' & _ & Hi'); try done.
    { apply held_block; try done. split; [lia|by apply (Hbound mh' c)]. }
    rewrite E'. cbn [exec_bind]. exists s', c. do 3 (split; [done|]). exists c. by right.
  - destruct Hheld as (Hne & Hm & Hl). pose proof (resize_block bl others s c n rest Hi Hne Hn Ho) as Hs. cbv zeta in Hs.
    rewrite Hm. replace (4 * (n - pages h)) with (4 * n - Z.of_nat (length c)) by lia.
    destruct (MEM_FreeTotal (mhandles s) <? 4 * n - Z.of_nat (length c)); [|destruct (overruns _ _); [by rewrite Hs|]].
    + rewrite Hs. cbn [exec_bind]. rewrite put_handle_ok by (done || exact (ems_count _ _ _ Hi)). cbn [exec_bind negb]. do 2 f_equal.
      rewrite <- Hm. unfold set_guest, guest, on_machine, set_handles, set_mhandles, with_mem. cbn.
      rewrite with_same, list_insert_id; [by destruct s as [[] ? ? ? ? ? ?]|]. unfold get in Hh. by destruct (handle <? 0).
    + destruct Hs as (mh' & c' & m & -> & Hnp & Hl' & Ho' & Hd & Hpos'). cbn [exec_bind].
      cbn [negb]. rewrite (put_twice handle _ _ _ (fun r => let* s := r in ok (EMM_NO_ERROR, s))) by (done || exact (ems_count _ _ _ Hi)). cbv beta.
      replace (set_guest (guest s) (set_mhandles mh' s)) with (set_mhandles mh' s) by (by destruct s as [[] ? ? ? ? ? ?]).
      destruct (take_block bl others s handle (with_pages n m h) c' rest mh') as (s' & E & _ & Hi'); try done.
      { destruct (Z.eq_dec n 0) as [->|Hn0].
        - assert (c' = []) as -> by (destruct c'; [done|cbn in Hl'; lia]). apply held_none. by left.
        - destruct (Hpos' ltac:(lia)) as [Hne' ->]. apply held_block; try done. split; [lia|by apply (Hbound mh' c')]. }
      rewrite E. cbn [exec_bind]. by exists s', c'.
Qed.

(** ** What the invariant says of a valid handle *)
Lemma handle_block bl others s k h :
  ems_inv bl others s -> get (emm_handles s) k = Some h -> pages h <> NULL_HANDLE -> 0 < pages h ->
  exists c, bl !! Z.to_nat k = Some c /\ hmem h = hd 0 c /\ Z.of_nat (length c) = 4 * pages h /\
    seg (mhandles s) (hd 0 c) c (-1) /\ Forall (fun q => XMS_START <= q < npages (mhandles s)) c /\ pages h < NULL_HANDLE.
Proof using.
  intros Hi Hh Hn Hp. destruct (ems_at _ _ _ _ _ Hi Hh) as (c & Hc & _ & Hheld). unfold no_pages in Hheld.
  rewrite (proj2 (Z.eqb_neq _ _) Hn), orb_false_r, (proj2 (Z.eqb_neq (pages h) 0)) in Hheld by lia.
  destruct Hheld as (Hne & Hm & Hl). exists c. split; [done|]. split; [done|]. split; [done|].
  destruct (ems_split _ _ _ _ _ Hi Hc) as (rest & Ho & _). rewrite real_blocks_one in Ho by done.
  destruct (owned_pages _ _ _ Ho) as (_ & Hs & _). split; [done|].
  pose proof (owned_xms _ _ Ho) as Hx. cbn [concat] in Hx. apply list.Forall_app in Hx as [Hx _].
  pose proof (owned_length _ _ _ Ho) as Hb. pose proof (ems_range _ _ _ Hi). split; [|unfold NULL_HANDLE; lia].
  apply list.Forall_forall. intros q Hq. rewrite list.Forall_forall in Hx. specialize (Hx q Hq).
  pose proof (seg_range _ _ _ _ q Hs Hq). lia.
Qed.
Lemma valid_usable handle h s : get (emm_handles s) handle = Some h -> pages h <> NULL_HANDLE -> ems_typed s -> ValidHandle handle s = true.
Proof using.
  intros Hh Hn Ht. unfold ValidHandle. rewrite Hh. apply get_Some_range in Hh as Hr. rewrite (typed_count _ Ht) in Hr.
  rewrite (proj2 (Z.eqb_neq _ _) Hn). unfold EMM_MAX_HANDLES. by destruct (Z.ltb_spec handle 200); [|lia].
Qed.
End Invariant.
