(* ===== verification/EmsInvariant.v ===== *)
(** * Interrupt 67h keeps the invariant

    What the functions that map, save, report and move leave alone, and the theorem on
    the whole interrupt. *)
From S2P Require Import Prelude.
From S2P Require Import Registers.
From S2P Require Import GuestMemory.
From S2P Require Import PageAlloc.
From S2P Require Import PageBlocks.
From S2P Require Import PageOverrun.
From S2P Require Import CpuState.
From S2P Require Import CpuProtect.
From S2P Require Import Ems.
From S2P Require Import EmsVcpi.
From S2P Require Import EmsProofs.
#[local] Open Scope Z_scope.
#[local] Open Scope exec_scope.

Create HintDb keeps.
(** Chains of steps that keep the pages. *)
Ltac chain := unfold ClearTLB, put_ah, put_regs, set_guest, wrb, wrw, wrd, cpu_put in *; subst;
  first [reflexivity | solve [eauto 3 with keeps] | etrans; [|solve [eauto 3 with keeps]]; chain].

Section Keeps.
Context {M : Type} `{ByteMemory M} `{PageMapping M} `{PagingControl M} `{Config} `{PortIO M}.
Implicit Types (s : Ems M) (c : CPU M).

Definition entry (h : EMM_Handle) : Z * Z := (pages h, hmem h).
(** The pages and the handles' pages stay, and the arrays keep their sizes. *)
Record keeps_pages s s' : Prop := {
  kp_pages : mhandles s' = mhandles s;
  kp_entries : entry <$> emm_handles s' = entry <$> emm_handles s;
  kp_types : ems_typed s -> ems_typed s' }.
#[export] Instance keeps_preorder : PreOrder keeps_pages.
Proof using.
  split; [by intros s; split|]. intros s1 s2 s3 [A1 A2 A3] [B1 B2 B3]. split; [congruence..|auto].
Qed.

Lemma held_entry (l l' : list EMM_Handle) bl : entry <$> l' = entry <$> l -> Forall2 ems_held l bl -> Forall2 ems_held l' bl.
Proof using.
  intros E Hl. revert l' E. induction Hl as [|h c l bl Hh Hl IH]; intros [|h' l'] E; try done.
  cbn in E. injection E as E1 E2 E3. constructor; [|by apply IH]. revert Hh. unfold ems_held, no_pages. by rewrite E1, E2.
Qed.
Lemma keeps_inv bl others s s' : keeps_pages s s' -> ems_inv bl others s -> ems_inv bl others s'.
Proof using.
  intros [K1 K2 K3] Hi. split; rewrite ?K1; try apply Hi; [apply K3, Hi|]. eapply held_entry; [exact K2|apply Hi].
Qed.

(** ** The steps *)
Lemma machine_keeps f s : keeps_pages s (on_machine f s).
Proof using. split; [done..|]. by intros [T1 T2 T3 T4]. Qed.
Lemma mappings_keeps l s : length l = 4%nat -> keeps_pages s (set_mappings l s).
Proof using. split; [done..|]. by intros [T1 T2 T3 T4]. Qed.
Lemma put_mapping_keeps i v s s' : put_mapping i v s = ok s' -> keeps_pages s s'.
Proof using.
  unfold put_mapping. intros E. exec_inv E. subst. apply write_inv in E0 as [_ ->]. split; [done..|].
  intros [T1 T2 T3 T4]. split; cbn; rewrite ?length_upd; done.
Qed.
Lemma put_segmentmapping_keeps i v s s' : put_segmentmapping i v s = ok s' -> keeps_pages s s'.
Proof using.
  unfold put_segmentmapping. intros E. exec_inv E. subst. apply write_inv in E0 as [_ ->]. split; [done..|].
  intros [T1 T2 T3 T4]. split; cbn; rewrite ?length_upd; done.
Qed.
Lemma put_handle_keeps i h h' s s' :
  read (emm_handles s) i = ok h -> entry h' = entry h -> (ems_typed s -> handle_typed h -> handle_typed h') ->
  put_handle i h' s = ok s' -> keeps_pages s s'.
Proof using.
  unfold put_handle. intros Hr%read_inv He Ht E. exec_inv E. subst. apply write_inv in E0 as [_ ->]. split; cbn; [done| |].
  - unfold upd. rewrite list_fmap_insert, He, <- list_fmap_insert. f_equal. apply list_insert_id.
    unfold get in Hr. by destruct (i <? 0).
  - intros Hs. apply typed_put; [done|]. by eapply Ht, typed_at.
Qed.
Lemma map_lin_keeps lin phys s s' : map_lin lin phys s = ok s' -> keeps_pages s s'.
Proof using. unfold map_lin. intros E. exec_inv E. subst. apply machine_keeps. Qed.
Hint Resolve machine_keeps put_mapping_keeps put_segmentmapping_keeps map_lin_keeps : keeps.
Lemma map_identity_keeps n lin s s' : map_identity n lin s = ok s' -> keeps_pages s s'.
Proof using.
  revert lin s. induction n as [|n IH]; intros lin s E; cbn [map_identity] in E; exec_inv E; [by subst|].
  etrans; [by eapply map_lin_keeps|by eapply IH].
Qed.
Lemma map_block_keeps n lin memh s s' : map_block n lin memh s = ok s' -> keeps_pages s s'.
Proof using.
  revert lin memh s. induction n as [|n IH]; intros lin memh s E; cbn [map_block] in E; exec_inv E; [by subst|].
  etrans; [by eapply map_lin_keeps|by eapply IH].
Qed.
Lemma put_segment_keeps segment v s s' : put_segment segment v s = ok s' -> keeps_pages s s'.
Proof using. unfold put_segment. intros E. exec_inv E; eauto with keeps. Qed.
Hint Resolve map_identity_keeps map_block_keeps put_segment_keeps : keeps.
Lemma MapPage_keeps p h l s r s' : EMM_MapPage p h l s = ok (r, s') -> keeps_pages s s'.
Proof using. unfold EMM_MapPage. intros E. exec_inv E; chain. Qed.
Lemma MapSegment_keeps p h l s r s' : EMM_MapSegment p h l s = ok (r, s') -> keeps_pages s s'.
Proof using. unfold EMM_MapSegment. intros E. exec_inv E; chain. Qed.
Hint Resolve MapPage_keeps MapSegment_keeps : keeps.

(** ** Page maps *)
Lemma restore_segments_keeps n i s s' : restore_segments n i s = ok s' -> keeps_pages s s'.
Proof using.
  revert i s. induction n as [|n IH]; intros i s E; cbn [restore_segments] in E; exec_inv E; [by subst|].
  apply IH in E. etrans; [|exact E]. clear E. exec_inv E0; subst; [done|eauto with keeps].
Qed.
Lemma restore_frame_keeps n i s s' : restore_frame n i s = ok s' -> keeps_pages s s'.
Proof using.
  revert i s. induction n as [|n IH]; intros i s E; cbn [restore_frame] in E; exec_inv E; [by subst|].
  etrans; [by eapply MapPage_keeps|by eapply IH].
Qed.
Hint Resolve restore_segments_keeps restore_frame_keeps : keeps.
Lemma RestoreMappingTable_keeps s r s' : EMM_RestoreMappingTable s = ok (r, s') -> keeps_pages s s'.
Proof using. unfold EMM_RestoreMappingTable. intros E. exec_inv E. chain. Qed.
Hint Resolve RestoreMappingTable_keeps : keeps.
(** One entry rewritten with the same pages. *)
Lemma handle_keeps i h h' s s' :
  read (emm_handles s) i = ok h -> put_handle i h' s = ok s' -> entry h' = entry h ->
  (ems_typed s -> handle_typed h -> handle_typed h') -> keeps_pages s s'.
Proof using. intros. by eapply put_handle_keeps. Qed.
Lemma SavePageMap_keeps handle s r s' : EMM_SavePageMap handle s = ok (r, s') -> keeps_pages s s'.
Proof using.
  unfold EMM_SavePageMap. intros E. exec_inv E; subst; try done. eapply handle_keeps; [done..|].
  intros Hs [Hn Hp]. split; [done|]. apply Hs.
Qed.
Lemma RestorePageMap_keeps handle s r s' : EMM_RestorePageMap handle s = ok (r, s') -> keeps_pages s s'.
Proof using.
  unfold EMM_RestorePageMap. intros E. exec_inv E; subst; try done. apply RestoreMappingTable_keeps in E as K.
  pose proof (handle_keeps _ _ _ _ _ E1 E3 eq_refl ltac:(by intros _ [? ?])) as K1. apply read_inv in E1.
  split; [rewrite (kp_pages _ _ K); apply K1|rewrite (kp_entries _ _ K); apply K1|].
  intros Ht. apply (kp_types _ _ K), (kp_types _ _ (mappings_keeps (page_map _) _ (proj2 (typed_at _ _ _ Ht E1)))), K1, Ht.
Qed.
Hint Resolve SavePageMap_keeps RestorePageMap_keeps : keeps.

Lemma length_bytes_mappings n b : length b = (4 * n)%nat -> length (bytes_mappings n b) = n.
Proof using.
  revert b. induction n as [|n IH]; intros b Hb; [done|]. destruct b as [|x0 [|x1 [|x2 [|x3 b]]]]; cbn in Hb; try lia.
  cbn [bytes_mappings length]. f_equal. apply IH. lia.
Qed.
Lemma length_BlockRead a n (m : M) : length (MEM_BlockRead a n m) = n.
Proof using. revert a. induction n as [|n IH]; intros a; [done|]. cbn [MEM_BlockRead length]. by rewrite IH. Qed.
Lemma read_page_map_keeps s : keeps_pages s (read_page_map s).
Proof using. apply mappings_keeps, length_bytes_mappings, length_BlockRead. Qed.
Lemma write_page_map_keeps s : keeps_pages s (write_page_map s).
Proof using. apply machine_keeps. Qed.
Hint Resolve read_page_map_keeps write_page_map_keeps : keeps.
Lemma page_map_functions_keeps s s' : page_map_functions s = ok s' -> keeps_pages s s'.
Proof using.
  unfold page_map_functions. intros E. exec_inv E; chain.
Qed.
Lemma save_partial_keeps n list_ data s r s' : save_partial n list_ data s = ok (r, s') -> keeps_pages s s'.
Proof using.
  revert list_ data s. induction n as [|n IH]; intros list_ data s E; cbn [save_partial] in E; exec_inv E; subst; try done;
    apply IH in E; (etrans; [|exact E]); clear; chain.
Qed.
Lemma restore_partial_keeps n data s r s' : restore_partial n data s = ok (r, s') -> keeps_pages s s'.
Proof using.
  revert data s. induction n as [|n IH]; intros data s E; cbn [restore_partial] in E; [eauto with keeps|]. exec_inv E; subst; try done;
    apply IH in E; (etrans; [|exact E]); eauto with keeps.
Qed.
Lemma PartialPageMapping_keeps s r s' : EMM_PartialPageMapping s = ok (r, s') -> keeps_pages s s'.
Proof using.
  unfold EMM_PartialPageMapping. intros E. exec_inv E; subst; try done.
  - apply save_partial_keeps in E. etrans; [|exact E]. apply machine_keeps.
  - by apply restore_partial_keeps in E.
  - apply machine_keeps.
Qed.
Hint Resolve page_map_functions_keeps PartialPageMapping_keeps : keeps.

(** ** Reports, names and attributes *)
Lemma map_pages_keeps n data s s' : map_pages n data s = ok s' -> keeps_pages s s'.
Proof using.
  revert data s. induction n as [|n IH]; intros data s E; cbn [map_pages] in E; exec_inv E; subst; [done|chain|].
  apply IH in E. chain.
Qed.
Lemma map_segments_keeps n data s s' : map_segments n data s = ok s' -> keeps_pages s s'.
Proof using.
  revert data s. induction n as [|n IH]; intros data s E; cbn [map_segments] in E; exec_inv E; subst; [done|chain|].
  apply IH in E. chain.
Qed.
Hint Resolve map_pages_keeps map_segments_keeps : keeps.
Lemma map_multiple_keeps s s' : map_multiple s = ok s' -> keeps_pages s s'.
Proof using. unfold map_multiple. intros E. exec_inv E; chain. Qed.
Lemma pages_for_all_keeps l i table n s : keeps_pages s (snd (pages_for_all l i table n s)).
Proof using.
  revert i table n s. induction l as [|h l IH]; intros i table n s; cbn [pages_for_all]; [done|].
  destruct (negb (pages h =? NULL_HANDLE)); [|apply IH]. etrans; [|apply IH]. chain.
Qed.
Lemma write_names_keeps l handle data s : keeps_pages s (write_names l handle data s).
Proof using.
  revert handle data s. induction l as [|h l IH]; intros handle data s; cbn [write_names]; [done|].
  destruct (negb (pages h =? NULL_HANDLE)); [|apply IH]. etrans; [|apply IH]. chain.
Qed.
Lemma physical_array_keeps n i data s : keeps_pages s (physical_array n i data s).
Proof using. revert i data s. induction n as [|n IH]; intros i data s; cbn [physical_array]; [done|]. etrans; [|apply IH]. chain. Qed.
Lemma write_words_keeps l data s : keeps_pages s (write_words l data s).
Proof using. revert data s. induction l as [|v l IH]; intros data s; cbn [write_words]; [done|]. etrans; [|apply IH]. chain. Qed.
Hint Resolve map_multiple_keeps pages_for_all_keeps write_names_keeps physical_array_keeps write_words_keeps : keeps.
Lemma hardware_keeps s : keeps_pages s (hardware_information s).
Proof using. unfold hardware_information, report_pages. repeat case_match; chain. Qed.
Lemma name_search_keeps s r s' : HandleNameSearch s = (r, s') -> keeps_pages s s'.
Proof using. unfold HandleNameSearch. intros E. repeat case_match; simplify_eq/=; chain. Qed.
Lemma attributes_keeps s r s' : GetSetHandleAttributes s = (r, s') -> keeps_pages s s'.
Proof using. unfold GetSetHandleAttributes. intros E. repeat case_match; simplify_eq/=; chain. Qed.
Lemma handle_name_keeps s r s' : GetSetHandleName s = ok (r, s') -> keeps_pages s s'.
Proof using.
  unfold GetSetHandleName. intros E. exec_inv E; subst; try done; [chain|]. eapply handle_keeps; [done..|].
  intros _ [Hn Hp]. split; [|done]. apply length_BlockRead.
Qed.

(** ** Moves *)
Lemma write_chunk_keeps p n buf s s' : write_region p n buf s = ok s' -> keeps_pages s s'.
Proof using. unfold write_region. intros E. exec_inv E; chain. Qed.
Hint Resolve write_chunk_keeps : keeps.
Lemma move_loop_keeps fuel ex n src dest s s' : move_loop fuel ex n src dest s = ok s' -> keeps_pages s s'.
Proof using.
  revert n src dest s. induction fuel as [|fuel IH]; intros n src dest s E; cbn [move_loop] in E; [done|]. exec_inv E; subst; [done|].
  apply IH in E. etrans; [|exact E]. clear E IH. etrans; [|by eapply write_chunk_keeps]. exec_inv E2; subst; chain.
Qed.
Lemma MemoryRegion_keeps s r s' : MemoryRegion s = ok (r, s') -> keeps_pages s s'.
Proof using. unfold MemoryRegion. intros E. exec_inv E; subst; try done. by eapply move_loop_keeps. Qed.
Hint Resolve hardware_keeps name_search_keeps attributes_keeps handle_name_keeps MemoryRegion_keeps : keeps.

(** ** The interrupt *)
Definition holds others s : Prop := exists bl, ems_inv bl others s.
Lemma holds_keeps others s s' : keeps_pages s s' -> holds others s -> holds others s'.
Proof using. intros Hk (bl & Hi). exists bl. by eapply keeps_inv. Qed.
Lemma answer_holds others r s' :
  (forall a s1, r = ok (a, s1) -> holds others s1) -> answer r = ok s' -> holds others s'.
Proof using. unfold answer. intros Hr E. exec_inv E. subst. eapply holds_keeps; [apply machine_keeps|]. by eapply Hr. Qed.
Lemma allocate_holds others z s s' : holds others s -> allocate z s = ok s' -> holds others s'.
Proof using.
  intros (bl & Hi) E. unfold allocate in E. exec_inv E. subst.
  pose proof (allocate_cases bl others s (reg_bx (regs s)) z Hi ltac:(apply Z.mod_pos_bound; lia)) as Ha.
  eapply holds_keeps; [apply machine_keeps|].
  enough (holds others e) by (destruct o; [eapply holds_keeps; [apply machine_keeps|done]|done]).
  destruct ((reg_bx (regs s) =? 0) && negb z); [|destruct (get_free_pages s <? reg_bx (regs s))];
    [..|destruct (first_free_handle _ 1); [destruct (overruns _ _)|]]; try (rewrite Ha in E0; simplify_eq; by exists bl).
  destruct Ha as (s1 & c & Ha & _ & _ & Hi' & _). rewrite Ha in E0. simplify_eq. by eexists.
Qed.
Lemma release_holds others handle s r s' : 0 <= handle -> holds others s -> EMM_ReleaseMemory handle s = ok (r, s') -> holds others s'.
Proof using.
  intros Hh (bl & Hi) E. pose proof (release_cases bl others s handle Hi Hh) as Hr.
  destruct (negb _); [rewrite Hr in E; simplify_eq; by exists bl|]. destruct Hr as (s1 & c & Hr & _ & Hi' & _).
  rewrite Hr in E. simplify_eq. by eexists.
Qed.
Lemma reallocate_holds others handle n s r s' :
  0 <= handle -> 0 <= n -> holds others s -> EMM_ReallocatePages handle n s = ok (r, s') -> holds others s'.
Proof using.
  intros Hh Hn (bl & Hi) E. pose proof (reallocate_cases bl others s handle n Hi Hh Hn) as Hr.
  destruct (negb _); [rewrite Hr in E; simplify_eq; by exists bl|]. destruct Hr as (h & c & _ & _ & Hr).
  destruct (_ && _); [congruence|]. destruct (_ <? _); [rewrite Hr in E; simplify_eq; by exists bl|].
  destruct (overruns _ _); [congruence|].
  destruct Hr as (s1 & c' & Hr & Hi' & _). rewrite Hr in E. simplify_eq. by eexists.
Qed.

Lemma int67_holds others fuel s s' :
  holds others s -> reg_ah (regs s) <> 0xDE -> INT67_Handler fuel s = ok s' -> holds others s'.
Proof using.
  intros Hi Hde E. unfold INT67_Handler in E. cbv zeta in E.
  assert (0 <= reg_dx (regs s)) as Hdx by (apply Z.mod_pos_bound; lia).
  assert (0 <= reg_bx (regs s)) as Hbx by (apply Z.mod_pos_bound; lia).
  repeat match type of E with
  | (if ?b then _ else _) = ok _ => let Eb := fresh "Eb" in destruct b eqn:Eb
  end;
  repeat match type of E with
  | ok _ = ok _ => injection E as E
  | allocate _ _ = ok _ => by eapply allocate_holds
  | answer _ = ok _ => eapply answer_holds; [|exact E]; clear E; intros a s1 E
  | EMM_ReleaseMemory _ _ = ok _ => exact (release_holds _ _ _ _ _ Hdx Hi E)
  | EMM_ReallocatePages _ _ _ = ok _ => exact (reallocate_holds _ _ _ _ _ _ Hdx Hbx Hi E)
  end; try (eapply holds_keeps; [|exact Hi]).
  all: try solve [subst; chain].
  all: try solve [exec_inv E; subst; chain].
  all: try (exfalso; lia).
  - destruct (EMM_GetPagesForAllHandles _ s) as [n s1] eqn:Ep. injection E as <-.
    etrans; [|apply machine_keeps]. etrans; [|apply machine_keeps].
    replace s1 with (snd (EMM_GetPagesForAllHandles (seg_address es (reg_di (regs s)) s) s)) by (by rewrite Ep).
    apply pages_for_all_keeps.
  - subst. etrans; [|apply machine_keeps]. etrans; [|apply machine_keeps]. destruct (_ =? 0); [|done].
    exact (physical_array_keeps 4 0 (seg_address es (reg_di (regs s)) s) s).
Qed.
End Keeps.
#[export] Hint Resolve machine_keeps put_mapping_keeps put_segmentmapping_keeps map_lin_keeps map_identity_keeps map_block_keeps
  put_segment_keeps MapPage_keeps MapSegment_keeps restore_segments_keeps restore_frame_keeps RestoreMappingTable_keeps : keeps.
