(* ===== verification/EmsMapping.v ===== *)
(** * The page frame shows the pages mapped to it

    The page map of [cpu/paging.h] as the memory behind the manager: mapping a logical
    page makes its bytes appear in the page frame, and a saved page map is restored. *)
From S2P Require Import Prelude.
From S2P Require Import Registers.
From S2P Require Import GuestMemory.
From S2P Require Import PageAlloc.
From S2P Require Import PageSearch.
From S2P Require Import PageBlocks.
From S2P Require Import PageTheorems.
From S2P Require Import PageHandlers.
From S2P Require Import Paging.
From S2P Require Import TlbProofs.
From S2P Require Import RealMode.
From S2P Require Import MemoryCtl.
From S2P Require Import CpuState.
From S2P Require Import Ems.
From S2P Require Import EmsProofs.
From S2P Require Import EmsInvariant.
#[local] Open Scope Z_scope.
#[local] Open Scope exec_scope.

(** ** Walking a block *)
Lemma seg_next mh p c e j q : seg mh p c e -> c !! j = Some q -> get mh q = Some (default e (c !! S j)).
Proof.
  revert p j. induction c as [|r c IH]; intros p j Hs Hj; [done|]. destruct Hs as (-> & Hr & n & Hn & Hs).
  destruct j as [|j]; [|by apply IH with n]. injection Hj as ->. rewrite Hn. f_equal. destruct c as [|q' c]; [done|].
  by apply seg_head in Hs.
Qed.
Lemma NextHandleAt_spec mh p c e j q : seg mh p c e -> c !! j = Some q -> NextHandleAt_loop j p mh = ok q.
Proof.
  revert p j. induction c as [|r c IH]; intros p j Hs Hj; [done|]. destruct Hs as (-> & Hr & n & Hn & Hs).
  destruct j as [|j]; cbn [NextHandleAt_loop]; [by injection Hj as ->|]. rewrite (read_get _ _ _ Hn). by apply IH.
Qed.

#[export] Instance machine_mapping {D} `{Devices D} : PageMapping (Machine D) := {
  map_linear := PAGING_MapPage; clear_tlb := PAGING_ClearTLB }.

Lemma map_sizes : LINK_START = 272 /\ TLB_SIZE = 1048576.
Proof. done. Qed.

Section Mapping.
Context {D : Type} `{Devices D}.
Implicit Types (s : Ems (Machine D)) (g : Machine D) (bl others : list (list Z)) (c : list Z).

(** ** The page map *)
Record remapped g g' : Prop := {
  rp_real : real_mode g';
  rp_host : host g' = host g;
  rp_memory : memory g' = memory g;
  rp_cpu : cpu g' = cpu g;
  rp_devices : devices g' = devices g }.
Lemma remapped_refl g : real_mode g -> remapped g g.
Proof using. by split. Qed.
Lemma remapped_trans g1 g2 g3 : remapped g1 g2 -> remapped g2 g3 -> remapped g1 g3.
Proof using. intros [] []. split; congruence. Qed.

Lemma ClearTLB_entry l t page : ClearTLB_loop l t page = t page \/ is_reset (ClearTLB_loop l t page).
Proof using.
  revert t. induction l as [|r l IH]; intros t; [by left|]. cbn. destruct (IH (reset_page r t)) as [E|]; [|by right].
  rewrite E. unfold reset_page, set_tlb. destruct (page =? r); [by right|by left].
Qed.
Lemma ClearTLB_real g : real_mode g -> remapped g (PAGING_ClearTLB g) /\ firstmb (paging (PAGING_ClearTLB g)) = firstmb (paging g).
Proof using.
  intros Hr. split; [|done]. split; try done. split; try apply Hr. intros page Hp.
  change (tlb (paging (PAGING_ClearTLB g)) page) with (ClearTLB_loop (rev (links (paging g))) (tlb (paging g)) page).
  destruct (ClearTLB_entry (rev (links (paging g))) (tlb (paging g)) page) as [->|]; [|by left].
  exact (rm_coherent _ Hr page Hp).
Qed.
Lemma set_guest_twice (g g' : Machine D) s : set_guest g' (set_guest g s) = set_guest g' s.
Proof using. by destruct s as [[] ? ? ? ? ? ?]. Qed.
Lemma guest_set (g : Machine D) s : guest (set_guest g s) = g.
Proof using. done. Qed.
Lemma set_guest_same s : set_guest (guest s) s = s.
Proof using. by destruct s as [[] ? ? ? ? ? ?]. Qed.

(** The map with [n] pages from [lin] on replaced. *)
Definition remap (lin n : Z) (to : Z -> Z) g g' : Prop :=
  remapped g g' /\ forall i, get (firstmb (paging g')) i = if (lin <=? i) && (i <? lin + n) then Some (to (i - lin)) else get (firstmb (paging g)) i.
Lemma remap_direct lin n to g g' p :
  remap lin n to g g' -> 0 <= lin -> lin + n <= LINK_START ->
  direct p g' = if (lin <=? p) && (p <? lin + n) then to (p - lin) else direct p g.
Proof using.
  intros [_ Hf] Hl Hn. unfold direct. rewrite Hf. destruct (Z.leb_spec lin p), (Z.ltb_spec p (lin + n)); cbn [andb]; try done.
  destruct (Z.ltb_spec p LINK_START); [done|lia].
Qed.
Lemma remap_step lin n q to g g1 g' :
  remap lin 1 (fun _ => q) g g1 -> remap (lin + 1) n to g1 g' -> 0 <= n ->
  remap lin (n + 1) (fun i => if i =? 0 then q else to (i - 1)) g g'.
Proof using.
  intros [R1 F1] [R2 F2] Hn. split; [by eapply remapped_trans|]. intros i. rewrite F2, F1.
  destruct (Z.leb_spec (lin + 1) i), (Z.ltb_spec i (lin + 1 + n)), (Z.leb_spec lin i), (Z.ltb_spec i (lin + 1)),
    (Z.ltb_spec i (lin + (n + 1))); cbn [andb]; try lia; try done;
    destruct (Z.eqb_spec (i - lin) 0); try lia; try done. do 2 f_equal. lia.
Qed.
Lemma map_lin_real lin phys s :
  real_mode (guest s) -> 0 <= lin < LINK_START -> 0 <= phys < TLB_SIZE ->
  exists g', map_lin lin phys s = ok (set_guest g' s) /\ remap lin 1 (fun _ => phys) (guest s) g'.
Proof using.
  intros Hr Hl Hp. unfold map_lin. cbn [map_linear machine_mapping].
  destruct (MapPage_real (guest s) lin phys Hr Hl Hp) as (g' & -> & Hr' & E1 & E2 & E3 & E4 & Ef). cbn [exec_bind].
  exists g'. split; [done|]. split; [done|]. intros i. rewrite Ef.
  rewrite get_upd by (rewrite (rm_firstmb _ Hr); unfold LINK_START in *; lia).
  destruct (Z.eqb_spec lin i), (Z.leb_spec lin i), (Z.ltb_spec i (lin + 1)); cbn [andb]; try done; lia.
Qed.
Lemma clear_tlb_real lin n to s g' :
  remap lin n to (guest s) g' -> exists g2, ClearTLB (set_guest g' s) = set_guest g2 s /\ remap lin n to (guest s) g2.
Proof using.
  intros [R F]. unfold ClearTLB. rewrite guest_set, set_guest_twice. cbn [clear_tlb machine_mapping].
  destruct (ClearTLB_real g' (rp_real _ _ R)) as [R' F']. eexists. split; [done|]. split; [by eapply remapped_trans|].
  intros i. by rewrite F', F.
Qed.

(** ** The loops over the four pages *)
Lemma map_identity_real n lin s :
  real_mode (guest s) -> 0 <= lin -> lin + Z.of_nat n <= LINK_START ->
  exists g', map_identity n lin s = ok (set_guest g' s) /\ remap lin (Z.of_nat n) (fun i => lin + i) (guest s) g'.
Proof using.
  pose proof map_sizes. revert lin s. induction n as [|n IH]; intros lin s Hr Hl Hn; cbn [map_identity].
  - exists (guest s). rewrite set_guest_same. split; [done|]. split; [by apply remapped_refl|]. intros i.
    destruct (Z.leb_spec lin i), (Z.ltb_spec i (lin + Z.of_nat 0)); try done; lia.
  - destruct (map_lin_real lin lin s Hr) as (g1 & -> & R1); [lia..|]. cbn [exec_bind].
    destruct (IH (lin + 1) (set_guest g1 s)) as (g2 & -> & R2); [apply R1|lia..|]. rewrite set_guest_twice. exists g2.
    split; [done|]. rewrite guest_set in R2. pose proof (remap_step _ _ _ _ _ _ _ R1 R2 ltac:(lia)) as [R F].
    split; [done|]. intros i. rewrite F. replace (Z.of_nat (S n)) with (Z.of_nat n + 1) by lia.
    destruct ((lin <=? i) && (i <? lin + (Z.of_nat n + 1))); [|done]. f_equal. destruct (Z.eqb_spec (i - lin) 0); lia.
Qed.
Lemma map_block_real n lin j c s :
  real_mode (guest s) -> 0 <= lin -> lin + Z.of_nat n <= LINK_START -> seg (mhandles s) (hd 0 c) c (-1) ->
  npages (mhandles s) <= TLB_SIZE -> (j + n <= length c)%nat ->
  exists g', map_block n lin (default (-1) (c !! j)) s = ok (set_guest g' s) /\
    remap lin (Z.of_nat n) (fun i => default (-1) (c !! Z.to_nat (Z.of_nat j + i))) (guest s) g'.
Proof using.
  pose proof map_sizes. revert lin j s. induction n as [|n IH]; intros lin j s Hr Hl Hn Hc Hnp Hj; cbn [map_block].
  - exists (guest s). rewrite set_guest_same. split; [done|]. split; [by apply remapped_refl|]. intros i.
    destruct (Z.leb_spec lin i), (Z.ltb_spec i (lin + Z.of_nat 0)); try done; lia.
  - destruct (lookup_lt_is_Some_2 c j) as [q Hq]; [lia|]. rewrite Hq. change (default (-1) (Some q)) with q.
    pose proof (seg_range _ _ _ _ q Hc (list_elem_of_lookup_2 _ _ _ Hq)) as Hqr.
    destruct (map_lin_real lin q s Hr) as (g1 & -> & R1); [lia..|]. cbn [exec_bind].
    change (mhandles (set_guest g1 s)) with (mhandles s).
    unfold MEM_NextHandle. rewrite (read_get _ _ _ (seg_next _ _ _ _ _ _ Hc Hq)). cbn [exec_bind].
    destruct (IH (lin + 1) (S j) (set_guest g1 s)) as (g2 & -> & R2); [apply R1|lia|lia|done|done|lia|].
    rewrite set_guest_twice. exists g2. split; [done|]. rewrite guest_set in R2.
    pose proof (remap_step _ _ _ _ _ _ _ R1 R2 ltac:(lia)) as [R F]. split; [done|]. intros i. rewrite F.
    replace (Z.of_nat (S n)) with (Z.of_nat n + 1) by lia.
    destruct (Z.leb_spec lin i); [|done]. destruct (i <? lin + (Z.of_nat n + 1)); [|done]. cbn [andb]. f_equal.
    destruct (Z.eqb_spec (i - lin) 0) as [->|].
    + by rewrite Z.add_0_r, Nat2Z.id, Hq.
    + do 2 f_equal. lia.
Qed.

(** ** Mapping a page of the frame *)
Definition frame_page0 (ph : Z) : Z := EMM_PAGEFRAME4K + ph * 4.
(** What an entry of the table stands for: nothing, or a page of a handle. *)
Definition usable s (e : EMM_Mapping) : Prop :=
  e = unmapped \/
  exists h, get (emm_handles s) (map_handle e) = Some h /\ pages h <> NULL_HANDLE /\ 0 <= map_page e < pages h.
Definition target bl (ph : Z) (e : EMM_Mapping) (i : Z) : Z :=
  if map_page e =? NULL_PAGE then frame_page0 ph + i
  else default (-1) (default [] (bl !! Z.to_nat (map_handle e)) !! Z.to_nat (4 * map_page e + i)).
(** The frame shows what the table says. *)
Definition frame_shown bl s : Prop :=
  forall ph e, get (emm_mappings s) ph = Some e ->
    usable s e /\ forall i, 0 <= i < 4 -> direct (frame_page0 ph + i) (guest s) = target bl ph e i.

(** The tail of both functions that map: a block of four pages at [lin]. *)
Lemma map_pages_real bl others s k h lin log :
  ems_inv bl others s -> real_mode (guest s) -> get (emm_handles s) k = Some h -> pages h <> NULL_HANDLE -> 0 <= log < pages h ->
  0 <= lin -> lin + 4 <= LINK_START ->
  exists memh g', MEM_NextHandleAt (hmem h) (log * 4) (mhandles s) = ok memh /\
    (let* s := map_block 4 lin memh s in ok (EMM_NO_ERROR, ClearTLB s)) = ok (EMM_NO_ERROR, set_guest g' s) /\
    remap lin 4 (fun i => default (-1) (default [] (bl !! Z.to_nat k) !! Z.to_nat (4 * log + i))) (guest s) g'.
Proof using.
  intros Hi Hr Hh Hn Hlog Hl Hl4. destruct (handle_block _ _ _ _ _ Hi Hh Hn ltac:(lia)) as (c & Hc & Hm & Hlen & Hs & _).
  rewrite Hc. change (default [] (Some c)) with c. destruct (lookup_lt_is_Some_2 c (Z.to_nat (log * 4))) as [q Hq]; [lia|].
  exists q. unfold MEM_NextHandleAt. rewrite Hm, (NextHandleAt_spec _ _ _ _ _ _ Hs Hq).
  pose proof (ems_range _ _ _ Hi) as Hnp. destruct map_sizes as [_ HT].
  destruct (map_block_real 4 lin (Z.to_nat (log * 4)) c s) as (g' & E & R); [done..|lia|lia|].
  rewrite Hq in E. change (default (-1) (Some q)) with q in E. rewrite E. cbn [exec_bind].
  destruct (clear_tlb_real _ _ _ s g' R) as (g2 & -> & [R2 F2]). exists g2. split; [done|]. split; [done|]. split; [done|].
  intros i. rewrite F2. change (Z.of_nat 4) with 4. destruct (_ && _); [|done]. do 3 f_equal. lia.
Qed.
Lemma unmap_pages_real s lin :
  real_mode (guest s) -> 0 <= lin -> lin + 4 <= LINK_START ->
  exists g', (let* s := map_identity 4 lin s in ok (EMM_NO_ERROR, ClearTLB s)) = ok (EMM_NO_ERROR, set_guest g' s) /\
    remap lin 4 (fun i => lin + i) (guest s) g'.
Proof using.
  intros Hr Hl Hl4. destruct (map_identity_real 4 lin s) as (g' & -> & R); [done..|]. cbn [exec_bind].
  destruct (clear_tlb_real _ _ _ s g' R) as (g2 & -> & R2). by exists g2.
Qed.
Lemma MapPage_put bl others s ph e :
  ems_inv bl others s -> real_mode (guest s) -> 0 <= ph < 4 -> usable s e ->
  exists g', EMM_MapPage ph (map_handle e) (map_page e) s =
      ok (EMM_NO_ERROR, set_guest g' (set_mappings (upd (emm_mappings s) ph e) s)) /\
    remap (frame_page0 ph) 4 (target bl ph e) (guest s) g'.
Proof using.
  intros Hi Hr Hp Hu. unfold EMM_MapPage, EMM_MAX_PHYS. fold (frame_page0 ph). destruct (Z.leb_spec 4 ph); [lia|].
  assert (forall v, put_mapping ph v s = ok (set_mappings (upd (emm_mappings s) ph v) s)) as Hput.
  { intros v. unfold put_mapping. by rewrite write_upd by (rewrite (typed_frame _ (ems_types _ _ _ Hi)); lia). }
  assert (0 <= frame_page0 ph /\ frame_page0 ph + 4 <= LINK_START) as [Hf Hf4].
  { destruct map_sizes as [-> _]. unfold frame_page0. change EMM_PAGEFRAME4K with 224. lia. }
  unfold target. destruct Hu as [->|(h & Hh & Hn & Hlog)].
  - cbn [map_page unmapped]. rewrite Z.eqb_refl, Hput. cbn [exec_bind].
    destruct (unmap_pages_real (set_mappings (upd (emm_mappings s) ph unmapped) s) (frame_page0 ph)) as (g' & -> & R); [done..|].
    by exists g'.
  - destruct (handle_block _ _ _ _ _ Hi Hh Hn ltac:(lia)) as (c & Hc & Hm & Hlen & Hs & _ & Hmax). unfold NULL_HANDLE in Hmax.
    unfold NULL_PAGE. rewrite (proj2 (Z.eqb_neq (map_page e) 65535)) by lia.
    rewrite (valid_usable _ _ _ Hh Hn (ems_types _ _ _ Hi)). cbn [negb]. rewrite (read_get _ _ _ Hh). cbn [exec_bind].
    destruct (Z.ltb_spec (map_page e) (pages h)); [|lia]. replace (mkMapping (map_handle e) (map_page e)) with e by (by destruct e).
    rewrite Hput. cbn [exec_bind]. destruct (map_pages_real bl others s _ h (frame_page0 ph) (map_page e) Hi Hr Hh Hn Hlog Hf Hf4)
      as (memh & g0 & E & _ & _). change (mhandles (set_mappings _ s)) with (mhandles s). rewrite E. cbn [exec_bind].
    set (s1 := set_mappings (upd (emm_mappings s) ph e) s).
    assert (ems_inv bl others s1) as Hi1.
    { split; try apply Hi. destruct (ems_types _ _ _ Hi) as [T1 T2 T3 T4]. split; try done. cbn. by rewrite length_upd. }
    destruct (map_pages_real bl others s1 _ h (frame_page0 ph) (map_page e) Hi1 Hr Hh Hn Hlog Hf Hf4) as (memh' & g' & E' & E2 & R).
    assert (memh' = memh) as -> by (change (mhandles s1) with (mhandles s) in E'; congruence). rewrite E2. by exists g'.
Qed.

(** ** Bytes *)
Lemma readb_direct g g' p q off :
  0 <= off < 4096 -> memory g' = memory g -> host g' = host g -> direct p g' = direct q g ->
  readb (p * 4096 + off) g' = readb (q * 4096 + off) g.
Proof using.
  intros Ho Em Eh Ed. cbn [readb physical_memory]. destruct (address_unique p off (p * 4096 + off)) as [-> ->]; [done..|].
  destruct (address_unique q off (q * 4096 + off)) as [-> ->]; [done..|]. unfold page_handler. by rewrite Em, Eh, Ed.
Qed.
Lemma writeb_direct g p q off v :
  0 <= off < 4096 -> direct p g = direct q g -> writeb (p * 4096 + off) v g = writeb (q * 4096 + off) v g.
Proof using.
  intros Ho Ed. cbn [writeb physical_memory]. destruct (address_unique p off (p * 4096 + off)) as [-> ->]; [done..|].
  destruct (address_unique q off (q * 4096 + off)) as [-> ->]; [done..|]. unfold page_handler. by rewrite Ed.
Qed.
Lemma direct_above q g : LINK_START <= q -> direct q g = q.
Proof using. intros Hq. unfold direct. by destruct (Z.ltb_spec q LINK_START); [lia|]. Qed.

(** An address of the page frame, and the address of the same byte of logical page
    [log] in the block [c]. *)
Definition frame_address (ph off : Z) : Z := EMM_PAGEFRAME * 16 + ph * EmsPageSize + off.
Definition block_address c (log off : Z) : Z := default 0 (c !! Z.to_nat (4 * log + off / 4096)) * 4096 + off mod 4096.
Lemma frame_address_split ph off : frame_address ph off = (frame_page0 ph + off / 4096) * 4096 + off mod 4096.
Proof using.
  unfold frame_address, frame_page0. change (EMM_PAGEFRAME * 16) with 917504. change EmsPageSize with 16384.
  change EMM_PAGEFRAME4K with 224. zlia.
Qed.

(** ** Restoring the tables *)
Definition words (l : list EMM_Mapping) : Prop := length l = 64%nat /\ Forall (fun e => 0 <= map_page e) l.
Lemma inv_segments bl others s g l :
  ems_inv bl others s -> length l = 64%nat -> ems_inv bl others (set_guest g (set_segmentmappings l s)).
Proof using. intros Hi Hl. split; try apply Hi. destruct (ems_types _ _ _ Hi) as [T1 T2 T3 T4]. by split. Qed.
(** The frame is not touched by the other segments. *)
Definition frame_kept g g' : Prop :=
  remapped g g' /\ forall p, frame_page0 0 <= p < frame_page0 4 -> direct p g' = direct p g.
Lemma frame_kept_trans g1 g2 g3 : frame_kept g1 g2 -> frame_kept g2 g3 -> frame_kept g1 g3.
Proof using. intros [R1 D1] [R2 D2]. split; [by eapply remapped_trans|]. intros p Hp. by rewrite D2, D1. Qed.
Lemma remap_outside lin to g g' : remap lin 4 to g g' -> 0 <= lin -> lin + 4 <= LINK_START ->
  lin + 4 <= frame_page0 0 \/ frame_page0 4 <= lin -> frame_kept g g'.
Proof using.
  intros R H0 H4 Ho. split; [apply R|]. intros p Hp. rewrite (remap_direct _ _ _ _ _ _ R H0 H4).
  destruct (Z.leb_spec lin p), (Z.ltb_spec p (lin + 4)); cbn [andb]; try done; lia.
Qed.
Lemma segment_put i v s : 0 <= i < 64 -> (i < 56 \/ 60 <= i) -> length (emm_segmentmappings s) = 64%nat ->
  put_segment (Z.shiftl i 10) v s = ok (set_segmentmappings (upd (emm_segmentmappings s) i v) s).
Proof using.
  intros Hi Ho Hl. unfold put_segment, segment_phys_page. rewrite Z.shiftl_mul_pow2 by lia. change (2 ^ 10) with 1024.
  assert (((0 <=? Z.quot (i * 1024 - EMM_PAGEFRAME) (0x1000 / EMM_MAX_PHYS)) &&
           (Z.quot (i * 1024 - EMM_PAGEFRAME) (0x1000 / EMM_MAX_PHYS) <? EMM_MAX_PHYS)) = false) as ->.
  { change EMM_PAGEFRAME with (56 * 1024). change (0x1000 / EMM_MAX_PHYS) with 1024. unfold EMM_MAX_PHYS.
    rewrite <- Z.mul_sub_distr_r, Z.quot_mul by done. destruct (Z.leb_spec 0 (i - 56)), (Z.ltb_spec (i - 56) 4); try done; lia. }
  rewrite Z.shiftr_div_pow2, Z.div_mul by done. unfold put_segmentmapping. by rewrite write_upd by lia.
Qed.
Lemma MapSegment_other bl others s i k p :
  ems_inv bl others s -> real_mode (guest s) -> words (emm_segmentmappings s) -> 0 <= i < 64 -> (i < 56 \/ 60 <= i) -> 0 <= p ->
  exists r g' l', EMM_MapSegment (Z.shiftl i 10) k p s = ok (r, set_guest g' (set_segmentmappings l' s)) /\
    words l' /\ frame_kept (guest s) g'.
Proof using.
  intros Hi Hr [Hw1 Hw2] Hi64 Hio Hp. unfold EMM_MapSegment. destruct map_sizes as [HL _].
  assert (forall r : Z, exists r' g' l', ok (r, s) = ok (r', set_guest g' (set_segmentmappings l' s)) /\ words l' /\
            frame_kept (guest s) g') as Hsm.
  { intros r. exists r, (guest s), (emm_segmentmappings s). split; [by destruct s as [[] ? ? ? ? ? ?]|]. split; [done|].
    by split; [apply remapped_refl|]. }
  destruct (negb (valid_segment _ s)); [apply Hsm|].
  assert (Z.shiftl i 10 * 16 / 4096 = 4 * i) as ->.
  { rewrite Z.shiftl_mul_pow2 by lia. change (2 ^ 10) with 1024. replace (i * 1024 * 16) with (4 * i * 4096) by lia. by apply Z.div_mul. }
  assert (4 * i + 4 <= frame_page0 0 \/ frame_page0 4 <= 4 * i) as Hout
    by (unfold frame_page0; change EMM_PAGEFRAME4K with 224; lia).
  assert (forall v, 0 <= map_page v -> words (upd (emm_segmentmappings s) i v)) as Hup.
  { intros v Hv. split; [by rewrite length_upd|]. by apply Forall_insert. }
  destruct (p =? NULL_PAGE).
  - rewrite segment_put by done. cbn [exec_bind].
    destruct (unmap_pages_real (set_segmentmappings (upd (emm_segmentmappings s) i unmapped) s) (4 * i)) as (g' & -> & R); [done|lia|lia|].
    eexists _, g', _. split; [done|]. split; [by apply Hup|]. by eapply remap_outside; [exact R|lia..|].
  - destruct (ValidHandle k s) eqn:Hv; cbn [negb]; [|apply Hsm].
    unfold ValidHandle in Hv. destruct (get (emm_handles s) k) as [h|] eqn:Hh; [|by rewrite andb_false_r in Hv].
    rewrite (read_get _ _ _ Hh). cbn [exec_bind]. apply andb_prop in Hv as [_ Hn].
    destruct (Z.eqb_spec (pages h) NULL_HANDLE) as [|Hn']; [done|].
    destruct (Z.ltb_spec p (pages h)); [|apply Hsm]. rewrite segment_put by done. cbn [exec_bind].
    set (s1 := set_segmentmappings (upd (emm_segmentmappings s) i (mkMapping k p)) s).
    assert (ems_inv bl others s1) as Hi1.
    { split; try apply Hi. destruct (ems_types _ _ _ Hi) as [T1 T2 T3 T4]. split; try done. cbn. by rewrite length_upd. }
    destruct (map_pages_real bl others s1 k h (4 * i) p Hi1 Hr Hh Hn') as (memh & g' & E & E2 & R); [lia..|].
    rewrite E. cbn [exec_bind]. rewrite E2. eexists _, g', _. split; [done|]. split; [by apply Hup|].
    by eapply remap_outside; [exact R|lia..|].
Qed.
Lemma segments_twice g g' l l' s :
  set_guest g' (set_segmentmappings l' (set_guest g (set_segmentmappings l s))) = set_guest g' (set_segmentmappings l' s).
Proof using. by destruct s as [[] ? ? ? ? ? ?]. Qed.
Lemma restore_segments_real bl others n i s :
  ems_inv bl others s -> real_mode (guest s) -> words (emm_segmentmappings s) -> 0 <= i -> i + Z.of_nat n = 64 ->
  exists g' l', restore_segments n i s = ok (set_guest g' (set_segmentmappings l' s)) /\ words l' /\ frame_kept (guest s) g'.
Proof using.
  revert i s. induction n as [|n IH]; intros i s Hi Hr Hw H0 Hn; cbn [restore_segments].
  { exists (guest s), (emm_segmentmappings s). split; [by destruct s as [[] ? ? ? ? ? ?]|]. split; [done|]. split; [by apply remapped_refl|done]. }
  change (EMM_PAGEFRAME / 0x400) with 56. change (56 + EMM_MAX_PHYS) with 60.
  destruct (Z.leb_spec 56 i), (Z.ltb_spec i 60); cbn [andb exec_bind]; [by apply IH; [..|lia|lia]|..];
    (destruct (get_range (emm_segmentmappings s) i) as [e He]; [destruct Hw as [-> _]; lia|]; rewrite (read_get _ _ _ He); cbn [exec_bind];
     assert (0 <= map_page e) as Hp by (destruct Hw as [_ Hw]; rewrite Forall_lookup in Hw; unfold get in He; destruct (i <? 0); [done|]; by eapply Hw);
     destruct (MapSegment_other bl others s i (map_handle e) (map_page e) Hi Hr Hw ltac:(lia) ltac:(lia) Hp) as (r & g1 & l1 & -> & Hw1 & K1);
     cbn [exec_bind]; destruct (IH (i + 1) (set_guest g1 (set_segmentmappings l1 s))) as (g2 & l2 & -> & Hw2 & K2);
     [by apply inv_segments; [|apply Hw1]|apply K1|done|lia|lia|]; rewrite segments_twice; exists g2, l2;
     split; [done|]; split; [done|]; by eapply frame_kept_trans).
Qed.

(** C34.  Mapping a page into the page frame: with paging off, function 44h on a page
    that the handle has succeeds, records the page, and from then on every byte of the
    16 KiB of the frame is the byte of that page of the handle's block - reads find it
    and writes go there, through the page map that the processor's accesses use - while
    every address outside those 16 KiB shows what it showed before. *)
Theorem mapped_page_shown bl others s ph handle log h :
  ems_inv bl others s -> real_mode (guest s) -> 0 <= ph < 4 -> get (emm_handles s) handle = Some h ->
  pages h <> NULL_HANDLE -> 0 <= log < pages h ->
  exists s' c, EMM_MapPage ph handle log s = ok (EMM_NO_ERROR, s') /\ bl !! Z.to_nat handle = Some c /\
    get (emm_mappings s') ph = Some (mkMapping handle log) /\ real_mode (guest s') /\ ems_inv bl others s' /\
    (forall off, 0 <= off < EmsPageSize ->
       readb (frame_address ph off) (guest s') = readb (block_address c log off) (guest s) /\
       forall v, writeb (frame_address ph off) v (guest s') = writeb (block_address c log off) v (guest s')) /\
    forall a, (a < frame_address ph 0 \/ frame_address ph EmsPageSize <= a) -> readb a (guest s') = readb a (guest s).
Proof using.
  intros Hi Hr Hp Hh Hn Hlog. destruct (handle_block _ _ _ _ _ Hi Hh Hn ltac:(lia)) as (c & Hc & _ & Hl & _ & Hx & Hmax).
  destruct (MapPage_put bl others s ph (mkMapping handle log) Hi Hr Hp) as (g' & E & R); [right; by exists h|].
  cbn [map_handle map_page] in E. eexists _, c. split; [exact E|]. split; [done|].
  pose proof (typed_frame _ (ems_types _ _ _ Hi)) as Hf. pose proof R as [Rm _]. destruct map_sizes as [HL _].
  assert (0 <= frame_page0 ph /\ frame_page0 ph + 4 <= LINK_START) as [Hf0 Hf4]
    by (rewrite HL; unfold frame_page0; change EMM_PAGEFRAME4K with 224; lia).
  split; [cbn; by rewrite get_upd_eq by lia|]. split; [apply Rm|]. split.
  { destruct (ems_types _ _ _ Hi) as [T1 T2 T3 T4]. split; try apply Hi. split; try done. cbn. by rewrite length_upd. }
  change (guest (set_guest g' _)) with g'. split.
  - intros off Ho. change EmsPageSize with 16384 in Ho.
    assert (0 <= off / 4096 < 4 /\ 0 <= off mod 4096 < 4096) as [Hd Hm] by zlia. rewrite frame_address_split. unfold block_address.
    destruct (lookup_lt_is_Some_2 c (Z.to_nat (4 * log + off / 4096))) as [q Hq]; [lia|]. rewrite Hq.
    change (default 0 (Some q)) with q. rewrite list.Forall_forall in Hx.
    pose proof (Hx q (list_elem_of_lookup_2 _ _ _ Hq)) as Hqx. change XMS_START with 272 in Hqx.
    assert (direct (frame_page0 ph + off / 4096) g' = q) as Ed.
    { rewrite (remap_direct _ _ _ _ _ _ R Hf0 Hf4). destruct (Z.leb_spec (frame_page0 ph) (frame_page0 ph + off / 4096)); [|lia].
      destruct (Z.ltb_spec (frame_page0 ph + off / 4096) (frame_page0 ph + 4)); [|lia]. cbn [andb]. unfold target.
      cbn [map_page map_handle]. unfold NULL_HANDLE, NULL_PAGE in *. rewrite (proj2 (Z.eqb_neq log 65535)) by lia. rewrite Hc.
      change (default [] (Some c)) with c.
      replace (4 * log + (frame_page0 ph + off / 4096 - frame_page0 ph)) with (4 * log + off / 4096) by lia. by rewrite Hq. }
    split; [apply readb_direct; try apply Rm; [done|]|intros v; apply writeb_direct; [done|]];
      rewrite Ed; symmetry; apply direct_above; lia.
  - intros a Ha. destruct (address_split a) as [Ea Ho]. rewrite Ea. apply readb_direct; try apply Rm; [done|].
    rewrite (remap_direct _ _ _ _ _ _ R Hf0 Hf4). rewrite !frame_address_split in Ha. change (0 / 4096) with 0 in Ha.
    change (0 mod 4096) with 0 in Ha. change (EmsPageSize / 4096) with 4 in Ha. change (EmsPageSize mod 4096) with 0 in Ha.
    destruct (Z.leb_spec (frame_page0 ph) (byte_page a)), (Z.ltb_spec (byte_page a) (frame_page0 ph + 4)); cbn [andb]; try done; lia.
Qed.

Lemma put_same s i e g : get (emm_mappings s) i = Some e -> set_guest g (set_mappings (upd (emm_mappings s) i e) s) = set_guest g s.
Proof using.
  unfold get, upd. destruct (i <? 0); [done|]. intros E. rewrite list_insert_id by done. by destruct s as [[] ? ? ? ? ? ?].
Qed.
Lemma restore_frame_real bl others n i s :
  ems_inv bl others s -> real_mode (guest s) -> (forall ph e, get (emm_mappings s) ph = Some e -> usable s e) ->
  0 <= i -> i + Z.of_nat n = 4 ->
  exists g', restore_frame n i s = ok (set_guest g' s) /\ remapped (guest s) g' /\
    (forall p, p < frame_page0 i -> direct p g' = direct p (guest s)) /\
    forall ph e j, get (emm_mappings s) ph = Some e -> i <= ph < 4 -> 0 <= j < 4 -> direct (frame_page0 ph + j) g' = target bl ph e j.
Proof using.
  revert i s. induction n as [|n IH]; intros i s Hi Hr Hu H0 Hn; cbn [restore_frame].
  { exists (guest s). rewrite set_guest_same. split; [done|]. split; [by apply remapped_refl|]. split; [done|]. intros; lia. }
  destruct (get_range (emm_mappings s) i) as [e He]; [rewrite (typed_frame _ (ems_types _ _ _ Hi)); lia|].
  rewrite (read_get _ _ _ He). cbn [exec_bind].
  destruct (MapPage_put bl others s i e Hi Hr ltac:(lia) (Hu i e He)) as (g1 & -> & R1). rewrite put_same by done. cbn [exec_bind].
  destruct (IH (i + 1) (set_guest g1 s)) as (g2 & -> & R2 & K2 & F2); [|apply R1|done|lia|lia|].
  { split; try apply Hi. destruct (ems_types _ _ _ Hi) as [T1 T2 T3 T4]. by split. }
  rewrite set_guest_twice. exists g2. split; [done|]. destruct map_sizes as [HL _].
  assert (0 <= frame_page0 i /\ frame_page0 i + 4 <= LINK_START) as [Hf0 Hf4]
    by (rewrite HL; unfold frame_page0; change EMM_PAGEFRAME4K with 224; lia).
  change (guest (set_guest g1 s)) with g1 in *. change (emm_mappings (set_guest g1 s)) with (emm_mappings s) in *.
  split; [eapply remapped_trans; [apply R1|done]|]. split.
  - intros p Hp. rewrite K2 by (unfold frame_page0 in *; lia). rewrite (remap_direct _ _ _ _ _ _ R1 Hf0 Hf4).
    by destruct (Z.leb_spec (frame_page0 i) p); [lia|].
  - intros ph e' j He' Hph Hj. destruct (Z.eq_dec ph i) as [->|Hne]; [|apply F2; [done|lia|done]].
    rewrite K2 by (unfold frame_page0 in *; lia). rewrite (remap_direct _ _ _ _ _ _ R1 Hf0 Hf4).
    destruct (Z.leb_spec (frame_page0 i) (frame_page0 i + j)); [|lia].
    destruct (Z.ltb_spec (frame_page0 i + j) (frame_page0 i + 4)); [|lia]. cbn [andb].
    replace (frame_page0 i + j - frame_page0 i) with j by lia. congruence.
Qed.
Lemma frame_kept_same g g' p : frame_kept g g' -> frame_page0 0 <= p < frame_page0 4 -> direct p g' = direct p g.
Proof using. intros [_ Hd] Hp. by apply Hd. Qed.

Lemma restore_table_real bl others s :
  ems_inv bl others s -> real_mode (guest s) -> words (emm_segmentmappings s) ->
  (forall ph e, get (emm_mappings s) ph = Some e -> usable s e) ->
  exists s', EMM_RestoreMappingTable s = ok (EMM_NO_ERROR, s') /\ emm_mappings s' = emm_mappings s /\
    emm_handles s' = emm_handles s /\ mhandles s' = mhandles s /\ remapped (guest s) (guest s') /\ frame_shown bl s'.
Proof using.
  intros Hi Hr Hw Hu. unfold EMM_RestoreMappingTable.
  destruct (restore_segments_real bl others 0x40 0 s Hi Hr Hw) as (g1 & l1 & -> & Hw1 & K1); [lia..|]. cbn [exec_bind].
  destruct (restore_frame_real bl others 4 0 (set_guest g1 (set_segmentmappings l1 s))) as (g2 & -> & R2 & _ & F2); [|apply K1|done|lia..|].
  { apply inv_segments; [done|apply Hw1]. }
  cbn [exec_bind]. eexists. split; [done|]. do 3 (split; [done|]). split; [by eapply remapped_trans; [apply K1|]|].
  intros ph e He. split; [by apply (Hu ph)|]. intros j Hj. apply F2; [done| |done].
  apply get_Some_range in He as Hph. change (emm_mappings _) with (emm_mappings s) in Hph.
  rewrite (typed_frame _ (ems_types _ _ _ Hi)) in Hph. lia.
Qed.

(** C38.  Saving and restoring the page map: if the page frame shows what the table
    says, then after function 47h, whatever is mapped to the frame and to the segments
    in the meantime and whatever the program does, as long as no pages are released or
    resized, function 48h of the same handle returns, puts the table back and makes
    the frame show again what it showed; the contents of memory stay. *)
Theorem page_map_restored bl others s s1 s2 handle :
  ems_inv bl others s -> frame_shown bl s -> EMM_SavePageMap handle s = ok (EMM_NO_ERROR, s1) ->
  emm_handles s2 = emm_handles s1 -> mhandles s2 = mhandles s1 -> ems_typed s2 -> words (emm_segmentmappings s2) ->
  real_mode (guest s2) ->
  exists s3, EMM_RestorePageMap handle s2 = ok (EMM_NO_ERROR, s3) /\ emm_mappings s3 = emm_mappings s /\
    (forall p, frame_page0 0 <= p < frame_page0 4 -> direct p (guest s3) = direct p (guest s)) /\
    frame_shown bl s3 /\ ems_inv bl others s3 /\ host (guest s3) = host (guest s2).
Proof using.
  intros Hi Hf Es Eh Em Ht Hw Hr. pose proof (keeps_inv _ _ _ _ (SavePageMap_keeps _ _ _ _ Es) Hi) as Hi1.
  unfold EMM_SavePageMap in Es. exec_inv Es; subst; try done. apply read_inv in E0 as Hh.
  unfold put_handle in E2. exec_inv E2. subst. apply write_inv in E3 as [Hrange ->]. cbn [emm_handles set_handles mhandles] in *.
  set (h := with_saved true (emm_mappings s) _) in *.
  assert (get (emm_handles s2) handle = Some h) as Hh2 by (rewrite Eh; by apply get_upd_eq).
  unfold EMM_RestorePageMap.
  assert (map_handle_valid handle s2 = true) as ->.
  { unfold map_handle_valid in *. apply negb_false_iff in E. apply orb_prop in E as [Hv|Hz]; [|by rewrite Hz, orb_true_r].
    apply orb_true_intro. left. unfold ValidHandle in *. rewrite Hh2. by rewrite Hh in Hv. }
  cbn [negb]. rewrite (read_get _ _ _ Hh2). cbn [exec_bind]. change (saved_page_map h) with true. cbn [negb].
  rewrite put_handle_ok by (rewrite ?(typed_count _ Ht); try done; pose proof (typed_count _ (ems_types _ _ _ Hi)); lia). cbn [exec_bind].
  change (page_map h) with (emm_mappings s). set (s3 := set_mappings _ _).
  assert (entry <$> emm_handles s3 = entry <$> emm_handles s) as Hent.
  { cbn. rewrite Eh. unfold upd. rewrite list_insert_insert_eq, list_fmap_insert.
    unfold get in Hh. destruct (handle <? 0); [done|].
    apply list_insert_id. by rewrite list_lookup_fmap, Hh. }
  assert (ems_inv bl others s3) as Hi3.
  { split; cbn; rewrite ?Em; try apply Hi1; [|by eapply held_entry; [exact Hent|apply Hi]].
    destruct Ht as [T1 T2 T3 T4]. split; cbn; [by rewrite length_insert| |apply (ems_types _ _ _ Hi)|done].
    apply Forall_insert; [done|]. eapply (typed_at s2) in Hh2 as [? ?]; [by split|]. by split. }
  assert (forall e, usable s e -> usable s3 e) as Huse.
  { intros e [->|(h' & Hh' & Hn & Hp)]; [by left|right]. unfold get in *. destruct (map_handle e <? 0); [done|].
    apply (f_equal (fun l => l !! Z.to_nat (map_handle e))) in Hent. rewrite !list_lookup_fmap, Hh' in Hent.
    destruct (emm_handles s3 !! Z.to_nat (map_handle e)) as [h3|]; [|done]. injection Hent as E5 _. exists h3. by rewrite E5. }
  destruct (restore_table_real bl others s3 Hi3) as (s4 & E4 & Em4 & Eh4 & Emh4 & R4 & F4); [done|done|intros ph e He; apply Huse; by apply (Hf ph)|].
  pose proof (keeps_inv _ _ _ _ (RestoreMappingTable_keeps _ _ _ E4) Hi3) as Hi4. rewrite E4.
  exists s4. split; [done|]. split; [by rewrite Em4|]. split; [|split; [done|]; split].
  - intros p Hp. unfold frame_page0 in Hp. change EMM_PAGEFRAME4K with 224 in Hp.
    destruct (get_range (emm_mappings s) ((p - 224) / 4)) as [e He]; [rewrite (typed_frame _ (ems_types _ _ _ Hi)); zlia|].
    assert (p = frame_page0 ((p - 224) / 4) + (p - 224) mod 4) as Ep by (unfold frame_page0; change EMM_PAGEFRAME4K with 224; zlia).
    rewrite Ep. rewrite (proj2 (Hf _ _ He)) by zlia. apply F4; [by rewrite Em4|zlia].
  - done.
  - rewrite (rp_host _ _ R4). done.
Qed.
End Mapping.
