(* ===== verification/EmsServer.v ===== *)
(** * The tables of the VCPI server

    What [SetupVCPI] leaves in the private area: its writes as a list, the last write
    to an offset, and the descriptors, gates and stubs that are read back. *)
From S2P Require Import Prelude.
From S2P Require Import Registers.
From S2P Require Import GuestMemory.
From S2P Require Import GuestMemoryProofs.
From S2P Require Import CpuState.
From S2P Require Import CpuFrames.
From S2P Require Import Ems.
From S2P Require Import EmsVcpi.
#[local] Open Scope Z_scope.
#[local] Open Scope exec_scope.

(** ** Lists of writes *)
Record write_op := mkWrite { w_size : nat; w_off : Z; w_val : Z }.
(** The value that the last of the writes, newest first, leaves at an offset. *)
Fixpoint last_write (l : list write_op) (n : nat) (o : Z) : option Z :=
  match l with
  | [] => None
  | w :: l =>
      if (w_size w =? n)%nat && (w_off w =? o) then Some (w_val w)
      else if (o + Z.of_nat n <=? w_off w) || (w_off w + Z.of_nat (w_size w) <=? o) then last_write l n o
      else None
  end.
Fixpoint untouched (l : list write_op) (n : nat) (o : Z) : bool :=
  match l with
  | [] => true
  | w :: l => ((o + Z.of_nat n <=? w_off w) || (w_off w + Z.of_nat (w_size w) <=? o)) && untouched l n o
  end.
Definition in_area (w : write_op) : Prop := 0 <= w_off w /\ w_off w + Z.of_nat (w_size w) <= 0x4000 /\ (w_size w <= 4)%nat.

Section Writes.
Context {M : Type} `{ByteMemoryLaws M}.
Implicit Types (m : M) (s : Ems M).

(** The memory after the writes, newest first. *)
Fixpoint run (area : Z) (l : list write_op) m : M :=
  match l with [] => m | w :: l => le_write (w_size w) (area + w_off w) (w_val w) (run area l m) end.
Lemma run_app area l l' m : run area (l ++ l') m = run area l (run area l' m).
Proof using. induction l as [|w l IH]; [done|]. cbn [app run]. by rewrite IH. Qed.

Lemma area_apart area n o k o' :
  (0 < n)%nat -> 0 <= o -> o + Z.of_nat n <= 0x4000 -> 0 <= o' -> o' + Z.of_nat k <= 0x4000 ->
  o + Z.of_nat n <= o' \/ o' + Z.of_nat k <= o -> apart (Z.of_nat n) (area + o) (Z.of_nat k) (area + o').
Proof using.
  intros ? ? ? ? ? Hd. unfold apart, u32. replace (area + o - (area + o')) with (o - o') by lia.
  destruct (Z.le_gt_cases o' o).
  - rewrite Z.mod_small by lia. lia.
  - replace ((o - o') mod 4294967296) with (o - o' + 4294967296); [lia|]. apply (Z.mod_unique _ _ (-1)); lia.
Qed.
Lemma run_untouched area l n o m :
  (0 < n)%nat -> Forall in_area l -> 0 <= o -> o + Z.of_nat n <= 0x4000 -> untouched l n o = true ->
  le_read n (area + o) (run area l m) = le_read n (area + o) m.
Proof using Type*.
  intros Hpos Hl Ho Hn. induction Hl as [|w l (Hw & Hw' & _) Hl IH]; [done|]. cbn [untouched run]. intros [Hd Hu]%andb_prop.
  apply orb_prop in Hd. rewrite !Z.leb_le in Hd. rewrite le_read_apart; [by apply IH|]. by apply area_apart.
Qed.
Lemma run_last area l n o v m :
  (0 < n)%nat -> Forall in_area l -> 0 <= o -> o + Z.of_nat n <= 0x4000 -> last_write l n o = Some v ->
  le_read n (area + o) (run area l m) = v mod 256 ^ Z.of_nat n.
Proof using Type*.
  intros Hpos Hl Ho Hn. induction Hl as [|w l (Hw & Hw' & Hs) Hl IH]; [done|]. cbn [last_write run].
  destruct (Nat.eqb_spec (w_size w) n) as [<-|]; [destruct (Z.eqb_spec (w_off w) o) as [<-|]|]; cbn [andb].
  - intros [= <-]. rewrite le_roundtrip by lia. done.
  - destruct (Z.leb_spec (o + Z.of_nat (w_size w)) (w_off w)), (Z.leb_spec (w_off w + Z.of_nat (w_size w)) o); cbn [orb]; [..|done];
      intros E; (rewrite le_read_apart; [by apply IH|]; apply area_apart; lia).
  - destruct (Z.leb_spec (o + Z.of_nat n) (w_off w)), (Z.leb_spec (w_off w + Z.of_nat (w_size w)) o); cbn [orb]; [..|done];
      intros E; (rewrite le_read_apart; [by apply IH|]; apply area_apart; lia).
Qed.

(** ** The writes of [SetupVCPI] *)
Lemma guest_wrb a v s : guest (wrb a v s) = le_write 1 a (u8 v) (guest s).
Proof using. unfold wrb. cbn. by rewrite u8_u8. Qed.
Lemma guest_wrw a v s : guest (wrw a v s) = le_write 2 a (u16 v) (guest s).
Proof using. unfold wrw. cbn [guest machine set_guest on_machine mem with_mem]. by rewrite writew_le, le_write_PhysPt. Qed.
Lemma guest_wrd a v s : guest (wrd a v s) = le_write 4 a (u32 v) (guest s).
Proof using. unfold wrd. cbn [guest machine set_guest on_machine mem with_mem]. by rewrite writed_le, le_write_PhysPt. Qed.

Fixpoint dword_ops (l : list Z) (o : Z) (acc : list write_op) : list write_op :=
  match l with [] => acc | v :: l => dword_ops l (o + 4) (mkWrite 4 o v :: acc) end.
Fixpoint idt_ops (n : nat) (i : Z) (acc : list write_op) : list write_op :=
  match n with
  | O => acc
  | S n => idt_ops n (i + 1)
      (mkWrite 4 (0x2000 + i * 8 + 4) 0x0000ee00 :: mkWrite 4 (0x2000 + i * 8) (u32 (Z.lor 0x000c0000 (0x2800 + i * 4))) ::
       mkWrite 1 (0x2800 + i * 4 + 3) 0xcf :: mkWrite 2 (0x2800 + i * 4 + 1) (u16 (0x05fd - i * 4)) ::
       mkWrite 1 (0x2800 + i * 4) 0xe8 :: acc)
  end.
Fixpoint clear_ops (n : nat) (acc : list write_op) : list write_op :=
  match n with O => acc | S n => clear_ops n (mkWrite 1 0x3000 0 :: acc) end.
Lemma dword_ops_run area l o acc s m :
  guest s = run area acc m -> guest (write_dwords l (area + o) s) = run area (dword_ops (map u32 l) o acc) m.
Proof using.
  revert o acc s. induction l as [|v l IH]; intros o acc s E; [done|]. cbn [write_dwords dword_ops map].
  rewrite <- Z.add_assoc. apply IH. cbn [run w_size w_off w_val]. by rewrite guest_wrd, E.
Qed.
Lemma idt_ops_run area n i acc s m :
  guest s = run area acc m -> guest (idt_setup n i area s) = run area (idt_ops n i acc) m.
Proof using.
  revert i acc s. induction n as [|n IH]; intros i acc s E; [done|]. cbn [idt_setup idt_ops]. apply IH.
  cbn [run w_size w_off w_val]. rewrite !guest_wrd, guest_wrb, guest_wrw, guest_wrb, E, !Z.add_assoc. done.
Qed.
Lemma clear_ops_run area n acc s m :
  guest s = run area acc m -> guest (clear_tss n area s) = run area (clear_ops n acc) m.
Proof using.
  revert acc s. induction n as [|n IH]; intros acc s E; [done|]. cbn [clear_tss clear_ops]. apply IH.
  cbn [run w_size w_off w_val]. by rewrite guest_wrb, E.
Qed.

Lemma wrd_vcpi a v s : vcpi (wrd a v s) = vcpi s.
Proof using. done. Qed.
Lemma dwords_vcpi l a s : vcpi (write_dwords l a s) = vcpi s.
Proof using. revert a s. induction l as [|v l IH]; intros a s; [done|]. cbn [write_dwords]. by rewrite IH. Qed.
Lemma idt_vcpi n i area s : vcpi (idt_setup n i area s) = vcpi s.
Proof using. revert i s. induction n as [|n IH]; intros i s; [done|]. cbn [idt_setup]. by rewrite IH. Qed.
Lemma clear_vcpi n area s : vcpi (clear_tss n area s) = vcpi s.
Proof using. revert s. induction n as [|n IH]; intros s; [done|]. cbn [clear_tss]. by rewrite IH. Qed.

Lemma top_run area acc s m :
  guest s = run area acc m ->
  guest (wrd (area + 0x3066) 0x68 (wrd (area + 0x3008) 0x14 (wrd (area + 0x3004) 0x2000 s))) =
  run area (mkWrite 4 0x3066 0x68 :: mkWrite 4 0x3008 0x14 :: mkWrite 4 0x3004 0x2000 :: acc) m.
Proof using. intros E. rewrite !guest_wrd, E. done. Qed.
Lemma base_run area l o acc s m :
  o = 0 -> guest s = run area acc m -> guest (write_dwords l area s) = run area (dword_ops (map u32 l) o acc) m.
Proof using. intros ->. rewrite <- (Z.add_0_r area) at 2. apply dword_ops_run. Qed.

(** The values of the descriptors are given, so that the offsets can be evaluated. *)
Definition setup_ops (ll lh tl th cl ch dl dh : Z) : list write_op :=
  mkWrite 4 0x3066 0x68 :: mkWrite 4 0x3008 0x14 :: mkWrite 4 0x3004 0x2000 ::
  clear_ops (0x68 + 0x200) (idt_ops 0x100 0
    (dword_ops [0; 0; cl; ch; dl; dh] 0x1000 (dword_ops [0; 0; ll; lh; tl; th] 0 []))).
(** The state that [SetupVCPI] makes. *)
Definition setup_tables (area : Z) (tables ldt : list Z) s : Ems M :=
  wrd (area + 0x3066) 0x0068 (wrd (area + 0x3008) 0x00000014 (wrd (area + 0x3004) 0x00002000
    (clear_tss (0x68 + 0x200) area (idt_setup 0x100 0 area
      (write_dwords ldt (area + 0x1000) (write_dwords tables area s)))))).
Lemma setup_tables_vcpi area tables ldt s : vcpi (setup_tables area tables ldt s) = vcpi s.
Proof using. unfold setup_tables. by rewrite !wrd_vcpi, clear_vcpi, idt_vcpi, !dwords_vcpi. Qed.
Lemma setup_tables_run area ll lh tl th cl ch dl dh s :
  guest (setup_tables area [0; 0; ll; lh; tl; th] [0; 0; cl; ch; dl; dh] s) =
  run area (setup_ops (u32 ll) (u32 lh) (u32 tl) (u32 th) (u32 cl) (u32 ch) (u32 dl) (u32 dh)) (guest s).
Proof using.
  exact (top_run _ _ _ _ (clear_ops_run _ _ _ _ _ (idt_ops_run _ _ _ _ _ _
           (dword_ops_run _ _ _ _ _ _ (base_run _ _ _ [] _ _ eq_refl eq_refl))))).
Qed.
Definition table_values (area : Z) : list Z :=
  [0; 0; descriptor_low (u32 (area + 0x1000)) 0xff; descriptor_high (u32 (area + 0x1000)) 0x8200;
   descriptor_low (u32 (area + 0x3000)) (0x0068 + 0x200); descriptor_high (u32 (area + 0x3000)) 0x8900].
Definition ldt_values (area : Z) : list Z :=
  [0; 0; descriptor_low area 0xffff; descriptor_high area 0x9a00; descriptor_low area 0xffff; descriptor_high area 0x9200].
Lemma setup_spec s h :
  get (emm_handles s) 0 = Some h ->
  let area := Z.shiftl (hmem h) 12 in
  SetupVCPI s = ok (setup_tables area (table_values area) (ldt_values area)
                      (set_vcpi (mkVcpi true 0 (pm_interface (vcpi s)) area 0x08 0x70) s)).
Proof using. intros Hh area. unfold SetupVCPI. rewrite (read_get _ _ _ Hh). reflexivity. Qed.
End Writes.

(** ** Finite checks on the offsets *)
Section Offsets.
Variables ll lh tl th cl ch dl dh : Z.
Let ops := setup_ops ll lh tl th cl ch dl dh.
Definition in_area_b (w : write_op) : bool :=
  (0 <=? w_off w) && (w_off w + Z.of_nat (w_size w) <=? 0x4000) && (w_size w <=? 4)%nat.
Lemma ops_in_area : Forall in_area ops.
Proof using.
  assert (forallb in_area_b ops = true) as Hf by (vm_compute; reflexivity).
  apply Forall_forall. intros w Hw. rewrite forallb_forall in Hf. specialize (Hf w Hw). unfold in_area_b in Hf.
  apply andb_prop in Hf as [[H1 H2]%andb_prop H3]. apply Z.leb_le in H1, H2. apply Nat.leb_le in H3. by split; [|split].
Qed.
Lemma ops_descriptors :
  map (last_write ops 4) [0x8; 0xc; 0x10; 0x14; 0x1008; 0x100c; 0x1010; 0x1014] =
  map Some [ll; lh; tl; th; cl; ch; dl; dh].
Proof using. vm_compute. reflexivity. Qed.
Lemma ops_first : last_write ops 4 0x0 = Some 0 /\ last_write ops 4 0x4 = Some 0.
Proof using. vm_compute. auto. Qed.
Lemma ops_stack : last_write ops 4 0x3004 = Some 0x2000 /\ last_write ops 4 0x3008 = Some 0x14 /\ last_write ops 4 0x3066 = Some 0x68.
Proof using. vm_compute. auto. Qed.
Definition gate_ok (i : Z) : bool :=
  bool_decide (last_write ops 4 (0x2000 + 8 * i) = Some (0x000c0000 + (0x2800 + 4 * i))) &&
  bool_decide (last_write ops 4 (0x2000 + 8 * i + 4) = Some 0xee00) &&
  bool_decide (last_write ops 1 (0x2800 + 4 * i) = Some 0xe8) &&
  bool_decide (last_write ops 2 (0x2800 + 4 * i + 1) = Some (u16 (0x05fd - 4 * i))).
Lemma ops_gates : forallb gate_ok (seqZ 0 256) = true.
Proof using. vm_compute. reflexivity. Qed.
Lemma ops_uncleared : forallb (untouched ops 1) (seqZ 0x300c 0x5a) = true.
Proof using. vm_compute. reflexivity. Qed.
End Offsets.

(** ** Descriptors *)
Definition desc_at {M} `{ByteMemory M} (a : Z) (m : M) : Descriptor := mkDesc (mem_unalignedreadd a m) (mem_unalignedreadd (a + 4) m).
Lemma land_field a lo w : 0 <= lo -> 0 <= w -> Z.land a (Z.shiftl (Z.ones w) lo) = (a / 2 ^ lo) mod 2 ^ w * 2 ^ lo.
Proof.
  intros Hl Hw. rewrite <- Z.shiftr_div_pow2, <- Z.land_ones, <- Z.shiftl_mul_pow2 by lia.
  apply Z.bits_inj'. intros i Hi. rewrite Z.land_spec, !Z.shiftl_spec by lia. destruct (Z.lt_ge_cases i lo).
  - by rewrite !(Z.testbit_neg_r _ (i - lo)), andb_false_r by lia.
  - rewrite Z.land_spec, Z.shiftr_spec by lia. by replace (i - lo + lo) with i by lia.
Qed.
Lemma field_arith lo w x : 0 <= lo -> 0 <= w -> field lo w x = (x / 2 ^ lo) mod 2 ^ w.
Proof. intros. unfold field. by rewrite Z.land_ones, Z.shiftr_div_pow2. Qed.
Lemma lor_mul a w b : 0 <= w -> 0 <= b < 2 ^ w -> Z.lor (a * 2 ^ w) b = a * 2 ^ w + b.
Proof. intros Hw Hb. rewrite <- lor_join by done. by rewrite Z.shiftl_mul_pow2. Qed.
Lemma descriptor_values a low attributes :
  0 <= a < 2 ^ 32 -> 0 <= low < 65536 -> 0 <= attributes < 256 ->
  u32 (descriptor_low a low) = a mod 65536 * 65536 + low /\
  u32 (descriptor_high a (attributes * 256)) = a / 65536 mod 256 + attributes * 256 + a / 16777216 * 16777216.
Proof.
  intros Ha Hl Hat. unfold descriptor_low, descriptor_high.
  change 0xffff with (Z.shiftl (Z.ones 16) 0). change 0xff0000 with (Z.shiftl (Z.ones 8) 16).
  change 0xff000000 with (Z.shiftl (Z.ones 8) 24). rewrite !land_field by lia.
  rewrite !Z.shiftl_mul_pow2, Z.shiftr_div_pow2, Z.div_mul by lia. rewrite (Z.lor_comm (_ mod _)), <- Z.lor_assoc, (Z.lor_comm (_ mod _)).
  assert (0 <= (a / 2 ^ 16) mod 2 ^ 8 < 2 ^ 8 /\ a / 2 ^ 24 mod 2 ^ 8 = a / 2 ^ 24) as [Hm Hd] by zlia.
  change 256 with (2 ^ 8) at 2. rewrite (lor_mul attributes 8) by lia. rewrite (lor_mul _ 24) by lia. split.
  - rewrite (u32_small (_ * _)) by zlia. rewrite Z.div_1_r, Z.mul_1_r. rewrite (lor_mul _ 16) by lia. apply u32_small. zlia.
  - rewrite Hd. change (2 ^ 24) with 16777216. change (2 ^ 16) with 65536. change (2 ^ 8) with 256. rewrite u32_small; zlia.
Qed.
Lemma descriptor_fields a low attributes :
  0 <= a < 2 ^ 32 -> 0 <= low < 65536 -> 0 <= attributes < 256 ->
  let d := mkDesc (u32 (descriptor_low a low)) (u32 (descriptor_high a (attributes * 256))) in
  GetBase d = a /\ GetLimit d = low /\ Type_ d = attributes mod 32 /\ DPL d = attributes / 32 mod 4 /\ seg_p d = attributes / 128.
Proof.
  intros Ha Hl Hat d. destruct (descriptor_values a low attributes Ha Hl Hat) as [E0 E1].
  unfold GetBase, GetLimit, Type_, DPL, seg_p, seg_g. subst d. cbn [fill0 fill1]. rewrite E0, E1, !field_arith by lia.
  rewrite !Z.shiftl_mul_pow2 by lia.
  change (2 ^ 24) with 16777216. change (2 ^ 16) with 65536. change (2 ^ 8) with 256. change (2 ^ 4) with 16. change (2 ^ 15) with 32768.
  change (2 ^ 23) with 8388608. change (2 ^ 1) with 2. change (2 ^ 13) with 8192. change (2 ^ 2) with 4. change (2 ^ 5) with 32. change (2 ^ 0) with 1.
  set (x := a / 65536 mod 256 + attributes * 256 + a / 16777216 * 16777216). set (y := a mod 65536 * 65536 + low).
  assert (x / 16777216 mod 256 = a / 16777216) as -> by (subst x; zlia).
  assert (x / 1 mod 256 = a / 65536 mod 256) as -> by (subst x; zlia).
  assert (y / 65536 mod 65536 = a mod 65536) as -> by (subst y; zlia).
  assert (x / 65536 mod 16 = 0) as -> by (subst x; zlia).
  assert (y / 1 mod 65536 = low) as -> by (subst y; zlia).
  assert (x / 8388608 mod 2 = 0) as -> by (subst x; zlia).
  assert (x / 256 mod 32 = attributes mod 32) as -> by (subst x; zlia).
  assert (x / 8192 mod 4 = attributes / 32 mod 4) as -> by (subst x; zlia).
  assert (x / 32768 mod 2 = attributes / 128) as -> by (subst x; zlia).
  split; [|done]. change 65536 with (2 ^ 16) at 2. rewrite <- Z.lor_assoc, (lor_mul _ 16) by zlia.
  change 16777216 with (2 ^ 24) at 2. rewrite (lor_mul _ 24) by zlia. zlia.
Qed.

Section Server.
Context {M : Type} `{ByteMemoryLaws M}.
Implicit Types (m : M) (s : Ems M).

(** A descriptor of the private area. *)
Definition is_descriptor (d : Descriptor) (where_ size attributes : Z) : Prop :=
  GetBase d = where_ /\ GetLimit d = size /\ Type_ d = attributes mod 32 /\ DPL d = attributes / 32 mod 4 /\ seg_p d = attributes / 128.
Lemma read_op area l n o v m :
  Forall in_area l -> (0 < n)%nat -> 0 <= o -> o + Z.of_nat n <= 0x4000 -> last_write l n o = Some v -> 0 <= v < 256 ^ Z.of_nat n ->
  le_read n (area + o) (run area l m) = v.
Proof using Type*. intros Hl Hn Ho Hb Hv Hr. rewrite (run_last _ _ _ _ v) by done. by apply Z.mod_small. Qed.
Lemma descriptor_op area l o a low attributes m :
  Forall in_area l -> 0 <= o -> o + 8 <= 0x4000 -> 0 <= a < 2 ^ 32 -> 0 <= low < 65536 -> 0 <= attributes < 256 ->
  last_write l 4 o = Some (u32 (descriptor_low a low)) ->
  last_write l 4 (o + 4) = Some (u32 (descriptor_high a (attributes * 256))) ->
  is_descriptor (desc_at (area + o) (run area l m)) a low attributes.
Proof using Type*.
  intros Hl Ho Hb Ha Hlow Hat E0 E1. unfold desc_at. rewrite !readd_le, <- Z.add_assoc.
  rewrite (read_op area l 4 o _ m Hl ltac:(lia) Ho ltac:(lia) E0) by apply u32_range.
  rewrite (read_op area l 4 (o + 4) _ m Hl ltac:(lia) ltac:(lia) ltac:(lia) E1) by apply u32_range. by apply descriptor_fields.
Qed.

(** The gate of interrupt [i] and the stub it leads to. *)
Definition gate_leads (area i : Z) m : Prop :=
  let gate := desc_at (area + 0x2000 + 8 * i) m in
  let stub := area + GetOffset gate in
  GetSelector gate = 0x0c /\ Type_ gate = DESC_386_INT_GATE /\ DPL gate = 3 /\ seg_p gate = 1 /\
  le_read 1 stub m = 0xe8 /\ u16 (GetOffset gate + 3 + mem_unalignedreadw (stub + 1) m) = 0x2e00 /\
  u64 (GetOffset gate + 3 - 0x2803) = 4 * i.
Lemma gate_fields i : 0 <= i < 256 ->
  let gate := mkDesc (0x000c0000 + (0x2800 + 4 * i)) 0xee00 in
  GetSelector gate = 0x0c /\ Type_ gate = DESC_386_INT_GATE /\ DPL gate = 3 /\ seg_p gate = 1 /\ GetOffset gate = 0x2800 + 4 * i.
Proof using.
  intros Hi gate. unfold GetSelector, GetOffset. subst gate. cbn [fill0 fill1]. rewrite !field_arith by lia.
  change (0xee00 / 2 ^ 16 mod 2 ^ 16) with 0. change (2 ^ 16) with 65536.
  split; [zlia|]. do 3 (split; [done|]). change (2 ^ 0) with 1. rewrite Z.shiftl_0_l, Z.lor_0_l. zlia.
Qed.
Lemma gate_op area ll lh tl th cl ch dl dh i m :
  0 <= i < 256 -> gate_leads area i (run area (setup_ops ll lh tl th cl ch dl dh) m).
Proof using Type*.
  intros Hi. pose proof (ops_gates ll lh tl th cl ch dl dh) as Hg. rewrite forallb_forall in Hg.
  specialize (Hg i ltac:(apply list_elem_of_In, elem_of_seqZ; lia)). unfold gate_ok in Hg.
  apply andb_prop in Hg as [[[G1 G2]%andb_prop G3]%andb_prop G4]. apply bool_decide_eq_true in G1, G2, G3, G4.
  pose proof (ops_in_area ll lh tl th cl ch dl dh) as Hl.
  set (ops := setup_ops ll lh tl th cl ch dl dh) in *. clearbody ops. unfold gate_leads.
  assert (desc_at (area + 0x2000 + 8 * i) (run area ops m) = mkDesc (0x000c0000 + (0x2800 + 4 * i)) 0xee00) as ->.
  { unfold desc_at. rewrite !readd_le, <- !Z.add_assoc, (Z.add_assoc 0x2000). f_equal.
    - apply (read_op area ops 4); try done; change (256 ^ Z.of_nat 4) with 4294967296; lia.
    - apply (read_op area ops 4); try done; lia. }
  destruct (gate_fields i Hi) as (S1 & S2 & S3 & S4 & S5). rewrite S5. do 4 (split; [done|]). cbv zeta.
  rewrite (read_op area ops 1 (0x2800 + 4 * i) _ m Hl ltac:(lia) ltac:(lia) ltac:(lia) G3) by done. split; [done|].
  assert (mem_unalignedreadw (area + (0x2800 + 4 * i) + 1) (run area ops m) = u16 (0x05fd - 4 * i)) as ->.
  { rewrite readw_le, <- Z.add_assoc. apply (read_op area ops 2 (0x2800 + 4 * i + 1)); try done; try lia. apply u16_range. }
  split; [unfold u16; zlia|unfold u64; rewrite Z.mod_small; lia].
Qed.

(** C39.  The tables of the VCPI server fit together: [SetupVCPI] returns; the
    descriptors of the local descriptor table, of the task state segment and of the
    server's code and data lead to their parts of the private area; each of the 256
    interrupt gates is a present 32-bit interrupt gate of level 3 whose stub in the code
    segment is a near call to the monitor's code at 2e00h, and the monitor finds the
    number of the interrupt in the return address which that call pushes; the ring 0
    stack and the I/O map base are set.  The rest of the task state segment is not
    cleared: from offset 0ch to the map base it has the bytes the memory had. *)
Theorem vcpi_tables s h :
  get (emm_handles s) 0 = Some h ->
  let area := Z.shiftl (hmem h) 12 in
  0 <= area -> area + 0x4000 <= 2 ^ 32 ->
  exists s', SetupVCPI s = ok s' /\ private_area (vcpi s') = area /\ enabled (vcpi s') = true /\
    let m := guest s' in
    is_descriptor (desc_at (area + 0x8) m) (area + 0x1000) 0xff 0x82 /\
    is_descriptor (desc_at (area + 0x10) m) (area + 0x3000) 0x268 0x89 /\
    is_descriptor (desc_at (area + 0x1008) m) area 0xffff 0x9a /\
    is_descriptor (desc_at (area + 0x1010) m) area 0xffff 0x92 /\
    (forall i, 0 <= i < 256 -> gate_leads area i m) /\
    mem_unalignedreadd (area + 0x3004) m = 0x2000 /\ mem_unalignedreadd (area + 0x3008) m = 0x14 /\
    mem_unalignedreadd (area + 0x3066) m = 0x68 /\
    forall o, 0x300c <= o < 0x3066 -> le_read 1 (area + o) m = le_read 1 (area + o) (guest s).
Proof using Type*.
  intros Hh area Hpos Hm. rewrite (setup_spec s h Hh). fold area. set (s1 := set_vcpi _ s).
  eexists. split; [reflexivity|]. rewrite !setup_tables_vcpi. split; [done|]. split; [done|]. cbv zeta.
  unfold table_values, ldt_values. rewrite setup_tables_run. change (guest s1) with (guest s). clearbody s1.
  change 0x8200 with (0x82 * 256). change 0x8900 with (0x89 * 256). change 0x9a00 with (0x9a * 256). change 0x9200 with (0x92 * 256).
  rewrite (u32_small (area + 0x1000)), (u32_small (area + 0x3000)) by lia. change (0x68 + 0x200) with 0x268.
  match goal with |- context [setup_ops ?a ?b ?c ?d ?e ?f ?g ?h] =>
    pose proof (ops_descriptors a b c d e f g h) as Hd; pose proof (ops_stack a b c d e f g h) as (K1 & K2 & K3);
    pose proof (ops_uncleared a b c d e f g h) as Hu; pose proof (ops_in_area a b c d e f g h) as Hl;
    pose proof (fun i => gate_op area a b c d e f g h i (guest s)) as Hg;
    set (ops := setup_ops a b c d e f g h) in * end.
  clearbody ops. cbn [map] in Hd. injection Hd as D1 D2 D3 D4 D5 D6 D7 D8.
  split; [apply descriptor_op; done || lia|]. split; [apply descriptor_op; done || lia|].
  split; [apply descriptor_op; done || lia|]. split; [apply descriptor_op; done || lia|]. split; [done|].
  rewrite !readd_le. do 3 (split; [apply (read_op area ops 4); try done; lia|]).
  intros o Ho. apply run_untouched; try done; try lia. rewrite forallb_forall in Hu. apply Hu, list_elem_of_In, elem_of_seqZ. lia.
Qed.

(** ** Start without memory *)
Definition monitor_ops (callback : Z) (l : list write_op) : list write_op :=
  mkWrite 1 0x2e05 0xcf :: mkWrite 1 0x2e04 0x66 :: mkWrite 2 0x2e02 (u16 callback) :: mkWrite 1 0x2e01 0x38 :: mkWrite 1 0x2e00 0xfe :: l.
Lemma monitor_run area callback l s m : guest s = run area l m -> guest (monitor_code area callback s) = run area (monitor_ops callback l) m.
Proof using. intros E. unfold monitor_code, monitor_ops. cbn [run w_size w_off w_val]. by rewrite !guest_wrb, guest_wrw, !guest_wrb, E. Qed.
Lemma wrb_vcpi a v s : vcpi (wrb a v s) = vcpi s.
Proof using. done. Qed.
Lemma wrw_vcpi a v s : vcpi (wrw a v s) = vcpi s.
Proof using. done. Qed.
Lemma monitor_vcpi area callback s : vcpi (monitor_code area callback s) = vcpi s.
Proof using. unfold monitor_code. by rewrite !wrb_vcpi, wrw_vcpi, !wrb_vcpi. Qed.

(** C40.  Starting the manager with fewer than 24 free pages: the constructor does not
    look at the error that [EMM_AllocateSystemHandle] reports, the system handle has no
    memory, and the tables of the VCPI server are written from address 0 on - the
    interrupt vectors 0 and 1 are zero afterwards, whatever they were. *)
Theorem start_without_memory type callback monitor s :
  0 < type -> type <> 2 -> emm_handles s <> [] -> get_free_pages s < 24 ->
  exists s', EMS_start type false callback monitor s = ok s' /\
    private_area (vcpi s') = 0 /\ enabled (vcpi s') = true /\
    mem_unalignedreadd 0 (guest s') = 0 /\ mem_unalignedreadd 4 (guest s') = 0.
Proof using Type*.
  intros Ht H2 Hne Hf. unfold EMS_start. cbv zeta. destruct (Z.leb_spec type 0); [lia|].
  set (s1 := clear_tables _). assert (get_free_pages s1 = get_free_pages s) as Ef by done.
  unfold EMM_AllocateSystemHandle. rewrite Ef. destruct (Z.ltb_spec (get_free_pages s) 24); [|lia]. cbn [exec_bind].
  destruct (Z.eqb_spec type 2); [done|]. set (s2 := set_vcpi _ s1).
  destruct (emm_handles s) as [|h0 l] eqn:El; [done|].
  assert (get (emm_handles s2) 0 = Some (fresh_handle h0)) as Hh.
  { subst s2 s1. unfold clear_tables. cbn [emm_handles set_vcpi set_segmentmappings set_mappings set_handles set_type]. by rewrite El. }
  rewrite (setup_spec s2 _ Hh). cbn [exec_bind]. change (Z.shiftl (hmem (fresh_handle h0)) 12) with 0.
  set (s3 := set_vcpi _ s2). eexists. split; [reflexivity|]. rewrite monitor_vcpi, setup_tables_vcpi.
  change (private_area (vcpi s3)) with 0.
  pose proof (setup_tables_run 0 (descriptor_low (u32 (0 + 0x1000)) 0xff) (descriptor_high (u32 (0 + 0x1000)) 0x8200)
    (descriptor_low (u32 (0 + 0x3000)) (0x0068 + 0x200)) (descriptor_high (u32 (0 + 0x3000)) 0x8900)
    (descriptor_low 0 0xffff) (descriptor_high 0 0x9a00) (descriptor_low 0 0xffff) (descriptor_high 0 0x9200) s3 :
    guest (setup_tables 0 (table_values 0) (ldt_values 0) s3) = _) as Hr.
  rewrite (monitor_run _ monitor _ _ _ Hr). clear Hr.
  match goal with |- context [setup_ops ?a ?b ?c ?d ?e ?f ?g ?h] =>
    pose proof (ops_first a b c d e f g h) as [F0 F4]; pose proof (ops_in_area a b c d e f g h) as Hl;
    set (ops := setup_ops a b c d e f g h) in * end. clearbody ops.
  assert (Forall in_area (monitor_ops monitor ops)) as Hl' by (unfold monitor_ops; repeat (constructor; [by split; [|split; [|cbn; lia]]|]); done).
  split; [done|]. split; [done|]. rewrite !readd_le.
  split; [apply (read_op 0 (monitor_ops monitor ops) 4 0)|apply (read_op 0 (monitor_ops monitor ops) 4 4)]; done || lia.
Qed.
End Server.
