(* ===== verification/EmsLife.v ===== *)
(** * The expanded memory manager from its start on

    What the VCPI functions leave alone, the pages that VCPI hands out one by one, and
    the state that the constructor makes. *)
From stdpp Require Import relations.
From S2P Require Import Prelude.
From S2P Require Import Registers.
From S2P Require Import GuestMemory.
From S2P Require Import PageAlloc.
From S2P Require Import PageSearch.
From S2P Require Import PageBlocks.
From S2P Require Import PageOverrun.
From S2P Require Import PageTheorems.
From S2P Require Import PageResize.
From S2P Require Import CpuState.
From S2P Require Import CpuProtect.
From S2P Require Import Ems.
From S2P Require Import EmsVcpi.
From S2P Require Import EmsProofs.
From S2P Require Import EmsInvariant.
From S2P Require Import EmsServer.
#[local] Open Scope Z_scope.
#[local] Open Scope exec_scope.

Section Life.
Context {M : Type} `{ByteMemory M} `{PageMapping M} `{PagingControl M} `{Config} `{PortIO M}.
Implicit Types (s : Ems M) (bl others : list (list Z)) (c : CPU M).

(** ** VCPI *)
Lemma vcpi_keeps v s : keeps_pages s (set_vcpi v s).
Proof using. split; [done..|]. by intros [T1 T2 T3 T4]. Qed.
Lemma page_table_keeps n ct base s : keeps_pages s (page_table n ct base s).
Proof using.
  revert ct s. induction n as [|n IH]; intros ct s; cbn [page_table]; [done|]. etrans; [|apply IH].
  unfold real_wrb, real_wrw. chain.
Qed.
Lemma frame_entries_keeps n ct s s' : frame_entries n ct s = ok s' -> keeps_pages s s'.
Proof using.
  revert ct s. induction n as [|n IH]; intros ct s E; cbn [frame_entries] in E; exec_inv E; [by subst|].
  apply IH in E. etrans; [|exact E]. clear E. exec_inv E1; subst; [|done]. unfold real_wrw. chain.
Qed.
Hint Resolve vcpi_keeps page_table_keeps frame_entries_keeps : keeps.
Lemma interface_keeps s s' : vcpi_interface s = ok s' -> keeps_pages s s'.
Proof using. unfold vcpi_interface, real_wrd. intros E. exec_inv E. subst. chain. Qed.
Lemma physical_address_keeps s s' : vcpi_physical_address s = ok s' -> keeps_pages s s'.
Proof using. unfold vcpi_physical_address. intros E. exec_inv E; subst; chain. Qed.
Hint Resolve interface_keeps physical_address_keeps : keeps.
(** The functions 4 and 5, which allocate and free a page. *)
Definition page_function (al : Z) : bool := (al =? 0x04) || (al =? 0x05).
Lemma vcpi_functions_keeps fuel s s' :
  page_function (reg_al (regs s)) = false -> vcpi_functions fuel s = ok s' -> keeps_pages s s'.
Proof using.
  unfold page_function, vcpi_functions, vcpi_free_pages. intros [-> ->]%orb_false_elim E. exec_inv E; subst; chain.
Qed.
Lemma protected_keeps fuel s s' :
  reg_ax (regs s) <> 0xDE04 -> reg_ax (regs s) <> 0xDE05 -> VCPI_PM_Handler fuel s = ok s' -> keeps_pages s s'.
Proof using.
  unfold VCPI_PM_Handler, vcpi_free_pages. intros H4%Z.eqb_neq H5%Z.eqb_neq E. rewrite H4, H5 in E. exec_inv E; subst; chain.
Qed.
(** Both interfaces share the functions. *)
Lemma interrupt_vcpi fuel s : reg_ah (regs s) = 0xDE -> enabled (vcpi s) = true -> INT67_Handler fuel s = vcpi_functions fuel s.
Proof using. unfold INT67_Handler. intros -> ->. done. Qed.

(** ** The pages of VCPI

    [vp] are the pages that VCPI has handed out: each is a block of its own. *)
Definition with_vcpi (vp : list Z) others : list (list Z) := map (fun p => [p]) vp ++ others.
Definition accounted others (vp : list Z) s : Prop := holds (with_vcpi vp others) s.
Lemma pages_only mh' bl others others' s :
  ems_inv bl others s -> npages mh' = npages (mhandles s) -> owned mh' (real_blocks bl ++ others') -> ems_inv bl others' (set_mhandles mh' s).
Proof using.
  intros Hi Hnp Ho. split; cbn; rewrite ?Hnp; try apply Hi; [|done]. destruct (ems_types _ _ _ Hi) as [T1 T2 T3 T4]. by split.
Qed.
Definition given (s : Ems M) (vp : list Z) : list Z :=
  if reg_ah (regs s) =? EMM_NO_ERROR then Z.shiftr (reg_edx (regs s)) 12 :: vp else vp.
Lemma vcpi_allocate_accounted others vp s :
  accounted others vp s -> exists s', vcpi_allocate s = ok s' /\ accounted others (given s' vp) s' /\
    (reg_ah (regs s') = EMM_NO_ERROR <-> 0 < MEM_FreeTotal (mhandles s)).
Proof using.
  intros (bl & Hi). unfold vcpi_allocate. pose proof (ems_range _ _ _ Hi) as Hr. set (mh := mhandles s) in *.
  pose proof (Allocate_scattered mh _ 1 (ems_owned _ _ _ Hi) ltac:(lia) ltac:(lia)) as Ha.
  assert (overruns mh 1 = false) as Ho.
  { unfold overruns. destruct (tail_free_spec mh) as [[-> _]|[Hp Ht]]; [lia|by rewrite andb_false_r|].
    pose proof (short_at_least mh _ _ (tail_free mh) Ht ltac:(lia)). rewrite (proj2 (Z.ltb_ge _ 1)) by lia. apply andb_false_r. }
  rewrite Ho in Ha. destruct (Z.ltb_spec (MEM_FreeTotal mh) 1) as [Hlt|Hge].
  - rewrite Ha. cbn [exec_bind Z.eqb negb]. eexists. split; [done|]. unfold given.
    assert (reg_ah (regs (put_ah EMM_OUT_OF_LOG (set_mhandles mh s))) = EMM_OUT_OF_LOG) as ->.
    { unfold put_ah, put_regs, regs, reg_ah, byte_h. cbn. unfold set_byte_h, EMM_OUT_OF_LOG. zlia. }
    split; [|split; [done|lia]]. eapply holds_keeps; [apply machine_keeps|]. exists bl. by replace (set_mhandles mh s) with s by by destruct s.
  - destruct Ha as (h & mh' & c & E & Hnp & Hl & -> & Hx & _ & Hown & _). destruct c as [|q [|]]; cbn in Hl; [lia| |lia].
    cbn [hd] in *. pose proof (owned_pages _ _ _ Hown) as (_ & Hs & _ & _). pose proof (seg_range _ _ _ _ q Hs ltac:(constructor)) as Hq.
    rewrite E. cbn [exec_bind]. unfold XMS_START in Hx. rewrite (proj2 (Z.eqb_neq q 0)) by lia. cbn [negb]. eexists. split; [done|].
    set (s1 := set_mhandles mh' s). unfold given.
    assert (reg_ah (regs (put_ah EMM_NO_ERROR (put_regs (set_edx (u32 (Z.shiftl q 12))) s1))) = EMM_NO_ERROR) as ->.
    { unfold put_ah, put_regs, regs, reg_ah, byte_h. cbn. unfold set_byte_h, EMM_NO_ERROR. zlia. }
    change (reg_edx (regs _)) with (u32 (Z.shiftl q 12)). cbn [Z.eqb].
    assert (Z.shiftr (u32 (Z.shiftl q 12)) 12 = q) as ->.
    { rewrite Z.shiftl_mul_pow2, u32_small by lia. rewrite Z.shiftr_div_pow2 by lia. by apply Z.div_mul. }
    split; [|split; [lia|done]]. do 2 (eapply holds_keeps; [apply machine_keeps|]). exists bl.
    eapply pages_only; [exact Hi|done|]. eapply owned_perm; [|exact Hown]. cbn. by rewrite Permutation_middle.
Qed.
Lemma vcpi_free_accounted others vp1 p vp2 s :
  accounted others (vp1 ++ p :: vp2) s -> Z.shiftr (reg_edx (regs s)) 12 = p ->
  exists s', vcpi_free s = ok s' /\ accounted others (vp1 ++ vp2) s'.
Proof using.
  intros (bl & Hi) Hp. unfold vcpi_free. rewrite Hp.
  destruct (Release_owned (mhandles s) [p] (real_blocks bl ++ with_vcpi (vp1 ++ vp2) others)) as (mh' & E & Hnp & Ho & _).
  { eapply owned_perm; [|apply (ems_owned _ _ _ Hi)]. unfold with_vcpi. rewrite !map_app. cbn [map]. rewrite <- !app_assoc. cbn [app].
    solve_Permutation. }
  cbn [hd] in E. rewrite E. cbn [exec_bind]. eexists. split; [done|]. eapply holds_keeps; [apply machine_keeps|]. exists bl. by eapply pages_only.
Qed.

(** ** Steps

    Interrupt 67h with any registers, the protected mode interface, and whatever the
    program does to the registers and the memory in between.  The only condition: what
    is freed through VCPI is a page that VCPI gave. *)
Inductive ems_step : list Z * Ems M -> list Z * Ems M -> Prop :=
  | step_int67 fuel vp s s' :
      ~ (reg_ah (regs s) = 0xDE /\ page_function (reg_al (regs s)) = true) -> INT67_Handler fuel s = ok s' -> ems_step (vp, s) (vp, s')
  | step_protected fuel vp s s' :
      reg_ax (regs s) <> 0xDE04 -> reg_ax (regs s) <> 0xDE05 -> VCPI_PM_Handler fuel s = ok s' -> ems_step (vp, s) (vp, s')
  | step_allocate vp s s' : vcpi_allocate s = ok s' -> ems_step (vp, s) (given s' vp, s')
  | step_free vp1 p vp2 s s' : Z.shiftr (reg_edx (regs s)) 12 = p -> vcpi_free s = ok s' -> ems_step (vp1 ++ p :: vp2, s) (vp1 ++ vp2, s')
  | step_program f vp s : ems_step (vp, s) (vp, on_machine f s).
Lemma step_accounted others x y : ems_step x y -> accounted others x.1 x.2 -> accounted others y.1 y.2.
Proof using.
  intros [fuel vp s s' Hn E|fuel vp s s' H4 H5 E|vp s s' E|vp1 p vp2 s s' Hp E|f vp s] Hs; cbn [fst snd] in *.
  - destruct (Z.eq_dec (reg_ah (regs s)) 0xDE) as [Ha|]; [|by eapply int67_holds].
    destruct (page_function (reg_al (regs s))) eqn:Ef; [destruct Hn; by split|].
    destruct (enabled (vcpi s)) eqn:Ee.
    + rewrite interrupt_vcpi in E by done. eapply holds_keeps; [by eapply vcpi_functions_keeps|done].
    + unfold INT67_Handler in E. rewrite Ha, Ee in E. injection E as <-. by eapply holds_keeps; [apply machine_keeps|].
  - eapply holds_keeps; [by eapply protected_keeps|done].
  - destruct (vcpi_allocate_accounted _ _ _ Hs) as (s1 & E1 & Hs1 & _). congruence.
  - destruct (vcpi_free_accounted _ _ _ _ _ Hs Hp) as (s1 & E1 & Hs1). congruence.
  - by eapply holds_keeps; [apply machine_keeps|].
Qed.
Lemma steps_accounted others x y : rtc ems_step x y -> accounted others x.1 x.2 -> accounted others y.1 y.2.
Proof using. induction 1 as [|x y z Hxy _ IH]; [done|]. intros Hx. by eapply IH, step_accounted. Qed.

(** ** The constructor *)
Lemma dwords_keeps l at_ s : keeps_pages s (write_dwords l at_ s).
Proof using. revert at_ s. induction l as [|v l IH]; intros at_ s; cbn [write_dwords]; [done|]. etrans; [|apply IH]. chain. Qed.
Lemma idt_keeps n i area s : keeps_pages s (idt_setup n i area s).
Proof using. revert i s. induction n as [|n IH]; intros i s; cbn [idt_setup]; [done|]. etrans; [|apply IH]. chain. Qed.
Lemma clear_tss_keeps n area s : keeps_pages s (clear_tss n area s).
Proof using. revert s. induction n as [|n IH]; intros s; cbn [clear_tss]; [done|]. etrans; [|apply IH]. chain. Qed.
Hint Resolve dwords_keeps idt_keeps clear_tss_keeps : keeps.
Lemma wrd_keeps a v s : keeps_pages s (wrd a v s).
Proof using. apply machine_keeps. Qed.
Lemma SetupVCPI_keeps s : emm_handles s <> [] -> exists s', SetupVCPI s = ok s' /\ keeps_pages s s'.
Proof using.
  intros Hne. destruct (emm_handles s) as [|h l] eqn:El; [done|]. assert (get (emm_handles s) 0 = Some h) as Hh by by rewrite El.
  rewrite (setup_spec s h Hh). eexists. split; [reflexivity|].
  unfold setup_tables. generalize (0x68 + 0x200)%nat, 0x100%nat. intros n k. do 3 (etrans; [|apply wrd_keeps]).
  etrans; [|apply clear_tss_keeps]. etrans; [|apply idt_keeps]. etrans; [|apply dwords_keeps].
  etrans; [|apply dwords_keeps]. apply vcpi_keeps.
Qed.
Lemma monitor_keeps area callback s : keeps_pages s (monitor_code area callback s).
Proof using. unfold monitor_code. chain. Qed.
Lemma type_keeps t s : keeps_pages s (set_type t s).
Proof using. split; [done..|]. by intros [T1 T2 T3 T4]. Qed.

(** After the tables are cleared no handle has a block. *)
Lemma clear_tables_inv others s :
  ems_typed s -> owned (mhandles s) others -> XMS_START <= npages (mhandles s) < 0x3fffc ->
  ems_inv (replicate 200 []) others (clear_tables s).
Proof using.
  intros [T1 T2 T3 T4] Ho Hr. split; [split|..].
  - unfold clear_tables. cbn [emm_handles set_segmentmappings set_mappings set_handles]. by rewrite length_map.
  - unfold clear_tables. cbn [emm_handles set_segmentmappings set_mappings set_handles].
    rewrite Forall_map. revert T2. apply Forall_impl. by intros h [_ ?].
  - reflexivity.
  - reflexivity.
  - unfold clear_tables. cbn [emm_handles set_segmentmappings set_mappings set_handles].
    rewrite <- T1. clear. induction (emm_handles s) as [|h l IH]; [constructor|]. constructor; [by split|exact IH].
  - replace (real_blocks (replicate 200 [])) with ([] : list (list Z)) by (vm_compute; reflexivity). exact Ho.
  - exact Hr.
Qed.
Lemma get_fresh s h : get (emm_handles (clear_tables s)) 0 = Some h -> pages h = NULL_HANDLE.
Proof using.
  unfold clear_tables. cbn [emm_handles set_segmentmappings set_mappings set_handles].
  destruct (emm_handles s) as [|h0 l]; [done|]. by intros [= <-].
Qed.
Lemma system_handle_holds others s :
  holds others s -> (exists h, get (emm_handles s) 0 = Some h /\ pages h = NULL_HANDLE) ->
  if overruns (mhandles s) 96 then EMM_AllocateSystemHandle 24 s = err OutOfBounds else
  exists r s', EMM_AllocateSystemHandle 24 s = ok (r, s') /\ holds others s'.
Proof using.
  intros (bl & Hi) (h & Hh & Hp). unfold EMM_AllocateSystemHandle.
  destruct (get_free_pages s <? 24) eqn:Ef.
  { rewrite overruns_room by (apply Z.ltb_lt in Ef; unfold get_free_pages, MaxPages, EMM_MAX_PHYS in Ef; zlia).
    exists EMM_OUT_OF_LOG, s. split; [done|]. by exists bl. }
  apply free_pages_room in Ef as [Hroom _]; [|lia].
  change EMM_SYSTEM_HANDLE with 0. rewrite (read_get _ _ _ Hh). cbn [exec_bind]. rewrite Hp. cbn [Z.eqb Pos.eqb negb exec_bind NULL_HANDLE].
  destruct (ems_at _ _ _ _ _ Hi Hh) as (c0 & Hc0 & _ & Hheld). unfold no_pages in Hheld. rewrite Hp, orb_true_r in Hheld. subst c0.
  destruct (ems_split _ _ _ _ _ Hi Hc0) as (rest & Ho & Hperm).
  pose proof (allocate_block bl others s 24 Hi ltac:(lia) Hroom rest Ho) as Hb. change (4 * 24) with 96 in Hb.
  destruct (overruns (mhandles s) 96); [by rewrite Hb|].
  destruct Hb as (mh' & c & E & Hnp & Hl & Hz & Hne & Hown & _). rewrite E. cbn [exec_bind].
  rewrite (proj2 (Z.eqb_neq (hd 0 c) 0)) by done.
  pose proof (typed_at _ _ _ (ems_types _ _ _ Hi) Hh) as Hty.
  assert (ems_held (with_pages 24 (hd 0 c) h) c) as Hheld by (apply held_block; [unfold NULL_HANDLE; lia|done..]).
  destruct (take_block bl others s 0 (with_pages 24 (hd 0 c) h) c rest mh' Hi ltac:(lia) Hperm Hty Hheld Hnp Hown) as (s' & E' & _ & Hi').
  rewrite E'. cbn [exec_bind]. exists EMM_NO_ERROR, s'. split; [done|]. by eexists.
Qed.
(** Starting the manager, whatever memory there is. *)
Lemma start_holds others type callback monitor s :
  ems_typed s -> owned (mhandles s) others -> XMS_START <= npages (mhandles s) < 0x3fffc -> 0 < type ->
  if overruns (mhandles s) 96 then EMS_start type false callback monitor s = err OutOfBounds else
  exists s', EMS_start type false callback monitor s = ok s' /\ holds others s'.
Proof using.
  intros Ht Ho Hr Hty. unfold EMS_start. cbv zeta. destruct (Z.leb_spec type 0); [lia|].
  set (s0 := set_type type _). assert (ems_typed s0) as Ht0 by (destruct Ht; by split).
  pose proof (clear_tables_inv others s0 Ht0 Ho Hr) as Hi. set (s1 := clear_tables s0) in *.
  pose proof (system_handle_holds others s1 ltac:(by eexists)) as Hs. change (mhandles s1) with (mhandles s) in Hs.
  destruct (overruns (mhandles s) 96).
  { rewrite Hs; [done|]. destruct (get_range (emm_handles s1) 0) as [h Hh]; [rewrite (ems_count _ _ _ Hi); lia|].
    exists h. split; [done|]. apply get_fresh in Hh. exact Hh. }
  destruct Hs as (r & s2 & -> & Hs2).
  { destruct (get_range (emm_handles s1) 0) as [h Hh]; [rewrite (ems_count _ _ _ Hi); lia|].
    exists h. split; [done|]. apply get_fresh in Hh. exact Hh. }
  cbn [exec_bind]. destruct (type =? 2); [by eexists|]. set (s3 := set_vcpi _ s2).
  assert (holds others s3) as Hs3 by (eapply holds_keeps; [apply vcpi_keeps|done]).
  destruct (SetupVCPI_keeps s3) as (s4 & -> & K); [destruct Hs3 as (bl & Hb); intros E; pose proof (ems_count _ _ _ Hb) as Hc; by rewrite E in Hc|].
  cbn [exec_bind]. eexists. split; [done|]. eapply holds_keeps; [apply monitor_keeps|]. by eapply holds_keeps.
Qed.
End Life.
