(* ===== verification/EmsTheorems.v ===== *)
(** * The expanded memory manager: theorems and examples

    Allocation, resizing and release on every branch, the invariant over runs of the
    interrupt, and a machine at which the theorems are instantiated. *)
From stdpp Require Import relations.
From S2P Require Import Prelude.
From S2P Require Import Registers.
From S2P Require Import LazyFlags.
From S2P Require Import GuestMemory.
From S2P Require Import PageAlloc.
From S2P Require Import PageSearch.
From S2P Require Import PageBlocks.
From S2P Require Import PageOverrun.
From S2P Require Import PageTheorems.
From S2P Require Import PageHandlers.
From S2P Require Import Paging.
From S2P Require Import PageWalk.
From S2P Require Import PagedAccess.
From S2P Require Import TlbProofs.
From S2P Require Import RealMode.
From S2P Require Import CpuState.
From S2P Require Import CpuProtect.
From S2P Require Import CpuDemo.
From S2P Require Import Ems.
From S2P Require Import EmsVcpi.
From S2P Require Import EmsProofs.
From S2P Require Import EmsInvariant.
From S2P Require Import EmsMapping.
From S2P Require Import EmsServer.
From S2P Require Import EmsLife.
#[local] Open Scope Z_scope.
#[local] Open Scope exec_scope.

Section Theorems.
Context {M : Type} `{ByteMemory M} `{PageMapping M} `{PagingControl M} `{Config} `{PortIO M}.
Implicit Types (s : Ems M) (bl others : list (list Z)).

(** C36.  Allocation on every branch (functions 43h and 5Ah): no pages where that is
    not allowed, not enough free pages, no free handle - reported in this order and
    without any change - or the first free handle gets a block of exactly four free
    4 KiB pages for each page asked for, no other page changes hands, and the invariant
    holds again.  The exception: a request that [overruns] the page table - the runs of
    free pages up to the length of the one at the end of memory do not have it - reads
    behind it.  The call to [E_Exit] is never reached. *)
Theorem ems_allocation bl others s n z :
  ems_inv bl others s -> 0 <= n ->
  if (n =? 0) && negb z then EMM_AllocateMemory n z s = ok (EMM_ZERO_PAGES, None, s) else
  if get_free_pages s <? n then EMM_AllocateMemory n z s = ok (EMM_OUT_OF_LOG, None, s) else
  match first_free_handle (drop 1 (emm_handles s)) 1 with
  | None => EMM_AllocateMemory n z s = ok (EMM_OUT_OF_HANDLES, None, s)
  | Some k => if overruns (mhandles s) (4 * n) then EMM_AllocateMemory n z s = err OutOfBounds else exists s' c, EMM_AllocateMemory n z s = ok (EMM_NO_ERROR, Some k, s') /\
      0 < k < 200 /\ bl !! Z.to_nat k = Some [] /\
      ems_inv (<[Z.to_nat k := c]> bl) others s' /\ Z.of_nat (length c) = 4 * n /\
      (exists h, get (emm_handles s') k = Some h /\ pages h = n) /\
      (forall i, i ∈ c -> get (mhandles s) i = Some 0) /\ (forall i, i ∉ c -> get (mhandles s') i = get (mhandles s) i)
  end.
Proof using. apply allocate_cases. Qed.

(** C37.  Resizing on every branch (function 51h): an invalid handle is reported; a
    handle with pages keeps the first of them - it is cut or grows in place, anywhere in
    free memory, and its pages follow each other in the new block - or the error is
    reported and nothing has changed.  But a handle without pages that is resized to no
    pages, or for which there is no room, ends the emulator: [MEM_AllocatePages] returns
    0 and [E_Exit] is called.  And additional pages that [overruns] the page table read
    behind it. *)
Theorem ems_resize bl others s handle n :
  ems_inv bl others s -> 0 <= handle -> 0 <= n ->
  if negb (ValidHandle handle s) then EMM_ReallocatePages handle n s = ok (EMM_INVALID_HANDLE, s)
  else exists h c, get (emm_handles s) handle = Some h /\ bl !! Z.to_nat handle = Some c /\
  if (pages h =? 0) && ((n =? 0) || (MEM_FreeTotal (mhandles s) <? 4 * n)) then EMM_ReallocatePages handle n s = err Exit
  else if MEM_FreeTotal (mhandles s) <? 4 * (n - pages h) then EMM_ReallocatePages handle n s = ok (EMM_OUT_OF_LOG, s)
  else if overruns (mhandles s) (4 * (n - pages h)) then EMM_ReallocatePages handle n s = err OutOfBounds
  else exists s' c', EMM_ReallocatePages handle n s = ok (EMM_NO_ERROR, s') /\
         ems_inv (<[Z.to_nat handle := c']> bl) others s' /\ Z.of_nat (length c') = 4 * n /\ extends c c'.
Proof using. apply reallocate_cases. Qed.

(** Allocation and release: the handle that an allocation returned can be
    released, and the page entries are then exactly what they were before; the handle is
    free again, or has no pages and keeps its number when it is the system's. *)
Theorem ems_allocate_release bl others s n z k s1 :
  ems_inv bl others s -> 0 <= n -> EMM_AllocateMemory n z s = ok (EMM_NO_ERROR, Some k, s1) ->
  exists s2, EMM_ReleaseMemory k s1 = ok (EMM_NO_ERROR, s2) /\ mhandles s2 = mhandles s /\
    ValidHandle k s2 = false /\ ems_inv bl others s2.
Proof using.
  intros Hi Hn E. pose proof (allocate_cases bl others s n z Hi Hn) as Ha. rewrite E in Ha.
  destruct ((n =? 0) && negb z); [done|]. destruct (get_free_pages s <? n) eqn:Ef; [done|]. destruct (first_free_handle _ 1) as [k'|]; [|done]. destruct (overruns _ _); [done|].
  destruct Ha as (s1' & c & [= <- <-] & Hk & Hbl & Hi1 & Hl & (h & Hh & Hp) & Hfree & Hout).
  apply free_pages_room in Ef as [_ Hmax]; [|done].
  pose proof (valid_usable _ _ _ Hh ltac:(rewrite Hp; unfold MaxPages, NULL_HANDLE in *; lia) (ems_types _ _ _ Hi1)) as Hv.
  pose proof (release_cases _ _ _ k Hi1 ltac:(lia)) as Hr. rewrite Hv in Hr. cbn [negb] in Hr.
  destruct Hr as (s2 & c' & E2 & Hc' & Hi2 & (h2 & Hh2 & Hp2) & Hget). exists s2. split; [done|].
  rewrite list_lookup_insert_eq in Hc' by (by eapply lookup_lt_Some). injection Hc' as <-.
  rewrite list_insert_insert_eq, (list_insert_id bl) in Hi2 by done. split; [|split; [|done]].
  - apply list_eq. intros i. pose proof (Hget (Z.of_nat i)) as Hg. unfold get in Hg. destruct (Z.ltb_spec (Z.of_nat i) 0); [lia|].
    rewrite Nat2Z.id in Hg. rewrite Hg. destruct (decide (Z.of_nat i ∈ c)) as [Hin|Hni].
    + specialize (Hfree _ Hin). unfold get in Hfree. destruct (Z.ltb_spec (Z.of_nat i) 0); [lia|]. by rewrite Nat2Z.id in Hfree.
    + specialize (Hout _ Hni). unfold get in Hout. destruct (Z.ltb_spec (Z.of_nat i) 0); [lia|]. by rewrite Nat2Z.id in Hout.
  - unfold ValidHandle. rewrite Hh2, Hp2. destruct (Z.eqb_spec k 0); [lia|]. rewrite Z.eqb_refl. apply andb_false_r.
Qed.

(** The division in [EMM_MapSegment] rounds towards zero: a segment just below the page
    frame is recorded in the first entry of the frame's table. *)
Lemma segment_rounding segment v s : 0xdc01 <= segment < EMM_PAGEFRAME -> put_segment segment v s = put_mapping 0 v s.
Proof using.
  unfold put_segment, segment_phys_page, EMM_PAGEFRAME. intros Hs. change (0x1000 / EMM_MAX_PHYS) with 0x400.
  assert (Z.quot (segment - 0xE000) 0x400 = 0) as ->; [|done].
  replace (segment - 0xE000) with (- (0xE000 - segment)) by lia. rewrite Z.quot_opp_l by done. rewrite Z.quot_small by lia. done.
Qed.

Lemma concat_vcpi vp others : concat (with_vcpi vp others) = vp ++ concat others.
Proof using. unfold with_vcpi. rewrite concat_app. f_equal. induction vp as [|p vp IH]; [done|]. cbn. by rewrite IH. Qed.

(** C35.  No page is lost or shared, from the constructor on.  Whatever blocks other
    clients have in memory, the constructor returns - unless its request for the system
    handle [overruns] the page table - and after any number of calls of interrupt 67h
    and of the protected mode interface of VCPI, with any program running in between,
    every handle with pages owns a block of four times its number of pages that starts
    at its memory handle, no page is in two blocks, in one of another client or among
    the pages that VCPI handed out, and every other extended page is free.  The
    condition on the calls: VCPI frees only pages that it handed out (it frees what it is
    told).  Memory is below 1 GB. *)
Theorem ems_pages_accounted others type callback monitor s0 :
  ems_typed s0 -> owned (mhandles s0) others -> XMS_START <= npages (mhandles s0) < 0x3fffc -> 0 < type ->
  if overruns (mhandles s0) 96 then EMS_start type false callback monitor s0 = err OutOfBounds else
  exists s1, EMS_start type false callback monitor s0 = ok s1 /\
  forall vp s', rtc ems_step ([], s1) (vp, s') ->
  exists bl, ems_inv bl (with_vcpi vp others) s' /\ NoDup (concat bl ++ vp ++ concat others) /\
    (forall k h, get (emm_handles s') k = Some h -> pages h <> 0 -> pages h <> NULL_HANDLE ->
       exists c, bl !! Z.to_nat k = Some c /\ hmem h = hd 0 c /\ Z.of_nat (length c) = 4 * pages h /\
         seg (mhandles s') (hmem h) c (-1)) /\
    (forall q, XMS_START <= q < npages (mhandles s') -> q ∉ concat bl -> q ∉ vp -> q ∉ concat others -> get (mhandles s') q = Some 0).
Proof using.
  intros Ht Ho0 Hr Hty. pose proof (start_holds others type callback monitor s0 Ht Ho0 Hr Hty) as Hs.
  destruct (overruns (mhandles s0) 96); [done|]. destruct Hs as (s1 & E & Hs). exists s1. split; [done|].
  intros vp s' Hst. destruct (steps_accounted others _ _ Hst Hs) as (bl & Hi). cbn [fst snd] in Hi.
  exists bl. split; [done|]. pose proof (ems_owned _ _ _ Hi) as Ho.
  split; [|split].
  - rewrite <- concat_vcpi, <- (concat_real_blocks bl), <- concat_app. apply Ho.
  - intros k h Hh Hz Hn. destruct (ems_at _ _ _ _ _ Hi Hh) as (c0 & _ & Hp & _).
    destruct (handle_block _ _ _ _ _ Hi Hh Hn ltac:(lia)) as (c & Hc & Hm & Hl & Hsg & _). exists c. by rewrite Hm.
  - intros q Hq Hb Hv Hoth. apply (owned_rest _ _ Ho); [lia| |lia].
    rewrite concat_app, concat_real_blocks, concat_vcpi, !elem_of_app. tauto.
Qed.
End Theorems.

(** ** A manager with one handle

    The system handle without pages, handle 1 with one page, four free pages, and the
    last page with another client. *)
Definition demo_handles : list EMM_Handle :=
  mkHandle 0 0 no_name false (replicate 4 unmapped) :: mkHandle 1 0x110 no_name false (replicate 4 unmapped) ::
  replicate 198 (mkHandle NULL_HANDLE 0 no_name false (replicate 4 unmapped)).
Definition demo_pages : list Z := replicate 0x110 0 ++ [0x111; 0x112; 0x113; -1; 0; 0; 0; 0; -1].
Definition demo_ems {M} (c : CPU M) : Ems M :=
  mkEms c demo_pages 1 demo_handles (replicate 4 unmapped) (replicate 64 unmapped) (mkVcpi false 0 0 0 0 0).
Definition demo_block : list Z := [0x110; 0x111; 0x112; 0x113].
Definition demo_blocks : list (list Z) := [] :: demo_block :: replicate 198 [].
Definition demo_others : list (list Z) := [[0x118]].
Lemma demo_owned : owned demo_pages [demo_block; [0x118]].
Proof.
  split.
  - assert (forall c, c <> [] -> seg demo_pages (hd 0 c) c (-1) -> block demo_pages c) as Hb by (by split).
    constructor; [|constructor; [|constructor]]; (apply Hb; [done|]);
      repeat (split; [reflexivity|]; split; [done|]; eexists; split; [vm_compute; reflexivity|]); reflexivity.
  - apply (bool_decide_unpack _). by vm_compute.
  - by repeat constructor.
  - intros i Hi Hni Hlt. cbn in Hni. rewrite !not_elem_of_cons in Hni. unfold npages, demo_pages, XMS_START in *.
    rewrite length_app, length_replicate in Hlt. cbn in Hlt.
    assert (i = 0x114 \/ i = 0x115 \/ i = 0x116 \/ i = 0x117) as [-> | [-> | [-> | ->]]] by lia; by vm_compute.
Qed.
Lemma demo_inv {M} (c : CPU M) : ems_inv demo_blocks demo_others (demo_ems c).
Proof.
  split.
  - split; try reflexivity. constructor; [by split|]. constructor; [by split|]. apply Forall_replicate. by split.
  - constructor; [by split|]. constructor; [by split; [|split; [|split]]|]. apply Forall2_replicate. by split.
  - change (owned demo_pages (real_blocks demo_blocks ++ demo_others)).
    replace (real_blocks demo_blocks ++ demo_others) with [demo_block; [0x118]] by (vm_compute; reflexivity). apply demo_owned.
  - by vm_compute.
Qed.
#[export] Instance plain_mapping : PageMapping Plain := { map_linear _ _ m := ok m; clear_tlb m := m }.
#[export] Instance plain_ports : PortIO Plain := {
  IO_ReadB _ m := (0xff, m); IO_ReadW _ m := (0xffff, m); IO_WriteB _ _ m := m; IO_WriteW _ _ m := m }.
Definition demo_plain : Ems Plain := demo_ems demo_kernel.

Lemma ems_allocation_witness :
  exists s' c, EMM_AllocateMemory 1 false demo_plain = ok (EMM_NO_ERROR, Some 2, s') /\ Z.of_nat (length c) = 4 /\
    forall i, i ∈ c -> get demo_pages i = Some 0.
Proof.
  pose proof (ems_allocation demo_blocks demo_others demo_plain 1 false (demo_inv _) ltac:(lia)) as Ha.
  assert ((get_free_pages demo_plain <? 1) = false) as E1 by (vm_compute; reflexivity).
  assert (first_free_handle (drop 1 (emm_handles demo_plain)) 1 = Some 2) as E2 by (vm_compute; reflexivity).
  assert (overruns (mhandles demo_plain) (4 * 1) = false) as E3 by (vm_compute; reflexivity).
  rewrite E1, E2, E3 in Ha. cbn [Z.eqb Pos.eqb andb] in Ha. destruct Ha as (s' & c & H1 & _ & _ & _ & H2 & _ & H3 & _).
  exists s', c. split; [exact H1|]. split; [exact H2|exact H3].
Defined.
Lemma ems_resize_witness :
  EMM_ReallocatePages 0 0 demo_plain = err Exit /\
  exists s' c, EMM_ReallocatePages 1 2 demo_plain = ok (EMM_NO_ERROR, s') /\ Z.of_nat (length c) = 8 /\ extends demo_block c.
Proof.
  split.
  - pose proof (ems_resize demo_blocks demo_others demo_plain 0 0 (demo_inv _) ltac:(lia) ltac:(lia)) as Hr.
    assert (ValidHandle 0 demo_plain = true) as Ev by (vm_compute; reflexivity). rewrite Ev in Hr. cbn [negb] in Hr.
    destruct Hr as (h & c & [= <-] & _ & Hr). exact Hr.
  - pose proof (ems_resize demo_blocks demo_others demo_plain 1 2 (demo_inv _) ltac:(lia) ltac:(lia)) as Hr.
    assert (ValidHandle 1 demo_plain = true) as Ev by (vm_compute; reflexivity). rewrite Ev in Hr. cbn [negb] in Hr.
    destruct Hr as (h & c & [= <-] & [= <-] & Hr). cbn [pages Z.eqb andb] in Hr.
    assert ((MEM_FreeTotal (mhandles demo_plain) <? 4 * (2 - 1)) = false) as Ef by (vm_compute; reflexivity). rewrite Ef in Hr.
    assert (overruns (mhandles demo_plain) (4 * (2 - 1)) = false) as Eo by (vm_compute; reflexivity). rewrite Eo in Hr.
    destruct Hr as (s' & c' & H1 & _ & H2 & H3). exists s', c'. split; [exact H1|]. split; [exact H2|exact H3].
Defined.
Lemma demo_allocation : exists s1, EMM_AllocateMemory 1 false demo_plain = ok (EMM_NO_ERROR, Some 2, s1).
Proof.
  pose proof (allocate_cases demo_blocks demo_others demo_plain 1 false (demo_inv _) ltac:(lia)) as Ha.
  assert ((get_free_pages demo_plain <? 1) = false) as E1 by (vm_compute; reflexivity).
  assert (first_free_handle (drop 1 (emm_handles demo_plain)) 1 = Some 2) as E2 by (vm_compute; reflexivity).
  assert (overruns (mhandles demo_plain) (4 * 1) = false) as E3 by (vm_compute; reflexivity).
  rewrite E1, E2, E3 in Ha. destruct Ha as (s' & _ & H1 & _). by exists s'.
Qed.
Lemma ems_allocate_release_witness :
  exists s1 s2, EMM_AllocateMemory 1 false demo_plain = ok (EMM_NO_ERROR, Some 2, s1) /\
    EMM_ReleaseMemory 2 s1 = ok (EMM_NO_ERROR, s2) /\ mhandles s2 = demo_pages /\ ValidHandle 2 s2 = false.
Proof.
  destruct demo_allocation as [s1 E]. destruct (ems_allocate_release demo_blocks demo_others demo_plain 1 false 2 s1 (demo_inv _) ltac:(lia) E)
    as (s2 & H1 & H2 & H3 & _). exists s1, s2. split; [exact E|]. split; [exact H1|]. split; [exact H2|exact H3].
Defined.

(** ** The life of a manager: all of 200 pages above the first megabyte free, and then
    function 43h for one page *)
Definition fresh_ems : Ems Plain :=
  mkEms demo_kernel (replicate (0x110 + 200) 0) 0 (replicate 200 static_handle) (replicate 4 (mkMapping 0 0))
    (replicate 64 (mkMapping 0 0)) (mkVcpi false 0 0 0 0 0).
Definition call_43h (c : CPU Plain) : CPU Plain := set_regs (fun r => set_eax 0x4300 (set_ebx 1 r)) c.
Definition called (s : Ems Plain) : bool :=
  match get (emm_handles s) 1 with Some h => (pages h =? 1) && (hmem h =? 0x170) | None => false end.
Lemma fresh_owned : owned (mhandles fresh_ems) [].
Proof.
  split; [constructor|constructor|constructor|]. intros i Hi _ Hlt. unfold get. destruct (Z.ltb_spec i 0); [plia|].
  apply lookup_replicate_2. unfold npages in Hlt. cbn [mhandles fresh_ems] in Hlt. rewrite length_replicate in Hlt. lia.
Qed.
Lemma fresh_overruns : overruns (mhandles fresh_ems) 96 = false.
Proof.
  apply overruns_tail_longest; [by vm_compute|]. intros a k Hr. pose proof (interval_end _ _ _ (proj1 Hr)) as He.
  assert (tail_free (mhandles fresh_ems) = 200) as -> by (vm_compute; reflexivity).
  destruct Hr as ((Ha & _) & _). change (npages (mhandles fresh_ems)) with 472 in He. unfold XMS_START in Ha. lia.
Qed.
Lemma demo_called : match EMS_start 1 false 8 9 fresh_ems with
  | ok s1 => match INT67_Handler 0 (on_machine call_43h s1) with ok s2 => called s2 | err _ => false end
  | err _ => false end = true.
Proof. vm_compute. reflexivity. Qed.
Lemma ems_pages_accounted_witness :
  exists s1 s2 c, EMS_start 1 false 8 9 fresh_ems = ok s1 /\ INT67_Handler 0 (on_machine call_43h s1) = ok s2 /\
    seg (mhandles s2) 0x170 c (-1) /\ Z.of_nat (length c) = 4.
Proof.
  pose proof (ems_pages_accounted [] 1 8 9 fresh_ems) as Ha. rewrite fresh_overruns in Ha.
  destruct Ha as (s1 & E & Hk); [by split; [|apply Forall_replicate; by split|..]|exact fresh_owned|by split|reflexivity|].
  pose proof demo_called as Hc. rewrite E in Hc. destruct (INT67_Handler 0 (on_machine call_43h s1)) as [s2|] eqn:E2; [|discriminate Hc].
  unfold called in Hc. destruct (get (emm_handles s2) 1) as [h|] eqn:Hh; [|discriminate Hc].
  apply andb_prop in Hc as [Hp%Z.eqb_eq Hm%Z.eqb_eq].
  destruct (Hk [] s2) as (bl & _ & _ & Hb & _).
  { eapply rtc_l; [apply (step_program call_43h)|]. eapply rtc_once, step_int67; [|exact E2]. intros [Hd _]. revert Hd. clear. discriminate. }
  destruct (Hb 1 h Hh ltac:(rewrite Hp; discriminate) ltac:(rewrite Hp; discriminate)) as (c & _ & _ & Hl & Hs).
  rewrite Hm in Hs. rewrite Hp in Hl. exists s1, s2, c. split; [exact E|]. split; [exact E2|]. split; [exact Hs|exact Hl].
Defined.

(** ** A machine with its page map, and RAM whose bytes are their page numbers *)
Definition ems_machine : Machine unit :=
  mkMachine (fun a => a / 4096)
    (mkMemory (replicate 0x119 ram_page_handler) [] 0 0 0 illegal_page_handler illegal_page_handler false 0)
    (paging real_machine) (cpu real_machine) tt.
Lemma ems_machine_real : real_mode ems_machine.
Proof.
  split; [done|reflexivity|apply (rm_pages _ real_machine_ok)| |intros page _; by left].
  intros q Hq. unfold MEM_GetPageHandler. cbn [memory ems_machine phandlers]. rewrite length_replicate.
  destruct (Z.ltb_spec q (Z.of_nat 0x119)).
  - exists ram_page_handler. split; [|done]. apply read_get. unfold get. destruct (Z.ltb_spec q 0); [lia|]. apply lookup_replicate_2. lia.
  - exists illegal_page_handler. split; [|done]. cbv zeta.
    repeat match goal with |- (if ?b then _ else _) = _ => destruct b; [done|] end. done.
Qed.
Lemma ems_machine_direct page : direct page ems_machine = page.
Proof.
  unfold direct. destruct (Z.ltb_spec page LINK_START); [|done].
  destruct (get (firstmb (paging ems_machine)) page) as [q|] eqn:E; [|done]. by apply get_seqZ in E as [-> _].
Qed.
Definition demo_cpu : CPU (Machine unit) :=
  mkCPU (LazyFlags.mkCpu demo_regs (mkLF 0 0 0 t_UNKNOWN 0)) 0 (demo_segs 0 0) 0 3 0 false (mkGDT 0 0 0 0 0) (mkIDT 0 0x3ff)
    (mkStack 0xffff 0xffff0000 false) false (mkHlt 0 0) (mkException 0 0) 1 (replicate 8 0) (replicate 8 0) no_tss 0
    (core_decoder 0) 3000 0 ems_machine.
Definition demo_mapped : Ems (Machine unit) := demo_ems demo_cpu.
Definition demo_handle : EMM_Handle := mkHandle 1 0x110 no_name false (replicate 4 unmapped).

Lemma mapped_page_shown_witness :
  exists s', EMM_MapPage 2 1 0 demo_mapped = ok (EMM_NO_ERROR, s') /\ readb 0xE9005 (guest s') = 0x11 /\
    readb 0xE9005 (guest demo_mapped) = 0xe9.
Proof.
  destruct (mapped_page_shown demo_blocks demo_others demo_mapped 2 1 0 demo_handle (demo_inv _) ems_machine_real)
    as (s' & c & H1 & [= <-] & _ & _ & _ & H2 & _); [lia|reflexivity|discriminate|cbn; lia|].
  exists s'. split; [exact H1|]. split; [|vm_compute; reflexivity].
  change 0xE9005 with (frame_address 2 0x1005). destruct (H2 0x1005) as [H3 _]; [by split|].
  rewrite H3. vm_compute. reflexivity.
Defined.

Lemma demo_frame : frame_shown demo_blocks demo_mapped.
Proof.
  intros ph e He. assert (e = unmapped) as ->.
  { unfold get in He. destruct (ph <? 0); [done|]. by apply lookup_replicate_1 in He as [-> _]. }
  split; [by left|]. intros i Hi. apply ems_machine_direct.
Qed.
Definition demo_saved : Ems (Machine unit) :=
  match EMM_SavePageMap 1 demo_mapped with ok (_, s) => s | err _ => demo_mapped end.
Lemma demo_save : EMM_SavePageMap 1 demo_mapped = ok (EMM_NO_ERROR, demo_saved).
Proof. reflexivity. Qed.
Lemma demo_saved_mapped :
  exists g', EMM_MapPage 2 1 0 demo_saved = ok (EMM_NO_ERROR, set_guest g' (set_mappings (upd (replicate 4 unmapped) 2 (mkMapping 1 0)) demo_saved)) /\
    real_mode g'.
Proof.
  assert (ems_inv demo_blocks demo_others demo_saved) as Hi.
  { eapply keeps_inv; [eapply (SavePageMap_keeps 1 demo_mapped); apply demo_save|apply demo_inv]. }
  destruct (MapPage_put demo_blocks demo_others demo_saved 2 (mkMapping 1 0) Hi ems_machine_real) as (g' & E & R & _); [done| |].
  - right. exists (with_saved true (replicate 4 unmapped) demo_handle). by split; [|split].
  - exists g'. split; [exact E|apply R].
Qed.
Lemma page_map_restored_witness :
  exists s2 s3, EMM_MapPage 2 1 0 demo_saved = ok (EMM_NO_ERROR, s2) /\ EMM_RestorePageMap 1 s2 = ok (EMM_NO_ERROR, s3) /\
    emm_mappings s3 = replicate 4 unmapped /\ direct 0xe9 (guest s3) = 0xe9.
Proof.
  destruct demo_saved_mapped as (g' & E & Hr). set (s2 := set_guest g' _) in E.
  destruct (page_map_restored demo_blocks demo_others demo_mapped demo_saved s2 1 (demo_inv _) demo_frame demo_save)
    as (s3 & H1 & H2 & H3 & _); try reflexivity.
  - split; try reflexivity. constructor; [by split|]. constructor; [by split|]. apply Forall_replicate. by split.
  - split; [reflexivity|]. apply Forall_replicate. discriminate.
  - exact Hr.
  - exists s2, s3. split; [exact E|]. split; [exact H1|]. split; [exact H2|]. rewrite H3; [apply ems_machine_direct|by split].
Defined.

Lemma vcpi_tables_witness :
  exists s', SetupVCPI demo_plain = ok s' /\ gate_leads 0 0x21 (guest s') /\
    mem_unalignedreadd 0x3004 (guest s') = 0x2000.
Proof.
  destruct (vcpi_tables demo_plain (mkHandle 0 0 no_name false (replicate 4 unmapped)) eq_refl) as (s' & H1 & _ & _ & _ & _ & _ & _ & H3 & H2 & _);
    [discriminate..|].
  exists s'. split; [exact H1|]. split; [apply (H3 0x21); lia|exact H2].
Defined.
Lemma start_without_memory_witness :
  exists s', EMS_start 1 false 8 9 demo_plain = ok s' /\ private_area (vcpi s') = 0 /\ mem_unalignedreadd 0 (guest s') = 0.
Proof.
  destruct (start_without_memory 1 8 9 demo_plain) as (s' & H1 & H2 & _ & H3 & _); [reflexivity|discriminate|discriminate|vm_compute; reflexivity|].
  exists s'. split; [exact H1|]. split; [exact H2|exact H3].
Defined.
